(* ===== verification/_CoqProject ===== *)
-Q . S2P
Prelude.v
Bytes.v
Buffers.v
Cp932.v
Unicode.v
Diskio.v
FFTypes.v
Window.v
Fat.v
Bitmap.v
Chain.v
Track.v
Lfn.v
Dir.v
Dirent.v
DirFind.v
Mount.v
File.v
FileData.v
FileRead.v
FileWrite.v
Path.v
PathName.v
PathInfo.v
FollowPath.v
FileApi.v
ApiEntry.v
ReadDir.v
Mkfs.v
MkfsLayout.v
MkfsRecords.v
MkfsWrite.v
MkfsSpec.v
MkfsMount.v
NtfsTypes.v
Mst.v
Runlist.v
RunPairs.v
NtfsDevice.v
RunIo.v
NtfsCompress.v
LzDecode.v
LzSafe.v
LzEncode.v
CompSet.v
UniNames.v
UniOrder.v
Upcase.v
Utf8.v
UtfConv.v
NtfsBitmap.v
BitmapRun.v
NtfsAlloc.v
AllocRuns.v
MaxRange.v
ClusterFree.v
ClusterAlloc.v
AllocLive.v
LruCache.v
LruRep.v
LruHash.v
LruOps.v
LruInvalidate.v
LruSpec.v
LruFailure.v
LruClients.v
Examples.v
ExamplesDir.v
ExamplesVol.v
ExamplesFile.v
ExamplesPath.v
ExamplesNtfs.v
ExamplesComp.v
ExamplesUni.v
ExamplesAlloc.v
ExamplesMkfs.v
ExamplesLru.v
