(* ===== verification/Prelude.v ===== *)
(** * A verification of the file-system core of usbsas

    usbsas copies files between USB devices through a set of sandboxed Rust processes.
    The parts of it that parse and write the devices' file systems are two C drivers
    compiled into the program: FatFs ([src/ff/src/ff/], FAT12, FAT16, FAT32 and exFAT)
    and ntfs-3g ([src/ntfs3g/src/ntfs-3g/]).  FatFs reaches the device through
    [diskio.c] and the Rust callbacks of [src/ff/src/ff_extern.rs].  This library models
    the FatFs driver bottom up, in the configuration of [ffconf.h] (read-write, exFAT,
    long names, UTF-16, code page 932, one volume, 512 to 4096 byte sectors, no locks,
    32-bit sector numbers), and proves what its layers promise to each other.

    ** The files

    - [Prelude]: machine integers as [Z] with explicit wrap-around ([u8], [u16], [u32],
      [u64] and the notations [+u32], [-u32], [*u32]); C arrays as lists read with
      [l.[i]]; the state-and-fuel monad [M S A := S -> option (A * S)], whose [None] is
      "out of fuel", with its total-correctness judgement [post m s Q] ([m] run from [s]
      returns, and [Q] holds then); loops with binary fuel ([iterate]); tactics.
    - [Bytes]: [ld_word] ... [st_qword] of [ff.c]; [Buffers]: stores and reads that fail
      outside of an array.
    - [Cp932], [Unicode]: the conversion tables of [ffunicode.c] for code page 932 and
      the up-case tables, [ff_uni2oem], [ff_oem2uni], [ff_wtoupper]; [dbc_1st],
      [dbc_2nd], [tchar2uni] and [put_utf] of [ff.c].
    - [Diskio]: the class [BlockDevice] of what FatFs calls ([disk_read], [disk_write],
      [disk_ioctl]) and [BlockDeviceLaws] of what it relies on; [ff_disk_read],
      [ff_disk_write] and [ff_disk_ioctl] of [ff_extern.rs] over an object with the
      documented behaviour of [std::io] ([Backend], [BackendLaws]), which implement the
      class when reads do not fail; [Cursor], an executable object used by the examples.
    - [FFTypes]: [FRESULT], [FATFS] and [FFOBJID] of [ff.h]; the state [St] is the
      filesystem object and the device.  A pointer into [win] is an offset.
    - [Window]: [sync_window], [move_window], [sync_fs].
    - [Fat]: [clst2sect], [get_fat], [put_fat].
    - [Bitmap]: [find_bitmap], [change_bitmap].
    - [Chain]: [fill_first_frag], [fill_last_frag], [remove_chain], [create_chain].
    - [Lfn]: [ld_clust], [st_clust], [cmp_lfn], [pick_lfn], [put_lfn], [gen_numname],
      [sum_sfn], [xdir_sum], [xname_sum], [xsum32].
    - [Dir]: the directory object [DIR]; [dir_clear], [dir_sdi], [dir_next], [dir_alloc].
    - [Dirent]: the entries of a directory: the exFAT entry sets ([load_xdir],
      [store_xdir], [create_xdir], ...), [dir_read], [dir_find], [dir_register],
      [dir_remove].
    - [DirFind]: the specification of [dir_find] as a pure scan of the entries.
    - [Track]: reading and changing the FAT moves the window only within the FAT; partial
      correctness ([holds]).
    - [Mount]: [get_ldnumber], [check_fs], [find_volume], [mount_volume], [validate].
    - [File]: the file object [FIL]; [f_read], [f_write], [f_sync], [f_close], [f_lseek],
      [f_truncate].
    - [FileData]: the abstract content [f_byte] of an open file and the invariant
      [file_inv]; [FileRead], [FileWrite]: reading and writing refine it.
    - [Path]: [create_name], [get_fileinfo], [follow_path]; [PathName]: the names that
      [create_name] makes; [PathInfo]: the names that [get_fileinfo] gives back;
      [FollowPath]: the relation [resolve] of a path to a directory entry and the walk.
    - [FileApi]: [f_mount], [f_open], [f_opendir], [f_closedir], [f_readdir], [f_stat],
      [f_getfree], [f_unlink], [f_mkdir], [f_rename], [f_chmod], [f_utime], [f_expand];
      [ApiEntry]: [f_stat], [f_chmod], [f_utime]; [ReadDir]: [f_opendir], [f_readdir].
    - [Mkfs]: [f_mkfs] and [create_partition]; [MkfsLayout]: the layouts of FAT volumes it
      chooses; [MkfsRecords]: the boot record and the partition table, field by field;
      [MkfsWrite]: what is on the medium then; [MkfsSpec]: [f_mkfs] as a whole; [MkfsMount]:
      [mount_volume] of what it has made.
    - ntfs-3g: [NtfsTypes]: [errno], 64-bit signed integers, buffers.  [Mst]: the fixups of
      [mst.c].  [Runlist]: [runlist.c]; [RunPairs]: its encoding as mapping pairs.
      [NtfsDevice]: the transfers of [device.c] and [ntfs_rl_pread], [ntfs_rl_pwrite] over
      the class [DevOps] of the operations of a device, with its laws [DevLaws]; [RunIo]:
      what they do to the bytes of an attribute.
    - [NtfsCompress]: [ntfs_best_match], [ntfs_compress_block] and [ntfs_decompress] of
      [compress.c]; [LzDecode]: the meaning of a token stream and that decompression
      computes it; [LzSafe]: decompression of arbitrary data; [LzEncode]: the compressor
      writes such a stream; [CompSet]: [read_clusters], [write_clusters], [ntfs_comp_set],
      [valid_compressed_run], and the round trip.
    - [UniNames]: names, case tables and collation of [unistr.c] and [collate.c];
      [UniOrder]: the order of names; [Upcase]: the default tables and the reserved names;
      [Utf8]: the conversions of [unistr.c]; [UtfConv]: their round trip and bounds.
    - [NtfsBitmap]: [bitmap.c] over the class [AttrOps] of the transfers of an attribute,
      with its laws [AttrLaws]; [BitmapRun]: the bits it changes.  [NtfsAlloc]:
      [lcnalloc.c], with the members of [ntfs_volume] it uses ([lcn_volume]); [AllocRuns]:
      the clusters of a runlist; [MaxRange]: the longest free run; [ClusterFree],
      [ClusterAlloc]: what freeing and allocation do to the bitmap; [AllocLive]: that a
      free cluster is found.
    - [LruCache]: [cache.c], on records and hash links as maps from pointers; [LruRep]: linked
      lists in such maps; [LruHash], [LruOps], [LruInvalidate]: the operations on the hash
      table and on the list of the records; [LruSpec]: the class [CacheClient] of what a
      client gives to its cache with the laws [CacheClientLaws], the abstract cache, and the
      refinement; [LruFailure]: what a refused allocation does to the list; [LruClients]: the
      clients in [dir.c] and [inode.c].
    - [Examples], [ExamplesDir], [ExamplesVol], [ExamplesFile], [ExamplesPath],
      [ExamplesNtfs], [ExamplesComp], [ExamplesUni], [ExamplesAlloc], [ExamplesMkfs],
      [ExamplesLru]: concrete volumes, names, directories, boot sectors, files, paths,
      runlists, blocks, bitmaps and caches on which the definitions run and the theorems
      apply.

    ** How the code is rendered

    A function keeps its name.  A C function that reads or writes the filesystem object
    or the disk is a computation of the monad over [St]; an object passed by pointer
    ([FFOBJID*], [DIR*]) is an argument and a result.  A loop is a [Fixpoint] on the
    number of rounds or an [iterate], named after its function; its body is the loop
    body.  Early returns are the branches of the conditionals in source order.  Error
    codes are values of [FRESULT], or the reserved cluster numbers the code uses (0, 1,
    0xFFFFFFFF).

    ** What the theorems show

    - The window is a transparent cache: [vol s x] is the content of sector [x] as the
      driver sees it, through the window if it is dirty; [vol_eq] relates states that
      show the same volume.  Moving the window keeps the view, also when the disk fails;
      flushing makes the medium equal to the view, [sync_fs] makes that durable.  The
      second copy of the FAT ([mirror]) is not part of the view.
    - The table: [fat_entry s c] is the entry of the FAT decoded from the view.
      [get_fat] reads it and [put_fat] updates it alone, in all four formats, including
      12-bit entries that straddle two sectors; numbers outside the volume are refused.
    - Chains: [remove_chain] terminates on every table, cyclic ones included, and on a
      well-formed chain frees exactly its clusters; [create_chain] hands out a cluster
      that was free, keeps all other entries and preserves well-formed chains.
    - The exFAT bitmap: [find_bitmap] and [change_bitmap] on the bits of the view.
    - Names: case conversion, code page and UTF-16 conversions are inverse where they
      should be; long names survive their split into directory entries; the entries
      match exactly the names equal up to case; no entry content makes the code leave
      the 256 units of the name buffer.
    - Directory tables: a directory object only ever points at an entry of the root or
      data area, whatever the medium holds; stepping and seeking agree; clearing a
      cluster zeroes it and nothing else.
    - Entries: [dir_find] is the scan of the entries of the table as a list, whatever
      the medium holds, and finds a long name under exactly the names equal up to case.
    - Mounting terminates on every medium, writes nothing, and establishes [fs_inv] and
      [vol_geom] when the sizes of the boot sector add up in 32 bits; an example shows
      that the code does not check that they do.
    - Files: [f_byte s fp i] is byte [i] of an open file, through the links of the FAT and
      the sector cache of the file object.  [f_read] delivers these bytes on every FAT;
      [f_write] replaces those at the pointer, allocates only free clusters and leaves
      other files alone, on a file whose chain is well formed ([file_chain]).
    - Paths: [create_name] accepts exactly the well-formed names and the name comes back
      from the entry that is made of it, the case of its letters included; [follow_path]
      computes [resolve] on every FAT volume, cyclic trees and broken chains included,
      without a change to it; it fails with a disk error only if a transfer of the device
      can fail ([faultless]).  [f_stat] reports the entry the path resolves to, [f_chmod] and [f_utime] change
      one field of it on the medium and nothing else, [f_opendir] and [f_readdir] list the
      visible entries of the directory in order.
    - NTFS records: protection and its removal are inverse, and a write that was cut short
      is always noticed.  Runlists: building mapping pairs and reading them is a round trip
      in exactly the space computed; [ntfs_rl_pread] and [ntfs_rl_pwrite] read and write
      the bytes the runlist maps ([attr_byte]) from any element on, on a device without errors; an example shows
      what a partial transfer does.
    - Compression: a set of blocks that [ntfs_comp_set] compresses is decompressed to the
      same bytes, and compressing changes nothing behind the buffer allocated for it; on
      hostile data [ntfs_decompress] terminates and writes at most one byte
      behind its buffer, and an example shows that it does.
    - Unicode: names of NTFS survive the conversion to UTF-8 and back (broken surrogates
      too, by [ucstombs_units]), and arbitrary bytes never leave the buffer; the collation is a total order;
      the default case tables are inverse of each other, the final sigma aside; the hashed check for reserved
      names misses none.
    - Bitmaps and allocation: a run of bits is changed exactly, and nothing outside of it
      even if a transfer fails; [ntfs_cluster_alloc] returns with different clusters that
      were free, marks exactly these, gives all back when it fails, and finds the only free
      cluster of a volume; freeing undoes an allocation.  Examples show when it gives up
      although clusters are free.
    - Volume creation: what [f_mkfs] makes and reports as a success is mounted as an empty
      FAT volume within the drive, for alignments up to 16 sectors, if reads do not fail, and
      nothing behind the drive is written; an example with a large alignment makes a volume that is not mounted.
    - Caches: under every sequence of calls the linked records behave like a bounded list in
      the order of use, without a bad pointer, a double free or an endless loop, if memory is
      granted; [enter_failure_cycle] shows that the list becomes cyclic if it is not.
    The theorems on the code quantify over every device that satisfies
    [BlockDeviceLaws], hence over every content of the medium and every pattern of disk
    errors.  [fs_inv] (window and FAT geometry) and [vol_geom] (data and root areas) are
    the facts about the filesystem object that mounting a volume establishes ([Mount]).

    ** Bounds and fuel

    Every loop has a bound that is proved sufficient, in the [post] of its function:
    following a chain in [remove_chain] takes at most one round per cluster of the
    volume, because each round frees an entry; the search for a free cluster visits each
    cluster once; [dir_sdi] takes [ofs / csz] rounds, bounded by the largest table of
    2^16 entries (2^23 on exFAT); the scans of the up-case and code-page tables are
    bounded by the tables; [find_layout] of [f_mkfs] takes at most four rounds of its eight;
    the loops of the caches take one round per record or link.  The numbers of rounds of the loops over table entries are
    binary ([iterate]), so that generous bounds cost nothing.

    ** What is not modelled

    In FatFs: [f_fdisk], which is compiled out.  The functions of [FileApi] other than the
    ones named above are modelled and run in the examples, without theorems of their own; the
    creation of exFAT volumes is modelled without theorems; the theorems on directories,
    files and [f_mkfs] are about FAT12, FAT16 and FAT32 volumes.  In ntfs-3g: the attribute engine ([attrib.c],
    [mft.c], [inode.c]) and what is built on it ([index.c], [dir.c], [volume.c],
    [security.c], [mkntfs.c], ...), which work on MFT records through pointers into them; the
    parts that are modelled take the transfers of an attribute as a parameter with laws.
    Overflow of signed integers, undefined in C, wraps around in the model.

    [ffsystem.c] is [malloc] and [free]: whether an allocation succeeds is the parameter
    [Heap] of the functions that allocate.  The Rust processes of usbsas and the clients
    are not modelled. *)
From stdpp Require Import prelude list gmap.
From Stdlib Require Import ZArith Lia.

Local Open Scope Z_scope.

(** ** Machine integers

    A [BYTE], [WORD], [DWORD] or [QWORD] is a [Z]; an operation of the C code
    whose result is stored in one of these types is followed by the wrap-around
    of that type. *)

Declare Scope cint_scope.
Delimit Scope cint_scope with cint.

Definition u8 (x : Z) : Z := x mod 2 ^ 8.
Definition u16 (x : Z) : Z := x mod 2 ^ 16.
Definition u32 (x : Z) : Z := x mod 2 ^ 32.
Definition u64 (x : Z) : Z := x mod 2 ^ 64.

Notation "x +u32 y" := (u32 (x + y)) (at level 50, left associativity) : cint_scope.
Notation "x -u32 y" := (u32 (x - y)) (at level 50, left associativity) : cint_scope.
Notation "x *u32 y" := (u32 (x * y)) (at level 40, left associativity) : cint_scope.

Definition is_u8 (x : Z) : Prop := 0 <= x < 2 ^ 8.
Definition is_u16 (x : Z) : Prop := 0 <= x < 2 ^ 16.
Definition is_u32 (x : Z) : Prop := 0 <= x < 2 ^ 32.

Create HintDb ff.
Create Rewrite HintDb ff.

Lemma u8_range x : is_u8 (u8 x).
Proof. by apply Z.mod_pos_bound. Qed.
Lemma u16_range x : is_u16 (u16 x).
Proof. by apply Z.mod_pos_bound. Qed.
Lemma u32_range x : is_u32 (u32 x).
Proof. by apply Z.mod_pos_bound. Qed.

Lemma u8_small x : is_u8 x -> u8 x = x.
Proof. apply Z.mod_small. Qed.
Lemma u16_small x : is_u16 x -> u16 x = x.
Proof. apply Z.mod_small. Qed.
Lemma u32_small x : is_u32 x -> u32 x = x.
Proof. apply Z.mod_small. Qed.

#[export] Hint Resolve u8_range u16_range u32_range : ff.

Global Instance is_u8_dec x : Decision (is_u8 x).
Proof. unfold is_u8. apply _. Defined.

(** Arithmetic with division and remainder, once the machine types are unfolded. *)
Ltac unfold_ints := unfold u8, u16, u32, u64, is_u8, is_u16, is_u32 in *.
Ltac zdm := unfold_ints; Z.div_mod_to_equations; nia.
Ltac zlia := unfold_ints; Z.div_mod_to_equations; lia.
Ltac wrap32 := rewrite ?u32_small by (unfold is_u32 in *; lia).

(** Offsets [Z.of_nat n] of literals. *)
Ltac simpl_of_nat :=
  cbn [Nat.sub];
  change (Z.of_nat 0) with 0; change (Z.of_nat 1) with 1; change (Z.of_nat 2) with 2;
  change (Z.of_nat 3) with 3.

(** Boolean tests of the code against the propositions they decide. *)
Ltac bdestr_in e :=
  let H := fresh "Hb" in
  destruct e eqn:H;
  rewrite ?andb_true_iff, ?andb_false_iff, ?orb_true_iff, ?orb_false_iff,
    ?negb_true_iff, ?negb_false_iff, ?Z.eqb_eq, ?Z.eqb_neq, ?Z.ltb_lt,
    ?Z.ltb_ge, ?Z.leb_le, ?Z.leb_gt in H.
Ltac bdestr :=
  match goal with
  | |- context [if ?e then _ else _] => bdestr_in e
  end.
Ltac bprop :=
  rewrite ?andb_true_iff, ?andb_false_iff, ?orb_true_iff, ?orb_false_iff,
    ?negb_true_iff, ?negb_false_iff, ?Z.eqb_eq, ?Z.eqb_neq, ?Z.ltb_lt,
    ?Z.ltb_ge, ?Z.leb_le, ?Z.leb_gt in *.

(** ** Byte buffers

    A C array is a list; [l .[ i ]] reads an element.  A read past the end gives
    0 and a write past the end changes nothing: the theorems on the windows show
    that the indices the code computes are in range. *)

Definition getb (l : list Z) (i : Z) : Z := nth (Z.to_nat i) l 0.
Definition setb (l : list Z) (i v : Z) : list Z := <[Z.to_nat i := v]> l.
Notation "l .[ i ]" := (getb l i) (at level 1, left associativity, format "l .[ i ]").

Definition zlen {A} (l : list A) : Z := Z.of_nat (length l).

Lemma zlen_app {A} (l k : list A) : zlen (l ++ k) = zlen l + zlen k.
Proof. unfold zlen. rewrite length_app. lia. Qed.

Lemma zlen_cons {A} (a : A) l : zlen (a :: l) = 1 + zlen l.
Proof. unfold zlen. cbn [length]. lia. Qed.

Lemma zlen_nonneg {A} (l : list A) : 0 <= zlen l.
Proof. unfold zlen. lia. Qed.

(** [memcpy (dst, src, length src)] for a destination at the start of [dst]. *)
Definition overlay (src dst : list Z) : list Z := src ++ drop (length src) dst.

(** [sub l i n] is the [n] elements of [l] from index [i]. *)
Definition sub (l : list Z) (i n : Z) : list Z := take (Z.to_nat n) (drop (Z.to_nat i) l).

Definition bytes (l : list Z) : Prop := Forall is_u8 l.

(** [n] elements that are 0. *)
Definition zeros (n : Z) : list Z := replicate (Z.to_nat n) 0.

Lemma zlen_zeros n : 0 <= n -> zlen (zeros n) = n.
Proof. intros Hn. unfold zlen, zeros. rewrite length_replicate. lia. Qed.

Lemma getb_zeros n j : (zeros n).[j] = 0.
Proof.
  unfold getb, zeros. rewrite nth_lookup. destruct (decide (Z.to_nat j < Z.to_nat n)%nat).
  - by rewrite lookup_replicate_2.
  - rewrite lookup_ge_None_2; [done|]. rewrite length_replicate. lia.
Qed.

Lemma getb_lookup l i v : 0 <= i -> l !! Z.to_nat i = Some v -> l.[i] = v.
Proof. intros _ H. unfold getb. by apply nth_lookup_Some. Qed.

Lemma getb_cons_0 a l : (a :: l).[0] = a.
Proof. done. Qed.

Lemma length_setb l i v : length (setb l i v) = length l.
Proof. apply length_insert. Qed.

Lemma getb_setb_eq l i v : 0 <= i < zlen l -> (setb l i v).[i] = v.
Proof.
  intros Hi. unfold zlen in Hi. apply nth_lookup_Some.
  apply list_lookup_insert_eq. lia.
Qed.

Lemma getb_setb_ne l i j v : 0 <= i -> 0 <= j -> i <> j -> (setb l i v).[j] = l.[j].
Proof.
  intros. unfold getb, setb. rewrite !nth_lookup.
  rewrite list_lookup_insert_ne; [done | lia].
Qed.

Lemma getb_bytes l i : bytes l -> is_u8 l.[i].
Proof.
  intros H. unfold getb. rewrite nth_lookup.
  destruct (l !! Z.to_nat i) eqn:E; simpl.
  - by eapply Forall_lookup_1 in E.
  - unfold is_u8. lia.
Qed.

Lemma bytes_setb l i v : bytes l -> is_u8 v -> bytes (setb l i v).
Proof. intros. by apply Forall_insert. Qed.

Lemma getb_sub l i n j : 0 <= i -> 0 <= j < n -> (sub l i n).[j] = l.[i + j].
Proof.
  intros Hi Hj. unfold getb, sub. rewrite !nth_lookup, lookup_take_lt, lookup_drop by lia.
  do 2 f_equal. lia.
Qed.

Lemma getb_take l i n : 0 <= i < n -> (take (Z.to_nat n) l).[i] = l.[i].
Proof.
  intros. unfold getb. rewrite !nth_lookup, lookup_take_lt; [done | lia].
Qed.

Lemma take_setb l i v n :
  0 <= i -> take (Z.to_nat n) (setb l i v) = setb (take (Z.to_nat n) l) i v.
Proof.
  intros. unfold setb. destruct (decide (i < n)).
  - rewrite take_insert_lt by lia. done.
  - rewrite take_insert_ge by lia. rewrite list_insert_ge; [done|].
    rewrite length_take. lia.
Qed.

(** [memcpy (dst + i, src, length src)] *)
Definition blit (dst : list Z) (i : Z) (src : list Z) : list Z :=
  take (Z.to_nat i) dst ++ src ++ drop (Z.to_nat i + length src) dst.

Lemma length_blit dst i src :
  0 <= i -> i + zlen src <= zlen dst -> length (blit dst i src) = length dst.
Proof.
  intros Hi Hl. unfold blit, zlen in *. rewrite !length_app, length_take, length_drop. lia.
Qed.

Lemma getb_blit dst i src j :
  0 <= i -> i + zlen src <= zlen dst -> 0 <= j ->
  (blit dst i src).[j] = if (i <=? j) && (j <? i + zlen src) then src.[j - i] else dst.[j].
Proof.
  intros Hi Hl Hj. unfold blit, getb, zlen in *.
  destruct (Z.leb_spec i j); cbn [andb].
  - rewrite app_nth2 by (rewrite length_take; lia). rewrite length_take.
    destruct (Z.ltb_spec j (i + Z.of_nat (length src))).
    + rewrite app_nth1 by lia. f_equal. lia.
    + rewrite app_nth2, !nth_lookup, lookup_drop by lia. do 2 f_equal. lia.
  - rewrite app_nth1 by (rewrite length_take; lia). by rewrite !nth_lookup, lookup_take_lt by lia.
Qed.

Lemma bytes_blit dst i src : bytes dst -> bytes src -> bytes (blit dst i src).
Proof.
  intros Hd Hs. unfold blit, bytes. rewrite !Forall_app.
  split_and!; [by apply Forall_take|done|by apply Forall_drop].
Qed.

Lemma length_overlay src dst :
  (length src <= length dst)%nat -> length (overlay src dst) = length dst.
Proof. intros. unfold overlay. rewrite length_app, length_drop. lia. Qed.

Lemma take_overlay src dst n :
  length src = n -> take n (overlay src dst) = src.
Proof. intros <-. unfold overlay. apply take_app_length. Qed.

Lemma bytes_overlay src dst : bytes src -> bytes dst -> bytes (overlay src dst).
Proof. intros. apply Forall_app. split; [done|]. by apply Forall_drop. Qed.

#[export] Hint Resolve getb_bytes bytes_setb bytes_overlay : ff.
#[export] Hint Rewrite length_setb : ff.

(** ** The state monad of the C functions

    A C function that works on a store is a function from the store to its result
    and the store it leaves.  [None] means that a loop has used up the number of
    iterations the model allows it; it is no error code of the program, and the
    total post-condition [post] below is false of it, so that every theorem stated
    with [post] includes termination. *)

Definition M (S A : Type) : Type := S -> option (A * S).

Global Instance M_ret S : MRet (M S) := fun A a s => Some (a, s).
Global Instance M_bind S : MBind (M S) := fun A B f m s =>
  match m s with Some (a, s') => f a s' | None => None end.

Definition gets {S A} (f : S -> A) : M S A := fun s => Some (f s, s).
Definition modify {S} (f : S -> S) : M S unit := fun s => Some (tt, f s).
Definition out_of_fuel {S A} : M S A := fun _ => None.

Definition post {S A} (m : M S A) (s : S) (Q : A -> S -> Prop) : Prop :=
  match m s with Some (a, s') => Q a s' | None => False end.

Section post.
Context {S A B : Type}.
Implicit Types (s : S) (m : M S A).

Lemma post_ret a s (Q : A -> S -> Prop) : Q a s -> post (mret a) s Q.
Proof. done. Qed.

Lemma post_bind m (k : A -> M S B) s Q :
  post m s (fun a s' => post (k a) s' Q) -> post (m ≫= k) s Q.
Proof.
  unfold post, mbind, M_bind. by destruct (m s) as [[a s']|].
Qed.

Lemma post_gets (f : S -> A) s Q : Q (f s) s -> post (gets f) s Q.
Proof. done. Qed.

Lemma post_modify (f : S -> S) s Q : Q tt (f s) -> post (modify f) s Q.
Proof. done. Qed.

Lemma post_mono m s (P Q : A -> S -> Prop) :
  post m s P -> (forall a s', P a s' -> Q a s') -> post m s Q.
Proof. unfold post. destruct (m s) as [[a s']|]; [auto | done]. Qed.

Lemma post_conj m s (P Q : A -> S -> Prop) :
  post m s P -> post m s Q -> post m s (fun a s' => P a s' /\ Q a s').
Proof. unfold post. destruct (m s) as [[a s']|]; auto. Qed.

Lemma post_run m s Q : post m s Q -> exists a s', m s = Some (a, s') /\ Q a s'.
Proof. unfold post. destruct (m s) as [[a s']|]; [eauto | done]. Qed.

Lemma post_intro m s a s' (Q : A -> S -> Prop) :
  m s = Some (a, s') -> Q a s' -> post m s Q.
Proof. unfold post. by intros ->. Qed.
End post.

Global Arguments post_mono {S A m s} P {Q} _ _.

(** ** Loops

    [iterate n body a] runs [body] from [a] on until it leaves with a result, at most
    [n] times; [n] is a binary number, so that generous bounds cost nothing. *)
Fixpoint loop_pos {S A B} (n : positive) (body : A -> M S (A + B)) (a : A) : M S (A + B) :=
  match n with
  | xH => body a
  | xO n =>
      r ← loop_pos n body a;
      match r with inl a => loop_pos n body a | inr b => mret (inr b) end
  | xI n =>
      r ← body a;
      match r with
      | inl a =>
          r ← loop_pos n body a;
          match r with inl a => loop_pos n body a | inr b => mret (inr b) end
      | inr b => mret (inr b)
      end
  end.

Definition iterate {S A B} (n : positive) (body : A -> M S (A + B)) (a : A) : M S B :=
  r ← loop_pos n body a;
  match r with inl _ => out_of_fuel | inr b => mret b end.

Section loops.
Context {S A B : Type} (body : A -> M S (A + B)) (I : A -> Z -> S -> Prop) (Q : B -> S -> Prop).

(** Each round leaves the loop or lowers the measure. *)
Hypothesis step : forall a k s, I a k s ->
  post (body a) s (fun r s' =>
    match r with inl a' => exists k', 0 <= k' < k /\ I a' k' s' | inr b => Q b s' end).

Lemma loop_pos_spec n a k s :
  I a k s -> post (loop_pos n body a) s (fun r s' =>
    match r with inl a' => exists k', 0 <= k' <= k - Z.pos n /\ I a' k' s' | inr b => Q b s' end).
Proof.
  revert a k s. induction n as [n IH|n IH|]; intros a k s Hi; cbn [loop_pos].
  - apply post_bind. eapply post_mono; [by apply step|]. intros [a1|b] s1 H1; [|by apply post_ret].
    destruct H1 as (k1 & Hk1 & H1).
    apply post_bind. eapply post_mono; [by eapply IH|]. intros [a2|b] s2 H2; [|by apply post_ret].
    destruct H2 as (k2 & Hk2 & H2).
    eapply post_mono; [by eapply IH|]. intros [a3|b] s3 H3; [|done].
    destruct H3 as (k3 & Hk3 & H3). exists k3. split; [lia|done].
  - apply post_bind. eapply post_mono; [by eapply IH|]. intros [a2|b] s2 H2; [|by apply post_ret].
    destruct H2 as (k2 & Hk2 & H2).
    eapply post_mono; [by eapply IH|]. intros [a3|b] s3 H3; [|done].
    destruct H3 as (k3 & Hk3 & H3). exists k3. split; [lia|done].
  - eapply post_mono; [by apply step|]. intros [a1|b] s1 H1; [|done].
    destruct H1 as (k1 & Hk1 & H1). exists k1. split; [lia|done].
Qed.

Lemma post_iterate n a k s : I a k s -> k < Z.pos n -> post (iterate n body a) s Q.
Proof.
  intros Hi Hk. apply post_bind. eapply post_mono; [by apply (loop_pos_spec n a k s)|].
  intros [a'|b] s' H; [|by apply post_ret]. destruct H as (k' & Hk' & _). lia.
Qed.
End loops.

(** One step of symbolic execution: a bind, a return, a read or a write of the
    store, or a branch. *)
Ltac mstep :=
  lazymatch goal with
  | |- post (mbind _ _) _ _ => apply post_bind
  | |- post (mret _) _ _ => apply post_ret
  | |- post (gets _) _ _ => apply post_gets
  | |- post (modify _) _ _ => apply post_modify
  | |- post (if _ then _ else _) _ _ => bdestr
  end.
(** The branch taken, when arithmetic decides it. *)
Ltac if_false :=
  match goal with
  | |- context [if ?e then _ else _] => replace e with false by (symmetry; bprop; lia)
  end; cbn beta iota.
Ltac if_true :=
  match goal with
  | |- context [if ?e then _ else _] => replace e with true by (symmetry; bprop; lia)
  end; cbn beta iota.
Ltac msteps := repeat (mstep; cbn beta).
Tactic Notation "mcall" uconstr(H) :=
  lazymatch goal with |- post (mbind _ _) _ _ => apply post_bind | _ => idtac end;
  eapply post_mono; [eapply H | cbn beta].
