(* ===== verification/Bytes.v ===== *)
(** * Multi-byte words of the on-disk structures

    The functions [ld_word] ... [st_qword] of [src/ff/src/ff/ff.c], which access
    the little-endian integers of the FAT structures byte by byte.  A pointer into
    a buffer is the buffer and an offset.  The theorems: a load reads the
    little-endian value of the bytes, a store followed by a load gives the value
    truncated to the width, a store touches no byte outside its range, and storing
    what was loaded changes nothing. *)

From stdpp Require Import prelude list.
From Stdlib Require Import ZArith Lia.
From S2P Require Import Prelude.

Local Open Scope Z_scope.

(** ** The code *)

Definition ld_word (l : list Z) (ptr : Z) : Z :=
  let rv := l.[ptr + 1] in
  u16 (Z.lor (Z.shiftl rv 8) l.[ptr]).

Definition ld_dword (l : list Z) (ptr : Z) : Z :=
  let rv := l.[ptr + 3] in
  let rv := u32 (Z.lor (Z.shiftl rv 8) l.[ptr + 2]) in
  let rv := u32 (Z.lor (Z.shiftl rv 8) l.[ptr + 1]) in
  let rv := u32 (Z.lor (Z.shiftl rv 8) l.[ptr]) in
  rv.

Definition ld_qword (l : list Z) (ptr : Z) : Z :=
  let rv := l.[ptr + 7] in
  let rv := u64 (Z.lor (Z.shiftl rv 8) l.[ptr + 6]) in
  let rv := u64 (Z.lor (Z.shiftl rv 8) l.[ptr + 5]) in
  let rv := u64 (Z.lor (Z.shiftl rv 8) l.[ptr + 4]) in
  let rv := u64 (Z.lor (Z.shiftl rv 8) l.[ptr + 3]) in
  let rv := u64 (Z.lor (Z.shiftl rv 8) l.[ptr + 2]) in
  let rv := u64 (Z.lor (Z.shiftl rv 8) l.[ptr + 1]) in
  let rv := u64 (Z.lor (Z.shiftl rv 8) l.[ptr]) in
  rv.

(** [*ptr++ = (BYTE)val; val >>= 8;], [n] times: the body of the stores. *)
Fixpoint st_bytes (n : nat) (l : list Z) (ptr val : Z) : list Z :=
  match n with
  | O => l
  | S n' => st_bytes n' (setb l ptr (u8 val)) (ptr + 1) (Z.shiftr val 8)
  end.

Definition st_word (l : list Z) (ptr val : Z) : list Z := st_bytes 2 l ptr (u16 val).
Definition st_dword (l : list Z) (ptr val : Z) : list Z := st_bytes 4 l ptr (u32 val).
Definition st_qword (l : list Z) (ptr val : Z) : list Z := st_bytes 8 l ptr (u64 val).

(** ** Reference: the value of [n] little-endian bytes *)

Fixpoint le_val (n : nat) (l : list Z) (ptr : Z) : Z :=
  match n with
  | O => 0
  | S n' => l.[ptr] + 2 ^ 8 * le_val n' l (ptr + 1)
  end.

Lemma le_val_range n l p : bytes l -> 0 <= le_val n l p < 2 ^ (8 * Z.of_nat n).
Proof.
  intros Hl. revert p. induction n as [|n IH]; intros p; cbn [le_val].
  - simpl. lia.
  - specialize (IH (p + 1)). pose proof (getb_bytes l p Hl) as Hb. unfold is_u8 in Hb.
    replace (8 * Z.of_nat (S n)) with (8 + 8 * Z.of_nat n) by lia.
    rewrite Z.pow_add_r by lia. lia.
Qed.

(** Merging disjoint bit fields adds them. *)
Lemma shl_lor k x b : 0 <= k -> 0 <= b < 2 ^ k -> Z.lor (Z.shiftl x k) b = b + 2 ^ k * x.
Proof.
  intros Hk Hb. rewrite Z.shiftl_mul_pow2 by lia.
  pose proof (Z.add_lor_land (x * 2 ^ k) b) as H.
  enough (Z.land (x * 2 ^ k) b = 0) by lia.
  rewrite <- (Z.mod_small b (2 ^ k)), <- Z.land_ones by done.
  apply Z.bits_inj'. intros i Hi. rewrite !Z.land_spec, Z.bits_0.
  destruct (decide (i < k)).
  - rewrite Z.mul_pow2_bits_low; [done | lia].
  - rewrite Z.ones_spec_high by lia. by rewrite !andb_false_r.
Qed.

Lemma shl_byte_lor x b : 0 <= x -> is_u8 b -> Z.lor (Z.shiftl x 8) b = b + 2 ^ 8 * x.
Proof. intros. by apply shl_lor. Qed.

Lemma merge_byte w x b :
  0 <= x -> is_u8 b -> b + 2 ^ 8 * x < 2 ^ w ->
  Z.lor (Z.shiftl x 8) b mod 2 ^ w = b + 2 ^ 8 * x.
Proof.
  intros ? Hb ?. rewrite shl_byte_lor by done. unfold is_u8 in Hb. apply Z.mod_small. lia.
Qed.

Lemma ld_word_le l p : bytes l -> ld_word l p = le_val 2 l p.
Proof.
  intros Hl. pose proof (le_val_range 2 l p Hl) as Hr.
  unfold ld_word. rewrite shl_byte_lor; [|apply getb_bytes, Hl | auto with ff].
  rewrite u16_small; cbn [le_val] in *; [lia | unfold is_u16; lia].
Qed.

(** [p + 1 + ... + 1] as [p + k]. *)
Ltac norm_ofs p :=
  replace (p + 1 + 1) with (p + 2) in * by lia; replace (p + 2 + 1) with (p + 3) in * by lia;
  replace (p + 3 + 1) with (p + 4) in * by lia; replace (p + 4 + 1) with (p + 5) in * by lia;
  replace (p + 5 + 1) with (p + 6) in * by lia; replace (p + 6 + 1) with (p + 7) in * by lia.

Lemma ld_dword_le l p : bytes l -> ld_dword l p = le_val 4 l p.
Proof.
  intros Hl. pose proof (le_val_range 4 l p Hl) as Hr.
  assert (forall i, is_u8 l.[i]) as Hb by (intros; by apply getb_bytes).
  unfold is_u8 in Hb. unfold ld_dword.
  cbn [le_val] in *. norm_ofs p.
  pose proof (Hb (p + 3)). pose proof (Hb (p + 2)). pose proof (Hb (p + 1)). pose proof (Hb p).
  unfold u32.
  rewrite (merge_byte 32 _ l.[p + 2]), (merge_byte 32 _ l.[p + 1]), (merge_byte 32 _ l.[p])
    by (unfold is_u8; lia).
  lia.
Qed.

Lemma ld_qword_le l p : bytes l -> ld_qword l p = le_val 8 l p.
Proof.
  intros Hl. pose proof (le_val_range 8 l p Hl) as Hr.
  assert (forall i, is_u8 l.[i]) as Hb by (intros; by apply getb_bytes).
  unfold is_u8 in Hb. unfold ld_qword, u64.
  cbn [le_val] in *. norm_ofs p.
  repeat match goal with |- context [l.[?i]] =>
    lazymatch goal with H : 0 <= l.[i] < _ |- _ => fail | _ => pose proof (Hb i) end end.
  rewrite (merge_byte 64 _ l.[p + 6]), (merge_byte 64 _ l.[p + 5]), (merge_byte 64 _ l.[p + 4]),
    (merge_byte 64 _ l.[p + 3]), (merge_byte 64 _ l.[p + 2]), (merge_byte 64 _ l.[p + 1]),
    (merge_byte 64 _ l.[p]) by (unfold is_u8; lia).
  lia.
Qed.

(** ** Stores *)

Lemma length_st_bytes n l p v : length (st_bytes n l p v) = length l.
Proof.
  revert l p v. induction n as [|n IH]; intros; cbn [st_bytes]; [done|].
  by rewrite IH, length_setb.
Qed.

Lemma bytes_st_bytes n l p v : bytes l -> bytes (st_bytes n l p v).
Proof.
  revert l p v. induction n as [|n IH]; intros; cbn [st_bytes]; [done|].
  apply IH. auto with ff.
Qed.

Lemma getb_st_bytes_out n l p v i :
  0 <= p -> 0 <= i -> i < p \/ p + Z.of_nat n <= i -> (st_bytes n l p v).[i] = l.[i].
Proof.
  revert l p v. induction n as [|n IH]; intros l p v Hp Hi Ho; cbn [st_bytes]; [done|].
  rewrite IH by lia. apply getb_setb_ne; lia.
Qed.

Lemma getb_st_bytes_in n l p v i :
  0 <= p -> p + Z.of_nat n <= zlen l -> 0 <= i < Z.of_nat n ->
  (st_bytes n l p v).[p + i] = u8 (Z.shiftr v (8 * i)).
Proof.
  revert l p v i. induction n as [|n IH]; intros l p v i Hp Hl Hi; [lia|].
  cbn [st_bytes]. destruct (decide (i = 0)) as [->|].
  - rewrite getb_st_bytes_out by lia. rewrite Z.add_0_r, Z.shiftr_0_r.
    apply getb_setb_eq. lia.
  - replace (p + i) with (p + 1 + (i - 1)) by lia.
    rewrite IH; [| lia | unfold zlen in *; rewrite length_setb; lia | lia].
    rewrite Z.shiftr_shiftr by lia. f_equal. f_equal. lia.
Qed.

Lemma le_val_st_bytes n l p v :
  0 <= p -> p + Z.of_nat n <= zlen l ->
  le_val n (st_bytes n l p v) p = v mod 2 ^ (8 * Z.of_nat n).
Proof.
  intros Hp Hl.
  enough (forall k q, (k <= n)%nat -> q = p + Z.of_nat n - Z.of_nat k ->
    le_val k (st_bytes n l p v) q
    = Z.shiftr v (8 * (Z.of_nat n - Z.of_nat k)) mod 2 ^ (8 * Z.of_nat k)) as H.
  { rewrite (H n p) by lia. by rewrite Z.sub_diag, Z.shiftr_0_r. }
  induction k as [|k IH]; intros q Hk ->; cbn [le_val].
  { by rewrite Z.mod_1_r. }
  rewrite (IH (p + Z.of_nat n - Z.of_nat (S k) + 1)) by lia.
  set (i := Z.of_nat n - Z.of_nat (S k)).
  replace (p + Z.of_nat n - Z.of_nat (S k)) with (p + i) by lia.
  rewrite getb_st_bytes_in by lia.
  replace (8 * (Z.of_nat n - Z.of_nat k)) with (8 * i + 8) by lia.
  rewrite <- Z.shiftr_shiftr by lia. set (w := Z.shiftr v (8 * i)).
  rewrite Z.shiftr_div_pow2 by lia. unfold u8.
  replace (8 * Z.of_nat (S k)) with (8 + 8 * Z.of_nat k) by lia.
  rewrite Z.pow_add_r, Z.rem_mul_r by lia. done.
Qed.

Lemma le_val_st_bytes_out n m l p q v :
  0 <= p -> 0 <= q -> q + Z.of_nat m <= p \/ p + Z.of_nat n <= q ->
  le_val m (st_bytes n l p v) q = le_val m l q.
Proof.
  revert q. induction m as [|m IH]; intros q Hp Hq Ho; cbn [le_val]; [done|].
  rewrite getb_st_bytes_out, IH by lia. done.
Qed.

(** Storing the value that is there changes nothing. *)
Lemma st_bytes_le_val n l p :
  bytes l -> 0 <= p -> p + Z.of_nat n <= zlen l -> st_bytes n l p (le_val n l p) = l.
Proof.
  intros Hl. revert p. induction n as [|n IH]; intros p Hp Hlen; cbn [st_bytes le_val]; [done|].
  pose proof (getb_bytes l p Hl) as Hb.
  assert (u8 (l.[p] + 2 ^ 8 * le_val n l (p + 1)) = l.[p]) as ->.
  { unfold u8. rewrite (Z.mul_comm (2 ^ 8)), Z.mod_add by lia. by apply Z.mod_small. }
  rewrite Z.shiftr_div_pow2, (Z.mul_comm (2 ^ 8)), Z.div_add by lia.
  rewrite (Z.div_small l.[p]) by done. rewrite Z.add_0_l.
  assert (setb l p l.[p] = l) as ->.
  { unfold setb, getb, zlen in *. apply list_insert_id.
    destruct (lookup_lt_is_Some_2 l (Z.to_nat p)) as [x Hx]; [lia|].
    rewrite Hx. f_equal. symmetry. by apply nth_lookup_Some. }
  apply IH; lia.
Qed.

#[export] Hint Resolve bytes_st_bytes : ff.
#[export] Hint Rewrite length_st_bytes : ff.

(** C-level forms. *)
Lemma ld_st_word l p v :
  bytes l -> 0 <= p -> p + 2 <= zlen l -> ld_word (st_word l p v) p = u16 v.
Proof.
  intros. unfold st_word. rewrite ld_word_le by auto with ff.
  rewrite le_val_st_bytes by done. apply Z.mod_mod. done.
Qed.

Lemma ld_st_dword l p v :
  bytes l -> 0 <= p -> p + 4 <= zlen l -> ld_dword (st_dword l p v) p = u32 v.
Proof.
  intros. unfold st_dword. rewrite ld_dword_le by auto with ff.
  rewrite le_val_st_bytes by done. apply Z.mod_mod. done.
Qed.

Lemma ld_st_qword l p v :
  bytes l -> 0 <= p -> p + 8 <= zlen l -> ld_qword (st_qword l p v) p = u64 v.
Proof.
  intros. unfold st_qword. rewrite ld_qword_le by auto with ff.
  rewrite le_val_st_bytes by done. apply Z.mod_mod. done.
Qed.

(** A test that holds of every byte value, by evaluation. *)
Lemma u8_forall (P : Z -> bool) :
  forallb P (seqZ 0 256) = true -> forall x, is_u8 x -> P x = true.
Proof.
  rewrite forallb_forall. intros HP x Hx. apply HP, list_elem_of_In, elem_of_seqZ.
  unfold is_u8 in Hx. lia.
Qed.

Lemma land_0F a : Z.land a 0x0F = a mod 16.
Proof. by apply (Z.land_ones a 4). Qed.

Lemma land_F0 a : is_u8 a -> Z.land a 0xF0 = 16 * (a / 16).
Proof.
  intros Ha. apply Z.eqb_eq.
  apply (u8_forall (fun a => Z.land a 0xF0 =? 16 * (a / 16))); [by vm_compute | done].
Qed.

(** ** Properties of the accessors *)

(** A word, double word or quad word stored at an offset of a
    byte buffer is read back modulo its width, and storing what is there changes
    nothing. *)
Theorem load_store_roundtrip l p v :
  bytes l -> 0 <= p -> p + 8 <= zlen l ->
  ld_word (st_word l p v) p = u16 v /\ ld_dword (st_dword l p v) p = u32 v /\
  ld_qword (st_qword l p v) p = u64 v /\ st_word l p (ld_word l p) = l /\
  st_dword l p (ld_dword l p) = l /\ st_qword l p (ld_qword l p) = l.
Proof.
  intros Hb Hp Hl. split_and!.
  - apply ld_st_word; [done|lia..].
  - apply ld_st_dword; [done|lia..].
  - apply ld_st_qword; [done|lia..].
  - unfold st_word. rewrite ld_word_le by done. pose proof (le_val_range 2 l p Hb).
    rewrite u16_small by (unfold is_u16; lia). apply st_bytes_le_val; [done|lia..].
  - unfold st_dword. rewrite ld_dword_le by done. pose proof (le_val_range 4 l p Hb).
    rewrite u32_small by (unfold is_u32; lia). apply st_bytes_le_val; [done|lia..].
  - unfold st_qword. rewrite ld_qword_le by done. pose proof (le_val_range 8 l p Hb).
    unfold u64. rewrite Z.mod_small by lia. apply st_bytes_le_val; [done|lia..].
Qed.
