(* ===== verification/Buffers.v ===== *)
(** * Buffers with checked accesses

    Stores to and reads of a C array that fail outside of it, and arrays that are filled
    from the left. *)

From stdpp Require Import prelude list.
From Stdlib Require Import ZArith Lia.
From S2P Require Import Prelude.

Local Open Scope Z_scope.

(** ** Checked accesses *)

Definition store (l : list Z) (i v : Z) : option (list Z) :=
  if (0 <=? i) && (i <? zlen l) then Some (setb l i v) else None.
Definition fetch (l : list Z) (i : Z) : option Z :=
  if (0 <=? i) && (i <? zlen l) then Some l.[i] else None.

Fixpoint stores (l : list Z) (i : Z) (us : list Z) : option (list Z) :=
  match us with
  | [] => Some l
  | u :: us => l ← store l i u; stores l (i + 1) us
  end.

(** ** Buffers filled from the left *)

Lemma getb_app_r l k i : 0 <= i -> (l ++ k).[zlen l + i] = k.[i].
Proof. intros Hi. unfold getb, zlen. rewrite app_nth2 by lia. f_equal. lia. Qed.

Lemma getb_app_l l k i : 0 <= i < zlen l -> (l ++ k).[i] = l.[i].
Proof. intros Hi. unfold getb, zlen in *. apply app_nth1. lia. Qed.

Lemma getb_app_mid l x k : (l ++ x :: k).[zlen l] = x.
Proof. rewrite <- (Z.add_0_r (zlen l)). by rewrite getb_app_r. Qed.

Lemma fetch_mid l x k i : i = zlen l -> fetch (l ++ x :: k) i = Some x.
Proof.
  intros ->. unfold fetch. rewrite zlen_app, zlen_cons, getb_app_mid.
  pose proof (zlen_nonneg l). pose proof (zlen_nonneg k). by if_true.
Qed.

Lemma store_mid l x k i v : i = zlen l -> store (l ++ x :: k) i v = Some (l ++ v :: k).
Proof.
  intros ->. unfold store. rewrite zlen_app, zlen_cons.
  pose proof (zlen_nonneg l). pose proof (zlen_nonneg k). if_true. f_equal. unfold setb, zlen.
  rewrite Nat2Z.id. by rewrite <- (Nat.add_0_r (length l)), insert_app_r.
Qed.

Lemma stores_mid l old k us i :
  i = zlen l -> length us = length old -> stores (l ++ old ++ k) i us = Some (l ++ us ++ k).
Proof.
  revert l old i. induction us as [|u us IH]; intros l [|o old] i -> Hlen; try done.
  cbn [stores app]. rewrite store_mid by done. cbn [mbind option_bind].
  pose proof (IH (l ++ [u]) old (zlen l + 1)) as IH'. rewrite <- !app_assoc in IH'. cbn [app] in IH'.
  apply IH'; [by rewrite zlen_app|by injection Hlen].
Qed.

Lemma fetch_some l i : 0 <= i < zlen l -> fetch l i = Some l.[i].
Proof. intros Hi. unfold fetch. by if_true. Qed.

Lemma store_some l i v : 0 <= i < zlen l -> store l i v = Some (setb l i v).
Proof. intros Hi. unfold store. by if_true. Qed.

Lemma zlen_setb l i v : zlen (setb l i v) = zlen l.
Proof. unfold zlen. by rewrite length_setb. Qed.

(** A unit left in a buffer of a known size. *)
Lemma room (l k : list Z) n : zlen (l ++ k) = n -> zlen l < n -> exists x k', k = x :: k'.
Proof. rewrite zlen_app. destruct k as [|x k']; [change (zlen (@nil Z)) with 0; lia|eauto]. Qed.

Lemma stores_some l i us :
  0 <= i -> i + zlen us <= zlen l -> exists l', stores l i us = Some l' /\ zlen l' = zlen l /\
    (forall k, 0 <= k < i -> l'.[k] = l.[k]) /\ (forall k, 0 <= k < zlen us -> l'.[i + k] = us.[k]).
Proof.
  revert l i. induction us as [|u us IH]; intros l i Hi Hl; cbn [stores].
  { exists l. split_and!; [done..|]. change (zlen (@nil Z)) with 0. lia. }
  rewrite zlen_cons in Hl |- *. pose proof (zlen_nonneg us).
  rewrite store_some by lia. cbn [mbind option_bind].
  destruct (IH (setb l i u) (i + 1)) as (l' & -> & Hl' & Hk & Hn); [lia|rewrite zlen_setb; lia|].
  exists l'. rewrite zlen_setb in Hl'. split_and!; [done..| |].
  - intros k Hr. rewrite Hk by lia. by rewrite getb_setb_ne by lia.
  - intros k Hr. destruct (Z.eq_dec k 0) as [->|].
    + rewrite Hk, Z.add_0_r, getb_setb_eq by lia. done.
    + replace (i + k) with (i + 1 + (k - 1)) by lia. rewrite Hn by lia.
      unfold getb. replace (Z.to_nat k) with (S (Z.to_nat (k - 1))) by lia. done.
Qed.
