(* ===== verification/Unicode.v ===== *)
(** * Characters

    From [src/ff/src/ff/ffunicode.c]: the up-case conversion [ff_wtoupper] and the
    code page conversions [ff_uni2oem] and [ff_oem2uni]; from [src/ff/src/ff/ff.c]:
    [dbc_1st], [dbc_2nd], [tchar2uni] and [put_utf], in the configuration of the
    repository (code page 932, UTF-16 file names).

    A character is a UTF-16 code, a surrogate pair being one number of 32 bits. *)

From stdpp Require Import prelude list gmap pmap sorting.
From Stdlib Require Import ZArith Lia.
From S2P Require Import Prelude Bytes Cp932.

Local Open Scope Z_scope.

(** ** Up-case conversion *)

(** Compressed tables: blocks of a base, a size with a command in the upper byte, and
    for command 0 the values of the block; ended by a zero base. *)
Definition cvt1 : list Z := [
  0x61; 0x31A; 0xE0; 0x317; 0xF8; 0x307; 0xFF; 0x1; 0x178; 0x100; 0x130; 0x132; 0x106; 0x139;
  0x110; 0x14A; 0x12E; 0x179; 0x106; 0x180; 0x4D; 0x243; 0x181; 0x182; 0x182; 0x184; 0x184;
  0x186; 0x187; 0x187; 0x189; 0x18A; 0x18B; 0x18B; 0x18D; 0x18E; 0x18F; 0x190; 0x191; 0x191;
  0x193; 0x194; 0x1F6; 0x196; 0x197; 0x198; 0x198; 0x23D; 0x19B; 0x19C; 0x19D; 0x220; 0x19F;
  0x1A0; 0x1A0; 0x1A2; 0x1A2; 0x1A4; 0x1A4; 0x1A6; 0x1A7; 0x1A7; 0x1A9; 0x1AA; 0x1AB; 0x1AC;
  0x1AC; 0x1AE; 0x1AF; 0x1AF; 0x1B1; 0x1B2; 0x1B3; 0x1B3; 0x1B5; 0x1B5; 0x1B7; 0x1B8; 0x1B8;
  0x1BA; 0x1BB; 0x1BC; 0x1BC; 0x1BE; 0x1F7; 0x1C0; 0x1C1; 0x1C2; 0x1C3; 0x1C4; 0x1C5; 0x1C4;
  0x1C7; 0x1C8; 0x1C7; 0x1CA; 0x1CB; 0x1CA; 0x1CD; 0x110; 0x1DD; 0x1; 0x18E; 0x1DE; 0x112;
  0x1F3; 0x3; 0x1F1; 0x1F4; 0x1F4; 0x1F8; 0x128; 0x222; 0x112; 0x23A; 0x9; 0x2C65; 0x23B;
  0x23B; 0x23D; 0x2C66; 0x23F; 0x240; 0x241; 0x241; 0x246; 0x10A; 0x253; 0x40; 0x181; 0x186;
  0x255; 0x189; 0x18A; 0x258; 0x18F; 0x25A; 0x190; 0x25C; 0x25D; 0x25E; 0x25F; 0x193; 0x261;
  0x262; 0x194; 0x264; 0x265; 0x266; 0x267; 0x197; 0x196; 0x26A; 0x2C62; 0x26C; 0x26D; 0x26E;
  0x19C; 0x270; 0x271; 0x19D; 0x273; 0x274; 0x19F; 0x276; 0x277; 0x278; 0x279; 0x27A; 0x27B;
  0x27C; 0x2C64; 0x27E; 0x27F; 0x1A6; 0x281; 0x282; 0x1A9; 0x284; 0x285; 0x286; 0x287; 0x1AE;
  0x244; 0x1B1; 0x1B2; 0x245; 0x28D; 0x28E; 0x28F; 0x290; 0x291; 0x1B7; 0x37B; 0x3; 0x3FD;
  0x3FE; 0x3FF; 0x3AC; 0x4; 0x386; 0x388; 0x389; 0x38A; 0x3B1; 0x311; 0x3C2; 0x2; 0x3A3; 0x3A3;
  0x3C4; 0x308; 0x3CC; 0x3; 0x38C; 0x38E; 0x38F; 0x3D8; 0x118; 0x3F2; 0xA; 0x3F9; 0x3F3; 0x3F4;
  0x3F5; 0x3F6; 0x3F7; 0x3F7; 0x3F9; 0x3FA; 0x3FA; 0x430; 0x320; 0x450; 0x710; 0x460; 0x122;
  0x48A; 0x136; 0x4C1; 0x10E; 0x4CF; 0x1; 0x4C0; 0x4D0; 0x144; 0x561; 0x426; 0x0].

Definition cvt2 : list Z := [
  0x1D7D; 0x1; 0x2C63; 0x1E00; 0x196; 0x1EA0; 0x15A; 0x1F00; 0x608; 0x1F10; 0x606; 0x1F20;
  0x608; 0x1F30; 0x608; 0x1F40; 0x606; 0x1F51; 0x7; 0x1F59; 0x1F52; 0x1F5B; 0x1F54; 0x1F5D;
  0x1F56; 0x1F5F; 0x1F60; 0x608; 0x1F70; 0xE; 0x1FBA; 0x1FBB; 0x1FC8; 0x1FC9; 0x1FCA; 0x1FCB;
  0x1FDA; 0x1FDB; 0x1FF8; 0x1FF9; 0x1FEA; 0x1FEB; 0x1FFA; 0x1FFB; 0x1F80; 0x608; 0x1F90; 0x608;
  0x1FA0; 0x608; 0x1FB0; 0x4; 0x1FB8; 0x1FB9; 0x1FB2; 0x1FBC; 0x1FCC; 0x1; 0x1FC3; 0x1FD0;
  0x602; 0x1FE0; 0x602; 0x1FE5; 0x1; 0x1FEC; 0x1FF3; 0x1; 0x1FFC; 0x214E; 0x1; 0x2132; 0x2170;
  0x210; 0x2184; 0x1; 0x2183; 0x24D0; 0x51A; 0x2C30; 0x42F; 0x2C60; 0x102; 0x2C67; 0x106;
  0x2C75; 0x102; 0x2C80; 0x164; 0x2D00; 0x826; 0xFF41; 0x31A; 0x0].

(** One pass over a table; [None] if the table has no end. *)
Fixpoint wtoupper_scan (fuel : nat) (p : list Z) (uc : Z) : option Z :=
  match fuel with
  | O => None
  | S fuel =>
      let bc := p.[0] in
      if (bc =? 0) || (uc <? bc) then Some uc else
      let nc := p.[1] in
      let cmd := Z.shiftr nc 8 in
      let nc := Z.land nc 0xFF in
      let p := drop 2 p in
      if uc <? bc + nc then
        Some (u16 (match cmd with
                   | 0 => p.[uc - bc]
                   | 1 => uc - Z.land (uc - bc) 1
                   | 2 => uc - 16
                   | 3 => uc - 32
                   | 4 => uc - 48
                   | 5 => uc - 26
                   | 6 => uc + 8
                   | 7 => uc - 80
                   | 8 => uc - 0x1C60
                   | _ => uc
                   end))
      else wtoupper_scan fuel (if cmd =? 0 then drop (Z.to_nat nc) p else p) uc
  end.

Definition ff_wtoupper (uni : Z) : Z :=
  if uni <? 0x10000 then
    let uc := u16 uni in
    let p := if uc <? 0x1000 then cvt1 else cvt2 in
    default uc (wtoupper_scan (length p) p uc)
  else uni.

(** ** Code page 932 *)

Definition FF_CODE_PAGE := 932.

(** The bisection shared by the two conversions: the index of [key], if the loop does
    not run to its end. *)
Fixpoint bisect (n : nat) (p : list Z) (key li hi : Z) : option Z :=
  match n with
  | O => None
  | S n =>
      let i := li + (hi - li) / 2 in
      if key =? p.[i * 2] then Some i
      else if p.[i * 2] <? key then bisect n p key i hi else bisect n p key li i
  end.

Definition lookup_cp (p : list Z) (key : Z) : Z :=
  let hi := zlen p / 2 - 1 in
  match bisect 16 p key 0 hi with
  | Some i => p.[i * 2 + 1]
  | None => 0
  end.

Definition ff_uni2oem (uni cp : Z) : Z :=
  if uni <? 0x80 then uni
  else if (uni <? 0x10000) && (cp =? FF_CODE_PAGE) then lookup_cp uni2oem932 uni
  else 0.

Definition ff_oem2uni (oem cp : Z) : Z :=
  if oem <? 0x80 then oem
  else if cp =? FF_CODE_PAGE then lookup_cp oem2uni932 oem
  else 0.

Definition DbcTbl : list Z := [0x81; 0x9F; 0xE0; 0xFC; 0x40; 0x7E; 0x80; 0xFC; 0x00; 0x00].

Definition dbc_1st (c : Z) : bool :=
  if DbcTbl.[0] <=? c then
    if c <=? DbcTbl.[1] then true
    else (DbcTbl.[2] <=? c) && (c <=? DbcTbl.[3])
  else false.

Definition dbc_2nd (c : Z) : bool :=
  if DbcTbl.[4] <=? c then
    if c <=? DbcTbl.[5] then true
    else if (DbcTbl.[6] <=? c) && (c <=? DbcTbl.[7]) then true
    else (DbcTbl.[8] <=? c) && (c <=? DbcTbl.[9])
  else false.

(** ** UTF-16 *)

Definition IsSurrogate (c : Z) : bool := (0xD800 <=? c) && (c <=? 0xDFFF).
Definition IsSurrogateH (c : Z) : bool := (0xD800 <=? c) && (c <=? 0xDBFF).
Definition IsSurrogateL (c : Z) : bool := (0xDC00 <=? c) && (c <=? 0xDFFF).

(** [tchar2uni str] is the character and the rest of the string; on an error the
    pointer does not move. *)
Definition tchar2uni (str : list Z) : Z * list Z :=
  let uc := str.[0] in
  let p := drop 1 str in
  if IsSurrogate uc then
    let wc := p.[0] in
    let p := drop 1 p in
    if negb (IsSurrogateH uc) || negb (IsSurrogateL wc) then (0xFFFFFFFF, str)
    else (Z.lor (u32 (Z.shiftl uc 16)) wc, p)
  else (uc, p).

(** [put_utf chr szb] is the units written to a buffer of [szb] units; none on an
    error. *)
Definition put_utf (chr szb : Z) : list Z :=
  let hs := u16 (Z.shiftr chr 16) in
  let wc := u16 chr in
  if hs =? 0 then
    if (szb <? 1) || IsSurrogate wc then [] else [wc]
  else if (szb <? 2) || negb (IsSurrogateH hs) || negb (IsSurrogateL wc) then []
  else [hs; wc].

(** ** Properties of the up-case conversion *)

(** The blocks of a table. *)
Fixpoint blocks (fuel : nat) (p : list Z) : option (list (Z * Z)) :=
  match fuel with
  | O => None
  | S fuel =>
      if p.[0] =? 0 then Some [] else
      let nc := Z.land p.[1] 0xFF in
      let q := drop 2 p in
      cons (p.[0], nc) <$> blocks fuel (if Z.shiftr p.[1] 8 =? 0 then drop (Z.to_nat nc) q else q)
  end.

Definition in_block (uc : Z) (b : Z * Z) : Prop := b.1 <= uc < b.1 + b.2.

(** Outside the blocks a character is its own upper case. *)
Lemma scan_outside fuel p uc bl :
  blocks fuel p = Some bl -> Forall (fun b => ~ in_block uc b) bl ->
  wtoupper_scan fuel p uc = Some uc.
Proof.
  revert p bl. induction fuel as [|fuel IH]; intros p bl; cbn [blocks wtoupper_scan]; [done|].
  destruct (p.[0] =? 0) eqn:E0; cbn [orb]; [done|].
  destruct (uc <? p.[0]) eqn:E1; [done|]. apply Z.ltb_ge in E1.
  destruct (blocks fuel _) as [bl'|] eqn:Eb; cbn; [|done]. intros [= <-] Hf.
  apply Forall_cons in Hf as [Hb Hf]. unfold in_block in Hb. cbn in Hb.
  rewrite (proj2 (Z.ltb_ge _ _)) by lia. eapply IH; [|done].
  change (drop 2 (p)) with (drop 2 p). by rewrite <- Eb.
Qed.

(** A property of the characters of a block, by enumeration. *)
Fixpoint check_run (n : nat) (c : Z) (f : Z -> bool) : bool :=
  match n with O => true | S n => f c && check_run n (c + 1) f end.

Lemma check_run_sound n c f x :
  check_run n c f = true -> c <= x < c + Z.of_nat n -> f x = true.
Proof.
  revert c. induction n as [|n IH]; intros c; cbn [check_run]; [lia|].
  intros [Hf Hr]%andb_true_iff Hx. destruct (decide (x = c)) as [->|]; [done|].
  apply (IH (c + 1)); [done|lia].
Qed.

Lemma check_blocks_sound (bl : list (Z * Z)) f :
  forallb (fun b => (0 <=? b.2) && check_run (Z.to_nat b.2) b.1 f) bl = true ->
  forall x, Exists (in_block x) bl -> f x = true.
Proof.
  intros Hall x Hex. apply Exists_exists in Hex as ([b n] & Hin & Hx). unfold in_block in Hx. cbn in Hx.
  rewrite forallb_forall in Hall. specialize (Hall (b, n)). rewrite <- list_elem_of_In in Hall.
  specialize (Hall Hin). cbn in Hall. apply andb_true_iff in Hall as [Hn Hc]. apply Z.leb_le in Hn.
  eapply check_run_sound; [done|lia].
Qed.

Definition wtbl (uc : Z) : list Z := if uc <? 0x1000 then cvt1 else cvt2.
Definition wblocks (uc : Z) : list (Z * Z) :=
  default [] (if uc <? 0x1000 then blocks (length cvt1) cvt1 else blocks (length cvt2) cvt2).

Definition upper_ok (uc : Z) : bool :=
  match wtoupper_scan (length (wtbl uc)) (wtbl uc) uc with
  | Some v => (0 <? v) && (v <? 0x10000) && (ff_wtoupper v =? v)
  | None => false
  end.

Instance in_block_dec x b : Decision (in_block x b).
Proof. unfold in_block. apply _. Defined.

Lemma upper_ok_small x : 0 <= x < 0x1000 -> Exists (in_block x) (wblocks 0) -> upper_ok x = true.
Proof.
  intros Hx. assert (forallb (fun b => (0 <=? b.2) && check_run (Z.to_nat b.2) b.1
    (fun x => (0x1000 <=? x) || upper_ok x)) (wblocks 0) = true) as Hall by (vm_compute; reflexivity).
  intros Hex. pose proof (check_blocks_sound _ _ Hall x Hex) as Hc. cbn beta in Hc.
  by rewrite (proj2 (Z.leb_gt _ _)) in Hc by lia.
Qed.

Lemma upper_ok_large x : 0x1000 <= x < 0x10000 -> Exists (in_block x) (wblocks 0x1000) -> upper_ok x = true.
Proof.
  intros Hx. apply check_blocks_sound. vm_compute. reflexivity.
Qed.

Lemma wtoupper_cases c :
  0 <= c < 0x10000 ->
  wtoupper_scan (length (wtbl c)) (wtbl c) c = Some (ff_wtoupper c) /\
  (ff_wtoupper c = c \/ 0 < ff_wtoupper c < 0x10000 /\ ff_wtoupper (ff_wtoupper c) = ff_wtoupper c).
Proof.
  intros Hc.
  assert (ff_wtoupper c = default c (wtoupper_scan (length (wtbl c)) (wtbl c) c)) as Hdef.
  { unfold ff_wtoupper. rewrite (proj2 (Z.ltb_lt _ _)) by lia. by rewrite u16_small. }
  assert (Exists (in_block c) (wblocks c) \/ Forall (fun b => ~ in_block c b) (wblocks c)) as [Hin|Hout].
  { destruct (decide (Exists (in_block c) (wblocks c))) as [|Hno]; [by left|right].
    apply Forall_forall. intros b Hb Hin. apply Hno, Exists_exists. eauto. }
  - assert (upper_ok c = true) as Hok.
    { destruct (decide (c < 0x1000)).
      - apply upper_ok_small; [lia|]. unfold wblocks in *.
        by rewrite (proj2 (Z.ltb_lt _ _)) in Hin by lia.
      - apply upper_ok_large; [lia|]. unfold wblocks in *.
        by rewrite (proj2 (Z.ltb_ge _ _)) in Hin by lia. }
    unfold upper_ok in Hok. destruct (wtoupper_scan _ _ c) as [v|]; [|done]. cbn in Hdef.
    rewrite Hdef. split; [done|]. right. bprop. lia.
  - assert (exists bl, blocks (length (wtbl c)) (wtbl c) = Some bl /\ wblocks c = bl) as (bl & Hb & Hw).
    { unfold wblocks, wtbl. destruct (c <? 0x1000); eexists; split; vm_compute; reflexivity. }
    rewrite Hw in Hout. pose proof (scan_outside _ _ _ _ Hb Hout) as Hs. rewrite Hs in Hdef |- *.
    cbn in Hdef. rewrite Hdef. auto.
Qed.

(** The scan of the up-case tables ends for every character;
    the up-case conversion is idempotent, keeps 16-bit codes in 16 bits and surrogate
    pairs unchanged, and maps no other character to 0. *)
Theorem wtoupper_idempotent c :
  0 <= c ->
  (c < 0x10000 -> wtoupper_scan (length (wtbl c)) (wtbl c) c = Some (ff_wtoupper c)) /\
  ff_wtoupper (ff_wtoupper c) = ff_wtoupper c /\
  (c < 0x10000 -> 0 <= ff_wtoupper c < 0x10000) /\ (0x10000 <= c -> ff_wtoupper c = c) /\
  (ff_wtoupper c = 0 -> c = 0).
Proof.
  intros Hc. destruct (decide (c < 0x10000)).
  - destruct (wtoupper_cases c) as [Hs Hr]; [lia|].
    split_and!; [done|..]; destruct Hr as [E|[? E]]; rewrite ?E; try done; lia.
  - assert (ff_wtoupper c = c) as E by (unfold ff_wtoupper; by rewrite (proj2 (Z.ltb_ge _ _)) by lia).
    split_and!; rewrite ?E; try done; lia.
Qed.

(** ** Properties of the code page conversions *)

(** The pairs of a flat table. *)
Fixpoint pairs_of (l : list Z) : list (Z * Z) :=
  match l with
  | a :: b :: l => (a, b) :: pairs_of l
  | _ => []
  end.

Lemma pairs_of_lookup l (i : nat) a b :
  pairs_of l !! i = Some (a, b) -> l.[Z.of_nat i * 2] = a /\ l.[Z.of_nat i * 2 + 1] = b.
Proof.
  revert i. induction l as [l IH] using (induction_ltof1 _ length). unfold ltof in IH.
  intros i. destruct l as [|x [|y l]]; [done..|]. cbn [pairs_of]. destruct i as [|i]; cbn.
  - intros [= -> ->]. done.
  - intros Hi. apply IH in Hi; [|cbn; lia]. unfold getb in *.
    replace (Z.to_nat (Z.of_nat (S i) * 2)) with (S (S (Z.to_nat (Z.of_nat i * 2)))) by lia.
    replace (Z.to_nat (Z.of_nat (S i) * 2 + 1)) with (S (S (Z.to_nat (Z.of_nat i * 2 + 1)))) by lia.
    done.
Qed.

(** A table of [N] entries in strictly increasing order. *)
Definition ordered (p : list Z) (N : Z) : Prop :=
  forall i j, 0 <= i < j -> j < N -> p.[i * 2] < p.[j * 2].

Lemma bisect_sound n p key li hi i :
  li < hi -> bisect n p key li hi = Some i -> p.[i * 2] = key /\ li <= i < hi.
Proof.
  revert li hi. induction n as [|n IH]; intros li hi Hlt; cbn [bisect]; [done|].
  assert (li <= li + (hi - li) / 2 < hi) as Hi by (Z.div_mod_to_equations; lia).
  destruct (key =? _) eqn:E1; [intros [= <-]; apply Z.eqb_eq in E1; lia|].
  destruct (_ <? key) eqn:E2; intros Hb; apply Z.eqb_neq in E1.
  - destruct (IH (li + (hi - li) / 2) hi ltac:(lia) Hb). lia.
  - apply Z.ltb_ge in E2. set (m := li + (hi - li) / 2) in *.
    destruct (decide (li < m)) as [Hm|Hm]; [destruct (IH li m Hm Hb); lia|].
    (* the interval is empty: the loop looks at [li] again and again *)
    exfalso. clear IH. assert (m = li) as Em by lia. rewrite Em in Hb, E1.
    assert (li + (li - li) / 2 = li) as Ez by (rewrite Z.sub_diag, Z.div_0_l; lia).
    induction n as [|n IHn]; cbn [bisect] in Hb; [done|]. rewrite Ez in Hb.
    rewrite (proj2 (Z.eqb_neq _ _)) in Hb by done. destruct (_ <? key); by apply IHn.
Qed.

Lemma bisect_complete n p key li hi k N :
  ordered p N -> 0 <= li -> hi <= N -> li <= k < hi -> p.[k * 2] = key ->
  hi - li <= 2 ^ (Z.of_nat n - 1) -> bisect n p key li hi = Some k.
Proof.
  intros Ho. revert li hi. induction n as [|n IH]; intros li hi Hl Hh Hk Hkey Hw.
  { cbn in Hw. lia. }
  cbn [bisect]. set (m := li + (hi - li) / 2).
  assert (li <= m < hi) as Hm by (unfold m; Z.div_mod_to_equations; lia).
  destruct (Z.eqb_spec key p.[m * 2]) as [E|E].
  { f_equal. destruct (Z.lt_trichotomy m k) as [Hlt|[->|Hlt]]; [|done|].
    - pose proof (Ho m k ltac:(lia) ltac:(lia)). lia.
    - pose proof (Ho k m ltac:(lia) ltac:(lia)). lia. }
  destruct n as [|n].
  { change (2 ^ (Z.of_nat 1 - 1)) with 1 in Hw. assert (m = k) as <- by lia. by destruct E. }
  assert (2 ^ (Z.of_nat (S (S n)) - 1) = 2 * 2 ^ (Z.of_nat (S n) - 1)) as Ep.
  { rewrite <- Z.pow_succ_r by lia. f_equal. lia. }
  assert (k <> m) by (intros ->; by destruct E).
  destruct (Z.ltb_spec p.[m * 2] key) as [Hlt|Hge].
  - assert (m < k). { destruct (decide (m < k)); [done|]. pose proof (Ho k m ltac:(lia) ltac:(lia)). lia. }
    apply IH; try done; try lia. unfold m. Z.div_mod_to_equations. lia.
  - assert (k < m). { destruct (decide (k < m)); [done|]. pose proof (Ho m k ltac:(lia) ltac:(lia)). lia. }
    apply IH; try done; try lia. unfold m. Z.div_mod_to_equations. lia.
Qed.

Fixpoint increasing (l : list (Z * Z)) : bool :=
  match l with
  | a :: (b :: _) as l' => (a.1 <? b.1) && increasing l'
  | _ => true
  end.

Lemma increasing_sorted l : increasing l = true -> StronglySorted (fun a b => a.1 < b.1) l.
Proof.
  intros Hi. apply Sorted_StronglySorted; [intros a b c; lia|].
  induction l as [|a [|b l] IH]; [constructor|by repeat constructor|].
  cbn in Hi. apply andb_true_iff in Hi as [H1 H2]. constructor; [by apply IH|].
  constructor. by apply Z.ltb_lt.
Qed.

(** What the checks of a table establish: [N] ordered pairs and one more, the end mark. *)
Record table_ok (p : list Z) (N : Z) : Prop := {
  tk_len : zlen p / 2 - 1 = N;
  tk_pairs : zlen (pairs_of p) = N + 1;
  tk_size : 0 < N <= 2 ^ 15;
  tk_sorted : increasing (take (Z.to_nat N) (pairs_of p)) = true
}.

Definition entries (p : list Z) (N : Z) : list (Z * Z) := take (Z.to_nat N) (pairs_of p).

Lemma entries_lookup p N i :
  table_ok p N -> 0 <= i < N -> entries p N !! Z.to_nat i = Some (p.[i * 2], p.[i * 2 + 1]).
Proof.
  intros [_ Hlen _ _] Hi. unfold entries, zlen in *. rewrite lookup_take_lt by lia.
  destruct (lookup_lt_is_Some_2 (pairs_of p) (Z.to_nat i)) as [[a b] E]; [lia|].
  rewrite E. apply pairs_of_lookup in E. rewrite Z2Nat.id in E by lia. by destruct E as [-> ->].
Qed.

Lemma table_ordered p N : table_ok p N -> ordered p N.
Proof.
  intros Ht i j Hij Hj. pose proof (increasing_sorted _ (tk_sorted _ _ Ht)) as Hs.
  pose proof (entries_lookup p N i Ht ltac:(lia)) as Ei.
  pose proof (entries_lookup p N j Ht ltac:(lia)) as Ej. unfold entries in *.
  assert (forall l : list (Z * Z), StronglySorted (fun a b => a.1 < b.1) l -> forall (i j : nat) a b,
    (i < j)%nat -> l !! i = Some a -> l !! j = Some b -> a.1 < b.1) as Hnth.
  { clear. induction 1 as [|x l Hs IH Hf]; intros i j a b Hij Ha Hb; [done|].
    destruct j as [|j]; [lia|]. destruct i as [|i]; cbn in *.
    - injection Ha as <-. rewrite Forall_forall in Hf. apply Hf. by eapply list_elem_of_lookup_2.
    - eapply IH; [|done..]. lia. }
  apply (Hnth _ Hs (Z.to_nat i) (Z.to_nat j) _ _ ltac:(lia) Ei Ej).
Qed.

(** The conversion by bisection is the lookup in the list of pairs. *)
Lemma lookup_cp_spec p N key v :
  table_ok p N -> v <> 0 -> (lookup_cp p key = v <-> (key, v) ∈ entries p N) \/ lookup_cp p key = 0.
Proof.
  intros Ht Hv. unfold lookup_cp. rewrite (tk_len _ _ Ht). pose proof (tk_size _ _ Ht).
  destruct (bisect 16 p key 0 N) as [i|] eqn:E; [left|by right].
  apply bisect_sound in E as [Hk Hi]; [|lia]. pose proof (entries_lookup p N i Ht Hi) as El.
  split.
  - intros <-. rewrite <- Hk. by eapply list_elem_of_lookup_2.
  - intros Hin. apply list_elem_of_lookup in Hin as [j Hj].
    pose proof (lookup_lt_Some _ _ _ Hj) as Hjl. unfold entries in Hjl at 1. rewrite length_take in Hjl.
    pose proof (entries_lookup p N (Z.of_nat j) Ht ltac:(lia)) as Ej. rewrite Nat2Z.id, Hj in Ej.
    injection Ej as E1 E2. pose proof (table_ordered p N Ht) as Ho.
    destruct (Z.lt_trichotomy i (Z.of_nat j)) as [Hlt|[->|Hlt]]; [|done|].
    + pose proof (Ho i (Z.of_nat j) ltac:(lia) ltac:(lia)). lia.
    + pose proof (Ho (Z.of_nat j) i ltac:(lia) ltac:(lia)). lia.
Qed.

Lemma lookup_cp_in p N key v :
  table_ok p N -> (key, v) ∈ entries p N -> lookup_cp p key = v.
Proof.
  intros Ht Hin. unfold lookup_cp. rewrite (tk_len _ _ Ht). pose proof (tk_size _ _ Ht).
  apply list_elem_of_lookup in Hin as [j Hj].
  pose proof (lookup_lt_Some _ _ _ Hj) as Hjl. unfold entries in Hjl at 1. rewrite length_take in Hjl.
  pose proof (entries_lookup p N (Z.of_nat j) Ht ltac:(lia)) as Ej. rewrite Nat2Z.id, Hj in Ej.
  injection Ej as E1 E2.
  rewrite (bisect_complete 16 p key 0 N (Z.of_nat j) N (table_ordered p N Ht)); [done|lia..|done|].
  cbn. lia.
Qed.

Lemma lookup_cp_out p N key :
  table_ok p N -> lookup_cp p key <> 0 -> (key, lookup_cp p key) ∈ entries p N.
Proof.
  intros Ht Hne. destruct (lookup_cp_spec p N key (lookup_cp p key) Ht Hne) as [[H _]|]; [auto|done].
Qed.

Definition cp_count := 7389.

Lemma uni2oem932_ok : table_ok uni2oem932 cp_count.
Proof.
  split; [vm_compute; reflexivity..|done|vm_compute; reflexivity].
Qed.

Lemma oem2uni932_ok : table_ok oem2uni932 cp_count.
Proof.
  split; [vm_compute; reflexivity..|done|vm_compute; reflexivity].
Qed.

(** One table is contained in the inverse of the other, all codes being above 0x7F. *)
Definition inverse_check (p q : list (Z * Z)) : bool :=
  let m : Pmap Z := list_to_map ((fun '(a, b) => (Z.to_pos a, b)) <$> q) in
  forallb (fun '(a, b) => (0x80 <=? a) && (0x80 <=? b) && (b <? 0x10000) &&
                          match m !! Z.to_pos b with Some c => c =? a | None => false end) p.

Lemma inverse_check_sound p q a b :
  inverse_check p q = true -> (forall x y, (x, y) ∈ q -> 0 < x) -> (a, b) ∈ p ->
  0x80 <= a /\ 0x80 <= b < 0x10000 /\ (b, a) ∈ q.
Proof.
  intros Hc Hpos Hin. unfold inverse_check in Hc. rewrite forallb_forall in Hc.
  specialize (Hc (a, b)). rewrite <- list_elem_of_In in Hc. specialize (Hc Hin). cbn in Hc.
  destruct (list_to_map _ !! _) as [c|] eqn:E; [|by rewrite andb_false_r in Hc].
  bprop. destruct Hc as [[[H1 H2] H3] ->]. split_and!; [done..|].
  apply elem_of_list_to_map_2, list_elem_of_fmap in E as ([x y] & [= E1 ->] & Hq).
  pose proof (Hpos x y Hq). assert (x = b) as -> by lia. done.
Qed.

(** The first members of both tables are above 0x7F. *)
Lemma entries_pos p :
  forallb (fun e => 0 <? e.1) (entries p cp_count) = true ->
  forall x y, (x, y) ∈ entries p cp_count -> 0 < x.
Proof.
  intros Hc x y Hin. rewrite forallb_forall in Hc. specialize (Hc (x, y)).
  rewrite <- list_elem_of_In in Hc. apply Z.ltb_lt. by apply Hc.
Qed.

Lemma cp932_inverse u o :
  (u, o) ∈ entries uni2oem932 cp_count <-> (o, u) ∈ entries oem2uni932 cp_count.
Proof.
  split; intros Hin.
  - eapply (inverse_check_sound (entries uni2oem932 cp_count) (entries oem2uni932 cp_count));
      [vm_compute; reflexivity|apply entries_pos; vm_compute; reflexivity|done].
  - eapply (inverse_check_sound (entries oem2uni932 cp_count) (entries uni2oem932 cp_count));
      [vm_compute; reflexivity|apply entries_pos; vm_compute; reflexivity|done].
Qed.

Lemma cp932_range u o :
  (u, o) ∈ entries uni2oem932 cp_count -> 0x80 <= u < 0x10000 /\ 0x80 <= o < 0x10000.
Proof.
  intros Hin. pose proof (proj1 (cp932_inverse u o) Hin) as Hin'.
  apply (inverse_check_sound (entries uni2oem932 cp_count) (entries oem2uni932 cp_count)) in Hin as (?&?&_);
    [|vm_compute; reflexivity|apply entries_pos; vm_compute; reflexivity].
  apply (inverse_check_sound (entries oem2uni932 cp_count) (entries uni2oem932 cp_count)) in Hin' as (?&?&_);
    [|vm_compute; reflexivity|apply entries_pos; vm_compute; reflexivity]. lia.
Qed.

(** Whenever the conversion of a character to code page 932
    succeeds (the result is not 0), the conversion back gives the character, and the
    other way round; the bisection thus finds every entry of the two tables. *)
Theorem cp932_roundtrip c :
  (0 <= c -> ff_uni2oem c 932 <> 0 -> ff_oem2uni (ff_uni2oem c 932) 932 = c) /\
  (0 <= c -> ff_oem2uni c 932 <> 0 -> ff_uni2oem (ff_oem2uni c 932) 932 = c).
Proof.
  split; intros Hc; unfold ff_uni2oem, ff_oem2uni; cbn [Z.eqb FF_CODE_PAGE Pos.eqb].
  - destruct (Z.ltb_spec c 0x80) as [Hs|Hs]; [by rewrite (proj2 (Z.ltb_lt _ _)) by lia|].
    rewrite andb_true_r. destruct (Z.ltb_spec c 0x10000); [|done].
    intros Hin%(lookup_cp_out _ _ _ uni2oem932_ok). pose proof (cp932_range _ _ Hin).
    rewrite (proj2 (Z.ltb_ge _ _)) by lia.
    apply (lookup_cp_in _ cp_count); [apply oem2uni932_ok|by apply cp932_inverse].
  - destruct (Z.ltb_spec c 0x80) as [Hs|Hs]; [by rewrite (proj2 (Z.ltb_lt _ _)) by lia|].
    intros Hin%(lookup_cp_out _ _ _ oem2uni932_ok). apply cp932_inverse in Hin.
    pose proof (cp932_range _ _ Hin). rewrite (proj2 (Z.ltb_ge _ 0x80)), (proj2 (Z.ltb_lt _ 0x10000)) by lia.
    cbn [andb]. apply (lookup_cp_in _ cp_count); [apply uni2oem932_ok|done].
Qed.

(** ** Properties of the UTF-16 coding *)

(** What [put_utf] writes for a character, [tchar2uni] reads back, the
    rest of the string left over; and what [tchar2uni] reads from a string of 16-bit
    units without error, [put_utf] writes as the same units, given room for two. *)
Theorem utf16_roundtrip :
  (forall chr szb rest, is_u32 chr -> put_utf chr szb <> [] ->
     tchar2uni (put_utf chr szb ++ rest) = (chr, rest)) /\
  (forall str szb chr rest, Forall is_u16 str -> str <> [] -> 2 <= szb ->
     tchar2uni str = (chr, rest) -> chr <> 0xFFFFFFFF -> str = put_utf chr szb ++ rest).
Proof.
  assert (forall h l, 0xD800 <= h <= 0xDBFF -> 0xDC00 <= l <= 0xDFFF ->
    Z.lor (u32 (Z.shiftl h 16)) l = l + 2 ^ 16 * h) as Hpair.
  { intros h l Hh Hl. rewrite Z.shiftl_mul_pow2, u32_small by (unfold is_u32; lia).
    rewrite <- Z.shiftl_mul_pow2 by lia. apply Bytes.shl_lor; lia. }
  split.
  - intros chr szb rest Hc. unfold put_utf.
    assert (u16 (Z.shiftr chr 16) = chr / 2 ^ 16) as ->.
    { rewrite Z.shiftr_div_pow2 by lia. apply u16_small. zlia. }
    assert (u16 chr = chr mod 2 ^ 16) as -> by done.
    destruct (Z.eqb_spec (chr / 2 ^ 16) 0) as [E|E].
    + destruct (IsSurrogate _) eqn:Es; [by rewrite orb_true_r|]. destruct (szb <? 1); [done|]. intros _.
      unfold tchar2uni. cbn [orb negb app drop]. rewrite getb_cons_0, Es. f_equal. zlia.
    + destruct (IsSurrogateH _) eqn:Eh; [|by rewrite orb_true_r, orb_true_l].
      destruct (IsSurrogateL _) eqn:El; [|by rewrite orb_true_r]. destruct (szb <? 2); [done|]. intros _.
      unfold tchar2uni. cbn [orb negb app drop]. rewrite !getb_cons_0, Eh, El.
      assert (IsSurrogate (chr / 2 ^ 16) = true) as -> by (unfold IsSurrogate, IsSurrogateH in *; bprop; lia).
      cbn [negb orb]. unfold IsSurrogateH, IsSurrogateL in *. bprop. rewrite Hpair by lia. f_equal. zlia.
  - intros str szb chr rest Hf Hne Hsz. unfold tchar2uni. destruct str as [|a str]; [done|].
    apply Forall_cons in Hf as [Ha Hf]. rewrite getb_cons_0. cbn [drop].
    destruct (IsSurrogate a) eqn:Es.
    + destruct str as [|b str].
      { cbn. rewrite orb_true_r. by intros [= <-]. }
      rewrite !drop_0, getb_cons_0. cbn [drop]. rewrite ?drop_0. destruct (IsSurrogateH a) eqn:Eh; [|by intros [= <-]].
      destruct (IsSurrogateL b) eqn:El; [|by intros [= <-]]. intros [= <- <-] _.
      pose proof Eh as Eh'. pose proof El as El'. unfold IsSurrogateH, IsSurrogateL in Eh', El'. bprop.
      rewrite Hpair by lia. unfold put_utf. rewrite Z.shiftr_div_pow2 by lia.
      assert ((b + 2 ^ 16 * a) / 2 ^ 16 = a) as -> by zlia. assert (u16 (b + 2 ^ 16 * a) = b) as -> by zlia.
      rewrite u16_small, Eh, El by done. rewrite (proj2 (Z.eqb_neq a 0)), (proj2 (Z.ltb_ge _ _)) by lia. done.
    + intros [= <- <-] _. unfold put_utf. rewrite Z.shiftr_div_pow2 by lia.
      assert (a / 2 ^ 16 = 0) as -> by zlia. rewrite (u16_small a), Es by done.
      rewrite (proj2 (Z.ltb_ge _ _)) by lia. done.
Qed.
