(* ===== verification/Diskio.v ===== *)
(** * The block device under the FAT driver

    [src/ff/src/ff/diskio.c] forwards the disk requests of the driver to the
    [ff_disk_*] functions of [src/ff/src/ff_extern.rs], which seek in and read or
    write a Rust object of type [T : Read + Write + Seek].

    - [BlockDevice] is the interface the FAT driver is written against and
      [BlockDeviceLaws] what the driver relies on;
    - Section [glue] models [diskio.c] and [ff_extern.rs] over an abstract [T]
      (class [Backend], with the documented behaviour of [std::io] in
      [BackendLaws]) and shows that they implement the interface when reads do not
      fail; [disk_read_swallows_error] shows what happens when they do;
    - [Cursor] is an executable device with defective sectors, used by the
      concrete runs. *)

From stdpp Require Import prelude list gmap.
From Stdlib Require Import ZArith Lia.
From S2P Require Import Prelude.

Local Open Scope Z_scope.

(** ** Interface *)

Inductive DRESULT := RES_OK | RES_ERROR | RES_WRPRT | RES_NOTRDY | RES_PARERR.

Global Instance DRESULT_eq_dec : EqDecision DRESULT.
Proof. solve_decision. Defined.

Definition res_ok (r : DRESULT) : bool := match r with RES_OK => true | _ => false end.

(** [disk_read d buff sector count] returns the result code, what [buff] holds
    afterwards, and the device. *)
Class BlockDevice (D : Type) := {
  sector_size : D -> Z;
  disk_read : D -> list Z -> Z -> Z -> DRESULT * list Z * D;
  disk_write : D -> list Z -> Z -> Z -> DRESULT * D;
  disk_ioctl_sync : D -> DRESULT * D
}.

(** [medium d x] is the content of sector [x]. *)
Class BlockDeviceLaws (D : Type) `{BlockDevice D} := {
  medium : D -> Z -> list Z;
  medium_len d x : length (medium d x) = Z.to_nat (sector_size d);
  medium_bytes d x : bytes (medium d x);
  read_ok d d' buf buf' s n :
    0 <= s -> 0 < n -> n * sector_size d <= zlen buf ->
    disk_read d buf s n = (RES_OK, buf', d') ->
    buf' = overlay (mjoin (medium d <$> seqZ s n)) buf;
  read_buf d d' buf buf' s n r :
    0 <= s -> 0 < n -> n * sector_size d <= zlen buf ->
    disk_read d buf s n = (r, buf', d') ->
    length buf' = length buf /\ (bytes buf -> bytes buf');
  read_frame d d' buf buf' s n r :
    disk_read d buf s n = (r, buf', d') ->
    sector_size d' = sector_size d /\ forall x, medium d' x = medium d x;
  write_ok d d' buf s n x :
    0 <= s -> 0 < n -> n * sector_size d <= zlen buf -> bytes buf ->
    disk_write d buf s n = (RES_OK, d') -> s <= x < s + n ->
    medium d' x = sub buf ((x - s) * sector_size d) (sector_size d);
  write_frame d d' buf s n r :
    0 <= s -> n * sector_size d <= zlen buf -> disk_write d buf s n = (r, d') ->
    sector_size d' = sector_size d /\
    forall x, 0 <= x -> ~ (s <= x < s + n) -> medium d' x = medium d x;
  sync_frame d d' r :
    disk_ioctl_sync d = (r, d') ->
    sector_size d' = sector_size d /\ forall x, medium d' x = medium d x
}.

(** No transfer fails. *)
Definition faultless (D : Type) `{BlockDevice D} : Prop :=
  (forall (d : D) buf x n, (disk_read d buf x n).1.1 = RES_OK) /\
  (forall (d : D) buf x n, (disk_write d buf x n).1 = RES_OK).

(** A one-sector read. *)
Lemma read_ok_1 {D} `{BlockDeviceLaws D} d d' buf buf' s :
  0 <= s -> sector_size d <= zlen buf ->
  disk_read d buf s 1 = (RES_OK, buf', d') -> buf' = overlay (medium d s) buf.
Proof.
  intros Hs Hl Hr. apply read_ok in Hr; [|lia..].
  rewrite Hr. change (seqZ s 1) with [Z.of_nat 0 + s]. cbn [fmap list_fmap mjoin list_join].
  by rewrite app_nil_r, Z.add_0_l.
Qed.

(** A one-sector write. *)
Lemma write_ok_1 {D} `{BlockDeviceLaws D} d d' buf s :
  0 <= s -> sector_size d <= zlen buf -> bytes buf ->
  disk_write d buf s 1 = (RES_OK, d') ->
  medium d' s = take (Z.to_nat (sector_size d)) buf.
Proof.
  intros Hs Hl Hb Hw. rewrite (write_ok d d' buf s 1 s) by (done || lia).
  unfold sub. by rewrite Z.sub_diag.
Qed.

(** ** diskio.c and ff_extern.rs *)

(** The Rust object behind [pdrv]: [bk_seek] is [seek(SeekFrom::Start(_))],
    [bk_read] is [Read::read] on a buffer of the given size ([None] for [Err]),
    the others are [write_all], [flush] and [Ioctl::sector_size]. *)
Class Backend (T : Type) := {
  bk_sector_size : T -> Z;
  bk_seek : T -> Z -> bool * T;
  bk_read : T -> Z -> option (list Z) * T;
  bk_write_all : T -> list Z -> bool * T;
  bk_flush : T -> bool * T
}.

(** What [std::io] documents of these operations, in terms of the byte at each
    offset and of the cursor.  [Read::read] may return fewer bytes than asked. *)
Class BackendLaws (T : Type) `{Backend T} := {
  bk_byte : T -> Z -> Z;
  bk_pos : T -> Z;
  bk_byte_u8 t i : is_u8 (bk_byte t i);
  bk_sector_size_pos t : 0 < bk_sector_size t;
  bk_seek_frame t t' p b : bk_seek t p = (b, t') ->
    bk_sector_size t' = bk_sector_size t /\ forall i, bk_byte t' i = bk_byte t i;
  bk_seek_ok t t' p : bk_seek t p = (true, t') -> bk_pos t' = p;
  bk_read_frame t t' n o : bk_read t n = (o, t') ->
    bk_sector_size t' = bk_sector_size t /\ forall i, bk_byte t' i = bk_byte t i;
  bk_read_ok t t' n bs : bk_read t n = (Some bs, t') ->
    zlen bs <= Z.max 0 n /\ bs = bk_byte t <$> seqZ (bk_pos t) (zlen bs);
  bk_write_frame t t' bs b : bk_write_all t bs = (b, t') ->
    bk_sector_size t' = bk_sector_size t /\
    forall i, ~ (bk_pos t <= i < bk_pos t + zlen bs) -> bk_byte t' i = bk_byte t i;
  bk_write_ok t t' bs : bk_write_all t bs = (true, t') ->
    forall i, 0 <= i < zlen bs -> bk_byte t' (bk_pos t + i) = u8 bs.[i];
  bk_flush_frame t t' b : bk_flush t = (b, t') ->
    bk_sector_size t' = bk_sector_size t /\ forall i, bk_byte t' i = bk_byte t i
}.

Section glue.
Context {T : Type} `{Backend T}.

Definition ff_disk_read (pdrv : T) (buff : list Z) (sector count : Z) : DRESULT * list Z * T :=
  let '(ok, inner) := bk_seek pdrv (sector * bk_sector_size pdrv) in
  if negb ok then (RES_ERROR, buff, inner) else
  let len := count * bk_sector_size inner in
  match bk_read inner len with
  | (Some bs, inner') =>
      if negb (zlen bs =? len) then (RES_ERROR, buff, inner')
      else (RES_OK, overlay bs buff, inner')
  | (None, inner') => (RES_OK, overlay (replicate (Z.to_nat len) 0) buff, inner')
  end.

Definition ff_disk_write (pdrv : T) (buff : list Z) (sector count : Z) : DRESULT * T :=
  let '(ok, inner) := bk_seek pdrv (sector * bk_sector_size pdrv) in
  if negb ok then (RES_ERROR, inner) else
  let slice := sub buff 0 (count * bk_sector_size inner) in
  let '(ok, inner') := bk_write_all inner slice in
  if negb ok then (RES_ERROR, inner') else (RES_OK, inner').

Definition ff_disk_ioctl_sync (pdrv : T) : DRESULT * T :=
  let '(ok, inner) := bk_flush pdrv in
  if negb ok then (RES_ERROR, inner) else (RES_OK, inner).

#[export] Instance diskio : BlockDevice T := {|
  sector_size := bk_sector_size;
  disk_read := ff_disk_read;
  disk_write := ff_disk_write;
  disk_ioctl_sync := ff_disk_ioctl_sync
|}.

Context `{!BackendLaws T}.

Definition bk_medium (t : T) (x : Z) : list Z :=
  bk_byte t <$> seqZ (x * bk_sector_size t) (bk_sector_size t).

(** The bytes of [n] consecutive sectors are consecutive. *)
Lemma bk_medium_join t s n : 0 <= n ->
  mjoin (bk_medium t <$> seqZ s n)
  = bk_byte t <$> seqZ (s * bk_sector_size t) (n * bk_sector_size t).
Proof.
  pose proof (bk_sector_size_pos t) as Hp. intros Hn.
  revert n Hn s. apply (natlike_ind (fun n => forall s, _)); [done|].
  intros n Hn IH s. rewrite seqZ_cons by lia. rewrite fmap_cons, Z.pred_succ.
  change (mjoin (?a :: ?l)) with (a ++ mjoin l). rewrite IH.
  unfold bk_medium. rewrite <- fmap_app. f_equal.
  replace (Z.succ n * bk_sector_size t)
    with (bk_sector_size t + n * bk_sector_size t) by lia.
  rewrite seqZ_app by nia. f_equal. f_equal. lia.
Qed.

Lemma ff_disk_read_ok t t' buf buf' s n :
  (forall t n, (bk_read t n).1 <> None) ->
  ff_disk_read t buf s n = (RES_OK, buf', t') -> 0 <= n ->
  buf' = overlay (mjoin (bk_medium t <$> seqZ s n)) buf.
Proof.
  intros Hne Hr Hn. unfold ff_disk_read in Hr.
  destruct (bk_seek t _) as [[] t1] eqn:Es; [|done]. cbn in Hr.
  pose proof (bk_seek_frame _ _ _ _ Es) as [Hss Hb]. apply bk_seek_ok in Es.
  specialize (Hne t1 (n * bk_sector_size t1)).
  destruct (bk_read t1 _) as [[bs|] t2] eqn:Er; [|done]. clear Hne.
  apply bk_read_ok in Er as [_ Hbs].
  destruct (zlen bs =? _) eqn:El; [|done]. apply Z.eqb_eq in El.
  injection Hr as <- _. f_equal. rewrite bk_medium_join by done.
  rewrite El, Es, Hss in Hbs. rewrite Hbs. apply list_fmap_ext. intros. apply Hb.
Qed.

Lemma length_bk_medium t x : length (bk_medium t x) = Z.to_nat (bk_sector_size t).
Proof. unfold bk_medium. by rewrite length_fmap, length_seqZ. Qed.

Lemma bytes_bk t l : bytes (bk_byte t <$> l).
Proof. apply Forall_fmap, Forall_true. intros. apply bk_byte_u8. Qed.

Lemma bk_medium_ext t t' x :
  bk_sector_size t' = bk_sector_size t ->
  (forall i, x * bk_sector_size t <= i < (x + 1) * bk_sector_size t ->
     bk_byte t' i = bk_byte t i) ->
  bk_medium t' x = bk_medium t x.
Proof.
  intros Hs He. unfold bk_medium. rewrite Hs. apply list_fmap_ext.
  intros i y Hy%lookup_seqZ. apply He. lia.
Qed.
End glue.

(** Reads do not fail: the condition under which the glue is a block device. *)
Class BackendReads (T : Type) `{Backend T} := {
  bk_read_no_err t n : (bk_read t n).1 <> None
}.

Section glue_laws.
Context {T : Type} `{BackendLaws T}.

Lemma ff_disk_read_frame t t' buf buf' s n r :
  ff_disk_read t buf s n = (r, buf', t') ->
  bk_sector_size t' = bk_sector_size t /\ forall x, bk_medium t' x = bk_medium t x.
Proof.
  unfold ff_disk_read. intros Hr.
  destruct (bk_seek t _) as [ok t1] eqn:Es. apply bk_seek_frame in Es as [Hs1 Hb1].
  destruct (bk_read t1 _) as [o t2] eqn:Er. apply bk_read_frame in Er as [Hs2 Hb2].
  assert (t' = t1 \/ t' = t2) as [->| ->].
  { destruct ok; cbn in Hr; [|by simplify_eq; left].
    destruct o; [destruct (_ =? _); cbn in Hr|]; simplify_eq; by right. }
  - split; [done|]. intros. by apply bk_medium_ext.
  - split; [congruence|]. intros. apply bk_medium_ext; [congruence|]. intros.
    by rewrite Hb2.
Qed.

Lemma ff_disk_write_frame t t' buf s n r :
  0 <= s -> n * bk_sector_size t <= zlen buf -> ff_disk_write t buf s n = (r, t') ->
  bk_sector_size t' = bk_sector_size t /\
  forall x, 0 <= x -> ~ (s <= x < s + n) -> bk_medium t' x = bk_medium t x.
Proof.
  intros Hs0 Hl Hr. unfold ff_disk_write in Hr. pose proof (bk_sector_size_pos t).
  destruct (bk_seek t _) as [[] t1] eqn:Es; cbn in Hr;
    pose proof (bk_seek_frame _ _ _ _ Es) as [Hs1 Hb1].
  2:{ simplify_eq. split; [done|]. intros. by apply bk_medium_ext. }
  apply bk_seek_ok in Es.
  destruct (bk_write_all t1 _) as [ok t2] eqn:Ew. apply bk_write_frame in Ew as [Hs2 Hb2].
  assert (t' = t2) as -> by (destruct ok; simplify_eq/=; done).
  split; [congruence|]. intros x Hx Hn. apply bk_medium_ext; [congruence|].
  intros i Hi. rewrite Hb2, Hb1; [done|]. unfold sub, zlen in *.
  rewrite length_take, length_drop, Es, Hs1. nia.
Qed.

Lemma ff_disk_write_ok t t' buf s n x :
  0 <= s -> 0 < n -> n * bk_sector_size t <= zlen buf -> bytes buf ->
  ff_disk_write t buf s n = (RES_OK, t') -> s <= x < s + n ->
  bk_medium t' x = sub buf ((x - s) * bk_sector_size t) (bk_sector_size t).
Proof.
  intros Hs Hn Hl Hby Hr Hx. unfold ff_disk_write in Hr. pose proof (bk_sector_size_pos t).
  destruct (bk_seek t _) as [[] t1] eqn:Es; cbn in Hr; [|done].
  pose proof (bk_seek_frame _ _ _ _ Es) as [Hs1 _]. apply bk_seek_ok in Es.
  destruct (bk_write_all t1 _) as [[] t2] eqn:Ew; cbn in Hr; [|done].
  pose proof (bk_write_frame _ _ _ _ Ew) as [Hs2 _]. simplify_eq.
  pose proof (bk_write_ok _ _ _ Ew) as Hw. set (ss := bk_sector_size t) in *.
  unfold bk_medium. rewrite Hs2, Hs1. fold ss. apply list_eq. intros i.
  unfold sub in *. rewrite Hs1 in Hw. fold ss in Hw.
  destruct (decide (Z.of_nat i < ss)) as [Hi|Hi].
  2:{ rewrite !lookup_ge_None_2; [done| |];
        rewrite ?length_take, ?length_drop, ?length_fmap, ?length_seqZ; lia. }
  rewrite list_lookup_fmap, lookup_seqZ_lt by lia. cbn.
  rewrite lookup_take_lt, lookup_drop by lia. unfold zlen in *.
  destruct (lookup_lt_is_Some_2 buf (Z.to_nat ((x - s) * ss) + i)) as [v Hv]; [nia|].
  rewrite Hv. f_equal.
  replace (x * ss + Z.of_nat i) with (bk_pos t1 + ((x - s) * ss + Z.of_nat i))
    by (rewrite Es; lia).
  rewrite Hw by (rewrite length_take, length_drop; nia).
  assert (take (Z.to_nat (n * ss)) (drop (Z.to_nat 0) buf) !! Z.to_nat ((x - s) * ss + Z.of_nat i)
          = Some v) as Hl'.
  { rewrite lookup_take_lt by nia. rewrite lookup_drop, <- Hv. f_equal. nia. }
  rewrite (getb_lookup _ _ v) by (done || nia). apply u8_small.
  by eapply Forall_lookup_1 in Hv.
Qed.

Context `{!BackendReads T}.

#[export] Program Instance diskio_laws : BlockDeviceLaws T := {|
  medium := bk_medium
|}.
Next Obligation. intros. apply length_bk_medium. Qed.
Next Obligation. intros. apply bytes_bk. Qed.
Next Obligation.
  intros. eapply ff_disk_read_ok; [|done|lia]. intros. apply bk_read_no_err.
Qed.
Next Obligation.
  intros t t' buf buf' s n r Hs Hn Hl Hr. cbn in *. unfold ff_disk_read in Hr.
  destruct (bk_seek t _) as [[] t1] eqn:Es; cbn in Hr; [|by simplify_eq].
  apply bk_seek_frame in Es as [Hs1 _]. pose proof (bk_read_no_err t1 (n * bk_sector_size t1)).
  destruct (bk_read t1 _) as [[bs|] t2] eqn:Er; [|done].
  apply bk_read_ok in Er as [Hle Hbs]. destruct (_ =? _); simplify_eq/=; [|done].
  unfold zlen in *. rewrite length_overlay by (rewrite <- Hs1 in Hl; pose proof (bk_sector_size_pos t1); nia). split; [done|].
  intros. apply bytes_overlay; [|done]. rewrite Hbs. apply bytes_bk.
Qed.
Next Obligation. apply ff_disk_read_frame. Qed.
Next Obligation. apply ff_disk_write_ok. Qed.
Next Obligation. apply ff_disk_write_frame. Qed.
Next Obligation.
  intros t t' r Hr. cbn in *. unfold ff_disk_ioctl_sync in Hr.
  destruct (bk_flush t) as [ok t1] eqn:E. apply bk_flush_frame in E as [H1 H2].
  assert (t' = t1) as -> by (destruct ok; simplify_eq/=; done).
  split; [done|]. intros. by apply bk_medium_ext.
Qed.
End glue_laws.

(** ** An executable backend: a byte vector with a cursor, as [std::io::Cursor]

    Seeking to an offset of [cu_bad] fails, which gives a disk with defective
    sectors. *)
Record Cursor := mkCursor {
  cu_bytes : list Z;
  cu_pos : Z;
  cu_ss : Z;
  cu_bad : list Z
}.

Definition cu_set (c : Cursor) (bs : list Z) (p : Z) : Cursor :=
  mkCursor bs p (cu_ss c) (cu_bad c).

Definition cu_size (c : Cursor) : Z := Z.max 1 (cu_ss c).

Global Instance Cursor_backend : Backend Cursor := {|
  bk_sector_size := cu_size;
  bk_seek c p :=
    if bool_decide (p ∈ cu_bad c) || (p <? 0) then (false, c)
    else (true, cu_set c (cu_bytes c) p);
  bk_read c n :=
    let bs := u8 <$> sub (cu_bytes c) (cu_pos c) n in
    (Some bs, cu_set c (cu_bytes c) (cu_pos c + zlen bs));
  bk_write_all c bs :=
    if (cu_pos c <? 0) || (zlen (cu_bytes c) <? cu_pos c + zlen bs) then (false, c)
    else (true, cu_set c (take (Z.to_nat (cu_pos c)) (cu_bytes c) ++ bs
                          ++ drop (Z.to_nat (cu_pos c) + length bs) (cu_bytes c))
                       (cu_pos c + zlen bs));
  bk_flush c := (true, c)
|}.

Global Program Instance Cursor_laws : BackendLaws Cursor := {|
  bk_byte c i := if i <? 0 then 0 else u8 (cu_bytes c).[i];
  bk_pos c := Z.max 0 (cu_pos c)
|}.
Next Obligation. intros. cbn. bdestr; auto with ff. done. Qed.
Next Obligation. intros. cbn. unfold cu_size. lia. Qed.
Next Obligation. intros c c' p b. cbn. bdestr; intros; simplify_eq; done. Qed.
Next Obligation.
  intros c c' p. cbn. bdestr; intros; simplify_eq. cbn. lia.
Qed.
Next Obligation. intros c c' p b. cbn. intros; simplify_eq. done. Qed.
Next Obligation.
  intros c c' n bs. cbn. intros Hr. injection Hr as <- <-. unfold zlen, sub in *.
  rewrite length_fmap, length_take, length_drop. split; [lia|].
  apply list_eq. intros i. rewrite !list_lookup_fmap.
  destruct (decide (i < Z.to_nat n `min` (length (cu_bytes c) - Z.to_nat (cu_pos c)))%nat).
  - rewrite lookup_seqZ_lt, lookup_take_lt, lookup_drop by lia. cbn.
    rewrite (proj2 (Z.ltb_ge _ _)) by lia. unfold getb.
    destruct (lookup_lt_is_Some_2 (cu_bytes c) (Z.to_nat (cu_pos c) + i)) as [v Hv]; [lia|].
    rewrite Hv. cbn. do 2 f_equal. symmetry. apply nth_lookup_Some. rewrite <- Hv. f_equal. lia.
  - rewrite lookup_seqZ_ge by lia. rewrite lookup_ge_None_2; [done|].
    rewrite length_take, length_drop. lia.
Qed.
Next Obligation.
  intros c c' bs b. cbn. bdestr; intros; simplify_eq; [done|].
  cbn. split; [done|]. intros i Hi. destruct (i <? 0) eqn:E0; [done|].
  apply Z.ltb_ge in E0. f_equal. unfold getb, zlen in *. rewrite !nth_lookup. f_equal.
  destruct (decide (i < cu_pos c)).
  - rewrite lookup_app_l, lookup_take_lt; [done|lia|rewrite length_take; lia].
  - rewrite lookup_app_r, length_take by (rewrite length_take; lia).
    rewrite lookup_app_r by lia. rewrite lookup_drop. f_equal. lia.
Qed.
Next Obligation.
  intros c c' bs. cbn. bdestr; intros Hw; [done|]. injection Hw as <-. cbn.
  intros i Hi. unfold zlen in *. rewrite (proj2 (Z.ltb_ge _ _)) by lia. f_equal.
  unfold getb. rewrite !nth_lookup. f_equal.
  rewrite lookup_app_r, length_take by (rewrite length_take; lia).
  rewrite lookup_app_l by lia. f_equal. lia.
Qed.
Next Obligation. intros c c' b. cbn. intros; simplify_eq. done. Qed.

Global Instance Cursor_reads : BackendReads Cursor.
Proof. constructor. intros. done. Qed.

(** A backend whose reads fail, as an unplugged device. *)
Record Unplugged := mkUnplugged { up_ss : Z }.

Global Instance Unplugged_backend : Backend Unplugged := {|
  bk_sector_size := up_ss;
  bk_seek c p := (true, c);
  bk_read c n := (None, c);
  bk_write_all c bs := (false, c);
  bk_flush c := (false, c)
|}.

(** ** What an I/O error does to a read

    The [if let Ok(read_count) = inner.read(..)] of [ff_disk_read] has no branch
    for [Err]: the buffer of zeros is copied out and the read reported good. *)
Lemma ff_disk_read_error {T} `{Backend T} (t t1 t2 : T) buf s n :
  bk_seek t (s * bk_sector_size t) = (true, t1) ->
  bk_read t1 (n * bk_sector_size t1) = (None, t2) ->
  ff_disk_read t buf s n
  = (RES_OK, overlay (replicate (Z.to_nat (n * bk_sector_size t1)) 0) buf, t2).
Proof. intros Hs Hr. unfold ff_disk_read. by rewrite Hs, Hr. Qed.

(** When the seek succeeds and the read of the Rust
    object fails, the disk read reports success all the same and hands the driver a
    buffer of zeros in place of the sectors; the driver then takes the zeros for the
    content of the medium. *)
Theorem disk_read_swallows_error {T} `{Backend T} (t t1 t2 : T) buf s n :
  bk_seek t (s * bk_sector_size t) = (true, t1) ->
  bk_read t1 (n * bk_sector_size t1) = (None, t2) ->
  disk_read t buf s n
  = (RES_OK, overlay (replicate (Z.to_nat (n * bk_sector_size t1)) 0) buf, t2).
Proof. apply ff_disk_read_error. Qed.

(** With the glue over any object that behaves as [std::io]
    documents and whose reads do not fail, sectors written with success are what a
    successful read of the same sectors returns. *)
Theorem disk_write_then_read {T} `{BackendLaws T} `{!BackendReads T} (t t1 t2 : T) buf buf2 buf3 s :
  0 <= s -> bk_sector_size t <= zlen buf -> bytes buf -> bk_sector_size t <= zlen buf2 ->
  disk_write t buf s 1 = (RES_OK, t1) -> disk_read t1 buf2 s 1 = (RES_OK, buf3, t2) ->
  take (Z.to_nat (bk_sector_size t)) buf3 = take (Z.to_nat (bk_sector_size t)) buf.
Proof.
  intros Hs Hl Hb Hl2 Hw Hr. pose proof Hw as [Hss _]%write_frame; [|done|cbn; lia].
  apply write_ok_1 in Hw; [|done..]. cbn in Hss.
  apply read_ok_1 in Hr; [|done|cbn; lia]. rewrite Hr, Hw. cbn [sector_size diskio].
  apply take_overlay. rewrite length_take. unfold zlen in Hl. lia.
Qed.
