(* ===== verification/FFTypes.v ===== *)
(** * Data types of the FAT driver

    The constants of [src/ff/src/ff/ff.h] and [ff.c] the model uses, the result
    codes, and the filesystem and object structures.  The configuration is the one
    of [src/ff/src/ff/ffconf.h]: read-write, LFN with buffers on the heap, UTF-16
    names, code page 932, sectors of 512 to 4096 bytes, exFAT, 32-bit LBA, no file
    locks, one volume. *)

From stdpp Require Import prelude list.
From Stdlib Require Import ZArith Lia.
From S2P Require Import Prelude Diskio.

Local Open Scope Z_scope.

(** ** Constants *)

Definition FS_FAT12 := 1.
Definition FS_FAT16 := 2.
Definition FS_FAT32 := 3.
Definition FS_EXFAT := 4.

Definition FF_MAX_SS := 4096.
Definition FF_MAX_LFN := 255.
Definition SZDIRE := 32.
Definition MAX_DIR := 0x200000.
Definition MAX_DIR_EX := 0x10000000.
Definition MAX_FAT12 := 0xFF5.
Definition MAX_FAT16 := 0xFFF5.
Definition MAX_FAT32 := 0x0FFFFFF5.
Definition MAX_EXFAT := 0x7FFFFFFD.

Definition DISK_ERR := 0xFFFFFFFF.

(** ** Result codes *)

Inductive FRESULT :=
  | FR_OK | FR_DISK_ERR | FR_INT_ERR | FR_NOT_READY | FR_NO_FILE | FR_NO_PATH
  | FR_INVALID_NAME | FR_DENIED | FR_EXIST | FR_INVALID_OBJECT | FR_WRITE_PROTECTED
  | FR_INVALID_DRIVE | FR_NOT_ENABLED | FR_NO_FILESYSTEM | FR_MKFS_ABORTED | FR_TIMEOUT
  | FR_LOCKED | FR_NOT_ENOUGH_CORE | FR_TOO_MANY_OPEN_FILES | FR_INVALID_PARAMETER.

Global Instance FRESULT_eq_dec : EqDecision FRESULT.
Proof. solve_decision. Defined.

(** [r == FR_OK] *)
Definition fr_ok (r : FRESULT) : bool := match r with FR_OK => true | _ => false end.

Lemma fr_ok_true r : fr_ok r = true <-> r = FR_OK.
Proof. by destruct r. Qed.
Lemma fr_ok_false r : fr_ok r = false <-> r <> FR_OK.
Proof. by destruct r. Qed.

(** ** The filesystem object *)

Record FATFS := mkFATFS {
  fs_type : Z;
  n_fats : Z;
  wflag : Z;
  fsi_flag : Z;
  fsid : Z;
  n_rootdir : Z;
  csize : Z;
  ssize : Z;
  last_clst : Z;
  free_clst : Z;
  n_fatent : Z;
  fsize : Z;
  volbase : Z;
  fatbase : Z;
  dirbase : Z;
  database : Z;
  bitbase : Z;
  winsect : Z;
  win : list Z;
  lfnbuf : list Z;
  dirbuf : list Z
}.

(** Assignments to the members. *)
Definition set_fs_type (v : Z) (fs : FATFS) : FATFS :=
  mkFATFS v fs.(n_fats) fs.(wflag) fs.(fsi_flag) fs.(fsid) fs.(n_rootdir) fs.(csize)
    fs.(ssize) fs.(last_clst) fs.(free_clst) fs.(n_fatent) fs.(fsize)
    fs.(volbase) fs.(fatbase) fs.(dirbase) fs.(database) fs.(bitbase)
    fs.(winsect) fs.(win) fs.(lfnbuf) fs.(dirbuf).
Definition set_n_fats (v : Z) (fs : FATFS) : FATFS :=
  mkFATFS fs.(fs_type) v fs.(wflag) fs.(fsi_flag) fs.(fsid) fs.(n_rootdir) fs.(csize)
    fs.(ssize) fs.(last_clst) fs.(free_clst) fs.(n_fatent) fs.(fsize)
    fs.(volbase) fs.(fatbase) fs.(dirbase) fs.(database) fs.(bitbase)
    fs.(winsect) fs.(win) fs.(lfnbuf) fs.(dirbuf).
Definition set_wflag (v : Z) (fs : FATFS) : FATFS :=
  mkFATFS fs.(fs_type) fs.(n_fats) v fs.(fsi_flag) fs.(fsid) fs.(n_rootdir) fs.(csize)
    fs.(ssize) fs.(last_clst) fs.(free_clst) fs.(n_fatent) fs.(fsize)
    fs.(volbase) fs.(fatbase) fs.(dirbase) fs.(database) fs.(bitbase)
    fs.(winsect) fs.(win) fs.(lfnbuf) fs.(dirbuf).
Definition set_fsi_flag (v : Z) (fs : FATFS) : FATFS :=
  mkFATFS fs.(fs_type) fs.(n_fats) fs.(wflag) v fs.(fsid) fs.(n_rootdir) fs.(csize)
    fs.(ssize) fs.(last_clst) fs.(free_clst) fs.(n_fatent) fs.(fsize)
    fs.(volbase) fs.(fatbase) fs.(dirbase) fs.(database) fs.(bitbase)
    fs.(winsect) fs.(win) fs.(lfnbuf) fs.(dirbuf).
Definition set_fsid (v : Z) (fs : FATFS) : FATFS :=
  mkFATFS fs.(fs_type) fs.(n_fats) fs.(wflag) fs.(fsi_flag) v fs.(n_rootdir) fs.(csize)
    fs.(ssize) fs.(last_clst) fs.(free_clst) fs.(n_fatent) fs.(fsize)
    fs.(volbase) fs.(fatbase) fs.(dirbase) fs.(database) fs.(bitbase)
    fs.(winsect) fs.(win) fs.(lfnbuf) fs.(dirbuf).
Definition set_n_rootdir (v : Z) (fs : FATFS) : FATFS :=
  mkFATFS fs.(fs_type) fs.(n_fats) fs.(wflag) fs.(fsi_flag) fs.(fsid) v fs.(csize)
    fs.(ssize) fs.(last_clst) fs.(free_clst) fs.(n_fatent) fs.(fsize)
    fs.(volbase) fs.(fatbase) fs.(dirbase) fs.(database) fs.(bitbase)
    fs.(winsect) fs.(win) fs.(lfnbuf) fs.(dirbuf).
Definition set_csize (v : Z) (fs : FATFS) : FATFS :=
  mkFATFS fs.(fs_type) fs.(n_fats) fs.(wflag) fs.(fsi_flag) fs.(fsid) fs.(n_rootdir) v
    fs.(ssize) fs.(last_clst) fs.(free_clst) fs.(n_fatent) fs.(fsize)
    fs.(volbase) fs.(fatbase) fs.(dirbase) fs.(database) fs.(bitbase)
    fs.(winsect) fs.(win) fs.(lfnbuf) fs.(dirbuf).
Definition set_ssize (v : Z) (fs : FATFS) : FATFS :=
  mkFATFS fs.(fs_type) fs.(n_fats) fs.(wflag) fs.(fsi_flag) fs.(fsid) fs.(n_rootdir)
    fs.(csize) v fs.(last_clst) fs.(free_clst) fs.(n_fatent) fs.(fsize)
    fs.(volbase) fs.(fatbase) fs.(dirbase) fs.(database) fs.(bitbase)
    fs.(winsect) fs.(win) fs.(lfnbuf) fs.(dirbuf).
Definition set_last_clst (v : Z) (fs : FATFS) : FATFS :=
  mkFATFS fs.(fs_type) fs.(n_fats) fs.(wflag) fs.(fsi_flag) fs.(fsid) fs.(n_rootdir)
    fs.(csize) fs.(ssize) v fs.(free_clst) fs.(n_fatent) fs.(fsize)
    fs.(volbase) fs.(fatbase) fs.(dirbase) fs.(database) fs.(bitbase)
    fs.(winsect) fs.(win) fs.(lfnbuf) fs.(dirbuf).
Definition set_free_clst (v : Z) (fs : FATFS) : FATFS :=
  mkFATFS fs.(fs_type) fs.(n_fats) fs.(wflag) fs.(fsi_flag) fs.(fsid) fs.(n_rootdir)
    fs.(csize) fs.(ssize) fs.(last_clst) v fs.(n_fatent) fs.(fsize)
    fs.(volbase) fs.(fatbase) fs.(dirbase) fs.(database) fs.(bitbase)
    fs.(winsect) fs.(win) fs.(lfnbuf) fs.(dirbuf).
Definition set_n_fatent (v : Z) (fs : FATFS) : FATFS :=
  mkFATFS fs.(fs_type) fs.(n_fats) fs.(wflag) fs.(fsi_flag) fs.(fsid) fs.(n_rootdir)
    fs.(csize) fs.(ssize) fs.(last_clst) fs.(free_clst) v fs.(fsize)
    fs.(volbase) fs.(fatbase) fs.(dirbase) fs.(database) fs.(bitbase)
    fs.(winsect) fs.(win) fs.(lfnbuf) fs.(dirbuf).
Definition set_fsize (v : Z) (fs : FATFS) : FATFS :=
  mkFATFS fs.(fs_type) fs.(n_fats) fs.(wflag) fs.(fsi_flag) fs.(fsid) fs.(n_rootdir)
    fs.(csize) fs.(ssize) fs.(last_clst) fs.(free_clst) fs.(n_fatent) v
    fs.(volbase) fs.(fatbase) fs.(dirbase) fs.(database) fs.(bitbase)
    fs.(winsect) fs.(win) fs.(lfnbuf) fs.(dirbuf).
Definition set_volbase (v : Z) (fs : FATFS) : FATFS :=
  mkFATFS fs.(fs_type) fs.(n_fats) fs.(wflag) fs.(fsi_flag) fs.(fsid) fs.(n_rootdir)
    fs.(csize) fs.(ssize) fs.(last_clst) fs.(free_clst) fs.(n_fatent)
    fs.(fsize) v fs.(fatbase) fs.(dirbase) fs.(database) fs.(bitbase)
    fs.(winsect) fs.(win) fs.(lfnbuf) fs.(dirbuf).
Definition set_fatbase (v : Z) (fs : FATFS) : FATFS :=
  mkFATFS fs.(fs_type) fs.(n_fats) fs.(wflag) fs.(fsi_flag) fs.(fsid) fs.(n_rootdir)
    fs.(csize) fs.(ssize) fs.(last_clst) fs.(free_clst) fs.(n_fatent)
    fs.(fsize) fs.(volbase) v fs.(dirbase) fs.(database) fs.(bitbase)
    fs.(winsect) fs.(win) fs.(lfnbuf) fs.(dirbuf).
Definition set_dirbase (v : Z) (fs : FATFS) : FATFS :=
  mkFATFS fs.(fs_type) fs.(n_fats) fs.(wflag) fs.(fsi_flag) fs.(fsid) fs.(n_rootdir)
    fs.(csize) fs.(ssize) fs.(last_clst) fs.(free_clst) fs.(n_fatent)
    fs.(fsize) fs.(volbase) fs.(fatbase) v fs.(database) fs.(bitbase)
    fs.(winsect) fs.(win) fs.(lfnbuf) fs.(dirbuf).
Definition set_database (v : Z) (fs : FATFS) : FATFS :=
  mkFATFS fs.(fs_type) fs.(n_fats) fs.(wflag) fs.(fsi_flag) fs.(fsid) fs.(n_rootdir)
    fs.(csize) fs.(ssize) fs.(last_clst) fs.(free_clst) fs.(n_fatent)
    fs.(fsize) fs.(volbase) fs.(fatbase) fs.(dirbase) v fs.(bitbase)
    fs.(winsect) fs.(win) fs.(lfnbuf) fs.(dirbuf).
Definition set_bitbase (v : Z) (fs : FATFS) : FATFS :=
  mkFATFS fs.(fs_type) fs.(n_fats) fs.(wflag) fs.(fsi_flag) fs.(fsid) fs.(n_rootdir)
    fs.(csize) fs.(ssize) fs.(last_clst) fs.(free_clst) fs.(n_fatent)
    fs.(fsize) fs.(volbase) fs.(fatbase) fs.(dirbase) fs.(database) v
    fs.(winsect) fs.(win) fs.(lfnbuf) fs.(dirbuf).
Definition set_winsect (v : Z) (fs : FATFS) : FATFS :=
  mkFATFS fs.(fs_type) fs.(n_fats) fs.(wflag) fs.(fsi_flag) fs.(fsid) fs.(n_rootdir)
    fs.(csize) fs.(ssize) fs.(last_clst) fs.(free_clst) fs.(n_fatent)
    fs.(fsize) fs.(volbase) fs.(fatbase) fs.(dirbase) fs.(database)
    fs.(bitbase) v fs.(win) fs.(lfnbuf) fs.(dirbuf).
Definition set_win (v : list Z) (fs : FATFS) : FATFS :=
  mkFATFS fs.(fs_type) fs.(n_fats) fs.(wflag) fs.(fsi_flag) fs.(fsid) fs.(n_rootdir)
    fs.(csize) fs.(ssize) fs.(last_clst) fs.(free_clst) fs.(n_fatent)
    fs.(fsize) fs.(volbase) fs.(fatbase) fs.(dirbase) fs.(database)
    fs.(bitbase) fs.(winsect) v fs.(lfnbuf) fs.(dirbuf).
Definition set_lfnbuf (v : list Z) (fs : FATFS) : FATFS :=
  mkFATFS fs.(fs_type) fs.(n_fats) fs.(wflag) fs.(fsi_flag) fs.(fsid) fs.(n_rootdir)
    fs.(csize) fs.(ssize) fs.(last_clst) fs.(free_clst) fs.(n_fatent)
    fs.(fsize) fs.(volbase) fs.(fatbase) fs.(dirbase) fs.(database)
    fs.(bitbase) fs.(winsect) fs.(win) v fs.(dirbuf).
Definition set_dirbuf (v : list Z) (fs : FATFS) : FATFS :=
  mkFATFS fs.(fs_type) fs.(n_fats) fs.(wflag) fs.(fsi_flag) fs.(fsid) fs.(n_rootdir)
    fs.(csize) fs.(ssize) fs.(last_clst) fs.(free_clst) fs.(n_fatent)
    fs.(fsize) fs.(volbase) fs.(fatbase) fs.(dirbase) fs.(database)
    fs.(bitbase) fs.(winsect) fs.(win) fs.(lfnbuf) v.

(** ** Object identifier and allocation information *)

Record FFOBJID := mkFFOBJID {
  obj_id : Z;       (* hosting volume mount ID *)
  obj_attr : Z;     (* object attribute *)
  obj_stat : Z;     (* chain status: 0 FAT chain, 2 contiguous, 3 fragmented in this session *)
  sclust : Z;       (* start cluster, 0 for none or the root directory *)
  objsize : Z;      (* object size, 64 bits *)
  n_cont : Z;       (* size of first fragment - 1, valid when stat is 3 *)
  n_frag : Z;       (* size of last fragment to be written to the FAT *)
  c_scl : Z;        (* containing directory start cluster *)
  c_size : Z;       (* size of the containing directory and its chain status *)
  c_ofs : Z         (* offset in the containing directory *)
}.

Definition set_stat (v : Z) (o : FFOBJID) : FFOBJID :=
  mkFFOBJID o.(obj_id) o.(obj_attr) v o.(sclust) o.(objsize) o.(n_cont) o.(n_frag)
    o.(c_scl) o.(c_size) o.(c_ofs).
Definition set_n_cont (v : Z) (o : FFOBJID) : FFOBJID :=
  mkFFOBJID o.(obj_id) o.(obj_attr) o.(obj_stat) o.(sclust) o.(objsize) v o.(n_frag)
    o.(c_scl) o.(c_size) o.(c_ofs).
Definition set_n_frag (v : Z) (o : FFOBJID) : FFOBJID :=
  mkFFOBJID o.(obj_id) o.(obj_attr) o.(obj_stat) o.(sclust) o.(objsize) o.(n_cont) v
    o.(c_scl) o.(c_size) o.(c_ofs).
Definition set_sclust (v : Z) (o : FFOBJID) : FFOBJID :=
  mkFFOBJID o.(obj_id) o.(obj_attr) o.(obj_stat) v o.(objsize) o.(n_cont) o.(n_frag)
    o.(c_scl) o.(c_size) o.(c_ofs).
Definition set_objsize (v : Z) (o : FFOBJID) : FFOBJID :=
  mkFFOBJID o.(obj_id) o.(obj_attr) o.(obj_stat) o.(sclust) v o.(n_cont) o.(n_frag)
    o.(c_scl) o.(c_size) o.(c_ofs).

(** ** The store: a mounted filesystem object and the device behind [pdrv] *)

Record St (D : Type) := mkSt { fsys : FATFS; dev : D }.
Arguments mkSt {D} _ _.
Arguments fsys {D} _.
Arguments dev {D} _.

Section store.
Context {D : Type} `{BlockDevice D}.

Definition get_fs : M (St D) FATFS := gets fsys.
Definition upd_fs (g : FATFS -> FATFS) : M (St D) unit :=
  modify (fun s => mkSt (g (fsys s)) (dev s)).

(** [disk_write (fs->pdrv, buf, sect, count)] *)
Definition do_write (buf : list Z) (sect count : Z) : M (St D) DRESULT := fun s =>
  let '(r, d) := disk_write (dev s) buf sect count in Some (r, mkSt (fsys s) d).

(** [disk_read (fs->pdrv, fs->win, sect, 1)] *)
Definition do_read_win (sect : Z) : M (St D) DRESULT := fun s =>
  let '(r, b, d) := disk_read (dev s) (win (fsys s)) sect 1 in
  Some (r, mkSt (set_win b (fsys s)) d).

(** [disk_ioctl (fs->pdrv, CTRL_SYNC, 0)] *)
Definition do_sync : M (St D) DRESULT := fun s =>
  let '(r, d) := disk_ioctl_sync (dev s) in Some (r, mkSt (fsys s) d).
End store.
