(* ===== verification/Window.v ===== *)
(** * The disk access window

    [sync_window], [move_window] and [sync_fs] of [src/ff/src/ff/ff.c]: the FAT
    driver reads and changes FAT, directory and bitmap sectors through one cached
    sector [win[]], written back when another sector is needed.

    The abstract view is [vol s x], the content of sector [x] of the volume as the
    driver sees it: the window if it is dirty and shows [x], the medium otherwise.
    [vol_eq] relates two states of the same volume with the same view on every
    sector outside the second FAT (which [sync_window] updates behind the window).
    The theorems say that the window is invisible: moving or flushing it preserves
    the view, whether the disk works or not, and a successful move shows the
    requested sector. *)

From stdpp Require Import prelude list.
From Stdlib Require Import ZArith Lia.
From S2P Require Import Prelude Bytes Diskio FFTypes.

Local Open Scope Z_scope.
Local Open Scope cint_scope.

(** ** The code *)

Section window.
Context {D : Type} `{BlockDevice D}.

Definition sync_window : M (St D) FRESULT :=
  fs ← get_fs;
  if negb (wflag fs =? 0) then
    r ← do_write (win fs) (winsect fs) 1;
    if res_ok r then
      upd_fs (set_wflag 0);;
      (if winsect fs -u32 fatbase fs <? fsize fs then
         if n_fats fs =? 2 then
           do_write (win fs) (winsect fs +u32 fsize fs) 1;; mret FR_OK
         else mret FR_OK
       else mret FR_OK)
    else mret FR_DISK_ERR
  else mret FR_OK.

Definition move_window (sect : Z) : M (St D) FRESULT :=
  fs ← get_fs;
  if negb (sect =? winsect fs) then
    res ← sync_window;
    if fr_ok res then
      r ← do_read_win sect;
      if negb (res_ok r) then
        upd_fs (set_winsect (0 -u32 1));; mret FR_DISK_ERR
      else
        upd_fs (set_winsect sect);; mret FR_OK
    else mret res
  else mret FR_OK.

Definition BS_55AA := 510.
Definition FSI_LeadSig := 0.
Definition FSI_StrucSig := 484.
Definition FSI_Free_Count := 488.
Definition FSI_Nxt_Free := 492.

(** The FSINFO sector that [sync_fs] builds in the window. *)
Definition fsinfo_sector (fs : FATFS) : list Z :=
  let w := replicate (Z.to_nat FF_MAX_SS) 0 in
  let w := st_word w BS_55AA 0xAA55 in
  let w := st_dword w FSI_LeadSig 0x41615252 in
  let w := st_dword w FSI_StrucSig 0x61417272 in
  let w := st_dword w FSI_Free_Count (free_clst fs) in
  st_dword w FSI_Nxt_Free (last_clst fs).

Definition sync_fs : M (St D) FRESULT :=
  res ← sync_window;
  if fr_ok res then
    fs ← get_fs;
    (if (fs_type fs =? FS_FAT32) && (fsi_flag fs =? 1) then
       upd_fs (set_win (fsinfo_sector fs));;
       upd_fs (set_winsect (volbase fs +u32 1));;
       fs ← get_fs;
       do_write (win fs) (winsect fs) 1;;
       upd_fs (set_fsi_flag 0)
     else mret tt);;
    r ← do_sync;
    mret (if res_ok r then res else FR_DISK_ERR)
  else mret res.
End window.

(** ** Abstract view *)

(** A sector of the second FAT, kept as a copy of the first. *)
Definition mirror (fs : FATFS) (x : Z) : Prop :=
  n_fats fs = 2 /\ fatbase fs + fsize fs <= x < fatbase fs + 2 * fsize fs.

(** The members that the window operations do not touch. *)
Definition core (fs : FATFS) : FATFS := set_win [] (set_winsect 0 (set_wflag 0 fs)).

Definition sect_size_ok (ss : Z) : Prop := ss = 512 \/ ss = 1024 \/ ss = 2048 \/ ss = 4096.

(** Layout of the FAT area: it does not reach the end of the 32-bit sector space. *)
Record geom_ok (fs : FATFS) : Prop := {
  go_ss : sect_size_ok (ssize fs);
  go_fatbase : 0 <= fatbase fs;
  go_fsize : 0 < fsize fs;
  go_n_fats : n_fats fs = 1 \/ n_fats fs = 2;
  go_end : fatbase fs + n_fats fs * fsize fs < 2 ^ 32
}.

Section view.
Context {D : Type} `{BlockDeviceLaws D}.
Implicit Types s : St D.

Definition vol s (x : Z) : list Z :=
  if negb (wflag (fsys s) =? 0) && (x =? winsect (fsys s))
  then take (Z.to_nat (ssize (fsys s))) (win (fsys s))
  else medium (dev s) x.

(** The invariant of the window: its size, and that a clean window is a copy of
    the sector it shows. *)
Record win_inv s : Prop := {
  wi_len : zlen (win (fsys s)) = FF_MAX_SS;
  wi_bytes : bytes (win (fsys s));
  wi_ss : ssize (fsys s) = sector_size (dev s);
  wi_sect : is_u32 (winsect (fsys s));
  wi_geom : geom_ok (fsys s);
  wi_coh : wflag (fsys s) = 0 -> winsect (fsys s) <> 0xFFFFFFFF ->
    take (Z.to_nat (ssize (fsys s))) (win (fsys s)) = medium (dev s) (winsect (fsys s))
}.

Definition vol_eq s s' : Prop :=
  core (fsys s) = core (fsys s') /\
  forall x, 0 <= x -> ~ mirror (fsys s) x -> vol s x = vol s' x.
End view.

(** Equality of a member from equality of the cores. *)
Lemma core_mirror fs fs' x : core fs = core fs' -> mirror fs x <-> mirror fs' x.
Proof.
  intros Hc. unfold mirror.
  assert (n_fats fs = n_fats fs') by exact (f_equal n_fats Hc).
  assert (fatbase fs = fatbase fs') by exact (f_equal fatbase Hc).
  assert (fsize fs = fsize fs') by exact (f_equal fsize Hc).
  intuition congruence.
Qed.

Lemma core_geom_ok fs fs' : core fs = core fs' -> geom_ok fs -> geom_ok fs'.
Proof.
  intros Hc [H1 H2 H3 H4 H5].
  assert (n_fats fs = n_fats fs') as E1 by exact (f_equal n_fats Hc).
  assert (fatbase fs = fatbase fs') as E2 by exact (f_equal fatbase Hc).
  assert (fsize fs = fsize fs') as E3 by exact (f_equal fsize Hc).
  assert (ssize fs = ssize fs') as E4 by exact (f_equal ssize Hc).
  split; by rewrite <- ?E1, <- ?E2, <- ?E3, <- ?E4.
Qed.

(** The members of a filesystem object, from those of an equivalent one. *)
Ltac core_rewrite Hc :=
  let f p := try (let E := fresh in pose proof (f_equal p Hc) as E; cbn in E; rewrite <- ?E in *; clear E) in
  f n_fatent; f fs_type; f ssize; f fatbase; f fsize; f csize; f database; f bitbase;
  f n_fats; f free_clst; f last_clst; f fsi_flag; f volbase; f dirbase; f n_rootdir.

Section equivalence.
Context {D : Type} `{BlockDeviceLaws D}.
Implicit Types s : St D.

Global Instance vol_eq_equiv : Equivalence (@vol_eq D _ _).
Proof.
  split.
  - by intros s.
  - intros s s' [Hc Hv]. split; [done|]. intros x Hx Hm. symmetry. apply Hv; [done|].
    by rewrite (core_mirror _ _ _ Hc).
  - intros s1 s2 s3 [Hc Hv] [Hc' Hv']. split; [congruence|]. intros x Hx Hm.
    rewrite Hv by done. apply Hv'; [done|]. by rewrite <- (core_mirror _ _ _ Hc).
Qed.

Lemma sect_size_bounds ss : sect_size_ok ss -> 512 <= ss <= 4096.
Proof. unfold sect_size_ok. lia. Qed.

Lemma wi_ss_range s : win_inv s -> 512 <= ssize (fsys s) <= 4096.
Proof. intros Hi. apply sect_size_bounds. apply Hi. Qed.

Lemma vol_len s x : win_inv s -> zlen (vol s x) = ssize (fsys s).
Proof.
  intros Hi. pose proof (wi_ss_range s Hi). pose proof (wi_len s Hi). unfold vol, zlen in *.
  unfold FF_MAX_SS in *. bdestr.
  - rewrite length_take. lia.
  - rewrite medium_len, <- wi_ss by done. lia.
Qed.

Lemma vol_bytes s x : win_inv s -> bytes (vol s x).
Proof.
  intros Hi. unfold vol. bdestr; [|apply medium_bytes]. apply Forall_take, Hi.
Qed.

(** What the window shows is the sector of the volume. *)
Lemma vol_window s :
  win_inv s -> winsect (fsys s) <> 0xFFFFFFFF ->
  vol s (winsect (fsys s)) = take (Z.to_nat (ssize (fsys s))) (win (fsys s)).
Proof.
  intros Hi Hne. unfold vol. rewrite Z.eqb_refl, andb_true_r. bdestr; [done|].
  symmetry. by apply Hi.
Qed.
End equivalence.

(** ** The window is invisible *)

Section correctness.
Context {D : Type} `{BlockDeviceLaws D}.
Implicit Types s : St D.

(** Moving the window succeeds if no transfer fails. *)
Lemma post_write_faultless s buf x (Q : DRESULT -> St D -> Prop) :
  faultless D -> (forall s', Q RES_OK s') -> post (do_write buf x 1) s Q.
Proof.
  intros [_ Hw] HQ. unfold post, do_write. specialize (Hw (dev s) buf x 1).
  destruct (disk_write _ _ _ _) as [r d]. cbn in Hw. by subst.
Qed.

Lemma move_window_faultless s x : faultless D -> post (move_window x) s (fun r _ => r = FR_OK).
Proof.
  intros Hsv. unfold move_window, get_fs. mstep. mstep. mstep; [|by mstep]. mstep.
  assert (forall s1, post sync_window s1 (fun r _ => r = FR_OK)) as Hsync.
  { intros s1. unfold sync_window, get_fs, upd_fs. mstep. mstep. mstep; [|by mstep]. mstep.
    apply post_write_faultless; [done|]. intros s2. cbn [res_ok]. mstep. mstep. mstep; [|by mstep]. mstep; [|by mstep].
    mstep. by apply post_write_faultless. }
  eapply post_mono; [apply Hsync|]. intros r s1 ->. cbn [fr_ok]. mstep. unfold post, do_read_win.
  destruct Hsv as [Hr _]. specialize (Hr (dev s1) (win (fsys s1)) x 1). destruct (disk_read _ _ _ _) as [[r b] d].
  cbn in Hr. by subst.
Qed.

(** A disk error of the window, and what else is known of its move. *)
Lemma post_faultless s x (P Q : St D -> Prop) :
  post (move_window x) s (fun r s' => P s' /\ (r = FR_OK /\ Q s' \/ r = FR_DISK_ERR)) ->
  post (move_window x) s (fun r s' => P s' /\ (r = FR_OK /\ Q s' \/ r = FR_DISK_ERR /\ ~ faultless D)).
Proof.
  intros Hp. pose proof (move_window_faultless s x) as Hsv. unfold post in *. destruct (move_window x s) as [[r s']|]; [|done].
  destruct Hp as [HP [HQ| ->]]; (split; [done|]); [by left|right]. split; [done|]. intros Hd. by specialize (Hsv Hd).
Qed.

Lemma post_do_write s buf x (Q : DRESULT -> St D -> Prop) :
  0 <= x -> sector_size (dev s) <= zlen buf -> bytes buf ->
  (forall r d', sector_size d' = sector_size (dev s) ->
     (forall y, 0 <= y -> y <> x -> medium d' y = medium (dev s) y) ->
     (r = RES_OK -> medium d' x = take (Z.to_nat (sector_size (dev s))) buf) ->
     Q r (mkSt (fsys s) d')) ->
  post (do_write buf x 1) s Q.
Proof.
  intros Hx Hl Hb HQ. unfold post, do_write.
  destruct (disk_write _ _ _ _) as [r d'] eqn:E.
  pose proof E as [Hs Hf]%write_frame; [|lia..].
  apply HQ; [done| intros; apply Hf; lia|].
  intros ->. by eapply write_ok_1.
Qed.

Lemma post_do_read_win s x (Q : DRESULT -> St D -> Prop) :
  0 <= x -> sector_size (dev s) <= zlen (win (fsys s)) -> bytes (win (fsys s)) ->
  (forall r b d', sector_size d' = sector_size (dev s) ->
     (forall y, medium d' y = medium (dev s) y) ->
     length b = length (win (fsys s)) -> bytes b ->
     (r = RES_OK -> take (Z.to_nat (sector_size (dev s))) b = medium (dev s) x) ->
     Q r (mkSt (set_win b (fsys s)) d')) ->
  post (do_read_win x) s Q.
Proof.
  intros Hx Hl Hb HQ. unfold post, do_read_win.
  destruct (disk_read _ _ _ _) as [[r b] d'] eqn:E.
  pose proof (read_frame _ _ _ _ _ _ _ E) as [Hs Hf].
  pose proof E as [Hlb Hbb]%read_buf; [|lia..].
  apply HQ; auto. intros ->. apply read_ok_1 in E; [|lia..]. rewrite E.
  apply take_overlay, medium_len.
Qed.

(** Sectors of the first FAT, from the unsigned test of [sync_window]. *)
Lemma in_fat1 fs x :
  geom_ok fs -> is_u32 x -> u32 (x - fatbase fs) < fsize fs ->
  fatbase fs <= x < fatbase fs + fsize fs.
Proof.
  intros [_ Hb Hf Hn He] Hx Hlt.
  destruct (decide (x < fatbase fs)) as [Hl|Hl].
  - exfalso. assert (u32 (x - fatbase fs) = x - fatbase fs + 2 ^ 32) as E.
    { unfold u32. rewrite <- (Z.mod_add _ 1), Z.mod_small by (unfold is_u32 in Hx; lia). lia. }
    unfold is_u32 in Hx. lia.
  - rewrite u32_small in Hlt by (unfold is_u32 in *; lia). lia.
Qed.

(** Replacing the device by one that agrees on every sector outside the mirror,
    the window being clean and coherent. *)
Lemma flushed_state s d' :
  win_inv s -> wflag (fsys s) <> 0 -> sector_size d' = sector_size (dev s) ->
  medium d' (winsect (fsys s)) = take (Z.to_nat (ssize (fsys s))) (win (fsys s)) ->
  (forall y, 0 <= y -> y <> winsect (fsys s) -> ~ mirror (fsys s) y ->
     medium d' y = medium (dev s) y) ->
  let s' := mkSt (set_wflag 0 (fsys s)) d' in win_inv s' /\ vol_eq s s'.
Proof.
  intros [H1 H2 H3 H4 H5 H6] Hd Hss Hw Hf s'. split.
  - split; cbn; auto; [congruence | eapply core_geom_ok; [|done]; done].
  - split; [done|]. intros x Hx Hm. unfold vol; cbn.
    bdestr; [by destruct Hb as [_ ->]|]. symmetry. apply Hf; [done| |done]. lia.
Qed.

(** A failed write leaves the window dirty, hence the view unchanged. *)
Lemma failed_write_state s d' :
  win_inv s -> wflag (fsys s) <> 0 -> sector_size d' = sector_size (dev s) ->
  (forall y, 0 <= y -> y <> winsect (fsys s) -> medium d' y = medium (dev s) y) ->
  let s' := mkSt (fsys s) d' in win_inv s' /\ vol_eq s s'.
Proof.
  intros [H1 H2 H3 H4 H5 H6] Hd Hss Hf s'. split.
  - split; cbn; auto; [congruence | done].
  - split; [done|]. intros x Hx _. unfold vol; cbn.
    bdestr; [done|]. symmetry. apply Hf; [done|]. lia.
Qed.

Lemma sync_window_spec s :
  win_inv s ->
  post sync_window s (fun r s' =>
    win_inv s' /\ vol_eq s s' /\
    winsect (fsys s') = winsect (fsys s) /\ win (fsys s') = win (fsys s) /\
    (r = FR_OK /\ wflag (fsys s') = 0 \/ r = FR_DISK_ERR)).
Proof.
  intros Hi. pose proof (wi_ss_range s Hi). unfold sync_window, get_fs, upd_fs. msteps.
  2:{ split_and!; try done. left. done. }
  assert (sector_size (dev s) <= zlen (win (fsys s))) as Hsz.
  { rewrite (wi_len s Hi), <- (wi_ss s Hi). unfold FF_MAX_SS. lia. }
  apply post_do_write; [apply Hi | done | apply Hi |].
  intros r d1 Hs1 Hf1 Hw1. cbn. destruct r; cbn.
  2-5: msteps; edestruct failed_write_state as [??]; [done..|]; split_and!; auto.
  rewrite <- (wi_ss s Hi) in Hw1. specialize (Hw1 eq_refl).
  msteps.
  2,3: edestruct (flushed_state s d1) as [??]; [done..|auto|]; cbn in *; split_and!; auto.
  cbn. pose proof (in_fat1 _ _ (wi_geom s Hi) (wi_sect s Hi) Hb0) as Hin.
  pose proof (wi_geom s Hi) as [_ ? ? ? ?].
  rewrite (u32_small (winsect (fsys s) + _)) by (unfold is_u32; lia).
  apply post_do_write; cbn; [lia | by rewrite Hs1 | apply Hi |].
  intros r2 d2 Hs2 Hf2 _. msteps. cbn.
  edestruct (flushed_state s d2) as [??]; [done..|congruence| | |cbn in *; split_and!; auto].
  - rewrite Hf2 by lia. done.
  - intros y Hy Hne Hm. rewrite Hf2, Hf1; auto. intros ->. apply Hm. split; lia.
Qed.

Lemma move_window_spec s x :
  win_inv s -> is_u32 x -> ~ mirror (fsys s) x ->
  post (move_window x) s (fun r s' =>
    win_inv s' /\ vol_eq s s' /\
    (r = FR_OK /\ winsect (fsys s') = x \/ r = FR_DISK_ERR)).
Proof.
  intros Hi Hx Hm. unfold move_window, get_fs, upd_fs. msteps.
  2:{ split_and!; try done. left. by split; [|lia]. }
  mcall sync_window_spec; [done|]. intros r s1 (Hi1 & Hv1 & Hws & Hwn & Hr).
  destruct Hr as [[-> Hcl]| ->]; cbn; [|msteps; split_and!; auto].
  pose proof (wi_ss_range s1 Hi1).
  apply post_bind, post_do_read_win; [apply Hx| |apply Hi1|].
  { rewrite (wi_len s1 Hi1), <- (wi_ss s1 Hi1). unfold FF_MAX_SS. lia. }
  intros r2 b d2 Hs2 Hf2 Hlb Hbb Hok.
  assert (forall y, (y = 0xFFFFFFFF \/ y = x /\ r2 = RES_OK) -> is_u32 y ->
    let s' := mkSt (set_winsect y (set_win b (fsys s1))) d2 in
    win_inv s' /\ vol_eq s s') as Hst.
  { intros y Hy Hy32 s'. destruct Hi1 as [G1 G2 G3 G4 G5 G6]. split.
    - split; cbn; auto.
      + unfold zlen in *. by rewrite Hlb.
      + congruence.
      + eapply core_geom_ok; [|done]. done.
      + intros _ Hne. destruct Hy as [?|[-> ->]]; [done|].
        rewrite G3, Hf2. by apply Hok.
    - rewrite Hv1. split; [done|]. intros z Hz Hnm. unfold vol; cbn.
      by rewrite Hcl, Hf2. }
  destruct r2; cbn; msteps; cbn.
  all: edestruct Hst as [Hi3 Hv3]; [eauto| |split_and!; [exact Hi3|exact Hv3|auto]]; auto with ff.
  all: done.
Qed.

(** The content of the window after a successful move. *)
Lemma moved_window s s' x :
  win_inv s' -> vol_eq s s' -> winsect (fsys s') = x -> x <> 0xFFFFFFFF -> 0 <= x ->
  ~ mirror (fsys s) x ->
  take (Z.to_nat (ssize (fsys s'))) (win (fsys s')) = vol s x.
Proof.
  intros Hi [Hc Hv] <- Hne Hx Hm. rewrite <- vol_window by done. by rewrite Hv.
Qed.

(** Moving the window, in terms of the bytes it then holds. *)
Lemma move_sect s x :
  win_inv s -> 0 <= x < 0xFFFFFFFF -> ~ mirror (fsys s) x ->
  post (move_window x) s (fun r s' =>
    win_inv s' /\ vol_eq s s' /\
    (r = FR_OK /\ winsect (fsys s') = x /\
       (forall i, 0 <= i < ssize (fsys s) -> (win (fsys s')).[i] = (vol s x).[i])
     \/ r = FR_DISK_ERR)).
Proof.
  intros Hi Hx Hm. mcall move_window_spec; [done|unfold is_u32; lia|done|].
  intros r s' (Hi' & Hv & Hr). split_and!; [done..|].
  destruct Hr as [[-> Hw]| ->]; [left|by right]. split_and!; [done..|]. intros i Hir.
  rewrite <- (moved_window s s') by (done || lia).
  destruct Hv as [Hc _]. core_rewrite Hc. symmetry. apply getb_take. lia.
Qed.

Lemma move_sect_faultless s x :
  win_inv s -> 0 <= x < 0xFFFFFFFF -> ~ mirror (fsys s) x ->
  post (move_window x) s (fun r s' =>
    (win_inv s' /\ vol_eq s s') /\
    (r = FR_OK /\ winsect (fsys s') = x /\
       (forall i, 0 <= i < ssize (fsys s) -> (win (fsys s')).[i] = (vol s x).[i])
     \/ r = FR_DISK_ERR /\ ~ faultless D)).
Proof.
  intros Hi Hx Hm. apply (post_faultless s x). eapply post_mono; [by apply move_sect|]. by intros r s' (? & ? & ?).
Qed.
End correctness.

(** ** Properties of the window *)

(** The fields of the FSINFO sector. *)
Lemma fsinfo_fields fs :
  ld_word (fsinfo_sector fs) BS_55AA = 0xAA55 /\
  ld_dword (fsinfo_sector fs) FSI_LeadSig = 0x41615252 /\
  ld_dword (fsinfo_sector fs) FSI_StrucSig = 0x61417272 /\
  ld_dword (fsinfo_sector fs) FSI_Free_Count = u32 (free_clst fs) /\
  ld_dword (fsinfo_sector fs) FSI_Nxt_Free = u32 (last_clst fs).
Proof.
  set (w0 := replicate (Z.to_nat FF_MAX_SS) 0).
  assert (bytes w0) as Hb by (by apply Forall_replicate).
  assert (zlen w0 = 4096) as Hl by (unfold zlen, w0; by rewrite length_replicate).
  unfold zlen in Hl. unfold fsinfo_sector. fold w0. cbn zeta.
  unfold BS_55AA, FSI_LeadSig, FSI_StrucSig, FSI_Free_Count, FSI_Nxt_Free, st_word, st_dword.
  rewrite !ld_dword_le, ld_word_le by auto 10 with ff.
  repeat split;
    repeat (rewrite le_val_st_bytes_out by lia);
    rewrite le_val_st_bytes by (unfold zlen; rewrite ?length_st_bytes; lia); try done;
    apply Z.mod_mod; done.
Qed.

Lemma fsinfo_shape fs : zlen (fsinfo_sector fs) = FF_MAX_SS /\ bytes (fsinfo_sector fs).
Proof.
  unfold fsinfo_sector, st_word, st_dword, zlen. cbn zeta.
  rewrite !length_st_bytes, length_replicate. split; [done|].
  do 5 apply bytes_st_bytes. by apply Forall_replicate.
Qed.

Section properties.
Context {D : Type} `{BlockDeviceLaws D}.
Implicit Types s : St D.

Lemma vol_clean s x : wflag (fsys s) = 0 -> vol s x = medium (dev s) x.
Proof. intros Hw. unfold vol. by rewrite Hw. Qed.

(** The FSINFO sector is to be rewritten, and its sector number. *)
Definition fsinfo_due (fs : FATFS) : bool := (fs_type fs =? FS_FAT32) && (fsi_flag fs =? 1).

(** There is a sector for it before the FAT. *)
Definition fsinfo_room (fs : FATFS) : Prop :=
  fsinfo_due fs = true -> 0 <= volbase fs /\ volbase fs + 1 < fatbase fs.

Lemma post_do_sync s (Q : DRESULT -> St D -> Prop) :
  (forall r d', sector_size d' = sector_size (dev s) ->
     (forall y, medium d' y = medium (dev s) y) -> Q r (mkSt (fsys s) d')) ->
  post do_sync s Q.
Proof.
  intros HQ. unfold post, do_sync. destruct (disk_ioctl_sync _) as [r d'] eqn:E.
  apply sync_frame in E as [??]. by apply HQ.
Qed.

Lemma sync_fs_spec s :
  win_inv s -> fsinfo_room (fsys s) ->
  post sync_fs s (fun r s' =>
    r = FR_DISK_ERR \/
    r = FR_OK /\ wflag (fsys s') = 0 /\
    (forall x, 0 <= x -> ~ mirror (fsys s) x ->
       ~ (fsinfo_due (fsys s) = true /\ x = volbase (fsys s) + 1) ->
       medium (dev s') x = vol s x) /\
    (fsinfo_due (fsys s) = true -> fsi_flag (fsys s') = 0 /\
       winsect (fsys s') = volbase (fsys s) + 1 /\ win (fsys s') = fsinfo_sector (fsys s)) /\
    (fsinfo_due (fsys s) = false -> fsys s' = set_wflag 0 (fsys s))).
Proof.
  intros Hi Hroom. unfold sync_fs, get_fs, upd_fs. mcall sync_window_spec; [done|].
  intros r s1 (Hi1 & [Hc1 Hv1] & Hws & Hwn & [[-> Hw]| ->]); cbn [fr_ok]; [|by mstep; left].
  assert (free_clst (fsys s1) = free_clst (fsys s) /\ last_clst (fsys s1) = last_clst (fsys s)) as [Ef El].
  { split; symmetry; [exact (f_equal free_clst Hc1)|exact (f_equal last_clst Hc1)]. }
  assert (fsinfo_due (fsys s1) = fsinfo_due (fsys s)) as Ed by (unfold fsinfo_due; by core_rewrite Hc1).
  assert (volbase (fsys s1) = volbase (fsys s)) as Ev by (symmetry; exact (f_equal volbase Hc1)).
  assert (forall x, 0 <= x -> ~ mirror (fsys s) x -> medium (dev s1) x = vol s x) as Hm1.
  { intros x Hx Hnm. rewrite <- vol_clean by done. symmetry. by apply Hv1. }
  do 3 mstep. cbn beta. change ((fs_type (fsys s1) =? FS_FAT32) && _) with (fsinfo_due (fsys s1)).
  rewrite Ed. destruct (fsinfo_due (fsys s)) eqn:E.
  - destruct (Hroom E) as [Hv Hfb]. pose proof (wi_geom s Hi) as [Gs ? ? Gn ?]. pose proof (sect_size_bounds _ Gs).
    do 6 mstep. cbn beta. mstep. rewrite Ev, u32_small by (unfold is_u32; destruct Gn; nia).
    destruct (fsinfo_shape (fsys s1)) as [Hl Hb]. unfold FF_MAX_SS in Hl.
    apply post_do_write; cbn -[fsinfo_sector]; [lia| |done|].
    { rewrite Hl, <- (wi_ss s1 Hi1). core_rewrite Hc1. lia. }
    intros r d2 Hs2 Hf2 Hok2. mstep. apply post_do_sync. cbn -[fsinfo_sector]. intros r3 d3 Hs3 Hf3.
    destruct r3; cbn -[fsinfo_sector]; [right|by left..]. split_and!; try done.
    + intros x Hx Hnm Hni. rewrite Hf3, Hf2; [by apply Hm1|done|]. intros ->. by apply Hni.
    + intros _. split_and!; [done..|]. unfold fsinfo_sector. by rewrite Ef, El.
  - mstep. mstep. apply post_do_sync. cbn. intros r3 d3 Hs3 Hf3.
    destruct r3; cbn; [right|by left..]. split_and!; try done.
    + intros x Hx Hnm _. rewrite Hf3. by apply Hm1.
    + intros _. destruct s as [f d], s1 as [f1 d1]. cbn in *.
      unfold core in Hc1. destruct f, f1; cbn in *. by simplify_eq.
Qed.

(** C33: moving the window succeeds or reports a disk error;
    in both cases the window invariant holds again and the content of the volume
    as the driver sees it is what it was, and on success the window shows the
    sector asked for, byte for byte. *)
Theorem move_window_transparent s x :
  win_inv s -> 0 <= x < 0xFFFFFFFF -> ~ mirror (fsys s) x ->
  post (move_window x) s (fun r s' =>
    win_inv s' /\ vol_eq s s' /\
    (r = FR_OK /\ winsect (fsys s') = x /\
       (forall i, 0 <= i < ssize (fsys s) -> (win (fsys s')).[i] = (vol s x).[i])
     \/ r = FR_DISK_ERR)).
Proof. apply move_sect. Qed.

(** Flushing the window keeps what the driver sees of the
    volume; when it reports success the medium holds exactly that view, on every
    sector outside the second FAT. *)
Theorem sync_window_flushes s :
  win_inv s ->
  post sync_window s (fun r s' =>
    win_inv s' /\ vol_eq s s' /\
    (r = FR_OK /\ (forall x, 0 <= x -> ~ mirror (fsys s) x -> medium (dev s') x = vol s x)
     \/ r = FR_DISK_ERR)).
Proof.
  intros Hi. mcall sync_window_spec; [done|]. intros r s' (Hi' & Hv & _ & _ & Hr).
  split_and!; [done..|]. destruct Hr as [[-> Hw]| ->]; [left|by right]. split; [done|].
  intros x Hx Hm. rewrite <- vol_clean by done. symmetry. by apply Hv.
Qed.

End properties.
