(* ===== verification/Fat.v ===== *)
(** * Access to the file allocation table

    [clst2sect], [get_fat] and [put_fat] of [src/ff/src/ff/ff.c].

    The table is seen through [fat_entry s c], the entry of cluster [c] decoded
    from the volume as the driver sees it ([Window.vol]): 12 bits that straddle
    bytes and possibly sectors, 16 bits, 28 bits of a 32-bit word, or 31 bits of
    one on exFAT.  The theorems: [get_fat] returns the entry or a disk error and
    changes nothing; [put_fat] changes the entry it is asked to change and no
    other, nor anything outside the table, on every branch. *)

From stdpp Require Import prelude list.
From Stdlib Require Import ZArith Lia.
From S2P Require Import Prelude Bytes Diskio FFTypes Window.

Local Open Scope Z_scope.
Local Open Scope cint_scope.

(** ** The code *)

Definition clst2sect (fs : FATFS) (clst : Z) : Z :=
  let clst := clst -u32 2 in
  if n_fatent fs -u32 2 <=? clst then 0
  else database fs +u32 u32 (csize fs * clst).

Section code.
Context {D : Type} `{BlockDevice D}.

Definition get_fat (obj : FFOBJID) (clst : Z) : M (St D) Z :=
  fs ← get_fs;
  let SS := ssize fs in
  if (clst <? 2) || (n_fatent fs <=? clst) then mret 1
  else if fs_type fs =? FS_FAT12 then
    let bc := clst +u32 (clst / 2) in
    r ← move_window (fatbase fs +u32 (bc / SS));
    if negb (fr_ok r) then mret DISK_ERR else
    fs ← get_fs;
    let wc := (win fs).[bc mod SS] in
    let bc := bc +u32 1 in
    r ← move_window (fatbase fs +u32 (bc / SS));
    if negb (fr_ok r) then mret DISK_ERR else
    fs ← get_fs;
    let wc := Z.lor wc (Z.shiftl (win fs).[bc mod SS] 8) in
    mret (if negb (Z.land clst 1 =? 0) then Z.shiftr wc 4 else Z.land wc 0xFFF)
  else if fs_type fs =? FS_FAT16 then
    r ← move_window (fatbase fs +u32 (clst / (SS / 2)));
    if negb (fr_ok r) then mret DISK_ERR else
    fs ← get_fs;
    mret (ld_word (win fs) ((clst *u32 2) mod SS))
  else if fs_type fs =? FS_FAT32 then
    r ← move_window (fatbase fs +u32 (clst / (SS / 4)));
    if negb (fr_ok r) then mret DISK_ERR else
    fs ← get_fs;
    mret (Z.land (ld_dword (win fs) ((clst *u32 4) mod SS)) 0x0FFFFFFF)
  else if fs_type fs =? FS_EXFAT then
    if (negb (objsize obj =? 0) && negb (sclust obj =? 0)) || (obj_stat obj =? 0) then
      let cofs := clst -u32 sclust obj in
      let clen := u32 (u64 (objsize obj - 1) / SS) / csize fs in
      if (obj_stat obj =? 2) && (cofs <=? clen) then
        mret (if cofs =? clen then 0x7FFFFFFF else clst +u32 1)
      else if (obj_stat obj =? 3) && (cofs <? n_cont obj) then
        mret (clst +u32 1)
      else if negb (obj_stat obj =? 2) then
        if negb (n_frag obj =? 0) then mret 0x7FFFFFFF
        else
          r ← move_window (fatbase fs +u32 (clst / (SS / 4)));
          if negb (fr_ok r) then mret DISK_ERR else
          fs ← get_fs;
          mret (Z.land (ld_dword (win fs) ((clst *u32 4) mod SS)) 0x7FFFFFFF)
      else mret 1
    else mret 1
  else mret 1.

(** [p = fs->win + ofs; *p = v; fs->wflag = 1] and its word-sized variants: the
    window is replaced and marked dirty. *)
Definition poke_win (w : list Z) : M (St D) unit :=
  upd_fs (fun fs => set_wflag 1 (set_win w fs)).

Definition put_fat (clst val : Z) : M (St D) FRESULT :=
  fs ← get_fs;
  let SS := ssize fs in
  if (2 <=? clst) && (clst <? n_fatent fs) then
    if fs_type fs =? FS_FAT12 then
      let bc := clst +u32 (clst / 2) in
      res ← move_window (fatbase fs +u32 (bc / SS));
      if negb (fr_ok res) then mret res else
      fs ← get_fs;
      let p := bc mod SS in
      let bc := bc +u32 1 in
      poke_win (setb (win fs) p
        (if negb (Z.land clst 1 =? 0)
         then u8 (Z.lor (Z.land (win fs).[p] 0x0F) (Z.shiftl (u8 val) 4))
         else u8 val));;
      res ← move_window (fatbase fs +u32 (bc / SS));
      if negb (fr_ok res) then mret res else
      fs ← get_fs;
      let p := bc mod SS in
      poke_win (setb (win fs) p
        (if negb (Z.land clst 1 =? 0)
         then u8 (Z.shiftr val 4)
         else u8 (Z.lor (Z.land (win fs).[p] 0xF0) (Z.land (u8 (Z.shiftr val 8)) 0x0F))));;
      mret res
    else if fs_type fs =? FS_FAT16 then
      res ← move_window (fatbase fs +u32 (clst / (SS / 2)));
      if negb (fr_ok res) then mret res else
      fs ← get_fs;
      poke_win (st_word (win fs) ((clst *u32 2) mod SS) val);;
      mret res
    else if (fs_type fs =? FS_FAT32) || (fs_type fs =? FS_EXFAT) then
      res ← move_window (fatbase fs +u32 (clst / (SS / 4)));
      if negb (fr_ok res) then mret res else
      fs ← get_fs;
      let val :=
        if negb (fs_type fs =? FS_EXFAT)
        then Z.lor (Z.land val 0x0FFFFFFF)
               (Z.land (ld_dword (win fs) ((clst *u32 4) mod SS)) 0xF0000000)
        else val in
      poke_win (st_dword (win fs) ((clst *u32 4) mod SS) val);;
      mret res
    else mret FR_INT_ERR
  else mret FR_INT_ERR.
End code.

(** ** The table as the driver sees it *)

(** Number of bytes of the table in use, and the number of entries the type of the
    filesystem allows: what [mount_volume] checks. *)
Definition fat_bytes (fs : FATFS) : Z :=
  if fs_type fs =? FS_FAT12 then (n_fatent fs * 3 + 1) / 2
  else if fs_type fs =? FS_FAT16 then n_fatent fs * 2 else n_fatent fs * 4.

Definition fat_max (fs : FATFS) : Z :=
  if fs_type fs =? FS_FAT12 then MAX_FAT12 + 2
  else if fs_type fs =? FS_FAT16 then MAX_FAT16 + 2
  else if fs_type fs =? FS_FAT32 then MAX_FAT32 + 2 else MAX_EXFAT + 2.

Record fat_geom (fs : FATFS) : Prop := {
  fg_type : 1 <= fs_type fs <= 4;
  fg_ents : 2 <= n_fatent fs <= fat_max fs;
  fg_fits : fat_bytes fs <= fsize fs * ssize fs
}.

(** Mask of an entry. *)
Definition fat_mask (fs : FATFS) : Z :=
  if fs_type fs =? FS_FAT12 then 2 ^ 12
  else if fs_type fs =? FS_FAT16 then 2 ^ 16
  else if fs_type fs =? FS_FAT32 then 2 ^ 28 else 2 ^ 31.

Section view.
Context {D : Type} `{BlockDeviceLaws D}.
Implicit Types s : St D.

(** Byte [o] of the table. *)
Definition fatb s (o : Z) : Z :=
  let fs := fsys s in (vol s (fatbase fs + o / ssize fs)).[o mod ssize fs].

Definition fat12 (b : Z -> Z) (c : Z) : Z :=
  let w := b (c + c / 2) + 2 ^ 8 * b (c + c / 2 + 1) in
  if Z.odd c then w / 2 ^ 4 else w mod 2 ^ 12.
Definition fat16 (b : Z -> Z) (c : Z) : Z := b (2 * c) + 2 ^ 8 * b (2 * c + 1).
Definition fat32 (b : Z -> Z) (c : Z) : Z :=
  b (4 * c) + 2 ^ 8 * (b (4 * c + 1) + 2 ^ 8 * (b (4 * c + 2) + 2 ^ 8 * b (4 * c + 3))).

Definition entry_of (t : Z) (b : Z -> Z) (c : Z) : Z :=
  if t =? FS_FAT12 then fat12 b c
  else if t =? FS_FAT16 then fat16 b c
  else if t =? FS_FAT32 then fat32 b c mod 2 ^ 28
  else fat32 b c mod 2 ^ 31.

Definition fat_entry s (c : Z) : Z := entry_of (fs_type (fsys s)) (fatb s) c.

Record fs_inv s : Prop := {
  fi_win : win_inv s;
  fi_fat : fat_geom (fsys s)
}.
End view.

(** ** Sectors of the table *)

Section table.
Context {D : Type} `{BlockDeviceLaws D}.
Implicit Types s : St D.

Lemma fat_sector s o :
  fs_inv s -> 0 <= o < fsize (fsys s) * ssize (fsys s) ->
  let x := fatbase (fsys s) + o / ssize (fsys s) in
  0 <= x < 2 ^ 32 - 1 /\ x < fatbase (fsys s) + fsize (fsys s) /\
  fatbase (fsys s) <= x /\ ~ mirror (fsys s) x.
Proof.
  intros [Hw _] Ho x. pose proof (wi_ss_range s Hw). destruct (wi_geom s Hw) as [_ Hb Hf Hn He].
  assert (0 <= o / ssize (fsys s) < fsize (fsys s)).
  { split; [apply Z.div_pos; lia | apply Z.div_lt_upper_bound; lia]. }
  unfold mirror. lia.
Qed.

(** Two offsets in the same sector. *)
Lemma same_sector ss o i :
  0 < ss -> 0 <= i -> o mod ss + i < ss ->
  (o + i) / ss = o / ss /\ (o + i) mod ss = o mod ss + i.
Proof.
  intros. assert (0 <= o mod ss) by (apply Z.mod_pos_bound; lia).
  rewrite (Z.div_mod o ss) at 1 3 by lia. split.
  - replace (ss * (o / ss) + o mod ss + i) with (o mod ss + i + (o / ss) * ss) by lia.
    rewrite Z.div_add, Z.div_small by lia. lia.
  - replace (ss * (o / ss) + o mod ss + i) with (o mod ss + i + (o / ss) * ss) by lia.
    rewrite Z.mod_add by lia. apply Z.mod_small. lia.
Qed.

Lemma fatb_u8 s o : fs_inv s -> is_u8 (fatb s o).
Proof. intros [Hw _]. apply getb_bytes. by apply vol_bytes. Qed.

Lemma vol_eq_fatb s s' o :
  fs_inv s -> vol_eq s s' -> 0 <= o < fsize (fsys s) * ssize (fsys s) ->
  fatb s' o = fatb s o.
Proof.
  intros Hi [Hc Hv] Ho. pose proof (fat_sector s o Hi Ho) as (?&?&?&?). unfold fatb.
  core_rewrite Hc. by rewrite Hv by (done || lia).
Qed.

(** Bytes of the table used by the entry of a cluster. *)
Lemma fat_bytes_bound fs c i :
  fat_geom fs -> 0 <= c < n_fatent fs ->
  (fs_type fs = FS_FAT12 /\ 0 <= i <= 1 -> 0 <= c + c / 2 + i < fsize fs * ssize fs) /\
  (fs_type fs = FS_FAT16 /\ 0 <= i <= 1 -> 0 <= 2 * c + i < fsize fs * ssize fs) /\
  (fs_type fs <> FS_FAT12 /\ fs_type fs <> FS_FAT16 /\ 0 <= i <= 3 ->
     0 <= 4 * c + i < fsize fs * ssize fs).
Proof.
  intros [Ht Hn Hf] Hc. unfold fat_bytes in Hf. split_and!.
  - intros [E Hi]. rewrite E in Hf. cbn in Hf. Z.div_mod_to_equations. lia.
  - intros [E Hi]. rewrite E in Hf. cbn in Hf. lia.
  - intros (H1 & H2 & Hi). apply Z.eqb_neq in H1, H2. rewrite H1, H2 in Hf. lia.
Qed.

Lemma entry_of_ext fs b b' c :
  fat_geom fs -> 0 <= c < n_fatent fs ->
  (forall o, 0 <= o < fsize fs * ssize fs -> b' o = b o) ->
  entry_of (fs_type fs) b' c = entry_of (fs_type fs) b c.
Proof.
  intros Hg Hb He. unfold entry_of.
  pose proof (fun i => fat_bytes_bound _ c i Hg Hb) as Hbd.
  destruct (fs_type fs =? FS_FAT12) eqn:E1; [|destruct (fs_type fs =? FS_FAT16) eqn:E2].
  - apply Z.eqb_eq in E1. unfold fat12.
    assert (forall i, 0 <= i <= 1 -> b' (c + c / 2 + i) = b (c + c / 2 + i)) as Hw
      by (intros; by apply He, Hbd).
    pose proof (Hw 0 ltac:(lia)) as H0'. rewrite Z.add_0_r in H0'. by rewrite H0', Hw by lia.
  - apply Z.eqb_eq in E2. unfold fat16.
    assert (forall i, 0 <= i <= 1 -> b' (2 * c + i) = b (2 * c + i)) as Hw
      by (intros; by apply He, Hbd).
    pose proof (Hw 0 ltac:(lia)) as H0'. rewrite Z.add_0_r in H0'. by rewrite H0', Hw by lia.
  - apply Z.eqb_neq in E1, E2. unfold fat32.
    assert (forall i, 0 <= i <= 3 -> b' (4 * c + i) = b (4 * c + i)) as Hw
      by (intros; by apply He, Hbd).
    pose proof (Hw 0 ltac:(lia)) as H0'. rewrite Z.add_0_r in H0'.
    by rewrite H0', !Hw by lia.
Qed.

Lemma fat_entry_ext s s' c :
  fs_inv s -> core (fsys s) = core (fsys s') -> 0 <= c < n_fatent (fsys s) ->
  (forall o, 0 <= o < fsize (fsys s) * ssize (fsys s) -> fatb s' o = fatb s o) ->
  fat_entry s' c = fat_entry s c.
Proof.
  intros Hi Hc Hb He. unfold fat_entry. core_rewrite Hc.
  apply entry_of_ext; [apply Hi|done..].
Qed.

Lemma vol_eq_fat_entry s s' c :
  fs_inv s -> vol_eq s s' -> 0 <= c < n_fatent (fsys s) -> fat_entry s' c = fat_entry s c.
Proof.
  intros Hi Hv Hc. apply fat_entry_ext; [done|apply Hv|done|].
  intros. by apply vol_eq_fatb.
Qed.

Lemma fs_inv_core s s' :
  core (fsys s) = core (fsys s') -> win_inv s' -> fs_inv s -> fs_inv s'.
Proof.
  intros Hc Hw [_ [H1 H2 H3]]. split; [done|]. revert H1 H2 H3.
  split; unfold fat_max, fat_bytes in *; core_rewrite Hc; auto.
Qed.

(** Moving the window to the sector of byte [o] of the table. *)
Lemma move_fat s o x :
  fs_inv s -> 0 <= o < fsize (fsys s) * ssize (fsys s) ->
  x = fatbase (fsys s) + o / ssize (fsys s) ->
  post (move_window (u32 x)) s (fun r s' =>
    fs_inv s' /\ vol_eq s s' /\
    (r = FR_OK /\ winsect (fsys s') = x /\
       (forall i, 0 <= i -> o mod ssize (fsys s) + i < ssize (fsys s) ->
          (win (fsys s')).[o mod ssize (fsys s) + i] = fatb s (o + i))
     \/ r = FR_DISK_ERR)).
Proof.
  intros Hi Ho ->. pose proof (fat_sector s o Hi Ho) as (Hx & Hx1 & Hx2 & Hm).
  pose proof (wi_ss_range s (fi_win s Hi)) as Hss.
  rewrite u32_small by (unfold is_u32; lia).
  mcall move_window_spec; [apply Hi | unfold is_u32; lia | done |].
  intros r s' (Hw & Hv & Hr). split_and!; [by eapply fs_inv_core; [apply Hv|..]|done|].
  destruct Hr as [[-> Hws]| ->]; [left|by right]. split_and!; [done..|].
  intros i Hi0 Hlt.
  pose proof (same_sector (ssize (fsys s)) o i ltac:(lia) Hi0 Hlt) as [Hd Hmod].
  unfold fatb. rewrite Hd, Hmod.
  rewrite <- (moved_window s s') by (done || lia).
  destruct Hv as [Hc _]. core_rewrite Hc.
  assert (0 <= o mod ssize (fsys s)) by (apply Z.mod_pos_bound; lia).
  symmetry. apply getb_take. lia.
Qed.

(** The same, with the disk error tied to the device. *)
Lemma move_fat_faultless s o x :
  fs_inv s -> 0 <= o < fsize (fsys s) * ssize (fsys s) ->
  x = fatbase (fsys s) + o / ssize (fsys s) ->
  post (move_window (u32 x)) s (fun r s' =>
    (fs_inv s' /\ vol_eq s s') /\
    (r = FR_OK /\ winsect (fsys s') = x /\
       (forall i, 0 <= i -> o mod ssize (fsys s) + i < ssize (fsys s) ->
          (win (fsys s')).[o mod ssize (fsys s) + i] = fatb s (o + i))
     \/ r = FR_DISK_ERR /\ ~ faultless D)).
Proof.
  intros Hi Ho Hx. apply (post_faultless s (u32 x)). eapply post_mono; [by apply (move_fat s o x)|]. by intros r s' (? & ? & ?).
Qed.
End table.

(** ** Correctness of [get_fat] *)

(** The chain of the object is the one of the FAT: always on FAT volumes; on exFAT
    when the object is not flagged contiguous or just fragmented. *)
Definition fat_linked (fs : FATFS) (obj : FFOBJID) : Prop :=
  fs_type fs <> FS_EXFAT \/ (obj_stat obj = 0 /\ n_frag obj = 0).

Ltac simpl_div :=
  repeat match goal with |- context [Z.pos ?a / Z.pos ?b] =>
    let v := eval vm_compute in (Z.pos a / Z.pos b) in change (Z.pos a / Z.pos b) with v end.

Lemma half_sector ss c : sect_size_ok ss -> c / (ss / 2) = 2 * c / ss.
Proof. intros [->|[->|[->| ->]]]; simpl_div; Z.div_mod_to_equations; lia. Qed.
Lemma quarter_sector ss c : sect_size_ok ss -> c / (ss / 4) = 4 * c / ss.
Proof. intros [->|[->|[->| ->]]]; simpl_div; Z.div_mod_to_equations; lia. Qed.
Lemma word_ofs ss c : sect_size_ok ss -> u32 (c * 2) mod ss = (2 * c) mod ss.
Proof. intros [->|[->|[->| ->]]]; unfold u32; Z.div_mod_to_equations; lia. Qed.
Lemma dword_ofs ss c : sect_size_ok ss -> u32 (c * 4) mod ss = (4 * c) mod ss.
Proof. intros [->|[->|[->| ->]]]; unfold u32; Z.div_mod_to_equations; lia. Qed.
Lemma word_ofs_fits ss c : sect_size_ok ss -> (2 * c) mod ss + 1 < ss.
Proof. intros [->|[->|[->| ->]]]; Z.div_mod_to_equations; lia. Qed.
Lemma dword_ofs_fits ss c : sect_size_ok ss -> (4 * c) mod ss + 3 < ss.
Proof. intros [->|[->|[->| ->]]]; Z.div_mod_to_equations; lia. Qed.

Lemma land_1_odd c : negb (Z.land c 1 =? 0) = Z.odd c.
Proof.
  change 1 with (Z.ones 1) at 1. rewrite Z.land_ones by lia.
  change (2 ^ 1) with 2. rewrite Zmod_odd. by destruct (Z.odd c).
Qed.

(** [fat_bytes_bound], one entry type at a time. *)
Ltac table_bound s c i :=
  let H := fresh in
  assert (fat_geom (fsys s)) as H by (apply fi_fat; assumption);
  pose proof (fat_bytes_bound _ c i H) as (?&?&?); clear H;
  unfold FS_FAT12, FS_FAT16, FS_FAT32, FS_EXFAT in *; lia.

Section get_fat.
Context {D : Type} `{BlockDeviceLaws D}.
Implicit Types s : St D.

(** A value that [get_fat] may return for a valid cluster. *)
Definition get_fat_post s c (v : Z) (s' : St D) : Prop :=
  fs_inv s' /\ vol_eq s s' /\ (v = fat_entry s c \/ v = DISK_ERR /\ ~ faultless D).

Lemma get_fat12_spec s obj c :
  fs_inv s -> fs_type (fsys s) = FS_FAT12 -> 2 <= c < n_fatent (fsys s) ->
  post (get_fat obj c) s (get_fat_post s c).
Proof.
  intros Hi Ht Hc. unfold get_fat, get_fs. do 2 mstep. cbn beta. if_false.
  rewrite Ht. cbn [Z.eqb FS_FAT12 Pos.eqb].
  assert (n_fatent (fsys s) <= MAX_FAT12 + 2) as Hn.
  { pose proof (fg_ents _ (fi_fat s Hi)) as Hm. unfold fat_max in Hm. rewrite Ht in Hm. apply Hm. }
  unfold MAX_FAT12 in Hn. set (o := c + c / 2).
  assert (0 <= o < 2 ^ 31) by (unfold o; Z.div_mod_to_equations; lia).
  rewrite (u32_small o) by (unfold is_u32; lia).
  assert (0 <= o + 0 < fsize (fsys s) * ssize (fsys s)) as Ho0 by table_bound s c 0.
  assert (0 <= o + 1 < fsize (fsys s) * ssize (fsys s)) as Ho1 by table_bound s c 1.
  rewrite Z.add_0_r in Ho0.
  pose proof (wi_ss_range s (fi_win s Hi)) as Hss.
  pose proof (Z.mod_pos_bound o (ssize (fsys s)) ltac:(lia)).
  pose proof (Z.mod_pos_bound (o + 1) (ssize (fsys s)) ltac:(lia)).
  mcall (move_fat_faultless s o); [done..|]. intros r s1 ([Hi1 Hv1] & Hr).
  destruct Hr as [(-> & Hw1 & Hb1)|[-> Hsv]]; cbn [fr_ok negb]; msteps; [|by split_and!; auto].
  rewrite (u32_small (o + 1)) by (unfold is_u32; lia).
  pose proof (Hb1 0 ltac:(lia) ltac:(lia)) as B0. rewrite !Z.add_0_r in B0. rewrite B0.
  destruct (Hv1) as [Hc1 _]. core_rewrite Hc1.
  mcall (move_fat_faultless s1 (o + 1)); [done|core_rewrite Hc1; done|core_rewrite Hc1; done|].
  intros r s2 ([Hi2 Hv2] & Hr).
  assert (vol_eq s s2) by (etrans; done).
  destruct Hr as [(-> & Hw2 & Hb2)|[-> Hsv]]; cbn [fr_ok negb]; msteps; [|by split_and!; auto].
  split_and!; [done..|]. left. core_rewrite Hc1.
  pose proof (Hb2 0 ltac:(lia) ltac:(lia)) as B1. rewrite !Z.add_0_r in B1. rewrite B1.
  rewrite (vol_eq_fatb s s1) by done. rewrite land_1_odd. unfold fat_entry, entry_of. rewrite Ht. cbn [Z.eqb].
  unfold fat12. fold o. pose proof (fatb_u8 s o Hi). pose proof (fatb_u8 s (o + 1) Hi) as U1.
  rewrite Z.lor_comm, shl_byte_lor; [|apply U1|done].
  destruct (Z.odd c); [by rewrite Z.shiftr_div_pow2|by rewrite (Z.land_ones _ 12)].
Qed.

(** Reading [n] consecutive bytes of the table from the window. *)
Lemma window_le_val s s1 n o :
  (forall i, 0 <= i -> o mod ssize (fsys s) + i < ssize (fsys s) ->
     (win (fsys s1)).[o mod ssize (fsys s) + i] = fatb s (o + i)) ->
  o mod ssize (fsys s) + Z.of_nat n <= ssize (fsys s) ->
  forall i, (i <= n)%nat ->
    le_val i (win (fsys s1)) (o mod ssize (fsys s) + Z.of_nat (n - i))
    = (fix go i := match i with
         O => 0 | S i' => fatb s (o + Z.of_nat (n - i)) + 2 ^ 8 * go i' end) i.
Proof.
  intros Hw Hn. induction i as [|i IH]; intros Hi; cbn [le_val]; [done|].
  rewrite Hw by lia. f_equal. f_equal. rewrite <- IH by lia. f_equal. lia.
Qed.

Lemma get_fat16_spec s obj c :
  fs_inv s -> fs_type (fsys s) = FS_FAT16 -> 2 <= c < n_fatent (fsys s) ->
  post (get_fat obj c) s (get_fat_post s c).
Proof.
  intros Hi Ht Hc. unfold get_fat, get_fs. do 2 mstep. cbn beta. if_false.
  rewrite Ht. cbn [Z.eqb FS_FAT12 FS_FAT16 Pos.eqb].
  pose proof (go_ss _ (wi_geom s (fi_win s Hi))) as Hss.
  rewrite half_sector, word_ofs by done. set (o := 2 * c).
  assert (0 <= o + 0 < fsize (fsys s) * ssize (fsys s)) as Ho by table_bound s c 0.
  rewrite Z.add_0_r in Ho.
  mcall (move_fat_faultless s o); [done..|]. intros r s1 ([Hi1 Hv1] & Hr).
  destruct Hr as [(-> & Hw1 & Hb1)|[-> Hsv]]; cbn [fr_ok negb]; msteps; [|by split_and!; auto].
  split_and!; [done..|]. left. rewrite ld_word_le by apply Hi1.
  pose proof (window_le_val s s1 2 o Hb1) as Hl.
  pose proof (word_ofs_fits (ssize (fsys s)) c Hss) as Hfit. fold o in Hfit.
  specialize (Hl ltac:(lia) 2%nat ltac:(lia)). rewrite Z.add_0_r in Hl.
  unfold fat_entry, entry_of. rewrite Ht. cbn [Z.eqb FS_FAT12 FS_FAT16 Pos.eqb].
  rewrite Hl. unfold fat16. fold o. simpl_of_nat. rewrite Z.add_0_r. lia.
Qed.

(** The two formats with 32-bit words, up to the mask. *)
Lemma get_dword_spec s c (m : Z) (Q : Z -> St D -> Prop) :
  fs_inv s -> fs_type (fsys s) <> FS_FAT12 -> fs_type (fsys s) <> FS_FAT16 ->
  2 <= c < n_fatent (fsys s) ->
  (forall v s', fs_inv s' -> vol_eq s s' ->
     v = Z.land (fat32 (fatb s) c) m \/ v = DISK_ERR /\ ~ faultless D -> Q v s') ->
  post (r ← move_window (u32 (fatbase (fsys s) + c / (ssize (fsys s) / 4)));
        if negb (fr_ok r) then mret DISK_ERR else
        fs ← gets fsys;
        mret (Z.land (ld_dword (win fs) (u32 (c * 4) mod ssize (fsys s))) m)) s Q.
Proof.
  intros Hi Ht1 Ht2 Hc HQ.
  pose proof (go_ss _ (wi_geom s (fi_win s Hi))) as Hss.
  rewrite quarter_sector, dword_ofs by done. set (o := 4 * c).
  assert (0 <= o + 0 < fsize (fsys s) * ssize (fsys s)) as Ho by table_bound s c 0.
  rewrite Z.add_0_r in Ho.
  mcall (move_fat_faultless s o); [done..|]. intros r s1 ([Hi1 Hv1] & Hr).
  destruct Hr as [(-> & Hw1 & Hb1)|[-> Hsv]]; cbn [fr_ok negb]; msteps; apply HQ; auto.
  left. rewrite ld_dword_le by apply Hi1.
  pose proof (window_le_val s s1 4 o Hb1) as Hl.
  pose proof (dword_ofs_fits (ssize (fsys s)) c Hss) as Hfit. fold o in Hfit.
  specialize (Hl ltac:(lia) 4%nat ltac:(lia)). rewrite Z.add_0_r in Hl.
  rewrite Hl. unfold fat32. fold o. simpl_of_nat. rewrite Z.add_0_r. f_equal. lia.
Qed.

(** [get_fat] returns the entry of the table, or reports a disk error on a device that
    may fail, and changes nothing of the volume. *)
Lemma get_fat_faultless s obj c :
  fs_inv s -> fat_linked (fsys s) obj -> 2 <= c < n_fatent (fsys s) ->
  post (get_fat obj c) s (get_fat_post s c).
Proof.
  intros Hi Hl Hc.
  destruct (decide (fs_type (fsys s) = FS_FAT12)) as [?|N1]; [by apply get_fat12_spec|].
  destruct (decide (fs_type (fsys s) = FS_FAT16)) as [?|N2]; [by apply get_fat16_spec|].
  pose proof (fg_type _ (fi_fat s Hi)) as Ht.
  unfold get_fat, get_fs. do 2 mstep. cbn beta. do 3 if_false.
  assert (forall t n, n = 28 \/ n = 31 -> t = FS_FAT32 /\ n = 28 \/ t = FS_EXFAT /\ n = 31 ->
    fs_type (fsys s) = t -> fat_entry s c = Z.land (fat32 (fatb s) c) (Z.ones n)) as He.
  { intros t n _ Htn E. rewrite Z.land_ones by lia. unfold fat_entry, entry_of. rewrite E.
    destruct Htn as [[-> ->]|[-> ->]]; done. }
  bdestr.
  - apply (get_dword_spec s c 0x0FFFFFFF); [done..|]. intros v s' ?? Hv.
    split_and!; [done..|]. rewrite (He FS_FAT32 28); auto.
  - assert (fs_type (fsys s) = FS_EXFAT) as E by (unfold FS_FAT12, FS_FAT16, FS_FAT32, FS_EXFAT in *; lia).
    rewrite E. cbn [Z.eqb FS_EXFAT Pos.eqb].
    destruct Hl as [?|[Hs Hf]]; [done|]. rewrite Hs, Hf.
    rewrite orb_true_r. cbn [Z.eqb andb negb].
    apply (get_dword_spec s c 0x7FFFFFFF); [done..|]. intros v s' ?? Hv.
    split_and!; [done..|]. rewrite (He FS_EXFAT 31); auto.
Qed.

Lemma get_fat_spec s obj c :
  fs_inv s -> fat_linked (fsys s) obj -> 2 <= c < n_fatent (fsys s) ->
  post (get_fat obj c) s (fun v s' => fs_inv s' /\ vol_eq s s' /\ (v = fat_entry s c \/ v = DISK_ERR)).
Proof.
  intros Hi Hl Hc. eapply post_mono; [by apply get_fat_faultless|]. intros v s' (? & ? & Hr). split_and!; [done..|].
  destruct Hr as [?|[? _]]; auto.
Qed.

(** A cluster number outside the table is an internal error. *)
Lemma get_fat_out_of_range s obj c :
  c < 2 \/ n_fatent (fsys s) <= c -> get_fat obj c s = Some (1, s).
Proof.
  intros Hc. unfold get_fat, get_fs, gets, mbind, M_bind. cbn beta iota.
  by replace ((c <? 2) || (n_fatent (fsys s) <=? c)) with true by (symmetry; bprop; lia).
Qed.
End get_fat.

(** ** Correctness of [put_fat] *)

Section put_fat.
Context {D : Type} `{BlockDeviceLaws D}.
Implicit Types s : St D.

(** Changing the window changes one sector of the volume. *)
Lemma post_poke s w (Q : unit -> St D -> Prop) :
  fs_inv s -> zlen w = FF_MAX_SS -> bytes w ->
  (forall s', fs_inv s' -> core (fsys s') = core (fsys s) ->
     winsect (fsys s') = winsect (fsys s) ->
     (forall y, vol s' y = if y =? winsect (fsys s)
                           then take (Z.to_nat (ssize (fsys s))) w else vol s y) ->
     Q tt s') ->
  post (poke_win w) s Q.
Proof.
  intros Hi Hl Hb HQ. unfold poke_win, upd_fs. msteps. apply HQ; [|done|done|].
  - eapply (fs_inv_core s); [done| |done]. destruct Hi as [[H1 H2 H3 H4 H5 H6] _].
    split; cbn; auto; [by apply (core_geom_ok (fsys s))|lia].
  - intros y. unfold vol; cbn. destruct (y =? winsect (fsys s)); [done|].
    by rewrite andb_false_r.
Qed.

(** Outside the table nothing changes. *)
Definition same_but_fat s s' : Prop :=
  core (fsys s) = core (fsys s') /\
  forall x, 0 <= x -> ~ mirror (fsys s) x ->
    ~ (fatbase (fsys s) <= x < fatbase (fsys s) + fsize (fsys s)) -> vol s' x = vol s x.

Lemma same_but_fat_refl s : same_but_fat s s.
Proof. by split. Qed.

Lemma vol_eq_same_but_fat s s' : vol_eq s s' -> same_but_fat s s'.
Proof. intros [Hc Hv]. split; [done|]. intros. symmetry. by apply Hv. Qed.

Lemma same_but_fat_trans s1 s2 s3 :
  same_but_fat s1 s2 -> same_but_fat s2 s3 -> same_but_fat s1 s3.
Proof.
  intros [Hc Hv] [Hc' Hv']. split; [congruence|]. intros x Hx Hm Hn.
  rewrite Hv', Hv; [done..| | |]; [done|by rewrite <- (core_mirror _ _ _ Hc)|].
  by core_rewrite Hc.
Qed.

(** Byte update of the table. *)
Definition upd (b : Z -> Z) (o v : Z) : Z -> Z := fun i => if i =? o then v else b i.

(** The window shows the sector of byte [o] of the table as it was in [s], and is
    replaced by [w]. *)
Lemma poke_fat s s1 o w (Q : unit -> St D -> Prop) :
  fs_inv s -> fs_inv s1 -> vol_eq s s1 ->
  0 <= o < fsize (fsys s) * ssize (fsys s) ->
  winsect (fsys s1) = fatbase (fsys s) + o / ssize (fsys s) ->
  zlen w = FF_MAX_SS -> bytes w ->
  (forall s', fs_inv s' -> same_but_fat s s' ->
     (forall o', 0 <= o' < fsize (fsys s) * ssize (fsys s) ->
        fatb s' o' = if o' / ssize (fsys s) =? o / ssize (fsys s)
                     then w.[o' mod ssize (fsys s)] else fatb s o') ->
     Q tt s') ->
  post (poke_win w) s1 Q.
Proof.
  intros Hi Hi1 [Hc Hv] Ho Hws Hl Hb HQ.
  pose proof (fat_sector s o Hi Ho) as (Hx & Hx1 & Hx2 & Hm).
  pose proof (wi_ss_range s (fi_win s Hi)) as Hss.
  apply post_poke; [done..|]. intros s' Hi' Hc' _ Hv'. symmetry in Hc'. apply HQ; [done| |].
  - split; [congruence|]. intros x Hx0 Hnm Hnf. rewrite Hv'.
    if_false. symmetry. by apply Hv.
  - intros o' Ho'. unfold fatb. rewrite Hv', Hws. core_rewrite Hc'. core_rewrite Hc.
    pose proof (Z.mod_pos_bound o' (ssize (fsys s)) ltac:(lia)).
    destruct (Z.eqb_spec (o' / ssize (fsys s)) (o / ssize (fsys s))) as [->|Hne].
    + rewrite Z.eqb_refl. by apply getb_take.
    + if_false. pose proof (fat_sector s o' Hi Ho') as (?&?&?&?). by rewrite Hv by (done || lia).
Qed.

(** One byte. *)
Lemma poke_fat_byte s s1 o b (Q : unit -> St D -> Prop) :
  fs_inv s -> fs_inv s1 -> vol_eq s s1 ->
  0 <= o < fsize (fsys s) * ssize (fsys s) ->
  winsect (fsys s1) = fatbase (fsys s) + o / ssize (fsys s) ->
  is_u8 b ->
  (forall s', fs_inv s' -> same_but_fat s s' ->
     (forall o', 0 <= o' < fsize (fsys s) * ssize (fsys s) ->
        fatb s' o' = upd (fatb s) o b o') -> Q tt s') ->
  post (poke_win (setb (win (fsys s1)) (o mod ssize (fsys s)) b)) s1 Q.
Proof.
  intros Hi Hi1 Hv Ho Hws Hb HQ. pose proof (wi_ss_range s (fi_win s Hi)) as Hss.
  pose proof (Z.mod_pos_bound o (ssize (fsys s)) ltac:(lia)).
  pose proof (wi_len s1 (fi_win s1 Hi1)) as Hl. unfold FF_MAX_SS in Hl.
  apply (poke_fat s s1 o); [done..| | |].
  - unfold zlen in *. by rewrite length_setb.
  - apply bytes_setb; [apply Hi1|done].
  - intros s' Hi' Hs' Hf'. apply HQ; [done..|]. intros o' Ho'. rewrite Hf' by done. unfold upd.
    pose proof (Z.mod_pos_bound o' (ssize (fsys s)) ltac:(lia)).
    destruct (Z.eqb_spec o' o) as [->|Hne].
    + rewrite Z.eqb_refl. apply getb_setb_eq. lia.
    + destruct (Z.eqb_spec (o' / ssize (fsys s)) (o / ssize (fsys s))) as [Hd|]; [|done].
      rewrite getb_setb_ne; [|lia..|].
      * pose proof (fat_sector s o Hi Ho) as (?&?&?&?). unfold fatb. rewrite Hd, <- Hws.
        rewrite <- (moved_window s s1 (winsect (fsys s1))); [|apply Hi1|done|done|lia..|by rewrite Hws].
        destruct Hv as [Hc _]. core_rewrite Hc. symmetry. apply getb_take. lia.
      * intros E. apply Hne. rewrite (Z.div_mod o' (ssize (fsys s))), (Z.div_mod o (ssize (fsys s))) by lia.
        congruence.
Qed.
End put_fat.

(** *** The 12-bit entries *)

Lemma nibble_hi a v : is_u8 a ->
  u8 (Z.lor (Z.land a 0x0F) (Z.shiftl (u8 v) 4)) = a mod 16 + 16 * (v mod 16).
Proof.
  intros Ha. rewrite land_0F, Z.lor_comm, shl_lor by (Z.div_mod_to_equations; lia). zlia.
Qed.

Lemma nibble_lo a v : is_u8 a ->
  u8 (Z.lor (Z.land a 0xF0) (Z.land (u8 (Z.shiftr v 8)) 0x0F)) = 16 * (a / 16) + (v / 256) mod 16.
Proof.
  intros Ha. rewrite land_F0, land_0F, Z.shiftr_div_pow2 by (done || lia).
  replace (16 * (a / 16)) with (Z.shiftl (a / 16) 4) at 1 by (rewrite Z.shiftl_mul_pow2; lia).
  rewrite shl_lor by (Z.div_mod_to_equations; lia). zlia.
Qed.

(** The two byte updates of [put_fat] on a 12-bit table. *)
Definition put12 (b : Z -> Z) (c v : Z) : Z -> Z :=
  let o := c + c / 2 in
  let b1 := upd b o (if Z.odd c then b o mod 16 + 16 * (v mod 16) else v mod 2 ^ 8) in
  upd b1 (o + 1) (if Z.odd c then (v / 16) mod 2 ^ 8
                  else 16 * (b (o + 1) / 16) + (v / 256) mod 16).

Lemma parity x : 0 <= x -> exists k, 0 <= k /\
  (x = 2 * k /\ Z.odd x = false /\ x + x / 2 = 3 * k
   \/ x = 2 * k + 1 /\ Z.odd x = true /\ x + x / 2 = 3 * k + 1).
Proof.
  intros Hx. exists (x / 2). pose proof (Zmod_odd x) as Ho. split; [apply Z.div_pos; lia|].
  destruct (Z.odd x); [right|left]; (split_and!; [|done|]); Z.div_mod_to_equations; lia.
Qed.

Ltac fat12_cases Hb k k' :=
  repeat match goal with |- context [?x =? ?y] => destruct (Z.eqb_spec x y); try lia end;
  pose proof (Hb (3 * k')); pose proof (Hb (3 * k' + 1)); pose proof (Hb (3 * k' + 1 + 1));
  try (assert (k' = k) as -> by lia); unfold is_u8 in *;
  repeat match goal with H : ?x = ?x |- _ => clear H end;
  Z.div_mod_to_equations; lia.

Lemma fat12_put12 b c v c' :
  (forall i, is_u8 (b i)) -> 0 <= c -> 0 <= c' ->
  fat12 (put12 b c v) c' = if c' =? c then v mod 2 ^ 12 else fat12 b c'.
Proof.
  intros Hb Hc Hc'.
  destruct (parity c Hc) as (k & Hk & [(-> & Eo & Eq)|(-> & Eo & Eq)]);
    destruct (parity c' Hc') as (k' & Hk' & [(-> & Eo' & Eq')|(-> & Eo' & Eq')]);
    unfold fat12, put12, upd; rewrite ?Eo, ?Eo', ?Eq, ?Eq'; fat12_cases Hb k k'.
Qed.

(** The state between the two updates: a torn entry, the others intact. *)
Lemma fat12_torn b c v c' :
  (forall i, is_u8 (b i)) -> 0 <= c -> 0 <= c' -> c' <> c ->
  fat12 (upd b (c + c / 2) (if Z.odd c then b (c + c / 2) mod 16 + 16 * (v mod 16)
                            else v mod 2 ^ 8)) c' = fat12 b c'.
Proof.
  intros Hb Hc Hc' Hne.
  destruct (parity c Hc) as (k & Hk & [(-> & Eo & Eq)|(-> & Eo & Eq)]);
    destruct (parity c' Hc') as (k' & Hk' & [(-> & Eo' & Eq')|(-> & Eo' & Eq')]);
    unfold fat12, upd; rewrite ?Eo, ?Eo', ?Eq, ?Eq'; fat12_cases Hb k k'.
Qed.

Section put_fat_spec.
Context {D : Type} `{BlockDeviceLaws D}.
Implicit Types s : St D.

(** What [put_fat] guarantees for a valid cluster. *)
Definition put_fat_post s c v (r : FRESULT) (s' : St D) : Prop :=
  fs_inv s' /\ same_but_fat s s' /\
  (forall c', 0 <= c' < n_fatent (fsys s) -> c' <> c -> fat_entry s' c' = fat_entry s c') /\
  (r = FR_OK /\ fat_entry s' c = v mod fat_mask (fsys s) \/ r = FR_DISK_ERR).

Lemma put_fat_err s s' c v :
  fs_inv s -> fs_inv s' -> vol_eq s s' -> put_fat_post s c v FR_DISK_ERR s'.
Proof.
  intros Hi Hi' Hv. split_and!; [done|by apply vol_eq_same_but_fat| |by right].
  intros. by apply vol_eq_fat_entry.
Qed.

Lemma put_fat12_spec s c v :
  fs_inv s -> fs_type (fsys s) = FS_FAT12 -> 2 <= c < n_fatent (fsys s) ->
  post (put_fat c v) s (put_fat_post s c v).
Proof.
  intros Hi Ht Hc. unfold put_fat, get_fs. do 2 mstep. cbn beta. if_true.
  rewrite Ht. cbn [Z.eqb FS_FAT12 Pos.eqb].
  assert (n_fatent (fsys s) <= MAX_FAT12 + 2) as Hn.
  { pose proof (fg_ents _ (fi_fat s Hi)) as Hm. unfold fat_max in Hm. rewrite Ht in Hm. apply Hm. }
  unfold MAX_FAT12 in Hn. set (o := c + c / 2).
  assert (0 <= o < 2 ^ 31) by (unfold o; Z.div_mod_to_equations; lia).
  rewrite (u32_small o), (u32_small (o + 1)) by (unfold is_u32; lia).
  assert (0 <= o + 0 < fsize (fsys s) * ssize (fsys s)) as Ho0 by table_bound s c 0.
  assert (0 <= o + 1 < fsize (fsys s) * ssize (fsys s)) as Ho1 by table_bound s c 1.
  rewrite Z.add_0_r in Ho0. pose proof (wi_ss_range s (fi_win s Hi)) as Hss.
  pose proof (Z.mod_pos_bound o (ssize (fsys s)) ltac:(lia)).
  pose proof (Z.mod_pos_bound (o + 1) (ssize (fsys s)) ltac:(lia)).
  pose proof (fatb_u8 s o Hi) as U0. pose proof (fatb_u8 s (o + 1) Hi) as U1.
  mcall (move_fat s o); [done..|]. intros r s1 (Hi1 & Hv1 & Hr).
  destruct Hr as [(-> & Hw1 & Hb1)| ->]; cbn [fr_ok negb]; msteps; [|by apply put_fat_err].
  pose proof (Hb1 0 ltac:(lia) ltac:(lia)) as B0. rewrite !Z.add_0_r in B0.
  rewrite !land_1_odd, B0, nibble_hi by done.
  apply (poke_fat_byte s s1); [done..| |].
  { destruct (Z.odd c); [Z.div_mod_to_equations; unfold is_u8 in *; lia|apply u8_range]. }
  intros s2 Hi2 Hs2 Hf2.
  destruct (Hs2) as [Hc2 _]. destruct (Hv1) as [Hc1 _]. core_rewrite Hc1.
  mcall (move_fat s2 (o + 1)); [done|core_rewrite Hc2; done|core_rewrite Hc2; done|].
  intros r s3 (Hi3 & Hv3 & Hr).
  assert (forall c', 0 <= c' < n_fatent (fsys s) -> c' <> c ->
    fat_entry s2 c' = fat_entry s c') as Htorn.
  { intros c' Hc' Hne. unfold fat_entry. core_rewrite Hc2.
    rewrite (entry_of_ext (fsys s) _ _ c' (fi_fat s Hi) Hc' Hf2).
    unfold entry_of. rewrite Ht. cbn [Z.eqb FS_FAT12 Pos.eqb].
    apply fat12_torn; [intros; by apply fatb_u8|lia..]. }
  destruct Hr as [(-> & Hw3 & Hb3)| ->]; cbn [fr_ok negb]; msteps.
  2:{ split_and!; [done| | |by right].
      - eapply same_but_fat_trans; [done|]. by apply vol_eq_same_but_fat.
      - intros c' Hc' Hne. rewrite (vol_eq_fat_entry s2); [auto|done..|by core_rewrite Hc2]. }
  core_rewrite Hc2. pose proof (Hb3 0 ltac:(lia) ltac:(lia)) as B1.
  rewrite !Z.add_0_r, Hf2 in B1 by done. unfold upd in B1.
  rewrite (proj2 (Z.eqb_neq (o + 1) o)) in B1 by lia.
  rewrite B1, nibble_lo by done.
  replace (ssize (fsys s)) with (ssize (fsys s2)) by (by core_rewrite Hc2).
  apply (poke_fat_byte s2 s3); [done..|core_rewrite Hc2; done|core_rewrite Hc2; done| |].
  { destruct (Z.odd c); [apply u8_range|Z.div_mod_to_equations; unfold is_u8 in *; lia]. }
  intros s4 Hi4 Hs4 Hf4. msteps.
  destruct (Hs4) as [Hc4 _]. core_rewrite Hc2.
  assert (forall c', 0 <= c' < n_fatent (fsys s) ->
    fat_entry s4 c' = if c' =? c then v mod 2 ^ 12 else fat_entry s c') as Hfin.
  { intros c' Hc'. unfold fat_entry. core_rewrite Hc4. core_rewrite Hc2.
    rewrite (entry_of_ext (fsys s) (put12 (fatb s) c v) _ c' (fi_fat s Hi) Hc').
    - unfold entry_of. rewrite Ht. cbn [Z.eqb FS_FAT12 Pos.eqb].
      apply fat12_put12; [intros; by apply fatb_u8|lia..].
    - intros i Hir. rewrite Hf4 by done. unfold put12, upd. fold o.
      destruct (i =? o + 1); [by rewrite Z.shiftr_div_pow2|].
      rewrite Hf2 by done. unfold upd. done. }
  split_and!; [done|by eapply same_but_fat_trans| |left].
  - intros c' Hc' Hne. rewrite Hfin by lia. by rewrite (proj2 (Z.eqb_neq _ _)).
  - split; [done|]. rewrite Hfin, Z.eqb_refl by lia. unfold fat_mask. by rewrite Ht.
Qed.

(** [n] bytes stored in one sector. *)
Lemma poke_fat_bytes s s1 n o v (Q : unit -> St D -> Prop) :
  fs_inv s -> fs_inv s1 -> vol_eq s s1 ->
  0 <= o < fsize (fsys s) * ssize (fsys s) ->
  o mod ssize (fsys s) + Z.of_nat n <= ssize (fsys s) ->
  winsect (fsys s1) = fatbase (fsys s) + o / ssize (fsys s) ->
  (forall i, 0 <= i -> o mod ssize (fsys s) + i < ssize (fsys s) ->
     (win (fsys s1)).[o mod ssize (fsys s) + i] = fatb s (o + i)) ->
  (forall s', fs_inv s' -> same_but_fat s s' ->
     (forall o', 0 <= o' < fsize (fsys s) * ssize (fsys s) ->
        fatb s' o' = if (o <=? o') && (o' <? o + Z.of_nat n)
                     then u8 (Z.shiftr v (8 * (o' - o))) else fatb s o') -> Q tt s') ->
  post (poke_win (st_bytes n (win (fsys s1)) (o mod ssize (fsys s)) v)) s1 Q.
Proof.
  intros Hi Hi1 Hv Ho Hn Hws Hwin HQ. pose proof (wi_ss_range s (fi_win s Hi)) as Hss.
  set (ss := ssize (fsys s)) in *.
  pose proof (Z.mod_pos_bound o ss ltac:(lia)).
  pose proof (wi_len s1 (fi_win s1 Hi1)) as Hl. unfold FF_MAX_SS in Hl.
  apply (poke_fat s s1 o); [done..| | |].
  - unfold zlen in *. by rewrite length_st_bytes.
  - apply bytes_st_bytes, Hi1.
  - intros s' Hi' Hs' Hf'. apply HQ; [done..|]. intros o' Ho'. rewrite Hf' by done. fold ss.
    pose proof (Z.mod_pos_bound o' ss ltac:(lia)).
    pose proof (Z.div_mod o ss ltac:(lia)) as E. pose proof (Z.div_mod o' ss ltac:(lia)) as E'.
    destruct (Z.eqb_spec (o' / ss) (o / ss)) as [Hd|Hd].
    2:{ rewrite (proj2 (andb_false_iff _ _)); [done|]. bprop. nia. }
    rewrite Hd in E'. bdestr.
    + replace (o' mod ss) with (o mod ss + (o' - o)) by lia.
      apply getb_st_bytes_in; lia.
    + rewrite getb_st_bytes_out by lia. unfold fatb. fold ss. rewrite Hd, <- Hws.
      pose proof (fat_sector s o Hi Ho) as Hfs. fold ss in Hfs. destruct Hfs as (?&?&?&?).
      rewrite <- (moved_window s s1 (winsect (fsys s1))); [|apply Hi1|done|done|lia..|by rewrite Hws].
      destruct Hv as [Hc _]. core_rewrite Hc. fold ss. symmetry. apply getb_take. lia.
Qed.

Lemma put_fat16_spec s c v :
  fs_inv s -> fs_type (fsys s) = FS_FAT16 -> 2 <= c < n_fatent (fsys s) ->
  post (put_fat c v) s (put_fat_post s c v).
Proof.
  intros Hi Ht Hc. unfold put_fat, get_fs. do 2 mstep. cbn beta. if_true.
  rewrite Ht. cbn [Z.eqb FS_FAT12 FS_FAT16 Pos.eqb].
  pose proof (go_ss _ (wi_geom s (fi_win s Hi))) as Hss.
  rewrite half_sector, word_ofs by done. set (o := 2 * c).
  assert (0 <= o + 0 < fsize (fsys s) * ssize (fsys s)) as Ho by table_bound s c 0.
  rewrite Z.add_0_r in Ho.
  pose proof (word_ofs_fits (ssize (fsys s)) c Hss) as Hfit. fold o in Hfit.
  mcall (move_fat s o); [done..|]. intros r s1 (Hi1 & Hv1 & Hr).
  destruct Hr as [(-> & Hw1 & Hb1)| ->]; cbn [fr_ok negb]; msteps; [|by apply put_fat_err].
  unfold st_word. apply (poke_fat_bytes s s1); [done..|lia|done|done|].
  intros s2 Hi2 Hs2 Hf2. msteps. destruct (Hs2) as [Hc2 _].
  assert (forall c', 0 <= c' < n_fatent (fsys s) ->
    fat_entry s2 c' = if c' =? c then v mod 2 ^ 16 else fat_entry s c') as Hfin.
  { intros c' Hc'. unfold fat_entry, entry_of. core_rewrite Hc2. rewrite Ht.
    cbn [Z.eqb FS_FAT12 FS_FAT16 Pos.eqb]. unfold fat16.
    assert (0 <= 2 * c' + 0 < fsize (fsys s) * ssize (fsys s)) by table_bound s c' 0.
    assert (0 <= 2 * c' + 1 < fsize (fsys s) * ssize (fsys s)) by table_bound s c' 1.
    rewrite !Hf2 by lia. destruct (Z.eqb_spec c' c) as [->|].
    - do 2 if_true. replace (2 * c - o) with 0 by lia. replace (2 * c + 1 - o) with 1 by lia.
      rewrite Z.shiftr_0_r, Z.shiftr_div_pow2 by lia. zlia.
    - do 2 if_false. done. }
  split_and!; [done..| |left].
  - intros c' Hc' Hne. rewrite Hfin by lia. by rewrite (proj2 (Z.eqb_neq _ _)).
  - split; [done|]. rewrite Hfin, Z.eqb_refl by lia. unfold fat_mask. by rewrite Ht.
Qed.

(** The value stored in a 32-bit entry: on FAT32 the upper four bits are kept. *)
Lemma fat32_keep_upper v w :
  u32 (Z.lor (Z.land v 0x0FFFFFFF) (Z.land w 0xF0000000)) mod 2 ^ 28 = v mod 2 ^ 28.
Proof.
  unfold u32. rewrite <- !Z.land_ones by lia. rewrite <- Z.land_assoc.
  change (Z.land (Z.ones 32) (Z.ones 28)) with (Z.ones 28).
  rewrite Z.land_lor_distr_l, <- !Z.land_assoc.
  change (Z.land 0x0FFFFFFF (Z.ones 28)) with (Z.ones 28).
  change (Z.land 0xF0000000 (Z.ones 28)) with 0. by rewrite Z.land_0_r, Z.lor_0_r.
Qed.

Lemma split_dword w : is_u32 w ->
  u8 (w / 2 ^ (8 * 0)) + 2 ^ 8 * (u8 (w / 2 ^ (8 * 1)) + 2 ^ 8 *
    (u8 (w / 2 ^ (8 * 2)) + 2 ^ 8 * u8 (w / 2 ^ (8 * 3)))) = w.
Proof. zlia. Qed.

Lemma put_fat32_spec s c v :
  fs_inv s -> fs_type (fsys s) = FS_FAT32 \/ fs_type (fsys s) = FS_EXFAT ->
  2 <= c < n_fatent (fsys s) ->
  post (put_fat c v) s (put_fat_post s c v).
Proof.
  intros Hi Ht Hc. unfold put_fat, get_fs. do 2 mstep. cbn beta. if_true.
  unfold FS_FAT12, FS_FAT16, FS_FAT32, FS_EXFAT in Ht.
  unfold FS_FAT12, FS_FAT16, FS_FAT32, FS_EXFAT. do 2 if_false. if_true.
  pose proof (go_ss _ (wi_geom s (fi_win s Hi))) as Hss.
  rewrite quarter_sector, dword_ofs by done. set (o := 4 * c).
  assert (0 <= o + 0 < fsize (fsys s) * ssize (fsys s)) as Ho by table_bound s c 0.
  rewrite Z.add_0_r in Ho.
  pose proof (dword_ofs_fits (ssize (fsys s)) c Hss) as Hfit. fold o in Hfit.
  mcall (move_fat s o); [done..|]. intros r s1 (Hi1 & Hv1 & Hr).
  destruct Hr as [(-> & Hw1 & Hb1)| ->]; cbn [fr_ok negb]; msteps; [|by apply put_fat_err].
  destruct (Hv1) as [Hc1 _]. core_rewrite Hc1.
  set (v' := if negb (fs_type (fsys s) =? 4) then _ else v).
  assert (u32 v' mod fat_mask (fsys s) = v mod fat_mask (fsys s)) as Hv'.
  { unfold fat_mask, v', FS_FAT12, FS_FAT16, FS_FAT32. do 2 if_false.
    destruct Ht as [-> | ->]; cbn [Z.eqb Pos.eqb negb]; [apply fat32_keep_upper|].
    unfold u32. apply Z.mod_mod_divide. by exists 2. }
  clearbody v'. unfold st_dword. apply (poke_fat_bytes s s1); [done..|lia|done|done|].
  intros s2 Hi2 Hs2 Hf2. msteps. destruct (Hs2) as [Hc2 _].
  assert (forall c', 0 <= c' < n_fatent (fsys s) ->
    fat_entry s2 c' = if c' =? c then u32 v' mod fat_mask (fsys s) else fat_entry s c') as Hfin.
  { intros c' Hc'. unfold fat_entry, entry_of, fat_mask. core_rewrite Hc2.
    unfold FS_FAT12, FS_FAT16, FS_FAT32, FS_EXFAT. do 2 if_false.
    assert (forall i, 0 <= i <= 3 -> 0 <= 4 * c' + i < fsize (fsys s) * ssize (fsys s)) as Hbd
      by (intros i Hir; table_bound s c' i).
    pose proof (Hbd 0 ltac:(lia)) as H0'. rewrite Z.add_0_r in H0'. unfold fat32.
    rewrite !Hf2 by (apply Hbd || apply H0'; lia). destruct (Z.eqb_spec c' c) as [->|].
    - do 4 if_true. replace (4 * c - o) with 0 by lia. replace (4 * c + 1 - o) with 1 by lia.
      replace (4 * c + 2 - o) with 2 by lia. replace (4 * c + 3 - o) with 3 by lia.
      rewrite !Z.shiftr_div_pow2 by lia. pose proof (u32_range v'). rewrite split_dword by done. by bdestr.
    - do 4 if_false. bdestr; done. }
  split_and!; [done..| |left].
  - intros c' Hc' Hne. rewrite Hfin by lia. by rewrite (proj2 (Z.eqb_neq _ _)).
  - split; [done|]. by rewrite Hfin, Z.eqb_refl by lia.
Qed.
End put_fat_spec.

Section put_fat_all.
Context {D : Type} `{BlockDeviceLaws D}.
Implicit Types s : St D.

(** [put_fat] on every type of volume. *)
Lemma put_fat_spec s c v :
  fs_inv s -> 2 <= c < n_fatent (fsys s) -> post (put_fat c v) s (put_fat_post s c v).
Proof.
  intros Hi Hc. pose proof (fg_type _ (fi_fat s Hi)) as Ht.
  destruct (decide (fs_type (fsys s) = FS_FAT12)); [by apply put_fat12_spec|].
  destruct (decide (fs_type (fsys s) = FS_FAT16)); [by apply put_fat16_spec|].
  apply put_fat32_spec; [done| |done]. unfold FS_FAT12, FS_FAT16, FS_FAT32, FS_EXFAT in *. lia.
Qed.

Lemma put_fat_out_of_range s c v :
  c < 2 \/ n_fatent (fsys s) <= c -> put_fat c v s = Some (FR_INT_ERR, s).
Proof.
  intros Hc. unfold put_fat, get_fs, gets, mbind, M_bind. cbn beta iota.
  by replace ((2 <=? c) && (c <? n_fatent (fsys s))) with false by (symmetry; bprop; lia).
Qed.

Lemma fat_entry_range s c : fs_inv s -> 0 <= fat_entry s c < fat_mask (fsys s).
Proof.
  intros Hi. unfold fat_entry, entry_of, fat_mask.
  pose proof (fun i => fatb_u8 s i Hi) as Hb. unfold is_u8 in Hb.
  bdestr; [|bdestr; [|bdestr; apply Z.mod_pos_bound; lia]].
  - unfold fat12. pose proof (Hb (c + c / 2)). pose proof (Hb (c + c / 2 + 1)).
    destruct (Z.odd c); zlia.
  - unfold fat16. pose proof (Hb (2 * c)). pose proof (Hb (2 * c + 1)). lia.
Qed.

Lemma fat_mask_bound fs : fat_mask fs <= 2 ^ 31.
Proof. unfold fat_mask. repeat bdestr; lia. Qed.

(** An entry is never the value that stands for a disk error. *)
Lemma fat_entry_not_err s c : fs_inv s -> fat_entry s c <> DISK_ERR.
Proof.
  intros Hi. pose proof (fat_entry_range s c Hi). pose proof (fat_mask_bound (fsys s)).
  unfold DISK_ERR. lia.
Qed.

(** The value written as end of chain is not a cluster of the volume. *)
Lemma eoc_mark fs : fat_geom fs -> n_fatent fs <= 0xFFFFFFFF mod fat_mask fs.
Proof.
  intros [Ht Hn _]. revert Hn. unfold fat_max, fat_mask, MAX_FAT12, MAX_FAT16, MAX_FAT32, MAX_EXFAT.
  repeat bdestr; intros; zlia.
Qed.
End put_fat_all.

(** ** Clusters and sectors *)

(** The data area lies in the sector space, after the FAT area. *)
Record data_geom (fs : FATFS) : Prop := {
  dg_ents : 2 <= n_fatent fs;
  dg_csize : 0 < csize fs;
  dg_base : fatbase fs + n_fats fs * fsize fs <= database fs;
  dg_base_pos : 0 < database fs;
  dg_end : database fs + csize fs * (n_fatent fs - 2) < 2 ^ 32
}.

Lemma clst2sect_valid fs c :
  data_geom fs -> 2 <= c < n_fatent fs -> clst2sect fs c = database fs + csize fs * (c - 2).
Proof.
  intros [H1 H2 H3 H4 H5] Hc. unfold clst2sect.
  assert (csize fs * (c - 2) <= csize fs * (n_fatent fs - 2)) by (apply Z.mul_le_mono_nonneg_l; lia).
  assert (0 <= csize fs * (c - 2)) by nia.
  assert (n_fatent fs - 2 <= csize fs * (n_fatent fs - 2)) by nia.
  rewrite (u32_small (c - 2)), (u32_small (n_fatent fs - 2)) by (unfold is_u32; lia).
  if_false. by rewrite (u32_small (csize fs * _)), u32_small by (unfold is_u32; lia).
Qed.

Lemma clst2sect_invalid fs c :
  2 <= n_fatent fs < 2 ^ 32 -> is_u32 c -> c < 2 \/ n_fatent fs <= c -> clst2sect fs c = 0.
Proof.
  intros Hn Hc Ho. unfold clst2sect. unfold is_u32 in Hc.
  rewrite (u32_small (n_fatent fs - 2)) by (unfold is_u32; lia).
  assert (n_fatent fs - 2 <= u32 (c - 2)); [|by if_true].
  destruct Ho as [?|?]; [|rewrite u32_small by (unfold is_u32; lia); lia].
  unfold u32. rewrite <- (Z.mod_add _ 1), Z.mod_small; lia.
Qed.

(** ** Properties of the table accesses *)

Section properties.
Context {D : Type} `{BlockDeviceLaws D}.
Implicit Types s : St D.

(** For a cluster of the volume, on FAT12, FAT16, FAT32 and
    (for an object whose chain is recorded in the table) exFAT, [get_fat] returns
    the entry of the cluster or the disk-error value, which is never an entry, and
    leaves the volume as it was. *)
Theorem get_fat_reads_entry s obj c :
  fs_inv s -> fat_linked (fsys s) obj -> 2 <= c < n_fatent (fsys s) ->
  post (get_fat obj c) s (fun v s' => fs_inv s' /\ vol_eq s s' /\
    (v = fat_entry s c /\ v <> DISK_ERR \/ v = DISK_ERR)).
Proof.
  intros Hi Hl Hc. mcall get_fat_spec; [done..|]. intros v s' (Hi' & Hv & Hr).
  split_and!; [done..|]. destruct Hr as [->|?]; [left|by right].
  split; [done|by apply fat_entry_not_err].
Qed.

(** C31: for a cluster of the volume, [put_fat] either reports
    success and the entry is the value given, cut to the width of the entries, or
    reports a disk error; in both cases every other entry and every sector outside
    the table are unchanged and the invariant holds, also when a 12-bit entry
    straddles two sectors. *)
Theorem put_fat_updates_entry s c v :
  fs_inv s -> 2 <= c < n_fatent (fsys s) ->
  post (put_fat c v) s (fun r s' => fs_inv s' /\ same_but_fat s s' /\
    (forall c', 0 <= c' < n_fatent (fsys s) -> c' <> c -> fat_entry s' c' = fat_entry s c') /\
    (r = FR_OK /\ fat_entry s' c = v mod fat_mask (fsys s) \/ r = FR_DISK_ERR)).
Proof. apply put_fat_spec. Qed.

(** The value written with [put_fat] is the value [get_fat] reads
    afterwards, cut to the width of the entries, unless the disk fails. *)
Theorem put_get_fat s obj c v :
  fs_inv s -> fat_linked (fsys s) obj -> 2 <= c < n_fatent (fsys s) ->
  post (r ← put_fat c v; w ← get_fat obj c; mret (r, w)) s (fun '(r, w) _ =>
    r = FR_OK /\ (w = v mod fat_mask (fsys s) \/ w = DISK_ERR) \/ r = FR_DISK_ERR).
Proof.
  intros Hi Hl Hc. mcall put_fat_spec; [done..|]. intros r s1 (Hi1 & [Hc1 _] & _ & Hr).
  mcall (get_fat_spec s1 obj c); [done| |core_rewrite Hc1; done|].
  { unfold fat_linked in *. by core_rewrite Hc1. }
  intros w s2 (_ & _ & Hw). mstep. destruct Hr as [[-> He]| ->]; [left|by right].
  split; [done|]. by rewrite He in Hw.
Qed.

(** A cluster number outside the volume is refused by both
    accesses with their internal-error value, and no disk request is made. *)
Theorem fat_access_out_of_range s obj c v :
  c < 2 \/ n_fatent (fsys s) <= c ->
  get_fat obj c s = Some (1, s) /\ put_fat c v s = Some (FR_INT_ERR, s).
Proof. intros Hc. split; [by apply get_fat_out_of_range|by apply put_fat_out_of_range]. Qed.
End properties.

(** The first sector of a cluster of the volume lies in the data
    area with all of the cluster, clear of the FAT area, the sectors of two clusters
    are disjoint, and any other cluster number gives 0. *)
Theorem clst2sect_disjoint fs c c' :
  data_geom fs -> n_fatent fs < 2 ^ 32 -> 2 <= c < n_fatent fs -> is_u32 c' -> c' <> c ->
  database fs <= clst2sect fs c /\
  clst2sect fs c + csize fs <= database fs + csize fs * (n_fatent fs - 2) /\
  fatbase fs + n_fats fs * fsize fs <= clst2sect fs c /\
  (clst2sect fs c' = 0 \/ clst2sect fs c' + csize fs <= clst2sect fs c
   \/ clst2sect fs c + csize fs <= clst2sect fs c').
Proof.
  intros Hg Hn Hc Hu Hne. rewrite (clst2sect_valid fs c) by done.
  destruct (decide (2 <= c' < n_fatent fs)) as [Hc'|Hc'].
  - rewrite clst2sect_valid by done. destruct Hg. split_and!; nia.
  - rewrite clst2sect_invalid by (done || (destruct Hg; lia)). destruct Hg. split_and!; [nia..|by left].
Qed.
