(* ===== verification/Bitmap.v ===== *)
(** * The exFAT allocation bitmap

    [find_bitmap] and [change_bitmap] of [src/ff/src/ff/ff.c].  The bitmap is a
    file of one bit per cluster from cluster 2 on, read through the window;
    [cluster_bit s c] is the bit of cluster [c] in the volume as the driver sees it.

    The nested loops of the code are one recursion whose step is a bit; the window
    is reloaded where the outermost loop does it. *)

From stdpp Require Import prelude list.
From Stdlib Require Import ZArith Lia.
From S2P Require Import Prelude Bytes Diskio FFTypes Window Fat.

Local Open Scope Z_scope.
Local Open Scope cint_scope.

(** ** The code *)

Section code.
Context {D : Type} `{BlockDevice D}.

(** The two inner loops of [find_bitmap]; [find_bitmap_sect] is the head of the
    outer one. *)
Fixpoint find_bitmap_bits (fuel : nat) (clst ncl val scl ctr i bm : Z) : M (St D) Z :=
  match fuel with
  | O => out_of_fuel
  | S fuel =>
      fs ← get_fs;
      let SS := ssize fs in
      let bv := Z.land (win fs).[i] bm in
      let bm := u8 (Z.shiftl bm 1) in
      let val := val +u32 1 in
      let wrap := n_fatent fs -u32 2 <=? val in
      let val := if wrap then 0 else val in
      let bm := if wrap then 0 else bm in
      let i := if wrap then SS else i in
      let ctr := if bv =? 0 then ctr +u32 1 else 0 in
      if (bv =? 0) && (ctr =? ncl) then mret (scl +u32 2) else
      let scl := if bv =? 0 then scl else val in
      if val =? clst then mret 0
      else if negb (bm =? 0) then find_bitmap_bits fuel clst ncl val scl ctr i bm
      else
        let bm := 1 in
        let i := i +u32 1 in
        if i <? SS then find_bitmap_bits fuel clst ncl val scl ctr i bm
        else
          r ← move_window (bitbase fs +u32 (val / 8 / SS));
          if negb (fr_ok r) then mret DISK_ERR
          else find_bitmap_bits fuel clst ncl val scl ctr
                 ((val / 8) mod SS) (u8 (Z.shiftl 1 (val mod 8)))
  end.

Definition find_bitmap (clst ncl : Z) : M (St D) Z :=
  fs ← get_fs;
  let SS := ssize fs in
  let clst := clst -u32 2 in
  let clst := if n_fatent fs -u32 2 <=? clst then 0 else clst in
  r ← move_window (bitbase fs +u32 (clst / 8 / SS));
  if negb (fr_ok r) then mret DISK_ERR
  else find_bitmap_bits (Z.to_nat (n_fatent fs)) clst ncl clst clst 0
         ((clst / 8) mod SS) (u8 (Z.shiftl 1 (clst mod 8))).

(** The two inner loops of [change_bitmap], flipping one bit per step. *)
Fixpoint change_bitmap_bits (fuel : nat) (sect ncl bv i bm : Z) : M (St D) FRESULT :=
  match fuel with
  | O => out_of_fuel
  | S fuel =>
      fs ← get_fs;
      let SS := ssize fs in
      if bv =? (if negb (Z.land (win fs).[i] bm =? 0) then 1 else 0) then mret FR_INT_ERR else
      poke_win (setb (win fs) i (u8 (Z.lxor (win fs).[i] bm)));;
      let ncl := ncl -u32 1 in
      if ncl =? 0 then mret FR_OK else
      let bm := u8 (Z.shiftl bm 1) in
      if negb (bm =? 0) then change_bitmap_bits fuel sect ncl bv i bm
      else
        let bm := 1 in
        let i := i +u32 1 in
        if i <? SS then change_bitmap_bits fuel sect ncl bv i bm
        else
          let i := 0 in
          r ← move_window sect;
          if negb (fr_ok r) then mret FR_DISK_ERR
          else change_bitmap_bits fuel (sect +u32 1) ncl bv i bm
  end.

Definition change_bitmap (clst ncl bv : Z) : M (St D) FRESULT :=
  fs ← get_fs;
  let SS := ssize fs in
  let clst := clst -u32 2 in
  let sect := bitbase fs +u32 (clst / 8 / SS) in
  let i := (clst / 8) mod SS in
  let bm := u8 (Z.shiftl 1 (clst mod 8)) in
  r ← move_window sect;
  if negb (fr_ok r) then mret FR_DISK_ERR
  else change_bitmap_bits (Z.to_nat ncl) (sect +u32 1) ncl bv i bm.
End code.

(** ** The bitmap as the driver sees it *)

(** The bitmap lies after the FAT area and inside the sector space. *)
Record bm_geom (fs : FATFS) : Prop := {
  bg_ents : 3 <= n_fatent fs <= MAX_EXFAT + 2;
  bg_base : 0 <= bitbase fs;
  bg_after : fatbase fs + n_fats fs * fsize fs <= bitbase fs;
  bg_end : bitbase fs + (n_fatent fs - 3) / 8 / ssize fs < 0xFFFFFFFF
}.

Section view.
Context {D : Type} `{BlockDeviceLaws D}.
Implicit Types s : St D.

Definition bit_sect (fs : FATFS) (v : Z) : Z := bitbase fs + v / 8 / ssize fs.

(** Bit [v] of the bitmap, that of cluster [v + 2]. *)
Definition vbit s (v : Z) : bool :=
  let fs := fsys s in
  Z.testbit (vol s (bit_sect fs v)).[(v / 8) mod ssize fs] (v mod 8).

Definition cluster_bit s (c : Z) : bool := vbit s (c - 2).
End view.

(** ** One bit through the window *)

Lemma land_pow2 b k : 0 <= k -> (Z.land b (2 ^ k) =? 0) = negb (Z.testbit b k).
Proof.
  intros Hk. destruct (Z.testbit b k) eqn:E; cbn.
  - apply Z.eqb_neq. intros H0. assert (Z.testbit (Z.land b (2 ^ k)) k = false) as H1
      by (rewrite H0; apply Z.bits_0).
    rewrite Z.land_spec, E, Z.pow2_bits_true in H1 by done. done.
  - apply Z.eqb_eq, Z.bits_inj'. intros j Hj. rewrite Z.land_spec, Z.bits_0.
    destruct (decide (j = k)) as [->|]; [by rewrite E|].
    rewrite Z.pow2_bits_false by lia. apply andb_false_r.
Qed.

Lemma pow2_step k : 0 <= k <= 7 -> u8 (Z.shiftl (2 ^ k) 1) = if k =? 7 then 0 else 2 ^ (k + 1).
Proof.
  intros Hk. assert (k = 0 \/ k = 1 \/ k = 2 \/ k = 3 \/ k = 4 \/ k = 5 \/ k = 6 \/ k = 7) as Hc by lia.
  by repeat destruct Hc as [->|Hc]; [..|subst k].
Qed.

Lemma one_shl k : 0 <= k <= 7 -> u8 (Z.shiftl 1 k) = 2 ^ k.
Proof.
  intros Hk. rewrite Z.shiftl_1_l. apply u8_small. unfold is_u8.
  split; [lia|]. apply Z.pow_lt_mono_r; lia.
Qed.

Lemma lxor_pow2_u8 b k : is_u8 b -> 0 <= k < 8 -> is_u8 (Z.lxor b (2 ^ k)).
Proof.
  intros Hb Hk. unfold is_u8 in *.
  assert (0 <= Z.lxor b (2 ^ k)) by (apply Z.lxor_nonneg; lia).
  split; [done|]. destruct (decide (Z.lxor b (2 ^ k) = 0)) as [->|]; [done|].
  apply Z.log2_lt_pow2; [lia|].
  pose proof (Z.log2_lxor b (2 ^ k) ltac:(lia) ltac:(lia)) as Hl.
  rewrite Z.log2_pow2 in Hl by lia.
  destruct (decide (b = 0)) as [->|]; [cbn in Hl; lia|].
  assert (Z.log2 b < 8) by (apply Z.log2_lt_pow2; lia). lia.
Qed.

Section bit.
Context {D : Type} `{BlockDeviceLaws D}.
Implicit Types s : St D.

(** The window, the index and the mask point at bit [v]. *)
Record at_bit (s0 s : St D) (v i bm : Z) : Prop := {
  ab_inv : fs_inv s;
  ab_eq : vol_eq s0 s;
  ab_sect : winsect (fsys s) = bit_sect (fsys s0) v;
  ab_idx : i = (v / 8) mod ssize (fsys s0);
  ab_mask : bm = 2 ^ (v mod 8)
}.

Lemma bit_sect_ok s v :
  fs_inv s -> bm_geom (fsys s) -> 0 <= v < n_fatent (fsys s) - 2 ->
  0 <= bit_sect (fsys s) v < 0xFFFFFFFF /\ ~ mirror (fsys s) (bit_sect (fsys s) v) /\
  bitbase (fsys s) <= bit_sect (fsys s) v.
Proof.
  intros Hi [H1 H2 H3 H4] Hv. pose proof (wi_ss_range s (fi_win s Hi)).
  assert (0 <= v / 8 / ssize (fsys s) <= (n_fatent (fsys s) - 3) / 8 / ssize (fsys s)).
  { split; [apply Z.div_pos; [apply Z.div_pos; lia|lia]|].
    apply Z.div_le_mono; [lia|]. apply Z.div_le_mono; lia. }
  unfold bit_sect, mirror. lia.
Qed.

(** Loading the sector of a bit. *)
Lemma load_bit s0 s v (Q : FRESULT -> St D -> Prop) :
  fs_inv s0 -> fs_inv s -> vol_eq s0 s -> bm_geom (fsys s0) ->
  0 <= v < n_fatent (fsys s0) - 2 ->
  (forall s', at_bit s0 s' v ((v / 8) mod ssize (fsys s0)) (u8 (Z.shiftl 1 (v mod 8))) ->
     Q FR_OK s') ->
  (forall s', fs_inv s' -> vol_eq s0 s' -> Q FR_DISK_ERR s') ->
  post (move_window (u32 (bitbase (fsys s0) + v / 8 / ssize (fsys s0)))) s Q.
Proof.
  intros Hi0 Hi Hv Hg Hr HQ1 HQ2. destruct (Hv) as [Hc _].
  pose proof (bit_sect_ok s0 v Hi0 Hg Hr) as (Hb & Hm & _). unfold bit_sect in Hb, Hm.
  rewrite u32_small by (unfold is_u32; lia).
  mcall move_sect; [apply Hi|done|by rewrite <- (core_mirror _ _ _ Hc)|].
  intros r s' (Hi' & Hv' & Hr'). assert (fs_inv s') by (eapply fs_inv_core; [apply Hv'|done..]).
  destruct Hr' as [(-> & Hw & _)| ->]; [apply HQ1|apply HQ2; [done|by etrans]].
  pose proof (Z.mod_pos_bound v 8 ltac:(lia)).
  split; [done|by etrans|done|done|apply one_shl; lia].
Qed.

Lemma at_bit_test s0 s v i bm :
  fs_inv s0 -> bm_geom (fsys s0) -> 0 <= v < n_fatent (fsys s0) - 2 -> at_bit s0 s v i bm ->
  (Z.land (win (fsys s)).[i] bm =? 0) = negb (vbit s0 v).
Proof.
  intros Hi0 Hg Hr [Hi Hv Hs -> ->]. pose proof (Z.mod_pos_bound v 8 ltac:(lia)).
  rewrite land_pow2 by lia. unfold vbit.
  pose proof (bit_sect_ok s0 v Hi0 Hg Hr) as (Hb & Hm & _).
  pose proof (wi_ss_range s0 (fi_win s0 Hi0)).
  pose proof (Z.mod_pos_bound (v / 8) (ssize (fsys s0)) ltac:(lia)).
  rewrite <- (moved_window s0 s); [|apply Hi|done|done|lia..|done].
  destruct Hv as [Hc _]. core_rewrite Hc. by rewrite getb_take.
Qed.

(** Stepping to the next bit of the same sector, as the inner loops do. *)
Lemma at_bit_next s0 s v i bm :
  fs_inv s0 -> 0 <= v -> at_bit s0 s v i bm ->
  let bm' := u8 (Z.shiftl bm 1) in
  if negb (bm' =? 0) then at_bit s0 s (v + 1) i bm'
  else i +u32 1 = i + 1 /\
       if i + 1 <? ssize (fsys s0) then at_bit s0 s (v + 1) (i + 1) 1 else True.
Proof.
  intros Hi0 Hv0 [Hi Hv Hs -> ->]. pose proof (wi_ss_range s0 (fi_win s0 Hi0)) as Hss.
  set (ss := ssize (fsys s0)) in *. cbn zeta.
  pose proof (Z.mod_pos_bound v 8 ltac:(lia)) as Hm8.
  pose proof (Z.mod_pos_bound (v / 8) ss ltac:(lia)) as Hms.
  rewrite pow2_step by lia. destruct (Z.eqb_spec (v mod 8) 7) as [E7|N7]; cbn [negb Z.eqb].
  - split; [apply u32_small; unfold is_u32; lia|]. bdestr; [|done].
    assert ((v + 1) / 8 = v / 8 + 1 /\ (v + 1) mod 8 = 0) as [Ed Em] by (Z.div_mod_to_equations; lia).
    destruct (same_sector ss (v / 8) 1) as [Es1 Es2]; [lia..|].
    split; [done..| | |].
    + rewrite Hs. unfold bit_sect. fold ss. by rewrite Ed, Es1.
    + fold ss. by rewrite Ed, Es2.
    + by rewrite Em.
  - rewrite (proj2 (Z.eqb_neq _ _)) by (pose proof (Z.pow_pos_nonneg 2 (v mod 8 + 1)); lia). cbn.
    assert ((v + 1) / 8 = v / 8 /\ (v + 1) mod 8 = v mod 8 + 1) as [Ed Em]
      by (Z.div_mod_to_equations; lia).
    split; [done..| | |].
    + rewrite Hs. unfold bit_sect. by rewrite Ed.
    + by rewrite Ed.
    + by rewrite Em.
Qed.
End bit.

(** ** [find_bitmap] *)

Section find.
Context {D : Type} `{BlockDeviceLaws D}.
Implicit Types s : St D.

#[local] Abbreviation nclst s := (n_fatent (fsys s) - 2).

(** The answers: a disk error; a block of [ncl] clusters free in the cyclic order
    of the bitmap; or 0, and then no cluster is free if one was asked for. *)
Definition find_post s0 (ncl v : Z) (s' : St D) : Prop :=
  fs_inv s' /\ vol_eq s0 s' /\
  (v = DISK_ERR
   \/ (2 <= v < n_fatent (fsys s0) /\
       forall j, 0 <= j < ncl -> vbit s0 ((v - 2 + j) mod nclst s0) = false)
   \/ (v = 0 /\ (ncl = 1 -> forall c, 0 <= c < nclst s0 -> vbit s0 c = true))).

(** The loop has scanned [k] bits from [clst]; [ctr] free ones end the scan. *)
Record scan_inv s0 (clst ncl k val scl ctr : Z) : Prop := {
  si_k : 0 <= k < nclst s0;
  si_clst : 0 <= clst < nclst s0;
  si_val : val = (clst + k) mod nclst s0;
  si_ctr : 0 <= ctr < ncl;
  si_ctr_k : ctr <= k;
  si_scl : 0 <= scl < nclst s0;
  si_run : (scl + ctr) mod nclst s0 = val;
  si_free : forall j, 0 <= j < ctr -> vbit s0 ((scl + j) mod nclst s0) = false;
  si_used : ncl = 1 -> forall j, 0 <= j < k -> vbit s0 ((clst + j) mod nclst s0) = true
}.

(** Counting [k + 1] bits. *)
Lemma scan_val_next N clst k :
  0 < N -> let val := (clst + k) mod N in
  (clst + (k + 1)) mod N = if N <=? val + 1 then 0 else val + 1.
Proof.
  intros HN val. unfold val. pose proof (Z.mod_pos_bound (clst + k) N HN).
  rewrite Z.add_assoc, <- Z.add_mod_idemp_l by lia. bdestr.
  - replace ((clst + k) mod N + 1) with N by lia. apply Z.mod_same. lia.
  - apply Z.mod_small. lia.
Qed.

Lemma scan_done N clst k :
  0 <= clst < N -> 0 <= k < N -> (clst + (k + 1)) mod N = clst -> k + 1 = N.
Proof.
  intros Hc Hk E. destruct (decide (clst + (k + 1) < N)).
  - rewrite Z.mod_small in E by lia. lia.
  - replace (clst + (k + 1)) with (clst + (k + 1) - N + 1 * N) in E by lia.
    rewrite Z.mod_add in E by lia. destruct (decide (clst + (k + 1) - N < N)).
    + rewrite Z.mod_small in E by lia. lia.
    + lia.
Qed.

Lemma cyclic_cover N clst c :
  0 <= clst < N -> 0 <= c < N -> exists j, 0 <= j < N /\ (clst + j) mod N = c.
Proof.
  intros Hc1 Hc2. exists ((c - clst) mod N). pose proof (Z.mod_pos_bound (c - clst) N ltac:(lia)).
  split; [lia|]. rewrite Z.add_mod_idemp_r by lia.
  replace (clst + (c - clst)) with c by lia. by apply Z.mod_small.
Qed.

(** One more bit scanned. *)
Lemma scan_step s0 clst ncl k val scl ctr :
  scan_inv s0 clst ncl k val scl ctr ->
  let free := negb (vbit s0 val) in
  let val' := (clst + (k + 1)) mod nclst s0 in
  let ctr' := if free then ctr + 1 else 0 in
  val' <> clst -> (free = true -> ctr + 1 <> ncl) -> 1 <= ncl ->
  scan_inv s0 clst ncl (k + 1) val' (if free then scl else val') ctr'.
Proof.
  intros [Hk Hcl -> Hctr Hck Hscl Hrun Hfree Hused] free val' ctr' Hv' Hn Hn1.
  set (N := nclst s0) in *.
  assert (k + 1 < N).
  { destruct (decide (k + 1 < N)); [done|]. exfalso. apply Hv'. unfold val'.
    replace (clst + (k + 1)) with (clst + 1 * N) by lia. rewrite Z.mod_add by lia.
    by apply Z.mod_small. }
  assert (0 <= val' < N) by (apply Z.mod_pos_bound; lia).
  assert (ncl = 1 -> forall j, 0 <= j < k + 1 -> vbit s0 ((clst + j) mod N) = true) as Hu.
  { intros Hone j Hj. destruct (decide (j = k)) as [->|]; [|apply Hused; lia].
    apply not_false_iff_true. intros E. apply Hn; [|lia].
    unfold free. change (n_fatent (fsys s0) - 2) with N. by rewrite E. }
  unfold ctr'. destruct free eqn:Ef; split; fold N; auto; try lia.
  - unfold val'. rewrite !Z.add_assoc, <- Z.add_mod_idemp_l by lia.
    rewrite Hrun, Z.add_mod_idemp_l by lia. done.
  - intros j Hj. destruct (decide (j = ctr)) as [->|]; [|apply Hfree; lia].
    rewrite Hrun. unfold free in Ef. by destruct (vbit s0 _).
  - rewrite Z.add_0_r. by apply Z.mod_small.
Qed.

(** The window, index and mask after a step that does not reach the end of a
    sector, or the reload. *)
Lemma find_bitmap_bits_spec s0 fuel clst ncl k val scl ctr i bm s :
  fs_inv s0 -> bm_geom (fsys s0) -> 1 <= ncl ->
  scan_inv s0 clst ncl k val scl ctr -> at_bit s0 s val i bm ->
  nclst s0 - k <= Z.of_nat fuel ->
  post (find_bitmap_bits fuel clst ncl val scl ctr i bm) s (find_post s0 ncl).
Proof.
  intros Hi0 Hg Hn1. revert k val scl ctr i bm s.
  induction fuel as [|fuel IH]; intros k val scl ctr i bm s Hs Hat Hf;
    [destruct Hs; lia|].
  pose proof (scan_step s0 _ _ _ _ _ _ Hs) as Hstep.
  destruct (Hs) as [Hk Hcl Hval Hctr Hck Hscl Hrun Hfree Hused].
  pose proof (bg_ents _ Hg) as Hmax. unfold MAX_EXFAT in Hmax. cbn zeta in Hstep.
  pose proof (scan_val_next (nclst s0) clst k ltac:(lia)) as Hnext. cbn zeta in Hnext.
  rewrite <- Hval in Hnext. rewrite Hnext in Hstep.
  assert (0 <= val < nclst s0) as Hvr by (rewrite Hval; apply Z.mod_pos_bound; lia).
  destruct (ab_eq _ _ _ _ _ Hat) as [Hc _].
  cbn [find_bitmap_bits]. unfold get_fs. do 2 mstep. cbn beta.
  rewrite (at_bit_test s0 s val i bm) by done. core_rewrite Hc.
  rewrite (u32_small (nclst s0)), (u32_small (val + 1)), (u32_small (ctr + 1)),
    (u32_small (scl + 2)) by (unfold is_u32; lia).
  set (val' := if nclst s0 <=? val + 1 then 0 else val + 1) in *.
  set (free := negb (vbit s0 val)) in *.
  assert (fs_inv s /\ vol_eq s0 s) as [Hi Hv] by (split; apply Hat).
  mstep.
  { mstep. destruct Hb as [Hfr Hcn]. split_and!; [done..|]. right. left. split; [lia|].
    intros j Hj. replace (scl + 2 - 2 + j) with (scl + j) by lia.
    rewrite Hfr in Hcn. destruct (decide (j = ctr)) as [->|]; [|apply Hfree; lia].
    rewrite Hrun. unfold free in Hfr. by destruct (vbit s0 val). }
  assert (free = true -> ctr + 1 <> ncl) as Hnf.
  { intros Hfr. rewrite Hfr in Hb. destruct Hb; [done|lia]. }
  mstep.
  { mstep. split_and!; [done..|]. right. right. split; [done|]. intros Hone c Hcr.
    destruct (cyclic_cover (nclst s0) clst c) as (j & Hj & <-); [lia..|].
    assert (k + 1 = nclst s0) by (apply (scan_done _ clst k); [lia..|by rewrite Hnext]).
    destruct (decide (j = k)) as [->|]; [|apply Hused; lia].
    rewrite <- Hval. apply not_false_iff_true. intros E.
    apply Hnf; [unfold free; by rewrite E|lia]. }
  specialize (Hstep Hb0 Hnf Hn1). specialize (IH (k + 1)).
  assert (forall i bm s, at_bit s0 s val' i bm ->
    post (find_bitmap_bits fuel clst ncl val' (if free then scl else val')
            (if free then ctr + 1 else 0) i bm) s (find_post s0 ncl)) as Hgo
    by (intros; apply IH; [done..|lia]).
  assert (0 <= val' < nclst s0) by (unfold val'; bdestr; lia).
  assert (post (r ← move_window (u32 (bitbase (fsys s0) + val' / 8 / ssize (fsys s0)));
      if negb (fr_ok r) then mret DISK_ERR
      else find_bitmap_bits fuel clst ncl val' (if free then scl else val')
        (if free then ctr + 1 else 0) ((val' / 8) mod ssize (fsys s0))
        (u8 (Z.shiftl 1 (val' mod 8)))) s (find_post s0 ncl)) as Hload.
  { mstep. apply (load_bit s0); [done..| |].
    - intros s' Hat'. cbn [fr_ok negb]. by apply Hgo.
    - intros s' Hi' Hv'. cbn [fr_ok negb]. mstep. split_and!; auto. }
  pose proof (at_bit_next s0 s val i bm Hi0 ltac:(lia) Hat) as Hn'. cbn zeta in Hn'.
  pose proof (wi_ss_range s0 (fi_win s0 Hi0)).
  destruct (nclst s0 <=? val + 1) eqn:Ew; subst val'; cbn [negb Z.eqb].
  { rewrite (u32_small (ssize (fsys s0) + 1)) by (unfold is_u32; lia). if_false. exact Hload. }
  clearbody free. destruct (negb (u8 _ =? 0)) eqn:Eb; [by apply Hgo|]. destruct Hn' as [-> Hn'].
  destruct (i + 1 <? _) eqn:Ei; [by apply Hgo|exact Hload].
Qed.

Lemma find_bitmap_spec s clst ncl :
  fs_inv s -> bm_geom (fsys s) -> 1 <= ncl -> is_u32 clst ->
  post (find_bitmap clst ncl) s (find_post s ncl).
Proof.
  intros Hi Hg Hn Hc. unfold find_bitmap, get_fs. do 2 mstep. cbn beta.
  pose proof (bg_ents _ Hg) as Hmax. unfold MAX_EXFAT in Hmax.
  rewrite (u32_small (n_fatent (fsys s) - 2)) by (unfold is_u32; lia).
  set (c := if _ <=? _ then 0 else _).
  assert (0 <= c < nclst s) as Hcr.
  { unfold c. pose proof (u32_range (clst - 2)) as Hr. unfold is_u32 in Hr. bdestr; lia. }
  mstep. apply (load_bit s); [done..| |].
  - intros s' Hat. cbn [fr_ok negb].
    apply (find_bitmap_bits_spec s _ _ _ 0); [done..| |done|lia].
    split; try lia. rewrite Z.add_0_r. by rewrite Z.mod_small. rewrite Z.add_0_r. by apply Z.mod_small.
  - intros s' Hi' Hv'. cbn [fr_ok negb]. mstep. split_and!; auto.
Qed.
End find.

(** ** [change_bitmap] *)

Section change.
Context {D : Type} `{BlockDeviceLaws D}.
Implicit Types s : St D.

#[local] Abbreviation nclst s := (n_fatent (fsys s) - 2).

(** [x] is a sector of the bitmap. *)
Definition in_bitmap (fs : FATFS) (x : Z) : Prop :=
  exists v, 0 <= v < n_fatent fs - 2 /\ x = bit_sect fs v.

(** [s'] is [s] with the bits of [P] set to [b] and no other change. *)
Definition bits_set s (P : Z -> bool) (b : bool) s' : Prop :=
  core (fsys s) = core (fsys s') /\
  (forall x, 0 <= x -> ~ mirror (fsys s) x -> ~ in_bitmap (fsys s) x -> vol s' x = vol s x) /\
  (forall v, 0 <= v < nclst s -> vbit s' v = if P v then b else vbit s v).

Lemma vol_eq_vbit s s' v :
  fs_inv s -> bm_geom (fsys s) -> vol_eq s s' -> 0 <= v < nclst s -> vbit s' v = vbit s v.
Proof.
  intros Hi Hg [Hc Hv] Hr. pose proof (bit_sect_ok s v Hi Hg Hr) as (?&?&?).
  unfold vbit, bit_sect in *. core_rewrite Hc. by rewrite Hv by (done || lia).
Qed.

Lemma vol_eq_bits_set s s' b :
  fs_inv s -> bm_geom (fsys s) -> vol_eq s s' -> bits_set s (fun _ => false) b s'.
Proof.
  intros Hi Hg Hv. split_and!; [apply Hv| |].
  - intros. symmetry. by apply Hv.
  - intros. by apply vol_eq_vbit.
Qed.

Lemma bits_set_trans s1 s2 s3 P1 P2 b :
  bits_set s1 P1 b s2 -> bits_set s2 P2 b s3 -> bits_set s1 (fun v => P2 v || P1 v) b s3.
Proof.
  intros (Hc & Hx & Hv) (Hc' & Hx' & Hv').
  assert (forall x, in_bitmap (fsys s2) x <-> in_bitmap (fsys s1) x) as Hib.
  { intros x. unfold in_bitmap, bit_sect. core_rewrite Hc. done. }
  split_and!; [congruence| |].
  - intros x H0' Hm Hn. rewrite Hx'; [by apply Hx|done| |by rewrite Hib].
    by rewrite <- (core_mirror _ _ _ Hc).
  - intros v Hr. rewrite Hv', Hv by (try core_rewrite Hc; done). by destruct (P2 v).
Qed.

Lemma bits_set_ext s s' P P' b :
  bits_set s P b s' -> (forall v, 0 <= v < nclst s -> P' v = P v) -> bits_set s P' b s'.
Proof.
  intros (Hc & Hx & Hv) HP. split_and!; [done..|]. intros v Hr. by rewrite HP, Hv.
Qed.

Lemma bm_geom_core fs fs' : core fs = core fs' -> bm_geom fs -> bm_geom fs'.
Proof. intros Hc [H1 H2 H3 H4]. split; core_rewrite Hc; done. Qed.

(** The bits of the sector in the window. *)
Lemma vbit_window s v v' :
  fs_inv s -> bm_geom (fsys s) -> 0 <= v < nclst s ->
  winsect (fsys s) = bit_sect (fsys s) v -> bit_sect (fsys s) v' = bit_sect (fsys s) v ->
  vbit s v' = Z.testbit (win (fsys s)).[(v' / 8) mod ssize (fsys s)] (v' mod 8).
Proof.
  intros Hi Hg Hr Hs Es. pose proof (wi_ss_range s (fi_win s Hi)).
  pose proof (bit_sect_ok s v Hi Hg Hr) as (Hsr & _ & _).
  pose proof (Z.mod_pos_bound (v' / 8) (ssize (fsys s)) ltac:(lia)).
  unfold vbit. rewrite Es, <- Hs, vol_window by (apply Hi || lia). by rewrite getb_take.
Qed.

(** Two bits in the same byte of the same sector. *)
Lemma same_byte fs v v' :
  0 < ssize fs -> bit_sect fs v' = bit_sect fs v ->
  (v' / 8) mod ssize fs = (v / 8) mod ssize fs -> v' / 8 = v / 8.
Proof.
  intros Hss Es Ei. unfold bit_sect in Es.
  rewrite (Z.div_mod (v' / 8) (ssize fs)), (Z.div_mod (v / 8) (ssize fs)) by lia.
  rewrite Ei. f_equal. f_equal. lia.
Qed.

(** Flipping the bit the window points at. *)
Lemma flip_bit s v i bm (Q : unit -> St D -> Prop) :
  fs_inv s -> bm_geom (fsys s) -> 0 <= v < nclst s -> at_bit s s v i bm ->
  (forall s', at_bit s' s' v i bm -> bits_set s (Z.eqb v) (negb (vbit s v)) s' -> Q tt s') ->
  post (poke_win (setb (win (fsys s)) i (u8 (Z.lxor (win (fsys s)).[i] bm)))) s Q.
Proof.
  intros Hi Hg Hr [_ _ Hs -> ->] HQ. pose proof (wi_ss_range s (fi_win s Hi)) as Hss.
  pose proof (wi_len s (fi_win s Hi)) as Hl. unfold FF_MAX_SS in Hl.
  pose proof (Z.mod_pos_bound (v / 8) (ssize (fsys s)) ltac:(lia)) as Hir.
  pose proof (Z.mod_pos_bound v 8 ltac:(lia)) as Hm8.
  set (i := (v / 8) mod ssize (fsys s)) in *. set (w := win (fsys s)) in *.
  rewrite u8_small by (apply lxor_pow2_u8; [apply getb_bytes, Hi|lia]).
  apply post_poke; [done| |apply bytes_setb; [apply Hi|apply lxor_pow2_u8; [apply getb_bytes, Hi|lia]]|].
  { unfold zlen in *. by rewrite length_setb. }
  intros s' Hi' Hc' Hws Hv'. symmetry in Hc'. apply HQ.
  { split; [done..| | |done]; unfold bit_sect; core_rewrite Hc'; [by rewrite Hws|done]. }
  split_and!; [done| |].
  { intros x Hx Hm Hn. rewrite Hv', (proj2 (Z.eqb_neq _ _)); [done|].
    rewrite Hs. intros ->. apply Hn. by exists v. }
  intros v' Hr'. pose proof (Z.mod_pos_bound (v' / 8) (ssize (fsys s)) ltac:(lia)) as Hir'.
  pose proof (Z.mod_pos_bound v' 8 ltac:(lia)).
  rewrite (vbit_window s v v) by done. fold i w.
  assert (vbit s' v' = Z.testbit (vol s' (bit_sect (fsys s) v')).[(v' / 8) mod ssize (fsys s)] (v' mod 8))
    as -> by (unfold vbit, bit_sect; by core_rewrite Hc').
  rewrite Hv', Hs. destruct (Z.eqb_spec (bit_sect (fsys s) v') (bit_sect (fsys s) v)) as [Es|Ns].
  2:{ by destruct (Z.eqb_spec v v') as [->|]. }
  rewrite getb_take, (vbit_window s v v') by done. fold w.
  destruct (decide ((v' / 8) mod ssize (fsys s) = i)) as [Ei|Ni].
  - rewrite Ei, getb_setb_eq, Z.lxor_spec, Z.pow2_bits_eqb by lia.
    pose proof (same_byte (fsys s) v v' ltac:(lia) Es Ei) as Ed.
    destruct (Z.eqb_spec v v') as [<-|]; [rewrite Z.eqb_refl; apply xorb_true_r|].
    rewrite (proj2 (Z.eqb_neq _ _)); [apply xorb_false_r|].
    pose proof (Z.div_mod v 8 ltac:(lia)). pose proof (Z.div_mod v' 8 ltac:(lia)). lia.
  - rewrite getb_setb_ne by lia. by destruct (Z.eqb_spec v v') as [->|].
Qed.

(** The first bit of the next sector. *)
Lemma at_bit_wrap s0 s v i bm :
  fs_inv s0 -> 0 <= v -> at_bit s0 s v i bm ->
  u8 (Z.shiftl bm 1) = 0 -> ssize (fsys s0) <= i + 1 ->
  (v + 1) mod 8 = 0 /\ ((v + 1) / 8) mod ssize (fsys s0) = 0 /\
  bit_sect (fsys s0) (v + 1) = bit_sect (fsys s0) v + 1.
Proof.
  intros Hi0 Hv0 [_ _ _ -> ->] Hb Hge. pose proof (wi_ss_range s0 (fi_win s0 Hi0)) as Hss.
  set (ss := ssize (fsys s0)) in *. pose proof (Z.mod_pos_bound v 8 ltac:(lia)).
  pose proof (Z.mod_pos_bound (v / 8) ss ltac:(lia)).
  rewrite pow2_step in Hb by lia. destruct (Z.eqb_spec (v mod 8) 7) as [E7|].
  2:{ pose proof (Z.pow_pos_nonneg 2 (v mod 8 + 1)). lia. }
  assert ((v + 1) / 8 = v / 8 + 1) as Ed by (Z.div_mod_to_equations; lia).
  assert ((v + 1) / 8 = (v / 8 / ss + 1) * ss) as Em.
  { pose proof (Z.div_mod (v / 8) ss ltac:(lia)). lia. }
  split_and!; [Z.div_mod_to_equations; lia| |].
  - rewrite Em. by apply Z.mod_mul; lia.
  - unfold bit_sect. fold ss. rewrite Em, Z.div_mul by lia. lia.
Qed.

Definition range (v k : Z) : Z -> bool := fun x => (v <=? x) && (x <? v + k).

(** The first [k] bits of the block were the opposite of [b] and are set to [b];
    [k] is the whole block exactly when the result is [FR_OK]; an internal error
    means that bit [k] had the value already. *)
Definition change_post s (v ncl : Z) (b : bool) (r : FRESULT) (s' : St D) : Prop :=
  fs_inv s' /\ exists k, 0 <= k <= ncl /\ bits_set s (range v k) b s' /\
    (forall j, 0 <= j < k -> vbit s (v + j) = negb b) /\
    (r = FR_OK /\ k = ncl
     \/ r = FR_INT_ERR /\ k < ncl /\ vbit s (v + k) = b
     \/ r = FR_DISK_ERR /\ k < ncl).

(** One bit changed, then the rest of the block. *)
Lemma change_cons s s1 v ncl b r s' :
  vbit s v = negb b -> bits_set s (Z.eqb v) b s1 -> 0 <= v -> v + ncl <= nclst s ->
  change_post s1 (v + 1) (ncl - 1) b r s' -> change_post s v ncl b r s'.
Proof.
  intros Hv Hset Hv0 Hle (Hi' & k & Hk & Hset' & Hold & Hr). split; [done|].
  exists (k + 1). split_and!; [lia..| | |].
  - eapply bits_set_ext; [by eapply bits_set_trans|]. intros x Hx. cbn. unfold range.
    destruct (Z.eqb_spec v x); bprop; [|rewrite orb_false_r];
      (destruct (Z.leb_spec v x), (Z.ltb_spec x (v + (k + 1))), (Z.leb_spec (v + 1) x),
         (Z.ltb_spec x (v + 1 + k)); cbn; try done; lia).
  - destruct Hset as (_ & _ & Hb). intros j Hj. destruct (decide (j = 0)) as [->|].
    { by rewrite Z.add_0_r. }
    rewrite <- (Hold (j - 1)) by lia. replace (v + 1 + (j - 1)) with (v + j) by lia.
    rewrite Hb by lia. by rewrite (proj2 (Z.eqb_neq _ _)) by lia.
  - destruct Hset as (_ & _ & Hb).
    destruct Hr as [[-> ->]|[(-> & ? & Hbk)|[-> ?]]]; [left|right; left|right; right].
    + split; [done|lia].
    + split_and!; [done|lia|]. rewrite <- Hbk. replace (v + 1 + k) with (v + (k + 1)) by lia.
      rewrite Hb by lia. by rewrite (proj2 (Z.eqb_neq _ _)) by lia.
    + split; [done|lia].
Qed.

Lemma change_stop s s1 v ncl b r s' :
  fs_inv s1 -> bm_geom (fsys s1) -> fs_inv s' -> vol_eq s1 s' ->
  0 <= ncl ->
  (r = FR_OK /\ ncl = 0 \/ r = FR_INT_ERR /\ 0 < ncl /\ vbit s1 v = b \/ r = FR_DISK_ERR /\ 0 < ncl) ->
  s = s1 -> change_post s v ncl b r s'.
Proof.
  intros Hi1 Hg1 Hi' Hv Hn Hr ->. split; [done|]. exists 0. split_and!; [lia..| |lia|].
  - eapply bits_set_ext; [by apply vol_eq_bits_set|]. intros x _. unfold range.
    destruct (Z.leb_spec v x), (Z.ltb_spec x (v + 0)); cbn; try done; lia.
  - rewrite Z.add_0_r. intuition.
Qed.

Lemma change_post_vol_eq s1 s2 v ncl b r s' :
  fs_inv s1 -> bm_geom (fsys s1) -> vol_eq s1 s2 -> 0 <= v -> v + ncl <= nclst s1 ->
  change_post s2 v ncl b r s' -> change_post s1 v ncl b r s'.
Proof.
  intros Hi1 Hg1 Hv Hv0 Hle (Hi' & k & Hk & Hset & Hold & Hr). split; [done|].
  exists k. split_and!; [lia..| | |].
  - eapply bits_set_ext; [eapply bits_set_trans; [by apply vol_eq_bits_set|done]|].
    intros x _. cbn. by rewrite orb_false_r.
  - intros j Hj. rewrite <- (vol_eq_vbit s1 s2) by (done || lia). by apply Hold.
  - destruct Hr as [?|[(?&?&Hb)|?]]; [by left|right; left|by right; right].
    split_and!; [done..|]. by rewrite <- (vol_eq_vbit s1 s2) by (done || lia).
Qed.

Lemma change_bitmap_bits_spec fuel s sect v ncl bv i bm :
  fs_inv s -> bm_geom (fsys s) -> 0 <= v -> 1 <= ncl <= Z.of_nat fuel ->
  v + ncl <= nclst s -> 0 <= bv <= 1 ->
  at_bit s s v i bm -> sect = u32 (bit_sect (fsys s) v + 1) ->
  post (change_bitmap_bits fuel sect ncl bv i bm) s (change_post s v ncl (bv =? 1)).
Proof.
  revert s sect v ncl i bm.
  induction fuel as [|fuel IH]; intros s sect v ncl i bm Hi Hg Hv Hn Hle Hbv Hat ->; [lia|].
  pose proof (bg_ents _ Hg) as Hmax. unfold MAX_EXFAT in Hmax.
  cbn [change_bitmap_bits]. unfold get_fs. do 2 mstep. cbn beta.
  rewrite (at_bit_test s s v i bm) by (done || lia). rewrite negb_involutive.
  assert ((bv =? (if vbit s v then 1 else 0)) = eqb (vbit s v) (bv =? 1)) as ->.
  { assert (bv = 0 \/ bv = 1) as [-> | ->] by lia; by destruct (vbit s v). }
  destruct (eqb (vbit s v) (bv =? 1)) eqn:Eb.
  { apply (proj1 (eqb_true_iff _ _)) in Eb. mstep. apply (change_stop s s); try done; [lia|].
    right. left. split_and!; [done|lia|done]. }
  apply (proj1 (eqb_false_iff _ _)) in Eb. set (b := bv =? 1) in *.
  assert (vbit s v = negb b) as Hold by (destruct (vbit s v), b; done).
  mstep. apply (flip_bit s v); [done..|lia|done|]. intros s1 Hat1 Hset.
  rewrite Hold, negb_involutive in Hset. pose proof (ab_inv _ _ _ _ _ Hat1) as Hi1.
  assert (core (fsys s) = core (fsys s1)) as Hc by apply Hset.
  pose proof (bm_geom_core _ _ Hc Hg) as Hg1.
  assert (forall r s', change_post s1 (v + 1) (ncl - 1) b r s' -> change_post s v ncl b r s') as Hcons
    by (intros; by eapply change_cons).
  rewrite (u32_small (ncl - 1)) by (unfold is_u32; lia).
  mstep. { mstep. apply Hcons. apply (change_stop s1 s1); try done; [lia|]. left. split; [done|lia]. }
  pose proof (at_bit_next s1 s1 v i bm Hi1 Hv Hat1) as Hnext. cbn zeta in Hnext.
  assert (forall i bm s2 sect, vol_eq s1 s2 -> at_bit s2 s2 (v + 1) i bm ->
    sect = u32 (bit_sect (fsys s2) (v + 1) + 1) ->
    post (change_bitmap_bits fuel sect (ncl - 1) bv i bm) s2 (change_post s v ncl b)) as Hgo.
  { intros i' bm' s2 sect' Hv2 Hat2 ->. destruct (Hv2) as [Hc2 _].
    pose proof (bm_geom_core _ _ Hc2 Hg1) as Hg2.
    mcall (IH s2 _ (v + 1)); [apply Hat2|done|lia|lia|core_rewrite Hc2; core_rewrite Hc; lia|done|done|done|].
    intros r s' Hp. apply Hcons. eapply change_post_vol_eq; [done..|lia|core_rewrite Hc; lia|done]. }
  assert (bit_sect (fsys s1) v = bit_sect (fsys s) v) as Ebs
    by (unfold bit_sect; by core_rewrite Hc).
  core_rewrite Hc. destruct (negb (u8 (Z.shiftl bm 1) =? 0)) eqn:Ebm.
  { apply Hgo; [done..|]. rewrite <- (ab_sect _ _ _ _ _ Hnext), (ab_sect _ _ _ _ _ Hat1). by rewrite Ebs. }
  destruct Hnext as [-> Hnext]. destruct (i + 1 <? ssize (fsys s)) eqn:Ei.
  { apply Hgo; [done..|]. rewrite <- (ab_sect _ _ _ _ _ Hnext), (ab_sect _ _ _ _ _ Hat1). by rewrite Ebs. }
  apply negb_false_iff, Z.eqb_eq in Ebm. apply Z.ltb_ge in Ei.
  destruct (at_bit_wrap s1 s1 v i bm) as (Em & Es & Eb'); [done..|by core_rewrite Hc|].
  rewrite <- Ebs, <- Eb'. mstep. unfold bit_sect at 1.
  apply (load_bit s1); [done..|core_rewrite Hc; lia| |].
  - intros s2 Hat2. cbn [fr_ok negb]. rewrite Es, Em in Hat2. change (u8 (Z.shiftl 1 0)) with 1 in Hat2.
    destruct (ab_eq _ _ _ _ _ Hat2) as [Hc2 _].
    assert (bit_sect (fsys s2) (v + 1) = bit_sect (fsys s1) (v + 1)) as E2
      by (unfold bit_sect; by core_rewrite Hc2).
    apply Hgo; [apply Hat2| |].
    + destruct Hat2 as [A1 A2 A3 A4 A5]. split; [done..|by rewrite E2| |done].
      by core_rewrite Hc2.
    + rewrite E2. unfold u32. by rewrite Z.add_mod_idemp_l.
  - intros s2 Hi2 Hv2. cbn [fr_ok negb]. mstep. apply Hcons.
    apply (change_stop s1 s1); try done; [lia|]. right. right. split; [done|lia].
Qed.

Lemma change_bitmap_spec s clst ncl bv :
  fs_inv s -> bm_geom (fsys s) -> 2 <= clst -> 1 <= ncl -> clst + ncl <= n_fatent (fsys s) ->
  0 <= bv <= 1 ->
  post (change_bitmap clst ncl bv) s (change_post s (clst - 2) ncl (bv =? 1)).
Proof.
  intros Hi Hg Hc Hn Hle Hbv. pose proof (bg_ents _ Hg) as Hmax. unfold MAX_EXFAT in Hmax.
  unfold change_bitmap, get_fs. do 2 mstep. cbn beta.
  rewrite (u32_small (clst - 2)) by (unfold is_u32; lia). set (v := clst - 2).
  mstep. apply (load_bit s); [done..|lia| |].
  - intros s1 Hat. cbn [fr_ok negb]. destruct (ab_eq _ _ _ _ _ Hat) as [Hc1 _].
    assert (bit_sect (fsys s1) v = bit_sect (fsys s) v) as E1
      by (unfold bit_sect; by core_rewrite Hc1).
    mcall (change_bitmap_bits_spec (Z.to_nat ncl) s1 _ v).
    + apply Hat.
    + by apply (bm_geom_core _ _ Hc1).
    + lia.
    + lia.
    + core_rewrite Hc1. unfold v. lia.
    + done.
    + destruct Hat as [A1 A2 A3 A4 A5]. split; [done..|by rewrite E1|by core_rewrite Hc1|done].
    + rewrite E1. unfold u32. by rewrite Z.add_mod_idemp_l.
    + intros r s' Hp. eapply change_post_vol_eq; [done..|apply Hat|lia|lia|done].
  - intros s1 Hi1 Hv1. cbn [fr_ok negb]. mstep. apply (change_stop s s); try done; [lia|].
    right. right. split; [done|lia].
Qed.
End change.

(** ** Properties of the bitmap operations *)

Section properties.
Context {D : Type} `{BlockDeviceLaws D}.
Implicit Types s : St D.

(** C38: asked for one cluster, [find_bitmap] terminates and
    returns a cluster whose bit is clear, or 0, and then every bit is set, or the
    disk-error value, and leaves the volume as it was. *)
Theorem find_bitmap_finds_free s clst :
  fs_inv s -> bm_geom (fsys s) -> is_u32 clst ->
  post (find_bitmap clst 1) s (fun v s' => fs_inv s' /\ vol_eq s s' /\
    (v = DISK_ERR
     \/ 2 <= v < n_fatent (fsys s) /\ cluster_bit s v = false
     \/ v = 0 /\ forall c, 2 <= c < n_fatent (fsys s) -> cluster_bit s c = true)).
Proof.
  intros Hi Hg Hc. mcall find_bitmap_spec; [done..|lia|done|]. intros v s' (Hi' & Hv & Hr).
  split_and!; [done..|]. destruct Hr as [?|[[Hr Hf]|[-> Hf]]]; [by left|right; left|right; right].
  - split; [done|]. unfold cluster_bit. rewrite <- (Z.mod_small (v - 2) (n_fatent (fsys s) - 2)) by lia.
    rewrite <- (Z.add_0_r (v - 2)). apply Hf. lia.
  - split; [done|]. intros c Hcr. apply Hf; [done|lia].
Qed.

(** [change_bitmap] on a block of clusters of the volume sets
    their bits and no others when it reports success, which it does only if all of
    them had the opposite value; an internal error means that it met a bit that had
    the value already, the bits before it being changed; no sector outside the
    bitmap changes. *)
Theorem change_bitmap_flips s clst ncl bv :
  fs_inv s -> bm_geom (fsys s) -> 2 <= clst -> 1 <= ncl -> clst + ncl <= n_fatent (fsys s) ->
  0 <= bv <= 1 ->
  post (change_bitmap clst ncl bv) s (fun r s' =>
    fs_inv s' /\ exists k, 0 <= k <= ncl /\
      bits_set s (range (clst - 2) k) (bv =? 1) s' /\
      (forall j, 0 <= j < k -> cluster_bit s (clst + j) = negb (bv =? 1)) /\
      (r = FR_OK /\ k = ncl
       \/ r = FR_INT_ERR /\ k < ncl /\ cluster_bit s (clst + k) = (bv =? 1)
       \/ r = FR_DISK_ERR /\ k < ncl)).
Proof.
  intros Hi Hg H1 H2 H3 H4. mcall change_bitmap_spec; [done..|].
  intros r s' (Hi' & k & Hk & Hset & Hold & Hr). split; [done|]. exists k.
  unfold cluster_bit. replace (clst + k - 2) with (clst - 2 + k) by lia.
  split_and!; [lia..|done| |done].
  intros j Hj. replace (clst + j - 2) with (clst - 2 + j) by lia. by apply Hold.
Qed.
End properties.
