(* ===== verification/Chain.v ===== *)
(** * Cluster chains

    [fill_first_frag], [fill_last_frag], [remove_chain] and [create_chain] of
    [src/ff/src/ff/ff.c].

    A chain is followed with [get_fat] and changed with [put_fat] and, on exFAT,
    [change_bitmap].  On FAT12, FAT16 and FAT32 volumes the theorems cover every
    table, the cyclic or cross-linked ones of a corrupted or hostile medium
    included: removing a chain terminates within one step per used cluster, frees
    clusters of the chain only, and frees all of a well-formed chain; creating a
    chain returns a cluster that was free, marks and links it and changes no other
    entry, and reports a full volume only when no cluster is free. *)

From stdpp Require Import prelude list.
From Stdlib Require Import ZArith Lia.
From S2P Require Import Prelude Bytes Diskio FFTypes Window Fat Bitmap.

Local Open Scope Z_scope.
Local Open Scope cint_scope.

(** ** The code *)

Section code.
Context {D : Type} `{BlockDevice D}.

Definition is_exfat (fs : FATFS) : bool := fs_type fs =? FS_EXFAT.

(** [for (cl = obj->sclust, n = obj->n_cont; n; cl++, n--)] *)
Fixpoint fill_first_loop (n : nat) (cl : Z) : M (St D) FRESULT :=
  match n with
  | O => mret FR_OK
  | S n =>
      res ← put_fat cl (cl +u32 1);
      if negb (fr_ok res) then mret res else fill_first_loop n (cl +u32 1)
  end.

Definition fill_first_frag (obj : FFOBJID) : M (St D) (FRESULT * FFOBJID) :=
  if obj_stat obj =? 3 then
    res ← fill_first_loop (Z.to_nat (n_cont obj)) (sclust obj);
    if negb (fr_ok res) then mret (res, obj) else mret (FR_OK, set_stat 0 obj)
  else mret (FR_OK, obj).

(** [while (obj->n_frag > 0)], [n] being [obj->n_frag]. *)
Fixpoint fill_last_loop (n : nat) (obj : FFOBJID) (lcl term : Z) : M (St D) (FRESULT * FFOBJID) :=
  match n with
  | O => mret (FR_OK, obj)
  | S n =>
      res ← put_fat (lcl -u32 n_frag obj +u32 1)
              (if 1 <? n_frag obj then lcl -u32 n_frag obj +u32 2 else term);
      if negb (fr_ok res) then mret (res, obj)
      else fill_last_loop n (set_n_frag (n_frag obj - 1) obj) lcl term
  end.

Definition fill_last_frag (obj : FFOBJID) (lcl term : Z) : M (St D) (FRESULT * FFOBJID) :=
  fill_last_loop (Z.to_nat (n_frag obj)) obj lcl term.

(** The main loop of [remove_chain]: [Some r] if the function returns [r] from
    inside the loop, [None] if the loop ends. *)
Fixpoint remove_loop (fuel : nat) (obj : FFOBJID) (clst scl ecl : Z) : M (St D) (option FRESULT) :=
  match fuel with
  | O => out_of_fuel
  | S fuel =>
      nxt ← get_fat obj clst;
      if nxt =? 0 then mret None
      else if nxt =? 1 then mret (Some FR_INT_ERR)
      else if nxt =? DISK_ERR then mret (Some FR_DISK_ERR)
      else
        fs ← get_fs;
        res ← (if negb (is_exfat fs) then put_fat clst 0 else mret FR_OK);
        if negb (fr_ok res) then mret (Some res) else
        fs ← get_fs;
        (if free_clst fs <? n_fatent fs -u32 2 then
           upd_fs (fun fs => set_fsi_flag (Z.lor (fsi_flag fs) 1)
                               (set_free_clst (free_clst fs +u32 1) fs))
         else mret tt);;
        if ecl +u32 1 =? nxt then
          (if nxt <? n_fatent fs then remove_loop fuel obj nxt scl nxt else mret None)
        else
          res ← (if is_exfat fs then change_bitmap scl (ecl -u32 scl +u32 1) 0 else mret FR_OK);
          if negb (fr_ok res) then mret (Some res)
          else if nxt <? n_fatent fs then remove_loop fuel obj nxt nxt nxt else mret None
  end.

(** [while (clst != pclst)]: follows the chain to see if it is contiguous up to
    [pclst]; [inl r] if the function returns [r], [inr clst] when the loop ends. *)
Fixpoint contig_loop (fuel : nat) (obj : FFOBJID) (clst pclst : Z) : M (St D) (FRESULT + Z) :=
  match fuel with
  | O => out_of_fuel
  | S fuel =>
      if clst =? pclst then mret (inr clst) else
      nxt ← get_fat obj clst;
      if nxt <? 2 then mret (inl FR_INT_ERR)
      else if nxt =? DISK_ERR then mret (inl FR_DISK_ERR)
      else if negb (nxt =? clst +u32 1) then mret (inr clst)
      else contig_loop fuel obj (clst +u32 1) pclst
  end.

Definition remove_chain (obj : FFOBJID) (clst pclst : Z) : M (St D) (FRESULT * FFOBJID) :=
  fs ← get_fs;
  if (clst <? 2) || (n_fatent fs <=? clst) then mret (FR_INT_ERR, obj) else
  res ← (if negb (pclst =? 0) && (negb (is_exfat fs) || negb (obj_stat obj =? 2))
         then put_fat pclst 0xFFFFFFFF else mret FR_OK);
  if negb (fr_ok res) then mret (res, obj) else
  o ← remove_loop (Z.to_nat (2 * n_fatent fs)) obj clst clst clst;
  match o with
  | Some r => mret (r, obj)
  | None =>
      if is_exfat fs then
        if pclst =? 0 then mret (FR_OK, set_stat 0 obj)
        else if obj_stat obj =? 0 then
          c ← contig_loop (Z.to_nat (n_fatent fs + 1)) obj (sclust obj) pclst;
          match c with
          | inl r => mret (r, obj)
          | inr clst => mret (FR_OK, if clst =? pclst then set_stat 2 obj else obj)
          end
        else if (obj_stat obj =? 3) && (sclust obj <=? pclst)
                && (pclst <=? sclust obj +u32 n_cont obj)
        then mret (FR_OK, set_stat 2 obj)
        else mret (FR_OK, obj)
      else mret (FR_OK, obj)
  end.

(** The [for (;;)] of [create_chain] that looks for a free cluster from [scl] on:
    [inl v] if the function returns [v], [inr ncl] on [break]. *)
Fixpoint create_search (fuel : nat) (obj : FFOBJID) (scl ncl : Z) : M (St D) (Z + Z) :=
  match fuel with
  | O => out_of_fuel
  | S fuel =>
      fs ← get_fs;
      let ncl := ncl +u32 1 in
      let wrap := n_fatent fs <=? ncl in
      let ncl := if wrap then 2 else ncl in
      if wrap && (scl <? ncl) then mret (inl 0) else
      cs ← get_fat obj ncl;
      if cs =? 0 then mret (inr ncl)
      else if (cs =? 1) || (cs =? DISK_ERR) then mret (inl cs)
      else if ncl =? scl then mret (inl 0)
      else create_search fuel obj scl ncl
  end.

(** Where the search for a new cluster starts: [inl v] if [create_chain] returns
    [v] at once. *)
Definition create_start (obj : FFOBJID) (clst : Z) : M (St D) (Z + Z) :=
  fs ← get_fs;
  if clst =? 0 then
    let scl := last_clst fs in
    mret (inr (if (scl =? 0) || (n_fatent fs <=? scl) then 1 else scl))
  else
    cs ← get_fat obj clst;
    if cs <? 2 then mret (inl 1)
    else if cs =? DISK_ERR then mret (inl cs)
    else if cs <? n_fatent fs then mret (inl cs)
    else mret (inr clst).

(** The exFAT branch: [inl v] if the function returns [v], otherwise the new
    cluster and the status of the last operation. *)
Definition create_exfat (obj : FFOBJID) (clst scl : Z) : M (St D) ((Z + Z * FRESULT) * FFOBJID) :=
  ncl ← find_bitmap scl 1;
  if (ncl =? 0) || (ncl =? DISK_ERR) then mret (inl ncl, obj) else
  res ← change_bitmap ncl 1 1;
  match res with
  | FR_INT_ERR => mret (inl 1, obj)
  | FR_DISK_ERR => mret (inl 0xFFFFFFFF, obj)
  | _ =>
      let obj :=
        if clst =? 0 then set_stat 2 obj
        else if (obj_stat obj =? 2) && negb (ncl =? scl +u32 1)
        then set_stat 3 (set_n_cont (scl -u32 sclust obj) obj)
        else obj in
      if negb (obj_stat obj =? 2) then
        if ncl =? clst +u32 1 then
          mret (inr (ncl, res),
                set_n_frag (if negb (n_frag obj =? 0) then n_frag obj +u32 1 else 2) obj)
        else
          let obj := if n_frag obj =? 0 then set_n_frag 1 obj else obj in
          '(res, obj) ← fill_last_frag obj clst ncl;
          mret (inr (ncl, res), if fr_ok res then set_n_frag 1 obj else obj)
      else mret (inr (ncl, res), obj)
  end.

(** The FAT branch, up to the choice of the cluster. *)
Definition create_pick (obj : FFOBJID) (clst scl : Z) : M (St D) (Z + Z) :=
  fs ← get_fs;
  first ← (if scl =? clst then
             let ncl := scl +u32 1 in
             let ncl := if n_fatent fs <=? ncl then 2 else ncl in
             cs ← get_fat obj ncl;
             if (cs =? 1) || (cs =? DISK_ERR) then mret (inl cs)
             else if negb (cs =? 0) then
               fs ← get_fs;
               let cs := last_clst fs in
               mret (inr (if (2 <=? cs) && (cs <? n_fatent fs) then cs else scl, 0))
             else mret (inr (scl, ncl))
           else mret (inr (scl, 0)));
  match first with
  | inl v => mret (inl v)
  | inr (scl, ncl) =>
      if ncl =? 0 then create_search (Z.to_nat (n_fatent fs)) obj scl scl
      else mret (inr ncl)
  end.

Definition create_fat (obj : FFOBJID) (clst scl : Z) : M (St D) (Z + Z * FRESULT) :=
  p ← create_pick obj clst scl;
  match p with
  | inl v => mret (inl v)
  | inr ncl =>
      res ← put_fat ncl 0xFFFFFFFF;
      res ← (if fr_ok res && negb (clst =? 0) then put_fat clst ncl else mret res);
      mret (inr (ncl, res))
  end.

Definition create_chain (obj : FFOBJID) (clst : Z) : M (St D) (Z * FFOBJID) :=
  st ← create_start obj clst;
  match st with
  | inl v => mret (v, obj)
  | inr scl =>
      fs ← get_fs;
      if free_clst fs =? 0 then mret (0, obj) else
      '(p, obj) ← (if is_exfat fs then create_exfat obj clst scl
                   else p ← create_fat obj clst scl; mret (p, obj));
      match p with
      | inl v => mret (v, obj)
      | inr (ncl, res) =>
          if fr_ok res then
            upd_fs (set_last_clst ncl);;
            upd_fs (fun fs => if free_clst fs <=? n_fatent fs -u32 2
                              then set_free_clst (free_clst fs -u32 1) fs else fs);;
            upd_fs (fun fs => set_fsi_flag (Z.lor (fsi_flag fs) 1) fs);;
            mret (ncl, obj)
          else mret (match res with FR_DISK_ERR => 0xFFFFFFFF | _ => 1 end, obj)
      end
  end.
End code.

(** ** What the operations on a FAT volume may change *)

(** The members that neither the window nor the FSINFO bookkeeping touches. *)
Definition geo (fs : FATFS) : FATFS :=
  set_fsi_flag 0 (set_free_clst 0 (set_last_clst 0 (core fs))).

Lemma core_geo fs fs' : core fs = core fs' -> geo fs = geo fs'.
Proof. unfold geo. by intros ->. Qed.

Ltac geo_rewrite Hc :=
  let f p := try (let E := fresh in pose proof (f_equal p Hc) as E; cbn in E; rewrite <- ?E in *; clear E) in
  f n_fatent; f fs_type; f ssize; f fatbase; f fsize; f csize; f database; f bitbase;
  f n_fats; f volbase; f dirbase; f n_rootdir.

Lemma geo_mirror fs fs' x : geo fs = geo fs' -> mirror fs x <-> mirror fs' x.
Proof. intros Hc. unfold mirror. by geo_rewrite Hc. Qed.

Section frame.
Context {D : Type} `{BlockDeviceLaws D}.
Implicit Types s : St D.

(** Only the table (and its mirror) differs. *)
Definition fat_only s s' : Prop :=
  geo (fsys s) = geo (fsys s') /\
  forall x, 0 <= x -> ~ mirror (fsys s) x ->
    ~ (fatbase (fsys s) <= x < fatbase (fsys s) + fsize (fsys s)) -> vol s' x = vol s x.

Global Instance fat_only_preorder : PreOrder fat_only.
Proof.
  split. { by intros s. } intros s1 s2 s3 [Hg1 Hv1] [Hg2 Hv2]. split; [congruence|].
  intros x Hx Hm Hf. rewrite Hv2, Hv1; auto.
  - by rewrite <- (geo_mirror _ _ _ Hg1).
  - by geo_rewrite Hg1.
Qed.

Lemma same_but_fat_only s s' : same_but_fat s s' -> fat_only s s'.
Proof. intros [Hc Hv]. split; [by apply core_geo|done]. Qed.

Lemma vol_eq_fat_only s s' : vol_eq s s' -> fat_only s s'.
Proof. intros Hv. by apply same_but_fat_only, vol_eq_same_but_fat. Qed.

(** A change of the FSINFO members keeps the invariant and the volume. *)
Definition info_upd (g : FATFS -> FATFS) : Prop :=
  forall fs, exists a b c, g fs = set_fsi_flag a (set_free_clst b (set_last_clst c fs)).

Lemma upd_info g s :
  info_upd g -> fs_inv s ->
  let s' := mkSt (g (fsys s)) (dev s) in
  fs_inv s' /\ fat_only s s' /\ forall x, fat_entry s' x = fat_entry s x.
Proof.
  intros Hg [[W1 W2 W3 W4 [G1 G2 G3 G4 G5] W6] [F1 F2 F3]].
  destruct (Hg (fsys s)) as (a & b & c & E). cbn. rewrite E. split_and!; [|done..].
  by split; split.
Qed.
End frame.
#[export] Hint Resolve same_but_fat_only vol_eq_fat_only : ff.

(** ** Steps on the table

    [get_fat] and [put_fat] as the operations on chains use them. *)

Section steps.
Context {D : Type} `{BlockDeviceLaws D}.
Implicit Types s : St D.

(** The invariant holds, only the table differs, the FSINFO members are as before. *)
Record kept s s' : Prop := {
  kp_inv : fs_inv s';
  kp_only : fat_only s s';
  kp_free : free_clst (fsys s') = free_clst (fsys s);
  kp_last : last_clst (fsys s') = last_clst (fsys s);
  kp_flag : fsi_flag (fsys s') = fsi_flag (fsys s)
}.

Lemma same_but_fat_kept s s' : fs_inv s' -> same_but_fat s s' -> kept s s'.
Proof.
  intros Hi Hb. destruct (Hb) as [Hc _]. split; auto with ff; symmetry.
  - exact (f_equal free_clst Hc).
  - exact (f_equal last_clst Hc).
  - exact (f_equal fsi_flag Hc).
Qed.

Lemma kept_trans s1 s2 s3 : kept s1 s2 -> kept s2 s3 -> kept s1 s3.
Proof. intros [] []. split; [done|by etrans|congruence..]. Qed.

Lemma fat_only_ents s s' : fat_only s s' -> n_fatent (fsys s') = n_fatent (fsys s).
Proof. intros [Hg _]. symmetry. exact (f_equal n_fatent Hg). Qed.

Lemma fat_only_type s s' : fat_only s s' -> fs_type (fsys s') = fs_type (fsys s).
Proof. intros [Hg _]. symmetry. exact (f_equal fs_type Hg). Qed.

Lemma fat_only_mask s s' : fat_only s s' -> fat_mask (fsys s') = fat_mask (fsys s).
Proof. intros Hf. unfold fat_mask. by rewrite (fat_only_type s s' Hf). Qed.

Definition same_entries s s' : Prop :=
  forall x, 0 <= x < n_fatent (fsys s) -> fat_entry s' x = fat_entry s x.

Lemma get_step s obj c :
  fs_inv s -> fs_type (fsys s) <> FS_EXFAT -> 2 <= c < n_fatent (fsys s) ->
  post (get_fat obj c) s (fun v s' =>
    kept s s' /\ same_entries s s' /\ (v = fat_entry s c \/ v = DISK_ERR)).
Proof.
  intros Hi Ht Hc. mcall get_fat_spec; [done|by left|done|]. intros v s' (Hi' & Hv & Hr).
  split_and!; [by apply same_but_fat_kept, vol_eq_same_but_fat| |done].
  intros x Hx. by apply vol_eq_fat_entry.
Qed.

Lemma put_step s c v :
  fs_inv s -> 2 <= c < n_fatent (fsys s) ->
  post (put_fat c v) s (fun r s' => kept s s' /\
    (forall x, 0 <= x < n_fatent (fsys s) -> x <> c -> fat_entry s' x = fat_entry s x) /\
    (r = FR_OK /\ fat_entry s' c = v mod fat_mask (fsys s) \/ r = FR_DISK_ERR)).
Proof.
  intros Hi Hc. mcall put_fat_spec; [done..|]. intros r s' (Hi' & Hb & He & Hr).
  split_and!; [by apply same_but_fat_kept|done..].
Qed.

Lemma ents_u32 fs : fat_geom fs -> 2 <= n_fatent fs < 2 ^ 31.
Proof.
  intros [_ Hn _]. unfold fat_max, MAX_FAT12, MAX_FAT16, MAX_FAT32, MAX_EXFAT in Hn.
  repeat case_match; lia.
Qed.

Lemma is_exfat_false fs : fs_type fs <> FS_EXFAT -> is_exfat fs = false.
Proof. apply Z.eqb_neq. Qed.
End steps.

(** ** Paths and chains in a table *)

(** Following [e] from [c] through the clusters [l] leads to [z]. *)
Fixpoint path (e : Z -> Z) (c : Z) (l : list Z) (z : Z) : Prop :=
  match l with
  | [] => c = z
  | x :: l => x = c /\ path e (e c) l z
  end.

Lemma path_ext e e' c l z :
  path e c l z -> (forall x, x ∈ l -> e' x = e x) -> path e' c l z.
Proof.
  revert c. induction l as [|x l IH]; intros c; cbn; [done|]. intros [-> Hp] He.
  split; [done|]. rewrite He by set_solver. apply IH; [done|]. set_solver.
Qed.

Lemma path_app e c l z l' z' :
  path e c l z -> path e z l' z' -> path e c (l ++ l') z'.
Proof.
  revert c. induction l as [|x l IH]; intros c; cbn; [by intros ->|].
  intros [-> Hp] Hp'. split; [done|]. by apply IH.
Qed.

(** A path is determined by its length. *)
Lemma path_prefix e c l z l' z' :
  path e c l z -> path e c l' z' -> (length l' <= length l)%nat ->
  exists k, l = l' ++ k /\ path e z' k z.
Proof.
  revert c l'. induction l as [|x l IH]; intros c [|y l']; cbn; try lia.
  - intros -> <-. by exists [].
  - intros [-> Hp] <- _. by exists (c :: l).
  - intros [-> Hp] [-> Hp'] Hl. destruct (IH (e c) l') as (k & -> & Hk); [done..|lia|].
    by exists k.
Qed.

(** A cluster chain: a path through clusters of the volume to an end mark. *)
Definition chain (e : Z -> Z) (n c : Z) (l : list Z) : Prop :=
  Forall (fun x => 2 <= x < n) l /\ exists z, n <= z /\ path e c l z.

Lemma path_lookup e c l z i x :
  path e c l z -> l !! i = Some x -> path e c (take i l) x /\ path e x (drop i l) z.
Proof.
  revert c i. induction l as [|y l IH]; intros c [|i]; cbn; try done.
  - intros [-> Hp] [= ->]. done.
  - intros [-> Hp] Hi. destruct (IH (e c) i) as [??]; done.
Qed.

(** A chain has no cycle, whatever the table. *)
Lemma chain_no_dup e n c l : chain e n c l -> NoDup l.
Proof.
  intros [Hr (z & Hz & Hp)]. apply NoDup_alt. intros i j x Hi Hj.
  assert (forall i j : nat, (i < j)%nat -> l !! i = Some x -> l !! j = Some x -> False) as Hno.
  { clear i j Hi Hj. intros i j Hij Hi Hj.
    destruct (path_lookup _ _ _ _ _ _ Hp Hi) as [_ Hpi].
    destruct (path_lookup _ _ _ _ _ _ Hp Hj) as [_ Hpj].
    destruct (path_prefix _ _ _ _ _ _ Hpi Hpj) as (k & Hk & Hpk); [rewrite !length_drop; lia|].
    destruct k as [|y k].
    - apply (f_equal length) in Hk. rewrite app_nil_r, !length_drop in Hk.
      apply lookup_lt_Some in Hi, Hj. lia.
    - destruct Hpk as [-> _]. assert (z ∈ l) as Hin.
      { apply (list_elem_of_lookup_2 _ (i + length (drop j l))).
        rewrite <- lookup_drop, Hk. by apply list_lookup_middle. }
      rewrite Forall_forall in Hr. apply Hr in Hin. lia. }
  destruct (decide (i < j)%nat); [by exfalso; eauto|].
  destruct (decide (j < i)%nat); [by exfalso; eauto|lia].
Qed.

Lemma chain_entries e n c l x : chain e n c l -> x ∈ l -> 2 <= e x.
Proof.
  intros [Hr (z & Hz & Hp)] Hx. apply list_elem_of_lookup in Hx as [i Hi].
  pose proof (lookup_lt_Some _ _ _ Hi).
  destruct (path_lookup _ _ _ _ _ _ Hp Hi) as [_ Hpi].
  rewrite (drop_S _ x i Hi) in Hpi. destruct Hpi as [_ Hpi].
  destruct (drop (S i) l) as [|y k] eqn:Ek; cbn in Hpi.
  - rewrite Forall_forall in Hr. specialize (Hr x). apply list_elem_of_lookup_2 in Hi.
    specialize (Hr Hi). lia.
  - destruct Hpi as [-> _]. rewrite Forall_forall in Hr.
    assert (e x ∈ l); [|by apply Hr]. eapply list_elem_of_lookup_2 with (i := (S i + 0)%nat).
    rewrite <- lookup_drop, Ek. done.
Qed.

(** Where a walk that meets only clusters of a chain stops. *)
Lemma chain_walk e n c l l' z :
  chain e n c l -> path e c l' z -> Forall (fun x => 2 <= x < n) l' ->
  n <= z /\ l' = l \/ 2 <= z < n /\ z ∈ l /\ exists k, l = l' ++ z :: k.
Proof.
  intros [Hr (z0 & Hz0 & Hp)] Hp' Hr'.
  destruct (decide (length l' <= length l)%nat) as [Hle|Hgt].
  - destruct (path_prefix _ _ _ _ _ _ Hp Hp' Hle) as (k & -> & Hk).
    rewrite Forall_app in Hr. destruct Hr as [_ Hr]. destruct k as [|y k].
    + cbn in Hk. subst z0. rewrite app_nil_r. by left.
    + destruct Hk as [-> _]. rewrite Forall_cons in Hr. right. split; [lia|].
      split; [|eauto]. apply elem_of_app. right. by left.
  - exfalso. destruct (path_prefix _ _ _ _ _ _ Hp' Hp) as (k & -> & Hk); [lia|].
    rewrite length_app in Hgt. destruct k as [|y k]; [cbn in Hgt; lia|].
    destruct Hk as [-> _]. rewrite Forall_app, Forall_cons in Hr'. lia.
Qed.

(** ** Removing a chain *)

(** The count of free clusters after [k] clusters are freed: it is not touched when
      it is unknown (out of range), and stops at the size of the volume. *)
Definition free_after (n f k : Z) : Z := if f <? n - 2 then Z.min (n - 2) (f + k) else f.

Lemma free_after_0 n f : free_after n f 0 = f.
Proof. unfold free_after. bdestr; lia. Qed.

Lemma free_after_step n f k :
  0 <= k -> free_after n (if f <? n - 2 then f + 1 else f) k = free_after n f (k + 1).
Proof. intros. unfold free_after. repeat bdestr; lia. Qed.

Section remove.
Context {D : Type} `{BlockDeviceLaws D}.
Implicit Types s : St D.

Abbreviation nent s := (n_fatent (fsys s)).

(** The loop has freed the clusters of [l], a path from [c] to [z]. *)
Definition remove_post s (c : Z) (r : option FRESULT) s' : Prop :=
  exists l z,
    NoDup l /\ Forall (fun x => 2 <= x < nent s) l /\ (forall x, x ∈ l -> fat_entry s x <> 0) /\
    path (fat_entry s) c l z /\ fs_inv s' /\ fat_only s s' /\
    (forall x, 0 <= x < nent s -> (x = z -> r <> Some FR_DISK_ERR) ->
       fat_entry s' x = if bool_decide (x ∈ l) then 0 else fat_entry s x) /\
    is_u32 (free_clst (fsys s')) /\
    free_clst (fsys s') = free_after (nent s) (free_clst (fsys s)) (zlen l) /\
    match r with
    | None => nent s <= z \/ 2 <= z < nent s /\ (z ∈ l \/ fat_entry s z = 0)
    | Some FR_INT_ERR => 2 <= z < nent s /\ fat_entry s z = 1
    | Some FR_DISK_ERR => 2 <= z < nent s
    | Some _ => False
    end.

(** The loop stops at once. *)
Lemma remove_stop s c r s' :
  fs_inv s -> fs_inv s' -> fat_only s s' -> is_u32 (free_clst (fsys s)) ->
  free_clst (fsys s') = free_clst (fsys s) ->
  (forall x, 0 <= x < nent s -> (x = c -> r <> Some FR_DISK_ERR) -> fat_entry s' x = fat_entry s x) ->
  2 <= c < nent s ->
  match r with
  | None => fat_entry s c = 0
  | Some FR_INT_ERR => fat_entry s c = 1
  | Some FR_DISK_ERR => True
  | _ => False
  end -> remove_post s c r s'.
Proof.
  intros Hi Hi' Hf Hu Hfc He Hc Hr. exists [], c. rewrite Hfc, free_after_0.
  split_and!; try done; [by apply NoDup_nil_2| |].
  - by intros x Hx%not_elem_of_nil.
  - destruct r as [[]|]; auto.
Qed.

(** One cluster freed, then the rest. *)
Lemma remove_cons s s1 c r s' :
  2 <= c < nent s -> fat_entry s c <> 0 -> fat_only s s1 ->
  (forall x, 0 <= x < nent s -> fat_entry s1 x = if x =? c then 0 else fat_entry s x) ->
  free_clst (fsys s1) = (if free_clst (fsys s) <? nent s - 2
                         then free_clst (fsys s) + 1 else free_clst (fsys s)) ->
  remove_post s1 (fat_entry s c) r s' -> remove_post s c r s'.
Proof.
  intros Hc Hne Hf1 He Hfc (l & z & Hnd & Hr & Hnz & Hp & Hi' & Hf & He' & Hu & Hfc' & Hres).
  destruct (Hf1) as [Hg _]. geo_rewrite Hg.
  assert (forall x, x ∈ l -> 0 <= x < nent s) as Hrng.
  { intros x Hx. rewrite Forall_forall in Hr. apply Hr in Hx. lia. }
  assert (c ∉ l) as Hcl.
  { intros Hin. apply (Hnz c Hin). rewrite He by lia. by rewrite Z.eqb_refl. }
  assert (forall x, x ∈ l -> fat_entry s1 x = fat_entry s x) as Hsame.
  { intros x Hx. rewrite He by auto. by rewrite (proj2 (Z.eqb_neq _ _)) by set_solver. }
  exists (c :: l), z. split_and!.
  - by constructor.
  - by constructor.
  - intros x [->|Hx]%elem_of_cons; [done|]. rewrite <- Hsame by done. by apply Hnz.
  - split; [done|]. eapply path_ext; [done|]. intros x Hx. symmetry. by apply Hsame.
  - done.
  - by etrans.
  - intros x Hx Hxz. rewrite He', He by done.
    destruct (Z.eqb_spec x c) as [->|Hxc].
    { rewrite (bool_decide_eq_true_2 (c ∈ c :: l)) by set_solver. by destruct (bool_decide _). }
    rewrite (bool_decide_ext (x ∈ c :: l) (x ∈ l)) by set_solver. done.
  - done.
  - rewrite Hfc', Hfc, free_after_step by (unfold zlen; lia).
    unfold zlen. cbn [length]. f_equal. lia.
  - destruct r as [[]|]; try done.
    + destruct Hres as [Hz Hz1]. rewrite He in Hz1 by lia. split; [done|]. by destruct (z =? c).
    + destruct Hres as [Hz|[Hz Hres]]; [by left|]. right. split; [done|].
      destruct Hres as [Hin|Hz0]; [set_solver|]. rewrite He in Hz0 by lia.
      destruct (Z.eqb_spec z c) as [->|]; [set_solver|by right].
Qed.

Lemma free_entry_bound l n :
  2 <= n -> NoDup l -> Forall (fun x => 2 <= x < n) l -> zlen l <= n - 2.
Proof.
  intros Hn Hnd Hr. unfold zlen.
  assert (length l <= length (seqZ 2 (n - 2)))%nat as Hle; [|rewrite length_seqZ in Hle; lia].
  apply submseteq_length, NoDup_submseteq; [done|]. intros x Hx.
  rewrite Forall_forall in Hr. apply elem_of_seqZ. apply Hr in Hx. lia.
Qed.

(** The bookkeeping of a freed cluster. *)
Definition count_free (fs : FATFS) : FATFS :=
  set_fsi_flag (Z.lor (fsi_flag fs) 1) (set_free_clst (free_clst fs +u32 1) fs).

Lemma count_free_info : info_upd count_free.
Proof.
  intros fs. exists (Z.lor (fsi_flag fs) 1), (free_clst fs +u32 1), (last_clst fs).
  by destruct fs.
Qed.

(** The state after a cluster was marked free and counted. *)
Definition freed_one s (c : Z) s' : Prop :=
  fs_inv s' /\ fat_only s s' /\ is_u32 (free_clst (fsys s')) /\
  (forall x, 0 <= x < nent s -> fat_entry s' x = if x =? c then 0 else fat_entry s x) /\
  free_clst (fsys s') = if free_clst (fsys s) <? nent s - 2
                        then free_clst (fsys s) + 1 else free_clst (fsys s).

Lemma count_step s s2 c (Q : unit -> St D -> Prop) :
  fs_inv s -> is_u32 (free_clst (fsys s)) -> kept s s2 ->
  (forall x, 0 <= x < nent s -> fat_entry s2 x = if x =? c then 0 else fat_entry s x) ->
  (forall s', freed_one s c s' -> Q tt s') ->
  post (if free_clst (fsys s2) <? nent s2 -u32 2 then upd_fs count_free else mret tt) s2 Q.
Proof.
  intros Hi Hu [Hi2 Hf2 Hfc2 _ _] He HQ. pose proof (ents_u32 _ (fi_fat s Hi)).
  rewrite (fat_only_ents _ _ Hf2), Hfc2, u32_small by (unfold is_u32; lia).
  destruct (upd_info count_free s2 count_free_info Hi2) as (Hi3 & Hf3 & He3).
  mstep; [apply post_modify|mstep]; apply HQ.
  - split_and!; [done|by etrans|apply u32_range|intros; rewrite He3; by apply He|].
    cbn. rewrite Hfc2, (proj2 (Z.ltb_lt _ _)) by done.
    apply u32_small. unfold is_u32 in *. lia.
  - split_and!; [done..|by rewrite Hfc2|done|]. rewrite Hfc2. by if_false.
Qed.

(** The loop on a FAT volume, whatever the table: [freed] are clusters known to be
    free, which bounds the number of steps that remain. *)
Lemma remove_loop_spec fuel obj c scl ecl s freed :
  fs_inv s -> fs_type (fsys s) <> FS_EXFAT -> is_u32 (free_clst (fsys s)) ->
  2 <= c < nent s ->
  NoDup freed -> Forall (fun x => 2 <= x < nent s) freed ->
  (forall x, x ∈ freed -> fat_entry s x = 0) ->
  nent s - 2 - zlen freed < Z.of_nat fuel ->
  post (remove_loop fuel obj c scl ecl) s (remove_post s c).
Proof.
  revert c scl ecl s freed.
  induction fuel as [|fuel IH]; intros c scl ecl s freed Hi Ht Hu Hc Hnd Hr Hz Hf.
  { pose proof (free_entry_bound freed (nent s) ltac:(lia) Hnd Hr). lia. }
  cbn [remove_loop]. unfold get_fs. mcall get_step; [done..|]. intros v s1 (Hk1 & He1 & Hv).
  pose proof (kp_inv _ _ Hk1) as Hi1. pose proof (kp_only _ _ Hk1) as Hf1.
  assert (forall r, match r with
    | None => fat_entry s c = 0 | Some FR_INT_ERR => fat_entry s c = 1
    | Some FR_DISK_ERR => True | _ => False end -> remove_post s c r s1) as Hstop.
  { intros r Hr'. apply remove_stop; auto. apply Hk1. }
  pose proof (fat_entry_not_err s c Hi) as Hnerr. pose proof (fat_entry_range s c Hi) as Hrng.
  mstep; [mstep; apply Hstop; unfold DISK_ERR in *; lia|].
  mstep; [mstep; apply Hstop; unfold DISK_ERR in *; lia|].
  mstep; [mstep; by apply Hstop|]. destruct Hv as [->|?]; [|done].
  do 2 mstep. cbn beta. rewrite is_exfat_false by by rewrite (fat_only_type _ _ Hf1). cbn [negb].
  mcall (put_step s1 c 0); [done|by rewrite (fat_only_ents _ _ Hf1)|].
  intros r s2 (Hk2 & He2 & Hr2). rewrite (fat_only_ents _ _ Hf1) in He2.
  pose proof (kept_trans _ _ _ Hk1 Hk2) as Hk. pose proof (kp_only _ _ Hk) as Hf2.
  destruct Hr2 as [[-> Hc0]| ->]; cbn [fr_ok negb].
  2:{ mstep. apply remove_stop; auto; [apply Hk..|]. intros x Hx Hxc. rewrite He2, He1; [done..|].
      intros ->. by apply Hxc. }
  do 2 mstep. cbn beta. rewrite is_exfat_false by by rewrite (fat_only_type _ _ Hf2).
  apply post_bind, (count_step s s2 c); [done..| |].
  { intros x Hx. destruct (Z.eqb_spec x c) as [->|]; [by rewrite Zmod_0_l in Hc0|]. by rewrite He2, He1. }
  intros s3 (Hi3 & Hf3 & Hu3 & He3 & Hfc3). rewrite (fat_only_ents _ _ Hf2).
  assert (forall scl ecl,
    post (if fat_entry s c <? nent s then remove_loop fuel obj (fat_entry s c) scl ecl else mret None)
      s3 (remove_post s c)) as Hgo; [|mstep; [|do 2 mstep]; apply Hgo].
  pose proof (fat_only_ents _ _ Hf3) as En3. intros scl' ecl'. mstep.
  - mcall (IH (fat_entry s c) scl' ecl' s3 (c :: freed)); rewrite ?En3; auto.
    + by rewrite (fat_only_type _ _ Hf3).
    + unfold DISK_ERR in *. lia.
    + constructor; [|done]. intros Hin. apply Hz in Hin. lia.
    + rewrite Forall_forall in Hr. intros x [->|Hx]%elem_of_cons.
      * rewrite He3, Z.eqb_refl by lia. done.
      * pose proof (Hr x Hx). rewrite He3 by lia. destruct (x =? c); [done|by apply Hz].
    + unfold zlen in *. cbn [length]. lia.
    + intros r s' Hp. by eapply remove_cons.
  - mstep. eapply remove_cons; [done|lia|done..|].
    exists [], (fat_entry s c). rewrite free_after_0. split_and!; try done.
    + by apply NoDup_nil_2.
    + by intros x Hx%not_elem_of_nil.
    + left. lia.
Qed.
End remove.

Section remove_chain.
Context {D : Type} `{BlockDeviceLaws D}.
Implicit Types s : St D.

Abbreviation nent s := (n_fatent (fsys s)).

(** The table once the cluster before the removed part is the end of its chain. *)
Definition marked s (pclst x : Z) : Z :=
  if negb (pclst =? 0) && (x =? pclst) then 0xFFFFFFFF mod fat_mask (fsys s) else fat_entry s x.

(** What [remove_chain] does for a cluster of the volume.  [l] are the clusters
    freed, on the path from [clst] to [z], where the loop stops: the end of the
    chain, a free cluster, or a cluster freed before (the chain was a cycle). *)
Definition chain_removed s (clst pclst : Z) (r : FRESULT) s' : Prop :=
  fs_inv s' /\ fat_only s s' /\ exists l z,
    NoDup l /\ Forall (fun x => 2 <= x < nent s) l /\ path (marked s pclst) clst l z /\
    (forall x, 0 <= x < nent s -> x ∉ l -> x <> pclst -> (x = z -> r <> FR_DISK_ERR) ->
       fat_entry s' x = fat_entry s x) /\
    match r with
    | FR_OK =>
        (forall x, 0 <= x < nent s ->
           fat_entry s' x = if bool_decide (x ∈ l) then 0 else marked s pclst x) /\
        free_clst (fsys s') = free_after (nent s) (free_clst (fsys s)) (zlen l) /\
        (nent s <= z \/ 2 <= z < nent s /\ (z ∈ l \/ marked s pclst z = 0))
    | FR_INT_ERR => 2 <= z < nent s /\ marked s pclst z = 1
    | FR_DISK_ERR => True
    | _ => False
    end.

(** The loop, from a state where the previous cluster is marked. *)
Lemma remove_post_marked s s1 clst pclst o s' :
  kept s s1 -> (forall x, 0 <= x < nent s -> fat_entry s1 x = marked s pclst x) ->
  remove_post s1 clst o s' ->
  chain_removed s clst pclst (match o with None => FR_OK | Some r => r end) s'.
Proof.
  intros Hk He (l & z & Hnd & Hr & Hnz & Hp & Hi' & Hf & He' & Hu & Hfc & Hres).
  pose proof (kp_only _ _ Hk) as Hf1. rewrite (fat_only_ents _ _ Hf1) in *.
  split_and!; [done|by etrans|]. exists l, z.
  assert (forall x, x ∈ l -> 0 <= x < nent s) as Hrng.
  { intros x Hx. rewrite Forall_forall in Hr. apply Hr in Hx. lia. }
  split_and!; [done..| | |].
  - eapply path_ext; [done|]. intros x Hx. symmetry. auto.
  - intros x Hx Hxl Hxp Hxz. rewrite He', He; [|done..|].
    + rewrite bool_decide_eq_false_2 by done. unfold marked.
      by rewrite (proj2 (Z.eqb_neq x pclst)), andb_false_r by done.
    + intros -> ->. by apply Hxz.
  - destruct o as [[]|]; try done.
    + destruct Hres as [Hz Hz1]. by rewrite He in Hz1 by lia.
    + split_and!.
      * intros x Hx. rewrite He' by done. destruct (bool_decide _); auto.
      * by rewrite Hfc, (kp_free _ _ Hk).
      * destruct Hres as [?|[Hz Hres]]; [by left|]. right. by rewrite He in Hres by lia.
Qed.

Lemma remove_chain_spec s obj clst pclst :
  fs_inv s -> fs_type (fsys s) <> FS_EXFAT -> is_u32 (free_clst (fsys s)) ->
  2 <= clst < nent s -> pclst = 0 \/ 2 <= pclst < nent s ->
  post (remove_chain obj clst pclst) s (fun '(r, obj') s' =>
    obj' = obj /\ chain_removed s clst pclst r s').
Proof.
  intros Hi Ht Hu Hc Hp. unfold remove_chain, get_fs. do 2 mstep. cbn beta. if_false.
  pose proof (is_exfat_false _ Ht) as Hx. rewrite Hx. cbn [negb orb].
  assert (forall s1, kept s s1 -> (forall x, 0 <= x < nent s -> fat_entry s1 x = marked s pclst x) ->
    post (o ← remove_loop (Z.to_nat (2 * nent s)) obj clst clst clst;
          match o with Some r => mret (r, obj) | None => mret (FR_OK, obj) end) s1
      (fun '(r, obj') s' => obj' = obj /\ chain_removed s clst pclst r s')) as Hloop.
  { intros s1 Hk He. pose proof (kp_only _ _ Hk) as Hf1.
    mcall (remove_loop_spec _ obj clst clst clst s1 []);
      rewrite ?(fat_only_ents _ _ Hf1), ?(fat_only_type _ _ Hf1), ?(kp_free _ _ Hk); auto.
    - apply Hk.
    - by apply NoDup_nil_2.
    - by intros x Hx0%not_elem_of_nil.
    - unfold zlen. cbn [length]. lia.
    - intros o s' Hpost. apply (remove_post_marked s s1 clst pclst) in Hpost; [|done..].
      destruct o; mstep; done. }
  rewrite andb_true_r. mstep. destruct (Z.eqb_spec pclst 0) as [->|Hp0]; cbn [negb].
  - mstep. cbn [fr_ok negb]. apply Hloop; [|done].
    by apply same_but_fat_kept, same_but_fat_refl.
  - destruct Hp as [?|Hp]; [done|]. mcall put_step; [done..|].
    intros r s1 (Hk & He & Hr). destruct Hr as [[-> Hv]| ->]; cbn [fr_ok negb].
    + apply Hloop; [done|]. intros x Hx0. unfold marked.
      rewrite (proj2 (Z.eqb_neq pclst 0)) by done. cbn [negb andb].
      destruct (Z.eqb_spec x pclst) as [->|]; [done|]. by apply He.
    + mstep. split; [done|]. split_and!; [apply Hk..|]. exists [], clst. split_and!; try done.
      * by apply NoDup_nil_2.
      * intros. by apply He.
Qed.

(** A well-formed chain is freed, all of it and nothing else. *)
Lemma chain_removed_all s clst pclst l r s' :
  chain (fat_entry s) (nent s) clst l -> pclst ∉ l -> chain_removed s clst pclst r s' ->
  (r = FR_OK /\
     (forall x, 0 <= x < nent s ->
        fat_entry s' x = if bool_decide (x ∈ l) then 0 else marked s pclst x) /\
     free_clst (fsys s') = free_after (nent s) (free_clst (fsys s)) (zlen l))
  \/ r = FR_DISK_ERR /\
     (forall x, 0 <= x < nent s -> x ∉ l -> x <> pclst -> fat_entry s' x = fat_entry s x).
Proof.
  intros Hch Hpl (_ & _ & l' & z & Hnd & Hr & Hp & Hkeep & Hres).
  assert (forall x, x ∈ l -> marked s pclst x = fat_entry s x) as Hm.
  { intros x Hx. unfold marked. rewrite (proj2 (Z.eqb_neq x pclst)) by set_solver.
    by rewrite andb_false_r. }
  assert (chain (marked s pclst) (nent s) clst l) as Hch'.
  { destruct Hch as [Hrl (z0 & Hz0 & Hp0)]. split; [done|]. exists z0. split; [done|].
    by eapply path_ext. }
  pose proof (chain_no_dup _ _ _ _ Hch') as Hndl.
  destruct (chain_walk _ _ _ _ _ _ Hch' Hp Hr) as [[Hz ->]|(Hz & Hzl & k & Hk)].
  - destruct r; try done; [by left; destruct Hres as (?&?&_)|right|lia].
    split; [done|]. intros x Hx Hxl Hxp. apply Hkeep; auto. lia.
  - pose proof (chain_entries _ _ _ _ z Hch' Hzl) as Hz2.
    assert (z ∉ l') as Hzl'.
    { rewrite Hk in Hndl. apply NoDup_app in Hndl as (_ & Hd & _). intros Hin.
      apply (Hd z Hin). by left. }
    destruct r; try done; [|right|lia].
    + destruct Hres as (_ & _ & [?|[_ [?|?]]]); [lia|done|lia].
    + split; [done|]. intros x Hx Hxl Hxp. apply Hkeep; auto.
      * intros Hin. apply Hxl. rewrite Hk. apply elem_of_app. by left.
      * by intros ->.
Qed.
End remove_chain.

(** ** Creating or stretching a chain *)

Section create.
Context {D : Type} `{BlockDeviceLaws D}.
Implicit Types s : St D.

Abbreviation nent s := (n_fatent (fsys s)).

(** No cluster is free. *)
Definition full s : Prop := forall x, 2 <= x < nent s -> fat_entry s x <> 0.

(** The outcome of the search for a free cluster. *)
Definition pick_post s (p : Z + Z) s' : Prop :=
  kept s s' /\ same_entries s s' /\
  match p with
  | inl v => v = 0 /\ full s \/ v = 1 \/ v = DISK_ERR
  | inr c => 2 <= c < nent s /\ fat_entry s c = 0
  end.

(** The clusters the search from [scl] has seen when it is at [ncl]. *)
Definition searched s (scl ncl : Z) : Prop :=
  scl <= ncl < nent s /\ (forall x, scl < x <= ncl -> fat_entry s x <> 0)
  \/ 2 <= ncl < scl /\ (forall x, scl < x < nent s -> fat_entry s x <> 0) /\
     (forall x, 2 <= x <= ncl -> fat_entry s x <> 0).

Definition to_search (n scl ncl : Z) : Z :=
  if scl <=? ncl then n - ncl + scl - 1 else scl - ncl.

(** The cluster looked at in the next step, unless the search ends. *)
Lemma search_next s scl ncl :
  1 <= scl < nent s -> searched s scl ncl ->
  let nxt := if nent s <=? ncl + 1 then 2 else ncl + 1 in
  (nent s <= ncl + 1 /\ scl < 2 -> full s) /\
  (~ (nent s <= ncl + 1 /\ scl < 2) ->
     2 <= nxt < nent s /\
     (fat_entry s nxt <> 0 -> (nxt = scl -> full s) /\
        (nxt <> scl -> searched s scl nxt /\ to_search (nent s) scl nxt < to_search (nent s) scl ncl))).
Proof.
  intros Hs Hse nxt. unfold nxt. split.
  - intros [Hn ?]. destruct Hse as [[? Hx]|?]; [|lia]. intros x Hx2. apply Hx. lia.
  - intros Hgo. bdestr; (split; [unfold searched in Hse; lia|]); intros Hne; split; intros Hscl.
    all: destruct Hse as [[Hr Hx]|(Hr & Hx1 & Hx2)]; try lia.
    + intros x Hxr. destruct (decide (x = 2)) as [->|]; [done|]. apply Hx. lia.
    + split; [|unfold to_search; repeat bdestr; lia].
      right. split_and!; [lia..|intros; apply Hx; lia|]. intros x Hxr. by replace x with 2 by lia.
    + intros x Hxr. destruct (decide (x = ncl + 1)) as [->|]; [done|].
      destruct (decide (x <= ncl)); [apply Hx2; lia|apply Hx1; lia].
    + split; [|unfold to_search; repeat bdestr; lia].
      left. split; [lia|]. intros x Hxr.
      destruct (decide (x = ncl + 1)) as [->|]; [done|]. apply Hx. lia.
    + split; [|unfold to_search; repeat bdestr; lia].
      right. split_and!; [lia..|done|]. intros x Hxr.
      destruct (decide (x = ncl + 1)) as [->|]; [done|]. apply Hx2. lia.
Qed.

Lemma create_search_spec fuel obj scl ncl s0 s :
  fs_inv s0 -> fs_type (fsys s0) <> FS_EXFAT -> kept s0 s -> same_entries s0 s ->
  1 <= scl < nent s0 -> searched s0 scl ncl -> to_search (nent s0) scl ncl < Z.of_nat fuel ->
  post (create_search fuel obj scl ncl) s (pick_post s0).
Proof.
  intros Hi0 Ht. revert ncl s. induction fuel as [|fuel IH]; intros ncl s Hk He Hs Hse Hf.
  { exfalso. unfold to_search in Hf. destruct Hse; revert Hf; bdestr; lia. }
  pose proof (ents_u32 _ (fi_fat s0 Hi0)) as Hn.
  pose proof (search_next s0 scl ncl Hs Hse) as [Hfull Hnext]. cbn zeta in Hnext.
  pose proof (kp_only _ _ Hk) as Hf0. cbn [create_search]. unfold get_fs. do 2 mstep. cbn beta.
  rewrite (fat_only_ents _ _ Hf0), u32_small by (unfold is_u32, searched in *; lia).
  set (nxt := if nent s0 <=? ncl + 1 then 2 else ncl + 1) in *.
  mstep.
  { mstep. split_and!; [done..|]. left. split; [done|]. apply Hfull. revert Hb. unfold nxt. bdestr; lia. }
  destruct Hnext as [Hr Hnz].
  { intros [Hw Hlt]. revert Hb. unfold nxt. rewrite (proj2 (Z.leb_le _ _) Hw).
    intuition lia. }
  mcall (get_step s obj nxt).
  { apply Hk. } { by rewrite (fat_only_type _ _ Hf0). } { by rewrite (fat_only_ents _ _ Hf0). }
  intros v s1 (Hk1 & He1 & Hv). rewrite He in Hv by lia.
  assert (kept s0 s1) as Hk01 by by eapply kept_trans.
  assert (same_entries s0 s1) as He01.
  { intros x Hx. rewrite He1, He; [done..|]. by rewrite (fat_only_ents _ _ Hf0). }
  pose proof (fat_entry_not_err s0 nxt Hi0). unfold DISK_ERR in *.
  mstep; [mstep; split; [done|]; split; [done|]; split; lia|].
  mstep; [mstep; split; [done|]; split; [done|]; right; unfold DISK_ERR; lia|].
  destruct Hnz as [Hfin Hgo]; [lia|].
  mstep; [mstep; split; [done|]; split; [done|]; left; auto|].
  destruct (Hgo ltac:(lia)). apply IH; auto. lia.
Qed.

Lemma pick_post_kept s s1 p s' :
  kept s s1 -> same_entries s s1 -> pick_post s1 p s' -> pick_post s p s'.
Proof.
  intros Hk He (Hk' & He' & Hp). pose proof (fat_only_ents _ _ (kp_only _ _ Hk)) as En.
  split_and!; [by eapply kept_trans| |].
  - intros x Hx. rewrite He', He; [done..|]. by rewrite En.
  - destruct p as [v|c].
    + destruct Hp as [[? Hfull]|?]; [left|by right]. split; [done|]. intros x Hx.
      rewrite <- He by lia. apply Hfull. by rewrite En.
    + rewrite En in Hp. destruct Hp. split; [done|]. by rewrite <- He by lia.
Qed.

Lemma create_pick_spec s obj clst scl :
  fs_inv s -> fs_type (fsys s) <> FS_EXFAT -> 1 <= scl < nent s -> (scl = clst -> 2 <= clst) ->
  post (create_pick obj clst scl) s (pick_post s).
Proof.
  intros Hi Ht Hs Hsc. pose proof (ents_u32 _ (fi_fat s Hi)) as Hn.
  assert (kept s s) as Hkr by by apply same_but_fat_kept, same_but_fat_refl.
  assert (forall scl s1, 1 <= scl < nent s -> kept s s1 -> same_entries s s1 ->
    post (create_search (Z.to_nat (nent s)) obj scl scl) s1 (pick_post s)) as Hsearch.
  { intros scl' s1 Hs' Hk He. apply (create_search_spec _ obj scl' scl' s); auto.
    - left. split; [lia|]. intros. lia.
    - unfold to_search. rewrite Z.leb_refl. lia. }
  unfold create_pick, get_fs. do 2 mstep. cbn beta.
  mstep. mstep; [|mstep; by apply Hsearch].
  rewrite u32_small by (unfold is_u32; lia).
  set (nxt := if nent s <=? scl + 1 then 2 else scl + 1).
  assert (2 <= nxt < nent s) by (unfold nxt; bdestr; lia).
  mcall get_step; [done..|]. intros v s1 (Hk1 & He1 & Hv).
  pose proof (fat_entry_not_err s nxt Hi). pose proof (kp_only _ _ Hk1) as Hf1.
  mstep; [do 2 mstep; split; [done|]; split; [done|]; right; unfold DISK_ERR in *; lia|].
  mstep; repeat (mstep; cbn beta iota).
  - rewrite (fat_only_ents _ _ Hf1). apply Hsearch; [|done..]. bdestr; lia.
  - lia.
  - lia.
  - split; [done|]. split; [done|]. split; [done|]. unfold DISK_ERR in *. lia.
Qed.

(** The table with [c] a new end of chain, linked from [clst]. *)
Definition linked s (clst c x : Z) : Z :=
  if x =? c then 0xFFFFFFFF mod fat_mask (fsys s)
  else if negb (clst =? 0) && (x =? clst) then c else fat_entry s x.

Definition stretchable s (clst : Z) : Prop :=
  clst = 0 \/ 2 <= clst < nent s /\ nent s <= fat_entry s clst.

Definition create_fat_post s clst (p : Z + Z * FRESULT) s' : Prop :=
  kept s s' /\
  match p with
  | inl v => same_entries s s' /\ (v = 0 /\ full s \/ v = 1 \/ v = DISK_ERR)
  | inr (c, res) =>
      2 <= c < nent s /\ fat_entry s c = 0 /\
      (forall x, 0 <= x < nent s -> x <> c -> x <> clst -> fat_entry s' x = fat_entry s x) /\
      (res = FR_OK /\ (forall x, 0 <= x < nent s -> fat_entry s' x = linked s clst c x)
       \/ res = FR_DISK_ERR)
  end.

Lemma cluster_mask s c : fs_inv s -> 0 <= c < nent s -> c mod fat_mask (fsys s) = c.
Proof.
  intros Hi Hc. apply Z.mod_small. pose proof (eoc_mark _ (fi_fat s Hi)).
  pose proof (Z.mod_pos_bound 0xFFFFFFFF (fat_mask (fsys s))) as Hm.
  assert (0 < fat_mask (fsys s)) by (unfold fat_mask; repeat case_match; lia). lia.
Qed.

Lemma create_fat_spec s obj clst scl :
  fs_inv s -> fs_type (fsys s) <> FS_EXFAT -> 1 <= scl < nent s -> stretchable s clst ->
  post (create_fat obj clst scl) s (create_fat_post s clst).
Proof.
  intros Hi Ht Hs Hst. unfold create_fat. mcall create_pick_spec; [done..|unfold stretchable in Hst; lia|].
  intros [v|c] s1 (Hk1 & He1 & Hp); [by mstep; split|]. destruct Hp as [Hc Hc0].
  pose proof (kp_only _ _ Hk1) as Hf1. pose proof (fat_only_ents _ _ Hf1) as En1.
  mcall (put_step s1 c); [apply Hk1|by rewrite En1|]. rewrite En1, (fat_only_mask _ _ Hf1).
  intros r s2 (Hk2 & He2 & Hr). pose proof (kept_trans _ _ _ Hk1 Hk2) as Hk.
  pose proof (kp_only _ _ Hk) as Hf2. pose proof (fat_only_ents _ _ Hf2) as En2.
  assert (forall x, 0 <= x < nent s -> x <> c -> fat_entry s2 x = fat_entry s x) as He.
  { intros. by rewrite He2, He1. }
  destruct Hr as [[-> Hv]| ->]; cbn [fr_ok andb].
  2:{ do 3 mstep. split; [done|]. split_and!; auto; lia. }
  mstep. destruct (Z.eqb_spec clst 0) as [->|Hn0]; cbn [negb andb].
  - do 2 mstep. split; [done|]. split_and!; auto; [lia..|]. left. split; [done|]. intros x Hx.
    unfold linked. destruct (Z.eqb_spec x c) as [->|]; auto.
  - destruct Hst as [?|[Hcl Hend]]; [done|]. pose proof (kp_inv _ _ Hk) as Hi2.
    mcall (put_step s2 clst c); [done|by rewrite En2|]. rewrite En2.
    intros r s3 (Hk3 & He3 & Hr3). rewrite cluster_mask in Hr3 by (done || lia).
    mstep. split; [by eapply kept_trans|].
    split_and!; [lia..|done|intros; by rewrite He3, He|].
    destruct Hr3 as [[-> Hv3]| ->]; [left|by right]. split; [done|]. intros x Hx.
    unfold linked. destruct (Z.eqb_spec x c) as [->|Hxc].
    + rewrite He3; [done..|]. intros ->. lia.
    + rewrite (proj2 (Z.eqb_neq clst 0)) by done. cbn [negb andb].
      destruct (Z.eqb_spec x clst) as [->|]; [done|]. by rewrite He3, He.
Qed.

(** The start of the search, and the cases in which there is none. *)
Lemma create_start_spec s obj clst :
  fs_inv s -> fs_type (fsys s) <> FS_EXFAT -> 3 <= nent s -> is_u32 (last_clst (fsys s)) ->
  post (create_start obj clst) s (fun p s' => kept s s' /\ same_entries s s' /\
    match p with
    | inl v => clst <> 0 /\ (v = 1 \/ v = DISK_ERR \/ v = fat_entry s clst /\ 2 <= v < nent s)
    | inr scl => 1 <= scl < nent s /\ stretchable s clst
    end).
Proof.
  intros Hi Ht Hn Hl. assert (kept s s) as Hk by by apply same_but_fat_kept, same_but_fat_refl.
  unfold create_start, get_fs. do 2 mstep. cbn beta. mstep.
  { mstep. split; [done|]. split; [done|]. split; [|by left]. unfold is_u32 in Hl. bdestr; lia. }
  destruct (decide (2 <= clst < nent s)) as [Hc|Hc].
  - mcall get_step; [done..|]. intros v s1 (Hk1 & He1 & Hv).
    pose proof (fat_entry_not_err s clst Hi). pose proof (fat_entry_range s clst Hi). unfold DISK_ERR in *.
    repeat (mstep; try (mstep; split; [done|]; split; [done|])); unfold stretchable; lia.
  - mstep. eapply post_intro; [apply get_fat_out_of_range; lia|]. cbn [Z.ltb]. if_true.
    mstep. split; [done|]. split; [done|]. split; auto.
Qed.

(** The counters of the FSINFO sector. *)
Definition same_hints s s' : Prop :=
  free_clst (fsys s') = free_clst (fsys s) /\ last_clst (fsys s') = last_clst (fsys s).

Lemma kept_hints s s' : kept s s' -> same_hints s s'.
Proof. intros [_ _ ? ? _]. done. Qed.

(** What [create_chain] returns and does on a FAT volume: the cluster that follows
    already, an error, the news that no cluster is free, or a new cluster. *)
Definition create_post s clst (v : Z) s' : Prop :=
  fs_inv s' /\ fat_only s s' /\
  (same_hints s s' /\
   (v = DISK_ERR /\ (forall x, 0 <= x < nent s -> x <> clst -> fat_entry s x <> 0 ->
                       fat_entry s' x = fat_entry s x)
    \/ v = 1 /\ same_entries s s'
    \/ v = 0 /\ same_entries s s' /\ (free_clst (fsys s) = 0 \/ full s)
    \/ clst <> 0 /\ v = fat_entry s clst /\ 2 <= v < nent s /\ same_entries s s')
   \/ 2 <= v < nent s /\ fat_entry s v = 0 /\ stretchable s clst /\ free_clst (fsys s) <> 0 /\
      (forall x, 0 <= x < nent s -> fat_entry s' x = linked s clst v x) /\
      last_clst (fsys s') = v /\
      free_clst (fsys s') = if free_clst (fsys s) <=? nent s - 2
                            then free_clst (fsys s) - 1 else free_clst (fsys s)).

Definition count_used (fs : FATFS) : FATFS :=
  if free_clst fs <=? n_fatent fs -u32 2 then set_free_clst (free_clst fs -u32 1) fs else fs.

Lemma count_used_info c :
  info_upd (fun fs => let fs := count_used (set_last_clst c fs) in
                      set_fsi_flag (Z.lor (fsi_flag fs) 1) fs).
Proof.
  intros fs. unfold count_used. cbn zeta. destruct (_ <=? _);
    eexists _, _, c; destruct fs; reflexivity.
Qed.

Lemma create_chain_spec s obj clst :
  fs_inv s -> fs_type (fsys s) <> FS_EXFAT -> 3 <= nent s ->
  is_u32 (last_clst (fsys s)) -> is_u32 (free_clst (fsys s)) ->
  post (create_chain obj clst) s (fun '(v, obj') s' => obj' = obj /\ create_post s clst v s').
Proof.
  intros Hi Ht Hn Hl Hu. unfold create_chain, get_fs. pose proof (ents_u32 _ (fi_fat s Hi)).
  mcall create_start_spec; [done..|]. intros [v|scl] s1 (Hk1 & He1 & Hp).
  { mstep. split; [done|]. split_and!; [apply Hk1..|]. left. split; [by apply kept_hints|].
    destruct Hp as [? [->|[->|[-> ?]]]]; auto 8. }
  destruct Hp as [Hs Hst]. pose proof (kp_only _ _ Hk1) as Hf1. do 2 mstep. cbn beta.
  pose proof (fat_only_ents _ _ Hf1) as En1.
  rewrite (kp_free _ _ Hk1). mstep.
  { mstep. split; [done|]. split_and!; [apply Hk1..|]. left. split; [by apply kept_hints|]. auto 8. }
  rewrite is_exfat_false by by rewrite (fat_only_type _ _ Hf1). do 2 mstep.
  assert (stretchable s1 clst) as Hst1.
  { destruct Hst as [?|[? ?]]; [by left|right]. rewrite He1, En1 by lia. done. }
  mcall (create_fat_spec s1 obj clst scl); [apply Hk1|by rewrite (fat_only_type _ _ Hf1)|by rewrite En1|done|].
  intros p s2 [Hk2 Hp]. mstep. pose proof (kept_trans _ _ _ Hk1 Hk2) as Hk.
  rewrite En1 in Hp. pose proof (kp_only _ _ Hk) as Hf2. pose proof (kp_inv _ _ Hk) as Hi2.
  destruct p as [v|[c res]].
  { destruct Hp as [He2 Hv]. assert (same_entries s s2).
    { intros x Hx. rewrite He2, He1; [done..|]. by rewrite En1. }
    mstep. split; [done|]. split_and!; [done..|]. left. split; [by apply kept_hints|].
    destruct Hv as [[-> Hfull]|[->| ->]]; auto 8. do 2 right. left. split_and!; [done..|]. right. intros x Hx.
    rewrite <- He1 by lia. apply Hfull. by rewrite En1. }
  destruct Hp as (Hc & Hc0 & He2 & Hres). rewrite He1 in Hc0 by lia.
  destruct Hres as [[-> Hlk]| ->]; cbn [fr_ok].
  2:{ mstep. split; [done|]. split_and!; [done..|]. left. split; [by apply kept_hints|]. left. split; [done|]. intros x Hx Hxc Hx0.
      rewrite He2, He1; [done..| |done]. by intros ->. }
  destruct (upd_info _ s2 (count_used_info c) Hi2) as (Hi3 & Hf3 & He3).
  unfold upd_fs. do 7 mstep. cbn beta. split; [done|]. split; [exact Hi3|]. split; [by etrans|].
  right. split_and!; [lia..|done|done|done| | |].
  - intros x Hx. etrans; [exact (He3 x)|]. rewrite Hlk by done. unfold linked. by rewrite (fat_only_mask _ _ Hf1), He1.
  - cbn. by destruct (_ <=? _).
  - cbn. rewrite (fat_only_ents _ _ Hf2), (kp_free _ _ Hk), (u32_small (nent s - 2)) by (unfold is_u32; lia).
    destruct (_ <=? _); cbn; [|by rewrite (kp_free _ _ Hk)].
    rewrite ?(kp_free _ _ Hk). apply u32_small. unfold is_u32 in *. lia.
Qed.
End create.

(** ** Properties of the chain operations *)

Section properties.
Context {D : Type} `{BlockDeviceLaws D}.
Implicit Types s : St D.

Abbreviation nent s := (n_fatent (fsys s)).

(** C34: on a FAT12, FAT16 or FAT32 volume with any table whatever,
    cyclic or cross-linked chains included, removing the chain from a cluster of
    the volume terminates; it frees only clusters met by following the table from
    that cluster, cuts the chain at the previous cluster, keeps the other entries,
    and changes nothing outside the table.  It returns success, a disk error, or an
    internal error when the chain runs into an entry with the reserved value 1. *)
Theorem remove_chain_total s obj clst pclst :
  fs_inv s -> fs_type (fsys s) <> FS_EXFAT -> is_u32 (free_clst (fsys s)) ->
  2 <= clst < nent s -> pclst = 0 \/ 2 <= pclst < nent s ->
  post (remove_chain obj clst pclst) s (fun '(r, obj') s' =>
    obj' = obj /\ chain_removed s clst pclst r s').
Proof. apply remove_chain_spec. Qed.

(** C29: removing a well-formed chain [l] either succeeds, and
    then every cluster of [l] is free, the previous cluster (if one is given) is an
    end of chain, every other entry is as before and the free count has grown by
    the length of [l] as far as it was known; or it reports a disk error, and then
    no entry outside [l] and the previous cluster has changed. *)
Theorem remove_chain_frees_chain s obj clst pclst l :
  fs_inv s -> fs_type (fsys s) <> FS_EXFAT -> is_u32 (free_clst (fsys s)) ->
  chain (fat_entry s) (nent s) clst l -> l <> [] ->
  pclst = 0 \/ 2 <= pclst < nent s -> pclst ∉ l ->
  post (remove_chain obj clst pclst) s (fun '(r, obj') s' =>
    obj' = obj /\ fs_inv s' /\ fat_only s s' /\
    ((r = FR_OK /\
       (forall x, 0 <= x < nent s ->
          fat_entry s' x = if bool_decide (x ∈ l) then 0 else marked s pclst x) /\
       free_clst (fsys s') = free_after (nent s) (free_clst (fsys s)) (zlen l))
     \/ r = FR_DISK_ERR /\
       (forall x, 0 <= x < nent s -> x ∉ l -> x <> pclst -> fat_entry s' x = fat_entry s x))).
Proof.
  intros Hi Ht Hu Hch Hne Hp Hpl. assert (2 <= clst < nent s) as Hc.
  { destruct Hch as [Hr (z & _ & Hpath)]. destruct l as [|x l]; [done|].
    destruct Hpath as [-> _]. rewrite Forall_cons in Hr; apply Hr. }
  mcall remove_chain_spec; [done..|]. intros [r obj'] s' [-> Hrm].
  split; [done|]. split; [apply Hrm|]. split; [apply Hrm|]. by apply (chain_removed_all s clst pclst l).
Qed.

(** C30: on a FAT12, FAT16 or FAT32 volume [create_chain]
    terminates.  It returns the cluster that follows [clst] already; or a cluster
    that was free, now the end of a chain and linked from [clst], with every other
    entry unchanged, the last-allocated hint set and the free count reduced; or 0
    when the free count is 0 or no entry is free; or 1 or the disk-error value.
    An allocated entry other than that of [clst] never changes. *)
Theorem create_chain_allocates s obj clst :
  fs_inv s -> fs_type (fsys s) <> FS_EXFAT -> 3 <= nent s ->
  is_u32 (last_clst (fsys s)) -> is_u32 (free_clst (fsys s)) ->
  post (create_chain obj clst) s (fun '(v, obj') s' => obj' = obj /\ create_post s clst v s').
Proof. apply create_chain_spec. Qed.

Lemma chain_linked s c l clst v :
  fs_inv s -> chain (fat_entry s) (nent s) c (l ++ [clst]) ->
  2 <= v < nent s -> fat_entry s v = 0 ->
  chain (linked s clst v) (nent s) c (l ++ [clst; v]).
Proof.
  intros Hi Hch Hv Hv0. pose proof (chain_no_dup _ _ _ _ Hch) as Hnd.
  pose proof (fun x => chain_entries _ _ _ _ x Hch) as Hge.
  destruct Hch as [Hr (z & Hz & Hp)]. pose proof (eoc_mark _ (fi_fat s Hi)) as Heoc.
  rewrite Forall_app, Forall_singleton in Hr. destruct Hr as [Hr Hcl].
  split; [apply Forall_app; split; [done|repeat constructor; lia]|].
  exists (0xFFFFFFFF mod fat_mask (fsys s)). split; [done|].
  assert (clst <> v) as Hcv by (intros ->; pose proof (Hge v ltac:(apply elem_of_app; right; by left)); lia).
  assert (path (fat_entry s) c l clst) as Hp1.
  { destruct (path_lookup _ _ _ _ (length l) clst Hp) as [Hl _].
    - by apply list_lookup_middle.
    - by rewrite take_app_length in Hl. }
  eapply (path_app _ _ l clst).
  - eapply path_ext; [done|]. intros x Hx. apply NoDup_app in Hnd as (_ & Hd & _).
    assert (x <> clst) by (intros ->; apply (Hd clst Hx); by left).
    pose proof (Hge x ltac:(apply elem_of_app; by left)). unfold linked.
    rewrite (proj2 (Z.eqb_neq x v)), (proj2 (Z.eqb_neq x clst)) by (done || (intros ->; lia)).
    by rewrite andb_false_r.
  - cbn. unfold linked. rewrite (proj2 (Z.eqb_neq clst v)), (proj2 (Z.eqb_neq clst 0)), Z.eqb_refl by lia.
    cbn [negb andb]. by rewrite Z.eqb_refl.
Qed.

(** Stretching a well-formed chain at its last cluster gives
    the same chain with one more cluster, unless the volume is full or the disk or
    the table is defective. *)
Theorem create_chain_extends s obj c l clst :
  fs_inv s -> fs_type (fsys s) <> FS_EXFAT ->
  is_u32 (last_clst (fsys s)) -> is_u32 (free_clst (fsys s)) ->
  chain (fat_entry s) (nent s) c (l ++ [clst]) ->
  post (create_chain obj clst) s (fun '(v, _) s' =>
    2 <= v < nent s /\ v ∉ (l ++ [clst]) /\ chain (fat_entry s') (nent s) c (l ++ [clst; v])
    \/ v = DISK_ERR \/ v = 1 \/ v = 0 /\ (free_clst (fsys s) = 0 \/ full s)).
Proof.
  intros Hi Ht Hl Hu Hch.
  assert (2 <= clst < nent s /\ nent s <= fat_entry s clst) as [Hcl Hend].
  { destruct Hch as [Hr (z & Hz & Hp)]. rewrite Forall_app, Forall_singleton in Hr. split; [apply Hr|].
    destruct (path_lookup _ _ _ _ (length l) clst Hp) as [_ Hd]; [by apply list_lookup_middle|].
    rewrite drop_app_length in Hd. cbn in Hd. destruct Hd as [_ ->]. done. }
  mcall create_chain_spec; [done..|lia|done|done|]. intros [v obj'] s' [-> (_ & _ & Hp)].
  destruct Hp as [[_ [[-> _]|[[-> _]|[(-> & _ & ?)|(_ & -> & ? & _)]]]]|(Hv & Hv0 & _ & _ & He & _)]; auto; [lia|].
  left. split; [done|]. pose proof (chain_linked s c l clst v Hi Hch Hv Hv0) as Hch'. split.
  - apply chain_no_dup in Hch'. change [clst; v] with ([clst] ++ [v]) in Hch'.
    rewrite app_assoc, NoDup_app in Hch'. destruct Hch' as (_ & Hd & _). intros Hin.
    apply (Hd v Hin). by left.
  - destruct Hch' as [Hr (z & Hz & Hpath)]. split; [done|]. exists z. split; [done|].
    eapply path_ext; [done|]. intros x Hx. rewrite Forall_forall in Hr. apply He.
    apply Hr in Hx. lia.
Qed.
End properties.
