(* ===== verification/Track.v ===== *)
(** * Where the window goes

    Reading and changing the FAT moves the window to sectors of the FAT only.  The data of
    a file bypasses the window, so that this is what keeps the two apart.

    [holds m s Q] is the partial-correctness counterpart of [post]: if [m] returns from
    [s], then [Q].  [tracks s s'] says that on a FAT volume the geometry is the same in
    [s'], and that the window is where it was, on a sector of the FAT, or nowhere. *)

From stdpp Require Import prelude list.
From Stdlib Require Import ZArith Lia.
From S2P Require Import Prelude Bytes Diskio FFTypes Window Fat Bitmap Chain.

Local Open Scope Z_scope.
Local Open Scope cint_scope.

(** ** Partial correctness *)

Section holds.
Context {S : Type}.

Definition holds {A} (m : M S A) (s : S) (Q : A -> S -> Prop) : Prop := forall a s', m s = Some (a, s') -> Q a s'.

Lemma holds_ret {A} (a : A) s (Q : A -> S -> Prop) : Q a s -> holds (mret a) s Q.
Proof. intros HQ ? ? [= <- <-]. done. Qed.

Lemma holds_bind {A B} (m : M S A) (k : A -> M S B) s (P : A -> S -> Prop) Q :
  holds m s P -> (forall a s', P a s' -> holds (k a) s' Q) -> holds (m ≫= k) s Q.
Proof.
  intros Hm Hk b s2. unfold mbind, M_bind. destruct (m s) as [[a s1]|] eqn:E; [|done].
  apply Hk, Hm, E.
Qed.

Lemma holds_mono {A} (m : M S A) s (P Q : A -> S -> Prop) :
  holds m s P -> (forall a s', P a s' -> Q a s') -> holds m s Q.
Proof. intros Hm Hi a s' E. by apply Hi, Hm. Qed.

Lemma holds_gets {A} (f : S -> A) s (Q : A -> S -> Prop) : Q (f s) s -> holds (gets f) s Q.
Proof. intros HQ ? ? [= <- <-]. done. Qed.

Lemma holds_modify (f : S -> S) s (Q : unit -> S -> Prop) : Q tt (f s) -> holds (modify f) s Q.
Proof. intros HQ [] ? [= <-]. done. Qed.

(** Total and partial correctness together. *)
Lemma post_holds {A} (m : M S A) s (P Q : A -> S -> Prop) :
  post m s P -> holds m s Q -> post m s (fun a s' => P a s' /\ Q a s').
Proof. unfold post. intros Hp Hh. destruct (m s) as [[a s']|] eqn:E; [|done]. split; [done|by apply Hh]. Qed.
End holds.

(** ** The relation *)

Definition fat_state (fs : FATFS) : Prop := geom_ok fs /\ fat_geom fs /\ fs_type fs <> FS_EXFAT.

Lemma fat_state_geo fs fs' : geo fs = geo fs' -> fat_state fs -> fat_state fs'.
Proof.
  intros Hg ([] & [] & Ht). unfold fat_state. unfold fat_bytes, fat_max in *. geo_rewrite Hg.
  split_and!; [split; geo_rewrite Hg; auto..|geo_rewrite Hg; auto].
  all: unfold fat_bytes, fat_max; geo_rewrite Hg; auto.
Qed.

Section tracks.
Context {D : Type} `{BlockDevice D}.
Implicit Types s : St D.

Definition tracks s s' : Prop :=
  fat_state (fsys s) ->
  geo (fsys s) = geo (fsys s') /\
  (winsect (fsys s') = winsect (fsys s) \/
   fatbase (fsys s) <= winsect (fsys s') < fatbase (fsys s) + fsize (fsys s) \/
   winsect (fsys s') = 0xFFFFFFFF).

Global Instance tracks_preorder : PreOrder tracks.
Proof.
  split; [intros s Hs; auto|]. intros s1 s2 s3 H1 H2 Hs. destruct (H1 Hs) as [G1 W1].
  destruct (H2 (fat_state_geo _ _ G1 Hs)) as [G2 W2]. split; [congruence|].
  assert (fatbase (fsys s2) = fatbase (fsys s1)) as E1 by exact (eq_sym (f_equal fatbase G1)).
  assert (fsize (fsys s2) = fsize (fsys s1)) as E2 by exact (eq_sym (f_equal fsize G1)).
  rewrite E1, E2 in W2. intuition congruence.
Qed.

(** An operation that tracks, in any state. *)
Definition tracking {A} (m : M (St D) A) : Prop := forall s, holds m s (fun _ s' => tracks s s').

Lemma tracking_ret {A} (a : A) : tracking (mret a).
Proof. intros s. apply holds_ret. reflexivity. Qed.

Lemma tracking_bind {A B} (m : M (St D) A) (k : A -> M (St D) B) :
  tracking m -> (forall a, tracking (k a)) -> tracking (m ≫= k).
Proof.
  intros Hm Hk s. eapply holds_bind; [apply Hm|]. intros a s1 H1. eapply holds_mono; [apply Hk|].
  intros b s2 H2. exact (transitivity (R := tracks) H1 H2).
Qed.

(** What the continuation of a read of the filesystem object may use of it. *)
Lemma tracking_get_fs {B} (k : FATFS -> M (St D) B) :
  (forall s, holds (k (fsys s)) s (fun _ s' => tracks s s')) -> tracking (get_fs ≫= k).
Proof. intros Hk s. eapply holds_bind; [by apply (holds_gets _ _ (fun a s' => a = fsys s' /\ s' = s))|]. intros ? ? [-> ->]. apply Hk. Qed.

Lemma tracking_upd (g : FATFS -> FATFS) :
  (forall fs, geo fs = geo (g fs) /\ winsect (g fs) = winsect fs) -> tracking (upd_fs g).
Proof. intros Hg s. apply holds_modify. intros Hs. destruct (Hg (fsys s)). by split; [|left]. Qed.

Lemma tracking_fuel {A} : tracking (out_of_fuel : M (St D) A).
Proof. intros s a s'. done. Qed.

(** ** The window *)

Lemma sync_window_holds s : holds sync_window s (fun _ s' =>
  core (fsys s) = core (fsys s') /\ winsect (fsys s') = winsect (fsys s)).
Proof.
  intros r s'. unfold sync_window, get_fs, upd_fs, gets, modify, do_write, mbind, M_bind, mret, M_ret.
  cbn. destruct (negb _); [|intros [= <- <-]; done]. destruct (disk_write _ _ _ _) as [d1 r1]. cbn.
  destruct (res_ok _); cbn; [|intros [= <- <-]; done]. destruct (_ <? _); cbn; [|intros [= <- <-]; done].
  destruct (_ =? 2); cbn; [|intros [= <- <-]; done]. destruct (disk_write _ _ _ _) as [d2 r2]. intros [= <- <-]. done.
Qed.

Lemma move_window_holds s x : holds (move_window x) s (fun r s' =>
  core (fsys s) = core (fsys s') /\ (r = FR_OK -> winsect (fsys s') = x) /\
  (winsect (fsys s') = winsect (fsys s) \/ winsect (fsys s') = x \/ winsect (fsys s') = 0xFFFFFFFF)).
Proof.
  unfold move_window, get_fs. eapply holds_bind; [by apply (holds_gets _ _ (fun a s' => a = fsys s' /\ s' = s))|].
  intros ? ? [-> ->]. destruct (negb _) eqn:E; [|apply holds_ret; split_and!; [done|bprop; lia|by left]].
  eapply holds_bind; [apply sync_window_holds|]. intros r s1 [C1 W1].
  destruct (fr_ok r) eqn:Er; [|apply holds_ret; split_and!; [done|by intros ->|by left]].
  intros r2 s2. unfold upd_fs, modify, do_read_win, mbind, M_bind, mret, M_ret. destruct (disk_read _ _ _ _) as [[d b] r3].
  destruct (negb (res_ok _)); intros [= <- <-]; cbn; split_and!; auto; done.
Qed.

(** Moving to a sector of the FAT. *)
Lemma fat_sect_range fs o :
  geom_ok fs -> 0 <= o < fsize fs * ssize fs ->
  fatbase fs <= (fatbase fs +u32 o / ssize fs) < fatbase fs + fsize fs.
Proof.
  intros [Hss Hb Hf Hn He] Ho. pose proof (sect_size_bounds _ Hss).
  assert (0 <= o / ssize fs < fsize fs) by (split; [apply Z.div_pos; lia|apply Z.div_lt_upper_bound; lia]).
  rewrite u32_small by (unfold is_u32; lia). lia.
Qed.

Lemma tracks_move s x :
  (fat_state (fsys s) -> fatbase (fsys s) <= x < fatbase (fsys s) + fsize (fsys s)) ->
  holds (move_window x) s (fun _ s' => tracks s s' /\ core (fsys s) = core (fsys s')).
Proof.
  intros Hx. eapply holds_mono; [apply move_window_holds|]. intros r s' (Hc & _ & Hw). split; [|done]. intros Hs.
  split; [by apply core_geo|]. specialize (Hx Hs). destruct Hw as [->|[->| ->]]; auto.
Qed.
End tracks.

(** ** The FAT *)

Section fat.
Context {D : Type} `{BlockDevice D}.
Implicit Types s : St D.

(** The sectors that [get_fat] and [put_fat] ask for. *)
Lemma entry_sects fs c :
  fat_state fs -> 2 <= c < n_fatent fs ->
  let In x := fatbase fs <= x < fatbase fs + fsize fs in
  (fs_type fs = FS_FAT12 ->
     In (fatbase fs +u32 (c +u32 c / 2) / ssize fs) /\ In (fatbase fs +u32 ((c +u32 c / 2) +u32 1) / ssize fs)) /\
  (fs_type fs = FS_FAT16 -> In (fatbase fs +u32 c / (ssize fs / 2))) /\
  (fs_type fs = FS_FAT32 -> In (fatbase fs +u32 c / (ssize fs / 4))).
Proof.
  intros (Hg & Hf & Ht) Hc In. pose proof (fun i => fat_bytes_bound fs c i Hf ltac:(lia)) as Hb.
  pose proof (go_ss _ Hg) as Hss. split_and!; intros E.
  - assert (n_fatent fs <= MAX_FAT12 + 2) as Hn.
    { pose proof (fg_ents _ Hf) as Hm. unfold fat_max in Hm. rewrite E in Hm. apply Hm. }
    unfold MAX_FAT12 in Hn. assert (0 <= c / 2 <= c) by (Z.div_mod_to_equations; lia).
    rewrite (u32_small (c + c / 2)), (u32_small (c + c / 2 + 1)) by (unfold is_u32; lia).
    pose proof (proj1 (Hb 0) ltac:(lia)). pose proof (proj1 (Hb 1) ltac:(lia)).
    split; apply fat_sect_range; try done; lia.
  - rewrite half_sector by done. apply fat_sect_range; [done|]. pose proof (proj1 (proj2 (Hb 0)) ltac:(lia)). lia.
  - rewrite quarter_sector by done. apply fat_sect_range; [done|].
    pose proof (proj2 (proj2 (Hb 0))). unfold FS_FAT12, FS_FAT16, FS_FAT32 in *. lia.
Qed.

(** The sector is one of the FAT. *)
Definition fat_range (fs : FATFS) (x : Z) : Prop := fat_state fs -> fatbase fs <= x < fatbase fs + fsize fs.

Lemma fat_range_core fs fs' x : core fs = core fs' -> fat_range fs x -> fat_range fs' x.
Proof.
  intros Hc Hx Hs. assert (fat_state fs) as Hs0 by (by eapply fat_state_geo; [symmetry; apply core_geo|]).
  specialize (Hx Hs0). by core_rewrite Hc.
Qed.

(** One move to a sector of the FAT, the rest of the operation depending on the
    filesystem object only through its geometry. *)
Lemma tracks_step {A} s x (k : FRESULT -> M (St D) A) :
  fat_range (fsys s) x ->
  (forall r s', core (fsys s) = core (fsys s') -> holds (k r) s' (fun _ s2 => tracks s' s2)) ->
  holds (r ← move_window x; k r) s (fun _ s2 => tracks s s2).
Proof.
  intros Hx Hk. eapply holds_bind; [by apply tracks_move|]. intros r s1 [H1 C1].
  eapply holds_mono; [by apply Hk|]. intros a s2 H2. exact (transitivity (R := tracks) H1 H2).
Qed.

Lemma tracks_get {A} s (k : FATFS -> M (St D) A) Q : holds (k (fsys s)) s Q -> holds (get_fs ≫= k) s Q.
Proof. intros Hk. eapply holds_bind; [by apply (holds_gets _ _ (fun a s' => a = fsys s' /\ s' = s))|]. by intros ? ? [-> ->]. Qed.

Lemma tracks_ret {A} s (a : A) : holds (mret a) s (fun _ s' => tracks s s').
Proof. by apply holds_ret. Qed.

Lemma tracks_poke {A} s w (k : M (St D) A) :
  (forall s', core (fsys s) = core (fsys s') -> holds k s' (fun _ s2 => tracks s' s2)) ->
  holds (poke_win w;; k) s (fun _ s2 => tracks s s2).
Proof.
  intros Hk. eapply holds_bind; [by apply (holds_modify _ _ (fun _ s' => tracks s s' /\ core (fsys s) = core (fsys s'))); split; [split; [|left]|]|].
  intros _ s1 [H1 C1]. eapply holds_mono; [by apply Hk|].
  intros a s2 H2. exact (transitivity (R := tracks) H1 H2).
Qed.

(** A step of an operation on the FAT; [Hx] bounds its sectors. *)
Ltac track :=
  lazymatch goal with
  | |- holds (mret _) _ _ => apply tracks_ret
  | |- holds (mbind _ get_fs) _ _ => apply tracks_get
  | |- holds (mbind _ (move_window _)) _ _ => apply tracks_step; [|intros ? ? ?]
  | |- holds (mbind _ (poke_win _)) _ _ => apply tracks_poke; intros ? ?
  | |- holds (if _ then _ else _) _ _ => case_match
  end.

Lemma get_fat_tracking obj c : tracking (get_fat (D := D) obj c).
Proof.
  intros s. unfold get_fat. apply tracks_get. cbn zeta.
  destruct ((c <? 2) || _) eqn:Eb; [apply tracks_ret|]. assert (2 <= c < n_fatent (fsys s)) as Hc by (bprop; lia).
  pose proof (fun Hs => entry_sects (fsys s) c Hs Hc) as Hx.
  bdestr; [|bdestr; [|bdestr; [|bdestr]]].
  - track; [by intros Hs; apply (Hx Hs)|]. repeat track.
    assert (fatbase (fsys s') = fatbase (fsys s)) as -> by exact (eq_sym (f_equal fatbase H0)).
    eapply fat_range_core; [done|]. by intros Hs; apply (Hx Hs).
  - track; [by intros Hs; apply (Hx Hs)|]. repeat track.
  - track; [by intros Hs; apply (Hx Hs)|]. repeat track.
  - repeat track. by intros (_ & _ & Hs).
  - track.
Qed.

Lemma put_fat_tracking c v : tracking (put_fat (D := D) c v).
Proof.
  intros s. unfold put_fat. apply tracks_get. cbn zeta.
  destruct ((2 <=? c) && _) eqn:Eb; [|apply tracks_ret]. assert (2 <= c < n_fatent (fsys s)) as Hc by (bprop; lia).
  pose proof (fun Hs => entry_sects (fsys s) c Hs Hc) as Hx.
  bdestr; [|bdestr; [|bdestr]].
  - track; [by intros Hs; apply (Hx Hs)|]. repeat track.
    assert (fatbase (fsys s') = fatbase (fsys s)) as -> by exact (eq_sym (f_equal fatbase H0)).
    eapply (fat_range_core (fsys s)); [congruence|]. by intros Hs; apply (Hx Hs).
  - track; [by intros Hs; apply (Hx Hs)|]. repeat track.
  - track; [|repeat track]. intros Hs. destruct Hb1 as [E|E]; [by apply (Hx Hs)|by destruct Hs as (_ & _ & Hs)].
  - track.
Qed.

(** ** Chains *)

(** On an exFAT volume there is nothing to show. *)
Lemma tracks_exfat {A} s (m : M (St D) A) : is_exfat (fsys s) = true -> holds m s (fun _ s' => tracks s s').
Proof. intros He a s' _ (_ & _ & Ht). unfold is_exfat in He. by apply Z.eqb_eq in He. Qed.

Lemma tracking_get {A} (k : FATFS -> M (St D) A) : (forall fs, tracking (k fs)) -> tracking (get_fs ≫= k).
Proof. intros Hk s. apply tracks_get, Hk. Qed.

Ltac tracking :=
  repeat lazymatch goal with
  | |- tracking (mret _) => apply tracking_ret
  | |- tracking out_of_fuel => apply tracking_fuel
  | |- tracking (get_fat _ _) => apply get_fat_tracking
  | |- tracking (put_fat _ _) => apply put_fat_tracking
  | |- tracking (upd_fs _) => apply tracking_upd; intros ?; repeat case_match; done
  | |- tracking (mbind _ get_fs) => apply tracking_get; intros ?
  | |- tracking (mbind _ _) => apply tracking_bind; [|intros ?]
  | |- tracking (if _ then _ else _) => case_match
  | |- tracking (match ?e with _ => _ end) => destruct e
  end.

Lemma create_search_tracking fuel obj scl ncl : tracking (create_search (D := D) fuel obj scl ncl).
Proof. revert ncl. induction fuel as [|fuel IH]; intros ncl; cbn [create_search]; tracking; auto. Qed.

Lemma create_start_tracking obj clst : tracking (create_start (D := D) obj clst).
Proof. unfold create_start. tracking. Qed.

Lemma create_fat_tracking obj clst scl : tracking (create_fat (D := D) obj clst scl).
Proof. unfold create_fat, create_pick. tracking; apply create_search_tracking. Qed.

Lemma create_chain_tracking obj clst : tracking (create_chain (D := D) obj clst).
Proof.
  unfold create_chain. apply tracking_bind; [apply create_start_tracking|]. intros [v|scl]; [tracking|].
  intros s. apply tracks_get. destruct (free_clst _ =? 0); [track|].
  destruct (is_exfat (fsys s)) eqn:E; [by apply tracks_exfat|].
  revert s E. enough (forall s, holds (p ← create_fat obj clst scl; mret (p, obj)) s (fun _ s' => tracks s s')) as Hf.
  { intros s _. eapply (tracking_bind (p ← create_fat obj clst scl; mret (p, obj))); [exact Hf|].
    intros [[v|[ncl res]] obj1]; tracking. }
  apply (tracking_bind (create_fat obj clst scl)); [apply create_fat_tracking|]. intros ?. tracking.
Qed.

(** ** The window on the FAT *)

(** The window shows a sector of the FAT, as after every successful access. *)
Definition on_fat s s' : Prop :=
  fat_state (fsys s) -> fatbase (fsys s) <= winsect (fsys s') < fatbase (fsys s) + fsize (fsys s).

Lemma on_fat_geo s1 s2 s' : geo (fsys s1) = geo (fsys s2) -> on_fat s2 s' -> on_fat s1 s'.
Proof.
  intros Hg Ho Hs. specialize (Ho (fat_state_geo _ _ Hg Hs)).
  assert (fatbase (fsys s2) = fatbase (fsys s1)) as E1 by exact (eq_sym (f_equal fatbase Hg)).
  assert (fsize (fsys s2) = fsize (fsys s1)) as E2 by exact (eq_sym (f_equal fsize Hg)). by rewrite E1, E2 in Ho.
Qed.

Lemma on_fat_tracks s1 s2 s' : tracks s1 s2 -> on_fat s2 s' -> on_fat s1 s'.
Proof. intros Ht Ho Hs. destruct (Ht Hs) as [Hg _]. by apply (on_fat_geo s1 s2 s'). Qed.

(** A move to the FAT, and the rest of an operation that ends there. *)
Lemma fat_step {A} s x (k : FRESULT -> M (St D) A) (Q : A -> St D -> Prop) :
  fat_range (fsys s) x ->
  (forall r s', core (fsys s) = core (fsys s') -> r <> FR_OK -> holds (k r) s' Q) ->
  (forall s', core (fsys s) = core (fsys s') -> on_fat s s' -> holds (k FR_OK) s' Q) ->
  holds (r ← move_window x; k r) s Q.
Proof.
  intros Hx Hk1 Hk2. eapply holds_bind; [apply move_window_holds|]. intros r s1 (C1 & W1 & _).
  destruct (decide (r = FR_OK)) as [->|]; [|by apply Hk1]. apply Hk2; [done|]. intros Hs. rewrite W1 by done. by apply Hx.
Qed.

Lemma fat_poke {A} s0 s w (k : M (St D) A) (Q : A -> St D -> Prop) :
  on_fat s0 s -> (forall s', core (fsys s) = core (fsys s') -> on_fat s0 s' -> holds k s' Q) -> holds (poke_win w;; k) s Q.
Proof.
  intros Ho Hk. eapply holds_bind; [by apply (holds_modify _ _ (fun _ s' => core (fsys s) = core (fsys s') /\ on_fat s0 s'))|].
  intros _ s1 [C1 O1]. by apply Hk.
Qed.

Lemma get_fat_on obj c s : holds (get_fat (D := D) obj c) s (fun v s' => v = 1 \/ v = DISK_ERR \/ on_fat s s').
Proof.
  unfold get_fat. apply tracks_get. cbn zeta.
  destruct ((c <? 2) || _) eqn:Eb; [apply holds_ret; auto|]. assert (2 <= c < n_fatent (fsys s)) as Hc by (bprop; lia).
  pose proof (fun Hs => entry_sects (fsys s) c Hs Hc) as Hx.
  destruct (is_exfat (fsys s)) eqn:Ex.
  { intros v s' _. do 2 right. intros (_ & _ & Hs). unfold is_exfat in Ex. by apply Z.eqb_eq in Ex. }
  assert (forall r s' (m : M (St D) Z), r <> FR_OK -> holds (if negb (fr_ok r) then mret DISK_ERR else m) s'
    (fun v s' => v = 1 \/ v = DISK_ERR \/ on_fat s s')) as Herr.
  { intros r s' m Hr. apply fr_ok_false in Hr as ->. apply holds_ret. auto. }
  bdestr; [|bdestr; [|bdestr; [|bdestr]]].
  - apply fat_step; [by intros Hs; apply (Hx Hs)|auto|]. intros s1 C1 _. cbn [fr_ok negb]. apply tracks_get.
    assert (fatbase (fsys s1) = fatbase (fsys s)) as -> by exact (eq_sym (f_equal fatbase C1)).
    apply fat_step; [eapply fat_range_core; [done|]; by intros Hs; apply (Hx Hs)|auto|]. intros s2 C2 O2.
    cbn [fr_ok negb]. apply tracks_get, holds_ret. do 2 right. eapply on_fat_geo; [by apply core_geo|done].
  - apply fat_step; [by intros Hs; apply (Hx Hs)|auto|]. intros s1 C1 O1. cbn [fr_ok negb]. apply tracks_get, holds_ret. auto.
  - apply fat_step; [by intros Hs; apply (Hx Hs)|auto|]. intros s1 C1 O1. cbn [fr_ok negb]. apply tracks_get, holds_ret. auto.
  - unfold is_exfat in Ex. by rewrite Hb2 in Ex.
  - apply holds_ret. auto.
Qed.

Lemma put_fat_on c v s : holds (put_fat (D := D) c v) s (fun r s' => r = FR_OK -> on_fat s s').
Proof.
  unfold put_fat. apply tracks_get. cbn zeta.
  destruct ((2 <=? c) && _) eqn:Eb; [|by apply holds_ret]. assert (2 <= c < n_fatent (fsys s)) as Hc by (bprop; lia).
  pose proof (fun Hs => entry_sects (fsys s) c Hs Hc) as Hx.
  destruct (is_exfat (fsys s)) eqn:Ex.
  { intros r s' _ _ (_ & _ & Hs). unfold is_exfat in Ex. by apply Z.eqb_eq in Ex. }
  assert (forall r s' (m : M (St D) FRESULT), r <> FR_OK -> holds (if negb (fr_ok r) then mret r else m) s'
    (fun r s' => r = FR_OK -> on_fat s s')) as Herr.
  { intros r s' m Hr. apply fr_ok_false in Hr as E. rewrite E. by apply holds_ret. }
  bdestr; [|bdestr; [|bdestr]].
  - apply fat_step; [by intros Hs; apply (Hx Hs)|auto|]. intros s1 C1 O1. cbn [fr_ok negb]. apply tracks_get.
    eapply fat_poke; [done|]. intros s2 C2 O2.
    assert (fatbase (fsys s1) = fatbase (fsys s)) as -> by exact (eq_sym (f_equal fatbase C1)).
    apply fat_step; [eapply (fat_range_core (fsys s)); [congruence|]; by intros Hs; apply (Hx Hs)|auto|]. intros s3 C3 O3.
    cbn [fr_ok negb]. apply tracks_get. eapply fat_poke; [exact O3|]. intros s4 C4 O4. apply holds_ret. intros _.
    eapply on_fat_geo; [|exact O4]. apply core_geo. congruence.
  - apply fat_step; [by intros Hs; apply (Hx Hs)|auto|]. intros s1 C1 O1. cbn [fr_ok negb]. apply tracks_get.
    eapply fat_poke; [done|]. intros s2 C2 O2. by apply holds_ret.
  - apply fat_step; [|auto|].
    { intros Hs. destruct Hb1 as [E|E]; [by apply (Hx Hs)|by destruct Hs as (_ & _ & Hs)]. }
    intros s1 C1 O1. cbn [fr_ok negb]. apply tracks_get. eapply fat_poke; [done|]. intros s2 C2 O2. by apply holds_ret.
  - by apply holds_ret.
Qed.

(** A tracking operation before one that ends on the FAT. *)
Lemma tracking_then {A B} (m : M (St D) A) (k : A -> M (St D) B) s (P : A -> St D -> Prop) (Q : B -> St D -> Prop) :
  tracking m -> holds m s P -> (forall a s', tracks s s' -> P a s' -> holds (k a) s' Q) -> holds (m ≫= k) s Q.
Proof.
  intros Hm HP Hk. apply (holds_bind _ _ _ (fun a s' => tracks s s' /\ P a s')).
  - intros a s' E. split; [by apply (Hm s a s')|by apply HP].
  - intros a s' [Ht Hp]. by apply Hk.
Qed.

Definition no_cluster (v : Z) : Prop := v = 0 \/ v = 1 \/ v = DISK_ERR.

Lemma create_search_none fuel obj scl ncl s :
  holds (create_search (D := D) fuel obj scl ncl) s (fun p _ => forall v, p = inl v -> no_cluster v).
Proof.
  unfold no_cluster. revert ncl s. induction fuel as [|fuel IH]; intros ncl s; cbn [create_search]; [by intros ? ? [=]|].
  apply tracks_get. cbn zeta. set (nxt := if _ <=? _ then 2 else _).
  destruct (_ && _); [apply holds_ret; intros v [= <-]; auto|].
  apply (holds_bind _ _ _ (fun _ _ => True)); [done|]. intros cs s1 _.
  destruct (cs =? 0); [by apply holds_ret|]. bdestr_in ((cs =? 1) || (cs =? DISK_ERR)); [apply holds_ret; intros v [= <-]; tauto|].
  destruct (nxt =? scl); [apply holds_ret; intros v [= <-]; auto|]. apply IH.
Qed.

Lemma create_fat_on obj clst scl s : holds (create_fat (D := D) obj clst scl) s (fun p s' =>
  match p with inl v => no_cluster v | inr (_, r) => r = FR_OK -> on_fat s s' end).
Proof.
  unfold create_fat. apply (tracking_then _ _ _ (fun p _ => forall v, p = inl v -> no_cluster v)).
  - unfold create_pick. tracking; apply create_search_tracking.
  - unfold create_pick. apply tracks_get.
    eapply (holds_bind _ _ _ (fun p _ => forall v, p = inl v -> no_cluster v)).
    + unfold no_cluster. case_match; [|by apply holds_ret]. apply (holds_bind _ _ _ (fun _ _ => True)); [done|].
      intros cs s1 _. bdestr; [apply holds_ret; intros v [= <-]; tauto|]. case_match; [apply tracks_get|]; by apply holds_ret.
    + intros [v|[sc nc]] s1 Hv; [apply holds_ret; intros ? [= <-]; by apply Hv|].
      case_match; [apply create_search_none|by apply holds_ret].
  - intros [v|ncl] s1 Ht Hv; [apply holds_ret; by apply Hv|].
    apply (tracking_then _ _ _ (fun r s' => r = FR_OK -> on_fat s1 s')); [apply put_fat_tracking|apply put_fat_on|].
    intros r s2 Ht2 Hr. destruct (fr_ok r && _) eqn:E.
    + apply (tracking_then _ _ _ (fun r s' => r = FR_OK -> on_fat s2 s')); [apply put_fat_tracking|apply put_fat_on|].
      intros r2 s3 Ht3 Hr2. apply holds_ret. intros ->. eapply on_fat_tracks; [|by apply Hr2].
      exact (transitivity (R := tracks) Ht Ht2).
    + apply (holds_bind _ _ _ (fun r' s' => r' = r /\ s' = s2)); [by apply holds_ret|]. intros ? ? [-> ->]. apply holds_ret.
      intros ->. eapply on_fat_tracks; [exact Ht|]. by apply Hr.
Qed.

(** A cluster that [create_chain] returns leaves the window on the FAT. *)
Lemma create_chain_on obj clst s : fs_type (fsys s) <> FS_EXFAT ->
  holds (create_chain (D := D) obj clst) s (fun p s' => no_cluster p.1 \/ on_fat s s').
Proof.
  intros Ht. unfold create_chain. apply (tracking_then _ _ _ (fun p s' => match p with inl v => no_cluster v \/ on_fat s s' | inr _ => fsys s = fsys s' \/ True end)).
  - apply create_start_tracking.
  - unfold create_start. apply tracks_get. case_match; [apply holds_ret; auto|].
    eapply holds_bind; [apply get_fat_on|]. intros cs s1 Hcs. unfold no_cluster.
    cbn beta in Hcs. destruct (cs <? 2); [apply holds_ret; auto|]. destruct (cs =? DISK_ERR) eqn:E; [apply Z.eqb_eq in E; apply holds_ret; cbn; tauto|].
    destruct (cs <? n_fatent _); apply holds_ret; cbn; tauto.
  - intros [v|scl] s1 Ht1 Hp; [by apply holds_ret|]. apply tracks_get. case_match; [apply holds_ret; left; by left|].
    destruct (is_exfat (fsys s1)) eqn:Ex.
    { intros p s' _. right. intros Hs. destruct (Ht1 Hs) as [Hg _]. unfold is_exfat in Ex. apply Z.eqb_eq in Ex.
      assert (fs_type (fsys s1) = fs_type (fsys s)) by exact (eq_sym (f_equal fs_type Hg)). congruence. }
    eapply (holds_bind _ _ _ (fun p s' => match p.1 with inl v => no_cluster v | inr (_, r) => r = FR_OK -> on_fat s1 s' end)).
    { eapply holds_bind; [apply create_fat_on|]. intros p s2 Hp2. by apply holds_ret. }
    intros [[v|[ncl r]] o] s2 Hp2; cbn [fst] in *; [apply holds_ret; auto|].
    destruct (fr_ok r) eqn:Er.
    + apply fr_ok_true in Er as ->. specialize (Hp2 eq_refl).
      assert (forall g (m : M (St D) (Z * FFOBJID)) s3, (forall fs, winsect (g fs) = winsect fs) -> on_fat s1 s3 ->
        (forall s4, on_fat s1 s4 -> holds m s4 (fun p s' => no_cluster p.1 \/ on_fat s s')) ->
        holds (upd_fs g;; m) s3 (fun p s' => no_cluster p.1 \/ on_fat s s')) as Hu.
      { intros g m s3 Hg Ho Hm. eapply holds_bind; [apply (holds_modify _ _ (fun _ s' => on_fat s1 s'))|intros ? s4 O4; by apply Hm].
        intros Hs. cbn. rewrite Hg. by apply Ho. }
      apply Hu; [done|done|]. intros s3 O3. apply Hu; [intros fs; by case_match|done|]. intros s4 O4. apply Hu; [done|done|]. intros s5 O5.
      apply holds_ret. right. by eapply on_fat_tracks.
    + apply holds_ret. left. unfold no_cluster. cbn. destruct r; auto.
Qed.
End fat.
