(* ===== verification/Lfn.v ===== *)
(** * Long file names, short names and checksums

    [ld_clust], [st_clust], [cmp_lfn], [pick_lfn], [put_lfn], [gen_numname], [sum_sfn],
    [xdir_sum], [xname_sum] and [xsum32] of [src/ff/src/ff/ff.c].

    A directory entry is 32 bytes of a buffer from an offset [dir] on; the LFN working
    buffer is a list of 256 UTF-16 units.  The theorems: the LFN functions never index
    the working buffer outside its 256 units, whatever the entry; the entries written
    for a name are read back as the name, and match it. *)

From stdpp Require Import prelude list.
From Stdlib Require Import ZArith Lia.
From S2P Require Import Prelude Bytes Unicode FFTypes.

Local Open Scope Z_scope.
Local Open Scope cint_scope.

(** ** The code *)

Definition DIR_Name := 0.
Definition DIR_Attr := 11.
Definition DIR_NTres := 12.
Definition DIR_CrtTime := 14.
Definition DIR_FstClusHI := 20.
Definition DIR_ModTime := 22.
Definition DIR_FstClusLO := 26.
Definition DIR_FileSize := 28.
Definition LDIR_Ord := 0.
Definition LDIR_Attr := 11.
Definition LDIR_Type := 12.
Definition LDIR_Chksum := 13.
Definition LDIR_FstClusLO := 26.
Definition AM_LFN := 0x0F.
Definition LLEF := 0x40.
Definition XDIR_NumSec := 1.
Definition XDIR_SetSum := 2.

Definition LfnOfs : list Z := [1; 3; 5; 7; 9; 14; 16; 18; 20; 22; 24; 28; 30].

Definition ld_clust (fs : FATFS) (w : list Z) (dir : Z) : Z :=
  let cl := ld_word w (dir + DIR_FstClusLO) in
  if fs_type fs =? FS_FAT32
  then Z.lor cl (Z.shiftl (ld_word w (dir + DIR_FstClusHI)) 16) else cl.

Definition st_clust (fs : FATFS) (w : list Z) (dir cl : Z) : list Z :=
  let w := st_word w (dir + DIR_FstClusLO) (u16 cl) in
  if fs_type fs =? FS_FAT32
  then st_word w (dir + DIR_FstClusHI) (u16 (Z.shiftr cl 16)) else w.

(** The loop over the 13 characters of an entry: [None] if the function returns 0,
    otherwise [i] and [wc] when the loop ends. *)
Fixpoint cmp_lfn_loop (ofs : list Z) (lfnbuf w : list Z) (dir i wc : Z) : option (Z * Z) :=
  match ofs with
  | [] => Some (i, wc)
  | o :: ofs =>
      let uc := ld_word w (dir + o) in
      if negb (wc =? 0) then
        if (FF_MAX_LFN + 1 <=? i) || negb (ff_wtoupper uc =? ff_wtoupper lfnbuf.[i]) then None
        else cmp_lfn_loop ofs lfnbuf w dir (i +u32 1) uc
      else if negb (uc =? 0xFFFF) then None
      else cmp_lfn_loop ofs lfnbuf w dir i wc
  end.

Definition cmp_lfn (lfnbuf w : list Z) (dir : Z) : bool :=
  if negb (ld_word w (dir + LDIR_FstClusLO) =? 0) then false else
  let i := u32 ((Z.land w.[dir + LDIR_Ord] 0x3F - 1) * 13) in
  match cmp_lfn_loop LfnOfs lfnbuf w dir i 1 with
  | None => false
  | Some (i, wc) =>
      if negb (Z.land w.[dir + LDIR_Ord] LLEF =? 0) && negb (wc =? 0) && negb (lfnbuf.[i] =? 0)
      then false else true
  end.

(** Likewise; [inl] carries the buffer when the function returns 0. *)
Fixpoint pick_lfn_loop (ofs : list Z) (lfnbuf w : list Z) (dir i wc : Z)
  : list Z + (list Z * Z * Z) :=
  match ofs with
  | [] => inr (lfnbuf, i, wc)
  | o :: ofs =>
      let uc := ld_word w (dir + o) in
      if negb (wc =? 0) then
        if FF_MAX_LFN + 1 <=? i then inl lfnbuf
        else pick_lfn_loop ofs (setb lfnbuf i uc) w dir (i +u32 1) uc
      else if negb (uc =? 0xFFFF) then inl lfnbuf
      else pick_lfn_loop ofs lfnbuf w dir i wc
  end.

Definition pick_lfn (lfnbuf w : list Z) (dir : Z) : bool * list Z :=
  if negb (ld_word w (dir + LDIR_FstClusLO) =? 0) then (false, lfnbuf) else
  let i := u32 ((Z.land w.[dir + LDIR_Ord] (Z.lnot LLEF) - 1) * 13) in
  match pick_lfn_loop LfnOfs lfnbuf w dir i 1 with
  | inl lfnbuf => (false, lfnbuf)
  | inr (lfnbuf, i, wc) =>
      if negb (Z.land w.[dir + LDIR_Ord] LLEF =? 0) && negb (wc =? 0) then
        if FF_MAX_LFN + 1 <=? i then (false, lfnbuf) else (true, setb lfnbuf i 0)
      else (true, lfnbuf)
  end.

Fixpoint put_lfn_loop (ofs : list Z) (lfn w : list Z) (dir i wc : Z) : list Z * Z * Z :=
  match ofs with
  | [] => (w, i, wc)
  | o :: ofs =>
      let '(wc, i) := if negb (wc =? 0xFFFF) then (lfn.[i], i +u32 1) else (wc, i) in
      let w := st_word w (dir + o) wc in
      put_lfn_loop ofs lfn w dir i (if wc =? 0 then 0xFFFF else wc)
  end.

Definition put_lfn (lfn w : list Z) (dir ord sum : Z) : list Z :=
  let w := setb w (dir + LDIR_Chksum) sum in
  let w := setb w (dir + LDIR_Attr) AM_LFN in
  let w := setb w (dir + LDIR_Type) 0 in
  let w := st_word w (dir + LDIR_FstClusLO) 0 in
  let i := u32 ((ord - 1) * 13) in
  let '(w, i, wc) := put_lfn_loop LfnOfs lfn w dir i 0 in
  let ord := if (wc =? 0xFFFF) || (lfn.[i] =? 0) then u8 (Z.lor ord LLEF) else ord in
  setb w (dir + LDIR_Ord) ord.

(** The 16 bits of a character shifted into the CRC register. *)
Fixpoint crc_bits (n : nat) (sreg wc : Z) : Z :=
  match n with
  | O => sreg
  | S n =>
      let sreg := u32 (u32 (Z.shiftl sreg 1) + Z.land wc 1) in
      let wc := Z.shiftr wc 1 in
      crc_bits n (if negb (Z.land sreg 0x10000 =? 0) then Z.lxor sreg 0x11021 else sreg) wc
  end.

(** The loop over the characters of the name, up to its terminator. *)
Fixpoint crc_name (lfn : list Z) (sreg : Z) : Z :=
  match lfn with
  | [] => sreg
  | wc :: lfn => if wc =? 0 then sreg else crc_name lfn (crc_bits 16 sreg wc)
  end.

(** The suffix: hexadecimal digits written from [ns[7]] downwards. *)
Fixpoint num_digits (fuel : nat) (ns : list Z) (i seq : Z) : list Z * Z :=
  match fuel with
  | O => (ns, i)
  | S fuel =>
      let c := seq mod 16 + 48 in
      let seq := seq / 16 in
      let c := if 57 <? c then c + 7 else c in
      let ns := setb ns i c in
      let i := i - 1 in
      if negb (i =? 0) && negb (seq =? 0) then num_digits fuel ns i seq else (ns, i)
  end.

(** Where the suffix goes, without breaking up a double-byte character. *)
Fixpoint suffix_pos (fuel : nat) (dst : list Z) (i j : Z) : Z :=
  match fuel with
  | O => j
  | S fuel =>
      if (j <? i) && negb (dst.[j] =? 32) then
        if dbc_1st dst.[j] then
          if j =? i - 1 then j else suffix_pos fuel dst i (j + 2)
        else suffix_pos fuel dst i (j + 1)
      else j
  end.

(** [do ... while (j < 8)] *)
Fixpoint append_suffix (fuel : nat) (dst ns : list Z) (i j : Z) : list Z :=
  match fuel with
  | O => dst
  | S fuel =>
      let dst := setb dst j (if i <? 8 then ns.[i] else 32) in
      let i := if i <? 8 then i + 1 else i in
      let j := j + 1 in
      if j <? 8 then append_suffix fuel dst ns i j else dst
  end.

Definition gen_numname (dst src lfn : list Z) (seq : Z) : list Z :=
  let dst := overlay (take 11 src) dst in
  let seq := if 5 <? seq then crc_name lfn seq else seq in
  let '(ns, i) := num_digits 8 (replicate 8 0) 7 seq in
  let ns := setb ns i 126 in
  let j := suffix_pos 8 dst i 0 in
  append_suffix 8 dst ns i j.

Fixpoint sum_sfn_loop (n : nat) (w : list Z) (dir sum : Z) : Z :=
  match n with
  | O => sum
  | S n => sum_sfn_loop n w (dir + 1) (u8 (Z.shiftr sum 1 + Z.shiftl sum 7 + w.[dir]))
  end.

Definition sum_sfn (w : list Z) (dir : Z) : Z := sum_sfn_loop 11 w dir 0.

(** [((sum & 1) ? 0x8000 : 0) + (sum >> 1) + x] in a [WORD] *)
Definition ror_add (sum x : Z) : Z :=
  u16 ((if negb (Z.land sum 1 =? 0) then 0x8000 else 0) + Z.shiftr sum 1 + x).

Fixpoint xdir_sum_loop (fuel : nat) (dir : list Z) (szblk i sum : Z) : Z :=
  match fuel with
  | O => sum
  | S fuel =>
      if i <? szblk then
        if i =? XDIR_SetSum then xdir_sum_loop fuel dir szblk (i + 2) sum
        else xdir_sum_loop fuel dir szblk (i + 1) (ror_add sum dir.[i])
      else sum
  end.

Definition xdir_sum (dir : list Z) : Z :=
  let szblk := (dir.[XDIR_NumSec] + 1) * SZDIRE in
  xdir_sum_loop (Z.to_nat szblk) dir szblk 0 0.

Fixpoint xname_sum_loop (name : list Z) (sum : Z) : Z :=
  match name with
  | [] => sum
  | chr :: name =>
      if chr =? 0 then sum else
      let chr := u16 (ff_wtoupper chr) in
      xname_sum_loop name (ror_add (ror_add sum (Z.land chr 0xFF)) (Z.shiftr chr 8))
  end.

Definition xname_sum (name : list Z) : Z := xname_sum_loop name 0.

Definition xsum32 (dat sum : Z) : Z :=
  u32 ((if negb (Z.land sum 1 =? 0) then 0x80000000 else 0) + Z.shiftr sum 1 + dat).

(** ** Memory safety of the working buffer *)

(** The offset in the working buffer that an entry asks for. *)
Lemma lfn_offset o : 0 <= o < 0x100 ->
  let i := u32 ((o - 1) * 13) in i = 13 * (o - 1) \/ 0x10000 <= i.
Proof. intros Ho i. unfold i, u32. destruct (decide (o = 0)) as [->|]; [right; done|left; zlia]. Qed.

Lemma cmp_lfn_loop_ext ofs l1 l2 w dir i wc :
  (forall j, 0 <= j < 256 -> l1.[j] = l2.[j]) -> 0 <= i ->
  cmp_lfn_loop ofs l1 w dir i wc = cmp_lfn_loop ofs l2 w dir i wc.
Proof.
  intros He. revert i wc. induction ofs as [|o ofs IH]; intros i wc Hi; cbn [cmp_lfn_loop]; [done|].
  destruct (negb (wc =? 0)); [|by rewrite IH].
  destruct (Z.leb_spec (FF_MAX_LFN + 1) i) as [|Hlt]; [done|]. unfold FF_MAX_LFN in Hlt.
  rewrite He by lia. by rewrite IH by apply u32_range.
Qed.

(** How far the index has moved when all characters have been compared or stored. *)
Lemma cmp_lfn_loop_idx ofs l w dir i wc i' wc' :
  0 <= i -> cmp_lfn_loop ofs l w dir i wc = Some (i', wc') -> wc' <> 0 ->
  ofs <> [] -> i' = i + zlen ofs /\ i' <= 256.
Proof.
  revert i wc. induction ofs as [|o ofs IH]; intros i wc Hi; [done|]. cbn [cmp_lfn_loop].
  assert (forall wc, wc = 0 -> cmp_lfn_loop ofs l w dir i wc = Some (i', wc') -> wc' = 0) as Hz.
  { clear. intros wc ->. revert i. induction ofs as [|o ofs IH]; intros i; cbn [cmp_lfn_loop].
    - by intros [= <- <-].
    - cbn [Z.eqb negb]. destruct (negb (_ =? 0xFFFF)); [done|]. apply IH. }
  destruct (negb (wc =? 0)) eqn:Ewc.
  - destruct (Z.leb_spec (FF_MAX_LFN + 1) i) as [|Hlt]; [done|]. unfold FF_MAX_LFN in Hlt.
    cbn [orb]. destruct (ff_wtoupper _ =? _); cbn [negb]; [|done]. rewrite u32_small by (unfold is_u32; lia).
    intros Hl Hne _. destruct ofs as [|o' ofs].
    + cbn in Hl. injection Hl as <- _. unfold zlen. cbn. lia.
    + apply IH in Hl; [|lia|done|done]. unfold zlen in *. cbn [length] in *. lia.
  - destruct (negb (_ =? 0xFFFF)); [done|]. apply negb_false_iff, Z.eqb_eq in Ewc.
    intros Hl Hne _. exfalso. eauto.
Qed.

Lemma cmp_lfn_ext l1 l2 w dir :
  bytes w -> (forall j, 0 <= j < 256 -> l1.[j] = l2.[j]) -> cmp_lfn l1 w dir = cmp_lfn l2 w dir.
Proof.
  intros Hb He. unfold cmp_lfn. destruct (negb (_ =? 0)); [done|].
  pose proof (getb_bytes w (dir + LDIR_Ord) Hb) as Ho. set (o := Z.land _ 0x3F).
  assert (0 <= o < 64) as Hor.
  { unfold o. change 0x3F with (Z.ones 6). rewrite Z.land_ones by lia. apply Z.mod_pos_bound. lia. }
  pose proof (lfn_offset o ltac:(lia)) as Hoff. cbn zeta in Hoff.
  rewrite (cmp_lfn_loop_ext _ l1 l2) by (done || apply u32_range).
  destruct (cmp_lfn_loop _ _ _ _ _ _) as [[i wc]|] eqn:E; [|done].
  destruct (Z.eqb_spec wc 0) as [->|Hwc]; [by rewrite !andb_false_r|].
  apply cmp_lfn_loop_idx in E as [-> Hle]; [|apply u32_range|done|done].
  change (zlen LfnOfs) with 13 in *. rewrite He; [done|].
  destruct Hoff as [Hi|Hi]; rewrite ?Hi in Hle |- *; [|lia].
  pose proof (u32_range ((o - 1) * 13)) as Hu. unfold is_u32 in Hu. lia.
Qed.

(** Writes of [pick_lfn] stay below [i = 256]. *)
Lemma pick_lfn_loop_frame ofs l w dir i wc :
  0 <= i ->
  match pick_lfn_loop ofs l w dir i wc with
  | inl l' => length l' = length l /\ forall j, 256 <= j -> l'.[j] = l.[j]
  | inr (l', i', _) => length l' = length l /\ (forall j, 256 <= j -> l'.[j] = l.[j]) /\ 0 <= i'
  end.
Proof.
  revert l i wc. induction ofs as [|o ofs IH]; intros l i wc Hi; cbn [pick_lfn_loop]; [done|].
  destruct (negb (wc =? 0)); [|destruct (negb _); [done|by apply IH]].
  destruct (Z.leb_spec (FF_MAX_LFN + 1) i) as [|Hlt]; [done|]. unfold FF_MAX_LFN in Hlt.
  assert (forall j, 256 <= j -> (setb l i (ld_word w (dir + o))).[j] = l.[j]) as Hset
    by (intros; apply getb_setb_ne; lia).
  pose proof (IH (setb l i (ld_word w (dir + o))) (i +u32 1) (ld_word w (dir + o))
    ltac:(apply u32_range)) as H.
  rewrite length_setb in H. destruct (pick_lfn_loop _ _ _ _ _ _) as [l'|[[l' i'] wc']].
  - destruct H as [H1 H2]. split; [done|]. intros. by rewrite H2, Hset.
  - destruct H as (H1 & H2 & H3). split_and!; [done| |done]. intros. by rewrite H2, Hset.
Qed.

(** Whatever a directory entry holds, [cmp_lfn] reads only the 256
    units of the working buffer (its result does not depend on what follows them) and
    [pick_lfn] writes only there. *)
Theorem lfn_buffer_safe w dir :
  bytes w ->
  (forall l1 l2, (forall j, 0 <= j < 256 -> l1.[j] = l2.[j]) -> cmp_lfn l1 w dir = cmp_lfn l2 w dir) /\
  (forall l, length (pick_lfn l w dir).2 = length l /\
     forall j, 256 <= j -> (pick_lfn l w dir).2.[j] = l.[j]).
Proof.
  intros Hb. split; [intros; by apply cmp_lfn_ext|]. intros l. unfold pick_lfn.
  destruct (negb (_ =? 0)); [done|].
  pose proof (pick_lfn_loop_frame LfnOfs l w dir
    (u32 ((Z.land w.[dir + LDIR_Ord] (Z.lnot LLEF) - 1) * 13)) 1 ltac:(apply u32_range)) as Hf.
  destruct (pick_lfn_loop _ _ _ _ _ _) as [l'|[[l' i] wc]]; [done|]. destruct Hf as (H1 & H2 & H3).
  destruct (_ && _); [|done]. destruct (Z.leb_spec (FF_MAX_LFN + 1) i) as [|Hlt]; [done|].
  unfold FF_MAX_LFN in Hlt. cbn [snd]. rewrite length_setb. split; [done|]. intros j Hj.
  by rewrite getb_setb_ne by lia; apply H2.
Qed.

(** ** Names and their entries *)

(** The names the driver stores: at most 255 units, none of them the terminator or the
    filler. *)
Definition lfn_name (name : list Z) : Prop :=
  0 < zlen name <= 255 /\ Forall (fun c => 0 < c < 0xFFFF) name.

(** The working buffer holds the name and its terminator. *)
Definition lfn_holds (l name : list Z) : Prop :=
  zlen l = 256 /\ (forall k, 0 <= k < zlen name -> l.[k] = name.[k]) /\ l.[zlen name] = 0.

(** Character [k] of the entries of a name: the name, its terminator, the filler. *)
Definition lfn_char (name : list Z) (k : Z) : Z :=
  if k <? zlen name then name.[k] else if k =? zlen name then 0 else 0xFFFF.

(** The entry at [dir] holds the characters from [k0] on. *)
Definition entry_chars (name w : list Z) (dir k0 : Z) : Prop :=
  forall s, 0 <= s < 13 -> ld_word w (dir + LfnOfs.[s]) = lfn_char name (k0 + s).

Lemma lfn_name_range name k : lfn_name name -> 0 <= k < zlen name -> 0 < name.[k] < 0xFFFF.
Proof.
  intros [_ Hf] Hk. unfold zlen in Hk. rewrite Forall_lookup in Hf.
  destruct (lookup_lt_is_Some_2 name (Z.to_nat k)) as [v Hv]; [lia|].
  rewrite (getb_lookup _ _ v) by (done || lia). by eapply Hf.
Qed.

Lemma lfn_holds_char l name k :
  lfn_name name -> lfn_holds l name -> 0 <= k <= zlen name -> l.[k] = lfn_char name k.
Proof.
  intros Hn (_ & Hk & Hz) Hr. unfold lfn_char. destruct (Z.ltb_spec k (zlen name)); [apply Hk; lia|].
  assert (k = zlen name) as -> by lia. by rewrite Z.eqb_refl.
Qed.

(** The offsets of the characters of an entry. *)
Lemma LfnOfs_cases (s : nat) :
  (s < 13)%nat ->
  drop s LfnOfs = LfnOfs.[Z.of_nat s] :: drop (S s) LfnOfs /\
  0 < LfnOfs.[Z.of_nat s] <= 30 /\
  (LfnOfs.[Z.of_nat s] + 1 < 11 \/ 13 < LfnOfs.[Z.of_nat s] /\ LfnOfs.[Z.of_nat s] + 1 < 26
   \/ 27 < LfnOfs.[Z.of_nat s]) /\
  Forall (fun o => LfnOfs.[Z.of_nat s] + 1 < o) (drop (S s) LfnOfs).
Proof.
  intros Hs. do 13 (destruct s as [|s]; [split; [done|split; [done|split; [first [by left|by right; left|by right; right]|]]];
    repeat constructor; done|]). lia.
Qed.

Lemma ld_word_ext w w' p : w'.[p] = w.[p] -> w'.[p + 1] = w.[p + 1] -> ld_word w' p = ld_word w p.
Proof. unfold ld_word. by intros -> ->. Qed.

Lemma ld_st_word_out w p q v :
  0 <= p -> 0 <= q -> q < p \/ p + 1 < q -> (st_word w p v).[q] = w.[q].
Proof. intros. apply getb_st_bytes_out; [lia..|]. change (Z.of_nat 2) with 2. lia. Qed.

(** The state of the loop of [put_lfn] at character [k]. *)
Definition put_state (name : list Z) (k i wc : Z) : Prop :=
  k <= zlen name /\ i = k /\ wc <> 0xFFFF \/ zlen name < k /\ wc = 0xFFFF.

Lemma put_lfn_loop_spec name lfn dir k0 (m s : nat) w i wc :
  lfn_name name -> lfn_holds lfn name -> 0 <= dir -> dir + 32 <= zlen w -> bytes w -> 0 <= k0 ->
  (s + m = 13)%nat -> put_state name (k0 + Z.of_nat s) i wc ->
  let '(w', i', wc') := put_lfn_loop (drop s LfnOfs) lfn w dir i wc in
  length w' = length w /\ bytes w' /\
  (forall q, 0 <= q -> Forall (fun o => q <> dir + o /\ q <> dir + o + 1) (drop s LfnOfs) -> w'.[q] = w.[q]) /\
  (forall t : nat, (s <= t < 13)%nat -> ld_word w' (dir + LfnOfs.[Z.of_nat t]) = lfn_char name (k0 + Z.of_nat t)) /\
  put_state name (k0 + 13) i' wc'.
Proof.
  intros Hn Hh Hd. revert s w i wc. induction m as [|m IH]; intros s w i wc Hw Hb Hk0 Hs Hst.
  { assert (s = 13)%nat as -> by lia. cbn. split_and!; try done. intros t Ht. lia. }
  destruct (LfnOfs_cases s ltac:(lia)) as (Edrop & Ho & _ & Hlater). rewrite Edrop.
  cbn [put_lfn_loop]. set (o := LfnOfs.[Z.of_nat s]) in *. set (k := k0 + Z.of_nat s) in *.
  assert ((if negb (wc =? 0xFFFF) then (lfn.[i], i +u32 1) else (wc, i))
          = (lfn_char name k, if k <=? zlen name then k + 1 else i)) as ->.
  { pose proof (proj1 Hn) as Hlen. destruct Hst as [(Hle & -> & Hne)|[Hgt ->]].
    - rewrite (proj2 (Z.eqb_neq _ _)), (proj2 (Z.leb_le _ _)) by done. cbn [negb].
      rewrite (lfn_holds_char lfn name k Hn Hh) by (unfold k in *; lia).
      rewrite u32_small by (unfold is_u32, k in *; lia). done.
    - cbn. rewrite (proj2 (Z.leb_gt _ _)) by done. unfold lfn_char.
      by rewrite (proj2 (Z.ltb_ge _ _)), (proj2 (Z.eqb_neq _ _)) by lia. }
  set (wc1 := lfn_char name k). set (w1 := st_word w (dir + o) wc1).
  assert (is_u16 wc1) as Hwc1.
  { unfold wc1, lfn_char, is_u16. destruct (Z.ltb_spec k (zlen name)); [|destruct (k =? zlen name); lia].
    pose proof (lfn_name_range name k Hn ltac:(unfold k in *; lia)). lia. }
  specialize (IH (S s) w1 (if k <=? zlen name then k + 1 else i) (if wc1 =? 0 then 0xFFFF else wc1)).
  assert (zlen w1 = zlen w) as Hl1 by (unfold zlen, w1, st_word; by rewrite length_st_bytes).
  assert (put_state name (k0 + Z.of_nat (S s)) (if k <=? zlen name then k + 1 else i)
            (if wc1 =? 0 then 0xFFFF else wc1)) as Hst1.
  { replace (k0 + Z.of_nat (S s)) with (k + 1) by (unfold k; lia). unfold wc1, lfn_char, put_state.
    destruct (Z.ltb_spec k (zlen name)) as [Hk|Hk].
    - pose proof (lfn_name_range name k Hn ltac:(unfold k in *; lia)). left.
      rewrite (proj2 (Z.leb_le _ _)), (proj2 (Z.eqb_neq name.[k] 0)) by lia. lia.
    - right. split; [lia|]. by destruct (k =? zlen name). }
  specialize (IH ltac:(lia) (bytes_st_bytes _ _ _ _ Hb) Hk0 ltac:(lia) Hst1).
  destruct (put_lfn_loop _ _ _ _ _ _) as [[w' i'] wc']. destruct IH as (L & B & F & C & P).
  assert (forall q, 0 <= q -> q = dir + o \/ q = dir + o + 1 -> w'.[q] = w1.[q]) as Hown.
  { intros q Hq Hqo. apply F; [done|]. eapply Forall_impl; [exact Hlater|]. intros x Hx. cbn beta in Hx. lia. }
  unfold zlen in *. split_and!; [lia|done| | |done].
  - intros q Hq [Hqo Hf]%Forall_cons. rewrite F by done. apply ld_st_word_out; lia.
  - intros t Ht. destruct (decide (t = s)) as [->|]; [|apply C; lia]. fold o k wc1.
    rewrite (ld_word_ext w1) by (apply Hown; lia). unfold w1.
    rewrite ld_st_word by (done || unfold zlen; lia). by apply u16_small.
Qed.

(** The entry written for part [ord] of a name. *)
Record lfn_entry (name w : list Z) (dir ord sum : Z) : Prop := {
  le_chars : entry_chars name w dir (13 * (ord - 1));
  le_ord : w.[dir + LDIR_Ord] = if zlen name <=? 13 * ord then ord + LLEF else ord;
  le_attr : w.[dir + LDIR_Attr] = AM_LFN;
  le_type : w.[dir + LDIR_Type] = 0;
  le_sum : w.[dir + LDIR_Chksum] = sum;
  le_clus : ld_word w (dir + LDIR_FstClusLO) = 0
}.

Lemma lor_llef ord : 1 <= ord <= 20 -> u8 (Z.lor ord LLEF) = ord + LLEF.
Proof.
  intros Ho. rewrite Z.lor_comm. change LLEF with (Z.shiftl 1 6) at 1. unfold LLEF.
  rewrite shl_lor by lia. rewrite u8_small by (unfold is_u8; lia). lia.
Qed.

Lemma put_lfn_spec name lfn w dir ord sum :
  lfn_name name -> lfn_holds lfn name -> 0 <= dir -> dir + 32 <= zlen w -> bytes w ->
  1 <= ord <= 20 -> 13 * (ord - 1) <= zlen name -> is_u8 sum ->
  let w' := put_lfn lfn w dir ord sum in
  lfn_entry name w' dir ord sum /\ length w' = length w /\ bytes w' /\
  (forall q, 0 <= q -> q < dir \/ dir + 32 <= q -> w'.[q] = w.[q]).
Proof.
  intros Hn Hh Hd Hw Hb Ho Hk Hsum. cbn zeta. unfold put_lfn.
  set (w0 := st_word _ (dir + LDIR_FstClusLO) 0).
  assert (length w0 = length w /\ bytes w0) as [Hl0 Hb0].
  { unfold w0, st_word. rewrite length_st_bytes, !length_setb. split; [done|].
    apply bytes_st_bytes. repeat (apply bytes_setb; [|done]). done. }
  rewrite (u32_small ((ord - 1) * 13)) by (unfold is_u32; lia).
  replace ((ord - 1) * 13) with (13 * (ord - 1)) by lia. set (k0 := 13 * (ord - 1)) in *.
  pose proof (put_lfn_loop_spec name lfn dir k0 13 0 w0 k0 0 Hn Hh Hd) as Hloop.
  specialize (Hloop ltac:(unfold zlen in *; lia) Hb0 ltac:(lia) eq_refl ltac:(left; cbn; lia)).
  change (drop 0 LfnOfs) with LfnOfs in Hloop.
  destruct (put_lfn_loop LfnOfs lfn w0 dir k0 0) as [[w1 i] wc]. destruct Hloop as (L & B & F & C & P).
  assert (((wc =? 0xFFFF) || (lfn.[i] =? 0)) = (zlen name <=? 13 * ord)) as ->.
  { unfold put_state in P. replace (k0 + 13) with (13 * ord) in P by (unfold k0; lia).
    destruct P as [(Hle & -> & Hne)|[Hgt ->]].
    - rewrite (proj2 (Z.eqb_neq _ _)) by done. cbn [orb].
      rewrite (lfn_holds_char lfn name _ Hn Hh) by lia. unfold lfn_char.
      destruct (Z.ltb_spec (13 * ord) (zlen name)).
      + pose proof (lfn_name_range name (13 * ord) Hn ltac:(lia)).
        rewrite (proj2 (Z.eqb_neq _ _)), (proj2 (Z.leb_gt _ _)) by lia. done.
      + assert (13 * ord = zlen name) as -> by lia. by rewrite Z.eqb_refl, Z.leb_refl.
    - cbn. symmetry. apply Z.leb_le. lia. }
  rewrite lor_llef by done.
  assert (forall q, 0 <= q -> (q < dir + 1 \/ dir + 11 <= q <= dir + 13 \/ dir + 26 <= q <= dir + 27 \/ dir + 32 <= q) ->
    w1.[q] = w0.[q]) as F'.
  { intros q Hq Hr. apply F; [done|]. repeat (constructor; [lia|]). constructor. }
  set (ob := if zlen name <=? 13 * ord then ord + LLEF else ord).
  assert (forall q, 0 <= q -> q <> dir -> (setb w1 (dir + LDIR_Ord) ob).[q] = w1.[q]) as Hset.
  { intros q Hq Hne. apply getb_setb_ne; unfold LDIR_Ord; lia. }
  unfold zlen in *. split_and!.
  - split.
    + intros s Hs. rewrite <- (Z2Nat.id s) by lia. rewrite <- C by lia.
      destruct (LfnOfs_cases (Z.to_nat s) ltac:(lia)) as (_ & Hr & _).
      apply ld_word_ext; apply Hset; lia.
    + apply getb_setb_eq. unfold LDIR_Ord, zlen. lia.
    + rewrite Hset, F' by (unfold LDIR_Attr; lia). unfold w0, LDIR_Attr, LDIR_Type, LDIR_FstClusLO.
      rewrite ld_st_word_out, getb_setb_ne, getb_setb_eq by (unfold zlen; rewrite ?length_setb; lia). done.
    + rewrite Hset, F' by (unfold LDIR_Type; lia). unfold w0, LDIR_Attr, LDIR_Type, LDIR_FstClusLO.
      rewrite ld_st_word_out, getb_setb_eq by (unfold zlen; rewrite ?length_setb; lia). done.
    + rewrite Hset, F' by (unfold LDIR_Chksum; lia).
      unfold w0, LDIR_Attr, LDIR_Type, LDIR_FstClusLO, LDIR_Chksum.
      rewrite ld_st_word_out, !getb_setb_ne, getb_setb_eq by (unfold zlen; rewrite ?length_setb; lia). done.
    + unfold LDIR_FstClusLO. rewrite (ld_word_ext w0) by (rewrite Hset, F' by lia; done).
      unfold w0, LDIR_FstClusLO. rewrite ld_st_word; [done| |lia|unfold zlen; rewrite !length_setb; lia].
      repeat (apply bytes_setb; [|done]). done.
  - rewrite length_setb. lia.
  - apply bytes_setb; [done|]. unfold ob, is_u8, LLEF. destruct (_ <=? _); lia.
  - intros q Hq Hr. rewrite Hset, F' by lia. unfold w0, LDIR_Attr, LDIR_Type, LDIR_FstClusLO, LDIR_Chksum.
    rewrite ld_st_word_out, !getb_setb_ne by lia. done.
Qed.

(** ** Reading a name back *)

(** The state of the loops of [pick_lfn] and [cmp_lfn] at character [k]. *)
Definition scan_state (name : list Z) (k i wc : Z) : Prop :=
  k <= zlen name /\ i = k /\ wc <> 0 \/ zlen name < k /\ wc = 0.

Lemma scan_state_next name k i :
  lfn_name name -> 0 <= k -> k <= zlen name -> i = k ->
  scan_state name (k + 1) (i +u32 1) (lfn_char name k).
Proof.
  intros Hn Hk0 Hk ->. pose proof (proj1 Hn). rewrite u32_small by (unfold is_u32; lia).
  unfold scan_state, lfn_char. destruct (Z.ltb_spec k (zlen name)).
  - pose proof (lfn_name_range name k Hn ltac:(lia)). left. lia.
  - assert (k = zlen name) as -> by lia. rewrite Z.eqb_refl. right. lia.
Qed.

Lemma pick_lfn_loop_spec name w dir k0 (m s : nat) l i wc :
  lfn_name name -> entry_chars name w dir k0 -> zlen l = 256 -> 0 <= k0 ->
  (s + m = 13)%nat -> scan_state name (k0 + Z.of_nat s) i wc ->
  exists l' i' wc', pick_lfn_loop (drop s LfnOfs) l w dir i wc = inr (l', i', wc') /\
    zlen l' = 256 /\ scan_state name (k0 + 13) i' wc' /\
    (forall j, 0 <= j -> l'.[j] = if (k0 + Z.of_nat s <=? j) && (j <? k0 + 13) && (j <=? zlen name)
                                  then lfn_char name j else l.[j]).
Proof.
  intros Hn Hc. pose proof (proj1 Hn) as Hlen. revert s l i wc.
  induction m as [|m IH]; intros s l i wc Hl Hk0 Hs Hst.
  { assert (s = 13)%nat as -> by lia. exists l, i, wc. split_and!; [done..|]. intros j Hj.
    destruct (Z.leb_spec (k0 + Z.of_nat 13) j), (Z.ltb_spec j (k0 + 13)); try done. lia. }
  destruct (LfnOfs_cases s ltac:(lia)) as (-> & _). cbn [pick_lfn_loop].
  rewrite Hc by lia. set (k := k0 + Z.of_nat s) in *.
  destruct Hst as [(Hle & -> & Hne)|[Hgt ->]].
  - rewrite (proj2 (Z.eqb_neq _ _)) by done. cbn [negb]. unfold FF_MAX_LFN.
    rewrite (proj2 (Z.leb_gt _ _)) by lia.
    destruct (IH (S s) (setb l k (lfn_char name k)) (k +u32 1) (lfn_char name k))
      as (l' & i' & wc' & E & Hl' & Hst' & Hj').
    { unfold zlen in *. by rewrite length_setb. } { done. } { lia. }
    { replace (k0 + Z.of_nat (S s)) with (k + 1) by (unfold k; lia).
      apply scan_state_next; [done|unfold k; lia|done|done]. }
    exists l', i', wc'. split_and!; [done..|]. intros j Hj. rewrite Hj' by done.
    replace (k0 + Z.of_nat (S s)) with (k + 1) by (unfold k; lia).
    destruct (decide (j = k)) as [->|Hjk].
    + rewrite (proj2 (Z.leb_gt (k + 1) k)), (proj2 (Z.leb_le k k)), (proj2 (Z.ltb_lt k _)),
        (proj2 (Z.leb_le k _)) by (unfold k in *; lia). cbn [andb].
      apply getb_setb_eq. unfold k in *. lia.
    + rewrite getb_setb_ne by (unfold k in *; lia).
      destruct (Z.leb_spec (k + 1) j), (Z.leb_spec k j); try done; lia.
  - cbn [Z.eqb negb]. unfold lfn_char.
    rewrite (proj2 (Z.ltb_ge _ _)), (proj2 (Z.eqb_neq k _)) by lia. cbn [Z.eqb negb Pos.eqb].
    destruct (IH (S s) l i 0) as (l' & i' & wc' & E & Hl' & Hst' & Hj'); [done..|lia|right; lia|].
    exists l', i', wc'. split_and!; [done..|]. intros j Hj. rewrite Hj' by done.
    destruct (Z.leb_spec (k0 + Z.of_nat (S s)) j), (Z.leb_spec k j), (Z.leb_spec j (zlen name));
      rewrite ?andb_false_r; try done; lia.
Qed.

(** The order byte: the part number and the flag of the last part. *)
Lemma ord_mask (name : list Z) ord :
  1 <= ord <= 20 ->
  let o := if zlen name <=? 13 * ord then ord + LLEF else ord in
  Z.land o 0x3F = ord /\ Z.land o (Z.lnot LLEF) = ord /\
  negb (Z.land o LLEF =? 0) = (zlen name <=? 13 * ord).
Proof.
  intros Ho o. unfold o. clear o. destruct (zlen name <=? 13 * ord).
  all: assert (ord = 1 \/ ord = 2 \/ ord = 3 \/ ord = 4 \/ ord = 5 \/ ord = 6 \/ ord = 7 \/ ord = 8 \/
    ord = 9 \/ ord = 10 \/ ord = 11 \/ ord = 12 \/ ord = 13 \/ ord = 14 \/ ord = 15 \/ ord = 16 \/
    ord = 17 \/ ord = 18 \/ ord = 19 \/ ord = 20) as Hc by lia.
  all: repeat destruct Hc as [->|Hc]; [..|subst ord]; done.
Qed.

Lemma pick_lfn_spec name w dir ord sum l :
  lfn_name name -> lfn_entry name w dir ord sum -> zlen l = 256 ->
  1 <= ord <= 20 -> 13 * (ord - 1) <= zlen name ->
  exists l', pick_lfn l w dir = (true, l') /\ zlen l' = 256 /\
    forall j, 0 <= j -> l'.[j] =
      if (13 * (ord - 1) <=? j) && (j <=? zlen name) && ((j <? 13 * ord) || (j =? 13 * ord) && (j =? zlen name))
      then lfn_char name j else l.[j].
Proof.
  intros Hn [Hc Hord _ _ _ Hcl] Hl Ho Hk. pose proof (proj1 Hn) as Hlen. unfold pick_lfn.
  rewrite Hcl, Hord. cbn [Z.eqb negb]. destruct (ord_mask name ord Ho) as (_ & -> & ->).
  rewrite u32_small by (unfold is_u32; lia). replace ((ord - 1) * 13) with (13 * (ord - 1)) by lia.
  set (k0 := 13 * (ord - 1)) in *.
  destruct (pick_lfn_loop_spec name w dir k0 13 0 l k0 1 Hn Hc Hl ltac:(lia) eq_refl ltac:(left; cbn; lia))
    as (l' & i' & wc' & E & Hl' & Hst & Hj).
  change (drop 0 LfnOfs) with LfnOfs in E. rewrite E. change (Z.of_nat 0) with 0 in Hj.
  rewrite Z.add_0_r in Hj. replace (k0 + 13) with (13 * ord) in * by (unfold k0; lia).
  destruct Hst as [(Hle & -> & Hne)|[Hgt ->]].
  - rewrite (proj2 (Z.eqb_neq _ _)) by done. cbn [negb]. rewrite andb_true_r.
    destruct (Z.leb_spec (zlen name) (13 * ord)) as [Heq|Hgt].
    + assert (13 * ord = zlen name) as En by lia. unfold FF_MAX_LFN. rewrite (proj2 (Z.leb_gt _ _)) by lia.
      eexists. split_and!; [done|unfold zlen in *; by rewrite length_setb|]. intros j Hj0.
      destruct (decide (j = 13 * ord)) as [->|Hjo].
      * rewrite getb_setb_eq by lia. rewrite En. unfold lfn_char. rewrite Z.ltb_irrefl, Z.eqb_refl.
        by rewrite (proj2 (Z.leb_le k0 _)), Z.leb_refl by (unfold k0; lia).
      * rewrite getb_setb_ne, Hj by lia. rewrite (proj2 (Z.eqb_neq j (13 * ord))) by done.
        cbn [andb]. by rewrite orb_false_r, <- !andb_assoc, (andb_comm (_ <? _)).
    + eexists. split_and!; [done..|]. intros j Hj0. rewrite Hj by done.
      destruct (Z.eqb_spec j (13 * ord)) as [->|]; [rewrite (proj2 (Z.eqb_neq _ (zlen name))) by lia|];
        cbn [andb]; rewrite orb_false_r, <- !andb_assoc, (andb_comm (_ <? _)); done.
  - cbn [Z.eqb negb]. rewrite andb_false_r. eexists. split_and!; [done..|]. intros j Hj0. rewrite Hj by done.
    destruct (Z.eqb_spec j (13 * ord)) as [->|]; [rewrite (proj2 (Z.eqb_neq _ (zlen name))) by lia|];
      cbn [andb]; rewrite orb_false_r, <- !andb_assoc, (andb_comm (_ <? _)); done.
Qed.

(** Number of entries of a name: [(len + 12) / 13]. *)
Definition lfn_parts (name : list Z) : Z := (zlen name + 12) / 13.

Lemma lfn_parts_range name :
  lfn_name name -> 1 <= lfn_parts name <= 20 /\ 13 * (lfn_parts name - 1) < zlen name <= 13 * lfn_parts name.
Proof. intros [Hlen _]. unfold lfn_parts. zlia. Qed.

(** The parts [n] to 1 picked one after the other, as a directory scan meets them;
    [ent ord] is the buffer with part [ord] at [dir]. *)
Fixpoint pick_parts (ent : Z -> list Z) (dir : Z) (n : nat) (l : list Z) : bool * list Z :=
  match n with
  | O => (true, l)
  | S n' =>
      let '(ok, l) := pick_lfn l (ent (Z.of_nat n)) dir in
      if ok then pick_parts ent dir n' l else (false, l)
  end.

Lemma pick_parts_spec name ent dir sum (n : nat) l :
  lfn_name name -> Z.of_nat n <= lfn_parts name -> zlen l = 256 ->
  (forall ord, 1 <= ord <= lfn_parts name -> lfn_entry name (ent ord) dir ord sum) ->
  (Z.of_nat n = lfn_parts name \/ forall j, 13 * Z.of_nat n <= j <= zlen name -> l.[j] = lfn_char name j) ->
  exists l', pick_parts ent dir n l = (true, l') /\ zlen l' = 256 /\
    (forall j, 0 <= j <= zlen name -> l'.[j] = lfn_char name j).
Proof.
  intros Hn Hle Hl He. pose proof (lfn_parts_range name Hn) as [Hp Hpl]. revert l Hl Hle.
  induction n as [|n IH]; intros l Hl Hle Hinv.
  { exists l. destruct Hinv as [?|Hinv]; [lia|]. split_and!; auto. }
  cbn [pick_parts]. set (ord := Z.of_nat (S n)) in *.
  destruct (pick_lfn_spec name (ent ord) dir ord sum l Hn) as (l1 & E & Hl1 & Hj);
    [apply He; unfold ord; lia|done|unfold ord; lia|unfold ord in *; lia|].
  rewrite E. assert (forall j, 13 * Z.of_nat n <= j <= zlen name -> l1.[j] = lfn_char name j) as Hset.
  { intros j Hjr. rewrite Hj by lia. rewrite (proj2 (Z.leb_le (13 * (ord - 1)) j)) by (unfold ord; lia).
    rewrite (proj2 (Z.leb_le j _)) by lia. cbn [andb].
    destruct (Z.ltb_spec j (13 * ord)) as [|Hge]; [done|]. cbn [orb].
    destruct Hinv as [Heq|Hinv].
    - assert (j = zlen name /\ j = 13 * ord) as [H1 H2] by (unfold ord in *; lia).
      by rewrite (proj2 (Z.eqb_eq _ _) H1), (proj2 (Z.eqb_eq _ _) H2).
    - destruct (_ && _); [done|]. apply Hinv. lia. }
  destruct (IH l1 Hl1 ltac:(unfold ord in *; lia) (or_intror Hset)) as (l' & -> & Hl' & Hr).
  by exists l'.
Qed.

(** A name of 1 to 255 characters put into directory entries with
    [put_lfn], part by part, and picked from them with [pick_lfn] in the order in which
    a directory scan meets them, is the name again with its terminator, whatever the
    entries and the working buffer held before; also when the length is a multiple of
    13 and no entry holds a terminator. *)
Theorem lfn_roundtrip name lfn w dir sum l :
  lfn_name name -> lfn_holds lfn name -> 0 <= dir -> dir + 32 <= zlen w -> bytes w -> is_u8 sum ->
  zlen l = 256 ->
  exists l', pick_parts (fun ord => put_lfn lfn w dir ord sum) dir (Z.to_nat (lfn_parts name)) l = (true, l')
    /\ lfn_holds l' name.
Proof.
  intros Hn Hh Hd Hw Hb Hs Hl. pose proof (lfn_parts_range name Hn) as [Hp Hpl].
  destruct (pick_parts_spec name (fun ord => put_lfn lfn w dir ord sum) dir sum
    (Z.to_nat (lfn_parts name)) l Hn) as (l' & E & Hl' & Hj); [lia|done| |left; lia|].
  - intros ord Ho. apply (put_lfn_spec name lfn w dir ord sum); try done; lia.
  - exists l'. split; [done|]. pose proof (proj1 Hn). split_and!; [done| |].
    + intros k Hk. rewrite Hj by lia. unfold lfn_char. by rewrite (proj2 (Z.ltb_lt _ _)) by lia.
    + rewrite Hj by lia. unfold lfn_char. by rewrite Z.ltb_irrefl, Z.eqb_refl.
Qed.

(** ** Comparing a name with its entries *)

Lemma cmp_lfn_loop_spec name w dir k0 (m s : nat) l i wc :
  lfn_name name -> entry_chars name w dir k0 -> 0 <= k0 ->
  (s + m = 13)%nat -> scan_state name (k0 + Z.of_nat s) i wc ->
  match cmp_lfn_loop (drop s LfnOfs) l w dir i wc with
  | None => exists j, k0 + Z.of_nat s <= j < k0 + 13 /\ j <= zlen name /\
              ff_wtoupper (lfn_char name j) <> ff_wtoupper l.[j]
  | Some (i', wc') => scan_state name (k0 + 13) i' wc' /\
      forall j, k0 + Z.of_nat s <= j < k0 + 13 -> j <= zlen name ->
        ff_wtoupper (lfn_char name j) = ff_wtoupper l.[j]
  end.
Proof.
  intros Hn Hc. pose proof (proj1 Hn) as Hlen. revert s i wc.
  induction m as [|m IH]; intros s i wc Hk0 Hs Hst.
  { assert (s = 13)%nat as -> by lia. cbn. split; [done|]. lia. }
  destruct (LfnOfs_cases s ltac:(lia)) as (-> & _). cbn [cmp_lfn_loop].
  rewrite Hc by lia. set (k := k0 + Z.of_nat s) in *.
  assert (k0 + Z.of_nat (S s) = k + 1) as Ek by (unfold k; lia).
  destruct Hst as [(Hle & -> & Hne)|[Hgt ->]].
  - rewrite (proj2 (Z.eqb_neq _ _)) by done. cbn [negb]. unfold FF_MAX_LFN.
    rewrite (proj2 (Z.leb_gt _ _)) by lia. cbn [orb].
    destruct (Z.eqb_spec (ff_wtoupper (lfn_char name k)) (ff_wtoupper l.[k])) as [E|E]; cbn [negb].
    + specialize (IH (S s) (k +u32 1) (lfn_char name k) Hk0 ltac:(lia)). rewrite Ek in IH.
      specialize (IH ltac:(apply scan_state_next; [done|unfold k; lia|done|done])).
      destruct (cmp_lfn_loop _ _ _ _ _ _) as [[i' wc']|].
      * destruct IH as [Hst' Hall]. split; [done|]. intros j Hj Hjl.
        destruct (decide (j = k)) as [->|]; [done|]. apply Hall; lia.
      * destruct IH as (j & Hj & Hjl & Hd). exists j. split_and!; [lia..|done].
    + exists k. split_and!; [unfold k in *; lia..|done].
  - cbn [Z.eqb negb]. unfold lfn_char at 1.
    rewrite (proj2 (Z.ltb_ge _ _)), (proj2 (Z.eqb_neq k _)) by lia. cbn [Z.eqb negb Pos.eqb].
    specialize (IH (S s) i 0 Hk0 ltac:(lia) ltac:(right; lia)). rewrite Ek in IH.
    destruct (cmp_lfn_loop _ _ _ _ _ _) as [[i' wc']|].
    + destruct IH as [Hst' Hall]. split; [done|]. intros j Hj Hjl. apply Hall; lia.
    + destruct IH as (j & Hj & Hjl & Hd). exists j. split_and!; [lia..|done].
Qed.

Lemma cmp_lfn_spec name w dir ord sum l :
  lfn_name name -> lfn_entry name w dir ord sum -> 1 <= ord <= 20 -> 13 * (ord - 1) <= zlen name ->
  cmp_lfn l w dir = true <->
  (forall j, 13 * (ord - 1) <= j < 13 * ord -> j <= zlen name ->
     ff_wtoupper (lfn_char name j) = ff_wtoupper l.[j]) /\
  (zlen name = 13 * ord -> l.[zlen name] = 0).
Proof.
  intros Hn [Hc Hord _ _ _ Hcl] Ho Hk. pose proof (proj1 Hn) as Hlen. unfold cmp_lfn.
  rewrite Hcl, Hord. cbn [Z.eqb negb]. destruct (ord_mask name ord Ho) as (-> & _ & ->).
  rewrite u32_small by (unfold is_u32; lia). replace ((ord - 1) * 13) with (13 * (ord - 1)) by lia.
  set (k0 := 13 * (ord - 1)) in *.
  pose proof (cmp_lfn_loop_spec name w dir k0 13 0 l k0 1 Hn Hc ltac:(lia) eq_refl ltac:(left; cbn; lia)) as Hl.
  change (drop 0 LfnOfs) with LfnOfs in Hl. change (Z.of_nat 0) with 0 in Hl. rewrite Z.add_0_r in Hl.
  replace (k0 + 13) with (13 * ord) in Hl by (unfold k0; lia).
  destruct (cmp_lfn_loop _ _ _ _ _ _) as [[i wc]|].
  2:{ destruct Hl as (j & Hj & Hjl & Hd). split; [done|]. intros [Hall _]. by destruct (Hd (Hall j Hj Hjl)). }
  destruct Hl as [Hst Hall]. destruct Hst as [(Hle & -> & Hne)|[Hgt ->]].
  - rewrite (proj2 (Z.eqb_neq _ _)) by done. cbn [negb]. rewrite andb_true_r.
    destruct (Z.leb_spec (zlen name) (13 * ord)).
    + assert (13 * ord = zlen name) as -> by lia. cbn [andb].
      destruct (Z.eqb_spec l.[zlen name] 0); cbn; [|by split; [done|intros [_ ?]; auto]].
      split; [|done]. intros _. split; [|done]. intros j Hj Hjl. apply Hall; lia.
    + cbn [andb]. split; [|done]. intros _. split; [done|lia].
  - cbn [Z.eqb negb]. rewrite andb_false_r. cbn [andb]. split; [|done]. intros _. split; [done|lia].
Qed.

Lemma upper_zero c : 0 <= c -> ff_wtoupper c = 0 -> c = 0.
Proof.
  intros Hc. destruct (decide (c < 0x10000)).
  - destruct (wtoupper_cases c) as [_ [->|[? _]]]; lia.
  - unfold ff_wtoupper. rewrite (proj2 (Z.ltb_ge _ _)) by lia. done.
Qed.

(** Equality up to case, character by character. *)
Lemma upper_chars name name2 l :
  lfn_name name -> lfn_name name2 -> lfn_holds l name2 ->
  (forall j, 0 <= j <= zlen name -> ff_wtoupper (lfn_char name j) = ff_wtoupper l.[j])
  <-> ff_wtoupper <$> name = ff_wtoupper <$> name2.
Proof.
  intros Hn Hn2 Hh2. pose proof (proj1 Hn) as Hl1. pose proof (proj1 Hn2) as Hl2.
  assert (forall (n : list Z) j, 0 <= j < zlen n -> (ff_wtoupper <$> n) !! Z.to_nat j = Some (ff_wtoupper n.[j])) as Hget.
  { intros n j Hj. unfold zlen in Hj. rewrite list_lookup_fmap.
    destruct (lookup_lt_is_Some_2 n (Z.to_nat j)) as [v Hv]; [lia|].
    rewrite Hv. by rewrite (getb_lookup _ _ v) by (done || lia). }
  split.
  - intros Hall. assert (zlen name = zlen name2) as Heq.
    { destruct (Z.lt_trichotomy (zlen name) (zlen name2)) as [Hlt|[|Hlt]]; [|done|]; exfalso.
      - specialize (Hall (zlen name) ltac:(lia)). rewrite (proj1 (proj2 Hh2)) in Hall by lia.
        unfold lfn_char in Hall. rewrite Z.ltb_irrefl, Z.eqb_refl in Hall.
        pose proof (lfn_name_range name2 (zlen name) Hn2 ltac:(lia)).
        assert (name2.[zlen name] = 0) by (apply upper_zero; [lia|]; rewrite <- Hall; reflexivity). lia.
      - specialize (Hall (zlen name2) ltac:(lia)). rewrite (proj2 (proj2 Hh2)) in Hall.
        unfold lfn_char in Hall. rewrite (proj2 (Z.ltb_lt _ _)) in Hall by lia.
        pose proof (lfn_name_range name (zlen name2) Hn ltac:(lia)).
        assert (name.[zlen name2] = 0) by (apply upper_zero; [lia|]; rewrite Hall; reflexivity). lia. }
    apply list_eq. intros i. destruct (decide (Z.of_nat i < zlen name)) as [Hi|Hi].
    + pose proof (Hget name (Z.of_nat i) ltac:(lia)) as E1. pose proof (Hget name2 (Z.of_nat i) ltac:(lia)) as E2.
      rewrite Nat2Z.id in E1, E2. rewrite E1, E2. f_equal.
      specialize (Hall (Z.of_nat i) ltac:(lia)). rewrite (proj1 (proj2 Hh2)) in Hall by lia.
      unfold lfn_char in Hall. by rewrite (proj2 (Z.ltb_lt _ _)) in Hall by lia.
    + unfold zlen in *. by rewrite !lookup_ge_None_2 by (rewrite length_fmap; lia).
  - intros Heq j Hj. assert (zlen name = zlen name2) as Hlen.
    { apply (f_equal length) in Heq. rewrite !length_fmap in Heq. unfold zlen. lia. }
    rewrite (lfn_holds_char l name2) by (done || lia). unfold lfn_char. rewrite Hlen.
    destruct (Z.ltb_spec j (zlen name2)); [|done].
    pose proof (Hget name j ltac:(lia)) as E1. pose proof (Hget name2 j ltac:(lia)) as E2.
    rewrite Heq, E2 in E1. by injection E1.
Qed.

(** The entries of a name, however they are laid out, match a name in the buffer exactly
    when the two are equal up to case. *)
Lemma cmp_parts_iff name name2 (ent : Z -> list Z) l dir sum :
  lfn_name name -> lfn_name name2 -> lfn_holds l name2 ->
  (forall ord, 1 <= ord <= lfn_parts name -> lfn_entry name (ent ord) dir ord sum) ->
  (forall ord, 1 <= ord <= lfn_parts name -> cmp_lfn l (ent ord) dir = true)
  <-> ff_wtoupper <$> name = ff_wtoupper <$> name2.
Proof.
  intros Hn Hn2 Hh2 He. pose proof (lfn_parts_range name Hn) as [Hp Hpl].
  rewrite <- (upper_chars name name2 l Hn Hn2 Hh2). pose proof (proj1 Hn) as Hl1. split.
  - intros Hcmp j Hj. set (ord := if j <? 13 * lfn_parts name then j / 13 + 1 else lfn_parts name).
    assert (1 <= ord <= lfn_parts name /\ 13 * (ord - 1) <= j /\
            (j < 13 * ord \/ j = zlen name /\ j = 13 * ord)) as (Ho & Hlo & Hhi).
    { unfold ord. destruct (Z.ltb_spec j (13 * lfn_parts name)); zlia. }
    pose proof (Hcmp ord Ho) as Hc. apply (cmp_lfn_spec name _ dir ord sum l Hn (He ord Ho)) in Hc as [Hc1 Hc2]; [|lia..].
    destruct Hhi as [Hlt|[-> Heq]]; [apply Hc1; lia|]. rewrite (Hc2 ltac:(lia)).
    unfold lfn_char. by rewrite Z.ltb_irrefl, Z.eqb_refl.
  - intros Hall ord Ho. apply (cmp_lfn_spec name _ dir ord sum l Hn (He ord Ho)); [lia..|].
    split; [intros; apply Hall; lia|]. intros _.
    apply (upper_chars name name2 l Hn Hn2 Hh2), (f_equal length) in Hall. rewrite !length_fmap in Hall.
    replace (zlen name) with (zlen name2) by (unfold zlen; lia). apply Hh2.
Qed.

(** The entries of a name all match the working buffer exactly when the
    name in the buffer is the same up to the case of its letters: neither a shorter
    nor a longer name matches. *)
Theorem cmp_lfn_iff name name2 lfn l w dir sum :
  lfn_name name -> lfn_name name2 -> lfn_holds lfn name -> lfn_holds l name2 ->
  0 <= dir -> dir + 32 <= zlen w -> bytes w -> is_u8 sum ->
  (forall ord, 1 <= ord <= lfn_parts name -> cmp_lfn l (put_lfn lfn w dir ord sum) dir = true)
  <-> ff_wtoupper <$> name = ff_wtoupper <$> name2.
Proof.
  intros Hn Hn2 Hh Hh2 Hd Hw Hb Hs. pose proof (lfn_parts_range name Hn) as [Hp Hpl].
  apply (cmp_parts_iff _ _ (fun ord => put_lfn lfn w dir ord sum) _ _ sum); try done.
  intros ord Ho. apply (put_lfn_spec name lfn w dir ord sum); try done; lia.
Qed.

(** ** Start clusters, checksums and numbered names *)

(** The start cluster stored in a directory entry is read back, all 32
    bits of it on FAT32 and its low 16 bits on FAT12 and FAT16, and no other byte of
    the buffer changes than those of the two cluster fields. *)
Theorem clust_roundtrip fs w dir cl :
  bytes w -> 0 <= dir -> dir + 32 <= zlen w ->
  ld_clust fs (st_clust fs w dir cl) dir = (if fs_type fs =? FS_FAT32 then u32 cl else u16 cl) /\
  (forall q, 0 <= q -> ~ (dir + 20 <= q < dir + 22) -> ~ (dir + 26 <= q < dir + 28) ->
     (st_clust fs w dir cl).[q] = w.[q]).
Proof.
  intros Hb Hd Hl. unfold ld_clust, st_clust, DIR_FstClusLO, DIR_FstClusHI.
  destruct (fs_type fs =? FS_FAT32); split.
  - set (w1 := st_word w (dir + 26) (u16 cl)).
    assert (bytes w1 /\ zlen w1 = zlen w) as [Hb1 Hl1].
    { unfold w1, st_word, zlen. rewrite length_st_bytes. split; [by apply bytes_st_bytes|done]. }
    rewrite (ld_st_word w1 (dir + 20)) by (done || lia).
    rewrite (ld_word_ext w1) by (apply ld_st_word_out; lia).
    unfold w1. rewrite ld_st_word by (done || lia).
    rewrite Z.lor_comm, shl_lor; [|lia|apply u16_range].
    rewrite Z.shiftr_div_pow2 by lia. unfold u16. zlia.
  - intros q Hq Hq1 Hq2. by rewrite !ld_st_word_out by lia.
  - rewrite ld_st_word by (done || lia). apply Z.mod_mod. lia.
  - intros q Hq Hq1 Hq2. by rewrite !ld_st_word_out by lia.
Qed.

Lemma xdir_sum_loop_ext fuel d d' szblk i sum :
  0 <= i -> (forall j, 0 <= j -> j < 2 \/ 4 <= j -> d'.[j] = d.[j]) -> i <> 3 ->
  xdir_sum_loop fuel d' szblk i sum = xdir_sum_loop fuel d szblk i sum.
Proof.
  intros Hi He. revert i sum Hi. induction fuel as [|fuel IH]; intros i sum Hi H3; cbn [xdir_sum_loop]; [done|].
  destruct (i <? szblk); [|done]. unfold XDIR_SetSum. destruct (Z.eqb_spec i 2) as [->|].
  - apply IH; lia.
  - rewrite He by lia. apply IH; lia.
Qed.

(** The checksum of an exFAT entry set does not depend on the two
    bytes it is stored in, so that a set in which the computed sum has been stored
    verifies; it is a 16-bit value. *)
Theorem xdir_sum_skips_field dirb v :
  bytes dirb -> 4 <= zlen dirb ->
  xdir_sum (st_word dirb XDIR_SetSum v) = xdir_sum dirb /\
  ld_word (st_word dirb XDIR_SetSum (xdir_sum dirb)) XDIR_SetSum = u16 (xdir_sum dirb) /\
  xdir_sum (st_word dirb XDIR_SetSum (xdir_sum dirb))
    = ld_word (st_word dirb XDIR_SetSum (xdir_sum dirb)) XDIR_SetSum.
Proof.
  intros Hb Hl.
  assert (forall v, xdir_sum (st_word dirb XDIR_SetSum v) = xdir_sum dirb) as Hs.
  { intros x. unfold xdir_sum, XDIR_SetSum, XDIR_NumSec.
    rewrite (ld_st_word_out _ 2 1) by lia. apply xdir_sum_loop_ext; [lia| |lia].
    intros j Hj Hr. apply ld_st_word_out; lia. }
  assert (is_u16 (xdir_sum dirb)) as Hu.
  { unfold xdir_sum. generalize (Z.to_nat ((dirb.[XDIR_NumSec] + 1) * SZDIRE)) as n.
    intros n. generalize 0 at 1 as i. assert (is_u16 0) as H0 by done. revert H0. generalize 0 as sum.
    induction n as [|n IH]; intros sum H0 i; cbn [xdir_sum_loop]; [done|].
    destruct (_ <? _); [|done]. destruct (_ =? _); apply IH; [done|apply u16_range]. }
  unfold XDIR_SetSum in *. rewrite Hs, ld_st_word by (done || lia). rewrite u16_small by done. auto.
Qed.

Lemma num_digits_spec fuel ns i seq :
  1 <= i <= 7 -> i <= Z.of_nat fuel -> zlen ns = 8 ->
  let '(ns', i') := num_digits fuel ns i seq in zlen ns' = 8 /\ 0 <= i' < i.
Proof.
  revert ns i seq. induction fuel as [|fuel IH]; intros ns i seq Hi Hf Hl; [lia|]. cbn [num_digits].
  set (ns1 := setb ns i _). assert (zlen ns1 = 8) as Hl1 by (unfold ns1, zlen in *; by rewrite length_setb).
  destruct (negb (i - 1 =? 0) && _) eqn:E; [|split; [done|lia]].
  apply andb_true_iff in E as [E _]. bprop.
  specialize (IH ns1 (i - 1) (seq / 16) ltac:(lia) ltac:(lia) Hl1).
  destruct (num_digits _ _ _ _). lia.
Qed.

Lemma suffix_pos_spec fuel dst i j : 0 <= j <= i -> j <= suffix_pos fuel dst i j <= i.
Proof.
  revert j. induction fuel as [|fuel IH]; intros j Hj; cbn [suffix_pos]; [lia|].
  destruct (Z.ltb_spec j i); cbn [andb]; [|lia]. destruct (negb _); [|lia].
  destruct (dbc_1st _); [destruct (Z.eqb_spec j (i - 1)); [lia|]|].
  - pose proof (IH (j + 2)). lia.
  - pose proof (IH (j + 1)). lia.
Qed.

Lemma append_suffix_spec fuel dst ns i j :
  0 <= j < 8 -> 8 - j <= Z.of_nat fuel -> 8 <= zlen dst -> 0 <= i <= 8 ->
  let d := append_suffix fuel dst ns i j in
  length d = length dst /\
  (forall k, 0 <= k -> k < j \/ 8 <= k -> d.[k] = dst.[k]) /\
  (forall k, j <= k < 8 -> d.[k] = if i + (k - j) <? 8 then ns.[i + (k - j)] else 32).
Proof.
  revert dst i j. induction fuel as [|fuel IH]; intros dst i j Hj Hf Hl Hi; [lia|]. cbn [append_suffix].
  set (c := if i <? 8 then ns.[i] else 32). set (i1 := if i <? 8 then i + 1 else i).
  assert (i1 = Z.min 8 (i + 1)) as Ei1 by (unfold i1; destruct (Z.ltb_spec i 8); lia).
  destruct (Z.ltb_spec (j + 1) 8) as [Hlt|Hge].
  - destruct (IH (setb dst j c) i1 (j + 1)) as (L & F & S); [lia|lia|unfold zlen in *; rewrite length_setb; lia|lia|].
    rewrite length_setb in L. split_and!; [done| |].
    + intros k Hk Hr. rewrite F by lia. apply getb_setb_ne; lia.
    + intros k Hk. destruct (decide (k = j)) as [->|].
      * rewrite F, getb_setb_eq, Z.sub_diag, Z.add_0_r by lia. done.
      * rewrite S by lia. destruct (decide (i < 8)).
        -- replace (i1 + (k - (j + 1))) with (i + (k - j)) by lia. done.
        -- rewrite !(proj2 (Z.ltb_ge _ _)) by lia. done.
  - cbn zeta. rewrite length_setb. split_and!; [done| |].
    + intros k Hk Hr. apply getb_setb_ne; lia.
    + intros k Hk. assert (k = j) as -> by lia. rewrite getb_setb_eq, Z.sub_diag, Z.add_0_r by lia. done.
Qed.

(** A numbered short name keeps the extension and a prefix of the body
    of the original, followed by a tilde within the eight characters of the body; the
    bytes after the eleven of the name are not touched; and the names numbered 1 to 5,
    tried before the hashed ones, are all different. *)
Theorem gen_numname_shape dst src lfn seq :
  11 <= zlen src -> 11 <= zlen dst ->
  let d := gen_numname dst src lfn seq in
  (zlen d = zlen dst /\
   (forall k, 8 <= k < 11 -> d.[k] = src.[k]) /\ (forall k, 11 <= k -> d.[k] = dst.[k]) /\
   exists j, 0 <= j <= 6 /\ d.[j] = 126 /\ forall k, 0 <= k < j -> d.[k] = src.[k]) /\
  (forall seq', 1 <= seq <= 5 -> 1 <= seq' <= 5 -> gen_numname dst src lfn seq' = d -> seq' = seq).
Proof.
  intros Hs Hd.
  assert (length (take 11 src) = 11%nat) as Hl11 by (rewrite length_take; unfold zlen in Hs; lia).
  set (dst0 := overlay (take 11 src) dst).
  assert (zlen dst0 = zlen dst) as Hl0.
  { unfold zlen, dst0 in *. rewrite length_overlay; lia. }
  assert (forall k, 0 <= k < 11 -> dst0.[k] = src.[k]) as Hsrc.
  { intros k Hk. unfold dst0, overlay, getb. rewrite app_nth1 by lia.
    rewrite !nth_lookup, lookup_take_lt by lia. done. }
  assert (forall k, 11 <= k -> dst0.[k] = dst.[k]) as Hdst.
  { intros k Hk. unfold dst0, overlay, getb. rewrite app_nth2 by lia. rewrite Hl11, !nth_lookup, lookup_drop.
    do 2 f_equal. lia. }
  assert (forall seq, exists i j (ns : list Z), 0 <= i <= 6 /\ 0 <= j <= i /\ ns.[i] = 126 /\
    (1 <= seq <= 5 -> i = 6 /\ j = suffix_pos 8 dst0 6 0 /\ ns.[7] = seq + 48) /\
    gen_numname dst src lfn seq = append_suffix 8 dst0 ns i j) as Hgen.
  { intros q. unfold gen_numname. fold dst0. set (q' := if 5 <? q then crc_name lfn q else q).
    pose proof (num_digits_spec 8 (replicate 8 0) 7 q' ltac:(lia) ltac:(lia) eq_refl) as Hnd.
    destruct (num_digits 8 (replicate 8 0) 7 q') as [ns i] eqn:En. destruct Hnd as [Hns Hi].
    exists i, (suffix_pos 8 dst0 i 0), (setb ns i 126).
    pose proof (suffix_pos_spec 8 dst0 i 0 ltac:(lia)). split_and!; try done; try lia.
    - apply getb_setb_eq. lia.
    - intros Hq. unfold q' in En. rewrite (proj2 (Z.ltb_ge _ _)) in En by lia.
      assert (q = 1 \/ q = 2 \/ q = 3 \/ q = 4 \/ q = 5) as Hc by lia.
      repeat destruct Hc as [->|Hc]; [..|subst q]; vm_compute in En; injection En as <- <-; done. }
  destruct (Hgen seq) as (i & j & ns & Hi & Hj & Htil & Hq & E). rewrite E.
  destruct (append_suffix_spec 8 dst0 ns i j) as (L & F & S); [lia..|]. cbn zeta. split.
  - split_and!.
    + unfold zlen in *. lia.
    + intros k Hk. rewrite F, Hsrc by lia. done.
    + intros k Hk. rewrite F, Hdst by lia. done.
    + exists j. split_and!; [lia..| |].
      * rewrite S by lia. rewrite Z.sub_diag, Z.add_0_r, (proj2 (Z.ltb_lt _ _)) by lia. done.
      * intros k Hk. rewrite F, Hsrc by lia. done.
  - intros seq' Hr Hr' Heq. destruct (Hgen seq') as (i' & j' & ns' & Hi' & Hj' & _ & Hq' & E').
    destruct (Hq Hr) as (-> & -> & H7). destruct (Hq' Hr') as (-> & -> & H7'). rewrite E' in Heq.
    destruct (append_suffix_spec 8 dst0 ns' 6 (suffix_pos 8 dst0 6 0)) as (_ & _ & S'); [lia..|].
    set (p := suffix_pos 8 dst0 6 0) in *. specialize (S (p + 1) ltac:(lia)). specialize (S' (p + 1) ltac:(lia)).
    rewrite Heq in S'. rewrite S in S'. replace (6 + (p + 1 - p)) with 7 in S' by lia. cbn in S'. lia.
Qed.
