(* ===== verification/Dir.v ===== *)
(** * Directory tables

    [dir_clear], [dir_sdi], [dir_next] and [dir_alloc] of [src/ff/src/ff/ff.c]: a
    directory is a table of 32-byte entries in a cluster chain, or in the fixed root
    area of FAT12 and FAT16.

    The theorems hold for any content of the medium: wherever a directory object
    points after [dir_sdi] or [dir_next], the sector lies in the data area or the root
    area of the volume; stepping with [dir_next] and seeking with [dir_sdi] agree. *)

From stdpp Require Import prelude list.
From Stdlib Require Import ZArith Lia.
From S2P Require Import Prelude Bytes Diskio FFTypes Window Fat Bitmap Chain.

Local Open Scope Z_scope.
Local Open Scope cint_scope.

(** ** The directory object *)

Record DIR := mkDIR {
  d_obj : FFOBJID;
  dptr : Z;
  d_clust : Z;
  d_sect : Z;
  d_dir : Z;         (* offset of the entry in win[] *)
  d_fn : list Z;
  blk_ofs : Z
}.

Definition set_d_obj (v : FFOBJID) (d : DIR) : DIR :=
  mkDIR v d.(dptr) d.(d_clust) d.(d_sect) d.(d_dir) d.(d_fn) d.(blk_ofs).
Definition set_dptr (v : Z) (d : DIR) : DIR :=
  mkDIR d.(d_obj) v d.(d_clust) d.(d_sect) d.(d_dir) d.(d_fn) d.(blk_ofs).
Definition set_d_clust (v : Z) (d : DIR) : DIR :=
  mkDIR d.(d_obj) d.(dptr) v d.(d_sect) d.(d_dir) d.(d_fn) d.(blk_ofs).
Definition set_d_sect (v : Z) (d : DIR) : DIR :=
  mkDIR d.(d_obj) d.(dptr) d.(d_clust) v d.(d_dir) d.(d_fn) d.(blk_ofs).
Definition set_d_dir (v : Z) (d : DIR) : DIR :=
  mkDIR d.(d_obj) d.(dptr) d.(d_clust) d.(d_sect) v d.(d_fn) d.(blk_ofs).
Definition set_d_fn (v : list Z) (d : DIR) : DIR :=
  mkDIR d.(d_obj) d.(dptr) d.(d_clust) d.(d_sect) d.(d_dir) v d.(blk_ofs).
Definition set_blk_ofs (v : Z) (d : DIR) : DIR :=
  mkDIR d.(d_obj) d.(dptr) d.(d_clust) d.(d_sect) d.(d_dir) d.(d_fn) v.

Definition DDEM := 0xE5.
Definition MAX_MALLOC := 0x8000.

Definition max_dir (fs : FATFS) : Z := if is_exfat fs then MAX_DIR_EX else MAX_DIR.

(** The outcome of [ff_memalloc] for a size, which is [malloc]. *)
Class Heap := ff_memalloc : Z -> bool.

Section code.
Context {D : Type} `{BlockDevice D} `{Heap}.

(** [for (szb = ...; szb > SS(fs) && (ibuf = ff_memalloc(szb)) == 0; szb /= 2) ;] *)
Fixpoint alloc_buf (fuel : nat) (ss szb : Z) : Z :=
  match fuel with
  | O => szb
  | S fuel => if (ss <? szb) && negb (ff_memalloc szb) then alloc_buf fuel ss (szb / 2) else szb
  end.

(** [for (n = 0; n < fs->csize && disk_write(..., ibuf, sect + n, szb) == RES_OK; n += szb) ;] *)
Fixpoint clear_loop (fuel : nat) (ibuf : list Z) (csize sect n szb : Z) : M (St D) Z :=
  match fuel with
  | O => mret n
  | S fuel =>
      if n <? csize then
        r ← do_write ibuf (sect +u32 n) szb;
        if res_ok r then clear_loop fuel ibuf csize sect (n + szb) szb else mret n
      else mret n
  end.

Definition dir_clear (clst : Z) : M (St D) FRESULT :=
  res ← sync_window;
  if negb (fr_ok res) then mret FR_DISK_ERR else
  fs ← get_fs;
  let sect := clst2sect fs clst in
  upd_fs (set_winsect sect);;
  upd_fs (set_win (replicate (Z.to_nat FF_MAX_SS) 0));;
  let ss := ssize fs in
  let szb := alloc_buf 16 ss (if MAX_MALLOC <=? csize fs *u32 ss then MAX_MALLOC else csize fs *u32 ss) in
  n ← (if ss <? szb then
         clear_loop (Z.to_nat (csize fs)) (replicate (Z.to_nat szb) 0) (csize fs) sect 0 (szb / ss)
       else
         fs ← get_fs;
         clear_loop (Z.to_nat (csize fs)) (win fs) (csize fs) sect 0 1);
  mret (if n =? csize fs then FR_OK else FR_DISK_ERR).

(** [while (ofs >= csz)]: [inl r] if [dir_sdi] returns [r], otherwise the cluster and
    the offset in it. *)
Definition sdi_step (obj : FFOBJID) (csz : Z) : Z * Z -> M (St D) (Z * Z + (FRESULT + Z * Z)) :=
  fun '(clst, ofs) =>
    if csz <=? ofs then
      fs ← get_fs;
      clst ← get_fat obj clst;
      if clst =? DISK_ERR then mret (inr (inl FR_DISK_ERR))
      else if (clst <? 2) || (n_fatent fs <=? clst) then mret (inr (inl FR_INT_ERR))
      else mret (inl (clst, ofs - csz))
    else mret (inr (inr (clst, ofs))).

Definition dir_sdi (dp : DIR) (ofs : Z) : M (St D) (FRESULT * DIR) :=
  fs ← get_fs;
  if (max_dir fs <=? ofs) || negb (ofs mod SZDIRE =? 0) then mret (FR_INT_ERR, dp) else
  let dp := set_dptr ofs dp in
  let clst := sclust (d_obj dp) in
  let root := (clst =? 0) && (FS_FAT32 <=? fs_type fs) in
  let clst := if root then dirbase fs else clst in
  let dp := if root then set_d_obj (set_stat 0 (d_obj dp)) dp else dp in
  p ← (if clst =? 0 then
         if n_rootdir fs <=? ofs / SZDIRE then mret (inl (FR_INT_ERR, dp))
         else mret (inr (set_d_sect (dirbase fs) dp, clst, ofs))
       else
         let csz := csize fs *u32 ssize fs in
         r ← iterate (Z.to_pos (ofs / csz + 1)) (sdi_step (d_obj dp) csz) (clst, ofs);
         match r with
         | inl e => mret (inl (e, dp))
         | inr (clst, ofs) => mret (inr (set_d_sect (clst2sect fs clst) dp, clst, ofs))
         end);
  match p with
  | inl (e, dp) => mret (e, dp)
  | inr (dp, clst, ofs) =>
      let dp := set_d_clust clst dp in
      if d_sect dp =? 0 then mret (FR_INT_ERR, dp) else
      let dp := set_d_sect (d_sect dp +u32 (ofs / ssize fs)) dp in
      let dp := set_d_dir (ofs mod ssize fs) dp in
      mret (FR_OK, dp)
  end.

Definition dir_next (dp : DIR) (stretch : bool) : M (St D) (FRESULT * DIR) :=
  fs ← get_fs;
  let ofs := dptr dp +u32 SZDIRE in
  let dp := if max_dir fs <=? ofs then set_d_sect 0 dp else dp in
  if d_sect dp =? 0 then mret (FR_NO_FILE, dp) else
  let fin dp := mret (FR_OK, set_d_dir (ofs mod ssize fs) (set_dptr ofs dp)) in
  if ofs mod ssize fs =? 0 then
    let dp := set_d_sect (d_sect dp +u32 1) dp in
    if d_clust dp =? 0 then
      if n_rootdir fs <=? ofs / SZDIRE then mret (FR_NO_FILE, set_d_sect 0 dp) else fin dp
    else if Z.land (ofs / ssize fs) (csize fs - 1) =? 0 then
      clst ← get_fat (d_obj dp) (d_clust dp);
      if clst <=? 1 then mret (FR_INT_ERR, dp)
      else if clst =? DISK_ERR then mret (FR_DISK_ERR, dp)
      else if n_fatent fs <=? clst then
        if negb stretch then mret (FR_NO_FILE, set_d_sect 0 dp) else
        '(clst, obj) ← create_chain (d_obj dp) (d_clust dp);
        let dp := set_d_obj obj dp in
        if clst =? 0 then mret (FR_DENIED, dp)
        else if clst =? 1 then mret (FR_INT_ERR, dp)
        else if clst =? DISK_ERR then mret (FR_DISK_ERR, dp)
        else
          r ← dir_clear clst;
          if negb (fr_ok r) then mret (FR_DISK_ERR, dp) else
          let dp := set_d_obj (set_stat (Z.lor (obj_stat obj) 4) obj) dp in
          fin (set_d_sect (clst2sect fs clst) (set_d_clust clst dp))
      else fin (set_d_sect (clst2sect fs clst) (set_d_clust clst dp))
    else fin dp
  else fin dp.

(** The bytes of the current entry. *)
Definition dirb (fs : FATFS) (dp : DIR) (k : Z) : Z := (win fs).[d_dir dp + k].

Definition XDIR_Type := 0.
Definition DIR_Name0 := 0.

(** Is the entry free? *)
Definition entry_free (fs : FATFS) (dp : DIR) : bool :=
  if is_exfat fs then Z.land (dirb fs dp XDIR_Type) 0x80 =? 0
  else (dirb fs dp DIR_Name0 =? DDEM) || (dirb fs dp DIR_Name0 =? 0).

Definition alloc_step (n_ent : Z) : DIR * Z -> M (St D) (DIR * Z + FRESULT * DIR) :=
  fun '(dp, n) =>
    res ← move_window (d_sect dp);
    if negb (fr_ok res) then mret (inr (res, dp)) else
    fs ← get_fs;
    let free := entry_free fs dp in
    let n := if free then n +u32 1 else 0 in
    if free && (n =? n_ent) then mret (inr (FR_OK, dp)) else
    '(res, dp) ← dir_next dp true;
    if fr_ok res then mret (inl (dp, n)) else mret (inr (res, dp)).

(** Bound on the rounds of a loop over the entries of a directory. *)
Definition dir_rounds (fs : FATFS) : positive := Z.to_pos (max_dir fs / SZDIRE + 1).

Definition dir_alloc (dp : DIR) (n_ent : Z) : M (St D) (FRESULT * DIR) :=
  '(res, dp) ← dir_sdi dp 0;
  '(res, dp) ← (if fr_ok res then
                  fs ← get_fs;
                  iterate (dir_rounds fs) (alloc_step n_ent) (dp, 0)
                else mret (res, dp));
  mret (match res with FR_NO_FILE => FR_DENIED | _ => res end, dp).
End code.

(** ** Geometry *)

(** The layout of a volume as [mount_volume] leaves it. *)
Record vol_geom (fs : FATFS) : Prop := {
  vg_data : data_geom fs;
  vg_ents : 3 <= n_fatent fs;
  vg_dirbase : is_u32 (dirbase fs);
  vg_csize : exists e, 0 <= e <= 15 /\ csize fs = 2 ^ e;
  vg_root : fs_type fs < FS_FAT32 ->
    0 < dirbase fs /\ fatbase fs + n_fats fs * fsize fs <= dirbase fs /\ 0 <= n_rootdir fs /\
    (n_rootdir fs * SZDIRE) mod ssize fs = 0 /\
    dirbase fs + n_rootdir fs * SZDIRE / ssize fs <= database fs
}.

Lemma vol_geom_geo fs fs' : geo fs = geo fs' -> vol_geom fs -> vol_geom fs'.
Proof.
  intros Hg [[D1 D2 D3 D4 D5] V2 V5 V3 V4]. geo_rewrite Hg.
  split; [split|..]; geo_rewrite Hg; auto.
Qed.

Lemma vol_geom_core fs fs' : core fs = core fs' -> vol_geom fs -> vol_geom fs'.
Proof. intros Hc. apply vol_geom_geo. by apply core_geo. Qed.

(** Sectors that may hold directory tables. *)
Definition in_dir_area (fs : FATFS) (x : Z) : Prop :=
  database fs <= x < database fs + csize fs * (n_fatent fs - 2) \/
  fs_type fs < FS_FAT32 /\ dirbase fs <= x < dirbase fs + n_rootdir fs * SZDIRE / ssize fs.

(** Where a directory object points: at an entry of the fixed root directory or of a
    cluster of the volume, the members of the object being consistent. *)
Record dir_pos (fs : FATFS) (dp : DIR) : Prop := {
  dpos_ptr : 0 <= dptr dp < max_dir fs /\ dptr dp mod SZDIRE = 0;
  dpos_dir : d_dir dp = dptr dp mod ssize fs;
  dpos_root : d_clust dp = 0 ->
    fs_type fs < FS_FAT32 /\ dptr dp / SZDIRE < n_rootdir fs /\
    d_sect dp = dirbase fs + dptr dp / ssize fs;
  dpos_clust : d_clust dp <> 0 ->
    2 <= d_clust dp < n_fatent fs /\
    d_sect dp = database fs + csize fs * (d_clust dp - 2) + (dptr dp / ssize fs) mod csize fs
}.

Section bounds.
Context (fs : FATFS) (Hss : sect_size_ok (ssize fs)) (Hg : vol_geom fs).

Lemma sect32 : exists k, 16 <= k /\ ssize fs = 32 * k.
Proof.
  destruct Hss as [E|[E|[E|E]]]; rewrite E; [exists 16|exists 32|exists 64|exists 128]; lia.
Qed.

Lemma csize_pos : 0 < csize fs.
Proof. destruct (vg_csize _ Hg) as (e & He & ->). apply Z.pow_pos_nonneg; lia. Qed.

(** An entry does not cross the end of a sector. *)
Lemma entry_in_sector o : o mod SZDIRE = 0 -> o mod ssize fs + SZDIRE <= ssize fs.
Proof.
  intros Ho. destruct sect32 as (k & Hk & ->). unfold SZDIRE in *.
  rewrite Z.rem_mul_r by lia. pose proof (Z.mod_pos_bound (o / 32) k ltac:(lia)). lia.
Qed.

Lemma dir_pos_area dp : dir_pos fs dp -> in_dir_area fs (d_sect dp).
Proof.
  intros [[Hp Hm] _ Hr Hc]. pose proof csize_pos as Hcs. destruct sect32 as (k & Hk & Ek).
  destruct (decide (d_clust dp = 0)) as [E|N].
  - right. destruct (Hr E) as (Ht & Hn & ->). destruct (vg_root _ Hg Ht) as (_ & _ & _ & Hmod & _).
    split; [done|]. split; [pose proof (Z.div_pos (dptr dp) (ssize fs)); lia|].
    apply Z.add_lt_mono_l. apply Z.div_lt_upper_bound; [lia|].
    rewrite <- Z_div_exact_full_2 by (done || lia). unfold SZDIRE in *. zlia.
  - left. destruct (Hc N) as [Hcl ->].
    pose proof (Z.mod_pos_bound (dptr dp / ssize fs) (csize fs) Hcs). nia.
Qed.

Lemma dir_area_ok x :
  0 <= fatbase fs -> 0 < fsize fs -> n_fats fs = 1 \/ n_fats fs = 2 ->
  in_dir_area fs x -> 0 < x < 0xFFFFFFFF /\ ~ mirror fs x /\
  ~ (fatbase fs <= x < fatbase fs + fsize fs).
Proof.
  intros Hb Hf Hn. destruct (vg_data _ Hg) as [D1 D2 D3 D4 D5]. unfold mirror.
  intros [Hx|[Ht Hx]]; [nia|]. destruct (vg_root _ Hg Ht) as (R1 & R2 & R3 & R4 & R5). nia.
Qed.
End bounds.

Section walk.
Context {D : Type} `{BlockDeviceLaws D}.
Implicit Types s : St D.

Abbreviation nent s := (n_fatent (fsys s)).

(** Whatever the object and the cluster, reading the table changes nothing. *)
Lemma get_fat_any s obj c :
  fs_inv s -> is_u32 c ->
  post (get_fat obj c) s (fun v s' => fs_inv s' /\ vol_eq s s' /\ is_u32 v /\
    (c < 2 \/ nent s <= c -> v = 1)).
Proof.
  intros Hi Hc32. destruct (decide (2 <= c < nent s)) as [Hc|Hc].
  2:{ eapply post_intro; [apply get_fat_out_of_range; lia|]. by split_and!. }
  destruct (decide (fs_type (fsys s) = FS_EXFAT)) as [E|N].
  - unfold get_fat, get_fs. do 2 mstep. cbn beta. if_false. rewrite E. cbn [Z.eqb FS_FAT12 FS_FAT16 FS_FAT32 FS_EXFAT Pos.eqb].
    assert (forall v, is_u32 v -> post (mret v) s (fun v s' => fs_inv s' /\ vol_eq s s' /\ is_u32 v /\
      (c < 2 \/ nent s <= c -> v = 1))) as Hret.
    { intros v Hv. mstep. split_and!; [done..|lia]. }
    assert (is_u32 1 /\ is_u32 0x7FFFFFFF) as [H1 H2] by done.
    mstep; [|by apply Hret]. mstep; [apply Hret; case_match; [done|apply u32_range]|].
    mstep; [apply Hret, u32_range|]. mstep; [|by apply Hret]. mstep; [by apply Hret|].
    apply (get_dword_spec s c 0x7FFFFFFF); [done|by rewrite E..|done|].
    intros v s' Hi' Hv [->|[-> _]]; split_and!; try done; try lia.
    change 0x7FFFFFFF with (Z.ones 31). rewrite Z.land_ones by lia.
    pose proof (Z.mod_pos_bound (fat32 (fatb s) c) (2 ^ 31) ltac:(lia)). unfold is_u32. lia.
  - mcall get_fat_spec; [done|by left|done|]. intros v s' (Hi' & Hv & Hr). split_and!; [done..| |lia].
    pose proof (fat_entry_range s c Hi). pose proof (fat_mask_bound (fsys s)).
    destruct Hr as [->| ->]; [unfold is_u32; lia|done].
Qed.

(** The link of a cluster, as the FAT has it where the object uses the FAT. *)
Lemma get_fat_follow s obj c :
  fs_inv s -> is_u32 c ->
  post (get_fat obj c) s (fun v s' => fs_inv s' /\ vol_eq s s' /\ is_u32 v /\
    (c < 2 \/ nent s <= c -> v = 1) /\
    (2 <= c < nent s -> fat_linked (fsys s) obj -> v = fat_entry s c \/ v = DISK_ERR /\ ~ faultless D)).
Proof.
  intros Hi Hc32.
  destruct (decide (2 <= c < nent s /\ (fs_type (fsys s) <> FS_EXFAT \/ obj_stat obj = 0 /\ n_frag obj = 0)))
    as [[Hc Hl]|Hn].
  - mcall get_fat_faultless; [done..|]. intros v s' (Hi' & Hv & Hr). split_and!; [done..| |lia|done].
    pose proof (fat_entry_range s c Hi). pose proof (fat_mask_bound (fsys s)).
    destruct Hr as [->|[-> _]]; [unfold is_u32; lia|done].
  - mcall get_fat_any; [done..|]. intros v s' (Hi' & Hv & Hu & Ho). split_and!; [done..|].
    intros Hc Hl. by destruct Hn.
Qed.

(** The cluster after [k] links. *)
Definition link (e : Z -> Z) (k : Z) (c : Z) : Z := Nat.iter (Z.to_nat k) e c.

Lemma link_succ e k c : 0 <= k -> link e (k + 1) c = e (link e k c).
Proof. intros Hk. unfold link. replace (Z.to_nat (k + 1)) with (S (Z.to_nat k)) by lia. done. Qed.

Lemma link_ext e e' k c : (forall x, e x = e' x) -> link e k c = link e' k c.
Proof. intros He. unfold link. induction (Z.to_nat k) as [|n IH]; [done|]. cbn [Nat.iter nat_rect]. rewrite He. by f_equal. Qed.

(** The successor of a cluster: the entry of the FAT, 1 for a number that is no cluster. *)
Definition follow s (c : Z) : Z := if (2 <=? c) && (c <? nent s) then fat_entry s c else 1.

Lemma follow_in s c : 2 <= c < nent s -> follow s c = fat_entry s c.
Proof. intros Hc. unfold follow. by if_true. Qed.

Lemma follow_out s c : ~ 2 <= c < nent s -> follow s c = 1.
Proof. intros Hc. unfold follow. by if_false. Qed.

Lemma vol_eq_follow s s' c : fs_inv s -> vol_eq s s' -> follow s' c = follow s c.
Proof.
  intros Hi Hv. unfold follow. assert (nent s' = nent s) as -> by (symmetry; exact (f_equal n_fatent (proj1 Hv))).
  bdestr; [|done]. apply vol_eq_fat_entry; [done..|lia].
Qed.

(** The cluster the table starts in. *)
Definition dir_start (fs : FATFS) (obj : FFOBJID) : Z :=
  if (sclust obj =? 0) && (FS_FAT32 <=? fs_type fs) then dirbase fs else sclust obj.

(** The loop of [dir_sdi] after [k] clusters. *)
Record sdi_inv s obj csz c0 ofs0 (clst ofs k : Z) (s' : St D) : Prop := {
  sd_inv : fs_inv s';
  sd_eq : vol_eq s s';
  sd_k : 0 <= k;
  sd_ofs : ofs = ofs0 - k * csz;
  sd_pos : 0 <= ofs;
  sd_clst : clst = c0 /\ k = 0 \/ 2 <= clst < nent s;
  sd_link : fat_linked (fsys s) obj -> clst = link (follow s) k c0
}.

Lemma sdi_step_spec s obj csz c0 ofs0 clst ofs k s1 :
  fs_inv s -> 0 < csz -> is_u32 c0 -> sdi_inv s obj csz c0 ofs0 clst ofs k s1 ->
  post (sdi_step obj csz (clst, ofs)) s1 (fun r s' =>
    match r with
    | inl (clst', ofs') => csz <= ofs /\ sdi_inv s obj csz c0 ofs0 clst' ofs' (k + 1) s'
    | inr (inl e) => fs_inv s' /\ vol_eq s s' /\
        (e = FR_INT_ERR /\ csz <= ofs /\ (fat_linked (fsys s) obj -> ~ 2 <= link (follow s) (k + 1) c0 < nent s) \/
         e = FR_DISK_ERR)
    | inr (inr (clst', ofs')) =>
        clst' = clst /\ ofs' = ofs /\ ofs < csz /\ sdi_inv s obj csz c0 ofs0 clst ofs k s'
    end).
Proof.
  intros Hi Hcsz Hc0 Hinv. destruct (Hinv) as [Hi1 Hv1 Hk Hofs Hpos Hcl Hlk].
  destruct (Hv1) as [Hc1 _]. pose proof (ents_u32 _ (fi_fat s Hi)) as Hn.
  unfold sdi_step, get_fs. mstep; [|mstep; by split_and!]. do 2 mstep. cbn beta.
  assert (nent s1 = nent s) as -> by (symmetry; exact (f_equal n_fatent Hc1)).
  assert (is_u32 clst) as Hc32 by (destruct Hcl as [[-> _]|?]; [done|unfold is_u32; lia]).
  apply post_bind. mcall get_fat_follow; [done..|]. intros v s2 (Hi2 & Hv2 & Hu2 & Ho2 & Hr2).
  assert (vol_eq s s2) by (by etrans).
  assert (nent s1 = nent s) as En by (symmetry; exact (f_equal n_fatent Hc1)). rewrite En in *.
  assert (v <> DISK_ERR -> fat_linked (fsys s) obj -> v = link (follow s) (k + 1) c0) as Hlink.
  { intros Hne Hl. rewrite link_succ, <- Hlk by done. unfold follow.
    destruct (decide (2 <= clst < nent s)); [if_true|if_false; lia].
    destruct Hr2 as [->|[? _]]; [done|unfold fat_linked in *; by core_rewrite Hc1| |done].
    by apply (vol_eq_fat_entry s s1); [..|lia]. }
  mstep; [mstep; split_and!; auto|]. mstep; mstep.
  - split_and!; [done..|]. left. split_and!; [done|lia|]. intros Hl. rewrite <- Hlink by done. lia.
  - split; [lia|]. split; try done; try lia. intros Hl. by apply Hlink.
Qed.

Definition csz_of (fs : FATFS) : Z := csize fs * ssize fs.

(** The object points at an entry, reached from the start of its table by the links
    of the FAT. *)
Definition dir_on s (dp : DIR) : Prop :=
  dir_pos (fsys s) dp /\
  (d_clust dp = 0 <-> dir_start (fsys s) (d_obj dp) = 0) /\
  (fat_linked (fsys s) (d_obj dp) -> d_clust dp <> 0 ->
     d_clust dp = link (follow s) (dptr dp / csz_of (fsys s)) (dir_start (fsys s) (d_obj dp))).

(** Position in a cluster from the offset in the table. *)
Lemma cluster_pos fs ofs k :
  sect_size_ok (ssize fs) -> vol_geom fs -> 0 <= ofs - k * csz_of fs < csz_of fs ->
  ofs / csz_of fs = k /\ (ofs - k * csz_of fs) / ssize fs = (ofs / ssize fs) mod csize fs /\
  (ofs - k * csz_of fs) mod ssize fs = ofs mod ssize fs.
Proof.
  intros Hss Hg Hr. pose proof (csize_pos fs Hg) as Hc. pose proof (sect_size_bounds _ Hss) as Hs.
  unfold csz_of in *. split_and!.
  - symmetry. apply (Z.div_unique_pos _ _ _ (ofs - k * (csize fs * ssize fs))); [done|lia].
  - replace (ofs - k * (csize fs * ssize fs)) with (ofs + (- (k * csize fs)) * ssize fs) by lia.
    rewrite Z.div_add by lia.
    assert (0 <= ofs / ssize fs - k * csize fs < csize fs).
    { replace (ofs / ssize fs - k * csize fs) with ((ofs - k * (csize fs * ssize fs)) / ssize fs).
      - split; [apply Z.div_pos; lia|apply Z.div_lt_upper_bound; lia].
      - replace (ofs - k * (csize fs * ssize fs)) with (ofs + (- (k * csize fs)) * ssize fs) by lia.
        rewrite Z.div_add by lia. lia. }
    rewrite (Z.mod_eq _ (csize fs)) by lia.
    assert (ofs / ssize fs / csize fs = k) as ->; [|lia].
    symmetry. apply (Z.div_unique_pos _ _ _ (ofs / ssize fs - k * csize fs)); lia.
  - replace (ofs - k * (csize fs * ssize fs)) with (ofs + (- (k * csize fs)) * ssize fs) by lia.
    apply Z.mod_add. lia.
Qed.

Lemma csz_u32 fs :
  sect_size_ok (ssize fs) -> vol_geom fs -> csize fs *u32 ssize fs = csz_of fs /\ 0 < csz_of fs.
Proof.
  intros Hss Hg. destruct (vg_csize _ Hg) as (e & He & Ec). pose proof (sect_size_bounds _ Hss) as Hs.
  pose proof (Z.pow_le_mono_r 2 e 15 ltac:(lia) ltac:(lia)). pose proof (csize_pos fs Hg) as Hc.
  unfold csz_of. rewrite u32_small by (unfold is_u32; rewrite Ec in *; nia). split; [done|nia].
Qed.

(** The part of [dir_sdi] after the cluster is found. *)
Lemma sdi_finish s dp clst ofs k :
  fs_inv s -> vol_geom (fsys s) -> 0 <= ofs < max_dir (fsys s) -> ofs mod SZDIRE = 0 ->
  0 <= ofs - k * csz_of (fsys s) < csz_of (fsys s) -> 2 <= clst < nent s -> clst <> 0 ->
  let fs := fsys s in
  let dp' := set_d_dir ((ofs - k * csz_of fs) mod ssize fs)
    (set_d_sect (clst2sect fs clst +u32 ((ofs - k * csz_of fs) / ssize fs))
      (set_d_clust clst (set_dptr ofs dp))) in
  clst2sect fs clst <> 0 /\ dir_pos fs dp'.
Proof.
  intros Hi Hg Hofs Hm Hr Hc Hc0 fs dp'. pose proof (go_ss _ (wi_geom s (fi_win s Hi))) as Hss.
  destruct (cluster_pos fs ofs k Hss Hg Hr) as (_ & Ed & Em).
  pose proof (vg_data _ Hg) as Hdg. pose proof (clst2sect_valid fs clst Hdg Hc) as Ecs.
  pose proof (csize_pos fs Hg) as Hcs. pose proof (Z.mod_pos_bound (ofs / ssize fs) (csize fs) Hcs).
  destruct Hdg as [D1 D2 D3 D4 D5]. fold fs in D1, D2, D3, D4, D5. unfold dp'. rewrite Ed, Em, Ecs. split; [nia|].
  split; cbn; [done|done|done|]. intros _. split; [done|].
  apply u32_small. unfold is_u32. fold fs in Hc. nia.
Qed.

(** A sector number of the fixed root directory does not wrap around. *)
Lemma root_sect fs ofs :
  sect_size_ok (ssize fs) -> vol_geom fs -> fs_type fs < FS_FAT32 -> 0 <= ofs -> ofs mod SZDIRE = 0 ->
  ofs / SZDIRE < n_rootdir fs -> dirbase fs +u32 (ofs / ssize fs) = dirbase fs + ofs / ssize fs.
Proof.
  intros Hss Hg Ht Ho Hm Hn. destruct (sect32 fs Hss) as (k & Hk & Ek).
  destruct (vg_root _ Hg Ht) as (R1 & R2 & R3 & R4 & R5). destruct (vg_data _ Hg) as [D1 D2 D3 D4 D5].
  apply u32_small. unfold is_u32. pose proof (Z.div_pos ofs (ssize fs) ltac:(lia) ltac:(lia)).
  assert (ofs / ssize fs <= n_rootdir fs * SZDIRE / ssize fs); [|nia].
  apply Z.div_le_mono; [lia|]. unfold SZDIRE in *. zlia.
Qed.

(** The table of the object has an entry at the offset. *)
Definition reaches s (obj : FFOBJID) (ofs : Z) : Prop :=
  exists dp, dir_on s dp /\ fat_linked (fsys s) (d_obj dp) /\ sclust (d_obj dp) = sclust obj /\ dptr dp = ofs.

(** A chain that left the volume does not come back. *)
Lemma link_stuck s k k' c :
  0 <= k <= k' -> ~ 2 <= link (follow s) k c < nent s -> ~ 2 <= link (follow s) k' c < nent s.
Proof.
  intros Hk Hn. replace k' with (k + Z.of_nat (Z.to_nat (k' - k))) by lia.
  induction (Z.to_nat (k' - k)) as [|n IH]; [by rewrite Z.add_0_r|].
  replace (k + Z.of_nat (S n)) with (k + Z.of_nat n + 1) by lia. rewrite link_succ by lia.
  rewrite follow_out by done. lia.
Qed.

(** The results of [dir_sdi]: the members of the object other than the position are
    kept, except that the chain status of a root directory is reset. *)
Definition sdi_post s dp ofs (r : FRESULT) (dp' : DIR) s' : Prop :=
  fs_inv s' /\ vol_eq s s' /\
  (d_obj dp' = d_obj dp \/ d_obj dp' = set_stat 0 (d_obj dp)) /\ d_fn dp' = d_fn dp /\ blk_ofs dp' = blk_ofs dp /\
  (r = FR_OK /\ dir_on s dp' /\ dptr dp' = ofs \/
   r = FR_INT_ERR /\ (fat_linked (fsys s) (d_obj dp) -> ~ reaches s (d_obj dp) ofs) \/
   r = FR_DISK_ERR).

Lemma sdi_loop_spec s obj c0 ofs :
  fs_inv s -> vol_geom (fsys s) -> is_u32 c0 -> 0 <= ofs ->
  post (iterate (Z.to_pos (ofs / csz_of (fsys s) + 1)) (sdi_step obj (csz_of (fsys s))) (c0, ofs)) s
    (fun r s' => match r with
     | inl e => fs_inv s' /\ vol_eq s s' /\
         (e = FR_INT_ERR /\ (fat_linked (fsys s) obj ->
            exists k, 0 <= k <= ofs / csz_of (fsys s) /\ ~ 2 <= link (follow s) k c0 < nent s) \/
          e = FR_DISK_ERR)
     | inr (clst, o) => exists k, o < csz_of (fsys s) /\
         sdi_inv s obj (csz_of (fsys s)) c0 ofs clst o k s'
     end).
Proof.
  intros Hi Hg Hc0 Hofs. pose proof (go_ss _ (wi_geom s (fi_win s Hi))) as Hss.
  destruct (csz_u32 _ Hss Hg) as [_ Hcsz]. set (csz := csz_of (fsys s)) in *.
  apply (post_iterate _ (fun '(clst, o) m s' => m = o / csz /\ exists k, sdi_inv s obj csz c0 ofs clst o k s'))
    with (k := ofs / csz).
  - intros [clst o] m s1 [-> (k & Hk)]. mcall sdi_step_spec; [done..|].
    intros [[clst' o']|[e|[clst' o']]] s2 Hr.
    + destruct Hr as [Hge Hinv]. exists (o' / csz). destruct (Hinv) as [_ _ _ Eo Hpos _ _].
      rewrite (sd_ofs _ _ _ _ _ _ _ _ _ Hk) in Hge |- *.
      assert (ofs - k * csz = o' + 1 * csz) as -> by lia. rewrite Z.div_add by lia.
      split_and!; [apply Z.div_pos; lia|lia|done|by exists (k + 1)].
    + destruct Hr as (Hi2 & Hv2 & [(-> & Hge & Hl)| ->]); split_and!; auto. left. split; [done|].
      intros Hlk. exists (k + 1). split; [|by apply Hl]. destruct Hk as [_ _ Hk Ho _ _ _].
      split; [lia|]. apply Z.div_le_lower_bound; lia.
    + destruct Hr as (-> & -> & Hlt & Hinv). by exists k.
  - split; [done|]. exists 0. split; try done; try lia; by left.
  - pose proof (Z.div_pos ofs csz Hofs Hcsz). lia.
Qed.

Lemma reaches_facts s obj ofs :
  reaches s obj ofs ->
  0 <= ofs < max_dir (fsys s) /\ ofs mod SZDIRE = 0 /\
  (dir_start (fsys s) obj = 0 -> fs_type (fsys s) < FS_FAT32 /\ ofs / SZDIRE < n_rootdir (fsys s)) /\
  (dir_start (fsys s) obj <> 0 ->
     2 <= link (follow s) (ofs / csz_of (fsys s)) (dir_start (fsys s) obj) < nent s).
Proof.
  intros (dp & ([[Hp Hm] _ Hr Hc] & Hst & Hlk) & Hl & Es & <-).
  assert (dir_start (fsys s) (d_obj dp) = dir_start (fsys s) obj) as E by (unfold dir_start; by rewrite Es).
  rewrite E in *. split_and!; [lia..|done| |].
  - intros E0. by destruct (Hr (proj2 Hst E0)) as (? & ? & _).
  - intros N0. assert (d_clust dp <> 0) as N by (intros E0; by apply N0, Hst).
    rewrite <- Hlk by done. by apply Hc.
Qed.

Lemma linked_set_stat fs obj obj' :
  obj' = obj \/ obj' = set_stat 0 obj -> fat_linked fs obj -> fat_linked fs obj'.
Proof. intros [->| ->]; [done|]. intros [?|[_ ?]]; [by left|by right]. Qed.

(** [dir_sdi] with the start cluster of the table resolved. *)
Lemma sdi_error s dp ofs dp' s' :
  fs_inv s' -> vol_eq s s' ->
  (d_obj dp' = d_obj dp \/ d_obj dp' = set_stat 0 (d_obj dp)) /\ d_fn dp' = d_fn dp /\ blk_ofs dp' = blk_ofs dp ->
  (fat_linked (fsys s) (d_obj dp) -> reaches s (d_obj dp) ofs -> False) ->
  sdi_post s dp ofs FR_INT_ERR dp' s'.
Proof. intros Hi Hv (Ho & Hf & Hb) Hn. split_and!; auto. Qed.

Lemma dir_sdi_spec s dp ofs :
  fs_inv s -> vol_geom (fsys s) -> is_u32 (sclust (d_obj dp)) -> 0 <= ofs ->
  post (dir_sdi dp ofs) s (fun '(r, dp') s' => sdi_post s dp ofs r dp' s').
Proof.
  intros Hi Hg Hsc Hofs. pose proof (vg_dirbase _ Hg) as Hdb. pose proof (go_ss _ (wi_geom s (fi_win s Hi))) as Hss.
  destruct (csz_u32 _ Hss Hg) as [Ecsz Hcsz]. unfold dir_sdi, get_fs. do 2 mstep. cbn beta. mstep.
  { mstep. apply sdi_error; auto; [done|]. intros _ (? & ? & _)%reaches_facts. lia. }
  destruct Hb as [Hmax Hmod]. cbn zeta. cbn [d_obj set_dptr].
  set (root := (sclust (d_obj dp) =? 0) && (FS_FAT32 <=? fs_type (fsys s))).
  set (c0 := if root then dirbase (fsys s) else sclust (d_obj dp)).
  set (dp1 := if root then set_d_obj (set_stat 0 (d_obj dp)) (set_dptr ofs dp) else set_dptr ofs dp).
  assert ((d_obj dp1 = d_obj dp \/ d_obj dp1 = set_stat 0 (d_obj dp)) /\ d_fn dp1 = d_fn dp /\
    blk_ofs dp1 = blk_ofs dp /\ dptr dp1 = ofs /\ sclust (d_obj dp1) = sclust (d_obj dp))
    as (E0 & E2 & E3 & E4 & E1) by (unfold dp1; destruct root; by auto).
  change (dir_start (fsys s) (d_obj dp)) with c0 in *.
  assert (dir_start (fsys s) (d_obj dp1) = c0) as Estart by (unfold dir_start; by rewrite E1).
  assert (is_u32 c0) as Hc0 by (unfold c0; by destruct root).
  assert (set_dptr ofs dp1 = dp1) as Ed1 by (destruct dp1; cbn in *; by subst).
  mstep. mstep.
  - (* the fixed root directory *)
    mstep; mstep.
    { apply sdi_error; auto; [done|]. intros _ (_ & _ & Hr & _)%reaches_facts. destruct (Hr Hb). lia. }
    cbn [d_sect set_d_clust set_d_sect]. mstep.
    { mstep. apply sdi_error; auto; [done|]. intros _ (_ & _ & Hr & _)%reaches_facts. destruct (Hr Hb) as [Ht _].
      destruct (vg_root _ Hg Ht). cbn in *. lia. }
    assert (fs_type (fsys s) < FS_FAT32) as Ht.
    { unfold c0 in *. unfold root in *. destruct (Z.leb_spec FS_FAT32 (fs_type (fsys s))); [|done].
      rewrite andb_true_r in *. destruct (Z.eqb_spec (sclust (d_obj dp)) 0) as [E|]; lia. }
    mstep. split_and!; try done. left. split_and!; [done| |done]. split_and!.
    + split; cbn; [split; [lia|by rewrite E4]|by rewrite E4|intros _|intros ?; lia].
      rewrite E4, root_sect by done. split_and!; [done|lia|done].
    + cbn. by rewrite Estart.
    + cbn. intros _ ?. lia.
  - rewrite Ecsz. mstep. mcall sdi_loop_spec; [done..|]. intros [e|[clst o]] s1 Hr.
    + do 2 mstep. destruct Hr as (Hi1 & Hv1 & [[-> He]| ->]); [|split_and!; auto].
      apply sdi_error; auto. intros Hl%(linked_set_stat _ _ _ E0) (_ & _ & _ & Hr)%reaches_facts.
      destruct (He Hl) as (k & Hk & Hn). exact (link_stuck s k _ c0 Hk Hn (Hr Hb)).
    + destruct Hr as (k & Hlt & [Hi1 Hv1 Hk Ho Hpos Hcl Hlk]). mstep.
      destruct (cluster_pos _ ofs k Hss Hg ltac:(lia)) as (Eck & _ & _).
      mstep.
      { mstep. apply sdi_error; auto. intros Hl%(linked_set_stat _ _ _ E0) (_ & _ & _ & Hr)%reaches_facts.
        specialize (Hr Hb). change (dir_start (fsys s) (d_obj dp)) with c0 in Hr. rewrite Eck, <- Hlk in Hr by done.
        cbn in Hb0. rewrite clst2sect_valid in Hb0 by (done || apply Hg). destruct (vg_data _ Hg). nia. }
      cbn [d_sect set_d_clust set_d_sect].
      pose proof (ents_u32 _ (fi_fat s Hi)) as Hn. pose proof (vg_ents _ Hg) as Hn3.
      assert (is_u32 clst) as Hc32 by (destruct Hcl as [[-> _]|?]; [done|unfold is_u32; lia]).
      destruct (decide (2 <= clst < nent s)) as [Hr|Hr].
      2:{ cbn in Hb0. by rewrite clst2sect_invalid in Hb0 by (done || lia). }
      destruct (sdi_finish s dp1 clst ofs k) as [_ Hpos']; try done; try lia. mstep. split_and!; try done.
      left. subst o. rewrite Ed1 in Hpos'. split_and!; [done| |done]. split_and!.
      * by destruct dp1.
      * cbn. rewrite Estart. lia.
      * cbn. rewrite Estart, E4, Eck. intros Hl _. by apply Hlk.
Qed.

(** The start of a table is found without any access to the medium. *)
Lemma dir_sdi_start s dp :
  fs_inv s -> vol_geom (fsys s) -> post (dir_sdi dp 0) s (fun '(r, _) _ => r = FR_OK \/ r = FR_INT_ERR).
Proof.
  intros Hi Hg. destruct (csz_u32 _ (go_ss _ (wi_geom s (fi_win s Hi))) Hg) as [Ecsz Hcsz].
  unfold dir_sdi, get_fs. mstep. mstep. mstep; [mstep; by right|]. cbn zeta. mstep. mstep.
  - mstep; mstep; [mstep; by right|]. mstep; mstep; auto.
  - rewrite Ecsz. change (Z.to_pos (0 / csz_of (fsys s) + 1)) with 1%positive. mstep. unfold iterate. cbn [loop_pos]. mstep.
    unfold sdi_step. rewrite (proj2 (Z.leb_gt _ _)) by done. mstep. mstep. mstep. mstep; mstep; auto.
Qed.

(** ** Stepping *)

(** The clusters of a table start at multiples of the cluster size. *)
Lemma cluster_edge fs ofs :
  sect_size_ok (ssize fs) -> vol_geom fs -> 0 <= ofs ->
  Z.land (ofs / ssize fs) (csize fs - 1) = (ofs / ssize fs) mod csize fs.
Proof.
  intros Hss Hg Ho. destruct (vg_csize _ Hg) as (e & He & ->). rewrite <- Z.land_ones by lia.
  by rewrite Z.ones_equiv, <- Z.sub_1_r.
Qed.

Lemma div_succ q k : 0 < k ->
  ((q + 1) mod k = 0 -> (q + 1) / k = q / k + 1) /\
  ((q + 1) mod k <> 0 -> (q + 1) / k = q / k /\ (q + 1) mod k = q mod k + 1).
Proof.
  intros Hk. pose proof (Z.div_mod q k ltac:(lia)) as Eq. pose proof (Z.mod_pos_bound q k Hk).
  destruct (decide (q mod k = k - 1)) as [E|E].
  - assert (q / k + 1 = (q + 1) / k) by (apply (Z.div_unique_pos _ _ _ 0); lia).
    assert (0 = (q + 1) mod k) by (apply (Z.mod_unique_pos _ _ (q / k + 1)); lia). lia.
  - assert (q / k = (q + 1) / k) by (apply (Z.div_unique_pos _ _ _ (q mod k + 1)); lia).
    assert (q mod k + 1 = (q + 1) mod k) by (apply (Z.mod_unique_pos _ _ (q / k)); lia). lia.
Qed.

(** Where the next entry is: in the same sector, the next sector or the next cluster. *)
Lemma next_entry fs p :
  sect_size_ok (ssize fs) -> vol_geom fs -> 0 <= p -> p mod SZDIRE = 0 ->
  let o := p + SZDIRE in let ss := ssize fs in let cs := csize fs in
  o mod SZDIRE = 0 /\
  (o mod ss <> 0 -> o / ss = p / ss /\ o / csz_of fs = p / csz_of fs) /\
  (o mod ss = 0 -> o / ss = p / ss + 1) /\
  (o mod ss = 0 -> (o / ss) mod cs <> 0 ->
     (o / ss) mod cs = (p / ss) mod cs + 1 /\ o / csz_of fs = p / csz_of fs) /\
  (o mod ss = 0 -> (o / ss) mod cs = 0 -> o / csz_of fs = p / csz_of fs + 1).
Proof.
  intros Hss Hg Hp Hm o ss cs. destruct (sect32 fs Hss) as (k & Hk & Ek). pose proof (csize_pos fs Hg) as Hcs.
  unfold csz_of. fold ss cs in Ek, Hcs |- *. unfold SZDIRE in *.
  rewrite (Z.mul_comm cs ss), <- !Z.div_div by lia.
  assert (o mod ss <> 0 -> o / ss = p / ss) as E1.
  { subst o. rewrite Ek. intros Hne. apply Z.div_exact in Hm; [|done]. rewrite Hm in *.
    set (q := p / 32) in *. replace (32 * q + 32) with (32 * (q + 1)) in * by lia.
    rewrite Z.mul_mod_distr_l in Hne by lia. rewrite !Z.div_mul_cancel_l by lia.
    apply (proj2 (div_succ q k ltac:(lia))). lia. }
  assert (o mod ss = 0 -> o / ss = p / ss + 1) as E2.
  { subst o. intros E. apply Z.div_exact in E; [|lia]. set (q := (p + 32) / ss) in *.
    assert (p / ss = q - 1); [|lia]. symmetry. apply (Z.div_unique_pos _ _ _ (ss - 32)); lia. }
  split_and!.
  - subst o. zlia.
  - intros Hne. rewrite E1 by done. done.
  - done.
  - intros E Hne. rewrite E2 in * by done. destruct (proj2 (div_succ _ cs Hcs) Hne). done.
  - intros E E0. rewrite E2 in * by done. by apply div_succ.
Qed.

(** There is no entry at the offset [o] that follows the current one. *)
Definition table_end s (dp : DIR) (o : Z) : Prop :=
  max_dir (fsys s) <= o \/
  d_clust dp = 0 /\ n_rootdir (fsys s) <= o / SZDIRE \/
  d_clust dp <> 0 /\ o mod ssize (fsys s) = 0 /\ (o / ssize (fsys s)) mod csize (fsys s) = 0 /\
    (fat_linked (fsys s) (d_obj dp) -> ~ 2 <= fat_entry s (d_clust dp) < nent s).

(** The chain is broken behind the current cluster: its link is no cluster and no end
    mark. *)
Definition bad_link s (dp : DIR) (o : Z) : Prop :=
  o < max_dir (fsys s) /\ d_clust dp <> 0 /\ fat_entry s (d_clust dp) <= 1.

(** [dir_next] without stretching reaches the next entry, or the end of the table, or
    an error. *)
Definition next_post s dp (r : FRESULT) (dp' : DIR) s' : Prop :=
  fs_inv s' /\ vol_eq s s' /\ d_obj dp' = d_obj dp /\ d_fn dp' = d_fn dp /\ blk_ofs dp' = blk_ofs dp /\
  (r = FR_OK /\ dir_on s dp' /\ dptr dp' = dptr dp + SZDIRE \/
   (r = FR_NO_FILE /\ d_sect dp' = 0 \/ r = FR_INT_ERR) /\ table_end s dp (dptr dp + SZDIRE) /\
     (fat_linked (fsys s) (d_obj dp) -> r = FR_INT_ERR <-> bad_link s dp (dptr dp + SZDIRE)) \/
   r = FR_DISK_ERR /\ (fat_linked (fsys s) (d_obj dp) -> ~ faultless D)).

Lemma max_dir_bound fs : max_dir fs <= 0x10000000.
Proof. unfold max_dir, MAX_DIR_EX, MAX_DIR. by destruct (is_exfat fs). Qed.

(** An entry of the fixed root directory that does not end a sector is not the last. *)
Lemma root_more fs p :
  sect_size_ok (ssize fs) -> vol_geom fs -> fs_type fs < FS_FAT32 -> 0 <= p -> p mod SZDIRE = 0 ->
  p / SZDIRE < n_rootdir fs -> (p + SZDIRE) mod ssize fs <> 0 -> (p + SZDIRE) / SZDIRE < n_rootdir fs.
Proof.
  intros Hss Hg Ht Hp Hm Hn Hne. destruct (vg_root _ Hg Ht) as (_ & _ & R3 & R4 & _).
  unfold SZDIRE in *. destruct (decide (p + 32 = n_rootdir fs * 32)) as [E|]; [by rewrite E in Hne|].
  zlia.
Qed.

(** The next position in the same cluster, or in the fixed root directory. *)
Lemma next_same s dp sect :
  fs_inv s -> vol_geom (fsys s) -> dir_on s dp -> dptr dp + SZDIRE < max_dir (fsys s) ->
  let o := dptr dp + SZDIRE in let fs := fsys s in
  (o mod ssize fs <> 0 /\ sect = d_sect dp \/
   o mod ssize fs = 0 /\ sect = d_sect dp + 1 /\
     (d_clust dp = 0 /\ o / SZDIRE < n_rootdir fs \/ d_clust dp <> 0 /\ (o / ssize fs) mod csize fs <> 0)) ->
  dir_on s (set_d_dir (o mod ssize fs) (set_dptr o (set_d_sect sect dp))).
Proof.
  intros Hi Hg ([[Hp Hm] Hd Hr Hc] & Hst & Hl) Hmax o fs Hs.
  pose proof (go_ss _ (wi_geom s (fi_win s Hi))) as Hss.
  destruct (next_entry fs (dptr dp) Hss Hg ltac:(lia) Hm) as (N1 & N2 & N3 & N4 & _). fold o in N1, N2, N3, N4.
  assert (d_clust dp <> 0 -> o / csz_of fs = dptr dp / csz_of fs) as Ecl.
  { intros N. destruct Hs as [[? _]|(E & _ & [[? _]|[_ ?]])]; [by apply N2|done|by apply N4]. }
  split_and!; [split; cbn|done|cbn; fold fs].
  - unfold o, SZDIRE in *. lia.
  - done.
  - intros E. destruct (Hr E) as (Ht & Hn & Esect). fold fs. split; [done|].
    destruct Hs as [[Hne ->]|(E0 & -> & [[_ ?]|[? _]])]; [|split; [done|rewrite N3 by done; rewrite Esect; fold fs; lia]|done].
    split; [apply root_more; first [done|lia]|]. rewrite (proj1 (N2 Hne)). done.
  - intros N. destruct (Hc N) as [Hcr Esect]. split; [done|]. fold fs.
    destruct Hs as [[Hne ->]|(E0 & -> & [[? _]|[_ Hne]])]; [by rewrite (proj1 (N2 Hne))|done|].
    rewrite (proj1 (N4 E0 Hne)), Esect. fold fs. lia.
  - intros Hlk N. rewrite Ecl by done. by apply Hl.
Qed.

(** The first entry of the next cluster. *)
Lemma next_cluster s dp clst :
  fs_inv s -> vol_geom (fsys s) -> dir_on s dp -> dptr dp + SZDIRE < max_dir (fsys s) ->
  d_clust dp <> 0 -> 2 <= clst < nent s ->
  (fat_linked (fsys s) (d_obj dp) -> clst = fat_entry s (d_clust dp)) ->
  let o := dptr dp + SZDIRE in let fs := fsys s in
  o mod ssize fs = 0 -> (o / ssize fs) mod csize fs = 0 ->
  dir_on s (set_d_dir (o mod ssize fs) (set_dptr o (set_d_sect (clst2sect fs clst) (set_d_clust clst dp)))).
Proof.
  intros Hi Hg ([[Hp Hm] Hd Hr Hc] & Hst & Hl) Hmax N Hcl Hnx o fs E0 E1.
  pose proof (go_ss _ (wi_geom s (fi_win s Hi))) as Hss. destruct (csz_u32 _ Hss Hg) as [_ Hcsz].
  destruct (next_entry fs (dptr dp) Hss Hg ltac:(lia) Hm) as (N1 & _ & _ & _ & N5). fold o in N1, N5.
  split_and!; [split; cbn|cbn; lia|cbn; fold fs].
  - unfold o, SZDIRE in *. lia.
  - done.
  - lia.
  - intros _. split; [done|]. fold fs. rewrite E1, clst2sect_valid by (done || apply Hg). lia.
  - intros Hlk _. rewrite N5 by done. rewrite link_succ by (apply Z.div_pos; [lia|done]).
    unfold fs. rewrite <- Hl by done. rewrite follow_in by (by apply Hc). by apply Hnx.
Qed.

Context `{!Heap}.

Lemma dir_next_spec s dp :
  fs_inv s -> vol_geom (fsys s) -> dir_on s dp ->
  post (dir_next dp false) s (fun '(r, dp') s' => next_post s dp r dp' s').
Proof.
  intros Hi Hg Hon. pose proof (go_ss _ (wi_geom s (fi_win s Hi))) as Hss.
  pose proof (max_dir_bound (fsys s)) as Hmb. destruct (Hon) as (Hpos & Hst & Hlk).
  destruct (dpos_ptr _ _ Hpos) as [Hp Hm]. set (fs := fsys s) in *.
  unfold dir_next, get_fs. do 2 mstep. cbn beta zeta. fold fs.
  assert (dptr dp +u32 SZDIRE = dptr dp + SZDIRE) as -> by (apply u32_small; unfold is_u32, SZDIRE; lia).
  set (o := dptr dp + SZDIRE). destruct (Z.leb_spec (max_dir fs) o) as [Hge|Hlt].
  { cbn [d_sect set_d_sect Z.eqb]. mstep. split_and!; try done. right; left. split_and!; [by left|by left|].
    intros _. split; [done|]. intros [? _]. unfold o, fs in *. lia. }
  pose proof (dir_area_ok fs Hg _ (go_fatbase _ (wi_geom s (fi_win s Hi))) (go_fsize _ (wi_geom s (fi_win s Hi)))
    (go_n_fats _ (wi_geom s (fi_win s Hi))) (dir_pos_area fs Hss Hg dp Hpos)) as (Hsr & _).
  if_false. assert (0 <= o) by (unfold o, SZDIRE; lia).
  mstep; [|mstep; split_and!; try done; left; split_and!; [done| |done]].
  2:{ replace dp with (set_d_sect (d_sect dp) dp) at 1 by (by destruct dp). apply next_same; auto. }
  rewrite u32_small by (unfold is_u32; lia). cbn [d_clust set_d_sect d_obj].
  mstep; [mstep; mstep; split_and!; try done|].
  { right; left. split_and!; [by left|by right; left|]. intros _. split; [done|]. by intros (_ & ? & _). }
  { left. split_and!; [done| |done]. apply next_same; auto. right. split_and!; auto. }
  mstep; [|mstep; split_and!; try done; left; split_and!; [done| |done]].
  2:{ apply next_same; auto. right. rewrite cluster_edge in * by done. split_and!; auto. }
  rewrite cluster_edge in * by done. mstep. destruct (dpos_clust _ _ Hpos ltac:(done)) as [Hcr _].
  pose proof (ents_u32 _ (fi_fat s Hi)) as Hn. fold fs in Hn, Hcr.
  mcall get_fat_follow; [done|unfold is_u32; lia|]. intros v s' (Hi' & Hv & Hu & _ & Hr).
  assert (v <> DISK_ERR -> v <= 1 \/ nent s <= v -> table_end s dp o) as Hend.
  { intros Hne Hv2. right; right. split_and!; [done..|]. intros Hl. destruct (Hr Hcr Hl) as [|[? _]]; [lia|done]. }
  mstep.
  { mstep. split_and!; try done. right; left. split_and!; [by right|apply Hend; [unfold DISK_ERR|]; lia|].
    intros Hl. split; [|done]. intros _. destruct (Hr Hcr Hl) as [->|[-> _]]; [by split_and!|unfold DISK_ERR in *; lia]. }
  mstep; [mstep; split_and!; try done; right; right; split; [done|]; intros Hl; destruct (Hr Hcr Hl) as [E|[_ ?]]; [|done]|].
  { pose proof (fat_entry_range s (d_clust dp) Hi). pose proof (fat_mask_bound (fsys s)). unfold DISK_ERR in *. lia. }
  mstep.
  { cbn [negb]. mstep. split_and!; try done. right; left. split_and!; [by left|apply Hend; auto|].
    intros Hl. split; [done|]. intros (_ & _ & Hle). destruct (Hr Hcr Hl) as [E|[E _]]; [|done].
    pose proof (vg_ents _ Hg). unfold fs in *. lia. }
  mstep. split_and!; auto. left. split_and!; [done| |done].
  apply (next_cluster s dp v); auto; [fold fs; lia|]. intros Hl. destruct (Hr Hcr Hl) as [|[? _]]; done.
Qed.

(** A position is determined by the table and the offset. *)
Lemma dir_on_unique s dp dp' :
  dir_on s dp -> dir_on s dp' -> fat_linked (fsys s) (d_obj dp) -> fat_linked (fsys s) (d_obj dp') ->
  sclust (d_obj dp) = sclust (d_obj dp') -> dptr dp = dptr dp' ->
  d_clust dp = d_clust dp' /\ d_sect dp = d_sect dp' /\ d_dir dp = d_dir dp'.
Proof.
  intros ([P1 P2 P3 P4] & S & L) ([P1' P2' P3' P4'] & S' & L') Hl Hl' Es Ep.
  assert (dir_start (fsys s) (d_obj dp) = dir_start (fsys s) (d_obj dp')) as Ed by (unfold dir_start; by rewrite Es).
  assert (d_clust dp = d_clust dp') as Ec.
  { destruct (decide (d_clust dp = 0)) as [E|N]; [symmetry; rewrite E; apply S'; rewrite <- Ed; by apply S|].
    rewrite L, L', Ep, Ed; try done. intros E. apply N, S. rewrite Ed. by apply S'. }
  split; [done|]. split; [|by rewrite P2, P2', Ep].
  destruct (decide (d_clust dp = 0)) as [E|N].
  - destruct (P3 E) as (_ & _ & ->), (P3' ltac:(congruence)) as (_ & _ & ->). by rewrite Ep.
  - destruct (P4 N) as (_ & ->), (P4' ltac:(congruence)) as (_ & ->). by rewrite Ep, Ec.
Qed.

(** Where the table ends for [dir_next], it ends for [dir_sdi]. *)
Lemma table_end_no_entry s dp dp' :
  fs_inv s -> vol_geom (fsys s) ->
  dir_on s dp -> dir_on s dp' -> fat_linked (fsys s) (d_obj dp) -> fat_linked (fsys s) (d_obj dp') ->
  sclust (d_obj dp) = sclust (d_obj dp') -> dptr dp' = dptr dp + SZDIRE ->
  table_end s dp (dptr dp + SZDIRE) -> False.
Proof.
  intros Hi Hg (P & S & L) (P' & S' & L') Hl Hl' Es Ep He.
  pose proof (go_ss _ (wi_geom s (fi_win s Hi))) as Hss. destruct (csz_u32 _ Hss Hg) as [_ Hcsz].
  assert (dir_start (fsys s) (d_obj dp) = dir_start (fsys s) (d_obj dp')) as Ed by (unfold dir_start; by rewrite Es).
  destruct (dpos_ptr _ _ P) as [Hp Hm], (dpos_ptr _ _ P') as [Hp' _].
  destruct He as [?|[[E Hr]|(N & E0 & E1 & Hn)]]; [lia| |].
  - destruct (dpos_root _ _ P') as (_ & Hr' & _); [apply S'; rewrite <- Ed; by apply S|]. rewrite Ep in Hr'. lia.
  - assert (d_clust dp' <> 0) as N' by (intros E; apply N, S; rewrite Ed; by apply S').
    destruct (next_entry _ (dptr dp) Hss Hg ltac:(lia) Hm) as (_ & _ & _ & _ & N5).
    apply (Hn Hl). destruct (dpos_clust _ _ P' N') as [Hc _].
    rewrite (L' Hl' N'), Ep, N5, link_succ, <- Ed, <- L in Hc by first [done|apply Z.div_pos; [lia|done]].
    by rewrite follow_in in Hc by (by apply (dpos_clust _ _ P)).
Qed.
(** Positions do not depend on the state of the window. *)
Lemma dir_on_vol_eq s s' dp : fs_inv s -> vol_eq s s' -> dir_on s dp -> dir_on s' dp.
Proof.
  intros Hi Hv (P & S & L). destruct (Hv) as [Hc _]. split_and!.
  - destruct P. unfold max_dir, is_exfat in *. split; unfold max_dir, is_exfat; core_rewrite Hc; auto.
  - unfold dir_start in *. by core_rewrite Hc.
  - unfold dir_start, csz_of, fat_linked in *. core_rewrite Hc. intros Hl N. rewrite L by done.
    apply link_ext. intros x. symmetry. by apply vol_eq_follow.
Qed.
End walk.

(** ** Clearing a cluster *)

Section clear.
Context {D : Type} `{BlockDeviceLaws D} `{!Heap}.
Implicit Types s : St D.

(** A write of [n] sectors of zeros. *)
Lemma post_write_zeros s L x n (Q : DRESULT -> St D -> Prop) :
  0 <= x -> 0 < n -> 0 < sector_size (dev s) -> n * sector_size (dev s) <= Z.of_nat L ->
  (forall r d', sector_size d' = sector_size (dev s) ->
     (forall y, 0 <= y -> ~ (x <= y < x + n) -> medium d' y = medium (dev s) y) ->
     (r = RES_OK -> forall y, x <= y < x + n ->
        medium d' y = replicate (Z.to_nat (sector_size (dev s))) 0) ->
     Q r (mkSt (fsys s) d')) ->
  post (do_write (replicate L 0) x n) s Q.
Proof.
  intros Hx Hn Hp Hl HQ. unfold post, do_write.
  destruct (disk_write _ _ _ _) as [r d'] eqn:E.
  assert (n * sector_size (dev s) <= zlen (replicate L 0)) as Hl' by (unfold zlen; by rewrite length_replicate).
  pose proof E as [Hs Hf]%write_frame; [|lia..]. apply HQ; [done..|].
  intros -> y Hy. rewrite (write_ok _ _ _ _ _ _ Hx Hn Hl' ltac:(by apply Forall_replicate) E Hy).
  unfold sub. rewrite drop_replicate, take_replicate. f_equal. nia.
Qed.

Lemma clear_loop_spec fuel L csz sect n szb k s :
  0 <= sect -> sect + csz < 2 ^ 32 -> 0 < szb -> 0 < sector_size (dev s) -> szb * sector_size (dev s) <= Z.of_nat L ->
  0 <= n -> csz = n + Z.of_nat k * szb -> (k <= fuel)%nat ->
  post (clear_loop fuel (replicate L 0) csz sect n szb) s (fun n' s' =>
    fsys s' = fsys s /\ sector_size (dev s') = sector_size (dev s) /\
    (forall y, 0 <= y -> ~ (sect + n <= y < sect + csz) -> medium (dev s') y = medium (dev s) y) /\
    (n' = csz /\ (forall y, sect + n <= y < sect + csz ->
        medium (dev s') y = replicate (Z.to_nat (sector_size (dev s))) 0) \/ n' < csz)).
Proof.
  intros Hs He Hz. revert n k s. induction fuel as [|fuel IH]; intros n k s Hp HL Hn Hc Hk.
  { cbn [clear_loop]. mstep. split_and!; [done..|]. left. split; lia. }
  cbn [clear_loop]. mstep; [|mstep; split_and!; [done..|]; left; split; lia].
  destruct k as [|k]; [lia|]. mstep. rewrite u32_small by (unfold is_u32; lia).
  apply post_write_zeros; [lia|done..|lia|]. intros r d' Hss Hf Hw.
  destruct (res_ok r) eqn:Er.
  2:{ mstep. split_and!; [done..| |]; [|right; lia]. intros y Hy Hn'. apply Hf; lia. }
  destruct r; try done. specialize (Hw eq_refl).
  eapply post_mono; [apply (IH (n + szb) k); cbn; lia|]. cbn. intros n' s' (E1 & E2 & Hf' & Hw').
  split_and!; [done|congruence| |].
  - intros y Hy Hn'. rewrite Hf' by lia. apply Hf; lia.
  - destruct Hw' as [[-> Hw']|]; [|by right]. left. split; [done|]. intros y Hy.
    destruct (decide (y < sect + (n + szb))); [rewrite Hf' by lia; apply Hw; lia|].
    rewrite Hw' by lia. by rewrite Hss.
Qed.
(** The buffer holds a number of sectors that divides the cluster, or less. *)
Lemma alloc_buf_spec fuel ss a :
  0 < ss -> (a <= fuel)%nat ->
  exists j, (j <= a)%nat /\ alloc_buf fuel ss (ss * 2 ^ Z.of_nat a) = ss * 2 ^ Z.of_nat j.
Proof.
  intros Hss. revert a. induction fuel as [|fuel IH]; intros a Ha; [by exists a|].
  cbn [alloc_buf]. bdestr; [|by exists a]. destruct Hb as [Hlt _].
  destruct a as [|a]; [rewrite Z.mul_1_r in Hlt; lia|].
  destruct (IH a ltac:(lia)) as (j & Hj & E). exists j. split; [lia|]. rewrite <- E. f_equal.
  rewrite Nat2Z.inj_succ, Z.pow_succ_r by lia. rewrite Z.mul_assoc, (Z.mul_comm ss 2), <- Z.mul_assoc.
  by rewrite Z.mul_comm, Z.div_mul.
Qed.

Lemma clear_size fs :
  sect_size_ok (ssize fs) -> vol_geom fs ->
  exists j k, (0 < k)%nat /\ csize fs = Z.of_nat k * 2 ^ Z.of_nat j /\
    alloc_buf 16 (ssize fs) (if MAX_MALLOC <=? csize fs *u32 ssize fs then MAX_MALLOC
                             else csize fs *u32 ssize fs) = ssize fs * 2 ^ Z.of_nat j.
Proof.
  intros Hss Hg. destruct (csz_u32 fs Hss Hg) as [-> _]. unfold csz_of.
  destruct (vg_csize _ Hg) as (e & He & Ee). pose proof (sect_size_bounds _ Hss) as Hb.
  assert (exists a, (a <= 15)%nat /\ Z.of_nat a <= e /\
    (if MAX_MALLOC <=? csize fs * ssize fs then MAX_MALLOC else csize fs * ssize fs)
    = ssize fs * 2 ^ Z.of_nat a) as (a & Ha & Hae & ->).
  { assert (exists b, (3 <= b <= 6)%nat /\ MAX_MALLOC = ssize fs * 2 ^ Z.of_nat b) as (b & Hb' & Em).
    { unfold MAX_MALLOC. destruct Hss as [E|[E|[E|E]]]; rewrite E;
        [exists 6%nat|exists 5%nat|exists 4%nat|exists 3%nat]; lia. }
    rewrite Ee, Em. destruct (Z.leb_spec (ssize fs * 2 ^ Z.of_nat b) (2 ^ e * ssize fs)) as [Hle|Hlt].
    - exists b. split_and!; [lia| |done]. apply (Z.pow_le_mono_r_iff 2); nia.
    - exists (Z.to_nat e). rewrite Z2Nat.id by lia. split_and!; lia. }
  destruct (alloc_buf_spec 16 (ssize fs) a) as (j & Hj & ->); [lia..|].
  exists j, (2 ^ (Z.to_nat e - j))%nat. split_and!; [apply Nat.neq_0_lt_0, Nat.pow_nonzero; lia| |done].
  rewrite Ee, Nat2Z.inj_pow, Nat2Z.inj_sub, Z2Nat.id by lia. cbn [Z.of_nat Pos.of_succ_nat Pos.succ].
  rewrite <- Z.pow_add_r by lia. f_equal. lia.
Qed.

(** The two ways of writing the cluster. *)
Lemma clear_body_spec s fs sect j k :
  win (fsys s) = replicate (Z.to_nat FF_MAX_SS) 0 -> csize (fsys s) = csize fs ->
  512 <= ssize fs <= 4096 -> ssize fs = sector_size (dev s) -> (0 < k)%nat ->
  csize fs = Z.of_nat k * 2 ^ Z.of_nat j -> 0 <= sect -> sect + csize fs < 2 ^ 32 ->
  post (if ssize fs <? ssize fs * 2 ^ Z.of_nat j then
          clear_loop (Z.to_nat (csize fs)) (replicate (Z.to_nat (ssize fs * 2 ^ Z.of_nat j)) 0) (csize fs)
            sect 0 (ssize fs * 2 ^ Z.of_nat j / ssize fs)
        else
          fs ← gets fsys; clear_loop (Z.to_nat (csize fs)) (win fs) (csize fs) sect 0 1) s
    (fun n' s' =>
      fsys s' = fsys s /\ sector_size (dev s') = sector_size (dev s) /\
      (forall y, 0 <= y -> ~ (sect <= y < sect + csize fs) -> medium (dev s') y = medium (dev s) y) /\
      (n' = csize fs /\ (forall y, sect <= y < sect + csize fs ->
          medium (dev s') y = replicate (Z.to_nat (sector_size (dev s))) 0) \/ n' < csize fs)).
Proof.
  intros Ew Ec Hss Ess Hk Ek Hs He. pose proof (Z.pow_pos_nonneg 2 (Z.of_nat j) ltac:(lia) ltac:(lia)) as Hj.
  mstep.
  - rewrite (Z.mul_comm (ssize fs)), Z.div_mul by lia. eapply post_mono.
    { apply (clear_loop_spec _ _ _ _ 0 (2 ^ Z.of_nat j) k); nia. }
    cbn. intros n' s'. by rewrite Z.add_0_r.
  - mstep. apply post_gets. rewrite Ew, Ec. eapply post_mono.
    { apply (clear_loop_spec _ _ _ _ 0 1 (Z.to_nat (csize fs))); unfold FF_MAX_SS; nia. }
    cbn. intros n' s'. by rewrite Z.add_0_r.
Qed.

(** The state after [dir_clear]: the cluster reads as zeros, the rest of the volume is
    untouched. *)
Definition in_cluster (fs : FATFS) (clst x : Z) : Prop := clst2sect fs clst <= x < clst2sect fs clst + csize fs.

Lemma dir_clear_spec s clst :
  fs_inv s -> vol_geom (fsys s) -> 2 <= clst < n_fatent (fsys s) ->
  post (dir_clear clst) s (fun r s' =>
    core (fsys s) = core (fsys s') /\
    (forall x, 0 <= x -> ~ mirror (fsys s) x -> ~ in_cluster (fsys s) clst x -> vol s' x = vol s x) /\
    (r = FR_OK /\ fs_inv s' /\
       (forall x, in_cluster (fsys s) clst x -> vol s' x = replicate (Z.to_nat (ssize (fsys s))) 0)
     \/ r = FR_DISK_ERR)).
Proof.
  intros Hi Hg Hc. unfold dir_clear, get_fs, upd_fs.
  mcall sync_window_spec; [apply Hi|]. intros r s1 (Hw1 & [Hc1 Hv1] & _ & _ & Hr).
  destruct Hr as [[-> Hf]| ->]; cbn [fr_ok negb].
  2:{ mstep. split_and!; [done| |by right]. intros. symmetry. by apply Hv1. }
  assert (fs_inv s1) as Hi1 by (by eapply fs_inv_core).
  mstep. apply post_gets. mstep. apply post_modify. cbn beta. mstep. apply post_modify. cbn [fsys dev].
  pose proof (wi_ss_range s1 Hw1) as Hss.
  destruct (clear_size (fsys s1)) as (j & k & Hk & Ek & ->); [apply Hw1|by eapply vol_geom_core|].
  set (s2 := mkSt (set_win (replicate (Z.to_nat FF_MAX_SS) 0)
                     (set_winsect (clst2sect (fsys s1) clst) (fsys s1))) (dev s1)).
  assert (clst2sect (fsys s1) clst = clst2sect (fsys s) clst) as Ecs by (unfold clst2sect; by core_rewrite Hc1).
  pose proof (clst2sect_valid (fsys s) clst (vg_data _ Hg) Hc) as Esect.
  destruct (vg_data _ Hg) as [D1 D2 D3 D4 D5]. pose proof (wi_ss s1 Hw1) as Ess.
  assert (csize (fsys s1) = csize (fsys s)) as Ecz by (symmetry; exact (f_equal csize Hc1)).
  assert (ssize (fsys s1) = ssize (fsys s)) as Ezz by (symmetry; exact (f_equal ssize Hc1)).
  mstep. eapply post_mono.
  { apply (clear_body_spec s2 (fsys s1) _ j k); rewrite ?Ecs; try done. nia. rewrite Ecz. nia. }
  cbn [fsys dev s2]. intros n' s' (E1 & E2 & Hfr & Hz). mstep.
  assert (wflag (fsys s') = 0) as Hf' by (by rewrite E1).
  assert (core (fsys s) = core (fsys s')) as Hc' by (by rewrite E1).
  split_and!; [done| |].
  - intros x Hx Hm Hin. rewrite Hv1 by done. rewrite !vol_clean by done. apply Hfr; [done|].
    unfold in_cluster in Hin. by rewrite Ecs, Ecz.
  - destruct Hz as [[-> Hz]|Hlt]; [|right; by if_false]. left. rewrite Z.eqb_refl. split_and!; [done| |].
    + apply (fs_inv_core s); [done| |done]. split; rewrite E1; cbn; rewrite ?Ecs.
      * done.
      * by apply Forall_replicate.
      * congruence.
      * unfold is_u32. nia.
      * by eapply core_geom_ok; [|apply Hw1].
      * intros _ _. rewrite take_replicate, Hz, <- Ess by (rewrite Ecs; lia). f_equal. unfold FF_MAX_SS. lia.
    + intros x Hx. rewrite vol_clean by done. rewrite Hz, <- Ess, Ezz; [done|]. by rewrite Ecs, Ecz.
Qed.
End clear.

(** ** Properties of the directory tables *)

Section properties.
Context {D : Type} `{BlockDeviceLaws D} `{!Heap}.
Implicit Types s : St D.

(** Where a directory object may point: an entry inside a sector of the root area or of
    the data area, outside the FATs. *)
Definition entry_in_bounds (fs : FATFS) (dp : DIR) : Prop :=
  in_dir_area fs (d_sect dp) /\ 0 < d_sect dp < 2 ^ 32 /\
  ~ (fatbase fs <= d_sect dp < fatbase fs + n_fats fs * fsize fs) /\
  0 <= d_dir dp /\ d_dir dp + SZDIRE <= ssize fs.

Lemma dir_on_bounds s dp : fs_inv s -> vol_geom (fsys s) -> dir_on s dp -> entry_in_bounds (fsys s) dp.
Proof.
  intros Hi Hg (P & _ & _). pose proof (wi_geom s (fi_win s Hi)) as [Hss Hb Hf Hn _].
  pose proof (dir_pos_area _ Hss Hg dp P) as Ha. destruct (dir_area_ok _ Hg _ Hb Hf Hn Ha) as (A1 & A2 & A3).
  destruct (dpos_ptr _ _ P) as [_ Hm]. pose proof (entry_in_sector _ Hss _ Hm). pose proof (sect_size_bounds _ Hss).
  pose proof (Z.mod_pos_bound (dptr dp) (ssize (fsys s)) ltac:(lia)).
  unfold entry_in_bounds. rewrite (dpos_dir _ _ P). split_and!; try done; try lia.
  unfold mirror in A2. intros ?. destruct Hn as [E|E]; rewrite E in *; [lia|].
  destruct (decide (d_sect dp < fatbase (fsys s) + fsize (fsys s))); [lia|]. apply A2. split; [done|lia].
Qed.

(** Whatever the medium holds and whatever start cluster and offset the
    caller asks for, seeking in a directory table terminates, changes nothing of the
    volume and either reports an error or leaves the object on an entry that lies
    whole in one sector of the root area or of the data area: never in a FAT, never
    outside the volume, even when the chain of the directory is corrupt.  The internal
    error means that the table has no entry at the offset. *)
Theorem dir_sdi_in_bounds s dp ofs :
  fs_inv s -> vol_geom (fsys s) -> is_u32 (sclust (d_obj dp)) -> 0 <= ofs ->
  post (dir_sdi dp ofs) s (fun '(r, dp') s' =>
    fs_inv s' /\ vol_eq s s' /\
    (r = FR_OK /\ dptr dp' = ofs /\ entry_in_bounds (fsys s) dp' \/
     r = FR_INT_ERR /\ (fat_linked (fsys s) (d_obj dp) -> ~ reaches s (d_obj dp) ofs) \/ r = FR_DISK_ERR)).
Proof.
  intros Hi Hg Hs Ho. mcall dir_sdi_spec; [done..|]. intros [r dp'] s' (Hi' & Hv & _ & _ & _ & Hr).
  split_and!; [done..|]. destruct Hr as [(-> & Hon & E)|Hr]; [left|by right]. split_and!; [done..|].
  by eapply dir_on_bounds.
Qed.

(** Stepping agrees with seeking.  From an entry that [dir_sdi] reached,
    [dir_next] returns, and a seek to the next offset then returns; if that seek
    succeeds, the step moved to the very same cluster, sector and entry, unless the
    disk failed: a walk by [dir_next] skips no entry of the table; and whenever the
    step succeeds it is on an entry of the volume, 32 bytes further. *)
Theorem dir_next_agrees_sdi s dp ofs dp1 s1 :
  fs_inv s -> vol_geom (fsys s) -> is_u32 (sclust (d_obj dp)) -> 0 <= ofs ->
  fat_linked (fsys s) (d_obj dp) ->
  dir_sdi dp ofs s = Some ((FR_OK, dp1), s1) ->
  post (dir_next dp1 false) s1 (fun '(r2, dp2) s2 =>
    (r2 = FR_OK -> dptr dp2 = ofs + SZDIRE /\ entry_in_bounds (fsys s) dp2) /\
    post (dir_sdi dp (ofs + SZDIRE)) s2 (fun '(r3, dp3) s3 =>
      fs_inv s3 /\ vol_eq s s3 /\
      (r3 = FR_OK ->
         r2 = FR_DISK_ERR \/
         r2 = FR_OK /\ d_clust dp2 = d_clust dp3 /\ d_sect dp2 = d_sect dp3 /\ d_dir dp2 = d_dir dp3))).
Proof.
  intros Hi Hg Hsc Ho Hl Hrun. pose proof (dir_sdi_spec s dp ofs Hi Hg Hsc Ho) as Hsp.
  unfold post in Hsp. rewrite Hrun in Hsp. destruct Hsp as (Hi1 & Hv1 & Hobj & _ & _ & Hr).
  destruct Hr as [(_ & Hon & Ep)|[[? _]|?]]; [|done..]. apply (dir_on_vol_eq s s1) in Hon; [|done..].
  destruct (Hv1) as [Hc1 _]. assert (vol_geom (fsys s1)) as Hg1 by (by eapply vol_geom_core).
  eapply post_mono; [by apply dir_next_spec|]. intros [r2 dp2] s2 (Hi2 & Hv2 & Eobj & _ & _ & Hr2).
  rewrite Ep in Hr2. assert (vol_eq s s2) as Hv by (by etrans). assert (vol_eq s2 s1) as Hv' by (by symmetry).
  split.
  { intros ->. destruct Hr2 as [(_ & Hon2 & E2)|[[[[? _]|?] _]|[? _]]]; [|done..]. split; [done|].
    eapply dir_on_bounds; [done..|]. apply (dir_on_vol_eq s1 s); [done|by symmetry|done]. }
  destruct (Hv) as [Hc _]. eapply post_mono; [apply dir_sdi_spec; try done|].
  { by eapply vol_geom_core. } { unfold SZDIRE; lia. }
  intros [r3 dp3] s3 (Hi3 & Hv3 & Hobj3 & _ & _ & Hr3). split_and!; [done|by etrans|].
  intros ->. destruct Hr3 as [(_ & Hon3 & Ep3)|[[? _]|?]]; [|done..].
  apply (dir_on_vol_eq s2 s1) in Hon3; [|done..].
  assert (forall o, o = d_obj dp \/ o = set_stat 0 (d_obj dp) -> fat_linked (fsys s1) o /\ sclust o = sclust (d_obj dp))
    as Hk.
  { unfold fat_linked in *. core_rewrite Hc1. intros o [->| ->]; [done|]. split; [|done].
    destruct Hl as [?|[_ ?]]; [by left|by right]. }
  destruct (Hk _ Hobj) as [L1 S1], (Hk _ Hobj3) as [L3 S3].
  destruct Hr2 as [(-> & Hon2 & E2)|[(_ & He & _)|[-> _]]]; [right; split; [done|]| |by left].
  - apply (dir_on_unique s1); rewrite ?Eobj; try done; congruence.
  - exfalso. eapply (table_end_no_entry s1 dp1 dp3); try done; congruence.
Qed.

(** Clearing a cluster for a directory returns; when it succeeds every
    sector of the cluster reads as zeros, through a window that is still coherent, and
    whether it succeeds or not no other sector of the volume changes, however little
    memory the heap gives. *)
Theorem dir_clear_zeroes s clst :
  fs_inv s -> vol_geom (fsys s) -> 2 <= clst < n_fatent (fsys s) ->
  post (dir_clear clst) s (fun r s' =>
    (forall x, 0 <= x -> ~ mirror (fsys s) x -> ~ in_cluster (fsys s) clst x -> vol s' x = vol s x) /\
    (r = FR_OK /\ fs_inv s' /\
       (forall x, in_cluster (fsys s) clst x -> vol s' x = replicate (Z.to_nat (ssize (fsys s))) 0)
     \/ r = FR_DISK_ERR)).
Proof. intros Hi Hg Hc. mcall dir_clear_spec; [done..|]. by intros r s' (_ & ? & ?). Qed.
End properties.
