(* ===== verification/Dirent.v ===== *)
(** * Directory entries

    The functions of [src/ff/src/ff/ff.c] that read, find, register and remove the
    objects of a directory: [load_xdir], [init_alloc_info], [load_obj_xdir],
    [store_xdir], [create_xdir], [dir_read], [dir_find], [dir_register], [dir_remove]. *)

From stdpp Require Import prelude list.
From Stdlib Require Import ZArith Lia.
From S2P Require Import Prelude Bytes Unicode Diskio FFTypes Window Fat Bitmap Chain Lfn Dir.

Local Open Scope Z_scope.
Local Open Scope cint_scope.

Definition AM_RDO := 0x01.
Definition AM_HID := 0x02.
Definition AM_SYS := 0x04.
Definition AM_VOL := 0x08.
Definition AM_DIR := 0x10.
Definition AM_ARC := 0x20.
Definition AM_MASK := 0x3F.
Definition AM_MASKX := 0x37.

Definition NSFLAG := 11.
Definition NS_LOSS := 0x01.
Definition NS_LFN := 0x02.
Definition NS_LAST := 0x04.
Definition NS_BODY := 0x08.
Definition NS_EXT := 0x10.
Definition NS_DOT := 0x20.
Definition NS_NOLFN := 0x40.
Definition NS_NONAME := 0x80.

Definition ET_FILEDIR := 0x85.
Definition ET_STREAM := 0xC0.
Definition ET_FILENAME := 0xC1.

Definition XDIR_Attr := 4.
Definition XDIR_GenFlags := 33.
Definition XDIR_NumName := 35.
Definition XDIR_NameHash := 36.
Definition XDIR_ValidFileSize := 40.
Definition XDIR_FstClus := 52.
Definition XDIR_FileSize := 56.

Definition NO_BLK := 0xFFFFFFFF.

Definition has (x flag : Z) : bool := negb (Z.land x flag =? 0).

Definition MAXDIRB (nc : Z) : Z := (nc + 44) / 15 * SZDIRE.

Definition set_d_attr (v : Z) (dp : DIR) : DIR :=
  let o := d_obj dp in
  set_d_obj (mkFFOBJID (obj_id o) v (obj_stat o) (sclust o) (objsize o) (n_cont o) (n_frag o)
               (c_scl o) (c_size o) (c_ofs o)) dp.

(** The 32 bytes of the entry the object points at. *)
Definition entry_bytes (fs : FATFS) (dp : DIR) : list Z := sub (win fs) (d_dir dp) SZDIRE.

Section code.
Context {D : Type} `{BlockDevice D} `{!Heap}.

(** ** exFAT entry sets *)

(** [res = dir_next(dp, 0)] with "no file" turned into an internal error, then
    [move_window]. *)
Definition load_next (dp : DIR) : M (St D) (FRESULT * DIR) :=
  '(res, dp) ← dir_next dp false;
  let res := match res with FR_NO_FILE => FR_INT_ERR | _ => res end in
  if negb (fr_ok res) then mret (res, dp) else
  res ← move_window (d_sect dp);
  mret (res, dp).

(** [memcpy(dirb + i, dp->dir, SZDIRE)] *)
Definition load_copy (dp : DIR) (i : Z) : M (St D) unit :=
  upd_fs (fun fs => set_dirbuf (blit (dirbuf fs) i (entry_bytes fs dp)) fs).

Definition load_name_step (sz_ent : Z) : DIR * Z -> M (St D) (DIR * Z + FRESULT * DIR * Z) :=
  fun '(dp, i) =>
    '(res, dp) ← load_next dp;
    if negb (fr_ok res) then mret (inr (res, dp, i)) else
    fs ← get_fs;
    if negb (dirb fs dp XDIR_Type =? ET_FILENAME) then mret (inr (FR_INT_ERR, dp, i)) else
    (if i <? MAXDIRB FF_MAX_LFN then load_copy dp i else mret tt);;
    let i := i + SZDIRE in
    if i <? sz_ent then mret (inl (dp, i)) else mret (inr (FR_OK, dp, i)).

Definition load_xdir (dp : DIR) : M (St D) (FRESULT * DIR) :=
  res ← move_window (d_sect dp);
  if negb (fr_ok res) then mret (res, dp) else
  fs ← get_fs;
  if negb (dirb fs dp XDIR_Type =? ET_FILEDIR) then mret (FR_INT_ERR, dp) else
  load_copy dp 0;;
  fs ← get_fs;
  let sz_ent := ((dirbuf fs).[XDIR_NumSec] + 1) * SZDIRE in
  if (sz_ent <? 3 * SZDIRE) || (19 * SZDIRE <? sz_ent) then mret (FR_INT_ERR, dp) else
  '(res, dp) ← load_next dp;
  if negb (fr_ok res) then mret (res, dp) else
  fs ← get_fs;
  if negb (dirb fs dp XDIR_Type =? ET_STREAM) then mret (FR_INT_ERR, dp) else
  load_copy dp SZDIRE;;
  fs ← get_fs;
  if sz_ent <? MAXDIRB (dirbuf fs).[XDIR_NumName] then mret (FR_INT_ERR, dp) else
  '(res, dp, i) ← iterate 32 (load_name_step sz_ent) (dp, 2 * SZDIRE);
  if negb (fr_ok res) then mret (res, dp) else
  fs ← get_fs;
  if (i <=? MAXDIRB FF_MAX_LFN) && negb (xdir_sum (dirbuf fs) =? ld_word (dirbuf fs) XDIR_SetSum)
  then mret (FR_INT_ERR, dp) else mret (FR_OK, dp).

Definition init_alloc_info (fs : FATFS) (obj : FFOBJID) : FFOBJID :=
  let obj := set_sclust (ld_dword (dirbuf fs) XDIR_FstClus) obj in
  let obj := set_objsize (ld_qword (dirbuf fs) XDIR_FileSize) obj in
  let obj := set_stat (Z.land (dirbuf fs).[XDIR_GenFlags] 2) obj in
  set_n_frag 0 obj.

Definition load_obj_xdir (dp : DIR) (obj : FFOBJID) : M (St D) (FRESULT * DIR) :=
  let o := set_sclust (c_scl obj) (d_obj dp) in
  let o := set_stat (u8 (c_size obj)) o in
  let o := set_objsize (Z.land (c_size obj) 0xFFFFFF00) o in
  let o := set_n_frag 0 o in
  let dp := set_blk_ofs (c_ofs obj) (set_d_obj o dp) in
  '(res, dp) ← dir_sdi dp (blk_ofs dp);
  if fr_ok res then load_xdir dp else mret (res, dp).

(** [memcpy(dp->dir, src, SZDIRE); fs->wflag = 1] *)
Definition store_entry (dp : DIR) (src : list Z) : M (St D) unit :=
  fs ← get_fs;
  poke_win (blit (win fs) (d_dir dp) src).

(** The loop of [store_xdir]; [o] is the offset of [dirb] in the entry set. *)
Fixpoint store_loop (fuel : nat) (res : FRESULT) (dp : DIR) (nent o : Z) : M (St D) (FRESULT * DIR) :=
  match fuel with
  | O => mret (res, dp)
  | S fuel =>
      if negb (fr_ok res) then mret (res, dp) else
      res ← move_window (d_sect dp);
      if negb (fr_ok res) then mret (res, dp) else
      fs ← get_fs;
      store_entry dp (sub (dirbuf fs) o SZDIRE);;
      let nent := nent - 1 in
      if nent =? 0 then mret (res, dp) else
      '(res, dp) ← dir_next dp false;
      store_loop fuel res dp nent (o + SZDIRE)
  end.

Definition store_xdir (dp : DIR) : M (St D) (FRESULT * DIR) :=
  upd_fs (fun fs => set_dirbuf (st_word (dirbuf fs) XDIR_SetSum (xdir_sum (dirbuf fs))) fs);;
  fs ← get_fs;
  let nent := (dirbuf fs).[XDIR_NumSec] + 1 in
  '(res, dp) ← dir_sdi dp (blk_ofs dp);
  '(res, dp) ← store_loop (Z.to_nat nent + 1) res dp nent 0;
  mret (match res with FR_OK | FR_DISK_ERR => res | _ => FR_INT_ERR end, dp).
End code.

(** The name field of a file-name entry, [do ... while (i % SZDIRE != 0)]. *)
Fixpoint xname_fill (fuel : nat) (dirb lfn : list Z) (i nlen wc : Z) : list Z * Z * Z * Z :=
  match fuel with
  | O => (dirb, i, nlen, wc)
  | S fuel =>
      let '(wc, nlen) :=
        if negb (wc =? 0) then (lfn.[nlen], if negb (lfn.[nlen] =? 0) then u8 (nlen + 1) else nlen)
        else (wc, nlen) in
      let dirb := st_word dirb i wc in
      let i := i + 2 in
      if negb (i mod SZDIRE =? 0) then xname_fill fuel dirb lfn i nlen wc else (dirb, i, nlen, wc)
  end.

(** The file-name entries, [do ... while (lfn[nlen])]. *)
Fixpoint xname_entries (fuel : nat) (dirb lfn : list Z) (i nlen nc1 wc : Z) : list Z * Z * Z :=
  match fuel with
  | O => (dirb, nlen, nc1)
  | S fuel =>
      let dirb := setb (setb dirb i ET_FILENAME) (i + 1) 0 in
      let '(dirb, i, nlen, wc) := xname_fill 16 dirb lfn (i + 2) nlen wc in
      let nc1 := u8 (nc1 + 1) in
      if negb (lfn.[nlen] =? 0) then xname_entries fuel dirb lfn i nlen nc1 wc else (dirb, nlen, nc1)
  end.

Definition create_xdir (dirb lfn : list Z) : list Z :=
  let dirb := blit dirb 0 (replicate 64 0) in
  let dirb := setb dirb XDIR_Type ET_FILEDIR in
  let dirb := setb dirb (SZDIRE + XDIR_Type) ET_STREAM in
  let '(dirb, nlen, nc1) := xname_entries 18 dirb lfn (SZDIRE * 2) 0 0 1 in
  let dirb := setb dirb XDIR_NumName nlen in
  let dirb := setb dirb XDIR_NumSec (u8 (1 + nc1)) in
  st_word dirb XDIR_NameHash (xname_sum lfn).

(** ** The scan of a table *)

(** What an entry does to a scan: it goes on with the state of the long-name sequence
    ([ord], [sum], [blk_ofs]), or it ends at the entry with its [blk_ofs]. *)
Inductive scan := Skip (ord sum blk : Z) | Stop (blk : Z).

(** The start of a long-name sequence resets the expected order, the checksum and the
    place of the sequence. *)
Definition lfn_start (w : list Z) (dir p b ord sum blk : Z) : Z * Z * Z * Z :=
  if has b LLEF then
    let b := Z.land b (Z.lnot LLEF) in (b, b, w.[dir + LDIR_Chksum], p)
  else (b, ord, sum, blk).

(** The body of the loop of [dir_read] on a FAT volume, for the entry at [dir] of the
    window: the name buffer and the effect on the scan. *)
Definition read_entry (lfnbuf w : list Z) (dir p : Z) (vol : bool) (ord sum blk : Z) : list Z * scan :=
  let b := w.[dir + DIR_Name] in
  let attr := Z.land w.[dir + DIR_Attr] AM_MASK in
  if (b =? DDEM) || (b =? 46) || negb (Bool.eqb (Z.land attr (Z.lnot AM_ARC) =? AM_VOL) vol)
  then (lfnbuf, Skip 0xFF sum blk)
  else if attr =? AM_LFN then
    let '(b, ord, sum, blk) := lfn_start w dir p b ord sum blk in
    if (b =? ord) && (sum =? w.[dir + LDIR_Chksum]) then
      let '(ok, lfnbuf) := pick_lfn lfnbuf w dir in
      (lfnbuf, Skip (if ok then u8 (ord - 1) else 0xFF) sum blk)
    else (lfnbuf, Skip 0xFF sum blk)
  else (lfnbuf, Stop (if negb (ord =? 0) || negb (sum =? sum_sfn w dir) then NO_BLK else blk)).

(** The body of the loop of [dir_find] on a FAT volume; [fn] is the short name with its
    status byte. *)
Definition find_entry (lfnbuf fn w : list Z) (dir p : Z) (ord sum blk : Z) : scan :=
  let c := w.[dir + DIR_Name] in
  let a := Z.land w.[dir + DIR_Attr] AM_MASK in
  if (c =? DDEM) || has a AM_VOL && negb (a =? AM_LFN) then Skip 0xFF sum NO_BLK
  else if a =? AM_LFN then
    if negb (has fn.[NSFLAG] NS_NOLFN) then
      let '(c, ord, sum, blk) := lfn_start w dir p c ord sum blk in
      Skip (if (c =? ord) && (sum =? w.[dir + LDIR_Chksum]) && cmp_lfn lfnbuf w dir
            then u8 (ord - 1) else 0xFF) sum blk
    else Skip ord sum blk
  else if (ord =? 0) && (sum =? sum_sfn w dir) then Stop blk
  else if negb (has fn.[NSFLAG] NS_LOSS) && bool_decide (sub w dir 11 = take 11 fn) then Stop blk
  else Skip 0xFF sum NO_BLK.

Section scans.
Context {D : Type} `{BlockDevice D} `{!Heap}.

Definition read_next (dp : DIR) (ord sum : Z) : M (St D) (DIR * FRESULT * Z * Z + FRESULT * DIR) :=
  '(res, dp) ← dir_next dp false;
  if fr_ok res then mret (inl (dp, res, ord, sum)) else mret (inr (res, dp)).

Definition read_step (vol : bool) : DIR * FRESULT * Z * Z -> M (St D) (DIR * FRESULT * Z * Z + FRESULT * DIR) :=
  fun '(dp, res, ord, sum) =>
    if d_sect dp =? 0 then mret (inr (res, dp)) else
    res ← move_window (d_sect dp);
    if negb (fr_ok res) then mret (inr (res, dp)) else
    fs ← get_fs;
    if dirb fs dp DIR_Name =? 0 then mret (inr (FR_NO_FILE, dp)) else
    if is_exfat fs then
      if dirb fs dp DIR_Name =? ET_FILEDIR then
        '(res, dp) ← load_xdir (set_blk_ofs (dptr dp) dp);
        fs ← get_fs;
        mret (inr (res, if fr_ok res then set_d_attr (Z.land (dirbuf fs).[XDIR_Attr] AM_MASK) dp else dp))
      else read_next dp ord sum
    else
      let dp := set_d_attr (Z.land (dirb fs dp DIR_Attr) AM_MASK) dp in
      let '(l, r) := read_entry (lfnbuf fs) (win fs) (d_dir dp) (dptr dp) vol ord sum (blk_ofs dp) in
      upd_fs (set_lfnbuf l);;
      match r with
      | Stop blk => mret (inr (FR_OK, set_blk_ofs blk dp))
      | Skip ord sum blk => read_next (set_blk_ofs blk dp) ord sum
      end.

Definition dir_read (dp : DIR) (vol : bool) : M (St D) (FRESULT * DIR) :=
  fs ← get_fs;
  '(res, dp) ← iterate (dir_rounds fs) (read_step vol) (dp, FR_NO_FILE, 0xFF, 0xFF);
  mret (res, if fr_ok res then dp else set_d_sect 0 dp).

(** [for (nc = ..., di = SZDIRE * 2, ni = 0; nc; nc--, di += 2, ni++)] with the test
    that follows: is the name of the entry set the one of the buffer? *)
Fixpoint xname_match (nc : nat) (dirbuf lfnbuf : list Z) (di ni : Z) : bool :=
  match nc with
  | O => lfnbuf.[ni] =? 0
  | S nc =>
      let di := if di mod SZDIRE =? 0 then di + 2 else di in
      if negb (ff_wtoupper (ld_word dirbuf di) =? ff_wtoupper lfnbuf.[ni]) then false
      else xname_match nc dirbuf lfnbuf (di + 2) (ni + 1)
  end.

Definition find_exfat_step (hash : Z) : DIR -> M (St D) (DIR + FRESULT * DIR) := fun dp =>
  '(res, dp) ← dir_read dp false;
  if negb (fr_ok res) then mret (inr (res, dp)) else
  fs ← get_fs;
  if negb (ld_word (dirbuf fs) XDIR_NameHash =? hash) then mret (inl dp)
  else if xname_match (Z.to_nat (dirbuf fs).[XDIR_NumName]) (dirbuf fs) (lfnbuf fs) (SZDIRE * 2) 0
  then mret (inr (res, dp)) else mret (inl dp).

Definition find_step : DIR * Z * Z -> M (St D) (DIR * Z * Z + FRESULT * DIR) :=
  fun '(dp, ord, sum) =>
    res ← move_window (d_sect dp);
    if negb (fr_ok res) then mret (inr (res, dp)) else
    fs ← get_fs;
    if dirb fs dp DIR_Name =? 0 then mret (inr (FR_NO_FILE, dp)) else
    let dp := set_d_attr (Z.land (dirb fs dp DIR_Attr) AM_MASK) dp in
    match find_entry (lfnbuf fs) (d_fn dp) (win fs) (d_dir dp) (dptr dp) ord sum (blk_ofs dp) with
    | Stop blk => mret (inr (FR_OK, set_blk_ofs blk dp))
    | Skip ord sum blk =>
        '(res, dp) ← dir_next (set_blk_ofs blk dp) false;
        if fr_ok res then mret (inl (dp, ord, sum)) else mret (inr (res, dp))
    end.

Definition dir_find (dp : DIR) : M (St D) (FRESULT * DIR) :=
  '(res, dp) ← dir_sdi dp 0;
  if negb (fr_ok res) then mret (res, dp) else
  fs ← get_fs;
  if is_exfat fs then iterate (dir_rounds fs) (find_exfat_step (xname_sum (lfnbuf fs))) dp
  else iterate (dir_rounds fs) find_step (set_blk_ofs NO_BLK dp, 0xFF, 0xFF).

(** ** Registration *)

(** [for (len = 0; fs->lfnbuf[len]; len++) ;] *)
Fixpoint lfn_len (l : list Z) : Z :=
  match l with
  | [] => 0
  | c :: l => if c =? 0 then 0 else lfn_len l + 1
  end.

(** [for (n = 1; n < 100; n++)]: the last [n], the result of [dir_find] and the object. *)
Fixpoint reg_num (fuel : nat) (n : Z) (sn : list Z) (res : FRESULT) (dp : DIR) : M (St D) (Z * FRESULT * DIR) :=
  match fuel with
  | O => mret (n, res, dp)
  | S fuel =>
      if n <? 100 then
        fs ← get_fs;
        '(res, dp) ← dir_find (set_d_fn (gen_numname (d_fn dp) sn (lfnbuf fs) n) dp);
        if negb (fr_ok res) then mret (n, res, dp) else reg_num fuel (n + 1) sn res dp
      else mret (n, res, dp)
  end.

(** The entries of the long name, bottom first. *)
Fixpoint reg_lfn (fuel : nat) (dp : DIR) (n_ent sum : Z) : M (St D) (FRESULT * DIR) :=
  match fuel with
  | O => mret (FR_OK, dp)
  | S fuel =>
      res ← move_window (d_sect dp);
      if negb (fr_ok res) then mret (res, dp) else
      fs ← get_fs;
      poke_win (put_lfn (lfnbuf fs) (win fs) (d_dir dp) (u8 n_ent) sum);;
      '(res, dp) ← dir_next dp false;
      if fr_ok res && negb (n_ent - 1 =? 0) then reg_lfn fuel dp (n_ent - 1) sum else mret (res, dp)
  end.

(** The branch for exFAT volumes; [dj] is the uninitialised local object. *)
Definition register_exfat (dj dp : DIR) (len : Z) : M (St D) (FRESULT * DIR) :=
  let n_ent := (len + 14) / 15 + 2 in
  '(res, dp) ← dir_alloc dp n_ent;
  if negb (fr_ok res) then mret (res, dp) else
  let dp := set_blk_ofs (dptr dp -u32 SZDIRE * (n_ent - 1)) dp in
  '(res, dp) ←
    (if has (obj_stat (d_obj dp)) 4 then
       let obj := set_stat (Z.land (obj_stat (d_obj dp)) (Z.lnot 4)) (d_obj dp) in
       '(res, obj) ← fill_first_frag obj;
       if negb (fr_ok res) then mret (res, set_d_obj obj dp) else
       '(res, obj) ← fill_last_frag obj (d_clust dp) 0xFFFFFFFF;
       if negb (fr_ok res) then mret (res, set_d_obj obj dp) else
       if negb (sclust obj =? 0) then
         '(res, dj) ← load_obj_xdir dj obj;
         if negb (fr_ok res) then mret (res, set_d_obj obj dp) else
         fs ← get_fs;
         let size := u64 (objsize obj + csize fs *u32 ssize fs) in
         let obj := set_objsize size obj in
         let db := st_qword (dirbuf fs) XDIR_FileSize size in
         let db := st_qword db XDIR_ValidFileSize size in
         upd_fs (set_dirbuf (setb db XDIR_GenFlags (Z.lor (obj_stat obj) 1)));;
         '(res, _) ← store_xdir dj;
         mret (res, set_d_obj obj dp)
       else mret (FR_OK, set_d_obj obj dp)
     else mret (FR_OK, dp));
  if negb (fr_ok res) then mret (res, dp) else
  upd_fs (fun fs => set_dirbuf (create_xdir (dirbuf fs) (lfnbuf fs)) fs);;
  mret (FR_OK, dp).

(** The short entry at the end of the allocated block. *)
Definition register_sfn (dp : DIR) : M (St D) (FRESULT * DIR) :=
  res ← move_window (d_sect dp);
  if fr_ok res then
    fs ← get_fs;
    let w := blit (win fs) (d_dir dp) (replicate 32 0) in
    let w := blit w (d_dir dp + DIR_Name) (take 11 (d_fn dp)) in
    poke_win (setb w (d_dir dp + DIR_NTres) (Z.land (d_fn dp).[NSFLAG] (Z.lor NS_BODY NS_EXT)));;
    mret (res, dp)
  else mret (res, dp).

Definition dir_register (dj dp : DIR) : M (St D) (FRESULT * DIR) :=
  if has (d_fn dp).[NSFLAG] (Z.lor NS_DOT NS_NONAME) then mret (FR_INVALID_NAME, dp) else
  fs ← get_fs;
  let len := lfn_len (lfnbuf fs) in
  if is_exfat fs then register_exfat dj dp len else
  let sn := d_fn dp in
  p ← (if has sn.[NSFLAG] NS_LOSS then
         let dp := set_d_fn (setb (d_fn dp) NSFLAG NS_NOLFN) dp in
         '(n, res, dp) ← reg_num 100 1 sn FR_OK dp;
         if n =? 100 then mret (inl (FR_DENIED, dp))
         else match res with
              | FR_NO_FILE => mret (inr (set_d_fn (setb (d_fn dp) NSFLAG sn.[NSFLAG]) dp))
              | _ => mret (inl (res, dp))
              end
       else mret (inr dp));
  match p with
  | inl r => mret r
  | inr dp =>
      let n_ent := if has sn.[NSFLAG] NS_LFN then (len + 12) / 13 + 1 else 1 in
      '(res, dp) ← dir_alloc dp n_ent;
      '(res, dp) ←
        (if fr_ok res && negb (n_ent - 1 =? 0) then
           let n_ent := n_ent - 1 in
           '(res, dp) ← dir_sdi dp (dptr dp -u32 n_ent * SZDIRE);
           if fr_ok res then reg_lfn (Z.to_nat n_ent) dp n_ent (sum_sfn (d_fn dp) 0) else mret (res, dp)
         else mret (res, dp));
      if fr_ok res then register_sfn dp else mret (res, dp)
  end.

(** ** Removal *)

Definition remove_step (last : Z) : DIR -> M (St D) (DIR + FRESULT * DIR) := fun dp =>
  res ← move_window (d_sect dp);
  if negb (fr_ok res) then mret (inr (res, dp)) else
  fs ← get_fs;
  poke_win (if is_exfat fs then setb (win fs) (d_dir dp + XDIR_Type) (Z.land (dirb fs dp XDIR_Type) 0x7F)
            else setb (win fs) (d_dir dp + DIR_Name) DDEM);;
  if last <=? dptr dp then mret (inr (res, dp)) else
  '(res, dp) ← dir_next dp false;
  if fr_ok res then mret (inl dp) else mret (inr (res, dp)).

Definition dir_remove (dp : DIR) : M (St D) (FRESULT * DIR) :=
  let last := dptr dp in
  '(res, dp) ← (if blk_ofs dp =? NO_BLK then mret (FR_OK, dp) else dir_sdi dp (blk_ofs dp));
  if fr_ok res then
    fs ← get_fs;
    '(res, dp) ← iterate (dir_rounds fs) (remove_step last) dp;
    mret (match res with FR_NO_FILE => FR_INT_ERR | _ => res end, dp)
  else mret (res, dp).
End scans.
