(* ===== verification/DirFind.v ===== *)
(** * Finding an object in a directory

    [dir_find] of [src/ff/src/ff/ff.c] on a FAT volume refines the scan of the entries of
    the table ([scan_table]): entry [k] of a directory is [table_entry s obj k], a
    function of the view of the volume alone; the scan knows nothing of sectors,
    clusters and windows.  Long names are then found through the scan. *)

From stdpp Require Import prelude list.
From Stdlib Require Import ZArith Lia.
From S2P Require Import Prelude Bytes Unicode Diskio FFTypes Window Fat Bitmap Chain Lfn Dir Dirent.

Local Open Scope Z_scope.
Local Open Scope cint_scope.

(** ** An entry is its 32 bytes *)

(** Two buffers show the same entry. *)
Definition same_entry (w : list Z) (dir : Z) (w' : list Z) (dir' : Z) : Prop :=
  0 <= dir /\ 0 <= dir' /\ dir + 32 <= zlen w /\ dir' + 32 <= zlen w' /\
  forall k, 0 <= k < 32 -> w.[dir + k] = w'.[dir' + k].

Section locality.
Context (w : list Z) (dir : Z) (w' : list Z) (dir' : Z) (Hs : same_entry w dir w' dir').

Lemma se_byte k : 0 <= k < 32 -> w.[dir + k] = w'.[dir' + k].
Proof. apply Hs. Qed.

Lemma se_word k : 0 <= k < 31 -> ld_word w (dir + k) = ld_word w' (dir' + k).
Proof. intros Hk. unfold ld_word. by rewrite <- !Z.add_assoc, !se_byte by lia. Qed.

Lemma se_cmp_lfn_loop ofs l i wc :
  Forall (fun o => 0 <= o < 31) ofs -> cmp_lfn_loop ofs l w dir i wc = cmp_lfn_loop ofs l w' dir' i wc.
Proof.
  intros Ho. revert i wc. induction Ho as [|o ofs Ho _ IH]; intros i wc; [done|].
  cbn [cmp_lfn_loop]. rewrite se_word by done. by rewrite !IH.
Qed.

Lemma LfnOfs_range : Forall (fun o => 0 <= o < 31) LfnOfs.
Proof. by apply (bool_decide_unpack _). Qed.

Lemma se_cmp_lfn l : cmp_lfn l w dir = cmp_lfn l w' dir'.
Proof.
  unfold cmp_lfn, LDIR_FstClusLO, LDIR_Ord. rewrite se_word, se_byte by lia.
  by rewrite se_cmp_lfn_loop by apply LfnOfs_range.
Qed.

Lemma se_sum_sfn : sum_sfn w dir = sum_sfn w' dir'.
Proof.
  unfold sum_sfn. enough (forall n k sum, 0 <= k -> k + Z.of_nat n <= 32 ->
    sum_sfn_loop n w (dir + k) sum = sum_sfn_loop n w' (dir' + k) sum) as He.
  { specialize (He 11%nat 0 0). rewrite !Z.add_0_r in He. apply He; lia. }
  induction n as [|n IH]; intros k sum Hk Hn; [done|]. cbn [sum_sfn_loop].
  rewrite se_byte, <- !Z.add_assoc by lia. apply IH; lia.
Qed.

Lemma se_sub n : 0 <= n <= 32 -> sub w dir n = sub w' dir' n.
Proof.
  destruct Hs as (H1 & H2 & H3 & H4 & He). intros Hn. unfold sub, zlen in *. apply list_eq. intros i.
  destruct (decide (Z.of_nat i < n)) as [Hi|Hi].
  2:{ rewrite !lookup_ge_None_2; [done|rewrite length_take, length_drop; lia..]. }
  rewrite !lookup_take_lt, !lookup_drop by lia.
  specialize (He (Z.of_nat i) ltac:(lia)). unfold getb in He.
  destruct (lookup_lt_is_Some_2 w (Z.to_nat dir + i)) as [a Ha]; [lia|].
  destruct (lookup_lt_is_Some_2 w' (Z.to_nat dir' + i)) as [b Hb]; [lia|].
  rewrite Ha, Hb. f_equal. rewrite !nth_lookup in He.
  replace (Z.to_nat (dir + Z.of_nat i)) with (Z.to_nat dir + i)%nat in He by lia.
  replace (Z.to_nat (dir' + Z.of_nat i)) with (Z.to_nat dir' + i)%nat in He by lia.
  by rewrite Ha, Hb in He.
Qed.

Lemma se_find_entry l fn p ord sum blk :
  find_entry l fn w dir p ord sum blk = find_entry l fn w' dir' p ord sum blk.
Proof.
  unfold find_entry, lfn_start, DIR_Name, DIR_Attr, LDIR_Chksum.
  rewrite !se_byte, se_cmp_lfn, se_sum_sfn, (se_sub 11) by lia. done.
Qed.
End locality.

(** ** The scan of [dir_find], as a function of the entries

    [e k] is entry [k] of the table; the scan starts at entry [k] and looks at [n]
    entries: the place of the entry found, with the offset of its long name. *)
Fixpoint scan_table (n : nat) (e : Z -> list Z) (l fn : list Z) (k ord sum blk : Z) : option (Z * Z) :=
  match n with
  | O => None
  | S n =>
      if (e k).[0] =? 0 then None else
      match find_entry l fn (e k) 0 (SZDIRE * k) ord sum blk with
      | Stop b => Some (k, b)
      | Skip ord sum blk => scan_table n e l fn (k + 1) ord sum blk
      end
  end.

(** ** The table of a directory *)

Section table.
Context {D : Type} `{BlockDeviceLaws D}.
Implicit Types s : St D.

Definition table_sect s (obj : FFOBJID) (k : Z) : Z :=
  let fs := fsys s in let o := SZDIRE * k in
  if dir_start fs obj =? 0 then dirbase fs + o / ssize fs
  else database fs + csize fs * (link (follow s) (o / csz_of fs) (dir_start fs obj) - 2)
       + (o / ssize fs) mod csize fs.

(** Entry [k] of the table, as the driver sees it. *)
Definition table_entry s (obj : FFOBJID) (k : Z) : list Z :=
  sub (vol s (table_sect s obj k)) ((SZDIRE * k) mod ssize (fsys s)) SZDIRE.

(** The table has an entry [k]. *)
Definition in_table s (obj : FFOBJID) (k : Z) : Prop :=
  let fs := fsys s in
  0 <= k /\ SZDIRE * k < max_dir fs /\
  if dir_start fs obj =? 0 then fs_type fs < FS_FAT32 /\ k < n_rootdir fs
  else 2 <= link (follow s) (SZDIRE * k / csz_of fs) (dir_start fs obj) < n_fatent fs.

(** The table is cut off before entry [k]: it has no first entry, or the chain of its
    clusters goes on with a link that is neither a cluster nor an end mark. *)
Definition broken_at s (obj : FFOBJID) (k : Z) : Prop :=
  let fs := fsys s in
  ~ in_table s obj k /\
  (k = 0 \/ dir_start fs obj <> 0 /\ SZDIRE * k < max_dir fs /\
            link (follow s) (SZDIRE * k / csz_of fs) (dir_start fs obj) <= 1).

Definition same_obj (o o' : FFOBJID) : Prop :=
  sclust o = sclust o' /\ obj_stat o = obj_stat o' /\ n_frag o = n_frag o'.

Lemma same_obj_start fs o o' : same_obj o o' -> dir_start fs o = dir_start fs o'.
Proof. intros (E & _ & _). unfold dir_start. by rewrite E. Qed.

Lemma same_obj_linked fs o o' : same_obj o o' -> fat_linked fs o -> fat_linked fs o'.
Proof. intros (_ & E1 & E2). unfold fat_linked. by rewrite E1, E2. Qed.

(** The position does not depend on the other members. *)
Lemma dir_on_same s dp dp' :
  dir_on s dp -> same_obj (d_obj dp) (d_obj dp') -> dptr dp' = dptr dp -> d_clust dp' = d_clust dp ->
  d_sect dp' = d_sect dp -> d_dir dp' = d_dir dp -> dir_on s dp'.
Proof.
  intros ([P1 P2 P3 P4] & S & L) Ho E1 E2 E3 E4. pose proof (same_obj_start (fsys s) _ _ Ho) as Es.
  split_and!; [split|..]; rewrite ?E1, ?E2, ?E3, ?E4, <- ?Es; auto.
  intros Hl. apply L. revert Hl. apply same_obj_linked. destruct Ho as (? & ? & ?). by split_and!.
Qed.

Lemma dir_on_table s dp :
  dir_on s dp -> fat_linked (fsys s) (d_obj dp) ->
  dptr dp = SZDIRE * (dptr dp / SZDIRE) /\ in_table s (d_obj dp) (dptr dp / SZDIRE) /\
  table_sect s (d_obj dp) (dptr dp / SZDIRE) = d_sect dp /\
  (SZDIRE * (dptr dp / SZDIRE)) mod ssize (fsys s) = d_dir dp.
Proof.
  intros ([[Hp Hm] P2 P3 P4] & S & L) Hl. specialize (L Hl).
  assert (dptr dp = SZDIRE * (dptr dp / SZDIRE)) as E by (apply Z.div_exact; done).
  assert (0 <= dptr dp / SZDIRE) by (apply Z.div_pos; [lia|done]).
  unfold in_table, table_sect. rewrite <- E.
  destruct (Z.eqb_spec (dir_start (fsys s) (d_obj dp)) 0) as [E0|N0].
  - destruct (P3 (proj2 S E0)) as (? & ? & ->). split_and!; first [done|lia].
  - assert (d_clust dp <> 0) as N by (intros E0; by apply N0, S).
    destruct (P4 N) as [Hc ->]. rewrite <- (L N). split_and!; first [done|lia].
Qed.

(** The entries of the table are the ones [dir_sdi] can reach. *)
Lemma in_table_reaches s obj k :
  fs_inv s -> vol_geom (fsys s) -> fat_linked (fsys s) obj -> in_table s obj k -> reaches s obj (SZDIRE * k).
Proof.
  intros Hi Hg Hl (Hk & Hmax & Hin). pose proof (go_ss _ (wi_geom s (fi_win s Hi))) as Hss.
  pose proof (sect_size_bounds _ Hss) as Hb. set (fs := fsys s) in *. set (o := SZDIRE * k) in *.
  set (c := if dir_start fs obj =? 0 then 0 else link (follow s) (o / csz_of fs) (dir_start fs obj)).
  exists (mkDIR obj o c (table_sect s obj k) (o mod ssize fs) [] 0). split_and!; [|done..].
  assert (o mod SZDIRE = 0) as Hm by (unfold o; rewrite Z.mul_comm; by apply Z.mod_mul).
  assert (0 <= o) by (unfold o, SZDIRE; lia).
  unfold table_sect. fold fs. fold o. unfold c. destruct (Z.eqb_spec (dir_start fs obj) 0) as [E0|N0].
  - destruct Hin as [Ht Hn]. split_and!; [split; cbn|done|by cbn]; fold fs; [lia|done| |done].
    intros _. split_and!; [done| |done]. unfold o. rewrite Z.mul_comm, Z.div_mul by done. done.
  - split_and!; [split; cbn|cbn; fold fs|by cbn]; fold fs; [lia|done|lia| |lia]. intros _. split; [done|]. lia.
Qed.

(** [dir_next] stops at the end of the table. *)
Lemma table_end_not_in s dp k :
  fs_inv s -> vol_geom (fsys s) -> dir_on s dp -> fat_linked (fsys s) (d_obj dp) -> dptr dp = SZDIRE * k ->
  table_end s dp (SZDIRE * (k + 1)) -> ~ in_table s (d_obj dp) (k + 1).
Proof.
  intros Hi Hg ([[Hp Hm] P2 P3 P4] & S & L) Hl Ek Hend (Hk & Hmax & Hin). specialize (L Hl).
  pose proof (go_ss _ (wi_geom s (fi_win s Hi))) as Hss. destruct (csz_u32 _ Hss Hg) as [_ Hcsz].
  destruct Hend as [?|[[E Hr]|(N & E0 & E1 & Hn)]]; [lia| |].
  - rewrite (proj2 (Z.eqb_eq _ _)) in Hin by (by apply S).
    rewrite (Z.mul_comm SZDIRE), Z.div_mul in Hr by done. lia.
  - rewrite (proj2 (Z.eqb_neq _ _)) in Hin by (intros E; by apply N, S).
    destruct (next_entry _ (dptr dp) Hss Hg ltac:(lia) Hm) as (_ & _ & _ & _ & N5).
    rewrite Ek in N5. replace (SZDIRE * k + SZDIRE) with (SZDIRE * (k + 1)) in N5 by lia.
    apply (Hn Hl). rewrite N5, link_succ in Hin by first [done|apply Z.div_pos; lia].
    rewrite <- Ek, <- L, follow_in in Hin by first [done|by apply P4]. done.
Qed.

(** The internal error of [dir_next] means that the table is cut off. *)
Lemma bad_link_broken s dp k :
  fs_inv s -> vol_geom (fsys s) -> dir_on s dp -> fat_linked (fsys s) (d_obj dp) -> dptr dp = SZDIRE * k ->
  table_end s dp (SZDIRE * (k + 1)) -> bad_link s dp (SZDIRE * (k + 1)) <-> broken_at s (d_obj dp) (k + 1).
Proof.
  intros Hi Hg Hon Hl Ek Hend. pose proof (table_end_not_in s dp k Hi Hg Hon Hl Ek Hend) as Hni.
  destruct Hon as ([[Hp Hm] P2 P3 P4] & S & L). specialize (L Hl).
  pose proof (go_ss _ (wi_geom s (fi_win s Hi))) as Hss. destruct (csz_u32 _ Hss Hg) as [_ Hcsz].
  assert (0 <= k) by (unfold SZDIRE in *; lia). unfold bad_link, broken_at.
  destruct Hend as [?|[[E _]|(N & E0 & E1 & _)]].
  - split; [intros [? _]|intros [_ [|(_ & ? & _)]]]; lia.
  - split; [by intros (_ & ? & _)|]. intros [_ [|(N & _)]]; [lia|]. by destruct N; apply S.
  - destruct (next_entry _ (dptr dp) Hss Hg ltac:(lia) Hm) as (_ & _ & _ & _ & N5).
    rewrite Ek in N5. replace (SZDIRE * k + SZDIRE) with (SZDIRE * (k + 1)) in N5 by lia.
    rewrite N5, link_succ, <- Ek, <- L, follow_in by first [done|by apply P4|apply Z.div_pos; lia]. rewrite <- S.
    split; [intros (? & ? & ?)|intros [_ [|(? & ? & ?)]]; [lia|]]; split_and!; auto.
Qed.

Lemma in_table_vol_eq s s' obj k : fs_inv s -> vol_eq s s' -> in_table s obj k -> in_table s' obj k.
Proof.
  intros Hi Hv (H1 & H2 & H3). destruct (Hv) as [Hc _].
  unfold in_table, max_dir, is_exfat, dir_start, csz_of in *. core_rewrite Hc. split_and!; [done..|].
  rewrite <- (link_ext (follow s)); [done|]. intros x. symmetry. by apply vol_eq_follow.
Qed.

Lemma broken_vol_eq s s' obj k : fs_inv s -> vol_eq s s' -> broken_at s obj k -> broken_at s' obj k.
Proof.
  intros Hi Hv [Hn Hb]. split.
  - intros Hin. apply Hn. unfold in_table, max_dir, is_exfat, dir_start, csz_of in *. destruct (Hv) as [Hc _]. core_rewrite Hc.
    by rewrite (link_ext (follow s) (follow s')) by (intros x; symmetry; by apply vol_eq_follow).
  - destruct Hb as [?|(H1 & H2 & H3)]; [by left|right]. unfold max_dir, is_exfat, dir_start, csz_of in *.
    destruct (Hv) as [Hc _]. core_rewrite Hc. split_and!; [done..|].
    by rewrite (link_ext (follow s') (follow s)) by (intros x; by apply vol_eq_follow).
Qed.

(** The window on the sector of an entry shows the entry. *)
Lemma window_entry s s1 s2 dp :
  fs_inv s -> vol_geom (fsys s) -> vol_eq s s1 -> fs_inv s2 -> vol_eq s1 s2 -> dir_on s dp ->
  fat_linked (fsys s) (d_obj dp) ->
  (forall i, 0 <= i < ssize (fsys s1) -> (win (fsys s2)).[i] = (vol s1 (d_sect dp)).[i]) ->
  same_entry (win (fsys s2)) (d_dir dp) (table_entry s (d_obj dp) (dptr dp / SZDIRE)) 0.
Proof.
  intros Hi Hg Hv1 Hi2 Hv2 Hon Hl Hw. pose proof (go_ss _ (wi_geom s (fi_win s Hi))) as Hss.
  pose proof (sect_size_bounds _ Hss) as Hb.
  pose proof (proj1 Hon) as P. destruct (dpos_ptr _ _ P) as [_ Hm].
  pose proof (entry_in_sector _ Hss _ Hm) as He. rewrite <- (dpos_dir _ _ P) in He.
  assert (0 <= d_dir dp) as Hd by (rewrite (dpos_dir _ _ P); apply Z.mod_pos_bound; lia).
  destruct (dir_on_table s dp Hon Hl) as (Ep & _ & Es & Ed).
  unfold table_entry. rewrite Es, Ed.
  pose proof (wi_geom s (fi_win s Hi)) as [_ Gb Gf Gn _].
  destruct (dir_area_ok _ Hg _ Gb Gf Gn (dir_pos_area _ Hss Hg dp P)) as (A1 & A2 & _).
  assert (vol s (d_sect dp) = vol s1 (d_sect dp)) as -> by (apply Hv1; [lia|done]).
  assert (ssize (fsys s1) = ssize (fsys s)) as Ess by (symmetry; exact (f_equal ssize (proj1 Hv1))).
  rewrite Ess in Hw. pose proof (wi_len _ (fi_win _ Hi2)) as Hl2. unfold FF_MAX_SS, SZDIRE in *.
  assert (zlen (vol s1 (d_sect dp)) = ssize (fsys s)) as Hlv.
  { assert (zlen (vol s (d_sect dp)) = ssize (fsys s)) by (apply vol_len, Hi).
    rewrite <- (proj2 Hv1) by (done || lia). done. }
  split_and!; [done..|lia| |].
  - unfold sub, zlen in *. rewrite length_take, length_drop. lia.
  - intros k Hk. rewrite Hw, getb_sub by lia. done.
Qed.
(** Showing the entry the object points at. *)
Lemma move_entry s s1 dp :
  fs_inv s -> vol_geom (fsys s) -> fs_inv s1 -> vol_eq s s1 -> dir_on s dp -> fat_linked (fsys s) (d_obj dp) ->
  post (move_window (d_sect dp)) s1 (fun r s2 =>
    fs_inv s2 /\ vol_eq s s2 /\
    (r = FR_OK /\ winsect (fsys s2) = d_sect dp /\
       same_entry (win (fsys s2)) (d_dir dp) (table_entry s (d_obj dp) (dptr dp / SZDIRE)) 0
     \/ r = FR_DISK_ERR /\ ~ faultless D)).
Proof.
  intros Hi Hg Hi1 Hv1 Hon Hl. pose proof (wi_geom s (fi_win s Hi)) as [Gs Gb Gf Gn _].
  destruct (dir_area_ok _ Hg _ Gb Gf Gn (dir_pos_area _ Gs Hg dp (proj1 Hon))) as (A1 & A2 & _).
  mcall move_sect_faultless; [apply Hi1|lia| |].
  { intros Hm. apply A2. revert Hm. apply core_mirror, Hv1. }
  intros r s2 ([Hw2 Hv2] & Hr). assert (fs_inv s2) as Hi2 by (by eapply fs_inv_core; [apply Hv2|..]).
  assert (vol_eq s s2) by (by etrans). split_and!; [done..|].
  destruct Hr as [(-> & E & Hw)|Hr]; [left|by right]. split_and!; [done..|]. by apply (window_entry s s1 s2).
Qed.
Context `{!Heap}.

(** Stepping to the next entry of the table. *)
Lemma step_entry s s2 dp k :
  fs_inv s -> vol_geom (fsys s) -> fs_inv s2 -> vol_eq s s2 -> dir_on s dp ->
  fat_linked (fsys s) (d_obj dp) -> dptr dp = SZDIRE * k ->
  post (dir_next dp false) s2 (fun '(r, dp') s3 =>
    fs_inv s3 /\ vol_eq s s3 /\ d_obj dp' = d_obj dp /\ d_fn dp' = d_fn dp /\ blk_ofs dp' = blk_ofs dp /\
    (r = FR_OK /\ dir_on s dp' /\ dptr dp' = SZDIRE * (k + 1) \/
     (r = FR_NO_FILE /\ d_sect dp' = 0 \/ r = FR_INT_ERR) /\ ~ in_table s (d_obj dp) (k + 1) /\
       (r = FR_INT_ERR <-> broken_at s (d_obj dp) (k + 1)) \/
     r = FR_DISK_ERR /\ ~ faultless D)).
Proof.
  intros Hi Hg Hi2 Hv2 Hon Hl Hp. assert (dir_on s2 dp) as Hon2 by (by apply (dir_on_vol_eq s s2)).
  assert (vol_geom (fsys s2)) as Hg2 by (by eapply vol_geom_core; [apply Hv2|]).
  eapply post_mono; [by apply dir_next_spec|]. intros [r dp'] s3 (Hi3 & Hv3 & Eo & Ef & Eb & Hr).
  assert (vol_eq s s3) by (by etrans). assert (vol_eq s2 s) as Hv by (by symmetry). split_and!; [done..|].
  replace (dptr dp + SZDIRE) with (SZDIRE * (k + 1)) in Hr by (rewrite Hp; lia).
  assert (fat_linked (fsys s2) (d_obj dp)) as Hl2 by (unfold fat_linked in *; destruct (Hv2) as [Hc _]; by core_rewrite Hc).
  destruct Hr as [(-> & Hon3 & E3)|[(Hr & He & Hbad)|[Hr Hf]]]; [left|right; left|by right; right; auto].
  - split_and!; [done| |done]. by apply (dir_on_vol_eq s2 s).
  - split_and!; [done| |].
    + intros Hin. eapply (table_end_not_in s2 dp k); try done. by apply (in_table_vol_eq s s2).
    + rewrite (Hbad Hl2), (bad_link_broken s2 dp k) by done. by split; apply broken_vol_eq.
Qed.
End table.

(** ** [dir_find] is the scan of the table *)

Section find.
Context {D : Type} `{BlockDeviceLaws D} `{!Heap}.
Implicit Types s : St D.

(** The entries at which a scan of a FAT directory ends without success: the end mark or
    the end of the table. *)
Definition scan_end s obj (n : nat) : Prop :=
  (forall k, 0 <= k < Z.of_nat n -> in_table s obj k) /\
  (in_table s obj (Z.of_nat n) -> (table_entry s obj (Z.of_nat n)).[0] = 0).

Definition scan_dir s obj (fn : list Z) (n : nat) (k ord sum blk : Z) : option (Z * Z) :=
  scan_table n (table_entry s obj) (lfnbuf (fsys s)) fn k ord sum blk.

(** The loop after [k] entries: the rest of the scan is the scan from entry [k]. *)
Record find_inv s obj fn (dp : DIR) (ord sum k : Z) (s' : St D) : Prop := {
  fv_inv : fs_inv s';
  fv_eq : vol_eq s s';
  fv_on : dir_on s dp;
  fv_ptr : dptr dp = SZDIRE * k;
  fv_obj : same_obj obj (d_obj dp);
  fv_fn : d_fn dp = fn;
  fv_pos : 0 <= k;
  fv_in : forall j, 0 <= j <= k -> in_table s obj j;
  fv_scan : forall n, scan_dir s obj fn (Z.to_nat k + n) 0 0xFF 0xFF NO_BLK
                    = scan_dir s obj fn n k ord sum (blk_ofs dp)
}.

(** The window shows the entry found, and the object has its attributes. *)
Definition entry_shown s obj (dp' : DIR) s' : Prop :=
  let e := table_entry s obj (dptr dp' / SZDIRE) in
  winsect (fsys s') = d_sect dp' /\ same_entry (win (fsys s')) (d_dir dp') e 0 /\
  obj_attr (d_obj dp') = Z.land e.[DIR_Attr] AM_MASK.

(** The result of [dir_find], in terms of the scan: the internal error means that the
    table is cut off, and a disk error that the device is not faultless. *)
Definition find_post s obj fn (r : FRESULT) (dp' : DIR) s' : Prop :=
  fs_inv s' /\ vol_eq s s' /\ same_obj obj (d_obj dp') /\ d_fn dp' = fn /\
  (r = FR_OK /\ dir_on s dp' /\ dptr dp' = SZDIRE * (dptr dp' / SZDIRE) /\
     (forall n, dptr dp' / SZDIRE < Z.of_nat n ->
        scan_dir s obj fn n 0 0xFF 0xFF NO_BLK = Some (dptr dp' / SZDIRE, blk_ofs dp')) /\
     entry_shown s obj dp' s' \/
   (r = FR_NO_FILE \/ r = FR_INT_ERR) /\
     (exists n, scan_end s obj n /\ scan_dir s obj fn n 0 0xFF 0xFF NO_BLK = None /\
        (r = FR_INT_ERR <-> broken_at s obj (Z.of_nat n))) \/
   r = FR_DISK_ERR /\ ~ faultless D).

Lemma same_obj_table s o o' k :
  same_obj o o' -> table_entry s o k = table_entry s o' k /\ (in_table s o k <-> in_table s o' k).
Proof.
  intros Ho. pose proof (same_obj_start (fsys s) _ _ Ho) as E.
  unfold table_entry, table_sect, in_table. by rewrite E.
Qed.

Lemma same_obj_broken s o o' k : same_obj o o' -> broken_at s o k <-> broken_at s o' k.
Proof.
  intros Ho. pose proof (same_obj_start (fsys s) _ _ Ho) as E. unfold broken_at, in_table. by rewrite E.
Qed.

Lemma scan_dir_0 s obj fn k ord sum blk : scan_dir s obj fn 0 k ord sum blk = None.
Proof. done. Qed.

Lemma find_step_spec s obj fn dp ord sum k s1 :
  fs_inv s -> vol_geom (fsys s) -> fs_type (fsys s) <> FS_EXFAT ->
  find_inv s obj fn dp ord sum k s1 ->
  post (find_step (dp, ord, sum)) s1 (fun r s' =>
    match r with
    | inl (dp', ord', sum') => find_inv s obj fn dp' ord' sum' (k + 1) s'
    | inr (r, dp') => find_post s obj fn r dp' s'
    end).
Proof.
  intros Hi Hg Ht [Hi1 Hv1 Hon Hp Hobj Hfn Hk Hin Hsc].
  assert (fat_linked (fsys s) (d_obj dp)) as Hl by (by left).
  assert (dptr dp / SZDIRE = k) as Ek by (rewrite Hp, Z.mul_comm; by apply Z.div_mul).
  pose proof (fun j => same_obj_table s _ _ j Hobj) as Htab.
  unfold find_step, get_fs. mstep. mcall (move_entry s s1 dp); [done..|]. intros r s2 (Hi2 & Hv2 & Hr).
  destruct Hr as [(-> & Ew & Hse)|[-> Hfl]]; cbn [fr_ok negb].
  2:{ mstep. split_and!; auto. }
  rewrite Ek, <- (proj1 (Htab k)) in Hse. do 2 mstep. cbn beta.
  assert (dirb (fsys s2) dp DIR_Name = (table_entry s obj k).[0]) as -> by (by apply Hse).
  assert (forall j, 0 <= j < Z.of_nat (Z.to_nat k) -> in_table s obj j) as Hinj by (intros j Hj; apply Hin; lia).
  mstep.
  { mstep. split_and!; auto. right; left. split; [by left|]. exists (Z.to_nat k). split_and!; [split; [done|]|..].
    - by rewrite Z2Nat.id.
    - replace (Z.to_nat k) with (Z.to_nat k + 0)%nat by lia. by rewrite Hsc.
    - rewrite Z2Nat.id by done. split; [done|]. intros [Hn _]. destruct Hn. apply Hin. lia. }
  assert (lfnbuf (fsys s2) = lfnbuf (fsys s)) as El by (symmetry; exact (f_equal lfnbuf (proj1 Hv2))).
  set (dp1 := set_d_attr _ dp).
  change (d_fn dp1) with (d_fn dp). change (d_dir dp1) with (d_dir dp). change (dptr dp1) with (dptr dp).
  change (blk_ofs dp1) with (blk_ofs dp). rewrite El, Hfn, (se_find_entry _ _ _ _ Hse), Hp.
  assert (forall n, scan_dir s obj fn (S n) k ord sum (blk_ofs dp) =
    match find_entry (lfnbuf (fsys s)) fn (table_entry s obj k) 0 (SZDIRE * k) ord sum (blk_ofs dp) with
    | Stop b => Some (k, b)
    | Skip ord sum blk => scan_dir s obj fn n (k + 1) ord sum blk
    end) as Hst.
  { intros n. unfold scan_dir. cbn [scan_table]. by rewrite (proj2 (Z.eqb_neq _ _)) by done. }
  destruct (find_entry _ _ _ _ _ _ _ _) as [ord' sum' blk'|blk'].
  - set (dp2 := set_blk_ofs blk' dp1). mstep.
    assert (dir_on s dp2) as Hon2 by (by eapply dir_on_same).
    mcall (step_entry s s2 dp2 k); [done..|]. intros [r dp3] s3 (Hi3 & Hv3 & Eo & Ef & Eb & Hr).
    assert (same_obj obj (d_obj dp3)) as Hobj3 by (by rewrite Eo).
    assert (d_fn dp3 = fn) as Hfn3 by (by rewrite Ef).
    assert (forall n, scan_dir s obj fn (Z.to_nat k + S n) 0 0xFF 0xFF NO_BLK
      = scan_dir s obj fn n (k + 1) ord' sum' blk') as Hsc' by (intros n; by rewrite Hsc, Hst).
    destruct Hr as [(-> & Hon3 & Hp3)|[(Hr & Hni & Hbr)|[-> Hfl]]]; [..|cbn [fr_ok]; mstep; split_and!; auto; done].
    + cbn [fr_ok]. mstep. split; try done; [lia| |].
      * intros j Hj. destruct (decide (j = k + 1)) as [->|]; [|apply Hin; lia].
        destruct (dir_on_table s dp3 Hon3 ltac:(by left)) as (_ & Hin3 & _).
        rewrite Hp3, (Z.mul_comm SZDIRE), Z.div_mul in Hin3 by done. by apply (same_obj_table s obj (d_obj dp3)).
      * intros n. rewrite Eb. cbn [blk_ofs set_blk_ofs dp2]. rewrite <- Hsc'. f_equal. lia.
    + assert (r = FR_NO_FILE \/ r = FR_INT_ERR) as Hr' by (destruct Hr as [[-> _]| ->]; auto).
      assert (fr_ok r = false) as -> by (destruct Hr' as [->| ->]; done). mstep. split_and!; auto.
      right; left. split; [done|]. exists (Z.to_nat (k + 1)). split_and!; [split|..].
      * intros j Hj. apply Hin. lia.
      * rewrite Z2Nat.id by lia. intros Hi'. by destruct Hni; apply (same_obj_table s obj (d_obj dp2)).
      * replace (Z.to_nat (k + 1)) with (Z.to_nat k + 1)%nat by lia. by rewrite Hsc'.
      * rewrite Z2Nat.id, Hbr by lia. symmetry. by apply same_obj_broken.
  - mstep. split_and!; try done. left. change (dptr (set_blk_ofs blk' dp1)) with (dptr dp). rewrite Ek.
    split_and!; [done|by eapply dir_on_same|done| |].
    + intros n Hn. replace n with (Z.to_nat k + S (n - Z.to_nat k - 1))%nat by lia. by rewrite Hsc, Hst.
    + unfold entry_shown. change (dptr (set_blk_ofs blk' dp1)) with (dptr dp). rewrite Ek. split_and!; [done..|].
      cbn. f_equal. by apply (se_byte _ _ _ _ Hse DIR_Attr).
Qed.
Lemma in_table_bound s obj k : in_table s obj k -> 0 <= k < max_dir (fsys s) / SZDIRE.
Proof.
  intros (Hk & Hlt & _). split; [done|]. assert (max_dir (fsys s) mod SZDIRE = 0) as Hm.
  { unfold max_dir. by destruct (is_exfat (fsys s)). }
  unfold SZDIRE in *. zlia.
Qed.

Lemma find_loop_spec s obj fn dp s1 :
  fs_inv s -> vol_geom (fsys s) -> fs_type (fsys s) <> FS_EXFAT ->
  find_inv s obj fn dp 0xFF 0xFF 0 s1 ->
  post (iterate (dir_rounds (fsys s)) find_step (dp, 0xFF, 0xFF)) s1
    (fun '(r, dp') s' => find_post s obj fn r dp' s').
Proof.
  intros Hi Hg Ht Hinv. set (N := max_dir (fsys s) / SZDIRE).
  apply (post_iterate _ (fun '(dp, ord, sum) m s' =>
    exists k, m = N - k /\ find_inv s obj fn dp ord sum k s') (fun '(r, dp') s' => find_post s obj fn r dp' s'))
    with (k := N).
  - intros [[dp' ord] sum] m s' (k & -> & Hk). eapply post_mono; [by apply (find_step_spec s obj fn _ _ _ k)|].
    intros [[[dp2 ord2] sum2]|[r dp2]] s2 Hr; [|done]. exists (N - (k + 1)). split; [|by exists (k + 1)].
    pose proof (in_table_bound s obj _ (fv_in _ _ _ _ _ _ _ _ Hr (k + 1) ltac:(pose proof (fv_pos _ _ _ _ _ _ _ _ Hk); lia))).
    unfold N. lia.
  - exists 0. split; [lia|done].
  - unfold dir_rounds. fold N. assert (0 <= N) by (unfold N, max_dir; by destruct (is_exfat (fsys s))). lia.
Qed.

Lemma dir_find_spec s dp :
  fs_inv s -> vol_geom (fsys s) -> fs_type (fsys s) <> FS_EXFAT -> is_u32 (sclust (d_obj dp)) ->
  post (dir_find dp) s (fun '(r, dp') s' =>
    (exists o, (o = d_obj dp \/ o = set_stat 0 (d_obj dp)) /\ find_post s o (d_fn dp) r dp' s')).
Proof.
  intros Hi Hg Ht Hs. unfold dir_find, get_fs. mstep. mcall (post_conj _ s); [by apply dir_sdi_spec|by apply dir_sdi_start|].
  intros [r dp1] s1 [(Hi1 & Hv1 & Ho & Ef & _ & Hr) Hst].
  assert (same_obj (d_obj dp1) (d_obj dp1)) as Hsame by done.
  destruct Hr as [(-> & Hon & Ep)|Hr].
  2:{ destruct Hr as [[-> Hn]| ->]; [|by destruct Hst]. cbn [fr_ok negb]; mstep; exists (d_obj dp1); (split; [done|]); split_and!; auto.
      right; left. split; [by right|]. assert (~ in_table s (d_obj dp1) 0) as Hn0.
      { intros Hin. apply Hn; [by left|]. apply (in_table_reaches s (d_obj dp) 0); [done..|by left|].
        revert Hin. unfold in_table, dir_start. destruct Ho as [->| ->]; done. }
      exists 0%nat. split_and!; [by split; [lia|]|done|]. split; [|done]. intros _. by split; [|left]. }
  cbn [fr_ok negb]. mstep. apply post_gets.
  destruct (Hv1) as [Hc _]. rewrite is_exfat_false by (by core_rewrite Hc).
  assert (dir_rounds (fsys s1) = dir_rounds (fsys s)) as ->.
  { unfold dir_rounds, max_dir, is_exfat. by core_rewrite Hc. }
  eapply post_mono; [apply (find_loop_spec s (d_obj dp1) (d_fn dp)); [done..|]|].
  - destruct (dir_on_table s dp1 Hon ltac:(by left)) as (_ & Hin & _). rewrite Ep in Hin.
    split; try done; [by eapply dir_on_same|].
    intros j Hj. replace j with 0 by lia. done.
  - intros [r dp'] s' Hp. exists (d_obj dp1). done.
Qed.
End find.

(** ** Long names in the scan *)

(** The entries of a long name and its short entry, from entry [k] on. *)
Record lfn_block (e : Z -> list Z) (name : list Z) (k : Z) : Prop := {
  lb_name : lfn_name name;
  lb_parts : forall i, 0 <= i < lfn_parts name ->
    lfn_entry name (e (k + i)) 0 (lfn_parts name - i) (sum_sfn (e (k + lfn_parts name)) 0);
  lb_used : (e (k + lfn_parts name)).[0] <> 0 /\ (e (k + lfn_parts name)).[0] <> DDEM;
  lb_attr : let a := Z.land (e (k + lfn_parts name)).[11] AM_MASK in has a AM_VOL = false /\ a <> AM_LFN
}.

Section long.
Context (e : Z -> list Z) (name name2 l fn : list Z) (k : Z).
Hypothesis Hblk : lfn_block e name k.
Hypothesis Hn2 : lfn_name name2.
Hypothesis Hl : lfn_holds l name2.
Hypothesis Hfn : has fn.[NSFLAG] NS_NOLFN = false.

Let parts := lfn_parts name.
Let chk := sum_sfn (e (k + parts)) 0.

(** An entry of the long name, in a scan that expects it or starts with it. *)
Lemma scan_part i ord sum blk :
  0 <= i < parts -> (i = 0 \/ ord = parts - i /\ sum = chk \/ ord = 0xFF) ->
  (e (k + i)).[0] <> 0 /\
  find_entry l fn (e (k + i)) 0 (SZDIRE * (k + i)) ord sum blk =
    Skip (if bool_decide (i = 0 \/ ord <> 0xFF) && cmp_lfn l (e (k + i)) 0 then parts - i - 1 else 0xFF)
      (if decide (i = 0) then chk else sum) (if decide (i = 0) then SZDIRE * k else blk).
Proof.
  intros Hi Ho. pose proof (lfn_parts_range name (lb_name _ _ _ Hblk)) as [Hp Hpl]. fold parts in Hp, Hpl.
  destruct (lb_parts _ _ _ Hblk i Hi) as [_ Hord Hattr _ Hsum _]. fold parts chk in Hord, Hsum.
  change (0 + LDIR_Ord) with 0 in Hord. change (0 + LDIR_Attr) with 11 in Hattr.
  change (0 + LDIR_Chksum) with 13 in Hsum.
  destruct (ord_mask name (parts - i) ltac:(lia)) as (_ & Hm & Hf). rewrite <- Hord in Hm, Hf.
  assert ((e (k + i)).[0] <> 0 /\ (e (k + i)).[0] <> DDEM) as [N0 ND].
  { rewrite Hord. unfold LLEF, DDEM. destruct (_ <=? _); lia. }
  split; [done|]. unfold find_entry. change (0 + DIR_Name) with 0. change (0 + DIR_Attr) with 11.
  change (0 + LDIR_Chksum) with 13.
  rewrite Hattr, (proj2 (Z.eqb_neq _ _) ND), Hfn. change (Z.land AM_LFN AM_MASK) with AM_LFN.
  rewrite Z.eqb_refl, andb_false_r. cbn [orb negb]. unfold lfn_start, has. change (0 + LDIR_Chksum) with 13.
  rewrite Hf, Hm, Hsum. destruct (Z.leb_spec (zlen name) (13 * (parts - i))) as [Hlast|Hlast].
  - assert (i = 0) as -> by lia. rewrite !decide_True by done. rewrite !Z.eqb_refl, bool_decide_true by auto.
    cbn [andb]. rewrite Z.add_0_r. destruct (cmp_lfn _ _ _); [|done].
    rewrite u8_small by (unfold is_u8; lia). done.
  - assert (i <> 0) as Ni by lia. rewrite !decide_False by done.
    rewrite Hord.
    destruct Ho as [|[[-> ->]| ->]]; [done| |].
    + rewrite !Z.eqb_refl, bool_decide_true by lia. cbn [andb]. destruct (cmp_lfn _ _ _); [|done].
      rewrite u8_small by (unfold is_u8; lia). done.
    + rewrite (proj2 (Z.eqb_neq _ _)), bool_decide_false by lia. done.
Qed.
(** The scan over the parts that remain: it ends with the order 0 if all of them match,
    with the mark of a broken sequence otherwise. *)
Lemma scan_parts i ord sum blk :
  0 <= i <= parts -> (i = 0 \/ ord = parts - i /\ sum = chk \/ ord = 0xFF) -> (0 < i -> blk = SZDIRE * k) ->
  exists ord' sum',
    (forall n, scan_table (Z.to_nat (parts - i) + n) e l fn (k + i) ord sum blk
               = scan_table n e l fn (k + parts) ord' sum' (SZDIRE * k)) /\
    (ord' = 0 /\ sum' = chk /\ (i = 0 \/ ord <> 0xFF) /\
       (forall j, i <= j < parts -> cmp_lfn l (e (k + j)) 0 = true) \/
     ord' = 0xFF /\ (i = 0 \/ ord <> 0xFF -> exists j, i <= j < parts /\ cmp_lfn l (e (k + j)) 0 = false)).
Proof.
  pose proof (lfn_parts_range name (lb_name _ _ _ Hblk)) as [Hp _]. fold parts in Hp.
  remember (Z.to_nat (parts - i)) as m eqn:Em. revert i ord sum blk Em.
  induction m as [|m IH]; intros i ord sum blk Em Hi Ho Hb.
  - assert (i = parts) as -> by lia. rewrite Hb by lia. exists ord, sum. split; [done|].
    destruct Ho as [|[[-> ->]| ->]]; [lia|left|right].
    + split_and!; [lia|done|right; lia|lia].
    + split; [done|]. intros [|]; [lia|done].
  - destruct (scan_part i ord sum blk) as [N0 Hf]; [lia|done|]. revert Hf.
    set (ok := bool_decide _ && _). set (sum1 := if decide (i = 0) then chk else sum). intros Hf.
    assert (sum1 = chk \/ ord = 0xFF) as Hs1.
    { unfold sum1. destruct (decide (i = 0)); [by left|]. destruct Ho as [|[[_ ->]| ->]]; auto. done. }
    destruct (IH (i + 1) (if ok then parts - i - 1 else 0xFF) sum1 (if decide (i = 0) then SZDIRE * k else blk))
      as (ord' & sum' & E & Hr); [lia..| | |].
    + destruct ok eqn:Eok; [|auto]. right; left. split; [lia|].
      destruct Hs1 as [|E]; [done|]. unfold ok in Eok. apply andb_true_iff in Eok as [Hbd _].
      apply bool_decide_eq_true in Hbd. unfold sum1. destruct Hbd as [->|]; [by rewrite decide_True|done].
    + intros _. destruct (decide (i = 0)); [done|]. apply Hb. lia.
    + exists ord', sum'. split.
      { intros n. cbn [Nat.add scan_table]. rewrite (proj2 (Z.eqb_neq _ _) N0), Hf.
        replace (k + i + 1) with (k + (i + 1)) by lia. apply E. }
      unfold ok in Hr. destruct (cmp_lfn l (e (k + i)) 0) eqn:Ec.
      * rewrite andb_true_r in Hr. destruct Hr as [(-> & -> & Hio & Hall)|[-> Hex]]; [left|right].
        -- case_bool_decide; [|destruct Hio; lia]. split_and!; [done..|]. intros j Hj. destruct (decide (j = i)) as [->|]; [done|]. apply Hall. lia.
        -- split; [done|]. intros Hio. destruct Hex as (j & Hj & Hc); [|exists j; split; [lia|done]].
           right. rewrite bool_decide_true by done. cbn. lia.
      * rewrite andb_false_r in Hr.
        destruct Hr as [(-> & -> & [?|?] & _)|[-> Hex]]; [lia|done|].
        right; split; [done|]. intros _. exists i. split; [lia|done].
Qed.
End long.

Section long_results.
Context (e : Z -> list Z) (name name2 l fn : list Z) (k : Z).
Hypothesis Hblk : lfn_block e name k.
Hypothesis Hn2 : lfn_name name2.
Hypothesis Hl : lfn_holds l name2.
Hypothesis Hfn : has fn.[NSFLAG] NS_NOLFN = false.

(** All parts match exactly when the names are equal up to case. *)
Lemma block_match :
  (forall j, 0 <= j < lfn_parts name -> cmp_lfn l (e (k + j)) 0 = true)
  <-> ff_wtoupper <$> name = ff_wtoupper <$> name2.
Proof.
  set (P := lfn_parts name).
  rewrite <- (cmp_parts_iff name name2 (fun ord => e (k + (P - ord))) l 0 (sum_sfn (e (k + P)) 0)
    (lb_name _ _ _ Hblk) Hn2 Hl).
  - split; intros Hall.
    + intros ord Ho. apply Hall. lia.
    + intros j Hj. replace j with (P - (P - j)) by lia. apply Hall. lia.
  - intros ord Ho. pose proof (lb_parts _ _ _ Hblk (P - ord) ltac:(lia)) as He.
    by replace (lfn_parts name - (P - ord)) with ord in He by (unfold P; lia).
Qed.

(** The short entry of the block. *)
Lemma scan_short n ord sum blk :
  ord = 0 /\ sum = sum_sfn (e (k + lfn_parts name)) 0 \/ ord = 0xFF ->
  scan_table (S n) e l fn (k + lfn_parts name) ord sum blk =
    if (ord =? 0) || negb (has fn.[NSFLAG] NS_LOSS) &&
       bool_decide (sub (e (k + lfn_parts name)) 0 11 = take 11 fn)
    then Some (k + lfn_parts name, blk)
    else scan_table n e l fn (k + lfn_parts name + 1) 0xFF sum NO_BLK.
Proof.
  intros Ho. destruct (lb_used _ _ _ Hblk) as [N0 ND]. destruct (lb_attr _ _ _ Hblk) as [Ha Nl].
  cbn [scan_table]. rewrite (proj2 (Z.eqb_neq _ _) N0). unfold find_entry.
  change (0 + DIR_Name) with 0. change (0 + DIR_Attr) with 11.
  rewrite (proj2 (Z.eqb_neq _ _) ND), Ha, (proj2 (Z.eqb_neq _ _) Nl). cbn [orb andb].
  destruct Ho as [[-> ->]| ->].
  - by rewrite !Z.eqb_refl.
  - change (0xFF =? 0) with false. cbn [andb orb]. by destruct (negb _ && _).
Qed.

(** The whole block, in a scan in any state. *)
Lemma scan_block ord sum blk :
  (ff_wtoupper <$> name = ff_wtoupper <$> name2 -> forall n,
     scan_table (Z.to_nat (lfn_parts name) + S n) e l fn k ord sum blk
     = Some (k + lfn_parts name, SZDIRE * k)) /\
  (ff_wtoupper <$> name <> ff_wtoupper <$> name2 -> has fn.[NSFLAG] NS_LOSS = true ->
     exists sum', forall n, scan_table (Z.to_nat (lfn_parts name) + S n) e l fn k ord sum blk
       = scan_table n e l fn (k + lfn_parts name + 1) 0xFF sum' NO_BLK).
Proof.
  pose proof (lfn_parts_range name (lb_name _ _ _ Hblk)) as [Hp _].
  destruct (scan_parts e name l fn k Hblk Hfn 0 ord sum blk) as (ord' & sum' & E & Hr);
    [lia|by left|lia|]. rewrite Z.sub_0_r, Z.add_0_r in E. split.
  - intros Heq n. rewrite <- block_match in Heq. rewrite E. destruct Hr as [(-> & -> & _ & _)|[-> Hex]].
    + by rewrite scan_short by auto.
    + destruct Hex as (j & Hj & Hc); [by left|]. by rewrite Heq in Hc.
  - intros Hne Hloss. exists sum'. intros n. rewrite E. destruct Hr as [(-> & -> & _ & Hall)|[-> _]].
    + by destruct Hne; apply block_match.
    + rewrite scan_short, Hloss by auto. done.
Qed.
End long_results.

(** ** Properties of [dir_find] *)

Section properties.
Context {D : Type} `{BlockDeviceLaws D} `{!Heap}.
Implicit Types s : St D.

Lemma scan_dir_start s o o' fn n k ord sum blk :
  sclust o = sclust o' ->
  scan_dir s o fn n k ord sum blk = scan_dir s o' fn n k ord sum blk /\ (scan_end s o n <-> scan_end s o' n).
Proof.
  intros E. assert (dir_start (fsys s) o = dir_start (fsys s) o') as Ed by (unfold dir_start; by rewrite E).
  unfold scan_dir, scan_end, table_entry, in_table, table_sect. by rewrite Ed.
Qed.

Lemma in_table_down s obj k j :
  fs_inv s -> vol_geom (fsys s) -> in_table s obj k -> 0 <= j <= k -> in_table s obj j.
Proof.
  intros Hi Hg (Hk & Hmax & Hin) Hj. destruct (csz_u32 _ (go_ss _ (wi_geom s (fi_win s Hi))) Hg) as [_ Hcsz].
  unfold in_table. assert (SZDIRE = 32) as E by done. split_and!; [lia..|].
  destruct (dir_start (fsys s) obj =? 0); [destruct Hin; split; [done|lia]|].
  apply Decidable.not_not; [unfold Decidable.decidable; lia|]. intros Hn. revert Hin.
  apply (link_stuck s (SZDIRE * j / csz_of (fsys s))); [|done].
  split; [apply Z.div_pos; lia|apply Z.div_le_mono; lia].
Qed.

(** Past an end mark a scan finds nothing. *)
Lemma scan_table_end n m e l fn k ord sum blk :
  scan_table n e l fn k ord sum blk = None -> (e (k + Z.of_nat n)).[0] = 0 ->
  scan_table (n + m) e l fn k ord sum blk = None.
Proof.
  revert k ord sum blk. induction n as [|n IH]; intros k ord sum blk Hs He.
  - rewrite Z.add_0_r in He. destruct m; [done|]. cbn [Nat.add scan_table]. by rewrite He.
  - cbn [Nat.add scan_table] in *. destruct (_ =? 0); [done|].
    destruct (find_entry _ _ _ _ _ _ _ _); [|done]. apply IH; [done|].
    by replace (k + 1 + Z.of_nat n) with (k + Z.of_nat (S n)) by lia.
Qed.

(** C35: on a FAT volume, whatever the medium holds, [dir_find] terminates,
    changes nothing of the volume, and returns what the scan of the entries of the
    directory table returns: the first entry at which the scan stops, with the offset
    of its long name; "no file" or the internal error only if the scan meets the end
    mark or the end of the table; or it reports a disk error. *)
Theorem dir_find_refines_scan s dp :
  fs_inv s -> vol_geom (fsys s) -> fs_type (fsys s) <> FS_EXFAT -> is_u32 (sclust (d_obj dp)) ->
  post (dir_find dp) s (fun '(r, dp') s' =>
    fs_inv s' /\ vol_eq s s' /\
    (r = FR_OK /\ entry_in_bounds (fsys s) dp' /\
       (exists k, dptr dp' = SZDIRE * k /\
          forall n, k < Z.of_nat n ->
            scan_dir s (d_obj dp) (d_fn dp) n 0 0xFF 0xFF NO_BLK = Some (k, blk_ofs dp')) \/
     (r = FR_NO_FILE \/ r = FR_INT_ERR) /\
       (exists n, scan_end s (d_obj dp) n /\ scan_dir s (d_obj dp) (d_fn dp) n 0 0xFF 0xFF NO_BLK = None) \/
     r = FR_DISK_ERR)).
Proof.
  intros Hi Hg Ht Hs. eapply post_mono; [by apply dir_find_spec|].
  intros [r dp'] s' (o & Ho & Hi' & Hv & _ & _ & Hr). split_and!; [done..|].
  assert (sclust o = sclust (d_obj dp)) as Es by (by destruct Ho as [->| ->]).
  destruct Hr as [(-> & Hon & Ep & Hsc & _)|[[Hr (n & He & Hsc & _)]|[Hr _]]]; [left|right; left|by right; right].
  - split_and!; [done|by eapply dir_on_bounds|]. exists (dptr dp' / SZDIRE). split; [done|]. intros n Hn.
    rewrite <- (proj1 (scan_dir_start s o _ _ n 0 0xFF 0xFF NO_BLK Es)). by apply Hsc.
  - split; [done|]. exists n. destruct (scan_dir_start s o _ (d_fn dp) n 0 0xFF 0xFF NO_BLK Es) as [E1 E2].
    rewrite <- E1. by rewrite <- E2.
Qed.

(** C36: an object stored under a long name is found under every name equal to
    it up to case, and under no other.  If the entries of a long name and their short
    entry stand at entry [k] of a FAT directory and the scan passes the entries before
    them, then [dir_find] for a name equal up to case returns that short entry, with
    the start of the long name, or a disk error; for a different long name that has no
    short form the scan goes on behind the block. *)
Theorem dir_find_long_name s dp name name2 k :
  fs_inv s -> vol_geom (fsys s) -> fs_type (fsys s) <> FS_EXFAT -> is_u32 (sclust (d_obj dp)) ->
  let e := table_entry s (d_obj dp) in
  0 <= k -> in_table s (d_obj dp) (k + lfn_parts name) -> lfn_block e name k ->
  lfn_name name2 -> lfn_holds (lfnbuf (fsys s)) name2 -> has (d_fn dp).[NSFLAG] NS_NOLFN = false ->
  (exists ord sum blk, forall n,
     scan_dir s (d_obj dp) (d_fn dp) (Z.to_nat k + n) 0 0xFF 0xFF NO_BLK
     = scan_dir s (d_obj dp) (d_fn dp) n k ord sum blk) ->
  (ff_wtoupper <$> name = ff_wtoupper <$> name2 ->
     post (dir_find dp) s (fun '(r, dp') s' =>
       r = FR_OK /\ dptr dp' = SZDIRE * (k + lfn_parts name) /\ blk_ofs dp' = SZDIRE * k \/ r = FR_DISK_ERR)) /\
  (ff_wtoupper <$> name <> ff_wtoupper <$> name2 -> has (d_fn dp).[NSFLAG] NS_LOSS = true ->
     exists sum', forall n,
       scan_dir s (d_obj dp) (d_fn dp) (Z.to_nat (k + lfn_parts name + 1) + n) 0 0xFF 0xFF NO_BLK
       = scan_dir s (d_obj dp) (d_fn dp) n (k + lfn_parts name + 1) 0xFF sum' NO_BLK).
Proof.
  intros Hi Hg Ht Hs e Hk Hin Hblk Hn2 Hl Hfn (ord & sum & blk & Hpass).
  pose proof (lfn_parts_range name (lb_name _ _ _ Hblk)) as [Hp _]. set (P := lfn_parts name) in *.
  destruct (scan_block e name name2 (lfnbuf (fsys s)) (d_fn dp) k Hblk Hn2 Hl Hfn ord sum blk) as [B1 B2].
  fold P in B1, B2. split.
  2:{ intros Hne Hloss. destruct (B2 Hne Hloss) as (sum' & E). exists sum'. intros n.
      replace (Z.to_nat (k + P + 1) + n)%nat with (Z.to_nat k + (Z.to_nat P + S n))%nat by lia.
      rewrite Hpass. apply E. }
  intros Heq. specialize (B1 Heq).
  assert (forall n, scan_dir s (d_obj dp) (d_fn dp) (Z.to_nat (k + P) + S n) 0 0xFF 0xFF NO_BLK
    = Some (k + P, SZDIRE * k)) as Hfull.
  { intros n. replace (Z.to_nat (k + P) + S n)%nat with (Z.to_nat k + (Z.to_nat P + S n))%nat by lia.
    rewrite Hpass. apply B1. }
  eapply post_mono; [by apply dir_find_spec|]. intros [r dp'] s' (o & Ho & _ & _ & _ & _ & Hr).
  assert (sclust o = sclust (d_obj dp)) as Es by (by destruct Ho as [->| ->]).
  destruct Hr as [(-> & _ & Ep & Hsc & _)|[[_ (n & He & Hsc & _)]|[Hr _]]]; [left| |by right].
  - set (N := (Z.to_nat (k + P) + S (Z.to_nat (dptr dp' / SZDIRE)))%nat).
    specialize (Hsc N ltac:(lia)).
    rewrite (proj1 (scan_dir_start s o _ _ N 0 0xFF 0xFF NO_BLK Es)) in Hsc. unfold N in Hsc.
    rewrite Hfull in Hsc. injection Hsc as E1 E2. rewrite Ep, <- E1, <- E2. done.
  - exfalso. destruct (scan_dir_start s o _ (d_fn dp) n 0 0xFF 0xFF NO_BLK Es) as [E1 E2].
    rewrite E1 in Hsc. apply E2 in He as [Hall Hend].
    destruct (decide (Z.of_nat n <= k + P)) as [Hle|Hgt].
    + assert ((e (0 + Z.of_nat n)).[0] = 0) as H0' by (apply Hend; by apply (in_table_down s _ (k + P)); [..|lia]).
      pose proof (scan_table_end n (Z.to_nat (k + P) + 1 - n) e (lfnbuf (fsys s)) (d_fn dp) 0 0xFF 0xFF NO_BLK Hsc H0') as Hn.
      replace (n + (Z.to_nat (k + P) + 1 - n))%nat with (Z.to_nat (k + P) + 1)%nat in Hn by lia.
      pose proof (Hfull 0%nat) as Hf. unfold scan_dir in Hf. fold e in Hf. by rewrite Hn in Hf.
    + replace n with (Z.to_nat (k + P) + S (n - Z.to_nat (k + P) - 1))%nat in Hsc by lia. by rewrite Hfull in Hsc.
Qed.
End properties.
