(* ===== verification/Mount.v ===== *)
(** * Mounting a volume

    [get_ldnumber], [check_fs], [find_volume] and [mount_volume] of
    [src/ff/src/ff/ff.c]: the boot sector is found on the drive, its parameters are
    checked and the filesystem object is filled in.

    The theorems say for which media the mounted object satisfies the invariants that
    the other components assume, [fs_inv] and [vol_geom], and that the checks leave
    out: the sizes of the areas are computed modulo 2^32. *)

From stdpp Require Import prelude list.
From Stdlib Require Import ZArith Lia.
From S2P Require Import Prelude Bytes Diskio FFTypes Window Fat Bitmap Chain Lfn Dir Dirent.

Local Open Scope Z_scope.
Local Open Scope cint_scope.

Definition FF_MIN_SS := 512.
Definition FF_VOLUMES := 1.
Definition FA_READ := 0x01.
Definition STA_NOINIT := 0x01.
Definition STA_PROTECT := 0x04.
Definition BS_JmpBoot := 0.
Definition BS_FilSysType32 := 82.
Definition BPB_BytsPerSec := 11.
Definition BPB_SecPerClus := 13.
Definition BPB_RsvdSecCnt := 14.
Definition BPB_NumFATs := 16.
Definition BPB_RootEntCnt := 17.
Definition BPB_TotSec16 := 19.
Definition BPB_FATSz16 := 22.
Definition BPB_TotSec32 := 32.
Definition BPB_FATSz32 := 36.
Definition BPB_FSVer32 := 42.
Definition BPB_RootClus32 := 44.
Definition BPB_FSInfo32 := 48.
Definition BPB_ZeroedEx := 11.
Definition BPB_TotSecEx := 72.
Definition BPB_FatOfsEx := 80.
Definition BPB_FatSzEx := 84.
Definition BPB_DataOfsEx := 88.
Definition BPB_NumClusEx := 92.
Definition BPB_RootClusEx := 96.
Definition BPB_FSVerEx := 104.
Definition BPB_BytsPerSecEx := 108.
Definition BPB_SecPerClusEx := 109.
Definition BPB_NumFATsEx := 110.
Definition MBR_Table := 446.
Definition SZ_PTE := 16.
Definition PTE_StLba := 8.
Definition ET_BITMAP := 0x81.

(** "\xEB\x76\x90" "EXFAT   " and "FAT32   " *)
Definition exfat_sign : list Z := [0xEB; 0x76; 0x90; 69; 88; 70; 65; 84; 32; 32; 32].
Definition fat32_sign : list Z := [70; 65; 84; 51; 50; 32; 32; 32].

(** [!memcmp(w + i, sign, length sign)] *)
Definition mem_eq (w : list Z) (i : Z) (sign : list Z) : bool := bool_decide (sub w i (zlen sign) = sign).

(** [1 << n] in an [int]; C leaves the result undefined from 31 on. *)
Class Shl := shl_undefined : Z -> Z.
Definition shl1 `{Shl} (n : Z) : Z := if n <? 31 then 2 ^ n else shl_undefined n.

Definition pow2_test (x : Z) : bool := Z.land x (x - 1) =? 0.

(** ** Drive number *)

Definition IsTerminator (c : Z) : bool := c <? 32.
Definition IsDigit (c : Z) : bool := (48 <=? c) && (c <=? 57).

(** [do tc = *tt++; while (!IsTerminator(tc) && tc != ':')]: the character that ends the
    search, the number of characters read and the rest of the string. *)
Fixpoint find_colon (rest : list Z) (n : Z) : Z * Z * list Z :=
  match rest with
  | [] => (0, n + 1, [])
  | tc :: rest => if IsTerminator tc || (tc =? 58) then (tc, n + 1, rest) else find_colon rest (n + 1)
  end.

(** The drive number, -1 if it is invalid, and the path without the drive prefix. *)
Definition get_ldnumber (path : list Z) : Z * list Z :=
  let '(tc, n, rest) := find_colon path 0 in
  if tc =? 58 then
    let i := if IsDigit path.[0] && (n =? 2) then path.[0] - 48 else FF_VOLUMES in
    if i <? FF_VOLUMES then (i, rest) else (-1, path)
  else (0, path).

(** [disk_status] and [disk_initialize] of [diskio.c], which call the constant functions
    of [ff_extern.rs]. *)
Definition disk_status : Z := 0.
Definition disk_initialize : Z := 0.

Section code.
Context {D : Type} `{BlockDevice D} `{!Shl}.

(** ** The boot sector *)

(** 0: FAT boot sector, 1: exFAT boot sector, 2: other boot sector, 3: none, 4: disk
    error. *)
Definition check_fs (sect : Z) : M (St D) Z :=
  upd_fs (fun fs => set_winsect (0 -u32 1) (set_wflag 0 fs));;
  res ← move_window sect;
  if negb (fr_ok res) then mret 4 else
  fs ← get_fs;
  let win := win fs in
  let sign := ld_word win BS_55AA in
  if (sign =? 0xAA55) && mem_eq win BS_JmpBoot exfat_sign then mret 1 else
  let b := win.[BS_JmpBoot] in
  if ((b =? 0xEB) || (b =? 0xE9) || (b =? 0xE8)) &&
     ((sign =? 0xAA55) && mem_eq win BS_FilSysType32 fat32_sign ||
      (let w := ld_word win BPB_BytsPerSec in
       let b := win.[BPB_SecPerClus] in
       pow2_test w && (FF_MIN_SS <=? w) && (w <=? FF_MAX_SS)
       && negb (b =? 0) && pow2_test b
       && negb (ld_word win BPB_RsvdSecCnt =? 0)
       && (u32 (win.[BPB_NumFATs] - 1) <=? 1)
       && negb (ld_word win BPB_RootEntCnt =? 0)
       && ((128 <=? ld_word win BPB_TotSec16) || (0x10000 <=? ld_dword win BPB_TotSec32))
       && negb (ld_word win BPB_FATSz16 =? 0)))
  then mret 0
  else mret (if sign =? 0xAA55 then 2 else 3).

(** [do ... while (part == 0 && fmt >= 2 && ++i < 4)] over the rest of the table, [part]
    being 0. *)
Fixpoint find_part (mbr_pt : list Z) (fmt : Z) : M (St D) Z :=
  match mbr_pt with
  | [] => mret fmt
  | pt :: mbr_pt =>
      fmt ← (if negb (pt =? 0) then check_fs pt else mret 3);
      if 2 <=? fmt then find_part mbr_pt fmt else mret fmt
  end.

Definition find_volume : M (St D) Z :=
  fmt ← check_fs 0;
  if negb (fmt =? 2) then mret fmt else
  fs ← get_fs;
  let pt i := ld_dword (win fs) (MBR_Table + i * SZ_PTE + PTE_StLba) in
  find_part [pt 0; pt 1; pt 2; pt 3] 3.

(** ** exFAT *)

(** The search for the bitmap entry: [inl] the result the function returns, or [inr] the
    offset of the entry in the window. *)
Definition bitmap_step : Z * Z -> M (St D) (Z * Z + (FRESULT + Z)) := fun '(so, i) =>
  p ← (if i =? 0 then
         fs ← get_fs;
         if csize fs <=? so then mret (inl FR_NO_FILESYSTEM) else
         res ← move_window (clst2sect fs (dirbase fs) +u32 so);
         if negb (fr_ok res) then mret (inl FR_DISK_ERR) else mret (inr (so + 1))
       else mret (inr so));
  match p with
  | inl e => mret (inr (inl e))
  | inr so =>
      fs ← get_fs;
      if (win fs).[i] =? ET_BITMAP then mret (inr (inr i))
      else mret (inl (so, (i + SZDIRE) mod ssize fs))
  end.

(** The check that the bitmap is contiguous. *)
Definition contig_step : Z -> M (St D) (Z + FRESULT) := fun bcl =>
  fs ← get_fs;
  res ← move_window (fatbase fs +u32 bcl / (ssize fs / 4));
  if negb (fr_ok res) then mret (inr FR_DISK_ERR) else
  fs ← get_fs;
  let cv := ld_dword (win fs) (bcl mod (ssize fs / 4) * 4) in
  if cv =? 0xFFFFFFFF then mret (inr FR_OK) else
  let bcl := bcl +u32 1 in
  if negb (cv =? bcl) then mret (inr FR_NO_FILESYSTEM) else mret (inl bcl).

(** The allocation bitmap, from the first cluster of the root directory. *)
Definition load_bitmap : M (St D) FRESULT :=
  r ← iterate (2 ^ 24)%positive bitmap_step (0, 0);
  match r with
  | inl e => mret e
  | inr i =>
      fs ← get_fs;
      let bcl := ld_dword (win fs) (i + 20) in
      if (bcl <? 2) || (n_fatent fs <=? bcl) then mret FR_NO_FILESYSTEM else
      upd_fs (set_bitbase (database fs +u32 csize fs *u32 (bcl - 2)));;
      res ← iterate (2 ^ 32)%positive contig_step bcl;
      if negb (fr_ok res) then mret res else
      upd_fs (fun fs => set_last_clst 0xFFFFFFFF (set_free_clst 0xFFFFFFFF fs));;
      mret FR_OK
  end.

Definition mount_exfat (bsect : Z) : M (St D) FRESULT :=
  fs ← get_fs;
  let win := win fs in
  if negb (forallb (fun i => win.[i] =? 0) (seqZ BPB_ZeroedEx 53)) then mret FR_NO_FILESYSTEM else
  if negb (ld_word win BPB_FSVerEx =? 0x100) then mret FR_NO_FILESYSTEM else
  if negb (shl1 win.[BPB_BytsPerSecEx] =? ssize fs) then mret FR_NO_FILESYSTEM else
  let maxlba := u64 (ld_qword win BPB_TotSecEx + bsect) in
  if 0x100000000 <=? maxlba then mret FR_NO_FILESYSTEM else
  upd_fs (set_fsize (ld_dword win BPB_FatSzEx));;
  upd_fs (set_n_fats win.[BPB_NumFATsEx]);;
  if negb (win.[BPB_NumFATsEx] =? 1) then mret FR_NO_FILESYSTEM else
  let csize := u16 (shl1 win.[BPB_SecPerClusEx]) in
  upd_fs (set_csize csize);;
  if csize =? 0 then mret FR_NO_FILESYSTEM else
  let nclst := ld_dword win BPB_NumClusEx in
  if MAX_EXFAT <? nclst then mret FR_NO_FILESYSTEM else
  upd_fs (set_n_fatent (nclst +u32 2));;
  let database := bsect +u32 ld_dword win BPB_DataOfsEx in
  upd_fs (set_volbase bsect);;
  upd_fs (set_database database);;
  upd_fs (set_fatbase (bsect +u32 ld_dword win BPB_FatOfsEx));;
  if maxlba <? u64 (database + nclst *u32 csize) then mret FR_NO_FILESYSTEM else
  upd_fs (set_dirbase (ld_dword win BPB_RootClusEx));;
  load_bitmap.

(** ** FAT12, FAT16 and FAT32 *)

Definition fat_subtype (nclst : Z) : Z :=
  let fmt := 0 in
  let fmt := if nclst <=? MAX_FAT32 then FS_FAT32 else fmt in
  let fmt := if nclst <=? MAX_FAT16 then FS_FAT16 else fmt in
  if nclst <=? MAX_FAT12 then FS_FAT12 else fmt.

(** The FSINFO sector. *)
Definition load_fsinfo (fmt bsect : Z) : M (St D) unit :=
  upd_fs (fun fs => set_fsi_flag 0x80 (set_last_clst 0xFFFFFFFF (set_free_clst 0xFFFFFFFF fs)));;
  fs ← get_fs;
  if (fmt =? FS_FAT32) && (ld_word (win fs) BPB_FSInfo32 =? 1) then
    res ← move_window (bsect +u32 1);
    if fr_ok res then
      upd_fs (set_fsi_flag 0);;
      fs ← get_fs;
      if (ld_word (win fs) BS_55AA =? 0xAA55) && (ld_dword (win fs) FSI_LeadSig =? 0x41615252)
         && (ld_dword (win fs) FSI_StrucSig =? 0x61417272) then
        upd_fs (fun fs => set_last_clst (ld_dword (win fs) FSI_Nxt_Free)
                           (set_free_clst (ld_dword (win fs) FSI_Free_Count) fs))
      else mret tt
    else mret tt
  else mret tt.

(** The result and the type of the FAT. *)
Definition mount_fat (bsect : Z) : M (St D) (FRESULT * Z) :=
  fs ← get_fs;
  let win := win fs in
  let ss := ssize fs in
  let bad := mret (FR_NO_FILESYSTEM, 0) in
  if negb (ld_word win BPB_BytsPerSec =? ss) then bad else
  let fasize := ld_word win BPB_FATSz16 in
  let fasize := if fasize =? 0 then ld_dword win BPB_FATSz32 else fasize in
  upd_fs (set_fsize fasize);;
  let fsize := fasize in
  let n_fats := win.[BPB_NumFATs] in
  upd_fs (set_n_fats n_fats);;
  if negb (n_fats =? 1) && negb (n_fats =? 2) then bad else
  let fasize := fasize *u32 n_fats in
  let csize := win.[BPB_SecPerClus] in
  upd_fs (set_csize csize);;
  if (csize =? 0) || negb (pow2_test csize) then bad else
  let n_rootdir := ld_word win BPB_RootEntCnt in
  upd_fs (set_n_rootdir n_rootdir);;
  if negb (n_rootdir mod (ss / SZDIRE) =? 0) then bad else
  let tsect := ld_word win BPB_TotSec16 in
  let tsect := if tsect =? 0 then ld_dword win BPB_TotSec32 else tsect in
  let nrsv := ld_word win BPB_RsvdSecCnt in
  if nrsv =? 0 then bad else
  let sysect := nrsv +u32 fasize +u32 n_rootdir / (ss / SZDIRE) in
  if tsect <? sysect then bad else
  let nclst := (tsect - sysect) / csize in
  if nclst =? 0 then bad else
  let fmt := fat_subtype nclst in
  if fmt =? 0 then bad else
  let n_fatent := nclst +u32 2 in
  upd_fs (set_n_fatent n_fatent);;
  upd_fs (set_volbase bsect);;
  let fatbase := bsect +u32 nrsv in
  upd_fs (set_fatbase fatbase);;
  upd_fs (set_database (bsect +u32 sysect));;
  p ← (if fmt =? FS_FAT32 then
         if negb (ld_word win BPB_FSVer32 =? 0) then mret None else
         if negb (n_rootdir =? 0) then mret None else
         upd_fs (set_dirbase (ld_dword win BPB_RootClus32));;
         mret (Some (n_fatent *u32 4))
       else
         if n_rootdir =? 0 then mret None else
         upd_fs (set_dirbase (fatbase +u32 fasize));;
         mret (Some (if fmt =? FS_FAT16 then n_fatent *u32 2
                     else (n_fatent *u32 3) / 2 +u32 Z.land n_fatent 1)));
  match p with
  | None => bad
  | Some szbfat =>
      if fsize <? (szbfat +u32 (ss - 1)) / ss then bad else
      load_fsinfo fmt bsect;;
      mret (FR_OK, fmt)
  end.

(** ** Mounting *)

(** [mount_volume] from the point where the filesystem object is known; the mount
    counter [Fsid] is an argument and a result. *)
Definition mount_fs (mode Fsid : Z) : M (St D) (FRESULT * Z) :=
  fs ← get_fs;
  let mode := Z.land mode (Z.lnot FA_READ) in
  if negb (fs_type fs =? 0) && negb (has disk_status STA_NOINIT) then
    if negb (mode =? 0) && has disk_status STA_PROTECT then mret (FR_WRITE_PROTECTED, Fsid)
    else mret (FR_OK, Fsid)
  else
  upd_fs (set_fs_type 0);;
  if has disk_initialize STA_NOINIT then mret (FR_NOT_READY, Fsid) else
  if negb (mode =? 0) && has disk_initialize STA_PROTECT then mret (FR_WRITE_PROTECTED, Fsid) else
  ss ← gets (fun s => u16 (sector_size (dev s)));
  upd_fs (set_ssize ss);;
  if (FF_MAX_SS <? ss) || (ss <? FF_MIN_SS) || negb (pow2_test ss) then mret (FR_DISK_ERR, Fsid) else
  fmt ← find_volume;
  if fmt =? 4 then mret (FR_DISK_ERR, Fsid) else
  if 2 <=? fmt then mret (FR_NO_FILESYSTEM, Fsid) else
  fs ← get_fs;
  let bsect := winsect fs in
  '(res, fmt) ← (if fmt =? 1 then res ← mount_exfat bsect; mret (res, FS_EXFAT) else mount_fat bsect);
  if negb (fr_ok res) then mret (res, Fsid) else
  let Fsid := u16 (Fsid + 1) in
  upd_fs (fun fs => set_fsid Fsid (set_fs_type (u8 fmt) fs));;
  mret (FR_OK, Fsid).

(** [registered] says whether [f_mount] gave a filesystem object for the drive; the path
    without its drive prefix is a result. *)
Definition mount_volume (path : list Z) (registered : bool) (mode Fsid : Z) : M (St D) (FRESULT * list Z * Z) :=
  let '(vol, path) := get_ldnumber path in
  if vol <? 0 then mret (FR_INVALID_DRIVE, path, Fsid) else
  if negb registered then mret (FR_NOT_ENABLED, path, Fsid) else
  '(res, Fsid) ← mount_fs mode Fsid;
  mret (res, path, Fsid).

(** [validate] *)
Definition validate (obj : FFOBJID) (has_fs : bool) : M (St D) FRESULT :=
  fs ← get_fs;
  mret (if has_fs && negb (fs_type fs =? 0) && (obj_id obj =? fsid fs) && negb (has disk_status STA_NOINIT)
        then FR_OK else FR_INVALID_OBJECT).
End code.

(** ** Reading while nothing is mounted *)

(** Nothing but the boot code has touched the window: it is clean and shows what the
    medium holds. *)
Record clean {D} `{BlockDeviceLaws D} (s : St D) : Prop := {
  cl_flag : wflag (fsys s) = 0;
  cl_len : zlen (win (fsys s)) = FF_MAX_SS;
  cl_bytes : bytes (win (fsys s));
  cl_ss : ssize (fsys s) = sector_size (dev s);
  cl_ok : sect_size_ok (ssize (fsys s));
  cl_sect : is_u32 (winsect (fsys s));
  cl_coh : winsect (fsys s) <> 0xFFFFFFFF ->
    take (Z.to_nat (ssize (fsys s))) (win (fsys s)) = medium (dev s) (winsect (fsys s))
}.

(** The two devices hold the same data. *)
Definition same_medium {D} `{BlockDeviceLaws D} (d d' : D) : Prop :=
  sector_size d' = sector_size d /\ forall x, medium d' x = medium d x.

Section reading.
Context {D : Type} `{BlockDeviceLaws D}.
Implicit Types s : St D.

Global Instance same_medium_preorder : PreOrder (@same_medium D _ _).
Proof.
  split; [done|]. intros d1 d2 d3 [E1 M1] [E2 M2]. split; [congruence|]. intros x. by rewrite M2.
Qed.

(** Assignments to other members. *)
Lemma clean_upd s fs :
  clean s -> wflag fs = wflag (fsys s) -> win fs = win (fsys s) -> ssize fs = ssize (fsys s) ->
  winsect fs = winsect (fsys s) -> clean (mkSt fs (dev s)).
Proof. intros [] E1 E2 E3 E4. split; cbn; by rewrite ?E1, ?E2, ?E3, ?E4. Qed.

(** Moving a clean window reads one sector at most and writes nothing. *)
Lemma move_window_clean s x :
  clean s -> is_u32 x ->
  post (move_window x) s (fun r s' =>
    clean s' /\ core (fsys s') = core (fsys s) /\ same_medium (dev s) (dev s') /\
    (r = FR_OK /\ winsect (fsys s') = x \/ r = FR_DISK_ERR)).
Proof.
  intros Hc Hx. destruct (Hc) as [Hf Hl Hb Hs Ho Hu Hco]. pose proof (sect_size_bounds _ Ho) as Hsb.
  unfold move_window, sync_window, get_fs, upd_fs. mstep. apply post_gets. mstep; [|mstep; split_and!; [done..|left; split; [done|lia]]].
  mstep. mstep. apply post_gets. rewrite Hf. cbn [Z.eqb negb]. mstep. cbn [fr_ok]. mstep.
  apply post_do_read_win; [apply Hx|rewrite Hl, <- Hs; unfold FF_MAX_SS; lia|done|].
  intros r b d' Hss Hm Hlb Hbb Hr. assert (same_medium (dev s) d') as Hsm by done.
  destruct (res_ok r) eqn:Er; cbn [negb]; mstep; apply post_modify; mstep; cbn [fsys dev].
  - destruct r; try done. specialize (Hr eq_refl). split_and!; [|done|done|by left].
    split; cbn; try done; [unfold zlen in *; lia|congruence|]. intros _. rewrite Hm, <- Hr. by rewrite Hs.
  - split_and!; [|done|done|by right]. split; cbn; try done; [unfold zlen in *; lia|congruence].
Qed.

Lemma check_fs_spec s x :
  zlen (win (fsys s)) = FF_MAX_SS -> bytes (win (fsys s)) ->
  ssize (fsys s) = sector_size (dev s) -> sect_size_ok (ssize (fsys s)) -> is_u32 x ->
  post (check_fs x) s (fun fmt s' =>
    clean s' /\ core (fsys s') = core (fsys s) /\ same_medium (dev s) (dev s') /\
    (0 <= fmt <= 3 /\ winsect (fsys s') = x \/ fmt = 4)).
Proof.
  intros Hl Hb Hs Ho Hx. unfold check_fs, get_fs, upd_fs. mstep. apply post_modify. mstep.
  eapply post_mono; [apply move_window_clean; [|done]|].
  { split; cbn; try done. }
  intros r s' (Hc & Hcore & Hsm & Hr). cbn [fsys dev] in *. 
  destruct Hr as [[-> Hw]| ->]; cbn [fr_ok negb]; [|mstep; split_and!; auto].
  mstep. apply post_gets. mstep; [mstep; split_and!; [done..|left; lia]|].
  mstep; mstep; (split_and!; [done..|left]); [lia|]. case_match; lia.
Qed.
End reading.

(** ** The volume that is found *)

Section volume.
Context {D : Type} `{BlockDeviceLaws D} `{!Shl}.
Implicit Types s : St D.

(** What the boot code keeps: only the window, and the counters of free clusters, differ. *)
Definition boot_step s s' : Prop := clean s' /\ core (fsys s') = core (fsys s) /\ same_medium (dev s) (dev s').

(** What the boot code keeps while it fills in the filesystem object. *)
Definition mount_keeps s s' : Prop :=
  clean s' /\ same_medium (dev s) (dev s') /\ ssize (fsys s') = ssize (fsys s) /\ fs_type (fsys s') = fs_type (fsys s).

Lemma boot_step_trans s1 s2 s3 : boot_step s1 s2 -> boot_step s2 s3 -> boot_step s1 s3.
Proof. intros (C1 & E1 & M1) (C2 & E2 & M2). split_and!; [done|congruence|by etrans]. Qed.

Lemma boot_step_refl s : clean s -> boot_step s s.
Proof. intros Hc. by split_and!. Qed.

Lemma check_clean s x :
  clean s -> is_u32 x ->
  post (check_fs x) s (fun fmt s' => boot_step s s' /\ (0 <= fmt <= 3 \/ fmt = 4)).
Proof.
  intros [] Hx. eapply post_mono; [by apply check_fs_spec|].
  intros fmt s' (C & E & M & Hr). split; [by split_and!|]. lia.
Qed.

Lemma find_part_spec l fmt s :
  clean s -> Forall is_u32 l -> 0 <= fmt <= 4 ->
  post (find_part l fmt) s (fun fmt' s' => boot_step s s' /\ 0 <= fmt' <= 4).
Proof.
  intros Hc Hl Hf. revert fmt s Hc Hf. induction Hl as [|x l Hx Hl IH]; intros fmt s Hc Hf; cbn [find_part].
  { mstep. split; [by apply boot_step_refl|done]. }
  mstep. pose proof (boot_step_refl s Hc) as Hrefl.
  assert (forall fmt1 s1, boot_step s s1 -> 0 <= fmt1 <= 4 ->
    post (if 2 <=? fmt1 then find_part l fmt1 else mret fmt1) s1 (fun fmt' s' => boot_step s s' /\ 0 <= fmt' <= 4)) as Hk.
  { intros fmt1 s1 Hs1 Hf1. mstep; [|mstep; done]. eapply post_mono; [apply IH; [apply Hs1|done]|].
    intros fmt2 s2 [Hs2 Hf2]. split; [by eapply boot_step_trans|done]. }
  mstep; [|mstep; apply Hk; done || lia].
  eapply post_mono; [by apply check_clean|]. intros fmt1 s1 [Hs1 Hf1]. apply Hk; [done|lia].
Qed.

Lemma ld_dword_u32 l p : is_u32 (ld_dword l p).
Proof. apply u32_range. Qed.

Lemma find_volume_spec s :
  zlen (win (fsys s)) = FF_MAX_SS -> bytes (win (fsys s)) ->
  ssize (fsys s) = sector_size (dev s) -> sect_size_ok (ssize (fsys s)) ->
  post find_volume s (fun fmt s' => boot_step s s' /\ 0 <= fmt <= 4).
Proof.
  intros Hl Hb Hs Ho. unfold find_volume, get_fs. mstep. eapply post_mono; [by apply check_fs_spec|].
  intros fmt s1 (C & E & M & Hr). assert (0 <= fmt <= 4) by lia. assert (boot_step s s1) as Hst by by split_and!.
  mstep; [mstep; done|]. mstep. apply post_gets. eapply post_mono.
  { apply find_part_spec; [done| |lia]. repeat constructor; apply ld_dword_u32. }
  intros fmt2 s2 [Hs2 Hf2]. split; [by eapply boot_step_trans|done].
Qed.
End volume.

(** ** The parameters of a FAT volume *)

Definition bpb_fatsz (w : list Z) : Z :=
  if ld_word w BPB_FATSz16 =? 0 then ld_dword w BPB_FATSz32 else ld_word w BPB_FATSz16.
Definition bpb_tsect (w : list Z) : Z :=
  if ld_word w BPB_TotSec16 =? 0 then ld_dword w BPB_TotSec32 else ld_word w BPB_TotSec16.

(** Sectors before the data area, as the code computes them. *)
Definition bpb_sysect (w : list Z) (ss : Z) : Z :=
  ld_word w BPB_RsvdSecCnt +u32 bpb_fatsz w *u32 w.[BPB_NumFATs] +u32 ld_word w BPB_RootEntCnt / (ss / SZDIRE).

(** The members of the filesystem object after [mount_fat], and what it has checked. *)
Record fat_mounted (w : list Z) (ss bsect : Z) (fs : FATFS) (fmt : Z) : Prop := {
  fm_fsize : fsize fs = bpb_fatsz w;
  fm_n_fats : n_fats fs = w.[BPB_NumFATs] /\ (n_fats fs = 1 \/ n_fats fs = 2);
  fm_csize : csize fs = w.[BPB_SecPerClus] /\ csize fs <> 0 /\ pow2_test (csize fs) = true;
  fm_root : n_rootdir fs = ld_word w BPB_RootEntCnt /\ n_rootdir fs mod (ss / SZDIRE) = 0;
  fm_nrsv : ld_word w BPB_RsvdSecCnt <> 0;
  fm_tsect : bpb_sysect w ss <= bpb_tsect w;
  fm_ents : n_fatent fs = (bpb_tsect w - bpb_sysect w ss) / csize fs +u32 2;
  fm_some : (bpb_tsect w - bpb_sysect w ss) / csize fs <> 0;
  fm_type : fmt = fat_subtype ((bpb_tsect w - bpb_sysect w ss) / csize fs) /\ fmt <> 0;
  fm_volbase : volbase fs = bsect;
  fm_fatbase : fatbase fs = bsect +u32 ld_word w BPB_RsvdSecCnt;
  fm_database : database fs = bsect +u32 bpb_sysect w ss;
  fm_dirbase : is_u32 (dirbase fs) /\
    (fmt <> FS_FAT32 -> dirbase fs = fatbase fs +u32 bpb_fatsz w *u32 w.[BPB_NumFATs] /\ n_rootdir fs <> 0);
  fm_fits : ((if fmt =? FS_FAT32 then n_fatent fs *u32 4
              else if fmt =? FS_FAT16 then n_fatent fs *u32 2
              else (n_fatent fs *u32 3) / 2 +u32 Z.land (n_fatent fs) 1) +u32 (ss - 1)) / ss <= fsize fs;
  fm_counts : is_u32 (free_clst fs) /\ is_u32 (last_clst fs);
  fm_root32 : fmt = FS_FAT32 -> dirbase fs = ld_dword w BPB_RootClus32
}.

Section fat.
Context {D : Type} `{BlockDeviceLaws D}.
Implicit Types s : St D.

Lemma fat_mounted_info w ss bsect fs fs' fmt :
  fat_mounted w ss bsect fs fmt -> geo fs' = geo fs -> is_u32 (free_clst fs') -> is_u32 (last_clst fs') ->
  fat_mounted w ss bsect fs' fmt.
Proof.
  intros [] Hg Hf Hl. assert (volbase fs' = volbase fs) as Ev by exact (f_equal volbase Hg).
  assert (dirbase fs' = dirbase fs) as Ed by exact (f_equal dirbase Hg).
  assert (n_rootdir fs' = n_rootdir fs) as Er by exact (f_equal n_rootdir Hg).
  assert (n_fats fs' = n_fats fs) as En by exact (f_equal n_fats Hg).
  symmetry in Hg. split; rewrite ?Ev, ?Ed, ?Er, ?En; geo_rewrite Hg; auto.
Qed.

Lemma load_fsinfo_spec s fmt bsect w :
  clean s -> is_u32 bsect ->
  fat_mounted w (ssize (fsys s)) bsect (set_free_clst 0 (set_last_clst 0 (fsys s))) fmt ->
  post (load_fsinfo fmt bsect) s (fun _ s' =>
    mount_keeps s s' /\ fat_mounted w (ssize (fsys s)) bsect (fsys s') fmt).
Proof.
  intros Hc Hb Hm. unfold load_fsinfo, get_fs, upd_fs. mstep. apply post_modify. cbn [fsys dev].
  set (s1 := mkSt _ (dev s)). assert (clean s1) as Hc1 by (by apply (clean_upd s)).
  assert (fat_mounted w (ssize (fsys s)) bsect (fsys s1) fmt) as Hm1 by (by eapply fat_mounted_info).
  mstep. apply post_gets. mstep; [|mstep; by repeat split_and!]. mstep.
  eapply post_mono; [apply (move_window_clean s1 _ Hc1), u32_range|].
  intros r s2 (Hc2 & E2 & M2 & Hr). assert (geo (fsys s2) = geo (fsys s1)) as Hg2 by (by apply core_geo).
  assert (ssize (fsys s2) = ssize (fsys s1)) as Es2 by exact (f_equal ssize E2).
  assert (fs_type (fsys s2) = fs_type (fsys s1)) as Et2 by exact (f_equal fs_type E2).
  assert (free_clst (fsys s2) = 0xFFFFFFFF /\ last_clst (fsys s2) = 0xFFFFFFFF) as [Ef El].
  { split; [exact (f_equal free_clst E2)|exact (f_equal last_clst E2)]. }
  assert (fat_mounted w (ssize (fsys s)) bsect (fsys s2) fmt) as Hm2.
  { eapply fat_mounted_info; [apply Hm1|done|by rewrite Ef|by rewrite El]. }
  mstep; [|mstep; by split_and!]. mstep. apply post_modify. mstep. apply post_gets. cbn [fsys dev].
  mstep; [apply post_modify|mstep]; cbn [fsys dev].
  - split; [split_and!; [by apply (clean_upd s2)|done..]|].
    eapply fat_mounted_info; [apply Hm2|done|apply ld_dword_u32|apply ld_dword_u32].
  - split; [split_and!; [by apply (clean_upd s2)|done..]|]. eapply fat_mounted_info; [apply Hm2|done| |]; cbn; by rewrite ?Ef, ?El.
Qed.
(** Assignments are executed, checks that fail end the function. *)
Ltac mount_step s :=
  lazymatch goal with
  | |- post (mbind _ _) _ _ => apply post_bind
  | |- post (gets _) _ _ => apply post_gets
  | |- post (modify _) _ _ => apply post_modify; cbn [fsys dev]
  | |- post (mret (FR_NO_FILESYSTEM, _)) _ _ =>
      apply post_ret; split; [split_and!; [first [done|by apply (clean_upd s)]|done|done|done]|done]
  end.

Lemma mount_fat_spec s bsect :
  clean s -> is_u32 bsect ->
  post (mount_fat bsect) s (fun '(r, fmt) s' =>
    mount_keeps s s' /\
    (r = FR_OK -> fat_mounted (win (fsys s)) (ssize (fsys s)) bsect (fsys s') fmt)).
Proof.
  intros Hc Hb. set (w := win (fsys s)). set (ss := ssize (fsys s)).
  unfold mount_fat, get_fs, upd_fs. repeat mount_step s. cbn zeta. fold w ss.
  fold (bpb_fatsz w) (bpb_tsect w) (bpb_sysect w ss).
  bdestr; [mount_step s|]. repeat mount_step s. bdestr; [mount_step s|]. repeat mount_step s.
  bdestr; [mount_step s|]. repeat mount_step s. bdestr; [mount_step s|].
  bdestr; [mount_step s|]. bdestr; [mount_step s|]. bdestr; [mount_step s|]. bdestr; [mount_step s|].
  repeat mount_step s. set (nclst := (bpb_tsect w - bpb_sysect w ss) / w.[BPB_SecPerClus]) in *.
  set (fmt := fat_subtype nclst) in *. bdestr.
  - bdestr; [mstep; mount_step s|]. bdestr; [mstep; mount_step s|]. do 2 mount_step s. mstep.
    bdestr; [mount_step s|]. mount_step s. eapply post_mono.
    { apply (load_fsinfo_spec _ fmt bsect w); [by apply (clean_upd s)|done|].
      split; cbn; try done; [by split; [apply ld_dword_u32|]|]. fold nclst. by rewrite (proj2 (Z.eqb_eq _ _) Hb8). }
    intros _ s' (K & Hm). mstep. done.
  - bdestr; [mstep; mount_step s|]. do 2 mount_step s. mstep.
    bdestr; [mount_step s|]. mount_step s. eapply post_mono.
    { apply (load_fsinfo_spec _ fmt bsect w); [by apply (clean_upd s)|done|].
      split; cbn; try done; [by split; [apply u32_range|]|]. fold nclst. by rewrite (proj2 (Z.eqb_neq _ _) Hb8). }
    intros _ s' (K & Hm). mstep. done.
Qed.
End fat.

(** ** From the parameters to the invariants *)

(** The test of the code for powers of two. *)
Lemma pow2_test_log2 x : 0 < x -> pow2_test x = true -> x = 2 ^ Z.log2 x.
Proof.
  intros Hx Ht%Z.eqb_eq. pose proof (Z.log2_spec x Hx) as [Hlo Hhi]. set (n := Z.log2 x) in *.
  assert (0 <= n) by apply Z.log2_nonneg. destruct (decide (x = 2 ^ n)) as [|Hne]; [done|exfalso].
  assert (Z.testbit (Z.land x (x - 1)) n = true) as Hb; [|by rewrite Ht, Z.bits_0 in Hb].
  rewrite Z.land_spec. assert (Z.log2 (x - 1) = n) as El by (apply Z.log2_unique; lia).
  assert (0 < 2 ^ n) by (apply Z.pow_pos_nonneg; lia).
  unfold n at 1. rewrite Z.bit_log2 by lia. rewrite <- El. by rewrite Z.bit_log2 by lia.
Qed.

Lemma sect_size_test ss :
  FF_MIN_SS <= ss <= FF_MAX_SS -> pow2_test ss = true -> sect_size_ok ss.
Proof.
  unfold FF_MIN_SS, FF_MAX_SS. intros Hs Ht. pose proof (pow2_test_log2 ss ltac:(lia) Ht) as E.
  pose proof (Z.log2_le_mono 512 ss ltac:(lia)) as H1. pose proof (Z.log2_le_mono ss 4096 ltac:(lia)) as H2.
  change (Z.log2 512) with 9 in H1. change (Z.log2 4096) with 12 in H2.
  assert (Z.log2 ss = 9 \/ Z.log2 ss = 10 \/ Z.log2 ss = 11 \/ Z.log2 ss = 12) as Hn by lia.
  rewrite E. destruct Hn as [->|[->|[->| ->]]]; unfold sect_size_ok; lia.
Qed.

(** No sum of sizes exceeds 32 bits: the system area and the end of the volume. *)
Definition no_overflow (w : list Z) (ss bsect : Z) : Prop :=
  0 < bpb_tsect w /\ bsect + bpb_tsect w < 2 ^ 32 /\
  ld_word w BPB_RsvdSecCnt + bpb_fatsz w * w.[BPB_NumFATs] + ld_word w BPB_RootEntCnt / (ss / SZDIRE) < 2 ^ 32.

Lemma ld_word_u16 l p : is_u16 (ld_word l p).
Proof. apply u16_range. Qed.

Lemma bpb_u32 w : is_u32 (bpb_fatsz w) /\ is_u32 (bpb_tsect w).
Proof.
  assert (forall p, is_u32 (ld_word w p)) as Hw.
  { intros p. pose proof (ld_word_u16 w p). unfold is_u16, is_u32 in *. lia. }
  unfold bpb_fatsz, bpb_tsect. split; case_match; auto using ld_dword_u32.
Qed.

(** The subtype of the FAT and the number of clusters. *)
Lemma fat_subtype_range n :
  0 <= n -> fat_subtype n <> 0 ->
  fat_subtype n = FS_FAT12 /\ n <= MAX_FAT12 \/ fat_subtype n = FS_FAT16 /\ n <= MAX_FAT16 \/
  fat_subtype n = FS_FAT32 /\ n <= MAX_FAT32.
Proof.
  unfold fat_subtype, FS_FAT12, FS_FAT16, FS_FAT32. intros Hn.
  destruct (Z.leb_spec n MAX_FAT12), (Z.leb_spec n MAX_FAT16), (Z.leb_spec n MAX_FAT32); lia.
Qed.

Section geometry.
Context (w : list Z) (ss bsect : Z) (fs : FATFS).
Hypothesis Hm : fat_mounted w ss bsect fs (fs_type fs).
Hypothesis Hw : bytes w.
Hypothesis Hss : sect_size_ok ss.
Hypothesis Hsz : ssize fs = ss.
Hypothesis Hbs : is_u32 bsect.
Hypothesis Hno : no_overflow w ss bsect.

Let nrsv := ld_word w BPB_RsvdSecCnt.
Let rsect := n_rootdir fs / (ss / SZDIRE).
Let nclst := (bpb_tsect w - (nrsv + fsize fs * n_fats fs + rsect)) / csize fs.

(** The equations of [fat_mounted] without wrap-around. *)
Lemma mounted_flat :
  0 < nrsv /\ 0 <= rsect /\ 0 <= fsize fs /\ 0 < csize fs < 256 /\ 0 < nclst <= MAX_FAT32 /\
  fs_type fs = fat_subtype nclst /\ n_fatent fs = nclst + 2 /\
  fatbase fs = bsect + nrsv /\ database fs = bsect + nrsv + fsize fs * n_fats fs + rsect /\
  nrsv + fsize fs * n_fats fs + rsect + csize fs * nclst <= bpb_tsect w /\
  (fs_type fs <> FS_FAT32 -> dirbase fs = fatbase fs + fsize fs * n_fats fs).
Proof.
  destruct Hm as [F1 [F2 F2'] [F3 [F3a F3b]] [F4 F4'] F5 F6 F7 F8 [F9 F9'] F10 F11 F12 [F13 F14] F15 _ _].
  destruct Hno as (N1 & N2 & N3). destruct (bpb_u32 w) as [Uf Ut].
  pose proof (ld_word_u16 w BPB_RsvdSecCnt) as Un. fold nrsv in Un, N3, F5, F11.
  rewrite <- F1, <- F2, <- F4 in N3. fold rsect in N3. rewrite <- F1 in Uf.
  pose proof (getb_bytes w BPB_SecPerClus Hw) as Uc. rewrite <- F3 in Uc.
  pose proof (ld_word_u16 w BPB_RootEntCnt) as Ur. rewrite <- F4 in Ur.
  destruct (sect_size_bounds _ Hss) as [Hs1 Hs2].
  assert (0 < ss / SZDIRE) as Hsd by (apply Z.div_str_pos; unfold SZDIRE; lia).
  assert (0 <= rsect) by (apply Z.div_pos; [unfold is_u16 in Ur|]; lia).
  unfold is_u32, is_u16, is_u8 in *.
  assert (0 <= fsize fs * n_fats fs) as Hfa by nia.
  assert (bpb_sysect w ss = nrsv + fsize fs * n_fats fs + rsect) as Esys.
  { unfold bpb_sysect. rewrite <- F1, <- F2, <- F4. fold nrsv rsect.
    rewrite (u32_small (fsize fs * _)), (u32_small (nrsv + _)), u32_small; unfold is_u32; lia. }
  rewrite Esys in F6, F7, F8, F9, F12. fold nclst in F7, F8, F9.
  assert (0 <= nclst) as Hn0 by (apply Z.div_pos; lia).
  assert (csize fs * nclst <= bpb_tsect w - (nrsv + fsize fs * n_fats fs + rsect)) as Hcl by (apply Z.mul_div_le; lia).
  assert (nclst <= MAX_FAT32) as Hmax.
  { rewrite F9 in F9'. destruct (fat_subtype_range nclst Hn0 F9') as [[_ ?]|[[_ ?]|[_ ?]]];
      unfold MAX_FAT12, MAX_FAT16, MAX_FAT32 in *; lia. }
  split_and!; try lia; try done.
  - rewrite F7, u32_small; [done|]. unfold is_u32, MAX_FAT32 in *. lia.
  - rewrite F11, u32_small; [done|]. unfold is_u32. nia.
  - rewrite F12, u32_small; [lia|]. unfold is_u32. nia.
  - intros Ht. destruct (F14 Ht) as [-> _]. rewrite <- F1, <- F2, F11.
    rewrite (u32_small (bsect + nrsv)), (u32_small (fsize fs * _)), u32_small; unfold is_u32; lia.
Qed.

(** The size of the table that [mount_fat] compares with the size of the FAT area. *)
Lemma mounted_fits :
  2 <= n_fatent fs <= fat_max fs /\ fat_bytes fs <= fsize fs * ss.
Proof.
  destruct mounted_flat as (M1 & M2 & M3 & M4 & M5 & M6 & M7 & _).
  pose proof (fm_fits _ _ _ _ _ Hm) as Hf. destruct (sect_size_bounds _ Hss) as [Hs1 Hs2].
  assert (fs_type fs <> 0) as Ht by apply Hm. rewrite M6 in Ht.
  assert (forall b, is_u32 (b + (ss - 1)) -> (b +u32 (ss - 1)) / ss <= fsize fs -> b <= fsize fs * ss) as Hup.
  { intros b Hb Hle. rewrite u32_small in Hle by done. Z.div_mod_to_equations. nia. }
  unfold fat_bytes, fat_max.
  destruct (fat_subtype_range nclst ltac:(lia) Ht) as [[E Hn]|[[E Hn]|[E Hn]]];
    rewrite M6, E in *; rewrite M7 in *; unfold FS_FAT12, FS_FAT16, FS_FAT32, MAX_FAT12, MAX_FAT16, MAX_FAT32 in *;
    cbn [Z.eqb Pos.eqb] in *; (split; [lia|]); apply Hup in Hf.
  - rewrite (Z.land_ones _ 1) in Hf by lia. 
    rewrite (u32_small ((nclst + 2) * 3)), u32_small in Hf by (unfold is_u32; Z.div_mod_to_equations; lia).
    Z.div_mod_to_equations. lia.
  - rewrite (Z.land_ones _ 1) by lia. zlia.
  - rewrite u32_small in Hf; unfold is_u32; lia.
  - zlia.
  - rewrite u32_small in Hf; unfold is_u32; lia.
  - zlia.
Qed.

Lemma mounted_geom : geom_ok fs /\ fat_geom fs /\ vol_geom fs.
Proof.
  destruct mounted_flat as (M1 & M2 & M3 & M4 & M5 & M6 & M7 & M8 & M9 & M10 & M11).
  destruct mounted_fits as [Hn Hfit]. destruct Hno as (N1 & N2 & _).
  destruct Hm as [_ [_ F2] [_ [_ F3]] [F4 F4'] _ _ _ _ [_ F9] _ _ _ [F13 F14] _ _ _].
  destruct (sect_size_bounds _ Hss) as [Hs1 Hs2]. unfold is_u32 in Hbs.
  assert (0 < fsize fs) as Hpos.
  { assert (0 < fat_bytes fs) by (unfold fat_bytes; bdestr; [|bdestr]; Z.div_mod_to_equations; lia). nia. }
  assert (1 <= fs_type fs <= 3) as Hty.
  { rewrite M6 in *. destruct (fat_subtype_range nclst ltac:(lia) F9) as [[-> _]|[[-> _]|[-> _]]]; done. }
  assert (0 <= fsize fs * n_fats fs) by lia.
  assert (0 <= csize fs * nclst) by (apply Z.mul_nonneg_nonneg; lia).
  split_and!.
  - split; rewrite ?Hsz; try done; lia.
  - split; rewrite ?Hsz; try done; lia.
  - split.
    + split; rewrite ?M7; try lia.
    + lia.
    + done.
    + exists (Z.log2 (csize fs)). split; [|apply pow2_test_log2; [lia|done]].
      split; [apply Z.log2_nonneg|]. apply Z.lt_succ_r, Z.log2_lt_pow2; lia.
    + intros Hlt. assert (fs_type fs <> FS_FAT32) as Hne by lia. specialize (M11 Hne).
      pose proof (ld_word_u16 w BPB_RootEntCnt) as Ur. rewrite <- F4 in Ur. unfold is_u16 in Ur.
      rewrite Hsz. assert (n_rootdir fs = ss / SZDIRE * rsect) as Er.
      { unfold rsect. apply Z.div_exact in F4'; [done|]. unfold SZDIRE. Z.div_mod_to_equations. lia. }
      assert (n_rootdir fs * SZDIRE = rsect * ss) as ->.
      { rewrite Er. unfold sect_size_ok, SZDIRE in *.
        destruct Hss as [->|[->|[->| ->]]]; change (512 / 32) with 16; change (1024 / 32) with 32;
          change (2048 / 32) with 64; change (4096 / 32) with 128; lia. }
      rewrite Z.mod_mul, Z.div_mul by lia. split_and!; lia.
Qed.
End geometry.

(** ** The parameters of an exFAT volume *)

Record exfat_mounted `{Shl} (w : list Z) (bsect : Z) (fs : FATFS) : Prop := {
  em_fsize : fsize fs = ld_dword w BPB_FatSzEx;
  em_n_fats : n_fats fs = 1;
  em_csize : csize fs = u16 (shl1 w.[BPB_SecPerClusEx]) /\ csize fs <> 0;
  em_ents : n_fatent fs = ld_dword w BPB_NumClusEx + 2 /\ ld_dword w BPB_NumClusEx <= MAX_EXFAT;
  em_volbase : volbase fs = bsect;
  em_fatbase : fatbase fs = bsect +u32 ld_dword w BPB_FatOfsEx;
  em_database : database fs = bsect +u32 ld_dword w BPB_DataOfsEx;
  em_dirbase : dirbase fs = ld_dword w BPB_RootClusEx;
  em_counts : free_clst fs = 0xFFFFFFFF /\ last_clst fs = 0xFFFFFFFF
}.

Section exfat.
Context {D : Type} `{BlockDeviceLaws D} `{!Shl}.
Implicit Types s : St D.

Lemma boot_step_move s1 s x :
  boot_step s1 s -> is_u32 x -> post (move_window x) s (fun r s' => boot_step s1 s' /\ (r = FR_OK \/ r = FR_DISK_ERR)).
Proof.
  intros Hs Hx. eapply post_mono; [apply move_window_clean; [apply Hs|done]|].
  intros r s' (C & E & M & Hr). split; [|tauto]. eapply boot_step_trans; [done|]. by split_and!.
Qed.

Lemma next_slot n i :
  n mod 32 = 0 -> 0 <= i < n -> i mod 32 = 0 ->
  i + 32 = n /\ (i + 32) mod n = 0 \/ i + 32 < n /\ (i + 32) mod n = i + 32.
Proof.
  intros Hn Hi Hm. destruct (decide (i + 32 = n)) as [E|]; [left; by rewrite E, Z.mod_same by lia|right].
  assert (i + 32 < n) by zlia. by rewrite Z.mod_small by lia.
Qed.

(** The first cluster of the root directory is read once, entry by entry. *)
Lemma bitmap_loop_spec s :
  clean s -> 0 <= csize (fsys s) < 2 ^ 16 ->
  post (iterate (2 ^ 24)%positive bitmap_step (0, 0)) s (fun r s' =>
    boot_step s s' /\ (forall e, r = inl e -> e <> FR_OK)).
Proof.
  intros Hc Hz. pose proof (sect_size_bounds _ (cl_ok _ Hc)) as Hss.
  set (n := ssize (fsys s)). set (z := csize (fsys s)).
  assert (n mod SZDIRE = 0 /\ 1 <= n / SZDIRE <= 128) as [Hn0 Hn1].
  { destruct (cl_ok _ Hc) as [E|[E|[E|E]]]; unfold n; rewrite E; done. }
  apply (post_iterate bitmap_step (fun '(so, i) k s' => boot_step s s' /\ 0 <= so <= z /\ 0 <= i < n /\ i mod SZDIRE = 0 /\
    k = (z - so) * (n / SZDIRE) + (if i =? 0 then 0 else n / SZDIRE - i / SZDIRE))) with (k := z * (n / SZDIRE)).
  - clear Hz. intros [so i] k s1 (Hs & Hso & Hi & Hm & ->). unfold bitmap_step, get_fs, SZDIRE in *.
    assert (csize (fsys s1) = z) as Ez by exact (f_equal csize (proj1 (proj2 Hs))).
    mstep. bdestr.
    + mstep. apply post_gets. rewrite Ez. bdestr; [mstep; mstep; by split; [|intros ? [= <-]]|].
      mstep. eapply post_mono; [apply boot_step_move; [done|apply u32_range]|].
      intros r s2 [Hs2 [-> | ->]]; cbn [fr_ok negb]; mstep; [|mstep; by split; [|intros ? [= <-]]].
      mstep. apply post_gets. assert (ssize (fsys s2) = n) as -> by exact (f_equal ssize (proj1 (proj2 Hs2))).
      bdestr; mstep; [done|]. subst i.
      destruct (next_slot n 0 Hn0 ltac:(lia) Hm) as [[E ->]|[E ->]];
        (eexists; split; [|split; [done|split; [lia|split; [lia|split; [done|reflexivity]]]]]); change (0 + 32 =? 0) with false; cbn [Z.eqb];
        change ((0 + 32) / 32) with 1; rewrite ?Z.add_0_l in E;
        assert (0 <= (z - (so + 1)) * (n / 32)) by (apply Z.mul_nonneg_nonneg; lia);
        replace ((z - so) * (n / 32)) with ((z - (so + 1)) * (n / 32) + n / 32) by lia; lia.
    + mstep. mstep. apply post_gets. assert (ssize (fsys s1) = n) as -> by exact (f_equal ssize (proj1 (proj2 Hs))).
      bdestr; mstep; [done|].
      destruct (next_slot n i Hn0 ltac:(lia) Hm) as [[E ->]|[E ->]].
      * eexists; split; [|split; [done|split; [lia|split; [lia|split; [done|reflexivity]]]]]. cbn [Z.eqb]. zdm.
      * eexists; split; [|split; [done|split; [lia|split; [lia|split; [zlia|reflexivity]]]]].
        rewrite !(proj2 (Z.eqb_neq _ 0)) by lia. replace ((i + 32) / 32) with (i / 32 + 1) by zlia. zdm.
  - split_and!; [by apply boot_step_refl|lia..|done|]. cbn. lia.
  - unfold SZDIRE in *. nia.
Qed.
(** Each round goes to the next cluster; a link to cluster 0xFFFFFFFF ends the loop. *)
Lemma contig_loop_spec s bcl :
  clean s -> 0 <= bcl < 0xFFFFFFFF ->
  post (iterate (2 ^ 32)%positive contig_step bcl) s (fun _ s' => boot_step s s').
Proof.
  intros Hc Hb.
  apply (post_iterate contig_step (fun b k s' => boot_step s s' /\ k = 0xFFFFFFFF - b /\ 0 <= b < 0xFFFFFFFF))
    with (k := 0xFFFFFFFF - bcl).
  - clear bcl Hb. intros b k s1 (Hs & -> & Hb). unfold contig_step, get_fs. mstep. apply post_gets.
    mstep. eapply post_mono; [apply boot_step_move; [done|apply u32_range]|].
    intros r s2 [Hs2 [-> | ->]]; cbn [fr_ok negb]; [|mstep; done]. mstep. apply post_gets.
    rewrite (u32_small (b + 1)) by (unfold is_u32; lia). mstep; [mstep; done|]. mstep; mstep; [done|].
    exists (0xFFFFFFFF - (b + 1)). split; [lia|]. split_and!; [done|lia..].
  - split_and!; [by apply boot_step_refl|lia..].
  - lia.
Qed.

(** A member of the filesystem object that the window does not touch. *)
Ltac keep p E := etrans; [exact (f_equal p E)|].

Lemma load_bitmap_spec s :
  clean s -> 0 <= csize (fsys s) < 2 ^ 16 -> n_fatent (fsys s) <= 0xFFFFFFFF ->
  post load_bitmap s (fun r s' => mount_keeps s s' /\ (r = FR_OK ->
    geo (set_bitbase 0 (fsys s')) = geo (set_bitbase 0 (fsys s)) /\
    free_clst (fsys s') = 0xFFFFFFFF /\ last_clst (fsys s') = 0xFFFFFFFF)).
Proof.
  intros Hc Hz Hn. unfold load_bitmap, get_fs, upd_fs.
  assert (forall s', boot_step s s' -> mount_keeps s s') as Hk.
  { intros s' (C & E & M). split_and!; [done|done|by keep ssize E|by keep fs_type E]. }
  mstep. eapply post_mono; [by apply bitmap_loop_spec|].
  intros [e|i] s2 [Hs2 He]; [mstep; split; [by apply Hk|by intros ->; destruct (He FR_OK)]|].
  mstep. apply post_gets. bdestr; [mstep; split; [by apply Hk|done]|].
  assert (n_fatent (fsys s2) = n_fatent (fsys s)) as En by (keep n_fatent (proj1 (proj2 Hs2)); done).
  destruct Hs2 as (C2 & E2 & M2). mstep. apply post_modify. cbn [fsys dev]. mstep.
  eapply post_mono; [apply contig_loop_spec; [by apply (clean_upd s2)|lia]|].
  intros res s3 (C3 & E3 & M3). cbn [fsys dev] in *.
  assert (mount_keeps s s3) as Hk3.
  { split_and!; [done|by etrans|keep ssize E3; by keep ssize E2|keep fs_type E3; by keep fs_type E2]. }
  destruct (fr_ok res) eqn:Er; cbn [negb]; [|mstep; split; [done|by intros ->]].
  mstep. apply post_modify. mstep. cbn [fsys dev].
  split; [split_and!; [by apply (clean_upd s3)|apply Hk3..]|]. intros _. split; [|done].
  keep (fun fs => geo (set_bitbase 0 fs)) E3. by keep (fun fs => geo (set_bitbase 0 fs)) E2.
Qed.

Lemma mount_exfat_spec s bsect :
  clean s -> is_u32 bsect ->
  post (mount_exfat bsect) s (fun r s' =>
    mount_keeps s s' /\
    (r = FR_OK -> exfat_mounted (win (fsys s)) bsect (fsys s'))).
Proof.
  intros Hc Hb. set (w := win (fsys s)).
  assert (forall fs, wflag fs = wflag (fsys s) -> win fs = win (fsys s) -> winsect fs = winsect (fsys s) ->
    ssize fs = ssize (fsys s) -> fs_type fs = fs_type (fsys s) -> mount_keeps s (mkSt fs (dev s))) as Hk.
  { intros fs E1 E2 E3 E4 E5. split_and!; try done. by apply (clean_upd s). }
  assert (forall fs, mount_keeps s (mkSt fs (dev s)) ->
    post (mret FR_NO_FILESYSTEM : M (St D) FRESULT) (mkSt fs (dev s)) (fun r s' =>
      mount_keeps s s' /\ (r = FR_OK -> exfat_mounted w bsect (fsys s')))) as Hbad.
  { intros fs Hf. apply post_ret. by split. }
  unfold mount_exfat, get_fs, upd_fs. mstep. apply post_gets. fold w.
  do 4 (bdestr; [destruct s; by apply Hbad|]). do 2 (mstep; apply post_modify). cbn [fsys dev].
  bdestr; [by apply Hbad, Hk|]. mstep; apply post_modify. cbn [fsys dev].
  do 2 (bdestr; [by apply Hbad, Hk|]). do 4 (mstep; apply post_modify). cbn [fsys dev].
  bdestr; [by apply Hbad, Hk|]. mstep; apply post_modify. cbn [fsys dev].
  match goal with |- post _ ?x _ => set (s1 := x) end. assert (clean s1) as Hc1 by (by apply (clean_upd s)).
  eapply post_mono; [apply (load_bitmap_spec s1 Hc1)|].
  { cbn. unfold u16. apply Z.mod_pos_bound. lia. }
  { cbn. pose proof (u32_range (ld_dword w BPB_NumClusEx + 2)) as Hr. unfold is_u32 in Hr. lia. }
  intros r s2 [(K1 & K2 & K3 & K4) Hr]. split; [by split_and!|]. intros [Hg He]%Hr.
  assert (ld_dword w BPB_NumClusEx +u32 2 = ld_dword w BPB_NumClusEx + 2) as En.
  { pose proof (ld_dword_u32 w BPB_NumClusEx). unfold is_u32, MAX_EXFAT in *. apply u32_small. unfold is_u32. lia. }
  split.
  - by keep fsize Hg.
  - by keep n_fats Hg.
  - assert (csize (fsys s2) = u16 (shl1 w.[BPB_SecPerClusEx])) as -> by (by keep csize Hg). done.
  - split; [by keep n_fatent Hg|done].
  - by keep volbase Hg.
  - by keep fatbase Hg.
  - by keep database Hg.
  - by keep dirbase Hg.
  - done.
Qed.
End exfat.

(** The areas of an exFAT volume do not overlap, are within 32 bits, and the FAT has an
    entry for every cluster: what the code does not check. *)
Definition exfat_sane (w : list Z) (ss bsect : Z) : Prop :=
  let nclst := ld_dword w BPB_NumClusEx in
  w.[BPB_SecPerClusEx] <= 15 /\ 1 <= nclst /\
  4 * (nclst + 2) <= ld_dword w BPB_FatSzEx * ss /\
  ld_dword w BPB_FatOfsEx + ld_dword w BPB_FatSzEx <= ld_dword w BPB_DataOfsEx /\
  bsect + ld_dword w BPB_DataOfsEx + 2 ^ w.[BPB_SecPerClusEx] * nclst < 2 ^ 32.

Lemma exfat_mounted_geom `{Shl} w ss bsect fs :
  exfat_mounted w bsect fs -> fs_type fs = FS_EXFAT -> bytes w -> sect_size_ok ss -> ssize fs = ss ->
  is_u32 bsect -> exfat_sane w ss bsect -> geom_ok fs /\ fat_geom fs /\ vol_geom fs.
Proof.
  intros [E1 E2 [E3 _] [E4 E4'] E5 E6 E7 E8 _] Ht Hw Hss Hsz Hb (X1 & X2 & X3 & X4 & X5).
  pose proof (sect_size_bounds _ Hss). pose proof (getb_bytes w BPB_SecPerClusEx Hw) as Uc.
  assert (2 ^ w.[BPB_SecPerClusEx] <= 2 ^ 15) as Hp by (apply Z.pow_le_mono_r; lia).
  unfold is_u8 in Uc. assert (0 < 2 ^ w.[BPB_SecPerClusEx]) as Hp0 by (apply Z.pow_pos_nonneg; lia).
  assert (csize fs = 2 ^ w.[BPB_SecPerClusEx]) as Ec.
  { rewrite E3. unfold shl1. if_true. unfold u16. rewrite Z.mod_small; [done|]. change (2 ^ 16) with (2 ^ 15 + 2 ^ 15). lia. }
  pose proof (ld_dword_u32 w BPB_FatSzEx). pose proof (ld_dword_u32 w BPB_FatOfsEx).
  pose proof (ld_dword_u32 w BPB_DataOfsEx). unfold is_u32 in *.
  assert (0 < ld_dword w BPB_FatSzEx) by nia.
  assert (0 <= 2 ^ w.[BPB_SecPerClusEx] * ld_dword w BPB_NumClusEx) by (apply Z.mul_nonneg_nonneg; lia).
  rewrite u32_small in E6, E7 by (unfold is_u32; lia).
  split_and!.
  - split; rewrite ?Hsz, ?E1, ?E2, ?E6; try done; lia.
  - split; rewrite ?Hsz, ?E1, ?Ht; unfold fat_max, fat_bytes, FS_EXFAT; rewrite ?Ht; cbn; lia.
  - split.
    + split; rewrite ?E1, ?E2, ?E4, ?E6, ?E7, ?Ec; try lia.
    + lia.
    + rewrite E8. apply ld_dword_u32.
    + exists w.[BPB_SecPerClusEx]. split; [lia|done].
    + rewrite Ht. done.
Qed.

(** ** What mounting establishes *)

Lemma ld_word_take n l p : 0 <= p -> p + 1 < n -> ld_word (take (Z.to_nat n) l) p = ld_word l p.
Proof. intros Hp Hn. unfold ld_word. by rewrite !getb_take by lia. Qed.

Lemma ld_dword_take n l p : 0 <= p -> p + 3 < n -> ld_dword (take (Z.to_nat n) l) p = ld_dword l p.
Proof. intros Hp Hn. unfold ld_dword. by rewrite !getb_take by lia. Qed.

(** The boot sector [m] of a volume at sector [bsect], of the type [fmt], describes areas
    that do not overlap. *)
Definition sane_volume (fmt : Z) (m : list Z) (ss bsect : Z) : Prop :=
  if fmt =? FS_EXFAT then exfat_sane m ss bsect else no_overflow m ss bsect.

Lemma sane_volume_take fmt w ss bsect :
  512 <= ss -> sane_volume fmt (take (Z.to_nat ss) w) ss bsect -> sane_volume fmt w ss bsect.
Proof.
  intros Hss. unfold sane_volume, exfat_sane, no_overflow, bpb_tsect, bpb_fatsz,
    BPB_NumClusEx, BPB_SecPerClusEx, BPB_FatSzEx, BPB_FatOfsEx, BPB_DataOfsEx, BPB_TotSec16, BPB_TotSec32,
    BPB_FATSz16, BPB_FATSz32, BPB_RsvdSecCnt, BPB_NumFATs, BPB_RootEntCnt.
  by rewrite !ld_dword_take, !ld_word_take, !getb_take by lia.
Qed.

Section establish.
Context {D : Type} `{BlockDeviceLaws D} `{!Shl}.
Implicit Types s : St D.

(** A clean state with a sane volume satisfies the invariants of the other components. *)
Lemma clean_fs_inv s : clean s -> geom_ok (fsys s) -> fat_geom (fsys s) -> fs_inv s.
Proof. intros [] Hg Hf. by split; [split|]. Qed.

(** The parameters found in the boot sector [w], and the areas they describe once the
    type is stored. *)
Definition mounted_params (w : list Z) (ss bsect : Z) (fs : FATFS) (fmt : Z) : Prop :=
  fmt = FS_EXFAT /\ exfat_mounted w bsect fs \/ 1 <= fmt <= 3 /\ fat_mounted w ss bsect fs fmt.

Lemma mount_params_spec s fmt :
  clean s ->
  post (if fmt =? 1 then res ← mount_exfat (winsect (fsys s)); mret (res, FS_EXFAT) else mount_fat (winsect (fsys s))) s
    (fun '(r, fmt) s' => mount_keeps s s' /\
      (r = FR_OK -> mounted_params (win (fsys s)) (ssize (fsys s)) (winsect (fsys s)) (fsys s') fmt)).
Proof.
  intros Hc. mstep.
  - mstep. eapply post_mono; [apply mount_exfat_spec; [done|apply Hc]|]. intros r s' [K Hr]. mstep.
    split; [done|]. left. auto.
  - eapply post_mono; [apply mount_fat_spec; [done|apply Hc]|]. intros [r f] s' [K Hr]. split; [done|].
    intros Hok%Hr. right. split; [|done]. destruct (fm_type _ _ _ _ _ Hok) as [-> Hne]. revert Hne.
    unfold fat_subtype, FS_FAT12, FS_FAT16, FS_FAT32. repeat case_match; lia.
Qed.

Lemma mounted_params_geom w ss bsect fs fmt id :
  mounted_params w ss bsect fs fmt -> bytes w -> sect_size_ok ss -> ssize fs = ss -> is_u32 bsect ->
  let fs' := set_fsid id (set_fs_type (u8 fmt) fs) in
  1 <= fs_type fs' /\ volbase fs' = bsect /\ is_u32 (free_clst fs') /\ is_u32 (last_clst fs') /\
  (sane_volume (fs_type fs') w ss bsect -> geom_ok fs' /\ fat_geom fs' /\ vol_geom fs').
Proof.
  intros Hp Hw Hss Hz Hb fs'. unfold sane_volume. destruct Hp as [[-> He]|[Hf Hm]].
  - destruct (He) as [? ? ? ? ? ? ? ? [Ef El]]. split_and!; [done|done|subst fs'; cbn; by rewrite ?Ef, ?El..|].
    change (fs_type fs') with FS_EXFAT. cbn [Z.eqb Pos.eqb FS_EXFAT]. intros Hs.
    by eapply exfat_mounted_geom.
  - assert (fs_type fs' = fmt) as Et by (cbn; apply u8_small; unfold is_u8; lia).
    assert (fat_mounted w ss bsect fs' (fs_type fs')) as Hm' by (rewrite Et; destruct Hm; by split).
    rewrite Et. destruct (fm_counts _ _ _ _ _ Hm'). split_and!; [lia|apply Hm'|done|done|].
    unfold FS_EXFAT. if_false. by apply mounted_geom.
Qed.

(** C37: mounting an unmounted volume returns on any medium and with any
    disk errors, and writes nothing.  If it fails the volume stays unmounted; if it
    succeeds and the boot sector describes areas that do not overlap in 32 bits, the
    filesystem object has the invariants [fs_inv] and [vol_geom] that every other
    operation relies on. *)
Theorem mount_establishes s mode Fsid :
  fs_type (fsys s) = 0 -> zlen (win (fsys s)) = FF_MAX_SS -> bytes (win (fsys s)) ->
  is_u16 (sector_size (dev s)) ->
  post (mount_fs mode Fsid) s (fun '(r, Fsid') s' =>
    same_medium (dev s) (dev s') /\
    (r <> FR_OK -> fs_type (fsys s') = 0 /\ Fsid' = Fsid) /\
    (r = FR_OK ->
       let bsect := volbase (fsys s') in
       fs_type (fsys s') <> 0 /\ fsid (fsys s') = Fsid' /\ Fsid' = u16 (Fsid + 1) /\
       (bsect <> 0xFFFFFFFF ->
        sane_volume (fs_type (fsys s')) (medium (dev s) bsect) (sector_size (dev s)) bsect ->
        fs_inv s' /\ vol_geom (fsys s') /\ is_u32 (free_clst (fsys s')) /\ is_u32 (last_clst (fsys s'))))).
Proof.
  intros Ht Hl Hw Hz. unfold mount_fs, get_fs, upd_fs, disk_status, disk_initialize.
  mstep. apply post_gets. rewrite Ht. cbn [Z.eqb negb andb]. mstep. apply post_modify. cbn [fsys dev].
  change (has 0 STA_NOINIT) with false. change (has 0 STA_PROTECT) with false. rewrite andb_false_r.
  mstep. apply post_gets. cbn [dev]. rewrite u16_small by done. mstep. apply post_modify. cbn [fsys dev].
  bdestr; [mstep; by split_and!|]. set (ss := sector_size (dev s)) in *.
  assert (sect_size_ok ss) as Hss by (apply sect_size_test; [lia|tauto]).
  mstep. eapply post_mono; [by apply find_volume_spec|]. cbn [fsys dev].
  intros fmt s1 [(C1 & E1 & M1) Hf]. cbn [fsys dev] in *.
  assert (fs_type (fsys s1) = 0) as Ht1 by exact (f_equal fs_type E1).
  assert (ssize (fsys s1) = ss) as Es1 by exact (f_equal ssize E1).
  bdestr; [mstep; by split_and!|]. bdestr; [mstep; by split_and!|]. mstep. apply post_gets.
  mstep. eapply post_mono; [by apply mount_params_spec|]. intros [r f] s2 [(C2 & M2 & E2 & T2) Hp].
  assert (same_medium (dev s) (dev s2)) as M3 by (by etrans). rewrite Es1 in *.
  destruct (fr_ok r) eqn:Er; cbn [negb]; [|mstep; split_and!; [done|intros _; split; congruence|by intros ->]].
  apply fr_ok_true in Er as ->. mstep. apply post_modify. mstep. cbn [fsys dev].
  destruct (mounted_params_geom _ _ _ _ _ (u16 (Fsid + 1)) (Hp eq_refl) (cl_bytes _ C1) Hss E2 (cl_sect _ C1))
    as (G1 & G2 & G3 & G4 & G5).
  split_and!; [done|done|intros _]. rewrite G2. split_and!; [lia|done|done|]. intros Hne Hsane.
  assert (take (Z.to_nat ss) (win (fsys s1)) = medium (dev s) (winsect (fsys s1))) as Hco.
  { rewrite <- Es1. rewrite (cl_coh _ C1 Hne). apply M1. }
  rewrite <- Hco in Hsane. apply sane_volume_take in Hsane; [|destruct (sect_size_bounds _ Hss); lia].
  destruct (G5 Hsane) as (X1 & X2 & X3). split_and!; try done. apply clean_fs_inv; [by apply (clean_upd s2)|done|done].
Qed.
End establish.
