(* ===== verification/File.v ===== *)
(** * Files

    The operations on an open file of [src/ff/src/ff/ff.c]: [f_read], [f_write],
    [f_sync], [f_close], [f_lseek] and [f_truncate].

    A file object [FIL] caches one data sector in [f_buf]; whole sectors are transferred
    between the caller's buffer and the disk directly.  Directory entries and the FAT go
    through the window of the filesystem object. *)

From stdpp Require Import prelude list.
From Stdlib Require Import ZArith Lia.
From S2P Require Import Prelude Bytes Diskio FFTypes Window Fat Bitmap Chain Lfn Dir Dirent Mount.

Local Open Scope Z_scope.
Local Open Scope cint_scope.

Definition FA_WRITE := 0x02.
Definition FA_MODIFIED := 0x40.
Definition FA_DIRTY := 0x80.
Definition DIR_LstAccDate := 18.
Definition XDIR_ModTime := 12.
Definition XDIR_AccTime := 16.
Definition XDIR_ModTime10 := 21.

(** [GET_FATTIME()]: 2020-01-01, the configured constant. *)
Definition GET_FATTIME : Z := Z.lor (Z.lor (Z.shiftl (2020 - 1980) 25) (Z.shiftl 1 21)) (Z.shiftl 1 16).

(** [f_fs] says whether the member [obj.fs] points to the filesystem object; [f_dir_ptr]
    is an offset in the window. *)
Record FIL := mkFIL {
  f_obj : FFOBJID;
  f_fs : bool;
  f_flag : Z;
  f_err : FRESULT;
  f_fptr : Z;
  f_clust : Z;
  f_sect : Z;
  f_dir_sect : Z;
  f_dir_ptr : Z;
  f_buf : list Z
}.

Definition set_f_obj (v : FFOBJID) (f : FIL) : FIL :=
  mkFIL v f.(f_fs) f.(f_flag) f.(f_err) f.(f_fptr) f.(f_clust) f.(f_sect) f.(f_dir_sect) f.(f_dir_ptr) f.(f_buf).
Definition set_f_fs (v : bool) (f : FIL) : FIL :=
  mkFIL f.(f_obj) v f.(f_flag) f.(f_err) f.(f_fptr) f.(f_clust) f.(f_sect) f.(f_dir_sect) f.(f_dir_ptr) f.(f_buf).
Definition set_f_flag (v : Z) (f : FIL) : FIL :=
  mkFIL f.(f_obj) f.(f_fs) v f.(f_err) f.(f_fptr) f.(f_clust) f.(f_sect) f.(f_dir_sect) f.(f_dir_ptr) f.(f_buf).
Definition set_f_err (v : FRESULT) (f : FIL) : FIL :=
  mkFIL f.(f_obj) f.(f_fs) f.(f_flag) v f.(f_fptr) f.(f_clust) f.(f_sect) f.(f_dir_sect) f.(f_dir_ptr) f.(f_buf).
Definition set_f_fptr (v : Z) (f : FIL) : FIL :=
  mkFIL f.(f_obj) f.(f_fs) f.(f_flag) f.(f_err) v f.(f_clust) f.(f_sect) f.(f_dir_sect) f.(f_dir_ptr) f.(f_buf).
Definition set_f_clust (v : Z) (f : FIL) : FIL :=
  mkFIL f.(f_obj) f.(f_fs) f.(f_flag) f.(f_err) f.(f_fptr) v f.(f_sect) f.(f_dir_sect) f.(f_dir_ptr) f.(f_buf).
Definition set_f_sect (v : Z) (f : FIL) : FIL :=
  mkFIL f.(f_obj) f.(f_fs) f.(f_flag) f.(f_err) f.(f_fptr) f.(f_clust) v f.(f_dir_sect) f.(f_dir_ptr) f.(f_buf).
Definition set_f_buf (v : list Z) (f : FIL) : FIL :=
  mkFIL f.(f_obj) f.(f_fs) f.(f_flag) f.(f_err) f.(f_fptr) f.(f_clust) f.(f_sect) f.(f_dir_sect) f.(f_dir_ptr) v.

(** [fp->flag |= b] and [fp->flag &= (BYTE)~b] *)
Definition raise (b : Z) (fp : FIL) : FIL := set_f_flag (Z.lor (f_flag fp) b) fp.
Definition lower (b : Z) (fp : FIL) : FIL := set_f_flag (Z.land (f_flag fp) (Z.lnot b)) fp.

Section code.
Context {D : Type} `{BlockDevice D} `{!Heap}.

(** [disk_read (fs->pdrv, buf, sect, count)] *)
Definition do_read (buf : list Z) (sect count : Z) : M (St D) (DRESULT * list Z) := fun s =>
  let '(r, b, d) := disk_read (dev s) buf sect count in Some ((r, b), mkSt (fsys s) d).

(** ** The sector cache of the file *)

(** [if (fp->flag & FA_DIRTY) { if (disk_write(...) != RES_OK) ABORT; clear it }] *)
Definition write_back (fp : FIL) : M (St D) (FRESULT * FIL) :=
  if has (f_flag fp) FA_DIRTY then
    r ← do_write (f_buf fp) (f_sect fp) 1;
    if negb (res_ok r) then mret (FR_DISK_ERR, fp) else mret (FR_OK, lower FA_DIRTY fp)
  else mret (FR_OK, fp).

(** [disk_read(fs->pdrv, fp->buf, sect, 1)] *)
Definition fill_buf (fp : FIL) (sect : Z) : M (St D) (FRESULT * FIL) :=
  '(r, b) ← do_read (f_buf fp) sect 1;
  mret (if res_ok r then FR_OK else FR_DISK_ERR, set_f_buf b fp).

(** The write-back and the read of another sector. *)
Definition load_buf (fp : FIL) (sect : Z) : M (St D) (FRESULT * FIL) :=
  '(res, fp) ← write_back fp;
  if negb (fr_ok res) then mret (res, fp) else fill_buf fp sect.

(** ** Reading *)

(** The cluster at a cluster boundary. *)
Definition read_clust (fp : FIL) : M (St D) (FRESULT * FIL) :=
  clst ← (if f_fptr fp =? 0 then mret (sclust (f_obj fp)) else get_fat (f_obj fp) (f_clust fp));
  if clst <? 2 then mret (FR_INT_ERR, fp) else
  if clst =? 0xFFFFFFFF then mret (FR_DISK_ERR, fp) else
  mret (FR_OK, set_f_clust clst fp).

(** The bytes of the cached sector, and the step of the [for]. *)
Definition read_extract (ss : Z) (fp : FIL) (rbuff : list Z) (br btr : Z) : FIL * list Z * Z * Z :=
  let rcnt := ss - f_fptr fp mod ss in
  let rcnt := if btr <? rcnt then btr else rcnt in
  (set_f_fptr (u64 (f_fptr fp + rcnt)) fp, blit rbuff br (sub (f_buf fp) (f_fptr fp mod ss) rcnt), br + rcnt, btr - rcnt).

(** The transfer at a sector boundary: whole sectors up to the end of the cluster, or
    the cached sector. *)
Definition read_sect (fs : FATFS) (fp : FIL) (rbuff : list Z) (br btr csect sect : Z) :
    M (St D) (FIL * list Z * Z * Z + FRESULT * FIL * list Z * Z) :=
  let ss := ssize fs in
  let cc := btr / ss in
  if 0 <? cc then
    let cc := if csize fs <? csect + cc then csize fs - csect else cc in
    '(r, b) ← do_read (drop (Z.to_nat br) rbuff) sect cc;
    let rbuff := take (Z.to_nat br) rbuff ++ b in
    if negb (res_ok r) then mret (inr (FR_DISK_ERR, set_f_err FR_DISK_ERR fp, rbuff, br)) else
    let rbuff := if has (f_flag fp) FA_DIRTY && (f_sect fp -u32 sect <? cc)
      then blit rbuff (br + (f_sect fp -u32 sect) * ss) (take (Z.to_nat ss) (f_buf fp)) else rbuff in
    let rcnt := ss * cc in
    mret (inl (set_f_fptr (u64 (f_fptr fp + rcnt)) fp, rbuff, br + rcnt, btr - rcnt))
  else
    '(res, fp) ← (if negb (f_sect fp =? sect) then load_buf fp sect else mret (FR_OK, fp));
    if negb (fr_ok res) then mret (inr (res, set_f_err res fp, rbuff, br)) else
    mret (inl (read_extract ss (set_f_sect sect fp) rbuff br btr)).

(** The body of the [for]; [ABORT] is the [inr] with the error stored in the object. *)
Definition f_read_step : FIL * list Z * Z * Z -> M (St D) (FIL * list Z * Z * Z + FRESULT * FIL * list Z * Z) :=
  fun '(fp, rbuff, br, btr) =>
  if btr =? 0 then mret (inr (FR_OK, fp, rbuff, br)) else
  fs ← get_fs;
  let ss := ssize fs in
  if f_fptr fp mod ss =? 0 then
    let csect := Z.land (f_fptr fp / ss) (csize fs - 1) in
    '(res, fp) ← (if csect =? 0 then read_clust fp else mret (FR_OK, fp));
    if negb (fr_ok res) then mret (inr (res, set_f_err res fp, rbuff, br)) else
    let sect := clst2sect fs (f_clust fp) in
    if sect =? 0 then mret (inr (FR_INT_ERR, set_f_err FR_INT_ERR fp, rbuff, br)) else
    read_sect fs fp rbuff br btr csect (sect +u32 csect)
  else mret (inl (read_extract ss fp rbuff br btr)).

(** The result, the file object, the buffer and the number of bytes read. *)
Definition f_read (fp : FIL) (buff : list Z) (btr : Z) : M (St D) (FRESULT * FIL * list Z * Z) :=
  res ← validate (f_obj fp) (f_fs fp);
  if negb (fr_ok res) then mret (res, fp, buff, 0) else
  if negb (fr_ok (f_err fp)) then mret (f_err fp, fp, buff, 0) else
  if negb (has (f_flag fp) FA_READ) then mret (FR_DENIED, fp, buff, 0) else
  let remain := u64 (objsize (f_obj fp) - f_fptr fp) in
  let btr := if remain <? btr then u32 remain else btr in
  iterate (2 ^ 33)%positive f_read_step (fp, buff, 0, btr).

(** ** Writing *)

(** The cluster at a cluster boundary; 0 is "no cluster left". *)
Definition write_clust (fp : FIL) : M (St D) (Z * FIL) :=
  if f_fptr fp =? 0 then
    if sclust (f_obj fp) =? 0 then
      '(clst, obj) ← create_chain (f_obj fp) 0; mret (clst, set_f_obj obj fp)
    else mret (sclust (f_obj fp), fp)
  else
    '(clst, obj) ← create_chain (f_obj fp) (f_clust fp); mret (clst, set_f_obj obj fp).

(** The step of the [for] of [f_write] for [wcnt] bytes written. *)
Definition wrote (fp : FIL) (wcnt : Z) : FIL :=
  let fp := set_f_fptr (u64 (f_fptr fp + wcnt)) fp in
  set_f_obj (set_objsize (if objsize (f_obj fp) <? f_fptr fp then f_fptr fp else objsize (f_obj fp)) (f_obj fp)) fp.

(** The bytes into the cached sector, and the step of the [for]. *)
Definition write_fit (ss : Z) (wbuff : list Z) (fp : FIL) (bw btw : Z) : FIL * Z * Z :=
  let wcnt := ss - f_fptr fp mod ss in
  let wcnt := if btw <? wcnt then btw else wcnt in
  (wrote (raise FA_DIRTY (set_f_buf (blit (f_buf fp) (f_fptr fp mod ss) (sub wbuff bw wcnt)) fp)) wcnt, bw + wcnt, btw - wcnt).

(** The refill of the cache when one of the [cc] sectors written directly is in it. *)
Definition refill (ss bw sect cc : Z) (wbuff : list Z) (fp : FIL) : FIL :=
  if f_sect fp -u32 sect <? cc
  then lower FA_DIRTY (set_f_buf (blit (f_buf fp) 0 (sub wbuff (bw + (f_sect fp -u32 sect) * ss) ss)) fp) else fp.

(** The transfer at a sector boundary: whole sectors up to the end of the cluster, or
    the cached sector.  [ABORT] is the [inr] with the error stored in the object. *)
Definition write_sect (fs : FATFS) (wbuff : list Z) (fp : FIL) (bw btw csect : Z) :
    M (St D) (FIL * Z * Z + FRESULT * FIL * Z) :=
  let ss := ssize fs in
  let ABORT res fp := mret (inr (res, set_f_err res fp, bw)) in
  '(res, fp) ← write_back fp;
  if negb (fr_ok res) then ABORT res fp else
  let sect := clst2sect fs (f_clust fp) in
  if sect =? 0 then ABORT FR_INT_ERR fp else
  let sect := sect +u32 csect in
  let cc := btw / ss in
  if 0 <? cc then
    let cc := if csize fs <? csect + cc then csize fs - csect else cc in
    r ← do_write (drop (Z.to_nat bw) wbuff) sect cc;
    if negb (res_ok r) then ABORT FR_DISK_ERR fp else
    mret (inl (wrote (refill ss bw sect cc wbuff fp) (ss * cc), bw + ss * cc, btw - ss * cc))
  else
    '(res, fp) ← (if negb (f_sect fp =? sect) && (f_fptr fp <? objsize (f_obj fp)) then fill_buf fp sect
                  else mret (FR_OK, fp));
    if negb (fr_ok res) then ABORT res fp else
    mret (inl (write_fit ss wbuff (set_f_sect sect fp) bw btw)).

Definition f_write_step (wbuff : list Z) :
    FIL * Z * Z -> M (St D) (FIL * Z * Z + FRESULT * FIL * Z) := fun '(fp, bw, btw) =>
  if btw =? 0 then mret (inr (FR_OK, raise FA_MODIFIED fp, bw)) else
  fs ← get_fs;
  let ss := ssize fs in
  if f_fptr fp mod ss =? 0 then
    let csect := Z.land (f_fptr fp / ss) (csize fs - 1) in
    if csect =? 0 then
      '(clst, fp) ← write_clust fp;
      if clst =? 0 then mret (inr (FR_OK, raise FA_MODIFIED fp, bw)) else
      if clst =? 1 then mret (inr (FR_INT_ERR, set_f_err FR_INT_ERR fp, bw)) else
      if clst =? 0xFFFFFFFF then mret (inr (FR_DISK_ERR, set_f_err FR_DISK_ERR fp, bw)) else
      let fp := set_f_clust clst fp in
      let fp := if sclust (f_obj fp) =? 0 then set_f_obj (set_sclust clst (f_obj fp)) fp else fp in
      write_sect fs wbuff fp bw btw csect
    else write_sect fs wbuff fp bw btw csect
  else mret (inl (write_fit ss wbuff fp bw btw)).

Definition f_write (fp : FIL) (buff : list Z) (btw : Z) : M (St D) (FRESULT * FIL * Z) :=
  res ← validate (f_obj fp) (f_fs fp);
  if negb (fr_ok res) then mret (res, fp, 0) else
  if negb (fr_ok (f_err fp)) then mret (f_err fp, fp, 0) else
  if negb (has (f_flag fp) FA_WRITE) then mret (FR_DENIED, fp, 0) else
  fs ← get_fs;
  let btw := if negb (is_exfat fs) && (u32 (f_fptr fp + btw) <? u32 (f_fptr fp))
             then 0xFFFFFFFF - u32 (f_fptr fp) else btw in
  iterate (2 ^ 33)%positive (f_write_step buff) (fp, 0, btw).
(** ** Synchronisation *)

(** The working buffers of the names are on the heap; their content is indeterminate, in
    the model that of the last call. *)
Definition INIT_NAMBUF {A} (fail : A) (k : M (St D) A) : M (St D) A :=
  if ff_memalloc ((FF_MAX_LFN + 1) * 2 + MAXDIRB FF_MAX_LFN) then k else mret fail.

(** The directory entry of a file on a FAT volume, in the window. *)
Definition sync_entry (fs : FATFS) (fp : FIL) : list Z :=
  let dir := f_dir_ptr fp in
  let w := setb (win fs) (dir + DIR_Attr) (Z.lor (win fs).[dir + DIR_Attr] AM_ARC) in
  let w := st_clust fs w dir (sclust (f_obj fp)) in
  let w := st_dword w (dir + DIR_FileSize) (u32 (objsize (f_obj fp))) in
  let w := st_dword w (dir + DIR_ModTime) GET_FATTIME in
  st_word w (dir + DIR_LstAccDate) 0.

(** The entry set of a file on an exFAT volume, in [dirbuf]. *)
Definition sync_xdir (fp : FIL) (db : list Z) : list Z :=
  let db := setb db XDIR_Attr (Z.lor db.[XDIR_Attr] AM_ARC) in
  let db := setb db XDIR_GenFlags (Z.lor (obj_stat (f_obj fp)) 1) in
  let db := st_dword db XDIR_FstClus (sclust (f_obj fp)) in
  let db := st_qword db XDIR_FileSize (objsize (f_obj fp)) in
  let db := st_qword db XDIR_ValidFileSize (objsize (f_obj fp)) in
  let db := st_dword db XDIR_ModTime GET_FATTIME in
  let db := setb db XDIR_ModTime10 0 in
  st_dword db XDIR_AccTime 0.

Definition sync_exfat (dj : DIR) (fp : FIL) : M (St D) (FRESULT * FIL) :=
  '(res, obj) ← fill_first_frag (f_obj fp);
  let fp := set_f_obj obj fp in
  if negb (fr_ok res) then mret (res, fp) else
  '(res, obj) ← fill_last_frag (f_obj fp) (f_clust fp) 0xFFFFFFFF;
  let fp := set_f_obj obj fp in
  if negb (fr_ok res) then mret (res, fp) else
  INIT_NAMBUF (FR_NOT_ENOUGH_CORE, fp) (
    '(res, dj) ← load_obj_xdir dj (f_obj fp);
    if negb (fr_ok res) then mret (res, fp) else
    upd_fs (fun fs => set_dirbuf (sync_xdir fp (dirbuf fs)) fs);;
    '(res, _) ← store_xdir dj;
    if negb (fr_ok res) then mret (res, fp) else
    res ← sync_fs;
    mret (res, lower FA_MODIFIED fp)).

(** [dj] is the uninitialised local directory object. *)
Definition f_sync (dj : DIR) (fp : FIL) : M (St D) (FRESULT * FIL) :=
  res ← validate (f_obj fp) (f_fs fp);
  if negb (fr_ok res) then mret (res, fp) else
  if has (f_flag fp) FA_MODIFIED then
    '(res, fp) ← write_back fp;
    if negb (fr_ok res) then mret (res, fp) else
    fs ← get_fs;
    if is_exfat fs then sync_exfat dj fp else
    res ← move_window (f_dir_sect fp);
    if negb (fr_ok res) then mret (res, fp) else
    fs ← get_fs;
    poke_win (sync_entry fs fp);;
    res ← sync_fs;
    mret (res, lower FA_MODIFIED fp)
  else mret (FR_OK, fp).

Definition f_close (dj : DIR) (fp : FIL) : M (St D) (FRESULT * FIL) :=
  '(res, fp) ← f_sync dj fp;
  if negb (fr_ok res) then mret (res, fp) else
  res ← validate (f_obj fp) (f_fs fp);
  mret (res, if fr_ok res then set_f_fs false fp else fp).

(** ** Seeking *)

(** The cluster following loop: the rest of the offset and the cluster; a result other
    than [FR_OK] aborts. *)
Definition seek_step (bcs : Z) : FIL * Z * Z -> M (St D) (FIL * Z * Z + FRESULT * FIL * Z * Z) :=
  fun '(fp, ofs, clst) =>
  if bcs <? ofs then
    let ofs := ofs - bcs in
    let fp := set_f_fptr (u64 (f_fptr fp + bcs)) fp in
    '(clst, fp) ←
      (if has (f_flag fp) FA_WRITE then
         let fp := if objsize (f_obj fp) <? f_fptr fp
           then raise FA_MODIFIED (set_f_obj (set_objsize (f_fptr fp) (f_obj fp)) fp) else fp in
         '(clst, obj) ← create_chain (f_obj fp) clst; mret (clst, set_f_obj obj fp)
       else clst ← get_fat (f_obj fp) clst; mret (clst, fp));
    if has (f_flag fp) FA_WRITE && (clst =? 0) then mret (inr (FR_OK, fp, 0, clst)) else
    if clst =? 0xFFFFFFFF then mret (inr (FR_DISK_ERR, fp, ofs, clst)) else
    fs ← get_fs;
    if (clst <=? 1) || (n_fatent fs <=? clst) then mret (inr (FR_INT_ERR, fp, ofs, clst)) else
    mret (inl (set_f_clust clst fp, ofs, clst))
  else mret (inr (FR_OK, fp, ofs, clst)).

(** Where the loop starts: the current cluster, or the first one, which is created if
    there is none. *)
Definition seek_start (fp : FIL) (ifptr ofs bcs : Z) : M (St D) (FRESULT * FIL * Z * Z) :=
  if (0 <? ifptr) && ((ifptr - 1) / bcs <=? (ofs - 1) / bcs) then
    let fp := set_f_fptr (Z.land (ifptr - 1) (Z.lnot (bcs - 1))) fp in
    mret (FR_OK, fp, ofs - f_fptr fp, f_clust fp)
  else
    '(res, clst, fp) ←
      (if sclust (f_obj fp) =? 0 then
         '(clst, obj) ← create_chain (f_obj fp) 0;
         let fp := set_f_obj obj fp in
         if clst =? 1 then mret (FR_INT_ERR, clst, fp) else
         if clst =? 0xFFFFFFFF then mret (FR_DISK_ERR, clst, fp) else
         mret (FR_OK, clst, set_f_obj (set_sclust clst (f_obj fp)) fp)
       else mret (FR_OK, sclust (f_obj fp), fp));
    if negb (fr_ok res) then mret (res, fp, ofs, clst) else
    mret (FR_OK, set_f_clust clst fp, ofs, clst).

(** The seek to [ofs > 0]: the file object and the sector to load, 0 for none. *)
Definition seek_to (fp : FIL) (ifptr ofs : Z) : M (St D) (FRESULT * FIL * Z) :=
  fs ← get_fs;
  let bcs := csize fs *u32 ssize fs in
  '(res, fp, ofs, clst) ← seek_start fp ifptr ofs bcs;
  if negb (fr_ok res) then mret (res, fp, 0) else
  if clst =? 0 then mret (FR_OK, fp, 0) else
  '(res, fp, ofs, clst) ← iterate (2 ^ 33)%positive (seek_step bcs) (fp, ofs, clst);
  if negb (fr_ok res) then mret (res, fp, 0) else
  let fp := set_f_fptr (u64 (f_fptr fp + ofs)) fp in
  if negb (ofs mod ssize fs =? 0) then
    let nsect := clst2sect fs clst in
    if nsect =? 0 then mret (FR_INT_ERR, fp, 0) else mret (FR_OK, fp, nsect +u32 ofs / ssize fs)
  else mret (FR_OK, fp, 0).

Definition f_lseek (fp : FIL) (ofs : Z) : M (St D) (FRESULT * FIL) :=
  res ← validate (f_obj fp) (f_fs fp);
  if negb (fr_ok res) then mret (res, fp) else
  if negb (fr_ok (f_err fp)) then mret (f_err fp, fp) else
  fs ← get_fs;
  '(res, fp) ← (if is_exfat fs then
                  '(res, obj) ← fill_last_frag (f_obj fp) (f_clust fp) 0xFFFFFFFF; mret (res, set_f_obj obj fp)
                else mret (FR_OK, fp));
  if negb (fr_ok res) then mret (res, fp) else
  let ABORT res fp := mret (res, set_f_err res fp) in
  let ofs := if negb (is_exfat fs) && (0x100000000 <=? ofs) then 0xFFFFFFFF else ofs in
  let ofs := if (objsize (f_obj fp) <? ofs) && negb (has (f_flag fp) FA_WRITE) then objsize (f_obj fp) else ofs in
  let ifptr := f_fptr fp in
  let fp := set_f_fptr 0 fp in
  '(res, fp, nsect) ← (if 0 <? ofs then seek_to fp ifptr ofs else mret (FR_OK, fp, 0));
  if negb (fr_ok res) then ABORT res fp else
  let fp := if objsize (f_obj fp) <? f_fptr fp
    then raise FA_MODIFIED (set_f_obj (set_objsize (f_fptr fp) (f_obj fp)) fp) else fp in
  if negb (f_fptr fp mod ssize fs =? 0) && negb (nsect =? f_sect fp) then
    '(res, fp) ← load_buf fp nsect;
    if negb (fr_ok res) then ABORT res fp else mret (FR_OK, set_f_sect nsect fp)
  else mret (FR_OK, fp).

(** ** Truncation *)

Definition f_truncate (fp : FIL) : M (St D) (FRESULT * FIL) :=
  res ← validate (f_obj fp) (f_fs fp);
  if negb (fr_ok res) then mret (res, fp) else
  if negb (fr_ok (f_err fp)) then mret (f_err fp, fp) else
  if negb (has (f_flag fp) FA_WRITE) then mret (FR_DENIED, fp) else
  if f_fptr fp <? objsize (f_obj fp) then
    '(res, fp) ←
      (if f_fptr fp =? 0 then
         '(res, obj) ← remove_chain (f_obj fp) (sclust (f_obj fp)) 0;
         mret (res, set_f_obj (set_sclust 0 obj) fp)
       else
         ncl ← get_fat (f_obj fp) (f_clust fp);
         fs ← get_fs;
         if ncl =? 1 then mret (FR_INT_ERR, fp) else
         if ncl =? 0xFFFFFFFF then mret (FR_DISK_ERR, fp) else
         if ncl <? n_fatent fs then
           '(res, obj) ← remove_chain (f_obj fp) ncl (f_clust fp); mret (res, set_f_obj obj fp)
         else mret (FR_OK, fp));
    let fp := raise FA_MODIFIED (set_f_obj (set_objsize (f_fptr fp) (f_obj fp)) fp) in
    '(res, fp) ← (if fr_ok res then write_back fp else mret (res, fp));
    mret (res, if fr_ok res then fp else set_f_err res fp)
  else mret (FR_OK, fp).
End code.
