(* ===== verification/FileData.v ===== *)
(** * The content of a file

    The abstract view of an open file on a FAT volume: [f_byte s fp i] is byte [i], taken
    from the sector cache of the file object where that is dirty and from the volume
    otherwise; the sector is found through the links of the FAT, whatever the FAT holds.
    [file_inv] is the invariant of an open file: its pointer, its current cluster and its
    cache agree with the view, and the window of the filesystem object is not on a sector
    of the file. *)

From stdpp Require Import prelude list.
From Stdlib Require Import ZArith Lia.
From S2P Require Import Prelude Bytes Diskio FFTypes Window Fat Bitmap Chain Track Lfn Dir Dirent Mount File.

Local Open Scope Z_scope.
Local Open Scope cint_scope.

(** ** Offsets, sectors and clusters *)

Section offsets.
Context (ss cs : Z) (Hss : 0 < ss) (Hcs : 0 < cs).

(** Consecutive bytes of a sector. *)
Lemma ofs_same_sector p j :
  0 <= j < ss - p mod ss -> (p + j) / ss = p / ss /\ (p + j) mod ss = p mod ss + j /\ (p + j) / (cs * ss) = p / (cs * ss).
Proof.
  intros Hj. destruct (same_sector ss p j Hss ltac:(lia) ltac:(lia)) as [E1 E2]. split_and!; [done..|].
  rewrite (Z.mul_comm cs ss), <- !Z.div_div, E1 by lia. done.
Qed.

(** Consecutive sectors of a cluster. *)
Lemma ofs_same_cluster p j :
  p mod ss = 0 -> 0 <= j < ss * (cs - (p / ss) mod cs) ->
  (p + j) / (cs * ss) = p / (cs * ss) /\ ((p + j) / ss) mod cs = (p / ss) mod cs + j / ss /\ (p + j) mod ss = j mod ss.
Proof.
  intros Hp Hj. assert (exists q, p = q * ss) as [q ->] by (exists (p / ss); Z.div_mod_to_equations; lia).
  rewrite !Z.div_mul in * by lia.
  pose proof (Z.mod_pos_bound q cs Hcs). assert (0 <= j / ss < cs - q mod cs) as Hq.
  { split; [apply Z.div_pos; lia|apply Z.div_lt_upper_bound; lia]. }
  assert ((q * ss + j) / ss = q + j / ss) as Ed by (rewrite Z.add_comm, Z.div_add by lia; lia).
  destruct (same_sector cs q (j / ss) Hcs ltac:(lia) ltac:(lia)) as [E1 E2]. split_and!.
  - rewrite (Z.mul_comm cs ss), <- !Z.div_div by lia. rewrite Ed, E1, ?Z.div_mul by lia. done.
  - by rewrite Ed.
  - by rewrite Z.add_comm, Z.mod_add by lia.
Qed.

(** The position one byte back, inside a cluster. *)
Lemma ofs_pred p :
  0 < p -> p mod ss <> 0 \/ (p / ss) mod cs <> 0 -> (p - 1) / (cs * ss) = p / (cs * ss).
Proof.
  intros Hp Hne. assert (p mod (cs * ss) <> 0) as Hm.
  { intros E. rewrite Z.mul_comm, Z.rem_mul_r in E by lia.
    pose proof (Z.mod_pos_bound p ss Hss). pose proof (Z.mod_pos_bound (p / ss) cs Hcs). nia. }
  assert (0 < cs * ss) by lia. pose proof (Z.mod_pos_bound p (cs * ss) ltac:(lia)).
  symmetry. apply (Z.div_unique_pos _ _ _ (p mod (cs * ss) - 1)); [lia|].
  pose proof (Z.div_mod p (cs * ss) ltac:(lia)). lia.
Qed.
End offsets.

(** ** The view *)

Section view.
Context {D : Type} `{BlockDeviceLaws D}.
Implicit Types s : St D.

(** The cluster of byte [i] of an object; it is one of the volume. *)
Definition f_cluster s (obj : FFOBJID) (i : Z) : Z := link (follow s) (i / csz_of (fsys s)) (sclust obj).
Definition in_file s (obj : FFOBJID) (i : Z) : Prop := 0 <= i /\ 2 <= f_cluster s obj i < n_fatent (fsys s).

(** The sector of byte [i]. *)
Definition f_sector s (obj : FFOBJID) (i : Z) : Z :=
  let fs := fsys s in database fs + csize fs * (f_cluster s obj i - 2) + (i / ssize fs) mod csize fs.

Definition dirty (fp : FIL) : bool := has (f_flag fp) FA_DIRTY.

(** A sector of the file as the file object sees it. *)
Definition f_data s (fp : FIL) (x : Z) : list Z :=
  if dirty fp && (x =? f_sect fp) then take (Z.to_nat (ssize (fsys s))) (f_buf fp) else vol s x.

Definition f_byte s (fp : FIL) (i : Z) : Z := (f_data s fp (f_sector s (f_obj fp) i)).[i mod ssize (fsys s)].

Definition data_sect (fs : FATFS) (x : Z) : Prop := database fs <= x < database fs + csize fs * (n_fatent fs - 2).

Record fat_ready s : Prop := {
  fr_inv : fs_inv s;
  fr_geom : vol_geom (fsys s);
  fr_type : fs_type (fsys s) <> FS_EXFAT
}.

(** The window is not on a sector of the object. *)
Definition apart s (obj : FFOBJID) (sect : Z) : Prop :=
  (sect <> 0 -> winsect (fsys s) <> sect) /\ forall i, in_file s obj i -> winsect (fsys s) <> f_sector s obj i.

(** The cache of the file object and the volume fit together. *)
Record file_base s (fp : FIL) : Prop := {
  fv_ready : fat_ready s;
  fv_valid : f_fs fp = true /\ obj_id (f_obj fp) = fsid (fsys s);
  fv_start : is_u32 (sclust (f_obj fp));
  fv_buf : zlen (f_buf fp) = FF_MAX_SS /\ bytes (f_buf fp);
  fv_cache : f_sect fp = 0 /\ dirty fp = false \/ data_sect (fsys s) (f_sect fp);
  fv_clean : f_sect fp <> 0 -> dirty fp = false ->
    take (Z.to_nat (ssize (fsys s))) (f_buf fp) = vol s (f_sect fp);
  fv_apart : apart s (f_obj fp) (f_sect fp)
}.

(** The current cluster is the one of the byte before the pointer; inside a sector, that
    sector is in the cache. *)
Record file_inv s (fp : FIL) : Prop := {
  fv_base : file_base s fp;
  fv_size : 0 <= f_fptr fp <= objsize (f_obj fp) /\ objsize (f_obj fp) < 2 ^ 32;
  fv_clust : 0 < f_fptr fp ->
    in_file s (f_obj fp) (f_fptr fp - 1) /\ f_clust fp = f_cluster s (f_obj fp) (f_fptr fp - 1);
  fv_sect : f_fptr fp mod ssize (fsys s) <> 0 -> f_sect fp = f_sector s (f_obj fp) (f_fptr fp)
}.

(** ** Facts of the view *)

Lemma ready_state s : fat_ready s -> fat_state (fsys s).
Proof. intros [[Hw Hf] Hg Ht]. split_and!; [apply Hw|done|done]. Qed.

Lemma ready_sizes s : fat_ready s -> sect_size_ok (ssize (fsys s)) /\ 512 <= ssize (fsys s) <= 4096 /\ 0 < csize (fsys s).
Proof.
  intros [Hi Hg _]. assert (sect_size_ok (ssize (fsys s))) as Hss by apply Hi.
  split_and!; [done|apply sect_size_bounds, Hss..|by apply csize_pos].
Qed.

Lemma data_sect_ok s x :
  fat_ready s -> data_sect (fsys s) x ->
  0 < x < 0xFFFFFFFF /\ ~ mirror (fsys s) x /\ fatbase (fsys s) + fsize (fsys s) <= x.
Proof.
  intros [Hi Hg _] Hx. destruct (wi_geom _ (fi_win s Hi)) as [_ Hb Hf Hn _].
  destruct (dir_area_ok (fsys s) Hg x Hb Hf Hn (or_introl Hx)) as (H1 & H2 & H3).
  split_and!; [lia..|done|]. destruct (vg_data _ Hg) as [D1 D2 D3 D4 D5]. unfold data_sect in Hx. nia.
Qed.

Lemma f_sector_data s obj i : fat_ready s -> in_file s obj i -> data_sect (fsys s) (f_sector s obj i).
Proof.
  intros Hr [Hi Hc]. pose proof (ready_sizes s Hr) as (_ & _ & Hcs). unfold data_sect, f_sector.
  pose proof (Z.mod_pos_bound (i / ssize (fsys s)) (csize (fsys s)) Hcs). nia.
Qed.

Lemma f_sector_clst2sect s obj i :
  fat_ready s -> in_file s obj i ->
  clst2sect (fsys s) (f_cluster s obj i) <> 0 /\
  (clst2sect (fsys s) (f_cluster s obj i) +u32 (i / ssize (fsys s)) mod csize (fsys s)) = f_sector s obj i.
Proof.
  intros Hr Hin. pose proof (f_sector_data s obj i Hr Hin) as Hd. pose proof (data_sect_ok s _ Hr Hd) as (Hx & _).
  destruct (vg_data _ (fr_geom s Hr)) as [D1 D2 D3 D4 D5]. rewrite clst2sect_valid by (done || apply Hin).
  fold (f_sector s obj i). rewrite u32_small by (unfold is_u32, f_sector in *; lia). split; [|done].
  destruct Hin as [_ Hc]. nia.
Qed.
End view.

(** ** Access to the disk beside the window *)

Lemma getb_ext l l' : zlen l = zlen l' -> (forall i, 0 <= i < zlen l -> l.[i] = l'.[i]) -> l = l'.
Proof.
  intros Hl He. unfold zlen, getb in *. apply (nth_ext _ _ 0 0); [lia|]. intros n Hn.
  specialize (He (Z.of_nat n)). rewrite Nat2Z.id in He. apply He. lia.
Qed.

Section sectors.
Context (f : Z -> list Z) (w : Z) (Hw : 0 < w) (Hf : forall x, zlen (f x) = w).

Lemma zlen_join x n : zlen (mjoin (f <$> seqZ x (Z.of_nat n))) = Z.of_nat n * w.
Proof.
  revert x. induction n as [|n IH]; intros x; [done|].
  rewrite seqZ_cons by lia. cbn [fmap list_fmap]. change (mjoin (?a :: ?l)) with (a ++ mjoin l).
  replace (Z.pred (Z.of_nat (S n))) with (Z.of_nat n) by lia. specialize (IH (Z.succ x)). pose proof (Hf x).
  unfold zlen in *. rewrite length_app. lia.
Qed.

Lemma getb_join x n i : 0 <= i < Z.of_nat n * w -> (mjoin (f <$> seqZ x (Z.of_nat n))).[i] = (f (x + i / w)).[i mod w].
Proof.
  revert x i. induction n as [|n IH]; intros x i Hi; [lia|].
  rewrite seqZ_cons by lia. cbn [fmap list_fmap]. change (mjoin (?a :: ?l)) with (a ++ mjoin l).
  replace (Z.pred (Z.of_nat (S n))) with (Z.of_nat n) by lia. pose proof (Hf x) as Hx. unfold zlen in Hx.
  destruct (decide (i < w)).
  - rewrite Z.div_small, Z.mod_small, Z.add_0_r by lia. unfold getb. apply app_nth1. lia.
  - unfold getb at 1. rewrite app_nth2 by lia. replace (Z.to_nat i - length (f x))%nat with (Z.to_nat (i - w)) by lia.
    fold (getb (mjoin (f <$> seqZ (Z.succ x) (Z.of_nat n))) (i - w)). rewrite IH by lia.
    replace i with (i - w + 1 * w) at 3 4 by lia. rewrite Z.div_add, Z.mod_add by lia. do 2 f_equal. lia.
Qed.
End sectors.

Section access.
Context {D : Type} `{BlockDeviceLaws D}.
Implicit Types s : St D.

(** The links of the FAT, and everything but the window, are the same. *)
Definition same_links s s' : Prop := geo (fsys s) = geo (fsys s') /\ forall c, follow s' c = follow s c.

Lemma vol_eq_links s s' : fs_inv s -> vol_eq s s' -> same_links s s'.
Proof. intros Hi Hv. split; [by apply core_geo, Hv|]. intros c. by apply vol_eq_follow. Qed.

(** The sectors of the FAT decide the links. *)
Lemma fat_links s s' :
  fat_ready s -> core (fsys s) = core (fsys s') ->
  (forall x, fatbase (fsys s) <= x < fatbase (fsys s) + fsize (fsys s) -> vol s' x = vol s x) -> same_links s s'.
Proof.
  intros Hr Hc Hv. split; [by apply core_geo|]. intros c. unfold follow.
  assert (n_fatent (fsys s') = n_fatent (fsys s)) as -> by (symmetry; exact (f_equal n_fatent Hc)).
  bdestr; [|done]. apply fat_entry_ext; [apply Hr|done|lia|]. intros o Ho.
  destruct (fat_sector s o (fr_inv s Hr) Ho) as (_ & H1 & H2 & _). unfold fatb. core_rewrite Hc. by rewrite Hv.
Qed.

Lemma ready_core s s' : core (fsys s) = core (fsys s') -> win_inv s' -> fat_ready s -> fat_ready s'.
Proof.
  intros Hc Hw [Hi Hg Ht]. split; [by eapply fs_inv_core|by eapply vol_geom_core|].
  assert (fs_type (fsys s') = fs_type (fsys s)) as -> by (symmetry; exact (f_equal fs_type Hc)). done.
Qed.

(** Sectors of the data area other than the one of the window. *)
Definition free_sects s (x n : Z) : Prop :=
  0 < n /\ forall y, x <= y < x + n -> data_sect (fsys s) y /\ winsect (fsys s) <> y.

Lemma vol_medium s y : winsect (fsys s) <> y -> vol s y = medium (dev s) y.
Proof. intros Hne. unfold vol. if_false. done. Qed.

Lemma post_data_read s buf x n (Q : DRESULT * list Z -> St D -> Prop) :
  fat_ready s -> free_sects s x n -> n * ssize (fsys s) <= zlen buf -> bytes buf ->
  (forall r b s', fsys s' = fsys s -> fat_ready s' -> (forall y, vol s' y = vol s y) ->
     length b = length buf -> bytes b ->
     (r = RES_OK -> forall i, 0 <= i < zlen b ->
        b.[i] = if i <? n * ssize (fsys s) then (vol s (x + i / ssize (fsys s))).[i mod ssize (fsys s)] else buf.[i]) ->
     Q (r, b) s') ->
  post (do_read buf x n) s Q.
Proof.
  intros Hr [Hn Hx] Hl Hb HQ. unfold post, do_read. destruct (disk_read _ _ _ _) as [[r b] d'] eqn:E.
  pose proof (wi_ss _ (fi_win _ (fr_inv s Hr))) as Hss. pose proof (ready_sizes s Hr) as (_ & Hs & _).
  pose proof (read_frame _ _ _ _ _ _ _ E) as [Hs' Hf].
  assert (0 <= x) as Hx0.
  { destruct (Hx x ltac:(lia)) as [Hd _]. pose proof (data_sect_ok s x Hr Hd). lia. }
  pose proof E as [Hlb Hbb]%read_buf; [|rewrite <- ?Hss; lia..].
  assert (forall y, vol (mkSt (fsys s) d') y = vol s y) as Hv by (intros y; unfold vol; cbn; by rewrite Hf).
  apply HQ; [done| |done|done|by apply Hbb|].
  - eapply ready_core; [|destruct (fi_win _ (fr_inv s Hr)) as [W1 W2 W3 W4 W5 W6]; split; cbn; try done|done]; [done|congruence|].
    intros. rewrite Hf. by apply W6.
  - intros -> i Hi. apply read_ok in E; [|rewrite <- ?Hss; lia..]. rewrite E. unfold overlay.
    assert (forall y, zlen (medium (dev s) y) = ssize (fsys s)) as Hm.
    { intros y. unfold zlen. rewrite medium_len, <- Hss. lia. }
    pose proof (zlen_join _ _ Hm x (Z.to_nat n)) as Hz.
    pose proof (getb_join _ (ssize (fsys s)) ltac:(lia) Hm x (Z.to_nat n) i) as Hg. rewrite Z2Nat.id in Hz, Hg by lia.
    set (J := mjoin _) in *. change (J ++ drop (length J) buf) with (blit buf 0 J).
    rewrite getb_blit by lia. rewrite Z.sub_0_r, Hz. bdestr_in (i <? n * ssize (fsys s)).
    + if_true. rewrite Hg by lia. rewrite vol_medium; [done|].
      apply Hx. split; [pose proof (Z.div_pos i (ssize (fsys s))); lia|].
      assert (i / ssize (fsys s) < n) by (apply Z.div_lt_upper_bound; lia). lia.
    + by if_false.
Qed.

Lemma post_data_write s buf x n (Q : DRESULT -> St D -> Prop) :
  fat_ready s -> free_sects s x n -> n * ssize (fsys s) <= zlen buf -> bytes buf ->
  (forall r s', fsys s' = fsys s -> fat_ready s' -> same_links s s' ->
     (forall y, 0 <= y -> ~ x <= y < x + n -> vol s' y = vol s y) ->
     (r = RES_OK -> forall y, x <= y < x + n -> vol s' y = sub buf ((y - x) * ssize (fsys s)) (ssize (fsys s))) ->
     Q r s') ->
  post (do_write buf x n) s Q.
Proof.
  intros Hr [Hn Hx] Hl Hb HQ. unfold post, do_write. destruct (disk_write _ _ _ _) as [r d'] eqn:E.
  pose proof (wi_ss _ (fi_win _ (fr_inv s Hr))) as Hss. pose proof (ready_sizes s Hr) as (_ & Hs & _).
  assert (0 <= x) as Hx0.
  { destruct (Hx x ltac:(lia)) as [Hd _]. pose proof (data_sect_ok s x Hr Hd). lia. }
  pose proof E as [Hs' Hf]%write_frame; [|rewrite <- ?Hss; lia..].
  assert (forall y, 0 <= y -> ~ x <= y < x + n -> vol (mkSt (fsys s) d') y = vol s y) as Hv.
  { intros y Hy Hn'. unfold vol. cbn. by rewrite Hf. }
  assert (fat_ready (mkSt (fsys s) d')) as Hr'.
  { eapply ready_core; [|destruct (fi_win _ (fr_inv s Hr)) as [W1 W2 W3 W4 W5 W6]; split; cbn; try done|done]; [done|congruence|].
    intros. rewrite Hf; [by apply W6|unfold is_u32 in W4; lia|]. intros Hin. by destruct (Hx _ Hin) as [_ ?]. }
  apply HQ; [done..| |done|].
  - apply fat_links; [done..|]. intros y Hy. destruct (wi_geom _ (fi_win s (fr_inv s Hr))) as [_ Hb0 _ _ _].
    apply Hv; [lia|]. intros Hin. destruct (Hx _ Hin) as [Hd _]. pose proof (data_sect_ok s y Hr Hd). lia.
  - intros -> y Hy. rewrite vol_medium by (cbn; apply Hx, Hy). cbn.
    rewrite (write_ok _ _ _ _ _ _ Hx0 Hn ltac:(by rewrite <- Hss) Hb E Hy). by rewrite <- Hss.
Qed.
End access.

(** ** The view and the operations of the file object *)

Lemma has_lower x b : has (Z.land x (Z.lnot b)) b = false.
Proof.
  unfold has. apply negb_false_iff, Z.eqb_eq, Z.bits_inj'. intros n Hn.
  rewrite !Z.land_spec, Z.lnot_spec, Z.bits_0 by done. by destruct (Z.testbit x n), (Z.testbit b n).
Qed.

Lemma has_raise x b : 0 < b -> has (Z.lor x b) b = true.
Proof.
  intros Hb. unfold has. apply negb_true_iff, Z.eqb_neq. intros E.
  assert (Z.testbit (Z.land (Z.lor x b) b) (Z.log2 b) = false) as Hf by (by rewrite E, Z.bits_0).
  rewrite Z.land_spec, Z.lor_spec, Z.bit_log2, orb_true_r in Hf by done. done.
Qed.

Lemma has_lower_other x a b : Z.land a b = 0 -> has (Z.land x (Z.lnot b)) a = has x a.
Proof.
  intros Hab. unfold has. do 2 f_equal. apply Z.bits_inj'. intros n Hn.
  rewrite !Z.land_spec, Z.lnot_spec by done. assert (Z.testbit (Z.land a b) n = false) as Hd by (by rewrite Hab, Z.bits_0).
  rewrite Z.land_spec in Hd. destruct (Z.testbit x n), (Z.testbit a n), (Z.testbit b n); done.
Qed.

Lemma has_raise_other x a b : Z.land a b = 0 -> has (Z.lor x b) a = has x a.
Proof.
  intros Hab. unfold has. do 2 f_equal. rewrite Z.land_lor_distr_l. rewrite (Z.land_comm b a), Hab. apply Z.lor_0_r.
Qed.

Section ops.
Context {D : Type} `{BlockDeviceLaws D}.
Implicit Types s : St D.

Lemma links_cluster s s' obj i : same_links s s' -> f_cluster s' obj i = f_cluster s obj i.
Proof. intros [Hg Hf]. unfold f_cluster, csz_of. geo_rewrite Hg. by apply link_ext. Qed.

Lemma links_in_file s s' obj i : same_links s s' -> in_file s' obj i <-> in_file s obj i.
Proof. intros Hl. unfold in_file. rewrite (links_cluster s s') by done. destruct Hl as [Hg _]. by geo_rewrite Hg. Qed.

Lemma links_sector s s' obj i : same_links s s' -> f_sector s' obj i = f_sector s obj i.
Proof. intros Hl. unfold f_sector. rewrite (links_cluster s s') by done. destruct Hl as [Hg _]. by geo_rewrite Hg. Qed.

Lemma links_refl s : same_links s s.
Proof. by split. Qed.

Lemma links_trans s1 s2 s3 : same_links s1 s2 -> same_links s2 s3 -> same_links s1 s3.
Proof. intros [G1 L1] [G2 L2]. split; [congruence|]. intros c. by rewrite L2. Qed.

Lemma links_ssize s s' : same_links s s' -> ssize (fsys s') = ssize (fsys s).
Proof. intros [Hg _]. symmetry. exact (f_equal ssize Hg). Qed.

Lemma links_data s s' x : same_links s s' -> data_sect (fsys s') x <-> data_sect (fsys s) x.
Proof. intros [Hg _]. unfold data_sect. by geo_rewrite Hg. Qed.

(** The window stays apart from the object when it moves to the FAT. *)
Lemma apart_tracks s s' obj x :
  fat_ready s -> same_links s s' -> tracks s s' -> (x = 0 \/ data_sect (fsys s) x) -> apart s obj x -> apart s' obj x.
Proof.
  intros Hr Hl Ht Hx [Ha1 Ha2]. destruct (Ht (ready_state s Hr)) as [_ Hw].
  assert (forall y, data_sect (fsys s) y -> winsect (fsys s) <> y -> winsect (fsys s') <> y) as Hk.
  { intros y Hy Hne E. pose proof (data_sect_ok s y Hr Hy). lia. }
  split.
  - intros Hne. destruct Hx as [->|Hx]; [done|]. by apply Hk; [|apply Ha1].
  - intros i Hi. rewrite (links_sector s) by done. apply (links_in_file s) in Hi; [|done].
    apply Hk; [by apply f_sector_data|by apply Ha2].
Qed.

(** The invariants of a file in a state with the same links. *)
Lemma file_base_links s s' fp :
  file_base s fp -> fat_ready s' -> same_links s s' -> tracks s s' ->
  (f_sect fp <> 0 -> dirty fp = false -> vol s' (f_sect fp) = vol s (f_sect fp)) -> file_base s' fp.
Proof.
  intros [V1 V2 V4 V7 V8 V9 V10] Hr Hl Ht Hv. pose proof (links_ssize s s' Hl) as Es.
  split; rewrite ?Es; try done.
  - destruct Hl as [Hg _]. split; [apply V2|]. etrans; [apply V2|exact (f_equal fsid Hg)].
  - rewrite (links_data s) by done. done.
  - intros Hne Hd. rewrite Hv by done. by apply V9.
  - apply (apart_tracks s); try done. destruct V8 as [[-> _]|?]; auto.
Qed.

Lemma file_inv_links s s' fp fp' :
  file_inv s fp -> same_links s s' -> file_base s' fp' ->
  f_obj fp' = f_obj fp -> f_fptr fp' = f_fptr fp -> f_clust fp' = f_clust fp ->
  (f_fptr fp mod ssize (fsys s) <> 0 -> f_sect fp' = f_sect fp) -> file_inv s' fp'.
Proof.
  intros [V0 V3 V5 V6] Hl Hb Eo Ep Ec Es. pose proof (links_ssize s s' Hl) as Ez.
  split; rewrite ?Ez, ?Eo, ?Ep, ?Ec; try done.
  - intros Hp. rewrite (links_in_file s), (links_cluster s) by done. by apply V5.
  - intros Hm. rewrite (links_sector s), Es by done. by apply V6.
Qed.

(** The view of the file in a state where its sectors show the same. *)
Lemma f_data_ext s s' fp x :
  same_links s s' -> vol s' x = vol s x -> f_data s' fp x = f_data s fp x.
Proof. intros Hl Hv. unfold f_data. by rewrite Hv, (links_ssize s s' Hl). Qed.

(** The two views of the file agree on the sectors of the data area. *)
Definition same_data s fp s' fp' : Prop := forall x, data_sect (fsys s) x -> f_data s' fp' x = f_data s fp x.

Lemma same_data_byte s fp s' fp' i :
  fat_ready s -> same_links s s' -> f_obj fp' = f_obj fp -> same_data s fp s' fp' ->
  in_file s (f_obj fp) i -> f_byte s' fp' i = f_byte s fp i.
Proof.
  intros Hr Hl Ho Hd Hi. unfold f_byte. rewrite Ho, (links_sector s), (links_ssize s) by done.
  by rewrite Hd by (by apply f_sector_data).
Qed.

Lemma same_data_trans s1 f1 s2 f2 s3 f3 :
  same_links s1 s2 -> same_data s1 f1 s2 f2 -> same_data s2 f2 s3 f3 -> same_data s1 f1 s3 f3.
Proof. intros Hl H1 H2 x Hx. rewrite H2, H1; [done..|]. by apply (links_data s1). Qed.

(** What the operations on one file leave alone: the links, and every sector but those
    of [P]. *)
Definition others s s' (P : Z -> Prop) : Prop :=
  same_links s s' /\ tracks s s' /\ forall y, 0 <= y -> ~ mirror (fsys s) y -> ~ P y -> vol s' y = vol s y.

Lemma others_trans s1 s2 s3 P : others s1 s2 P -> others s2 s3 P -> others s1 s3 P.
Proof.
  intros (L1 & T1 & V1) (L2 & T2 & V2). split_and!; [by eapply links_trans|by etrans|].
  intros y Hy Hm Hp. rewrite V2, V1; try done. intros Hm'. apply Hm. by apply (geo_mirror _ _ y (proj1 L1)).
Qed.

Lemma others_mono s s' (P Q : Z -> Prop) : others s s' P -> (forall y, P y -> Q y) -> others s s' Q.
Proof. intros (L & T & V) HPQ. split_and!; [done..|]. intros y Hy Hm Hn. apply V; auto. Qed.

Lemma others_same s s' P :
  fsys s' = fsys s -> same_links s s' -> (forall y, 0 <= y -> ~ P y -> vol s' y = vol s y) -> others s s' P.
Proof. intros E Hl Hv. split_and!; [done| |auto]. intros Hs. rewrite E. split; [done|by left]. Qed.

Lemma others_vol_eq s s' P : fat_ready s -> vol_eq s s' -> tracks s s' -> others s s' P.
Proof. intros Hr Hv Ht. split_and!; [by apply vol_eq_links; [apply Hr|]|done|]. intros y Hy Hm _. symmetry. by apply Hv. Qed.
End ops.
