(* ===== verification/FileRead.v ===== *)
(** * Reading files

    [f_read] refines reading the abstract content of the file: on any FAT and with any
    disk errors the bytes delivered are the bytes of the view, in order. *)

From stdpp Require Import prelude list.
From Stdlib Require Import ZArith Lia.
From S2P Require Import Prelude Bytes Diskio FFTypes Window Fat Bitmap Chain Track Lfn Dir Dirent Mount File FileData.

Local Open Scope Z_scope.
Local Open Scope cint_scope.

Section cache.
Context {D : Type} `{BlockDeviceLaws D}.
Implicit Types s : St D.

(** ** The sector cache *)

(** The buffer after a read of one sector. *)
Lemma read_sector s b old x :
  fat_ready s -> zlen b = FF_MAX_SS ->
  (forall i, 0 <= i < zlen b -> b.[i] =
     if i <? 1 * ssize (fsys s) then (vol s (x + i / ssize (fsys s))).[i mod ssize (fsys s)] else old.[i]) ->
  take (Z.to_nat (ssize (fsys s))) b = vol s x.
Proof.
  intros Hr Hl Hb. pose proof (ready_sizes s Hr) as (_ & Hs & _).
  assert (zlen (vol s x) = ssize (fsys s)) as Hv by apply vol_len, Hr.
  assert (zlen (take (Z.to_nat (ssize (fsys s))) b) = ssize (fsys s)) as Hz.
  { unfold zlen, FF_MAX_SS in *. rewrite length_take. lia. }
  apply getb_ext; [congruence|]. intros i Hi. rewrite getb_take, Hb by (unfold FF_MAX_SS in *; lia). if_true.
  by rewrite Z.div_small, Z.mod_small, Z.add_0_r by lia.
Qed.

(** The sector that the cache has to write back. *)
Definition cache_sect (fp : FIL) (y : Z) : Prop := dirty fp = true /\ y = f_sect fp.

Lemma cache_free s fp : file_base s fp -> dirty fp = true -> free_sects s (f_sect fp) 1.
Proof.
  intros Hf Hd. split; [lia|]. intros y Hy. replace y with (f_sect fp) by lia.
  destruct (fv_cache _ _ Hf) as [[_ Hc]|Hc]; [congruence|]. split; [done|]. apply Hf.
  pose proof (data_sect_ok s _ (fv_ready _ _ Hf) Hc). lia.
Qed.

Lemma cache_len s fp : file_base s fp -> ssize (fsys s) <= zlen (f_buf fp).
Proof.
  intros Hf. destruct (fv_buf _ _ Hf) as [-> _]. pose proof (ready_sizes s (fv_ready _ _ Hf)) as (_ & Hs & _).
  unfold FF_MAX_SS. lia.
Qed.

(** What is left of the file object by a write-back. *)
Definition clean_fil (fp : FIL) : FIL := if dirty fp then lower FA_DIRTY fp else fp.

Lemma clean_fil_dirty fp : dirty (clean_fil fp) = false.
Proof. unfold clean_fil. destruct (dirty fp) eqn:E; [|done]. apply has_lower. Qed.

Lemma write_back_spec s fp :
  file_base s fp ->
  post (write_back fp) s (fun '(r, fp') s' =>
    fsys s' = fsys s /\ others s s' (cache_sect fp) /\ same_data s fp s' fp' /\ file_base s' fp' /\
    (r = FR_OK /\ fp' = clean_fil fp \/ r = FR_DISK_ERR /\ fp' = fp)).
Proof.
  intros Hf. unfold write_back. fold (dirty fp). destruct (dirty fp) eqn:Ed.
  2:{ mstep. split_and!; [done|apply others_same; auto using links_refl|done|done|].
      left. unfold clean_fil. by rewrite Ed. }
  mstep. apply post_data_write; [apply Hf|by apply cache_free|pose proof (cache_len s fp Hf); lia|apply Hf|].
  intros r s' Es Hr Hl Hv Hw. assert (others s s' (cache_sect fp)) as Ho.
  { apply others_same; [done..|]. intros y Hy Hne. apply Hv; [done|]. intros ?. apply Hne. split; [done|lia]. }
  assert (tracks s s') as Ht by apply Ho.
  assert (forall x, data_sect (fsys s) x -> 0 <= x) as Hpos.
  { intros x Hx. pose proof (data_sect_ok s x (fv_ready _ _ Hf) Hx). lia. }
  assert (file_base s' fp) as Hf' by (apply (file_base_links s); try done; congruence).
  destruct r; cbn [res_ok negb].
  2-5: mstep; split_and!; [done..| |done|by right]; intros x Hx; unfold f_data; rewrite Ed, Es;
    bdestr; [done|]; apply Hv; [by apply Hpos|lia].
  specialize (Hw eq_refl (f_sect fp) ltac:(lia)). rewrite Z.sub_diag in Hw.
  change (sub _ _ _) with (take (Z.to_nat (ssize (fsys s))) (f_buf fp)) in Hw.
  mstep. split_and!; [done..| | |left; split; [done|]; unfold clean_fil; by rewrite Ed].
  - intros x Hx. unfold f_data. rewrite Ed. change (dirty (lower FA_DIRTY fp)) with (has (Z.land (f_flag fp) (Z.lnot FA_DIRTY)) FA_DIRTY).
    rewrite has_lower. cbn [andb]. bdestr; [by subst x|]. apply Hv; [by apply Hpos|lia].
  - destruct Hf' as [V1 V2 V4 V7 V8 V9 V10]. split; try done.
    + destruct V8 as [[_ V8]|V8]; [congruence|by right].
    + intros _ _. cbn. by rewrite Hw, Es.
Qed.

(** Another sector of the data area in the cache. *)
Lemma file_base_cached s fp b x :
  file_base s fp -> dirty fp = false -> data_sect (fsys s) x -> winsect (fsys s) <> x ->
  zlen b = FF_MAX_SS -> bytes b -> take (Z.to_nat (ssize (fsys s))) b = vol s x ->
  file_base s (set_f_sect x (set_f_buf b fp)).
Proof.
  intros [V1 V2 V4 V7 V8 V9 V10] Hd Hx Hw Hl Hb Ht. split; try done; [by right|]. split; [done|apply V10].
Qed.

Lemma load_buf_spec s fp x :
  file_base s fp -> data_sect (fsys s) x -> winsect (fsys s) <> x ->
  post (load_buf fp x) s (fun '(r, fp') s' =>
    fsys s' = fsys s /\ others s s' (cache_sect fp) /\
    same_data s fp s' fp' /\ f_obj fp' = f_obj fp /\ f_fptr fp' = f_fptr fp /\
    (forall y, cache_sect fp' y -> cache_sect fp y) /\
    (r = FR_OK /\ (exists b, fp' = set_f_buf b (clean_fil fp)) /\
       same_data s fp s' (set_f_sect x fp') /\ file_base s' (set_f_sect x fp') \/
     r = FR_DISK_ERR)).
Proof.
  intros Hf Hx Hw. unfold load_buf. mstep. eapply post_mono; [by apply write_back_spec|].
  intros [r fp1] s1 (Es1 & Ho1 & Hd1 & Hf1 & Hr).
  destruct Hr as [[-> ->]|[-> ->]]; cbn [fr_ok negb]; [|mstep; split_and!; try done; by right].
  assert (f_obj (clean_fil fp) = f_obj fp /\ f_fptr (clean_fil fp) = f_fptr fp) as [Eo Ep]
    by (unfold clean_fil; by case_match).
  pose proof (clean_fil_dirty fp) as Hcl. set (fp1 := clean_fil fp) in *.
  unfold fill_buf. mstep. apply post_data_read; [apply Hf1| |pose proof (cache_len _ _ Hf1); lia|apply Hf1|].
  { split; [lia|]. intros y Hy. replace y with x by lia. by rewrite Es1. }
  intros r b s2 Es2 Hr2 Hv2 Hlb Hbb Hb. mstep. destruct (fv_buf _ _ Hf1) as [Hl _].
  assert (same_links s1 s2) as Hl2 by (apply fat_links; [apply Hf1|by rewrite Es2|auto]).
  assert (others s1 s2 (cache_sect fp)) as Ho2 by (by apply others_same).
  assert (forall y, same_data s fp s2 (set_f_sect y (set_f_buf b fp1))) as Hd2.
  { intros y z Hz. rewrite <- (Hd1 z Hz). unfold f_data, dirty. change (f_flag (set_f_sect y (set_f_buf b fp1))) with (f_flag fp1).
    fold (dirty fp1). rewrite Hcl. cbn [andb]. apply Hv2. }
  split_and!; [congruence|by eapply others_trans|by apply (Hd2 (f_sect fp1))|done|done| |].
  { intros y [Hy _]. unfold dirty in *. cbn in Hy. congruence. }
  destruct r; cbn [res_ok]; try by right. left. split_and!; [done|by exists b|apply Hd2|].
  assert (file_base s2 fp1) as Hf2.
  { apply (file_base_links s1); [done|done|done|apply Ho2|intros _ _; apply Hv2]. }
  rewrite <- Es1, <- Es2 in Hx, Hw. apply file_base_cached; try done.
  - unfold zlen in *. by rewrite Hlb.
  - rewrite Es2, Hv2. apply (read_sector _ _ (f_buf fp1)); [apply Hf1|by unfold zlen; rewrite Hlb|]. by apply Hb.
Qed.
End cache.

(** ** The position in the chain *)

Section position.
Context {D : Type} `{BlockDeviceLaws D} `{!Heap}.
Implicit Types s : St D.

Lemma csect_mod s q : fat_ready s -> Z.land q (csize (fsys s) - 1) = q mod csize (fsys s).
Proof.
  intros [_ Hg _]. destruct (vg_csize _ Hg) as (e & He & ->).
  replace (2 ^ e - 1) with (Z.ones e) by (rewrite Z.ones_equiv; lia). apply Z.land_ones. lia.
Qed.

(** The first byte of a cluster. *)
Lemma cluster_succ s obj p :
  fat_ready s -> 0 < p -> p mod ssize (fsys s) = 0 -> (p / ssize (fsys s)) mod csize (fsys s) = 0 ->
  f_cluster s obj p = follow s (f_cluster s obj (p - 1)).
Proof.
  intros Hr Hp Hm Hc. pose proof (ready_sizes s Hr) as (_ & Hs & Hz). unfold f_cluster, csz_of.
  set (ss := ssize (fsys s)) in *. set (cs := csize (fsys s)) in *. set (q := p / ss / cs).
  assert (p = q * (cs * ss)) as Ep by (unfold q; Z.div_mod_to_equations; nia).
  assert (0 < q) by nia. rewrite Ep at 1. rewrite Z.div_mul by lia.
  replace ((p - 1) / (cs * ss)) with (q - 1).
  - rewrite <- link_succ by lia. f_equal. lia.
  - apply (Z.div_unique_pos _ _ _ (cs * ss - 1)); [nia|]. rewrite Ep. lia.
Qed.

Lemma cluster_u32 s obj i : fat_ready s -> is_u32 (sclust obj) -> is_u32 (f_cluster s obj i).
Proof.
  intros Hr Hs. assert (forall c, is_u32 (follow s c)) as Hf.
  { intros c. unfold follow. bdestr; [|done]. pose proof (fat_entry_range s c (fr_inv s Hr)).
    pose proof (fat_mask_bound (fsys s)). unfold is_u32. lia. }
  unfold f_cluster, link. destruct (Z.to_nat _) as [|k]; [done|]. apply Hf.
Qed.

Lemma set_f_clust_same fp : set_f_clust (f_clust fp) fp = fp.
Proof. by destruct fp. Qed.

(** The cluster of the byte at the pointer, at a sector boundary. *)
Lemma read_clust_spec s fp :
  file_inv s fp -> f_fptr fp mod ssize (fsys s) = 0 ->
  post (if Z.land (f_fptr fp / ssize (fsys s)) (csize (fsys s) - 1) =? 0 then read_clust fp else mret (FR_OK, fp)) s
    (fun '(r, fp') s' => fat_ready s' /\ vol_eq s s' /\ tracks s s' /\
      (r = FR_OK /\ fp' = set_f_clust (f_cluster s (f_obj fp) (f_fptr fp)) fp /\
         2 <= f_cluster s (f_obj fp) (f_fptr fp) \/
       fp' = fp /\ (r = FR_INT_ERR /\ ~ in_file s (f_obj fp) (f_fptr fp) \/ r = FR_DISK_ERR))).
Proof.
  intros Hf Hm. pose proof (fv_ready _ _ (fv_base _ _ Hf)) as Hr. rewrite csect_mod by done.
  pose proof (ready_sizes s Hr) as (_ & Hs & Hz). destruct (fv_size _ _ Hf) as [Hp _].
  set (c := f_cluster s (f_obj fp) (f_fptr fp)). bdestr.
  2:{ assert (0 < f_fptr fp) as Hp0.
      { destruct (decide (f_fptr fp = 0)) as [E|]; [rewrite E in Hb|lia]. by rewrite Z.div_0_l, Z.mod_0_l in Hb by lia. }
      destruct (fv_clust _ _ Hf Hp0) as [Hin Hc]. mstep. split_and!; [done..|]. left.
      assert (c = f_clust fp) as ->; [|split_and!; [done|by rewrite set_f_clust_same|rewrite Hc; apply Hin]].
      rewrite Hc. unfold c, f_cluster, csz_of. f_equal. symmetry. apply ofs_pred; [lia..|by right]. }
  assert (forall v s', fat_ready s' -> vol_eq s s' -> tracks s s' -> v = c \/ v = 0xFFFFFFFF ->
    post (if v <? 2 then mret (FR_INT_ERR, fp) else if v =? 0xFFFFFFFF then mret (FR_DISK_ERR, fp)
          else mret (FR_OK, set_f_clust v fp)) s' (fun '(r, fp') s' => fat_ready s' /\ vol_eq s s' /\ tracks s s' /\
      (r = FR_OK /\ fp' = set_f_clust c fp /\ 2 <= c \/
       fp' = fp /\ (r = FR_INT_ERR /\ ~ in_file s (f_obj fp) (f_fptr fp) \/ r = FR_DISK_ERR)))) as Hend.
  { intros v s' Hr' Hv Ht Hc. mstep; [mstep; split_and!; [done..|right; split; [done|]]|mstep; mstep; split_and!; try done].
    - destruct Hc as [->| ->]; [|lia]. left. split; [done|]. unfold in_file. fold c. lia.
    - right. auto.
    - left. destruct Hc as [->|]; [|done]. split_and!; [done..|lia]. }
  unfold read_clust. mstep. bdestr.
  - mstep. apply Hend; [done..|]. left. unfold c, f_cluster. rewrite Hb0, Z.div_0_l by (unfold csz_of; lia). done.
  - destruct (fv_clust _ _ Hf ltac:(lia)) as [Hin Hc].
    eapply post_mono; [apply post_holds; [apply (get_fat_follow s (f_obj fp) (f_clust fp)); [apply Hr|]|apply get_fat_tracking]|].
    { rewrite Hc. destruct Hin as [_ Hin]. pose proof (ents_u32 _ (fi_fat s (fr_inv s Hr))). unfold is_u32 in *. lia. }
    cbn beta. intros v s' [(Hi' & Hv & _ & _ & Hv') Ht].
    assert (fat_ready s') as Hr' by (eapply ready_core; [apply Hv|apply Hi'|done]).
    apply Hend; [done..|]. rewrite Hc in Hv'. unfold c. rewrite cluster_succ by (done || lia).
    rewrite follow_in by apply Hin. destruct (Hv' ltac:(apply Hin) ltac:(left; apply Hr)) as [?|[? _]]; auto.
Qed.
End position.

(** ** Runs of bytes and sectors *)

Section runs.
Context {D : Type} `{BlockDeviceLaws D}.
Implicit Types s : St D.

Lemma u64_ptr x : 0 <= x < 2 ^ 32 -> u64 x = x.
Proof. intros Hx. unfold u64. apply Z.mod_small. lia. Qed.

(** The bytes of the cached sector. *)
Lemma cache_byte s fp i :
  file_base s fp -> in_file s (f_obj fp) i -> f_sector s (f_obj fp) i = f_sect fp ->
  f_byte s fp i = (f_buf fp).[i mod ssize (fsys s)].
Proof.
  intros Hf Hin Es. pose proof (ready_sizes s (fv_ready _ _ Hf)) as (_ & Hs & _).
  pose proof (f_sector_data s _ i (fv_ready _ _ Hf) Hin) as Hd. rewrite Es in Hd.
  pose proof (data_sect_ok s _ (fv_ready _ _ Hf) Hd) as (Hx & _).
  pose proof (Z.mod_pos_bound i (ssize (fsys s)) ltac:(lia)).
  unfold f_byte, f_data. rewrite Es, Z.eqb_refl, andb_true_r. destruct (dirty fp) eqn:E.
  - by rewrite getb_take by lia.
  - rewrite <- (fv_clean _ _ Hf) by (done || lia). by rewrite getb_take by lia.
Qed.

(** The end of the file object after [rcnt] bytes of one cluster. *)
Lemma file_inv_advance s fp rcnt :
  file_base s fp -> 0 < rcnt -> 0 <= f_fptr fp -> f_fptr fp + rcnt <= objsize (f_obj fp) < 2 ^ 32 ->
  in_file s (f_obj fp) (f_fptr fp) -> f_clust fp = f_cluster s (f_obj fp) (f_fptr fp) ->
  (f_fptr fp + rcnt - 1) / csz_of (fsys s) = f_fptr fp / csz_of (fsys s) ->
  ((f_fptr fp + rcnt) mod ssize (fsys s) <> 0 -> f_sect fp = f_sector s (f_obj fp) (f_fptr fp + rcnt)) ->
  file_inv s (set_f_fptr (f_fptr fp + rcnt) fp).
Proof.
  intros Hf Hr Hp Hsz [Hi Hin] Hc Hq Hx. destruct Hf as [V1 V2 V4 V7 V8 V9 V10].
  split; [by split|cbn; lia| |done]. cbn. intros _. unfold in_file, f_cluster in *. rewrite Hq. split; [lia|done].
Qed.

(** The sectors from the one of the pointer to the end of its cluster. *)
Lemma run_sector s o p j :
  fat_ready s -> in_file s o p -> p mod ssize (fsys s) = 0 ->
  0 <= j < ssize (fsys s) * (csize (fsys s) - (p / ssize (fsys s)) mod csize (fsys s)) ->
  f_sector s o (p + j) = f_sector s o p + j / ssize (fsys s) /\ in_file s o (p + j) /\
  (p + j) mod ssize (fsys s) = j mod ssize (fsys s) /\ (p + j) / csz_of (fsys s) = p / csz_of (fsys s).
Proof.
  intros Hr [Hp Hin] Hm Hj. pose proof (ready_sizes s Hr) as (_ & Hs & Hc).
  destruct (ofs_same_cluster (ssize (fsys s)) (csize (fsys s)) ltac:(lia) Hc p j Hm Hj) as (E1 & E2 & E3).
  unfold f_sector, in_file, f_cluster, csz_of in *. rewrite E1, E2, E3. split_and!; try done; lia.
Qed.

Lemma run_free s fp cc :
  file_base s fp -> in_file s (f_obj fp) (f_fptr fp) -> f_fptr fp mod ssize (fsys s) = 0 ->
  0 < cc <= csize (fsys s) - (f_fptr fp / ssize (fsys s)) mod csize (fsys s) ->
  free_sects s (f_sector s (f_obj fp) (f_fptr fp)) cc.
Proof.
  intros Hf Hin Hm Hcc. pose proof (fv_ready _ _ Hf) as Hr. pose proof (ready_sizes s Hr) as (_ & Hs & Hc).
  split; [lia|]. intros y Hy. set (x := f_sector s (f_obj fp) (f_fptr fp)) in *.
  destruct (run_sector s (f_obj fp) (f_fptr fp) ((y - x) * ssize (fsys s)) Hr Hin Hm ltac:(nia)) as (E & Hin' & _).
  rewrite Z.div_mul in E by lia. fold x in E. replace y with (f_sector s (f_obj fp) (f_fptr fp + (y - x) * ssize (fsys s))) by lia.
  split; [by apply f_sector_data|by apply (fv_apart _ _ Hf)].
Qed.

(** The unsigned test for the cached sector among those transferred. *)
Lemma run_test x y cc : is_u32 x -> is_u32 y -> 0 <= x + cc <= 2 ^ 32 -> (y -u32 x <? cc) = (x <=? y) && (y <? x + cc).
Proof.
  unfold is_u32. intros Hx Hy Hc. destruct (decide (x <= y)).
  - rewrite u32_small by (unfold is_u32; lia).
    destruct (Z.ltb_spec (y - x) cc), (Z.leb_spec x y), (Z.ltb_spec y (x + cc)); lia || done.
  - assert (y -u32 x = y - x + 2 ^ 32) as ->.
    { unfold u32. rewrite <- (Z.mod_add _ 1), Z.mod_small by lia. lia. }
    destruct (Z.ltb_spec (y - x + 2 ^ 32) cc), (Z.leb_spec x y); lia || done.
Qed.

Lemma getb_after (l b : list Z) k i :
  0 <= k <= zlen l -> 0 <= i -> (take (Z.to_nat k) l ++ b).[i] = if i <? k then l.[i] else b.[i - k].
Proof.
  intros Hk Hi. unfold getb, zlen in *. bdestr.
  - rewrite app_nth1 by (rewrite length_take; lia). by rewrite !nth_lookup, lookup_take_lt by lia.
  - rewrite app_nth2, length_take by (rewrite length_take; lia). f_equal. lia.
Qed.

(** The dirty sector of the cache replaces what the disk has of it. *)
Lemma overlay_cache s fp rb br sect cc :
  file_base s fp -> let ss := ssize (fsys s) in
  0 <= br -> 0 < cc -> 0 <= sect -> sect + cc <= 2 ^ 32 -> br + cc * ss <= zlen rb -> bytes rb ->
  (forall j, 0 <= j < cc * ss -> rb.[br + j] = (vol s (sect + j / ss)).[j mod ss]) ->
  let rb' := if dirty fp && (f_sect fp -u32 sect <? cc)
    then blit rb (br + (f_sect fp -u32 sect) * ss) (take (Z.to_nat ss) (f_buf fp)) else rb in
  zlen rb' = zlen rb /\ bytes rb' /\ (forall i, 0 <= i < br -> rb'.[i] = rb.[i]) /\
  (forall j, 0 <= j < cc * ss -> rb'.[br + j] = (f_data s fp (sect + j / ss)).[j mod ss]).
Proof.
  intros Hf ss Hbr Hcc Hs0 Hs1 Hl Hb Hrb rb'. pose proof (fv_ready _ _ Hf) as Hr.
  pose proof (ready_sizes s Hr) as (_ & Hs & _). fold ss in Hs. unfold rb'.
  assert (is_u32 (f_sect fp)) as Hu.
  { destruct (fv_cache _ _ Hf) as [[-> _]|Hcs]; [done|]. pose proof (data_sect_ok s _ Hr Hcs). unfold is_u32. lia. }
  rewrite run_test by (unfold is_u32 in *; lia). unfold f_data. destruct (dirty fp); cbn [andb]; [|done].
  destruct ((sect <=? f_sect fp) && _) eqn:Et.
  2:{ split_and!; try done. intros j Hj. assert (0 <= j / ss < cc).
      { split; [apply Z.div_pos; lia|apply Z.div_lt_upper_bound; lia]. }
      rewrite (proj2 (Z.eqb_neq _ _)) by (bprop; lia). by apply Hrb. }
  assert (sect <= f_sect fp < sect + cc) as Hin by (bprop; lia).
  rewrite u32_small by (unfold is_u32 in *; lia). set (k := f_sect fp - sect).
  assert (0 <= k < cc) as Hk by (unfold k; lia).
  assert (zlen (take (Z.to_nat ss) (f_buf fp)) = ss) as Hlt.
  { pose proof (cache_len s fp Hf) as Hc. fold ss in Hc. unfold zlen in *. rewrite length_take. lia. }
  assert (0 <= k * ss /\ k * ss + ss <= cc * ss) as [Hk0 Hk1] by nia.
  split_and!.
  - unfold zlen in *. rewrite length_blit; unfold zlen in *; lia.
  - apply bytes_blit; [done|]. by apply Forall_take, Hf.
  - intros i Hi. rewrite getb_blit by lia. if_false. done.
  - intros j Hj. rewrite getb_blit by lia. rewrite Hlt.
    pose proof (Z.div_mod j ss ltac:(lia)) as Ej. pose proof (Z.mod_pos_bound j ss ltac:(lia)).
    fold ss. destruct (decide (j / ss = k)) as [E|E].
    + rewrite (proj2 (Z.eqb_eq _ _)) by (unfold k in *; lia). rewrite E in Ej. if_true. f_equal. lia.
    + rewrite (proj2 (Z.eqb_neq _ _)) by (unfold k in *; lia). rewrite Hrb by done.
      assert (j < k * ss \/ k * ss + ss <= j) by nia. by if_false.
Qed.

(** The pointer after whole sectors of one cluster. *)
Lemma direct_inv s fp cc :
  file_base s fp -> let ss := ssize (fsys s) in
  in_file s (f_obj fp) (f_fptr fp) -> f_clust fp = f_cluster s (f_obj fp) (f_fptr fp) -> f_fptr fp mod ss = 0 ->
  0 < cc <= csize (fsys s) - (f_fptr fp / ss) mod csize (fsys s) ->
  0 <= f_fptr fp -> f_fptr fp + ss * cc <= objsize (f_obj fp) < 2 ^ 32 ->
  file_inv s (set_f_fptr (f_fptr fp + ss * cc) fp).
Proof.
  intros Hf ss Hin Hc Hm Hcc Hp Hsz'. pose proof (fv_ready _ _ Hf) as Hr.
  pose proof (ready_sizes s Hr) as (_ & Hs & _). fold ss in Hs. apply file_inv_advance; try done; [nia| |].
  - replace (f_fptr fp + ss * cc - 1) with (f_fptr fp + (ss * cc - 1)) by lia.
    apply (run_sector s (f_obj fp) (f_fptr fp)); [done..|fold ss; nia].
  - intros Hne. exfalso. apply Hne. fold ss. by rewrite Z.mul_comm, Z.mod_add by lia.
Qed.
End runs.

(** ** The loop *)

Section loop.
Context {D : Type} `{BlockDeviceLaws D} `{!Heap}.
Context (s0 : St D) (fp0 : FIL) (buff : list Z) (n : Z).
Implicit Types s : St D.
Let obj := f_obj fp0.
Let p0 := f_fptr fp0.

(** After [br] bytes: they are the bytes of the file from its pointer on. *)
Record read_part (fp : FIL) (rbuff : list Z) (br : Z) s : Prop := {
  rp_obj : f_obj fp = obj;
  rp_ptr : f_fptr fp = p0 + br;
  rp_br : 0 <= br <= n;
  rp_len : zlen rbuff = zlen buff /\ bytes rbuff;
  rp_data : forall i, 0 <= i < br -> in_file s0 obj (p0 + i) /\ rbuff.[i] = f_byte s0 fp0 (p0 + i);
  rp_others : others s0 s (cache_sect fp0);
  rp_cache : forall y, cache_sect fp y -> cache_sect fp0 y;
  rp_same : same_data s0 fp0 s fp
}.

Definition read_post (r : FRESULT) (fp : FIL) (rbuff : list Z) (br : Z) s : Prop :=
  read_part fp rbuff br s /\
  (r = FR_OK /\ br = n /\ file_inv s fp /\ f_err fp = f_err fp0 \/
   f_err fp = r /\ (r = FR_INT_ERR /\ ~ in_file s0 obj (p0 + br) \/ r = FR_DISK_ERR)).

(** A part of the file object that the view does not see. *)
Lemma read_part_fil fp fp' rbuff br s :
  read_part fp rbuff br s -> f_obj fp' = f_obj fp -> f_fptr fp' = f_fptr fp ->
  dirty fp' = dirty fp -> f_sect fp' = f_sect fp -> f_buf fp' = f_buf fp -> read_part fp' rbuff br s.
Proof.
  intros [R1 R2 R3 R4 R5 R6 R7 R8] E1 E2 E3 E4 E5. split; rewrite ?E1, ?E2; try done.
  - intros y [Hd Hy]. apply R7. split; congruence.
  - intros x Hx. rewrite <- R8 by done. unfold f_data. by rewrite E3, E4, E5.
Qed.

(** The state after an operation on the disk that keeps the view. *)
Lemma read_part_state fp rbuff br s fp' s' :
  read_part fp rbuff br s -> others s s' (cache_sect fp) -> same_data s fp s' fp' ->
  f_obj fp' = f_obj fp -> f_fptr fp' = f_fptr fp ->
  (forall y, cache_sect fp' y -> cache_sect fp y) -> read_part fp' rbuff br s'.
Proof.
  intros [R1 R2 R3 R4 R5 R6 R7 R8] Ho Hd E1 E2 Hc. split; rewrite ?E1, ?E2; auto.
  - eapply others_trans; [done|]. by eapply others_mono.
  - eapply same_data_trans; [apply R6|done|done].
Qed.

(** [rcnt] more bytes. *)
Lemma read_part_next fp rbuff br s rbuff' rcnt :
  read_part fp rbuff br s -> 0 <= rcnt -> br + rcnt <= n ->
  zlen rbuff' = zlen rbuff -> bytes rbuff' ->
  (forall i, 0 <= i < br -> rbuff'.[i] = rbuff.[i]) ->
  (forall j, 0 <= j < rcnt -> in_file s obj (p0 + br + j) /\ rbuff'.[br + j] = f_byte s fp (p0 + br + j)) ->
  fat_ready s0 ->
  read_part (set_f_fptr (p0 + br + rcnt) fp) rbuff' (br + rcnt) s.
Proof.
  intros [R1 R2 R3 R4 R5 R6 R7 R8] Hc Hle Hl Hb Hk Hn Hr. split; try done; cbn; try lia.
  - split; [rewrite Hl; apply R4|done].
  - intros i Hi. destruct (decide (i < br)); [rewrite Hk by lia; apply R5; lia|].
    destruct (Hn (i - br) ltac:(lia)) as [Hin Hv].
    replace (br + (i - br)) with i in Hv by lia. replace (p0 + br + (i - br)) with (p0 + i) in * by lia.
    rewrite (links_in_file s0 s) in Hin by apply R6. split; [done|]. rewrite Hv.
    apply same_data_byte; [done|apply R6|done|done|done].
Qed.


Hypothesis Hn : 0 <= n <= zlen buff.
Hypothesis Hsz : p0 + n <= objsize obj < 2 ^ 32.
Hypothesis Hr0 : fat_ready s0.
Hypothesis Hp0 : 0 <= p0.

(** The file object stands at the byte of its pointer: the cluster is the one of the
    byte. *)
Record at_byte (fp : FIL) (rbuff : list Z) (br : Z) s : Prop := {
  ab_part : read_part fp rbuff br s;
  ab_base : file_base s fp;
  ab_err : f_err fp = f_err fp0;
  ab_in : in_file s (f_obj fp) (f_fptr fp);
  ab_clust : f_clust fp = f_cluster s (f_obj fp) (f_fptr fp)
}.

(** Bytes of the cached sector. *)
Lemma extract_spec fp rbuff br s :
  at_byte fp rbuff br s -> br < n -> f_sect fp = f_sector s (f_obj fp) (f_fptr fp) ->
  let ss := ssize (fsys s) in let ofs := f_fptr fp mod ss in
  let rcnt := if n - br <? ss - ofs then n - br else ss - ofs in
  let fp' := set_f_fptr (u64 (f_fptr fp + rcnt)) fp in
  0 < rcnt <= n - br /\ read_part fp' (blit rbuff br (sub (f_buf fp) ofs rcnt)) (br + rcnt) s /\
  file_inv s fp' /\ f_err fp' = f_err fp0.
Proof.
  intros [A1 A2 A3 A4 A5] Hlt Hx ss ofs rcnt fp'. pose proof (fv_ready _ _ A2) as Hr.
  pose proof (ready_sizes s Hr) as (_ & Hs & Hc). fold ss in Hs. destruct (A1) as [R1 R2 R3 [R4 R4'] R5 R6 R7 R8].
  pose proof (Z.mod_pos_bound (f_fptr fp) ss ltac:(lia)) as Hofs. fold ofs in Hofs.
  assert (0 < rcnt <= n - br /\ rcnt <= ss - ofs) as [Hrc Hrs] by (unfold rcnt; bdestr; lia).
  assert (u64 (f_fptr fp + rcnt) = p0 + br + rcnt) as Eu by (rewrite R2; apply u64_ptr; lia).
  pose proof (cache_len s fp A2) as Hbl. fold ss in Hbl.
  assert (zlen (sub (f_buf fp) ofs rcnt) = rcnt) as Hsl.
  { unfold zlen, sub in *. rewrite length_take, length_drop. lia. }
  assert (forall j, 0 <= j < ss - ofs -> f_sector s (f_obj fp) (f_fptr fp + j) = f_sect fp /\
    in_file s (f_obj fp) (f_fptr fp + j) /\ (f_fptr fp + j) mod ss = ofs + j) as Hj.
  { intros j Hj. destruct (ofs_same_sector ss (csize (fsys s)) ltac:(lia) Hc (f_fptr fp) j Hj) as (E1 & E2 & E3).
    rewrite Hx. unfold f_sector, in_file, f_cluster, csz_of in A4 |- *. fold ss in A4 |- *. rewrite E1, E2, E3. 
    split_and!; [done|lia|apply A4..|done]. }
  split; [done|]. unfold fp'. rewrite Eu. split; [|split].
  - apply (read_part_next fp rbuff); try done; [lia|lia|by unfold zlen in *; rewrite length_blit by (unfold zlen in *; lia)| | |].
    + apply bytes_blit; [done|]. by apply Forall_take, Forall_drop, A2.
    + intros i Hi. rewrite getb_blit by lia. if_false. done.
    + intros j Hjr. rewrite getb_blit by lia. rewrite Hsl. if_true.
      destruct (Hj j ltac:(lia)) as (J1 & J2 & J3). rewrite R2 in J1, J2, J3. rewrite R1 in J1, J2.
      split; [done|]. rewrite (cache_byte s fp) by (by rewrite ?R1). fold ss. rewrite J3, getb_sub by lia. f_equal. lia.
  - rewrite <- R2. apply file_inv_advance; try done; try lia.
    + rewrite R1, R2. fold obj. lia.
    + fold ss in Hj. replace (f_fptr fp + rcnt - 1) with (f_fptr fp + (rcnt - 1)) by lia.
      apply (ofs_same_sector ss (csize (fsys s))); [lia..|]. unfold ofs in Hrs. lia.
    + fold ss. intros Hm. destruct (decide (rcnt = ss - ofs)) as [E|].
      * exfalso. apply Hm. rewrite E. unfold ofs.
        replace (f_fptr fp + (ss - f_fptr fp mod ss)) with ((f_fptr fp / ss + 1) * ss) by (Z.div_mod_to_equations; lia).
        by apply Z.mod_mul; lia.
      * symmetry. apply Hj. lia.
  - done.
Qed.

(** Whole sectors, straight into the buffer of the caller. *)
Lemma direct_spec fp rbuff br s cc :
  at_byte fp rbuff br s -> let ss := ssize (fsys s) in f_fptr fp mod ss = 0 ->
  0 < cc <= csize (fsys s) - (f_fptr fp / ss) mod csize (fsys s) -> br + ss * cc <= n ->
  let sect := f_sector s (f_obj fp) (f_fptr fp) in
  let fp' := set_f_fptr (u64 (f_fptr fp + ss * cc)) fp in
  post (do_read (drop (Z.to_nat br) rbuff) sect cc) s (fun '(r, b) s' =>
    let rb := take (Z.to_nat br) rbuff ++ b in
    let rb' := if dirty fp && (f_sect fp -u32 sect <? cc)
      then blit rb (br + (f_sect fp -u32 sect) * ss) (take (Z.to_nat ss) (f_buf fp)) else rb in
    read_part fp rb br s' /\
    (r = RES_OK -> read_part fp' rb' (br + ss * cc) s' /\ file_inv s' fp' /\ f_err fp' = f_err fp0)).
Proof.
  intros [A1 A2 A3 A4 A5] ss Hm Hcc Hle sect fp'. pose proof (fv_ready _ _ A2) as Hr.
  pose proof (ready_sizes s Hr) as (_ & Hs & Hc). fold ss in Hs. destruct (A1) as [R1 R2 R3 [R4 R4'] R5 R6 R7 R8].
  pose proof (run_free s fp cc A2 A4 Hm Hcc) as Hfree. fold sect in Hfree.
  pose proof (data_sect_ok s _ Hr (proj1 (proj2 Hfree (sect + cc - 1) ltac:(lia)))) as (Hx & _).
  pose proof (data_sect_ok s _ Hr (proj1 (proj2 Hfree sect ltac:(lia)))) as (Hx0 & _).
  assert (zlen (drop (Z.to_nat br) rbuff) = zlen rbuff - br) as Hd by (unfold zlen in *; rewrite length_drop; lia).
  apply post_data_read; [done|done|fold ss; rewrite Hd; lia|by apply Forall_drop|].
  intros r b s' Es Hr' Hv Hlb Hbb Hb. fold ss in Hb. set (rb := take (Z.to_nat br) rbuff ++ b) in *.
  assert (same_links s s') as Hl by (apply fat_links; [done|by rewrite Es|auto]).
  assert (others s s' (cache_sect fp)) as Ho by (by apply others_same).
  assert (same_data s fp s' fp) as Hsd by (intros x _; by apply f_data_ext).
  assert (zlen b = zlen rbuff - br) as Hlb' by (unfold zlen in *; lia).
  assert (zlen rb = zlen rbuff) as Hlr by (unfold rb, zlen in *; rewrite length_app, length_take; lia).
  assert (bytes rb) as Hbr by (apply Forall_app; split; [by apply Forall_take|done]).
  assert (forall i, 0 <= i -> rb.[i] = if i <? br then rbuff.[i] else b.[i - br]) as Hrb by (intros i Hi; apply getb_after; lia).
  assert (read_part fp rb br s') as Hpart.
  { destruct (read_part_state fp rbuff br s fp s' A1) as [Q1 Q2 Q3 Q4 Q5 Q6 Q7 Q8]; [done..|].
    split; try done; [split; [congruence|done]|]. intros i Hi. rewrite Hrb by lia. if_true. by apply Q5. }
  split; [done|]. intros ->. specialize (Hb eq_refl).
  assert (u64 (f_fptr fp + ss * cc) = p0 + br + ss * cc) as Eu by (rewrite R2; apply u64_ptr; lia).
  assert (file_base s' fp) as Hf' by (apply (file_base_links s); [done..|apply Ho|auto]).
  destruct (overlay_cache s fp rb br sect cc A2) as (O1 & O2 & O3 & O4); [lia..|fold ss; lia|done| |].
  { intros j Hj. rewrite Hrb by lia. if_false. replace (br + j - br) with j by lia. fold ss. rewrite Hb by lia. by if_true. }
  fold ss in O1, O2, O3, O4. split; [|split; [|done]]; unfold fp'; rewrite Eu.
  - apply (read_part_next fp rb br s'); try done; [lia|]. intros j Hj.
    destruct (run_sector s (f_obj fp) (f_fptr fp) j Hr A4 Hm ltac:(fold ss; nia)) as (E1 & E2 & E3 & _).
    rewrite R2 in E1, E2, E3. rewrite R1 in E1, E2. rewrite (links_in_file s) by done. split; [done|].
    rewrite O4 by lia. unfold f_byte. rewrite R1, (links_sector s) by done. rewrite E1, Es, E3.
    fold ss. unfold sect. rewrite R1, R2. symmetry. f_equal. by apply f_data_ext.
  - rewrite <- R2. assert (ssize (fsys s') = ss) as Ez by (by rewrite Es). rewrite <- Ez.
    apply direct_inv; rewrite ?Ez, ?Es; try done; [by apply (links_in_file s)|by rewrite (links_cluster s)|lia|].
    rewrite R1, R2. fold obj. lia.
Qed.

Definition read_inv (st : FIL * list Z * Z * Z) (k : Z) s : Prop :=
  let '(fp, rbuff, br, btr) := st in
  read_part fp rbuff br s /\ file_inv s fp /\ f_err fp = f_err fp0 /\ btr = n - br /\ k = btr.

Definition read_result (st : FRESULT * FIL * list Z * Z) s : Prop :=
  let '(r, fp, rbuff, br) := st in read_post r fp rbuff br s.

Definition read_round (r : FIL * list Z * Z * Z + FRESULT * FIL * list Z * Z) (k : Z) s : Prop :=
  match r with inl st => exists k', 0 <= k' < k /\ read_inv st k' s | inr st => read_result st s end.

(** The transfer at a byte whose cluster is known. *)
Lemma read_abort fp fp' rbuff br s e :
  read_part fp rbuff br s -> f_obj fp' = f_obj fp -> f_fptr fp' = f_fptr fp ->
  dirty fp' = dirty fp -> f_sect fp' = f_sect fp -> f_buf fp' = f_buf fp ->
  e = FR_INT_ERR /\ ~ in_file s0 obj (p0 + br) \/ e = FR_DISK_ERR ->
  read_result (e, set_f_err e fp', rbuff, br) s.
Proof. intros Hp E1 E2 E3 E4 E5 He. split; [by eapply read_part_fil|]. right. by split. Qed.

Lemma read_more fp rbuff br rcnt s :
  0 < rcnt <= n - br -> read_part fp rbuff (br + rcnt) s -> file_inv s fp -> f_err fp = f_err fp0 ->
  read_round (inl (fp, rbuff, br + rcnt, n - br - rcnt)) (n - br) s.
Proof. intros Hr Hp Hf He. exists (n - br - rcnt). split; [lia|]. split_and!; try done; lia. Qed.

(** Bytes of the cached sector end a round. *)
Lemma extract_round fp rbuff br s :
  at_byte fp rbuff br s -> br < n -> f_sect fp = f_sector s (f_obj fp) (f_fptr fp) ->
  read_round (inl (read_extract (ssize (fsys s)) fp rbuff br (n - br))) (n - br) s.
Proof.
  intros Hat Hlt Hx. destruct (extract_spec fp rbuff br s Hat Hlt Hx) as (X1 & X2 & X3 & X4). by apply read_more.
Qed.

Lemma load_round fp rbuff br s sect :
  at_byte fp rbuff br s -> br < n -> sect = f_sector s (f_obj fp) (f_fptr fp) ->
  post ('(res, fp) ← (if negb (f_sect fp =? sect) then load_buf fp sect else mret (FR_OK, fp));
        if negb (fr_ok res) then mret (inr (res, set_f_err res fp, rbuff, br)) else
        mret (inl (read_extract (ssize (fsys s)) (set_f_sect sect fp) rbuff br (n - br)))) s
    (fun r s' => read_round r (n - br) s').
Proof.
  intros Hat Hlt Hsect. destruct (Hat) as [A1 A2 A3 A4 A5]. pose proof (fv_ready _ _ A2) as Hr.
  assert (data_sect (fsys s) sect) as Hds by (subst sect; by apply f_sector_data).
  assert (winsect (fsys s) <> sect) as Hw by (subst sect; by apply (fv_apart _ _ A2)).
  mstep. bdestr.
  2:{ mstep. cbn [fr_ok negb]. mstep. assert (set_f_sect sect fp = fp) as -> by (rewrite <- Hb; by destruct fp).
      apply extract_round; [done..|]. congruence. }
  eapply post_mono; [by apply load_buf_spec|]. intros [r fp1] s1 (E1 & Ho & Hsd & Eo & Ep & Hcs & Hres).
  assert (read_part fp1 rbuff br s1) as Hp1 by (by eapply read_part_state).
  destruct Hres as [(-> & [b Hb1] & Hsd' & Hf1)| ->]; cbn [fr_ok negb]; mstep.
  2:{ by apply (read_abort fp1); [..|right]. }
  rewrite <- E1. assert (same_links s s1) as Hl by apply Ho.
  assert (f_clust fp1 = f_clust fp /\ f_err fp1 = f_err fp /\ dirty fp1 = false) as (Ec & Ee & Ed).
  { subst fp1. split_and!; [unfold clean_fil; by case_match..|apply clean_fil_dirty]. }
  apply extract_round; [|done|cbn; by rewrite Eo, Ep, (links_sector s)]. split; cbn; try done.
  - eapply read_part_state; [apply A1|done..|]. cbn. intros y [Hy _]. unfold dirty in *. cbn in Hy. congruence.
  - congruence.
  - rewrite Eo, Ep. by apply (links_in_file s).
  - by rewrite Eo, Ep, Ec, (links_cluster s).
Qed.

(** The transfer at the sector of the pointer. *)
Lemma read_sect_spec fs fp rbuff br s :
  at_byte fp rbuff br s -> br < n -> core fs = core (fsys s) -> f_fptr fp mod ssize fs = 0 ->
  post (read_sect fs fp rbuff br (n - br) ((f_fptr fp / ssize fs) mod csize fs) (f_sector s (f_obj fp) (f_fptr fp)))
    s (fun r s' => read_round r (n - br) s').
Proof.
  intros Hat Hlt Hc Hm. destruct (Hat) as [A1 A2 A3 A4 A5]. unfold read_sect.
  assert (ssize fs = ssize (fsys s)) as Ess by exact (f_equal ssize Hc).
  assert (csize fs = csize (fsys s)) as Ecs by exact (f_equal csize Hc). rewrite Ess, Ecs in *.
  set (ss := ssize (fsys s)) in *. set (csect := (f_fptr fp / ss) mod csize (fsys s)).
  pose proof (fv_ready _ _ A2) as Hr. pose proof (ready_sizes s Hr) as (_ & Hs & Hcs). fold ss in Hs.
  assert (0 <= csect < csize (fsys s)) as Hcsect by (apply Z.mod_pos_bound; lia).
  assert (ss * ((n - br) / ss) <= n - br) as Hdiv by (apply Z.mul_div_le; lia).
  cbn zeta. mstep; [|by apply load_round].
  set (cc := if csize (fsys s) <? csect + (n - br) / ss then csize (fsys s) - csect else (n - br) / ss).
  assert (0 < cc <= csize (fsys s) - csect /\ cc <= (n - br) / ss) as [Hcc Hcc'] by (unfold cc; bdestr; lia).
  assert (0 < ss * cc <= n - br) as Hscc by nia.
  mstep. eapply post_mono; [apply (direct_spec fp rbuff br s cc Hat); [done|done|fold ss; lia]|].
  intros [r b] s' [P1 P2]. destruct r; cbn [res_ok negb].
  2-5: mstep; by apply (read_abort fp); [..|right].
  mstep. destruct (P2 eq_refl) as (Q1 & Q2 & Q3). by apply read_more.
Qed.

Lemma f_read_step_spec st k s : read_inv st k s -> post (f_read_step st) s (fun r s' => read_round r k s').
Proof.
  destruct st as [[[fp rbuff] br] btr]. intros (Hpart & Hf & He & -> & ->).
  pose proof (fv_base _ _ Hf) as Hbase. pose proof (fv_ready _ _ Hbase) as Hr.
  pose proof (ready_sizes s Hr) as (_ & Hs & Hcs). destruct (Hpart) as [R1 R2 R3 R4 R5 R6 R7 R8].
  unfold f_read_step, get_fs. mstep.
  { mstep. split; [done|]. left. split_and!; [done|lia|done|done]. }
  mstep. apply post_gets. cbn zeta. bdestr.
  2:{ destruct (decide (f_fptr fp = 0)) as [E|Hne]; [by rewrite E, Z.mod_0_l in Hb0 by lia|].
      destruct (fv_clust _ _ Hf ltac:(lia)) as [Hin Hc].
      assert ((f_fptr fp - 1) / csz_of (fsys s) = f_fptr fp / csz_of (fsys s)) as Eq by (apply ofs_pred; [lia..|by left]).
      mstep. apply extract_round; [|lia|by apply Hf].
      split; try done; unfold in_file, f_cluster in *; rewrite <- Eq; [split; [lia|apply Hin]|done]. }
  mstep. eapply post_mono; [by apply read_clust_spec|]. intros [r fp1] s1 (Hr1 & Hv1 & Ht1 & Hcase).
  assert (others s s1 (cache_sect fp)) as Ho by (by apply others_vol_eq). assert (same_links s s1) as Hl by apply Ho.
  assert (same_data s fp s1 fp) as Hsd.
  { intros x Hx. apply f_data_ext; [done|]. pose proof (data_sect_ok s x Hr Hx) as (? & ? & _). symmetry. apply Hv1; [lia|done]. }
  assert (read_part fp rbuff br s1) as Hp1 by (by eapply read_part_state).
  rewrite R1, R2 in Hcase. destruct Hcase as [(-> & -> & Hc2)|(-> & He')]; cbn [fr_ok negb].
  2:{ assert (in_file s0 obj (p0 + br) <-> in_file s obj (p0 + br)) as Hiff by (symmetry; apply links_in_file, R6).
      destruct He' as [[-> Hni]| ->]; cbn [fr_ok negb]; mstep; apply (read_abort fp); try done; [left|by right].
      split; [done|]. by rewrite Hiff. }
  cbn [f_clust set_f_clust]. set (c := f_cluster s obj (p0 + br)) in *.
  destruct (decide (in_file s obj (p0 + br))) as [Hin|Hni].
  2:{ rewrite clst2sect_invalid; [|pose proof (ents_u32 _ (fi_fat s (fr_inv s Hr))); lia|apply cluster_u32; [done|by rewrite <- R1; apply Hbase]|].
      2:{ unfold in_file in Hni. fold c in Hni. lia. }
      cbn [Z.eqb]. mstep.
      apply (read_abort fp); try done. left. split; [done|]. by rewrite <- (links_in_file s0 s) by apply R6. }
  destruct (f_sector_clst2sect s obj (p0 + br) Hr Hin) as [Hx1 Hx2]. fold c in Hx1, Hx2.
  rewrite (proj2 (Z.eqb_neq _ _)) by done. rewrite csect_mod by done. cbn [f_fptr set_f_clust]. rewrite R2 in *. rewrite Hx2.
  assert (f_sector s obj (p0 + br) = f_sector s1 (f_obj (set_f_clust c fp)) (f_fptr (set_f_clust c fp))) as ->.
  { cbn. rewrite R1, R2. symmetry. by apply links_sector. }
  rewrite <- R2. change (f_fptr fp) with (f_fptr (set_f_clust c fp)) at 1.
  apply read_sect_spec; [|lia|apply Hv1|cbn; by rewrite R2]. split; cbn; try done.
  - by eapply read_part_fil.
  - assert (file_base s1 fp) as []; [|by split]. apply (file_base_links s); try done. intros Hne _.
    destruct (fv_cache _ _ Hbase) as [[? _]|Hd]; [done|]. pose proof (data_sect_ok s _ Hr Hd) as (? & ? & _).
    symmetry. apply Hv1; [lia|done].
  - rewrite R1, R2. by apply (links_in_file s).
  - rewrite R1, R2. unfold c. symmetry. by apply links_cluster.
Qed.
End loop.

Section read.
Context {D : Type} `{BlockDeviceLaws D} `{!Heap}.
Implicit Types s : St D.

Lemma validate_open s fp (Q : FRESULT -> St D -> Prop) :
  file_inv s fp -> Q FR_OK s -> post (validate (f_obj fp) (f_fs fp)) s Q.
Proof.
  intros Hf HQ. destruct (fv_valid _ _ (fv_base _ _ Hf)) as [V1 V2]. unfold validate, get_fs. mstep. apply post_gets. mstep.
  pose proof (fg_type _ (fi_fat _ (fr_inv _ (fv_ready _ _ (fv_base _ _ Hf))))) as Ht.
  rewrite V1, V2, Z.eqb_refl, (proj2 (Z.eqb_neq _ 0)) by lia. done.
Qed.

(** C2: reading an open file on a FAT volume returns, on any FAT and with
    any pattern of disk errors.  The bytes delivered are those of the content of the file
    from its pointer on, as many as asked for or as the file has left unless an error is
    reported; an error other than one of the disk means that the chain of the file ends
    before its size.  The pointer advances by the number of bytes delivered, the content
    of the file and the links of the FAT stay, and no sector changes but the one the file
    object had to write back. *)
Theorem f_read_content s fp buff btr :
  file_inv s fp -> f_err fp = FR_OK -> has (f_flag fp) FA_READ = true ->
  0 <= btr < 2 ^ 32 -> btr <= zlen buff -> bytes buff ->
  let n := Z.min btr (objsize (f_obj fp) - f_fptr fp) in
  post (f_read fp buff btr) s (fun '(r, fp', buff', br) s' =>
    (r = FR_OK /\ br = n /\ file_inv s' fp' /\ f_err fp' = FR_OK \/
     f_err fp' = r /\ (r = FR_INT_ERR /\ ~ in_file s (f_obj fp) (f_fptr fp + br) \/ r = FR_DISK_ERR)) /\
    0 <= br <= n /\ f_fptr fp' = f_fptr fp + br /\ f_obj fp' = f_obj fp /\ zlen buff' = zlen buff /\
    (forall i, 0 <= i < br -> buff'.[i] = f_byte s fp (f_fptr fp + i)) /\
    (forall i, in_file s (f_obj fp) i -> f_byte s' fp' i = f_byte s fp i) /\
    others s s' (cache_sect fp)).
Proof.
  intros Hf He Hfl Hbtr Hl Hb n. destruct (fv_size _ _ Hf) as [Hp Hsz]. pose proof (fv_ready _ _ (fv_base _ _ Hf)) as Hr.
  unfold f_read. mstep. apply validate_open; [done|]. cbn [fr_ok negb]. rewrite He. cbn [fr_ok negb]. rewrite Hfl. cbn [negb].
  assert ((if u64 (objsize (f_obj fp) - f_fptr fp) <? btr then u32 (u64 (objsize (f_obj fp) - f_fptr fp)) else btr) = n) as ->.
  { rewrite u64_ptr by lia. rewrite u32_small by (unfold is_u32; lia). unfold n. bdestr; lia. }
  assert (read_inv s fp buff n (fp, buff, 0, n) n s) as Hinv.
  { split_and!; try done; [|lia]. split; try done; try lia. }
  eapply post_mono.
  { eapply (post_iterate f_read_step (read_inv s fp buff n) (read_result s fp buff n)); [|exact Hinv|lia].
    intros st k s1 H1'. apply f_read_step_spec; try done; [unfold n; lia|lia|lia]. }
  intros [[[r fp'] buff'] br] s' [[R1 R2 R3 R4 R5 R6 R7 R8] Hres]. rewrite He in Hres.
  split_and!; try done; try apply R4; try lia.
  - intros i Hi. by apply R5.
  - intros i Hi. apply same_data_byte; [done|apply R6|done..].
Qed.
End read.
