(* ===== verification/FileWrite.v ===== *)
(** * Writing files

    [f_write] refines writing to the abstract content of the file, on a file whose chain
    is well formed: the bytes at the pointer are replaced, the others stay, the chain
    grows by clusters that were free, and nothing that belongs to other files changes. *)

From stdpp Require Import prelude list.
From Stdlib Require Import ZArith Lia.
From S2P Require Import Prelude Bytes Diskio FFTypes Window Fat Bitmap Chain Track Lfn Dir Dirent Mount File FileData FileRead.

Local Open Scope Z_scope.
Local Open Scope cint_scope.

(** ** The clusters of a file *)

Lemma path_link e e' c l z : path e c l z -> (forall x, x ∈ l -> e' x = e x) -> link e' (zlen l) c = z.
Proof.
  unfold link, zlen. rewrite Nat2Z.id. revert c. induction l as [|x l IH]; intros c Hp He; [done|].
  destruct Hp as [-> Hp]. cbn [length]. rewrite Nat.iter_succ_r, He by set_solver. apply IH; [done|set_solver].
Qed.

Section clusters.
Context {D : Type} `{BlockDeviceLaws D}.
Implicit Types s : St D.

Abbreviation nent s := (n_fatent (fsys s)).
Abbreviation csz s := (csz_of (fsys s)).

(** The clusters of an object: a well-formed chain, or none. *)
Definition file_chain s (obj : FFOBJID) (l : list Z) : Prop :=
  l = [] /\ sclust obj = 0 \/ l <> [] /\ chain (fat_entry s) (nent s) (sclust obj) l.

(** The sectors of the clusters [l]. *)
Definition file_sect (fs : FATFS) (l : list Z) (y : Z) : Prop :=
  exists c, c ∈ l /\ 0 <= y - database fs - csize fs * (c - 2) < csize fs.

Lemma file_chain_range s obj l : file_chain s obj l -> Forall (fun x => 2 <= x < nent s) l.
Proof. intros [[-> _]|[_ [Hr _]]]; [constructor|done]. Qed.

Lemma file_chain_nodup s obj l : file_chain s obj l -> NoDup l.
Proof. intros [[-> _]|[_ Hc]]; [constructor|by eapply chain_no_dup]. Qed.

Lemma csz_pos s : fat_ready s -> 0 < csz s.
Proof. intros Hr. pose proof (ready_sizes s Hr). unfold csz_of. nia. Qed.

Lemma chain_link s obj l k x :
  file_chain s obj l -> l !! k = Some x -> link (follow s) (Z.of_nat k) (sclust obj) = x.
Proof.
  intros Hc Hk. pose proof (file_chain_range _ _ _ Hc) as Hr. destruct Hc as [[-> _]|[_ [_ (z & _ & Hp)]]]; [done|].
  destruct (path_lookup _ _ _ _ _ _ Hp Hk) as [Ht _].
  apply (path_link _ (follow s)) in Ht.
  - unfold zlen in Ht. rewrite length_take, Nat.min_l in Ht by (apply lookup_lt_Some in Hk; lia). done.
  - intros y Hy. apply follow_in. rewrite Forall_forall in Hr. apply Hr. by apply elem_of_take in Hy as (i & Hi & _); eapply list_elem_of_lookup_2.
Qed.

Lemma chain_end s obj l :
  file_chain s obj l -> ~ 2 <= link (follow s) (zlen l) (sclust obj) < nent s.
Proof.
  intros Hc. pose proof (file_chain_range _ _ _ Hc) as Hr. destruct Hc as [[-> E]|[_ [_ (z & Hz & Hp)]]].
  - change (link _ _ _) with (sclust obj). lia.
  - rewrite (path_link _ _ _ _ _ Hp); [lia|]. intros y Hy. apply follow_in. rewrite Forall_forall in Hr. by apply Hr.
Qed.

Lemma chain_in_file s obj l i : fat_ready s -> file_chain s obj l -> in_file s obj i <-> 0 <= i < zlen l * csz s.
Proof.
  intros Hr Hc. pose proof (csz_pos s Hr) as Hz. unfold in_file, f_cluster. split.
  - intros [Hi Hin]. split; [done|]. destruct (decide (i < zlen l * csz s)) as [|Hn]; [done|exfalso].
    apply (link_stuck s (zlen l) (i / csz s) (sclust obj)); [|by apply chain_end|done].
    split; [unfold zlen; lia|]. apply Z.div_le_lower_bound; lia.
  - intros Hi. split; [lia|]. assert (0 <= i / csz s < zlen l) as Hk.
    { split; [apply Z.div_pos; lia|apply Z.div_lt_upper_bound; lia]. }
    destruct (lookup_lt_is_Some_2 l (Z.to_nat (i / csz s))) as [x Hx]; [unfold zlen in Hk; lia|].
    pose proof (chain_link _ _ _ _ _ Hc Hx) as E. rewrite Z2Nat.id in E by lia. rewrite E.
    pose proof (file_chain_range _ _ _ Hc) as HR. rewrite Forall_forall in HR. apply HR. by eapply list_elem_of_lookup_2.
Qed.

Lemma chain_cluster s obj l i :
  fat_ready s -> file_chain s obj l -> in_file s obj i -> l !! Z.to_nat (i / csz s) = Some (f_cluster s obj i).
Proof.
  intros Hr Hc Hi. apply (chain_in_file s obj l) in Hi; [|done..]. pose proof (csz_pos s Hr) as Hz.
  assert (0 <= i / csz s < zlen l) as Hk by (split; [apply Z.div_pos; lia|apply Z.div_lt_upper_bound; lia]).
  destruct (lookup_lt_is_Some_2 l (Z.to_nat (i / csz s))) as [x Hx]; [unfold zlen in Hk; lia|].
  pose proof (chain_link _ _ _ _ _ Hc Hx) as E. rewrite Z2Nat.id in E by lia. unfold f_cluster. by rewrite Hx, E.
Qed.

Lemma f_sector_file s obj l i :
  fat_ready s -> file_chain s obj l -> in_file s obj i -> file_sect (fsys s) l (f_sector s obj i).
Proof.
  intros Hr Hc Hi. pose proof (ready_sizes s Hr) as (_ & _ & Hcs). exists (f_cluster s obj i). split.
  - eapply list_elem_of_lookup_2. by apply chain_cluster.
  - unfold f_sector. pose proof (Z.mod_pos_bound (i / ssize (fsys s)) (csize (fsys s)) Hcs). lia.
Qed.

(** Different sectors of a file are different sectors of the volume. *)
Lemma f_sector_inj s obj l i j :
  fat_ready s -> file_chain s obj l -> in_file s obj i -> in_file s obj j ->
  f_sector s obj i = f_sector s obj j -> i / ssize (fsys s) = j / ssize (fsys s).
Proof.
  intros Hr Hc Hi Hj E. pose proof (ready_sizes s Hr) as (_ & Hs & Hcs). pose proof (csz_pos s Hr) as Hz.
  pose proof (chain_cluster _ _ _ _ Hr Hc Hi) as Li. pose proof (chain_cluster _ _ _ _ Hr Hc Hj) as Lj.
  unfold f_sector in E. pose proof (Z.mod_pos_bound (i / ssize (fsys s)) (csize (fsys s)) Hcs).
  pose proof (Z.mod_pos_bound (j / ssize (fsys s)) (csize (fsys s)) Hcs).
  assert (f_cluster s obj i = f_cluster s obj j) as Ec by nia. rewrite Ec in Li, E.
  pose proof (NoDup_lookup _ _ _ _ (file_chain_nodup _ _ _ Hc) Li Lj) as Eq.
  destruct Hi as [Hi _], Hj as [Hj _]. pose proof (Z.div_pos i (csz s)). pose proof (Z.div_pos j (csz s)).
  assert (i / csz s = j / csz s) as Eq' by lia. unfold csz_of in Eq'.
  rewrite (Z.mul_comm (csize _)), <- !Z.div_div in Eq' by lia.
  rewrite (Z.div_mod (i / ssize (fsys s)) (csize (fsys s))), (Z.div_mod (j / ssize (fsys s)) (csize (fsys s))) by lia. lia.
Qed.
End clusters.

(** ** The frame of a write *)

Section frame.
Context {D : Type} `{BlockDeviceLaws D}.
Implicit Types s : St D.

Abbreviation nent s := (n_fatent (fsys s)).

Definition fat_sect (fs : FATFS) (y : Z) : Prop := fatbase fs <= y < fatbase fs + fsize fs.

(** From [s0] and the clusters [l0] to [s] and the clusters [l]: the new clusters were
    free, the entries of other files and the sectors outside the FAT and the file are the
    same. *)
Record write_frame s0 (l0 : list Z) s (l : list Z) : Prop := {
  wf_geo : geo (fsys s0) = geo (fsys s);
  wf_new : exists k, l = l0 ++ k /\ Forall (fun c => 2 <= c < nent s0 /\ fat_entry s0 c = 0) k;
  wf_fat : forall x, 2 <= x < nent s0 -> x ∉ l0 -> fat_entry s0 x <> 0 -> fat_entry s x = fat_entry s0 x;
  wf_vol : forall y, 0 <= y -> ~ mirror (fsys s0) y -> ~ fat_sect (fsys s0) y -> ~ file_sect (fsys s0) l y ->
    vol s y = vol s0 y
}.

Lemma frame_refl s l : write_frame s l s l.
Proof. split; try done. exists []. split; [by rewrite app_nil_r|constructor]. Qed.

Lemma geo_file_sect fs fs' l y : geo fs = geo fs' -> file_sect fs l y <-> file_sect fs' l y.
Proof. intros Hg. unfold file_sect. by geo_rewrite Hg. Qed.

Lemma file_sect_app fs l k y : file_sect fs l y -> file_sect fs (l ++ k) y.
Proof. intros (c & Hc & Hy). exists c. split; [set_solver|done]. Qed.

(** Transfers to sectors of the file. *)
Lemma frame_others s0 l0 s l s' (P : Z -> Prop) :
  write_frame s0 l0 s l -> others s s' P -> (forall y, P y -> file_sect (fsys s) l y) -> write_frame s0 l0 s' l.
Proof.
  intros [W1 W2 W3 W4] ([Hg Hl] & _ & Hv) HP. split; [congruence|done| |].
  - intros x Hx Hn He. rewrite <- W3 by done. assert (nent s0 = nent s) as E by exact (f_equal n_fatent W1).
    specialize (Hl x). rewrite !follow_in in Hl; [done|lia|]. assert (nent s = nent s') by exact (f_equal n_fatent Hg). lia.
  - intros y Hy Hm Hf Hl'. rewrite <- W4 by done. apply Hv; [done| |].
    + by rewrite <- (geo_mirror _ _ y W1).
    + intros Hp. by apply Hl', (geo_file_sect _ _ l y W1), HP.
Qed.

(** A step on the FAT that keeps what others have, and adds clusters that are free. *)
Lemma frame_fat s0 l0 s l s' k :
  write_frame s0 l0 s l -> fat_only s s' -> Forall (fun x => 2 <= x < nent s) l ->
  (forall x, x ∈ l -> fat_entry s x <> 0) ->
  (forall x, 2 <= x < nent s -> x ∉ l -> fat_entry s x <> 0 -> fat_entry s' x = fat_entry s x) ->
  Forall (fun c => 2 <= c < nent s /\ fat_entry s c = 0) k -> write_frame s0 l0 s' (l ++ k).
Proof.
  intros [W1 (k0 & -> & Hk0) W3 W4] [Hg Hv] Hr Hnz He Hk. assert (nent s0 = nent s) as En by exact (f_equal n_fatent W1).
  split; [congruence| | |].
  - exists (k0 ++ k). rewrite app_assoc. split; [done|]. apply Forall_app. split; [done|].
    rewrite Forall_forall in Hk |- *. intros c Hc. destruct (Hk c Hc) as [Hc1 Hc2]. split; [lia|].
    destruct (decide (fat_entry s0 c = 0)) as [|Hn]; [done|exfalso].
    assert (c ∉ l0) as Hl0 by (intros Hi; apply (Hnz c); [set_solver|done]). apply Hn. rewrite <- W3 by (done || lia). done.
  - intros x Hx Hn Hx0. rewrite <- W3 by done. apply He; [lia| |by rewrite W3].
    rewrite not_elem_of_app. split; [done|]. intros Hi. rewrite Forall_forall in Hk0. by apply Hk0 in Hi as [_ Hi].
  - intros y Hy Hm Hf Hl. rewrite <- W4 by (try done; intros Hl'; by apply Hl, file_sect_app).
    apply Hv; [done|by rewrite <- (geo_mirror _ _ y W1)|]. unfold fat_sect in Hf.
    assert (fatbase (fsys s0) = fatbase (fsys s)) as <- by exact (f_equal fatbase W1).
    assert (fsize (fsys s0) = fsize (fsys s)) as <- by exact (f_equal fsize W1). done.
Qed.
End frame.

(** ** The cluster of the pointer *)

Section alloc.
Context {D : Type} `{BlockDeviceLaws D} `{!Heap}.
Implicit Types s : St D.

Abbreviation nent s := (n_fatent (fsys s)).
Abbreviation csz s := (csz_of (fsys s)).

Definition hints_ok s : Prop := is_u32 (last_clst (fsys s)) /\ is_u32 (free_clst (fsys s)).

Definition no_space s : Prop := free_clst (fsys s) = 0 \/ full s.

(** The object with its first cluster. *)
Definition started (v : Z) (obj : FFOBJID) : FFOBJID := if sclust obj =? 0 then set_sclust v obj else obj.

Lemma chain_nonzero s obj l x : file_chain s obj l -> x ∈ l -> fat_entry s x <> 0.
Proof. intros [[-> _]|[_ Hc]] Hx; [by apply not_elem_of_nil in Hx|]. pose proof (chain_entries _ _ _ _ _ Hc Hx). lia. Qed.

Lemma chain_start s obj l : file_chain s obj l -> sclust obj <> 0 -> l !! 0%nat = Some (sclust obj).
Proof. intros [[-> ?]|[Hl [_ (z & _ & Hp)]]] Hn; [done|]. destruct l as [|x l]; [done|]. by destruct Hp as [-> _]. Qed.

Lemma chain_unstarted s obj l : file_chain s obj l -> sclust obj = 0 -> l = [].
Proof.
  intros Hc E. destruct (decide (l = [])) as [|Hl]; [done|exfalso]. pose proof (file_chain_range _ _ _ Hc) as Hr.
  destruct Hc as [[? _]|[_ [_ (z & _ & Hp)]]]; [done|]. destruct l as [|x l]; [done|]. destruct Hp as [-> _].
  apply Forall_cons in Hr as [? _]. lia.
Qed.

Lemma file_chain_same s s' obj l :
  geo (fsys s) = geo (fsys s') -> (forall x, 2 <= x < nent s -> fat_entry s' x = fat_entry s x) ->
  file_chain s obj l -> file_chain s' obj l.
Proof.
  intros Hg He Hc. pose proof (file_chain_range _ _ _ Hc) as Hr. destruct Hc as [?|[Hl [_ (z & Hz & Hp)]]]; [by left|right].
  split; [done|]. assert (nent s' = nent s) as En by (symmetry; exact (f_equal n_fatent Hg)).
  rewrite En. split; [done|]. exists z. split; [done|]. eapply path_ext; [done|]. intros x Hx.
  rewrite Forall_forall in Hr. apply He. apply Hr in Hx. lia.
Qed.

Lemma links_entries s s' x : same_links s s' -> 2 <= x < nent s -> fat_entry s' x = fat_entry s x.
Proof.
  intros [Hg Hl] Hx. specialize (Hl x). assert (nent s' = nent s) as En by (symmetry; exact (f_equal n_fatent Hg)).
  by rewrite !follow_in in Hl by lia.
Qed.

(** The window on the FAT is apart from every file. *)
Lemma on_fat_apart s s' obj x :
  fat_ready s -> fat_ready s' -> geo (fsys s) = geo (fsys s') -> on_fat s s' -> x = 0 \/ data_sect (fsys s) x -> apart s' obj x.
Proof.
  intros Hr Hr' Hg Ho Hx. specialize (Ho (ready_state s Hr)).
  assert (forall y, data_sect (fsys s) y -> winsect (fsys s') <> y) as Hk.
  { intros y Hy E. pose proof (data_sect_ok s y Hr Hy). lia. }
  split.
  - intros Hne. destruct Hx as [->|Hx]; [done|by apply Hk].
  - intros i Hi. apply Hk. apply f_sector_data in Hi; [|done]. unfold data_sect in *. by geo_rewrite Hg.
Qed.

(** What a step to the next cluster leaves. *)
Record clust_step s (l : list Z) (s' : St D) : Prop := {
  cs_ready : fat_ready s';
  cs_hints : hints_ok s';
  cs_only : fat_only s s';
  cs_tracks : tracks s s';
  cs_fat : forall x, 2 <= x < nent s -> x ∉ l -> fat_entry s x <> 0 -> fat_entry s' x = fat_entry s x
}.

Lemma create_step s fp l clst :
  fat_ready s -> hints_ok s -> file_chain s (f_obj fp) l -> clst = 0 \/ clst ∈ l ->
  post (create_chain (f_obj fp) clst) s (fun '(v, obj) s' => obj = f_obj fp /\ clust_step s l s' /\
    (no_cluster v /\ (v = 0 -> same_entries s s' /\ no_space s') \/
     2 <= v < nent s /\ on_fat s s' /\
     (clst <> 0 /\ v = fat_entry s clst /\ same_entries s s' \/
      fat_entry s v = 0 /\ stretchable s clst /\ forall x, 0 <= x < nent s -> fat_entry s' x = linked s clst v x))).
Proof.
  intros Hr [Hh1 Hh2] Hc Hin. eapply post_mono.
  { apply post_holds; [apply post_holds; [by apply create_chain_spec; try apply Hr|apply create_chain_tracking]|].
    apply create_chain_on, Hr. }
  intros [v obj] s' [[[-> (Hi' & Hf & Hcase)] Ht] Hon]. cbn [fst] in Hon. split; [done|].
  assert (geo (fsys s) = geo (fsys s')) as Hg by apply Hf.
  assert (hints_ok s') as Hh'.
  { unfold hints_ok. destruct Hcase as [[[-> ->] _]|(Hv & _ & _ & Hz & _ & -> & ->)]; [done|].
    pose proof (ents_u32 _ (fi_fat _ (fr_inv s Hr))). unfold is_u32 in *. split; [lia|]. bdestr; lia. }
  assert (fat_ready s') as Hr'.
  { split; [done|by eapply vol_geom_geo, Hr|]. rewrite (fat_only_type s s' Hf). apply Hr. }
  assert (clst <> 0 -> clst ∈ l) as Hin' by tauto. pose proof (chain_nonzero s _ l clst Hc) as Hnz.
  split; [split; try done|].
  - intros x Hx Hxl Hx0. assert (x <> clst) as Hxc by (intros ->; apply Hxl, Hin'; lia).
    destruct Hcase as [[_ [[_ He]|[[_ He]|[(_ & He & _)|(_ & _ & _ & He)]]]]|(Hv & Hv0 & _ & _ & He & _)]; try (apply He; lia || done).
    rewrite He by lia. unfold linked. rewrite (proj2 (Z.eqb_neq x v)), (proj2 (Z.eqb_neq x clst)) by congruence. by rewrite andb_false_r.
  - destruct Hcase as [[[Hfree _] [[-> _]|[[-> _]|[(-> & He & Hs)|(Hne & Hv & Hvr & He)]]]]|(Hv & Hv0 & Hst & _ & He & _)].
    1-3: left; unfold no_cluster; split; [tauto|]; intros Hv; try discriminate Hv.
    + split; [done|]. unfold no_space, full. rewrite Hfree, (fat_only_ents s s' Hf). destruct Hs as [?|Hs]; [by left|right].
      intros x Hx. rewrite He by lia. by apply Hs.
    + right. unfold no_cluster, DISK_ERR in Hon. destruct Hon as [|Hon]; [exfalso|split_and!; try tauto].
      pose proof (ents_u32 _ (fi_fat _ (fr_inv s Hr))). lia.
    + right. unfold no_cluster, DISK_ERR in Hon. destruct Hon as [|Hon]; [exfalso|split_and!; try tauto].
      pose proof (ents_u32 _ (fi_fat _ (fr_inv s Hr))). lia.
Qed.

(** The chain with a new cluster. *)
Lemma chain_grow s s' obj l clst v :
  fat_ready s -> geo (fsys s) = geo (fsys s') -> 2 <= v < nent s -> fat_entry s v = 0 ->
  (forall x, 0 <= x < nent s -> fat_entry s' x = linked s clst v x) -> file_chain s obj l ->
  clst = 0 /\ l = [] \/ (exists l1, l = l1 ++ [clst]) /\ clst <> 0 ->
  file_chain s' (started v obj) (l ++ [v]).
Proof.
  intros Hr Hg Hv Hv0 He Hc Hcl. assert (nent s' = nent s) as En by (symmetry; exact (f_equal n_fatent Hg)).
  right. split; [by destruct l|]. rewrite En. destruct Hcl as [[-> ->]|[[l1 ->] Hn]].
  - destruct Hc as [[_ E]|[? _]]; [|done]. unfold started. rewrite E. cbn. split; [by repeat constructor; apply Hv|].
    exists (0xFFFFFFFF mod fat_mask (fsys s)). split; [apply eoc_mark, Hr|]. split; [done|]. rewrite He by lia.
    unfold linked. by rewrite Z.eqb_refl.
  - assert (sclust obj <> 0) as Hs.
    { intros E. apply (chain_unstarted _ _ _ Hc) in E. by destruct l1. }
    destruct Hc as [[? _]|[_ Hch]]; [by destruct l1|]. unfold started. rewrite (proj2 (Z.eqb_neq _ _)) by done.
    pose proof (chain_linked s _ _ _ v (fr_inv s Hr) Hch Hv Hv0) as [HR (z & Hz & Hp)].
    rewrite <- app_assoc. split; [done|]. exists z. split; [done|]. eapply path_ext; [done|].
    intros x Hx. rewrite Forall_forall in HR. apply He. apply HR in Hx. lia.
Qed.

(** The byte before the first one of a cluster is in the cluster before. *)
Lemma cluster_boundary s p :
  fat_ready s -> p mod ssize (fsys s) = 0 -> (p / ssize (fsys s)) mod csize (fsys s) = 0 ->
  p / csz s = (p - 1) / csz s + 1.
Proof.
  intros Hr Hm Hm'. pose proof (ready_sizes s Hr) as (_ & Hss & Hcs). unfold csz_of.
  set (ss := ssize (fsys s)) in *. set (cs := csize (fsys s)) in *.
  assert (exists q, p = q * (cs * ss)) as [q ->] by (exists (p / ss / cs); Z.div_mod_to_equations; nia).
  rewrite Z.div_mul by nia. enough ((q * (cs * ss) - 1) / (cs * ss) = q - 1) by lia.
  symmetry. apply (Z.div_unique_pos _ _ _ (cs * ss - 1)); nia.
Qed.

Lemma write_clust_spec s fp l :
  file_base s fp -> hints_ok s -> file_chain s (f_obj fp) l -> let p := f_fptr fp in let obj := f_obj fp in
  0 <= p <= zlen l * csz s -> p mod ssize (fsys s) = 0 -> (p / ssize (fsys s)) mod csize (fsys s) = 0 ->
  (0 < p -> in_file s obj (p - 1) /\ f_clust fp = f_cluster s obj (p - 1)) ->
  post (write_clust fp) s (fun '(v, fp') s' => fp' = fp /\ clust_step s l s' /\
    (no_cluster v /\ (v = 0 -> no_space s' /\ same_entries s s') \/
     exists k, file_chain s' (started v obj) (l ++ k) /\ Forall (fun c => 2 <= c < nent s /\ fat_entry s c = 0) k /\
       (l ++ k) !! Z.to_nat (p / csz s) = Some v /\ apart s' (started v obj) (f_sect fp))).
Proof.
  intros Hf Hh Hc p obj Hp Hm Hm' Hclu. pose proof (fv_ready _ _ Hf) as Hr. pose proof (csz_pos s Hr) as Hz.
  pose proof (ents_u32 _ (fi_fat _ (fr_inv s Hr))) as Hn.
  assert (f_sect fp = 0 \/ data_sect (fsys s) (f_sect fp)) as Hx by (destruct (fv_cache _ _ Hf) as [[? _]|?]; auto).
  assert (set_f_obj (f_obj fp) fp = fp) as Efp by (by destruct fp).
  unfold write_clust. fold p. bdestr; [bdestr|].
  - (* the first cluster of the file *)
    pose proof (chain_unstarted _ _ _ Hc Hb0) as ->. mstep.
    eapply post_mono; [apply (create_step s fp [] 0); [done..|by left]|]. intros [v o] s' (-> & Hst & Hcase).
    mstep. rewrite Efp. split; [done|]. split; [done|].
    destruct Hcase as [[? ?]|(Hv & Hon & [[? _]|(Hv0 & _ & He)])]; [left; tauto|done|right].
    exists [v]. split_and!.
    + apply (chain_grow s s' obj [] 0 v); try done; [apply Hst|by left].
    + by repeat constructor; try lia.
    + rewrite Hb, Z.div_0_l by lia. done.
    + eapply on_fat_apart; [apply Hr|apply Hst|apply Hst|done|done].
  - mstep. split; [done|]. split; [by split|]. right. exists []. rewrite app_nil_r. unfold started.
    rewrite (proj2 (Z.eqb_neq _ _)) by done. split_and!; [done|constructor| |apply Hf].
    rewrite Hb, Z.div_0_l by lia. by apply (chain_start s).
  - destruct (Hclu ltac:(lia)) as [Hin Ecl]. pose proof (chain_cluster s obj l (p - 1) Hr Hc Hin) as Hl. rewrite <- Ecl in Hl.
    assert (sclust obj <> 0) as Hs by (intros E; by rewrite (chain_unstarted _ _ _ Hc E) in Hl).
    assert (f_cluster s obj p = follow s (f_clust fp)) as Enx by (rewrite Ecl; apply cluster_succ; done || lia).
    assert (2 <= f_clust fp < nent s) as Hcr by (rewrite Ecl; apply Hin).
    assert (p / csz s = (p - 1) / csz s + 1) as Eq.
    { by apply cluster_boundary. }
    mstep. eapply post_mono; [apply (create_step s fp l (f_clust fp)); try done; right; by eapply list_elem_of_lookup_2|].
    intros [v o] s' (-> & Hst & Hcase). mstep. rewrite Efp. split; [done|]. split; [done|].
    destruct Hcase as [[? ?]|(Hv & Hon & Hcase)]; [left; tauto|right].
    assert (forall l', file_chain s' (started v obj) l' -> apart s' (started v obj) (f_sect fp)) as Hap.
    { intros l' _. eapply on_fat_apart; [apply Hr|apply Hst|apply Hst|done|done]. }
    destruct Hcase as [(_ & Ev & He)|(Hv0 & Hst2 & He)].
    + assert (in_file s obj p) as Hin'.
      { split; [lia|]. rewrite Enx, follow_in by done. by rewrite <- Ev. }
      assert (file_chain s' (started v obj) l) as Hc'.
      { unfold started. rewrite (proj2 (Z.eqb_neq _ _)) by done. eapply file_chain_same; [apply Hst| |done]. intros y Hy. apply He. lia. }
      exists []. rewrite app_nil_r. split_and!; [done|constructor| |by eapply Hap].
      rewrite (chain_cluster s obj l) by done. by rewrite Enx, follow_in, Ev.
    + destruct Hst2 as [?|[_ Hend]]; [lia|]. assert (p = zlen l * csz s) as Ep.
      { destruct (decide (p < zlen l * csz s)) as [Hlt|]; [exfalso|lia].
        assert (in_file s obj p) as [_ Hin'] by (apply (chain_in_file s obj l); [done..|lia]).
        rewrite Enx, follow_in in Hin' by done. lia. }
      assert (file_chain s' (started v obj) (l ++ [v])) as Hc'.
      { apply (chain_grow s s' obj l (f_clust fp) v); try done; [apply Hst|right]. split; [|lia].
        assert (Z.to_nat ((p - 1) / csz s) = (length l - 1)%nat) as Ek.
        { assert (p / csz s = zlen l) as E by (rewrite Ep, Z.div_mul by lia; done). unfold zlen in E. lia. }
        rewrite Ek in Hl. clear - Hl. induction l as [|x l' _] using rev_ind; [done|]. exists l'.
        rewrite length_app in Hl. cbn in Hl. replace (length l' + 1 - 1)%nat with (length l') in Hl by lia.
        rewrite list_lookup_middle in Hl by done. by injection Hl as ->. }
      exists [v]. split_and!; [done|by repeat constructor; try lia| |by eapply Hap].
      rewrite Ep, Z.div_mul by lia. unfold zlen. rewrite Nat2Z.id. by apply list_lookup_middle.
Qed.
End alloc.

(** ** Transfers *)

Section transfer.
Context {D : Type} `{BlockDeviceLaws D}.
Implicit Types s : St D.

Abbreviation csz s := (csz_of (fsys s)).

(** The sectors of the run are those of its bytes. *)
Lemma run_bytes s l obj p cc i :
  fat_ready s -> file_chain s obj l -> let ss := ssize (fsys s) in
  in_file s obj p -> in_file s obj i -> p mod ss = 0 -> 0 < cc <= csize (fsys s) - (p / ss) mod csize (fsys s) ->
  f_sector s obj p <= f_sector s obj i < f_sector s obj p + cc <-> p <= i < p + ss * cc.
Proof.
  intros Hr Hc ss Hp Hi Hm Hcc. pose proof (ready_sizes s Hr) as (_ & Hs & Hcs). fold ss in Hs. split; intros Hx.
  - set (j := (f_sector s obj i - f_sector s obj p) * ss).
    destruct (run_sector s obj p j Hr Hp Hm ltac:(unfold j; fold ss; nia)) as (E1 & E2 & _). fold ss in E1.
    assert (i / ss = (p + j) / ss) as Eq.
    { apply (f_sector_inj s obj l); try done. rewrite E1. unfold j. rewrite Z.div_mul by lia. lia. }
    assert (p + j = (p / ss + (f_sector s obj i - f_sector s obj p)) * ss) as Ej by (unfold j; Z.div_mod_to_equations; lia).
    rewrite Ej, Z.div_mul in Eq by lia. Z.div_mod_to_equations. nia.
  - destruct (run_sector s obj p (i - p) Hr Hp Hm ltac:(fold ss; nia)) as (E1 & _). fold ss in E1.
    replace (p + (i - p)) with i in E1 by lia. assert (0 <= (i - p) / ss < cc).
    { split; [apply Z.div_pos; lia|apply Z.div_lt_upper_bound; lia]. }
    lia.
Qed.

Lemma direct_write s fp l wbuff bw cc :
  file_base s fp -> file_chain s (f_obj fp) l -> dirty fp = false ->
  let ss := ssize (fsys s) in let p := f_fptr fp in let obj := f_obj fp in let sect := f_sector s obj p in
  in_file s obj p -> p mod ss = 0 -> 0 < cc <= csize (fsys s) - (p / ss) mod csize (fsys s) ->
  0 <= bw -> bw + ss * cc <= zlen wbuff -> bytes wbuff ->
  post (do_write (drop (Z.to_nat bw) wbuff) sect cc) s (fun r s' =>
    fsys s' = fsys s /\ others s s' (fun y => sect <= y < sect + cc) /\
    (r = RES_OK -> let fp' := refill ss bw sect cc wbuff fp in
      file_base s' fp' /\ dirty fp' = false /\ forall i, in_file s obj i ->
        f_byte s' fp' i = if (p <=? i) && (i <? p + ss * cc) then wbuff.[bw + (i - p)] else f_byte s fp i)).
Proof.
  intros Hf Hc Hd ss p obj sect Hin Hm Hcc Hbw Hl Hb. pose proof (fv_ready _ _ Hf) as Hr.
  pose proof (ready_sizes s Hr) as (_ & Hs & Hcs). fold ss in Hs.
  pose proof (run_free s fp cc Hf Hin Hm Hcc) as Hfree. fold p obj sect in Hfree.
  assert (zlen (drop (Z.to_nat bw) wbuff) = zlen wbuff - bw) as Hdl by (unfold zlen in *; rewrite length_drop; nia).
  apply post_data_write; [done|done|fold ss; rewrite Hdl; lia|by apply Forall_drop|].
  intros r s' Es Hr' Hlk Hv Hw. fold ss in Hw. assert (others s s' (fun y => sect <= y < sect + cc)) as Ho by (by apply others_same).
  split; [done|]. split; [done|]. intros -> fp'. specialize (Hw eq_refl).
  pose proof (data_sect_ok s _ Hr (proj1 (proj2 Hfree (sect + cc - 1) ltac:(lia)))) as (Hx & _).
  pose proof (data_sect_ok s _ Hr (proj1 (proj2 Hfree sect ltac:(lia)))) as (Hx0 & _).
  assert (forall y, sect <= y < sect + cc -> vol s' y = sub wbuff (bw + (y - sect) * ss) ss) as Hw'.
  { intros y Hy. rewrite Hw by done. unfold sub. rewrite drop_drop. do 2 f_equal. nia. }
  assert (is_u32 (f_sect fp)) as Hu.
  { destruct (fv_cache _ _ Hf) as [[-> _]|Hcs']; [done|]. pose proof (data_sect_ok s _ Hr Hcs'). unfold is_u32. lia. }
  assert (f_obj fp' = obj /\ dirty fp' = false) as [Eo Ed'].
  { unfold fp', refill. case_match; [|done]. split; [done|]. apply has_lower. }
  split_and!; [|done|].
  - unfold fp', refill. rewrite run_test by (unfold is_u32 in *; lia). destruct (_ && _) eqn:Et.
    2:{ apply (file_base_links s); try done; [apply Ho|]. intros Hne _. apply Hv; [unfold is_u32 in Hu; lia|]. bprop. lia. }
    assert (sect <= f_sect fp < sect + cc) as Hrun by (bprop; lia). rewrite u32_small by (unfold is_u32 in *; lia).
    assert (zlen (sub wbuff (bw + (f_sect fp - sect) * ss) ss) = ss) as Hsl.
    { unfold zlen, sub in *. rewrite length_take, length_drop. nia. }
    pose proof (cache_len s fp Hf) as Hcl. fold ss in Hcl.
    destruct Hf as [V1 V2 V4 [V7 V7'] V8 V9 V10]. split; rewrite ?Es; try done.
    + split; [unfold zlen in *; cbn; rewrite length_blit by (unfold zlen in *; lia); done|].
      apply bytes_blit; [done|]. by apply Forall_take, Forall_drop.
    + destruct V8 as [[V8 _]|V8]; [lia|by right].
    + intros _ _. cbn. fold ss. rewrite Hw' by lia. apply getb_ext.
      * rewrite Hsl. unfold zlen in *. rewrite length_take, length_blit; unfold zlen in *; lia.
      * intros j Hj. assert (zlen (take (Z.to_nat ss) (blit (f_buf fp) 0 (sub wbuff (bw + (f_sect fp - sect) * ss) ss))) <= ss).
        { unfold zlen. rewrite length_take. lia. }
        rewrite getb_take by lia. rewrite getb_blit by lia. if_true. f_equal. lia.
    + apply (apart_tracks s); try done; [apply Ho|]. destruct V8 as [[V8 _]|?]; [by left|by right].
  - intros i Hi. unfold f_byte, f_data. rewrite Eo, Ed', Hd, (links_sector s), Es by done. cbn [andb]. fold ss obj.
    pose proof (run_bytes s l obj p cc i Hr Hc Hin Hi Hm Hcc) as Hrun. fold ss sect in Hrun.
    pose proof (data_sect_ok s _ Hr (f_sector_data s obj i Hr Hi)) as (Hxi & _).
    destruct (_ && _) eqn:Et.
    + assert (p <= i < p + ss * cc) as Hpi by (bprop; lia). rewrite Hw' by (by apply Hrun).
      destruct (run_sector s obj p (i - p) Hr Hin Hm ltac:(fold ss; nia)) as (E1 & _ & E3 & _). fold ss sect in E1, E3.
      replace (p + (i - p)) with i in E1, E3 by lia. pose proof (Z.mod_pos_bound (i - p) ss ltac:(lia)) as Hmb.
      pose proof (Z.div_mod (i - p) ss ltac:(lia)) as Hdm. pose proof (Z.div_pos (i - p) ss ltac:(lia) ltac:(lia)) as Hdp.
      rewrite E1, E3, getb_sub by nia. f_equal. nia.
    + f_equal. apply Hv; [lia|]. intros Hy. apply Hrun in Hy. bprop. lia.
Qed.

(** Bytes into the cached sector; [b] holds what the file has of the sector below
    [size]. *)
Lemma fit_write s fp l wbuff bw b wcnt size :
  file_base s fp -> file_chain s (f_obj fp) l ->
  let ss := ssize (fsys s) in let p := f_fptr fp in let obj := f_obj fp in let sect := f_sector s obj p in
  in_file s obj p -> sect = f_sect fp \/ dirty fp = false -> zlen b = FF_MAX_SS -> bytes b ->
  (forall i, in_file s obj i -> i < size -> i / ss = p / ss -> b.[i mod ss] = f_byte s fp i) ->
  0 < wcnt <= ss - p mod ss -> 0 <= bw -> bw + wcnt <= zlen wbuff -> bytes wbuff ->
  let fp' := raise FA_DIRTY (set_f_buf (blit b (p mod ss) (sub wbuff bw wcnt)) (set_f_sect sect fp)) in
  file_base s fp' /\ forall i, in_file s obj i -> i < size \/ p <= i < p + wcnt ->
    f_byte s fp' i = if (p <=? i) && (i <? p + wcnt) then wbuff.[bw + (i - p)] else f_byte s fp i.
Proof.
  intros Hf Hc ss p obj sect Hin Hcache Hbl Hbb Hold Hw Hbw Hl Hb fp'. pose proof (fv_ready _ _ Hf) as Hr.
  pose proof (ready_sizes s Hr) as (_ & Hs & Hcs). fold ss in Hs.
  pose proof (Z.mod_pos_bound p ss ltac:(lia)) as Hofs. pose proof (f_sector_data s obj p Hr Hin) as Hds. fold sect in Hds.
  pose proof (data_sect_ok s _ Hr Hds) as (Hx & _).
  assert (zlen (sub wbuff bw wcnt) = wcnt) as Hsl by (unfold zlen, sub in *; rewrite length_take, length_drop; lia).
  assert (dirty fp' = true) as Ed by (by apply has_raise).
  assert (zlen (f_buf fp') = FF_MAX_SS) as Hbl'.
  { cbn. unfold zlen in *. rewrite length_blit; unfold zlen, FF_MAX_SS in *; lia. }
  split.
  - destruct Hf as [V1 V2 V4 V7 V8 V9 V10]. split; try done.
    + split; [done|]. apply bytes_blit; [done|]. by apply Forall_take, Forall_drop.
    + by right.
    + congruence.
    + split; [|apply V10]. intros _. apply V10. done.
  - intros i Hi Hlt. unfold f_byte at 1, f_data. rewrite Ed. cbn [andb]. change (f_sect fp') with sect. change (f_obj fp') with obj.
    fold ss. pose proof (Z.mod_pos_bound i ss ltac:(lia)) as Hmi. bdestr_in (f_sector s obj i =? sect).
    + assert (i / ss = p / ss) as Eq by (by apply (f_sector_inj s obj l)).
      rewrite getb_take by lia. change (f_buf fp') with (blit b (p mod ss) (sub wbuff bw wcnt)). rewrite getb_blit by (rewrite ?Hsl; unfold FF_MAX_SS in *; lia). rewrite Hsl.
      pose proof (Z.div_mod i ss ltac:(lia)). pose proof (Z.div_mod p ss ltac:(lia)). rewrite Eq in *.
      destruct ((p <=? i) && _) eqn:Et.
      * if_true. rewrite getb_sub by (bprop; lia). f_equal. lia.
      * if_false. apply Hold; [done|bprop; lia|done].
    + assert (~ p <= i < p + wcnt) as Hni.
      { intros Hpi. apply Hb0. destruct (ofs_same_sector ss (csize (fsys s)) ltac:(lia) Hcs p (i - p) ltac:(lia)) as (E1 & _ & E3).
        replace (p + (i - p)) with i in E1, E3 by lia. unfold sect, f_sector, f_cluster, csz_of. fold ss. by rewrite E1, E3. }
      destruct ((p <=? i) && _) eqn:Et; [bprop; lia|]. unfold f_byte, f_data. fold obj ss.
      destruct Hcache as [<- | ->]; [|done]. rewrite (proj2 (Z.eqb_neq _ _)) by done. by rewrite andb_false_r.
Qed.
End transfer.

(** ** The loop *)

Section loop.
Context {D : Type} `{BlockDeviceLaws D} `{!Heap}.
Context (s0 : St D) (fp0 : FIL) (l0 : list Z) (buff : list Z) (n : Z).
Implicit Types s : St D.
Abbreviation csz s := (csz_of (fsys s)).
Let p0 := f_fptr fp0.
Let size0 := objsize (f_obj fp0).

(** The size and the content of the file after [bw] bytes. *)
Definition new_size (bw : Z) : Z := Z.max size0 (p0 + bw).
Definition new_byte (bw i : Z) : Z := if (p0 <=? i) && (i <? p0 + bw) then buff.[i - p0] else f_byte s0 fp0 i.

Record writing (fp : FIL) (bw : Z) (l : list Z) s : Prop := {
  wr_base : file_base s fp;
  wr_hints : hints_ok s;
  wr_chain : file_chain s (f_obj fp) l;
  wr_size : objsize (f_obj fp) = new_size bw /\ new_size bw <= zlen l * csz s;
  wr_ptr : f_fptr fp = p0 + bw;
  wr_bw : 0 <= bw <= n;
  wr_cache : dirty fp = true -> file_sect (fsys s) l (f_sect fp);
  wr_data : forall i, 0 <= i < new_size bw -> f_byte s fp i = new_byte bw i;
  wr_frame : write_frame s0 l0 s l;
  wr_err : f_err fp = f_err fp0
}.

(** The cluster of the pointer is there, and is the current one. *)
Record at_clust (fp : FIL) s : Prop := {
  ac_in : in_file s (f_obj fp) (f_fptr fp);
  ac_clust : f_clust fp = f_cluster s (f_obj fp) (f_fptr fp)
}.

Hypothesis Hn : 0 <= n <= zlen buff.
Hypothesis Hbytes : bytes buff.
Hypothesis Hp0 : 0 <= p0 <= size0.
Hypothesis Hsz : size0 < 2 ^ 32 /\ p0 + n < 2 ^ 32.

(** An operation that keeps the view. *)
Lemma writing_links fp bw l s fp' s' :
  writing fp bw l s -> same_links s s' -> hints_ok s' -> write_frame s0 l0 s' l -> same_data s fp s' fp' -> file_base s' fp' ->
  f_obj fp' = f_obj fp -> f_fptr fp' = f_fptr fp -> f_err fp' = f_err fp ->
  (forall y, cache_sect fp' y -> cache_sect fp y) -> writing fp' bw l s'.
Proof.
  intros [W1 W2 W3 W4 W5 W6 W7 W8 W9 W10] Hl Hh Hfr Hd Hf E1 E2 E3 Hc. pose proof (fv_ready _ _ W1) as Hr.
  split; rewrite ?E1, ?E2, ?E3; try done.
  - eapply file_chain_same; [apply Hl| |done]. intros x Hx. by apply links_entries.
  - destruct Hl as [Hg _]. unfold csz_of in *. by geo_rewrite Hg.
  - intros Hd'. destruct (Hc (f_sect fp')) as [Hd0 ->]; [done|]. apply (geo_file_sect (fsys s)); [apply Hl|]. by apply W7.
  - intros i Hi. rewrite <- W8 by done. apply same_data_byte; try done. apply (chain_in_file s _ l); [done..|lia].
Qed.

Lemma writing_state fp bw l s fp' s' :
  writing fp bw l s -> fsys s' = fsys s -> others s s' (cache_sect fp) -> same_data s fp s' fp' -> file_base s' fp' ->
  f_obj fp' = f_obj fp -> f_fptr fp' = f_fptr fp -> f_err fp' = f_err fp ->
  (forall y, cache_sect fp' y -> cache_sect fp y) -> writing fp' bw l s'.
Proof.
  intros Hw Es Ho. apply writing_links; [done|apply Ho|unfold hints_ok; rewrite Es; apply Hw|].
  eapply frame_others; [apply Hw|done|]. intros y [Hy ->]. by apply Hw.
Qed.

(** The pointer after [wcnt] bytes of one cluster. *)
Lemma wrote_spec fp fp' bw l s s' wcnt :
  writing fp bw l s -> at_clust fp s -> same_links s s' -> hints_ok s' -> write_frame s0 l0 s' l ->
  file_base s' fp' -> f_obj fp' = f_obj fp -> f_fptr fp' = f_fptr fp -> f_err fp' = f_err fp -> f_clust fp' = f_clust fp ->
  (dirty fp' = true -> file_sect (fsys s') l (f_sect fp')) ->
  0 < wcnt <= n - bw -> (f_fptr fp + wcnt - 1) / csz s = f_fptr fp / csz s ->
  ((f_fptr fp + wcnt) mod ssize (fsys s) <> 0 -> f_sect fp' = f_sector s (f_obj fp) (f_fptr fp + wcnt)) ->
  (forall i, in_file s (f_obj fp) i -> i < new_size bw \/ f_fptr fp <= i < f_fptr fp + wcnt -> f_byte s' fp' i =
     if (f_fptr fp <=? i) && (i <? f_fptr fp + wcnt) then buff.[bw + (i - f_fptr fp)] else f_byte s fp i) ->
  writing (wrote fp' wcnt) (bw + wcnt) l s' /\ file_inv s' (wrote fp' wcnt).
Proof.
  intros [W1 W2 W3 [W4 W4'] W5 W6 W7 W8 W9 W10] [A1 A2] Hl Hh Hfr Hf E1 E2 E3 E4 Hc Hw Hq Hx Hv.
  pose proof (fv_ready _ _ W1) as Hr. pose proof (csz_pos s Hr) as Hz.
  assert (csz s' = csz s) as Ecz by (destruct Hl as [Hg _]; unfold csz_of; by geo_rewrite Hg).
  assert (u64 (p0 + bw + wcnt) = p0 + bw + wcnt) as Eu by (apply u64_ptr; lia).
  assert (exists o, wrote fp' wcnt = set_f_obj o (set_f_fptr (p0 + bw + wcnt) fp') /\ o = set_objsize (new_size (bw + wcnt)) (f_obj fp))
    as (o & Ew & Eo).
  { eexists. split; [|reflexivity]. unfold wrote. cbn. rewrite E1, E2, W4, W5, Eu. do 2 f_equal. unfold new_size. bdestr; lia. }
  rewrite Ew. assert (sclust o = sclust (f_obj fp)) as Esc by (by rewrite Eo).
  assert (forall i, in_file s' o i <-> in_file s (f_obj fp) i) as Hin.
  { intros i. rewrite <- (links_in_file s s' (f_obj fp) i Hl). unfold in_file, f_cluster. by rewrite Esc. }
  assert (forall i, f_sector s' o i = f_sector s (f_obj fp) i) as Hsec.
  { intros i. rewrite <- (links_sector s s' (f_obj fp) i Hl). unfold f_sector, f_cluster. by rewrite Esc. }
  assert (in_file s (f_obj fp) (f_fptr fp + wcnt - 1)) as Hin1.
  { destruct A1 as [A1 A1']. split; [lia|]. unfold f_cluster in *. by rewrite Hq. }
  assert (new_size (bw + wcnt) <= zlen l * csz s) as Hns.
  { apply (chain_in_file s _ l) in Hin1; [|done..]. unfold new_size in *. lia. }
  assert (file_base s' (set_f_obj o (set_f_fptr (p0 + bw + wcnt) fp'))) as Hb.
  { destruct Hf as [V1 V2 V4 V7 V8 V9 V10]. rewrite E1 in V2, V4, V10. split; rewrite ?Esc; try done.
    - rewrite Eo. done.
    - cbn. by rewrite Esc.
    - split; [apply V10|]. cbn. intros i Hi. rewrite Hsec. rewrite <- (links_sector s s') by done. apply V10.
      apply (links_in_file s); [done|]. by apply Hin. }
  split.
  - split; cbn; try done; try lia; try congruence.
    + destruct W3 as [[-> W3]|[Hl0 W3]]; [left; by rewrite Esc|right]. split; [done|]. rewrite Esc.
      assert (file_chain s' (f_obj fp) l) as [[? _]|[_ ?]]; [|done|done].
      eapply file_chain_same; [apply Hl|intros x Hx'; by apply links_entries|by right].
    + rewrite Eo, Ecz. done.
    + intros i Hi. assert (in_file s (f_obj fp) i) as Hii by (apply (chain_in_file s _ l); [done..|lia]).
      assert (f_byte s' (set_f_obj o (set_f_fptr (p0 + bw + wcnt) fp')) i = f_byte s' fp' i) as ->.
      { unfold f_byte. cbn. rewrite Hsec, E1, (links_sector s s') by done. done. }
      rewrite Hv by (done || unfold new_size in *; lia). unfold new_byte. rewrite W5.
      destruct ((p0 + bw <=? i) && _) eqn:Et.
      * if_true. f_equal. lia.
      * rewrite W8 by (unfold new_size in *; bprop; lia). unfold new_byte.
        destruct ((p0 <=? i) && (i <? p0 + bw)) eqn:Et2; [by if_true|]. by if_false.
  - split; [done| | |]; cbn.
    + rewrite Eo. cbn. unfold new_size. lia.
    + intros _. rewrite Hin. rewrite W5 in Hin1. split; [done|]. rewrite E4, A2.
      unfold f_cluster. rewrite Ecz, Esc, <- W5, Hq. symmetry. apply link_ext. apply Hl.
    + rewrite Hsec, (links_ssize s s') by done. rewrite <- W5. done.
Qed.

Definition write_inv (st : FIL * Z * Z) (k : Z) s : Prop :=
  let '(fp, bw, btw) := st in
  (exists l, writing fp bw l s) /\ file_inv s fp /\ btw = n - bw /\ k = btw.

Definition write_result (st : FRESULT * FIL * Z) s : Prop :=
  let '(r, fp, bw) := st in exists l, write_frame s0 l0 s l /\ 0 <= bw <= n /\ f_fptr fp = p0 + bw /\
  (r = FR_OK /\ writing fp bw l s /\ file_inv s fp /\ has (f_flag fp) FA_MODIFIED = true /\ (bw = n \/ no_space s) \/
   f_err fp = r /\ (r = FR_INT_ERR \/ r = FR_DISK_ERR)).

Definition write_round (r : FIL * Z * Z + FRESULT * FIL * Z) (k : Z) s : Prop :=
  match r with inl st => exists k', 0 <= k' < k /\ write_inv st k' s | inr st => write_result st s end.

Lemma write_more fp bw l wcnt s :
  0 < wcnt <= n - bw -> writing fp (bw + wcnt) l s -> file_inv s fp ->
  write_round (inl (fp, bw + wcnt, n - bw - wcnt)) (n - bw) s.
Proof. intros Hr Hw Hf. exists (n - bw - wcnt). split; [lia|]. split_and!; [by exists l|done|lia|lia]. Qed.

Lemma write_abort fp bw l s e :
  write_frame s0 l0 s l -> 0 <= bw <= n -> f_fptr fp = p0 + bw -> e = FR_INT_ERR \/ e = FR_DISK_ERR ->
  write_result (e, set_f_err e fp, bw) s.
Proof. intros Hf Hb Hp He. exists l. split; [exact Hf|]. split; [exact Hb|]. split; [exact Hp|]. by right. Qed.

(** Only the cache part of the flags is seen. *)
Lemma write_end fp bw l s :
  writing fp bw l s -> file_inv s fp -> bw = n \/ no_space s -> write_result (FR_OK, raise FA_MODIFIED fp, bw) s.
Proof.
  intros Hw Hi He. assert (dirty (raise FA_MODIFIED fp) = dirty fp) as Ed by (by apply has_raise_other).
  assert (forall s' fp', f_obj fp' = f_obj fp -> f_fs fp' = f_fs fp -> f_sect fp' = f_sect fp -> f_buf fp' = f_buf fp ->
    dirty fp' = dirty fp -> file_base s' fp -> file_base s' fp') as Hb.
  { intros s' fp' E1 E2 E3 E4 E5 [V1 V2 V4 V7 V8 V9 V10]. split; rewrite ?E1, ?E2, ?E3, ?E4, ?E5; done. }
  exists l. destruct (Hw) as [W1 W2 W3 W4 W5 W6 W7 W8 W9 W10]. split_and!; [done|lia..|done|]. left. split_and!; try done.
  - split; try done; [by apply Hb|by rewrite Ed|]. intros i Hi'. rewrite <- W8 by done. unfold f_byte, f_data. by rewrite Ed.
  - destruct Hi as [I1 I2 I3 I4]. split; try done. by apply Hb.
  - by apply has_raise.
Qed.

(** The bytes of a sector. *)
Lemma fit_round fp bw l s b :
  writing fp bw l s -> at_clust fp s -> bw < n ->
  let ss := ssize (fsys s) in let sect := f_sector s (f_obj fp) (f_fptr fp) in
  sect = f_sect fp \/ dirty fp = false -> zlen b = FF_MAX_SS -> bytes b ->
  (forall i, in_file s (f_obj fp) i -> i < new_size bw -> i / ss = f_fptr fp / ss -> b.[i mod ss] = f_byte s fp i) ->
  write_round (inl (write_fit ss buff (set_f_sect sect (set_f_buf b fp)) bw (n - bw))) (n - bw) s.
Proof.
  intros Hw [A1 A2] Hlt ss sect Hcache Hbl Hbb Hold. destruct (Hw) as [W1 W2 W3 W4 W5 W6 W7 W8 W9 W10].
  pose proof (fv_ready _ _ W1) as Hr. pose proof (ready_sizes s Hr) as (_ & Hs & Hcs). fold ss in Hs.
  pose proof (Z.mod_pos_bound (f_fptr fp) ss ltac:(lia)) as Hofs.
  unfold write_fit. cbn [f_fptr set_f_sect set_f_buf f_buf]. fold ss.
  set (wcnt := if n - bw <? ss - f_fptr fp mod ss then _ else _).
  assert (0 < wcnt <= n - bw /\ wcnt <= ss - f_fptr fp mod ss) as [Hwc Hws] by (unfold wcnt; bdestr; lia).
  destruct (fit_write s fp l buff bw b wcnt (new_size bw)) as [Hf' Hv']; try done; [fold ss; lia|lia|lia|]. fold ss sect in Hf', Hv'.
  set (fp' := raise FA_DIRTY _) in Hf', Hv' |- *.
  destruct (wrote_spec fp fp' bw l s s wcnt) as [Hw' Hi']; try done.
  - intros _. by apply f_sector_file.
  - replace (f_fptr fp + wcnt - 1) with (f_fptr fp + (wcnt - 1)) by lia.
    apply (ofs_same_sector ss (csize (fsys s))); lia.
  - fold ss. intros Hm. destruct (decide (wcnt = ss - f_fptr fp mod ss)) as [E|].
    + exfalso. apply Hm. rewrite E.
      replace (f_fptr fp + (ss - f_fptr fp mod ss)) with ((f_fptr fp / ss + 1) * ss) by (Z.div_mod_to_equations; lia).
      by apply Z.mod_mul; lia.
    + destruct (ofs_same_sector ss (csize (fsys s)) ltac:(lia) Hcs (f_fptr fp) wcnt ltac:(lia)) as (E1 & _ & E3).
      change (f_sect fp') with sect. unfold sect, f_sector, f_cluster, csz_of. fold ss. by rewrite E1, E3.
  - by apply (write_more _ _ l).
Qed.

(** Whole sectors. *)
Lemma direct_round fp bw l s cc :
  writing fp bw l s -> at_clust fp s -> dirty fp = false -> let ss := ssize (fsys s) in f_fptr fp mod ss = 0 ->
  0 < cc <= csize (fsys s) - (f_fptr fp / ss) mod csize (fsys s) -> ss * cc <= n - bw ->
  let sect := f_sector s (f_obj fp) (f_fptr fp) in
  post (do_write (drop (Z.to_nat bw) buff) sect cc) s (fun r s' =>
    write_frame s0 l0 s' l /\
    (r = RES_OK -> write_round (inl (wrote (refill ss bw sect cc buff fp) (ss * cc), bw + ss * cc, n - bw - ss * cc)) (n - bw) s')).
Proof.
  intros Hw [A1 A2] Hd ss Hm Hcc Hle sect. destruct (Hw) as [W1 W2 W3 W4 W5 W6 W7 W8 W9 W10].
  pose proof (fv_ready _ _ W1) as Hr. pose proof (ready_sizes s Hr) as (_ & Hs & Hcs). fold ss in Hs.
  eapply post_mono; [apply (direct_write s fp l buff bw cc); try done; [lia|fold ss; lia]|]. fold ss sect.
  intros r s' (Es & Ho & Hok). assert (write_frame s0 l0 s' l) as Hfr.
  { eapply frame_others; [done..|]. intros y Hy. cbn beta in Hy.
    destruct (run_sector s (f_obj fp) (f_fptr fp) ((y - sect) * ss) Hr A1 Hm ltac:(fold ss; nia)) as (E1 & E2 & _).
    fold ss sect in E1. rewrite Z.div_mul in E1 by lia. replace y with (f_sector s (f_obj fp) (f_fptr fp + (y - sect) * ss)) by lia.
    by apply f_sector_file. }
  split; [done|]. intros ->. destruct (Hok eq_refl) as (Hf' & Hd' & Hv').
  set (fp' := refill ss bw sect cc buff fp) in *.
  assert (f_obj fp' = f_obj fp /\ f_fptr fp' = f_fptr fp /\ f_err fp' = f_err fp /\ f_clust fp' = f_clust fp) as (E1 & E2 & E3 & E4)
    by (unfold fp', refill; by case_match).
  destruct (wrote_spec fp fp' bw l s s' (ss * cc)) as [Hw' Hi']; try done.
  - apply Ho.
  - unfold hints_ok. by rewrite Es.
  - congruence.
  - nia.
  - replace (f_fptr fp + ss * cc - 1) with (f_fptr fp + (ss * cc - 1)) by lia.
    apply (run_sector s (f_obj fp)); [done..|fold ss; nia].
  - intros Hne. exfalso. apply Hne. fold ss. by rewrite Z.mul_comm, Z.mod_add by lia.
  - intros i Hi _. by apply Hv'.
  - by apply (write_more _ _ l); [nia|..].
Qed.

(** The cached sector, read in if the file has bytes there. *)
Lemma fill_round fp bw l s sect :
  writing fp bw l s -> at_clust fp s -> dirty fp = false -> bw < n -> let ss := ssize (fsys s) in f_fptr fp mod ss = 0 ->
  sect = f_sector s (f_obj fp) (f_fptr fp) ->
  post ('(res, fp) ← (if negb (f_sect fp =? sect) && (f_fptr fp <? objsize (f_obj fp)) then fill_buf fp sect
                      else mret (FR_OK, fp));
        if negb (fr_ok res) then mret (inr (res, set_f_err res fp, bw)) else
        mret (inl (write_fit ss buff (set_f_sect sect fp) bw (n - bw)))) s (fun r s' => write_round r (n - bw) s').
Proof.
  intros Hw Hat Hd Hlt ss Hm ->. destruct (Hat) as [A1 A2]. destruct (Hw) as [W1 W2 W3 [W4 _] W5 W6 W7 W8 W9 W10].
  pose proof (fv_ready _ _ W1) as Hr. pose proof (ready_sizes s Hr) as (_ & Hs & Hcs). fold ss in Hs.
  set (sect := f_sector s (f_obj fp) (f_fptr fp)). assert (data_sect (fsys s) sect) as Hds by (by apply f_sector_data).
  assert (forall i, i / ss = f_fptr fp / ss -> f_sector s (f_obj fp) i = sect) as Hsame.
  { intros i Eq. unfold sect, f_sector, f_cluster, csz_of. fold ss.
    rewrite (Z.mul_comm (csize (fsys s)) ss), <- !Z.div_div, Eq by lia. done. }
  mstep. destruct (negb _ && _) eqn:Et.
  - unfold fill_buf. mstep. apply post_data_read; [done| |pose proof (cache_len _ _ W1); lia|apply W1|].
    { split; [lia|]. intros y Hy. replace y with sect by lia. split; [done|]. by apply W1. }
    intros r b s' Es Hr' Hv Hlb Hbb Hb. assert (same_links s s') as Hl by (apply fat_links; [done|by rewrite Es|auto]).
    assert (others s s' (cache_sect fp)) as Ho by (by apply others_same).
    assert (writing fp bw l s') as Hw'.
    { eapply writing_state; try done; [intros x _; by apply f_data_ext|].
      apply (file_base_links s); try done; apply Ho. }
    mstep. destruct r; cbn [res_ok fr_ok negb]; mstep; try (eapply write_abort; [apply Hw'|lia|done|by right]).
    assert (sect = f_sector s' (f_obj fp) (f_fptr fp)) as Esec by (symmetry; by apply links_sector).
    assert (zlen b = FF_MAX_SS) as Hbl by (unfold zlen; rewrite Hlb; apply W1).
    rewrite Esec. unfold ss. rewrite <- Es. apply (fit_round fp bw l s' b); try done.
    + split; [by apply (links_in_file s)|by rewrite (links_cluster s s')].
    + by right.
    + rewrite Es. fold ss. intros i Hi _ Eq. apply (links_in_file s) in Hi; [|done].
      assert (0 <= i mod ss < ss) by (apply Z.mod_pos_bound; lia).
      unfold f_byte, f_data. rewrite Hd, (links_sector s s'), Hsame, Es by done. cbn [andb]. fold ss.
      rewrite Hb by (done || rewrite Hbl; unfold FF_MAX_SS; lia). fold ss. if_true.
      rewrite Z.div_small, Z.mod_mod, Z.add_0_r, Hv by lia. done.
  - mstep. cbn [fr_ok negb]. mstep. replace (set_f_sect sect fp) with (set_f_sect sect (set_f_buf (f_buf fp) fp)) by (by destruct fp).
    apply (fit_round fp bw l s (f_buf fp)); try done; [by right|apply W1..|].
    intros i Hi Hlt' Eq. fold ss in Eq. destruct (decide (f_sect fp = sect)) as [E|Hne].
    + symmetry. apply cache_byte; [done..|]. by rewrite Hsame, E.
    + exfalso. rewrite (proj2 (Z.eqb_neq _ _)) in Et by done. cbn [negb andb] in Et. bprop.
      rewrite W4 in Et. Z.div_mod_to_equations. nia.
Qed.

Lemma clean_fil_same fp : f_obj (clean_fil fp) = f_obj fp /\ f_fptr (clean_fil fp) = f_fptr fp /\
  f_clust (clean_fil fp) = f_clust fp /\ f_err (clean_fil fp) = f_err fp.
Proof. unfold clean_fil. by case_match. Qed.

Lemma write_sect_spec fs fp bw l s :
  writing fp bw l s -> at_clust fp s -> bw < n -> geo fs = geo (fsys s) -> f_fptr fp mod ssize fs = 0 ->
  post (write_sect fs buff fp bw (n - bw) ((f_fptr fp / ssize fs) mod csize fs)) s (fun r s' => write_round r (n - bw) s').
Proof.
  intros Hw Hat Hlt Hg Hm. pose proof (wr_base _ _ _ _ Hw) as W1. pose proof (fv_ready _ _ W1) as Hr. destruct (Hat) as [A1 A2].
  unfold write_sect. mstep. eapply post_mono; [by apply write_back_spec|]. intros [r fp1] s1 (Es & Ho & Hsd & Hf1 & Hres).
  assert (same_links s s1) as Hl by apply Ho.
  assert (write_frame s0 l0 s1 l) as Hfr1.
  { eapply frame_others; [apply Hw|done|]. intros y [Hy ->]. by apply Hw. }
  destruct Hres as [[-> ->]|[-> ->]]; cbn [fr_ok negb]; [|mstep; eapply write_abort; [done|apply Hw|apply Hw|by right]].
  destruct (clean_fil_same fp) as (E1 & E2 & E3 & E4). pose proof (clean_fil_dirty fp) as Hd.
  assert (writing (clean_fil fp) bw l s1) as Hw1.
  { eapply writing_state; try done. intros y [Hy _]. congruence. }
  rewrite E3, A2. destruct (f_sector_clst2sect s (f_obj fp) (f_fptr fp) Hr A1) as [Hx1 Hx2].
  assert (forall c, clst2sect fs c = clst2sect (fsys s) c) as Ecl by (intros c; unfold clst2sect; by geo_rewrite Hg).
  assert (ssize fs = ssize (fsys s)) as Ess by exact (f_equal ssize Hg).
  assert (csize fs = csize (fsys s)) as Ecs by exact (f_equal csize Hg). rewrite Ess in Hm |- *. rewrite Ecl, Ecs.
  rewrite (proj2 (Z.eqb_neq _ _)) by done. rewrite Hx2. cbn zeta.
  set (ss := ssize (fsys s)) in *. set (csect := (f_fptr fp / ss) mod csize (fsys s)) in *.
  pose proof (ready_sizes s Hr) as (_ & Hs & Hcs). fold ss in Hs.
  assert (0 <= csect < csize (fsys s)) as Hcsect by (apply Z.mod_pos_bound; lia).
  assert (ss * ((n - bw) / ss) <= n - bw) as Hdiv by (apply Z.mul_div_le; lia).
  assert (at_clust (clean_fil fp) s1) as Hat1.
  { split; rewrite E1, E2; [by apply (links_in_file s)|by rewrite E3, (links_cluster s s1)]. }
  assert (f_sector s (f_obj fp) (f_fptr fp) = f_sector s1 (f_obj (clean_fil fp)) (f_fptr (clean_fil fp))) as Esec.
  { rewrite E1, E2. symmetry. by apply links_sector. }
  assert (ss = ssize (fsys s1)) as Ess1 by (by rewrite Es).
  mstep; [|rewrite Esec, Ess1; apply (fill_round _ bw l s1); try done; by rewrite E2, <- Ess1].
  set (cc := if csize (fsys s) <? csect + (n - bw) / ss then csize (fsys s) - csect else (n - bw) / ss).
  assert (0 < cc <= csize (fsys s) - csect /\ cc <= (n - bw) / ss) as [Hcc Hcc'] by (unfold cc; bdestr; lia).
  mstep. rewrite Esec, Ess1. eapply post_mono.
  { apply (direct_round (clean_fil fp) bw l s1 cc); try done; rewrite ?E2, <- ?Ess1, ?Es; [done|done|nia]. }
  intros r s2 [Hfr2 Hok]. destruct r; cbn [res_ok negb]; mstep; try (eapply write_abort; [done|apply Hw1|apply Hw1|by right]).
  by apply Hok.
Qed.

(** The FAT has the same links: nothing was allocated. *)
Lemma writing_same fp bw l s s' :
  writing fp bw l s -> clust_step s l s' -> same_entries s s' -> writing fp bw l s' /\ (file_inv s fp -> file_inv s' fp).
Proof.
  intros Hw [C1 C2 C3 C4 C5] He. pose proof (wr_base _ _ _ _ Hw) as W1. pose proof (fv_ready _ _ W1) as Hr.
  assert (same_links s s') as Hl.
  { split; [apply C3|]. intros c. unfold follow. rewrite (fat_only_ents s s' C3). bdestr; [|done]. apply He. lia. }
  assert (forall x, data_sect (fsys s) x -> vol s' x = vol s x) as Hv.
  { intros x Hx. pose proof (data_sect_ok s x Hr Hx). apply C3; [lia|tauto|lia]. }
  assert (file_base s' fp) as Hb.
  { apply (file_base_links s); try done. intros Hne _. apply Hv. by destruct (fv_cache _ _ W1) as [[? _]|?]. }
  assert (write_frame s0 l0 s' l) as Hfr.
  { rewrite <- (app_nil_r l). eapply frame_fat; [apply Hw|done|by eapply file_chain_range, Hw| |done|constructor].
    intros x Hx. by eapply chain_nonzero, Hx; apply Hw. }
  split; [|intros Hi; by apply (file_inv_links s s' fp fp)].
  eapply writing_links; try done. intros x Hx. apply f_data_ext; [done|]. by apply Hv.
Qed.

(** The current cluster is the next one of the chain, or a new one. *)
Lemma writing_clust fp bw l s s' k v :
  writing fp bw l s -> clust_step s l s' -> file_chain s' (started v (f_obj fp)) (l ++ k) ->
  Forall (fun c => 2 <= c < n_fatent (fsys s) /\ fat_entry s c = 0) k ->
  (l ++ k) !! Z.to_nat (f_fptr fp / csz s) = Some v -> apart s' (started v (f_obj fp)) (f_sect fp) ->
  let fp' := set_f_obj (started v (f_obj fp)) (set_f_clust v fp) in
  writing fp' bw (l ++ k) s' /\ at_clust fp' s'.
Proof.
  intros Hw [C1 C2 C3 C4 C5] Hc Hk Hlk Hap fp'. destruct (Hw) as [W1 W2 W3 W4 W5 W6 W7 W8 W9 W10].
  pose proof (fv_ready _ _ W1) as Hr. pose proof (csz_pos s Hr) as Hz. assert (geo (fsys s) = geo (fsys s')) as Hg by apply C3.
  assert (csz s' = csz s) as Ecz by (unfold csz_of; by geo_rewrite Hg).
  assert (2 <= v < n_fatent (fsys s)) as Hv.
  { pose proof (file_chain_range _ _ _ Hc) as HR. rewrite Forall_forall, (fat_only_ents s s' C3) in HR.
    apply HR. by eapply list_elem_of_lookup_2. }
  pose proof (ents_u32 _ (fi_fat _ (fr_inv s Hr))) as Hnt.
  assert (forall x, data_sect (fsys s) x -> vol s' x = vol s x) as Hvol.
  { intros x Hx. pose proof (data_sect_ok s x Hr Hx). apply C3; [lia|tauto|lia]. }
  assert (in_file s' (started v (f_obj fp)) (f_fptr fp)) as Hin.
  { apply (chain_in_file s' _ (l ++ k)); [done..|]. rewrite Ecz. split; [lia|]. apply lookup_lt_Some in Hlk.
    assert (f_fptr fp / csz s < zlen (l ++ k)) by (unfold zlen; pose proof (Z.div_pos (f_fptr fp) (csz s)); lia).
    Z.div_mod_to_equations. nia. }
  split.
  - split; try done.
    + destruct W1 as [V1 V2 V4 V7 V8 V9 V10]. split; try done.
      * split; [apply V2|]. assert (fsid (fsys s) = fsid (fsys s')) as <- by exact (f_equal fsid Hg).
        cbn. unfold started. case_match; apply V2.
      * cbn. unfold started. case_match; [cbn; unfold is_u32; lia|done].
      * unfold data_sect in *. by geo_rewrite Hg.
      * assert (ssize (fsys s') = ssize (fsys s)) as -> by (symmetry; exact (f_equal ssize Hg)).
        intros Hne Hd. cbn. rewrite Hvol; [by apply V9|]. by destruct V8 as [[? _]|?].
    + rewrite Ecz. assert (zlen l <= zlen (l ++ k)) by (unfold zlen; rewrite length_app; lia).
      unfold fp'. cbn [f_obj set_f_obj]. unfold started. split; [case_match; apply W4|nia].
    + intros Hd. apply file_sect_app. apply (geo_file_sect (fsys s)); [done|by apply W7].
    + intros i Hi. rewrite <- W8 by done. assert (in_file s (f_obj fp) i) as Hi0 by (apply (chain_in_file s _ l); [done..|lia]).
      assert (f_cluster s' (started v (f_obj fp)) i = f_cluster s (f_obj fp) i) as Ec.
      { assert (in_file s' (started v (f_obj fp)) i) as Hi1.
        { apply (chain_in_file s' _ (l ++ k)); [done..|]. rewrite Ecz. unfold zlen in *. rewrite length_app. nia. }
        pose proof (chain_cluster _ _ _ _ C1 Hc Hi1) as L1. pose proof (chain_cluster _ _ _ _ Hr W3 Hi0) as L0.
        rewrite Ecz, lookup_app_l in L1 by (by eapply lookup_lt_Some). congruence. }
      assert (f_sector s' (started v (f_obj fp)) i = f_sector s (f_obj fp) i) as Esec by (unfold f_sector; rewrite Ec; by geo_rewrite Hg).
      unfold f_byte, f_data. change (f_obj fp') with (started v (f_obj fp)). rewrite Esec, Hvol by (by apply f_sector_data).
      assert (ssize (fsys s') = ssize (fsys s)) as -> by (symmetry; exact (f_equal ssize Hg)). done.
    + eapply frame_fat; [done..|by eapply file_chain_range| |done|done]. intros x Hx. by eapply chain_nonzero.
  - split; [done|]. cbn. pose proof (chain_cluster _ _ _ _ C1 Hc Hin) as L. rewrite Ecz in L. congruence.
Qed.

(** Inside a cluster the current one is the one of the pointer. *)
Lemma inside_clust fp s :
  file_inv s fp -> let ss := ssize (fsys s) in
  f_fptr fp mod ss <> 0 \/ (f_fptr fp / ss) mod csize (fsys s) <> 0 -> at_clust fp s.
Proof.
  intros Hf ss Hne. pose proof (fv_ready _ _ (fv_base _ _ Hf)) as Hr. pose proof (ready_sizes s Hr) as (_ & Hs & Hcs).
  destruct (fv_size _ _ Hf) as [Hp _]. fold ss in Hs. assert (0 < f_fptr fp) as Hp1.
  { destruct (decide (f_fptr fp = 0)) as [E|]; [|lia]. rewrite E, Z.div_0_l, !Z.mod_0_l in Hne by lia. lia. }
  destruct (fv_clust _ _ Hf Hp1) as [Hin Hc].
  assert ((f_fptr fp - 1) / csz s = f_fptr fp / csz s) as Eq by (apply ofs_pred; [lia..|done]).
  split; unfold in_file, f_cluster in *; rewrite <- Eq; [split; [lia|apply Hin]|done].
Qed.

Lemma f_write_step_spec st k s : write_inv st k s -> post (f_write_step buff st) s (fun r s' => write_round r k s').
Proof.
  destruct st as [[fp bw] btw]. intros ([l Hw] & Hf & -> & ->).
  pose proof (fv_ready _ _ (fv_base _ _ Hf)) as Hr. pose proof (ready_sizes s Hr) as (_ & Hs & Hcs).
  destruct (Hw) as [W1 W2 W3 [W4 W4'] W5 W6 W7 W8 W9 W10]. unfold f_write_step, get_fs. mstep.
  { mstep. apply (write_end fp bw l s); [done..|]. left. lia. }
  mstep. apply post_gets. cbn zeta. bdestr.
  2:{ mstep. assert (f_sect fp = f_sector s (f_obj fp) (f_fptr fp)) as Ex by (by apply Hf).
      pose proof (inside_clust fp s Hf (or_introl Hb0)) as Hat.
      replace fp with (set_f_sect (f_sector s (f_obj fp) (f_fptr fp)) (set_f_buf (f_buf fp) fp)) at 1 by (rewrite <- Ex; by destruct fp).
      apply (fit_round fp bw l); try done; [lia|by left|apply W1..|]. intros i Hi _ Eq. symmetry. apply cache_byte; [done..|].
      rewrite Ex. unfold f_sector, f_cluster, csz_of. rewrite (Z.mul_comm (csize (fsys s)) (ssize (fsys s))), <- !Z.div_div, Eq by lia. done. }
  rewrite csect_mod by done. bdestr.
  2:{ apply (write_sect_spec (fsys s) fp bw l s); try done; [by apply inside_clust; [|right]|lia]. }
  mstep. eapply post_mono.
  { apply (write_clust_spec s fp l); try done; [|by apply Hf]. destruct (fv_size _ _ Hf). lia. }
  intros [v fp'] s1 (-> & Hst & Hcase). assert (write_frame s0 l0 s1 l) as Hfr.
  { rewrite <- (app_nil_r l). eapply frame_fat; [done|apply Hst|by eapply file_chain_range| |apply Hst|constructor].
    intros x Hx. by eapply chain_nonzero. }
  destruct Hcase as [[Hno Hz]|(k & Hc & Hk & Hlk & Hap)].
  - destruct Hno as [->|[->| ->]]; unfold DISK_ERR; cbn [Z.eqb Pos.eqb].
    + destruct (Hz eq_refl) as [Hsp He]. destruct (writing_same fp bw l s s1) as [Hw1 Hi1]; [done..|].
      mstep. eapply write_end; [done|by apply Hi1|by right].
    + mstep. by eapply write_abort; [..|left].
    + mstep. by eapply write_abort; [..|right].
  - destruct (writing_clust fp bw l s s1 k v) as [Hw1 Hat1]; try done. pose proof (wr_chain _ _ _ _ Hw1) as Hc1.
    pose proof (file_chain_range _ _ _ Hc1) as HR. rewrite Forall_forall, (fat_only_ents s s1 (cs_only _ _ _ Hst)) in HR.
    pose proof (HR v (list_elem_of_lookup_2 _ _ _ Hlk)) as Hv. pose proof (ents_u32 _ (fi_fat _ (fr_inv s Hr))) as Hnt.
    rewrite !(proj2 (Z.eqb_neq v _)) by lia.
    replace (if sclust (f_obj (set_f_clust v fp)) =? 0 then _ else _)
      with (set_f_obj (started v (f_obj fp)) (set_f_clust v fp)) by (unfold started; cbn; case_match; by destruct fp).
    change (f_fptr fp) with (f_fptr (set_f_obj (started v (f_obj fp)) (set_f_clust v fp))) at 1.
    apply (write_sect_spec (fsys s) _ bw (l ++ k) s1); [done|done|lia|apply Hst|done].
Qed.
End loop.

Section write.
Context {D : Type} `{BlockDeviceLaws D} `{!Heap}.
Implicit Types s : St D.

(** C1: writing to an open file on a FAT volume, whose clusters [l] form a
    well-formed chain that covers its size, returns, with any pattern of disk errors.
    Whatever the result, the entries of the FAT that belong to other files, the sectors
    outside the FAT and the file, and the file's clusters stay; the clusters the file
    gains were free.  On success the bytes written replace those at the pointer, every
    other byte of the file stays, the size is the larger of the old size and the new
    pointer, the clusters form a chain again, and fewer bytes are written than asked for
    only at the 4 GiB limit, or when the count of free clusters, which comes from the
    medium, is 0 or no cluster is free. *)
Theorem f_write_content s fp l buff btw :
  file_inv s fp -> f_err fp = FR_OK -> has (f_flag fp) FA_WRITE = true -> hints_ok s ->
  file_chain s (f_obj fp) l -> objsize (f_obj fp) <= zlen l * csz_of (fsys s) ->
  (dirty fp = true -> file_sect (fsys s) l (f_sect fp)) ->
  0 <= btw < 2 ^ 32 -> btw <= zlen buff -> bytes buff ->
  let p := f_fptr fp in let n := Z.min btw (0xFFFFFFFF - p) in
  post (f_write fp buff btw) s (fun '(r, fp', bw) s' => exists l',
    write_frame s l s' l' /\ 0 <= bw <= n /\ f_fptr fp' = p + bw /\
    (r = FR_OK /\ f_err fp' = FR_OK /\ file_inv s' fp' /\ hints_ok s' /\ file_chain s' (f_obj fp') l' /\
       objsize (f_obj fp') = Z.max (objsize (f_obj fp)) (p + bw) /\ objsize (f_obj fp') <= zlen l' * csz_of (fsys s') /\
       (dirty fp' = true -> file_sect (fsys s') l' (f_sect fp')) /\
       (forall i, 0 <= i < objsize (f_obj fp') -> f_byte s' fp' i =
          if (p <=? i) && (i <? p + bw) then buff.[i - p] else f_byte s fp i) /\
       has (f_flag fp') FA_MODIFIED = true /\ (bw = n \/ no_space s')
     \/ f_err fp' = r /\ (r = FR_INT_ERR \/ r = FR_DISK_ERR))).
Proof.
  intros Hf He Hfl Hh Hc Hsz Hd Hbtw Hl Hb p n. destruct (fv_size _ _ Hf) as [Hp Hsz']. fold p in Hp.
  pose proof (fv_ready _ _ (fv_base _ _ Hf)) as Hr. unfold f_write, get_fs. mstep. apply validate_open; [done|].
  cbn [fr_ok negb]. rewrite He. cbn [fr_ok negb]. rewrite Hfl. cbn [negb]. mstep. apply post_gets.
  rewrite (is_exfat_false _ (fr_type s Hr)). cbn [negb andb].
  assert ((if u32 (f_fptr fp + btw) <? u32 (f_fptr fp) then 0xFFFFFFFF - u32 (f_fptr fp) else btw) = n) as ->.
  { fold p. rewrite (u32_small p) by (unfold is_u32; lia). unfold n. destruct (decide (p + btw < 2 ^ 32)).
    - rewrite u32_small by (unfold is_u32; lia). bdestr; lia.
    - assert (u32 (p + btw) = p + btw - 2 ^ 32) as ->; [|bdestr; lia].
      unfold u32. rewrite <- (Z.mod_add _ (-1)), Z.mod_small by lia. lia. }
  assert (write_inv s fp l buff n (fp, 0, n) n s) as Hinv.
  { split_and!; [|done|lia|done]. exists l. split; try done; try lia.
    - apply Hf.
    - unfold new_size. fold p. lia.
    - intros i Hi. unfold new_byte. fold p. by if_false.
    - apply frame_refl. }
  eapply post_mono.
  { eapply (post_iterate (f_write_step buff) (write_inv s fp l buff n) (write_result s fp l buff n)); [|exact Hinv|unfold n; lia].
    intros st k s1 H1'. apply f_write_step_spec; try done; fold p; unfold n; lia. }
  intros [[r fp'] bw] s' (l' & Hfr & Hbw & Hp' & Hres). exists l'. split_and!; [done|lia..|done|].
  destruct Hres as [(-> & [X1 X2 X3 [X4 X4'] X5 X6 X7 X8 X9 X10] & Hi & Hm & Hn)|?]; [left|by right].
  rewrite <- X4 in X4', X8. split_and!; try done. congruence.
Qed.
End write.
