(* ===== verification/Path.v ===== *)
(** * Path names

    [create_name], [follow_path] and [get_fileinfo] of [src/ff/src/ff/ff.c]: the next
    segment of a path as a long name in the working buffer and a short name in
    directory form, the walk from the root directory to the object of a path, and the
    name and attributes of a directory entry as the caller of the API sees them.

    A path is a list of 16-bit units; reading past its end gives the terminator.  The
    stores to and the reads of the name buffers are checked ([store], [fetch]): an
    index outside of a buffer is undefined behaviour and gives [None], so that the
    theorems which say that the functions return include their memory safety. *)

From stdpp Require Import prelude list.
From Stdlib Require Import ZArith Lia.
From S2P Require Import Prelude Bytes Buffers Unicode Diskio FFTypes Window Fat Bitmap Chain Lfn Dir Dirent Mount File.

Local Open Scope Z_scope.
Local Open Scope cint_scope.

Definition FF_LFN_BUF := 255.
Definition FF_SFN_BUF := 12.
Definition RDDEM := 0x05.

Definition IsUpper (c : Z) : bool := (65 <=? c) && (c <=? 90).
Definition IsLower (c : Z) : bool := (97 <=? c) && (c <=? 122).
Definition IsSeparator (c : Z) : bool := (c =? 47) || (c =? 92).

(** The characters the two calls of [strchr] look for: [* : < > |], the double quote,
    [?] and DEL; [+ , ; =] and the square brackets. *)
Definition lfn_illegal : list Z := [42; 58; 60; 62; 124; 34; 63; 127].
Definition sfn_illegal : list Z := [43; 44; 59; 61; 91; 93].
Definition strchr (s : list Z) (c : Z) : bool := bool_decide (c ∈ s) || (c =? 0).

(** ** [create_name] *)

(** The loop that copies a segment to the working buffer: the buffer alone when the
    name is rejected, else the buffer, the rest of the path, the length and the
    character that ended the segment. *)
Fixpoint name_chars (fuel : nat) (lfn p : list Z) (di : Z) : option (list Z + list Z * list Z * Z * Z) :=
  match fuel with
  | O => None
  | S fuel =>
      let '(uc, p) := tchar2uni p in
      if uc =? 0xFFFFFFFF then Some (inl lfn) else
      '(lfn, di) ← (if 0x10000 <=? uc then lfn ← store lfn di (u16 (Z.shiftr uc 16)); Some (lfn, di + 1)
                    else Some (lfn, di));
      let wc := u16 uc in
      if (wc <? 32) || IsSeparator wc then Some (inr (lfn, p, di, wc)) else
      if (wc <? 0x80) && strchr lfn_illegal wc then Some (inl lfn) else
      if FF_MAX_LFN <=? di then Some (inl lfn) else
      lfn ← store lfn di wc;
      name_chars fuel lfn p (di + 1)
  end.

(** [while (IsSeparator( *p)) p++] *)
Fixpoint skip_separators (p : list Z) : list Z :=
  match p with
  | c :: p' => if IsSeparator c then skip_separators p' else p
  | [] => []
  end.

(** [while (di)]: snip off trailing spaces and dots. *)
Fixpoint snip (fuel : nat) (lfn : list Z) (di : Z) : option Z :=
  match fuel with
  | O => None
  | S fuel =>
      if di =? 0 then Some di else
      wc ← fetch lfn (di - 1);
      if negb (wc =? 32) && negb (wc =? 46) then Some di else snip fuel lfn (di - 1)
  end.

(** [for (si = 0; lfn[si] == ' '; si++)] *)
Fixpoint lead_spaces (fuel : nat) (lfn : list Z) (si : Z) : option Z :=
  match fuel with
  | O => None
  | S fuel => wc ← fetch lfn si; if wc =? 32 then lead_spaces fuel lfn (si + 1) else Some si
  end.

(** [while (di > 0 && lfn[di - 1] != '.') di--] *)
Fixpoint last_dot (fuel : nat) (lfn : list Z) (di : Z) : option Z :=
  match fuel with
  | O => None
  | S fuel =>
      if di =? 0 then Some di else
      wc ← fetch lfn (di - 1);
      if wc =? 46 then Some di else last_dot fuel lfn (di - 1)
  end.

(** The state of the loop that makes the short name. *)
Record sfn_st := mkSfn {
  sn_fn : list Z;
  sn_si : Z;
  sn_i : Z;
  sn_ni : Z;
  sn_b : Z;
  sn_cf : Z
}.

Definition lossy (cf : Z) : Z := Z.lor cf (Z.lor NS_LOSS NS_LFN).

(** The end of a round: the character is stored in the field. *)
Definition sfn_put (wc : Z) (st : sfn_st) : option sfn_st :=
  let 'mkSfn fn si i ni b cf := st in
  let '(wc, cf) :=
    if 0x80 <=? wc then (ff_uni2oem (ff_wtoupper wc) FF_CODE_PAGE, Z.lor cf NS_LFN) else (wc, cf) in
  if 0x100 <=? wc then
    if ni - 1 <=? i then Some (mkSfn fn si ni ni b (lossy cf))
    else
      fn ← store fn i (u8 (Z.shiftr wc 8));
      fn ← store fn (i + 1) (u8 wc);
      Some (mkSfn fn si (i + 2) ni b cf)
  else
    let '(wc, b, cf) :=
      if (wc =? 0) || strchr sfn_illegal wc then (95, b, lossy cf)
      else
        let b := if IsUpper wc then Z.lor b 2 else b in
        if IsLower wc then (wc - 0x20, Z.lor b 1, cf) else (wc, b, cf) in
    fn ← store fn i (u8 wc);
    Some (mkSfn fn si (i + 1) ni b cf).

(** A round: [inl] goes on, [inr] leaves the loop. *)
Definition sfn_step (lfn : list Z) (di : Z) (st : sfn_st) : option (sfn_st + sfn_st) :=
  let 'mkSfn fn si i ni b cf := st in
  wc ← fetch lfn si;
  let si := si + 1 in
  if wc =? 0 then Some (inr (mkSfn fn si i ni b cf)) else
  if (wc =? 32) || (wc =? 46) && negb (si =? di) then Some (inl (mkSfn fn si i ni b (lossy cf))) else
  if (ni <=? i) || (si =? di) then
    if ni =? 11 then Some (inr (mkSfn fn si i ni b (lossy cf))) else
    let cf := if negb (si =? di) then lossy cf else cf in
    if di <? si then Some (inr (mkSfn fn si i ni b cf))
    else Some (inl (mkSfn fn di 8 11 (u8 (Z.shiftl b 2)) cf))
  else
    st ← sfn_put wc (mkSfn fn si i ni b cf);
    Some (inl st).

Fixpoint sfn_loop (fuel : nat) (lfn : list Z) (di : Z) (st : sfn_st) : option sfn_st :=
  match fuel with
  | O => None
  | S fuel =>
      r ← sfn_step lfn di st;
      match r with inl st => sfn_loop fuel lfn di st | inr st => Some st end
  end.

(** From [if (dp->fn[0] == DDEM)] to the end: the short name with its flags. *)
Definition sfn_finish (st : sfn_st) : option (list Z) :=
  let 'mkSfn fn _ _ ni b cf := st in
  c ← fetch fn 0;
  fn ← (if c =? DDEM then store fn 0 RDDEM else Some fn);
  let b := if ni =? 8 then u8 (Z.shiftl b 2) else b in
  let cf := if (Z.land b 0x0C =? 0x0C) || (Z.land b 0x03 =? 0x03) then Z.lor cf NS_LFN else cf in
  let cf :=
    if negb (has cf NS_LFN) then
      let cf := if has b 0x01 then Z.lor cf NS_EXT else cf in
      if has b 0x04 then Z.lor cf NS_BODY else cf
    else cf in
  store fn NSFLAG cf.

(** The second half of the function: the short name of the name in the buffer, [di]
    units long. *)
Definition create_sfn (lfn fn : list Z) (di cf : Z) : option (list Z) :=
  si ← lead_spaces 257 lfn 0;
  wc ← fetch lfn si;
  let cf := if (0 <? si) || (wc =? 46) then lossy cf else cf in
  di ← last_dot 257 lfn di;
  fn ← stores fn 0 (replicate 11 32);
  st ← sfn_loop 258 lfn di (mkSfn fn si 0 8 0 cf);
  sfn_finish st.

(** The result, the working buffer, [dp->fn] and [*path]. *)
Definition make_name (lfn fn path : list Z) : option (FRESULT * list Z * list Z * list Z) :=
  r ← name_chars 257 lfn path 0;
  match r with
  | inl lfn => Some (FR_INVALID_NAME, lfn, fn, path)
  | inr (lfn, p, di, wc) =>
      let '(p, cf) :=
        if wc <? 32 then (p, NS_LAST)
        else
          let p := skip_separators p in
          (p, if IsTerminator p.[0] then NS_LAST else 0) in
      di ← snip 257 lfn di;
      lfn ← store lfn di 0;
      if di =? 0 then Some (FR_INVALID_NAME, lfn, fn, p) else
      fn ← create_sfn lfn fn di cf;
      Some (FR_OK, lfn, fn, p)
  end.

(** ** [get_fileinfo] *)

Record FILINFO := mkFILINFO {
  fi_fsize : Z;
  fi_fdate : Z;
  fi_ftime : Z;
  fi_fattrib : Z;
  fi_altname : list Z;
  fi_fname : list Z
}.

(** A unit of a stored name: [inl] goes on with the name, its length and the pending
    high surrogate, [inr] leaves the loop. *)
Definition info_char (fname : list Z) (di hs wc : Z) : option (list Z * Z * Z + list Z * Z * Z) :=
  if (hs =? 0) && IsSurrogate wc then Some (inl (fname, di, wc)) else
  let us := put_utf (Z.lor (u32 (Z.shiftl hs 16)) wc) (FF_LFN_BUF - di) in
  fname ← stores fname di us;
  if zlen us =? 0 then Some (inr (fname, 0, hs)) else Some (inl (fname, di + zlen us, 0)).

(** [while (nc < fs->dirbuf[XDIR_NumName])] *)
Fixpoint info_xname (n : nat) (dirbuf fname : list Z) (si di hs : Z) : option (list Z * Z * Z) :=
  match n with
  | O => Some (fname, di, hs)
  | S n =>
      if MAXDIRB FF_MAX_LFN <=? si then Some (fname, 0, hs) else
      let si := if si mod SZDIRE =? 0 then si + 2 else si in
      _ ← fetch dirbuf si;
      _ ← fetch dirbuf (si + 1);
      r ← info_char fname di hs (ld_word dirbuf si);
      match r with
      | inl (fname, di, hs) => info_xname n dirbuf fname (si + 2) di hs
      | inr r => Some r
      end
  end.

(** [while (fs->lfnbuf[si] != 0)] *)
Fixpoint info_lname (fuel : nat) (lfnbuf fname : list Z) (si di hs : Z) : option (list Z * Z * Z) :=
  match fuel with
  | O => None
  | S fuel =>
      wc ← fetch lfnbuf si;
      if wc =? 0 then Some (fname, di, hs) else
      r ← info_char fname di hs wc;
      match r with
      | inl (fname, di, hs) => info_lname fuel lfnbuf fname (si + 1) di hs
      | inr r => Some r
      end
  end.

(** [while (si < 11)]: the short name of the entry at [dir] of the window, with a dot
    between its two fields. *)
Fixpoint info_sname (fuel : nat) (w : list Z) (dir : Z) (alt : list Z) (si di : Z) : option (list Z * Z) :=
  match fuel with
  | O => None
  | S fuel =>
      if negb (si <? 11) then Some (alt, di) else
      let wc := w.[dir + si] in
      let si := si + 1 in
      if wc =? 32 then info_sname fuel w dir alt si di else
      let wc := if wc =? RDDEM then DDEM else wc in
      '(alt, di) ← (if (si =? 9) && (di <? FF_SFN_BUF) then alt ← store alt di 46; Some (alt, di + 1)
                    else Some (alt, di));
      let '(wc, si) :=
        if dbc_1st wc && negb (si =? 8) && negb (si =? 11) && dbc_2nd w.[dir + si]
        then (Z.lor (u16 (Z.shiftl wc 8)) w.[dir + si], si + 1) else (wc, si) in
      let wc := ff_oem2uni wc FF_CODE_PAGE in
      if wc =? 0 then Some (alt, 0) else
      let us := put_utf wc (FF_SFN_BUF - di) in
      alt ← stores alt di us;
      if zlen us =? 0 then Some (alt, 0) else info_sname fuel w dir alt si (di + zlen us)
  end.

(** [for (si = di = 0, lcf = NS_BODY; fno->altname[si]; si++, di++)] *)
Fixpoint info_case (fuel : nat) (ntres : Z) (alt fname : list Z) (si lcf : Z) : option (list Z * Z) :=
  match fuel with
  | O => None
  | S fuel =>
      wc ← fetch alt si;
      if wc =? 0 then Some (fname, si) else
      let lcf := if wc =? 46 then NS_EXT else lcf in
      let wc := if IsUpper wc && has ntres lcf then wc + 0x20 else wc in
      fname ← store fname si wc;
      info_case fuel ntres alt fname (si + 1) lcf
  end.

(** The branch for exFAT volumes. *)
Definition info_exfat (dirbuf : list Z) (fno : FILINFO) : option FILINFO :=
  '(fname, di, hs) ← info_xname (Z.to_nat dirbuf.[XDIR_NumName]) dirbuf (fi_fname fno) (SZDIRE * 2) 0 0;
  let di := if negb (hs =? 0) then 0 else di in
  '(fname, di) ← (if di =? 0 then fname ← store fname di 63; Some (fname, di + 1) else Some (fname, di));
  fname ← store fname di 0;
  alt ← store (fi_altname fno) 0 0;
  let attr := Z.land dirbuf.[XDIR_Attr] AM_MASKX in
  Some (mkFILINFO (if has attr AM_DIR then 0 else ld_qword dirbuf XDIR_FileSize)
          (ld_word dirbuf (XDIR_ModTime + 2)) (ld_word dirbuf XDIR_ModTime) attr alt fname).

(** The name of an entry of a FAT volume, long when the entry has one. *)
Definition info_name (lfnbuf w : list Z) (dir blk : Z) (alt fname : list Z) : option (list Z * list Z) :=
  fname ← (if negb (blk =? NO_BLK) then
             '(fname, di, hs) ← info_lname 257 lfnbuf fname 0 0 0;
             store fname (if negb (hs =? 0) then 0 else di) 0
           else Some fname);
  '(alt, di) ← info_sname 12 w dir alt 0 0;
  alt ← store alt di 0;
  c ← fetch fname 0;
  if c =? 0 then
    '(fname, di) ← (if di =? 0 then fname ← store fname di 63; Some (fname, di + 1)
                    else info_case 14 w.[dir + DIR_NTres] alt fname 0 NS_BODY);
    fname ← store fname di 0;
    alt ← (if w.[dir + DIR_NTres] =? 0 then store alt 0 0 else Some alt);
    Some (alt, fname)
  else Some (alt, fname).

Definition get_fileinfo (fs : FATFS) (dp : DIR) (fno : FILINFO) : option FILINFO :=
  fname ← store (fi_fname fno) 0 0;
  let fno := mkFILINFO (fi_fsize fno) (fi_fdate fno) (fi_ftime fno) (fi_fattrib fno) (fi_altname fno) fname in
  if d_sect dp =? 0 then Some fno else
  if is_exfat fs then info_exfat (dirbuf fs) fno else
  '(alt, fname) ← info_name (lfnbuf fs) (win fs) (d_dir dp) (blk_ofs dp) (fi_altname fno) (fi_fname fno);
  Some (mkFILINFO (ld_dword (win fs) (d_dir dp + DIR_FileSize))
          (ld_word (win fs) (d_dir dp + DIR_ModTime + 2)) (ld_word (win fs) (d_dir dp + DIR_ModTime))
          (Z.land (dirb fs dp DIR_Attr) AM_MASK) alt fname).

(** ** [follow_path] *)

Definition set_c_dir (scl size ofs : Z) (o : FFOBJID) : FFOBJID :=
  mkFFOBJID (obj_id o) (obj_attr o) (obj_stat o) (sclust o) (objsize o) (n_cont o) (n_frag o) scl size ofs.

Section code.
Context {D : Type} `{BlockDevice D} `{!Heap}.

Definition create_name (dp : DIR) (path : list Z) : M (St D) (FRESULT * DIR * list Z) :=
  fs ← get_fs;
  match make_name (lfnbuf fs) (d_fn dp) path with
  | None => out_of_fuel
  | Some (res, lfn, fn, path) => upd_fs (set_lfnbuf lfn);; mret (res, set_d_fn fn dp, path)
  end.

(** The object a directory entry designates becomes the directory to search. *)
Definition enter_dir (fs : FATFS) (dp : DIR) : DIR :=
  if is_exfat fs then
    let o := d_obj dp in
    let o := set_c_dir (sclust o) (Z.lor (Z.land (u32 (objsize o)) 0xFFFFFF00) (obj_stat o)) (blk_ofs dp) o in
    set_d_obj (init_alloc_info fs o) dp
  else set_d_obj (set_sclust (ld_clust fs (win fs) (dptr dp mod ssize fs)) (d_obj dp)) dp.

Definition follow_step : DIR * list Z -> M (St D) (DIR * list Z + FRESULT * DIR) := fun '(dp, path) =>
  '(res, dp, path) ← create_name dp path;
  if negb (fr_ok res) then mret (inr (res, dp)) else
  '(res, dp) ← dir_find dp;
  let ns := (d_fn dp).[NSFLAG] in
  if negb (fr_ok res) then
    mret (inr (match res with
               | FR_NO_FILE => if negb (has ns NS_LAST) then FR_NO_PATH else res
               | _ => res
               end, dp))
  else if has ns NS_LAST then mret (inr (res, dp))
  else if negb (has (obj_attr (d_obj dp)) AM_DIR) then mret (inr (FR_NO_PATH, dp))
  else
    fs ← get_fs;
    mret (inl (enter_dir fs dp, path)).

Definition follow_path (dp : DIR) (path : list Z) : M (St D) (FRESULT * DIR) :=
  let path := skip_separators path in
  let dp := set_d_obj (set_n_frag 0 (set_sclust 0 (d_obj dp))) dp in
  if path.[0] <? 32 then dir_sdi (set_d_fn (setb (d_fn dp) NSFLAG NS_NONAME) dp) 0
  else iterate (Z.to_pos (zlen path + 1)) follow_step (dp, path).
End code.
