(* ===== verification/PathName.v ===== *)
(** * The names of path segments

    What [create_name] makes of a segment of a path, and that [get_fileinfo] gives the
    same name back from the long name or, when the flags say that no long name is
    needed, from the short entry alone. *)

From stdpp Require Import prelude list.
From Stdlib Require Import ZArith Lia.
From S2P Require Import Prelude Bytes Buffers Cp932 Unicode Diskio FFTypes Window Fat Bitmap Chain Lfn Dir Dirent Mount File Path.

Local Open Scope Z_scope.
Local Open Scope cint_scope.

(** ** The segment of a path *)

Definition stops (c : Z) : bool := (c <? 32) || IsSeparator c.

Fixpoint segment (p : list Z) : list Z :=
  match p with
  | [] => []
  | c :: p => if stops c then [] else c :: segment p
  end.

(** What is left of the path, from the unit that ends the segment on. *)
Definition beyond (p : list Z) : list Z := drop (length (segment p)) p.

(** The surrogates come in pairs. *)
Fixpoint utf16_ok (l : list Z) : bool :=
  match l with
  | [] => true
  | c :: l =>
      if IsSurrogate c then
        match l with d :: l => IsSurrogateH c && IsSurrogateL d && utf16_ok l | [] => false end
      else utf16_ok l
  end.

Definition legal (c : Z) : bool := negb ((c <? 0x80) && strchr lfn_illegal c).

(** The segments the function accepts, before trailing dots and spaces go. *)
Definition segment_ok (seg : list Z) : bool := utf16_ok seg && forallb legal seg && (zlen seg <=? FF_MAX_LFN).

(** The segment without its trailing spaces and dots. *)
Definition trailing (c : Z) : bool := (c =? 32) || (c =? 46).
Fixpoint strip (l : list Z) : list Z :=
  match l with
  | [] => []
  | c :: l => match strip l with [] => if trailing c then [] else [c] | l => c :: l end
  end.

(** Where the next segment starts, and whether the path ends there. *)
Definition next_segment (p : list Z) : list Z :=
  if (beyond p).[0] <? 32 then drop 1 (beyond p) else skip_separators (drop 1 (beyond p)).
Definition last_segment (p : list Z) : bool :=
  ((beyond p).[0] <? 32) || (IsTerminator (next_segment p).[0]).

(** ** Reading the characters of a segment *)

Lemma pair_value h l : 0xD800 <= h <= 0xDBFF -> 0 <= l < 0x10000 -> Z.lor (u32 (Z.shiftl h 16)) l = l + 2 ^ 16 * h.
Proof.
  intros Hh Hl. rewrite Z.shiftl_mul_pow2, u32_small by (unfold is_u32; lia).
  rewrite <- Z.shiftl_mul_pow2 by lia. apply shl_lor; lia.
Qed.

Lemma surrogate_split c : IsSurrogate c = IsSurrogateH c || IsSurrogateL c.
Proof. unfold IsSurrogate, IsSurrogateH, IsSurrogateL. repeat bdestr; apply eq_true_iff_eq; bprop; lia. Qed.

Lemma surrogate_plain c : IsSurrogate c = true -> stops c = false /\ legal c = true /\ 0xD800 <= c <= 0xDFFF.
Proof.
  unfold IsSurrogate, stops, legal, IsSeparator. intros [H1%Z.leb_le H2%Z.leb_le]%andb_true_iff.
  rewrite (proj2 (Z.ltb_ge c 32)), (proj2 (Z.ltb_ge c 0x80)), !(proj2 (Z.eqb_neq c _)) by lia. done.
Qed.

(** The outcomes of [tchar2uni]: a character, a pair, an error. *)
Lemma tchar2uni_cases c p :
  is_u16 c -> Forall is_u16 p ->
  (IsSurrogate c = false /\ tchar2uni (c :: p) = (c, p)) \/
  (exists d q, p = d :: q /\ IsSurrogateH c = true /\ IsSurrogateL d = true /\
     tchar2uni (c :: p) = (d + 2 ^ 16 * c, q)) \/
  (IsSurrogate c = true /\ tchar2uni (c :: p) = (0xFFFFFFFF, c :: p) /\
     (IsSurrogateH c = true -> forall d q, p = d :: q -> IsSurrogateL d = false)).
Proof.
  intros Hc Hp. unfold tchar2uni. rewrite getb_cons_0. cbn [drop].
  destruct (IsSurrogate c) eqn:Es; [|left; by rewrite drop_0].
  right. destruct p as [|d q].
  { right. cbn. rewrite orb_true_r. split_and!; done. }
  rewrite drop_0, getb_cons_0. cbn [drop]. rewrite drop_0.
  destruct (IsSurrogateH c) eqn:Eh; [destruct (IsSurrogateL d) eqn:El|].
  - left. exists d, q. split_and!; [done..|]. cbn [negb orb].
    pose proof Eh as Eh'. pose proof El as El'. unfold IsSurrogateH, IsSurrogateL in Eh', El'. bprop.
    rewrite pair_value by lia. done.
  - right. split_and!; [done..|]. by intros _ ? ? [= <- <-].
  - right. split_and!; [done..|]. done.
Qed.

(** ** The long name *)

Definition fits (seg : list Z) (di : Z) : bool := utf16_ok seg && forallb legal seg && (di + zlen seg <=? FF_MAX_LFN).

Lemma fits_cons c seg di :
  IsSurrogate c = false -> fits (c :: seg) di = legal c && fits seg (di + 1).
Proof.
  intros Es. unfold fits. cbn [utf16_ok forallb]. rewrite Es, zlen_cons.
  replace (di + (1 + zlen seg)) with (di + 1 + zlen seg) by lia.
  by destruct (legal c), (utf16_ok seg).
Qed.

Lemma fits_pair c d seg di :
  IsSurrogateH c = true -> IsSurrogateL d = true -> fits (c :: d :: seg) di = fits seg (di + 2).
Proof.
  intros Ec Ed. unfold fits. cbn [utf16_ok forallb]. rewrite !zlen_cons.
  destruct (surrogate_plain c) as (_ & -> & _); [by rewrite surrogate_split, Ec|].
  destruct (surrogate_plain d) as (_ & -> & _); [by rewrite surrogate_split, Ed, orb_true_r|].
  rewrite surrogate_split, Ec, Ed. cbn [orb andb].
  by replace (di + (1 + (1 + zlen seg))) with (di + 2 + zlen seg) by lia.
Qed.

Lemma fits_bad c p di :
  IsSurrogate c = true -> (IsSurrogateH c = true -> forall d q, p = d :: q -> IsSurrogateL d = false) ->
  fits (segment (c :: p)) di = false.
Proof.
  intros Es Hb. destruct (surrogate_plain c Es) as (Ep & _ & _). cbn [segment]. rewrite Ep. unfold fits.
  cbn [utf16_ok]. rewrite Es. destruct p as [|d q]; [done|]. cbn [segment].
  destruct (stops d); [done|]. destruct (IsSurrogateH c) eqn:Eh; [|done]. by rewrite (Hb eq_refl d q).
Qed.

Lemma fits_room seg di : fits seg di = true -> di + zlen seg <= 255.
Proof. unfold fits, FF_MAX_LFN. intros H. bprop. lia. Qed.

(** What the loop leaves, from a buffer that starts with [pre]. *)
Definition chars_post (pre p : list Z) (r : option (list Z + list Z * list Z * Z * Z)) : Prop :=
  match r with
  | None => False
  | Some (inl lfn) => fits (segment p) (zlen pre) = false /\ zlen lfn = 256
  | Some (inr (lfn, p', di, wc)) =>
      fits (segment p) (zlen pre) = true /\ di = zlen pre + zlen (segment p) /\ wc = (beyond p).[0] /\
      p' = drop 1 (beyond p) /\ zlen lfn = 256 /\ exists junk, lfn = pre ++ segment p ++ junk
  end.

Lemma chars_post_cons pre c p p1 r :
  segment p = c ++ segment p1 -> beyond p = beyond p1 ->
  fits (segment p) (zlen pre) = fits (segment p1) (zlen (pre ++ c)) ->
  chars_post (pre ++ c) p1 r -> chars_post pre p r.
Proof.
  intros Es Eb Ef. unfold chars_post. rewrite Ef, Es, Eb, !zlen_app.
  destruct r as [[|[[[lfn p'] di] wc]]|]; [done| |done]. intros (? & -> & ? & ? & ? & junk & ->).
  split_and!; [done|lia|done..|]. exists junk. by rewrite <- !app_assoc.
Qed.

Lemma tchar2uni_nil : tchar2uni [] = (0, []).
Proof. done. Qed.

Lemma stops_here pre post p :
  zlen (pre ++ post) = 256 -> zlen pre <= 255 -> segment p = [] ->
  chars_post pre p (Some (inr (pre ++ post, drop 1 p, zlen pre, p.[0]))).
Proof.
  intros Hl Hp E. unfold chars_post, beyond. rewrite E. cbn [length]. rewrite drop_0.
  split_and!; [|change (zlen (@nil Z)) with 0; lia|done..|by exists post].
  unfold fits, FF_MAX_LFN. cbn. bprop. change (zlen (@nil Z)) with 0. lia.
Qed.

Lemma stops_eq c : (c <? 32) || IsSeparator c = stops c.
Proof. done. Qed.

Lemma legal_eq c : (c <? 0x80) && strchr lfn_illegal c = negb (legal c).
Proof. unfold legal. by rewrite negb_involutive. Qed.

Lemma fits_full c seg di : 255 <= di -> fits (c :: seg) di = false.
Proof.
  intros Hd. unfold fits, FF_MAX_LFN. rewrite (proj2 (Z.leb_gt _ _)); [by rewrite andb_false_r|].
  rewrite zlen_cons. pose proof (zlen_nonneg seg). lia.
Qed.

(** The loop is right for a number of rounds. *)
Definition chars_right (fuel : nat) : Prop := forall pre post p,
  Forall is_u16 p -> zlen (pre ++ post) = 256 -> zlen pre <= 255 -> 256 - zlen pre <= Z.of_nat fuel ->
  chars_post pre p (name_chars fuel (pre ++ post) p (zlen pre)).

(** The rounds that follow the ones that stored [cs]. *)
Lemma chars_push fuel pre cs post p p1 di :
  chars_right fuel -> Forall is_u16 p1 -> zlen (pre ++ cs ++ post) = 256 -> di = zlen (pre ++ cs) -> di <= 255 ->
  256 - di <= Z.of_nat fuel -> segment p = cs ++ segment p1 -> beyond p = beyond p1 ->
  fits (segment p) (zlen pre) = fits (segment p1) (zlen pre + zlen cs) ->
  chars_post pre p (name_chars fuel (pre ++ cs ++ post) p1 di).
Proof.
  intros IH Hu Hl -> Hd Hf Es Eb Ef. rewrite app_assoc in *. apply (chars_post_cons pre cs p p1); [done..| |].
  - by rewrite zlen_app.
  - by apply IH.
Qed.

Lemma char_round fuel pre x post c p :
  chars_right fuel -> Forall is_u16 p -> is_u16 c -> IsSurrogate c = false ->
  zlen (pre ++ x :: post) = 256 -> zlen pre <= 255 -> 255 - zlen pre <= Z.of_nat fuel ->
  tchar2uni (c :: p) = (c, p) ->
  chars_post pre (c :: p) (name_chars (S fuel) (pre ++ x :: post) (c :: p) (zlen pre)).
Proof.
  intros IH Hu Hc Es Hl Hp Hf Et. cbn [name_chars]. rewrite Et. unfold is_u16 in Hc.
  rewrite (proj2 (Z.eqb_neq c 0xFFFFFFFF)), (proj2 (Z.leb_gt 0x10000 c)) by lia. cbn [mbind option_bind].
  rewrite u16_small, stops_eq, legal_eq by done.
  destruct (stops c) eqn:Ep.
  { apply (stops_here pre (x :: post) (c :: p)); [done..|]. cbn. by rewrite Ep. }
  assert (segment (c :: p) = c :: segment p) as Eseg by (cbn [segment]; by rewrite Ep).
  destruct (legal c) eqn:El; cbn [negb].
  2:{ split; [|done]. by rewrite Eseg, fits_cons, El. }
  unfold FF_MAX_LFN. destruct (Z.leb_spec 255 (zlen pre)) as [Hge|Hlt].
  { split; [|done]. by rewrite Eseg, fits_full. }
  rewrite store_mid by done. cbn [mbind option_bind].
  apply (chars_push fuel pre [c] post); try done; try lia.
  - rewrite !zlen_app, zlen_cons in *. done.
  - by rewrite zlen_app.
  - unfold beyond. by rewrite Eseg.
  - by rewrite Eseg, fits_cons, El.
Qed.

Lemma pair_round fuel pre x post c d q :
  chars_right fuel -> Forall is_u16 q -> IsSurrogateH c = true -> IsSurrogateL d = true ->
  zlen (pre ++ x :: post) = 256 -> zlen pre <= 255 -> 255 - zlen pre <= Z.of_nat fuel ->
  tchar2uni (c :: d :: q) = (d + 2 ^ 16 * c, q) ->
  chars_post pre (c :: d :: q) (name_chars (S fuel) (pre ++ x :: post) (c :: d :: q) (zlen pre)).
Proof.
  intros IH Hu Ec Ed Hl Hp Hf Et. cbn [name_chars]. rewrite Et.
  pose proof Ec as Ec'. pose proof Ed as Ed'. unfold IsSurrogateH, IsSurrogateL in Ec', Ed'. bprop.
  rewrite (proj2 (Z.eqb_neq _ 0xFFFFFFFF)), (proj2 (Z.leb_le 0x10000 _)) by lia. cbn [mbind option_bind].
  rewrite store_mid by done. cbn [mbind option_bind].
  assert (u16 (Z.shiftr (d + 2 ^ 16 * c) 16) = c) as -> by (rewrite Z.shiftr_div_pow2 by lia; zlia).
  assert (u16 (d + 2 ^ 16 * c) = d) as -> by zlia.
  destruct (surrogate_plain c) as (Sc & _ & _); [by rewrite surrogate_split, Ec|].
  destruct (surrogate_plain d) as (Sd & Ld & _); [by rewrite surrogate_split, Ed, orb_true_r|].
  rewrite stops_eq, legal_eq, Sd, Ld. cbn [negb].
  assert (segment (c :: d :: q) = c :: d :: segment q) as Eseg by (cbn [segment]; by rewrite Sc, Sd).
  rewrite zlen_app, zlen_cons in Hl. pose proof (zlen_nonneg (segment q)).
  unfold FF_MAX_LFN. destruct (Z.leb_spec 255 (zlen pre + 1)) as [Hge|Hlt].
  { split; [rewrite Eseg|by rewrite zlen_app, zlen_cons]. rewrite fits_pair by done. unfold fits, FF_MAX_LFN.
    rewrite (proj2 (Z.leb_gt _ _)) by lia. by rewrite andb_false_r. }
  destruct post as [|y post]; [change (zlen (@nil Z)) with 0 in Hl; lia|]. rewrite zlen_cons in Hl.
  pose proof (store_mid (pre ++ [c]) y post (zlen pre + 1) d) as Hst. rewrite <- !app_assoc in Hst. cbn [app] in Hst.
  rewrite Hst by (by rewrite zlen_app). cbn [mbind option_bind].
  apply (chars_push fuel pre [c; d] post); try done; try lia.
  - rewrite !zlen_app. change (zlen [c; d]) with 2. lia.
  - rewrite zlen_app. change (zlen [c; d]) with 2. lia.
  - unfold beyond. by rewrite Eseg.
  - rewrite Eseg. by apply fits_pair.
Qed.

Lemma name_chars_spec fuel : chars_right fuel.
Proof.
  induction fuel as [|fuel IH]; intros pre post p Hu Hl Hp Hf; [lia|].
  destruct p as [|c p]; [by apply (stops_here pre post [])|].
  apply Forall_cons in Hu as [Hc Hu].
  destruct (room pre post 256 Hl ltac:(lia)) as (x & post' & ->).
  destruct (tchar2uni_cases c p Hc Hu) as [[Es Et]|[(d & q & -> & Ec & Ed & Et)|(Es & Et & Hb)]].
  - apply char_round; try done. lia.
  - apply Forall_cons in Hu as [_ Hu]. apply pair_round; try done. lia.
  - cbn [name_chars]. rewrite Et, Z.eqb_refl. split; [by apply fits_bad|done].
Qed.

(** ** The snipped name, its last dot and its leading spaces *)

Lemma strip_snoc l c : strip (l ++ [c]) = if trailing c then strip l else l ++ [c].
Proof.
  induction l as [|a l IH]; [done|]. cbn [app strip]. rewrite IH.
  destruct (trailing c); [done|]. by destruct l.
Qed.

Lemma strip_app l : exists t, l = strip l ++ t.
Proof.
  induction l as [|c l [t IH]] using rev_ind; [by exists []|]. rewrite strip_snoc.
  destruct (trailing c); [|by exists []; rewrite app_nil_r].
  exists (t ++ [c]). by rewrite app_assoc, <- IH.
Qed.

Lemma strip_last l c : strip l = l -> last l = Some c -> trailing c = false.
Proof.
  destruct l as [|x k _] using rev_ind; [done|]. rewrite strip_snoc, last_snoc.
  intros E [= ->]. destruct (trailing c); [|done]. destruct (strip_app k) as [t Hk].
  apply (f_equal length) in E. rewrite Hk in E at 2. rewrite !length_app in E. cbn in E. lia.
Qed.

Lemma strip_idem l : strip (strip l) = strip l.
Proof.
  induction l as [|c l IH] using rev_ind; [done|]. rewrite strip_snoc.
  destruct (trailing c) eqn:E; [done|]. by rewrite strip_snoc, E.
Qed.

Lemma snip_spec fuel seg junk :
  (length seg < fuel)%nat -> snip fuel (seg ++ junk) (zlen seg) = Some (zlen (strip seg)).
Proof.
  revert seg junk. induction fuel as [|fuel IH]; intros seg junk Hf; [lia|]. cbn [snip].
  destruct seg as [|c l _] using rev_ind; [done|]. rewrite zlen_app in *.
  change (zlen [c]) with 1. pose proof (zlen_nonneg l). rewrite (proj2 (Z.eqb_neq _ 0)) by lia.
  replace (zlen l + 1 - 1) with (zlen l) by lia. rewrite <- app_assoc. cbn [app].
  rewrite fetch_mid by done. cbn [mbind option_bind]. rewrite strip_snoc.
  replace (negb (c =? 32) && negb (c =? 46)) with (negb (trailing c)) by (unfold trailing; by rewrite negb_orb).
  destruct (trailing c); cbn [negb].
  - apply IH. rewrite length_app in Hf. cbn in Hf. lia.
  - by rewrite zlen_app.
Qed.

(** [E] is the place after the last dot, 0 when there is none. *)
Definition dot_at (name : list Z) (E : Z) : Prop :=
  (E = 0 /\ (46 ∉ name)) \/ exists body ext, name = body ++ 46 :: ext /\ (46 ∉ ext) /\ E = zlen body + 1.

Lemma dot_at_range name E : dot_at name E -> 0 <= E <= zlen name.
Proof.
  intros [[-> _]|(body & ext & -> & _ & ->)]; [pose proof (zlen_nonneg name); lia|].
  rewrite zlen_app, zlen_cons. pose proof (zlen_nonneg body). pose proof (zlen_nonneg ext). lia.
Qed.

Lemma last_dot_spec fuel name junk :
  (length name < fuel)%nat -> exists E, last_dot fuel (name ++ junk) (zlen name) = Some E /\ dot_at name E.
Proof.
  revert name junk. induction fuel as [|fuel IH]; intros name junk Hf; [lia|]. cbn [last_dot].
  destruct name as [|c l _] using rev_ind.
  { exists 0. split; [done|]. left. split; [done|]. apply not_elem_of_nil. }
  rewrite zlen_app in *. change (zlen [c]) with 1. pose proof (zlen_nonneg l).
  rewrite (proj2 (Z.eqb_neq _ 0)) by lia. replace (zlen l + 1 - 1) with (zlen l) by lia.
  rewrite <- app_assoc. cbn [app]. rewrite fetch_mid by done. cbn [mbind option_bind].
  destruct (Z.eqb_spec c 46) as [->|Hc].
  { exists (zlen l + 1). split; [done|]. right. exists l, []. split_and!; [done|apply not_elem_of_nil|done]. }
  rewrite length_app in Hf. cbn in Hf. destruct (IH l (c :: junk)) as (E & Hl & HE); [lia|].
  exists E. split; [done|]. destruct HE as [[-> Hn]|(body & ext & -> & Hn & ->)].
  - left. split; [done|]. rewrite elem_of_app, list_elem_of_singleton. intros [?|?]; [done|congruence].
  - right. exists body, (ext ++ [c]). split_and!; [by rewrite <- app_assoc| |done].
    rewrite elem_of_app, list_elem_of_singleton. intros [?|?]; [done|congruence].
Qed.

(** The leading spaces end at the terminator at the latest. *)
Lemma lead_spaces_spec fuel name junk k :
  0 <= k <= zlen name -> zlen name - k < Z.of_nat fuel -> zlen (name ++ 0 :: junk) = 256 ->
  exists si, lead_spaces fuel (name ++ 0 :: junk) k = Some si /\ k <= si <= zlen name /\
    ((name ++ 0 :: junk).[k] <> 32 -> si = k).
Proof.
  intros Hk Hf Hl. revert k Hk Hf. induction fuel as [|fuel IH]; intros k Hk Hf; [lia|]. cbn [lead_spaces].
  rewrite zlen_app, zlen_cons in Hl. pose proof (zlen_nonneg junk).
  rewrite fetch_some by (rewrite zlen_app, zlen_cons; lia). cbn [mbind option_bind].
  destruct (Z.eqb_spec ((name ++ 0 :: junk).[k]) 32) as [E|N].
  - assert (k <> zlen name) by (intros ->; by rewrite getb_app_mid in E).
    destruct (IH (k + 1)) as (si & Hs & Hr & _); [lia..|]. exists si. split_and!; [done|lia..|done].
  - exists k. split_and!; [done|lia..|done].
Qed.

(** ** The short name: bounds and flags *)

Lemma has_lor a b m : has (Z.lor a b) m = has a m || has b m.
Proof.
  unfold has. rewrite Z.land_lor_distr_l. apply eq_true_iff_eq. bprop. rewrite Z.lor_eq_0_iff. lia.
Qed.

Lemma is_u8_lor a b : is_u8 a -> is_u8 b -> is_u8 (Z.lor a b).
Proof.
  unfold is_u8. intros Ha Hb. split; [apply Z.lor_nonneg; lia|].
  destruct (Z.eq_dec (Z.lor a b) 0) as [->|Hn]; [done|].
  apply Z.log2_lt_pow2; [pose proof (proj2 (Z.lor_nonneg a b)); lia|].
  rewrite Z.log2_lor by lia. apply Z.max_lub_lt.
  - destruct (Z.eq_dec a 0) as [->|]; [done|]. apply Z.log2_lt_pow2; lia.
  - destruct (Z.eq_dec b 0) as [->|]; [done|]. apply Z.log2_lt_pow2; lia.
Qed.

(** The flags that [create_name] does not use keep their value. *)
Definition NS_OTHERS := Z.lor NS_LAST (Z.lor NS_DOT (Z.lor NS_NOLFN NS_NONAME)).
Definition cf_from (cf0 cf : Z) : Prop := is_u8 cf /\ Z.land cf NS_OTHERS = Z.land cf0 NS_OTHERS.

Lemma cf_from_lor cf0 cf b : is_u8 b -> Z.land b NS_OTHERS = 0 -> cf_from cf0 cf -> cf_from cf0 (Z.lor cf b).
Proof.
  intros Hb Hm [Hc Ho]. split; [by apply is_u8_lor|]. by rewrite Z.land_lor_distr_l, Hm, Z.lor_0_r.
Qed.

Lemma cf_from_lossy cf0 cf : cf_from cf0 cf -> cf_from cf0 (lossy cf).
Proof. by apply cf_from_lor. Qed.
Lemma cf_from_lfn cf0 cf : cf_from cf0 cf -> cf_from cf0 (Z.lor cf NS_LFN).
Proof. by apply cf_from_lor. Qed.
#[local] Hint Resolve cf_from_lossy cf_from_lfn : ff.

Lemma cf_from_has cf0 cf m : Z.land NS_OTHERS m = m -> cf_from cf0 cf -> has cf m = has cf0 m.
Proof.
  intros Hm [_ E]. unfold has. rewrite <- Hm, !Z.land_assoc, E. done.
Qed.

Record sfn_ok (n cf0 : Z) (st : sfn_st) : Prop := {
  so_len : zlen (sn_fn st) = 12;
  so_bytes : bytes (sn_fn st);
  so_first : (sn_fn st).[0] <> 0;
  so_si : 0 <= sn_si st <= n;
  so_i : 0 <= sn_i st <= sn_ni st;
  so_ni : sn_ni st = 8 \/ sn_ni st = 11;
  so_cf : cf_from cf0 (sn_cf st)
}.

Lemma fn_store fn i v :
  zlen fn = 12 -> bytes fn -> fn.[0] <> 0 -> 0 <= i < 12 -> is_u8 v -> v <> 0 \/ i <> 0 ->
  exists fn', store fn i v = Some fn' /\ zlen fn' = 12 /\ bytes fn' /\ fn'.[0] <> 0.
Proof.
  intros Hl Hb H0 Hi Hv Hn. exists (setb fn i v). rewrite store_some, zlen_setb by lia.
  split_and!; [done..|by apply bytes_setb|]. destruct (Z.eq_dec i 0) as [->|].
  - rewrite getb_setb_eq by lia. lia.
  - by rewrite getb_setb_ne by lia.
Qed.

Lemma oem_u16 c : 0 <= c < 0x10000 -> 0 <= ff_uni2oem (ff_wtoupper c) FF_CODE_PAGE < 0x10000.
Proof.
  intros Hc. assert (0 <= ff_wtoupper c < 0x10000) as Hu.
  { destruct (wtoupper_cases c Hc) as [_ [->|[? _]]]; lia. }
  unfold ff_uni2oem, FF_CODE_PAGE. destruct (Z.ltb_spec (ff_wtoupper c) 0x80); [lia|].
  rewrite (proj2 (Z.ltb_lt _ _)) by lia. cbn [andb Z.eqb Pos.eqb].
  destruct (Z.eq_dec (lookup_cp uni2oem932 (ff_wtoupper c)) 0) as [->|Hn]; [lia|].
  pose proof (cp932_range _ _ (lookup_cp_out _ _ _ uni2oem932_ok Hn)). lia.
Qed.

(** The character that reaches the field. *)
Definition sfn_sbc (wc b cf : Z) : Z * Z * Z :=
  if (wc =? 0) || strchr sfn_illegal wc then (95, b, lossy cf)
  else
    let b := if IsUpper wc then Z.lor b 2 else b in
    if IsLower wc then (wc - 0x20, Z.lor b 1, cf) else (wc, b, cf).

Lemma sfn_sbc_ok cf0 wc b cf wc' b' cf' :
  0 <= wc < 0x100 -> cf_from cf0 cf -> sfn_sbc wc b cf = (wc', b', cf') ->
  0 < wc' < 0x100 /\ cf_from cf0 cf'.
Proof.
  intros Hw Hc. unfold sfn_sbc, IsLower. destruct ((wc =? 0) || strchr sfn_illegal wc) eqn:E.
  { intros [= <- <- <-]. auto with ff lia. }
  bprop. destruct ((97 <=? wc) && (wc <=? 122)) eqn:El; intros [= <- <- <-]; bprop; split; (done || lia).
Qed.

Lemma sfn_put_ok n cf0 wc fn si i ni b cf :
  0 < wc < 0x10000 -> sfn_ok n cf0 (mkSfn fn si i ni b cf) -> i < ni ->
  exists st, sfn_put wc (mkSfn fn si i ni b cf) = Some st /\ sfn_ok n cf0 st /\ sn_si st = si.
Proof.
  intros Hw [Hl Hb H0 Hsi Hi Hni Hcf] Hlt. cbn [sn_fn sn_si sn_i sn_ni sn_b sn_cf] in *. unfold sfn_put.
  destruct (if 0x80 <=? wc then _ else _) as [wc1 cf1] eqn:E1.
  assert (0 <= wc1 < 0x10000 /\ cf_from cf0 cf1) as [Hw1 Hcf1].
  { destruct (0x80 <=? wc); injection E1 as <- <-; auto using oem_u16 with ff lia. }
  destruct (Z.leb_spec 0x100 wc1) as [Hd|Hs].
  - destruct (Z.leb_spec (ni - 1) i).
    { eexists. split; [done|]. split; [|done]. split; cbn; auto with ff lia. }
    destruct (fn_store fn i (u8 (Z.shiftr wc1 8))) as (fn1 & -> & Hl1 & Hb1 & H01); auto with ff; [lia| |].
    { left. rewrite Z.shiftr_div_pow2 by lia. zlia. }
    cbn [mbind option_bind].
    destruct (fn_store fn1 (i + 1) (u8 wc1)) as (fn2 & -> & Hl2 & Hb2 & H02); auto with ff lia.
    cbn [mbind option_bind]. eexists. split; [done|]. split; [|done]. split; cbn; auto with lia.
  - fold (sfn_sbc wc1 b cf1). destruct (sfn_sbc wc1 b cf1) as [[wc2 b2] cf2] eqn:E2.
    destruct (sfn_sbc_ok cf0 wc1 b cf1 wc2 b2 cf2 ltac:(lia) Hcf1 E2) as [Hw2 Hcf2].
    rewrite u8_small by (unfold is_u8; lia).
    destruct (fn_store fn i wc2) as (fn1 & -> & Hl1 & Hb1 & H01); auto with lia; [unfold is_u8; lia|].
    cbn [mbind option_bind]. eexists. split; [done|]. split; [|done]. split; cbn; auto with lia.
Qed.

(** Units of names. *)
Definition unit_ok (c : Z) : Prop := 0 < c < 0x10000.

Lemma name_unit name junk k :
  Forall unit_ok name -> 0 <= k < zlen name -> 0 < (name ++ junk).[k] < 0x10000.
Proof.
  intros Hn Hk. rewrite getb_app_l by done. rewrite Forall_lookup in Hn. unfold zlen in Hk.
  destruct (lookup_lt_is_Some_2 name (Z.to_nat k)) as [v Hv]; [lia|].
  rewrite (getb_lookup _ _ v) by (done || lia). by eapply Hn.
Qed.

(** A round keeps the invariant and moves on in the name. *)
Lemma sfn_step_ok name junk E cf0 st :
  Forall unit_ok name -> zlen (name ++ 0 :: junk) = 256 -> 0 <= E <= zlen name -> sfn_ok (zlen name) cf0 st ->
  exists r, sfn_step (name ++ 0 :: junk) E st = Some r /\
    match r with
    | inl st' => sfn_ok (zlen name) cf0 st' /\ sn_si st < sn_si st'
    | inr st' => sfn_ok (zlen name + 1) cf0 st'
    end.
Proof.
  intros Hn Hl HE [Hfn Hb H0 Hsi Hi Hni Hcf]. destruct st as [fn si i ni b cf].
  cbn [sn_fn sn_si sn_i sn_ni sn_b sn_cf] in *. cbn [sfn_step]. rewrite zlen_app, zlen_cons in Hl.
  pose proof (zlen_nonneg junk). rewrite fetch_some by (rewrite zlen_app, zlen_cons; lia). cbn [mbind option_bind].
  set (wc := (name ++ 0 :: junk).[si]).
  assert (sfn_ok (zlen name + 1) cf0 (mkSfn fn (si + 1) i ni b cf)) as Hout by (split; cbn; auto with lia).
  destruct (Z.eqb_spec wc 0) as [|Hwc]; [by eexists|].
  assert (si < zlen name) as Hlt.
  { destruct (Z.eq_dec si (zlen name)) as [E0|]; [|lia]. unfold wc in Hwc. rewrite E0, getb_app_mid in Hwc. done. }
  destruct ((wc =? 32) || _); [eexists; split; [done|]; split; [split|]; cbn; auto with ff lia|].
  destruct ((ni <=? i) || (si + 1 =? E)) eqn:Ef.
  - destruct (Z.eqb_spec ni 11); [eexists; split; [done|]; split; cbn; auto with ff lia|].
    set (cf1 := if negb (si + 1 =? E) then lossy cf else cf).
    assert (cf_from cf0 cf1) by (unfold cf1; destruct (negb _); auto with ff).
    destruct (Z.ltb_spec E (si + 1)); [eexists; split; [done|]; split; cbn; auto with ff lia|].
    eexists; split; [done|]; split; [split|]; cbn; auto with ff lia.
  - bprop. destruct (sfn_put_ok (zlen name) cf0 wc fn (si + 1) i ni b cf) as (st & -> & Hst & Es).
    + apply name_unit; [done|lia].
    + split; cbn; auto with lia.
    + lia.
    + eexists. split; [done|]. split; [done|]. rewrite Es. lia.
Qed.

Lemma sfn_loop_ok fuel name junk E cf0 st :
  Forall unit_ok name -> zlen (name ++ 0 :: junk) = 256 -> 0 <= E <= zlen name -> sfn_ok (zlen name) cf0 st ->
  zlen name - sn_si st < Z.of_nat fuel ->
  exists st', sfn_loop fuel (name ++ 0 :: junk) E st = Some st' /\ sfn_ok (zlen name + 1) cf0 st'.
Proof.
  intros Hn Hl HE. revert st. induction fuel as [|fuel IH]; intros st Hst Hf.
  { pose proof (so_si _ _ _ Hst). lia. }
  cbn [sfn_loop]. destruct (sfn_step_ok name junk E cf0 st) as ([st'|st'] & -> & Hr); [done..| |by exists st'].
  destruct Hr as [Hst' Hlt]. cbn [mbind option_bind]. apply IH; [done|]. lia.
Qed.

(** The flags at the end. *)
Definition case_flags (b cf : Z) : Z :=
  let cf := if (Z.land b 0x0C =? 0x0C) || (Z.land b 0x03 =? 0x03) then Z.lor cf NS_LFN else cf in
  if negb (has cf NS_LFN) then
    let cf := if has b 0x01 then Z.lor cf NS_EXT else cf in
    if has b 0x04 then Z.lor cf NS_BODY else cf
  else cf.

Lemma case_flags_from cf0 b cf : cf_from cf0 cf -> cf_from cf0 (case_flags b cf).
Proof.
  intros Hc. unfold case_flags.
  set (cf1 := if (Z.land b 0x0C =? 0x0C) || _ then _ else cf).
  assert (cf_from cf0 cf1) by (unfold cf1; destruct (_ || _); auto with ff).
  destruct (negb _); [|done]. cbn zeta. destruct (has b 4), (has b 1); auto using cf_from_lor.
  - by apply cf_from_lor, cf_from_lor.
  - by apply cf_from_lor.
  - by apply cf_from_lor.
Qed.

(** What every short name satisfies: its first byte marks neither the end of the table
    nor a deleted entry. *)
Record short_ok (cf0 : Z) (fn : list Z) : Prop := {
  sh_len : zlen fn = 12;
  sh_bytes : bytes fn;
  sh_first : fn.[0] <> 0 /\ fn.[0] <> DDEM;
  sh_flags : cf_from cf0 fn.[NSFLAG]
}.

Lemma sfn_finish_ok n cf0 st :
  sfn_ok n cf0 st -> exists fn, sfn_finish st = Some fn /\ short_ok cf0 fn.
Proof.
  intros [Hfn Hb H0 Hsi Hi Hni Hcf]. destruct st as [fn si i ni b cf].
  cbn [sn_fn sn_si sn_i sn_ni sn_b sn_cf] in *. cbn [sfn_finish].
  rewrite fetch_some by lia. cbn [mbind option_bind].
  assert (exists fn1, (if fn.[0] =? DDEM then store fn 0 RDDEM else Some fn) = Some fn1 /\
    zlen fn1 = 12 /\ bytes fn1 /\ fn1.[0] <> 0 /\ fn1.[0] <> DDEM) as (fn1 & -> & Hl1 & Hb1 & H1 & H2).
  { destruct (Z.eqb_spec fn.[0] DDEM) as [Ed|Nd]; [|by exists fn].
    exists (setb fn 0 RDDEM). rewrite store_some, zlen_setb, getb_setb_eq by lia.
    split_and!; [done..| |done|done]. by apply bytes_setb. }
  cbn [mbind option_bind]. set (b1 := if ni =? 8 then _ else b).
  pose proof (case_flags_from cf0 b1 cf Hcf) as Hf. fold (case_flags b1 cf).
  exists (setb fn1 NSFLAG (case_flags b1 cf)). unfold NSFLAG. rewrite store_some by lia. split; [done|].
  split; rewrite ?zlen_setb; [done|apply bytes_setb; [done|apply Hf]| |].
  - by rewrite getb_setb_ne by lia.
  - unfold NSFLAG. by rewrite getb_setb_eq by lia.
Qed.

(** The state the loop starts from. *)
Lemma create_sfn_eq name junk fn cf :
  zlen (name ++ 0 :: junk) = 256 -> zlen fn = 12 -> bytes fn -> is_u8 cf ->
  exists si E x, 0 <= si <= zlen name /\ dot_at name E /\
    let cf1 := if (0 <? si) || ((name ++ 0 :: junk).[si] =? 46) then lossy cf else cf in
    let st0 := mkSfn (replicate 11 32 ++ [x]) si 0 8 0 cf1 in
    create_sfn (name ++ 0 :: junk) fn (zlen name) cf
      = (st ← sfn_loop 258 (name ++ 0 :: junk) E st0; sfn_finish st) /\
    sfn_ok (zlen name) cf st0.
Proof.
  intros Hl Hf Hb Hc. pose proof Hl as Hl'. rewrite zlen_app, zlen_cons in Hl'.
  pose proof (zlen_nonneg junk). pose proof (zlen_nonneg name). unfold create_sfn.
  destruct (lead_spaces_spec 257 name junk 0) as (si & -> & Hsi & _); [lia..|done|]. cbn [mbind option_bind].
  rewrite fetch_some by lia. cbn [mbind option_bind].
  destruct (last_dot_spec 257 name (0 :: junk)) as (E & -> & HE); [unfold zlen in *; lia|]. cbn [mbind option_bind].
  assert (stores fn 0 (replicate 11 32) = Some (replicate 11 32 ++ drop 11 fn)) as ->.
  { rewrite <- (take_drop 11 fn) at 1. apply (stores_mid [] (take 11 fn)); [done|].
    rewrite length_replicate, length_take. unfold zlen in Hf. lia. }
  assert (exists x, drop 11 fn = [x] /\ is_u8 x) as (x & -> & Hx).
  { pose proof (Forall_drop _ 11 _ Hb) as Hd. assert (length (drop 11 fn) = 1%nat) as Hd1 by (rewrite length_drop; unfold zlen in Hf; lia).
    destruct (drop 11 fn) as [|x [|]]; [done| |done]. apply Forall_cons in Hd as [? _]. by exists x. }
  exists si, E, x. split; [lia|]. split; [done|]. cbn zeta. split; [done|].
  split; cbn [sn_fn sn_si sn_i sn_ni sn_b sn_cf]; auto with lia.
  - apply Forall_app. split; [by apply Forall_replicate|by constructor].
  - destruct (_ || _); [apply cf_from_lossy|]; by split.
Qed.

Lemma create_sfn_ok name junk fn cf :
  Forall unit_ok name -> zlen (name ++ 0 :: junk) = 256 -> zlen fn = 12 -> bytes fn -> is_u8 cf ->
  exists fn', create_sfn (name ++ 0 :: junk) fn (zlen name) cf = Some fn' /\ short_ok cf fn'.
Proof.
  intros Hn Hl Hf Hb Hc. destruct (create_sfn_eq name junk fn cf) as (si & E & x & Hsi & HE & -> & Hok); [done..|].
  apply dot_at_range in HE. pose proof Hl as Hl'. rewrite zlen_app, zlen_cons in Hl'. pose proof (zlen_nonneg junk).
  eapply (sfn_loop_ok 258) in Hok as (st & -> & Hst); [|done..|cbn; lia].
  cbn [mbind option_bind]. by eapply sfn_finish_ok.
Qed.

Lemma segment_units p : Forall is_u16 p -> Forall unit_ok (segment p).
Proof.
  induction 1 as [|c p Hc _ IH]; [done|]. cbn [segment]. destruct (stops c) eqn:E; [done|].
  constructor; [|done]. unfold stops in E. bprop. destruct E. unfold unit_ok, is_u16 in *. lia.
Qed.

Lemma strip_units l : Forall unit_ok l -> Forall unit_ok (strip l).
Proof. intros H. destruct (strip_app l) as [t E]. rewrite E in H. by apply Forall_app in H as [? _]. Qed.

Lemma lfn_holds_app name junk : zlen (name ++ 0 :: junk) = 256 -> lfn_holds (name ++ 0 :: junk) name.
Proof.
  intros Hl. split_and!; [done| |apply getb_app_mid]. intros k Hk. by apply getb_app_l.
Qed.

(** The second half of [create_name], when the segment has been copied. *)
Definition seg_flags (p : list Z) : Z := if last_segment p then NS_LAST else 0.

Lemma make_name_eq lfn fn p :
  zlen lfn = 256 -> Forall is_u16 p -> segment_ok (segment p) = true ->
  exists junk, zlen (strip (segment p) ++ 0 :: junk) = 256 /\
    make_name lfn fn p =
      if zlen (strip (segment p)) =? 0 then Some (FR_INVALID_NAME, strip (segment p) ++ 0 :: junk, fn, next_segment p)
      else
        fn' ← create_sfn (strip (segment p) ++ 0 :: junk) fn (zlen (strip (segment p))) (seg_flags p);
        Some (FR_OK, strip (segment p) ++ 0 :: junk, fn', next_segment p).
Proof.
  intros Hl Hu Hok. pose proof (name_chars_spec 257 [] lfn p Hu Hl ltac:(done) ltac:(done)) as Hr.
  unfold make_name. change (zlen (@nil Z)) with 0 in *. cbn [app] in Hr.
  destruct (name_chars 257 lfn p 0) as [[l|[[[l p'] di] wc]]|]; [|cbn [mbind option_bind]|done].
  { destruct Hr as [Hr _]. unfold fits in Hr. unfold segment_ok in Hok. rewrite Z.add_0_l in Hr. congruence. }
  destruct Hr as (_ & -> & -> & -> & Hl2 & tl & ->). cbn [app] in Hl2.
  assert (zlen (segment p) <= 255) by (unfold segment_ok, FF_MAX_LFN in Hok; bprop; lia).
  cbn [app]. change (zlen (@nil Z) + zlen (segment p)) with (zlen (segment p)).
  rewrite snip_spec by (unfold zlen in *; lia).
  destruct (strip_app (segment p)) as [t Et].
  assert (zlen (strip (segment p)) <= zlen (segment p)) as Hle.
  { rewrite Et at 2. rewrite zlen_app. pose proof (zlen_nonneg t). lia. }
  assert (segment p ++ tl = strip (segment p) ++ t ++ tl) as E by (rewrite Et at 1; by rewrite <- app_assoc).
  rewrite E in Hl2 |- *. destruct (room _ _ _ Hl2 ltac:(lia)) as (x & junk & Ej). rewrite Ej in *.
  exists junk. split; [by rewrite zlen_app, zlen_cons in *|].
  unfold next_segment, seg_flags, last_segment, next_segment.
  destruct ((beyond p).[0] <? 32); cbn [mbind option_bind orb]; rewrite store_mid by done; done.
Qed.

Lemma zlen_zero {A} (l : list A) : zlen l = 0 <-> l = [].
Proof. unfold zlen. split; [destruct l; [done|cbn; lia]|by intros ->]. Qed.

Lemma seg_flags_u8 p : is_u8 (seg_flags p) /\ has (seg_flags p) NS_LAST = last_segment p /\
  has (seg_flags p) NS_LFN = false /\ Z.land (seg_flags p) NS_OTHERS = seg_flags p.
Proof. unfold seg_flags. by destruct (last_segment p). Qed.

Lemma make_name_bad lfn fn p :
  zlen lfn = 256 -> Forall is_u16 p -> segment_ok (segment p) = false ->
  exists l, make_name lfn fn p = Some (FR_INVALID_NAME, l, fn, p) /\ zlen l = 256.
Proof.
  intros Hl Hu Hok. pose proof (name_chars_spec 257 [] lfn p Hu Hl ltac:(done) ltac:(done)) as Hr. cbn [app] in Hr.
  unfold make_name. change (zlen (@nil Z)) with 0 in *.
  destruct (name_chars 257 lfn p 0) as [[l|[[[l p'] di] wc]]|]; [| |done].
  - destruct Hr as [_ Hl']. by eexists.
  - destruct Hr as [Hr _]. unfold fits in Hr. unfold segment_ok in Hok. rewrite Z.add_0_l in Hr. congruence.
Qed.

(** The names that are accepted. *)
Definition name_ok (p : list Z) : bool := segment_ok (segment p) && negb (zlen (strip (segment p)) =? 0).

Lemma make_name_reject lfn fn p :
  zlen lfn = 256 -> Forall is_u16 p -> name_ok p = false ->
  exists l q, make_name lfn fn p = Some (FR_INVALID_NAME, l, fn, q) /\ zlen l = 256.
Proof.
  intros Hl Hu Hn. unfold name_ok in Hn. destruct (segment_ok (segment p)) eqn:Hok; cbn [andb] in Hn.
  - destruct (make_name_eq lfn fn p Hl Hu Hok) as (junk & Hj & ->). apply negb_false_iff in Hn. rewrite Hn. by eexists _, _.
  - destruct (make_name_bad lfn fn p Hl Hu Hok) as (l & -> & Hl'). by eexists _, _.
Qed.

Lemma make_name_good lfn fn p :
  zlen lfn = 256 -> zlen fn = 12 -> bytes fn -> Forall is_u16 p -> name_ok p = true ->
  exists lfn' fn', make_name lfn fn p = Some (FR_OK, lfn', fn', next_segment p) /\
    lfn_holds lfn' (strip (segment p)) /\ short_ok (seg_flags p) fn'.
Proof.
  intros Hl Hf Hb Hu [Hok Hne]%andb_true_iff. destruct (make_name_eq lfn fn p Hl Hu Hok) as (junk & Hj & ->).
  apply negb_true_iff in Hne. rewrite Hne. destruct (seg_flags_u8 p) as (Hc & _).
  destruct (create_sfn_ok (strip (segment p)) junk fn (seg_flags p)) as (fn' & -> & Hsh); try done.
  { by apply strip_units, segment_units. }
  eexists _, _. split; [done|]. split; [by apply lfn_holds_app|done].
Qed.

Lemma short_last p fn : short_ok (seg_flags p) fn -> has fn.[NSFLAG] NS_LAST = last_segment p.
Proof.
  intros Hsh. destruct (seg_flags_u8 p) as (_ & <- & _). eapply cf_from_has; [done|]. apply Hsh.
Qed.

(** C17: [create_name] returns for every path and stays within its buffers of
    256 units and 12 bytes.  It accepts the segment up to the next separator or control
    character exactly when its surrogates are paired, no character is one of the
    illegal ones, it has at most 255 units and is not made of dots and spaces only;
    then the working buffer holds the segment without its trailing dots and spaces, the
    path is advanced to the next segment, the flag [NS_LAST] says whether there is none
    (a trailing separator is ignored), and the first byte of the short name is neither
    the mark of the end of a table nor the mark of a deleted entry. *)
Theorem create_name_spec lfn fn p :
  zlen lfn = 256 -> zlen fn = 12 -> bytes fn -> Forall is_u16 p ->
  exists r lfn' fn' p', make_name lfn fn p = Some (r, lfn', fn', p') /\ zlen lfn' = 256 /\
    if name_ok p then
      r = FR_OK /\ lfn_holds lfn' (strip (segment p)) /\ p' = next_segment p /\ short_ok (seg_flags p) fn' /\
      has fn'.[NSFLAG] NS_LAST = last_segment p
    else r = FR_INVALID_NAME /\ fn' = fn.
Proof.
  intros Hl Hf Hb Hu. destruct (name_ok p) eqn:Hok.
  - destruct (make_name_good lfn fn p Hl Hf Hb Hu Hok) as (l & f & -> & Hh & Hsh). eexists _, _, _, _. split; [done|].
    split; [apply Hh|]. split_and!; [done..|]. by apply short_last.
  - destruct (make_name_reject lfn fn p Hl Hu Hok) as (l & q & -> & Hl'). by eexists _, _, _, _.
Qed.

(** ** Short names that stand for the whole name *)

Definition plain (c : Z) : bool := (32 <? c) && (c <? 0x80) && negb (c =? 46) && negb (strchr sfn_illegal c).
Definition upc (c : Z) : Z := if IsLower c then c - 0x20 else c.

(** Bit 0: there is a small letter; bit 1: there is a capital letter. *)
Definition caps (l : list Z) : Z := (if existsb IsLower l then 1 else 0) + (if existsb IsUpper l then 2 else 0).

Lemma existsb_snoc (f : Z -> bool) l c : existsb f (l ++ [c]) = existsb f l || f c.
Proof. rewrite existsb_app. cbn. by rewrite orb_false_r. Qed.

Definition caps_add (c b : Z) : Z :=
  let b := if IsUpper c then Z.lor b 2 else b in if IsLower c then Z.lor b 1 else b.

Lemma caps_snoc l c : caps_add c (caps l) = caps (l ++ [c]).
Proof.
  unfold caps_add, caps. rewrite !existsb_snoc.
  by destruct (existsb IsLower l), (existsb IsUpper l), (IsLower c), (IsUpper c).
Qed.

Lemma caps_snoc_ext k l c : caps_add c (4 * caps k + caps l) = 4 * caps k + caps (l ++ [c]).
Proof.
  unfold caps_add, caps. rewrite !existsb_snoc.
  by destruct (existsb IsLower l), (existsb IsUpper l), (existsb IsLower k), (existsb IsUpper k), (IsLower c), (IsUpper c).
Qed.

Lemma caps_shift l : u8 (Z.shiftl (caps l) 2) = 4 * caps l.
Proof. unfold caps. by destruct (existsb IsLower l), (existsb IsUpper l). Qed.

(** A round of the loop that does not ask for a long name stores a plain character. *)
Lemma sfn_put_plain wc fn si i ni b cf :
  plain wc = true -> 0 <= i < zlen fn ->
  sfn_put wc (mkSfn fn si i ni b cf) = Some (mkSfn (setb fn i (upc wc)) si (i + 1) ni (caps_add wc b) cf).
Proof.
  intros Hp Hi. unfold plain in Hp. bprop. destruct Hp as [[[H1 H2] H3] H4]. unfold sfn_put.
  rewrite (proj2 (Z.leb_gt _ _)), (proj2 (Z.leb_gt _ _)), (proj2 (Z.eqb_neq wc 0)), H4 by lia. cbn [orb].
  unfold upc, caps_add. destruct (IsLower wc) eqn:El.
  - unfold IsLower in El. bprop. rewrite u8_small by (unfold is_u8; lia). by rewrite store_some.
  - rewrite u8_small by (unfold is_u8; lia). by rewrite store_some.
Qed.

Lemma lossy_lfn cf : has (lossy cf) NS_LFN = true.
Proof. unfold lossy. rewrite has_lor. apply orb_true_r. Qed.
Lemma lor_lfn cf : has (Z.lor cf NS_LFN) NS_LFN = true.
Proof. rewrite has_lor. apply orb_true_r. Qed.
Lemma lossy_keeps cf : has cf NS_LFN = true -> has (lossy cf) NS_LFN = true.
Proof. intros _. apply lossy_lfn. Qed.

(** The flag stays once it is set. *)
Lemma sfn_put_lfn wc st st' : sfn_put wc st = Some st' -> has (sn_cf st) NS_LFN = true -> has (sn_cf st') NS_LFN = true.
Proof.
  destruct st as [fn si i ni b cf]. unfold sfn_put. cbn [sn_cf]. intros Hs Hc.
  destruct (if 0x80 <=? wc then _ else _) as [wc1 cf1] eqn:E1.
  assert (has cf1 NS_LFN = true) as Hc1 by (destruct (0x80 <=? wc); injection E1 as <- <-; [apply lor_lfn|done]).
  destruct (0x100 <=? wc1).
  - destruct (ni - 1 <=? i); [injection Hs as <-; apply lossy_lfn|].
    destruct (store fn i _) as [fn1|]; [|done]. cbn [mbind option_bind] in Hs.
    destruct (store fn1 (i + 1) _) as [fn2|]; [|done]. by injection Hs as <-.
  - fold (sfn_sbc wc1 b cf1) in Hs. destruct (sfn_sbc wc1 b cf1) as [[wc2 b2] cf2] eqn:E2.
    assert (has cf2 NS_LFN = true).
    { unfold sfn_sbc in E2. destruct (_ || _); [injection E2 as <- <- <-; apply lossy_lfn|].
      by destruct (IsLower wc1); injection E2 as <- <- <-. }
    destruct (store fn i _) as [fn1|]; [|done]. by injection Hs as <-.
Qed.

Lemma sfn_step_lfn lfn E st r :
  sfn_step lfn E st = Some r -> has (sn_cf st) NS_LFN = true ->
  has (sn_cf (match r with inl st => st | inr st => st end)) NS_LFN = true.
Proof.
  destruct st as [fn si i ni b cf]. cbn [sfn_step sn_cf]. intros Hs Hc.
  destruct (fetch lfn si) as [wc|]; [|done]. cbn [mbind option_bind] in Hs.
  destruct (wc =? 0); [by injection Hs as <-|].
  destruct (_ || _); [injection Hs as <-; apply lossy_lfn|].
  destruct (_ || _).
  - destruct (ni =? 11); [injection Hs as <-; apply lossy_lfn|].
    assert (has (if negb (si + 1 =? E) then lossy cf else cf) NS_LFN = true) by (destruct (negb _); [apply lossy_lfn|done]).
    by destruct (E <? si + 1); injection Hs as <-.
  - destruct (sfn_put wc _) as [st|] eqn:Ep; [|done]. injection Hs as <-. by eapply sfn_put_lfn.
Qed.

Lemma sfn_loop_lfn fuel lfn E st st' :
  sfn_loop fuel lfn E st = Some st' -> has (sn_cf st) NS_LFN = true -> has (sn_cf st') NS_LFN = true.
Proof.
  revert st. induction fuel as [|fuel IH]; intros st Hs Hc; [done|]. cbn [sfn_loop] in Hs.
  destruct (sfn_step lfn E st) as [r|] eqn:Er; [|done]. cbn [mbind option_bind] in Hs.
  pose proof (sfn_step_lfn _ _ _ _ Er Hc) as Hr. destruct r as [st1|st1]; [by eapply IH|by injection Hs as <-].
Qed.

(** A character that is not plain asks for a long name. *)
Lemma sfn_put_exact wc st st' :
  sfn_put wc st = Some st' -> has (sn_cf st') NS_LFN = false -> 32 < wc -> wc <> 46 -> plain wc = true.
Proof.
  destruct st as [fn si i ni b cf]. unfold sfn_put, plain. intros Hs Hc H1 H2.
  rewrite (proj2 (Z.ltb_lt _ _)), (proj2 (Z.eqb_neq wc 46)) by lia. cbn [negb andb]. rewrite andb_true_r.
  destruct (Z.leb_spec 0x80 wc) as [Hw|Hw].
  { exfalso. assert (sfn_put wc (mkSfn fn si i ni b (Z.lor cf NS_LFN)) = Some st') as Hs'.
    { unfold sfn_put. rewrite (proj2 (Z.leb_le _ _)) by done. rewrite <- Hs.
      by rewrite <- Z.lor_assoc, Z.lor_diag. }
    apply sfn_put_lfn in Hs'; [congruence|apply lor_lfn]. }
  rewrite (proj2 (Z.ltb_lt _ _)) by lia. rewrite (proj2 (Z.leb_gt _ _)), (proj2 (Z.eqb_neq wc 0)) in Hs by lia.
  cbn [orb andb] in *. destruct (strchr sfn_illegal wc); [|done]. exfalso.
  destruct (store fn i _); [|done]. injection Hs as <-. cbn [sn_cf] in Hc. by rewrite lossy_lfn in Hc.
Qed.

(** A field of the short name: the characters in capitals, padded with spaces. *)
Definition field (n : nat) (l : list Z) : list Z := (upc <$> l) ++ replicate (n - length l) 32.

Lemma zlen_field n l : (length l <= n)%nat -> zlen (field n l) = Z.of_nat n.
Proof. intros Hl. unfold field, zlen. rewrite length_app, length_fmap, length_replicate. lia. Qed.

Lemma setb_app_r l k i v : 0 <= i -> setb (l ++ k) (zlen l + i) v = l ++ setb k i v.
Proof.
  intros Hi. unfold setb, zlen.
  replace (Z.to_nat (Z.of_nat (length l) + i)) with (length l + Z.to_nat i)%nat by lia.
  by rewrite insert_app_r.
Qed.

Lemma field_snoc n l c k :
  (length l < n)%nat -> setb (field n l ++ k) (zlen l) (upc c) = field n (l ++ [c]) ++ k.
Proof.
  intros Hl. unfold field. rewrite <- app_assoc. unfold zlen. rewrite <- (length_fmap upc l).
  rewrite <- (Z.add_0_r (Z.of_nat _)). change (Z.of_nat (length (upc <$> l))) with (zlen (upc <$> l)).
  rewrite setb_app_r by done. rewrite fmap_app, length_fmap, length_app. cbn [length fmap list_fmap].
  replace (n - length l)%nat with (S (n - (length l + 1))) by lia. cbn [replicate app].
  by rewrite <- !app_assoc.
Qed.

Section exact.
Context (name junk : list Z) (E cf0 x : Z).
Hypotheses (Hch : Forall (fun c => 32 <= c) name) (Hdot : dot_at name E).

Inductive exact : sfn_st -> Prop :=
  | exact_body dn todo :
      name = dn ++ todo -> Forall plain dn -> (length dn <= 8)%nat -> E = 0 \/ zlen dn < E ->
      exact (mkSfn (field 8 dn ++ field 3 [] ++ [x]) (zlen dn) (zlen dn) 8 (caps dn) cf0)
  | exact_ext body dn todo :
      name = body ++ 46 :: dn ++ todo -> E = zlen body + 1 -> Forall plain body -> Forall plain dn ->
      (length body <= 8)%nat -> (length dn <= 3)%nat ->
      exact (mkSfn (field 8 body ++ field 3 dn ++ [x]) (E + zlen dn) (8 + zlen dn) 11
               (4 * caps body + caps dn) cf0).

(** What the loop leaves when it reaches the end of such a name. *)
Definition exact_end (st : sfn_st) : Prop :=
  sn_cf st = cf0 /\ exists body ext,
    Forall plain body /\ Forall plain ext /\ (length body <= 8)%nat /\ (length ext <= 3)%nat /\
    sn_fn st = field 8 body ++ field 3 ext ++ [x] /\
    (sn_ni st = 8 /\ ext = [] /\ name = body /\ sn_b st = caps body \/
     sn_ni st = 11 /\ name = body ++ 46 :: ext /\ sn_b st = 4 * caps body + caps ext).

Lemma exact_todo dn c todo : name = dn ++ c :: todo -> 32 <= c.
Proof. intros ->. apply Forall_app in Hch as [_ H]. by apply Forall_cons in H as [? _]. Qed.

(** The rest of a round once the end of the name is excluded. *)
Lemma step_char st c :
  fetch (name ++ 0 :: junk) (sn_si st) = Some c -> 32 <= c ->
  sfn_step (name ++ 0 :: junk) E st =
    let 'mkSfn fn si i ni b cf := st in
    if (c =? 32) || (c =? 46) && negb (si + 1 =? E) then Some (inl (mkSfn fn (si + 1) i ni b (lossy cf))) else
    if (ni <=? i) || (si + 1 =? E) then
      if ni =? 11 then Some (inr (mkSfn fn (si + 1) i ni b (lossy cf))) else
      let cf := if negb (si + 1 =? E) then lossy cf else cf in
      if E <? si + 1 then Some (inr (mkSfn fn (si + 1) i ni b cf))
      else Some (inl (mkSfn fn E 8 11 (u8 (Z.shiftl b 2)) cf))
    else st ← sfn_put c (mkSfn fn (si + 1) i ni b cf); Some (inl st).
Proof.
  destruct st as [fn si i ni b cf]. cbn [sn_si sfn_step]. intros -> Hc. cbn [mbind option_bind].
  by rewrite (proj2 (Z.eqb_neq c 0)) by lia.
Qed.

Lemma fetch_name dn c todo si :
  name = dn ++ c :: todo -> si = zlen dn -> fetch (name ++ 0 :: junk) si = Some c.
Proof. intros -> ->. rewrite <- app_assoc. by apply fetch_mid. Qed.

Definition step_exact (r : sfn_st + sfn_st) : Prop :=
  match r with
  | inl st => has (sn_cf st) NS_LFN = false -> exact st
  | inr st => has (sn_cf st) NS_LFN = false -> exact_end st
  end.

Lemma body_end dn r :
  name = dn -> Forall plain dn -> (length dn <= 8)%nat ->
  sfn_step (name ++ 0 :: junk) E (mkSfn (field 8 dn ++ field 3 [] ++ [x]) (zlen dn) (zlen dn) 8 (caps dn) cf0) = Some r ->
  step_exact r.
Proof.
  intros Hn Hp Hl. cbn [sfn_step]. rewrite fetch_mid by congruence. cbn [mbind option_bind Z.eqb].
  intros [= <-] _. split; [done|]. exists dn, []. split_and!; [done..|cbn; lia|done|]. left. by split_and!.
Qed.

Lemma body_char dn c todo r :
  name = dn ++ c :: todo -> Forall plain dn -> (length dn <= 8)%nat -> E = 0 \/ zlen dn < E ->
  sfn_step (name ++ 0 :: junk) E (mkSfn (field 8 dn ++ field 3 [] ++ [x]) (zlen dn) (zlen dn) 8 (caps dn) cf0) = Some r ->
  step_exact r.
Proof.
  intros Hn Hp Hl HE. pose proof (exact_todo _ _ _ Hn) as Hc.
  rewrite (step_char _ c) by (done || by eapply fetch_name).
  destruct ((c =? 32) || _) eqn:E1; [intros [= <-] Hf; cbn [sn_cf] in Hf; by rewrite lossy_lfn in Hf|].
  apply orb_false_iff in E1 as [N1%Z.eqb_neq E1].
  destruct (Z.eqb_spec (zlen dn + 1) E) as [E2|N2]; cbn [negb].
  - rewrite orb_true_r. cbn [Z.eqb Pos.eqb]. rewrite (proj2 (Z.ltb_ge _ _)) by lia. intros [= <-] _.
    destruct Hdot as [[? _]|(body & ext & Hn' & _ & E3)]; [pose proof (zlen_nonneg dn); lia|].
    assert (dn = body /\ c :: todo = 46 :: ext) as [-> [= -> ->]].
    { apply app_inj_1; [unfold zlen in *; lia|congruence]. }
    rewrite caps_shift. pose proof (exact_ext body [] ext Hn E3 Hp) as He.
    change (zlen (@nil Z)) with 0 in He. change (caps []) with 0 in He.
    rewrite !Z.add_0_r in He. by apply He; [|done|cbn; lia].
  - rewrite orb_false_r. destruct (Z.leb_spec 8 (zlen dn)) as [H8|H8].
    { cbn [Z.eqb Pos.eqb]. destruct (E <? zlen dn + 1); intros [= <-] Hf; cbn [sn_cf] in Hf; by rewrite lossy_lfn in Hf. }
    destruct (sfn_put c _) as [st|] eqn:Ep; [|done]. intros [= <-] Hf. cbn [negb] in E1. rewrite andb_true_r in E1.
    apply Z.eqb_neq in E1. assert (plain c = true) as Hpc by (eapply sfn_put_exact; [done..|lia|done]).
    rewrite sfn_put_plain in Ep; [|done|rewrite zlen_app, zlen_field by done; pose proof (zlen_nonneg dn)].
    2:{ pose proof (zlen_nonneg (field 3 [] ++ [x])). lia. }
    injection Ep as <-. rewrite field_snoc, caps_snoc by (unfold zlen in *; lia).
    assert (zlen dn + 1 = zlen (dn ++ [c])) as -> by (by rewrite zlen_app).
    apply (exact_body (dn ++ [c]) todo).
    + by rewrite <- app_assoc.
    + apply Forall_app. split; [done|]. constructor; [by rewrite Hpc|done].
    + rewrite length_app. cbn. unfold zlen in H8. lia.
    + rewrite zlen_app. change (zlen [c]) with 1. lia.
Qed.

Lemma ext_end body dn r :
  name = body ++ 46 :: dn -> E = zlen body + 1 -> Forall plain body -> Forall plain dn ->
  (length body <= 8)%nat -> (length dn <= 3)%nat ->
  sfn_step (name ++ 0 :: junk) E (mkSfn (field 8 body ++ field 3 dn ++ [x]) (E + zlen dn) (8 + zlen dn) 11
    (4 * caps body + caps dn) cf0) = Some r ->
  step_exact r.
Proof.
  intros Hn HE Hp Hp' Hl Hl'. cbn [sfn_step]. rewrite fetch_mid.
  2:{ rewrite Hn, zlen_app, zlen_cons. lia. }
  cbn [mbind option_bind Z.eqb]. intros [= <-] _. split; [done|]. exists body, dn.
  split_and!; [done..|]. right. by split_and!.
Qed.

Lemma ext_char body dn c todo r :
  name = body ++ 46 :: dn ++ c :: todo -> E = zlen body + 1 -> Forall plain body -> Forall plain dn ->
  (length body <= 8)%nat -> (length dn <= 3)%nat ->
  sfn_step (name ++ 0 :: junk) E (mkSfn (field 8 body ++ field 3 dn ++ [x]) (E + zlen dn) (8 + zlen dn) 11
    (4 * caps body + caps dn) cf0) = Some r ->
  step_exact r.
Proof.
  intros Hn HE Hp Hp' Hl Hl'. assert (name = (body ++ 46 :: dn) ++ c :: todo) as Hn2 by (by rewrite <- app_assoc).
  pose proof (exact_todo _ _ _ Hn2) as Hc. pose proof (zlen_nonneg dn).
  rewrite (step_char _ c); [| |done].
  2:{ eapply fetch_name; [done|]. rewrite zlen_app, zlen_cons. cbn [sn_si]. lia. }
  rewrite (proj2 (Z.eqb_neq (E + zlen dn + 1) E)) by lia. cbn [negb]. rewrite andb_true_r, orb_false_r.
  destruct (_ || _) eqn:E1; [intros [= <-] Hf; cbn [sn_cf] in Hf; by rewrite lossy_lfn in Hf|].
  apply orb_false_iff in E1 as [N1%Z.eqb_neq N2%Z.eqb_neq].
  destruct (Z.leb_spec 11 (8 + zlen dn)) as [H8|H8].
  { cbn [Z.eqb Pos.eqb]. intros [= <-] Hf; cbn [sn_cf] in Hf; by rewrite lossy_lfn in Hf. }
  destruct (sfn_put c _) as [st|] eqn:Ep; [|done]. intros [= <-] Hf.
  assert (plain c = true) as Hpc by (eapply sfn_put_exact; [done..|lia|done]).
  rewrite sfn_put_plain in Ep; [|done|].
  2:{ rewrite !zlen_app, !zlen_field by done. change (zlen [x]) with 1. lia. }
  injection Ep as <-. replace (8 + zlen dn) with (zlen (field 8 body) + zlen dn) by (by rewrite zlen_field).
  rewrite setb_app_r, field_snoc, caps_snoc_ext by (unfold zlen in *; lia).
  rewrite zlen_field by done. change (Z.of_nat 8) with 8.
  replace (E + zlen dn + 1) with (E + zlen (dn ++ [c])) by (rewrite zlen_app; change (zlen [c]) with 1; lia).
  replace (8 + zlen dn + 1) with (8 + zlen (dn ++ [c])) by (rewrite zlen_app; change (zlen [c]) with 1; lia).
  apply (exact_ext body (dn ++ [c]) todo); try done.
  - by rewrite <- app_assoc.
  - apply Forall_app. split; [done|]. constructor; [by rewrite Hpc|done].
  - rewrite length_app. cbn. unfold zlen in H8. lia.
Qed.

Lemma step_is_exact st r : exact st -> sfn_step (name ++ 0 :: junk) E st = Some r -> step_exact r.
Proof.
  intros [dn [|c todo] Hn Hp Hl HE|body dn [|c todo] Hn HE Hp Hp' Hl Hl'].
  - rewrite app_nil_r in Hn. by apply body_end.
  - by eapply body_char.
  - rewrite app_nil_r in Hn. by apply ext_end.
  - by eapply ext_char.
Qed.

Lemma loop_exact fuel st st' :
  exact st -> sfn_loop fuel (name ++ 0 :: junk) E st = Some st' -> has (sn_cf st') NS_LFN = false -> exact_end st'.
Proof.
  revert st. induction fuel as [|fuel IH]; intros st He Hs Hf; [done|]. cbn [sfn_loop] in Hs.
  destruct (sfn_step (name ++ 0 :: junk) E st) as [r|] eqn:Er; [|done]. cbn [mbind option_bind] in Hs.
  pose proof (step_is_exact st r He Er) as Hr. destruct r as [st1|st1].
  - eapply IH; [|done..]. apply Hr. destruct (has (sn_cf st1) NS_LFN) eqn:E1; [|done].
    by rewrite (sfn_loop_lfn _ _ _ _ _ Hs E1) in Hf.
  - injection Hs as <-. by apply Hr.
Qed.
End exact.

(** The name of a short entry is [body], or [body.ext], with the case the flags give. *)
Record short_of (name : list Z) (fn body ext : list Z) : Prop := {
  sf_body : Forall plain body /\ (length body <= 8)%nat;
  sf_ext : Forall plain ext /\ (length ext <= 3)%nat;
  sf_name : name = body ++ (if decide (ext = []) then [] else 46 :: ext);
  sf_fn : take 11 fn = field 8 body ++ field 3 ext;
  sf_lower : has fn.[NSFLAG] NS_BODY = (caps body =? 1) /\ has fn.[NSFLAG] NS_EXT = (caps ext =? 1);
  sf_mixed : caps body <> 3 /\ caps ext <> 3
}.

Lemma caps_range l : caps l = 0 \/ caps l = 1 \/ caps l = 2 \/ caps l = 3.
Proof. unfold caps. destruct (existsb IsLower l), (existsb IsUpper l); cbn; lia. Qed.

(** The flags of the case of the two fields. *)
Lemma case_flags_exact body ext cf0 cf :
  cf0 = 0 \/ cf0 = NS_LAST -> case_flags (4 * caps body + caps ext) cf0 = cf -> has cf NS_LFN = false ->
  has cf NS_BODY = (caps body =? 1) /\ has cf NS_EXT = (caps ext =? 1) /\ caps body <> 3 /\ caps ext <> 3.
Proof.
  intros H0 <-. destruct (caps_range body) as [->|[->|[->| ->]]]; destruct (caps_range ext) as [->|[->|[->| ->]]];
    destruct H0 as [->| ->]; vm_compute; intros Hf; split_and!; (done || discriminate).
Qed.

Lemma upc_plain c : plain c -> 32 < upc c < 0x80 /\ upc c <> 46.
Proof.
  unfold plain, upc, IsLower. rewrite Is_true_true. intros H. bprop.
  destruct ((97 <=? c) && (c <=? 122)) eqn:El; bprop; lia.
Qed.

Lemma field_first n l k : l <> [] -> Forall plain l -> (field n l ++ k).[0] <> DDEM.
Proof.
  intros Hne Hp. destruct l as [|c l]; [done|]. apply Forall_cons in Hp as [Hc _]. unfold field. cbn [fmap list_fmap app]. rewrite getb_cons_0.
  apply upc_plain in Hc. unfold DDEM. lia.
Qed.

Lemma finish_exact name x cf0 st fn' :
  cf0 = 0 \/ cf0 = NS_LAST -> name <> [] -> strip name = name -> exact_end name cf0 x st ->
  sfn_finish st = Some fn' -> has fn'.[NSFLAG] NS_LFN = false -> exists body ext, short_of name fn' body ext.
Proof.
  intros H0 Hne Hst (Hcf & body & ext & Hp & Hp' & Hl & Hl' & Hfn & Hcase) Hf Hlfn.
  destruct st as [fn si i ni b cf]. cbn [sn_fn sn_ni sn_b sn_cf sfn_finish] in *. subst cf.
  assert (zlen (field 8 body ++ field 3 ext) = 11) as H11 by (by rewrite zlen_app, !zlen_field).
  assert (zlen fn = 12) as H12 by (by rewrite Hfn, app_assoc, zlen_app, H11).
  rewrite fetch_some in Hf by lia. cbn [mbind option_bind] in Hf.
  assert (fn.[0] <> DDEM) as Nd.
  { rewrite Hfn. destruct (decide (body = [])) as [->|Nb]; [done|by apply field_first]. }
  rewrite (proj2 (Z.eqb_neq _ _) Nd) in Hf. cbn [mbind option_bind] in Hf.
  assert ((if ni =? 8 then u8 (Z.shiftl b 2) else b) = 4 * caps body + caps ext) as Eb.
  { destruct Hcase as [(-> & -> & _ & ->)|(-> & _ & ->)]; [|done]. cbn [Z.eqb Pos.eqb]. rewrite caps_shift.
    change (caps []) with 0. lia. }
  rewrite Eb in Hf. fold (case_flags (4 * caps body + caps ext) cf0) in Hf. unfold NSFLAG in *.
  rewrite store_some in Hf by lia. injection Hf as <-. rewrite getb_setb_eq in Hlfn by lia.
  destruct (case_flags_exact body ext cf0 _ H0 eq_refl Hlfn) as (F1 & F2 & F3 & F4).
  exists body, ext. split; [done|done| | | |done].
  - destruct Hcase as [(_ & -> & -> & _)|(_ & Hn & _)].
    + by rewrite decide_True, app_nil_r by done.
    + rewrite decide_False; [done|]. intros ->. subst name. by pose proof (strip_last _ _ Hst (last_snoc _ _)).
  - rewrite Hfn, app_assoc. unfold setb. rewrite take_insert_ge by done.
    apply take_app_length'. unfold zlen in H11. lia.
  - unfold NSFLAG. by rewrite getb_setb_eq by lia.
Qed.

Lemma case_flags_lfn b cf : has cf NS_LFN = true -> has (case_flags b cf) NS_LFN = true.
Proof.
  intros Hc. unfold case_flags. destruct (_ || _).
  - rewrite lor_lfn. cbn [negb]. apply lor_lfn.
  - by rewrite Hc.
Qed.

Lemma finish_lfn st fn :
  zlen (sn_fn st) = 12 -> sfn_finish st = Some fn -> has (sn_cf st) NS_LFN = true -> has fn.[NSFLAG] NS_LFN = true.
Proof.
  destruct st as [f si i ni b cf]. cbn [sn_fn sn_cf sfn_finish]. intros Hl Hs Hc.
  rewrite fetch_some in Hs by lia. cbn [mbind option_bind] in Hs.
  assert (exists f1, (if f.[0] =? DDEM then store f 0 RDDEM else Some f) = Some f1 /\ zlen f1 = 12) as (f1 & E1 & Hl1).
  { destruct (f.[0] =? DDEM); [|by exists f]. exists (setb f 0 RDDEM). by rewrite store_some, zlen_setb by lia. }
  rewrite E1 in Hs. cbn [mbind option_bind] in Hs. fold (case_flags (if ni =? 8 then u8 (Z.shiftl b 2) else b) cf) in Hs.
  unfold NSFLAG in *. rewrite store_some in Hs by lia. injection Hs as <-. rewrite getb_setb_eq by lia.
  by apply case_flags_lfn.
Qed.

(** A name for which no long entry is asked is the one of its short entry. *)
Lemma create_sfn_exact name junk fn cf0 fn' :
  Forall unit_ok name -> Forall (fun c => 32 <= c) name -> zlen (name ++ 0 :: junk) = 256 -> name <> [] ->
  strip name = name -> zlen fn = 12 -> bytes fn -> cf0 = 0 \/ cf0 = NS_LAST ->
  create_sfn (name ++ 0 :: junk) fn (zlen name) cf0 = Some fn' -> has fn'.[NSFLAG] NS_LFN = false ->
  exists body ext, short_of name fn' body ext.
Proof.
  intros Hn Hch Hl Hne Hst Hf Hb H0. pose proof Hl as Hl'. rewrite zlen_app, zlen_cons in Hl'.
  pose proof (zlen_nonneg junk).
  destruct (create_sfn_eq name junk fn cf0) as (si & E & x & Hsi & HE & -> & Hok); [done..|by destruct H0 as [->| ->]|].
  pose proof (dot_at_range _ _ HE). set (cf1 := if _ || _ then lossy cf0 else cf0) in *.
  set (st0 := mkSfn (replicate 11 32 ++ [x]) si 0 8 0 cf1) in *.
  destruct (sfn_loop_ok 258 name junk E cf0 st0) as (st & Es & Hst'); [done..|cbn; lia|].
  rewrite Es. cbn [mbind option_bind]. intros Hfin Hlfn.
  destruct (has (sn_cf st) NS_LFN) eqn:Ec; [by rewrite (finish_lfn _ _ (so_len _ _ _ Hst') Hfin Ec) in Hlfn|].
  assert (has cf1 NS_LFN = false) as Hc1.
  { destruct (has cf1 NS_LFN) eqn:E1; [|done]. by rewrite (sfn_loop_lfn _ _ _ st0 _ Es E1) in Ec. }
  assert (si = 0 /\ cf1 = cf0) as [Es0 Ecf].
  { unfold cf1 in *. destruct (_ || _) eqn:E1; [by rewrite lossy_lfn in Hc1|]. bprop. lia. }
  eapply finish_exact; [done..| |done|done]. eapply loop_exact; [done..| |done|done].
  unfold st0. rewrite Es0, Ecf. apply (exact_body _ _ _ _ [] name); [done..|cbn; lia|change (zlen (@nil Z)) with 0; lia].
Qed.
