(* ===== verification/PathInfo.v ===== *)
(** * The names of directory entries

    [get_fileinfo] stays within its buffers whatever the entry holds, and gives back
    the names that [create_name] made. *)

From stdpp Require Import prelude list.
From Stdlib Require Import ZArith Lia.
From S2P Require Import Prelude Bytes Buffers Cp932 Unicode Diskio FFTypes Window Fat Bitmap Chain Lfn Dir Dirent Mount File Path PathName.

Local Open Scope Z_scope.
Local Open Scope cint_scope.

(** ** Bounds *)

Lemma put_utf_len chr szb : 0 <= szb -> zlen (put_utf chr szb) <= szb.
Proof.
  intros Hs. unfold put_utf. repeat bdestr; unfold zlen; cbn; try lia.
Qed.

(** A unit of a name never leaves the buffer. *)
Lemma info_char_safe fname di hs wc :
  zlen fname = 256 -> 0 <= di <= 255 ->
  exists r, info_char fname di hs wc = Some r /\
    match r with inl (f, d, _) => zlen f = 256 /\ 0 <= d <= 255 | inr (f, d, _) => zlen f = 256 /\ d = 0 end.
Proof.
  intros Hl Hd. unfold info_char. destruct (_ && _); [by eexists|]. unfold FF_LFN_BUF.
  set (us := put_utf _ _). pose proof (put_utf_len (Z.lor (u32 (Z.shiftl hs 16)) wc) (255 - di) ltac:(lia)) as Hu.
  fold us in Hu. destruct (stores_some fname di us) as (f & -> & Hf & _); [lia..|]. cbn [mbind option_bind].
  pose proof (zlen_nonneg us). destruct (zlen us =? 0); eexists; (split; [done|]); cbn; lia.
Qed.

Lemma info_lname_safe fuel lfn fname si di hs :
  zlen fname = 256 -> 0 <= di <= 255 -> zlen lfn = 256 ->
  (exists k, si <= k < 256 /\ k - si < Z.of_nat fuel /\ lfn.[k] = 0) -> 0 <= si ->
  exists f d h, info_lname fuel lfn fname si di hs = Some (f, d, h) /\ zlen f = 256 /\ 0 <= d <= 255.
Proof.
  intros Hf Hd Hl Hk Hs. revert fname si di hs Hf Hd Hk Hs.
  induction fuel as [|fuel IH]; intros fname si di hs Hf Hd (k & Hk & Hn & E0) Hs; [lia|]. cbn [info_lname].
  rewrite fetch_some by lia. cbn [mbind option_bind]. destruct (Z.eqb_spec lfn.[si] 0) as [E|N]; [by eexists _, _, _|].
  assert (si <> k) by congruence.
  destruct (info_char_safe fname di hs lfn.[si]) as ([[[f d] h]|[[f d] h]] & -> & Hr); [done..| |].
  - cbn [mbind option_bind]. destruct Hr. apply IH; try done; [|lia]. exists k. lia.
  - cbn [mbind option_bind]. eexists _, _, _. split; [done|]. lia.
Qed.

Lemma info_xname_safe n db fname si di hs :
  zlen fname = 256 -> 0 <= di <= 255 -> 608 <= zlen db -> 0 <= si -> si mod 2 = 0 ->
  exists f d h, info_xname n db fname si di hs = Some (f, d, h) /\ zlen f = 256 /\ 0 <= d <= 255.
Proof.
  intros Hf Hd Hl. revert fname si di hs Hf Hd. induction n as [|n IH]; intros fname si di hs Hf Hd Hs He; cbn [info_xname].
  { by eexists _, _, _. }
  change (MAXDIRB FF_MAX_LFN) with 608. destruct (Z.leb_spec 608 si); [eexists _, _, _; split; [done|]; lia|].
  set (si1 := if si mod SZDIRE =? 0 then si + 2 else si).
  assert (si <= si1 <= 606 /\ si1 mod 2 = 0) as [Hs1 He1].
  { unfold si1, SZDIRE. destruct (Z.eqb_spec (si mod 32) 0); zlia. }
  rewrite !fetch_some by lia. cbn [mbind option_bind].
  destruct (info_char_safe fname di hs (ld_word db si1)) as ([[[f d] h]|[[f d] h]] & -> & Hr); [done..| |].
  - cbn [mbind option_bind]. destruct Hr. apply IH; [done..|lia|zlia].
  - cbn [mbind option_bind]. eexists _, _, _. split; [done|]. lia.
Qed.

(** The names that [get_fileinfo] returns end within their buffers. *)
Definition ends_in (n : Z) (l : list Z) : Prop := zlen l = n /\ exists k, 0 <= k < n /\ l.[k] = 0.

Lemma put_utf_first chr szb : put_utf chr szb <> [] -> is_u16 chr -> (put_utf chr szb).[0] = chr.
Proof.
  intros Hn Hc. unfold put_utf in *. rewrite Z.shiftr_div_pow2 in * by lia.
  assert (u16 (chr / 2 ^ 16) = 0) as E by zlia. rewrite E in *. cbn [Z.eqb] in *.
  destruct (_ || _); [done|]. rewrite getb_cons_0. by apply u16_small.
Qed.

Lemma oem2uni_u16 c : 0 <= c < 0x10000 -> is_u16 (ff_oem2uni c FF_CODE_PAGE).
Proof.
  intros Hc. unfold ff_oem2uni, FF_CODE_PAGE, is_u16. bdestr; [lia|]. cbn [Z.eqb Pos.eqb].
  destruct (Z.eq_dec (lookup_cp oem2uni932 c) 0) as [->|Hn]; [lia|].
  pose proof (lookup_cp_out _ _ _ oem2uni932_ok Hn) as Hin. apply cp932_inverse in Hin.
  pose proof (cp932_range _ _ Hin). lia.
Qed.

(** The short name so far: it fits, and it is not empty when its length is not 0. *)
Definition alt_ok (alt : list Z) (di : Z) : Prop := zlen alt = 13 /\ 0 <= di <= 12 /\ (0 < di -> alt.[0] <> 0).

Lemma alt_put alt di us :
  alt_ok alt di -> di + zlen us <= 12 -> us <> [] -> us.[0] <> 0 ->
  exists alt', stores alt di us = Some alt' /\ alt_ok alt' (di + zlen us).
Proof.
  intros (Hl & Hd & H0) Hu Hne Hn. pose proof (zlen_nonneg us).
  assert (zlen us <> 0) by (by rewrite zlen_zero). destruct (stores_some alt di us) as (l & -> & Hl' & Hk & Hs); [lia..|].
  exists l. split; [done|]. split_and!; [lia..|]. intros _. destruct (Z.eq_dec di 0) as [->|].
  - replace 0 with (0 + 0) at 1 by lia. by rewrite Hs by lia.
  - rewrite Hk by lia. apply H0. lia.
Qed.

Lemma alt_zero alt di : alt_ok alt di -> alt_ok alt 0.
Proof. intros (? & ? & ?). split_and!; [done|lia..]. Qed.

(** The conversion of a character of the short name, single or double. *)
Definition sname_char (w : list Z) (dir wc si : Z) : Z * Z :=
  if dbc_1st wc && negb (si =? 8) && negb (si =? 11) && dbc_2nd w.[dir + si]
  then (Z.lor (u16 (Z.shiftl wc 8)) w.[dir + si], si + 1) else (wc, si).

Lemma sname_char_ok w dir wc si wc' si' :
  is_u8 wc -> bytes w -> si <= 11 -> sname_char w dir wc si = (wc', si') -> 0 <= wc' < 0x10000 /\ si <= si' <= 11.
Proof.
  intros Hc Hw Hs. unfold sname_char. destruct (_ && _) eqn:E; intros [= <- <-]; [|unfold is_u8 in Hc; lia].
  bprop. pose proof (getb_bytes w (dir + si) Hw) as Hb. unfold is_u8 in *.
  rewrite u16_small by (rewrite Z.shiftl_mul_pow2 by lia; unfold is_u16; lia).
  rewrite shl_lor by lia. lia.
Qed.

Lemma info_sname_safe fuel w dir alt si di :
  alt_ok alt di -> bytes w -> 0 <= si <= 11 -> 11 - si < Z.of_nat fuel ->
  exists alt' d, info_sname fuel w dir alt si di = Some (alt', d) /\ alt_ok alt' d.
Proof.
  intros Ha Hw. revert alt si di Ha. induction fuel as [|fuel IH]; intros alt si di Ha Hs Hf; [lia|]. cbn [info_sname].
  destruct (Z.ltb_spec si 11) as [Hlt|]; cbn [negb]; [|by eexists _, _].
  destruct (Z.eqb_spec w.[dir + si] 32); [apply IH; [done|lia..]|].
  set (wc := if w.[dir + si] =? RDDEM then DDEM else w.[dir + si]).
  assert (is_u8 wc) as Hwc by (unfold wc; bdestr; [done|by apply getb_bytes]).
  assert (exists alt1 di1, (if (si + 1 =? 9) && (di <? FF_SFN_BUF) then alt0 ← store alt di 46; Some (alt0, di + 1)
    else Some (alt, di)) = Some (alt1, di1) /\ alt_ok alt1 di1) as (alt1 & di1 & -> & Ha1).
  { destruct ((si + 1 =? 9) && (di <? FF_SFN_BUF)) eqn:E; [|by exists alt, di]. unfold FF_SFN_BUF in E. bprop.
    destruct (alt_put alt di [46]) as (l & Hst & Hl); [done|change (zlen [46]) with 1; lia|done|done|].
    cbn [stores] in Hst. destruct (store alt di 46) as [l0|]; [|done]. injection Hst as ->. by exists l, (di + 1). }
  cbn [mbind option_bind]. fold (sname_char w dir wc (si + 1)).
  destruct (sname_char w dir wc (si + 1)) as [wc1 si1] eqn:Ec.
  destruct (sname_char_ok w dir wc (si + 1) wc1 si1) as [Hw1 Hs1]; [done..|lia|done|].
  destruct (Z.eqb_spec (ff_oem2uni wc1 FF_CODE_PAGE) 0) as [|Nw]; [eexists _, _; split; [done|]; by eapply alt_zero|].
  set (us := put_utf _ _). pose proof Ha1 as (Hl1 & Hd1 & _). unfold FF_SFN_BUF in us.
  pose proof (put_utf_len (ff_oem2uni wc1 FF_CODE_PAGE) (12 - di1) ltac:(lia)) as Hu. fold us in Hu.
  destruct (Z.eqb_spec (zlen us) 0) as [Eu|Nu].
  - apply zlen_zero in Eu. rewrite Eu. cbn [stores mbind option_bind]. eexists _, _. split; [done|]. by eapply alt_zero.
  - destruct (alt_put alt1 di1 us) as (alt2 & -> & Ha2); [done|lia|by rewrite <- zlen_zero| |].
    { unfold us. rewrite put_utf_first; [done| |by apply oem2uni_u16]. rewrite <- zlen_zero. done. }
    cbn [mbind option_bind]. apply IH; [done|lia..].
Qed.

Lemma info_case_safe fuel ntres alt fname si lcf :
  zlen alt = 13 -> zlen fname = 256 -> 0 <= si -> (0 < si -> fname.[0] <> 0) ->
  (exists k, si <= k <= 12 /\ k - si < Z.of_nat fuel /\ alt.[k] = 0) ->
  exists f d, info_case fuel ntres alt fname si lcf = Some (f, d) /\ zlen f = 256 /\ si <= d <= 12 /\
    (0 < d -> f.[0] <> 0) /\ (alt.[si] <> 0 -> si < d).
Proof.
  intros Ha. revert fname si lcf. induction fuel as [|fuel IH]; intros fname si lcf Hf Hs H0 (k & Hk & Hn & Ek); [lia|].
  cbn [info_case]. rewrite fetch_some by lia. cbn [mbind option_bind].
  destruct (Z.eqb_spec alt.[si] 0) as [E|N].
  { eexists _, _. split_and!; [done|done|lia..|done|]. congruence. }
  assert (si <> k) by congruence. set (wc := if IsUpper alt.[si] && _ then _ else _).
  assert (wc <> 0) as Hwc.
  { unfold wc. destruct (IsUpper alt.[si]) eqn:Eu; [|done]. unfold IsUpper in Eu. bprop. cbn [andb]. destruct (has _ _); lia. }
  rewrite store_some by lia. cbn [mbind option_bind].
  destruct (IH (setb fname si wc) (si + 1) (if alt.[si] =? 46 then NS_EXT else lcf)) as (f & d & -> & Hl & Hd & H1 & _).
  { by rewrite zlen_setb. }
  { lia. }
  { intros _. destruct (Z.eq_dec si 0) as [->|]; [by rewrite getb_setb_eq by lia|]. rewrite getb_setb_ne by lia. apply H0. lia. }
  { exists k. split_and!; [lia..|done]. }
  eexists _, _. split_and!; [done|done|lia..|done|lia].
Qed.

Lemma store_ends n l i v : zlen l = n -> 0 <= i < n -> v = 0 -> exists l', store l i v = Some l' /\ ends_in n l' /\
  forall k, 0 <= k -> k <> i -> l'.[k] = l.[k].
Proof.
  intros Hl Hi ->. exists (setb l i 0). rewrite store_some by lia. split; [done|]. split.
  - split; [by rewrite zlen_setb|]. exists i. split; [done|]. apply getb_setb_eq. lia.
  - intros k Hk Hne. by rewrite getb_setb_ne by lia.
Qed.

Lemma info_name_safe lfn w dir blk alt fname :
  zlen alt = 13 -> zlen fname = 256 -> fname.[0] = 0 -> bytes w -> zlen lfn = 256 ->
  (blk <> NO_BLK -> exists k, 0 <= k < 256 /\ lfn.[k] = 0) ->
  exists alt' f, info_name lfn w dir blk alt fname = Some (alt', f) /\ ends_in 13 alt' /\ ends_in 256 f /\ f.[0] <> 0.
Proof.
  intros Ha Hf H0 Hw Hl Hz. unfold info_name.
  assert (exists f1, (if negb (blk =? NO_BLK) then
             '(fname, di, hs) ← info_lname 257 lfn fname 0 0 0;
             store fname (if negb (hs =? 0) then 0 else di) 0
           else Some fname) = Some f1 /\ ends_in 256 f1) as (f1 & -> & Hf1 & Hz1).
  { destruct (Z.eqb_spec blk NO_BLK) as [|N]; cbn [negb].
    { exists fname. split; [done|]. split; [done|]. by exists 0. }
    destruct (Hz N) as (k & Hk & Ek).
    destruct (info_lname_safe 257 lfn fname 0 0 0) as (f & d & h & -> & Hlf & Hd); [done..|exists k; lia|lia|].
    cbn [mbind option_bind].
    destruct (store_ends 256 f (if negb (h =? 0) then 0 else d) 0) as (l & -> & He & _); [done|destruct (negb _); lia|done|].
    by exists l. }
  cbn [mbind option_bind].
  destruct (info_sname_safe 12 w dir alt 0 0) as (alt1 & di & -> & Hla & Hda & Hna); [by split_and!|done|lia..|].
  cbn [mbind option_bind]. destruct (store_ends 13 alt1 di 0) as (alt2 & -> & He2 & Hk2); [done|lia|done|].
  cbn [mbind option_bind]. rewrite fetch_some by lia. cbn [mbind option_bind].
  destruct (Z.eqb_spec f1.[0] 0) as [E0|N0]; [|by exists alt2, f1].
  assert (exists f2 d, (if di =? 0 then fname ← store f1 di 63; Some (fname, di + 1)
                    else info_case 14 w.[dir + DIR_NTres] alt2 f1 0 NS_BODY) = Some (f2, d) /\
    zlen f2 = 256 /\ 0 < d <= 12 /\ f2.[0] <> 0) as (f2 & d & -> & Hf2 & Hd2 & Hn2).
  { destruct (Z.eqb_spec di 0) as [->|Nd].
    - rewrite store_some by lia. cbn [mbind option_bind]. eexists _, _. split; [done|].
      rewrite zlen_setb, getb_setb_eq by lia. done.
    - destruct He2 as [Hl2 (k & Hk & Ek)].
      assert (alt2.[0] <> 0) as N2 by (rewrite Hk2 by lia; apply Hna; lia).
      destruct (info_case_safe 14 w.[dir + DIR_NTres] alt2 f1 0 NS_BODY) as (f2 & d & -> & Hf2 & Hd & Hn & Hp);
        [done|done|lia..|exists k; lia|]. specialize (Hp N2). eexists _, _. split_and!; [done|done|lia..|]. apply Hn. lia. }
  cbn [mbind option_bind]. destruct (store_ends 256 f2 d 0) as (f3 & -> & He3 & Hk3); [done|lia|done|].
  cbn [mbind option_bind]. assert (f3.[0] <> 0) by (by rewrite Hk3 by lia).
  destruct (w.[dir + DIR_NTres] =? 0); [|by exists alt2, f3]. cbn [mbind option_bind].
  destruct (store_ends 13 alt2 0 0) as (alt3 & -> & He4 & _); [apply He2|lia|done|]. by exists alt3, f3.
Qed.

(** C18: [get_fileinfo] returns for every directory entry, whatever bytes it holds,
    and stays within its buffers; the two names it leaves end inside of [fname] and
    [altname].  On a FAT volume the name of an entry is never empty, so that the caller
    of [f_readdir] cannot take an entry for the end of the directory.  The long name is
    read up to its terminator, which has to be in the buffer when the entry has one. *)
Theorem get_fileinfo_safe fs dp fno :
  zlen (fi_altname fno) = 13 -> zlen (fi_fname fno) = 256 -> bytes (win fs) ->
  zlen (lfnbuf fs) = 256 -> zlen (dirbuf fs) = 608 -> bytes (dirbuf fs) ->
  (blk_ofs dp <> NO_BLK -> exists k, 0 <= k < 256 /\ (lfnbuf fs).[k] = 0) ->
  exists fno', get_fileinfo fs dp fno = Some fno' /\ ends_in 256 (fi_fname fno') /\
    zlen (fi_altname fno') = 13 /\
    (d_sect dp <> 0 -> ends_in 13 (fi_altname fno')) /\
    (d_sect dp <> 0 -> is_exfat fs = false -> (fi_fname fno').[0] <> 0) /\
    (d_sect dp = 0 -> (fi_fname fno').[0] = 0).
Proof.
  intros Ha Hf Hw Hl Hd Hdb Hz. unfold get_fileinfo.
  destruct (store_ends 256 (fi_fname fno) 0 0) as (f0 & Hs & [Hl0 _] & _); [done|lia|done|].
  assert (f0.[0] = 0) as H0.
  { rewrite store_some in Hs by lia. injection Hs as <-. apply getb_setb_eq. lia. }
  rewrite Hs. cbn [mbind option_bind fi_fname fi_altname]. destruct (Z.eqb_spec (d_sect dp) 0) as [E|N].
  { eexists. split; [done|]. cbn. split_and!; [split; [done|by exists 0]|done|done|done|done]. }
  destruct (is_exfat fs) eqn:Ex.
  - unfold info_exfat. cbn [fi_fname fi_altname].
    destruct (info_xname_safe (Z.to_nat (dirbuf fs).[XDIR_NumName]) (dirbuf fs) f0 (SZDIRE * 2) 0 0)
      as (f & d & h & -> & Hlf & Hdf); [done|lia|lia|done|done|]. cbn [mbind option_bind].
    set (d1 := if negb (h =? 0) then 0 else d).
    assert (0 <= d1 <= 255) as Hd1 by (unfold d1; destruct (negb _); lia).
    assert (exists f1 d2, (if d1 =? 0 then fname ← store f d1 63; Some (fname, d1 + 1) else Some (f, d1)) = Some (f1, d2) /\
      zlen f1 = 256 /\ 0 <= d2 <= 255) as (f1 & d2 & -> & Hf1 & Hd2).
    { destruct (Z.eqb_spec d1 0) as [E1|]; [|by exists f, d1]. rewrite E1, store_some by lia. cbn [mbind option_bind].
      eexists _, _. split; [done|]. rewrite zlen_setb. lia. }
    cbn [mbind option_bind]. destruct (store_ends 256 f1 d2 0) as (f2 & -> & He & _); [done|lia|done|].
    cbn [mbind option_bind]. destruct (store_ends 13 (fi_altname fno) 0 0) as (a & -> & Hea & _); [done|lia|done|].
    cbn [mbind option_bind]. eexists. split; [done|]. cbn. split_and!; [done|apply Hea|done|done|done].
  - destruct (info_name_safe (lfnbuf fs) (win fs) (d_dir dp) (blk_ofs dp) (fi_altname fno) f0)
      as (a & f & -> & Hea & Hef & Hn); [done..|]. cbn [mbind option_bind]. eexists. split; [done|]. cbn.
    split_and!; [done|apply Hea|done|done|done].
Qed.

(** ** Names come back: the long name *)

Lemma put_utf_unit c szb : is_u16 c -> IsSurrogate c = false -> 1 <= szb -> put_utf c szb = [c].
Proof.
  intros Hc Es Hs. unfold put_utf. rewrite Z.shiftr_div_pow2 by lia.
  assert (u16 (c / 2 ^ 16) = 0) as -> by zlia. cbn [Z.eqb]. rewrite u16_small, Es, (proj2 (Z.ltb_ge _ _)) by done. done.
Qed.

Lemma put_utf_pair h l szb :
  IsSurrogateH h = true -> IsSurrogateL l = true -> 2 <= szb ->
  put_utf (Z.lor (u32 (Z.shiftl h 16)) l) szb = [h; l].
Proof.
  intros Eh El Hs. pose proof Eh as Eh'. pose proof El as El'. unfold IsSurrogateH, IsSurrogateL in Eh', El'.
  rewrite andb_true_iff, !Z.leb_le in Eh', El'. rewrite pair_value by lia. unfold put_utf.
  rewrite Z.shiftr_div_pow2 by lia. assert (u16 ((l + 2 ^ 16 * h) / 2 ^ 16) = h) as -> by zlia.
  assert (u16 (l + 2 ^ 16 * h) = l) as -> by zlia.
  rewrite Eh, El, (proj2 (Z.eqb_neq h 0)), (proj2 (Z.ltb_ge _ _)) by lia. done.
Qed.

Lemma info_char_unit dn x post c :
  unit_ok c -> IsSurrogate c = false -> zlen dn < 255 ->
  info_char (dn ++ x :: post) (zlen dn) 0 c = Some (inl (dn ++ c :: post, zlen dn + 1, 0)).
Proof.
  intros Hc Es Hd. unfold info_char, FF_LFN_BUF. rewrite Es, andb_false_r.
  change (Z.lor (u32 (Z.shiftl 0 16)) c) with c. rewrite put_utf_unit by (done || unfold is_u16, unit_ok in *; lia).
  cbn [stores]. rewrite store_mid by done. done.
Qed.

Lemma info_char_high fname di h : IsSurrogateH h = true -> info_char fname di 0 h = Some (inl (fname, di, h)).
Proof. intros E. unfold info_char. by rewrite surrogate_split, E. Qed.

Lemma info_char_low dn x y post h l :
  IsSurrogateH h = true -> IsSurrogateL l = true -> zlen dn < 254 ->
  info_char (dn ++ x :: y :: post) (zlen dn) h l = Some (inl (dn ++ h :: l :: post, zlen dn + 2, 0)).
Proof.
  intros Eh El Hd. unfold info_char, FF_LFN_BUF.
  assert ((h =? 0) = false) as -> by (unfold IsSurrogateH in Eh; bprop; lia). cbn [andb].
  rewrite put_utf_pair by (done || lia).
  rewrite (stores_mid dn [x; y] post [h; l]) by done. done.
Qed.

(** A list of units is empty, a character or a pair followed by such a list. *)
Lemma utf16_cases todo :
  utf16_ok todo = true -> todo = [] \/
  (exists c t, todo = c :: t /\ IsSurrogate c = false /\ utf16_ok t = true) \/
  (exists h l t, todo = h :: l :: t /\ IsSurrogateH h = true /\ IsSurrogateL l = true /\ utf16_ok t = true).
Proof.
  destruct todo as [|c t]; [by left|]. cbn [utf16_ok]. intros Hu. right. destruct (IsSurrogate c) eqn:Es.
  - right. destruct t as [|d t]; [done|]. bprop. destruct Hu as [[? ?] ?]. by exists c, d, t.
  - left. by exists c, t.
Qed.

(** The room left in the buffer, of 256 units, by what has been copied. *)
Lemma room_for (dn post : list Z) n :
  zlen (dn ++ post) = 256 -> zlen dn + Z.of_nat n <= 255 ->
  exists old rest, post = old ++ rest /\ length old = n.
Proof.
  intros Hl Hn. exists (take n post), (drop n post). rewrite take_drop. split; [done|].
  rewrite zlen_app in Hl. rewrite length_take. unfold zlen in *. lia.
Qed.

Definition lname_right (fuel : nat) : Prop := forall dn todo junk post,
  utf16_ok todo = true -> Forall unit_ok todo -> zlen (dn ++ post) = 256 -> zlen dn + zlen todo <= 255 ->
  (length todo < fuel)%nat ->
  exists post', info_lname fuel (dn ++ todo ++ 0 :: junk) (dn ++ post) (zlen dn) (zlen dn) 0
    = Some (dn ++ todo ++ post', zlen dn + zlen todo, 0) /\ zlen (dn ++ todo ++ post') = 256.

Lemma lname_push fuel dn cs t junk rest k :
  lname_right fuel -> utf16_ok t = true -> Forall unit_ok t -> zlen (dn ++ cs ++ rest) = 256 ->
  zlen dn + zlen cs + zlen t <= 255 -> (length t < fuel)%nat -> k = zlen dn + zlen cs ->
  exists post', info_lname fuel (dn ++ cs ++ t ++ 0 :: junk) (dn ++ cs ++ rest) k k 0
    = Some (dn ++ cs ++ t ++ post', k + zlen t, 0) /\ zlen (dn ++ cs ++ t ++ post') = 256.
Proof.
  intros IH Hu Hn Hl Ht Hf ->. specialize (IH (dn ++ cs) t junk rest Hu Hn).
  rewrite (zlen_app dn cs), <- !app_assoc in IH. destruct IH as (post' & He & Hz); [done..|].
  rewrite <- !app_assoc in *. by exists post'.
Qed.

Lemma lname_char fuel dn c t junk post :
  lname_right fuel -> IsSurrogate c = false -> utf16_ok t = true -> Forall unit_ok (c :: t) ->
  zlen (dn ++ post) = 256 -> zlen dn + zlen (c :: t) <= 255 -> (length t < fuel)%nat ->
  exists post', info_lname (S fuel) (dn ++ (c :: t) ++ 0 :: junk) (dn ++ post) (zlen dn) (zlen dn) 0
    = Some (dn ++ (c :: t) ++ post', zlen dn + zlen (c :: t), 0) /\ zlen (dn ++ (c :: t) ++ post') = 256.
Proof.
  intros IH Es Hu Hn Hl Ht Hf. apply Forall_cons in Hn as [Hc Hn]. rewrite zlen_cons in *. pose proof (zlen_nonneg t).
  destruct (room_for dn post 1 Hl ltac:(lia)) as ([|x [|]] & rest & -> & Ho); try done.
  cbn [info_lname app] in *. rewrite fetch_mid by done. cbn [mbind option_bind].
  rewrite (proj2 (Z.eqb_neq c 0)) by (unfold unit_ok in Hc; lia). rewrite info_char_unit by (done || lia).
  cbn [mbind option_bind].
  destruct (lname_push fuel dn [c] t junk rest (zlen dn + 1)) as (post' & He & Hz); try done.
  { by rewrite !zlen_app, !zlen_cons in *. }
  { change (zlen [c]) with 1. lia. }
  exists post'. replace (zlen dn + (1 + zlen t)) with (zlen dn + 1 + zlen t) by lia. done.
Qed.

Lemma lname_pair fuel dn h l t junk post :
  lname_right fuel -> IsSurrogateH h = true -> IsSurrogateL l = true -> utf16_ok t = true -> Forall unit_ok (h :: l :: t) ->
  zlen (dn ++ post) = 256 -> zlen dn + zlen (h :: l :: t) <= 255 -> (length t < fuel)%nat ->
  exists post', info_lname (S (S fuel)) (dn ++ (h :: l :: t) ++ 0 :: junk) (dn ++ post) (zlen dn) (zlen dn) 0
    = Some (dn ++ (h :: l :: t) ++ post', zlen dn + zlen (h :: l :: t), 0) /\
    zlen (dn ++ (h :: l :: t) ++ post') = 256.
Proof.
  intros IH Eh El Hu Hn Hl Ht Hf. apply Forall_cons in Hn as [Hh Hn]. apply Forall_cons in Hn as [Hlo Hn].
  rewrite !zlen_cons in *. pose proof (zlen_nonneg t). unfold unit_ok in Hh, Hlo.
  destruct (room_for dn post 2 Hl ltac:(lia)) as ([|x [|y [|]]] & rest & -> & Ho); try done.
  cbn [info_lname app] in *. rewrite (fetch_mid dn h (l :: t ++ 0 :: junk) (zlen dn) eq_refl). cbn [mbind option_bind].
  rewrite (proj2 (Z.eqb_neq h 0)), info_char_high by (done || lia). cbn [mbind option_bind].
  pose proof (fetch_mid (dn ++ [h]) l (t ++ 0 :: junk) (zlen dn + 1)) as Hft. rewrite <- app_assoc in Hft. cbn [app] in Hft.
  rewrite Hft by (by rewrite zlen_app). cbn [mbind option_bind].
  rewrite (proj2 (Z.eqb_neq l 0)) by lia. rewrite info_char_low by (done || lia). cbn [mbind option_bind].
  destruct (lname_push fuel dn [h; l] t junk rest (zlen dn + 2)) as (post' & He & Hz); try done.
  { rewrite zlen_app, !zlen_cons in Hl. rewrite !zlen_app. change (zlen [h; l]) with 2. lia. }
  { change (zlen [h; l]) with 2. lia. }
  exists post'. replace (zlen dn + 1 + 1) with (zlen dn + 2) by lia.
  replace (zlen dn + (1 + (1 + zlen t))) with (zlen dn + 2 + zlen t) by lia. done.
Qed.

Lemma info_lname_spec fuel : lname_right fuel.
Proof.
  induction fuel as [fuel IH] using lt_wf_ind. intros dn todo junk post Hu Hn Hl Ht Hf.
  destruct fuel as [|fuel]; [lia|].
  destruct (utf16_cases todo Hu) as [->|[(c & t & -> & Es & Hu')|(h & l & t & -> & Eh & El & Hu')]].
  - exists post. cbn [info_lname app]. rewrite fetch_mid by done. cbn [mbind option_bind Z.eqb].
    change (zlen (@nil Z)) with 0. by rewrite Z.add_0_r.
  - apply lname_char; try done; [apply IH; lia|cbn in Hf; lia].
  - destruct fuel as [|fuel]; [cbn in Hf; lia|]. apply lname_pair; try done; [apply IH; lia|cbn in Hf; lia].
Qed.

(** ** Names come back: the short name *)

Section short.
Context (w : list Z) (dir : Z).

Lemma sname_space f alt si di :
  si < 11 -> w.[dir + si] = 32 -> info_sname (S f) w dir alt si di = info_sname f w dir alt (si + 1) di.
Proof. intros Hs E. cbn [info_sname]. rewrite (proj2 (Z.ltb_lt _ _)), E by done. done. Qed.

Lemma sname_spaces (n : nat) f alt si di :
  (forall j, 0 <= j < Z.of_nat n -> w.[dir + (si + j)] = 32) -> si + Z.of_nat n <= 11 ->
  info_sname (n + f) w dir alt si di = info_sname f w dir alt (si + Z.of_nat n) di.
Proof.
  revert si. induction n as [|n IH]; intros si Hw Hs; [by rewrite Z.add_0_r|].
  cbn [Nat.add]. rewrite sname_space; [|lia|].
  2:{ specialize (Hw 0 ltac:(lia)). by rewrite Z.add_0_r in Hw. }
  rewrite IH; [f_equal; lia| |lia]. intros j Hj. replace (si + 1 + j) with (si + (1 + j)) by lia. apply Hw. lia.
Qed.

Lemma dbc_ascii c : c < 0x80 -> dbc_1st c = false.
Proof. intros Hc. unfold dbc_1st. change (DbcTbl.[0]) with 0x81. by rewrite (proj2 (Z.leb_gt _ _)) by lia. Qed.

(** The conversion of a character below 0x80. *)
Lemma sname_plain u si : 32 < u < 0x80 -> sname_char w dir (if u =? RDDEM then DDEM else u) si = (u, si) /\
  ff_oem2uni u FF_CODE_PAGE = u /\ IsSurrogate u = false.
Proof.
  intros Hu. rewrite (proj2 (Z.eqb_neq u RDDEM)) by (unfold RDDEM; lia).
  unfold sname_char, ff_oem2uni, IsSurrogate. rewrite dbc_ascii, (proj2 (Z.ltb_lt _ _)), (proj2 (Z.leb_gt 0xD800 _)) by lia. done.
Qed.

Lemma sname_one f pre x k u si :
  32 < u < 0x80 -> w.[dir + si] = u -> si < 11 -> si <> 8 -> zlen pre < 12 ->
  info_sname (S f) w dir (pre ++ x :: k) si (zlen pre) = info_sname f w dir (pre ++ u :: k) (si + 1) (zlen pre + 1).
Proof.
  intros Hu E Hs N8 Hp. cbn [info_sname]. rewrite (proj2 (Z.ltb_lt _ _)), E, (proj2 (Z.eqb_neq u 32)) by lia. cbn [negb].
  rewrite (proj2 (Z.eqb_neq (si + 1) 9)) by lia. cbn [andb mbind option_bind].
  destruct (sname_plain u (si + 1) Hu) as (Ec & Eo & Es). unfold sname_char in Ec.
  destruct (if dbc_1st _ && _ && _ && _ then _ else _) as [u1 s1]. injection Ec as -> ->. rewrite Eo.
  rewrite (proj2 (Z.eqb_neq u 0)), put_utf_unit by (done || (unfold is_u16, FF_SFN_BUF; lia)).
  cbn [stores]. by rewrite store_mid by done.
Qed.

Lemma sname_dot f pre x y k u :
  32 < u < 0x80 -> w.[dir + 8] = u -> zlen pre < 11 ->
  info_sname (S f) w dir (pre ++ x :: y :: k) 8 (zlen pre) = info_sname f w dir (pre ++ 46 :: u :: k) 9 (zlen pre + 2).
Proof.
  intros Hu E Hp. cbn [info_sname]. rewrite E, (proj2 (Z.eqb_neq u 32)) by lia. change (negb (8 <? 11)) with false.
  change (8 + 1 =? 9) with true. cbn [andb]. unfold FF_SFN_BUF. rewrite (proj2 (Z.ltb_lt _ _)) by lia.
  rewrite store_mid by done. cbn [mbind option_bind].
  destruct (sname_plain u 9 Hu) as (Ec & Eo & Es). unfold sname_char in Ec. cbn [Z.eqb Pos.eqb] in Ec.
  destruct (if dbc_1st _ && _ && _ && _ then _ else _) as [u1 s1]. injection Ec as -> ->. rewrite Eo.
  rewrite (proj2 (Z.eqb_neq u 0)), put_utf_unit by (done || (unfold is_u16; lia)). cbn [stores].
  pose proof (store_mid (pre ++ [46]) y k (zlen pre + 1) u) as Hst. rewrite <- !app_assoc in Hst. cbn [app] in Hst.
  rewrite Hst by (by rewrite zlen_app). cbn [mbind option_bind]. change (zlen [u]) with 1. cbn [Z.eqb Pos.eqb]. f_equal. lia.
Qed.

Lemma sname_chars us : forall f pre old k si,
  Forall (fun u => 32 < u < 0x80) us -> length old = length us ->
  (forall j, 0 <= j < zlen us -> w.[dir + (si + j)] = us.[j]) -> si + zlen us <= 8 \/ 9 <= si -> si + zlen us <= 11 ->
  zlen pre + zlen us <= 12 ->
  info_sname (length us + f) w dir (pre ++ old ++ k) si (zlen pre)
    = info_sname f w dir (pre ++ us ++ k) (si + zlen us) (zlen pre + zlen us).
Proof.
  induction us as [|u us IH]; intros f pre [|x old] k si Hu Ho Hw Hs Hs' Hp; try done.
  { change (zlen (@nil Z)) with 0. by rewrite !Z.add_0_r. }
  apply Forall_cons in Hu as [Hu Hus]. rewrite zlen_cons in *. pose proof (zlen_nonneg us).
  cbn [length Nat.add app]. rewrite (sname_one _ _ _ _ u); [|done| |lia..].
  2:{ specialize (Hw 0 ltac:(lia)). by rewrite Z.add_0_r in Hw. }
  pose proof (IH f (pre ++ [u]) old k (si + 1) Hus) as IH'. rewrite (zlen_app pre [u]), <- !app_assoc in IH'.
  cbn [app] in IH'. change (zlen [u]) with 1 in IH'. rewrite IH'; [f_equal; lia|by injection Ho| |lia..].
  intros j Hj. replace (si + 1 + j) with (si + (1 + j)) by lia. rewrite Hw by lia.
  unfold getb. replace (Z.to_nat (1 + j)) with (S (Z.to_nat j)) by lia. done.
Qed.
End short.

(** The text of a short entry. *)
Definition short_text (body ext : list Z) : list Z :=
  (upc <$> body) ++ (if decide (ext = []) then [] else 46 :: (upc <$> ext)).

Lemma field_get_l n l k j : 0 <= j < zlen l -> (field n l ++ k).[j] = (upc <$> l).[j].
Proof.
  intros Hj. unfold field. rewrite <- app_assoc. apply getb_app_l. unfold zlen in *. by rewrite length_fmap.
Qed.
Lemma field_get_r n l k j : zlen l <= j < Z.of_nat n -> (field n l ++ k).[j] = 32.
Proof.
  intros Hj. unfold field. rewrite <- app_assoc.
  replace j with (zlen (upc <$> l) + (j - zlen l)) by (unfold zlen; rewrite length_fmap; lia).
  rewrite getb_app_r, getb_app_l by (unfold zlen in *; rewrite ?length_replicate; lia).
  unfold getb. rewrite nth_lookup, lookup_replicate_2 by (unfold zlen in *; lia). done.
Qed.

Lemma upc_chars l : Forall plain l -> Forall (fun u => 32 < u < 0x80) (upc <$> l).
Proof. intros H. apply Forall_fmap. eapply Forall_impl; [exact H|]. intros c Hc. apply (upc_plain c Hc). Qed.

(** The field of the body, with its padding. *)
Lemma sname_body w dir body ext f alt :
  Forall plain body -> (length body <= 8)%nat -> (length ext <= 3)%nat ->
  (forall k, 0 <= k < 11 -> w.[dir + k] = (field 8 body ++ field 3 ext).[k]) -> (length body <= length alt)%nat ->
  info_sname (8 + f) w dir alt 0 0 = info_sname f w dir ((upc <$> body) ++ drop (length body) alt) 8 (zlen body).
Proof.
  intros Hp Hl Hl' Hw Ha. replace (8 + f)%nat with (length (upc <$> body) + ((8 - length body) + f))%nat by (rewrite length_fmap; lia).
  rewrite <- (take_drop (length body) alt) at 1.
  assert (zlen (upc <$> body) = zlen body) as Ez by (unfold zlen; by rewrite length_fmap).
  pose proof (sname_chars w dir (upc <$> body) (8 - length body + f) [] (take (length body) alt) (drop (length body) alt) 0) as Hc.
  cbn [app] in Hc. change (zlen (@nil Z)) with 0 in Hc. rewrite Hc.
  - rewrite Ez, !Z.add_0_l, sname_spaces; [f_equal; unfold zlen; lia| |unfold zlen; lia].
    intros j Hj. rewrite Hw by (unfold zlen; lia). apply field_get_r. unfold zlen. lia.
  - by apply upc_chars.
  - rewrite length_fmap, length_take. lia.
  - intros j Hj. rewrite Z.add_0_l, Hw by (unfold zlen in *; lia). by rewrite field_get_l by (rewrite Ez in Hj; lia).
  - left. unfold zlen in *. lia.
  - unfold zlen in *. lia.
  - unfold zlen in *. cbn. lia.
Qed.

Lemma ext_get body ext k :
  (length body <= 8)%nat -> 0 <= k < 3 -> (field 8 body ++ field 3 ext).[8 + k] = (field 3 ext).[k].
Proof. intros Hl Hk. replace 8 with (zlen (field 8 body)) by (by rewrite zlen_field). apply getb_app_r. lia. Qed.

Lemma sname_end f w dir alt di : info_sname (S f) w dir alt 11 di = Some (alt, di).
Proof. done. Qed.

Lemma drop_cons2 (l : list Z) n : (n + 2 <= length l)%nat -> exists x y, drop n l = x :: y :: drop (n + 2) l.
Proof.
  intros Hn. destruct (drop n l) as [|x [|y k]] eqn:E; apply (f_equal length) in E as E1; rewrite length_drop in E1; cbn in E1; [lia..|].
  exists x, y. rewrite <- drop_drop, E. done.
Qed.

(** The extension, after the body. *)
Lemma sname_ext w dir body ext pre k :
  Forall plain ext -> (length body <= 8)%nat -> (length ext <= 3)%nat ->
  (forall k, 0 <= k < 11 -> w.[dir + k] = (field 8 body ++ field 3 ext).[k]) ->
  zlen pre <= 8 -> (4 <= length k)%nat ->
  exists k', info_sname 4 w dir (pre ++ k) 8 (zlen pre) =
    Some (pre ++ (if decide (ext = []) then [] else 46 :: (upc <$> ext)) ++ k',
          zlen pre + zlen (if decide (ext = []) then [] else 46 :: (upc <$> ext))) /\
    length ((if decide (ext = []) then [] else 46 :: (upc <$> ext)) ++ k') = length k.
Proof.
  intros Hp Hb Hl Hw Hpre Hk. assert (forall j, 0 <= j < 3 -> w.[dir + (8 + j)] = (field 3 ext).[j]) as He.
  { intros j Hj. rewrite Hw, ext_get by lia. done. }
  destruct ext as [|c t].
  { rewrite decide_True by done. exists k. change (zlen (@nil Z)) with 0. rewrite Z.add_0_r. split; [|done].
    change 4%nat with (3 + 1)%nat. rewrite sname_spaces; [done| |done]. intros j Hj. rewrite He by lia.
    rewrite <- (app_nil_r (field 3 [])). apply field_get_r. unfold zlen; cbn in *. lia. }
  rewrite decide_False by done. apply Forall_cons in Hp as [Hc Ht]. cbn [length] in Hl.
  destruct (drop_cons2 k 0) as (x & y & Ek); [lia|]. rewrite drop_0 in Ek. cbn [Nat.add] in Ek. rewrite Ek.
  destruct (upc_plain c Hc) as [Hu _].
  rewrite (sname_dot w dir 3 pre x y (drop 2 k) (upc c)); [|done| |lia].
  2:{ replace 8 with (8 + 0) by lia. rewrite He by lia. done. }
  assert (3 = length (upc <$> t) + (3 - length (upc <$> t)))%nat as E3 by (rewrite length_fmap; lia).
  pose proof (sname_chars w dir (upc <$> t) (3 - length (upc <$> t)) (pre ++ [46; upc c])
    (take (length t) (drop 2 k)) (drop (length t) (drop 2 k)) 9) as Hch.
  rewrite <- E3, take_drop, (zlen_app pre), <- !app_assoc in Hch. cbn [app] in Hch. change (zlen [46; upc c]) with 2 in Hch.
  assert (zlen (upc <$> t) = zlen t) as Ez by (unfold zlen; by rewrite length_fmap).
  rewrite Hch; rewrite ?Ez, ?length_fmap.
  - replace (3 - length t)%nat with ((2 - length t) + 1)%nat by lia. rewrite sname_spaces.
    + replace (9 + zlen t + Z.of_nat (2 - length t)) with 11 by (unfold zlen; lia). rewrite sname_end.
      exists (drop (length t) (drop 2 k)). cbn [fmap list_fmap app]. split.
      * f_equal. f_equal. rewrite !zlen_cons. change (zlen (list_fmap Z Z upc t)) with (zlen (upc <$> t)). rewrite Ez. lia.
      * cbn [length]. rewrite length_app, !length_drop. change (length (list_fmap Z Z upc t)) with (length (upc <$> t)).
        rewrite length_fmap. lia.
    + intros j Hj. replace (9 + zlen t + j) with (8 + (1 + zlen t + j)) by lia. rewrite He by (unfold zlen; lia).
      rewrite <- (app_nil_r (field 3 (c :: t))). apply field_get_r. rewrite zlen_cons. unfold zlen. lia.
    + unfold zlen. lia.
  - by apply upc_chars.
  - rewrite length_take, length_drop. lia.
  - intros j Hj. replace (9 + j) with (8 + (1 + j)) by lia. rewrite He by (unfold zlen in *; lia).
    rewrite <- (app_nil_r (field 3 (c :: t))), field_get_l by (rewrite zlen_cons; lia).
    unfold getb. replace (Z.to_nat (1 + j)) with (S (Z.to_nat j)) by lia. done.
  - lia.
  - unfold zlen. lia.
  - unfold zlen in *. lia.
Qed.

Lemma sname_text w dir body ext alt :
  Forall plain body -> Forall plain ext -> (length body <= 8)%nat -> (length ext <= 3)%nat ->
  (forall k, 0 <= k < 11 -> w.[dir + k] = (field 8 body ++ field 3 ext).[k]) -> zlen alt = 13 ->
  exists k, info_sname 12 w dir alt 0 0 = Some (short_text body ext ++ k, zlen (short_text body ext)) /\
    zlen (short_text body ext ++ k) = 13.
Proof.
  intros Hp Hp' Hl Hl' Hw Ha. unfold zlen in Ha.
  rewrite (sname_body w dir body ext 4) by (done || lia).
  assert (zlen (upc <$> body) = zlen body) as Ez by (unfold zlen; by rewrite length_fmap). rewrite <- Ez.
  destruct (sname_ext w dir body ext (upc <$> body) (drop (length body) alt)) as (k & -> & Hk); try done.
  { rewrite Ez. unfold zlen. lia. }
  { rewrite length_drop. lia. }
  exists k. unfold short_text. rewrite <- app_assoc. split; [by rewrite zlen_app|].
  unfold zlen. rewrite length_app, Hk, length_fmap, length_drop. lia.
Qed.

(** The flags give the case of a letter back. *)
Lemma case_char l c fl :
  plain c -> c ∈ l -> caps l <> 3 -> fl = (caps l =? 1) ->
  (if IsUpper (upc c) && fl then upc c + 0x20 else upc c) = c.
Proof.
  intros Hc Hin Hm ->.
  assert (IsLower c = true -> existsb IsLower l = true) as Hlo.
  { intros E. apply existsb_exists. exists c. by rewrite <- list_elem_of_In. }
  assert (IsUpper c = true -> existsb IsUpper l = true) as Hup.
  { intros E. apply existsb_exists. exists c. by rewrite <- list_elem_of_In. }
  unfold upc, caps in *. destruct (IsLower c) eqn:El.
  - rewrite (Hlo eq_refl) in *. destruct (existsb IsUpper l); [done|].
    assert (IsUpper (c - 32) = true) as ->; [|change (1 + 0 =? 1) with true; cbn [andb]; lia]. clear -El. unfold IsLower, IsUpper in *. bprop. lia.
  - destruct (IsUpper c) eqn:Eu; [|done]. rewrite (Hup eq_refl) in *. by destruct (existsb IsLower l).
Qed.

Section letters.
Context (ntres : Z) (l : list Z) (lcf : Z).
Hypotheses (Hp : Forall plain l) (Hm : caps l <> 3) (Hfl : has ntres lcf = (caps l =? 1)).

Lemma case_chars cs : forall f pre pre' tl post,
  cs ⊆ l -> zlen pre = zlen pre' -> length post = length cs ->
  forall rest, info_case (length cs + f) ntres (pre ++ (upc <$> cs) ++ tl) (pre' ++ post ++ rest) (zlen pre) lcf
    = info_case f ntres (pre ++ (upc <$> cs) ++ tl) (pre' ++ cs ++ rest) (zlen pre + zlen cs) lcf.
Proof.
  induction cs as [|c cs IH]; intros f pre pre' tl [|x post] Hin Hpre Ho rest; try done.
  { change (zlen (@nil Z)) with 0. by rewrite Z.add_0_r. }
  assert (c ∈ l) as Hcl by (apply Hin, list_elem_of_here).
  assert (plain c) as Hc by (by eapply Forall_forall in Hp).
  destruct (upc_plain c Hc) as [Hu Hd].
  change (upc <$> c :: cs) with (upc c :: (upc <$> cs)). cbn [length Nat.add app info_case].
  rewrite fetch_mid by done. cbn [mbind option_bind].
  rewrite (proj2 (Z.eqb_neq _ 0)), (proj2 (Z.eqb_neq _ 46)), (case_char l) by (done || lia).
  rewrite store_mid by done. cbn [mbind option_bind].
  pose proof (IH f (pre ++ [upc c]) (pre' ++ [c]) tl post) as IH'. rewrite !zlen_app, <- !app_assoc in IH'. cbn [app] in IH'.
  change (zlen [upc c]) with 1 in IH'. change (zlen [c]) with 1 in IH'. rewrite zlen_cons.
  replace (zlen pre + (1 + zlen cs)) with (zlen pre + 1 + zlen cs) by lia.
  specialize (IH' ltac:(set_solver) ltac:(lia) ltac:(by injection Ho) rest). rewrite <- !app_assoc in IH'. apply IH'.
Qed.
End letters.

Lemma case_text ntres name fn body ext tl fname :
  short_of name fn body ext -> has ntres NS_BODY = has fn.[NSFLAG] NS_BODY -> has ntres NS_EXT = has fn.[NSFLAG] NS_EXT ->
  zlen fname = 256 ->
  info_case 14 ntres (short_text body ext ++ 0 :: tl) fname 0 NS_BODY
    = Some (name ++ drop (length name) fname, zlen name).
Proof.
  intros [[Hb Lb] [He Le] Hn _ [F1 F2] [M1 M2]] E1 E2 Hf. rewrite F1 in E1. rewrite F2 in E2.
  assert (length name <= 12)%nat as Hln.
  { rewrite Hn, length_app. destruct (decide (ext = [])); cbn [length]; lia. }
  rewrite <- (take_drop (length name) fname) at 1. unfold short_text. rewrite <- app_assoc.
  set (rest := drop (length name) fname). assert (length (take (length name) fname) = length name) as Ht.
  { rewrite length_take. unfold zlen in Hf. lia. }
  set (old := take (length name) fname) in *.
  replace 14%nat with (length body + (14 - length body))%nat by lia.
  rewrite <- (take_drop (length body) old), <- app_assoc.
  assert (length body <= length name)%nat as Hbn by (rewrite Hn, length_app; lia).
  pose proof (case_chars ntres body NS_BODY Hb M1 E1 body (14 - length body) [] []) as Hc. cbn [app] in Hc.
  change (zlen (@nil Z)) with 0 in Hc. rewrite Hc; [|done|done|rewrite length_take; lia]. rewrite Z.add_0_l.
  destruct (decide (ext = [])) as [->|Hne].
  - rewrite app_nil_r in Hn. subst name. rewrite (drop_ge old) by lia. cbn [app].
    destruct (14 - length body)%nat as [|n] eqn:En; [lia|]. cbn [info_case].
    rewrite fetch_mid by (unfold zlen; by rewrite length_fmap). done.
  - assert (length name = length body + S (length ext))%nat as Hlen by (rewrite Hn, length_app; done).
    destruct (drop (length body) old) as [|x old2] eqn:Ed; apply (f_equal length) in Ed as Ed1; rewrite length_drop in Ed1; cbn in Ed1; [lia|].
    destruct (14 - length body)%nat as [|n] eqn:En; [lia|]. cbn [info_case app].
    rewrite fetch_mid by (unfold zlen; by rewrite length_fmap). cbn [mbind option_bind Z.eqb Pos.eqb].
    change (IsUpper 46) with false. cbn [andb]. rewrite store_mid by done. cbn [mbind option_bind].
    pose proof (case_chars ntres ext NS_EXT He M2 E2 ext (n - length ext) ((upc <$> body) ++ [46]) (body ++ [46]) (0 :: tl) old2) as Hx.
    rewrite <- !app_assoc in Hx. cbn [app] in Hx.
    assert (zlen ((upc <$> body) ++ [46]) = zlen body + 1) as Ez by (rewrite zlen_app; unfold zlen; by rewrite length_fmap).
    rewrite Ez in Hx. replace (length ext + (n - length ext))%nat with n in Hx by lia.
    specialize (Hx ltac:(done) ltac:(by rewrite zlen_app) ltac:(lia) rest). rewrite <- !app_assoc in Hx. cbn [app] in Hx.
    cbn [app]. rewrite Hx. destruct (n - length ext)%nat as [|m] eqn:Em; [lia|]. cbn [info_case].
    pose proof (fetch_mid ((upc <$> body) ++ 46 :: (upc <$> ext)) 0 tl (zlen body + 1 + zlen ext)) as Hft.
    rewrite <- app_assoc in Hft. cbn [app] in Hft. rewrite Hft.
    2:{ rewrite zlen_app, zlen_cons. unfold zlen. rewrite !length_fmap. lia. }
    cbn [mbind option_bind Z.eqb]. rewrite Hn, <- app_assoc, zlen_app, zlen_cons. cbn [app]. do 2 f_equal. lia.
Qed.

(** ** The name that comes back *)

Lemma holds_split l name : lfn_holds l name -> zlen name <= 255 -> exists junk, l = name ++ 0 :: junk.
Proof.
  intros (Hl & Hk & Hz) Hn. exists (drop (S (length name)) l). unfold zlen in *.
  assert (take (length name) l = name) as Et.
  { apply list_eq. intros i. destruct (decide (i < length name)%nat) as [Hi|Hi].
    - rewrite lookup_take_lt by done. specialize (Hk (Z.of_nat i) ltac:(lia)). unfold getb in Hk. rewrite Nat2Z.id, !nth_lookup in Hk.
      destruct (lookup_lt_is_Some_2 l i) as [a Ha]; [lia|]. destruct (lookup_lt_is_Some_2 name i) as [b Hb]; [lia|].
      rewrite Ha, Hb in *. cbn in Hk. congruence.
    - rewrite !lookup_ge_None_2; [done|lia|]. rewrite length_take. lia. }
  rewrite <- (take_drop (length name) l) at 1. rewrite Et. f_equal.
  destruct (lookup_lt_is_Some_2 l (length name)) as [a Ha]; [lia|].
  rewrite (drop_S _ a) by done. f_equal. unfold getb in Hz. rewrite Nat2Z.id, nth_lookup, Ha in Hz. by cbn in Hz.
Qed.

Lemma first_unit name k : Forall unit_ok name -> name <> [] -> (name ++ k).[0] <> 0.
Proof.
  intros Hn Hne. destruct name as [|c name]; [done|]. apply Forall_cons in Hn as [Hc _].
  cbn [app]. rewrite getb_cons_0. unfold unit_ok in Hc. lia.
Qed.

Lemma info_name_long name lfn w dir blk alt fname :
  lfn_holds lfn name -> utf16_ok name = true -> Forall unit_ok name -> name <> [] -> zlen name <= 255 -> blk <> NO_BLK ->
  zlen alt = 13 -> zlen fname = 256 -> bytes w ->
  exists alt' f, info_name lfn w dir blk alt fname = Some (alt', f) /\ lfn_holds f name.
Proof.
  intros Hh Hu Hn Hne Hl Hb Ha Hf Hw. destruct (holds_split lfn name Hh Hl) as [junk ->]. unfold info_name.
  rewrite (proj2 (Z.eqb_neq _ _) Hb). cbn [negb].
  destruct (info_lname_spec 257 [] name junk fname) as (post & He & Hz); try done.
  { unfold zlen in Hl. lia. }
  cbn [app] in He, Hz. change (zlen (@nil Z)) with 0 in He. rewrite He, Z.add_0_l. cbn [mbind option_bind Z.eqb negb].
  destruct (room name post 256 Hz ltac:(lia)) as (x & post' & ->). rewrite store_mid by done. cbn [mbind option_bind].
  destruct (info_sname_safe 12 w dir alt 0 0) as (alt1 & di & -> & Hla & Hda & _); [by split_and!|done|lia..|].
  cbn [mbind option_bind]. rewrite (store_some alt1 di 0) by lia. cbn [mbind option_bind].
  assert (zlen (name ++ 0 :: post') = 256) as Hz' by (by rewrite zlen_app, zlen_cons in *).
  rewrite fetch_some by lia. cbn [mbind option_bind].
  rewrite (proj2 (Z.eqb_neq _ 0)) by (by apply first_unit). eexists _, _. split; [done|]. by apply lfn_holds_app.
Qed.

Lemma text_first body ext name fn : short_of name fn body ext -> name <> [] -> zlen (short_text body ext) <> 0.
Proof.
  intros Hs Hne E. apply zlen_zero in E. apply Hne. rewrite (sf_name _ _ _ _ Hs). unfold short_text in E.
  apply app_eq_nil in E as [E1 E2]. apply fmap_nil_inv in E1. subst body. by destruct (decide (ext = [])).
Qed.

Lemma info_name_short name fn body ext lfn w dir alt fname :
  short_of name fn body ext -> name <> [] -> sub w dir 11 = take 11 fn -> 0 <= dir ->
  has w.[dir + DIR_NTres] NS_BODY = has fn.[NSFLAG] NS_BODY -> has w.[dir + DIR_NTres] NS_EXT = has fn.[NSFLAG] NS_EXT ->
  zlen alt = 13 -> zlen fname = 256 -> fname.[0] = 0 ->
  exists alt' f, info_name lfn w dir NO_BLK alt fname = Some (alt', f) /\ lfn_holds f name.
Proof.
  intros Hs Hne Hsub Hd F1 F2 Ha Hf H0. pose proof Hs as [[Hb Lb] [He Le] Hn Hfn _ _]. unfold info_name.
  change (NO_BLK =? NO_BLK) with true. cbn [negb mbind option_bind].
  destruct (sname_text w dir body ext alt) as (k & -> & Hk); try done.
  { intros j Hj. rewrite <- Hfn, <- Hsub. by rewrite getb_sub by lia. }
  assert (zlen (short_text body ext) <= 12) as Ht.
  { unfold short_text. rewrite zlen_app. destruct (decide (ext = [])); rewrite ?zlen_cons; unfold zlen; rewrite !length_fmap; cbn; lia. }
  cbn [mbind option_bind]. destruct (room (short_text body ext) k 13 Hk ltac:(lia)) as (x & k' & ->).
  rewrite store_mid by done. cbn [mbind option_bind]. rewrite fetch_some, H0 by lia. cbn [mbind option_bind Z.eqb].
  rewrite (proj2 (Z.eqb_neq (zlen (short_text body ext)) 0)) by (by eapply text_first).
  rewrite (case_text _ name fn) by done. cbn [mbind option_bind].
  assert (zlen name <= 12) as Hln.
  { rewrite Hn, zlen_app. unfold zlen. destruct (decide (ext = [])); cbn [length]; lia. }
  assert (zlen (name ++ drop (length name) fname) = 256) as Hz.
  { rewrite zlen_app. unfold zlen in *. rewrite length_drop. lia. }
  destruct (room name _ 256 Hz ltac:(lia)) as (y & post & Ed). rewrite Ed in *. rewrite (store_mid name y post (zlen name) 0) by done. cbn [mbind option_bind].
  assert (lfn_holds (name ++ 0 :: post) name) by (apply lfn_holds_app; by rewrite zlen_app, zlen_cons in *).
  destruct (w.[dir + DIR_NTres] =? 0); [|by eexists _, _].
  rewrite store_some; [by eexists _, _|]. rewrite zlen_app, zlen_cons in Hk |- *. pose proof (zlen_nonneg (short_text body ext)). pose proof (zlen_nonneg k'). lia.
Qed.

Lemma utf16_app l t : utf16_ok (l ++ t) = true -> Forall (fun c => IsSurrogate c = false) t -> utf16_ok l = true.
Proof.
  intros Hu Ht. induction l as [l IH] using (induction_ltof1 _ (@length Z)). unfold ltof in IH.
  destruct l as [|c l]; [done|]. cbn [app utf16_ok] in *. destruct (IsSurrogate c) eqn:Es.
  - destruct l as [|d l]; cbn [app] in Hu.
    + destruct t as [|d t]; [done|]. apply Forall_cons in Ht as [Hd _]. rewrite surrogate_split in Hd.
      apply orb_false_iff in Hd as [_ Hd]. by rewrite Hd, andb_false_r in Hu.
    + apply andb_true_iff in Hu as [-> Hu]. cbn [andb]. apply IH; [cbn; lia|done].
  - apply IH; [cbn; lia|done].
Qed.

Lemma strip_tail l : exists t, l = strip l ++ t /\ Forall (fun c => IsSurrogate c = false) t.
Proof.
  induction l as [|c l (t & E & Ht)] using rev_ind; [by exists []|]. rewrite strip_snoc.
  destruct (trailing c) eqn:Ec; [|exists []; by rewrite app_nil_r].
  exists (t ++ [c]). rewrite app_assoc, <- E. split; [done|]. apply Forall_app. split; [done|]. constructor; [|done].
  unfold trailing in Ec. unfold IsSurrogate. bprop. destruct Ec as [->| ->]; lia.
Qed.

(** What [create_name] says of the name it accepts. *)
Lemma make_name_inv lfn fn p lfn' fn' p' :
  zlen lfn = 256 -> zlen fn = 12 -> bytes fn -> Forall is_u16 p -> make_name lfn fn p = Some (FR_OK, lfn', fn', p') ->
  let name := strip (segment p) in
  name <> [] /\ Forall unit_ok name /\ utf16_ok name = true /\ zlen name <= 255 /\
  (has fn'.[NSFLAG] NS_LFN = false -> exists body ext, short_of name fn' body ext).
Proof.
  intros Hl Hf Hb Hu Hm name.
  assert (segment_ok (segment p) = true) as Hok.
  { destruct (segment_ok (segment p)) eqn:E; [done|]. destruct (make_name_bad lfn fn p Hl Hu E) as (l & E' & _). congruence. }
  destruct (make_name_eq lfn fn p Hl Hu Hok) as (junk & Hj & Em). fold name in Hj, Em. rewrite Em in Hm. clear Em.
  destruct (Z.eqb_spec (zlen name) 0) as [E0|N0]; [done|].
  destruct (create_sfn _ fn (zlen name) (seg_flags p)) as [f|] eqn:Ec; [|done]. injection Hm as <- <- <-.
  assert (name <> []) as Hne by (intros E; apply N0; by apply zlen_zero).
  assert (Forall unit_ok name) as Hn by (by apply strip_units, segment_units).
  destruct (strip_tail (segment p)) as (t & Et & Ht). unfold segment_ok, FF_MAX_LFN in Hok. bprop.
  destruct Hok as [[Hu16 _] Hlen]. fold name in Et. split_and!; [done..| | |].
  - rewrite Et in Hu16. by eapply utf16_app.
  - rewrite Et, zlen_app in Hlen. pose proof (zlen_nonneg t). lia.
  - intros Hlfn. eapply create_sfn_exact; try done; [|apply strip_idem|unfold seg_flags; destruct (last_segment p); auto].
    assert (Forall (fun c => 32 <= c) (segment p)) as Hseg.
    { clear. induction p as [|c p IH]; [done|]. cbn [segment]. destruct (stops c) eqn:E; [done|]. constructor; [|done].
      unfold stops in E. bprop. lia. }
    rewrite Et in Hseg. by apply Forall_app in Hseg as [? _].
Qed.

(** C6: the name that [create_name] accepts is the one that [get_fileinfo] returns,
    from the long name of the entry, and, when [create_name] does not set [NS_LFN], from
    the eleven bytes and the two case flags of the short entry alone: the decision to
    leave out the long name loses nothing, the case of the letters included. *)
Theorem name_comes_back lfn fn p lfn' fn' p' fs dp fno :
  zlen lfn = 256 -> zlen fn = 12 -> bytes fn -> Forall is_u16 p ->
  make_name lfn fn p = Some (FR_OK, lfn', fn', p') ->
  let name := strip (segment p) in
  is_exfat fs = false -> d_sect dp <> 0 -> 0 <= d_dir dp -> bytes (win fs) ->
  zlen (fi_altname fno) = 13 -> zlen (fi_fname fno) = 256 ->
  blk_ofs dp <> NO_BLK /\ lfn_holds (lfnbuf fs) name \/
  blk_ofs dp = NO_BLK /\ has fn'.[NSFLAG] NS_LFN = false /\ sub (win fs) (d_dir dp) 11 = take 11 fn' /\
    dirb fs dp DIR_NTres = Z.land fn'.[NSFLAG] (Z.lor NS_BODY NS_EXT) ->
  exists fno', get_fileinfo fs dp fno = Some fno' /\ lfn_holds (fi_fname fno') name.
Proof.
  intros Hl Hf Hb Hu Hm name Hx Hs Hd Hw Ha Hfn Hcase.
  destruct (make_name_inv _ _ _ _ _ _ Hl Hf Hb Hu Hm) as (Hne & Hn & Hu16 & Hlen & Hshort). fold name in Hne, Hn, Hu16, Hlen, Hshort.
  unfold get_fileinfo. rewrite store_some by lia. cbn [mbind option_bind fi_fname fi_altname].
  rewrite (proj2 (Z.eqb_neq _ _) Hs), Hx.
  assert (exists alt' f, info_name (lfnbuf fs) (win fs) (d_dir dp) (blk_ofs dp) (fi_altname fno) (setb (fi_fname fno) 0 0)
    = Some (alt', f) /\ lfn_holds f name) as (alt' & f & -> & Hh).
  { destruct Hcase as [[Hblk Hh]|(-> & Hlfn & Hsub & Hnt)].
    - apply info_name_long; try done. by rewrite zlen_setb.
    - destruct (Hshort Hlfn) as (body & ext & Hsh). eapply info_name_short; try done; [..|by rewrite zlen_setb|apply getb_setb_eq; lia].
      + unfold dirb in Hnt. rewrite Hnt. unfold has. by rewrite <- Z.land_assoc.
      + unfold dirb in Hnt. rewrite Hnt. unfold has. by rewrite <- Z.land_assoc. }
  cbn [mbind option_bind]. by eexists.
Qed.
