(* ===== verification/FollowPath.v ===== *)
(** * The walk along a path

    [follow_path] on a FAT volume: it returns for every path, leaves the volume as it
    is, and its result is the resolution of the path in the tree of directories that
    the sectors of the volume hold. *)

From stdpp Require Import prelude list.
From Stdlib Require Import ZArith Lia.
From S2P Require Import Prelude Bytes Buffers Unicode Diskio FFTypes Window Fat Bitmap Chain Lfn Dir Dirent DirFind Mount File Path PathName.

Local Open Scope Z_scope.
Local Open Scope cint_scope.

(** ** Equality of volumes, the name buffer aside *)

Section names.
Context {D : Type} `{BlockDeviceLaws D}.
Implicit Types s : St D.

Definition drop_names s : St D := mkSt (set_lfnbuf [] (fsys s)) (dev s).
Definition same_volume s s' : Prop := vol_eq (drop_names s) (drop_names s').

Global Instance same_volume_equiv : Equivalence same_volume.
Proof.
  split.
  - intros s. unfold same_volume. done.
  - intros s1 s2 E. unfold same_volume in *. by symmetry.
  - intros s1 s2 s3 E1 E2. unfold same_volume in *. by etrans.
Qed.

Lemma vol_eq_same s s' : vol_eq s s' -> same_volume s s'.
Proof.
  intros [Hc Hv]. split; [|done]. exact (f_equal (set_lfnbuf []) Hc).
Qed.

Lemma set_names_same s l : same_volume s (mkSt (set_lfnbuf l (fsys s)) (dev s)).
Proof. by split. Qed.

Lemma fs_inv_names s l : fs_inv s -> fs_inv (mkSt (set_lfnbuf l (fsys s)) (dev s)).
Proof. intros [[W1 W2 W3 W4 W5 W6] [F1 F2 F3]]. split; split; try done. by destruct W5. Qed.

Lemma vol_geom_names fs l : vol_geom fs -> vol_geom (set_lfnbuf l fs).
Proof. intros [[D1 D2 D3 D4 D5] V2 V5 V3 V4]. split; [split|..]; done. Qed.

Lemma same_volume_geom s s' : same_volume s s' -> vol_geom (fsys s) -> vol_geom (fsys s').
Proof.
  intros [Hc _] Hg. destruct (vol_geom_core _ _ Hc (vol_geom_names _ [] Hg)) as [[D1 D2 D3 D4 D5] V2 V5 V3 V4].
  split; [split|..]; done.
Qed.

Lemma same_volume_type s s' : same_volume s s' -> fs_type (fsys s') = fs_type (fsys s).
Proof. intros [Hc _]. symmetry. exact (f_equal fs_type Hc). Qed.

(** ** The entries of equal volumes *)

Lemma table_sect_vol_eq s s' obj k : fs_inv s -> vol_eq s s' -> table_sect s' obj k = table_sect s obj k.
Proof.
  intros Hi Hv. destruct (Hv) as [Hc _]. unfold table_sect, dir_start, csz_of. core_rewrite Hc.
  rewrite (link_ext (follow s') (follow s)); [done|]. intros x. by apply vol_eq_follow.
Qed.

Lemma table_sect_same s s' obj k : fs_inv s -> same_volume s s' -> table_sect s' obj k = table_sect s obj k.
Proof. intros Hi Hv. apply (table_sect_vol_eq (drop_names s) (drop_names s')); [by apply fs_inv_names|done]. Qed.

Lemma table_entry_vol_eq s s' obj k :
  fs_inv s -> vol_geom (fsys s) -> fs_type (fsys s) <> FS_EXFAT -> vol_eq s s' -> in_table s obj k ->
  table_entry s' obj k = table_entry s obj k.
Proof.
  intros Hi Hg Ht Hv Hin. unfold table_entry. rewrite (table_sect_vol_eq s s') by done.
  destruct (Hv) as [Hc Hs]. core_rewrite Hc.
  destruct (in_table_reaches s obj k Hi Hg ltac:(by left) Hin) as (dp & Hon & Hl & Es & Ep).
  destruct (dir_on_table s dp Hon Hl) as (_ & _ & E & _).
  assert (dptr dp / SZDIRE = k) as Ek by (rewrite Ep, Z.mul_comm; by apply Z.div_mul).
  assert (table_sect s (d_obj dp) k = table_sect s obj k) as E2.
  { unfold table_sect, dir_start. by rewrite Es. }
  rewrite Ek, E2 in E. rewrite E. pose proof (wi_geom s (fi_win s Hi)) as [Gs Gb Gf Gn _].
  destruct (dir_area_ok _ Hg _ Gb Gf Gn (dir_pos_area _ Gs Hg dp (proj1 Hon))) as (A1 & A2 & _).
  rewrite <- Hs by (done || lia). done.
Qed.

Lemma table_entry_same s s' obj k :
  fs_inv s -> vol_geom (fsys s) -> fs_type (fsys s) <> FS_EXFAT -> same_volume s s' -> in_table s obj k ->
  table_entry s' obj k = table_entry s obj k.
Proof.
  intros Hi Hg Ht Hv Hin. apply (table_entry_vol_eq (drop_names s) (drop_names s')); try done.
  - by apply fs_inv_names.
  - by apply vol_geom_names.
Qed.

Lemma in_table_same s s' obj k : fs_inv s -> same_volume s s' -> in_table s obj k -> in_table s' obj k.
Proof.
  intros Hi Hv Hin. apply (in_table_vol_eq (drop_names s) (drop_names s')); try done. by apply fs_inv_names.
Qed.

Lemma broken_same s s' obj k : fs_inv s -> same_volume s s' -> broken_at s obj k -> broken_at s' obj k.
Proof.
  intros Hi Hv Hin. apply (broken_vol_eq (drop_names s) (drop_names s')); try done. by apply fs_inv_names.
Qed.

(** ** Searching a directory *)

(** The directory that starts at a cluster, 0 for the root. *)
Definition dir_at (c : Z) : FFOBJID := mkFFOBJID 0 0 0 c 0 0 0 0 0 0.

Definition found s (c : Z) (l fn : list Z) (k blk : Z) : Prop :=
  in_table s (dir_at c) k /\
  scan_table (Z.to_nat (k + 1)) (table_entry s (dir_at c)) l fn 0 0xFF 0xFF NO_BLK = Some (k, blk).

(** The directory has no such entry up to its end... *)
Definition absent s (c : Z) (l fn : list Z) : Prop :=
  exists n, scan_end s (dir_at c) n /\ scan_table n (table_entry s (dir_at c)) l fn 0 0xFF 0xFF NO_BLK = None /\
    ~ broken_at s (dir_at c) (Z.of_nat n).

(** ... or up to the point where its chain is broken. *)
Definition cut_off s (c : Z) (l fn : list Z) : Prop :=
  exists n, scan_end s (dir_at c) n /\ scan_table n (table_entry s (dir_at c)) l fn 0 0xFF 0xFF NO_BLK = None /\
    broken_at s (dir_at c) (Z.of_nat n).

Lemma scan_table_ext n e e' l fn k ord sum blk :
  (forall j, k <= j < k + Z.of_nat n -> e' j = e j) ->
  scan_table n e' l fn k ord sum blk = scan_table n e l fn k ord sum blk.
Proof.
  revert k ord sum blk. induction n as [|n IH]; intros k ord sum blk He; [done|]. cbn [scan_table].
  rewrite He by lia. destruct (_ =? 0); [done|]. destruct (find_entry _ _ _ _ _ _ _ _); [|done].
  apply IH. intros j Hj. apply He. lia.
Qed.

Section transport.
Context s s' (Hi : fs_inv s) (Hi' : fs_inv s') (Hg : vol_geom (fsys s)) (Ht : fs_type (fsys s) <> FS_EXFAT) (Hv : same_volume s s').

Lemma in_table_back obj k : in_table s' obj k -> in_table s obj k.
Proof. apply in_table_same; [done|by symmetry]. Qed.

Lemma found_same c l fn k blk : found s' c l fn k blk -> found s c l fn k blk.
Proof.
  intros [Hin Hsc]. apply in_table_back in Hin as Hin0. split; [done|]. rewrite <- Hsc. symmetry.
  apply scan_table_ext. intros j Hj. apply table_entry_same; try done.
  apply (in_table_down s _ k); [done..|]. destruct Hin0. lia.
Qed.

Lemma broken_back obj k : broken_at s' obj k <-> broken_at s obj k.
Proof. split; apply broken_same; (done || by symmetry). Qed.

Lemma scan_same c l fn n :
  scan_end s' (dir_at c) n /\ scan_table n (table_entry s' (dir_at c)) l fn 0 0xFF 0xFF NO_BLK = None ->
  scan_end s (dir_at c) n /\ scan_table n (table_entry s (dir_at c)) l fn 0 0xFF 0xFF NO_BLK = None.
Proof.
  intros [[Hall Hend] Hsc]. assert (forall k, 0 <= k < Z.of_nat n -> in_table s (dir_at c) k) as Hall0.
  { intros k Hk. by apply in_table_back, Hall. }
  split; [split; [done|]|].
  - intros Hin. rewrite <- (table_entry_same s s') by done. apply Hend. by apply (in_table_same s s').
  - rewrite <- Hsc. symmetry. apply scan_table_ext. intros j Hj. apply table_entry_same; try done. apply Hall0. lia.
Qed.

Lemma absent_same c l fn : absent s' c l fn -> absent s c l fn.
Proof. intros (n & He & Hsc & Hb). exists n. rewrite <- broken_back. by destruct (scan_same c l fn n (conj He Hsc)). Qed.

Lemma cut_off_same c l fn : cut_off s' c l fn -> cut_off s c l fn.
Proof. intros (n & He & Hsc & Hb). exists n. rewrite <- broken_back. by destruct (scan_same c l fn n (conj He Hsc)). Qed.
End transport.
End names.

(** ** Resolution of a path *)

(** The names that [create_name] makes of the first segment of a path. *)
Definition named (p l fn : list Z) : Prop :=
  exists lfn0 fn0, zlen lfn0 = 256 /\ zlen fn0 = 12 /\ bytes fn0 /\
    make_name lfn0 fn0 p = Some (FR_OK, l, fn, next_segment p).

Section resolution.
Context {D : Type} `{BlockDeviceLaws D} `{!Heap}.
Implicit Types s : St D.

(** From the directory that starts at cluster [c], a path leads to an entry of a
    directory or to an error.  The internal error is the one of a directory whose chain
    of clusters is broken before the object or the end of the directory is met. *)
Inductive resolve s : Z -> list Z -> Z * Z + FRESULT -> Prop :=
  | resolve_bad c p : name_ok p = false -> resolve s c p (inr FR_INVALID_NAME)
  | resolve_found c p l fn k blk :
      named p l fn -> last_segment p = true -> found s c l fn k blk -> resolve s c p (inl (c, k))
  | resolve_missing c p l fn :
      named p l fn -> absent s c l fn ->
      resolve s c p (inr (if last_segment p then FR_NO_FILE else FR_NO_PATH))
  | resolve_broken c p l fn :
      named p l fn -> cut_off s c l fn -> resolve s c p (inr FR_INT_ERR)
  | resolve_file c p l fn k blk :
      named p l fn -> last_segment p = false -> found s c l fn k blk ->
      has (table_entry s (dir_at c) k).[DIR_Attr] AM_DIR = false -> resolve s c p (inr FR_NO_PATH)
  | resolve_enter c p l fn k blk o :
      named p l fn -> last_segment p = false -> found s c l fn k blk ->
      has (table_entry s (dir_at c) k).[DIR_Attr] AM_DIR = true ->
      resolve s (ld_clust (fsys s) (table_entry s (dir_at c) k) 0) (next_segment p) o -> resolve s c p o.

(** The walk so far: what remains to resolve is what there was at the start. *)
Record walking s (p0 : list Z) (dp : DIR) (p : list Z) s' : Prop := {
  wk_inv : fs_inv s';
  wk_same : same_volume s s';
  wk_lfn : zlen (lfnbuf (fsys s')) = 256;
  wk_fn : zlen (d_fn dp) = 12 /\ bytes (d_fn dp);
  wk_path : Forall is_u16 p;
  wk_clust : is_u32 (sclust (d_obj dp));
  wk_rest : forall o, resolve s (sclust (d_obj dp)) p o -> resolve s 0 p0 o
}.

(** The window and the object are on entry [k] of the directory. *)
Record at_entry s (c k : Z) (dp : DIR) s' : Prop := {
  ae_in : in_table s (dir_at c) k;
  ae_ptr : dptr dp = SZDIRE * k;
  ae_clust : sclust (d_obj dp) = c;
  ae_sect : d_sect dp = table_sect s (dir_at c) k;
  ae_win : winsect (fsys s') = d_sect dp;
  ae_dir : d_dir dp = (SZDIRE * k) mod ssize (fsys s);
  ae_attr : obj_attr (d_obj dp) = Z.land (table_entry s (dir_at c) k).[DIR_Attr] AM_MASK;
  ae_shown : same_entry (win (fsys s')) (d_dir dp) (table_entry s (dir_at c) k) 0;
  ae_bounds : entry_in_bounds (fsys s) dp
}.

(** The result of the walk: the entry or the error of the resolution; a disk error only
    on a device that may fail. *)
Definition walked s (p0 : list Z) (r : FRESULT) (dp : DIR) s' : Prop :=
  fs_inv s' /\ same_volume s s' /\
  (r = FR_DISK_ERR /\ ~ faultless D \/
   r = FR_OK /\ has (d_fn dp).[NSFLAG] (Z.lor NS_DOT NS_NONAME) = false /\
     (exists name, zlen name <= 255 /\ lfn_holds (lfnbuf (fsys s')) name) /\
     (exists c k, resolve s 0 p0 (inl (c, k)) /\ at_entry s c k dp s') \/
   (r = FR_NO_FILE \/ r = FR_NO_PATH \/ r = FR_INVALID_NAME \/ r = FR_INT_ERR) /\ resolve s 0 p0 (inr r)).

Lemma scan_at s o c l fn n :
  sclust o = c -> lfnbuf (fsys s) = l ->
  scan_dir s o fn n 0 0xFF 0xFF NO_BLK = scan_table n (table_entry s (dir_at c)) l fn 0 0xFF 0xFF NO_BLK /\
  (scan_end s o n <-> scan_end s (dir_at c) n) /\ (forall k, table_entry s o k = table_entry s (dir_at c) k) /\
  (forall k, in_table s o k <-> in_table s (dir_at c) k).
Proof.
  intros Ec <-. destruct (scan_dir_start s o (dir_at c) fn n 0 0xFF 0xFF NO_BLK) as [E1 E2]; [done|].
  assert (dir_start (fsys s) o = dir_start (fsys s) (dir_at c)) as Ed by (unfold dir_start; by rewrite Ec).
  split_and!; [done..| |]; intros k; unfold table_entry, in_table, table_sect; by rewrite Ed.
Qed.

(** [dir_find] searches the directory of the object for the names it is given. *)
Lemma dir_find_at s s1 dp :
  fs_inv s -> vol_geom (fsys s) -> fs_type (fsys s) <> FS_EXFAT -> fs_inv s1 -> same_volume s s1 ->
  is_u32 (sclust (d_obj dp)) ->
  let c := sclust (d_obj dp) in let l := lfnbuf (fsys s1) in
  post (dir_find dp) s1 (fun '(r, dp') s2 =>
    fs_inv s2 /\ same_volume s s2 /\ lfnbuf (fsys s2) = l /\ sclust (d_obj dp') = c /\ d_fn dp' = d_fn dp /\
    (r = FR_OK /\ (exists k blk, found s c l (d_fn dp) k blk /\ at_entry s c k dp' s2) \/
     r = FR_NO_FILE /\ absent s c l (d_fn dp) \/
     r = FR_INT_ERR /\ cut_off s c l (d_fn dp) \/
     r = FR_DISK_ERR /\ ~ faultless D)).
Proof.
  intros Hi Hg Ht Hi1 Hv1 Hc c l.
  assert (vol_geom (fsys s1)) as Hg1 by (by eapply same_volume_geom).
  assert (fs_type (fsys s1) <> FS_EXFAT) as Ht1 by (by rewrite (same_volume_type s)).
  eapply post_mono; [by apply dir_find_spec|]. intros [r dp'] s2 (o & Ho & Hi2 & Hv2 & Hso & Hfn & Hr).
  assert (sclust o = c) as Eo by (by destruct Ho as [->| ->]).
  assert (lfnbuf (fsys s2) = l) as El by (symmetry; exact (f_equal lfnbuf (proj1 Hv2))).
  assert (same_volume s s2) as Hs2 by (etrans; [done|by apply vol_eq_same]).
  assert (ssize (fsys s1) = ssize (fsys s)) as Ess by (symmetry; exact (f_equal ssize (proj1 Hv1))).
  split_and!; [done..|destruct Hso as [E _]; congruence|done|].
  destruct Hr as [(-> & Hon & Ep & Hsc & Hw & Hse & Ha)|[[Hr (n & He & Hsc & Hbr)]|Hr]]; [left|right|by right; right; right].
  - set (k := dptr dp' / SZDIRE) in *.
    destruct (scan_at s1 o c l (d_fn dp) (Z.to_nat (k + 1)) Eo eq_refl) as (E1 & _ & E2 & E3).
    destruct (dir_on_table s1 dp' Hon ltac:(by left)) as (_ & Hin & Esec & Edir). fold k in Hin, Esec, Edir.
    assert (in_table s1 (dir_at c) k) as Hin1 by (apply E3; by apply (same_obj_table s1 o (d_obj dp'))).
    assert (in_table s (dir_at c) k) as Hin0 by (by apply (in_table_back s s1)).
    assert (table_entry s1 o k = table_entry s (dir_at c) k) as Ee by (rewrite E2; by apply table_entry_same).
    split; [done|]. exists k, (blk_ofs dp'). split.
    { apply (found_same s s1); try done. split; [done|]. rewrite <- E1. apply Hsc. destruct Hin0. lia. }
    split; [done|done|by destruct Hso; congruence| |done|by rewrite <- Edir, Ess|by rewrite <- Ee|by rewrite <- Ee|].
    + rewrite <- Esec, <- (table_sect_same s s1) by done. unfold table_sect, dir_start. destruct Hso as (Es & _). by rewrite <- Es, Eo.
    + destruct (dir_on_bounds s1 dp' Hi1 Hg1 Hon) as (B1 & B2 & B3 & B4 & B5).
      destruct Hv1 as [Hc1 _]. revert B1 B2 B3 B4 B5. unfold entry_in_bounds, in_dir_area. core_rewrite Hc1. intros. split_and!; (done || lia).
  - destruct (scan_at s1 o c l (d_fn dp) n Eo eq_refl) as (E1 & E2 & _ & E3). rewrite E1 in Hsc. apply E2 in He.
    assert (broken_at s1 o (Z.of_nat n) <-> broken_at s1 (dir_at c) (Z.of_nat n)) as E4.
    { unfold broken_at. rewrite E3. unfold dir_start. by rewrite Eo. }
    rewrite E4 in Hbr. destruct Hr as [->| ->]; [left|right; left]; (split; [done|]).
    + apply (absent_same s s1); try done. exists n. split_and!; [done..|]. by intros ?%Hbr.
    + apply (cut_off_same s s1); try done. exists n. split_and!; [done..|]. by apply Hbr.
Qed.

Lemma create_name_post s dp p :
  zlen (lfnbuf (fsys s)) = 256 -> zlen (d_fn dp) = 12 -> bytes (d_fn dp) -> Forall is_u16 p ->
  post (create_name dp p) s (fun '(r, dp', p') s' =>
    exists l fn, s' = mkSt (set_lfnbuf l (fsys s)) (dev s) /\ dp' = set_d_fn fn dp /\
      (r = FR_OK /\ p' = next_segment p /\ named p l fn /\ short_ok (seg_flags p) fn /\ name_ok p = true /\
         lfn_holds l (strip (segment p)) \/
       r = FR_INVALID_NAME /\ name_ok p = false)).
Proof.
  intros Hl Hf Hb Hu. unfold create_name, get_fs, upd_fs. mstep. apply post_gets. destruct (name_ok p) eqn:Hok.
  - destruct (make_name_good _ _ p Hl Hf Hb Hu Hok) as (l & fn & E & Hh & Hsh). rewrite E. do 3 mstep. exists l, fn.
    split_and!; [done..|]. left. split_and!; [done..| |done|done|done]. by exists (lfnbuf (fsys s)), (d_fn dp).
  - destruct (make_name_reject _ (d_fn dp) p Hl Hu Hok) as (l & q & -> & _). do 3 mstep. exists l, (d_fn dp).
    split_and!; [done..|]. by right.
Qed.

Lemma ld_clust_u32 fs w dir : is_u32 (ld_clust fs w dir).
Proof.
  unfold ld_clust. pose proof (ld_word_u16 w (dir + DIR_FstClusLO)) as Hlo. pose proof (ld_word_u16 w (dir + DIR_FstClusHI)) as Hhi.
  unfold is_u16 in *. destruct (_ =? _); [|unfold is_u32; lia]. rewrite Z.lor_comm, shl_lor by lia. unfold is_u32. lia.
Qed.

Lemma ld_clust_same fs fs' w dir w' dir' :
  same_entry w dir w' dir' -> fs_type fs' = fs_type fs -> ld_clust fs' w dir = ld_clust fs w' dir'.
Proof.
  intros Hs E. unfold ld_clust, DIR_FstClusLO, DIR_FstClusHI. by rewrite E, !(se_word _ _ _ _ Hs) by lia.
Qed.

Lemma attr_dir a : has (Z.land a AM_MASK) AM_DIR = has a AM_DIR.
Proof. unfold has. by rewrite <- Z.land_assoc. Qed.

(** The path gets shorter. *)
Lemma skip_length p : (length (skip_separators p) <= length p)%nat.
Proof. induction p as [|c p IH]; [done|]. cbn [skip_separators]. destruct (IsSeparator c); cbn [length]; lia. Qed.

Lemma next_shorter p : last_segment p = false -> zlen (next_segment p) < zlen p.
Proof.
  unfold last_segment, next_segment. destruct ((beyond p).[0] <? 32) eqn:E; [done|]. intros _. apply Z.ltb_ge in E.
  assert (beyond p <> []) as Hne by (intros E0; by rewrite E0 in E). unfold zlen.
  pose proof (skip_length (drop 1 (beyond p))). rewrite length_drop in *. unfold beyond in *. rewrite length_drop in *.
  destruct (drop (length (segment p)) p) eqn:Ed; [done|]. apply (f_equal length) in Ed. rewrite length_drop in Ed. cbn in Ed. lia.
Qed.

Lemma u16_skip p : Forall is_u16 p -> Forall is_u16 (skip_separators p).
Proof. induction 1 as [|c p Hc Hp IH]; [done|]. cbn [skip_separators]. destruct (IsSeparator c); [done|by constructor]. Qed.

Lemma u16_next p : Forall is_u16 p -> Forall is_u16 (next_segment p).
Proof.
  intros Hp. unfold next_segment, beyond. destruct (_ <? 32); [|apply u16_skip]; by apply Forall_drop, Forall_drop.
Qed.

Lemma name_ok_len p : name_ok p = true -> zlen (strip (segment p)) <= 255.
Proof.
  unfold name_ok, segment_ok, FF_MAX_LFN. intros Hok. bprop. destruct Hok as [[_ Hle] _].
  destruct (strip_app (segment p)) as [t Et]. rewrite Et, zlen_app in Hle. pose proof (zlen_nonneg t). lia.
Qed.

Lemma short_plain p fn : short_ok (seg_flags p) fn -> has fn.[NSFLAG] (Z.lor NS_DOT NS_NONAME) = false.
Proof.
  intros Hsh. rewrite (cf_from_has (seg_flags p) fn.[NSFLAG]); [|done|apply Hsh]. unfold seg_flags. by destruct (last_segment p).
Qed.

Lemma follow_step_spec s p0 dp p s1 :
  fs_inv s -> vol_geom (fsys s) -> fs_type (fsys s) <> FS_EXFAT -> walking s p0 dp p s1 ->
  post (follow_step (dp, p)) s1 (fun x s' =>
    match x with
    | inl (dp', p') => zlen p' < zlen p /\ walking s p0 dp' p' s'
    | inr (r, dp') => walked s p0 r dp' s'
    end).
Proof.
  intros Hi Hg Ht [Hi1 Hv1 Hl1 [Hf1 Hb1] Hu1 Hc1 Hrest]. unfold follow_step. mcall create_name_post; [done..|].
  intros [[r dp1] p1] s2 (l & fn & -> & -> & Hr). set (s2 := mkSt _ _).
  assert (fs_inv s2) as Hi2 by (by apply fs_inv_names).
  assert (same_volume s s2) as Hv2 by (etrans; [done|apply set_names_same]).
  destruct Hr as [(-> & -> & Hn & Hsh & Hok & Hl)|[-> Hbad]]; cbn [fr_ok negb].
  2:{ mstep. split_and!; [done..|]. right; right. split; [auto|]. apply Hrest. by constructor. }
  pose proof (short_last _ _ Hsh) as Hlast.
  mcall (dir_find_at s s2); [done..|]. cbn [d_obj set_d_fn lfnbuf fsys set_lfnbuf d_fn s2].
  intros [r dp2] s3 (Hi3 & Hv3 & El & Ec & Ef & Hr). rewrite Ef, Hlast.
  destruct Hr as [(-> & k & blk & Hfd & Hat)|[[-> Habs]|[[-> Hcut]|[-> Hfl]]]]; cbn [fr_ok negb].
  - destruct (last_segment p) eqn:Elast.
    { mstep. split_and!; [done..|]. right; left. split_and!; [done| | |].
      - rewrite Ef. by eapply short_plain.
      - rewrite El. exists (strip (segment p)). split; [by apply name_ok_len|done].
      - eexists _, k. split; [|done]. apply Hrest. by eapply resolve_found. }
    pose proof (ae_attr _ _ _ _ _ Hat) as Ha. rewrite Ha, attr_dir. destruct (has _ AM_DIR) eqn:Ed; cbn [negb].
    2:{ mstep. split_and!; [done..|]. right; right. split; [auto|]. apply Hrest. by eapply resolve_file. }
    mstep. apply post_gets. mstep. split; [by apply next_shorter|].
    unfold enter_dir. rewrite is_exfat_false by (by rewrite (same_volume_type s)).
    assert (dptr dp2 mod ssize (fsys s3) = d_dir dp2) as ->.
    { rewrite (ae_dir _ _ _ _ _ Hat), (ae_ptr _ _ _ _ _ Hat). f_equal. symmetry. exact (f_equal ssize (proj1 Hv3)). }
    rewrite (ld_clust_same (fsys s) _ _ _ _ _ (ae_shown _ _ _ _ _ Hat)) by (by apply same_volume_type).
    split; cbn [d_fn d_obj set_d_obj set_sclust sclust]; [done|done|rewrite El; apply Hl|rewrite Ef; by destruct Hsh|by apply u16_next|apply ld_clust_u32|].
    intros o Ho. apply Hrest. by eapply resolve_enter.
  - mstep. split_and!; [done..|].
    right; right. pose proof (resolve_missing s _ _ _ _ Hn Habs) as Hres. apply Hrest in Hres.
    destruct (last_segment p); cbn [negb]; auto.
  - mstep. split_and!; [done..|]. right; right. split; [auto|]. apply Hrest. by eapply resolve_broken.
  - mstep. split_and!; auto.
Qed.

(** The path with names in it. *)
Lemma follow_names s dp p :
  fs_inv s -> vol_geom (fsys s) -> fs_type (fsys s) <> FS_EXFAT -> zlen (lfnbuf (fsys s)) = 256 ->
  zlen (d_fn dp) = 12 -> bytes (d_fn dp) -> Forall is_u16 p -> sclust (d_obj dp) = 0 ->
  post (iterate (Z.to_pos (zlen p + 1)) follow_step (dp, p)) s (fun '(r, dp') s' => walked s p r dp' s').
Proof.
  intros Hi Hg Ht Hl Hf Hb Hu Hc.
  apply (post_iterate _ (fun '(dp, q) m s' => m = zlen q /\ walking s p dp q s') (fun '(r, dp') s' => walked s p r dp' s'))
    with (k := zlen p).
  - intros [dp' q] m s1 [-> Hw]. eapply post_mono; [by apply (follow_step_spec s p)|].
    intros [[dp2 q2]|[r dp2]] s2 Hr; [|done]. destruct Hr as [Hlt Hw2]. exists (zlen q2). split; [|done].
    split; [apply zlen_nonneg|done].
  - split; [done|]. split; try done; rewrite Hc; done.
  - pose proof (zlen_nonneg p). lia.
Qed.

(** The path of the root directory. *)
Definition at_root s (r : FRESULT) (dp : DIR) s' : Prop :=
  fs_inv s' /\ same_volume s s' /\ (d_fn dp).[NSFLAG] = NS_NONAME /\ sclust (d_obj dp) = 0 /\
  (r = FR_OK /\ dptr dp = 0 /\ dir_on s dp \/ r = FR_INT_ERR /\ ~ in_table s (dir_at 0) 0).

Lemma follow_root s dp :
  fs_inv s -> vol_geom (fsys s) -> fs_type (fsys s) <> FS_EXFAT -> zlen (d_fn dp) = 12 -> sclust (d_obj dp) = 0 ->
  post (dir_sdi (set_d_fn (setb (d_fn dp) NSFLAG NS_NONAME) dp) 0) s (fun '(r, dp') s' => at_root s r dp' s').
Proof.
  intros Hi Hg Ht Hf Hc. eapply post_mono; [apply post_conj; [apply dir_sdi_spec; [done..| |done]|by apply dir_sdi_start]|].
  { cbn. rewrite Hc. done. }
  intros [r dp'] s' [(Hi' & Hv & Ho & Efn & _ & Hr) Hst]. split_and!; [done|by apply vol_eq_same| | |].
  - rewrite Efn. cbn. apply getb_setb_eq. unfold NSFLAG. lia.
  - by destruct Ho as [->| ->].
  - destruct Hr as [(-> & Hon & Ep)|[[-> Hn]| ->]]; [by left|right|by destruct Hst]. split; [done|]. intros Hin.
    apply Hn; [by left|]. apply (in_table_reaches s _ 0); [done..|by left|]. revert Hin. unfold in_table, dir_start. cbn. by rewrite Hc.
Qed.

(** C3: on a FAT volume [follow_path] returns for every path, whatever the
    directories and the FAT hold (a directory may even contain itself), without any
    change to the volume.  It finds the entry the path resolves to in the tree of
    directories on the volume, or gives the error of the resolution: a name that is not
    accepted, an object missing in the last directory, a missing or non-directory object
    on the way there, or the internal error, which means that the chain of a directory
    on the way is broken before the object is met.  A disk error is possible only if
    the device is not [faultless], that is, if some transfer can fail.  The empty path
    stands for the root directory; there the internal error means that the root
    directory has no first entry. *)
Theorem follow_path_resolves s dp path :
  fs_inv s -> vol_geom (fsys s) -> fs_type (fsys s) <> FS_EXFAT -> zlen (lfnbuf (fsys s)) = 256 ->
  zlen (d_fn dp) = 12 -> bytes (d_fn dp) -> Forall is_u16 path ->
  post (follow_path dp path) s (fun '(r, dp') s' =>
    let p := skip_separators path in
    if p.[0] <? 32 then at_root s r dp' s' else walked s p r dp' s').
Proof.
  intros Hi Hg Ht Hl Hf Hb Hu. unfold follow_path. destruct ((skip_separators path).[0] <? 32).
  - by apply follow_root.
  - apply follow_names; try done. by apply u16_skip.
Qed.
End resolution.
