(* ===== verification/FileApi.v ===== *)
(** * The functions of the API on path names

    [f_mount], [f_open], [f_opendir], [f_closedir], [f_readdir], [f_stat], [f_getfree],
    [f_unlink], [f_mkdir], [f_rename], [f_chmod], [f_utime] and [f_expand] of
    [src/ff/src/ff/ff.c].

    [reg] says whether a filesystem object is registered for the drive (the entry of
    [FatFs]), [Fsid] is the mount counter; the functions that mount return its new value.
    The local objects that a function does not initialise are the members of a record
    [Locals], an argument of the function. *)

From stdpp Require Import prelude list.
From Stdlib Require Import ZArith Lia.
From S2P Require Import Prelude Bytes Buffers Unicode Diskio FFTypes Window Fat Bitmap Chain Lfn Dir Dirent Mount File Path.

Local Open Scope Z_scope.
Local Open Scope cint_scope.

Definition FA_CREATE_NEW := 0x04.
Definition FA_CREATE_ALWAYS := 0x08.
Definition FA_OPEN_ALWAYS := 0x10.
Definition FA_OPEN_APPEND := 0x30.
Definition FA_SEEKEND := 0x20.
Definition XDIR_CrtTime := 8.

(** The content of the uninitialised objects: the directory objects of the function, the
    one of [dir_register], and an object identifier. *)
Record Locals := mkLocals { u_dj : DIR; u_sdj : DIR; u_reg : DIR; u_obj : FFOBJID }.

(** A directory object of the caller; [od_fs] says whether its member [obj.fs] is set. *)
Record DIRP := mkDIRP { od_fs : bool; od_dir : DIR }.

Definition set_obj_id (v : Z) (o : FFOBJID) : FFOBJID :=
  mkFFOBJID v (obj_attr o) (obj_stat o) (sclust o) (objsize o) (n_cont o) (n_frag o) (c_scl o) (c_size o) (c_ofs o).
Definition set_dir_ent (sect ptr : Z) (f : FIL) : FIL :=
  mkFIL f.(f_obj) f.(f_fs) f.(f_flag) f.(f_err) f.(f_fptr) f.(f_clust) f.(f_sect) sect ptr f.(f_buf).

Section code.
Context {D : Type} `{BlockDevice D} `{!Shl} `{!Heap}.

Definition checked {A} (o : option A) : M (St D) A := match o with Some a => mret a | None => out_of_fuel end.

(** ** Mount *)

(** [new] says whether the argument [fs] is an object or null: the registration, the
    result and the mount counter. *)
Definition f_mount (new : bool) (path : list Z) (opt : Z) (reg : bool) (Fsid : Z) : M (St D) (FRESULT * bool * Z) :=
  if (get_ldnumber path).1 <? 0 then mret (FR_INVALID_DRIVE, reg, Fsid) else
  (if reg then upd_fs (set_fs_type 0) else mret tt);;
  (if new then upd_fs (set_fs_type 0) else mret tt);;
  let reg := new in
  if opt =? 0 then mret (FR_OK, reg, Fsid) else
  '(res, _, Fsid) ← mount_volume path reg 0 Fsid;
  mret (res, reg, Fsid).

(** ** Open *)

(** The directory entry of a new or overwritten file: exFAT. *)
Definition open_reset_exfat (dj : DIR) (fp : FIL) : M (St D) (FRESULT * FIL) :=
  fs ← get_fs;
  let fp := set_f_obj (init_alloc_info fs (f_obj fp)) (set_f_fs true fp) in
  let db := blit (dirbuf fs) 2 (replicate 30 0) in
  let db := blit db 38 (replicate 26 0) in
  let db := setb db XDIR_Attr AM_ARC in
  let db := st_dword db XDIR_CrtTime GET_FATTIME in
  upd_fs (set_dirbuf (setb db XDIR_GenFlags 1));;
  '(res, _) ← store_xdir dj;
  if fr_ok res && negb (sclust (f_obj fp) =? 0) then
    let cl := sclust (f_obj fp) in
    '(res, obj) ← remove_chain (f_obj fp) cl 0;
    upd_fs (set_last_clst (cl -u32 1));;
    mret (res, set_f_obj obj fp)
  else mret (res, fp).

(** The directory entry of a new or overwritten file: FAT. *)
Definition open_reset_fat (dj : DIR) : M (St D) FRESULT :=
  fs ← get_fs;
  let d := d_dir dj in
  let w := st_dword (win fs) (d + DIR_CrtTime) GET_FATTIME in
  let w := st_dword w (d + DIR_ModTime) GET_FATTIME in
  let cl := ld_clust fs w d in
  let w := setb w (d + DIR_Attr) AM_ARC in
  let w := st_clust fs w d 0 in
  poke_win (st_dword w (d + DIR_FileSize) 0);;
  if negb (cl =? 0) then
    let sc := winsect fs in
    '(res, _) ← remove_chain (d_obj dj) cl 0;
    if fr_ok res then
      res ← move_window sc;
      upd_fs (set_last_clst (cl -u32 1));;
      mret res
    else mret res
  else mret FR_OK.

(** The part on the modes: the result, the mode and the objects. *)
Definition open_object (u : Locals) (res : FRESULT) (dj : DIR) (fp : FIL) (mode : Z) :
    M (St D) (FRESULT * DIR * FIL * Z) :=
  let res := if fr_ok res && has (d_fn dj).[NSFLAG] NS_NONAME then FR_INVALID_NAME else res in
  if has mode (Z.lor FA_CREATE_ALWAYS (Z.lor FA_OPEN_ALWAYS FA_CREATE_NEW)) then
    '(res, dj, mode) ←
      (if negb (fr_ok res) then
         '(res, dj) ← (match res with FR_NO_FILE => dir_register (u_reg u) dj | _ => mret (res, dj) end);
         mret (res, dj, Z.lor mode FA_CREATE_ALWAYS)
       else if has (obj_attr (d_obj dj)) (Z.lor AM_RDO AM_DIR) then mret (FR_DENIED, dj, mode)
       else mret (if has mode FA_CREATE_NEW then FR_EXIST else res, dj, mode));
    if fr_ok res && has mode FA_CREATE_ALWAYS then
      fs ← get_fs;
      if is_exfat fs then '(res, fp) ← open_reset_exfat dj fp; mret (res, dj, fp, mode)
      else res ← open_reset_fat dj; mret (res, dj, fp, mode)
    else mret (res, dj, fp, mode)
  else
    mret (if fr_ok res then
            if has (obj_attr (d_obj dj)) AM_DIR then FR_NO_FILE
            else if has mode FA_WRITE && has (obj_attr (d_obj dj)) AM_RDO then FR_DENIED else res
          else res, dj, fp, mode).

(** [for (ofs = fp->obj.objsize; res == FR_OK && ofs > bcs; ofs -= bcs)] *)
Definition open_seek_step (obj : FFOBJID) (bcs : Z) :
    FRESULT * Z * Z -> M (St D) (FRESULT * Z * Z + FRESULT * Z * Z) := fun '(res, clst, ofs) =>
  if fr_ok res && (bcs <? ofs) then
    clst ← get_fat obj clst;
    let res := if clst <=? 1 then FR_INT_ERR else res in
    let res := if clst =? 0xFFFFFFFF then FR_DISK_ERR else res in
    mret (inl (res, clst, u64 (ofs - bcs)))
  else mret (inr (res, clst, ofs)).

(** The end of a file opened for appending. *)
Definition open_seek (fp : FIL) : M (St D) (FRESULT * FIL) :=
  fs ← get_fs;
  let fp := set_f_fptr (objsize (f_obj fp)) fp in
  let bcs := csize fs *u32 ssize fs in
  '(res, clst, ofs) ← iterate (2 ^ 64)%positive (open_seek_step (f_obj fp) bcs)
     (FR_OK, sclust (f_obj fp), objsize (f_obj fp));
  let fp := set_f_clust clst fp in
  if fr_ok res && negb (ofs mod ssize fs =? 0) then
    fs ← get_fs;
    let sc := clst2sect fs clst in
    if sc =? 0 then mret (FR_INT_ERR, fp) else
    let fp := set_f_sect (sc +u32 u32 (ofs / ssize fs)) fp in
    '(r, buf) ← do_read (f_buf fp) (f_sect fp) 1;
    mret (if res_ok r then res else FR_DISK_ERR, set_f_buf buf fp)
  else mret (res, fp).

(** The members of the file object. *)
Definition open_file (dj : DIR) (fp : FIL) (mode : Z) : M (St D) (FRESULT * FIL) :=
  fs ← get_fs;
  let mode := if has mode FA_CREATE_ALWAYS then Z.lor mode FA_MODIFIED else mode in
  let fp := set_dir_ent (winsect fs) (d_dir dj) fp in
  let obj :=
    if is_exfat fs then
      let o := d_obj dj in
      init_alloc_info fs
        (set_c_dir (sclust o) (Z.lor (Z.land (u32 (objsize o)) 0xFFFFFF00) (obj_stat o)) (blk_ofs dj) (f_obj fp))
    else set_objsize (ld_dword (win fs) (d_dir dj + DIR_FileSize))
           (set_sclust (ld_clust fs (win fs) (d_dir dj)) (f_obj fp)) in
  let fp := mkFIL (set_obj_id (fsid fs) obj) true mode FR_OK 0 (f_clust fp) 0 (f_dir_sect fp) (f_dir_ptr fp)
              (replicate (Z.to_nat FF_MAX_SS) 0) in
  if has mode FA_SEEKEND && (0 <? objsize (f_obj fp)) then open_seek fp else mret (FR_OK, fp).

Definition f_open (u : Locals) (reg : bool) (fp : FIL) (path : list Z) (mode Fsid : Z) :
    M (St D) (FRESULT * FIL * Z) :=
  let mode := Z.land mode (Z.lor FA_READ (Z.lor FA_WRITE (Z.lor FA_CREATE_ALWAYS
                (Z.lor FA_CREATE_NEW (Z.lor FA_OPEN_ALWAYS FA_OPEN_APPEND))))) in
  '(res, path, Fsid) ← mount_volume path reg mode Fsid;
  if negb (fr_ok res) then mret (res, set_f_fs false fp, Fsid) else
  INIT_NAMBUF (FR_NOT_ENOUGH_CORE, fp, Fsid) (
    '(res, dj) ← follow_path (u_dj u) path;
    '(res, dj, fp, mode) ← open_object u res dj fp mode;
    '(res, fp) ← (if fr_ok res then open_file dj fp mode else mret (res, fp));
    mret (res, if fr_ok res then fp else set_f_fs false fp, Fsid)).

(** ** Directories *)

Definition f_opendir (reg : bool) (dp : DIRP) (path : list Z) (Fsid : Z) : M (St D) (FRESULT * DIRP * Z) :=
  '(res, path, Fsid) ← mount_volume path reg 0 Fsid;
  if negb (fr_ok res) then mret (res, mkDIRP false (od_dir dp), Fsid) else
  INIT_NAMBUF (FR_NOT_ENOUGH_CORE, mkDIRP true (od_dir dp), Fsid) (
    '(res, d) ← follow_path (od_dir dp) path;
    '(res, d) ←
      (if fr_ok res then
         fs ← get_fs;
         let '(res, d) :=
           if negb (has (d_fn d).[NSFLAG] NS_NONAME) then
             if has (obj_attr (d_obj d)) AM_DIR then
               (res, if is_exfat fs then enter_dir fs d
                     else set_d_obj (set_sclust (ld_clust fs (win fs) (d_dir d)) (d_obj d)) d)
             else (FR_NO_PATH, d)
           else (res, d) in
         if fr_ok res then dir_sdi (set_d_obj (set_obj_id (fsid fs) (d_obj d)) d) 0 else mret (res, d)
       else mret (res, d));
    let res := match res with FR_NO_FILE => FR_NO_PATH | _ => res end in
    mret (res, mkDIRP (fr_ok res) d, Fsid)).

Definition f_closedir (dp : DIRP) : M (St D) (FRESULT * DIRP) :=
  res ← validate (d_obj (od_dir dp)) (od_fs dp);
  mret (res, if fr_ok res then mkDIRP false (od_dir dp) else dp).

(** [fno] is [None] for a null pointer. *)
Definition f_readdir (dp : DIRP) (fno : option FILINFO) : M (St D) (FRESULT * DIRP * option FILINFO) :=
  res ← validate (d_obj (od_dir dp)) (od_fs dp);
  if negb (fr_ok res) then mret (res, dp, fno) else
  match fno with
  | None =>
      '(res, d) ← dir_sdi (od_dir dp) 0;
      mret (res, mkDIRP (od_fs dp) d, fno)
  | Some info =>
      INIT_NAMBUF (FR_NOT_ENOUGH_CORE, dp, fno) (
        '(res, d) ← dir_read (od_dir dp) false;
        let res := match res with FR_NO_FILE => FR_OK | _ => res end in
        if fr_ok res then
          fs ← get_fs;
          info ← checked (get_fileinfo fs d info);
          '(res, d) ← dir_next d false;
          mret (match res with FR_NO_FILE => FR_OK | _ => res end, mkDIRP (od_fs dp) d, Some info)
        else mret (res, mkDIRP (od_fs dp) d, fno))
  end.

Definition f_stat (u : Locals) (reg : bool) (path : list Z) (fno : option FILINFO) (Fsid : Z) :
    M (St D) (FRESULT * option FILINFO * Z) :=
  '(res, path, Fsid) ← mount_volume path reg 0 Fsid;
  if negb (fr_ok res) then mret (res, fno, Fsid) else
  INIT_NAMBUF (FR_NOT_ENOUGH_CORE, fno, Fsid) (
    '(res, dj) ← follow_path (u_dj u) path;
    if negb (fr_ok res) then mret (res, fno, Fsid) else
    if has (d_fn dj).[NSFLAG] NS_NONAME then mret (FR_INVALID_NAME, fno, Fsid) else
    match fno with
    | None => mret (res, fno, Fsid)
    | Some info => fs ← get_fs; info ← checked (get_fileinfo fs dj info); mret (res, Some info, Fsid)
    end).

(** ** Free clusters *)

(** FAT12: [do ... while (++clst < fs->n_fatent)] *)
Definition getfree12_step (obj : FFOBJID) : Z * Z -> M (St D) (Z * Z + FRESULT * Z) := fun '(clst, nfree) =>
  stat ← get_fat obj clst;
  if stat =? 0xFFFFFFFF then mret (inr (FR_DISK_ERR, nfree)) else
  if stat =? 1 then mret (inr (FR_INT_ERR, nfree)) else
  let nfree := if stat =? 0 then nfree +u32 1 else nfree in
  let clst := clst +u32 1 in
  fs ← get_fs;
  if clst <? n_fatent fs then mret (inl (clst, nfree)) else mret (inr (FR_OK, nfree)).

(** [for (b = 8, bm = fs->win[i]; b && clst; b--, clst--)] *)
Fixpoint count_bits (b : nat) (bm clst nfree : Z) : Z * Z :=
  match b with
  | O => (clst, nfree)
  | S b =>
      if clst =? 0 then (clst, nfree)
      else count_bits b (Z.shiftr bm 1) (clst - 1) (if Z.land bm 1 =? 0 then nfree +u32 1 else nfree)
  end.

(** exFAT: [do ... while (clst)] over the bytes of the bitmap. *)
Definition getfree_exfat_step : Z * Z * Z * Z -> M (St D) (Z * Z * Z * Z + FRESULT * Z) := fun '(clst, sect, i, nfree) =>
  res ← (if i =? 0 then move_window sect else mret FR_OK);
  let sect := if i =? 0 then sect +u32 1 else sect in
  if negb (fr_ok res) then mret (inr (res, nfree)) else
  fs ← get_fs;
  let '(clst, nfree) := count_bits 8 (win fs).[i] clst nfree in
  let i := (i + 1) mod ssize fs in
  if negb (clst =? 0) then mret (inl (clst, sect, i, nfree)) else mret (inr (FR_OK, nfree)).

(** FAT16 and FAT32: [do ... while (--clst)] over the entries of the table. *)
Definition getfree_fat_step : Z * Z * Z * Z -> M (St D) (Z * Z * Z * Z + FRESULT * Z) := fun '(clst, sect, i, nfree) =>
  res ← (if i =? 0 then move_window sect else mret FR_OK);
  let sect := if i =? 0 then sect +u32 1 else sect in
  if negb (fr_ok res) then mret (inr (res, nfree)) else
  fs ← get_fs;
  let '(free, i) :=
    if fs_type fs =? FS_FAT16 then (ld_word (win fs) i =? 0, i + 2)
    else (Z.land (ld_dword (win fs) i) 0x0FFFFFFF =? 0, i + 4) in
  let nfree := if free then nfree +u32 1 else nfree in
  let i := i mod ssize fs in
  let clst := clst -u32 1 in
  if negb (clst =? 0) then mret (inl (clst, sect, i, nfree)) else mret (inr (FR_OK, nfree)).

(** The result and, when it is [FR_OK], the number of free clusters. *)
Definition f_getfree (u : Locals) (reg : bool) (path : list Z) (Fsid : Z) : M (St D) (FRESULT * Z * Z) :=
  '(res, _, Fsid) ← mount_volume path reg 0 Fsid;
  if negb (fr_ok res) then mret (res, 0, Fsid) else
  fs ← get_fs;
  if free_clst fs <=? n_fatent fs -u32 2 then mret (res, free_clst fs, Fsid) else
  '(res, nfree) ←
    (if fs_type fs =? FS_FAT12 then iterate (2 ^ 32)%positive (getfree12_step (u_obj u)) (2, 0)
     else if is_exfat fs then iterate (2 ^ 32)%positive getfree_exfat_step (n_fatent fs -u32 2, bitbase fs, 0, 0)
     else iterate (2 ^ 32)%positive getfree_fat_step (n_fatent fs, fatbase fs, 0, 0));
  if fr_ok res then
    upd_fs (fun fs => set_fsi_flag (Z.lor (fsi_flag fs) 1) (set_free_clst nfree fs));;
    mret (res, nfree, Fsid)
  else mret (res, nfree, Fsid).

(** ** Removal *)

(** Is the sub-directory empty? *)
Definition unlink_empty (u : Locals) (obj : FFOBJID) (dclst : Z) : M (St D) FRESULT :=
  fs ← get_fs;
  let o := set_sclust dclst (d_obj (u_sdj u)) in
  let o := if is_exfat fs then set_stat (obj_stat obj) (set_objsize (objsize obj) o) else o in
  '(res, sdj) ← dir_sdi (set_d_obj o (u_sdj u)) 0;
  if fr_ok res then
    '(res, _) ← dir_read sdj false;
    mret (match res with FR_OK => FR_DENIED | FR_NO_FILE => FR_OK | _ => res end)
  else mret res.

Definition f_unlink (u : Locals) (reg : bool) (path : list Z) (Fsid : Z) : M (St D) (FRESULT * Z) :=
  '(res, path, Fsid) ← mount_volume path reg FA_WRITE Fsid;
  if negb (fr_ok res) then mret (res, Fsid) else
  INIT_NAMBUF (FR_NOT_ENOUGH_CORE, Fsid) (
    '(res, dj) ← follow_path (u_dj u) path;
    if negb (fr_ok res) then mret (res, Fsid) else
    if has (d_fn dj).[NSFLAG] NS_NONAME then mret (FR_INVALID_NAME, Fsid) else
    if has (obj_attr (d_obj dj)) AM_RDO then mret (FR_DENIED, Fsid) else
    fs ← get_fs;
    let obj := if is_exfat fs then init_alloc_info fs (u_obj u) else u_obj u in
    let dclst := if is_exfat fs then sclust obj else ld_clust fs (win fs) (d_dir dj) in
    res ← (if has (obj_attr (d_obj dj)) AM_DIR then unlink_empty u obj dclst else mret res);
    if negb (fr_ok res) then mret (res, Fsid) else
    '(res, _) ← dir_remove dj;
    res ← (if fr_ok res && negb (dclst =? 0) then '(res, _) ← remove_chain obj dclst 0; mret res else mret res);
    res ← (if fr_ok res then sync_fs else mret res);
    mret (res, Fsid)).

(** ** Creation of a directory *)

(** The dot entries, at the start of the window. *)
Definition dot_entries (fs : FATFS) (dcl pcl : Z) : list Z :=
  let w := blit (win fs) DIR_Name (replicate 11 32) in
  let w := setb w DIR_Name 46 in
  let w := setb w DIR_Attr AM_DIR in
  let w := st_dword w DIR_ModTime GET_FATTIME in
  let w := st_clust fs w 0 dcl in
  let w := blit w SZDIRE (sub w 0 SZDIRE) in
  let w := setb w (SZDIRE + 1) 46 in
  st_clust fs w SZDIRE pcl.

(** The entry set of a new directory on an exFAT volume. *)
Definition mkdir_xdir (fs : FATFS) (dcl : Z) (db : list Z) : list Z :=
  let db := st_dword db XDIR_ModTime GET_FATTIME in
  let db := st_dword db XDIR_FstClus dcl in
  let db := st_dword db XDIR_FileSize (csize fs *u32 ssize fs) in
  let db := st_dword db XDIR_ValidFileSize (csize fs *u32 ssize fs) in
  setb (setb db XDIR_GenFlags 3) XDIR_Attr AM_DIR.

(** The entry of a new directory on a FAT volume. *)
Definition mkdir_entry (fs : FATFS) (dir dcl : Z) : list Z :=
  let w := st_dword (win fs) (dir + DIR_ModTime) GET_FATTIME in
  let w := st_clust fs w dir dcl in
  setb w (dir + DIR_Attr) AM_DIR.

(** From the point where the name is known to be free. *)
Definition mkdir_new (u : Locals) (dj : DIR) : M (St D) FRESULT :=
  '(dcl, sobj) ← create_chain (u_obj u) 0;
  let res := if dcl =? 0 then FR_DENIED else if dcl =? 1 then FR_INT_ERR
             else if dcl =? 0xFFFFFFFF then FR_DISK_ERR else FR_OK in
  '(res, dj) ←
    (if fr_ok res then
       res ← dir_clear dcl;
       if fr_ok res then
         fs ← get_fs;
         (if negb (is_exfat fs) then poke_win (dot_entries fs dcl (sclust (d_obj dj))) else mret tt);;
         dir_register (u_reg u) dj
       else mret (res, dj)
     else mret (res, dj));
  if fr_ok res then
    fs ← get_fs;
    res ←
      (if is_exfat fs then
         upd_fs (set_dirbuf (mkdir_xdir fs dcl (dirbuf fs)));;
         '(res, _) ← store_xdir dj;
         mret res
       else poke_win (mkdir_entry fs (d_dir dj) dcl);; mret res);
    if fr_ok res then sync_fs else mret res
  else
    remove_chain sobj dcl 0;;
    mret res.

Definition f_mkdir (u : Locals) (reg : bool) (path : list Z) (Fsid : Z) : M (St D) (FRESULT * Z) :=
  '(res, path, Fsid) ← mount_volume path reg FA_WRITE Fsid;
  if negb (fr_ok res) then mret (res, Fsid) else
  INIT_NAMBUF (FR_NOT_ENOUGH_CORE, Fsid) (
    '(res, dj) ← follow_path (u_dj u) path;
    res ← (match res with FR_OK => mret FR_EXIST | FR_NO_FILE => mkdir_new u dj | _ => mret res end);
    mret (res, Fsid)).

(** ** Renaming *)

(** The new name is free, or it is the one of the object. *)
Definition rename_free (res : FRESULT) (djo djn : DIR) : FRESULT :=
  if fr_ok res then
    if (sclust (d_obj djn) =? sclust (d_obj djo)) && (dptr djn =? dptr djo) then FR_NO_FILE else FR_EXIST
  else res.

(** The entry set of the old object under its new name. *)
Definition rename_xdir (buf db : list Z) : list Z :=
  let nf := db.[XDIR_NumSec] in
  let nn := db.[XDIR_NumName] in
  let nh := ld_word db XDIR_NameHash in
  let db := blit db 0 buf in
  let db := setb (setb db XDIR_NumSec nf) XDIR_NumName nn in
  let db := st_word db XDIR_NameHash nh in
  if negb (has db.[XDIR_Attr] AM_DIR) then setb db XDIR_Attr (Z.lor db.[XDIR_Attr] AM_ARC) else db.

Definition rename_exfat (u : Locals) (djo : DIR) (path_new : list Z) : M (St D) FRESULT :=
  fs ← get_fs;
  let buf := sub (dirbuf fs) 0 (SZDIRE * 2) in
  '(res, djn) ← follow_path djo path_new;
  match rename_free res djo djn with
  | FR_NO_FILE =>
      '(res, djn) ← dir_register (u_reg u) djn;
      if fr_ok res then
        upd_fs (fun fs => set_dirbuf (rename_xdir buf (dirbuf fs)) fs);;
        '(res, _) ← store_xdir djn;
        mret res
      else mret res
  | res => mret res
  end.

(** The short entry of the old object under its new name. *)
Definition rename_entry (buf w : list Z) (dir : Z) : list Z :=
  let w := blit w (dir + 13) (sub buf 13 (SZDIRE - 13)) in
  let w := setb w (dir + DIR_Attr) buf.[DIR_Attr] in
  if negb (has w.[dir + DIR_Attr] AM_DIR) then setb w (dir + DIR_Attr) (Z.lor w.[dir + DIR_Attr] AM_ARC) else w.

(** The [..] entry of a directory that moves to another one. *)
Definition rename_dotdot (cl pcl : Z) : M (St D) FRESULT :=
  fs ← get_fs;
  let sect := clst2sect fs cl in
  if sect =? 0 then mret FR_INT_ERR else
  res ← move_window sect;
  fs ← get_fs;
  if fr_ok res && ((win fs).[SZDIRE + 1] =? 46) then
    poke_win (st_clust fs (win fs) SZDIRE pcl);;
    mret res
  else mret res.

Definition rename_fat (u : Locals) (djo : DIR) (path_new : list Z) : M (St D) FRESULT :=
  fs ← get_fs;
  let buf := entry_bytes fs djo in
  '(res, djn) ← follow_path djo path_new;
  match rename_free res djo djn with
  | FR_NO_FILE =>
      '(res, djn) ← dir_register (u_reg u) djn;
      if fr_ok res then
        fs ← get_fs;
        let w := rename_entry buf (win fs) (d_dir djn) in
        poke_win w;;
        if has w.[d_dir djn + DIR_Attr] AM_DIR && negb (sclust (d_obj djo) =? sclust (d_obj djn)) then
          rename_dotdot (ld_clust fs w (d_dir djn)) (sclust (d_obj djn))
        else mret res
      else mret res
  | res => mret res
  end.

Definition f_rename (u : Locals) (reg : bool) (path_old path_new : list Z) (Fsid : Z) : M (St D) (FRESULT * Z) :=
  let path_new := (get_ldnumber path_new).2 in
  '(res, path_old, Fsid) ← mount_volume path_old reg FA_WRITE Fsid;
  if negb (fr_ok res) then mret (res, Fsid) else
  INIT_NAMBUF (FR_NOT_ENOUGH_CORE, Fsid) (
    '(res, djo) ← follow_path (u_dj u) path_old;
    let res := if fr_ok res && has (d_fn djo).[NSFLAG] (Z.lor NS_DOT NS_NONAME) then FR_INVALID_NAME else res in
    if negb (fr_ok res) then mret (res, Fsid) else
    fs ← get_fs;
    res ← (if is_exfat fs then rename_exfat u djo path_new else rename_fat u djo path_new);
    if negb (fr_ok res) then mret (res, Fsid) else
    '(res, _) ← dir_remove djo;
    res ← (if fr_ok res then sync_fs else mret res);
    mret (res, Fsid)).

(** ** Attributes and times *)

(** The common part of the two functions: the entry of the path is changed in the window
    ([w]) or in the entry set ([x]), and written back. *)
Definition update_entry (u : Locals) (reg : bool) (path : list Z) (Fsid : Z)
    (w : FATFS -> Z -> list Z) (x : list Z -> list Z) : M (St D) (FRESULT * Z) :=
  '(res, path, Fsid) ← mount_volume path reg FA_WRITE Fsid;
  if negb (fr_ok res) then mret (res, Fsid) else
  INIT_NAMBUF (FR_NOT_ENOUGH_CORE, Fsid) (
    '(res, dj) ← follow_path (u_dj u) path;
    let res := if fr_ok res && has (d_fn dj).[NSFLAG] (Z.lor NS_DOT NS_NONAME) then FR_INVALID_NAME else res in
    if negb (fr_ok res) then mret (res, Fsid) else
    fs ← get_fs;
    res ←
      (if is_exfat fs then
         upd_fs (fun fs => set_dirbuf (x (dirbuf fs)) fs);;
         '(res, _) ← store_xdir dj;
         mret res
       else poke_win (w fs (d_dir dj));; mret res);
    res ← (if fr_ok res then sync_fs else mret res);
    mret (res, Fsid)).

(** [(attr & mask) | (old & (BYTE)~mask)] *)
Definition mix_attr (attr mask old : Z) : Z :=
  let mask := Z.land mask (Z.lor AM_RDO (Z.lor AM_HID (Z.lor AM_SYS AM_ARC))) in
  Z.lor (Z.land attr mask) (Z.land old (u8 (Z.lnot mask))).

Definition f_chmod (u : Locals) (reg : bool) (path : list Z) (attr mask Fsid : Z) : M (St D) (FRESULT * Z) :=
  update_entry u reg path Fsid
    (fun fs dir => setb (win fs) (dir + DIR_Attr) (mix_attr attr mask (win fs).[dir + DIR_Attr]))
    (fun db => setb db XDIR_Attr (mix_attr attr mask db.[XDIR_Attr])).

Definition f_utime (u : Locals) (reg : bool) (path : list Z) (fno : FILINFO) (Fsid : Z) : M (St D) (FRESULT * Z) :=
  let tm := Z.lor (u32 (Z.shiftl (fi_fdate fno) 16)) (fi_ftime fno) in
  update_entry u reg path Fsid
    (fun fs dir => st_dword (win fs) (dir + DIR_ModTime) tm)
    (fun db => st_dword db XDIR_ModTime tm).

(** ** Contiguous allocation *)

(** [for (;;)]: find a contiguous block of [tcl] free clusters. *)
Definition expand_step (obj : FFOBJID) (tcl stcl : Z) :
    Z * Z * Z -> M (St D) (Z * Z * Z + FRESULT * Z) := fun '(scl, clst, ncl) =>
  n ← get_fat obj clst;
  fs ← get_fs;
  let clst := clst +u32 1 in
  let clst := if n_fatent fs <=? clst then 2 else clst in
  if n =? 1 then mret (inr (FR_INT_ERR, scl)) else
  if n =? 0xFFFFFFFF then mret (inr (FR_DISK_ERR, scl)) else
  let ncl' := ncl +u32 1 in
  if (n =? 0) && (ncl' =? tcl) then mret (inr (FR_OK, scl)) else
  let '(scl, ncl) := if n =? 0 then (scl, ncl') else (clst, 0) in
  if clst =? stcl then mret (inr (FR_DENIED, scl)) else mret (inl (scl, clst, ncl)).

(** [for (clst = scl, n = tcl; n; clst++, n--)]: the chain on the FAT. *)
Definition expand_link_step : Z * Z * Z -> M (St D) (Z * Z * Z + FRESULT * Z) := fun '(clst, n, lclst) =>
  if n =? 0 then mret (inr (FR_OK, lclst)) else
  res ← put_fat clst (if n =? 1 then 0xFFFFFFFF else clst +u32 1);
  if negb (fr_ok res) then mret (inr (res, lclst)) else
  mret (inl (clst +u32 1, n -u32 1, clst)).

(** The search and, when [opt] is not 0, the allocation: the result, the first cluster and
    the last allocated one. *)
Definition expand_find (fp : FIL) (tcl stcl opt : Z) : M (St D) (FRESULT * Z * Z) :=
  fs ← get_fs;
  if is_exfat fs then
    scl ← find_bitmap stcl tcl;
    if scl =? 0 then mret (FR_DENIED, scl, 0) else
    if scl =? 0xFFFFFFFF then mret (FR_DISK_ERR, scl, 0) else
    if negb (opt =? 0) then
      res ← change_bitmap scl tcl 1;
      mret (res, scl, u32 (scl + tcl - 1))
    else mret (FR_OK, scl, scl -u32 1)
  else
    '(res, scl) ← iterate (2 ^ 32)%positive (expand_step (f_obj fp) tcl stcl) (stcl, stcl, 0);
    if negb (fr_ok res) then mret (res, scl, 0) else
    if negb (opt =? 0) then
      '(res, lclst) ← iterate (2 ^ 33)%positive expand_link_step (scl, tcl, 0);
      mret (res, scl, lclst)
    else mret (FR_OK, scl, scl -u32 1).

Definition f_expand (fp : FIL) (fsz opt : Z) : M (St D) (FRESULT * FIL) :=
  res ← validate (f_obj fp) (f_fs fp);
  if negb (fr_ok res) then mret (res, fp) else
  if negb (fr_ok (f_err fp)) then mret (f_err fp, fp) else
  if (fsz =? 0) || negb (objsize (f_obj fp) =? 0) || negb (has (f_flag fp) FA_WRITE) then mret (FR_DENIED, fp) else
  fs ← get_fs;
  if negb (is_exfat fs) && (0x100000000 <=? fsz) then mret (FR_DENIED, fp) else
  let n := csize fs *u32 ssize fs in
  let tcl := u32 (fsz / n) +u32 (if negb (Z.land fsz (n -u32 1) =? 0) then 1 else 0) in
  let stcl := if (last_clst fs <? 2) || (n_fatent fs <=? last_clst fs) then 2 else last_clst fs in
  '(res, scl, lclst) ← expand_find fp tcl stcl opt;
  if negb (fr_ok res) then mret (res, fp) else
  upd_fs (set_last_clst lclst);;
  if negb (opt =? 0) then
    let obj := set_stat 2 (set_objsize fsz (set_sclust scl (f_obj fp))) in
    upd_fs (fun fs => if free_clst fs <=? n_fatent fs -u32 2
                      then set_fsi_flag (Z.lor (fsi_flag fs) 1) (set_free_clst (free_clst fs -u32 tcl) fs) else fs);;
    mret (res, raise FA_MODIFIED (set_f_obj obj fp))
  else mret (res, fp).
End code.
