(* ===== verification/ApiEntry.v ===== *)
(** * Reading and changing the entry of a path

    [f_stat], [f_chmod] and [f_utime] on a mounted FAT volume: the entry the path resolves
    to is the one reported or changed, and nothing else on the volume changes. *)

From stdpp Require Import prelude list.
From Stdlib Require Import ZArith Lia.
From S2P Require Import Prelude Bytes Buffers Unicode Diskio FFTypes Window Fat Bitmap Chain Lfn Dir Dirent DirFind Mount File Path PathName PathInfo FollowPath FileApi.

Local Open Scope Z_scope.
Local Open Scope cint_scope.

Section api.
Context {D : Type} `{BlockDeviceLaws D} `{!Shl} `{!Heap}.
Implicit Types s : St D.

(** A call of the API on a mounted FAT volume: [p] is the path without its drive. *)
Record called s (dj : DIR) (path p : list Z) : Prop := {
  ca_inv : fs_inv s;
  ca_geom : vol_geom (fsys s);
  ca_type : fs_type (fsys s) <> FS_EXFAT;
  ca_lfn : zlen (lfnbuf (fsys s)) = 256;
  ca_fn : zlen (d_fn dj) = 12 /\ bytes (d_fn dj);
  ca_drive : get_ldnumber path = (0, p);
  ca_path : Forall is_u16 p
}.

Lemma mount_mounted s path p mode Fsid (Q : FRESULT * list Z * Z -> St D -> Prop) :
  fs_inv s -> get_ldnumber path = (0, p) -> Q (FR_OK, p, Fsid) s -> post (mount_volume path true mode Fsid) s Q.
Proof.
  intros Hi Hd HQ. unfold mount_volume. rewrite Hd. cbn [Z.ltb Z.compare negb]. mstep.
  unfold mount_fs, get_fs. mstep. mstep. pose proof (fg_type _ (fi_fat s Hi)).
  rewrite (proj2 (Z.eqb_neq _ 0)) by lia. cbn [negb andb]. change (has disk_status STA_NOINIT) with false.
  change (has disk_status STA_PROTECT) with false. rewrite andb_false_r. cbn [negb]. by mstep.
Qed.

Lemma plain_named x : has x (Z.lor NS_DOT NS_NONAME) = false -> has x NS_NONAME = false.
Proof.
  unfold has. rewrite Z.lor_comm, Z.land_lor_distr_r. intros E%negb_false_iff%Z.eqb_eq. apply Z.lor_eq_0_iff in E as [-> _]. done.
Qed.

(** The error of a path: the one of its resolution; the empty path stands for the root
    directory, which may have no first entry. *)
Definition path_error s (p : list Z) (r : FRESULT) : Prop :=
  p.[0] < 32 /\ r = FR_INT_ERR /\ ~ in_table s (dir_at 0) 0 \/ 32 <= p.[0] /\ resolve s 0 p (inr r).

(** What the path leads to. *)
Lemma follow_called s dp path p :
  called s dp path p -> post (follow_path dp p) s (fun '(r, dj) s' =>
    fs_inv s' /\ same_volume s s' /\
    (r = FR_OK /\ (d_fn dj).[NSFLAG] = NS_NONAME /\ sclust (d_obj dj) = 0 /\ (skip_separators p).[0] < 32 \/
     r = FR_INT_ERR /\ path_error s (skip_separators p) r \/
     32 <= (skip_separators p).[0] /\ walked s (skip_separators p) r dj s')).
Proof.
  intros [Hi Hg Ht Hl [Hf Hb] _ Hu]. unfold follow_path. destruct (Z.ltb_spec (skip_separators p).[0] 32).
  - eapply post_mono; [by apply follow_root|]. intros [r dj] s' (Hi' & Hv & Ef & Ec & Hr). split_and!; [done..|].
    destruct Hr as [(-> & _)|[-> Hn]]; [auto|]. right; left. split; [done|]. by left.
  - eapply post_mono; [apply follow_names; try done; by apply u16_skip|]. intros [r dj] s' Hw.
    split_and!; [apply Hw..|]. auto.
Qed.

(** ** [f_stat] *)

(** The information of an entry, the name aside. *)
Definition info_of (e : list Z) (info : FILINFO) : Prop :=
  fi_fattrib info = Z.land e.[DIR_Attr] AM_MASK /\ fi_fsize info = ld_dword e DIR_FileSize /\
  fi_ftime info = ld_word e DIR_ModTime /\ fi_fdate info = ld_word e (DIR_ModTime + 2) /\
  ends_in 256 (fi_fname info) /\ (fi_fname info).[0] <> 0.

Lemma se_dword w dir w' dir' k :
  same_entry w dir w' dir' -> 0 <= k < 29 -> ld_dword w (dir + k) = ld_dword w' (dir' + k).
Proof.
  intros Hs Hk. unfold ld_dword. rewrite <- !Z.add_assoc. by rewrite !(se_byte _ _ _ _ Hs) by lia.
Qed.

Lemma info_at s s' c k dj info :
  fs_inv s' -> at_entry s c k dj s' -> is_exfat (fsys s') = false ->
  zlen (lfnbuf (fsys s')) = 256 -> (blk_ofs dj <> NO_BLK -> exists j, 0 <= j < 256 /\ (lfnbuf (fsys s')).[j] = 0) ->
  zlen (fi_altname info) = 13 -> zlen (fi_fname info) = 256 ->
  exists info', get_fileinfo (fsys s') dj info = Some info' /\ info_of (table_entry s (dir_at c) k) info'.
Proof.
  intros Hi Hat Hx Hl Hz Ha Hf.
  destruct (ae_bounds _ _ _ _ _ Hat) as (_ & [Hs0 _] & _). pose proof (ae_shown _ _ _ _ _ Hat) as Hse.
  unfold get_fileinfo. rewrite store_some by lia. cbn [mbind option_bind fi_fname fi_altname].
  rewrite (proj2 (Z.eqb_neq _ 0)), Hx by lia.
  destruct (info_name_safe (lfnbuf (fsys s')) (win (fsys s')) (d_dir dj) (blk_ofs dj) (fi_altname info) (setb (fi_fname info) 0 0))
    as (a & f & -> & _ & He & Hne).
  - done.
  - by rewrite zlen_setb.
  - apply getb_setb_eq. lia.
  - apply Hi.
  - done.
  - done.
  - cbn [mbind option_bind]. eexists. split; [done|]. unfold info_of, dirb, DIR_Attr, DIR_FileSize, DIR_ModTime.
    cbn [fi_fattrib fi_fsize fi_ftime fi_fdate fi_fname].
    rewrite (se_byte _ _ _ _ Hse), (se_dword _ _ _ _ _ Hse), <- (Z.add_assoc _ 22), !(se_word _ _ _ _ Hse) by lia. done.
Qed.

(** C16: on a mounted FAT volume [f_stat] returns for every path and leaves the volume as
    it is; when it succeeds, the path resolves to an entry of a directory and the size,
    the time stamp and the attributes it reports are the ones of this entry, with a
    name that is not empty.  An error leaves the caller's buffer as it is and is the
    error of the path ([path_error]: an invalid name, a missing object, a broken chain),
    except that the root directory, which has no entry, is refused as an invalid name,
    that memory for the name buffer can be refused, and that a disk error is possible on
    a device that can fail. *)
Theorem f_stat_reports s u path p info Fsid :
  called s (u_dj u) path p -> zlen (fi_altname info) = 13 -> zlen (fi_fname info) = 256 ->
  post (f_stat u true path (Some info) Fsid) s (fun '(r, fno, Fsid') s' =>
    fs_inv s' /\ same_volume s s' /\ Fsid' = Fsid /\
    (r = FR_OK -> exists c k info', fno = Some info' /\ resolve s 0 (skip_separators p) (inl (c, k)) /\
       info_of (table_entry s (dir_at c) k) info') /\
    (r <> FR_OK -> fno = Some info /\
       (path_error s (skip_separators p) r \/ r = FR_INVALID_NAME /\ (skip_separators p).[0] < 32 \/
        r = FR_NOT_ENOUGH_CORE /\ (exists n, ff_memalloc n = false) \/ r = FR_DISK_ERR /\ ~ faultless D))).
Proof.
  intros Hc Ha Hf. pose proof Hc as [Hi Hg Ht Hl _ Hd _]. unfold f_stat. mstep. apply (mount_mounted s path p); [done..|].
  cbn [fr_ok negb]. unfold INIT_NAMBUF. destruct (ff_memalloc _) eqn:Em; [|mstep; split_and!; eauto 10; done].
  mcall follow_called; [done|]. intros [r dj] s' (Hi' & Hv & Hr).
  destruct Hr as [(-> & Efn & _ & Hroot)|[[-> Herr]|(Hne & _ & _ & Hw)]]; cbn [fr_ok negb].
  - rewrite Efn. change (has NS_NONAME NS_NONAME) with true. cbn iota. mstep. split_and!; auto; done.
  - mstep. split_and!; auto; done.
  - destruct Hw as [[-> Hfl]|[(-> & Hfn & Hname & c & k & Hres & Hat)|(Hr & Hres)]]; cbn [fr_ok negb].
    + mstep. split_and!; auto 10; done.
    + rewrite (plain_named _ Hfn). mstep. apply post_gets.
      destruct (info_at s s' c k dj info) as (info' & Ei & Hinfo); try done.
      { apply is_exfat_false. by rewrite (same_volume_type s). }
      { by destruct Hname as (name & Hn & ? & _). }
      { intros _. destruct Hname as (name & Hn & _ & _ & Hz). exists (zlen name). pose proof (zlen_nonneg name). split; [lia|done]. }
      rewrite Ei. cbn [checked]. do 2 mstep. split_and!; try done.
      intros _. by exists c, k, info'.
    + assert (fr_ok r = false) as E by (by destruct Hr as [-> |[-> |[-> | ->]]]). rewrite E. cbn [negb]. mstep.
      split_and!; try done; [by intros ->|]. intros _. split; [done|]. left. by right.
Qed.

(** ** [f_chmod] and [f_utime] *)

(** An edit of the window, as an edit [g] of the sector it shows. *)
Record edits (w : FATFS -> Z -> list Z) (g : list Z -> Z -> list Z) : Prop := {
  ed_shape : forall fs dir, zlen (win fs) = FF_MAX_SS -> bytes (win fs) ->
    zlen (w fs dir) = FF_MAX_SS /\ bytes (w fs dir);
  ed_sector : forall fs dir, 0 <= dir -> dir + SZDIRE <= ssize fs ->
    take (Z.to_nat (ssize fs)) (w fs dir) = g (take (Z.to_nat (ssize fs)) (win fs)) dir
}.

Definition poked s (w : list Z) : St D := mkSt (set_wflag 1 (set_win w (fsys s))) (dev s).

Lemma poked_inv s w : win_inv s -> zlen w = FF_MAX_SS -> bytes w -> win_inv (poked s w).
Proof. intros [W1 W2 W3 W4 [G1 G2 G3 G4 G5] W6] Hl Hb. split; try done. Qed.

Lemma poked_vol s w y :
  vol (poked s w) y = if y =? winsect (fsys s) then take (Z.to_nat (ssize (fsys s))) w else vol s y.
Proof.
  unfold vol. cbn. destruct (y =? winsect (fsys s)); [done|]. by rewrite andb_false_r.
Qed.

(** The medium after an edit of sector [x]: the other sectors are as they were, except
    the sector of the FSINFO and the copy of the FAT, which the flush may write. *)
Definition changed_sector s (x : Z) (g : list Z -> list Z) s' : Prop :=
  wflag (fsys s') = 0 /\
  forall y, 0 <= y -> ~ mirror (fsys s) y -> ~ (fsinfo_due (fsys s) = true /\ y = volbase (fsys s) + 1) ->
    medium (dev s') y = if y =? x then g (vol s x) else vol s y.

Lemma write_entry s s1 c k dj w g :
  fs_inv s -> vol_geom (fsys s) -> fsinfo_room (fsys s) ->
  fs_inv s1 -> same_volume s s1 -> at_entry s c k dj s1 -> edits w g ->
  post sync_fs (poked s1 (w (fsys s1) (d_dir dj))) (fun r s' =>
    r = FR_DISK_ERR \/
    r = FR_OK /\ changed_sector s (table_sect s (dir_at c) k)
      (fun l => g l ((SZDIRE * k) mod ssize (fsys s))) s').
Proof.
  intros Hi Hg Hroom Hi1 [Hc Hv] Hat [Esh Esec]. set (w1 := w (fsys s1) (d_dir dj)).
  pose proof (fi_win s1 Hi1) as Hw1. destruct (Esh (fsys s1) (d_dir dj)) as [Hl Hb]; [apply Hw1..|].
  destruct (ae_bounds _ _ _ _ _ Hat) as (Har & _ & _ & Hd0 & Hd1).
  pose proof (wi_geom s (fi_win s Hi)) as [Gs Gb Gf Gn _].
  destruct (dir_area_ok _ Hg _ Gb Gf Gn Har) as (A1 & A2 & _).
  assert (forall y, mirror (fsys s1) y <-> mirror (fsys s) y) as Hm by (intros y; symmetry; exact (core_mirror _ _ y Hc)).
  assert (ssize (fsys s1) = ssize (fsys s)) as Ess by (symmetry; exact (f_equal ssize Hc)).
  assert (volbase (fsys s1) = volbase (fsys s)) as Evb by (symmetry; exact (f_equal volbase Hc)).
  assert (fatbase (fsys s1) = fatbase (fsys s)) as Efb by (symmetry; exact (f_equal fatbase Hc)).
  assert (fsinfo_due (fsys s1) = fsinfo_due (fsys s)) as Edue.
  { unfold fsinfo_due. f_equal; f_equal; symmetry; [exact (f_equal fs_type Hc)|exact (f_equal fsi_flag Hc)]. }
  mcall sync_fs_spec; [by apply poked_inv|intros Hdue; change (fsinfo_due (fsys s1) = true) in Hdue; rewrite Edue in Hdue; cbn; rewrite Evb, Efb; by apply Hroom|].
  intros r s' [->|(-> & Hwf & Hmed & _)]; [by left|right]. split; [done|]. split; [done|].
  intros y Hy Hnm Hnf. rewrite (Hmed y Hy); [|cbn; by rewrite <- (Hm y) in Hnm|].
  2:{ change (fsinfo_due (fsys (poked s1 w1))) with (fsinfo_due (fsys s1)).
      change (volbase (fsys (poked s1 w1))) with (volbase (fsys s1)). by rewrite Edue, Evb. }
  rewrite poked_vol, (ae_win _ _ _ _ _ Hat), <- (ae_sect _ _ _ _ _ Hat).
  destruct (Z.eqb_spec y (d_sect dj)) as [->|Ny]; [|symmetry; by apply Hv].
  unfold w1. rewrite Esec by (done || by rewrite Ess). rewrite (ae_dir _ _ _ _ _ Hat). f_equal.
  rewrite <- (ae_win _ _ _ _ _ Hat), <- vol_window by (done || rewrite (ae_win _ _ _ _ _ Hat); lia).
  symmetry. apply Hv; rewrite (ae_win _ _ _ _ _ Hat); [lia|done].
Qed.

Lemma update_entry_spec s u path p Fsid w x g :
  called s (u_dj u) path p -> fsinfo_room (fsys s) -> edits w g ->
  post (update_entry u true path Fsid w x) s (fun '(r, Fsid') s' =>
    Fsid' = Fsid /\
    (r = FR_OK -> exists c k, resolve s 0 (skip_separators p) (inl (c, k)) /\
       changed_sector s (table_sect s (dir_at c) k) (fun l => g l ((SZDIRE * k) mod ssize (fsys s))) s') /\
    (r <> FR_OK -> r <> FR_DISK_ERR -> same_volume s s') /\
    (r = FR_NO_FILE \/ r = FR_NO_PATH -> resolve s 0 (skip_separators p) (inr r))).
Proof.
  intros Hc Hroom He. pose proof Hc as [Hi Hg Ht Hl _ Hd _]. unfold update_entry. mstep. apply (mount_mounted s path p); [done..|].
  cbn [fr_ok negb]. unfold INIT_NAMBUF. destruct (ff_memalloc _); [|mstep; split_and!; (done || by intros [?|?])].
  mcall follow_called; [done|]. intros [r dj] s1 (Hi1 & Hv & Hr).
  destruct Hr as [(-> & Efn & _)|[[-> _]|(_ & _ & _ & Hw)]]; cbn [fr_ok negb andb].
  - rewrite Efn. change (has NS_NONAME (Z.lor NS_DOT NS_NONAME)) with true. cbn [fr_ok negb]. mstep. split_and!; (done || by intros [?|?]).
  - mstep. split_and!; (done || by intros [?|?]).
  - destruct Hw as [[-> _]|[(-> & Hfn & _ & c & k & Hres & Hat)|(Hr & Hres)]]; cbn [fr_ok negb andb].
    + mstep. split_and!; (done || by intros [?|?]).
    + rewrite Hfn. cbn [fr_ok negb]. mstep. apply post_gets.
      rewrite is_exfat_false by (by rewrite (same_volume_type s)). unfold poke_win, upd_fs. do 4 mstep. cbn [fr_ok].
      mcall (write_entry s s1 c k dj w g); [done..|]. intros r s' Hr. mstep.
      destruct Hr as [-> |[-> Hch]]; split_and!; try done; try (by intros [?|?]). intros _. by exists c, k.
    + assert (fr_ok r = false) as E by (by destruct Hr as [-> |[-> |[-> | ->]]]). rewrite E. cbn [negb andb]. rewrite E. cbn [negb andb]. mstep.
      split_and!; try done. by intros ->.
Qed.
End api.

(** ** The two edits *)

Lemma is_u8_land a b : is_u8 a -> is_u8 (Z.land a b).
Proof.
  intros Ha. assert (Z.land a b = u8 (Z.land a b)) as ->; [|apply u8_range].
  unfold u8. rewrite <- Z.land_ones by done. rewrite <- Z.land_assoc, (Z.land_comm b), Z.land_assoc, Z.land_ones by done.
  by rewrite (Z.mod_small a).
Qed.

Lemma mix_attr_u8 attr mask old : is_u8 attr -> is_u8 old -> is_u8 (mix_attr attr mask old).
Proof. intros Ha Ho. apply is_u8_lor; by apply is_u8_land. Qed.

Lemma chmod_edits attr mask :
  is_u8 attr ->
  edits (fun fs dir => setb (win fs) (dir + DIR_Attr) (mix_attr attr mask (win fs).[dir + DIR_Attr]))
    (fun l o => setb l (o + DIR_Attr) (mix_attr attr mask l.[o + DIR_Attr])).
Proof.
  intros Ha. split.
  - intros fs dir Hl Hb. rewrite zlen_setb. split; [done|]. apply bytes_setb; [done|].
    apply mix_attr_u8; [done|by apply getb_bytes].
  - intros fs dir Hd Hs. rewrite take_setb by (unfold DIR_Attr; lia). unfold SZDIRE, DIR_Attr in *. by rewrite getb_take by lia.
Qed.

Lemma take_st_bytes n l p v k : 0 <= p -> take (Z.to_nat k) (st_bytes n l p v) = st_bytes n (take (Z.to_nat k) l) p v.
Proof.
  revert l p v. induction n as [|n IH]; intros l p v Hp; cbn [st_bytes]; [done|]. rewrite IH by lia. by rewrite take_setb.
Qed.

Lemma utime_edits tm :
  edits (fun fs dir => st_dword (win fs) (dir + DIR_ModTime) tm) (fun l o => st_dword l (o + DIR_ModTime) tm).
Proof.
  split.
  - intros fs dir Hl Hb. unfold st_dword, zlen. rewrite length_st_bytes. split; [done|]. auto with ff.
  - intros fs dir Hd Hs. unfold st_dword. rewrite take_st_bytes; [done|unfold DIR_ModTime; lia].
Qed.

Section properties.
Context {D : Type} `{BlockDeviceLaws D} `{!Shl} `{!Heap}.
Implicit Types s : St D.

(** Outcome of a call that edits the sector of the entry of the path with [g], which is
    given the sector and the offset of the entry. *)
Definition edited s (p : list Z) (g : list Z -> Z -> list Z) (r : FRESULT) s' : Prop :=
  (r = FR_OK -> exists c k, resolve s 0 (skip_separators p) (inl (c, k)) /\
     changed_sector s (table_sect s (dir_at c) k) (fun l => g l ((SZDIRE * k) mod ssize (fsys s))) s') /\
  (r <> FR_OK -> r <> FR_DISK_ERR -> same_volume s s') /\
  (r = FR_NO_FILE \/ r = FR_NO_PATH -> resolve s 0 (skip_separators p) (inr r)).

(** C15: on a mounted FAT volume [f_chmod] and [f_utime] return for every path.  When they
    succeed, the path resolves to an entry, and on the medium exactly the attribute
    byte, or the four bytes of the time stamp, of this entry have changed: the medium
    holds the volume as it was, what was only in the window included, up to this edit,
    the FSINFO sector and the copy of the FAT.  The attributes that may change are
    read-only, hidden, system and archive, where the mask has them.  A failure other
    than a disk error leaves the volume as it was. *)
Theorem entry_edits_exact s u path p Fsid :
  called s (u_dj u) path p -> fsinfo_room (fsys s) ->
  (forall attr mask, is_u8 attr ->
     post (f_chmod u true path attr mask Fsid) s (fun '(r, _) s' =>
       edited s p (fun l o => setb l (o + DIR_Attr) (mix_attr attr mask l.[o + DIR_Attr])) r s')) /\
  (forall fno,
     post (f_utime u true path fno Fsid) s (fun '(r, _) s' =>
       edited s p (fun l o => st_dword l (o + DIR_ModTime)
         (Z.lor (u32 (Z.shiftl (fi_fdate fno) 16)) (fi_ftime fno))) r s')).
Proof.
  intros Hc Hroom. split.
  - intros attr mask Ha. eapply post_mono; [eapply update_entry_spec; [done..|by apply chmod_edits]|].
    intros [r ?] s' (_ & Hr). exact Hr.
  - intros fno. eapply post_mono; [eapply update_entry_spec; [done..|apply utime_edits]|].
    intros [r ?] s' (_ & Hr). exact Hr.
Qed.
End properties.
