(* ===== verification/ReadDir.v ===== *)
(** * Listing a directory

    [dir_read] and [f_readdir] on a FAT volume: the next entry of the table that is
    neither deleted nor a volume label nor a part of a long name, and does not begin with
    a dot, with its name.  The theorems hold for any content of the directory. *)

From stdpp Require Import prelude list.
From Stdlib Require Import ZArith Lia.
From S2P Require Import Prelude Bytes Buffers Unicode Diskio FFTypes Window Fat Bitmap Chain Lfn Dir Dirent DirFind Mount File Path PathName PathInfo FollowPath FileApi ApiEntry.

Local Open Scope Z_scope.
Local Open Scope cint_scope.

(** ** The buffer of the long name *)

Lemma pick_loop_spec ofs w dir : forall l i wc l' i' wc',
  zlen l = 256 -> 0 <= i -> pick_lfn_loop ofs l w dir i wc = inr (l', i', wc') ->
  zlen l' = 256 /\ (wc = 0 -> l' = l /\ i' = i /\ wc' = 0) /\
  (wc <> 0 -> i <= i' <= i + zlen ofs /\ (ofs <> [] -> i < 256) /\
     (forall j, i + zlen ofs <= j -> l'.[j] = l.[j]) /\
     (wc' = 0 -> exists k, i <= k < 256 /\ l'.[k] = 0)).
Proof.
  induction ofs as [|o ofs IH]; intros l i wc l' i' wc' Hl Hi; cbn [pick_lfn_loop].
  { intros [= <- <- <-]. split_and!; [done..|]. intros Hw. change (zlen (@nil Z)) with 0. split; [lia|]. split_and!; done. }
  rewrite zlen_cons. pose proof (zlen_nonneg ofs). destruct (Z.eqb_spec wc 0) as [->|Hw]; cbn [negb].
  - destruct (negb _); [done|]. intros Hp. destruct (IH _ _ _ _ _ _ Hl Hi Hp) as (H1 & H2 & _). split_and!; [done..|done].
  - unfold FF_MAX_LFN. destruct (Z.leb_spec (255 + 1) i) as [|Hlt]; [done|]. intros Hp.
    rewrite u32_small in Hp by (unfold is_u32; lia). set (uc := ld_word w (dir + o)) in *.
    destruct (IH (setb l i uc) (i + 1) uc l' i' wc') as (H1 & H2 & H3); [by rewrite zlen_setb|lia|done|].
    split; [done|]. split; [done|]. intros _. destruct (Z.eq_dec uc 0) as [E0|N0].
    + destruct (H2 E0) as (-> & -> & ->). split; [lia|]. split; [lia|]. split.
      * intros j Hj. by rewrite getb_setb_ne by lia.
      * intros _. exists i. split; [lia|]. rewrite getb_setb_eq by lia. done.
    + destruct (H3 N0) as (H4 & _ & H5 & H6). split; [lia|]. split; [lia|]. split.
      * intros j Hj. rewrite H5 by lia. by rewrite getb_setb_ne by lia.
      * intros E. destruct (H6 E) as (k & Hk & Ek). exists k. split; [lia|done].
Qed.

Lemma low_order b : is_u8 b -> 0 <= Z.land b (Z.lnot LLEF) <= 255 /\ (has b LLEF = false -> Z.land b (Z.lnot LLEF) = b).
Proof.
  intros Hb. split; [pose proof (is_u8_land b (Z.lnot LLEF) Hb) as Hl; unfold is_u8 in Hl; lia|].
  unfold has. intros E. apply negb_false_iff, Z.eqb_eq in E. rewrite <- Z.ldiff_land. apply Z.bits_inj'. intros n Hn.
  rewrite Z.ldiff_spec. apply (f_equal (fun z => Z.testbit z n)) in E. rewrite Z.land_spec, Z.bits_0 in E.
  destruct (Z.testbit b n), (Z.testbit LLEF n); done.
Qed.

(** What a part of a name that is taken leaves in the buffer. *)
Lemma pick_lfn_any l w dir l' :
  zlen l = 256 -> bytes w -> pick_lfn l w dir = (true, l') ->
  let o := Z.land w.[dir + LDIR_Ord] (Z.lnot LLEF) in
  zlen l' = 256 /\ 1 <= o <= 20 /\
  (has w.[dir + LDIR_Ord] LLEF = true -> exists k, 13 * (o - 1) <= k < 256 /\ l'.[k] = 0) /\
  (has w.[dir + LDIR_Ord] LLEF = false -> forall j, 13 * o <= j -> l'.[j] = l.[j]).
Proof.
  intros Hl Hb. unfold pick_lfn. cbn zeta. destruct (negb (ld_word _ _ =? 0)); [done|].
  destruct (low_order w.[dir + LDIR_Ord] ltac:(by apply getb_bytes)) as [Ho _].
  set (o := Z.land w.[dir + LDIR_Ord] (Z.lnot LLEF)) in *. fold (has w.[dir + LDIR_Ord] LLEF).
  destruct (pick_lfn_loop _ _ _ _ _ _) as [?|[[l1 i1] wc1]] eqn:Ep; [done|].
  destruct (pick_loop_spec LfnOfs w dir _ _ _ _ _ _ Hl ltac:(apply u32_range) Ep) as (H1 & _ & H2).
  destruct (H2 ltac:(done)) as (H3 & H4 & H5 & H6). specialize (H4 ltac:(done)). change (zlen LfnOfs) with 13 in *.
  assert (1 <= o <= 20 /\ u32 ((o - 1) * 13) = (o - 1) * 13) as [Hor Eu].
  { destruct (Z.eq_dec o 0) as [E|]; [rewrite E in H4; by vm_compute in H4|].
    assert (u32 ((o - 1) * 13) = (o - 1) * 13) as E by (apply u32_small; unfold is_u32; lia). lia. }
  rewrite Eu in *. destruct (has w.[dir + LDIR_Ord] LLEF); cbn [andb].
  - destruct (Z.eqb_spec wc1 0) as [E0|N0]; cbn [negb].
    + intros [= <-]. split; [done|]. split; [lia|]. split; [|done]. intros _. destruct (H6 E0) as (k & Hk & Ek). exists k. split; [lia|done].
    + unfold FF_MAX_LFN. destruct (Z.leb_spec (255 + 1) i1); [done|]. intros [= <-]. rewrite zlen_setb.
      split; [done|]. split; [lia|]. split; [|done]. intros _. exists i1. split; [lia|]. apply getb_setb_eq. lia.
  - intros [= <-]. split; [done|]. split; [lia|]. split; [done|]. intros _ j Hj. apply H5. lia.
Qed.

(** The name that is being collected ends in the buffer, above the parts to come. *)
Definition collecting (ord : Z) (l : list Z) : Prop :=
  zlen l = 256 /\ 0 <= ord <= 255 /\ (ord = 0xFF \/ exists k, 13 * ord <= k < 256 /\ l.[k] = 0).

(** An entry that [f_readdir] reports. *)
Definition visible (w : list Z) (dir : Z) : bool :=
  let b := w.[dir + DIR_Name] in
  let attr := Z.land w.[dir + DIR_Attr] AM_MASK in
  negb ((b =? DDEM) || (b =? 46) || (Z.land attr (Z.lnot AM_ARC) =? AM_VOL)) && negb (attr =? AM_LFN).

Lemma visible_same w dir w' dir' : same_entry w dir w' dir' -> visible w dir = visible w' dir'.
Proof. intros Hs. unfold visible, DIR_Name, DIR_Attr. by rewrite !(se_byte _ _ _ _ Hs) by lia. Qed.

Lemma pick_lfn_len l w dir ok l' : zlen l = 256 -> pick_lfn l w dir = (ok, l') -> zlen l' = 256.
Proof.
  intros Hl. unfold pick_lfn. destruct (negb (_ =? 0)); [by intros [= <- <-]|].
  set (i0 := u32 _). pose proof (pick_lfn_loop_frame LfnOfs l w dir i0 1 ltac:(apply u32_range)) as Hf.
  destruct (pick_lfn_loop _ _ _ _ _ _) as [l1|[[l1 i1] wc1]].
  - intros [= <- <-]. unfold zlen in *. lia.
  - destruct Hf as (Hf & _). destruct (_ && _); [destruct (_ <=? _)|]; intros [= <- <-]; unfold zlen in *; rewrite ?length_setb; lia.
Qed.

Lemma collecting_none l : zlen l = 256 -> collecting 0xFF l.
Proof. intros Hl. split_and!; [done..|by left]. Qed.

(** A part of a long name. *)
Lemma read_lfn_spec l w dir p ord sum blk :
  bytes w -> collecting ord l ->
  let '(b1, ord1, sum1, blk1) := lfn_start w dir p w.[dir + DIR_Name] ord sum blk in
  let '(l', ord') :=
    if (b1 =? ord1) && (sum1 =? w.[dir + LDIR_Chksum]) then
      let '(ok, l') := pick_lfn l w dir in (l', if ok then u8 (ord1 - 1) else 0xFF)
    else (l, 0xFF) in
  collecting ord' l'.
Proof.
  intros Hb (Hl & Ho & Hc). unfold lfn_start.
  destruct (low_order w.[dir + DIR_Name] ltac:(by apply getb_bytes)) as [Hlo Hsame].
  destruct (has w.[dir + DIR_Name] LLEF) eqn:El.
  - rewrite !Z.eqb_refl. cbn [andb]. destruct (pick_lfn l w dir) as [ok l'] eqn:Ep.
    pose proof (pick_lfn_len _ _ _ _ _ Hl Ep) as Hl'. destruct ok; [|by apply collecting_none].
    destruct (pick_lfn_any _ _ _ _ Hl Hb Ep) as (_ & Hor & Hk & _). change LDIR_Ord with DIR_Name in *.
    destruct (Hk El) as (k & Hk' & Ek). rewrite u8_small by (unfold is_u8; lia).
    split_and!; [done|lia..|]. right. by exists k.
  - destruct (Z.eqb_spec w.[dir + DIR_Name] ord) as [Eb|]; cbn [andb]; [|by apply collecting_none].
    destruct (sum =? _); [|by apply collecting_none]. destruct (pick_lfn l w dir) as [ok l'] eqn:Ep.
    pose proof (pick_lfn_len _ _ _ _ _ Hl Ep) as Hl'. destruct ok; [|by apply collecting_none].
    destruct (pick_lfn_any _ _ _ _ Hl Hb Ep) as (_ & Hor & _ & Hk). change LDIR_Ord with DIR_Name in *.
    rewrite (Hsame eq_refl), Eb in Hor. specialize (Hk El). rewrite (Hsame eq_refl), Eb in Hk.
    rewrite u8_small by (unfold is_u8; lia). split_and!; [done|lia..|]. right. destruct Hc as [->|(k & Hk1 & Ek)]; [lia|].
    exists k. split; [lia|]. by rewrite Hk by lia.
Qed.

Lemma read_entry_spec l w dir p ord sum blk l' r :
  bytes w -> collecting ord l -> read_entry l w dir p false ord sum blk = (l', r) ->
  match r with
  | Stop b => visible w dir = true /\ l' = l /\ (b <> NO_BLK -> exists k, 0 <= k < 256 /\ l'.[k] = 0)
  | Skip ord' _ _ => visible w dir = false /\ collecting ord' l'
  end.
Proof.
  intros Hb Hc. unfold read_entry, visible. pose proof (read_lfn_spec l w dir p ord sum blk Hb Hc) as Hp.
  set (attr := Z.land w.[dir + DIR_Attr] AM_MASK) in *.
  replace (negb (Bool.eqb (Z.land attr (Z.lnot AM_ARC) =? AM_VOL) false)) with (Z.land attr (Z.lnot AM_ARC) =? AM_VOL)
    by (by destruct (_ =? AM_VOL)).
  destruct (_ || _); cbn [negb andb].
  { intros [= <- <-]. split; [done|]. apply collecting_none, Hc. }
  destruct (attr =? AM_LFN); cbn [negb].
  - destruct (lfn_start _ _ _ _ _ _ _) as [[[b1 ord1] sum1] blk1]. destruct ((b1 =? ord1) && _).
    + destruct (pick_lfn l w dir) as [ok l1]. intros [= <- <-]. by split.
    + intros [= <- <-]. by split.
  - intros [= <- <-]. split_and!; [done..|]. destruct Hc as (_ & Ho & Hk). destruct (Z.eqb_spec ord 0) as [->|]; cbn [negb orb].
    + destruct Hk as [?|(k & Hk & Ek)]; [lia|]. intros _. exists k. split; [lia|done].
    + done.
Qed.

(** ** The loop of [dir_read] *)

Section reading.
Context {D : Type} `{BlockDeviceLaws D} `{!Shl} `{!Heap}.
Implicit Types s : St D.

Lemma dir_on_names s l dp : dir_on s dp <-> dir_on (mkSt (set_lfnbuf l (fsys s)) (dev s)) dp.
Proof.
  split; intros ([P1 P2 P3 P4] & S & L); (split_and!; [by split|exact S|exact L]).
Qed.

Lemma dir_on_same_volume s s' dp : fs_inv s -> same_volume s s' -> dir_on s dp -> dir_on s' dp.
Proof.
  intros Hi Hv Hon. apply (dir_on_names s' []). eapply dir_on_vol_eq; [by apply (fs_inv_names s [])|exact Hv|].
  by apply (dir_on_names s []).
Qed.

(** The entries from [k0] up to [k] are not reported, and none of them is the end mark. *)
Definition passed s (c k0 k : Z) : Prop :=
  forall j, k0 <= j < k -> in_table s (dir_at c) j /\ (table_entry s (dir_at c) j).[0] <> 0 /\
    visible (table_entry s (dir_at c) j) 0 = false.

(** Entry [k] is the first one from [k0] on to report. *)
Definition next_visible s (c k0 k : Z) : Prop :=
  k0 <= k /\ passed s c k0 k /\ in_table s (dir_at c) k /\ (table_entry s (dir_at c) k).[0] <> 0 /\
  visible (table_entry s (dir_at c) k) 0 = true.

(** There is none: the end mark or the end of the table follows. *)
Definition none_visible s (c k0 : Z) : Prop :=
  exists k, k0 <= k /\ passed s c k0 k /\ (in_table s (dir_at c) k -> (table_entry s (dir_at c) k).[0] = 0).

(** The object is on entry [k] of the directory at [c]. *)
Definition placed s (c k : Z) (dp : DIR) : Prop := dir_on s dp /\ sclust (d_obj dp) = c /\ dptr dp = SZDIRE * k.

Record read_inv s (c k0 : Z) (dp : DIR) (ord k : Z) s' : Prop := {
  ri_inv : fs_inv s';
  ri_same : same_volume s s';
  ri_name : collecting ord (lfnbuf (fsys s'));
  ri_placed : placed s c k dp;
  ri_pos : 0 <= k0 <= k;
  ri_passed : passed s c k0 k
}.

Definition read_post s (c k0 : Z) (r : FRESULT) (dp : DIR) s' : Prop :=
  fs_inv s' /\ same_volume s s' /\ zlen (lfnbuf (fsys s')) = 256 /\
  (r = FR_OK /\ (exists k, next_visible s c k0 k /\ placed s c k dp /\ at_entry s c k dp s') /\
     (blk_ofs dp <> NO_BLK -> exists j, 0 <= j < 256 /\ (lfnbuf (fsys s')).[j] = 0) \/
   (r = FR_NO_FILE \/ r = FR_INT_ERR) /\ none_visible s c k0 \/
   r = FR_DISK_ERR).

(** The place of the object and the entry there, in any state with the same volume. *)
Lemma placed_facts s s1 c k dp :
  fs_inv s -> vol_geom (fsys s) -> fs_type (fsys s) <> FS_EXFAT -> fs_inv s1 -> same_volume s s1 -> placed s c k dp ->
  dir_on s1 dp /\ in_table s (dir_at c) k /\ d_sect dp = table_sect s (dir_at c) k /\
  table_entry s1 (d_obj dp) (dptr dp / SZDIRE) = table_entry s (dir_at c) k /\
  d_dir dp = (SZDIRE * k) mod ssize (fsys s) /\ entry_in_bounds (fsys s) dp.
Proof.
  intros Hi Hg Ht Hi1 Hv (Hon & Ec & Ep). assert (dir_on s1 dp) as Hon1 by (by apply (dir_on_same_volume s)).
  assert (dptr dp / SZDIRE = k) as Ek by (rewrite Ep, Z.mul_comm; by apply Z.div_mul).
  destruct (scan_at s (d_obj dp) c (lfnbuf (fsys s)) [] 0 Ec eq_refl) as (_ & _ & _ & Hin).
  destruct (dir_on_table s dp Hon ltac:(by left)) as (_ & Hin0 & Esec & Edir). rewrite Ek in *.
  apply Hin in Hin0. split_and!; [done..| | |by rewrite <- Edir|by eapply dir_on_bounds].
  - rewrite <- Esec. unfold table_sect, dir_start. by rewrite Ec.
  - destruct (scan_at s1 (d_obj dp) c (lfnbuf (fsys s1)) [] 0 Ec eq_refl) as (_ & _ & -> & _).
    by apply table_entry_same.
Qed.

Lemma placed_vol_eq s s1 c k dp : fs_inv s1 -> same_volume s s1 -> placed s1 c k dp -> placed s c k dp.
Proof. intros Hi1 Hv (Hon & Ec & Ep). split_and!; [|done..]. apply (dir_on_same_volume s1); [done|by symmetry|done]. Qed.

(** The next entry. *)
Lemma read_next_spec s c k0 dp ord sum k s1 :
  fs_inv s -> vol_geom (fsys s) -> fs_type (fsys s) <> FS_EXFAT -> fs_inv s1 -> same_volume s s1 ->
  collecting ord (lfnbuf (fsys s1)) -> placed s c k dp -> 0 <= k0 <= k -> passed s c k0 (k + 1) ->
  post (read_next dp ord sum) s1 (fun x s' =>
    match x with
    | inl (dp', _, ord', _) => read_inv s c k0 dp' ord' (k + 1) s'
    | inr (r, dp') => read_post s c k0 r dp' s'
    end).
Proof.
  intros Hi Hg Ht Hi1 Hv Hcol Hpl Hk Hpass.
  destruct (placed_facts s s1 c k dp) as (Hon1 & _); try done. destruct Hpl as (Hon & Ec & Ep).
  assert (vol_geom (fsys s1)) as Hg1 by (by eapply same_volume_geom).
  unfold read_next. mcall (step_entry s1 s1 dp k); [done..|by left; rewrite (same_volume_type s)|done|].
  intros [r dp'] s2 (Hi2 & Hv2 & Eo & Ef & Eb & Hr).
  assert (same_volume s s2) as Hs2 by (etrans; [done|by apply vol_eq_same]).
  assert (lfnbuf (fsys s2) = lfnbuf (fsys s1)) as El by (symmetry; exact (f_equal lfnbuf (proj1 Hv2))).
  destruct Hr as [(-> & Hon' & Ep')|[(Hr & Hni & _)|[-> _]]].
  - cbn [fr_ok]. mstep. split; [done|done|by rewrite El| |lia|done].
    apply (placed_vol_eq s s1); [done..|]. split_and!; [done|by rewrite Eo|done].
  - assert (r = FR_NO_FILE \/ r = FR_INT_ERR) as Hr' by (destruct Hr as [[-> _] | ->]; auto).
    assert (fr_ok r = false) as -> by (by destruct Hr' as [-> | ->]). mstep. split_and!; [done..|rewrite El; apply Hcol|].
    right; left. split; [done|]. exists (k + 1). split_and!; [lia|done|]. intros Hin. exfalso. apply Hni.
    destruct (scan_at s1 (d_obj dp) c (lfnbuf (fsys s1)) [] 0 Ec eq_refl) as (_ & _ & _ & Hin1). apply Hin1.
    by apply (in_table_same s).
  - cbn [fr_ok]. mstep. split_and!; [done..|rewrite El; apply Hcol|]. by right; right.
Qed.

Lemma read_step_spec s c k0 dp res ord sum k s1 :
  fs_inv s -> vol_geom (fsys s) -> fs_type (fsys s) <> FS_EXFAT -> read_inv s c k0 dp ord k s1 ->
  post (read_step false (dp, res, ord, sum)) s1 (fun x s' =>
    match x with
    | inl (dp', _, ord', _) => read_inv s c k0 dp' ord' (k + 1) s'
    | inr (r, dp') => read_post s c k0 r dp' s'
    end).
Proof.
  intros Hi Hg Ht [Hi1 Hv1 Hcol Hpl Hk Hpass].
  destruct (placed_facts s s1 c k dp) as (Hon1 & Hin & Esec & Eent & Edir & Hbnd); try done.
  assert (vol_geom (fsys s1)) as Hg1 by (by eapply same_volume_geom).
  assert (fs_type (fsys s1) <> FS_EXFAT) as Ht1 by (by rewrite (same_volume_type s)).
  unfold read_step. rewrite (proj2 (Z.eqb_neq (d_sect dp) 0)) by (destruct Hbnd as (_ & ? & _); lia).
  mcall (move_entry s1 s1 dp); [done..|by left|]. intros r s2 (Hi2 & Hv2 & Hr). rewrite Eent in Hr.
  assert (same_volume s s2) as Hs2 by (etrans; [done|by apply vol_eq_same]).
  assert (lfnbuf (fsys s2) = lfnbuf (fsys s1)) as El by (symmetry; exact (f_equal lfnbuf (proj1 Hv2))).
  assert (zlen (lfnbuf (fsys s2)) = 256) as Hlen by (rewrite El; apply Hcol).
  destruct Hr as [(-> & Ew & Hse)|[-> _]]; cbn [fr_ok negb]; [|mstep; split_and!; auto].
  unfold get_fs, upd_fs. mstep. mstep.
  assert (dirb (fsys s2) dp DIR_Name = (table_entry s (dir_at c) k).[0]) as -> by (by apply (se_byte _ _ _ _ Hse 0)).
  destruct (Z.eqb_spec (table_entry s (dir_at c) k).[0] 0) as [E0|N0].
  { mstep. split_and!; [done..|]. right; left. split; [by left|]. exists k. split_and!; [lia|done|done]. }
  rewrite is_exfat_false by (by rewrite (same_volume_type s)).
  set (dp1 := set_d_attr _ dp). change (d_dir dp1) with (d_dir dp).
  destruct (read_entry _ _ _ _ _ _ _ _) as [l r] eqn:Er.
  assert (collecting ord (lfnbuf (fsys s2))) as Hcol2 by (by rewrite El).
  pose proof (read_entry_spec _ _ _ _ _ _ _ _ _ (wi_bytes _ (fi_win _ Hi2)) Hcol2 Er) as Hr.
  rewrite (visible_same _ _ _ _ Hse) in Hr. do 2 mstep.
  assert (fs_inv (mkSt (set_lfnbuf l (fsys s2)) (dev s2))) as Hi3 by (by apply fs_inv_names).
  assert (same_volume s (mkSt (set_lfnbuf l (fsys s2)) (dev s2))) as Hs3 by (etrans; [done|apply set_names_same]).
  destruct r as [ord' sum' blk'|blk'].
  - destruct Hr as [Hnv Hcol']. assert (placed s c k (set_blk_ofs blk' dp1)) as Hpl'.
    { destruct Hpl as (Hon & Ec & Ep). split_and!; [by eapply dir_on_same|done..]. }
    apply (read_next_spec s c k0); try done. intros j Hj. destruct (Z.eq_dec j k) as [->|]; [done|]. apply Hpass. lia.
  - mstep. destruct Hr as (Hvis & -> & Hblk). split_and!; [done..|]. left. split; [done|]. split; [|exact Hblk].
    exists k. destruct Hpl as (Hon & Ec & Ep). split; [by repeat (split; [done || lia|])|].
    split; [split_and!; [by eapply dir_on_same|done..]|].
    split; try done. cbn. f_equal. by apply (se_byte _ _ _ _ Hse DIR_Attr).
Qed.

Lemma dir_read_spec s c k0 dp :
  fs_inv s -> vol_geom (fsys s) -> fs_type (fsys s) <> FS_EXFAT -> zlen (lfnbuf (fsys s)) = 256 ->
  placed s c k0 dp -> 0 <= k0 ->
  post (dir_read dp false) s (fun '(r, dp') s' =>
    read_post s c k0 r dp' s' /\ (r <> FR_OK -> d_sect dp' = 0)).
Proof.
  intros Hi Hg Ht Hl Hpl Hk0. unfold dir_read, get_fs. mstep. mstep. mstep. set (N := max_dir (fsys s) / SZDIRE).
  eapply post_mono; [apply (post_iterate _ (fun '(dp, _, ord, _) m s' => exists k, m = N - k /\ read_inv s c k0 dp ord k s')
    (fun '(r, dp') s' => read_post s c k0 r dp' s')) with (k := N - k0)|].
  - intros [[[dp' res] ord] sum] m s' (k & -> & Hr). eapply post_mono; [by apply (read_step_spec s c k0 _ _ _ _ k)|].
    intros [[[[dp2 ?] ord2] ?]|[r dp2]] s2 Hr2; [|done]. exists (N - (k + 1)). split; [|by exists (k + 1)].
    destruct (placed_facts s s c (k + 1) dp2) as (_ & Hin & _); try done; [apply Hr2|].
    pose proof (in_table_bound s _ _ Hin). unfold N. lia.
  - exists k0. split; [done|]. split; [done..|by apply collecting_none|done|lia|]. intros j Hj. lia.
  - unfold dir_rounds. fold N. assert (0 <= N) by (unfold N, max_dir; by destruct (is_exfat (fsys s))). lia.
  - intros [r dp'] s' Hr. mstep. destruct (fr_ok r) eqn:E.
    + apply fr_ok_true in E as ->. split; [done|]. by intros ?.
    + split; [|done]. destruct Hr as (Hi' & Hv' & Hl' & Hr). split_and!; [done..|].
      destruct Hr as [(-> & _)|Hr]; [done|by right].
Qed.

(** ** [f_opendir] *)

(** The directory that a path leads to starts at cluster [c]. *)
Definition leads_to s (p : list Z) (c : Z) : Prop :=
  p.[0] < 32 /\ c = 0 \/
  32 <= p.[0] /\ exists c0 k, resolve s 0 p (inl (c0, k)) /\ has (table_entry s (dir_at c0) k).[DIR_Attr] AM_DIR = true /\
    c = ld_clust (fsys s) (table_entry s (dir_at c0) k) 0.

(** The path does not lead to a directory. *)
Definition leads_nowhere s (p : list Z) : Prop :=
  resolve s 0 p (inr FR_NO_FILE) \/ resolve s 0 p (inr FR_NO_PATH) \/
  exists c0 k, resolve s 0 p (inl (c0, k)) /\ has (table_entry s (dir_at c0) k).[DIR_Attr] AM_DIR = false.

(** The errors of the path as a path to a directory: there is none; a name is not accepted;
    the chain of a directory on the way is broken, or the directory has no first entry. *)
Definition open_error s (p : list Z) (r : FRESULT) : Prop :=
  r = FR_NO_PATH /\ leads_nowhere s p \/ r = FR_INVALID_NAME /\ resolve s 0 p (inr r) \/
  r = FR_INT_ERR /\ (path_error s p r \/ exists c, leads_to s p c /\ ~ in_table s (dir_at c) 0).

(** The last step of the function: the start of the directory. *)
Lemma open_rewind s s1 c d :
  fs_inv s -> vol_geom (fsys s) -> fs_type (fsys s) <> FS_EXFAT -> fs_inv s1 -> same_volume s s1 -> sclust (d_obj d) = c -> is_u32 c ->
  post (dir_sdi (set_d_obj (set_obj_id (fsid (fsys s1)) (d_obj d)) d) 0) s1 (fun '(r, d') s' =>
    fs_inv s' /\ same_volume s s' /\
    (r = FR_OK /\ placed s c 0 d' /\ obj_id (d_obj d') = fsid (fsys s') \/ r = FR_INT_ERR /\ ~ in_table s (dir_at c) 0)).
Proof.
  intros Hi Hg Ht Hi1 Hv Ec Hc. assert (vol_geom (fsys s1)) as Hg1 by (by eapply same_volume_geom).
  eapply post_mono; [apply post_conj; [apply dir_sdi_spec; [done..|cbn; by rewrite Ec|done]|by apply dir_sdi_start]|].
  intros [r d'] s2 [(Hi2 & Hv2 & Ho & _ & _ & Hr) Hst].
  assert (same_volume s s2) as Hs2 by (etrans; [done|by apply vol_eq_same]). split_and!; [done..|].
  destruct Hr as [(-> & Hon & Ep)|[[-> Hn]| ->]]; [left|right|by destruct Hst]; (split; [done|]).
  - split; [|transitivity (fsid (fsys s1)); [by destruct Ho as [-> | ->]|exact (f_equal fsid (proj1 Hv2))]].
    apply (placed_vol_eq s s1); [done..|]. split_and!; [done|by destruct Ho as [-> | ->]|done].
  - intros Hin. assert (fs_type (fsys s1) <> FS_EXFAT) as Ht1 by (by rewrite (same_volume_type s)).
    apply Hn; [by left|]. apply (in_table_reaches s1 _ 0); [done..|by left|].
    apply (in_table_same s s1) in Hin; [|done..]. revert Hin. unfold in_table, dir_start. cbn. by rewrite Ec.
Qed.

(** C14: on a mounted FAT volume [f_opendir] returns for every path and leaves the
    volume as it is; when it succeeds the path leads to a directory and the object is open
    at the first entry of this directory, with nothing read.  When it fails the object is
    closed, unless memory for the name buffer was refused, and the error is the one of the
    path ([open_error]): it does not lead to a directory, it has an invalid name, or a
    directory on it has a broken chain or no first entry; a disk error is possible only
    on a device that can fail. *)
Theorem f_opendir_starts s dp path p Fsid :
  called s (od_dir dp) path p ->
  post (f_opendir true dp path Fsid) s (fun '(r, dp', Fsid') s' =>
    fs_inv s' /\ same_volume s s' /\ Fsid' = Fsid /\
    (r = FR_OK -> exists c, leads_to s (skip_separators p) c /\ placed s c 0 (od_dir dp') /\
       od_fs dp' = true /\ obj_id (d_obj (od_dir dp')) = fsid (fsys s')) /\
    (r <> FR_OK ->
       r = FR_NOT_ENOUGH_CORE /\ (exists n, ff_memalloc n = false) \/
       od_fs dp' = false /\ (open_error s (skip_separators p) r \/ r = FR_DISK_ERR /\ ~ faultless D))).
Proof.
  intros Hc. pose proof Hc as [Hi Hg Ht Hl _ Hd _]. unfold f_opendir. mstep. apply (mount_mounted s path p); [done..|].
  cbn [fr_ok negb]. unfold INIT_NAMBUF. destruct (ff_memalloc _) eqn:Em; [|mstep; split_and!; eauto; done].
  mcall follow_called; [done|]. intros [r d] s1 (Hi1 & Hv & Hr).
  destruct Hr as [(-> & Efn & Ec & Hp)|[[-> Herr]|(Hp & _ & _ & Hw)]]; cbn [fr_ok].
  - rewrite Efn. change (has NS_NONAME NS_NONAME) with true. cbn [negb fr_ok]. do 2 mstep. apply post_gets.
    mcall (open_rewind s s1 0); [done..|]. intros [r d'] s2 (Hi2 & Hv2 & Hr). mstep. split_and!; [done..| |].
    + destruct Hr as [(-> & Hpl & Eid)|[-> _]]; [|done]. intros _. exists 0. split; [by left|done].
    + destruct Hr as [(-> & _)|[-> Hn]]; [done|]. intros _. right. split; [done|]. left. right; right. split; [done|]. right.
      exists 0. split; [by left|done].
  - do 2 mstep. mstep. split_and!; [done..|]. intros _. right. split; [done|]. left. right; right. auto.
  - destruct Hw as [[-> Hfl]|[(-> & Hfn & _ & c & k & Hres & Hat)|(Hr & Hres)]]; cbn [fr_ok].
    + do 2 mstep. mstep. split_and!; auto; done.
    + rewrite (plain_named _ Hfn). cbn [negb]. rewrite (ae_attr _ _ _ _ _ Hat), attr_dir. destruct (has _ AM_DIR) eqn:Ed; cbn [fr_ok].
      2:{ do 2 mstep. apply post_gets. do 2 mstep. split_and!; [done..|]. intros _. right. split; [done|]. left. left. split; [done|]. right; right. by exists c, k. }
      do 2 mstep. apply post_gets. rewrite is_exfat_false by (by rewrite (same_volume_type s)).
      rewrite (ld_clust_same (fsys s) _ _ _ _ _ (ae_shown _ _ _ _ _ Hat)) by (by apply same_volume_type).
      set (c1 := ld_clust (fsys s) (table_entry s (dir_at c) k) 0).
      assert (leads_to s (skip_separators p) c1) as Hto by (right; split; [done|by exists c, k]).
      mcall (open_rewind s s1 c1); [done..|apply ld_clust_u32|].
      intros [r d'] s2 (Hi2 & Hv2 & Hr). mstep. split_and!; [done..| |].
      * destruct Hr as [(-> & Hpl & Eid)|[-> _]]; [|done]. intros _. eauto.
      * destruct Hr as [(-> & _)|[-> Hn]]; [done|]. intros _. right. split; [done|]. left. right; right. eauto.
    + assert (fr_ok r = false) as -> by (by destruct Hr as [-> |[-> |[-> | ->]]]). do 2 mstep. mstep. split_and!; [done..| |].
      * by destruct Hr as [-> |[-> |[-> | ->]]].
      * intros _. right. destruct Hr as [-> |[-> |[-> | ->]]]; (split; [done|]); left; unfold open_error, leads_nowhere, path_error; cbn; tauto.
Qed.

(** ** [f_readdir] *)

(** What is left to read: the entries from [k] on, or nothing. *)
Definition reading s (c k : Z) (dp : DIR) : Prop := placed s c k dp \/ d_sect dp = 0 /\ none_visible s c k.

Lemma dir_read_reading s c k0 dp :
  fs_inv s -> vol_geom (fsys s) -> fs_type (fsys s) <> FS_EXFAT -> zlen (lfnbuf (fsys s)) = 256 ->
  reading s c k0 dp -> 0 <= k0 ->
  post (dir_read dp false) s (fun '(r, dp') s' =>
    read_post s c k0 r dp' s' /\ (r <> FR_OK -> d_sect dp' = 0)).
Proof.
  intros Hi Hg Ht Hl [Hpl|[Hs Hn]] Hk; [by apply dir_read_spec|].
  unfold dir_read, get_fs. mstep. mstep. mstep.
  eapply post_mono; [apply (post_iterate _ (fun '(dp, res, _, _) m s' => s' = s /\ d_sect dp = 0 /\ res = FR_NO_FILE /\ m = 0)
    (fun '(r, dp') s' => s' = s /\ d_sect dp' = 0 /\ r = FR_NO_FILE)) with (k := 0)|].
  - intros [[[dp' res] ord] sum] m s' (-> & Hs' & -> & ->). unfold read_step. rewrite Hs'. cbn [Z.eqb]. by mstep.
  - done.
  - lia.
  - intros [r dp'] s' (-> & Hs' & ->). mstep. split; [|done]. split_and!; [done..|]. right; left. split; [by left|done].
Qed.

Lemma next_spent s d :
  d_sect d = 0 -> post (dir_next d false) s (fun '(r, d') s' => r = FR_NO_FILE /\ d_sect d' = 0 /\ s' = s).
Proof.
  intros Hd. unfold dir_next, get_fs. do 2 mstep. cbn zeta.
  destruct (max_dir (fsys s) <=? dptr d +u32 SZDIRE); [cbn [d_sect set_d_sect]|rewrite Hd]; cbn [Z.eqb]; by mstep.
Qed.

Lemma info_none fs d info :
  d_sect d = 0 -> zlen (fi_fname info) = 256 ->
  exists info', get_fileinfo fs d info = Some info' /\ (fi_fname info').[0] = 0.
Proof.
  intros Hs Hf. unfold get_fileinfo. rewrite store_some by lia. cbn [mbind option_bind fi_fname fi_altname].
  rewrite Hs. cbn [Z.eqb]. eexists. split; [done|]. cbn. apply getb_setb_eq. lia.
Qed.

(** The object moves on. *)
Lemma read_on s s1 c k dp :
  fs_inv s -> vol_geom (fsys s) -> fs_type (fsys s) <> FS_EXFAT -> fs_inv s1 -> same_volume s s1 -> placed s c k dp ->
  post (dir_next dp false) s1 (fun '(r, dp') s' =>
    fs_inv s' /\ same_volume s s' /\
    (r = FR_OK /\ reading s c (k + 1) dp' \/ r = FR_NO_FILE /\ reading s c (k + 1) dp' \/ r = FR_INT_ERR \/ r = FR_DISK_ERR)).
Proof.
  intros Hi Hg Ht Hi1 Hv Hpl. destruct (placed_facts s s1 c k dp) as (Hon1 & _); try done. destruct Hpl as (Hon & Ec & Ep).
  assert (vol_geom (fsys s1)) as Hg1 by (by eapply same_volume_geom).
  mcall (step_entry s1 s1 dp k); [done..|by left; rewrite (same_volume_type s)|done|].
  intros [r dp'] s2 (Hi2 & Hv2 & Eo & Ef & Eb & Hr).
  assert (same_volume s s2) as Hs2 by (etrans; [done|by apply vol_eq_same]). split_and!; [done..|].
  destruct Hr as [(-> & Hon' & Ep')|[([[-> Hs']| ->] & Hni & _)|[-> _]]]; auto.
  - left. split; [done|]. left. apply (placed_vol_eq s s1); [done..|]. split_and!; [done|by rewrite Eo|done].
  - right; left. split; [done|]. right. split; [done|]. exists (k + 1). split_and!; [lia|intros j Hj; lia|]. intros Hin. exfalso. apply Hni.
    destruct (scan_at s1 (d_obj dp) c (lfnbuf (fsys s1)) [] 0 Ec eq_refl) as (_ & _ & _ & Hin1). apply Hin1.
    by apply (in_table_same s).
Qed.

(** C13: on a mounted FAT volume [f_readdir] returns whatever the directory holds and
    leaves the volume as it is.  Called on an object that has read the entries of the
    directory below [k], it reports the first entry from [k] on that is neither deleted nor a
    volume label nor a part of a long name, and whose short name does not begin with a dot,
    and the object goes on from the next entry; when there is none before the end of the table the name it
    reports is empty, and so is the one of every later call. *)
Theorem f_readdir_lists s c k dp info :
  fs_inv s -> vol_geom (fsys s) -> fs_type (fsys s) <> FS_EXFAT -> zlen (lfnbuf (fsys s)) = 256 ->
  reading s c k (od_dir dp) -> 0 <= k -> zlen (fi_altname info) = 13 -> zlen (fi_fname info) = 256 ->
  post (f_readdir dp (Some info)) s (fun '(r, dp', fno) s' =>
    fs_inv s' /\ same_volume s s' /\
    (r = FR_OK -> exists info', fno = Some info' /\
       ((exists j, next_visible s c k j /\ info_of (table_entry s (dir_at c) j) info' /\ reading s c (j + 1) (od_dir dp')) \/
        none_visible s c k /\ (fi_fname info').[0] = 0 /\ d_sect (od_dir dp') = 0)) /\
    (r <> FR_OK -> r = FR_INVALID_OBJECT \/ r = FR_NOT_ENOUGH_CORE \/ r = FR_INT_ERR \/ r = FR_DISK_ERR)).
Proof.
  intros Hi Hg Ht Hl Hrd Hk Ha Hf. unfold f_readdir, validate, get_fs. do 3 mstep.
  destruct (_ && _); mstep; cbn [fr_ok negb]; [|mstep; split_and!; auto; done].
  unfold INIT_NAMBUF. destruct (ff_memalloc _); [|mstep; split_and!; auto; done].
  mcall dir_read_reading; [done..|]. intros [r d] s1 [(Hi1 & Hv1 & Hl1 & Hr) Hend].
  assert (is_exfat (fsys s1) = false) as Hx by (apply is_exfat_false; by rewrite (same_volume_type s)).
  destruct Hr as [(-> & (j & Hj & Hpl & Hat) & Hz)|[([-> | ->] & Hn)| ->]]; cbn [fr_ok].
  - mstep. apply post_gets. destruct (info_at s s1 c j d info) as (info' & -> & Hinfo); try done. cbn [checked]. do 2 mstep.
    mcall (read_on s s1 c j d); [done..|]. intros [r' d'] s2 (Hi2 & Hv2 & Hr'). mstep. split_and!; [done..| |].
    + intros E. exists info'. split; [done|]. left. exists j. split_and!; [done..|].
      destruct Hr' as [[-> Hrd']|[[-> Hrd']|[-> | ->]]]; done.
    + destruct Hr' as [[-> _]|[[-> _]|[-> | ->]]]; auto; done.
  - mstep. apply post_gets. destruct (info_none (fsys s1) d info) as (info' & -> & Hinfo); [by apply Hend|done|].
    cbn [checked]. do 2 mstep. mcall next_spent; [by apply Hend|]. intros [r' d'] s2 (-> & Hd' & ->). mstep.
    split_and!; try done. intros _. exists info'. split; [done|]. by right.
  - mstep. split_and!; auto; done.
  - mstep. split_and!; auto; done.
Qed.
End reading.
