(* ===== verification/Mkfs.v ===== *)
(** * Creating a volume

    [create_partition] and [f_mkfs] of [src/ff/src/ff/ff.c]: the layout of a FAT or exFAT
    volume is computed and its boot records, tables and root directory are written,
    together with a partition table unless the volume takes the whole drive.

    The configuration has 32-bit sector numbers, no trimming and one volume per drive, so
    that the GPT branches and the ones for existing partitions are compiled out.  The
    working buffer is an argument and a result of the loops that fill it. *)

From stdpp Require Import prelude list.
From Stdlib Require Import ZArith Lia.
From S2P Require Import Prelude Bytes Unicode Diskio FFTypes Window Fat Bitmap Chain Lfn Dir Dirent Mount File.

Local Open Scope Z_scope.
Local Open Scope cint_scope.

Definition FM_FAT := 0x01.
Definition FM_FAT32 := 0x02.
Definition FM_EXFAT := 0x04.
Definition FM_ANY := 0x07.
Definition FM_SFD := 0x08.
Definition BPB_Media := 21.
Definition BPB_SecPerTrk := 24.
Definition BPB_NumHeads := 26.
Definition BPB_HiddSec := 28.
Definition BS_DrvNum := 36.
Definition BS_BootSig := 38.
Definition BS_VolID := 39.
Definition BS_VolLab := 43.
Definition BPB_BkBootSec32 := 50.
Definition BS_DrvNum32 := 64.
Definition BS_BootSig32 := 66.
Definition BS_VolID32 := 67.
Definition BS_VolLab32 := 71.
Definition BPB_VolOfsEx := 64.
Definition BPB_VolIDEx := 100.
Definition BPB_VolFlagEx := 106.
Definition BPB_DrvNumEx := 111.
Definition BPB_PercInUseEx := 112.
Definition BS_BootCodeEx := 120.
Definition PTE_StHead := 1.
Definition PTE_StSec := 2.
Definition PTE_StCyl := 3.
Definition PTE_System := 4.
Definition PTE_EdHead := 5.
Definition PTE_EdSec := 6.
Definition PTE_EdCyl := 7.
Definition PTE_SizLba := 12.
Definition ET_UPCASE := 0x82.
Definition ET_VLABEL := 0x83.
Definition N_SEC_TRACK := 63.

Record MKFS_PARM := mkMKFS_PARM {
  mk_fmt : Z;
  mk_n_fat : Z;
  mk_align : Z;
  mk_n_root : Z;
  mk_au_size : Z;
  mk_sz_vol : Z
}.
Definition defopt : MKFS_PARM := mkMKFS_PARM FM_ANY 0 0 0 0 0.

(** The commands that [ff_disk_ioctl] does not support, [GET_SECTOR_COUNT] and
    [GET_BLOCK_SIZE] among them. *)
Definition ioctl_unsupported : DRESULT := RES_ERROR.

(** ** The partition table *)

(** [for (n_hd = 8; n_hd != 0 && sz_drv32 / n_hd / n_sc > 1024; n_hd *= 2) ;] *)
Fixpoint count_heads (fuel : nat) (sz_drv32 n_hd : Z) : Z :=
  match fuel with
  | O => n_hd
  | S fuel => if negb (n_hd =? 0) && (1024 <? sz_drv32 / n_hd / N_SEC_TRACK) then count_heads fuel sz_drv32 (u8 (n_hd * 2)) else n_hd
  end.

(** Head, sector and cylinder bytes of a sector, stored from offset [p] on. *)
Definition st_chs (buf : list Z) (p n_hd x : Z) : list Z :=
  let cy := x / N_SEC_TRACK / n_hd in
  let hd := u8 (x / N_SEC_TRACK mod n_hd) in
  let sc := u8 (x mod N_SEC_TRACK + 1) in
  setb (setb (setb buf p hd) (p + 1) (u8 (Z.lor (Z.land (Z.shiftr cy 2) 0xC0) sc))) (p + 2) (u8 cy).

(** The entries from offset [pte] on; [plst] is the rest of the partition list. *)
Fixpoint part_entries (plst : list Z) (buf : list Z) (pte sys sz_drv32 n_hd nxt_alloc32 : Z) : list Z :=
  match plst with
  | [] => buf
  | p :: plst =>
      if (nxt_alloc32 =? 0) || (sz_drv32 <=? nxt_alloc32) then buf else
      let sz := u32 p in
      let sz := if sz <=? 100 then (if sz =? 100 then sz_drv32 else sz_drv32 / 100 *u32 sz) else sz in
      let sz := if (sz_drv32 <? nxt_alloc32 +u32 sz) || (nxt_alloc32 +u32 sz <? nxt_alloc32) then sz_drv32 -u32 nxt_alloc32 else sz in
      if sz =? 0 then buf else
      let buf := st_dword buf (pte + PTE_StLba) nxt_alloc32 in
      let buf := st_dword buf (pte + PTE_SizLba) sz in
      let buf := setb buf (pte + PTE_System) sys in
      let buf := st_chs buf (pte + PTE_StHead) n_hd nxt_alloc32 in
      let buf := st_chs buf (pte + PTE_EdHead) n_hd (nxt_alloc32 +u32 sz -u32 1) in
      part_entries plst buf (pte + SZ_PTE) sys sz_drv32 n_hd (nxt_alloc32 +u32 sz)
  end.

(** The sector with the partition table. *)
Definition mbr_sector (plst : list Z) (sys : Z) (buf : list Z) (sz_drv : Z) : list Z :=
  let sz_drv32 := u32 sz_drv in
  let n_hd := count_heads 6 sz_drv32 8 in
  let n_hd := if n_hd =? 0 then 255 else n_hd in
  let buf := blit buf 0 (zeros FF_MAX_SS) in
  let buf := part_entries (take 4 plst) buf MBR_Table sys sz_drv32 n_hd N_SEC_TRACK in
  st_word buf BS_55AA 0xAA55.

(** ** The layout of a FAT volume *)

(** Cluster size boundaries. *)
Definition cst : list Z := [1; 4; 16; 64; 256; 512; 0].
Definition cst32 : list Z := [1; 2; 4; 8; 16; 32; 0].

(** [for (i = 0, pau = 1; cst[i] && cst[i] <= n; i++, pau <<= 1) ;] *)
Fixpoint au_select (tbl : list Z) (n pau : Z) : Z :=
  match tbl with
  | [] => pau
  | c :: tbl => if negb (c =? 0) && (c <=? n) then au_select tbl n (pau *u32 2) else pau
  end.

(** The variables of [f_mkfs] that describe a FAT volume. *)
Record fat_layout := mkFatLayout {
  l_fsty : Z;
  l_pau : Z;
  l_n_clst : Z;
  l_sz_fat : Z;
  l_sz_rsv : Z;
  l_sz_dir : Z;
  l_b_fat : Z
}.

(** What a round of the search for a layout uses: sector size, alignment, number of FATs
    and root directory entries, and place and size of the volume. *)
Record mkfs_env := mkMkfsEnv {
  e_ss : Z;
  e_sz_blk : Z;
  e_n_fat : Z;
  e_n_root : Z;
  e_b_vol : Z;
  e_sz_vol : Z;
  e_fsopt : Z
}.

(** A round: [inl] the cluster size and FAT type to retry with, or the error or layout. *)
Definition layout_step (e : mkfs_env) '(sz_au, fsty) : (Z * Z) + (FRESULT + fat_layout) :=
  let ss := e_ss e in let sz_vol := e_sz_vol e in let n_fat := e_n_fat e in
  let pau := if sz_au =? 0 then
      if fsty =? FS_FAT32 then au_select cst32 (sz_vol / 0x20000) 1 else au_select cst (sz_vol / 0x1000) 1
    else sz_au in
  let n_clst := sz_vol / pau in
  let '(fsty, sz_fat, sz_rsv, sz_dir) :=
    if fsty =? FS_FAT32 then (fsty, (n_clst *u32 4 +u32 8 +u32 ss -u32 1) / ss, 32, 0)
    else
      let '(fsty, n) := if MAX_FAT12 <? n_clst then (fsty, n_clst *u32 2 +u32 4) else (FS_FAT12, (n_clst *u32 3 +u32 1) / 2 +u32 3) in
      (fsty, (n +u32 ss -u32 1) / ss, 1, e_n_root e *u32 SZDIRE / ss) in
  if (fsty =? FS_FAT32) && ((n_clst <=? MAX_FAT16) || (MAX_FAT32 <? n_clst)) then inr (inl FR_MKFS_ABORTED) else
  let b_fat := e_b_vol e +u32 sz_rsv in
  let b_data := b_fat +u32 sz_fat *u32 n_fat +u32 sz_dir in
  let n := Z.land (b_data +u32 e_sz_blk e -u32 1) (u32 (Z.lnot (e_sz_blk e - 1))) -u32 b_data in
  let '(sz_rsv, b_fat, sz_fat) :=
    if fsty =? FS_FAT32 then (sz_rsv +u32 n, b_fat +u32 n, sz_fat)
    else if negb (n mod n_fat =? 0) then (sz_rsv +u32 1, b_fat +u32 1, sz_fat +u32 (n -u32 1) / n_fat)
    else (sz_rsv, b_fat, sz_fat +u32 n / n_fat) in
  if sz_vol <? b_data +u32 pau *u32 16 -u32 e_b_vol e then inr (inl FR_MKFS_ABORTED) else
  let n_clst := (sz_vol -u32 sz_rsv -u32 sz_fat *u32 n_fat -u32 sz_dir) / pau in
  let ok := inr (inr (mkFatLayout fsty pau n_clst sz_fat sz_rsv sz_dir b_fat)) in
  if fsty =? FS_FAT32 then
    if n_clst <=? MAX_FAT16 then
      if (sz_au =? 0) && negb (pau / 2 =? 0) then inl (pau / 2, fsty) else inr (inl FR_MKFS_ABORTED)
    else ok
  else if fsty =? FS_FAT16 then
    if MAX_FAT16 <? n_clst then
      if (sz_au =? 0) && (pau *u32 2 <=? 64) then inl (pau *u32 2, fsty)
      else if has (e_fsopt e) FM_FAT32 then inl (sz_au, FS_FAT32)
      else if (sz_au =? 0) && (pau *u32 2 <=? 128) then inl (pau *u32 2, fsty)
      else inr (inl FR_MKFS_ABORTED)
    else if n_clst <=? MAX_FAT12 then
      if (sz_au =? 0) && (pau *u32 2 <=? 128) then inl (pau *u32 2, fsty) else inr (inl FR_MKFS_ABORTED)
    else ok
  else if (fsty =? FS_FAT12) && (MAX_FAT12 <? n_clst) then inr (inl FR_MKFS_ABORTED)
  else ok.

(** [do { ... } while (1)]; the rounds are few ([None] after [fuel] of them). *)
Fixpoint find_layout (fuel : nat) (e : mkfs_env) (a : Z * Z) : option (FRESULT + fat_layout) :=
  match fuel with
  | O => None
  | S fuel => match layout_step e a with inl a => find_layout fuel e a | inr r => Some r end
  end.

(** ** The records of a FAT volume *)

(** "\xEB\xFE\x90" "MSDOS5.0", "NO NAME    " "FAT32   " and "NO NAME    " "FAT     " *)
Definition msdos_sign : list Z := [0xEB; 0xFE; 0x90; 77; 83; 68; 79; 83; 53; 46; 48].
Definition no_name : list Z := [78; 79; 32; 78; 65; 77; 69; 32; 32; 32; 32].
Definition fat_sign : list Z := [70; 65; 84; 32; 32; 32; 32; 32].

(** The volume boot record; the first sector of [buf] is cleared. *)
Definition fat_vbr (e : mkfs_env) (l : fat_layout) (vsn : Z) (buf : list Z) : list Z :=
  let b := blit buf 0 (zeros (e_ss e)) in
  let b := blit b BS_JmpBoot msdos_sign in
  let b := st_word b BPB_BytsPerSec (e_ss e) in
  let b := setb b BPB_SecPerClus (u8 (l_pau l)) in
  let b := st_word b BPB_RsvdSecCnt (u16 (l_sz_rsv l)) in
  let b := setb b BPB_NumFATs (u8 (e_n_fat e)) in
  let b := st_word b BPB_RootEntCnt (u16 (if l_fsty l =? FS_FAT32 then 0 else e_n_root e)) in
  let b := if e_sz_vol e <? 0x10000 then st_word b BPB_TotSec16 (u16 (e_sz_vol e)) else st_dword b BPB_TotSec32 (e_sz_vol e) in
  let b := setb b BPB_Media 0xF8 in
  let b := st_word b BPB_SecPerTrk 63 in
  let b := st_word b BPB_NumHeads 255 in
  let b := st_dword b BPB_HiddSec (e_b_vol e) in
  let b :=
    if l_fsty l =? FS_FAT32 then
      let b := st_dword b BS_VolID32 vsn in
      let b := st_dword b BPB_FATSz32 (l_sz_fat l) in
      let b := st_dword b BPB_RootClus32 2 in
      let b := st_word b BPB_FSInfo32 1 in
      let b := st_word b BPB_BkBootSec32 6 in
      let b := setb b BS_DrvNum32 0x80 in
      let b := setb b BS_BootSig32 0x29 in
      blit b BS_VolLab32 (no_name ++ fat32_sign)
    else
      let b := st_dword b BS_VolID vsn in
      let b := st_word b BPB_FATSz16 (u16 (l_sz_fat l)) in
      let b := setb b BS_DrvNum 0x80 in
      let b := setb b BS_BootSig 0x29 in
      blit b BS_VolLab (no_name ++ fat_sign) in
  st_word b BS_55AA 0xAA55.

(** The FSINFO record. *)
Definition fsinfo_record (ss n_clst : Z) (buf : list Z) : list Z :=
  let b := blit buf 0 (zeros ss) in
  let b := st_dword b FSI_LeadSig 0x41615252 in
  let b := st_dword b FSI_StrucSig 0x61417272 in
  let b := st_dword b FSI_Free_Count (n_clst -u32 1) in
  let b := st_dword b FSI_Nxt_Free 2 in
  st_word b BS_55AA 0xAA55.

(** The entries of the FAT that are in use. *)
Definition fat_head (fsty : Z) (buf : list Z) : list Z :=
  if fsty =? FS_FAT32 then st_dword (st_dword (st_dword buf 0 0xFFFFFFF8) 4 0xFFFFFFFF) 8 0x0FFFFFFF
  else st_dword buf 0 (if fsty =? FS_FAT12 then 0xFFFFF8 else 0xFFFFFFF8).

(** ** The layout of an exFAT volume *)

Record exfat_layout := mkExfatLayout {
  x_sz_au : Z;
  x_b_fat : Z;
  x_sz_fat : Z;
  x_b_data : Z;
  x_n_clst : Z
}.

Definition plan_exfat (ss sz_blk b_vol sz_vol sz_au : Z) : FRESULT + exfat_layout :=
  if sz_vol <? 0x1000 then inl FR_MKFS_ABORTED else
  let sz_au := if sz_au =? 0 then (if 0x4000000 <=? sz_vol then 256 else if 0x80000 <=? sz_vol then 64 else 8) else sz_au in
  let b_fat := b_vol +u32 32 in
  let sz_fat := ((sz_vol / sz_au +u32 2) *u32 4 +u32 ss -u32 1) / ss in
  let b_data := Z.land (b_fat +u32 sz_fat +u32 sz_blk -u32 1) (u32 (Z.lnot (sz_blk - 1))) in
  if sz_vol / 2 <=? b_data -u32 b_vol then inl FR_MKFS_ABORTED else
  let n_clst := (sz_vol -u32 (b_data -u32 b_vol)) / sz_au in
  if n_clst <? 16 then inl FR_MKFS_ABORTED else
  if MAX_EXFAT <? n_clst then inl FR_MKFS_ABORTED else
  inr (mkExfatLayout sz_au b_fat sz_fat b_data n_clst).

(** [(n + size - 1) / size], [DWORD] *)
Definition unit_count (n size : Z) : Z := (n +u32 size -u32 1) / size.

(** The length of the block of characters without case from [si] on:
    [for (j = 1; (WCHAR)(si + j) && (WCHAR)(si + j) == ff_wtoupper((WCHAR)(si + j)); j++) ;] *)
Fixpoint no_case (fuel : nat) (si j : Z) : Z :=
  match fuel with
  | O => j
  | S fuel => let c := u16 (si + j) in if negb (c =? 0) && (c =? ff_wtoupper c) then no_case fuel si (j + 1) else j
  end.

(** The variables of the loop that writes the up-case table. *)
Record case_vars := mkCaseVars {
  cv_st : Z;
  cv_si : Z;
  cv_j : Z;
  cv_i : Z;
  cv_size : Z;
  cv_sum : Z;
  cv_sect : Z;
  cv_buf : list Z
}.

(** The [switch]: the unit to store, and [st], [si] and [j]. *)
Definition case_unit (st si j : Z) : Z * Z * Z * Z :=
  let short j := (si, if j -u32 1 =? 0 then 0 else 1, u16 (si + 1), j -u32 1) in
  if st =? 0 then
    let ch := u16 (ff_wtoupper si) in
    if negb (ch =? si) then (ch, 0, u16 (si + 1), j) else
    let j := no_case (Z.to_nat 0x10000) si 1 in
    if 128 <=? j then (0xFFFF, 2, si, j) else short j
  else if st =? 1 then short j
  else (u16 j, 0, u16 (si + u16 j), j).

(** The used bits of the bitmap: [for (i = 0; nbit != 0 && i / 8 < size; ...)] *)
Fixpoint mark_bits (fuel : nat) (buf : list Z) (size i nbit : Z) : list Z * Z :=
  match fuel with
  | O => (buf, nbit)
  | S fuel =>
      if negb (nbit =? 0) && (i / 8 <? size)
      then mark_bits fuel (setb buf (i / 8) (u8 (Z.lor buf.[i / 8] (Z.shiftl 1 (i mod 8))))) size (i + 1) (nbit - 1)
      else (buf, nbit)
  end.

(** [while (nbit != 0 && i < size)]: a chain of clusters from [clu] on. *)
Fixpoint put_links (fuel : nat) (buf : list Z) (size i clu nbit : Z) : list Z * Z * Z * Z :=
  match fuel with
  | O => (buf, i, clu, nbit)
  | S fuel =>
      if negb (nbit =? 0) && (i <? size)
      then put_links fuel (st_dword buf i (if 1 <? nbit then clu +u32 1 else 0xFFFFFFFF)) size (i + 4) (clu +u32 1) (nbit -u32 1)
      else (buf, i, clu, nbit)
  end.

(** [do { ... } while (nbit != 0 && i < size)]: the chains whose lengths are [clen], from
    the one of index [j] on; at most four rounds. *)
Fixpoint put_chains (fuel : nat) (clen : list Z) (buf : list Z) (size i clu nbit j : Z) : list Z * Z * Z * Z :=
  match fuel with
  | O => (buf, clu, nbit, j)
  | S fuel =>
      let '(buf, i, clu, nbit) := put_links (Z.to_nat size) buf size i clu nbit in
      let '(nbit, j) := if (nbit =? 0) && (j <? 3) then (clen.[j], j + 1) else (nbit, j) in
      if negb (nbit =? 0) && (i <? size) then put_chains fuel clen buf size i clu nbit j else (buf, clu, nbit, j)
  end.

(** The checksum of the bytes of a sector. *)
Definition sum_sector (ss : Z) (buf : list Z) (sum : Z) : Z := fold_left (fun sum b => xsum32 b sum) (sub buf 0 ss) sum.

(** The main boot record: the volume flags and the percentage are not in its checksum. *)
Definition sum_vbr (ss : Z) (buf : list Z) : Z :=
  fold_left (fun sum i => if (i =? BPB_VolFlagEx) || (i =? BPB_VolFlagEx + 1) || (i =? BPB_PercInUseEx) then sum else xsum32 buf.[i] sum)
    (seqZ 0 ss) 0.

(** [for (buf[p] = 0, i = x; i >>= 1; buf[p]++) ;] *)
Fixpoint log2_loop (fuel : nat) (x n : Z) : Z :=
  match fuel with
  | O => n
  | S fuel => let x := Z.shiftr x 1 in if x =? 0 then n else log2_loop fuel x (u8 (n + 1))
  end.

Definition exfat_vbr (ss b_vol sz_vol vsn root : Z) (l : exfat_layout) (buf : list Z) : list Z :=
  let b := blit buf 0 (zeros ss) in
  let b := blit b BS_JmpBoot exfat_sign in
  let b := st_qword b BPB_VolOfsEx b_vol in
  let b := st_qword b BPB_TotSecEx sz_vol in
  let b := st_dword b BPB_FatOfsEx (x_b_fat l -u32 b_vol) in
  let b := st_dword b BPB_FatSzEx (x_sz_fat l) in
  let b := st_dword b BPB_DataOfsEx (x_b_data l -u32 b_vol) in
  let b := st_dword b BPB_NumClusEx (x_n_clst l) in
  let b := st_dword b BPB_RootClusEx root in
  let b := st_dword b BPB_VolIDEx vsn in
  let b := st_word b BPB_FSVerEx 0x100 in
  let b := setb b BPB_BytsPerSecEx (log2_loop 32 ss 0) in
  let b := setb b BPB_SecPerClusEx (log2_loop 32 (x_sz_au l) 0) in
  let b := setb b BPB_NumFATsEx 1 in
  let b := setb b BPB_DrvNumEx 0x80 in
  let b := st_word b BS_BootCodeEx 0xFEEB in
  st_word b BS_55AA 0xAA55.

(** The entries of the root directory: label, bitmap and up-case table. *)
Definition exfat_root (szb_bit szb_case sum clen0 : Z) (buf : list Z) : list Z :=
  let b := setb buf 0 ET_VLABEL in
  let b := setb b SZDIRE ET_BITMAP in
  let b := st_dword b (SZDIRE + 20) 2 in
  let b := st_dword b (SZDIRE + 24) szb_bit in
  let b := setb b (SZDIRE * 2) ET_UPCASE in
  let b := st_dword b (SZDIRE * 2 + 4) sum in
  let b := st_dword b (SZDIRE * 2 + 20) (2 +u32 clen0) in
  st_dword b (SZDIRE * 2 + 24) szb_case.

(** ** Writing *)

Section code.
Context {D : Type} `{BlockDevice D} `{!Heap}.

(** Write [nsect] sectors from [sect] on with the buffer of [sz_buf] sectors; between the
    writes its first sector is cleared if [clear] is set.  [None] on a disk error. *)
Definition fill_step (clear : bool) (ss sz_buf : Z) '(buf, sect, nsect) :
    M (St D) (list Z * Z * Z + option (list Z * Z)) :=
  let n := if sz_buf <? nsect then sz_buf else nsect in
  r ← do_write buf sect n;
  if negb (res_ok r) then mret (inr None) else
  let buf := if clear then blit buf 0 (zeros ss) else buf in
  let sect := sect +u32 n in
  let nsect := nsect -u32 n in
  if negb (nsect =? 0) then mret (inl (buf, sect, nsect)) else mret (inr (Some (buf, sect))).
Definition fill_sectors (clear : bool) (ss sz_buf : Z) (buf : list Z) (sect nsect : Z) : M (St D) (option (list Z * Z)) :=
  iterate (2 ^ 33)%positive (fill_step clear ss sz_buf) (buf, sect, nsect).

(** [for (i = 0; i < n_fat; i++)]: the FATs. *)
Fixpoint write_fats (n_fat : nat) (fsty ss sz_buf sz_fat : Z) (buf : list Z) (sect : Z) : M (St D) (option (list Z * Z)) :=
  match n_fat with
  | O => mret (Some (buf, sect))
  | S n_fat =>
      r ← fill_sectors true ss sz_buf (fat_head fsty buf) sect sz_fat;
      match r with
      | None => mret None
      | Some (buf, sect) => write_fats n_fat fsty ss sz_buf sz_fat buf sect
      end
  end.

(** A FAT volume with the layout [l]; the buffer is a result. *)
Definition create_fat_volume (e : mkfs_env) (l : fat_layout) (sz_buf vsn : Z) (buf : list Z) : M (St D) (FRESULT * list Z) :=
  let ss := e_ss e in
  let b_vol := e_b_vol e in
  let buf := fat_vbr e l vsn buf in
  r ← do_write buf b_vol 1;
  if negb (res_ok r) then mret (FR_DISK_ERR, buf) else
  buf ← (if l_fsty l =? FS_FAT32 then
           do_write buf (b_vol +u32 6) 1;;
           let buf := fsinfo_record ss (l_n_clst l) buf in
           do_write buf (b_vol +u32 7) 1;;
           do_write buf (b_vol +u32 1) 1;;
           mret buf
         else mret buf);
  let buf := blit buf 0 (zeros (sz_buf * ss)) in
  r ← write_fats (Z.to_nat (e_n_fat e)) (l_fsty l) ss sz_buf (l_sz_fat l) buf (l_b_fat l);
  match r with
  | None => mret (FR_DISK_ERR, buf)
  | Some (buf, sect) =>
      let nsect := if l_fsty l =? FS_FAT32 then l_pau l else l_sz_dir l in
      r ← fill_sectors false ss sz_buf buf sect nsect;
      mret (match r with None => (FR_DISK_ERR, buf) | Some (buf, _) => (FR_OK, buf) end)
  end.

(** A round of the loop that writes the up-case table: [None] on a disk error, else the
    size of the table, its checksum and the buffer. *)
Definition case_step (ss sz_buf : Z) (v : case_vars) : M (St D) (case_vars + option (Z * Z * list Z)) :=
  let '(ch, st, si, j) := case_unit (cv_st v) (cv_si v) (cv_j v) in
  let i := cv_i v in
  let buf := setb (setb (cv_buf v) i (u8 ch)) (i + 1) (u8 (Z.shiftr ch 8)) in
  let sum := xsum32 (u8 (Z.shiftr ch 8)) (xsum32 (u8 ch) (cv_sum v)) in
  let i := i + 2 in
  let size := cv_size v +u32 2 in
  p ← (if (si =? 0) || (i =? sz_buf * ss) then
         let n := (i + ss - 1) / ss in
         r ← do_write buf (cv_sect v) n;
         mret (if res_ok r then Some (0, cv_sect v +u32 n) else None)
       else mret (Some (i, cv_sect v)));
  match p with
  | None => mret (inr None)
  | Some (i, sect) =>
      if negb (si =? 0) then mret (inl (mkCaseVars st si j i size sum sect buf))
      else mret (inr (Some (size, sum, buf)))
  end.
Definition write_case (ss sz_buf sect : Z) (buf : list Z) : M (St D) (option (Z * Z * list Z)) :=
  iterate (2 ^ 18)%positive (case_step ss sz_buf) (mkCaseVars 0 0 0 0 0 0 sect buf).

(** The allocation bitmap. *)
Definition bits_step (ss sz_buf : Z) '(buf, sect, nsect, nbit) : M (St D) (list Z * Z * Z * Z + option (list Z)) :=
  let '(buf, nbit) := mark_bits (Z.to_nat (8 * (sz_buf * ss) + 1)) (blit buf 0 (zeros (sz_buf * ss))) (sz_buf * ss) 0 nbit in
  let n := if sz_buf <? nsect then sz_buf else nsect in
  r ← do_write buf sect n;
  if negb (res_ok r) then mret (inr None) else
  let sect := sect +u32 n in
  let nsect := nsect -u32 n in
  if negb (nsect =? 0) then mret (inl (buf, sect, nsect, nbit)) else mret (inr (Some buf)).

(** The FAT of an exFAT volume. *)
Definition xfat_step (ss sz_buf : Z) (clen : list Z) '(buf, sect, nsect, (clu, nbit, j)) :
    M (St D) (list Z * Z * Z * (Z * Z * Z) + option (list Z)) :=
  let buf := blit buf 0 (zeros (sz_buf * ss)) in
  let '(buf, i, clu) := if clu =? 0 then (st_dword (st_dword buf 0 0xFFFFFFF8) 4 0xFFFFFFFF, 8, 2) else (buf, 0, clu) in
  let '(buf, clu, nbit, j) := put_chains 5 clen buf (sz_buf * ss) i clu nbit j in
  let n := if sz_buf <? nsect then sz_buf else nsect in
  r ← do_write buf sect n;
  if negb (res_ok r) then mret (inr None) else
  let sect := sect +u32 n in
  let nsect := nsect -u32 n in
  if negb (nsect =? 0) then mret (inl (buf, sect, nsect, (clu, nbit, j))) else mret (inr (Some buf)).

(** [n] sectors with the same content, added to the checksum. *)
Fixpoint repeat_sector (n : nat) (ss : Z) (buf : list Z) (sum sect : Z) : M (St D) (option (Z * Z)) :=
  match n with
  | O => mret (Some (sum, sect))
  | S n =>
      r ← do_write buf sect 1;
      if negb (res_ok r) then mret None else repeat_sector n ss buf (sum_sector ss buf sum) (sect +u32 1)
  end.

(** [for (i = 0; i < ss; i += 4) st_dword(buf + i, sum);] *)
Fixpoint fill_sum (n : nat) (buf : list Z) (i sum : Z) : list Z :=
  match n with
  | O => buf
  | S n => fill_sum n (st_dword buf i sum) (i + 4) sum
  end.

(** One set of the boot records: the next sector and the buffer. *)
Definition exfat_boot (ss b_vol sz_vol vsn root : Z) (l : exfat_layout) (sect : Z) (buf : list Z) : M (St D) (option (Z * list Z)) :=
  let buf := exfat_vbr ss b_vol sz_vol vsn root l buf in
  let sum := sum_vbr ss buf in
  r ← do_write buf sect 1;
  if negb (res_ok r) then mret None else
  let buf := st_word (blit buf 0 (zeros ss)) (ss - 2) 0xAA55 in
  p ← repeat_sector 8 ss buf sum (sect +u32 1);
  match p with
  | None => mret None
  | Some (sum, sect) =>
      let buf := blit buf 0 (zeros ss) in
      p ← repeat_sector 2 ss buf sum sect;
      match p with
      | None => mret None
      | Some (sum, sect) =>
          let buf := fill_sum (Z.to_nat (ss / 4)) buf 0 sum in
          r ← do_write buf sect 1;
          mret (if res_ok r then Some (sect +u32 1, buf) else None)
      end
  end.

Definition create_exfat_volume (ss sz_blk b_vol sz_vol sz_au sz_buf vsn : Z) (buf : list Z) : M (St D) (FRESULT * list Z) :=
  match plan_exfat ss sz_blk b_vol sz_vol sz_au with
  | inl e => mret (e, buf)
  | inr l =>
      let au := x_sz_au l *u32 ss in
      let szb_bit := (x_n_clst l +u32 7) / 8 in
      let clen0 := unit_count szb_bit au in
      p ← write_case ss sz_buf (x_b_data l +u32 x_sz_au l *u32 clen0) buf;
      match p with
      | None => mret (FR_DISK_ERR, buf)
      | Some (szb_case, sum, buf) =>
          let clen := [clen0; unit_count szb_case au; 1] in
          p ← iterate (2 ^ 33)%positive (bits_step ss sz_buf) (buf, x_b_data l, unit_count szb_bit ss, clen0 +u32 clen.[1] +u32 1);
          match p with
          | None => mret (FR_DISK_ERR, buf)
          | Some buf =>
              p ← iterate (2 ^ 33)%positive (xfat_step ss sz_buf clen) (buf, x_b_fat l, x_sz_fat l, (0, 0, 0));
              match p with
              | None => mret (FR_DISK_ERR, buf)
              | Some buf =>
                  let buf := exfat_root szb_bit szb_case sum clen0 (blit buf 0 (zeros (sz_buf * ss))) in
                  p ← fill_sectors true ss sz_buf buf (x_b_data l +u32 x_sz_au l *u32 (clen0 +u32 clen.[1])) (x_sz_au l);
                  match p with
                  | None => mret (FR_DISK_ERR, buf)
                  | Some (buf, _) =>
                      let root := 2 +u32 clen0 +u32 clen.[1] in
                      p ← exfat_boot ss b_vol sz_vol vsn root l b_vol buf;
                      match p with
                      | None => mret (FR_DISK_ERR, buf)
                      | Some (sect, buf) =>
                          p ← exfat_boot ss b_vol sz_vol vsn root l sect buf;
                          mret (match p with None => (FR_DISK_ERR, buf) | Some (_, buf) => (FR_OK, buf) end)
                      end
                  end
              end
          end
      end
  end.

Definition create_partition (plst : list Z) (sys : Z) (buf : list Z) (sz_drv : Z) : M (St D) FRESULT :=
  if (sz_drv =? 0) && negb (res_ok ioctl_unsupported) then mret FR_DISK_ERR else
  r ← do_write (mbr_sector plst sys buf sz_drv) 0 1;
  mret (if res_ok r then FR_OK else FR_DISK_ERR).

(** The type of the volume: [inl] an error, or the type and the cluster size. *)
Definition choose_type (fsopt sz_vol sz_au : Z) : FRESULT + Z * Z :=
  if has fsopt FM_EXFAT && ((Z.land fsopt FM_ANY =? FM_EXFAT) || (0x4000000 <=? sz_vol) || (128 <? sz_au)) then inr (FS_EXFAT, sz_au) else
  let sz_au := if 128 <? sz_au then 128 else sz_au in
  if has fsopt FM_FAT32 && negb (has fsopt FM_FAT) then inr (FS_FAT32, sz_au) else
  if negb (has fsopt FM_FAT) then inl FR_INVALID_PARAMETER else inr (FS_FAT16, sz_au).

(** The system ID of the partition. *)
Definition system_id (fsty sz_vol : Z) : Z :=
  if fsty =? FS_EXFAT then 0x07
  else if fsty =? FS_FAT32 then 0x0C
  else if 0x10000 <=? sz_vol then 0x06
  else if fsty =? FS_FAT16 then 0x04 else 0x01.

(** A volume of type [fsty] at [b_vol]; the final type and the buffer are results. *)
Definition create_volume (e : mkfs_env) (fsty sz_au sz_buf vsn : Z) (buf : list Z) : M (St D) (FRESULT * Z * list Z) :=
  if fsty =? FS_EXFAT then
    '(fr, buf) ← create_exfat_volume (e_ss e) (e_sz_blk e) (e_b_vol e) (e_sz_vol e) sz_au sz_buf vsn buf;
    mret (fr, fsty, buf)
  else
    match find_layout 8 e (sz_au, fsty) with
    | None => out_of_fuel
    | Some (inl fr) => mret (fr, fsty, buf)
    | Some (inr l) =>
        '(fr, buf) ← create_fat_volume e l sz_buf vsn buf;
        mret (fr, l_fsty l, buf)
    end.

(** [work] is the buffer of the caller, or [None] for a null pointer; [heap] is what the
    memory from the heap holds.  [registered] says whether [FatFs[vol]] is set. *)
Definition f_mkfs (path : list Z) (registered : bool) (opt : option MKFS_PARM) (work : option (list Z)) (heap : list Z) (len : Z) : M (St D) FRESULT :=
  let '(vol, _) := get_ldnumber path in
  if vol <? 0 then mret FR_INVALID_DRIVE else
  (if registered then upd_fs (set_fs_type 0) else mret tt);;
  let opt := default defopt opt in
  if has disk_initialize STA_NOINIT then mret FR_NOT_READY else
  if has disk_initialize STA_PROTECT then mret FR_WRITE_PROTECTED else
  let sz_blk := mk_align opt in
  let sz_blk := if (sz_blk =? 0) && negb (res_ok ioctl_unsupported) then 1 else sz_blk in
  let sz_blk := if (sz_blk =? 0) || (0x8000 <? sz_blk) || negb (pow2_test sz_blk) then 1 else sz_blk in
  ss ← gets (fun s => u16 (sector_size (dev s)));
  if (FF_MAX_SS <? ss) || (ss <? FF_MIN_SS) || negb (pow2_test ss) then mret FR_DISK_ERR else
  let fsopt := Z.land (mk_fmt opt) (Z.lor FM_ANY FM_SFD) in
  let n_fat := if (1 <=? mk_n_fat opt) && (mk_n_fat opt <=? 2) then mk_n_fat opt else 1 in
  let n_root := if (1 <=? mk_n_root opt) && (mk_n_root opt <=? 32768) && (mk_n_root opt mod (ss / SZDIRE) =? 0) then mk_n_root opt else 512 in
  let sz_au := if (mk_au_size opt <=? 0x1000000) && pow2_test (mk_au_size opt) then mk_au_size opt else 0 in
  let sz_au := sz_au / ss in
  let sz_buf := len / ss in
  if sz_buf =? 0 then mret FR_NOT_ENOUGH_CORE else
  let buf := match work with
             | Some buf => Some buf
             | None => if ff_memalloc (sz_buf * ss) then Some heap else None
             end in
  match buf with
  | None => mret FR_NOT_ENOUGH_CORE
  | Some buf =>
      let sz_vol := mk_sz_vol opt in
      if (sz_vol =? 0) && negb (res_ok ioctl_unsupported) then mret FR_DISK_ERR else
      let '(b_vol, sz_vol) :=
        if negb (has fsopt FM_SFD) && (N_SEC_TRACK <? sz_vol) then (N_SEC_TRACK, sz_vol - N_SEC_TRACK) else (0, sz_vol) in
      if sz_vol <? 128 then mret FR_MKFS_ABORTED else
      match choose_type fsopt sz_vol sz_au with
      | inl fr => mret fr
      | inr (fsty, sz_au) =>
          let vsn := sz_vol +u32 GET_FATTIME in
          let e := mkMkfsEnv ss sz_blk n_fat n_root b_vol sz_vol fsopt in
          '(fr, fsty, buf) ← create_volume e fsty sz_au sz_buf vsn buf;
          if negb (fr_ok fr) then mret fr else
          fr ← (if negb (has fsopt FM_SFD) then create_partition [sz_vol; 0] (system_id fsty sz_vol) buf (mk_sz_vol opt) else mret FR_OK);
          if negb (fr_ok fr) then mret fr else
          r ← do_sync;
          mret (if res_ok r then FR_OK else FR_DISK_ERR)
      end
  end.
End code.
