(* ===== verification/MkfsLayout.v ===== *)
(** * The layout of a FAT volume that [f_mkfs] computes

    The search for the cluster size and the FAT type ends, and a layout it accepts fits
    into the volume and is of the type that [mount_volume] derives from it. *)

From stdpp Require Import prelude list.
From Stdlib Require Import ZArith Lia.
From S2P Require Import Prelude Bytes Diskio FFTypes Window Fat Dir Dirent Mount Mkfs.

Local Open Scope Z_scope.
Local Open Scope cint_scope.

(** What [f_mkfs] has made sure of before the search.  The alignment is at most 16
    sectors, see [ExamplesMkfs] for a larger one. *)
Record env_ok (e : mkfs_env) : Prop := {
  eo_ss : sect_size_ok (e_ss e);
  eo_blk : exists k, 0 <= k <= 4 /\ e_sz_blk e = 2 ^ k;
  eo_n_fat : e_n_fat e = 1 \/ e_n_fat e = 2;
  eo_n_root : 1 <= e_n_root e <= 32768 /\ e_n_root e mod (e_ss e / SZDIRE) = 0;
  eo_b_vol : 0 <= e_b_vol e <= N_SEC_TRACK;
  eo_sz_vol : 128 <= e_sz_vol e /\ e_b_vol e + e_sz_vol e < 2 ^ 32
}.

(** Cluster sizes. *)
Definition au_ok (n : Z) : Prop := exists i, 0 <= i <= 7 /\ n = 2 ^ i.

Record layout_ok (e : mkfs_env) (l : fat_layout) : Prop := {
  lo_pau : au_ok (l_pau l);
  lo_fat : 1 <= l_sz_fat l /\ (l_fsty l <> FS_FAT32 -> l_sz_fat l < 2 ^ 16);
  lo_rsv : 1 <= l_sz_rsv l <= 63 /\ (l_fsty l = FS_FAT32 -> 32 <= l_sz_rsv l);
  lo_dir : l_sz_dir l = if l_fsty l =? FS_FAT32 then 0 else e_n_root e * SZDIRE / e_ss e;
  lo_base : l_b_fat l = e_b_vol e + l_sz_rsv l;
  lo_clst : let sys := l_sz_rsv l + l_sz_fat l * e_n_fat e + l_sz_dir l in
    sys < e_sz_vol e /\ l_n_clst l = (e_sz_vol e - sys) / l_pau l;
  lo_type : 1 <= l_n_clst l /\ l_fsty l = fat_subtype (l_n_clst l) /\ l_n_clst l <= MAX_FAT32;
  lo_fits : (if l_fsty l =? FS_FAT32 then (l_n_clst l + 2) * 4
             else if l_fsty l =? FS_FAT16 then (l_n_clst l + 2) * 2
             else ((l_n_clst l + 2) * 3 + 1) / 2) <= l_sz_fat l * e_ss e
}.

(** ** Arithmetic *)

Lemma pow2_cases k : 0 <= k <= 7 ->
  2 ^ k = 1 \/ 2 ^ k = 2 \/ 2 ^ k = 4 \/ 2 ^ k = 8 \/ 2 ^ k = 16 \/ 2 ^ k = 32 \/ 2 ^ k = 64 \/ 2 ^ k = 128.
Proof.
  intros Hk. assert (k = 0 \/ k = 1 \/ k = 2 \/ k = 3 \/ k = 4 \/ k = 5 \/ k = 6 \/ k = 7) as H by lia.
  destruct H as [->|[->|[->|[->|[->|[->|[->| ->]]]]]]]; lia.
Qed.

Lemma au_cases n : au_ok n -> n = 1 \/ n = 2 \/ n = 4 \/ n = 8 \/ n = 16 \/ n = 32 \/ n = 64 \/ n = 128.
Proof. intros (i & Hi & ->). by apply pow2_cases. Qed.

Lemma au_double n : au_ok n -> n * 2 <= 128 -> au_ok (n * 2).
Proof.
  intros (i & Hi & ->) Hn. exists (i + 1). split; [|rewrite Z.pow_add_r by lia; lia].
  split; [lia|]. destruct (decide (i = 7)) as [->|]; lia.
Qed.

Lemma au_half n : au_ok n -> n / 2 <> 0 -> au_ok (n / 2).
Proof.
  intros (i & Hi & ->) Hn. destruct (decide (i = 0)) as [->|]; [done|]. exists (i - 1). split; [lia|].
  replace i with (i - 1 + 1) at 1 by lia. rewrite Z.pow_add_r by lia. change (2 ^ 1) with 2. by rewrite Z.div_mul.
Qed.

(** Rounding up to a multiple of a power of two. *)
Lemma align_up x k : 0 <= x -> 0 <= k <= 4 -> x + 16 < 2 ^ 32 ->
  exists n, 0 <= n < 2 ^ k /\ Z.land (x +u32 2 ^ k -u32 1) (u32 (Z.lnot (2 ^ k - 1))) = x + n.
Proof.
  intros Hx Hk Hs. pose proof (pow2_cases k ltac:(lia)) as Hp. assert (1 <= 2 ^ k <= 16) as Hp'.
  { split; [lia|]. change 16 with (2 ^ 4). apply Z.pow_le_mono_r; lia. }
  rewrite (u32_small (x + 2 ^ k)), u32_small by (unfold is_u32; lia). set (y := x + 2 ^ k - 1).
  assert (Z.land y (u32 (Z.lnot (2 ^ k - 1))) = 2 ^ k * (y / 2 ^ k)) as ->.
  { unfold u32. rewrite <- Z.land_ones by lia. rewrite Z.land_assoc, (Z.land_comm y), <- Z.land_assoc, (Z.land_ones y), (Z.mod_small y) by lia.
    rewrite Z.land_comm. replace (2 ^ k - 1) with (Z.ones k) by (rewrite Z.ones_equiv; lia). rewrite <- Z.ldiff_land, Z.ldiff_ones_r by lia.
    rewrite Z.shiftr_div_pow2, Z.shiftl_mul_pow2 by lia. lia. }
  exists (2 ^ k * (y / 2 ^ k) - x). unfold y. split; [|lia]. clear Hp. Z.div_mod_to_equations. nia.
Qed.

Lemma au_select_ok tbl n p k : 0 <= k -> k + Z.of_nat (List.length tbl) <= 7 -> p = 2 ^ k -> au_ok (au_select tbl n p).
Proof.
  revert p k. induction tbl as [|c tbl IH]; intros p k Hk Hl ->; cbn [au_select List.length] in *; [exists k; split; [lia|done]|].
  destruct (_ && _); [|exists k; split; [lia|done]].
  assert (2 ^ k <= 2 ^ 7) by (apply Z.pow_le_mono_r; lia). assert (0 < 2 ^ k) by (apply Z.pow_pos_nonneg; lia).
  apply (IH _ (k + 1)); [lia|lia|]. rewrite u32_small by (unfold is_u32; lia). rewrite Z.pow_add_r by lia. lia.
Qed.

Lemma au_select_cst n : au_ok (au_select cst n 1).
Proof. by apply (au_select_ok _ _ _ 0). Qed.
Lemma au_select_cst32 n : au_ok (au_select cst32 n 1).
Proof. by apply (au_select_ok _ _ _ 0). Qed.

(** The rounds that are left. *)
Definition layout_rank (a : Z * Z) : nat := (if a.1 =? 0%Z then 2 else 0) + (if a.2 =? FS_FAT32 then 0 else 1).

Definition start_ok (a : Z * Z) : Prop := (a.1 = 0 \/ au_ok a.1) /\ (a.2 = FS_FAT16 \/ a.2 = FS_FAT32).

(** ** A round *)

Section round.
Context (e : mkfs_env).
Hypothesis He : env_ok e.

Let ss := e_ss e.
Let n_fat := e_n_fat e.

Lemma ss_cases : ss = 512 \/ ss = 1024 \/ ss = 2048 \/ ss = 4096.
Proof. apply He. Qed.

(** The size of the root directory. *)
Lemma root_size : e_n_root e *u32 SZDIRE / ss = e_n_root e * SZDIRE / ss /\ 1 <= e_n_root e * SZDIRE / ss <= 2048.
Proof.
  destruct (eo_n_root _ He) as [Hn Hm]. rewrite u32_small by (unfold is_u32, SZDIRE; lia). split; [done|].
  fold ss in Hm. unfold SZDIRE in *. destruct ss_cases as [E|[E|[E|E]]]; rewrite E in *;
    [change (512 / 32) with 16 in Hm|change (1024 / 32) with 32 in Hm|change (2048 / 32) with 64 in Hm|change (4096 / 32) with 128 in Hm];
    Z.div_mod_to_equations; lia.
Qed.

(** Alignment moves the FAT or expands it: the sizes add up to the aligned data area. *)
Lemma aligned_sizes (fsty sz_fat sz_rsv sz_dir : Z) :
  0 <= sz_fat <= 2 ^ 24 -> 1 <= sz_rsv <= 32 -> 0 <= sz_dir <= 2048 ->
  let b_fat := e_b_vol e +u32 sz_rsv in
  let b_data := b_fat +u32 sz_fat *u32 n_fat +u32 sz_dir in
  let n := Z.land (b_data +u32 e_sz_blk e -u32 1) (u32 (Z.lnot (e_sz_blk e - 1))) -u32 b_data in
  let '(sz_rsv', b_fat', sz_fat') :=
    if fsty =? FS_FAT32 then (sz_rsv +u32 n, b_fat +u32 n, sz_fat)
    else if negb (n mod n_fat =? 0) then (sz_rsv +u32 1, b_fat +u32 1, sz_fat +u32 (n -u32 1) / n_fat)
    else (sz_rsv, b_fat, sz_fat +u32 n / n_fat) in
  0 <= n <= 15 /\ b_data = e_b_vol e + sz_rsv + sz_fat * n_fat + sz_dir /\
  sz_rsv <= sz_rsv' <= sz_rsv + 15 /\ b_fat' = e_b_vol e + sz_rsv' /\ sz_fat <= sz_fat' <= sz_fat + 15 /\
  sz_rsv' + sz_fat' * n_fat + sz_dir = sz_rsv + sz_fat * n_fat + sz_dir + n.
Proof.
  intros Hf Hr Hd b_fat b_data n. destruct (eo_blk _ He) as (k & Hk & Ek). pose proof (eo_b_vol _ He) as Hb. unfold N_SEC_TRACK in Hb.
  assert (1 <= n_fat <= 2) as Hn by (pose proof (eo_n_fat _ He); unfold n_fat; lia).
  assert (b_data = e_b_vol e + sz_rsv + sz_fat * n_fat + sz_dir) as Eb.
  { unfold b_data, b_fat. rewrite (u32_small (e_b_vol e + sz_rsv)), (u32_small (sz_fat * n_fat)) by (unfold is_u32; nia).
    rewrite (u32_small (e_b_vol e + sz_rsv + _)), u32_small by (unfold is_u32; nia). done. }
  assert (0 <= b_data < 2 ^ 26) as Hbd by nia. assert (0 <= n <= 15 /\ n = n) as [Hn0 _].
  { unfold n. rewrite Ek. destruct (align_up b_data k ltac:(lia) ltac:(lia) ltac:(lia)) as (m & Hm & ->).
    assert (2 ^ k <= 16) by (change 16 with (2 ^ 4); apply Z.pow_le_mono_r; lia).
    replace (b_data + m - b_data) with m by lia. rewrite u32_small by (unfold is_u32; lia). lia. }
  clearbody n. assert (b_fat = e_b_vol e + sz_rsv) as Ef by (unfold b_fat; apply u32_small; unfold is_u32; lia). clearbody b_fat b_data.
  destruct (fsty =? FS_FAT32); [|destruct (negb (n mod n_fat =? 0)) eqn:E]; rewrite ?Ef.
  - rewrite !u32_small by (unfold is_u32; lia). lia.
  - apply negb_true_iff, Z.eqb_neq in E. assert (n_fat = 2) as E2 by (destruct (decide (n_fat = 1)) as [E1|]; [rewrite E1, Z.mod_1_r in E|]; lia).
    rewrite E2 in *. assert (n mod 2 = 1) by (Z.div_mod_to_equations; lia).
    rewrite (u32_small (n - 1)), !u32_small by (unfold is_u32; Z.div_mod_to_equations; lia). split_and!; try done; Z.div_mod_to_equations; lia.
  - apply negb_false_iff, Z.eqb_eq in E. rewrite !u32_small by (unfold is_u32; Z.div_mod_to_equations; nia).
    split_and!; try done; try lia; Z.div_mod_to_equations; nia.
Qed.

(** The number of clusters, once the sizes are fixed. *)
Lemma clusters_left sys n pau sz_rsv sz_fat sz_dir :
  0 <= n <= 15 -> au_ok pau -> 0 <= sz_rsv -> 0 <= sz_fat -> 0 <= sz_dir -> sz_rsv + sz_fat * n_fat + sz_dir = sys + n ->
  sys + pau * 16 <= e_sz_vol e ->
  (e_sz_vol e -u32 sz_rsv -u32 sz_fat *u32 n_fat -u32 sz_dir) / pau = (e_sz_vol e - (sys + n)) / pau /\
  sys + n < e_sz_vol e /\ 1 <= (e_sz_vol e - (sys + n)) / pau <= e_sz_vol e / pau.
Proof.
  intros Hn Hp Hr Hf Hd Es Hv. pose proof (eo_sz_vol _ He) as [_ Hz]. pose proof (eo_b_vol _ He). pose proof (eo_n_fat _ He) as Hnf. fold n_fat in Hnf.
  apply au_cases in Hp. assert (0 <= sz_fat * n_fat) by lia.
  rewrite (u32_small (e_sz_vol e - _)), (u32_small (sz_fat * _)), (u32_small (_ - sz_fat * _)), u32_small by (unfold is_u32; lia).
  split; [f_equal; lia|]. split; [lia|]. split; [apply Z.div_le_lower_bound; lia|apply Z.div_le_mono; lia].
Qed.

Lemma fat32_step sz_au :
  sz_au = 0 \/ au_ok sz_au ->
  match layout_step e (sz_au, FS_FAT32) with
  | inl a => start_ok a /\ (layout_rank a < layout_rank (sz_au, FS_FAT32))%nat
  | inr (inl fr) => fr = FR_MKFS_ABORTED
  | inr (inr l) => layout_ok e l
  end.
Proof.
  intros Hau. unfold layout_step. fold ss n_fat. set (pau := if sz_au =? 0 then _ else _).
  assert (au_ok pau) as Hp by (unfold pau; cbn [Z.eqb Pos.eqb FS_FAT32]; destruct (Z.eqb_spec sz_au 0); [apply au_select_cst32|tauto]).
  cbn [Z.eqb Pos.eqb FS_FAT32 andb]. clearbody pau. set (pre := e_sz_vol e / pau). bdestr; [done|].
  unfold MAX_FAT16, MAX_FAT32 in *. pose proof ss_cases as Hss.
  set (sz_fat := (pre *u32 4 +u32 8 +u32 ss -u32 1) / ss). assert (sz_fat = (pre * 4 + 8 + ss - 1) / ss) as Ef.
  { unfold sz_fat. rewrite (u32_small (pre * 4)), (u32_small (pre * 4 + 8)), (u32_small (_ + ss)), u32_small by (unfold is_u32; lia). done. }
  assert (1 <= sz_fat <= 2 ^ 22 /\ (pre + 2) * 4 <= sz_fat * ss) as [Hsf Hfit].
  { rewrite Ef. destruct Hss as [E|[E|[E|E]]]; rewrite E; Z.div_mod_to_equations; lia. }
  clearbody sz_fat. pose proof (aligned_sizes FS_FAT32 sz_fat 32 0 ltac:(lia) ltac:(lia) ltac:(lia)) as HA. cbv zeta in HA.
  cbn [Z.eqb Pos.eqb FS_FAT32] in HA. destruct HA as (Hn & Eb & Hr & Ebf & Hf & Es).
  set (n := Z.land _ _ -u32 _) in *. set (b_data := _ +u32 _ +u32 0) in *. clearbody n b_data.
  set (r := 32 +u32 n) in *. set (b := e_b_vol e +u32 32 +u32 n) in *. clearbody r b.
  assert (b_data +u32 pau *u32 16 -u32 e_b_vol e = 32 + sz_fat * n_fat + 0 + pau * 16) as ->.
  { pose proof (au_cases _ Hp). pose proof (eo_n_fat _ He) as Hnf. fold n_fat in Hnf. pose proof (eo_b_vol _ He) as Hv. unfold N_SEC_TRACK in Hv.
    rewrite (u32_small (pau * 16)), (u32_small (b_data + _)), u32_small by (unfold is_u32; nia). lia. }
  bdestr; [done|]. destruct (clusters_left (32 + sz_fat * n_fat + 0) n pau r sz_fat 0 Hn Hp ltac:(lia) ltac:(lia) ltac:(lia) Es ltac:(lia)) as (-> & Hlt & Hc).
  fold pre in Hc. set (nc := (e_sz_vol e - _) / pau) in *. bdestr.
  - destruct (Z.eqb_spec sz_au 0) as [->|]; cbn [andb]; [|done]. destruct (Z.eqb_spec (pau / 2) 0) as [|Hne]; cbn [negb]; [done|].
    split; [split; [right; by apply au_half|by right]|]. unfold layout_rank. cbn [fst snd]. rewrite (proj2 (Z.eqb_neq _ _) Hne). cbn. lia.
  - split; cbn [l_fsty l_pau l_n_clst l_sz_fat l_sz_rsv l_sz_dir l_b_fat]; try done; try lia.
    + fold n_fat. rewrite Es. split; [exact Hlt|reflexivity].
    + split; [lia|]. split; [|unfold MAX_FAT32; lia]. unfold fat_subtype, MAX_FAT12, MAX_FAT16, MAX_FAT32. by repeat (if_false || if_true).
    + fold ss. cbn [Z.eqb Pos.eqb FS_FAT32]. lia.
Qed.

(** The FAT of a layout that is accepted as FAT16 was computed without overflow. *)
Lemma fat16_size pre pau nc sz_fat n sz_dir :
  au_ok pau -> pre = e_sz_vol e / pau -> sz_fat = (pre *u32 2 +u32 4 +u32 ss -u32 1) / ss -> 0 <= n <= 15 -> 0 <= sz_dir <= 2048 ->
  nc = (e_sz_vol e - (1 + sz_fat * n_fat + sz_dir + n)) / pau -> nc <= MAX_FAT16 -> 1 <= nc <= pre ->
  1 <= sz_fat < 2000 /\ (nc + 2) * 2 <= sz_fat * ss.
Proof.
  intros Hp -> Ef Hn Hd -> Hnc Hle. set (pre := e_sz_vol e / pau) in *. unfold MAX_FAT16 in Hnc. pose proof ss_cases as Hss.
  pose proof (eo_n_fat _ He) as Hnf. fold n_fat in Hnf. pose proof (au_cases _ Hp) as Hpc. pose proof (eo_sz_vol _ He) as [Hz0 Hz].
  assert (0 <= sz_fat <= 2 ^ 23) as Hsf.
  { rewrite Ef. pose proof (u32_range (pre *u32 2 +u32 4 +u32 ss - 1)) as Hr. unfold is_u32 in Hr. split; [apply Z.div_pos; lia|].
    apply Z.div_le_upper_bound; [lia|]. destruct Hss as [E|[E|[E|E]]]; rewrite E in *; lia. }
  assert (pre * pau <= e_sz_vol e < (pre + 1) * pau) as Hpre by (unfold pre; clear - Hpc; Z.div_mod_to_equations; lia).
  assert (e_sz_vol e - (1 + sz_fat * n_fat + sz_dir + n) < 65526 * pau) as Hlt.
  { clear - Hnc Hpc. Z.div_mod_to_equations. lia. }
  assert (pre < 2 ^ 26) as Hsmall by nia. assert (sz_fat = (pre * 2 + 4 + ss - 1) / ss) as Ef'.
  { rewrite Ef. rewrite (u32_small (pre * 2)), (u32_small (pre * 2 + 4)), (u32_small (_ + ss)), u32_small by (unfold is_u32; lia). done. }
  assert (pre * 2 + 4 <= sz_fat * ss < pre * 2 + 4 + ss) as Hf.
  { rewrite Ef'. clear - Hss. destruct Hss as [E|[E|[E|E]]]; rewrite E; Z.div_mod_to_equations; lia. }
  set (nc := (e_sz_vol e - (1 + sz_fat * n_fat + sz_dir + n)) / pau) in *.
  split; [|lia]. assert (sz_fat * 512 < pre * 2 + 4 + ss) by (destruct Hss as [E|[E|[E|E]]]; rewrite E in *; lia).
  assert (pre < 65526 + sz_fat * 2 + 2100) by nia. destruct Hss as [E|[E|[E|E]]]; rewrite E in *; lia.
Qed.

Lemma fat16_step sz_au :
  sz_au = 0 \/ au_ok sz_au ->
  match layout_step e (sz_au, FS_FAT16) with
  | inl a => start_ok a /\ (layout_rank a < layout_rank (sz_au, FS_FAT16))%nat
  | inr (inl fr) => fr = FR_MKFS_ABORTED
  | inr (inr l) => layout_ok e l
  end.
Proof.
  intros Hau. unfold layout_step. fold ss n_fat. set (pau := if sz_au =? 0 then _ else _).
  assert (au_ok pau) as Hp by (unfold pau; cbn [Z.eqb Pos.eqb FS_FAT32 FS_FAT16]; destruct (Z.eqb_spec sz_au 0); [apply au_select_cst|tauto]).
  cbn [Z.eqb Pos.eqb FS_FAT32 FS_FAT16]. clearbody pau. set (pre := e_sz_vol e / pau). pose proof ss_cases as Hss. destruct root_size as [Er Hrt].
  rewrite Er. set (sz_dir := e_n_root e * SZDIRE / ss) in *. pose proof (au_cases _ Hp) as Hpc. pose proof (eo_sz_vol _ He) as [Hz0 Hz].
  assert (forall a, a = (pau * 2, FS_FAT16) -> sz_au = 0 -> pau * 2 <= 128 ->
    start_ok a /\ (layout_rank a < layout_rank (sz_au, FS_FAT16))%nat) as Hdouble.
  { intros a -> -> Hle. split; [split; [right; by apply au_double|by left]|]. unfold layout_rank. cbn [fst snd].
    rewrite (proj2 (Z.eqb_neq (pau * 2) 0)) by lia. cbn. lia. }
  assert (0 <= pre) by (apply Z.div_pos; lia). destruct (Z.ltb_spec MAX_FAT12 pre) as [Hbig|Hfew].
  - set (sz_fat := (pre *u32 2 +u32 4 +u32 ss -u32 1) / ss). assert (0 <= sz_fat <= 2 ^ 23) as Hsf.
    { pose proof (u32_range (pre *u32 2 +u32 4 +u32 ss - 1)) as Hr. unfold is_u32 in Hr. split; [apply Z.div_pos; lia|].
      apply Z.div_le_upper_bound; [lia|]. destruct Hss as [E|[E|[E|E]]]; rewrite E in *; lia. }
    cbn [Z.eqb Pos.eqb FS_FAT32 FS_FAT16 andb].
    pose proof (aligned_sizes FS_FAT16 sz_fat 1 sz_dir ltac:(lia) ltac:(lia) ltac:(lia)) as HA. cbv zeta in HA.
    cbn [Z.eqb Pos.eqb FS_FAT32 FS_FAT16 FS_FAT12] in HA |- *. set (b_data := e_b_vol e +u32 1 +u32 _ +u32 sz_dir) in *. set (n := Z.land _ _ -u32 b_data) in *.
    clearbody n. destruct (if negb (n mod n_fat =? 0) then _ else _) as [[r b] f]. destruct HA as (Hn & Eb & Hr & Ebf & Hf & Es).
    assert (b_data +u32 pau *u32 16 -u32 e_b_vol e = 1 + sz_fat * n_fat + sz_dir + pau * 16) as ->.
    { pose proof (eo_n_fat _ He) as Hnf. fold n_fat in Hnf. pose proof (eo_b_vol _ He) as Hv. unfold N_SEC_TRACK in Hv. clearbody b_data.
      rewrite (u32_small (pau * 16)), (u32_small (b_data + _)), u32_small by (unfold is_u32; lia). lia. }
    clearbody b_data. bdestr; [done|].
    destruct (clusters_left (1 + sz_fat * n_fat + sz_dir) n pau r f sz_dir Hn Hp ltac:(lia) ltac:(lia) ltac:(lia) Es ltac:(lia)) as (-> & Hlt & Hc).
    fold pre in Hc. set (nc := (e_sz_vol e - _) / pau) in *.
    rewrite !(u32_small (pau * 2)) by (unfold is_u32; lia). bdestr; [|bdestr].
    + bdestr; [apply Hdouble; [done|lia..]|]. bdestr; [|bdestr; [apply Hdouble; [done|lia..]|done]].
      split; [split; [done|by right]|]. unfold layout_rank. cbn. lia.
    + bdestr; [apply Hdouble; [done|lia..]|done].
    + destruct (fat16_size pre pau nc sz_fat n sz_dir Hp eq_refl eq_refl Hn ltac:(lia) eq_refl ltac:(lia) Hc) as [Hs Hfit].
      split; cbn [l_fsty l_pau l_n_clst l_sz_fat l_sz_rsv l_sz_dir l_b_fat]; try done; try lia.
      * split; [lia|done].
      * fold n_fat. rewrite Es. split; [exact Hlt|reflexivity].
      * unfold fat_subtype, MAX_FAT12, MAX_FAT16, MAX_FAT32 in *. split; [lia|]. split; [|lia]. by repeat (if_false || if_true).
      * fold ss. cbn [Z.eqb Pos.eqb FS_FAT32 FS_FAT16]. nia.
  - set (sz_fat := ((pre *u32 3 +u32 1) / 2 +u32 3 +u32 ss -u32 1) / ss). unfold MAX_FAT12 in Hfew.
    assert (sz_fat = ((pre * 3 + 1) / 2 + 3 + ss - 1) / ss) as Ef.
    { unfold sz_fat. assert (0 <= (pre * 3 + 1) / 2 <= 6144) by (Z.div_mod_to_equations; lia).
      rewrite (u32_small (pre * 3)), (u32_small (pre * 3 + 1)), (u32_small (_ + 3)), (u32_small (_ + ss)), u32_small by (unfold is_u32; lia). done. }
    assert (1 <= sz_fat <= 20 /\ (pre * 3 + 1) / 2 + 3 <= sz_fat * ss) as [Hsf Hfit].
    { rewrite Ef. destruct Hss as [E|[E|[E|E]]]; rewrite E; Z.div_mod_to_equations; lia. }
    clearbody sz_fat. cbn [Z.eqb Pos.eqb FS_FAT32 FS_FAT16 FS_FAT12 andb].
    pose proof (aligned_sizes FS_FAT12 sz_fat 1 sz_dir ltac:(lia) ltac:(lia) ltac:(lia)) as HA. cbv zeta in HA.
    cbn [Z.eqb Pos.eqb FS_FAT32 FS_FAT16 FS_FAT12] in HA |- *. set (b_data := e_b_vol e +u32 1 +u32 _ +u32 sz_dir) in *. set (n := Z.land _ _ -u32 b_data) in *.
    clearbody n. destruct (if negb (n mod n_fat =? 0) then _ else _) as [[r b] f]. destruct HA as (Hn & Eb & Hr & Ebf & Hf & Es).
    assert (b_data +u32 pau *u32 16 -u32 e_b_vol e = 1 + sz_fat * n_fat + sz_dir + pau * 16) as ->.
    { pose proof (eo_n_fat _ He) as Hnf. fold n_fat in Hnf. pose proof (eo_b_vol _ He) as Hv. unfold N_SEC_TRACK in Hv. clearbody b_data.
      rewrite (u32_small (pau * 16)), (u32_small (b_data + _)), u32_small by (unfold is_u32; lia). lia. }
    clearbody b_data. bdestr; [done|].
    destruct (clusters_left (1 + sz_fat * n_fat + sz_dir) n pau r f sz_dir Hn Hp ltac:(lia) ltac:(lia) ltac:(lia) Es ltac:(lia)) as (-> & Hlt & Hc).
    fold pre in Hc. set (nc := (e_sz_vol e - _) / pau) in *.
    unfold MAX_FAT12. if_false. split; cbn [l_fsty l_pau l_n_clst l_sz_fat l_sz_rsv l_sz_dir l_b_fat]; try done; try lia.
    + split; [lia|done].
    + fold n_fat. rewrite Es. split; [exact Hlt|reflexivity].
    + unfold fat_subtype, MAX_FAT12, MAX_FAT16, MAX_FAT32 in *. split; [lia|]. split; [|lia]. by repeat (if_false || if_true).
    + fold ss. cbn [Z.eqb Pos.eqb FS_FAT32 FS_FAT16 FS_FAT12]. assert (((nc + 2) * 3 + 1) / 2 <= (pre * 3 + 1) / 2 + 3) by (Z.div_mod_to_equations; lia). nia.
Qed.

(** The search ends with a layout that fits, or gives up. *)
Lemma find_layout_spec fuel a :
  start_ok a -> (layout_rank a < fuel)%nat ->
  exists r, find_layout fuel e a = Some r /\ match r with inl fr => fr = FR_MKFS_ABORTED | inr l => layout_ok e l end.
Proof.
  revert a. induction fuel as [|fuel IH]; intros [sz_au fsty] [Ha Ht] Hf; [lia|]. cbn [find_layout fst snd] in *.
  assert (match layout_step e (sz_au, fsty) with
    | inl a => start_ok a /\ (layout_rank a < layout_rank (sz_au, fsty))%nat
    | inr (inl fr) => fr = FR_MKFS_ABORTED | inr (inr l) => layout_ok e l end) as Hs by (destruct Ht as [->| ->]; [by apply fat16_step|by apply fat32_step]).
  destruct (layout_step e (sz_au, fsty)) as [a|r]; [|by exists r; destruct r]. destruct Hs as [Hs Hr]. apply IH; [done|lia].
Qed.
End round.
