(* ===== verification/MkfsRecords.v ===== *)
(** * The boot records that [f_mkfs] writes

    The fields of the boot record of a FAT volume and of the partition table, as they are
    read back. *)

From stdpp Require Import prelude list.
From Stdlib Require Import ZArith Lia.
From S2P Require Import Prelude Bytes Diskio FFTypes Window Fat Dir Dirent Mount Mkfs MkfsLayout.

Local Open Scope Z_scope.
Local Open Scope cint_scope.

(** ** Fields of a buffer *)

(** The lists agree on [n] elements from [p] on. *)
Definition same_at (l k : list Z) (p n : Z) : Prop := forall i, p <= i < p + n -> l.[i] = k.[i].

Lemma same_st_bytes n l q v p m : 0 <= q -> 0 <= p -> p + m <= q \/ q + Z.of_nat n <= p -> same_at (st_bytes n l q v) l p m.
Proof. intros Hq Hp Ho i Hi. apply getb_st_bytes_out; lia. Qed.

Lemma same_setb l q v p m : 0 <= q -> 0 <= p -> p + m <= q \/ q + 1 <= p -> same_at (setb l q v) l p m.
Proof. intros Hq Hp Ho i Hi. apply getb_setb_ne; lia. Qed.

Lemma same_blit l q k p m : 0 <= q -> 0 <= p -> q + zlen k <= zlen l -> p + m <= q \/ q + zlen k <= p -> same_at (blit l q k) l p m.
Proof. intros Hq Hp Hl Ho i Hi. rewrite getb_blit by lia. pose proof (zlen_nonneg k). destruct (Z.leb_spec q i), (Z.ltb_spec i (q + zlen k)); cbn [andb]; try done; lia. Qed.

Lemma ld_word_same l k p : same_at l k p 2 -> ld_word l p = ld_word k p.
Proof. intros Hs. unfold ld_word. by rewrite !Hs by lia. Qed.

Lemma ld_dword_same l k p : same_at l k p 4 -> ld_dword l p = ld_dword k p.
Proof. intros Hs. unfold ld_dword. by rewrite !Hs by lia. Qed.

Lemma getb_same l k p : same_at l k p 1 -> l.[p] = k.[p].
Proof. intros Hs. apply Hs. lia. Qed.

(** Buffers of bytes whose length is known: stores keep them. *)
Definition buf_ok (l : list Z) (n : Z) : Prop := bytes l /\ zlen l = n.

Lemma buf_st_bytes k l n p v : buf_ok l n -> buf_ok (st_bytes k l p v) n.
Proof. intros [Hb Hl]. split; [by apply bytes_st_bytes|]. unfold zlen in *. by rewrite length_st_bytes. Qed.
Lemma buf_setb l n p v : buf_ok l n -> is_u8 v -> buf_ok (setb l p v) n.
Proof. intros [Hb Hl] Hv. split; [by apply bytes_setb|]. unfold zlen in *. by rewrite length_setb. Qed.
Lemma buf_blit l n p k : buf_ok l n -> bytes k -> 0 <= p -> p + zlen k <= n -> buf_ok (blit l p k) n.
Proof. intros [Hb Hl] Hk Hp Hn. split; [by apply bytes_blit|]. unfold zlen in *. rewrite length_blit; [done|lia|]. unfold zlen. lia. Qed.

Lemma same_blit_ok l n q k p m :
  buf_ok l n -> 0 <= q -> 0 <= p -> q + zlen k <= n -> p + m <= q \/ q + zlen k <= p -> same_at (blit l q k) l p m.
Proof. intros [_ <-]. apply same_blit. Qed.

Lemma bytes_zeros n : bytes (zeros n).
Proof. apply Forall_replicate. unfold is_u8. lia. Qed.

Lemma bytes_lit l : forallb (fun x => (0 <=? x) && (x <? 256)) l = true -> bytes l.
Proof. intros Hf. apply Forall_forall. intros x Hx. rewrite forallb_forall in Hf. apply list_elem_of_In, Hf in Hx. unfold is_u8. bprop. lia. Qed.

(** The offsets of the fields. *)
Ltac unfold_ofs :=
  unfold BS_JmpBoot, BS_55AA, BPB_BytsPerSec, BPB_SecPerClus, BPB_RsvdSecCnt, BPB_NumFATs, BPB_RootEntCnt, BPB_TotSec16, BPB_TotSec32,
    BPB_FATSz16, BPB_FATSz32, BPB_FSVer32, BPB_RootClus32, BPB_FSInfo32, BPB_BkBootSec32, BPB_Media, BPB_SecPerTrk, BPB_NumHeads, BPB_HiddSec,
    BS_DrvNum, BS_BootSig, BS_VolID, BS_VolLab, BS_DrvNum32, BS_BootSig32, BS_VolID32, BS_VolLab32, BS_FilSysType32,
    FSI_LeadSig, FSI_StrucSig, FSI_Free_Count, FSI_Nxt_Free in *.

(** Closes [buf_ok] of a sequence of stores. *)
Ltac bufs :=
  repeat first
    [ eassumption
    | apply buf_st_bytes
    | apply buf_setb; [|first [assumption | apply u8_range | unfold is_u8; lia]]
    | apply buf_blit; [|first [apply bytes_zeros | by apply bytes_lit]|unfold zlen; cbn; lia|rewrite ?zlen_zeros by lia; unfold zlen; cbn; lia] ].

Ltac small := first [assumption | apply u16_range | apply u32_range | unfold is_u8, is_u16, is_u32; lia].

(** Goes past the stores to other elements. *)
Ltac past_store lem :=
  erewrite lem;
  [| first [ eapply same_st_bytes; cbn; lia
           | eapply same_setb; cbn; lia
           | match goal with H : buf_ok _ ?n |- _ => eapply (same_blit_ok _ n) end; [bufs|cbn; lia|cbn; lia|unfold zlen; cbn; lia|unfold zlen; cbn; lia] ] ].
Ltac past_stores :=
  repeat first [past_store ld_word_same | past_store ld_dword_same | past_store getb_same].

Lemma ld_word_stored l n p v : buf_ok l n -> 0 <= p -> p + 2 <= n -> is_u16 v -> ld_word (st_word l p v) p = v.
Proof. intros [Hb Hl] Hp Hn Hv. rewrite ld_st_word by (done || lia). by apply u16_small. Qed.
Lemma ld_dword_stored l n p v : buf_ok l n -> 0 <= p -> p + 4 <= n -> is_u32 v -> ld_dword (st_dword l p v) p = v.
Proof. intros [Hb Hl] Hp Hn Hv. rewrite ld_st_dword by (done || lia). by apply u32_small. Qed.
Lemma getb_stored l n p v : buf_ok l n -> 0 <= p < n -> (setb l p v).[p] = v.
Proof. intros [_ Hl] Hp. apply getb_setb_eq. lia. Qed.
Lemma getb_copied l n q k p : buf_ok l n -> 0 <= q -> q + zlen k <= n -> q <= p < q + zlen k -> (blit l q k).[p] = k.[p - q].
Proof. intros [_ Hl] Hq Hn Hp. rewrite getb_blit by lia. by rewrite (proj2 (Z.leb_le q p)), (proj2 (Z.ltb_lt p _)) by lia. Qed.

(** A literal that was stored. *)
Lemma sub_lit l n p k : buf_ok l n -> 0 <= p -> p + zlen k <= n -> (forall i, 0 <= i < zlen k -> l.[p + i] = k.[i]) -> sub l p (zlen k) = k.
Proof.
  intros [_ Hl] Hp Hn Hk. unfold sub, zlen in *. apply list_eq. intros i. destruct (decide (i < List.length k)%nat) as [Hi|Hi].
  - rewrite lookup_take_lt, lookup_drop by lia. specialize (Hk (Z.of_nat i) ltac:(lia)). unfold getb in Hk.
    destruct (lookup_lt_is_Some_2 k i Hi) as [v Ev]. destruct (lookup_lt_is_Some_2 l (Z.to_nat p + i)) as [v' Ev']; [lia|].
    rewrite Ev, Ev'. f_equal. rewrite !nth_lookup in Hk. replace (Z.to_nat (p + Z.of_nat i)) with (Z.to_nat p + i)%nat in Hk by lia.
    rewrite Nat2Z.id, Ev, Ev' in Hk. done.
  - rewrite !lookup_ge_None_2; [done|lia|]. rewrite length_take, length_drop. lia.
Qed.

(** ** The boot record of a FAT volume *)

Record vbr_fields (e : mkfs_env) (l : fat_layout) (w : list Z) : Prop := {
  vf_jump : w.[BS_JmpBoot] = 0xEB /\ w.[1] = 0xFE;
  vf_sign : ld_word w BS_55AA = 0xAA55;
  vf_ss : ld_word w BPB_BytsPerSec = e_ss e;
  vf_clus : w.[BPB_SecPerClus] = l_pau l;
  vf_rsv : ld_word w BPB_RsvdSecCnt = l_sz_rsv l;
  vf_fats : w.[BPB_NumFATs] = e_n_fat e;
  vf_root : ld_word w BPB_RootEntCnt = if l_fsty l =? FS_FAT32 then 0 else e_n_root e;
  vf_sects16 : ld_word w BPB_TotSec16 = if e_sz_vol e <? 0x10000 then e_sz_vol e else 0;
  vf_sects32 : ld_dword w BPB_TotSec32 = if e_sz_vol e <? 0x10000 then 0 else e_sz_vol e;
  vf_fat16 : ld_word w BPB_FATSz16 = if l_fsty l =? FS_FAT32 then 0 else l_sz_fat l;
  vf_fat32 : l_fsty l = FS_FAT32 ->
    ld_dword w BPB_FATSz32 = l_sz_fat l /\ ld_word w BPB_FSVer32 = 0 /\ ld_dword w BPB_RootClus32 = 2 /\
    sub w BS_FilSysType32 8 = fat32_sign
}.

Lemma sz_dir_nonneg e l : env_ok e -> layout_ok e l -> 0 <= l_sz_dir l.
Proof.
  intros He Hl. rewrite (lo_dir _ _ Hl). case_match; [done|]. destruct (sect_size_bounds _ (eo_ss _ He)), (eo_n_root _ He). apply Z.div_pos; [unfold SZDIRE; lia|lia].
Qed.

Section vbr.
Context (e : mkfs_env) (l : fat_layout) (vsn n : Z) (buf : list Z).
Hypothesis He : env_ok e.
Hypothesis Hl : layout_ok e l.
Hypothesis Hb : buf_ok buf n.
Hypothesis Hn : e_ss e <= n.

Let b0 := blit buf 0 (zeros (e_ss e)).

Lemma vbr_cleared : buf_ok b0 n /\ forall p, 0 <= p < e_ss e -> b0.[p] = 0.
Proof.
  destruct (sect_size_bounds _ (eo_ss _ He)) as [Hs _]. unfold b0. split; [bufs; rewrite zlen_zeros by lia; lia|]. intros p Hp. destruct Hb as [_ E].
  rewrite getb_blit by (rewrite ?zlen_zeros by lia; lia). destruct (_ && _) eqn:E1; [apply getb_zeros|]. rewrite zlen_zeros in E1 by lia. bprop. lia.
Qed.

Lemma fat_vbr_ok : buf_ok (fat_vbr e l vsn buf) n.
Proof.
  destruct vbr_cleared as [H0 _]. destruct (sect_size_bounds _ (eo_ss _ He)) as [Hs _]. unfold fat_vbr. fold b0. clearbody b0. unfold_ofs.
  destruct (e_sz_vol e <? 0x10000), (l_fsty l =? FS_FAT32); bufs.
Qed.

(** Reads of the cleared sector. *)
Lemma cleared_word p : 0 <= p -> p + 2 <= e_ss e -> ld_word b0 p = 0.
Proof. intros Hp Hs. unfold ld_word. destruct vbr_cleared as [_ H0]. by rewrite !H0 by lia. Qed.
Lemma cleared_dword p : 0 <= p -> p + 4 <= e_ss e -> ld_dword b0 p = 0.
Proof. intros Hp Hs. unfold ld_dword. destruct vbr_cleared as [_ H0]. by rewrite !H0 by lia. Qed.

Lemma fat_vbr_fields : vbr_fields e l (fat_vbr e l vsn buf).
Proof.
  destruct vbr_cleared as [H0 _]. destruct (sect_size_bounds _ (eo_ss _ He)) as [Hs Hs']. pose proof cleared_word as Cw. pose proof cleared_dword as Cd.
  unfold fat_vbr. fold b0. clearbody b0. pose proof (au_cases _ (lo_pau _ _ Hl)) as Hp. destruct (lo_fat _ _ Hl) as [Hf1 Hf2].
  destruct (lo_rsv _ _ Hl) as [Hr _]. destruct (eo_n_root _ He) as [Hrt _]. pose proof (eo_n_fat _ He) as Hnf. destruct (eo_sz_vol _ He) as [Hv1 Hv2].
  pose proof (eo_b_vol _ He) as Hbv. destruct (lo_clst _ _ Hl) as [Hsys _]. pose proof (sz_dir_nonneg _ _ He Hl).
  assert (is_u32 (l_sz_fat l)) by (unfold is_u32; nia).
  unfold_ofs. split; unfold_ofs.
  - split; destruct (e_sz_vol e <? 0x10000), (l_fsty l =? FS_FAT32); past_stores; (rewrite (getb_copied _ n); [|bufs|lia|unfold zlen; cbn; lia|unfold zlen; cbn; lia]); done.
  - destruct (e_sz_vol e <? 0x10000), (l_fsty l =? FS_FAT32); past_stores; (rewrite (ld_word_stored _ n); [done|bufs|lia|lia|small]).
  - destruct (e_sz_vol e <? 0x10000), (l_fsty l =? FS_FAT32); past_stores; (rewrite (ld_word_stored _ n); [done|bufs|lia|lia|small]).
  - destruct (e_sz_vol e <? 0x10000), (l_fsty l =? FS_FAT32); past_stores; (rewrite (getb_stored _ n); [apply u8_small; small|bufs|lia]).
  - destruct (e_sz_vol e <? 0x10000), (l_fsty l =? FS_FAT32); past_stores; (rewrite (ld_word_stored _ n); [apply u16_small; small|bufs|lia|lia|small]).
  - destruct (e_sz_vol e <? 0x10000), (l_fsty l =? FS_FAT32); past_stores; (rewrite (getb_stored _ n); [apply u8_small; small|bufs|lia]).
  - destruct (e_sz_vol e <? 0x10000), (l_fsty l =? FS_FAT32); past_stores; (rewrite (ld_word_stored _ n); [apply u16_small; small|bufs|lia|lia|small]).
  - destruct (Z.ltb_spec (e_sz_vol e) 0x10000), (l_fsty l =? FS_FAT32); past_stores;
      first [rewrite (ld_word_stored _ n); [apply u16_small; small|bufs|lia|lia|small] | apply Cw; lia].
  - destruct (Z.ltb_spec (e_sz_vol e) 0x10000), (l_fsty l =? FS_FAT32); past_stores;
      first [rewrite (ld_dword_stored _ n); [done|bufs|lia|lia|small] | apply Cd; lia].
  - destruct (e_sz_vol e <? 0x10000), (Z.eqb_spec (l_fsty l) FS_FAT32) as [|Hne]; past_stores;
      first [rewrite (ld_word_stored _ n); [apply u16_small; unfold is_u16; specialize (Hf2 Hne); lia|bufs|lia|lia|small] | apply Cw; lia].
  - intros ->. cbn [Z.eqb Pos.eqb FS_FAT32]. split_and!.
    + destruct (e_sz_vol e <? 0x10000); past_stores; (rewrite (ld_dword_stored _ n); [done|bufs|lia|lia|small]).
    + destruct (e_sz_vol e <? 0x10000); past_stores; apply Cw; lia.
    + destruct (e_sz_vol e <? 0x10000); past_stores; (rewrite (ld_dword_stored _ n); [done|bufs|lia|lia|small]).
    + change 8 with (zlen fat32_sign) at 1. apply (sub_lit _ n); [destruct (e_sz_vol e <? 0x10000); bufs|lia|unfold zlen; cbn; lia|]. intros i Hi. change (zlen fat32_sign) with 8 in Hi.
      assert (i = 0 \/ i = 1 \/ i = 2 \/ i = 3 \/ i = 4 \/ i = 5 \/ i = 6 \/ i = 7) as Hi' by lia.
      destruct Hi' as [->|[->|[->|[->|[->|[->|[->| ->]]]]]]]; cbn [Z.add Pos.add Pos.succ]; destruct (e_sz_vol e <? 0x10000); past_stores;
        (rewrite (getb_copied _ n); [done|bufs|lia|unfold zlen; cbn; lia|unfold zlen; cbn; lia]).
Qed.
End vbr.

(** ** The partition table *)

Record mbr_fields (w : list Z) : Prop := {
  mf_jump : w.[BS_JmpBoot] = 0;
  mf_sign : ld_word w BS_55AA = 0xAA55;
  mf_first : ld_dword w (MBR_Table + 0 * SZ_PTE + PTE_StLba) = N_SEC_TRACK;
  mf_rest : forall i, 1 <= i <= 3 -> ld_dword w (MBR_Table + i * SZ_PTE + PTE_StLba) = 0
}.

Lemma mbr_sector_fields buf n sys sz_vol :
  buf_ok buf n -> FF_MAX_SS <= n -> is_u8 sys -> 128 <= sz_vol -> N_SEC_TRACK + sz_vol < 2 ^ 32 ->
  buf_ok (mbr_sector [sz_vol; 0] sys buf (N_SEC_TRACK + sz_vol)) n /\ mbr_fields (mbr_sector [sz_vol; 0] sys buf (N_SEC_TRACK + sz_vol)).
Proof.
  unfold N_SEC_TRACK, FF_MAX_SS. intros Hb Hn Hsys Hv Hv'. unfold mbr_sector, N_SEC_TRACK, FF_MAX_SS. rewrite (u32_small (63 + sz_vol)) by (unfold is_u32; lia).
  set (n_hd := if _ =? 0 then 255 else _). clearbody n_hd. set (b0 := blit buf 0 (zeros 4096)).
  assert (buf_ok b0 n) as H0 by (unfold b0; bufs; rewrite zlen_zeros by lia; lia).
  assert (forall p, 0 <= p < 4096 -> b0.[p] = 0) as Hz.
  { intros p Hp. unfold b0. rewrite (getb_copied _ n); [apply getb_zeros|done|lia|rewrite zlen_zeros; lia|rewrite zlen_zeros; lia]. }
  clearbody b0. change (take 4 [sz_vol; 0]) with [sz_vol; 0]. cbn [part_entries]. if_false. rewrite (u32_small sz_vol) by (unfold is_u32; lia). if_false.
  rewrite !(u32_small (63 + sz_vol)) by (unfold is_u32; lia). if_false. if_false. rewrite !(u32_small (63 + sz_vol)) by (unfold is_u32; lia). if_true.
  unfold st_chs, MBR_Table, PTE_StLba, PTE_SizLba, PTE_System, PTE_StHead, PTE_EdHead, SZ_PTE, BS_55AA, BS_JmpBoot. cbn [Z.add Pos.add Pos.succ Pos.add_carry].
  split; [bufs|]. split; unfold MBR_Table, PTE_StLba, SZ_PTE, BS_55AA, BS_JmpBoot, N_SEC_TRACK.
  - past_stores. by apply Hz.
  - by rewrite (ld_word_stored _ n); [|bufs|lia|lia|small].
  - change (446 + 0 * 16 + 8) with 454. past_stores. by rewrite (ld_dword_stored _ n); [|bufs|lia|lia|small].
  - intros i Hi. assert (i = 1 \/ i = 2 \/ i = 3) as Hi' by lia.
    destruct Hi' as [->|[->| ->]];
      [change (446 + 1 * 16 + 8) with 470|change (446 + 2 * 16 + 8) with 486|change (446 + 3 * 16 + 8) with 502];
      past_stores; unfold ld_dword; cbn [Z.add Pos.add Pos.succ]; by rewrite !Hz by lia.
Qed.
