(* ===== verification/MkfsWrite.v ===== *)
(** * What [f_mkfs] leaves on the medium

    The sectors of a FAT volume after [create_fat_volume]: boot record, tables and root
    directory; and that nothing outside of the volume is written. *)

From stdpp Require Import prelude list.
From Stdlib Require Import ZArith Lia.
From S2P Require Import Prelude Bytes Diskio FFTypes Window Fat Dir Dirent Mount Mkfs MkfsLayout MkfsRecords.

Local Open Scope Z_scope.
Local Open Scope cint_scope.

Section write.
Context {D : Type} `{BlockDeviceLaws D} `{!Heap}.
Implicit Types s : St D.

(** Only the sectors from [a] to [b] may differ. *)
Definition touches s s' (a b : Z) : Prop :=
  fsys s' = fsys s /\ sector_size (dev s') = sector_size (dev s) /\
  forall y, 0 <= y -> ~ (a <= y < b) -> medium (dev s') y = medium (dev s) y.

Lemma touches_refl s a b : touches s s a b.
Proof. by split_and!. Qed.

Lemma touches_trans s1 s2 s3 a b c d l h :
  touches s1 s2 a b -> touches s2 s3 c d -> l <= a -> b <= h -> l <= c -> d <= h -> touches s1 s3 l h.
Proof.
  intros (F1 & S1 & M1) (F2 & S2 & M2) ????. split_and!; [congruence..|]. intros y Hy Hn. rewrite M2 by lia. apply M1; lia.
Qed.

Lemma touches_wider s s' a b l h : touches s s' a b -> l <= a -> b <= h -> touches s s' l h.
Proof. intros Ht Ha Hb. eapply touches_trans; [done|apply (touches_refl _ a b)|lia..]. Qed.

Lemma post_write_buf s buf x n (Q : DRESULT -> St D -> Prop) :
  0 <= x -> 0 < n -> n * sector_size (dev s) <= zlen buf -> bytes buf ->
  (forall r s', touches s s' x (x + n) ->
     (r = RES_OK -> forall y, x <= y < x + n -> medium (dev s') y = sub buf ((y - x) * sector_size (dev s)) (sector_size (dev s))) -> Q r s') ->
  post (do_write buf x n) s Q.
Proof.
  intros Hx Hn Hl Hb HQ. unfold post, do_write. destruct (disk_write _ _ _ _) as [r d'] eqn:E.
  pose proof E as [Hs Hf]%write_frame; [|lia..]. apply HQ; [by split_and!|]. intros -> y Hy. by apply (write_ok _ _ _ _ _ _ Hx Hn Hl Hb E Hy).
Qed.

(** The buffer is zero from [k] on. *)
Definition zero_from (buf : list Z) (k n : Z) : Prop := forall i, k <= i < n -> buf.[i] = 0.

Lemma sub_zero_from buf N k n a m : buf_ok buf N -> zero_from buf k n -> 0 <= k <= a -> 0 <= m -> a + m <= n -> n <= N -> sub buf a m = zeros m.
Proof.
  intros Hb Hz Ha Hm Hn Hl. assert (zlen (zeros m) = m) as Em by (by apply zlen_zeros). rewrite <- Em at 1.
  apply (sub_lit _ N); [done|lia|lia|]. intros i Hi. rewrite getb_zeros. apply Hz. lia.
Qed.

(** ** Filling sectors *)

Section fill.
Context (ss sz_buf N : Z).
Hypothesis Hss : 0 < ss.
Hypothesis Hsz : 1 <= sz_buf.
Hypothesis HN : sz_buf * ss <= N.

(** The first sector is [head], the others are zero. *)
Definition filled (m : Z -> list Z) (head : list Z) (a b : Z) : Prop :=
  forall y, a <= y < b -> m y = if y =? a then head else zeros ss.

Lemma clear_first buf k : buf_ok buf N -> zero_from buf ss (sz_buf * ss) -> ss <= N ->
  buf_ok (blit buf 0 (zeros ss)) N /\ zero_from (blit buf 0 (zeros ss)) k (sz_buf * ss) \/ k < 0.
Proof.
  intros Hb Hz Hle. destruct (decide (0 <= k)) as [Hk|]; [left|lia]. assert (0 + zlen (zeros ss) <= N) by (rewrite zlen_zeros; lia). split; [by apply buf_blit; [|apply bytes_zeros|..]|].
  intros i Hi. destruct Hb as [_ El]. rewrite getb_blit by (rewrite ?El; lia). destruct (_ && _) eqn:E; [apply getb_zeros|].
  apply Hz. rewrite zlen_zeros in E by lia. bprop. lia.
Qed.

Lemma fill_sectors_spec clear s buf sect nsect :
  sector_size (dev s) = ss -> buf_ok buf N -> zero_from buf ss (sz_buf * ss) -> (clear = false -> zero_from buf 0 (sz_buf * ss)) ->
  0 <= sect -> 1 <= nsect -> sect + nsect < 2 ^ 32 ->
  post (fill_sectors clear ss sz_buf buf sect nsect) s (fun r s' =>
    touches s s' sect (sect + nsect) /\
    match r with
    | None => True
    | Some (buf', sect') => sect' = sect + nsect /\ buf_ok buf' N /\ zero_from buf' 0 (sz_buf * ss) /\
        filled (medium (dev s')) (sub buf 0 ss) sect (sect + nsect)
    end).
Proof.
  intros Es Hb Hz Hcl Hs Hn He. unfold fill_sectors. pose proof (Z.mul_le_mono_nonneg_r 1 sz_buf ss ltac:(lia) Hsz) as Hle.
  apply (post_iterate (fill_step clear ss sz_buf) (fun '(buf', x, m) k s' => exists j, k = nsect - j /\ 0 <= j < nsect /\ x = sect + j /\ m = nsect - j /\
    buf_ok buf' N /\ (j = 0 /\ buf' = buf \/ 0 < j /\ zero_from buf' 0 (sz_buf * ss)) /\ touches s s' sect (sect + j) /\
    filled (medium (dev s')) (sub buf 0 ss) sect (sect + j))) with (k := nsect).
  - intros [[b x] m] k s1 (j & -> & Hj & -> & -> & Hbo & Hbz & Ht & Hf). unfold fill_step. set (n := if sz_buf <? nsect - j then _ else _).
    assert (1 <= n <= nsect - j /\ n <= sz_buf) as [Hn1 Hn2] by (unfold n; destruct (Z.ltb_spec sz_buf (nsect - j)); lia). clearbody n.
    assert (sector_size (dev s1) = ss) as Es1 by (destruct Ht as (_ & -> & _); done). mstep.
    apply post_write_buf; [lia|lia| |apply Hbo|]; rewrite ?Es1. { destruct Hbo as [_ ->]. nia. }
    intros r s2 Ht2 Hw. assert (touches s s2 sect (sect + nsect)) as Ht3 by (eapply touches_trans; [exact Ht|exact Ht2|lia..]).
    destruct r; cbn [res_ok negb]; try (mstep; done). specialize (Hw eq_refl). rewrite (u32_small (sect + j + n)) by (unfold is_u32; lia).
    rewrite (u32_small (nsect - j - n)) by (unfold is_u32; lia).
    assert (zero_from b ss (sz_buf * ss)) as Hz1 by (destruct Hbz as [[_ ->]|[_ Hbz]]; [done|intros i Hi; apply Hbz; lia]).
    assert (buf_ok (if clear then blit b 0 (zeros ss) else b) N /\ zero_from (if clear then blit b 0 (zeros ss) else b) 0 (sz_buf * ss)) as [Hbo2 Hz2].
    { destruct clear. { destruct (clear_first b 0 Hbo Hz1 ltac:(lia)) as [?|?]; [done|lia]. }
      split; [done|]. destruct Hbz as [[_ ->]|[_ Hbz]]; auto. }
    assert (filled (medium (dev s2)) (sub buf 0 ss) sect (sect + (j + n))) as Hf2.
    { intros y Hy. destruct (decide (y < sect + j)) as [Hlt|Hge].
      - destruct Ht2 as (_ & _ & M2). rewrite M2 by lia. apply Hf. lia.
      - rewrite Hw by lia. destruct Hbz as [[-> ->]|[Hj0 Hbz]].
        + destruct (Z.eqb_spec y sect) as [->|Hne]; [by replace ((sect - (sect + 0)) * ss) with 0 by lia|].
          apply (sub_zero_from _ N ss (sz_buf * ss)); [done|done|nia..].
        + rewrite (proj2 (Z.eqb_neq y sect)) by lia. apply (sub_zero_from _ N 0 (sz_buf * ss)); [done|done|nia..]. }
    bdestr; mstep.
    + exists (nsect - (j + n)). split; [lia|]. exists (j + n). split_and!; try lia; try done; [right; split; [lia|done]|].
      eapply touches_trans; [exact Ht|exact Ht2|lia..].
    + split; [exact Ht3|]. split_and!; try done; [lia|]. by replace nsect with (j + n) by lia.
  - exists 0. rewrite Z.add_0_r, Z.sub_0_r. split_and!; try done; try lia; [by left|]. intros y Hy. lia.
  - lia.
Qed.

(** ** The tables *)

Hypothesis Hss512 : 512 <= ss.

(** The first sector of a FAT. *)
Definition fat_first (fsty : Z) : list Z := fat_head fsty (zeros ss).

Lemma fat_head_app fsty r : fat_head fsty (zeros 12 ++ r) = fat_head fsty (zeros 12) ++ r.
Proof. unfold fat_head. destruct (fsty =? FS_FAT32); [done|]. by destruct (fsty =? FS_FAT12). Qed.

Lemma zero_prefix buf n : buf_ok buf N -> zero_from buf 0 n -> 12 <= n <= N -> buf = zeros 12 ++ drop 12 buf.
Proof.
  intros Hb Hz Hn. rewrite <- (take_drop 12 buf) at 1. f_equal. change (take 12 buf) with (sub buf 0 12).
  by apply (sub_zero_from _ N 0 n); [done|done|lia..].
Qed.

Lemma fat_head_len fsty : zlen (fat_head fsty (zeros 12)) = 12.
Proof. unfold fat_head. destruct (fsty =? FS_FAT32); [done|]. by destruct (fsty =? FS_FAT12). Qed.

Lemma fat_first_app fsty : fat_first fsty = fat_head fsty (zeros 12) ++ zeros (ss - 12).
Proof.
  unfold fat_first. assert (zeros ss = zeros 12 ++ zeros (ss - 12)) as ->; [|apply fat_head_app].
  unfold zeros. rewrite <- replicate_add. f_equal. lia.
Qed.

Lemma fat_head_ok fsty buf : buf_ok buf N -> zero_from buf 0 (sz_buf * ss) ->
  buf_ok (fat_head fsty buf) N /\ zero_from (fat_head fsty buf) ss (sz_buf * ss) /\ sub (fat_head fsty buf) 0 ss = fat_first fsty.
Proof.
  intros Hb Hz. pose proof (Z.mul_le_mono_nonneg_r 1 sz_buf ss ltac:(lia) Hsz) as Hle. pose proof (zero_prefix buf _ Hb Hz ltac:(lia)) as Eb.
  pose proof (fat_head_len fsty) as E12. unfold zlen in E12.
  assert (forall i, 12 <= i -> (fat_head fsty buf).[i] = buf.[i]) as Hi.
  { intros i Hi. rewrite Eb at 1. rewrite fat_head_app. unfold getb. rewrite app_nth2 by lia. rewrite Eb at 2. rewrite app_nth2 by (change (length (zeros 12)) with 12%nat; lia).
    change (length (zeros 12)) with 12%nat. by replace (length (fat_head fsty (zeros 12))) with 12%nat by lia. }
  split; [|split].
  - unfold fat_head. destruct (fsty =? FS_FAT32); bufs.
  - intros i Hi'. rewrite Hi by lia. apply Hz. lia.
  - rewrite fat_first_app, Eb, fat_head_app. unfold sub. rewrite drop_0. rewrite take_app_ge by (clear -E12 Hss512; lia). f_equal.
    assert (drop 12 buf = sub buf 12 (N - 12)) as -> by (destruct Hb as [_ Hl]; unfold sub; rewrite take_ge; [done|rewrite length_drop; unfold zlen in Hl; lia]).
    unfold sub. rewrite take_take. replace (Z.to_nat ss - _)%nat with (Z.to_nat (ss - 12)) by lia.
    rewrite Nat.min_l by lia. change (take (Z.to_nat (ss - 12)) (drop (Z.to_nat 12) buf)) with (sub buf 12 (ss - 12)).
    apply (sub_zero_from _ N 0 (sz_buf * ss)); [done|done|lia..].
Qed.

Lemma write_fats_spec n fsty sz_fat s buf sect :
  sector_size (dev s) = ss -> buf_ok buf N -> zero_from buf 0 (sz_buf * ss) ->
  0 <= sect -> 1 <= sz_fat -> sect + Z.of_nat n * sz_fat < 2 ^ 32 ->
  post (write_fats n fsty ss sz_buf sz_fat buf sect) s (fun r s' =>
    touches s s' sect (sect + Z.of_nat n * sz_fat) /\
    match r with
    | None => True
    | Some (buf', sect') => sect' = sect + Z.of_nat n * sz_fat /\ buf_ok buf' N /\ zero_from buf' 0 (sz_buf * ss) /\
        forall i, 0 <= i < Z.of_nat n -> filled (medium (dev s')) (fat_first fsty) (sect + i * sz_fat) (sect + (i + 1) * sz_fat)
    end).
Proof.
  revert s buf sect. induction n as [|n IH]; intros s buf sect Es Hb Hz Hs Hn He; cbn [write_fats].
  { mstep. split; [apply touches_refl|]. split_and!; try done; lia. }
  destruct (fat_head_ok fsty buf Hb Hz) as (Hb1 & Hz1 & Eh). mstep. eapply post_mono.
  { apply (fill_sectors_spec true); [done|exact Hb1|exact Hz1|done|lia|lia|nia]. }
  intros [[b1 x1]|] s1 [Ht Hr]; [|mstep; split; [|done]; eapply touches_wider; [exact Ht|lia|nia]].
  destruct Hr as (-> & Hb2 & Hz2 & Hf). eapply post_mono.
  { apply IH; [by destruct Ht as (_ & -> & _)|done|done|lia|lia|lia]. }
  intros r s2 [Ht2 Hr]. split; [eapply touches_trans; [exact Ht|exact Ht2|nia..]|]. destruct r as [[b3 x3]|]; [|done].
  destruct Hr as (-> & Hb3 & Hz3 & Hf3). split_and!; try done; [lia|]. intros i Hi. destruct (decide (i = 0)) as [->|].
  - rewrite Z.mul_0_l, Z.add_0_r, Z.add_0_l, Z.mul_1_l, <- Eh. intros y Hy. destruct Ht2 as (_ & _ & M2). rewrite M2 by lia. by apply Hf.
  - specialize (Hf3 (i - 1) ltac:(lia)). replace (sect + sz_fat + (i - 1) * sz_fat) with (sect + i * sz_fat) in Hf3 by lia.
    by replace (sect + sz_fat + (i - 1 + 1) * sz_fat) with (sect + (i + 1) * sz_fat) in Hf3 by lia.
Qed.
End fill.

(** ** A FAT volume *)

Record fat_written (e : mkfs_env) (l : fat_layout) (m : Z -> list Z) : Prop := {
  fw_vbr : exists w n, buf_ok w n /\ e_ss e <= n /\ vbr_fields e l w /\ m (e_b_vol e) = sub w 0 (e_ss e);
  fw_fats : forall i, 0 <= i < e_n_fat e ->
    filled (e_ss e) m (fat_first (e_ss e) (l_fsty l)) (l_b_fat l + i * l_sz_fat l) (l_b_fat l + (i + 1) * l_sz_fat l);
  fw_root : let first := l_b_fat l + e_n_fat e * l_sz_fat l in
    forall y, first <= y < first + (if l_fsty l =? FS_FAT32 then l_pau l else l_sz_dir l) -> m y = zeros (e_ss e)
}.

Lemma fat_written_ext e l m m' : fat_written e l m -> (forall y, m' y = m y) -> fat_written e l m'.
Proof.
  intros [(w & n & W) F R] Em. split; [exists w, n; by rewrite Em|intros i Hi y Hy; rewrite Em; by apply (F i Hi)|intros first y Hy; rewrite Em; by apply R].
Qed.

(** The areas of a layout are within the volume. *)
Lemma layout_areas e l : env_ok e -> layout_ok e l ->
  let first := l_b_fat l + e_n_fat e * l_sz_fat l in
  first + l_sz_dir l + l_pau l <= e_b_vol e + e_sz_vol e /\ e_b_vol e < l_b_fat l /\ (l_fsty l = FS_FAT32 -> e_b_vol e + 32 <= l_b_fat l).
Proof.
  intros He Hl first. destruct (lo_clst _ _ Hl) as [Hlt Ec]. destruct (lo_type _ _ Hl) as [Hc _]. destruct (lo_rsv _ _ Hl) as [Hr1 Hr2].
  unfold first. rewrite (lo_base _ _ Hl). pose proof (au_cases _ (lo_pau _ _ Hl)) as Hp. split_and!; [|lia|lia].
  rewrite Ec in Hc. set (free := e_sz_vol e - _) in *. assert (l_pau l <= free); [|unfold free in *; lia].
  assert (l_pau l * 1 <= l_pau l * (free / l_pau l)) by nia. pose proof (Z.mul_div_le free (l_pau l) ltac:(lia)). lia.
Qed.

(** A sector of a record. *)
Lemma write_sector s w n x (Q : DRESULT -> St D -> Prop) :
  buf_ok w n -> sector_size (dev s) <= n -> 0 <= x ->
  (forall r s', touches s s' x (x + 1) -> (r = RES_OK -> medium (dev s') x = sub w 0 (sector_size (dev s))) -> Q r s') ->
  post (do_write w x 1) s Q.
Proof.
  intros [Hb Hl] Hn Hx HQ. apply post_write_buf; [done|lia|lia|done|]. intros r s' Ht Hw. apply HQ; [done|]. intros Hr. rewrite (Hw Hr) by lia. by rewrite Z.sub_diag.
Qed.

Lemma fat_volume_spec e l sz_buf vsn N buf s :
  env_ok e -> layout_ok e l -> sector_size (dev s) = e_ss e -> buf_ok buf N -> 1 <= sz_buf -> sz_buf * e_ss e <= N ->
  post (create_fat_volume e l sz_buf vsn buf) s (fun '(fr, buf') s' =>
    touches s s' (e_b_vol e) (e_b_vol e + e_sz_vol e) /\ (fr = FR_OK \/ fr = FR_DISK_ERR) /\
    (fr = FR_OK -> buf_ok buf' N /\ fat_written e l (medium (dev s')))).
Proof.
  intros He Hl Es Hb Hsz HN. destruct (sect_size_bounds _ (eo_ss _ He)) as [Hss _]. pose proof (layout_areas _ _ He Hl) as Ha. cbv zeta in Ha.
  pose proof (eo_b_vol _ He) as Hbv. destruct (eo_sz_vol _ He) as [_ Hv]. pose proof (eo_n_fat _ He) as Hnf. destruct (lo_fat _ _ Hl) as [Hf1 _].
  pose proof (sz_dir_nonneg _ _ He Hl) as Hd. pose proof (au_cases _ (lo_pau _ _ Hl)) as Hp.
  assert (e_ss e <= N) as HsN by nia. unfold create_fat_volume. set (w := fat_vbr e l vsn buf).
  pose proof (fat_vbr_ok e l vsn N buf He Hb HsN) as Hw. pose proof (fat_vbr_fields e l vsn N buf He Hl Hb HsN) as Hwf. fold w in Hw, Hwf. clearbody w.
  mstep. apply (write_sector _ _ N); [done|lia|lia|]. intros r s1 T1 W1. rewrite Es in W1.
  destruct r; cbn [res_ok negb]; try (mstep; split_and!; [eapply touches_wider; [exact T1|lia|lia]|by right|done]). specialize (W1 eq_refl). mstep.
  assert (sector_size (dev s1) = e_ss e) as E1 by (destruct T1 as (_ & -> & _); done).
  eapply (post_mono (fun b s2 => buf_ok b N /\ touches s1 s2 (e_b_vol e + 1) (l_b_fat l))).
  { bdestr; [|mstep; split; [done|apply touches_refl]]. destruct Ha as (_ & _ & H32). specialize (H32 Hb0).
    rewrite !(u32_small (e_b_vol e + _)) by (unfold is_u32, N_SEC_TRACK in *; lia).
    mstep. apply (write_sector _ _ N); [done|lia|lia|]. intros r2 s2 T2 _. mstep.
    assert (buf_ok (fsinfo_record (e_ss e) (l_n_clst l) w) N) as Hfi.
    { unfold fsinfo_record. unfold_ofs. bufs. }
    assert (sector_size (dev s2) = e_ss e) as E2 by (destruct T2 as (_ & -> & _); done).
    apply (write_sector _ _ N); [done|lia|lia|]. intros r3 s3 T3 _. mstep. assert (sector_size (dev s3) = e_ss e) as E3 by (destruct T3 as (_ & -> & _); done).
    apply (write_sector _ _ N); [done|lia|lia|]. intros r4 s4 T4 _. mstep. split; [done|].
    eapply (touches_trans s1 s3 s4 (e_b_vol e + 1) (l_b_fat l)); [|exact T4|lia..]. eapply (touches_trans s1 s2 s3); [exact T2|exact T3|lia..]. }
  intros b s2 [Hb2 T2]. mstep. assert (sector_size (dev s2) = e_ss e) as E2 by (destruct T2 as (_ & -> & _); done).
  assert (0 + zlen (zeros (sz_buf * e_ss e)) <= N) as Hzl by (rewrite zlen_zeros; lia).
  assert (buf_ok (blit b 0 (zeros (sz_buf * e_ss e))) N) as Hb3 by (apply buf_blit; [done|apply bytes_zeros|lia|done]).
  assert (zero_from (blit b 0 (zeros (sz_buf * e_ss e))) 0 (sz_buf * e_ss e)) as Hz3.
  { intros i Hi. rewrite (getb_copied _ N); [apply getb_zeros|done|lia|done|]. rewrite zlen_zeros by lia. lia. }
  assert (Z.of_nat (Z.to_nat (e_n_fat e)) = e_n_fat e) as En by lia.
  eapply post_mono; [apply (write_fats_spec (e_ss e) sz_buf N); [lia|done|done|lia|done|exact Hb3|exact Hz3|lia|lia|rewrite En; lia]|].
  rewrite En. intros r s3 [T3 Hr]. assert (touches s s3 (e_b_vol e) (l_b_fat l + e_n_fat e * l_sz_fat l)) as T13.
  { eapply (touches_trans s s2 s3 (e_b_vol e) (l_b_fat l)); [|exact T3|nia..]. eapply touches_trans; [exact T1|exact T2|lia..]. }
  assert (medium (dev s3) (e_b_vol e) = sub w 0 (e_ss e)) as Wv.
  { destruct T3 as (_ & _ & M3). rewrite M3 by lia. destruct T2 as (_ & _ & M2). by rewrite M2 by lia. }
  destruct r as [[b3 x3]|]; [|mstep; split_and!; [eapply touches_wider; [exact T13|lia|lia]|by right|done]].
  destruct Hr as (-> & Hb4 & Hz4 & Hf). assert (sector_size (dev s3) = e_ss e) as E3 by (destruct T3 as (_ & -> & _); done).
  set (nsect := if l_fsty l =? FS_FAT32 then l_pau l else l_sz_dir l).
  assert (1 <= nsect /\ nsect <= l_pau l + l_sz_dir l) as [Hns1 Hns2].
  { unfold nsect. pose proof (lo_dir _ _ Hl) as Ed. destruct (l_fsty l =? FS_FAT32); [lia|]. split; [|lia]. rewrite Ed. by apply root_size. }
  mstep. eapply post_mono; [apply (fill_sectors_spec (e_ss e) sz_buf N); [lia|done|done|done|exact Hb4| |done|nia|done|]|].
  { intros i Hi. apply Hz4. lia. } { lia. }
  intros r s4 [T4 Hr]. mstep. assert (touches s s4 (e_b_vol e) (e_b_vol e + e_sz_vol e)) as T14 by (eapply touches_trans; [exact T13|exact T4|nia..]).
  destruct r as [[b5 x5]|]; [|split_and!; [done|by right|done]]. destruct Hr as (-> & Hb5 & _ & Hfr). split_and!; [done|by left|]. intros _. split; [done|].
  destruct T4 as (_ & _ & M4). split.
  - exists w, N. split_and!; try done. by rewrite M4 by nia.
  - intros i Hi y Hy. rewrite M4 by nia. by apply (Hf i Hi).
  - intros first y Hy. fold nsect in Hy. rewrite Hfr by done. case_match; [|done]. apply (sub_zero_from _ N 0 (sz_buf * e_ss e)); [done|done|nia..].
Qed.
End write.
