(* ===== verification/MkfsSpec.v ===== *)
(** * [f_mkfs] for a FAT volume

    Whatever the drive and its errors, and for alignments up to 16 sectors: [f_mkfs] returns,
    changes nothing behind the drive, and on success the medium holds a boot record, FATs and
    a root directory that fit together.  [MkfsMount] mounts what it has made. *)

From stdpp Require Import prelude list.
From Stdlib Require Import ZArith Lia.
From S2P Require Import Prelude Bytes Diskio FFTypes Window Fat Chain Dir Dirent Mount Mkfs MkfsLayout MkfsRecords MkfsWrite.

Local Open Scope Z_scope.
Local Open Scope cint_scope.

(** Options within the widths of their types, for a FAT volume whose data area is aligned
    to at most 16 sectors. *)
Record parm_ok (opt : MKFS_PARM) : Prop := {
  po_fmt : has (mk_fmt opt) FM_EXFAT = false;
  po_align : 0 <= mk_align opt <= 16;
  po_au : is_u32 (mk_au_size opt);
  po_vol : is_u32 (mk_sz_vol opt)
}.

(** The working buffer has room for the largest sector. *)
Definition work_ok (work : option (list Z)) (heap : list Z) (len ss : Z) : Prop :=
  FF_MAX_SS <= len /\
  match work with Some b => bytes b /\ zlen b = len | None => bytes heap /\ zlen heap = len / ss * ss end.

Lemma sect_size_pow ss : sect_size_ok ss -> exists j, 9 <= j <= 12 /\ ss = 2 ^ j.
Proof. intros [->|[->|[->| ->]]]; [exists 9|exists 10|exists 11|exists 12]; lia. Qed.

Lemma au_sectors ss au : sect_size_ok ss -> 0 <= au -> pow2_test au = true -> au / ss = 0 \/ exists k, 0 <= k /\ au / ss = 2 ^ k.
Proof.
  intros Hss Ha Hp. destruct (sect_size_pow _ Hss) as (j & Hj & ->). destruct (decide (au = 0)) as [->|Hne]; [by left|].
  rewrite (pow2_test_log2 au ltac:(lia) Hp). set (i := Z.log2 au). assert (0 <= i) by apply Z.log2_nonneg. destruct (decide (i < j)).
  - left. apply Z.div_small. split; [apply Z.pow_nonneg; lia|apply Z.pow_lt_mono_r; lia].
  - right. exists (i - j). split; [lia|]. replace i with (j + (i - j)) at 1 by lia. rewrite Z.pow_add_r by lia. rewrite Z.mul_comm. apply Z.div_mul. apply Z.pow_nonzero; lia.
Qed.

Lemma clamp_au k : 0 <= k -> au_ok (if 128 <? 2 ^ k then 128 else 2 ^ k).
Proof.
  intros Hk. destruct (Z.ltb_spec 128 (2 ^ k)) as [|Hle]; [by exists 7|]. exists k. split; [|done]. split; [done|].
  apply (Z.pow_le_mono_r_iff 2); [lia..|]. done.
Qed.

Lemma has_masked x b m : Z.land m b = b -> has (Z.land x m) b = has x b.
Proof. intros E. unfold has. by rewrite <- Z.land_assoc, E. Qed.

Lemma choose_fat fsopt sz_vol sz_au :
  has fsopt FM_EXFAT = false -> sz_au = 0 \/ (exists k, 0 <= k /\ sz_au = 2 ^ k) ->
  match choose_type fsopt sz_vol sz_au with
  | inl fr => fr = FR_INVALID_PARAMETER
  | inr (fsty, au) => start_ok (au, fsty)
  end.
Proof.
  intros Hx Ha. unfold choose_type. rewrite Hx. cbn [andb]. set (au := if 128 <? sz_au then 128 else sz_au).
  assert (au = 0 \/ au_ok au) as Hau by (destruct Ha as [->|(k & Hk & ->)]; [by left|right; by apply clamp_au]). clearbody au.
  destruct (_ && _); [by split; [|right]|]. destruct (negb _); [done|by split; [|left]].
Qed.

Lemma system_id_u8 fsty n : is_u8 (system_id fsty n).
Proof. unfold system_id, is_u8. repeat case_match; lia. Qed.

Section mkfs.
Context {D : Type} `{BlockDeviceLaws D} `{!Heap}.
Implicit Types s : St D.

(** Everything from sector [n] on is as before. *)
Definition within s s' (n : Z) : Prop :=
  sector_size (dev s') = sector_size (dev s) /\ forall y, n <= y -> medium (dev s') y = medium (dev s) y.

(** A FAT volume, behind a partition table or at the start of the drive. *)
Definition fat_created (ss sz_drv : Z) (m : Z -> list Z) : Prop :=
  exists e l, env_ok e /\ layout_ok e l /\ e_ss e = ss /\ fat_written e l m /\ e_b_vol e + e_sz_vol e = sz_drv /\
    (e_b_vol e = 0 \/ e_b_vol e = N_SEC_TRACK /\ exists w n, buf_ok w n /\ ss <= n /\ mbr_fields w /\ m 0 = sub w 0 ss).

Lemma create_volume_spec e fsty sz_au sz_buf vsn buf N s :
  env_ok e -> start_ok (sz_au, fsty) -> sector_size (dev s) = e_ss e -> buf_ok buf N -> 1 <= sz_buf -> sz_buf * e_ss e <= N ->
  post (create_volume e fsty sz_au sz_buf vsn buf) s (fun '(fr, fsty', buf') s' =>
    touches s s' (e_b_vol e) (e_b_vol e + e_sz_vol e) /\
    (fr = FR_OK -> buf_ok buf' N /\ exists l, layout_ok e l /\ fat_written e l (medium (dev s')))).
Proof.
  intros He Ha Es Hb Hsz HN. unfold create_volume. assert ((fsty =? FS_EXFAT) = false) as -> by (destruct Ha as [_ [E|E]]; cbn [fst snd] in E; by rewrite E).
  destruct (find_layout_spec e He 8 (sz_au, fsty) Ha) as (r & -> & Hr). { unfold layout_rank. repeat case_match; lia. }
  destruct r as [fr|l]; [subst fr; mstep; by split; [apply touches_refl|]|]. mstep. eapply post_mono; [by apply fat_volume_spec|].
  intros [fr b] s' (Ht & Hfr & Hok). mstep. split; [done|]. intros E. destruct (Hok E) as [Hb' Hw]. eauto.
Qed.

Lemma within_refl s n : within s s n.
Proof. done. Qed.

(** The end of [f_mkfs]: the partition table and the flush. *)
Lemma finish_spec (sfd : bool) e l fsty buf N s s1 :
  env_ok e -> layout_ok e l -> sector_size (dev s1) = e_ss e -> buf_ok buf N -> FF_MAX_SS <= N -> fat_written e l (medium (dev s1)) ->
  e_b_vol e = (if sfd then 0 else N_SEC_TRACK) -> within s s1 (e_b_vol e + e_sz_vol e) ->
  post (fr ← (if negb sfd then create_partition [e_sz_vol e; 0] (system_id fsty (e_sz_vol e)) buf (e_b_vol e + e_sz_vol e) else mret FR_OK);
        if negb (fr_ok fr) then mret fr else r ← do_sync; mret (if res_ok r then FR_OK else FR_DISK_ERR)) s1
    (fun r s' => within s s' (e_b_vol e + e_sz_vol e) /\ (r = FR_OK -> fat_created (e_ss e) (e_b_vol e + e_sz_vol e) (medium (dev s')))).
Proof.
  intros He Hl Es Hb HN Hw Eb Hin. destruct (sect_size_bounds _ (eo_ss _ He)) as [_ Hss]. destruct (eo_sz_vol _ He) as [Hv Hv'].
  assert (forall s2, within s s2 (e_b_vol e + e_sz_vol e) -> fat_created (e_ss e) (e_b_vol e + e_sz_vol e) (medium (dev s2)) ->
    post (r ← do_sync; mret (if res_ok r then FR_OK else FR_DISK_ERR)) s2
      (fun r s' => within s s' (e_b_vol e + e_sz_vol e) /\ (r = FR_OK -> fat_created (e_ss e) (e_b_vol e + e_sz_vol e) (medium (dev s'))))) as Hsync.
  { intros s2 [W1 W2] (e' & l' & C1 & C2 & C3 & C4 & C5 & C6). mstep. apply post_do_sync. intros r d' Hs Hm. mstep. split.
    - split; cbn [dev]; [congruence|]. intros y Hy. rewrite Hm. by apply W2.
    - intros _. exists e', l'. split_and!; try done; cbn [dev].
      + by eapply fat_written_ext.
      + by rewrite Hm. }
  mstep. destruct sfd; cbn [negb].
  - mstep. cbn [fr_ok negb]. apply Hsync; [done|]. exists e, l. split_and!; try done. by left.
  - unfold create_partition. rewrite (proj2 (Z.eqb_neq _ 0)) by (rewrite Eb; unfold N_SEC_TRACK; lia). cbn [andb].
    destruct (mbr_sector_fields buf N (system_id fsty (e_sz_vol e)) (e_sz_vol e) Hb HN (system_id_u8 _ _) Hv ltac:(lia)) as [Hmb Hmf]. rewrite <- Eb in Hmb, Hmf.
    mstep. apply (write_sector _ _ N); [done|rewrite Es; unfold FF_MAX_SS in *; lia|lia|]. intros r s2 T W. mstep.
    assert (within s s2 (e_b_vol e + e_sz_vol e)) as Hin2.
    { destruct T as (_ & T1 & T2), Hin as [W1 W2]. split; [congruence|]. intros y Hy. rewrite T2 by (rewrite Eb in *; unfold N_SEC_TRACK in *; lia). by apply W2. }
    destruct r; cbn [res_ok fr_ok negb]; try (mstep; by split). apply Hsync; [done|]. specialize (W eq_refl). rewrite Es in W.
    destruct T as (_ & _ & T2). pose proof (layout_areas _ _ He Hl) as Ha. cbv zeta in Ha. pose proof (lo_fat _ _ Hl) as [Hf _]. pose proof (eo_n_fat _ He).
    rewrite Eb in Ha. unfold N_SEC_TRACK in *. exists e, l. split_and!; try done.
    + destruct Hw as [(w & n & F1 & F2 & F3 & F4) F5 F6]. split.
      * exists w, n. split_and!; try done. by rewrite T2 by lia.
      * intros i Hi y Hy. rewrite T2 by nia. by apply (F5 i Hi).
      * intros first y Hy. rewrite T2 by (unfold first in Hy; nia). by apply F6.
    + right. split; [done|]. eexists _, N. split_and!; [exact Hmb|unfold FF_MAX_SS in *; lia|exact Hmf|exact W].
Qed.

Lemma mkfs_fat_spec path registered opt work heap len s :
  parm_ok opt -> is_u16 (sector_size (dev s)) -> work_ok work heap len (sector_size (dev s)) ->
  post (f_mkfs path registered (Some opt) work heap len) s (fun r s' =>
    within s s' (mk_sz_vol opt) /\ (r = FR_OK -> fat_created (sector_size (dev s)) (mk_sz_vol opt) (medium (dev s')))).
Proof.
  intros Ho Hz Hw. unfold f_mkfs. destruct (get_ldnumber path) as [vol p]. mstep; [mstep; by split|]. mstep.
  apply (post_mono (fun _ s' => dev s' = dev s)); [unfold upd_fs; destruct registered; by mstep|]. intros _ s0 E0. change (default defopt (Some opt)) with opt.
  change (has disk_initialize STA_NOINIT) with false. change (has disk_initialize STA_PROTECT) with false. cbn [res_ok ioctl_unsupported negb]. rewrite !andb_true_r.
  assert (within s s0 (mk_sz_vol opt)) as W0 by (unfold within; by rewrite E0).
  set (blk := if mk_align opt =? 0 then 1 else mk_align opt). set (sz_blk := if _ || _ || _ then 1 else blk).
  assert (exists k, 0 <= k <= 4 /\ sz_blk = 2 ^ k) as Hblk.
  { pose proof (po_align _ Ho) as Hal. unfold sz_blk, blk. destruct (Z.eqb_spec (mk_align opt) 0); [by exists 0|]. bdestr; [by exists 0|].
    exists (Z.log2 (mk_align opt)). split; [|apply pow2_test_log2; [lia|tauto]]. split; [apply Z.log2_nonneg|]. change 4 with (Z.log2 16). apply Z.log2_le_mono. lia. }
  clearbody sz_blk. clear blk. mstep. apply post_gets. rewrite E0. rewrite u16_small by done. bdestr; [mstep; by split|]. set (ss := sector_size (dev s)) in *.
  assert (sect_size_ok ss) as Hss by (apply sect_size_test; [lia|tauto]).
  set (fsopt := Z.land (mk_fmt opt) _). set (n_fat := if _ && _ then mk_n_fat opt else 1).
  assert (n_fat = 1 \/ n_fat = 2) as Hnf by (unfold n_fat; bdestr; lia). clearbody n_fat. set (n_root := if _ && _ && _ then mk_n_root opt else 512).
  assert (1 <= n_root <= 32768 /\ n_root mod (ss / SZDIRE) = 0) as Hnr.
  { unfold n_root. bdestr; [lia|]. split; [lia|]. destruct Hss as [->|[->|[->| ->]]]; done. }
  clearbody n_root. set (au := if _ && pow2_test (mk_au_size opt) then mk_au_size opt else 0).
  assert (au / ss = 0 \/ exists k, 0 <= k /\ au / ss = 2 ^ k) as Hau.
  { pose proof (po_au _ Ho) as Hu. unfold au. bdestr; [|left; by apply Z.div_0_l; destruct (sect_size_bounds _ Hss); lia].
    apply au_sectors; [done|apply Hu|tauto]. }
  clearbody au. bdestr; [mstep; by split|]. destruct (sect_size_bounds _ Hss) as [Hs1 Hs2]. destruct Hw as [Hlen Hwk].
  assert (1 <= len / ss) as Hsz1 by (apply Z.div_le_lower_bound; unfold FF_MAX_SS in *; lia).
  assert (forall b, match work with Some b => Some b | None => if ff_memalloc (len / ss * ss) then Some heap else None end = Some b ->
    exists N, buf_ok b N /\ len / ss * ss <= N /\ FF_MAX_SS <= N) as Hbuf.
  { assert (FF_MAX_SS <= len / ss * ss) as Hm. { unfold FF_MAX_SS in *. destruct Hss as [E|[E|[E|E]]]; rewrite E; Z.div_mod_to_equations; lia. }
    intros b Hb'. destruct work as [b1|].
    - injection Hb' as <-. destruct Hwk. exists len. split_and!; [done| |done]. Z.div_mod_to_equations. lia.
    - destruct (ff_memalloc _); [|done]. injection Hb' as <-. destruct Hwk. exists (len / ss * ss). by split_and!. }
  destruct (match work with Some b => Some b | None => _ end) as [buf|]; [|mstep; by split]. destruct (Hbuf buf eq_refl) as (N & Hbo & HN1 & HN2). clear Hbuf.
  bdestr; [mstep; by split|]. pose proof (po_vol _ Ho) as Hvol. unfold is_u32 in Hvol.
  assert (exists b_vol sz_vol, (if negb (has fsopt FM_SFD) && (N_SEC_TRACK <? mk_sz_vol opt) then (N_SEC_TRACK, mk_sz_vol opt - N_SEC_TRACK)
    else (0, mk_sz_vol opt)) = (b_vol, sz_vol) /\ b_vol + sz_vol = mk_sz_vol opt /\ 0 <= b_vol <= N_SEC_TRACK /\
    (128 <= sz_vol -> b_vol = if has fsopt FM_SFD then 0 else N_SEC_TRACK)) as (b_vol & sz_vol & -> & Ev & Hbv & Ebv).
  { unfold N_SEC_TRACK. destruct (has fsopt FM_SFD); cbn [negb andb]; [eexists _, _; split; [done|]; lia|].
    destruct (Z.ltb_spec 63 (mk_sz_vol opt)); (eexists _, _; split; [done|]; lia). }
  cbn beta iota. mstep; [mstep; by split|]. specialize (Ebv ltac:(lia)). rewrite <- Ev in *.
  assert (has fsopt FM_EXFAT = false) as Hx by (unfold fsopt; rewrite has_masked by done; apply Ho). pose proof (choose_fat fsopt sz_vol (au / ss) Hx Hau) as Hct.
  destruct (choose_type fsopt sz_vol (au / ss)) as [fr|[fsty sz_au]]; [mstep; subst fr; by split|]. set (e := mkMkfsEnv ss sz_blk n_fat n_root b_vol sz_vol fsopt).
  assert (env_ok e) as He by (split; cbn [e e_ss e_sz_blk e_n_fat e_n_root e_b_vol e_sz_vol]; try done; lia).
  mstep. eapply post_mono; [apply (create_volume_spec e fsty sz_au (len / ss) _ buf N); cbn [e e_ss]; [done|done|by rewrite E0|done..]|].
  intros [[fr fsty'] buf'] s1 [(T1 & T2 & T3) Hok]. cbn [e e_b_vol e_sz_vol] in T3.
  assert (within s s1 (b_vol + sz_vol)) as W1.
  { destruct W0 as [W0 W0']. split; [congruence|]. intros y Hy. rewrite T3 by lia. by apply W0'. }
  destruct fr; cbn [fr_ok negb]; try (mstep; by split). destruct (Hok eq_refl) as (Hb' & l & Hl & Hwr).
  apply (finish_spec (has fsopt FM_SFD) e l fsty' buf' N s s1); try done. cbn. by rewrite T2, E0.
Qed.
End mkfs.
