(* ===== verification/MkfsMount.v ===== *)
(** * Mounting a volume that [f_mkfs] created *)

From stdpp Require Import prelude list.
From Stdlib Require Import ZArith Lia.
From S2P Require Import Prelude Bytes Diskio FFTypes Window Fat Chain Dir Dirent Mount Mkfs MkfsLayout MkfsRecords MkfsWrite MkfsSpec.

Local Open Scope Z_scope.
Local Open Scope cint_scope.

(** ** Boot sectors *)

(** What [check_fs] makes of a sector it has read. *)
Definition boot_kind (win : list Z) : Z :=
  let sign := ld_word win BS_55AA in
  if (sign =? 0xAA55) && mem_eq win BS_JmpBoot exfat_sign then 1 else
  let b := win.[BS_JmpBoot] in
  if ((b =? 0xEB) || (b =? 0xE9) || (b =? 0xE8)) &&
     ((sign =? 0xAA55) && mem_eq win BS_FilSysType32 fat32_sign ||
      (let w := ld_word win BPB_BytsPerSec in
       let b := win.[BPB_SecPerClus] in
       pow2_test w && (FF_MIN_SS <=? w) && (w <=? FF_MAX_SS)
       && negb (b =? 0) && pow2_test b
       && negb (ld_word win BPB_RsvdSecCnt =? 0)
       && (u32 (win.[BPB_NumFATs] - 1) <=? 1)
       && negb (ld_word win BPB_RootEntCnt =? 0)
       && ((128 <=? ld_word win BPB_TotSec16) || (0x10000 <=? ld_dword win BPB_TotSec32))
       && negb (ld_word win BPB_FATSz16 =? 0)))
  then 0
  else if sign =? 0xAA55 then 2 else 3.

Lemma sub_same w w' p n : same_at w' w p n -> 0 <= p -> p + n <= zlen w -> p + n <= zlen w' -> sub w' p n = sub w p n.
Proof.
  intros Hs Hp Hl Hl'. unfold sub, zlen in *. apply list_eq. intros i. destruct (decide (i < Z.to_nat n)%nat) as [Hi|Hi].
  - rewrite !lookup_take_lt, !lookup_drop by lia. specialize (Hs (p + Z.of_nat i) ltac:(lia)). unfold getb in Hs. rewrite !nth_lookup in Hs.
    replace (Z.to_nat (p + Z.of_nat i)) with (Z.to_nat p + i)%nat in Hs by lia.
    destruct (lookup_lt_is_Some_2 w (Z.to_nat p + i)) as [v Ev]; [lia|]. destruct (lookup_lt_is_Some_2 w' (Z.to_nat p + i)) as [v' Ev']; [lia|].
    rewrite Ev, Ev' in *. cbn in Hs. congruence.
  - rewrite !lookup_ge_None_2; [done| |]; rewrite length_take, length_drop; lia.
Qed.

(** A signature in a sector. *)
Lemma mem_eq_byte w i sign j : mem_eq w i sign = true -> 0 <= i -> 0 <= j < zlen sign -> w.[i + j] = sign.[j].
Proof. intros Hm%bool_decide_eq_true Hi Hj. rewrite <- Hm. by rewrite getb_sub by lia. Qed.

(** The fields of a sector do not depend on what follows in the window. *)
Lemma vbr_fields_same e l w w' : vbr_fields e l w -> same_at w' w 0 512 -> 512 <= zlen w' -> vbr_fields e l w'.
Proof.
  intros [V1 V2 V3 V4 V5 V6 V7 V8 V9 V10 V11] Hs Hl.
  assert (forall p, 0 <= p -> p + 2 <= 512 -> ld_word w' p = ld_word w p) as Ew by (intros p Hp Hq; apply ld_word_same; intros i Hi; apply Hs; lia).
  assert (forall p, 0 <= p -> p + 4 <= 512 -> ld_dword w' p = ld_dword w p) as Ed by (intros p Hp Hq; apply ld_dword_same; intros i Hi; apply Hs; lia).
  assert (forall p, 0 <= p < 512 -> w'.[p] = w.[p]) as Eg by (intros p Hp; apply Hs; lia).
  unfold_ofs. split; unfold_ofs; rewrite ?Ew, ?Ed, ?Eg by lia; try done.
  intros H32. destruct (V11 H32) as (X1 & X2 & X3 & X4). split_and!; try done. assert (90 <= zlen w) as Hw.
  { assert (zlen (sub w 82 8) = 8) as E8 by (by rewrite X4). revert E8. unfold sub, zlen. rewrite length_take, length_drop. lia. }
  rewrite <- X4. apply sub_same; [intros i Hi; apply Hs; lia|lia..].
Qed.

Lemma au_pow2 n : au_ok n -> pow2_test n = true.
Proof. intros Hn%au_cases. by destruct Hn as [->|[->|[->|[->|[->|[->|[->| ->]]]]]]]. Qed.

Lemma vbr_kind e l w : env_ok e -> layout_ok e l -> vbr_fields e l w -> boot_kind w = 0.
Proof.
  intros He Hl [[V1 V1'] V2 V3 V4 V5 V6 V7 V8 V9 V10 V11]. unfold boot_kind. rewrite V1, V2, V3, V4, V5, V6, V7, V8, V9, V10.
  assert (mem_eq w BS_JmpBoot exfat_sign = false) as ->.
  { destruct (mem_eq _ _ _) eqn:E; [|done]. apply (mem_eq_byte _ _ _ 1) in E; [|done|done]. change (BS_JmpBoot + 1) with 1 in E. by rewrite V1' in E. }
  cbn [Z.eqb Pos.eqb andb orb]. destruct (Z.eqb_spec (l_fsty l) FS_FAT32) as [E32|Hne].
  - destruct (V11 E32) as (_ & _ & _ & X). assert (mem_eq w BS_FilSysType32 fat32_sign = true) as -> by (by apply bool_decide_eq_true). done.
  - rewrite (au_pow2 _ (lo_pau _ _ Hl)). pose proof (au_cases _ (lo_pau _ _ Hl)). destruct (lo_rsv _ _ Hl) as [Hr _]. destruct (eo_n_root _ He) as [Hrt _].
    destruct (eo_sz_vol _ He) as [Hv _]. destruct (lo_fat _ _ Hl) as [Hf _].
    assert (pow2_test (e_ss e) && (FF_MIN_SS <=? e_ss e) && (e_ss e <=? FF_MAX_SS) = true) as -> by (destruct (eo_ss _ He) as [->|[->|[->| ->]]]; done).
    assert ((u32 (e_n_fat e - 1) <=? 1) = true) as -> by (destruct (eo_n_fat _ He) as [->| ->]; done).
    rewrite !(proj2 (Z.eqb_neq _ 0)) by lia. cbn [negb andb]. destruct (Z.ltb_spec (e_sz_vol e) 0x10000).
    + rewrite (proj2 (Z.leb_le 128 _)) by lia. cbn [orb andb]. by rewrite orb_true_r.
    + rewrite (proj2 (Z.leb_le 0x10000 (e_sz_vol e))) by lia. by destruct (mem_eq _ _ _).
Qed.

Lemma mbr_kind w : mbr_fields w -> boot_kind w = 2.
Proof.
  intros [M1 M2 _ _]. unfold boot_kind. rewrite M1, M2. assert (mem_eq w BS_JmpBoot exfat_sign = false) as ->; [|done].
  destruct (mem_eq _ _ _) eqn:E; [|done]. apply (mem_eq_byte _ _ _ 0) in E; [|done|done]. by rewrite Z.add_0_r, M1 in E.
Qed.

(** ** Reading the boot sectors *)

Section mount.
Context {D : Type} `{BlockDeviceLaws D} `{!Shl}.
Implicit Types s : St D.

(** No read fails. *)
Definition reads_ok : Prop := forall (d : D) buf x n, fst (fst (disk_read d buf x n)) = RES_OK.

Hypothesis Hreads : reads_ok.

Lemma move_window_reads s x : clean s -> post (move_window x) s (fun r _ => r = FR_OK).
Proof.
  intros Hc. unfold move_window, sync_window, get_fs, upd_fs. mstep. apply post_gets. mstep; [|by mstep].
  mstep. mstep. apply post_gets. rewrite (cl_flag _ Hc). cbn [Z.eqb negb]. mstep. cbn [fr_ok]. mstep.
  unfold post at 1, do_read_win. pose proof (Hreads (dev s) (win (fsys s)) x 1) as Hr. destruct (disk_read _ _ _ _) as [[r b] d']. cbn in Hr. subst r.
  cbn [res_ok negb]. mstep. apply post_modify. by mstep.
Qed.

Lemma check_fs_reads s x :
  zlen (win (fsys s)) = FF_MAX_SS -> bytes (win (fsys s)) -> ssize (fsys s) = sector_size (dev s) -> sect_size_ok (ssize (fsys s)) -> is_u32 x ->
  post (check_fs x) s (fun fmt s' => boot_step s s' /\ winsect (fsys s') = x /\ fmt = boot_kind (win (fsys s'))).
Proof.
  intros Hl Hb Hs Ho Hx. unfold check_fs, get_fs, upd_fs. mstep. apply post_modify. mstep. set (s0 := mkSt _ _).
  assert (clean s0) as Hc0 by (split; cbn; done).
  eapply post_mono; [apply post_conj; [by apply move_window_clean|by apply move_window_reads]|]. cbn beta. intros r s1 [(C & E & M & Hr) ->].
  destruct Hr as [[_ Hw]|?]; [|done]. cbn [fr_ok negb]. mstep. apply post_gets.
  assert (boot_step s s1) as Hbs by (split_and!; [done|exact E|exact M]).
  assert (forall b1 b2 (x : Z) (Q : Z -> St D -> Prop), Q (if b1 : bool then 1 else if b2 : bool then 0 else x) s1 ->
    post (if b1 then mret 1 else if b2 then mret 0 else mret x) s1 Q) as Hif by (intros [] []; done).
  apply Hif. by split_and!.
Qed.

Lemma window_same s w n ss x : clean s -> winsect (fsys s) = x -> x <> 0xFFFFFFFF -> ssize (fsys s) = ss -> medium (dev s) x = sub w 0 ss ->
  buf_ok w n -> ss <= n -> same_at (win (fsys s)) w 0 512 /\ 512 <= zlen (win (fsys s)).
Proof.
  intros Hc Hx Hne Hss Hm [_ Hw] Hn. destruct (sect_size_bounds _ (cl_ok _ Hc)) as [Hs _]. rewrite Hss in Hs. split; [|rewrite (cl_len _ Hc); done].
  intros i Hi. pose proof (cl_coh _ Hc ltac:(congruence)) as Ht. rewrite Hx, Hm, Hss in Ht.
  rewrite <- (getb_take _ i ss) by lia. rewrite Ht. rewrite getb_sub by lia. done.
Qed.

(** The volume is found, in its partition or at the start of the drive. *)
Lemma find_volume_created s sz_drv :
  zlen (win (fsys s)) = FF_MAX_SS -> bytes (win (fsys s)) -> ssize (fsys s) = sector_size (dev s) -> sect_size_ok (ssize (fsys s)) ->
  fat_created (sector_size (dev s)) sz_drv (medium (dev s)) ->
  post find_volume s (fun fmt s' => boot_step s s' /\ fmt = 0 /\
    exists e l, env_ok e /\ layout_ok e l /\ e_ss e = sector_size (dev s) /\ fat_written e l (medium (dev s)) /\ e_b_vol e + e_sz_vol e = sz_drv /\
      winsect (fsys s') = e_b_vol e /\ vbr_fields e l (win (fsys s'))).
Proof.
  intros Hl Hb Hs Ho (e & l & He & Hly & Ess & Hw & Ev & Hplace). pose proof (eo_b_vol _ He) as Hbv. unfold N_SEC_TRACK in *.
  assert (forall s1, boot_step s s1 -> winsect (fsys s1) = e_b_vol e -> vbr_fields e l (win (fsys s1))) as Hvbr.
  { intros s1 (C1 & E1 & M1) Hx. destruct (fw_vbr _ _ _ Hw) as (w & n & Hbo & Hn & Hf & Hm).
    destruct (window_same s1 w n (e_ss e) (e_b_vol e) C1 Hx ltac:(lia)) as [Hsm Hlw]; [|by rewrite (proj2 M1)|done|done|by eapply vbr_fields_same].
    etrans; [exact (f_equal ssize E1)|]. change (ssize (fsys s) = e_ss e). congruence. }
  unfold find_volume, get_fs. mstep. eapply post_mono; [by apply check_fs_reads|]. cbn beta. intros fmt s1 (B1 & X1 & ->).
  destruct Hplace as [E0|(E63 & w & n & Hbo & Hn & Hmf & Hm)].
  - rewrite <- E0 in X1. rewrite (vbr_kind e l) by auto. cbn [Z.eqb negb]. mstep. split_and!; [done|done|]. exists e, l. split_and!; auto.
  - destruct (B1) as (C1 & E1 & M1). assert (ssize (fsys s1) = sector_size (dev s)) as Es1 by (etrans; [exact (f_equal ssize E1)|done]).
    destruct (window_same s1 w n (sector_size (dev s)) 0 C1 X1 ltac:(done) Es1) as [Hsm Hlw]; [by rewrite (proj2 M1)|done|done|].
    assert (mbr_fields (win (fsys s1))) as Hmw.
    { destruct Hmf as [F1 F2 F3 F4]. split.
      - rewrite Hsm; [done|unfold BS_JmpBoot; lia].
      - rewrite <- F2. apply ld_word_same. intros i Hi. apply Hsm. unfold BS_55AA in Hi. lia.
      - rewrite <- F3. apply ld_dword_same. intros i Hi. apply Hsm. unfold MBR_Table, SZ_PTE, PTE_StLba in Hi. lia.
      - intros j Hj. rewrite <- (F4 j Hj). apply ld_dword_same. intros i Hi. apply Hsm. unfold MBR_Table, SZ_PTE, PTE_StLba in Hi. lia. }
    rewrite (mbr_kind _ Hmw). cbn [Z.eqb Pos.eqb negb]. mstep. apply post_gets. destruct Hmw as [_ _ F3 F4].
    rewrite F3, !F4 by lia. cbn [find_part]. unfold N_SEC_TRACK. cbn [Z.eqb negb]. mstep.
    eapply post_mono; [apply check_fs_reads; [by apply C1|by apply C1|by apply C1|by apply C1|unfold is_u32; lia]|]. cbn beta. intros fmt s2 (B2 & X2 & ->).
    assert (boot_step s s2) as B12 by (by eapply boot_step_trans). rewrite <- E63 in X2. rewrite (vbr_kind e l) by auto. cbn [Z.leb Z.compare]. mstep.
    split_and!; [done|done|]. exists e, l. split_and!; auto.
Qed.

Lemma load_fsinfo_returns s fmt bsect : clean s -> post (load_fsinfo fmt bsect) s (fun _ _ => True).
Proof.
  intros Hc. unfold load_fsinfo, get_fs, upd_fs. mstep. apply post_modify. mstep. apply post_gets. mstep; [|by mstep]. mstep.
  eapply post_mono; [apply move_window_clean; [by apply (clean_upd s)|apply u32_range]|]. intros r s1 _. mstep; [|by mstep].
  mstep. apply post_modify. mstep. apply post_gets. mstep; [by apply post_modify|by mstep].
Qed.
End mount.

(** ** The parameters of the volume *)

Section params.
Context (e : mkfs_env) (l : fat_layout) (w : list Z).
Hypothesis He : env_ok e.
Hypothesis Hl : layout_ok e l.
Hypothesis Hw : vbr_fields e l w.

Let ss := e_ss e.
Let sys := l_sz_rsv l + l_sz_fat l * e_n_fat e + l_sz_dir l.

Lemma root_sectors n : n / (ss / SZDIRE) = n * SZDIRE / ss.
Proof. unfold ss, SZDIRE. destruct (eo_ss _ He) as [->|[->|[->| ->]]];
    [change (512 / 32) with 16|change (1024 / 32) with 32|change (2048 / 32) with 64|change (4096 / 32) with 128]; Z.div_mod_to_equations; lia.
Qed.

Lemma vbr_params :
  bpb_fatsz w = l_sz_fat l /\ bpb_tsect w = e_sz_vol e /\ ld_word w BPB_RootEntCnt / (ss / SZDIRE) = l_sz_dir l /\
  bpb_sysect w ss = sys /\ no_overflow w ss (e_b_vol e).
Proof.
  destruct Hw as [_ _ V3 V4 V5 V6 V7 V8 V9 V10 V11]. destruct (lo_fat _ _ Hl) as [Hf _]. destruct (eo_sz_vol _ He) as [Hv Hv'].
  destruct (lo_clst _ _ Hl) as [Hc _]. destruct (lo_rsv _ _ Hl) as [Hr _]. pose proof (eo_n_fat _ He) as Hnf. pose proof (eo_b_vol _ He) as Hb.
  pose proof (sz_dir_nonneg _ _ He Hl) as Hd.
  assert (bpb_fatsz w = l_sz_fat l) as E1.
  { unfold bpb_fatsz. rewrite V10. destruct (Z.eqb_spec (l_fsty l) FS_FAT32) as [E|]; [by apply V11|]. by rewrite (proj2 (Z.eqb_neq _ 0)) by lia. }
  assert (bpb_tsect w = e_sz_vol e) as E2.
  { unfold bpb_tsect. rewrite V8, V9. destruct (e_sz_vol e <? 0x10000); [|done]. by rewrite (proj2 (Z.eqb_neq _ 0)) by lia. }
  assert (ld_word w BPB_RootEntCnt / (ss / SZDIRE) = l_sz_dir l) as E3.
  { rewrite V7, (lo_dir _ _ Hl). destruct (l_fsty l =? FS_FAT32); [by rewrite root_sectors|apply root_sectors]. }
  split_and!; [done|done|done| |].
  - unfold bpb_sysect. rewrite E1, E3, V5, V6. unfold sys.
    rewrite (u32_small (l_sz_fat l * _)), (u32_small (l_sz_rsv l + _)), u32_small by (unfold is_u32; lia). done.
  - split_and!; [lia|rewrite E2; lia|]. rewrite E1, E3, V5, V6. lia.
Qed.
End params.

Lemma fat12_bytes n : 0 <= n < 2 ^ 20 -> n *u32 3 / 2 +u32 Z.land n 1 = (n * 3 + 1) / 2.
Proof.
  intros Hn. rewrite (Z.land_ones _ 1) by lia. rewrite (u32_small (n * 3)), u32_small by (unfold is_u32; Z.div_mod_to_equations; lia).
  Z.div_mod_to_equations. lia.
Qed.

Section accept.
Context {D : Type} `{BlockDeviceLaws D} `{!Shl}.
Implicit Types s : St D.

Lemma mount_fat_accepts s e l :
  clean s -> ssize (fsys s) = e_ss e -> env_ok e -> layout_ok e l -> vbr_fields e l (win (fsys s)) ->
  post (mount_fat (e_b_vol e)) s (fun '(r, fmt) _ => r = FR_OK /\ fmt = l_fsty l).
Proof.
  intros Hc Hss He Hl Hw. destruct (vbr_params e l _ He Hl Hw) as (P1 & P2 & P3 & P4 & _). set (w := win (fsys s)) in *.
  destruct Hw as [_ _ V3 V4 V5 V6 V7 V8 V9 V10 V11]. destruct (lo_clst _ _ Hl) as [Hc1 Hc2]. destruct (lo_type _ _ Hl) as (Ht1 & Ht2 & Ht3).
  pose proof (lo_fits _ _ Hl) as Hfit. pose proof (au_cases _ (lo_pau _ _ Hl)) as Hp. destruct (lo_rsv _ _ Hl) as [Hr _].
  assert (pow2_test (l_pau l) = true) as Hp2 by apply au_pow2, Hl. pose proof (eo_n_fat _ He) as Hnf. destruct (sect_size_bounds _ (eo_ss _ He)) as [Hs1 Hs2].
  unfold mount_fat, get_fs, upd_fs. mstep. apply post_gets. cbv zeta. fold w. rewrite Hss. fold (bpb_fatsz w) (bpb_tsect w) (bpb_sysect w (e_ss e)).
  rewrite P4, P2, P1, V3, V6, V4, V7, V5, Z.eqb_refl, Hp2, <- Hc2, <- Ht2. cbn [negb]. do 2 (mstep; apply post_modify; cbn [fsys dev]).
  if_false. mstep; apply post_modify; cbn [fsys dev]. if_false. mstep; apply post_modify; cbn [fsys dev].
  assert ((if l_fsty l =? FS_FAT32 then 0 else e_n_root e) mod (e_ss e / SZDIRE) = 0) as -> by (destruct (l_fsty l =? FS_FAT32); [done|apply He]).
  cbn [Z.eqb negb]. do 3 if_false. assert (1 <= l_fsty l <= 3) as Hty.
  { rewrite Ht2. unfold fat_subtype, FS_FAT12, FS_FAT16, FS_FAT32. rewrite (proj2 (Z.leb_le _ MAX_FAT32)) by done. repeat case_match; lia. }
  if_false. do 4 (mstep; apply post_modify; cbn [fsys dev]). rewrite (u32_small (l_n_clst l + 2)) by (unfold is_u32, MAX_FAT32 in *; lia).
  assert (forall szb s', szb <= l_sz_fat l * e_ss e -> 0 <= szb < 2 ^ 31 -> clean s' ->
    post (if l_sz_fat l <? (szb +u32 (e_ss e - 1)) / e_ss e then mret (FR_NO_FILESYSTEM, 0) else
      load_fsinfo (l_fsty l) (e_b_vol e);; mret (FR_OK, l_fsty l)) s' (fun '(r, fmt) _ => r = FR_OK /\ fmt = l_fsty l)) as Hend.
  { intros szb s' Hsz Hs0 Hc'. rewrite u32_small by (unfold is_u32; lia). assert ((szb + (e_ss e - 1)) / e_ss e <= l_sz_fat l) by (apply Z.lt_succ_r, Z.div_lt_upper_bound; lia).
    if_false. mstep. eapply post_mono; [by apply load_fsinfo_returns|]. intros _ s1 _. by mstep. }
  unfold MAX_FAT32 in Ht3. mstep. destruct (Z.eqb_spec (l_fsty l) FS_FAT32) as [E32|Hne].
  - destruct (V11 E32) as (_ & -> & _ & _). cbn [Z.eqb negb]. mstep; apply post_modify; cbn [fsys dev]. mstep. rewrite (u32_small ((l_n_clst l + 2) * 4)) by (unfold is_u32; lia).
    apply Hend; [lia|lia|by apply (clean_upd s)].
  - destruct (eo_n_root _ He) as [Hrt _]. if_false. mstep; apply post_modify; cbn [fsys dev]. mstep.
    assert (l_n_clst l <= MAX_FAT16) as Hn16.
    { revert Hne. rewrite Ht2. unfold fat_subtype, MAX_FAT12, MAX_FAT16, MAX_FAT32, FS_FAT12, FS_FAT16, FS_FAT32. repeat case_match; bprop; lia. }
    unfold MAX_FAT16 in Hn16. set (n := l_n_clst l) in *.
    assert ((if l_fsty l =? FS_FAT16 then (n + 2) *u32 2 else (n + 2) *u32 3 / 2 +u32 Z.land (n + 2) 1) =
      if l_fsty l =? FS_FAT16 then (n + 2) * 2 else ((n + 2) * 3 + 1) / 2) as ->.
    { destruct (l_fsty l =? FS_FAT16); [apply u32_small; unfold is_u32; lia|apply fat12_bytes; lia]. }
    apply Hend; [done| |by apply (clean_upd s)]. destruct (l_fsty l =? FS_FAT16); [lia|]. clear - Ht1 Hn16. Z.div_mod_to_equations. lia.
Qed.
End accept.

(** ** The mounted volume *)

Section result.
Context {D : Type} `{BlockDeviceLaws D} `{!Shl}.
Implicit Types s : St D.

(** Every cluster is free but the one of the root directory, which is empty. *)
Record empty_volume s : Prop := {
  ev_type : 1 <= fs_type (fsys s) <= 3;
  ev_fat : forall c, 2 <= c < n_fatent (fsys s) ->
    fat_entry s c = if (fs_type (fsys s) =? FS_FAT32) && (c =? 2) then 0x0FFFFFFF else 0;
  ev_root : let fs := fsys s in
    let first := if fs_type fs =? FS_FAT32 then database fs else dirbase fs in
    let size := if fs_type fs =? FS_FAT32 then csize fs else database fs - dirbase fs in
    (fs_type fs = FS_FAT32 -> dirbase fs = 2) /\ forall x, first <= x < first + size -> vol s x = zeros (ssize fs)
}.

Lemma vol_medium_clean s x : wflag (fsys s) = 0 -> vol s x = medium (dev s) x.
Proof. intros Hw. unfold vol. by rewrite Hw. Qed.

(** The bytes of a new FAT. *)
Lemma fatb_created s fsty o :
  wflag (fsys s) = 0 -> 512 <= ssize (fsys s) -> 0 <= o < fsize (fsys s) * ssize (fsys s) ->
  filled (ssize (fsys s)) (medium (dev s)) (fat_first (ssize (fsys s)) fsty) (fatbase (fsys s)) (fatbase (fsys s) + fsize (fsys s)) ->
  fatb s o = if o <? 12 then (fat_head fsty (zeros 12)).[o] else 0.
Proof.
  intros Hw Hs Ho Hf. unfold fatb. rewrite vol_medium_clean by done. set (ss := ssize (fsys s)) in *.
  assert (0 <= o / ss < fsize (fsys s)) as Hq by (split; [apply Z.div_pos; lia|apply Z.div_lt_upper_bound; lia]).
  rewrite Hf by lia. destruct (Z.eqb_spec (fatbase (fsys s) + o / ss) (fatbase (fsys s))) as [E|Hne].
  - assert (o / ss = 0) as E0 by lia. apply Z.div_small_iff in E0; [|lia]. assert (0 <= o < ss) as Hos by lia. rewrite Z.mod_small by lia.
    rewrite fat_first_app by lia. pose proof (fat_head_len fsty) as El. unfold zlen in El. unfold getb. destruct (Z.ltb_spec o 12).
    + by rewrite app_nth1 by lia.
    + rewrite app_nth2 by lia. change (nth ?i ?l 0) with (nth i l 0). rewrite nth_lookup. destruct (_ !! _) as [v|] eqn:Ev; [|done].
      apply lookup_replicate_1 in Ev as [-> _]. done.
  - rewrite getb_zeros. destruct (Z.ltb_spec o 12); [|done]. rewrite (Z.div_small o) in Hne by lia. lia.
Qed.

Lemma head_bytes fsty i : 0 <= i < 12 -> (fat_head fsty (zeros 12)).[i] =
  if fsty =? FS_FAT32 then [0xF8; 0xFF; 0xFF; 0xFF; 0xFF; 0xFF; 0xFF; 0xFF; 0xFF; 0xFF; 0xFF; 0x0F].[i]
  else if fsty =? FS_FAT12 then [0xF8; 0xFF; 0xFF].[i] else [0xF8; 0xFF; 0xFF; 0xFF].[i].
Proof.
  intros Hi. unfold fat_head. assert (i = 0 \/ i = 1 \/ i = 2 \/ i = 3 \/ i = 4 \/ i = 5 \/ i = 6 \/ i = 7 \/ i = 8 \/ i = 9 \/ i = 10 \/ i = 11) as Hc by lia.
  destruct (fsty =? FS_FAT32), (fsty =? FS_FAT12); decompose [or] Hc; subst i; done.
Qed.

Lemma fat_created_entries s c :
  (forall o, 0 <= o < fat_bytes (fsys s) -> fatb s o = if o <? 12 then (fat_head (fs_type (fsys s)) (zeros 12)).[o] else 0) ->
  1 <= fs_type (fsys s) <= 3 -> 2 <= c < n_fatent (fsys s) ->
  fat_entry s c = if (fs_type (fsys s) =? FS_FAT32) && (c =? 2) then 0x0FFFFFFF else 0.
Proof.
  intros Hb Ht Hc. unfold fat_entry, entry_of. assert (forall o, 0 <= o < fat_bytes (fsys s) -> 12 <= o -> fatb s o = 0) as Hz.
  { intros o Ho H12. rewrite Hb by done. by rewrite (proj2 (Z.ltb_ge _ _)) by lia. }
  assert (forall o, 0 <= o < fat_bytes (fsys s) -> o < 12 -> fatb s o = (fat_head (fs_type (fsys s)) (zeros 12)).[o]) as Hh.
  { intros o Ho H12. rewrite Hb by done. by rewrite (proj2 (Z.ltb_lt _ _)) by lia. }
  unfold fat_bytes in *. assert (fs_type (fsys s) = 1 \/ fs_type (fsys s) = 2 \/ fs_type (fsys s) = 3) as Hty by lia.
  destruct Hty as [E|[E|E]]; rewrite E in *; unfold FS_FAT12, FS_FAT16, FS_FAT32 in *; cbn [Z.eqb Pos.eqb andb] in *.
  - assert (forall o, 3 <= o < (n_fatent (fsys s) * 3 + 1) / 2 -> fatb s o = 0) as Hall.
    { intros o Ho. destruct (decide (o < 12)); [|apply Hz; lia]. rewrite Hh, head_bytes by lia. cbn [Z.eqb Pos.eqb FS_FAT32 FS_FAT12].
      unfold getb. rewrite nth_overflow; [done|]. cbn. lia. }
    unfold fat12. rewrite !Hall by (clear - Hc; Z.div_mod_to_equations; lia). by destruct (Z.odd c).
  - assert (forall o, 4 <= o < n_fatent (fsys s) * 2 -> fatb s o = 0) as Hall.
    { intros o Ho. destruct (decide (o < 12)); [|apply Hz; lia]. rewrite Hh, head_bytes by lia. cbn [Z.eqb Pos.eqb FS_FAT32 FS_FAT12].
      unfold getb. rewrite nth_overflow; [done|]. cbn. lia. }
    unfold fat16. by rewrite !Hall by lia.
  - unfold fat32. destruct (Z.eqb_spec c 2) as [->|].
    + rewrite !Hh, !head_bytes by lia. done.
    + by rewrite !Hz by lia.
Qed.

(** The members of the filesystem object. *)
Lemma mounted_members e l w fs fsty :
  env_ok e -> layout_ok e l -> vbr_fields e l w -> fat_mounted w (e_ss e) (e_b_vol e) fs fsty ->
  fsize fs = l_sz_fat l /\ n_fats fs = e_n_fat e /\ csize fs = l_pau l /\ n_fatent fs = l_n_clst l + 2 /\ fatbase fs = l_b_fat l /\
  database fs = l_b_fat l + l_sz_fat l * e_n_fat e + l_sz_dir l /\ fsty = l_fsty l /\
  (fsty <> FS_FAT32 -> dirbase fs = l_b_fat l + l_sz_fat l * e_n_fat e).
Proof.
  intros He Hl Hw Hm. destruct (vbr_params e l w He Hl Hw) as (P1 & P2 & P3 & P4 & _). destruct Hw as [_ _ _ V4 V5 V6 _ _ _ _ _].
  destruct Hm as [F1 [F2 _] [F3 _] _ _ _ F7 _ [F9 _] _ F11 F12 [_ F14] _ _ _]. destruct (lo_clst _ _ Hl) as [Hc1 Hc2]. destruct (lo_type _ _ Hl) as (_ & Ht & Hmax).
  rewrite P2, P4, F3, V4, <- Hc2 in F7, F9. rewrite P4 in F12. rewrite V5 in F11. rewrite P1, V6, F11 in F14. rewrite P1 in F1. rewrite V6 in F2. rewrite V4 in F3.
  pose proof (lo_base _ _ Hl) as Eb. destruct (eo_sz_vol _ He) as [_ Hv]. pose proof (eo_b_vol _ He) as Hb. destruct (lo_fat _ _ Hl) as [Hf _]. pose proof (eo_n_fat _ He) as Hnf.
  destruct (lo_rsv _ _ Hl) as [Hr _]. pose proof (sz_dir_nonneg _ _ He Hl) as Hd. destruct (lo_type _ _ Hl) as (Hn1 & _ & _). unfold MAX_FAT32 in Hmax.
  rewrite u32_small in F7 by (unfold is_u32; lia). rewrite u32_small in F11, F12 by (unfold is_u32; lia).
  split_and!; try congruence; [lia|].
  intros Hne. destruct (F14 Hne) as [-> _]. rewrite (u32_small (e_b_vol e + _)), (u32_small (l_sz_fat l * _)), u32_small by (unfold is_u32; lia). lia.
Qed.

Lemma created_empty s e l w :
  env_ok e -> layout_ok e l -> vbr_fields e l w -> fat_written e l (medium (dev s)) -> fat_mounted w (e_ss e) (e_b_vol e) (fsys s) (fs_type (fsys s)) ->
  wflag (fsys s) = 0 -> ssize (fsys s) = e_ss e -> fat_geom (fsys s) -> 1 <= fs_type (fsys s) <= 3 ->
  empty_volume s /\ database (fsys s) + csize (fsys s) * (n_fatent (fsys s) - 2) <= e_b_vol e + e_sz_vol e.
Proof.
  intros He Hl Hw Hwr Hm Hf Hss Hg Ht. destruct (mounted_members e l w _ _ He Hl Hw Hm) as (E1 & E2 & E3 & E4 & E5 & E6 & E7 & E8).
  destruct (sect_size_bounds _ (eo_ss _ He)) as [Hs _]. destruct Hwr as [_ Hfat Hroot]. pose proof (eo_n_fat _ He) as Hnf. split.
  - split; [done| |].
    + intros c Hc. apply fat_created_entries; [|done|done]. intros o Ho. apply fatb_created; [done|lia|pose proof (fg_fits _ Hg); lia|].
      rewrite Hss, E5, E1, E7. specialize (Hfat 0 ltac:(lia)). by replace (l_b_fat l + 0 * l_sz_fat l) with (l_b_fat l) in Hfat by lia;
        replace (l_b_fat l + (0 + 1) * l_sz_fat l) with (l_b_fat l + l_sz_fat l) in Hfat by lia.
    + cbv zeta. split.
      * intros E32. rewrite (fm_root32 _ _ _ _ _ Hm E32). rewrite E7 in E32. by apply (vf_fat32 _ _ _ Hw).
      * intros x Hx. rewrite vol_medium_clean, Hss by done. apply Hroot. rewrite <- E7. destruct (Z.eqb_spec (fs_type (fsys s)) FS_FAT32) as [E|Hne].
        -- rewrite E6, E3 in Hx. pose proof (lo_dir _ _ Hl) as Ed. rewrite <- E7, E in Ed. cbn [Z.eqb Pos.eqb FS_FAT32] in Ed. lia.
        -- rewrite E6, (E8 Hne) in Hx. lia.
  - destruct (lo_clst _ _ Hl) as [Hc1 Hc2]. pose proof (au_cases _ (lo_pau _ _ Hl)). pose proof (lo_base _ _ Hl). rewrite E6, E3, E4.
    replace (l_n_clst l + 2 - 2) with (l_n_clst l) by lia. set (free := e_sz_vol e - _) in *. pose proof (Z.mul_div_le free (l_pau l) ltac:(lia)). rewrite Hc2. unfold free in *. lia.
Qed.

Lemma mount_created s mode Fsid sz_drv :
  @reads_ok D _ -> fs_type (fsys s) = 0 -> zlen (win (fsys s)) = FF_MAX_SS -> bytes (win (fsys s)) -> is_u16 (sector_size (dev s)) ->
  fat_created (sector_size (dev s)) sz_drv (medium (dev s)) ->
  post (mount_fs mode Fsid) s (fun '(r, _) s' => r = FR_OK /\ same_medium (dev s) (dev s') /\ fs_inv s' /\ vol_geom (fsys s') /\ empty_volume s' /\
    database (fsys s') + csize (fsys s') * (n_fatent (fsys s') - 2) <= sz_drv).
Proof.
  intros Hrd Ht Hl Hw Hz Hcr. unfold mount_fs, get_fs, upd_fs, disk_status, disk_initialize.
  mstep. apply post_gets. rewrite Ht. cbn [Z.eqb negb andb]. mstep. apply post_modify. cbn [fsys dev].
  change (has 0 STA_NOINIT) with false. change (has 0 STA_PROTECT) with false. rewrite andb_false_r.
  mstep. apply post_gets. cbn [dev]. rewrite u16_small by done. mstep. apply post_modify. cbn [fsys dev].
  assert (sect_size_ok (sector_size (dev s))) as Hss by (destruct Hcr as (e & l & He & _ & E & _); rewrite <- E; apply He).
  set (ss := sector_size (dev s)) in *. assert ((FF_MAX_SS <? ss) || (ss <? FF_MIN_SS) || negb (pow2_test ss) = false) as -> by (destruct Hss as [->|[->|[->| ->]]]; done).
  mstep. eapply post_mono; [apply find_volume_created; try done|]. cbn [fsys dev]. intros fmt s1 [(C1 & B1 & M1) [-> (e & l & He & Hly & Ess & Hwr & Ev & Hx & Hvf)]].
  cbn [fsys dev] in *. assert (fs_type (fsys s1) = 0) as Ht1 by exact (f_equal fs_type B1). assert (ssize (fsys s1) = ss) as Es1 by exact (f_equal ssize B1).
  cbn [Z.eqb Z.leb Z.compare]. mstep. apply post_gets. rewrite Hx. mstep.
  eapply post_mono; [apply post_conj; [apply (mount_fat_accepts s1 e l); [done|by rewrite Es1, Ess|done..]|apply mount_fat_spec; [done|]]|].
  { rewrite <- Hx. apply C1. }
  cbn beta. intros [r fmt] s2 [[-> ->] [(C2 & M2 & E2 & T2) Hm]]. specialize (Hm eq_refl). rewrite Es1 in *. cbn [fr_ok negb]. mstep. apply post_modify. mstep. cbn [fsys dev].
  assert (1 <= l_fsty l <= 3) as Hty.
  { destruct (lo_type _ _ Hly) as (_ & -> & Hmx). unfold fat_subtype, FS_FAT12, FS_FAT16, FS_FAT32. rewrite (proj2 (Z.leb_le _ MAX_FAT32)) by done. repeat case_match; lia. }
  destruct (mounted_params_geom _ _ _ _ _ (u16 (Fsid + 1)) (or_intror (conj Hty Hm)) (cl_bytes _ C1) Hss E2) as (_ & _ & _ & _ & G5).
  { pose proof (eo_b_vol _ He) as Hb. unfold is_u32, N_SEC_TRACK in *. lia. }
  set (fs' := set_fsid _ _) in *. assert (fs_type fs' = l_fsty l) as Et by (cbn; apply u8_small; unfold is_u8; lia).
  destruct G5 as (X1 & X2 & X3). { unfold sane_volume. rewrite Et. unfold FS_EXFAT. if_false. change ss with (sector_size (dev s)). rewrite <- Ess. by apply (vbr_params e l). }
  destruct (created_empty (mkSt fs' (dev s2)) e l (win (fsys s1))) as [Y1 Y2]; cbn [fsys dev]; try done.
  - eapply fat_written_ext; [exact Hwr|]. intros y. by rewrite (proj2 M2), (proj2 M1).
  - rewrite Et, Ess. destruct Hm. by split.
  - apply C2.
  - by rewrite Ess.
  - by rewrite Et.
  - split_and!; [done|by etrans|apply clean_fs_inv; [by apply (clean_upd s2)|done|done]|done|done|]. cbn [fsys] in Y2. by rewrite <- Ev.
Qed.
End result.

(** ** [f_mkfs], then [mount_volume] *)

Section roundtrip.
Context {D : Type} `{BlockDeviceLaws D} `{!Shl} `{!Heap}.
Implicit Types s : St D.

(** C4: on a drive whose reads do not fail, with options that do not ask for exFAT and align
    the data area to at most 16 sectors, and with a working buffer of at least [FF_MAX_SS]
    bytes, [f_mkfs] returns, with whatever write errors; it changes no sector from the size
    of the drive it was given on; and when it reports success, [mount_volume] of the new
    filesystem object accepts the volume: the invariant and the geometry hold, every cluster but that
    of a FAT32 root directory is free, the root directory is all zeros, and the last cluster
    ends within the drive. *)
Theorem mkfs_mounts path registered opt work heap len s :
  parm_ok opt -> is_u16 (sector_size (dev s)) -> work_ok work heap len (sector_size (dev s)) -> @reads_ok D _ ->
  post (f_mkfs path registered (Some opt) work heap len) s (fun r s' =>
    within s s' (mk_sz_vol opt) /\
    (r = FR_OK -> forall fs mode Fsid, fs_type fs = 0 -> zlen (win fs) = FF_MAX_SS -> bytes (win fs) ->
      post (mount_fs mode Fsid) (mkSt fs (dev s')) (fun '(r2, _) s2 =>
        r2 = FR_OK /\ same_medium (dev s') (dev s2) /\ fs_inv s2 /\ vol_geom (fsys s2) /\ empty_volume s2 /\
        database (fsys s2) + csize (fsys s2) * (n_fatent (fsys s2) - 2) <= mk_sz_vol opt))).
Proof.
  intros Ho Hz Hw Hr. eapply post_mono; [by apply mkfs_fat_spec|]. intros r s' [Hin Hc]. split; [done|].
  intros E fs mode Fsid Hf Hl Hb. destruct (Hin) as [Es _]. rewrite <- Es in Hc, Hz. by apply (mount_created (mkSt fs (dev s'))); auto.
Qed.
End roundtrip.
