(* ===== verification/NtfsTypes.v ===== *)
(** * Types shared by the parts of ntfs-3g

    Error numbers, signed 64-bit integers, whether allocations succeed, and buffers into
    which bytes are stored. *)

From stdpp Require Import prelude.
From Stdlib Require Import ZArith Lia.
From S2P Require Import Prelude.

Local Open Scope Z_scope.

(** The values of [errno] the modelled functions set. *)
Inductive errno := EINVAL | EIO | ENOSPC | ENOMEM | ERANGE | EILSEQ | ENAMETOOLONG | EOVERFLOW | EINTR | EROFS | ESPIPE | ENOENT | EOTHER (e : Z).

Global Instance errno_eq_dec : EqDecision errno.
Proof. solve_decision. Defined.

(** [s64]: two's complement. *)
Definition s64 (x : Z) : Z := (x + 2 ^ 63) mod 2 ^ 64 - 2 ^ 63.
Definition s8 (x : Z) : Z := (x + 2 ^ 7) mod 2 ^ 8 - 2 ^ 7.

Definition is_s64 (x : Z) : Prop := - 2 ^ 63 <= x < 2 ^ 63.

Lemma s64_range x : is_s64 (s64 x).
Proof. unfold is_s64, s64. pose proof (Z.mod_pos_bound (x + 2 ^ 63) (2 ^ 64) ltac:(lia)). lia. Qed.

Lemma s64_small x : is_s64 x -> s64 x = x.
Proof. intros Hx. unfold is_s64, s64 in *. rewrite Z.mod_small by lia. lia. Qed.

Lemma s8_small x : - 2 ^ 7 <= x < 2 ^ 7 -> s8 (u8 x) = x.
Proof.
  intros Hx. unfold s8, u8. rewrite <- Zplus_mod_idemp_l, Z.mod_mod, Zplus_mod_idemp_l, Z.mod_small by lia. lia.
Qed.

(** Whether [malloc] or [realloc] grants a number of bytes. *)
Class Malloc := malloc_ok : Z -> bool.

(** ** Buffers *)

(** [bs] is in the buffer at [p]. *)
Definition at_bytes (l : list Z) (p : Z) (bs : list Z) : Prop := forall j, 0 <= j < zlen bs -> l.[p + j] = bs.[j].

(** [l'] is [l] with [bs] stored at [p]. *)
Record stored (l : list Z) (p : Z) (bs : list Z) (l' : list Z) : Prop := {
  st_len : zlen l' = zlen l;
  st_at : at_bytes l' p bs;
  st_out : forall i, 0 <= i -> ~ p <= i < p + zlen bs -> l'.[i] = l.[i]
}.

Lemma getb_app l k j : 0 <= j -> (l ++ k).[j] = if j <? zlen l then l.[j] else k.[j - zlen l].
Proof.
  intros Hj. unfold getb, zlen. bdestr; [apply app_nth1; lia|]. rewrite app_nth2 by lia. f_equal. lia.
Qed.

Lemma at_bytes_app l p bs bs' : at_bytes l p (bs ++ bs') <-> at_bytes l p bs /\ at_bytes l (p + zlen bs) bs'.
Proof.
  unfold at_bytes. assert (0 <= zlen bs /\ 0 <= zlen bs') as [] by (unfold zlen; lia). rewrite zlen_app. split.
  - intros Ha. split; intros j Hj.
    + rewrite Ha by lia. rewrite getb_app by lia. by if_true.
    + replace (p + zlen bs + j) with (p + (zlen bs + j)) by lia. rewrite Ha, getb_app by lia. if_false. f_equal. lia.
  - intros [Ha Hb] j Hj. rewrite getb_app by lia. bdestr; [apply Ha; lia|]. rewrite <- Hb by lia. f_equal. lia.
Qed.

Lemma stored_nil l p : stored l p [] l.
Proof. split; [done|intros j Hj; unfold zlen in Hj; cbn in Hj; lia|done]. Qed.

Lemma stored_app l p bs l1 bs' l2 :
  0 <= p -> stored l p bs l1 -> stored l1 (p + zlen bs) bs' l2 -> stored l p (bs ++ bs') l2.
Proof.
  intros Hp [L1 A1 O1] [L2 A2 O2]. assert (0 <= zlen bs /\ 0 <= zlen bs') as [] by (unfold zlen; lia). split; [congruence| |].
  - apply at_bytes_app. split; [|done]. intros j Hj. rewrite O2 by lia. by apply A1.
  - intros i Hi Hn. rewrite zlen_app in Hn. rewrite O2, O1 by lia. done.
Qed.

Lemma stored_one l p b : 0 <= p < zlen l -> stored l p [b] (setb l p b).
Proof.
  intros Hp. split; [unfold zlen; by rewrite length_setb| |].
  - intros j Hj. change (zlen [b]) with 1 in Hj. replace j with 0 by lia. rewrite Z.add_0_r. by apply getb_setb_eq.
  - intros i Hi Hn. change (zlen [b]) with 1 in Hn. apply getb_setb_ne; lia.
Qed.

Lemma at_bytes_take l bs : at_bytes l 0 bs -> zlen bs <= zlen l -> take (Z.to_nat (zlen bs)) l = bs.
Proof.
  intros Ha Hl. unfold zlen in *. rewrite Nat2Z.id. apply (nth_ext _ _ 0 0); [rewrite length_take; lia|].
  intros i Hi. rewrite length_take in Hi. specialize (Ha (Z.of_nat i) ltac:(unfold zlen; lia)). unfold getb in Ha. rewrite Z.add_0_l, Nat2Z.id in Ha.
  rewrite nth_firstn. replace (i <? List.length bs)%nat with true by (symmetry; apply Nat.ltb_lt; lia). done.
Qed.

Lemma at_bytes_sub l p bs : 0 <= p -> at_bytes l p bs -> p + zlen bs <= zlen l -> sub l p (zlen bs) = bs.
Proof.
  intros Hp Ha Hl. unfold sub. apply at_bytes_take.
  - intros j Hj. rewrite Z.add_0_l. rewrite <- Ha by done. unfold getb. rewrite !nth_lookup, lookup_drop. do 2 f_equal. lia.
  - unfold zlen in *. rewrite length_drop. lia.
Qed.
