(* ===== verification/Mst.v ===== *)
(** * Multi-sector transfer protection

    [src/ntfs3g/src/ntfs-3g/mst.c].  A record of several sectors carries, in each sector's
    last two bytes, an update sequence number, and in its first sector an array with the
    bytes that number replaced.  A record is the list of its bytes. *)

From stdpp Require Import prelude list.
From Stdlib Require Import ZArith Lia.
From S2P Require Import Prelude Bytes NtfsTypes.

Local Open Scope Z_scope.

Definition NTFS_BLOCK_SIZE := 512.
Definition magic_HOLE := 0x454c4f48.
Definition magic_BAAD := 0x44414142.

(** ** The code *)

(** The members of [NTFS_RECORD]. *)
Definition rec_magic (b : list Z) : Z := ld_dword b 0.
Definition rec_usa_ofs (b : list Z) : Z := ld_word b 4.
Definition rec_usa_count (b : list Z) : Z := ld_word b 6.

Definition is_valid_record (size usa_ofs usa_count : Z) : bool :=
  (size mod NTFS_BLOCK_SIZE =? 0) && (usa_ofs mod 2 =? 0) &&
  (usa_count =? 1 + size / NTFS_BLOCK_SIZE) && (usa_ofs + usa_count * 2 <=? NTFS_BLOCK_SIZE - 2).

(** [while (--usa_count)]: how often the body runs. *)
Definition rounds (usa_count : Z) : nat := Z.to_nat (u16 (usa_count - 1)).

(** The check for incomplete transfers. *)
Fixpoint incomplete (n : nat) (b : list Z) (usn data_pos : Z) : bool :=
  match n with
  | O => false
  | S n => if ld_word b data_pos =? usn then incomplete n b usn (data_pos + NTFS_BLOCK_SIZE) else true
  end.

(** [*data_pos = *(++usa_pos); data_pos += ...] *)
Fixpoint restore (n : nat) (b : list Z) (usa_pos data_pos : Z) : list Z :=
  match n with
  | O => b
  | S n => restore n (st_word b data_pos (ld_word b (usa_pos + 2))) (usa_pos + 2) (data_pos + NTFS_BLOCK_SIZE)
  end.

(** [*(++usa_pos) = *data_pos; *data_pos = le_usn; data_pos += ...] *)
Fixpoint protect (n : nat) (b : list Z) (usn usa_pos data_pos : Z) : list Z :=
  match n with
  | O => b
  | S n =>
      let b := st_word b (usa_pos + 2) (ld_word b data_pos) in
      protect n (st_word b data_pos usn) usn (usa_pos + 2) (data_pos + NTFS_BLOCK_SIZE)
  end.

(** The error, if any, and the record. *)
Definition ntfs_mst_post_read_fixup (b : list Z) (size : Z) : option errno * list Z :=
  let usa_ofs := rec_usa_ofs b in
  let usa_count := rec_usa_count b in
  if negb (is_valid_record size usa_ofs usa_count) then (Some EINVAL, b) else
  let usa_pos := 2 * (usa_ofs / 2) in
  let usn := ld_word b usa_pos in
  if incomplete (rounds usa_count) b usn (NTFS_BLOCK_SIZE - 2) then (Some EIO, st_dword b 0 magic_BAAD) else
  (None, restore (rounds (rec_usa_count b)) b usa_pos (NTFS_BLOCK_SIZE - 2)).

(** The argument [None] is the null pointer. *)
Definition ntfs_mst_pre_write_fixup (p : option (list Z)) (size : Z) : option errno * option (list Z) :=
  match p with
  | None => (Some EINVAL, None)
  | Some b =>
      if (rec_magic b =? magic_BAAD) || (rec_magic b =? magic_HOLE) then (Some EINVAL, Some b) else
      let usa_ofs := rec_usa_ofs b in
      let usa_count := rec_usa_count b in
      if negb (is_valid_record size usa_ofs usa_count) then (Some EINVAL, Some b) else
      let usn := u16 (ld_word b usa_ofs + 1) in
      let usn := if (usn =? 0xFFFF) || (usn =? 0) then 1 else usn in
      let b := st_word b usa_ofs usn in
      (None, Some (protect (rounds usa_count) b usn usa_ofs (NTFS_BLOCK_SIZE - 2)))
  end.

Definition ntfs_mst_post_write_fixup (b : list Z) : list Z :=
  restore (rounds (rec_usa_count b)) b (2 * (rec_usa_ofs b / 2)) (NTFS_BLOCK_SIZE - 2).

(** ** Words *)

Section words.
Context (b : list Z) (Hb : bytes b).

Lemma st_word_len p v : zlen (st_word b p v) = zlen b.
Proof. unfold zlen, st_word. by rewrite length_st_bytes. Qed.

Lemma st_word_bytes p v : bytes (st_word b p v).
Proof. by apply bytes_st_bytes. Qed.

Lemma st_word_out p v i : 0 <= p -> 0 <= i -> ~ p <= i < p + 2 -> (st_word b p v).[i] = b.[i].
Proof. intros Hp Hi Ho. apply getb_st_bytes_out; lia. Qed.

Lemma ld_st_word_apart p q v : 0 <= p -> 0 <= q -> q + 2 <= p \/ p + 2 <= q -> ld_word (st_word b p v) q = ld_word b q.
Proof.
  intros Hp Hq Ho. rewrite !ld_word_le by auto using st_word_bytes. apply le_val_st_bytes_out; cbn; lia.
Qed.

Lemma ld_word_range p : is_u16 (ld_word b p).
Proof. apply u16_range. Qed.
End words.

(** Two words that are equal have equal bytes. *)
Lemma ld_word_inj b b' p q :
  bytes b -> bytes b' -> ld_word b p = ld_word b' q -> b.[p] = b'.[q] /\ b.[p + 1] = b'.[q + 1].
Proof.
  intros Hb Hb'. rewrite !ld_word_le by done. cbn [le_val].
  pose proof (getb_bytes b p Hb). pose proof (getb_bytes b' q Hb').
  pose proof (getb_bytes b (p + 1) Hb). pose proof (getb_bytes b' (q + 1) Hb'). unfold is_u8 in *. lia.
Qed.

Lemma ld_word_agree b b' p q : b.[p] = b'.[q] -> b.[p + 1] = b'.[q + 1] -> ld_word b p = ld_word b' q.
Proof. intros E1 E2. unfold ld_word. by rewrite E1, E2. Qed.

(** ** The loops *)

(** Position [k] of the array and last word of sector [k]. *)
Definition usa_at (u k : Z) : Z := u + 2 + 2 * k.
Definition data_at (d k : Z) : Z := d + NTFS_BLOCK_SIZE * k.

(** [i] is a byte of one of the first [n] words of [f]. *)
Definition in_words (f : Z -> Z) (n : nat) (i : Z) : Prop := exists k, 0 <= k < Z.of_nat n /\ f k <= i < f k + 2.

Lemma protect_spec n b usn u d :
  bytes b -> is_u16 usn -> 0 <= u -> u + 2 + 2 * Z.of_nat n <= d -> d + NTFS_BLOCK_SIZE * (Z.of_nat n - 1) + 2 <= zlen b ->
  let b' := protect n b usn u d in
  zlen b' = zlen b /\ bytes b' /\
  (forall k, 0 <= k < Z.of_nat n -> ld_word b' (usa_at u k) = ld_word b (data_at d k) /\ ld_word b' (data_at d k) = usn) /\
  (forall i, 0 <= i -> ~ in_words (usa_at u) n i -> ~ in_words (data_at d) n i -> b'.[i] = b.[i]).
Proof.
  revert b u d. induction n as [|n IH]; intros b u d Hb Hu Hp Hd Hl b'; unfold NTFS_BLOCK_SIZE in Hl.
  { split_and!; [done..|lia|done]. }
  set (b1 := st_word b (u + 2) (ld_word b d)). set (b2 := st_word b1 d usn).
  assert (bytes b1) as Hb1 by (by apply st_word_bytes). assert (bytes b2) as Hb2 by (by apply st_word_bytes).
  assert (zlen b2 = zlen b) as Hl2 by (unfold b2, b1; by rewrite !st_word_len).
  assert (forall i, 0 <= i -> ~ u + 2 <= i < u + 4 -> ~ d <= i < d + 2 -> b2.[i] = b.[i]) as Hout.
  { intros i Hi H1 H2. unfold b2, b1. rewrite !st_word_out by lia. done. }
  destruct (IH b2 (u + 2) (d + 512)) as (L & B & W & O); [done|done|unfold NTFS_BLOCK_SIZE; lia..|].
  assert (b' = protect n b2 usn (u + 2) (d + 512)) as E by done. rewrite <- E in *.
  assert (forall k, usa_at (u + 2) k = usa_at u (k + 1)) as Eu by (intros; unfold usa_at; lia).
  assert (forall k, data_at (d + 512) k = data_at d (k + 1)) as Ed by (intros; unfold data_at, NTFS_BLOCK_SIZE; lia).
  split_and!; [congruence|done| |].
  - intros k Hk. destruct (decide (k = 0)) as [->|Hk0].
    + assert (forall p, (p = u + 2 \/ p = d) -> ld_word b' p = ld_word b2 p) as Hkeep.
      { intros p Hp'. apply ld_word_agree; apply O; try lia; intros (j & Hj & Hi); unfold usa_at, data_at, NTFS_BLOCK_SIZE in *; lia. }
      unfold usa_at, data_at. rewrite !Z.mul_0_r, !Z.add_0_r. rewrite !Hkeep by auto. unfold b2 at 1 2.
      rewrite ld_st_word_apart, ld_st_word by (done || lia || (unfold b1; rewrite st_word_len; lia)).
      unfold b1. rewrite ld_st_word by (done || lia). unfold u16. rewrite !Z.mod_small; [done|done|apply ld_word_range].
    + destruct (W (k - 1) ltac:(lia)) as [W1 W2]. rewrite Eu, Ed in *. replace (k - 1 + 1) with k in * by lia.
      split; [|done]. rewrite W1. apply ld_word_agree; apply Hout; unfold data_at, NTFS_BLOCK_SIZE; lia.
  - intros i Hi H1 H2. assert (forall f g, (forall k, g k = f (k + 1)) -> ~ in_words f (S n) i -> ~ in_words g n i) as Hsh.
    { intros f g Hfg Hn (k & Hk & Hki). apply Hn. exists (k + 1). rewrite <- Hfg. split; [lia|done]. }
    rewrite O; [|done|by eapply Hsh|by eapply Hsh]. apply Hout; [done|..].
    + intros Hc. apply H1. exists 0. unfold usa_at. split; lia.
    + intros Hc. apply H2. exists 0. unfold data_at. split; lia.
Qed.

Lemma restore_spec n b u d :
  bytes b -> 0 <= u -> u + 2 + 2 * Z.of_nat n <= d -> d + NTFS_BLOCK_SIZE * (Z.of_nat n - 1) + 2 <= zlen b ->
  let b' := restore n b u d in
  zlen b' = zlen b /\ bytes b' /\
  (forall k, 0 <= k < Z.of_nat n -> ld_word b' (data_at d k) = ld_word b (usa_at u k)) /\
  (forall i, 0 <= i -> ~ in_words (data_at d) n i -> b'.[i] = b.[i]).
Proof.
  revert b u d. induction n as [|n IH]; intros b u d Hb Hp Hd Hl b'; unfold NTFS_BLOCK_SIZE in Hl.
  { split_and!; [done..|lia|done]. }
  set (b1 := st_word b d (ld_word b (u + 2))). assert (bytes b1) as Hb1 by (by apply st_word_bytes).
  assert (zlen b1 = zlen b) as Hl1 by (unfold b1; by rewrite st_word_len).
  destruct (IH b1 (u + 2) (d + 512)) as (L & B & W & O); [done|unfold NTFS_BLOCK_SIZE; lia..|].
  assert (b' = restore n b1 (u + 2) (d + 512)) as E by done. rewrite <- E in *.
  assert (forall k, usa_at (u + 2) k = usa_at u (k + 1)) as Eu by (intros; unfold usa_at; lia).
  assert (forall k, data_at (d + 512) k = data_at d (k + 1)) as Ed by (intros; unfold data_at, NTFS_BLOCK_SIZE; lia).
  split_and!; [congruence|done| |].
  - intros k Hk. destruct (decide (k = 0)) as [->|Hk0].
    + unfold usa_at, data_at. rewrite !Z.mul_0_r, !Z.add_0_r.
      transitivity (ld_word b1 d); [|unfold b1; rewrite ld_st_word by (done || lia); apply u16_small, ld_word_range].
      apply ld_word_agree; apply O; try lia; intros (j & Hj & Hi); unfold data_at, NTFS_BLOCK_SIZE in *; lia.
    + specialize (W (k - 1) ltac:(lia)). rewrite Eu, Ed in *. replace (k - 1 + 1) with k in * by lia.
      rewrite W. apply ld_st_word_apart; unfold usa_at; (done || lia).
  - intros i Hi H2. rewrite O; [|done|].
    + apply st_word_out; [lia|done|]. intros Hc. apply H2. exists 0. unfold data_at. split; lia.
    + intros (k & Hk & Hki). apply H2. exists (k + 1). rewrite <- Ed. split; [lia|done].
Qed.

Lemma incomplete_false n b usn d :
  incomplete n b usn d = false <-> forall k, 0 <= k < Z.of_nat n -> ld_word b (data_at d k) = usn.
Proof.
  revert d. induction n as [|n IH]; intros d; cbn [incomplete]; [split; [lia|done]|].
  bdestr.
  - rewrite IH. split.
    + intros Hw k Hk. destruct (decide (k = 0)) as [->|]; [unfold data_at; by rewrite Z.mul_0_r, Z.add_0_r|].
      rewrite <- (Hw (k - 1)) by lia. f_equal. unfold data_at. lia.
    + intros Hw k Hk. rewrite <- (Hw (k + 1)) by lia. f_equal. unfold data_at. lia.
  - split; [done|]. intros Hw. exfalso. apply Hb. rewrite <- (Hw 0) by lia. f_equal. unfold data_at. lia.
Qed.

(** ** Protected records *)

(** A record whose header describes an update sequence array that fits. *)
Record mst_record (b : list Z) (size : Z) : Prop := {
  mr_bytes : bytes b;
  mr_size : zlen b = size;
  mr_pos : 0 < size;
  mr_valid : is_valid_record size (rec_usa_ofs b) (rec_usa_count b) = true
}.

Definition mst_sectors (size : Z) : Z := size / NTFS_BLOCK_SIZE.

(** The update sequence number, and the last word of sector [k]. *)
Definition rec_usn (b : list Z) : Z := ld_word b (rec_usa_ofs b).
Definition sector_end (b : list Z) (k : Z) : Z := ld_word b (data_at (NTFS_BLOCK_SIZE - 2) k).

Lemma mst_layout b size :
  mst_record b size -> let m := mst_sectors size in let u := rec_usa_ofs b in
  size = NTFS_BLOCK_SIZE * m /\ 0 < m < 256 /\ rounds (rec_usa_count b) = Z.to_nat m /\ 2 * (u / 2) = u /\
  0 <= u /\ u + 2 + 2 * m <= NTFS_BLOCK_SIZE - 2 /\ rec_usa_count b = 1 + m.
Proof.
  intros [Hb Hs Hz Hv] m u. unfold is_valid_record in Hv. fold u in Hv. bprop. unfold m, mst_sectors, NTFS_BLOCK_SIZE in *.
  pose proof (ld_word_range b 4) as Hu. fold (rec_usa_ofs b) in Hu. fold u in Hu.
  unfold is_u16 in Hu. assert (0 < size / 512 < 256) by (split; [|lia]; Z.div_mod_to_equations; lia).
  unfold rounds. rewrite u16_small by (unfold is_u16; lia). split_and!; try lia; try (f_equal; lia); Z.div_mod_to_equations; lia.
Qed.

(** The header of a record that agrees with another one before the array. *)
Lemma header_ext b b' : (forall i, 0 <= i < 8 -> b'.[i] = b.[i]) ->
  rec_magic b' = rec_magic b /\ rec_usa_ofs b' = rec_usa_ofs b /\ rec_usa_count b' = rec_usa_count b.
Proof.
  intros He. unfold rec_magic, rec_usa_ofs, rec_usa_count, ld_dword, ld_word. by rewrite !He by lia.
Qed.

(** The sectors of the record all end in its update sequence number. *)
Definition complete (b : list Z) (size : Z) : Prop := forall k, 0 <= k < mst_sectors size -> sector_end b k = rec_usn b.

Lemma post_read_cases b size :
  mst_record b size ->
  (complete b size /\ ntfs_mst_post_read_fixup b size = (None, ntfs_mst_post_write_fixup b)) \/
  (~ complete b size /\ ntfs_mst_post_read_fixup b size = (Some EIO, st_dword b 0 magic_BAAD)).
Proof.
  intros Hr. destruct (mst_layout b size Hr) as (_ & Hm & Er & Eu & _). unfold ntfs_mst_post_read_fixup.
  rewrite (mr_valid _ _ Hr), Er, Eu. cbn [negb]. change (ld_word b (rec_usa_ofs b)) with (rec_usn b).
  unfold ntfs_mst_post_write_fixup. rewrite ?Er, ?Eu. destruct (incomplete _ _ _ _) eqn:E; [right|left]; (split; [|done]).
  - intros Hc. assert (incomplete (Z.to_nat (mst_sectors size)) b (rec_usn b) (NTFS_BLOCK_SIZE - 2) = false) as E'.
    { apply incomplete_false. intros k Hk. apply Hc. lia. }
    congruence.
  - intros k Hk. rewrite incomplete_false in E. apply E. lia.
Qed.

Definition next_usn (usn : Z) : Z := let n := u16 (usn + 1) in if (n =? 0xFFFF) || (n =? 0) then 1 else n.

Lemma next_usn_range usn : 0 < next_usn usn < 0xFFFF.
Proof.
  unfold next_usn. cbn zeta. pose proof (u16_range (usn + 1)) as Hn. unfold is_u16 in Hn. destruct (_ || _) eqn:Eo; bprop; lia.
Qed.

Lemma next_usn_ne usn : is_u16 usn -> next_usn usn <> usn.
Proof.
  intros Hn Heq. unfold next_usn, is_u16, u16 in *. cbn zeta in Heq. destruct (decide (usn + 1 < 2 ^ 16)).
  - rewrite Z.mod_small in Heq by lia. destruct (_ || _) eqn:Eo; bprop; lia.
  - replace usn with (2 ^ 16 - 1) in Heq by lia. discriminate Heq.
Qed.

(** What the protection makes of a record. *)
Lemma pre_write_spec b size :
  mst_record b size -> 8 <= rec_usa_ofs b -> rec_magic b <> magic_BAAD -> rec_magic b <> magic_HOLE ->
  let u := rec_usa_ofs b in let m := mst_sectors size in
  exists b1, ntfs_mst_pre_write_fixup (Some b) size = (None, Some b1) /\ mst_record b1 size /\
    rec_usa_ofs b1 = u /\ rec_usa_count b1 = rec_usa_count b /\ rec_magic b1 = rec_magic b /\
    rec_usn b1 = next_usn (rec_usn b) /\ complete b1 size /\
    (forall k, 0 <= k < m -> ld_word b1 (usa_at u k) = sector_end b k) /\
    (forall i, 0 <= i -> ~ u <= i < u + 2 * (1 + m) -> ~ in_words (data_at (NTFS_BLOCK_SIZE - 2)) (Z.to_nat m) i -> b1.[i] = b.[i]).
Proof.
  intros Hr Hu Hm1 Hm2 u m. destruct (mst_layout b size Hr) as (Es & Hm & Er & _ & Hu0 & Hfit & Ec). fold u m in Es, Hm, Er, Hu0, Hfit, Ec.
  destruct Hr as [Hb Hsz Hz Hv]. fold u in Hu. unfold NTFS_BLOCK_SIZE in Es, Hfit.
  unfold ntfs_mst_pre_write_fixup. rewrite !(proj2 (Z.eqb_neq _ _)) by done. fold u. cbn [orb]. fold u in Hv. rewrite Hv. cbn [negb].
  change (ld_word b u) with (rec_usn b). fold (next_usn (rec_usn b)). set (usn := next_usn (rec_usn b)). rewrite Er.
  assert (is_u16 usn) as Hn by (unfold usn, next_usn; case_match; [done|apply u16_range]).
  assert (bytes (st_word b u usn)) as Hb1 by (by apply st_word_bytes).
  destruct (protect_spec (Z.to_nat m) (st_word b u usn) usn u (NTFS_BLOCK_SIZE - 2)) as (L & B & W & O); try done.
  { unfold NTFS_BLOCK_SIZE. lia. } { rewrite st_word_len. unfold NTFS_BLOCK_SIZE. lia. }
  set (b1 := protect _ _ _ _ _) in *. exists b1.
  assert (forall i, 0 <= i -> ~ u <= i < u + 2 * (1 + m) -> ~ in_words (data_at (NTFS_BLOCK_SIZE - 2)) (Z.to_nat m) i -> b1.[i] = b.[i]) as Hout.
  { intros i Hi H1 H2. rewrite O; [apply st_word_out; lia|done| |done]. intros (k & Hk & Hki). unfold usa_at in Hki. lia. }
  assert (forall i, 0 <= i < 8 -> b1.[i] = b.[i]) as Hh.
  { intros i Hi. apply Hout; [lia|lia|]. intros (k & Hk & Hki). unfold data_at, NTFS_BLOCK_SIZE in Hki. lia. }
  destruct (header_ext b b1 Hh) as (E1 & E2 & E3).
  assert (rec_usn b1 = usn) as En.
  { unfold rec_usn. rewrite E2. fold u. transitivity (ld_word (st_word b u usn) u); [|rewrite ld_st_word by (done || (rewrite ?Hsz; lia)); by apply u16_small].
    apply ld_word_agree; apply O; try lia; intros (k & Hk & Hki); unfold usa_at, data_at, NTFS_BLOCK_SIZE in Hki; lia. }
  split_and!; try done.
  - split; [done|by rewrite L, st_word_len|done|by rewrite E2, E3].
  - intros k Hk. rewrite En. apply W. fold m in Hk. lia.
  - intros k Hk. destruct (W k ltac:(lia)) as [W1 _]. rewrite W1. unfold sector_end.
    apply ld_word_agree; apply st_word_out; unfold data_at, NTFS_BLOCK_SIZE; lia.
Qed.

(** C28: protecting a record and removing the protection again gives the
    record back, through both functions that remove it.  In between, every sector ends in
    the new update sequence number, which is neither 0 nor 0xFFFF and differs from the one
    before. *)
Theorem mst_roundtrip b size :
  mst_record b size -> 8 <= rec_usa_ofs b -> rec_magic b <> magic_BAAD -> rec_magic b <> magic_HOLE ->
  exists b1 b2, ntfs_mst_pre_write_fixup (Some b) size = (None, Some b1) /\
    ntfs_mst_post_read_fixup b1 size = (None, b2) /\ ntfs_mst_post_write_fixup b1 = b2 /\
    complete b1 size /\ 0 < rec_usn b1 < 0xFFFF /\ rec_usn b1 <> rec_usn b /\ zlen b2 = zlen b /\
    forall i, 0 <= i < size -> ~ rec_usa_ofs b <= i < rec_usa_ofs b + 2 * rec_usa_count b -> b2.[i] = b.[i].
Proof.
  intros Hr Hu Hm1 Hm2. destruct (pre_write_spec b size Hr Hu Hm1 Hm2) as (b1 & E & Hr1 & E1 & E2 & E3 & En & Hc & Hw & Ho).
  destruct (mst_layout b size Hr) as (Es & Hm & Er & Eu & Hu0 & Hfit & Ec).
  set (u := rec_usa_ofs b) in *. set (m := mst_sectors size) in *.
  exists b1, (ntfs_mst_post_write_fixup b1). split; [done|].
  destruct (restore_spec (Z.to_nat m) b1 u (NTFS_BLOCK_SIZE - 2)) as (L & B & W & O); [apply Hr1|lia|lia| |].
  { rewrite (mr_size _ _ Hr1), Es. unfold NTFS_BLOCK_SIZE. lia. }
  assert (ntfs_mst_post_write_fixup b1 = restore (Z.to_nat m) b1 u (NTFS_BLOCK_SIZE - 2)) as E4.
  { unfold ntfs_mst_post_write_fixup. by rewrite E1, E2, Er, Eu. }
  rewrite <- E4 in L, B, W, O. set (b2 := ntfs_mst_post_write_fixup b1) in *.
  destruct (post_read_cases b1 size Hr1) as [[_ Ep]|[Hn _]]; [|done]. split_and!; [done..| | | | |].
  - rewrite En. apply next_usn_range.
  - rewrite En. apply next_usn_range.
  - rewrite En. apply next_usn_ne, ld_word_range.
  - by rewrite L, (mr_size _ _ Hr1), (mr_size _ _ Hr).
  - intros i Hi Hni.
    destruct (decide (i mod NTFS_BLOCK_SIZE < NTFS_BLOCK_SIZE - 2)) as [Hlt|Hge].
    + assert (~ in_words (data_at (NTFS_BLOCK_SIZE - 2)) (Z.to_nat m) i) as Hnd.
      { intros (k & Hk & Hki). unfold data_at, NTFS_BLOCK_SIZE in *. Z.div_mod_to_equations. lia. }
      rewrite O by (done || lia). apply Ho; [lia|lia|done].
    + set (k := i / NTFS_BLOCK_SIZE). assert (0 <= k < m) as Hk.
      { unfold k, NTFS_BLOCK_SIZE in *. split; [apply Z.div_pos|apply Z.div_lt_upper_bound]; lia. }
      assert (ld_word b2 (data_at (NTFS_BLOCK_SIZE - 2) k) = ld_word b (data_at (NTFS_BLOCK_SIZE - 2) k)) as Ew.
      { rewrite W by lia. by apply Hw. }
      destruct (ld_word_inj _ _ _ _ B (mr_bytes _ _ Hr) Ew) as [I1 I2].
      assert (i = data_at (NTFS_BLOCK_SIZE - 2) k \/ i = data_at (NTFS_BLOCK_SIZE - 2) k + 1) as Ei; [|by destruct Ei as [Ei|Ei]; rewrite Ei].
      pose proof (Z.div_mod i NTFS_BLOCK_SIZE ltac:(done)) as Hd. fold k in Hd.
      pose proof (Z.mod_pos_bound i NTFS_BLOCK_SIZE ltac:(done)). unfold data_at, NTFS_BLOCK_SIZE in *. lia.
Qed.

(** ** Torn writes *)

(** [m] has each sector from [b0] or from [b1]; [c k] says which. *)
Definition torn (c : Z -> bool) (b0 b1 m : list Z) (size : Z) : Prop :=
  bytes m /\ zlen m = size /\
  forall i, 0 <= i < size -> m.[i] = if c (i / NTFS_BLOCK_SIZE) then b1.[i] else b0.[i].

(** C27: a transfer of a protected record over another one that is cut short
    is noticed: if some sectors on the disk are those of the old record and some those of
    the new one, in any mixture, and the two have different update sequence numbers, then
    the fixup after reading fails, marks the record as bad and restores nothing. *)
Theorem mst_torn_write c b0 b1 m size :
  mst_record b0 size -> mst_record b1 size -> complete b0 size -> complete b1 size -> rec_usn b0 <> rec_usn b1 ->
  torn c b0 b1 m size -> (exists j k, 0 <= j < mst_sectors size /\ 0 <= k < mst_sectors size /\ c j = true /\ c k = false) ->
  exists m', ntfs_mst_post_read_fixup m size = (Some EIO, m') /\ rec_magic m' = magic_BAAD /\
    forall i, 4 <= i -> m'.[i] = m.[i].
Proof.
  intros H0 H1 Hc0 Hc1 Hne (Hm & Hl & Ht) (j & k & Hj & Hk & Cj & Ck).
  assert (forall x d, (x = b0 /\ d = false \/ x = b1 /\ d = true) -> forall q p, 0 <= q < mst_sectors size -> c q = d ->
    NTFS_BLOCK_SIZE * q <= p -> p + 2 <= NTFS_BLOCK_SIZE * (q + 1) -> ld_word m p = ld_word x p) as Hw.
  { intros x d Hx q p Hq Hc Hp1 Hp2. destruct (mst_layout b0 size H0) as (Es & _).
    assert (forall i, p <= i < p + 2 -> m.[i] = x.[i]) as He.
    { intros i Hi. unfold NTFS_BLOCK_SIZE in *. assert (i / 512 = q) as Eq by (symmetry; apply (Z.div_unique_pos _ _ _ (i - 512 * q)); lia).
      rewrite Ht by lia. rewrite Eq, Hc. by destruct Hx as [[-> ->]|[-> ->]]. }
    apply ld_word_agree; apply He; lia. }
  assert (forall x d, (x = b0 /\ d = false \/ x = b1 /\ d = true) -> c 0 = d -> mst_record x size ->
    mst_record m size /\ rec_usn m = rec_usn x) as Hhead.
  { intros x d Hx Hc Hrx. destruct (mst_layout x size Hrx) as (Es & Hm0 & _ & _ & Hu & Hfit & _). unfold NTFS_BLOCK_SIZE in *.
    assert (rec_usa_ofs m = rec_usa_ofs x) as E1 by (apply (Hw x d Hx 0); (done || lia)).
    assert (rec_usa_count m = rec_usa_count x) as E2 by (apply (Hw x d Hx 0); (done || lia)).
    split; [split; [done|done|apply Hrx|rewrite E1, E2; apply Hrx]|]. unfold rec_usn. rewrite E1. apply (Hw x d Hx 0); (done || lia). }
  assert (forall x d q, (x = b0 /\ d = false \/ x = b1 /\ d = true) -> 0 <= q < mst_sectors size -> c q = d ->
    sector_end m q = sector_end x q) as Hend.
  { intros x d q Hx Hq Hc. apply (Hw x d Hx q); try done; unfold data_at, NTFS_BLOCK_SIZE; lia. }
  assert (mst_record m size /\ ~ complete m size) as [Hr Hnc].
  { destruct (c 0) eqn:C0.
    - destruct (Hhead b1 true) as [Hr Eu]; [by right|done..|]. split; [done|]. intros Hc. specialize (Hc k Hk).
      rewrite (Hend b0 false k), Hc0 in Hc by (done || by left). congruence.
    - destruct (Hhead b0 false) as [Hr Eu]; [by left|done..|]. split; [done|]. intros Hc. specialize (Hc j Hj).
      rewrite (Hend b1 true j), Hc1 in Hc by (done || by right). congruence. }
  destruct (post_read_cases m size Hr) as [[? _]|[_ E]]; [done|]. exists (st_dword m 0 magic_BAAD).
  destruct (mst_layout m size Hr) as (Es & Hm0 & _). unfold NTFS_BLOCK_SIZE in Es. split_and!; [done| |].
  - unfold rec_magic. rewrite ld_st_dword by (done || lia). done.
  - intros i Hi. apply getb_st_bytes_out; lia.
Qed.
