(* ===== verification/Runlist.v ===== *)
(** * Runlists

    [src/ntfs3g/src/ntfs-3g/runlist.c]: the mapping of the clusters of an attribute (VCNs)
    to clusters of the volume (LCNs), its operations, and its encoding on disk as mapping
    pairs.

    A runlist is the list of its elements up to and including the terminator, the element
    of length 0; [None] is the null pointer.  Indices into the array are natural numbers.
    Signed overflow, undefined in C, wraps around in the model. *)

From stdpp Require Import prelude list.
From Stdlib Require Import ZArith Lia.
From S2P Require Import Prelude Bytes NtfsTypes.

Local Open Scope Z_scope.

Record runlist_element := mkRun { vcn : Z; lcn : Z; length : Z }.

Definition LCN_HOLE := -1.
Definition LCN_RL_NOT_MAPPED := -2.
Definition LCN_ENOENT := -3.
Definition LCN_EINVAL := -4.

Global Instance runlist_element_eq_dec : EqDecision runlist_element.
Proof. solve_decision. Defined.

Abbreviation runlist := (list runlist_element).

(** An element that was never written. *)
Definition no_run : runlist_element := mkRun 0 0 0.

(** [rl[i]] and stores to its members. *)
Definition run_at (rl : runlist) (i : nat) : runlist_element := nth i rl no_run.

(** Elements stored at consecutive indices, past the end of what was written so far
    possibly. *)
Definition put_runs (rl : runlist) (i : nat) (rs : runlist) : runlist :=
  take i (rl ++ replicate (i - List.length rl) no_run) ++ rs ++ drop (i + List.length rs) rl.

Definition set_vcn (rl : runlist) (i : nat) (v : Z) : runlist :=
  put_runs rl i [mkRun v (lcn (run_at rl i)) (length (run_at rl i))].
Definition set_lcn (rl : runlist) (i : nat) (v : Z) : runlist :=
  put_runs rl i [mkRun (vcn (run_at rl i)) v (length (run_at rl i))].
Definition set_length (rl : runlist) (i : nat) (v : Z) : runlist :=
  put_runs rl i [mkRun (vcn (run_at rl i)) (lcn (run_at rl i)) v].

(** ** Merging *)

Definition ntfs_rl_mm (base : runlist) (dst src : nat) (size : Z) : runlist :=
  if negb (Nat.eqb dst src) && (0 <? size) then put_runs base dst (take (Z.to_nat size) (drop src base)) else base.

Definition ntfs_rl_mc (dstbase : runlist) (dst : nat) (srcbase : runlist) (src : nat) (size : Z) : runlist :=
  if 0 <? size then put_runs dstbase dst (take (Z.to_nat size) (drop src srcbase)) else dstbase.

Definition ntfs_rl_are_mergeable (dst src : runlist_element) : bool :=
  if (lcn dst =? LCN_RL_NOT_MAPPED) && (lcn src =? LCN_RL_NOT_MAPPED) then true else
  if negb (s64 (vcn dst + length dst) =? vcn src) then false else
  if (0 <=? lcn dst) && (0 <=? lcn src) && (s64 (lcn dst + length dst) =? lcn src) then true else
  if (lcn dst =? LCN_HOLE) && (lcn src =? LCN_HOLE) then true else
  false.

(** [__ntfs_rl_merge]: the length of element [i] grows by that of [src]. *)
Definition ntfs_rl_merge (rl : runlist) (i : nat) (src : runlist_element) : runlist :=
  set_length rl i (s64 (length (run_at rl i) + length src)).

Section alloc.
Context `{!Malloc}.

(** Whether [ntfs_rl_realloc] has the memory for [new_size] elements of 24 bytes. *)
Definition ntfs_rl_realloc (old_size new_size : Z) : bool :=
  let old_size := Z.land (old_size * 24 + 0xfff) (Z.lnot 0xfff) in
  let new_size := Z.land (new_size * 24 + 0xfff) (Z.lnot 0xfff) in
  if old_size =? new_size then true else malloc_ok new_size.

(** The results [None] are the null pointers. *)
Definition ntfs_rl_append (dst : runlist) (dsize : nat) (src : runlist) (ssize loc : nat) : option runlist :=
  let right := if (loc + 1 <? dsize)%nat
    then ntfs_rl_are_mergeable (run_at src (ssize - 1)) (run_at dst (loc + 1)) else false in
  if negb (ntfs_rl_realloc (Z.of_nat dsize) (Z.of_nat dsize + Z.of_nat ssize - Z.b2z right)) then None else
  let src := if right then ntfs_rl_merge src (ssize - 1) (run_at dst (loc + 1)) else src in
  let marker := (loc + ssize + 1)%nat in
  let r := if right then 1%nat else 0%nat in
  let dst := ntfs_rl_mm dst marker (loc + 1 + r) (Z.of_nat dsize - Z.of_nat loc - 1 - Z.of_nat r) in
  let dst := ntfs_rl_mc dst (loc + 1) src 0 (Z.of_nat ssize) in
  let dst := set_length dst loc (s64 (vcn (run_at dst (loc + 1)) - vcn (run_at dst loc))) in
  Some (if lcn (run_at dst marker) =? LCN_ENOENT
        then set_vcn dst marker (s64 (vcn (run_at dst (marker - 1)) + length (run_at dst (marker - 1)))) else dst).

Definition ntfs_rl_insert (dst : runlist) (dsize : nat) (src : runlist) (ssize loc : nat) : option runlist :=
  let '(lft, disc) :=
    if Nat.eqb loc 0 then (false, 0 <? vcn (run_at src 0)) else
    let lft := ntfs_rl_are_mergeable (run_at dst (loc - 1)) (run_at src 0) in
    let merged_length := length (run_at dst (loc - 1)) in
    let merged_length := if lft then s64 (merged_length + length (run_at src 0)) else merged_length in
    (lft, s64 (vcn (run_at dst (loc - 1)) + merged_length) <? vcn (run_at src 0)) in
  let l := if lft then 1%nat else 0%nat in
  let d := if disc then 1%nat else 0%nat in
  if negb (ntfs_rl_realloc (Z.of_nat dsize) (Z.of_nat dsize + Z.of_nat ssize - Z.b2z lft + Z.b2z disc)) then None else
  let dst := if lft then ntfs_rl_merge dst (loc - 1) (run_at src 0) else dst in
  let marker := (loc + ssize - l + d)%nat in
  let dst := ntfs_rl_mm dst marker loc (Z.of_nat dsize - Z.of_nat loc) in
  let dst := ntfs_rl_mc dst (loc + d) src l (Z.of_nat ssize - Z.of_nat l) in
  let dst := set_vcn dst marker (s64 (vcn (run_at dst (marker - 1)) + length (run_at dst (marker - 1)))) in
  let dst := if (lcn (run_at dst marker) =? LCN_HOLE) || (lcn (run_at dst marker) =? LCN_RL_NOT_MAPPED)
    then set_length dst marker (s64 (vcn (run_at dst (marker + 1)) - vcn (run_at dst marker))) else dst in
  Some (if disc then
    let dst := if (0 <? loc)%nat then
        let dst := set_vcn dst loc (s64 (vcn (run_at dst (loc - 1)) + length (run_at dst (loc - 1)))) in
        set_length dst loc (s64 (vcn (run_at dst (loc + 1)) - vcn (run_at dst loc)))
      else
        let dst := set_vcn dst loc 0 in
        set_length dst loc (vcn (run_at dst (loc + 1))) in
    set_lcn dst loc LCN_RL_NOT_MAPPED
  else dst).

Definition ntfs_rl_replace (dst : runlist) (dsize : nat) (src : runlist) (ssize loc : nat) : option runlist :=
  let right := if (loc + 1 <? dsize)%nat
    then ntfs_rl_are_mergeable (run_at src (ssize - 1)) (run_at dst (loc + 1)) else false in
  let left := if (0 <? loc)%nat then ntfs_rl_are_mergeable (run_at dst (loc - 1)) (run_at src 0) else false in
  let delta := Z.of_nat ssize - 1 - Z.b2z left - Z.b2z right in
  if (0 <? delta) && negb (ntfs_rl_realloc (Z.of_nat dsize) (Z.of_nat dsize + delta)) then None else
  let src := if right then ntfs_rl_merge src (ssize - 1) (run_at dst (loc + 1)) else src in
  let dst := if left then ntfs_rl_merge dst (loc - 1) (run_at src 0) else dst in
  let l := if left then 1%nat else 0%nat in
  let r := if right then 1%nat else 0%nat in
  let tail := (loc + r + 1)%nat in
  let marker := (loc + ssize - l)%nat in
  let dst := ntfs_rl_mm dst marker tail (Z.of_nat dsize - Z.of_nat tail) in
  let dst := ntfs_rl_mc dst loc src l (Z.of_nat ssize - Z.of_nat l) in
  Some (if (tail <? dsize)%nat && (lcn (run_at dst marker) =? LCN_ENOENT)
        then set_vcn dst marker (s64 (vcn (run_at dst (marker - 1)) + length (run_at dst (marker - 1)))) else dst).

Definition ntfs_rl_split (dst : runlist) (dsize : nat) (src : runlist) (ssize loc : nat) : option runlist :=
  if negb (ntfs_rl_realloc (Z.of_nat dsize) (Z.of_nat dsize + Z.of_nat ssize + 1)) then None else
  let dst := ntfs_rl_mm dst (loc + 1 + ssize) loc (Z.of_nat dsize - Z.of_nat loc) in
  let dst := ntfs_rl_mc dst (loc + 1) src 0 (Z.of_nat ssize) in
  let dst := set_length dst loc (s64 (vcn (run_at dst (loc + 1)) - vcn (run_at dst loc))) in
  let dst := set_vcn dst (loc + ssize + 1) (s64 (vcn (run_at dst (loc + ssize)) + length (run_at dst (loc + ssize)))) in
  Some (set_length dst (loc + ssize + 1) (s64 (vcn (run_at dst (loc + ssize + 2)) - vcn (run_at dst (loc + ssize + 1))))).

(** [for (i = ...; rl[i].length; i++);] *)
Fixpoint zero_at (rl : runlist) : nat :=
  match rl with
  | [] => 0
  | r :: rl => if length r =? 0 then 0 else S (zero_at rl)
  end.
Definition rl_end (rl : runlist) (i : nat) : nat := (i + zero_at (drop i rl))%nat.

(** The unmapped start elements: [while (srl[si].length && srl[si].lcn < LCN_HOLE) si++]. *)
Fixpoint skip_unmapped (rl : runlist) : nat :=
  match rl with
  | [] => 0
  | r :: rl => if negb (length r =? 0) && (lcn r <? LCN_HOLE) then S (skip_unmapped rl) else 0
  end.

(** [for (; drl[di].length; di++) if (drl[di].vcn + drl[di].length > v) break;] *)
Fixpoint insert_pos (rl : runlist) (v : Z) : nat :=
  match rl with
  | [] => 0
  | r :: rl => if length r =? 0 then 0 else if v <? s64 (vcn r + length r) then 0 else S (insert_pos rl v)
  end.

(** [for (f = i; f >= 0 && rl[f].lcn < LCN_HOLE; f--);] *)
Fixpoint last_mapped (rl : runlist) (i : nat) : Z :=
  if lcn (run_at rl i) <? LCN_HOLE then match i with O => -1 | S i => last_mapped rl i end else Z.of_nat i.

(** [MCrash] is the segmentation fault the code forces when it cannot go on. *)
Inductive merge_result := Merged (rl : option runlist) | MFail (e : errno) | MCrash.

(** The end marker of a source that ends after the destination. *)
Definition merge_marker (drl : runlist) (dend : nat) (marker_vcn : Z) : merge_result :=
  let ds := rl_end drl dend in
  if vcn (run_at drl ds) <=? marker_vcn then
    if vcn (run_at drl ds) =? marker_vcn then Merged (Some (set_lcn drl ds LCN_ENOENT)) else
    let '(ds, slots) := if lcn (run_at drl ds) =? LCN_ENOENT then ((ds - 1)%nat, 1) else (ds, 0) in
    let '(ok, drl, ds, slots) :=
      if negb (lcn (run_at drl ds) =? LCN_RL_NOT_MAPPED) then
        let '(ok, slots) := if slots =? 0 then (ntfs_rl_realloc (Z.of_nat ds) (Z.of_nat ds + 2), 2) else (true, slots) in
        let ds := S ds in
        let drl := if negb (slots =? 1)
          then set_vcn drl ds (s64 (vcn (run_at drl (ds - 1)) + length (run_at drl (ds - 1)))) else drl in
        (ok, set_lcn drl ds LCN_RL_NOT_MAPPED, ds, slots - 1)
      else (true, drl, ds, slots) in
    if negb ok then MCrash else
    let drl := set_length drl ds (s64 (marker_vcn - vcn (run_at drl ds))) in
    let ds := S ds in
    if (slots =? 0) && negb (ntfs_rl_realloc (Z.of_nat ds) (Z.of_nat ds + 1)) then MCrash else
    Merged (Some (put_runs drl ds [mkRun marker_vcn LCN_ENOENT 0]))
  else Merged (Some drl).

Definition ntfs_runlists_merge_i (drl srl : option runlist) : merge_result :=
  match srl, drl with
  | None, _ => Merged drl
  | Some srl, None =>
      if negb (vcn (run_at srl 0) =? 0) then
        let dend := S (rl_end srl 0) in
        if negb (ntfs_rl_realloc (Z.of_nat dend) (Z.of_nat dend + 1)) then MFail ENOMEM else
        let drl := ntfs_rl_mm srl 1 0 (Z.of_nat dend) in
        Merged (Some (put_runs drl 0 [mkRun 0 LCN_RL_NOT_MAPPED (vcn (run_at drl 1))]))
      else Merged (Some srl)
  | Some srl, Some drl =>
      let si := skip_unmapped srl in
      if length (run_at srl si) =? 0 then MFail EINVAL else
      let sstart := si in
      let dins := insert_pos drl (vcn (run_at srl sstart)) in
      let d := run_at drl dins in
      if (vcn d =? vcn (run_at srl si)) && (0 <=? lcn d) && (0 <=? lcn (run_at srl si)) then MFail ERANGE else
      let send := rl_end srl si in
      let dend := rl_end drl dins in
      let '(marker, marker_vcn) :=
        if lcn (run_at srl send) =? LCN_ENOENT then (send, vcn (run_at srl send)) else (0%nat, 0) in
      let sfinal := last_mapped srl send in
      let ds := S dend in
      let ss := sfinal - Z.of_nat sstart + 1 in
      let slast := run_at srl (send - 1) in
      let start := (lcn d <? LCN_RL_NOT_MAPPED) || (vcn d =? vcn (run_at srl sstart)) in
      let finish := (LCN_RL_NOT_MAPPED <=? lcn d) && (s64 (vcn d + length d) <=? s64 (vcn slast + length slast)) in
      let ss := if finish && (length d =? 0) then ss + 1 else ss in
      let finish := if negb (Nat.eqb marker 0) && (vcn slast <? s64 (vcn d + length d)) then false else finish in
      let src := drop sstart srl in
      let drl := (if start then if finish then ntfs_rl_replace else ntfs_rl_insert
                  else if finish then ntfs_rl_append else ntfs_rl_split) drl ds src (Z.to_nat ss) dins in
      match drl with
      | None => MFail ENOMEM
      | Some drl => if Nat.eqb marker 0 then Merged (Some drl) else merge_marker drl dend marker_vcn
      end
  end.

(** [rl] is the element [irl] of the list [na->rl], and again after the list may have moved. *)
Definition ntfs_rl_extend (na_rl : option runlist) (rl : option nat) (more_entries : Z) : nat + errno :=
  match na_rl, rl with
  | Some na_rl, Some irl =>
      let last := Z.of_nat (rl_end na_rl irl) in
      if ntfs_rl_realloc (last + 1) (last + more_entries + 1) then inl irl else inr ENOMEM
  | _, _ => inr EIO
  end.

Definition ntfs_runlists_merge (drl srl : option runlist) : merge_result := ntfs_runlists_merge_i drl srl.
End alloc.

(** ** Lookup *)

Fixpoint vcn_to_lcn (rl : runlist) (v : Z) : Z :=
  match rl with
  | [] => LCN_ENOENT
  | r :: rl =>
      if length r =? 0 then if lcn r <? 0 then lcn r else LCN_ENOENT
      else if v <? vcn (run_at rl 0) then if 0 <=? lcn r then s64 (lcn r + (v - vcn r)) else lcn r
      else vcn_to_lcn rl v
  end.

Definition ntfs_rl_vcn_to_lcn (rl : option runlist) (v : Z) : Z :=
  if v <? 0 then LCN_EINVAL else
  match rl with
  | None => LCN_RL_NOT_MAPPED
  | Some rl => if v <? vcn (run_at rl 0) then LCN_ENOENT else vcn_to_lcn rl v
  end.

(** ** Mapping pairs *)

(** [do { i++; l >>= 8; } while (l);] *)
Fixpoint significant (fuel : nat) (l i : Z) : Z :=
  match fuel with
  | O => i
  | S fuel => let i := i + 1 in let l := Z.shiftr l 8 in if l =? 0 then i else significant fuel l i
  end.

Definition ntfs_get_nr_significant_bytes (n : Z) : Z :=
  let l := if n <? 0 then Z.lnot n else n in
  if 128 <=? l then significant 9 (Z.shiftr l 7) 1 else 1.

Definition stores_lcn (major_ver : Z) (r : runlist_element) : bool := (0 <=? lcn r) || (major_ver <? 3).

Definition bad_run (r : runlist_element) : bool := (length r <? 0) || (lcn r <? LCN_HOLE).
Definition run_error (r : runlist_element) : errno := if lcn r =? LCN_RL_NOT_MAPPED then EINVAL else EIO.

(** [while (rl->length && start_vcn >= rl[1].vcn) rl++;] *)
Fixpoint skip_to (rl : runlist) (start_vcn : Z) : runlist :=
  match rl with
  | [] => []
  | r :: rl' => if negb (length r =? 0) && (vcn (run_at rl' 0) <=? start_vcn) then skip_to rl' start_vcn else rl
  end.

(** The full runs. *)
Fixpoint size_runs (major_ver : Z) (rl : runlist) (max_size prev_lcn rls : Z) : Z + errno :=
  match rl with
  | [] => inl rls
  | r :: rl =>
      if negb (length r =? 0) && (rls <=? max_size) then
        if bad_run r then inr (run_error r) else
        let rls := rls + 1 + ntfs_get_nr_significant_bytes (length r) in
        if stores_lcn major_ver r
        then size_runs major_ver rl max_size (lcn r) (rls + ntfs_get_nr_significant_bytes (s64 (lcn r - prev_lcn)))
        else size_runs major_ver rl max_size prev_lcn rls
      else inl rls
  end.

Definition ntfs_get_size_for_mapping_pairs (major_ver : Z) (rl : option runlist) (start_vcn max_size : Z) : Z + errno :=
  if start_vcn <? 0 then inr EINVAL else
  match rl with
  | None => if negb (start_vcn =? 0) then inr EINVAL else inl 1
  | Some rl =>
      let rl := skip_to rl start_vcn in
      let r := run_at rl 0 in
      if ((length r =? 0) && (vcn r <? start_vcn)) || (start_vcn <? vcn r) then inr EINVAL else
      if vcn r <? start_vcn then
        if bad_run r then inr (run_error r) else
        let delta := s64 (start_vcn - vcn r) in
        let rls := 1 + 1 + ntfs_get_nr_significant_bytes (s64 (length r - delta)) in
        if stores_lcn major_ver r then
          let prev_lcn := if 0 <=? lcn r then s64 (lcn r + delta) else lcn r in
          size_runs major_ver (drop 1 rl) max_size prev_lcn (rls + ntfs_get_nr_significant_bytes prev_lcn)
        else size_runs major_ver (drop 1 rl) max_size 0 rls
      else size_runs major_ver rl max_size 0 1
  end.

(** The [while] loop; a 64-bit number needs at most seven rounds. *)
Fixpoint write_more (fuel : nat) (buf : list Z) (dst dst_max l i : Z) : Z * list Z :=
  match fuel with
  | O => (i, buf)
  | S fuel =>
      if (0x7f <? l) || (l <? -0x80) then
        if dst_max <? dst then (-1, buf) else
        let l := Z.shiftr l 8 in
        write_more fuel (setb buf dst (u8 l)) (dst + 1) dst_max l (i + 1)
      else (i, buf)
  end.

(** [dst] and [dst_max] are indices into [buf]; the result -1 is [ENOSPC]. *)
Definition ntfs_write_significant_bytes (buf : list Z) (dst dst_max n : Z) : Z * list Z :=
  if dst_max <? dst then (-1, buf) else write_more 8 (setb buf dst (u8 n)) (dst + 1) dst_max n 1.

(** The error, if any, the buffer, and what is stored in [*stop_rl], if anything. *)
Definition build_result : Type := option errno * list Z * option (option runlist).

(** A run of [len] clusters; [delta] is the change of the LCN if it is stored.  The new
    position in the buffer, or [ENOSPC]. *)
Definition build_run (buf : list Z) (dst dst_max len : Z) (delta : option Z) : option Z * list Z :=
  let '(len_len, buf) := ntfs_write_significant_bytes buf (dst + 1) dst_max len in
  if len_len <? 0 then (None, buf) else
  let '(lcn_len, buf) := match delta with
    | Some delta => ntfs_write_significant_bytes buf (dst + 1 + len_len) dst_max delta
    | None => (0, buf)
    end in
  if lcn_len <? 0 then (None, buf) else
  let dst_next := dst + len_len + lcn_len + 1 in
  if dst_max <? dst_next then (None, buf) else
  (Some dst_next, setb buf dst (Z.lor (Z.shiftl lcn_len 4) len_len)).

Fixpoint build_runs (major_ver : Z) (rl : runlist) (buf : list Z) (dst dst_max prev_lcn : Z) : build_result :=
  match rl with
  | [] => (None, setb buf dst 0, Some (Some []))
  | r :: rl' =>
      if length r =? 0 then (None, setb buf dst 0, Some (Some rl)) else
      if bad_run r then (Some (run_error r), buf, None) else
      match build_run buf dst dst_max (length r)
              (if stores_lcn major_ver r then Some (s64 (lcn r - prev_lcn)) else None) with
      | (None, buf) => (Some ENOSPC, setb buf dst 0, Some (Some rl))
      | (Some dst, buf) => build_runs major_ver rl' buf dst dst_max (if stores_lcn major_ver r then lcn r else prev_lcn)
      end
  end.

Definition ntfs_mapping_pairs_build (major_ver : Z) (buf : list Z) (dst_len : Z) (rl : option runlist) (start_vcn : Z) :
    build_result :=
  if start_vcn <? 0 then (Some EINVAL, buf, None) else
  match rl with
  | None =>
      if negb (start_vcn =? 0) then (Some EINVAL, buf, None) else
      if dst_len <? 1 then (Some ENOSPC, buf, Some None) else (None, setb buf 0 0, Some None)
  | Some rl =>
      let rl := skip_to rl start_vcn in
      let r := run_at rl 0 in
      if ((length r =? 0) && (vcn r <? start_vcn)) || (start_vcn <? vcn r) then (Some EINVAL, buf, None) else
      let dst_max := dst_len - 1 in
      if vcn r <? start_vcn then
        if bad_run r then (Some (run_error r), buf, None) else
        let delta := s64 (start_vcn - vcn r) in
        let lcn1 := if 0 <=? lcn r then s64 (lcn r + delta) else lcn r in
        match build_run buf 0 dst_max (s64 (length r - delta)) (if stores_lcn major_ver r then Some lcn1 else None) with
        | (None, buf) => (Some ENOSPC, setb buf 0 0, Some (Some rl))
        | (Some dst, buf) => build_runs major_ver (drop 1 rl) buf dst dst_max (if stores_lcn major_ver r then lcn1 else 0)
        end
      else build_runs major_ver rl buf 0 dst_max 0
  end.

(** The members of [ATTR_RECORD]; [attr] is the memory from the record on. *)
Definition attr_length (attr : list Z) : Z := ld_dword attr 4.
Definition attr_non_resident (attr : list Z) : Z := attr.[8].
Definition attr_lowest_vcn (attr : list Z) : Z := s64 (ld_qword attr 16).
Definition attr_highest_vcn (attr : list Z) : Z := s64 (ld_qword attr 24).
Definition attr_mapping_pairs_offset (attr : list Z) : Z := ld_word attr 32.
Definition attr_allocated_size (attr : list Z) : Z := s64 (ld_qword attr 40).

(** [for (x = (s8)buf[b--]; b > b2; b--) x = (x << 8) + buf[b];] *)
Fixpoint delta_more (n : nat) (attr : list Z) (pos x : Z) : Z :=
  match n with
  | O => x
  | S n => delta_more n attr (pos - 1) (s64 (Z.shiftl x 8 + attr.[pos]))
  end.
Definition read_delta (attr : list Z) (buf b b2 : Z) : Z :=
  delta_more (Z.to_nat (b - b2 - 1)) attr (buf + b - 1) (s8 attr.[buf + b]).

Section decompress.
Context `{!Malloc}.

(** The loop over the pairs: the position after them, the list, its index and the VCN. *)
Fixpoint read_pairs (fuel : nat) (attr : list Z) (attr_end buf : Z) (rl : runlist) (rlpos rlsize v l : Z) :
    Z * runlist * Z * Z + errno :=
  match fuel with
  | O => inl (buf, rl, rlpos, v)
  | S fuel =>
      if negb ((buf <? attr_end) && negb (attr.[buf] =? 0)) then inl (buf, rl, rlpos, v) else
      let more := rlsize <? (rlpos + 3) * 24 in
      let rlsize := if more then rlsize + 0x1000 else rlsize in
      if more && negb (malloc_ok rlsize) then inr ENOMEM else
      let b := Z.land attr.[buf] 0xf in
      if negb (b =? 0) && (attr_end <? buf + b) then inr EIO else
      let deltaxcn := if negb (b =? 0) then read_delta attr buf b 0 else -1 in
      if deltaxcn <? 0 then inr EIO else
      let v' := s64 (v + deltaxcn) in
      let b2 := b + Z.land (Z.shiftr attr.[buf] 4) 0xf in
      let next l lcn' :=
        read_pairs fuel attr attr_end (buf + b2 + 1)
          (put_runs rl (Z.to_nat rlpos) [mkRun v lcn' deltaxcn]) (u16 (rlpos + 1)) rlsize v' l in
      if Z.land attr.[buf] 0xf0 =? 0 then next l LCN_HOLE else
      if attr_end <? buf + b2 then inr EIO else
      let l' := s64 (l + read_delta attr buf b2 b) in
      if l' <? -1 then inr EIO else next l' l'
  end.

Definition ntfs_mapping_pairs_decompress_i (cluster_size cluster_size_bits : Z) (attr : list Z) (old_rl : option runlist) :
    merge_result :=
  if (attr_non_resident attr =? 0) || (attr_lowest_vcn attr <? 0) then MFail EINVAL else
  let v := attr_lowest_vcn attr in
  let buf := attr_mapping_pairs_offset attr in
  let attr_end := attr_length attr in
  if attr_end <? buf then MFail EIO else
  if negb (malloc_ok 0x1000) then MFail ENOMEM else
  let '(rl, rlpos) := if negb (v =? 0) then ([mkRun 0 LCN_RL_NOT_MAPPED v], 1) else ([], 0) in
  match read_pairs (S (Z.to_nat (attr_end - buf))) attr attr_end buf rl rlpos 0x1000 v 0 with
  | inr e => MFail e
  | inl (buf, rl, rlpos, v) =>
      if attr_end <=? buf then MFail EIO else
      let highest := attr_highest_vcn attr in
      if negb (highest =? 0) && negb (s64 (v - 1) =? highest) then MFail EIO else
      let num_clusters := Z.shiftr (s64 (attr_allocated_size attr + cluster_size - 1)) cluster_size_bits in
      let base := attr_lowest_vcn attr =? 0 in
      if base && (num_clusters <? v) then MFail EIO else
      let '(rl, rlpos, v) := if base && (v <? num_clusters)
        then (put_runs rl (Z.to_nat rlpos) [mkRun v LCN_RL_NOT_MAPPED (s64 (num_clusters - v))], u16 (rlpos + 1), num_clusters)
        else (rl, rlpos, v) in
      let rl := put_runs rl (Z.to_nat rlpos) [mkRun v (if base then LCN_ENOENT else LCN_RL_NOT_MAPPED) 0] in
      match old_rl with
      | None => Merged (Some rl)
      | Some _ => ntfs_runlists_merge old_rl (Some rl)
      end
  end.

Definition ntfs_mapping_pairs_decompress := ntfs_mapping_pairs_decompress_i.
End decompress.

(** ** The rest *)

(** The elements before the run that [start_vcn] cuts stay. *)
Fixpoint truncate_at (rl : runlist) (start_vcn : Z) : option runlist :=
  match rl with
  | [] => None
  | r :: rl' =>
      if length r =? 0 then None else
      if start_vcn <? vcn (run_at rl' 0) then
        let len := s64 (start_vcn - vcn r) in
        Some (if len =? 0 then mkRun (vcn r) LCN_ENOENT 0 :: rl'
              else mkRun (vcn r) (lcn r) len :: mkRun start_vcn LCN_ENOENT 0 :: drop 1 rl')
      else cons r <$> truncate_at rl' start_vcn
  end.

Definition ntfs_rl_truncate (arl : option runlist) (start_vcn : Z) : option errno * option runlist :=
  match arl with
  | None => (Some EINVAL, None)
  | Some rl =>
      if start_vcn <? vcn (run_at rl 0) then (Some EINVAL, arl) else
      match truncate_at rl start_vcn with
      | None => (Some EIO, arl)
      | Some rl => (None, Some rl)
      end
  end.

Fixpoint rl_sparse (rl : runlist) : Z + errno :=
  match rl with
  | [] => inl 0
  | r :: rl =>
      if length r =? 0 then inl 0 else
      if lcn r <? 0 then if negb (lcn r =? LCN_HOLE) then inr EINVAL else inl 1
      else rl_sparse rl
  end.
Definition ntfs_rl_sparse (rl : option runlist) : Z + errno := match rl with None => inr EINVAL | Some rl => rl_sparse rl end.

Fixpoint compressed_length (rl : runlist) (ret : Z) : Z + errno :=
  match rl with
  | [] => inl ret
  | r :: rl =>
      if length r =? 0 then inl ret else
      if lcn r <? 0 then if negb (lcn r =? LCN_HOLE) then inr EINVAL else compressed_length rl ret
      else compressed_length rl (s64 (ret + length r))
  end.
Definition ntfs_rl_get_compressed_size (cluster_size_bits : Z) (rl : option runlist) : Z + errno :=
  match rl with
  | None => inr EINVAL
  | Some rl => match compressed_length rl 0 with inl ret => inl (s64 (Z.shiftl ret cluster_size_bits)) | inr e => inr e end
  end.
