(* ===== verification/RunPairs.v ===== *)
(** * Mapping pairs

    The encoding of runlists that [ntfs_mapping_pairs_build] writes, as a pure function,
    and that [ntfs_mapping_pairs_decompress] is its inverse. *)

From stdpp Require Import prelude list.
From Stdlib Require Import ZArith Lia.
From S2P Require Import Prelude Bytes NtfsTypes Runlist.

Local Open Scope Z_scope.

(** ** Signed numbers of minimal length *)

(** The bytes of [n], lowest first, as many as are needed to know its sign. *)
Fixpoint sig (fuel : nat) (n : Z) : list Z :=
  match fuel with
  | O => []
  | S fuel => u8 n :: (if (0x7f <? n) || (n <? -0x80) then sig fuel (Z.shiftr n 8) else [])
  end.

Lemma sig_S fuel n : sig (S fuel) n = u8 n :: (if (0x7f <? n) || (n <? -0x80) then sig fuel (Z.shiftr n 8) else []).
Proof. done. Qed.

Definition sig_bytes (n : Z) : list Z := sig 8 n.

(** [n] is a signed number of [k] bytes. *)
Definition is_signed (k : nat) (n : Z) : Prop := - 2 ^ (8 * Z.of_nat k - 1) <= n < 2 ^ (8 * Z.of_nat k - 1).

Lemma is_signed_shift k n : is_signed (S (S k)) n -> is_signed (S k) (Z.shiftr n 8).
Proof.
  unfold is_signed. rewrite Z.shiftr_div_pow2 by lia. intros Hn.
  replace (8 * Z.of_nat (S (S k)) - 1) with (8 * Z.of_nat (S k) - 1 + 8) in Hn by lia. rewrite Z.pow_add_r in Hn by lia.
  split; [apply Z.div_le_lower_bound|apply Z.div_lt_upper_bound]; lia.
Qed.

Lemma small_signed n : is_signed 1 n -> (0x7f <? n) || (n <? -0x80) = false.
Proof. unfold is_signed. intros Hn. change (2 ^ (8 * Z.of_nat 1 - 1)) with 128 in Hn. apply orb_false_iff. lia. Qed.

Lemma sig_len fuel n : (List.length (sig fuel n) <= fuel)%nat.
Proof. revert n. induction fuel as [|fuel IH]; intros n; cbn; [lia|]. case_match; cbn; [specialize (IH (Z.shiftr n 8))|]; lia. Qed.

Lemma sig_bytes_len n : 1 <= zlen (sig_bytes n) <= 8.
Proof. pose proof (sig_len 8 n). unfold zlen, sig_bytes in *. cbn [sig List.length] in *. lia. Qed.

Lemma sig_bytes_bytes n : bytes (sig_bytes n).
Proof.
  unfold sig_bytes. generalize 8%nat as f. intros f. revert n. induction f as [|f IH]; intros n; cbn; [constructor|].
  constructor; [apply u8_range|]. case_match; [apply IH|constructor].
Qed.

(** The magnitude that [ntfs_get_nr_significant_bytes] works with. *)
Definition magnitude (n : Z) : Z := if n <? 0 then Z.lnot n else n.

Lemma magnitude_nonneg n : 0 <= magnitude n.
Proof. unfold magnitude. bdestr; [rewrite Z.lnot_nonneg|]; lia. Qed.

Lemma magnitude_shift n : magnitude (Z.shiftr n 8) = Z.shiftr (magnitude n) 8.
Proof.
  unfold magnitude. destruct (Z.ltb_spec n 0) as [Hn|Hn], (Z.ltb_spec (Z.shiftr n 8) 0) as [Hs|Hs]; try done.
  - by apply Z.lnot_shiftr.
  - apply Z.shiftr_nonneg in Hs. lia.
  - apply Z.shiftr_neg in Hs. lia.
Qed.

Lemma magnitude_big n : (0x7f <? n) || (n <? -0x80) = (128 <=? magnitude n).
Proof.
  unfold magnitude. pose proof (Z.add_lnot_diag n).
  destruct (Z.ltb_spec 127 n), (Z.ltb_spec n (-128)), (Z.ltb_spec n 0); cbn [orb]; symmetry;
    (apply Z.leb_le || apply Z.leb_gt); lia.
Qed.

Lemma significant_spec f n i :
  is_signed (S f) n -> 128 <= magnitude n ->
  significant (S f) (Z.shiftr (magnitude n) 7) i = i + zlen (sig f (Z.shiftr n 8)).
Proof.
  revert n i. induction f as [|f IH]; intros n i Hn Hm.
  { apply small_signed in Hn. rewrite magnitude_big in Hn. bprop. lia. }
  rewrite sig_S. remember (S f) as g eqn:Eg. cbn [significant]. subst g. rewrite Z.shiftr_shiftr, (Z.add_comm 7 8), <- Z.shiftr_shiftr, <- magnitude_shift by lia.
  rewrite magnitude_big. pose proof (magnitude_nonneg (Z.shiftr n 8)) as Hp.
  assert (128 <= magnitude (Z.shiftr n 8) <-> Z.shiftr (magnitude (Z.shiftr n 8)) 7 <> 0) as Hz.
  { set (m := magnitude (Z.shiftr n 8)) in *. rewrite (Z.shiftr_div_pow2 m) by lia. change (2 ^ 7) with 128. split; intros Hc.
    - assert (1 <= m / 128) by (apply Z.div_le_lower_bound; lia). lia.
    - destruct (decide (128 <= m)); [done|]. exfalso. apply Hc, Z.div_small. lia. }
  destruct (Z.leb_spec 128 (magnitude (Z.shiftr n 8))) as [Hl|Hl].
  - if_false. rewrite IH by (try done; by apply is_signed_shift). unfold zlen. cbn [List.length]. lia.
  - if_true. done.
Qed.

Lemma sig_stable f g n : is_signed (S f) n -> (S f <= g)%nat -> sig g n = sig (S f) n.
Proof.
  revert g n. induction f as [|f IH]; intros [|g] n Hn Hg; try lia.
  - cbn [sig]. by rewrite small_signed.
  - cbn [sig]. case_match; [|done]. f_equal. apply IH; [by apply is_signed_shift|lia].
Qed.

Lemma s64_signed n : is_s64 n -> is_signed 8 n.
Proof. done. Qed.

(** [ntfs_get_nr_significant_bytes] is their number. *)
Lemma nr_significant n : is_s64 n -> ntfs_get_nr_significant_bytes n = zlen (sig_bytes n).
Proof.
  intros Hn. unfold ntfs_get_nr_significant_bytes. fold (magnitude n). unfold sig_bytes. rewrite sig_S, magnitude_big.
  bdestr; [|done]. assert (is_signed 9 n) as Hn9 by (unfold is_signed, is_s64 in *; cbn; lia).
  rewrite (significant_spec 8) by done. rewrite (sig_stable 6 8) by (try lia; by apply is_signed_shift).
  unfold zlen. rewrite List.length_cons. lia.
Qed.

(** ** Writing *)

Lemma write_more_spec f buf dst dst_max n i :
  is_signed (S f) n -> 0 < dst <= dst_max + 1 -> dst_max < zlen buf ->
  let bs := drop 1 (sig (S f) n) in
  exists buf', zlen buf' = zlen buf /\ (forall j, 0 <= j < dst -> buf'.[j] = buf.[j]) /\
    write_more (S f) buf dst dst_max n i = (if dst + zlen bs - 1 <=? dst_max then i + zlen bs else -1, buf') /\
    (dst + zlen bs - 1 <= dst_max -> stored buf dst bs buf').
Proof.
  revert buf dst n i. induction f as [|f IH]; intros buf dst n i Hn Hd Hm bs.
  { unfold bs. cbn [write_more sig]. rewrite small_signed by done. cbn [drop]. change (zlen []) with 0. exists buf.
    if_true. rewrite Z.add_0_r. split_and!; try done. intros. apply stored_nil. }
  unfold bs. remember (S f) as g eqn:Eg. cbn [write_more sig]. destruct ((0x7f <? n) || _) eqn:Eb.
  2:{ cbn [drop]. change (zlen []) with 0. exists buf. if_true. rewrite Z.add_0_r. split_and!; try done. intros. apply stored_nil. }
  rewrite drop_S_cons || cbn [drop]. subst g.
  assert (sig (S f) (Z.shiftr n 8) = u8 (Z.shiftr n 8) :: drop 1 (sig (S f) (Z.shiftr n 8))) as Es by done.
  set (ts := drop 1 (sig (S f) (Z.shiftr n 8))) in *. rewrite drop_0, Es, zlen_cons.
  assert (0 <= zlen ts) by (unfold zlen; lia). destruct (Z.ltb_spec dst_max dst).
  { exists buf. if_false. split_and!; try done. lia. }
  destruct (IH (setb buf dst (u8 (Z.shiftr n 8))) (dst + 1) (Z.shiftr n 8) (i + 1)) as (buf' & L & K & E & W);
    [by apply is_signed_shift|lia|unfold zlen; rewrite length_setb; fold (zlen buf); lia|]. fold ts in E, W.
  exists buf'. rewrite E. split_and!.
  - rewrite L. unfold zlen. by rewrite length_setb.
  - intros j Hj. rewrite K by lia. apply getb_setb_ne; lia.
  - replace (dst + 1 + zlen ts - 1) with (dst + (1 + zlen ts) - 1) by lia. bdestr; f_equal; lia.
  - intros Hr. change (u8 (Z.shiftr n 8) :: ts) with ([u8 (Z.shiftr n 8)] ++ ts).
    eapply stored_app; [lia|apply stored_one; lia|]. apply W. lia.
Qed.

Lemma write_significant_spec buf dst dst_max n :
  is_s64 n -> 0 <= dst -> dst_max < zlen buf -> let bs := sig_bytes n in
  exists buf', zlen buf' = zlen buf /\ (forall j, 0 <= j < dst -> buf'.[j] = buf.[j]) /\
    ntfs_write_significant_bytes buf dst dst_max n = (if dst + zlen bs - 1 <=? dst_max then zlen bs else -1, buf') /\
    (dst + zlen bs - 1 <= dst_max -> stored buf dst bs buf').
Proof.
  intros Hn Hd Hm bs. unfold ntfs_write_significant_bytes. pose proof (sig_bytes_len n) as Hl. fold bs in Hl.
  destruct (Z.ltb_spec dst_max dst); [exists buf; if_false; split_and!; try done; lia|].
  destruct (write_more_spec 7 (setb buf dst (u8 n)) (dst + 1) dst_max n 1) as (buf' & L & K & E & W);
    [done|lia|unfold zlen; rewrite length_setb; fold (zlen buf); lia|]. fold (sig_bytes n) in E, W. fold bs in E, W.
  assert (bs = u8 n :: drop 1 bs) as Es by done. set (ts := drop 1 bs) in *. rewrite Es, zlen_cons in Hl |- *.
  exists buf'. rewrite E. split_and!.
  - rewrite L. unfold zlen. by rewrite length_setb.
  - intros j Hj. rewrite K by lia. apply getb_setb_ne; lia.
  - replace (dst + 1 + zlen ts - 1) with (dst + (1 + zlen ts) - 1) by lia. bdestr; f_equal; lia.
  - intros Hr. change (u8 n :: ts) with ([u8 n] ++ ts).
    eapply stored_app; [lia|apply stored_one; lia|]. apply W. lia.
Qed.

(** ** Reading *)

Lemma delta_more_snoc n attr pos x :
  delta_more (S n) attr pos x = s64 (Z.shiftl (delta_more n attr pos x) 8 + attr.[pos - Z.of_nat n]).
Proof.
  revert pos x. induction n as [|n IH]; intros pos x; [cbn; by rewrite Z.sub_0_r|].
  change (delta_more (S (S n)) attr pos x) with (delta_more (S n) attr (pos - 1) (s64 (Z.shiftl x 8 + attr.[pos]))).
  rewrite IH. change (delta_more (S n) attr pos x) with (delta_more n attr (pos - 1) (s64 (Z.shiftl x 8 + attr.[pos]))).
  do 3 f_equal. lia.
Qed.

Lemma shift_byte n : Z.shiftl (Z.shiftr n 8) 8 + u8 n = n.
Proof. rewrite Z.shiftl_mul_pow2, Z.shiftr_div_pow2 by lia. unfold u8. pose proof (Z.div_mod n (2 ^ 8)). lia. Qed.

Lemma read_sig f n attr p :
  (f < 8)%nat -> is_signed (S f) n -> at_bytes attr (p + 1) (sig (S f) n) ->
  read_delta attr p (zlen (sig (S f) n)) 0 = n.
Proof.
  intros Hf. revert n p. induction f as [|f IH]; intros n p Hn Ha.
  - rewrite sig_S, small_signed in Ha |- * by done. unfold read_delta. change (zlen [u8 n]) with 1 in *. cbn [Z.sub Z.to_nat delta_more].
    specialize (Ha 0 ltac:(unfold zlen; cbn; lia)). rewrite Z.add_0_r in Ha. cbn [delta_more]. rewrite Ha. by apply s8_small.
  - rewrite sig_S in Ha |- *. destruct ((0x7f <? n) || _) eqn:Eb.
    2:{ specialize (Ha 0 ltac:(unfold zlen; cbn; lia)). rewrite Z.add_0_r in Ha. unfold read_delta. change (zlen [u8 n]) with 1. cbn [Z.sub Z.to_nat delta_more].
        change (Z.to_nat (1 - 0 - 1)) with 0%nat. cbn [delta_more]. rewrite Ha. apply s8_small. bprop. lia. }
    change (u8 n :: sig (S f) (Z.shiftr n 8)) with ([u8 n] ++ sig (S f) (Z.shiftr n 8)) in *.
    apply at_bytes_app in Ha as [Ha1 Ha2]. change (zlen [u8 n]) with 1 in Ha2. rewrite zlen_app. change (zlen [u8 n]) with 1.
    specialize (IH ltac:(lia) (Z.shiftr n 8) (p + 1) (is_signed_shift _ _ Hn) Ha2).
    set (k := zlen (sig (S f) (Z.shiftr n 8))) in *. assert (1 <= k) as Hk by (unfold k; rewrite sig_S, zlen_cons; unfold zlen; lia).
    unfold read_delta in *. replace (Z.to_nat (1 + k - 0 - 1)) with (S (Z.to_nat (k - 0 - 1))) by lia. rewrite delta_more_snoc.
    replace (p + (1 + k) - 1) with (p + 1 + k - 1) by lia. replace (p + (1 + k)) with (p + 1 + k) by lia. rewrite IH.
    replace (p + 1 + k - 1 - Z.of_nat (Z.to_nat (k - 0 - 1))) with (p + 1 + 0) by lia.
    rewrite (Ha1 0) by (unfold zlen; cbn; lia). rewrite getb_cons_0, shift_byte. apply s64_small.
    unfold is_signed in Hn. unfold is_s64. assert (2 ^ (8 * Z.of_nat (S (S f)) - 1) <= 2 ^ 63) by (apply Z.pow_le_mono_r; lia). lia.
Qed.

Lemma read_sig_bytes n attr p b2 :
  is_s64 n -> at_bytes attr (p + b2 + 1) (sig_bytes n) -> read_delta attr p (b2 + zlen (sig_bytes n)) b2 = n.
Proof.
  intros Hn Ha. rewrite <- (read_sig 7 n attr (p + b2)) at 2; [|lia|done|done]. unfold read_delta, sig_bytes.
  set (k := zlen _). replace (b2 + k - b2 - 1) with (k - 0 - 1) by lia. f_equal; [|f_equal; f_equal]; lia.
Qed.

(** ** Pairs *)

Definition pair_bytes (len : Z) (delta : option Z) : list Z :=
  let ds := match delta with Some d => sig_bytes d | None => [] end in
  (16 * zlen ds + zlen (sig_bytes len)) :: sig_bytes len ++ ds.

Definition delta_ok (delta : option Z) : Prop := match delta with Some d => is_s64 d | None => True end.

Lemma pair_bytes_len len delta : 2 <= zlen (pair_bytes len delta).
Proof.
  unfold pair_bytes. pose proof (sig_bytes_len len). rewrite zlen_cons, zlen_app. unfold zlen in *. lia.
Qed.

Lemma build_run_spec buf dst dst_max len delta :
  is_s64 len -> delta_ok delta -> 0 <= dst -> dst_max < zlen buf -> let bs := pair_bytes len delta in
  exists buf', zlen buf' = zlen buf /\ (forall j, 0 <= j < dst -> buf'.[j] = buf.[j]) /\
    build_run buf dst dst_max len delta = (if dst + zlen bs <=? dst_max then Some (dst + zlen bs) else None, buf') /\
    (dst + zlen bs <= dst_max -> stored buf dst bs buf').
Proof.
  intros Hl Hd Hp Hm bs. unfold build_run.
  destruct (write_significant_spec buf (dst + 1) dst_max len Hl ltac:(lia) Hm) as (b1 & L1 & K1 & E1 & W1). rewrite E1.
  pose proof (sig_bytes_len len) as Hn. set (n1 := zlen (sig_bytes len)) in *.
  unfold bs, pair_bytes. set (ds := match delta with Some d => sig_bytes d | None => [] end). rewrite zlen_cons, zlen_app. fold n1.
  assert (0 <= zlen ds <= 8) as Hds by (unfold ds; destruct delta as [d|]; [pose proof (sig_bytes_len d); lia|by split]).
  destruct (Z.leb_spec (dst + 1 + n1 - 1) dst_max) as [Hf1|Hf1].
  2:{ exists b1. if_true. if_false. split_and!; [done|intros j Hj; apply K1; lia|done|lia]. }
  if_false. specialize (W1 Hf1).
  assert (exists b2, zlen b2 = zlen buf /\ (forall j, 0 <= j < dst + 1 + n1 -> b2.[j] = b1.[j]) /\
    match delta with Some d => ntfs_write_significant_bytes b1 (dst + 1 + n1) dst_max d | None => (0, b1) end
    = (if (match delta with Some _ => dst + 1 + n1 + zlen ds - 1 | None => dst_max end) <=? dst_max then zlen ds else -1, b2) /\
    (dst + 1 + n1 + zlen ds - 1 <= dst_max -> stored b1 (dst + 1 + n1) ds b2)) as (b2 & L2 & K2 & E2 & W2).
  { destruct delta as [d|].
    - destruct (write_significant_spec b1 (dst + 1 + n1) dst_max d Hd ltac:(lia) ltac:(lia)) as (b2 & L2 & K2 & E2 & W2).
      exists b2. split_and!; [congruence|done..].
    - exists b1. if_true. split_and!; [done..|]. intros. apply stored_nil. }
  rewrite E2. destruct (Z.leb_spec (dst + (1 + (n1 + zlen ds))) dst_max) as [Hf2|Hf2].
  - replace (match delta with Some _ => _ | None => _ end <=? dst_max) with true by (symmetry; apply Z.leb_le; destruct delta; lia).
    if_false. if_false. eexists. replace (dst + (1 + (n1 + zlen ds))) with (dst + n1 + zlen ds + 1) by lia.
    assert (zlen (setb b2 dst (Z.lor (Z.shiftl (zlen ds) 4) n1)) = zlen b2) as El by (unfold zlen; by rewrite length_setb).
    split_and!; [|..|reflexivity|].
    + congruence.
    + intros j Hj. rewrite getb_setb_ne, K2, K1 by lia. done.
    + intros _. replace (16 * zlen ds + n1) with (Z.lor (Z.shiftl (zlen ds) 4) n1).
      2:{ rewrite shl_lor by (change (2 ^ 4) with 16; lia). change (2 ^ 4) with 16. lia. }
      assert (stored buf (dst + 1) (sig_bytes len ++ ds) b2) as [S1 S2 S3].
      { eapply stored_app; [lia|done|]. apply W2. lia. }
      rewrite zlen_app in S3. fold n1 in S3. split; [congruence| |].
      * intros j Hj. rewrite zlen_cons in Hj. destruct (decide (j = 0)) as [->|].
        -- rewrite Z.add_0_r, getb_cons_0. apply getb_setb_eq. lia.
        -- rewrite getb_setb_ne by lia. replace (dst + j) with (dst + 1 + (j - 1)) by lia. rewrite S2 by lia.
           unfold getb. replace (Z.to_nat j) with (S (Z.to_nat (j - 1))) by lia. done.
      * intros i Hi Hn'. rewrite zlen_cons, zlen_app in Hn'. fold n1 in Hn'. rewrite getb_setb_ne by lia. apply S3; lia.
  - exists b2. split_and!; [done|intros j Hj; rewrite K2, K1 by lia; done| |lia].
    destruct (match delta with Some _ => _ | None => _ end <=? dst_max); [|by if_true].
    if_false. by if_true.
Qed.

(** ** Runlists *)

(** A run of allocated clusters or a hole. *)
Definition data_run (r : runlist_element) : Prop := 0 < length r /\ -1 <= lcn r /\ lcn r + length r < 2 ^ 62.

(** The runs [rs] map the clusters from [v] on, without gap. *)
Fixpoint runs_from (v : Z) (rs : runlist) : Prop :=
  match rs with
  | [] => True
  | r :: rs => vcn r = v /\ data_run r /\ runs_from (v + length r) rs
  end.

Fixpoint runs_end (v : Z) (rs : runlist) : Z :=
  match rs with
  | [] => v
  | r :: rs => runs_end (v + length r) rs
  end.

(** The runs from the cluster [start] on, the first one cut. *)
Fixpoint cut_runs (start : Z) (rs : runlist) : runlist :=
  match rs with
  | [] => []
  | r :: rs =>
      if vcn r + length r <=? start then cut_runs start rs else
      mkRun start (if 0 <=? lcn r then lcn r + (start - vcn r) else lcn r) (length r - (start - vcn r)) :: rs
  end.

(** The pairs of the runs, after one at [prev]. *)
Fixpoint pairs (major_ver prev : Z) (rs : runlist) : list Z :=
  match rs with
  | [] => []
  | r :: rs =>
      if stores_lcn major_ver r then pair_bytes (length r) (Some (lcn r - prev)) ++ pairs major_ver (lcn r) rs
      else pair_bytes (length r) None ++ pairs major_ver prev rs
  end.

Lemma runs_from_data v rs : runs_from v rs -> Forall data_run rs.
Proof. revert v. induction rs as [|r rs IH]; intros v; [constructor|]. intros (_ & Hr & Hrs). constructor; [done|by eapply IH]. Qed.

Lemma runs_end_ge v rs : runs_from v rs -> v + zlen rs <= runs_end v rs.
Proof.
  revert v. induction rs as [|r rs IH]; intros v Hr; cbn [runs_end]; [change (zlen []) with 0; lia|].
  destruct Hr as (_ & (? & _) & Hr). apply IH in Hr. rewrite zlen_cons. lia.
Qed.

Lemma data_run_good r : data_run r -> bad_run r = false /\ (length r =? 0) = false /\ is_s64 (length r).
Proof. intros (? & ? & ?). unfold bad_run, is_s64, LCN_HOLE. split_and!; [apply orb_false_iff|apply Z.eqb_neq|..]; lia. Qed.

Lemma prev_delta r prev : data_run r -> -1 <= prev < 2 ^ 62 -> is_s64 (lcn r - prev).
Proof. intros (? & ? & ?) ?. unfold is_s64. lia. Qed.

Lemma pairs_len_nonneg m prev rs : 2 * zlen rs <= zlen (pairs m prev rs).
Proof.
  revert prev. induction rs as [|r rs IH]; intros prev; [done|]. cbn [pairs]. rewrite zlen_cons.
  case_match; rewrite zlen_app; [specialize (IH (lcn r))|specialize (IH prev)];
    [pose proof (pair_bytes_len (length r) (Some (lcn r - prev)))|pose proof (pair_bytes_len (length r) None)]; lia.
Qed.

(** The size that [ntfs_get_size_for_mapping_pairs] adds up. *)
Lemma size_runs_spec m rs t rest max_size prev rls :
  Forall data_run rs -> length t = 0 -> -1 <= prev < 2 ^ 62 -> rls + zlen (pairs m prev rs) <= max_size ->
  size_runs m (rs ++ t :: rest) max_size prev rls = inl (rls + zlen (pairs m prev rs)).
Proof.
  intros Hrs Ht. revert prev rls. induction Hrs as [|r rs Hr Hrs IH]; intros prev rls Hp Hm.
  - cbn [app size_runs pairs]. rewrite Ht. cbn. f_equal. change (zlen []) with 0. lia.
  - destruct (data_run_good r Hr) as (Hb & Hz & Hl). cbn [app size_runs]. rewrite Hz, Hb. cbn [negb andb].
    pose proof (pairs_len_nonneg m (lcn r) rs). pose proof (pairs_len_nonneg m prev rs).
    assert (0 <= zlen rs) by (unfold zlen; lia). cbn [pairs] in Hm |- *.
    destruct (stores_lcn m r).
    + pose proof (prev_delta r prev Hr Hp) as Hd. rewrite zlen_app in Hm |- *.
      pose proof (pair_bytes_len (length r) (Some (lcn r - prev))). if_true.
      rewrite s64_small, !nr_significant by done. unfold pair_bytes in *. rewrite zlen_cons, zlen_app in *.
      rewrite IH; [f_equal; lia|destruct Hr; lia|lia].
    + rewrite zlen_app in Hm |- *. pose proof (pair_bytes_len (length r) None). if_true.
      rewrite nr_significant by done. unfold pair_bytes in *. rewrite zlen_cons, zlen_app in *. change (zlen []) with 0 in *.
      rewrite IH; [f_equal; lia|lia|lia].
Qed.

(** What [ntfs_mapping_pairs_build] writes. *)
Lemma build_runs_spec m rs t rest buf dst dst_max prev :
  Forall data_run rs -> length t = 0 -> -1 <= prev < 2 ^ 62 -> 0 <= dst <= dst_max -> dst_max < zlen buf ->
  exists buf', zlen buf' = zlen buf /\ (forall j, 0 <= j < dst -> buf'.[j] = buf.[j]) /\
    (dst + zlen (pairs m prev rs) <= dst_max ->
       build_runs m (rs ++ t :: rest) buf dst dst_max prev = (None, buf', Some (Some (t :: rest))) /\
       stored buf dst (pairs m prev rs ++ [0]) buf') /\
    (dst_max < dst + zlen (pairs m prev rs) -> exists rs1 rs2, rs = rs1 ++ rs2 /\ rs2 <> [] /\
       build_runs m (rs ++ t :: rest) buf dst dst_max prev = (Some ENOSPC, buf', Some (Some (rs2 ++ t :: rest))) /\
       at_bytes buf' dst (pairs m prev rs1 ++ [0])).
Proof.
  intros Hrs Ht. revert buf dst prev. induction Hrs as [|r rs Hr Hrs IH]; intros buf dst prev Hp Hd Hm.
  - cbn [app build_runs pairs]. rewrite Ht. cbn [Z.eqb]. change (zlen []) with 0. exists (setb buf dst 0).
    assert (stored buf dst [0] (setb buf dst 0)) as Hs by (apply stored_one; lia).
    split_and!; [apply Hs|intros j Hj; apply Hs; [lia|change (zlen [0]) with 1; lia]|done|lia].
  - destruct (data_run_good r Hr) as (Hb & Hz & Hl). set (st := stores_lcn m r).
    set (delta := if st then Some (lcn r - prev) else None). set (prev' := if st then lcn r else prev).
    assert (pairs m prev (r :: rs) = pair_bytes (length r) delta ++ pairs m prev' rs) as Ep
      by (unfold delta, prev'; cbn [pairs]; fold st; by case_match).
    assert ((if st then Some (s64 (lcn r - prev)) else None) = delta) as Ed.
    { unfold delta. destruct st; [|done]. rewrite s64_small; [done|by apply prev_delta]. }
    assert (delta_ok delta) as Hdo by (unfold delta; destruct st; [by apply prev_delta|done]).
    assert (-1 <= prev' < 2 ^ 62) as Hp' by (unfold prev'; destruct st; [destruct Hr|]; lia).
    assert (0 <= zlen (pairs m prev' rs)) by (unfold zlen; lia). pose proof (pair_bytes_len (length r) delta) as Hpl.
    destruct (build_run_spec buf dst dst_max (length r) delta Hl Hdo ltac:(lia) Hm) as (b1 & L1 & K1 & E1 & W1).
    cbn [app build_runs]. rewrite Hz, Hb. fold st. rewrite Ed, E1, Ep, zlen_app.
    destruct (Z.leb_spec (dst + zlen (pair_bytes (length r) delta)) dst_max) as [Hfit|Hfit].
    + specialize (W1 Hfit). fold prev'.
      destruct (IH b1 (dst + zlen (pair_bytes (length r) delta)) prev' Hp' ltac:(lia) ltac:(lia)) as (b2 & L2 & K2 & R1 & R2).
      exists b2. split_and!; [congruence|intros j Hj; rewrite K2, K1 by lia; done| |].
      * intros Hle. destruct R1 as [-> R1]; [lia|]. split; [done|]. rewrite <- app_assoc. eapply stored_app; [lia|done..].
      * intros Hlt. destruct R2 as (rs1 & rs2 & -> & Hne & -> & R2); [lia|]. exists (r :: rs1), rs2. split_and!; [done..|].
        assert (pairs m prev (r :: rs1) = pair_bytes (length r) delta ++ pairs m prev' rs1) as ->
          by (unfold delta, prev'; cbn [pairs]; fold st; by case_match).
        rewrite <- app_assoc. apply at_bytes_app. split; [|done]. intros j Hj. rewrite K2 by lia. by apply W1.
    + exists (setb b1 dst 0). assert (stored b1 dst [0] (setb b1 dst 0)) as Hs by (apply stored_one; lia).
      split_and!; [by rewrite <- L1; apply Hs| |lia|].
      * intros j Hj. rewrite <- K1 by lia. apply Hs; [lia|]. change (zlen [0]) with 1. lia.
      * intros _. exists [], (r :: rs). split_and!; [done..|]. apply Hs.
Qed.

(** ** Decompression *)

Section decompress.
Context `{!Malloc} (Hmalloc : forall n, malloc_ok n = true).

Lemma put_runs_end rl e : put_runs rl (List.length rl) [e] = rl ++ [e].
Proof.
  unfold put_runs. rewrite Nat.sub_diag, app_nil_r, take_ge, drop_ge by (cbn; lia). by rewrite app_nil_r.
Qed.

(** The header byte of a pair. *)
Lemma pair_header len delta :
  let b := (pair_bytes len delta).[0] in
  let n := zlen (sig_bytes len) in let k := match delta with Some d => zlen (sig_bytes d) | None => 0 end in
  Z.land b 0xf = n /\ Z.land (Z.shiftr b 4) 0xf = k /\ Z.land b 0xf0 = 16 * k /\ b <> 0 /\
  zlen (pair_bytes len delta) = 1 + n + k.
Proof.
  cbn zeta. unfold pair_bytes. rewrite getb_cons_0. pose proof (sig_bytes_len len) as Hn. set (n := zlen (sig_bytes len)) in *.
  set (ds := match delta with Some d => sig_bytes d | None => [] end).
  assert (match delta with Some d => zlen (sig_bytes d) | None => 0 end = zlen ds) as -> by (unfold ds; by destruct delta).
  assert (0 <= zlen ds <= 8) as Hd by (unfold ds; destruct delta as [d|]; [pose proof (sig_bytes_len d); lia|by split]).
  set (k := zlen ds) in *. split_and!.
  - rewrite land_0F. replace (16 * k + n) with (n + k * 16) by lia. rewrite Z.mod_add, Z.mod_small by lia. done.
  - rewrite Z.shiftr_div_pow2, land_0F by lia. change (2 ^ 4) with 16.
    replace (16 * k + n) with (n + k * 16) by lia. rewrite Z.div_add, Z.div_small, Z.mod_small by lia. lia.
  - rewrite land_F0 by (unfold is_u8; lia). replace (16 * k + n) with (n + k * 16) by lia.
    rewrite Z.div_add, Z.div_small by lia. lia.
  - lia.
  - rewrite zlen_cons, zlen_app. fold n k. lia.
Qed.

(** One turn of the loop. *)
Lemma read_pair_step m r rest fuel attr attr_end buf rl rlsize v l :
  data_run r -> -1 <= l < 2 ^ 62 -> 0 <= v -> v + length r < 2 ^ 62 ->
  let delta := if stores_lcn m r then Some (lcn r - l) else None in
  at_bytes attr buf (pair_bytes (length r) delta ++ rest) -> buf + zlen (pair_bytes (length r) delta) < attr_end ->
  zlen rl + 1 < 2 ^ 16 -> vcn r = v ->
  exists rlsize', read_pairs (S fuel) attr attr_end buf rl (zlen rl) rlsize v l
  = read_pairs fuel attr attr_end (buf + zlen (pair_bytes (length r) delta)) (rl ++ [r]) (zlen (rl ++ [r])) rlsize'
      (v + length r) (if stores_lcn m r then lcn r else l).
Proof.
  intros Hr Hl Hv He delta Ha Hend Hpos Hvr. apply at_bytes_app in Ha as [Ha _].
  destruct (pair_header (length r) delta) as (Hb & Hk & Hf0 & Hnz & Hlen). destruct (data_run_good r Hr) as (_ & _ & Hs).
  pose proof (sig_bytes_len (length r)) as Hn. set (n := zlen (sig_bytes (length r))) in *.
  set (k := match delta with Some d => zlen (sig_bytes d) | None => 0 end) in *.
  pose proof (Ha 0 ltac:(assert (0 <= k) by (unfold k; destruct delta; [unfold zlen|]; lia); lia)) as Hh. rewrite Z.add_0_r in Hh.
  set (b := (pair_bytes (length r) delta).[0]) in *. unfold pair_bytes in Ha.
  change (?h :: ?t) with ([h] ++ t) in Ha. apply at_bytes_app in Ha as [_ Ha]. change (zlen [_]) with 1 in Ha.
  apply at_bytes_app in Ha as [Ha1 Ha2]. fold n in Ha2.
  assert (0 <= k) by (unfold k; destruct delta; [unfold zlen|]; lia).
  exists (if rlsize <? (zlen rl + 3) * 24 then rlsize + 0x1000 else rlsize). cbn [read_pairs].
  assert (u16 (zlen rl + 1) = zlen (rl ++ [r])) as Eu.
  { rewrite zlen_app. change (zlen [r]) with 1. unfold u16. apply Z.mod_small. unfold zlen in *. lia. }
  rewrite Hh, Hb, Hk, Hf0, Hmalloc, Hlen. cbn [negb]. rewrite andb_false_r.
  replace (buf + (n + k) + 1) with (buf + (1 + n + k)) by lia.
  if_true. cbn [negb]. repeat if_false.
  assert (read_delta attr buf n 0 = length r) as -> by (apply (read_sig_bytes _ attr buf 0 Hs); by rewrite Z.add_0_r).
  pose proof Hr as (Hlr & Hc & Hs2). if_false. rewrite (s64_small (v + length r)) by (unfold is_s64; lia).
  rewrite Eu. unfold zlen at 1 4. rewrite Nat2Z.id, !put_runs_end. subst k delta.
  destruct (stores_lcn m r) eqn:Es.
  - pose proof (sig_bytes_len (lcn r - l)). if_false.
    rewrite (read_sig_bytes (lcn r - l) attr buf n) by (first [by apply prev_delta | by replace (buf + n + 1) with (buf + 1 + n) by lia]).
    replace (l + (lcn r - l)) with (lcn r) by lia. rewrite s64_small by (unfold is_s64; lia).
    if_false. by rewrite <- Hvr; destruct r.
  - if_true. unfold stores_lcn in Es. do 4 f_equal. destruct r as [rv rlc rle], Hr as (?&?&?). cbn in *. subst rv. f_equal.
    unfold LCN_HOLE. bprop. lia.
Qed.

Lemma read_pairs_spec m rs fuel attr attr_end buf rl rlsize v l :
  runs_from v rs -> -1 <= l < 2 ^ 62 -> 0 <= v -> runs_end v rs < 2 ^ 62 ->
  at_bytes attr buf (pairs m l rs ++ [0]) -> buf + zlen (pairs m l rs) < attr_end ->
  zlen rl + zlen rs < 2 ^ 16 -> (List.length rs < fuel)%nat ->
  read_pairs fuel attr attr_end buf rl (zlen rl) rlsize v l
  = inl (buf + zlen (pairs m l rs), rl ++ rs, zlen (rl ++ rs), runs_end v rs).
Proof.
  revert fuel buf rl rlsize v l. induction rs as [|r rs IH]; intros [|fuel] buf rl rlsize v l Hrs Hl Hv He Ha Hend Hpos Hf; try lia.
  - cbn [read_pairs pairs]. change (zlen (A := Z) []) with 0 in *. specialize (Ha 0 ltac:(split; [lia|done])).
    rewrite Z.add_0_r in Ha. rewrite Ha. cbn [app getb nth Z.to_nat Z.eqb negb]. rewrite andb_false_r. cbn [negb].
    rewrite app_nil_r. cbn [runs_end]. by rewrite Z.add_0_r.
  - destruct Hrs as (Hvr & Hr & Hrs). cbn [runs_end] in He. pose proof (runs_end_ge _ _ Hrs).
    set (delta := if stores_lcn m r then Some (lcn r - l) else None). set (l' := if stores_lcn m r then lcn r else l).
    assert (pairs m l (r :: rs) = pair_bytes (length r) delta ++ pairs m l' rs) as Ep
      by (unfold delta, l'; cbn [pairs]; by case_match).
    rewrite Ep, <- app_assoc in Ha. rewrite Ep, zlen_app in Hend |- *. rewrite zlen_cons in Hpos. cbn [List.length] in Hf.
    assert (0 <= zlen (pairs m l' rs)) by (unfold zlen; lia). assert (0 <= zlen rs) by (unfold zlen; lia).
    destruct (read_pair_step m r (pairs m l' rs ++ [0]) fuel attr attr_end buf rl rlsize v l) as [rlsize' ->]; try done; fold delta; try lia.
    fold delta l'. apply at_bytes_app in Ha as [_ Ha]. rewrite IH.
    + rewrite <- app_assoc, Z.add_assoc. done.
    + done.
    + unfold l'. destruct Hr. case_match; lia.
    + destruct Hr. lia.
    + lia.
    + done.
    + lia.
    + rewrite zlen_app. change (zlen [r]) with 1. lia.
    + lia.
Qed.
End decompress.

(** ** From a VCN on *)

Lemma run_at_app_terminator rs t rest v : runs_from v rs -> vcn t = runs_end v rs -> vcn (run_at (rs ++ t :: rest) 0) = v.
Proof. destruct rs as [|r rs]; [done|]. by intros [<- _]. Qed.

Definition first_cut (start : Z) (r : runlist_element) : runlist_element :=
  mkRun start (if 0 <=? lcn r then lcn r + (start - vcn r) else lcn r) (length r - (start - vcn r)).

Lemma first_cut_id r : first_cut (vcn r) r = r.
Proof. unfold first_cut. rewrite Z.sub_diag, !Z.sub_0_r, Z.add_0_r. destruct r. cbn. by case_match. Qed.

(** [skip_to] and what the run it stops at becomes. *)
Lemma skip_cut v rs t rest start :
  runs_from v rs -> vcn t = runs_end v rs -> length t = 0 -> v <= start <= runs_end v rs ->
  (skip_to (rs ++ t :: rest) start = t :: rest /\ cut_runs start rs = [] /\ start = vcn t) \/
  exists r rs', skip_to (rs ++ t :: rest) start = r :: rs' ++ t :: rest /\ data_run r /\ Forall data_run rs' /\
    v <= vcn r <= start /\ start < vcn r + length r /\ vcn r + length r <= runs_end v rs /\
    cut_runs start rs = first_cut start r :: rs'.
Proof.
  intros Hrs Ht Hz. revert v Hrs Ht. induction rs as [|r rs IH]; intros v Hrs Ht Hs; cbn [app skip_to cut_runs].
  - left. rewrite Hz. cbn in *. split_and!; [done..|lia].
  - destruct Hrs as (Hv & Hr & Hrs). cbn [runs_end] in Ht, Hs.
    rewrite (run_at_app_terminator rs t rest (v + length r)) by done.
    pose proof Hr as (Hl & _ & _). rewrite Hv. replace (length r =? 0) with false by lia. cbn [negb andb].
    pose proof (runs_end_ge _ _ Hrs). assert (0 <= zlen rs) by (unfold zlen; lia).
    destruct (Z.leb_spec (v + length r) start).
    + destruct (IH (v + length r)) as [?|(r' & rs' & ? & ? & ? & ? & ? & ? & ?)]; [done..|lia|by left|].
      right. exists r', rs'. split_and!; try done; cbn [runs_end]; lia.
    + right. exists r, rs. split_and!; try done; [by eapply runs_from_data|cbn [runs_end]; lia..|by rewrite <- Hv].
Qed.

Lemma cut_runs_from v rs start :
  runs_from v rs -> v <= start <= runs_end v rs ->
  runs_from start (cut_runs start rs) /\ runs_end start (cut_runs start rs) = runs_end v rs /\
  zlen (cut_runs start rs) <= zlen rs.
Proof.
  revert v. induction rs as [|r rs IH]; intros v Hrs Hs; cbn [cut_runs runs_from runs_end] in *; [split_and!; [done|lia|done]|].
  destruct Hrs as (Hv & Hr & Hrs). rewrite Hv. rewrite !zlen_cons. bdestr.
  - destruct (IH _ Hrs ltac:(lia)) as (? & ? & ?). split_and!; [done..|lia].
  - cbn [runs_from runs_end vcn lcn length]. rewrite zlen_cons.
    replace (start + (length r - (start - v))) with (v + length r) by lia. destruct Hr as (? & ? & ?).
    split_and!; try done. split_and!; cbn [length lcn]; [lia|case_match; bprop; lia..].
Qed.

Lemma first_cut_stores m start r : vcn r <= start -> stores_lcn m (first_cut start r) = stores_lcn m r.
Proof. intros Hs. unfold stores_lcn, first_cut. cbn [lcn]. f_equal. bdestr; bprop; lia. Qed.

(** A run cut at [start] is encoded as the code does. *)
Lemma first_cut_s64 r start :
  data_run r -> 0 <= vcn r <= start -> start < vcn r + length r -> vcn r + length r < 2 ^ 62 ->
  s64 (start - vcn r) = start - vcn r /\ s64 (length r - (start - vcn r)) = length (first_cut start r) /\
  (if 0 <=? lcn r then s64 (lcn r + (start - vcn r)) else lcn r) = lcn (first_cut start r).
Proof.
  intros (? & ? & ?) ? ? ?. unfold first_cut. cbn [length lcn].
  split_and!; [apply s64_small; unfold is_s64; lia..|]. bdestr; [apply s64_small; unfold is_s64; lia|done].
Qed.

Section encode.
Context (m : Z) (rs : runlist) (t : runlist_element) (rest : runlist) (start : Z).
Hypothesis Hrs : runs_from 0 rs.
Hypothesis Ht : vcn t = runs_end 0 rs.
Hypothesis Hz : length t = 0.
Hypothesis Hs : 0 <= start <= runs_end 0 rs.
Hypothesis He : runs_end 0 rs < 2 ^ 62.

Lemma size_cut max_size :
  1 <= max_size ->
  ntfs_get_size_for_mapping_pairs m (Some (rs ++ t :: rest)) start max_size
  = size_runs m (cut_runs start rs ++ t :: rest) max_size 0 1.
Proof.
  intros Hm. unfold ntfs_get_size_for_mapping_pairs. if_false.
  destruct (skip_cut 0 rs t rest start) as [(-> & -> & ->)|(r & rs' & -> & Hr & Hrs' & H1 & H2 & H3 & ->)]; try done.
  - cbn [run_at nth app]. rewrite Hz. by repeat if_false.
  - cbn [run_at nth app drop]. destruct (data_run_good r Hr) as (Hb & Hl & Hn). rewrite Hl, Hb. cbn [andb orb]. if_false.
    destruct (first_cut_s64 r start) as (-> & -> & Ec); [done|lia..|]. rewrite Ec.
    destruct (Z.ltb_spec (vcn r) start) as [Hlt|Hge].
    2:{ replace start with (vcn r) by lia. by rewrite first_cut_id. }
    cbn [size_runs]. rewrite first_cut_stores by lia.
    destruct (data_run_good (first_cut start r)) as (-> & -> & _); [unfold data_run, first_cut in *; cbn; case_match; bprop; lia|].
    cbn [negb andb]. if_true. rewrite drop_0. destruct (stores_lcn m r); rewrite ?Z.sub_0_r; [|done]. rewrite (s64_small (lcn _)); [done|].
    destruct Hr as (? & ? & ?). unfold is_s64, first_cut. cbn [lcn]. case_match; bprop; lia.
Qed.

Lemma build_cut buf dst_len :
  let b := ntfs_mapping_pairs_build m buf dst_len (Some (rs ++ t :: rest)) start in
  let b' := build_runs m (cut_runs start rs ++ t :: rest) buf 0 (dst_len - 1) 0 in
  fst b = fst b' /\ (fst (fst b) = None -> b = b').
Proof.
  cbn zeta. unfold ntfs_mapping_pairs_build. if_false.
  destruct (skip_cut 0 rs t rest start) as [(-> & -> & ->)|(r & rs' & -> & Hr & Hrs' & H1 & H2 & H3 & ->)]; try done.
  - cbn [run_at nth app]. rewrite Hz. by repeat if_false.
  - cbn [run_at nth app drop]. destruct (data_run_good r Hr) as (Hb & Hl & Hn). rewrite Hl, Hb. cbn [andb orb]. if_false.
    destruct (first_cut_s64 r start) as (-> & -> & Ec); [done|lia..|]. rewrite Ec.
    destruct (Z.ltb_spec (vcn r) start) as [Hlt|Hge].
    2:{ replace start with (vcn r) by lia. by rewrite first_cut_id. }
    cbn [build_runs]. rewrite first_cut_stores by lia.
    destruct (data_run_good (first_cut start r)) as (-> & -> & _); [unfold data_run, first_cut in *; cbn; case_match; bprop; lia|].
    rewrite drop_0, Z.sub_0_r, (s64_small (lcn _)).
    2:{ destruct Hr as (? & ? & ?). unfold is_s64, first_cut. cbn [lcn]. case_match; bprop; lia. }
    by destruct (build_run _ _ _ _ _) as [[d|] b].
Qed.
End encode.

(** The lookup of a cluster that was not cut off. *)
Lemma lookup_cut v0 rs t rest t' rest' start v :
  runs_from v0 rs -> vcn t = runs_end v0 rs -> vcn t' = runs_end v0 rs -> v0 <= start <= v -> v < runs_end v0 rs ->
  runs_end v0 rs < 2 ^ 62 -> 0 <= v0 ->
  vcn_to_lcn (cut_runs start rs ++ t' :: rest') v = vcn_to_lcn (rs ++ t :: rest) v.
Proof.
  intros Hrs Ht Ht'. revert v0 start Hrs Ht Ht'. induction rs as [|r rs IH]; intros v0 start Hrs Ht Ht' Hs Hv He H0; cbn [runs_end] in *; [lia|].
  destruct Hrs as (Hr0 & Hr & Hrs). cbn [cut_runs app vcn_to_lcn]. destruct (data_run_good r Hr) as (_ & -> & _).
  rewrite (run_at_app_terminator rs t rest (v0 + length r)), Hr0 by done. pose proof Hr as (Hl & Hc & Hm).
  destruct (Z.leb_spec (v0 + length r) start).
  { if_false. apply (IH (v0 + length r)); try done; lia. }
  cbn [app vcn_to_lcn length lcn vcn]. replace (length r - (start - v0) =? 0) with false by lia.
  rewrite (run_at_app_terminator rs t' rest' (v0 + length r)) by done.
  destruct (Z.ltb_spec v (v0 + length r)).
  - destruct (Z.leb_spec 0 (lcn r)); [if_true; f_equal; lia|by if_false].
  - rewrite <- (IH (v0 + length r) (v0 + length r)) by (done || lia). f_equal.
    destruct rs as [|r' rs]; [cbn in *; lia|]. cbn [cut_runs]. destruct Hrs as (Hr1 & (? & _) & _). rewrite <- Hr1 at 2. if_false.
    fold (first_cut (v0 + length r) r'). by rewrite <- Hr1, first_cut_id.
Qed.

(** A non-resident attribute record whose mapping pairs start with [bs], for the clusters
    [start] to [last]. *)
Record holds_pairs (cluster_size cluster_size_bits : Z) (attr bs : list Z) (start last : Z) : Prop := {
  hp_non_resident : attr_non_resident attr <> 0;
  hp_lowest : attr_lowest_vcn attr = start;
  hp_highest : attr_highest_vcn attr = 0 \/ attr_highest_vcn attr = last - 1;
  hp_allocated : start = 0 -> attr_allocated_size attr = last * cluster_size /\ last * cluster_size + cluster_size < 2 ^ 63;
  hp_cluster : 0 <= cluster_size_bits /\ cluster_size = 2 ^ cluster_size_bits;
  hp_bytes : at_bytes attr (attr_mapping_pairs_offset attr) bs;
  hp_fit : attr_mapping_pairs_offset attr + zlen bs <= attr_length attr
}.

(** The runlist of the clusters from [start] on alone, as an extent of the attribute gives it. *)
Definition from_extent (start : Z) (rs : runlist) : runlist :=
  (if start =? 0 then [] else [mkRun 0 LCN_RL_NOT_MAPPED start]) ++ cut_runs start rs ++
  [mkRun (runs_end start (cut_runs start rs)) (if start =? 0 then LCN_ENOENT else LCN_RL_NOT_MAPPED) 0].

Lemma allocated_clusters n csz bits :
  0 <= n -> 0 <= bits -> csz = 2 ^ bits -> n * csz + csz < 2 ^ 63 -> Z.shiftr (s64 (n * csz + csz - 1)) bits = n.
Proof.
  intros Hn Hb -> Hm. assert (0 < 2 ^ bits) by (apply Z.pow_pos_nonneg; lia). rewrite s64_small by (unfold is_s64; nia).
  rewrite Z.shiftr_div_pow2 by done. symmetry. apply (Z.div_unique _ _ _ (2 ^ bits - 1)); lia.
Qed.

Lemma decompress_pairs `{!Malloc} m csz bits rs start attr :
  (forall n, malloc_ok n = true) ->
  runs_from 0 rs -> 0 <= start <= runs_end 0 rs -> runs_end 0 rs < 2 ^ 62 -> zlen rs + 1 < 2 ^ 16 ->
  holds_pairs csz bits attr (pairs m 0 (cut_runs start rs) ++ [0]) start (runs_end 0 rs) ->
  ntfs_mapping_pairs_decompress csz bits attr None = Merged (Some (from_extent start rs)).
Proof.
  intros Hmalloc Hrs Hs He Hlen [Hnr Hlow Hhigh Halloc Hcl Hby Hfit].
  destruct (cut_runs_from 0 rs start Hrs Hs) as (Hc1 & Hc2 & Hc3). rewrite zlen_app in Hfit. change (zlen [0]) with 1 in Hfit.
  assert (0 <= zlen (pairs m 0 (cut_runs start rs))) by (unfold zlen; lia).
  unfold ntfs_mapping_pairs_decompress, ntfs_mapping_pairs_decompress_i. rewrite Hmalloc, Hlow. cbn [negb].
  replace ((attr_non_resident attr =? 0) || (start <? 0)) with false by (symmetry; apply orb_false_iff; lia). if_false.
  set (rl := if start =? 0 then [] else [mkRun 0 LCN_RL_NOT_MAPPED start]).
  replace (if negb (start =? 0) then _ else _) with (rl, zlen rl) by (unfold rl; by destruct (start =? 0)).
  assert (zlen rl <= 1) by (unfold rl; by destruct (start =? 0)).
  rewrite (read_pairs_spec Hmalloc m (cut_runs start rs)); try done; try lia.
  2:{ pose proof (pairs_len_nonneg m 0 (cut_runs start rs)). unfold zlen in *. lia. }
  rewrite Hc2. if_false. replace (s64 (runs_end 0 rs - 1)) with (runs_end 0 rs - 1) by (symmetry; apply s64_small; unfold is_s64; lia).
  replace (negb _ && negb _) with false by (destruct Hhigh as [->| ->]; [done|rewrite Z.eqb_refl; by rewrite andb_false_r]).
  unfold from_extent. fold rl. rewrite Hc2. destruct (Z.eqb_spec start 0) as [->|Hne]; cbn [andb].
  - destruct (Halloc eq_refl) as [-> Hal]. destruct Hcl as [Hb Hcl].
    rewrite (allocated_clusters (runs_end 0 rs)) by (done || lia). rewrite Z.ltb_irrefl. unfold zlen. rewrite Nat2Z.id, put_runs_end, <- app_assoc. done.
  - unfold zlen. by rewrite Nat2Z.id, put_runs_end, <- app_assoc.
Qed.

Lemma pairs_len_bound m prev rs : zlen (pairs m prev rs) <= 17 * zlen rs.
Proof.
  revert prev. induction rs as [|r rs IH]; intros prev; [done|]. cbn [pairs]. rewrite (zlen_cons r).
  pose proof (sig_bytes_len (length r)). pose proof (sig_bytes_len (lcn r - prev)).
  case_match; unfold pair_bytes; rewrite zlen_app, zlen_cons, zlen_app; [specialize (IH (lcn r))|specialize (IH prev); change (zlen []) with 0]; lia.
Qed.

Lemma lookup_extent rs t rest start v :
  runs_from 0 rs -> vcn t = runs_end 0 rs -> 0 <= start <= v -> v < runs_end 0 rs -> runs_end 0 rs < 2 ^ 62 ->
  ntfs_rl_vcn_to_lcn (Some (from_extent start rs)) v = ntfs_rl_vcn_to_lcn (Some (rs ++ t :: rest)) v.
Proof.
  intros Hrs Ht Hs Hv He. destruct (cut_runs_from 0 rs start Hrs ltac:(lia)) as (Hc1 & Hc2 & _).
  unfold ntfs_rl_vcn_to_lcn. rewrite (run_at_app_terminator rs t rest 0) by done. replace (v <? 0) with false by lia.
  unfold from_extent. rewrite Hc2. set (e := mkRun _ _ 0). rewrite <- (lookup_cut 0 rs t rest e [] start v) by (done || lia).
  set (ext := cut_runs start rs ++ [e]). assert (vcn (run_at ext 0) = start) as Hx by (apply run_at_app_terminator; done).
  destruct (Z.eqb_spec start 0) as [E0|]; cbn [app]; [rewrite Hx; by if_false|].
  cbn [run_at nth vcn vcn_to_lcn length]. fold (run_at ext 0). rewrite Hx.
  replace (v <? 0) with false by lia. replace (start =? 0) with false by lia. by if_false.
Qed.

(** C19: mapping pairs are a faithful encoding of runlists.  For a
    well-formed runlist, [ntfs_get_size_for_mapping_pairs] computes the space needed for the
    runs from [start] on; [ntfs_mapping_pairs_build] fails with [ENOSPC] in less space, and
    otherwise writes that many bytes and nothing else; and
    [ntfs_mapping_pairs_decompress] of an attribute record that holds these bytes gives a
    runlist that maps every cluster from [start] on to the same place.  This covers holes,
    negative jumps, a start in the middle of a run, and the volume versions that store the
    LCN of holes. *)
Theorem mapping_pairs_roundtrip `{!Malloc} m csz bits rs t rest start buf dst_len max_size :
  (forall n, malloc_ok n = true) ->
  runs_from 0 rs -> vcn t = runs_end 0 rs -> length t = 0 -> runs_end 0 rs < 2 ^ 62 -> zlen rs + 1 < 2 ^ 16 ->
  0 <= start <= runs_end 0 rs -> 1 <= dst_len <= zlen buf -> 2 ^ 21 <= max_size ->
  let rl := rs ++ t :: rest in
  exists n, ntfs_get_size_for_mapping_pairs m (Some rl) start max_size = inl n /\
    (dst_len < n -> exists buf' stop, ntfs_mapping_pairs_build m buf dst_len (Some rl) start = (Some ENOSPC, buf', stop)) /\
    (n <= dst_len -> exists buf',
       ntfs_mapping_pairs_build m buf dst_len (Some rl) start = (None, buf', Some (Some (t :: rest))) /\
       zlen buf' = zlen buf /\ (forall i, n <= i < zlen buf -> buf'.[i] = buf.[i]) /\
       forall attr, holds_pairs csz bits attr (take (Z.to_nat n) buf') start (runs_end 0 rs) -> exists rl',
         ntfs_mapping_pairs_decompress csz bits attr None = Merged (Some rl') /\
         forall v, start <= v < runs_end 0 rs -> ntfs_rl_vcn_to_lcn (Some rl') v = ntfs_rl_vcn_to_lcn (Some rl) v).
Proof.
  intros Hmalloc Hrs Ht Hz He Hlen Hs Hd Hmax rl. set (cs := cut_runs start rs).
  destruct (cut_runs_from 0 rs start Hrs Hs) as (Hc1 & Hc2 & Hc3). fold cs in Hc1, Hc2, Hc3.
  exists (1 + zlen (pairs m 0 cs)). pose proof (pairs_len_bound m 0 cs). pose proof (runs_from_data _ _ Hc1) as Hdr.
  assert (0 <= zlen (pairs m 0 cs)) by (unfold zlen; lia). split.
  { rewrite (size_cut m rs t rest start) by (done || lia). fold cs. rewrite size_runs_spec by (done || lia). done. }
  destruct (build_cut m rs t rest start Hrs Ht Hz Hs He buf dst_len) as [B1 B2]. fold cs rl in B1, B2.
  destruct (build_runs_spec m cs t rest buf 0 (dst_len - 1) 0 Hdr Hz ltac:(lia) ltac:(lia) ltac:(lia)) as (buf' & L & _ & R1 & R2).
  split.
  - intros Hlt. destruct R2 as (rs1 & rs2 & _ & _ & R & _); [lia|]. rewrite R in B1. exists buf'.
    destruct (ntfs_mapping_pairs_build m buf dst_len (Some rl) start) as [eb stop]. cbn in B1. subst eb. by eexists.
  - intros Hle. destruct R1 as [R [_ S2 S3]]; [lia|]. rewrite R in B1, B2. cbn in B1, B2. rewrite B1 in B2. specialize (B2 eq_refl).
    rewrite zlen_app in S3. change (zlen [0]) with 1 in S3. exists buf'. split_and!; [done..|intros i Hi; apply S3; lia|].
    intros attr Hat. exists (from_extent start rs). split; [|intros v Hv; by apply lookup_extent; try lia].
    apply (decompress_pairs m); try done. fold cs.
    rewrite <- (at_bytes_take buf' (pairs m 0 cs ++ [0])) by (try done; rewrite zlen_app; change (zlen [0]) with 1; lia).
    rewrite zlen_app. change (zlen [0]) with 1. by rewrite (Z.add_comm _ 1).
Qed.
