(* ===== verification/NtfsDevice.v ===== *)
(** * The device of an NTFS volume

    [src/ntfs3g/src/ntfs-3g/device.c]: positioned transfers over the operations of the
    device, with and without the protection of multi-sector records, and the transfers of
    [runlist.c] that gather and scatter the bytes of an attribute.

    The operations behind [d_ops] are a parameter.  A buffer that a function fills is
    returned as the list of the bytes stored in it; buffers are not null. *)

From stdpp Require Import prelude list.
From Stdlib Require Import ZArith Lia.
From S2P Require Import Prelude Bytes NtfsTypes Mst Runlist.

Local Open Scope Z_scope.

(** ** The operations of the device *)

(** [d_ops]: the number of bytes transferred, or the error. *)
Class DevOps (W : Type) := {
  op_pread : Z -> Z -> W -> (Z + errno) * list Z * W;
  op_pwrite : list Z -> Z -> W -> (Z + errno) * W;
  op_sync : W -> option errno * W
}.

(** What they promise: a transfer moves a prefix of what was asked for, between the buffer
    and the bytes [image] of the medium, and nothing else changes them. *)
Class DevLaws (W : Type) `{!DevOps W} := {
  image : W -> Z -> Z;
  pread_law count pos w : 0 <= count ->
    let '(r, data, w') := op_pread count pos w in
    image w' = image w /\
    match r with
    | inl n => 0 <= n <= count /\ zlen data = n /\ forall j, 0 <= j < n -> data.[j] = image w (pos + j)
    | inr _ => True
    end;
  pwrite_law b pos w :
    let '(r, w') := op_pwrite b pos w in
    match r with
    | inl n => 0 <= n <= zlen b /\
        forall x, image w' x = if (pos <=? x) && (x <? pos + n) then b.[x - pos] else image w x
    | inr _ => image w' = image w
    end;
  sync_law w : image (snd (op_sync w)) = image w
}.

(** [struct ntfs_device] and [errno]. *)
Record ntfs_device W := mkDevice {
  nd_world : W;
  NDevReadOnly : bool;
  NDevSync : bool;
  NDevDirty : bool;
  nd_errno : errno
}.
Arguments mkDevice {W}.
Arguments nd_world {W}.
Arguments NDevReadOnly {W}.
Arguments NDevSync {W}.
Arguments NDevDirty {W}.
Arguments nd_errno {W}.

(** The members of [ntfs_volume] the transfers read. *)
Record ntfs_volume := mkVolume {
  cluster_size_bits : Z;
  nr_clusters : Z;
  NVolReadOnly : bool
}.

Section device.
Context {W : Type} `{!DevOps W}.
Abbreviation Dev := (M (ntfs_device W)).

Definition set_errno (e : errno) : Dev unit :=
  modify (fun d => mkDevice (nd_world d) (NDevReadOnly d) (NDevSync d) (NDevDirty d) e).
Definition set_world (w : W) : Dev unit :=
  modify (fun d => mkDevice w (NDevReadOnly d) (NDevSync d) (NDevDirty d) (nd_errno d)).
Definition NDevSetDirty : Dev unit :=
  modify (fun d => mkDevice (nd_world d) (NDevReadOnly d) (NDevSync d) true (nd_errno d)).

(** A call of an operation: -1 and [errno] on error. *)
Definition dops_pread (count pos : Z) : Dev (Z * list Z) :=
  d ← gets id;
  let '(r, data, w) := op_pread count pos (nd_world d) in
  set_world w;;
  match r with inl n => mret (n, data) | inr e => set_errno e;; mret (-1, data) end.
Definition dops_pwrite (b : list Z) (pos : Z) : Dev Z :=
  d ← gets id;
  let '(r, w) := op_pwrite b pos (nd_world d) in
  set_world w;;
  match r with inl n => mret n | inr e => set_errno e;; mret (-1) end.
Definition dops_sync : Dev bool :=
  d ← gets id;
  let '(r, w) := op_sync (nd_world d) in
  set_world w;;
  match r with None => mret false | Some e => set_errno e;; mret true end.

(** More rounds than a 64-bit count allows. *)
Definition many : positive := 2 ^ 64.

Definition ntfs_device_sync : Dev bool :=
  d ← gets id;
  if NDevDirty d then dops_sync else mret false.

Definition fail (e : errno) : Dev Z := set_errno e;; mret (-1).

Definition pread_step (pos : Z) '(count, total, data) : Dev (Z * Z * list Z + Z * list Z) :=
  if count =? 0 then mret (inr (total, data)) else
  '(br, bs) ← dops_pread count (pos + total);
  if 0 <? br then mret (inl (count - br, total + br, data ++ bs)) else
  if (br =? 0) || negb (total =? 0) then mret (inr (total, data)) else
  mret (inr (br, data)).

Definition ntfs_pread (pos count : Z) : Dev (Z * list Z) :=
  if (count <? 0) || (pos <? 0) then r ← fail EINVAL; mret (r, []) else
  if count =? 0 then mret (0, []) else
  iterate many (pread_step pos) (count, 0, []).

Definition pwrite_step (pos : Z) (b : list Z) '(count, total) : Dev (Z * Z + Z) :=
  if count =? 0 then mret (inr total) else
  written ← dops_pwrite (sub b total count) (pos + total);
  if 0 <? written then mret (inl (count - written, total + written)) else
  if (written =? 0) || negb (total =? 0) then mret (inr total) else
  mret (inr written).

Definition ntfs_pwrite (pos count : Z) (b : list Z) : Dev Z :=
  if (count <? 0) || (pos <? 0) then fail EINVAL else
  if count =? 0 then mret 0 else
  d ← gets id;
  if NDevReadOnly d then fail EROFS else
  NDevSetDirty;;
  total ← iterate many (pwrite_step pos b) (count, 0);
  d ← gets id;
  bad ← (if NDevSync d && negb (total =? 0) then dops_sync else mret false) : Dev bool;
  mret (total - Z.b2z bad).

(** ** Multi-sector transfers *)

(** The fixup of block after block. *)
Fixpoint fixup_read (n : nat) (b : list Z) (i bksize : Z) : list Z :=
  match n with
  | O => b
  | S n => fixup_read n (blit b (i * bksize) (snd (ntfs_mst_post_read_fixup (sub b (i * bksize) bksize) bksize))) (i + 1) bksize
  end.

Definition ntfs_mst_pread (pos count bksize : Z) : Dev (Z * list Z) :=
  if negb (Z.land bksize (bksize - 1) =? 0) || negb (bksize mod NTFS_BLOCK_SIZE =? 0)
  then r ← fail EINVAL; mret (r, []) else
  '(br, b) ← ntfs_pread pos (s64 (count * bksize));
  if br <? 0 then mret (br, b) else
  let count := br / bksize in
  mret (count, fixup_read (Z.to_nat count) b 0 bksize).

(** How many blocks were protected; the buffer. *)
Fixpoint fixup_write (n : nat) (b : list Z) (i bksize : Z) : Z * list Z :=
  match n with
  | O => (i, b)
  | S n =>
      match ntfs_mst_pre_write_fixup (Some (sub b (i * bksize) bksize)) bksize with
      | (None, Some bk) => fixup_write n (blit b (i * bksize) bk) (i + 1) bksize
      | _ => (i, b)
      end
  end.
Fixpoint unfix_write (n : nat) (b : list Z) (i bksize : Z) : list Z :=
  match n with
  | O => b
  | S n => unfix_write n (blit b (i * bksize) (ntfs_mst_post_write_fixup (sub b (i * bksize) bksize))) (i + 1) bksize
  end.

Definition ntfs_mst_pwrite (pos count bksize : Z) (b : list Z) : Dev (Z * list Z) :=
  if (count <? 0) || negb (bksize mod NTFS_BLOCK_SIZE =? 0) then r ← fail EINVAL; mret (r, b) else
  if count =? 0 then mret (0, b) else
  let '(n, b) := fixup_write (Z.to_nat count) b 0 bksize in
  if (n <? count) && (n =? 0) then r ← fail EINVAL; mret (r, b) else
  written ← ntfs_pwrite pos (s64 (n * bksize)) b;
  let b := unfix_write (Z.to_nat n) b 0 bksize in
  if written <=? 0 then mret (written, b) else mret (written / bksize, b).

(** ** Clusters *)

Context (vol : ntfs_volume).

(** [n << vol->cluster_size_bits] *)
Definition to_bytes (n : Z) : Z := s64 (Z.shiftl n (cluster_size_bits vol)).

Definition ntfs_cluster_read (l count : Z) : Dev (Z * list Z) :=
  if (l <? 0) || (count <? 0) then r ← fail EINVAL; mret (r, []) else
  if nr_clusters vol <? s64 (l + count) then r ← fail ESPIPE; mret (r, []) else
  '(br, b) ← ntfs_pread (to_bytes l) (to_bytes count);
  if br <? 0 then mret (br, b) else mret (Z.shiftr br (cluster_size_bits vol), b).

Definition ntfs_cluster_write (l count : Z) (b : list Z) : Dev Z :=
  if (l <? 0) || (count <? 0) then fail EINVAL else
  if nr_clusters vol <? s64 (l + count) then fail ESPIPE else
  bw ← (if NVolReadOnly vol then mret (to_bytes count) else ntfs_pwrite (to_bytes l) (to_bytes count) b) : Dev Z;
  if bw <? 0 then mret bw else mret (Z.shiftr bw (cluster_size_bits vol)).

(** ** Runs *)

(** The run that contains [pos], and where it starts. *)
Fixpoint seek_run (rl : runlist) (ofs pos : Z) : runlist * Z :=
  match rl with
  | [] => ([], ofs)
  | r :: rl' =>
      if negb (length r =? 0) && (s64 (ofs + to_bytes (length r)) <=? pos)
      then seek_run rl' (s64 (ofs + to_bytes (length r))) pos else (rl, ofs)
  end.

(** A transfer that is repeated while it is interrupted. *)
Definition retry {A} (io : Dev (Z * A)) : Dev (Z * A) :=
  iterate many (fun _ : unit =>
    '(n, a) ← io;
    d ← gets id;
    if negb (0 <? n) && (n =? -1) && bool_decide (nd_errno d = EINTR) then mret (inl tt) else mret (inr (n, a))) tt.

Definition rl_err_out (err : errno) (total : Z) : Dev Z := if negb (total =? 0) then mret total else fail err.

Fixpoint pread_runs (rl : runlist) (ofs count total : Z) (data : list Z) : Dev (Z * list Z) :=
  if count =? 0 then mret (total, data) else
  match rl with
  | [] => r ← rl_err_out EIO total; mret (r, data)
  | r :: rl =>
      if length r =? 0 then r ← rl_err_out EIO total; mret (r, data) else
      let to_read := Z.min count (s64 (to_bytes (length r) - ofs)) in
      if lcn r <? 0 then
        if negb (lcn r =? LCN_HOLE) then r ← rl_err_out EIO total; mret (r, data) else
        pread_runs rl 0 (count - to_read) (total + to_read) (data ++ replicate (Z.to_nat to_read) 0)
      else
        '(n, bs) ← retry (ntfs_pread (s64 (to_bytes (lcn r) + ofs)) to_read);
        if 0 <? n then pread_runs rl 0 (count - n) (total + n) (data ++ bs) else
        d ← gets id;
        r ← rl_err_out (if n =? -1 then nd_errno d else EIO) total; mret (r, data)
  end.

Definition ntfs_rl_pread (rl : option runlist) (pos count : Z) : Dev (Z * list Z) :=
  match rl with
  | None => r ← fail EINVAL; mret (r, [])
  | Some rl =>
      if (pos <? 0) || (count <? 0) then r ← fail EINVAL; mret (r, []) else
      if count =? 0 then mret (count, []) else
      let '(rl, ofs) := seek_run rl 0 pos in
      pread_runs rl (s64 (pos - ofs)) count 0 []
  end.

Fixpoint pwrite_runs (rl : runlist) (ofs count total : Z) (b : list Z) : Dev Z :=
  if count =? 0 then mret total else
  match rl with
  | [] => rl_err_out EIO total
  | r :: rl =>
      if length r =? 0 then rl_err_out EIO total else
      let to_write := Z.min count (s64 (to_bytes (length r) - ofs)) in
      if lcn r <? 0 then
        if negb (lcn r =? LCN_HOLE) then rl_err_out EIO total else
        pwrite_runs rl 0 (count - to_write) (total + to_write) b
      else
        '(n, _) ← (if negb (NVolReadOnly vol)
          then retry (n ← ntfs_pwrite (s64 (to_bytes (lcn r) + ofs)) to_write (drop (Z.to_nat total) b); mret (n, tt))
          else mret (to_write, tt));
        if 0 <? n then pwrite_runs rl 0 (count - n) (total + n) b else
        d ← gets id;
        rl_err_out (if n =? -1 then nd_errno d else EIO) total
  end.

Definition ntfs_rl_pwrite (rl : option runlist) (ofs pos count : Z) (b : list Z) : Dev Z :=
  match rl with
  | None => fail EINVAL
  | Some rl =>
      if (pos <? 0) || (count <? 0) then fail EINVAL else
      if count =? 0 then mret 0 else
      let '(rl, ofs) := seek_run rl ofs pos in
      pwrite_runs rl (s64 (pos - ofs)) count 0 b
  end.
End device.
