(* ===== verification/RunIo.v ===== *)
(** * Gather reads and scatter writes

    What [ntfs_pread], [ntfs_pwrite], [ntfs_rl_pread] and [ntfs_rl_pwrite] do to the bytes
    of the medium and of an attribute. *)

From stdpp Require Import prelude list.
From Stdlib Require Import ZArith Lia.
From S2P Require Import Prelude Bytes NtfsTypes Mst Runlist RunPairs NtfsDevice.

Local Open Scope Z_scope.

Section io.
Context {W : Type} `{!DevOps W, !DevLaws W}.
Implicit Types d : ntfs_device W.

(** The bytes of the medium. *)
Definition medium (d : ntfs_device W) : Z -> Z := image (nd_world d).

(** The members that no transfer changes. *)
Definition same_flags (d d' : ntfs_device W) : Prop := NDevReadOnly d' = NDevReadOnly d /\ NDevSync d' = NDevSync d.

(** The device serves every transfer of a range of its first [size] bytes, if only in
    part, and synchronises. *)
Definition serves (size : Z) (w : W) : Prop :=
  (forall count pos, 0 < count -> 0 <= pos -> pos + count <= size ->
     exists n data w', op_pread count pos w = (inl n, data, w') /\ 0 < n) /\
  (forall b pos, 0 < zlen b -> 0 <= pos -> pos + zlen b <= size ->
     exists n w', op_pwrite b pos w = (inl n, w') /\ 0 < n) /\
  fst (op_sync w) = None.

(** ... for ever. *)
Definition reliable (size : Z) (P : W -> Prop) : Prop :=
  forall w, P w -> serves size w /\ (forall count pos, P (snd (op_pread count pos w))) /\
    (forall b pos, P (snd (op_pwrite b pos w))) /\ P (snd (op_sync w)).

Context (size : Z) (P : W -> Prop) (HP : reliable size P) (Hsize : size < 2 ^ 62).

Lemma dops_pread_spec d count pos :
  P (nd_world d) -> 0 < count -> 0 <= pos -> pos + count <= size ->
  post (dops_pread count pos) d (fun '(n, bs) d' =>
    0 < n <= count /\ zlen bs = n /\ (forall j, 0 <= j < n -> bs.[j] = medium d (pos + j)) /\
    medium d' = medium d /\ same_flags d d' /\ P (nd_world d')).
Proof.
  intros Hw Hc Hp Hs. destruct (HP _ Hw) as ((Hr & _) & HPr & _). specialize (HPr count pos).
  destruct (Hr count pos Hc Hp Hs) as (n & bs & w' & E & Hn). pose proof (pread_law count pos (nd_world d) ltac:(lia)) as HL.
  rewrite E in HL, HPr. destruct HL as (Hi & Hn2 & Hlb & Hb).
  unfold dops_pread. apply post_bind, post_gets. cbn beta. unfold id. rewrite E. apply post_bind, post_modify, post_ret.
  split_and!; (done || lia).
Qed.

Lemma dops_pwrite_spec d b pos :
  P (nd_world d) -> 0 < zlen b -> 0 <= pos -> pos + zlen b <= size ->
  post (dops_pwrite b pos) d (fun n d' =>
    0 < n <= zlen b /\ (forall x, medium d' x = if (pos <=? x) && (x <? pos + n) then b.[x - pos] else medium d x) /\
    same_flags d d' /\ P (nd_world d')).
Proof.
  intros Hw Hc Hp Hs. destruct (HP _ Hw) as ((_ & Hr & _) & _ & HPr & _). specialize (HPr b pos).
  destruct (Hr b pos Hc Hp Hs) as (n & w' & E & Hn). pose proof (pwrite_law b pos (nd_world d)) as HL.
  rewrite E in HL, HPr. destruct HL as (Hn2 & Hi).
  unfold dops_pwrite. apply post_bind, post_gets. cbn beta. unfold id. rewrite E. apply post_bind, post_modify, post_ret.
  split_and!; (done || lia).
Qed.

Lemma dops_sync_spec d :
  P (nd_world d) -> post dops_sync d (fun bad d' => bad = false /\ medium d' = medium d /\ same_flags d d' /\ P (nd_world d')).
Proof.
  intros Hw. destruct (HP _ Hw) as ((_ & _ & Hr) & _ & _ & HPr). pose proof (sync_law (nd_world d)) as HL.
  unfold dops_sync. apply post_bind, post_gets. cbn beta. unfold id.
  destruct (op_sync (nd_world d)) as [r w']. cbn in Hr, HPr, HL. subst r. by apply post_bind, post_modify, post_ret.
Qed.

Lemma pread_spec d pos count :
  P (nd_world d) -> 0 <= pos -> 0 <= count -> pos + count <= size ->
  post (ntfs_pread pos count) d (fun '(n, data) d' =>
    n = count /\ zlen data = count /\ (forall j, 0 <= j < count -> data.[j] = medium d (pos + j)) /\
    medium d' = medium d /\ same_flags d d' /\ P (nd_world d')).
Proof.
  intros Hw Hp Hc Hs. unfold ntfs_pread. replace ((count <? 0) || (pos <? 0)) with false by (symmetry; apply orb_false_iff; lia).
  destruct (Z.eqb_spec count 0) as [->|Hne]; [apply post_ret; split_and!; (done || lia)|].
  eapply (post_iterate _ (fun '(c, t, data) k s => k = c /\ 0 <= c /\ 0 <= t /\ c + t = count /\ zlen data = t /\
    (forall j, 0 <= j < t -> data.[j] = medium d (pos + j)) /\ medium s = medium d /\ same_flags d s /\ P (nd_world s))) with (k := count).
  2:{ split_and!; try (done || lia). }
  2:{ unfold many. lia. }
  clear Hw. intros [[c t] data] k s (-> & Hc0 & Ht & Hct & Hl & Hd & Hm & Hf & Hw). unfold pread_step.
  destruct (Z.eqb_spec c 0) as [->|Hc1]; [apply post_ret; split_and!; (done || lia || (intros; apply Hd; lia))|].
  mcall dops_pread_spec; [done|lia..|]. intros [n bs] s' (Hn & Hlb & Hb & Hm' & Hf' & Hw'). if_true. apply post_ret.
  exists (c - n). split; [lia|]. rewrite zlen_app. split_and!; (done || lia || (try congruence)).
  - intros j Hj. rewrite getb_app by lia. bdestr; [apply Hd; lia|]. rewrite Hb, Hm by lia. f_equal. lia.
  - destruct Hf, Hf'. split; congruence.
Qed.

Lemma pwrite_spec d pos count b :
  P (nd_world d) -> NDevReadOnly d = false -> 0 <= pos -> 0 <= count <= zlen b -> pos + count <= size ->
  post (ntfs_pwrite pos count b) d (fun n d' =>
    n = count /\ (forall x, medium d' x = if (pos <=? x) && (x <? pos + count) then b.[x - pos] else medium d x) /\
    same_flags d d' /\ P (nd_world d')).
Proof.
  intros Hw Hro Hp Hc Hs. unfold ntfs_pwrite. replace ((count <? 0) || (pos <? 0)) with false by (symmetry; apply orb_false_iff; lia).
  destruct (Z.eqb_spec count 0) as [->|Hne].
  { apply post_ret. split_and!; try done. intros x. rewrite Z.add_0_r.
    by replace ((pos <=? x) && (x <? pos)) with false by (symmetry; apply andb_false_iff; lia). }
  apply post_bind, post_gets. cbn beta. unfold id at 1. rewrite Hro. apply post_bind, post_modify.
  set (d1 := mkDevice _ _ _ _ _). apply post_bind.
  eapply post_mono; [eapply (post_iterate _ (fun '(c, t) k s => k = c /\ 0 <= c /\ 0 <= t /\ c + t = count /\
    (forall x, medium s x = if (pos <=? x) && (x <? pos + t) then b.[x - pos] else medium d x) /\ same_flags d s /\ P (nd_world s))
    (fun n s => n = count /\ (forall x, medium s x = if (pos <=? x) && (x <? pos + count) then b.[x - pos] else medium d x) /\
      same_flags d s /\ P (nd_world s))) with (k := count)|].
  - intros [c t] k s (-> & Hc0 & Ht & Hct & Hm & Hf & Hw1). unfold pwrite_step.
    destruct (Z.eqb_spec c 0) as [->|Hc1]; [apply post_ret; replace count with t by lia; done|].
    assert (zlen (sub b t c) = c) as Hl by (unfold zlen, sub in *; rewrite length_take, length_drop; lia).
    mcall dops_pwrite_spec; [done|lia..|]. intros n s' (Hn & Hm' & Hf' & Hw'). rewrite Hl in Hn. if_true. apply post_ret.
    exists (c - n). split; [lia|]. split_and!; (done || lia || (try congruence)).
    + intros x. rewrite Hm', Hm. destruct (Z.leb_spec (pos + t) x), (Z.ltb_spec x (pos + t + n)); cbn [andb].
      * rewrite getb_sub by lia. replace ((pos <=? x) && (x <? pos + (t + n))) with true by (symmetry; apply andb_true_iff; lia). f_equal. lia.
      * replace ((pos <=? x) && (x <? pos + (t + n))) with false by (symmetry; apply andb_false_iff; lia).
        by replace ((pos <=? x) && (x <? pos + t)) with false by (symmetry; apply andb_false_iff; lia).
      * destruct (pos <=? x); cbn [andb]; [|done]. by replace (x <? pos + t) with true by lia; replace (x <? pos + (t + n)) with true by lia.
      * lia.
    + destruct Hf, Hf'. split; congruence.
  - split_and!; try (done || lia). intros x. rewrite Z.add_0_r.
    by replace ((pos <=? x) && (x <? pos)) with false by (symmetry; apply andb_false_iff; lia).
  - unfold many. lia.
  - intros n s (-> & Hm & Hf & Hw1). apply post_bind, post_gets. cbn beta. unfold id. apply post_bind.
    destruct (NDevSync s && _).
    + eapply post_mono; [by apply dops_sync_spec|]. intros bad s' (-> & Hm' & Hf' & Hw'). apply post_ret. cbn [Z.b2z].
      split_and!; [lia|by rewrite Hm'|destruct Hf, Hf'; split; congruence|done].
    + apply post_ret, post_ret. cbn [Z.b2z]. split_and!; [lia|done..].
Qed.

(** ** The bytes of an attribute *)

Context (vol : ntfs_volume) (Hbits : 0 <= cluster_size_bits vol).
Abbreviation cs := (2 ^ cluster_size_bits vol).

(** The runs are within the device and the attribute within 62 bits. *)
Definition run_fits (r : runlist_element) : Prop := lcn r < 0 \/ (lcn r + length r) * cs <= size.

(** Where byte [p] of the attribute is on the medium. *)
Definition address (rl : runlist) (p : Z) : option Z :=
  let l := vcn_to_lcn rl (p / cs) in if l <? 0 then None else Some (l * cs + p mod cs).

Definition attr_byte (rl : runlist) (d : ntfs_device W) (p : Z) : Z :=
  match address rl p with Some x => medium d x | None => 0 end.

Lemma cs_pos : 0 < cs.
Proof. apply Z.pow_pos_nonneg; lia. Qed.

Lemma to_bytes_small n : 0 <= n -> n * cs < 2 ^ 62 -> to_bytes vol n = n * cs.
Proof.
  intros Hn Hm. unfold to_bytes. rewrite Z.shiftl_mul_pow2 by done. apply s64_small. unfold is_s64. pose proof cs_pos. nia.
Qed.

(** The address within the first run, and after it. *)
Lemma address_head v0 r rs t rest p :
  runs_from v0 (r :: rs) -> vcn t = runs_end v0 (r :: rs) -> v0 * cs <= p < (v0 + length r) * cs ->
  address ((r :: rs) ++ t :: rest) p = if lcn r <? 0 then None else Some (lcn r * cs + (p - v0 * cs)).
Proof.
  intros (Hv & Hr & Hrs) Ht Hp. pose proof cs_pos as Hc. cbn [runs_end] in Ht.
  assert (v0 <= p / cs < v0 + length r) as Hq by (split; [apply Z.div_le_lower_bound|apply Z.div_lt_upper_bound]; lia).
  unfold address. cbn [app vcn_to_lcn]. destruct (data_run_good r Hr) as (_ & -> & _).
  rewrite (run_at_app_terminator rs t rest (v0 + length r)), Hv by done. if_true. destruct Hr as (Hl & Hc1 & Hc2).
  destruct (Z.ltb_spec (lcn r) 0); [if_false; by if_true|].
  if_true. rewrite s64_small by (unfold is_s64; lia). if_false. f_equal. pose proof (Z.div_mod p cs). lia.
Qed.

Lemma address_tail v0 r rs t rest p :
  runs_from v0 (r :: rs) -> vcn t = runs_end v0 (r :: rs) -> (v0 + length r) * cs <= p ->
  address ((r :: rs) ++ t :: rest) p = address (rs ++ t :: rest) p.
Proof.
  intros (Hv & Hr & Hrs) Ht Hp. pose proof cs_pos as Hc. cbn [runs_end] in Ht.
  assert (v0 + length r <= p / cs) as Hq by (apply Z.div_le_lower_bound; lia).
  unfold address. cbn [app vcn_to_lcn]. destruct (data_run_good r Hr) as (_ & -> & _).
  rewrite (run_at_app_terminator rs t rest (v0 + length r)) by done. by if_false.
Qed.

Lemma runs_from_app v0 rs0 rs :
  runs_from v0 (rs0 ++ rs) -> runs_from v0 rs0 /\ runs_from (runs_end v0 rs0) rs /\ runs_end v0 (rs0 ++ rs) = runs_end (runs_end v0 rs0) rs.
Proof.
  revert v0. induction rs0 as [|r rs0 IH]; intros v0; [done|]. intros (Hv & Hr & Hrs). destruct (IH _ Hrs) as (H1 & H2 & H3). done.
Qed.

(** The address behind the first runs. *)
Lemma address_skip v0 rs0 rs t rest p :
  runs_from v0 (rs0 ++ rs) -> vcn t = runs_end v0 (rs0 ++ rs) -> runs_end v0 rs0 * cs <= p ->
  address ((rs0 ++ rs) ++ t :: rest) p = address (rs ++ t :: rest) p.
Proof.
  revert v0. induction rs0 as [|r rs0 IH]; intros v0 Hrs Ht Hp; [done|]. cbn [app runs_end] in *.
  pose proof Hrs as (Hv & Hr & Hrs'). destruct (runs_from_app _ _ _ Hrs') as (Hrs0 & _). pose proof (runs_end_ge _ _ Hrs0).
  pose proof cs_pos as Hc. rewrite <- (IH (v0 + length r)) by done. apply (address_tail v0 r (rs0 ++ rs)); [done..|].
  assert (0 <= zlen rs0) by (unfold zlen; lia). nia.
Qed.

(** The seek stops at the run of [pos]. *)
Lemma seek_spec v0 rs t rest pos :
  runs_from v0 rs -> vcn t = runs_end v0 rs -> 0 <= v0 -> v0 * cs <= pos < runs_end v0 rs * cs -> runs_end v0 rs * cs < 2 ^ 62 ->
  exists v1 r rs1, seek_run vol (rs ++ t :: rest) (v0 * cs) pos = ((r :: rs1) ++ t :: rest, v1 * cs) /\ v0 <= v1 /\
    runs_from v1 (r :: rs1) /\ runs_end v1 (r :: rs1) = runs_end v0 rs /\ v1 * cs <= pos < (v1 + length r) * cs /\
    (forall Q, Forall Q rs -> Forall Q (r :: rs1)) /\
    forall p, v1 * cs <= p -> address (rs ++ t :: rest) p = address ((r :: rs1) ++ t :: rest) p.
Proof.
  revert v0. induction rs as [|r rs IH]; intros v0 Hrs Ht Hv Hp He; [cbn in Hp; lia|].
  pose proof Hrs as (Hr0 & Hr & Hrs'). pose proof cs_pos as Hc. cbn [app seek_run]. destruct (data_run_good r Hr) as (_ & -> & _).
  cbn [negb andb]. cbn [runs_end] in *. pose proof (runs_end_ge _ _ Hrs'). assert (0 <= zlen rs) by (unfold zlen; lia).
  destruct Hr as (Hl & Hc1 & Hc2). assert ((v0 + length r) * cs <= runs_end (v0 + length r) rs * cs) by (apply Z.mul_le_mono_nonneg_r; lia).
  rewrite to_bytes_small by nia. replace (v0 * cs + length r * cs) with ((v0 + length r) * cs) by lia.
  rewrite s64_small by (unfold is_s64; nia). bdestr.
  - destruct (IH (v0 + length r)) as (v1 & r' & rs1 & E & Hv1 & R1 & R2 & R3 & R4 & R5); [done..|lia|lia|lia|].
    exists v1, r', rs1. split_and!; try (done || lia).
    + intros Q HQ. apply R4. by inversion HQ.
    + intros p Hpp. rewrite <- R5 by done. apply (address_tail v0); try done. nia.
  - exists v0, r, rs. split_and!; try (done || lia).
Qed.

Lemma retry_spec {A} (io : M (ntfs_device W) (Z * A)) d Q :
  post io d (fun '(n, a) d' => 0 < n /\ Q (n, a) d') -> post (retry io) d Q.
Proof.
  intros Hio. eapply (post_iterate _ (fun _ k s => s = d /\ k = 0)) with (k := 0); [|done|done].
  intros [] k s [-> _]. apply post_bind. eapply post_mono; [exact Hio|]. intros [n a] d' [Hn HQ].
  apply post_bind, post_gets. cbn beta. replace (0 <? n) with true by lia. by apply post_ret.
Qed.

(** A transfer within the first run. *)
Lemma first_run v0 r rs ofs count :
  runs_from v0 (r :: rs) -> Forall run_fits (r :: rs) -> 0 <= v0 -> runs_end v0 (r :: rs) * cs < 2 ^ 62 ->
  0 <= ofs < length r * cs -> 0 < count ->
  let n := Z.min count (s64 (to_bytes vol (length r) - ofs)) in
  n = Z.min count (length r * cs - ofs) /\ 0 < n /\
  (0 <= lcn r -> s64 (to_bytes vol (lcn r) + ofs) = lcn r * cs + ofs /\ 0 <= lcn r * cs + ofs /\ lcn r * cs + ofs + n <= size).
Proof.
  intros (Hv & Hr & Hrs) Hf Hv0 He Ho Hc n. apply Forall_cons in Hf as [Hf _]. pose proof cs_pos as Hcs.
  pose proof (runs_end_ge _ _ Hrs). assert (0 <= zlen rs) by (unfold zlen; lia). cbn [runs_end] in He.
  destruct Hr as (Hl & Hc1 & Hc2).
  assert ((v0 + length r) * cs <= runs_end (v0 + length r) rs * cs) by (apply Z.mul_le_mono_nonneg_r; lia).
  unfold n. rewrite (to_bytes_small (length r)) by nia. rewrite s64_small by (unfold is_s64; nia). split_and!; [done|lia|].
  intros Hlcn. destruct Hf as [|Hf]; [lia|]. rewrite to_bytes_small by nia. rewrite s64_small by (unfold is_s64; nia). nia.
Qed.

(** The offset is in the first run. *)
Definition ofs_in (rs : runlist) (ofs : Z) : Prop :=
  0 <= ofs /\ match rs with [] => True | r :: _ => ofs < length r * cs end.

Lemma ofs_in_0 v0 rs : runs_from v0 rs -> ofs_in rs 0.
Proof. pose proof cs_pos. destruct rs as [|r rs]; [done|]. intros (_ & (Hl & _) & _). split; [lia|nia]. Qed.

(** Either the transfer ends in the first run or it goes on with the next. *)
Lemma next_run v0 r rs ofs count n :
  n = Z.min count (length r * cs - ofs) -> v0 * cs + ofs + count <= runs_end v0 (r :: rs) * cs ->
  count - n = 0 \/ v0 * cs + ofs + n = (v0 + length r) * cs /\ (v0 + length r) * cs + 0 + (count - n) <= runs_end (v0 + length r) rs * cs.
Proof. intros -> Hle. cbn [runs_end] in Hle. lia. Qed.

Lemma pread_runs_spec v0 rs t rest ofs count total data d :
  P (nd_world d) -> runs_from v0 rs -> vcn t = runs_end v0 rs -> length t = 0 -> Forall run_fits rs -> 0 <= v0 ->
  runs_end v0 rs * cs < 2 ^ 62 -> ofs_in rs ofs -> 0 <= count -> v0 * cs + ofs + count <= runs_end v0 rs * cs ->
  post (pread_runs vol (rs ++ t :: rest) ofs count total data) d (fun '(n, data') d' =>
    n = total + count /\ exists bs, data' = data ++ bs /\ zlen bs = count /\
    (forall j, 0 <= j < count -> bs.[j] = attr_byte (rs ++ t :: rest) d (v0 * cs + ofs + j)) /\
    medium d' = medium d /\ same_flags d d' /\ P (nd_world d')).
Proof.
  revert v0 ofs count total data d. induction rs as [|r rs IH]; intros v0 ofs count total data d Hw Hrs Ht Hz Hf Hv He Ho Hc Hle.
  { destruct Ho as [Ho _]. cbn in Hle. assert (count = 0) as -> by lia. cbn [app pread_runs]. if_true. apply post_ret.
    split; [lia|]. exists []. split_and!; (done || lia || by rewrite app_nil_r). }
  cbn [app pread_runs]. destruct (Z.eqb_spec count 0) as [->|Hne].
  { apply post_ret. split; [lia|]. exists []. split_and!; (done || lia || by rewrite app_nil_r). }
  destruct Ho as [Ho0 Ho]. pose proof Hrs as (_ & Hr & Hrs'). destruct (data_run_good r Hr) as (Hb & Hl0 & _). rewrite Hl0.
  destruct (first_run v0 r rs ofs count) as (En & Hn & Hadr); [done..|lia|]. set (n := Z.min count (s64 _)) in *.
  pose proof (next_run v0 r rs ofs count n En Hle) as Hnx. apply Forall_cons in Hf as [Hf1 Hf]. pose proof cs_pos.
  assert (forall bs s, P (nd_world s) -> medium s = medium d -> same_flags d s -> zlen bs = n ->
    (forall j, 0 <= j < n -> bs.[j] = attr_byte ((r :: rs) ++ t :: rest) d (v0 * cs + ofs + j)) ->
    post (pread_runs vol (rs ++ t :: rest) 0 (count - n) (total + n) (data ++ bs)) s (fun '(n, data') d' =>
      n = total + count /\ exists bs, data' = data ++ bs /\ zlen bs = count /\
      (forall j, 0 <= j < count -> bs.[j] = attr_byte ((r :: rs) ++ t :: rest) d (v0 * cs + ofs + j)) /\
      medium d' = medium d /\ same_flags d d' /\ P (nd_world d'))) as Hgo.
  { intros bs s Hws Hms Hfs Hlb Hbs. destruct Hnx as [E0|[Ep Hle']].
    { rewrite E0. assert (n = count) as En0 by lia. destruct rs; cbn [app pread_runs]; if_true; apply post_ret;
        (split; [lia|]; exists bs; rewrite <- En0; split_and!; done). }
    eapply post_mono; [apply (IH (v0 + length r)); try done; [destruct Hr; lia|by eapply ofs_in_0|lia]|].
    intros [m data'] d' (-> & bs' & -> & Hlb' & Hbs' & Hm & Hfl & Hw'). split; [lia|]. exists (bs ++ bs').
    rewrite zlen_app. split_and!; [by rewrite app_assoc|lia| |congruence|destruct Hfl, Hfs; split; congruence|done].
    intros j Hj. rewrite getb_app by lia. bdestr; [apply Hbs; lia|]. rewrite Hbs' by lia. unfold attr_byte. rewrite Hms.
    rewrite (address_tail v0) by (done || lia). replace (v0 * cs + ofs + j) with ((v0 + length r) * cs + 0 + (j - zlen bs)) by lia. done. }
  destruct (Z.ltb_spec (lcn r) 0) as [Hlt|Hge].
  - destruct Hr as (Hl & Hc1 & _). assert (lcn r = -1) as Eh by lia. rewrite Eh. cbn [Z.eqb negb LCN_HOLE].
    apply (Hgo (replicate (Z.to_nat n) 0) d); try done; [unfold zlen; rewrite length_replicate; lia|].
    intros j Hj. unfold attr_byte. rewrite (address_head v0) by (done || lia). rewrite Eh. cbn. unfold getb. rewrite nth_lookup. by rewrite lookup_replicate_2 by lia.
  - destruct (Hadr Hge) as (-> & Ha0 & Has). apply post_bind. apply retry_spec. eapply post_mono; [by apply pread_spec; try lia|].
    intros [m bs] s (-> & Hlb & Hbs & Hm & Hfl & Hw'). split; [lia|]. if_true. apply Hgo; try done.
    intros j Hj. rewrite Hbs by done. unfold attr_byte. rewrite (address_head v0) by (done || lia). if_false. f_equal. lia.
Qed.

(** No byte of the medium belongs to two bytes of the attribute. *)
Definition separate (rl : runlist) (lo hi : Z) : Prop :=
  forall p q x, lo <= p < hi -> lo <= q < hi -> address rl p = Some x -> address rl q = Some x -> p = q.

(** The medium after [count] bytes of [b] went to the bytes of the attribute from [pos] on. *)
Definition scattered (rl : runlist) (pos count : Z) (b : list Z) (d d' : ntfs_device W) : Prop :=
  (forall j x, 0 <= j < count -> address rl (pos + j) = Some x -> medium d' x = b.[j]) /\
  (forall x, (forall j, 0 <= j < count -> address rl (pos + j) <> Some x) -> medium d' x = medium d x).

Lemma separate_tail v0 r rs t rest hi :
  runs_from v0 (r :: rs) -> vcn t = runs_end v0 (r :: rs) -> separate ((r :: rs) ++ t :: rest) (v0 * cs) hi ->
  separate (rs ++ t :: rest) ((v0 + length r) * cs) hi.
Proof.
  intros Hrs Ht Hs p q x Hp Hq Ep Eq. pose proof cs_pos. pose proof Hrs as (_ & (Hl & _) & _).
  apply (Hs p q x); [nia..| |]; rewrite (address_tail v0); try done; lia.
Qed.

Lemma pwrite_runs_spec v0 rs t rest ofs count total b d :
  P (nd_world d) -> NDevReadOnly d = false -> NVolReadOnly vol = false ->
  runs_from v0 rs -> vcn t = runs_end v0 rs -> length t = 0 -> Forall run_fits rs -> 0 <= v0 ->
  runs_end v0 rs * cs < 2 ^ 62 -> ofs_in rs ofs -> 0 <= count -> 0 <= total -> total + count <= zlen b ->
  v0 * cs + ofs + count <= runs_end v0 rs * cs -> separate (rs ++ t :: rest) (v0 * cs) (runs_end v0 rs * cs) ->
  post (pwrite_runs vol (rs ++ t :: rest) ofs count total b) d (fun n d' =>
    n = total + count /\ scattered (rs ++ t :: rest) (v0 * cs + ofs) count (drop (Z.to_nat total) b) d d' /\
    same_flags d d' /\ P (nd_world d')).
Proof.
  intros Hw Hro Hvro. revert v0 ofs count total d Hw Hro. induction rs as [|r rs IH]; intros v0 ofs count total d Hw Hro Hrs Ht Hz Hf Hv He Ho Hc Htot Hb Hle Hsep.
  { destruct Ho as [Ho _]. cbn in Hle. assert (count = 0) as -> by lia. cbn [app pwrite_runs]. if_true. apply post_ret.
    split_and!; [lia|split; [intros; lia|done]|done..]. }
  cbn [app pwrite_runs]. destruct (Z.eqb_spec count 0) as [->|Hne].
  { apply post_ret. split_and!; [lia|split; [intros; lia|done]|done..]. }
  destruct Ho as [Ho0 Ho]. pose proof Hrs as (_ & Hr & Hrs'). destruct (data_run_good r Hr) as (_ & Hl0 & _). rewrite Hl0.
  destruct (first_run v0 r rs ofs count) as (En & Hn & Hadr); [done..|lia|]. set (n := Z.min count (s64 _)) in *.
  pose proof (next_run v0 r rs ofs count n En Hle) as Hnx. apply Forall_cons in Hf as [Hf1 Hf]. pose proof cs_pos.
  assert (forall s, P (nd_world s) -> same_flags d s -> scattered ((r :: rs) ++ t :: rest) (v0 * cs + ofs) n (drop (Z.to_nat total) b) d s ->
    post (pwrite_runs vol (rs ++ t :: rest) 0 (count - n) (total + n) b) s (fun n d' =>
      n = total + count /\ scattered ((r :: rs) ++ t :: rest) (v0 * cs + ofs) count (drop (Z.to_nat total) b) d d' /\
      same_flags d d' /\ P (nd_world d'))) as Hgo.
  { intros s Hws Hfs Hsc. destruct Hnx as [E0|[Ep Hle']].
    { rewrite E0. assert (n = count) as En0 by lia. destruct rs; cbn [app pwrite_runs]; if_true; apply post_ret;
        (split_and!; [lia|by rewrite <- En0|done..]). }
    eapply post_mono; [apply (IH (v0 + length r)); try done; [by destruct Hfs; congruence|destruct Hr; lia|by eapply ofs_in_0|lia..|by eapply separate_tail]|].
    intros m d' (-> & [S1 S2] & Hfl & Hw'). destruct Hsc as [T1 T2].
    assert (forall j, n <= j -> address ((r :: rs) ++ t :: rest) (v0 * cs + ofs + j) = address (rs ++ t :: rest) ((v0 + length r) * cs + 0 + (j - n))) as Eadr.
    { intros j Hj. rewrite (address_tail v0) by (done || lia). f_equal. lia. }
    split_and!; [lia| |destruct Hfl, Hfs; split; congruence|done]. split.
    - intros j x Hj Hx. destruct (decide (j < n)) as [Hlt|Hge].
      + rewrite S2; [apply T1; [lia|done]|]. intros k Hk Hkx. rewrite <- (Z.add_simpl_r k n), <- Eadr in Hkx by lia.
        enough (v0 * cs + ofs + j = v0 * cs + ofs + (k + n)) by lia. apply (Hsep _ _ x); try done; lia.
      + rewrite Eadr in Hx by lia. rewrite (S1 (j - n) x) by (done || lia). unfold getb. rewrite !nth_lookup, !lookup_drop. do 2 f_equal. lia.
    - intros x Hx. rewrite S2; [apply T2; intros j Hj; apply Hx; lia|]. intros k Hk.
      rewrite <- (Z.add_simpl_r k n), <- Eadr by lia. apply Hx. lia. }
  destruct (Z.ltb_spec (lcn r) 0) as [Hlt|Hge].
  - destruct Hr as (Hl & Hc1 & _). assert (lcn r = -1) as Eh by lia. rewrite Eh. cbn [Z.eqb negb LCN_HOLE].
    apply (Hgo d); try done. split; [|done]. intros j x Hj. rewrite (address_head v0), Eh by (done || lia). done.
  - destruct (Hadr Hge) as (-> & Ha0 & Has). rewrite Hvro. cbn [negb]. apply post_bind. apply retry_spec. apply post_bind.
    assert (zlen (drop (Z.to_nat total) b) = zlen b - total) as Hld by (unfold zlen in *; rewrite length_drop; lia).
    eapply post_mono; [apply pwrite_spec; try done; lia|]. intros m s (-> & Hm & Hfl & Hw'). apply post_ret. split; [lia|]. if_true.
    apply Hgo; try done. split.
    + intros j x Hj. rewrite (address_head v0) by (done || lia). if_false. intros [= <-]. rewrite Hm.
      replace ((_ <=? _) && _) with true by (symmetry; apply andb_true_iff; lia). f_equal. lia.
    + intros x Hx. rewrite Hm. destruct ((_ <=? x) && _) eqn:Eb; [|done]. bprop. exfalso.
      apply (Hx (x - (lcn r * cs + ofs)) ltac:(lia)). rewrite (address_head v0) by (done || lia). if_false. f_equal. lia.
Qed.

(** The runs have no cluster in common. *)
Fixpoint runs_disjoint (rs : runlist) : Prop :=
  match rs with
  | [] => True
  | r :: rs =>
      Forall (fun r' => lcn r < 0 \/ lcn r' < 0 \/ lcn r + length r <= lcn r' \/ lcn r' + length r' <= lcn r) rs /\
      runs_disjoint rs
  end.

Lemma address_in v0 rs t rest p x :
  runs_from v0 rs -> vcn t = runs_end v0 rs -> v0 * cs <= p < runs_end v0 rs * cs -> address (rs ++ t :: rest) p = Some x ->
  exists r, r ∈ rs /\ 0 <= lcn r /\ lcn r * cs <= x < (lcn r + length r) * cs.
Proof.
  revert v0. induction rs as [|r rs IH]; intros v0 Hrs Ht Hp Hx; [cbn in Hp; lia|]. cbn [runs_end] in Hp.
  destruct (decide (p < (v0 + length r) * cs)) as [Hlt|Hge].
  - rewrite (address_head v0) in Hx by (done || lia). destruct (Z.ltb_spec (lcn r) 0); [done|]. injection Hx as <-.
    exists r. split; [by left|]. lia.
  - rewrite (address_tail v0) in Hx by (done || lia). destruct (IH (v0 + length r)) as (r' & Hin & ? & ?); try done; [apply Hrs|lia|].
    exists r'. split; [by right|done].
Qed.

Lemma disjoint_separate v0 rs t rest :
  runs_from v0 rs -> vcn t = runs_end v0 rs -> runs_disjoint rs -> separate (rs ++ t :: rest) (v0 * cs) (runs_end v0 rs * cs).
Proof.
  revert v0. induction rs as [|r rs IH]; intros v0 Hrs Ht Hd; [intros p q x Hp; cbn in Hp; lia|]. destruct Hd as [Hd1 Hd].
  pose proof cs_pos as Hcs. pose proof Hrs as (_ & _ & Hrs'). cbn [runs_end]. rewrite Forall_forall in Hd1.
  assert (forall p q x, v0 * cs <= p < (v0 + length r) * cs -> (v0 + length r) * cs <= q < runs_end (v0 + length r) rs * cs ->
    address ((r :: rs) ++ t :: rest) p = Some x -> address ((r :: rs) ++ t :: rest) q = Some x -> False) as Hcross.
  { intros p q x Hp Hq Ep Eq. rewrite (address_head v0) in Ep by (done || lia). rewrite (address_tail v0) in Eq by (done || lia).
    destruct (address_in (v0 + length r) rs t rest q x) as (r' & Hin & Hl' & Hx'); try done.
    destruct (Z.ltb_spec (lcn r) 0); [done|]. injection Ep as Ep. specialize (Hd1 r' Hin). nia. }
  intros p q x Hp Hq Ep Eq.
  destruct (decide (p < (v0 + length r) * cs)), (decide (q < (v0 + length r) * cs)).
  - rewrite (address_head v0) in Ep, Eq by (done || lia). destruct (lcn r <? 0); [done|]. injection Ep as Ep. injection Eq as Eq. lia.
  - exfalso. apply (Hcross p q x); done || lia.
  - exfalso. apply (Hcross q p x); done || lia.
  - rewrite (address_tail v0) in Ep, Eq by (done || lia). apply (IH (v0 + length r) Hrs' Ht Hd p q x); done || lia.
Qed.
End io.

(** ** Transfers of attributes *)

(** A well-formed runlist on a device of [size] bytes. *)
Record runs_on (size : Z) (vol : ntfs_volume) (rs : runlist) (t : runlist_element) : Prop := {
  ro_bits : 0 <= cluster_size_bits vol;
  ro_runs : runs_from 0 rs;
  ro_end : vcn t = runs_end 0 rs;
  ro_zero : length t = 0;
  ro_fits : Forall (run_fits size vol) rs;
  ro_small : runs_end 0 rs * 2 ^ cluster_size_bits vol < 2 ^ 62
}.

Section attributes.
Context {W : Type} `{!DevOps W, !DevLaws W} (size : Z) (P : W -> Prop) (vol : ntfs_volume).

(** C26: on a device that serves every transfer within its size, if only in
    part, [ntfs_rl_pread] terminates and returns all the bytes asked for: those of the
    medium that the runlist maps them to, across runs, and zeros in holes.  The medium does
    not change. *)
Theorem rl_pread_content rs t rest pos count d :
  reliable size P -> size < 2 ^ 62 -> P (nd_world d) -> runs_on size vol rs t ->
  0 <= pos -> 0 <= count -> pos + count <= runs_end 0 rs * 2 ^ cluster_size_bits vol ->
  post (ntfs_rl_pread vol (Some (rs ++ t :: rest)) pos count) d (fun '(n, data) d' =>
    n = count /\ zlen data = count /\ medium d' = medium d /\
    forall j, 0 <= j < count -> data.[j] = attr_byte vol (rs ++ t :: rest) d (pos + j)).
Proof.
  intros HP Hsz Hw [Hb Hrs Ht Hz Hf Hs] Hp Hc Hle. unfold ntfs_rl_pread.
  replace ((pos <? 0) || (count <? 0)) with false by (symmetry; apply orb_false_iff; lia).
  destruct (Z.eqb_spec count 0) as [->|Hne]; [apply post_ret; split_and!; (done || lia)|].
  destruct (seek_spec vol Hb 0 rs t rest pos) as (v1 & r & rs1 & E & Hv1 & R1 & R2 & R3 & R4 & R5); [done..|lia|lia|lia|].
  rewrite Z.mul_0_l in E. rewrite E. rewrite s64_small by (unfold is_s64; lia).
  eapply post_mono; [eapply (pread_runs_spec size P HP Hsz vol Hb v1 (r :: rs1)); rewrite ?R2; first [done|congruence|by apply R4|lia|split; lia]|].
  intros [n data] d' (-> & bs & -> & Hl & Hbs & Hm & _). split_and!; [lia|done..|].
  intros j Hj. cbn [app]. rewrite Hbs by done. unfold attr_byte. rewrite R5 by lia. by replace (v1 * 2 ^ cluster_size_bits vol + (pos - v1 * 2 ^ cluster_size_bits vol) + j) with (pos + j) by lia.
Qed.

(** C25: on such a device that may be written, on a volume that is not read-only, for a
    runlist whose runs have no cluster in common, [ntfs_rl_pwrite] terminates and writes
    all the bytes.  The caller may pass any element of the runlist, here the one behind the
    runs [rs0], with the offset at which it starts in the attribute, and a position from
    there on.  Afterwards the attribute has the bytes at their places, except in holes,
    which stay holes; every other byte of the attribute, and every byte of the medium that
    is not the place of one that was written, is as before. *)
Theorem rl_pwrite_content rs0 rs t rest pos count b d :
  let rl := (rs0 ++ rs) ++ t :: rest in let ofs := runs_end 0 rs0 * 2 ^ cluster_size_bits vol in
  reliable size P -> size < 2 ^ 62 -> P (nd_world d) -> NDevReadOnly d = false -> NVolReadOnly vol = false ->
  runs_on size vol (rs0 ++ rs) t -> runs_disjoint (rs0 ++ rs) ->
  ofs <= pos -> 0 <= count <= zlen b -> pos + count <= runs_end 0 (rs0 ++ rs) * 2 ^ cluster_size_bits vol ->
  post (ntfs_rl_pwrite vol (Some (rs ++ t :: rest)) ofs pos count b) d (fun n d' =>
    n = count /\
    (forall p, 0 <= p < runs_end 0 (rs0 ++ rs) * 2 ^ cluster_size_bits vol ->
       attr_byte vol rl d' p =
       if (pos <=? p) && (p <? pos + count) && bool_decide (is_Some (address vol rl p))
       then b.[p - pos] else attr_byte vol rl d p) /\
    forall x, (forall p, pos <= p < pos + count -> address vol rl p <> Some x) -> medium d' x = medium d x).
Proof.
  intros rl ofs HP Hsz Hw Hro Hvro [Hb Hrs Ht Hz Hf Hs] Hdis Hp Hc Hle. unfold ntfs_rl_pwrite.
  pose proof (disjoint_separate vol Hb 0 (rs0 ++ rs) t rest Hrs Ht Hdis) as Hsep. rewrite Z.mul_0_l in Hsep. fold rl in Hsep.
  destruct (runs_from_app _ _ _ Hrs) as (Hrs0 & Hrs1 & Eend). set (v0 := runs_end 0 rs0) in *.
  assert (0 <= v0) as Hv0 by (pose proof (runs_end_ge _ _ Hrs0); unfold v0, zlen in *; lia).
  pose proof (cs_pos vol Hb) as Hcs. assert (0 <= ofs) as Hofs by (unfold ofs; nia).
  assert (forall n d', n = count -> scattered vol rl pos count b d d' -> n = count /\
    (forall p, 0 <= p < runs_end 0 (rs0 ++ rs) * 2 ^ cluster_size_bits vol -> attr_byte vol rl d' p =
       if (pos <=? p) && (p <? pos + count) && bool_decide (is_Some (address vol rl p)) then b.[p - pos] else attr_byte vol rl d p) /\
    forall x, (forall p, pos <= p < pos + count -> address vol rl p <> Some x) -> medium d' x = medium d x) as Hfin.
  { intros n d' -> [S1 S2]. split_and!; [done| |].
    - intros p Hpp. unfold attr_byte. destruct (address vol rl p) as [x|] eqn:Ex; [|by rewrite andb_false_r].
      rewrite andb_true_r. bdestr.
      + apply (S1 (p - pos)); [lia|]. by replace (pos + (p - pos)) with p by lia.
      + apply S2. intros j Hj Hx. assert (pos + j = p) by (apply (Hsep _ _ x); done || lia). lia.
    - intros x Hx. apply S2. intros j Hj. apply Hx. lia. }
  replace ((pos <? 0) || (count <? 0)) with false by (symmetry; apply orb_false_iff; lia).
  destruct (Z.eqb_spec count 0) as [->|Hne]; [apply post_ret, Hfin; [done|split; [intros; lia|done]]|].
  rewrite Eend in *. apply Forall_app in Hf as [_ Hf].
  destruct (seek_spec vol Hb v0 rs t rest pos) as (v1 & r & rs1 & E & Hv1 & R1 & R2 & R3 & R4 & R5'); [done..|unfold ofs in *; lia|lia|].
  assert (forall p, v1 * 2 ^ cluster_size_bits vol <= p -> address vol rl p = address vol ((r :: rs1) ++ t :: rest) p) as R5.
  { intros p Hpp. rewrite <- R5' by done. apply (address_skip vol Hb 0); [done|by rewrite Eend|fold v0; nia]. }
  unfold ofs. rewrite E. rewrite s64_small by (unfold is_s64; nia).
  eapply post_mono; [eapply (pwrite_runs_spec size P HP Hsz vol Hb v1 (r :: rs1)); rewrite ?R2; try first [done|congruence|by apply R4|lia|split; lia]|].
  - intros p q x Hp1 Hq1 Ep Eq. rewrite <- R5 in Ep, Eq by lia. apply (Hsep p q x); (done || nia).
  - intros n d' (-> & Hsc & _). apply Hfin; [lia|]. change (Z.to_nat 0) with 0%nat in Hsc. rewrite drop_0 in Hsc.
    replace (v1 * 2 ^ cluster_size_bits vol + (pos - v1 * 2 ^ cluster_size_bits vol)) with pos in Hsc by lia. destruct Hsc as [S1 S2].
    split; [intros j x Hj Hx|intros x Hx]; [apply (S1 j x Hj)|apply S2; intros j Hj; specialize (Hx j Hj)]; unfold rl in Hx; rewrite R5 in Hx by lia; done.
Qed.
End attributes.
