(* ===== verification/NtfsCompress.v ===== *)
(** * Compressed attributes

    [ntfs_compress_block] and [ntfs_decompress] of [src/ntfs3g/src/ntfs-3g/compress.c].

    Buffers are the memory from the start of the array on.  The members of the compression
    context that are not initialised ([prev], [size], [rel]) are arguments. *)

From stdpp Require Import prelude list.
From Stdlib Require Import ZArith Lia.
From S2P Require Import Prelude Bytes NtfsTypes.

Local Open Scope Z_scope.

Definition NTFS_SB_SIZE_MASK := 0x0fff.
Definition NTFS_SB_SIZE := 0x1000.
Definition NTFS_SB_IS_COMPRESSED := 0x8000.
Definition NTFS_TOKEN_MASK := 1.
Definition NTFS_SYMBOL_TOKEN := 0.
Definition NICE_MATCH_LEN := 18.
Definition MAX_SEARCH_DEPTH := 24%nat.
Definition HASH_SHIFT := 14.
Definition HASH_MULTIPLIER := 0x1E35A7BD.

(** ** The match finder *)

Record COMPRESS_CONTEXT := mkCtx {
  c_inbuf : list Z;
  c_bufsize : Z;
  c_size : Z;
  c_rel : Z;
  c_mxsz : Z;
  c_head : list Z;
  c_prev : list Z
}.

Definition set_match (size rel : Z) (c : COMPRESS_CONTEXT) : COMPRESS_CONTEXT :=
  mkCtx (c_inbuf c) (c_bufsize c) size rel (c_mxsz c) (c_head c) (c_prev c).
Definition set_mxsz (m : Z) (c : COMPRESS_CONTEXT) : COMPRESS_CONTEXT :=
  mkCtx (c_inbuf c) (c_bufsize c) (c_size c) (c_rel c) m (c_head c) (c_prev c).
Definition set_chains (head prev : list Z) (c : COMPRESS_CONTEXT) : COMPRESS_CONTEXT :=
  mkCtx (c_inbuf c) (c_bufsize c) (c_size c) (c_rel c) (c_mxsz c) head prev.

Definition ntfs_hash (inbuf : list Z) (p : Z) : Z :=
  let str := Z.lor (Z.lor inbuf.[p] (Z.shiftl inbuf.[p + 1] 8)) (Z.shiftl inbuf.[p + 2] 16) in
  Z.shiftr (u32 (str * HASH_MULTIPLIER)) (32 - HASH_SHIFT).

(** [for (len = 1; len < best_len - 1; len++) if (matchptr[len] != strptr[len]) goto next_match;] *)
Fixpoint same_bytes (n : nat) (inbuf : list Z) (m i len : Z) : bool :=
  match n with
  | O => true
  | S n => (inbuf.[m + len] =? inbuf.[i + len]) && same_bytes n inbuf m i (len + 1)
  end.

(** [while (best_len < max_len && best_matchptr[best_len] == strptr[best_len]) best_len++;] *)
Fixpoint extend (n : nat) (inbuf : list Z) (m i len max_len : Z) : Z :=
  match n with
  | O => len
  | S n => if (len <? max_len) && (inbuf.[m + len] =? inbuf.[i + len]) then extend n inbuf m i (len + 1) max_len else len
  end.

(** The [do] loop: the length, and whether the search ends. *)
Fixpoint grow (n : nat) (inbuf : list Z) (m i len nice_len max_len : Z) : Z * bool :=
  match n with
  | O => (len, false)
  | S n =>
      let len := len + 1 in
      if nice_len <=? len then (extend (Z.to_nat (max_len - len)) inbuf m i len max_len, true) else
      if inbuf.[m + len] =? inbuf.[i + len] then grow n inbuf m i len nice_len max_len else (len, false)
  end.

(** The search along a chain: the best length and where it is. *)
Fixpoint search_chain (depth : nat) (inbuf prev : list Z) (i cur nice_len max_len best_len best : Z) : Z * Z :=
  match depth with
  | O => (best_len, best)
  | S depth =>
      if cur <? 0 then (best_len, best) else
      if negb (inbuf.[cur + best_len] =? inbuf.[i + best_len]) ||
         negb (inbuf.[cur + best_len - 1] =? inbuf.[i + best_len - 1]) ||
         negb (inbuf.[cur] =? inbuf.[i]) ||
         negb (same_bytes (Z.to_nat (best_len - 2)) inbuf cur i 1)
      then search_chain depth inbuf prev i prev.[cur] nice_len max_len best_len best else
      let '(len, out) := grow (Z.to_nat (nice_len - best_len)) inbuf cur i best_len nice_len max_len in
      if out then (len, cur) else search_chain depth inbuf prev i prev.[cur] nice_len max_len len cur
  end.

Definition ntfs_best_match (c : COMPRESS_CONTEXT) (i best_len : Z) : COMPRESS_CONTEXT :=
  let max_len := Z.min (c_bufsize c - i) (c_mxsz c) in
  let nice_len := Z.min NICE_MATCH_LEN max_len in
  if max_len <? 4 then set_match best_len 0 c else
  let hash := ntfs_hash (c_inbuf c) i in
  let cur_match := (c_head c).[hash] in
  let c := set_chains (setb (c_head c) hash i) (setb (c_prev c) i cur_match) c in
  if max_len <=? best_len then set_match best_len 0 c else
  let '(len, best) := search_chain MAX_SEARCH_DEPTH (c_inbuf c) (c_prev c) i cur_match nice_len max_len best_len i in
  set_match len (best - i) c.

Definition ntfs_skip_position (c : COMPRESS_CONTEXT) (i : Z) : COMPRESS_CONTEXT :=
  if c_bufsize c - i <? 4 then c else
  let hash := ntfs_hash (c_inbuf c) i in
  set_chains (setb (c_head c) hash i) (setb (c_prev c) i (c_head c).[hash]) c.

(** [do { ntfs_skip_position(pctx, i); } while (++i != j);] *)
Fixpoint skip_positions (n : nat) (c : COMPRESS_CONTEXT) (i : Z) : COMPRESS_CONTEXT :=
  match n with
  | O => c
  | S n => skip_positions n (ntfs_skip_position c i) (i + 1)
  end.

(** ** Compression *)

(** The local variables of [ntfs_compress_block]. *)
Record comp_state := mkComp {
  k_ctx : COMPRESS_CONTEXT;
  k_i : Z;
  k_bp : Z;
  k_mxoff : Z;
  k_have : bool;
  k_out : list Z;
  k_xout : Z;
  k_ptag : Z;
  k_tag : Z;
  k_ntag : Z
}.

(** [bp++; mxoff <<= 1; pctx->mxsz = (pctx->mxsz + 2) >> 1;] *)
Definition widen (s : comp_state) : comp_state :=
  mkComp (set_mxsz (Z.shiftr (c_mxsz (k_ctx s) + 2) 1) (k_ctx s)) (k_i s) (k_bp s + 1) (Z.shiftl (k_mxoff s) 1)
    (k_have s) (k_out s) (k_xout s) (k_ptag s) (k_tag s) (k_ntag s).
Fixpoint widen_to (n : nat) (i : Z) (s : comp_state) : comp_state :=
  match n with
  | O => s
  | S n => if k_mxoff s <? i then widen_to n i (widen s) else s
  end.

Definition with_ctx (c : COMPRESS_CONTEXT) (s : comp_state) : comp_state :=
  mkComp c (k_i s) (k_bp s) (k_mxoff s) (k_have s) (k_out s) (k_xout s) (k_ptag s) (k_tag s) (k_ntag s).

(** A literal, and the position behind it. *)
Definition put_literal (have : bool) (s : comp_state) : comp_state :=
  mkComp (k_ctx s) (k_i s + 1) (k_bp s) (k_mxoff s) have
    (setb (k_out s) (k_xout s) (c_inbuf (k_ctx s)).[k_i s]) (k_xout s + 1) (k_ptag s) (k_tag s) (k_ntag s).

(** The phrase of [j - i] bytes at [offs]. *)
Definition put_phrase (bp_cur offs j : Z) (s : comp_state) : comp_state :=
  let q := u32 (Z.shiftl (Z.lnot offs) (16 - bp_cur) + (j - k_i s - 3)) in
  mkComp (k_ctx s) (k_i s) (k_bp s) (k_mxoff s) (k_have s)
    (setb (setb (k_out s) (k_xout s) (Z.land q 255)) (k_xout s + 1) (Z.land (Z.shiftr q 8) 255)) (k_xout s + 2) (k_ptag s)
    (Z.lor (k_tag s) (Z.shiftl 1 (8 - k_ntag s))) (k_ntag s).

(** The positions from [from] up to [j] enter the chains. *)
Definition pass_phrase (from j : Z) (s : comp_state) : comp_state :=
  mkComp (skip_positions (Z.to_nat (j - from)) (k_ctx s) from) j (k_bp s) (k_mxoff s) false
    (k_out s) (k_xout s) (k_ptag s) (k_tag s) (k_ntag s).

(** [if (!--ntag) { *ptag = tag; ntag = 8; ptag = &outbuf[xout++]; tag = 0; }] *)
Definition next_tag (s : comp_state) : comp_state :=
  if k_ntag s - 1 =? 0 then
    mkComp (k_ctx s) (k_i s) (k_bp s) (k_mxoff s) (k_have s) (setb (k_out s) (k_ptag s) (k_tag s)) (k_xout s + 1) (k_xout s) 0 8
  else
    mkComp (k_ctx s) (k_i s) (k_bp s) (k_mxoff s) (k_have s) (k_out s) (k_xout s) (k_ptag s) (k_tag s) (k_ntag s - 1).

(** One round; [inr] is the [break]. *)
Definition comp_step (s : comp_state) : comp_state + comp_state :=
  let s := if k_have s then s else
    let s := widen_to 32 (k_i s) s in with_ctx (ntfs_best_match (k_ctx s) (k_i s) 2) s in
  if 3 <=? c_size (k_ctx s) then
    let j := k_i s + c_size (k_ctx s) in
    let bp_cur := k_bp s in
    let offs := c_rel (k_ctx s) in
    if NICE_MATCH_LEN <=? c_size (k_ctx s) then
      let s := put_phrase bp_cur offs j s in
      if j =? c_bufsize (k_ctx s) then
        inr (mkComp (k_ctx s) j (k_bp s) (k_mxoff s) (k_have s) (k_out s) (k_xout s) (k_ptag s) (k_tag s) (k_ntag s - 1))
      else inl (next_tag (pass_phrase (k_i s + 1) j s))
    else
      let s := if k_mxoff s <? k_i s + 1 then widen s else s in
      let s := with_ctx (ntfs_best_match (k_ctx s) (k_i s + 1) (c_size (k_ctx s))) s in
      let k := k_i s + 1 + c_size (k_ctx s) in
      if j + 1 <? k then inl (next_tag (put_literal true s))
      else inl (next_tag (pass_phrase (k_i s + 2) j (put_phrase bp_cur offs j s)))
  else inl (next_tag (put_literal false s)).

Fixpoint comp_loop (fuel : nat) (s : comp_state) : option comp_state :=
  if negb ((k_i s <? c_bufsize (k_ctx s)) && (k_xout s <? NTFS_SB_SIZE + 2)) then Some s else
  match fuel with
  | O => None
  | S fuel => match comp_step s with inl s => comp_loop fuel s | inr s => Some s end
  end.

Section alloc.
Context `{!Malloc}.

(** The size of the block, or 0, and the output buffer; [None] when a loop is cut off.
    The context takes 40984 bytes. *)
Definition ntfs_compress_block (inbuf : list Z) (bufsize : Z) (outbuf : list Z) (prev0 : list Z) (size0 rel0 : Z) :
    option (Z * list Z) :=
  if negb (malloc_ok 40984) then Some (0, outbuf) else
  let ctx := mkCtx inbuf bufsize size0 rel0 (Z.shiftl 1 (16 - 4) + 2) (replicate (Z.to_nat (2 ^ HASH_SHIFT)) (-1)) prev0 in
  s ← comp_loop (Z.to_nat bufsize) (mkComp ctx 0 4 (Z.shiftl 1 4) false outbuf 3 2 0 8);
  let '(xout, out) := if k_ntag s =? 8 then (k_xout s - 1, k_out s) else (k_xout s, setb (k_out s) (k_ptag s) (k_tag s)) in
  Some (if (bufsize <=? k_i s) && (xout <? NTFS_SB_SIZE + 2) then
    (xout, setb (setb out 0 (Z.land (xout - 3) 255)) 1 (0xb0 + Z.land (Z.shiftr (xout - 3) 8) 15))
  else
    let out := blit out 2 (take (Z.to_nat bufsize) inbuf) in
    let out := if bufsize <? NTFS_SB_SIZE
      then blit out (bufsize + 2) (replicate (Z.to_nat (NTFS_SB_SIZE - bufsize)) 0) else out in
    (NTFS_SB_SIZE + 2, setb (setb out 0 0xff) 1 0x3f)).
End alloc.

(** ** Decompression *)

(** [while (length--) *dest++ = *dest_back_addr++;] *)
Fixpoint copy_bytes (n : nat) (d : list Z) (dest back : Z) : list Z :=
  match n with
  | O => d
  | S n => copy_bytes n (setb d dest d.[back]) (dest + 1) (back + 1)
  end.

(** [memcpy] where the sequences do not overlap. *)
Definition copy_phrase (d : list Z) (dest back length : Z) : list Z :=
  let max_non_overlap := dest - back in
  if length <=? max_non_overlap then blit d dest (sub d back length) else
  copy_bytes (Z.to_nat (length - max_non_overlap)) (blit d dest (sub d back max_non_overlap))
    (dest + max_non_overlap) (back + max_non_overlap).

(** [for (i = ...; i >= 0x10; i >>= 1) lg++;] *)
Fixpoint log_pos (n : nat) (i lg : Z) : Z :=
  match n with
  | O => lg
  | S n => if 0x10 <=? i then log_pos n (Z.shiftr i 1) (lg + 1) else lg
  end.

(** The tokens of a tag; [inr] is [return_overflow]. *)
Fixpoint tokens (n : nat) (tag : Z) (cb : list Z) (pos cb_sb_end : Z) (d : list Z) (dest sb_start sb_end : Z) :
    Z * list Z * Z + list Z :=
  match n with
  | O => inl (pos, d, dest)
  | S n =>
      if (cb_sb_end <=? pos) || (sb_end <? dest) then inl (pos, d, dest) else
      if Z.land tag NTFS_TOKEN_MASK =? NTFS_SYMBOL_TOKEN
      then tokens n (Z.shiftr tag 1) cb (pos + 1) cb_sb_end (setb d dest cb.[pos]) (dest + 1) sb_start sb_end else
      if dest =? sb_start then inr d else
      let lg := log_pos 16 (u16 (dest - sb_start - 1)) 0 in
      let pt := ld_word cb pos in
      let back := dest - Z.shiftr pt (12 - lg) - 1 in
      if back <? sb_start then inr d else
      let length := Z.land pt (Z.shiftr 0xfff lg) + 3 in
      if sb_end <? dest + length then inr d else
      tokens n (Z.shiftr tag 1) cb (pos + 2) cb_sb_end (copy_phrase d dest back length) (dest + length) sb_start sb_end
  end.

Inductive decomp_result := DNext (pos : Z) (d : list Z) (dest : Z) | DOverflow (d : list Z) | DCut.

(** [do_next_tag]: the tags of a sub-block. *)
Fixpoint next_tags (fuel : nat) (cb : list Z) (pos cb_sb_end : Z) (d : list Z) (dest sb_start sb_end : Z) : decomp_result :=
  if pos =? cb_sb_end then
    if dest <? sb_end then DNext pos (blit d dest (replicate (Z.to_nat (sb_end - dest)) 0)) sb_end else DNext pos d dest
  else if (cb_sb_end <? pos) || (sb_end <? dest) then DOverflow d else
  match fuel with
  | O => DCut
  | S fuel =>
      match tokens 8 cb.[pos] cb (pos + 1) cb_sb_end d dest sb_start sb_end with
      | inr d => DOverflow d
      | inl (pos, d, dest) => next_tags fuel cb pos cb_sb_end d dest sb_start sb_end
      end
  end.

(** [do_next_sb]: the error, if any, and the destination. *)
Fixpoint next_sbs (fuel : nat) (cb : list Z) (pos cb_size : Z) (d : list Z) (dest dest_size : Z) : option (option errno * list Z) :=
  if (pos =? cb_size) || (ld_word cb pos =? 0) || (dest =? dest_size) then
    Some (None, if dest <? dest_size then blit d dest (replicate (Z.to_nat (dest_size - dest)) 0) else d)
  else
    let sb_end := dest + NTFS_SB_SIZE in
    if dest_size <? sb_end then Some (Some EOVERFLOW, d) else
    if cb_size <? pos + 6 then Some (Some EOVERFLOW, d) else
    let cb_sb_end := pos + Z.land (ld_word cb pos) NTFS_SB_SIZE_MASK + 3 in
    if cb_size <? cb_sb_end then Some (Some EOVERFLOW, d) else
    match fuel with
    | O => None
    | S fuel =>
        if Z.land (ld_word cb pos) NTFS_SB_IS_COMPRESSED =? 0 then
          let pos := pos + 2 in
          if negb (cb_sb_end - pos =? NTFS_SB_SIZE) then Some (Some EOVERFLOW, d) else
          next_sbs fuel cb (pos + NTFS_SB_SIZE) cb_size (blit d dest (sub cb pos NTFS_SB_SIZE)) (dest + NTFS_SB_SIZE) dest_size
        else
          match next_tags (Z.to_nat (cb_sb_end - pos)) cb (pos + 2) cb_sb_end d dest dest sb_end with
          | DNext pos d dest => next_sbs fuel cb pos cb_size d dest dest_size
          | DOverflow d => Some (Some EOVERFLOW, d)
          | DCut => None
          end
    end.

Definition ntfs_decompress (dest : list Z) (dest_size : Z) (cb : list Z) (cb_size : Z) : option (option errno * list Z) :=
  next_sbs (Z.to_nat cb_size) cb 0 cb_size dest 0 dest_size.
