(* ===== verification/LzDecode.v ===== *)
(** * Decoding compressed blocks

    The meaning of a stream of tokens, and that [ntfs_decompress] computes it. *)

From stdpp Require Import prelude list.
From Stdlib Require Import ZArith Lia.
From S2P Require Import Prelude Bytes NtfsTypes NtfsCompress.

Local Open Scope Z_scope.

(** ** Token streams *)

Inductive token := Lit (b : Z) | Phrase (q : Z).

Definition tok_bytes (t : token) : list Z :=
  match t with Lit b => [b] | Phrase q => [q mod 256; q / 256] end.

Definition toks_bytes (ts : list token) : list Z := mjoin (tok_bytes <$> ts).

(** The tag of at most eight tokens. *)
Fixpoint tag_of (ts : list token) : Z :=
  match ts with
  | [] => 0
  | Lit _ :: ts => 2 * tag_of ts
  | Phrase _ :: ts => 1 + 2 * tag_of ts
  end.

Definition group_bytes (ts : list token) : list Z := tag_of ts :: toks_bytes ts.
Definition stream (gs : list (list token)) : list Z := mjoin (group_bytes <$> gs).

Definition token_ok (t : token) : Prop := match t with Lit b => is_u8 b | Phrase q => 0 <= q < 2 ^ 16 end.

(** The width of the length field, less 4, after [n] bytes. *)
Definition lg_at (n : Z) : Z := log_pos 16 (n - 1) 0.
Definition phrase_dist (n q : Z) : Z := Z.shiftr q (12 - lg_at n) + 1.
Definition phrase_len (n q : Z) : Z := Z.land q (Z.shiftr 0xfff (lg_at n)) + 3.

(** [acc'] is [acc] with [len] bytes more, each as the one [dist] before it. *)
Definition repeats (acc acc' : list Z) (dist len : Z) : Prop :=
  zlen acc' = zlen acc + len /\ at_bytes acc' 0 acc /\
  forall t, 0 <= t < len -> acc'.[zlen acc + t] = acc'.[zlen acc - dist + t].

Inductive tok_step (acc : list Z) : token -> list Z -> Prop :=
| ts_lit b : tok_step acc (Lit b) (acc ++ [b])
| ts_phrase q acc' :
    0 < zlen acc -> phrase_dist (zlen acc) q <= zlen acc -> 1 <= phrase_dist (zlen acc) q ->
    3 <= phrase_len (zlen acc) q -> repeats acc acc' (phrase_dist (zlen acc) q) (phrase_len (zlen acc) q) ->
    tok_step acc (Phrase q) acc'.

Inductive expands (acc : list Z) : list token -> list Z -> Prop :=
| ex_nil : expands acc [] acc
| ex_cons t acc1 ts acc2 : token_ok t -> tok_step acc t acc1 -> expands acc1 ts acc2 -> expands acc (t :: ts) acc2.

Lemma expands_app acc ts acc1 ts' acc2 : expands acc ts acc1 -> expands acc1 ts' acc2 -> expands acc (ts ++ ts') acc2.
Proof. intros H1 H2. induction H1; [done|]. econstructor; eauto. Qed.

Lemma expands_app_inv acc ts ts' acc2 :
  expands acc (ts ++ ts') acc2 -> exists acc1, expands acc ts acc1 /\ expands acc1 ts' acc2.
Proof.
  revert acc. induction ts as [|t ts IH]; intros acc H; cbn in H; [exists acc; split; [constructor|done]|].
  inversion H as [|? acc1 ? ? Hok Hs Hr]; subst. destruct (IH _ Hr) as (acc3 & ? & ?). exists acc3. split; [by econstructor|done].
Qed.

(** ** Positions *)

Lemma log_pos_spec n i lg :
  0 <= i < 2 ^ (4 + Z.of_nat n) -> exists k, log_pos n i lg = lg + k /\ 0 <= k <= Z.of_nat n /\
    i < 2 ^ (4 + k) /\ (k = 0 \/ 2 ^ (3 + k) <= i).
Proof.
  revert i lg. induction n as [|n IH]; intros i lg Hi; cbn [log_pos].
  { exists 0. split_and!; [lia..|by left]. }
  destruct (Z.leb_spec 0x10 i) as [Hle|Hlt].
  - destruct (IH (Z.shiftr i 1) (lg + 1)) as (k & E & Hk & H1 & H2).
    { rewrite Z.shiftr_div_pow2 by lia. change (2 ^ 1) with 2. replace (4 + Z.of_nat (S n)) with (4 + Z.of_nat n + 1) in Hi by lia.
      rewrite Z.pow_add_r in Hi by lia. split; [apply Z.div_pos|apply Z.div_lt_upper_bound]; lia. }
    exists (k + 1). rewrite Z.shiftr_div_pow2 in H1, H2 by lia. change (2 ^ 1) with 2 in *.
    pose proof (Z.div_mod i 2 ltac:(lia)). pose proof (Z.mod_pos_bound i 2 ltac:(lia)).
    replace (4 + (k + 1)) with (4 + k + 1) by lia. replace (3 + (k + 1)) with (3 + k + 1) by lia.
    rewrite (Z.pow_add_r 2 (4 + k) 1), (Z.pow_add_r 2 (3 + k) 1) by lia. change (2 ^ 1) with 2.
    split_and!; [lia..|]. right. destruct H2 as [->|H2]; [|lia]. change (2 ^ (3 + 0) * 2) with 16. lia.
  - exists 0. split_and!; [lia..|change (2 ^ (4 + 0)) with 16; lia|by left].
Qed.

(** The number of bytes so far determines the split of a phrase. *)
Lemma lg_at_spec n :
  0 < n <= 4096 -> 0 <= lg_at n <= 8 /\ n <= 2 ^ (4 + lg_at n) /\ (lg_at n = 0 \/ 2 ^ (3 + lg_at n) < n).
Proof.
  intros Hn. unfold lg_at. destruct (log_pos_spec 16 (n - 1) 0) as (k & -> & Hk & H1 & H2); [split; [lia|change (2 ^ (4 + Z.of_nat 16)) with 1048576; lia]|].
  rewrite Z.add_0_l. split_and!; [lia| |lia|destruct H2; [by left|right; lia]].
  destruct H2 as [->|H2]; [lia|]. assert (2 ^ (3 + k) < 2 ^ 12) as Hlt by lia. apply Z.pow_lt_mono_r_iff in Hlt; lia.
Qed.

Lemma lg_at_unique n lg :
  0 < n <= 4096 -> 0 <= lg -> n <= 2 ^ (4 + lg) -> lg = 0 \/ 2 ^ (3 + lg) < n -> lg_at n = lg.
Proof.
  intros Hn Hlg H1 H2. destruct (lg_at_spec n Hn) as (Hk & K1 & K2). set (k := lg_at n) in *.
  assert (forall a b, 0 <= a -> n <= 2 ^ (4 + a) -> b = 0 \/ 2 ^ (3 + b) < n -> b <= a \/ b = 0) as Hle.
  { intros a b Ha Hna [->|Hb]; [by right|left]. assert (2 ^ (3 + b) < 2 ^ (4 + a)) as Hlt by lia.
    apply Z.pow_lt_mono_r_iff in Hlt; lia. }
  pose proof (Hle lg k Hlg H1 K2). pose proof (Hle k lg (proj1 Hk) K1 H2). lia.
Qed.

(** ** Copies *)

Lemma copy_bytes_spec n d dest back :
  0 <= back < dest -> dest + Z.of_nat n <= zlen d ->
  zlen (copy_bytes n d dest back) = zlen d /\
  (forall t, 0 <= t < Z.of_nat n -> (copy_bytes n d dest back).[dest + t] = (copy_bytes n d dest back).[back + t]) /\
  (forall x, 0 <= x -> ~ dest <= x < dest + Z.of_nat n -> (copy_bytes n d dest back).[x] = d.[x]).
Proof.
  revert d dest back. induction n as [|n IH]; intros d dest back Hb Hl; cbn [copy_bytes]; [split_and!; [done|lia|done]|].
  set (d1 := setb d dest d.[back]). assert (zlen d1 = zlen d) as Hl1 by (unfold d1, zlen; by rewrite length_setb).
  destruct (IH d1 (dest + 1) (back + 1)) as (L & C & O); [lia..|]. set (d2 := copy_bytes n d1 (dest + 1) (back + 1)) in *.
  split_and!; [congruence| |].
  - intros t Ht. destruct (decide (t = 0)) as [->|].
    + rewrite !Z.add_0_r, !O by lia. unfold d1. rewrite getb_setb_eq, getb_setb_ne by lia. done.
    + replace (dest + t) with (dest + 1 + (t - 1)) by lia. rewrite C by lia. f_equal. lia.
  - intros x Hx Hn. rewrite O by lia. apply getb_setb_ne; lia.
Qed.

Lemma copy_phrase_spec d dest back len :
  0 <= back < dest -> 0 <= len -> dest + len <= zlen d ->
  zlen (copy_phrase d dest back len) = zlen d /\
  (forall t, 0 <= t < len -> (copy_phrase d dest back len).[dest + t] = (copy_phrase d dest back len).[back + t]) /\
  (forall x, 0 <= x -> ~ dest <= x < dest + len -> (copy_phrase d dest back len).[x] = d.[x]).
Proof.
  intros Hb Hlen Hl.
  assert (forall n, 0 <= n <= dest - back -> dest + n <= zlen d -> let d1 := blit d dest (sub d back n) in zlen d1 = zlen d /\
    (forall t, 0 <= t < n -> d1.[dest + t] = d.[back + t]) /\ (forall x, 0 <= x -> ~ dest <= x < dest + n -> d1.[x] = d.[x])) as Hblit.
  { intros n Hn Hd d1. assert (zlen (sub d back n) = n) as Hs by (unfold zlen, sub in *; rewrite length_take, length_drop; lia).
    split_and!.
    - unfold d1, zlen. rewrite length_blit; [done|lia|lia].
    - intros t Ht. unfold d1. rewrite getb_blit, Hs by lia. replace ((dest <=? dest + t) && _) with true by (symmetry; apply andb_true_iff; lia).
      rewrite getb_sub by lia. f_equal. lia.
    - intros x Hx Hnx. unfold d1. rewrite getb_blit, Hs by lia. by replace ((dest <=? x) && _) with false by (symmetry; apply andb_false_iff; lia). }
  unfold copy_phrase. destruct (Z.leb_spec len (dest - back)) as [Hle|Hgt].
  - destruct (Hblit len) as (L & C & O); [lia..|]. split_and!; [done| |done]. intros t Ht. rewrite C by done. symmetry. apply O; lia.
  - set (m := dest - back) in *. destruct (Hblit m) as (L & C & O); [lia..|]. set (d1 := blit d dest (sub d back m)) in *.
    destruct (copy_bytes_spec (Z.to_nat (len - m)) d1 (dest + m) (back + m)) as (L2 & C2 & O2); [lia..|].
    set (d2 := copy_bytes _ _ _ _) in *. split_and!; [congruence| |].
    + intros t Ht. destruct (decide (t < m)).
      * rewrite !O2, C by lia. symmetry. apply O; lia.
      * replace (dest + t) with (dest + m + (t - m)) by lia. rewrite C2 by lia. f_equal. lia.
    + intros x Hx Hn. rewrite O2, O by lia. done.
Qed.

(** ** The tokens of a tag *)

(** The destination holds [acc] from [sb_start] on, and otherwise what [d0] holds. *)
Record holds_at (d0 : list Z) (sb_start : Z) (acc d : list Z) : Prop := {
  ha_len : zlen d = zlen d0;
  ha_acc : at_bytes d sb_start acc;
  ha_out : forall x, 0 <= x -> ~ sb_start <= x < sb_start + zlen acc -> d.[x] = d0.[x]
}.

Lemma holds_lit d0 s acc d b :
  0 <= s -> s + zlen acc < zlen d0 -> holds_at d0 s acc d -> holds_at d0 s (acc ++ [b]) (setb d (s + zlen acc) b).
Proof.
  intros Hs Hl [L A O]. assert (0 <= zlen acc) by (unfold zlen; lia).
  destruct (stored_one d (s + zlen acc) b) as [L1 A1 O1]; [lia|]. change (zlen [b]) with 1 in O1. split; [congruence| |].
  - apply at_bytes_app. split; [|done]. intros j Hj. rewrite O1 by lia. by apply A.
  - intros x Hx Hn. rewrite zlen_app in Hn. change (zlen [b]) with 1 in Hn. rewrite O1, O by lia. done.
Qed.

Lemma holds_phrase d0 s acc acc' d dist len :
  0 <= s -> 1 <= dist <= zlen acc -> 0 <= len -> s + zlen acc + len <= zlen d0 -> repeats acc acc' dist len ->
  holds_at d0 s acc d -> holds_at d0 s acc' (copy_phrase d (s + zlen acc) (s + zlen acc - dist) len).
Proof.
  intros Hs Hd Hlen Hl (R1 & R2 & R3) [L A O]. assert (0 <= zlen acc) by (unfold zlen; lia).
  destruct (copy_phrase_spec d (s + zlen acc) (s + zlen acc - dist) len) as (L2 & C2 & O2); [lia..|].
  set (d' := copy_phrase _ _ _ _) in *. split; [congruence| |].
  - intros j. assert (forall n j, 0 <= j < n -> j < zlen acc' -> d'.[s + j] = acc'.[j]) as Hind.
    { intros n. destruct (decide (0 <= n)); [|lia]. revert n l. apply (natlike_ind (fun n => forall j, 0 <= j < n -> j < zlen acc' -> d'.[s + j] = acc'.[j])); [lia|].
      intros n Hn IH i Hi Hi'. destruct (decide (i < zlen acc)) as [Hlt|Hge].
      - rewrite O2 by lia. rewrite A by lia. rewrite <- R2 by lia. done.
      - replace (s + i) with (s + zlen acc + (i - zlen acc)) by lia. rewrite C2 by lia.
        replace (s + zlen acc - dist + (i - zlen acc)) with (s + (i - dist)) by lia. rewrite IH by lia.
        replace i with (zlen acc + (i - zlen acc)) at 2 by lia. rewrite R3 by lia. f_equal. lia. }
    intros Hj. apply (Hind (j + 1)); lia.
  - intros x Hx Hn. rewrite O2, O by lia. done.
Qed.

Lemma tok_step_len acc t acc' : tok_step acc t acc' -> zlen acc < zlen acc'.
Proof. intros H. inversion H as [b|q acc1 ? ? ? ? (Hl & _)]; subst; [rewrite zlen_app; change (zlen [b]) with 1|]; lia. Qed.

Lemma expands_len acc ts acc' : expands acc ts acc' -> zlen acc + zlen ts <= zlen acc'.
Proof. induction 1 as [acc|acc t a1 ts a2 Hok Hs Hr IH]; [change (zlen []) with 0; lia|]. apply tok_step_len in Hs. rewrite zlen_cons. lia. Qed.

Lemma expands_le acc ts acc' : expands acc ts acc' -> zlen acc <= zlen acc'.
Proof. intros H. apply expands_len in H. unfold zlen in *. lia. Qed.

Lemma toks_bytes_cons t ts : toks_bytes (t :: ts) = tok_bytes t ++ toks_bytes ts.
Proof. done. Qed.

Lemma ld_word_phrase cb pos q : 0 <= q < 2 ^ 16 -> at_bytes cb pos [q mod 256; q / 256] -> ld_word cb pos = q.
Proof.
  intros Hq Ha. pose proof (Ha 0 ltac:(unfold zlen; cbn; lia)) as H0. pose proof (Ha 1 ltac:(unfold zlen; cbn; lia)) as H1.
  rewrite Z.add_0_r in H0. unfold ld_word. rewrite H0, H1.
  change ([q mod 256; q / 256].[0]) with (q mod 256). change ([q mod 256; q / 256].[1]) with (q / 256).
  pose proof (Z.mod_pos_bound q 256 ltac:(lia)). assert (0 <= q / 256 < 256) by (split; [apply Z.div_pos|apply Z.div_lt_upper_bound]; lia).
  rewrite shl_lor by (change (2 ^ 8) with 256; lia). change (2 ^ 8) with 256.
  pose proof (Z.div_mod q 256). rewrite u16_small by (unfold is_u16; lia). lia.
Qed.

Lemma tag_of_lit b ts : Z.land (tag_of (Lit b :: ts)) NTFS_TOKEN_MASK = NTFS_SYMBOL_TOKEN /\ Z.shiftr (tag_of (Lit b :: ts)) 1 = tag_of ts.
Proof.
  cbn [tag_of]. unfold NTFS_TOKEN_MASK. rewrite Z.shiftr_div_pow2 by lia. change (2 ^ 1) with 2. rewrite (Z.land_ones _ 1) by lia.
  change (2 ^ 1) with 2. split; [rewrite Z.mul_comm; by apply Z.mod_mul|rewrite Z.mul_comm; by apply Z.div_mul].
Qed.

Lemma tag_of_phrase q ts : Z.land (tag_of (Phrase q :: ts)) NTFS_TOKEN_MASK = 1 /\ Z.shiftr (tag_of (Phrase q :: ts)) 1 = tag_of ts.
Proof.
  cbn [tag_of]. unfold NTFS_TOKEN_MASK. rewrite Z.shiftr_div_pow2 by lia. change (2 ^ 1) with 2. rewrite (Z.land_ones _ 1) by lia.
  change (2 ^ 1) with 2. replace (1 + 2 * tag_of ts) with (1 + tag_of ts * 2) by lia. rewrite Z.mod_add, Z.div_add by lia. done.
Qed.

(** One tag: all its tokens are there, or the sub-block ends after them. *)
Lemma tokens_spec n ts cb pos cb_sb_end d0 d acc acc' s :
  expands acc ts acc' -> (List.length ts <= n)%nat -> at_bytes cb pos (toks_bytes ts) ->
  pos + zlen (toks_bytes ts) <= cb_sb_end -> (List.length ts = n \/ pos + zlen (toks_bytes ts) = cb_sb_end) ->
  0 <= s -> zlen acc' <= NTFS_SB_SIZE -> s + NTFS_SB_SIZE <= zlen d0 -> holds_at d0 s acc d ->
  exists d', tokens n (tag_of ts) cb pos cb_sb_end d (s + zlen acc) s (s + NTFS_SB_SIZE)
    = inl (pos + zlen (toks_bytes ts), d', s + zlen acc') /\ holds_at d0 s acc' d'.
Proof.
  intros He. revert n pos d. induction He as [acc|acc t acc1 ts acc2 Hok Hs He IH]; intros n pos d Hn Ha Hle Hend Hs0 Hsb Hd0 Hd.
  { change (zlen (toks_bytes [])) with 0 in *. rewrite Z.add_0_r in *. exists d. split; [|done]. destruct n as [|n]; cbn [tokens]; [done|].
    destruct Hend as [|Hend]; [done|]. by replace (cb_sb_end <=? pos) with true by lia. }
  destruct n as [|n]; [cbn in Hn; lia|]. pose proof (tok_step_len _ _ _ Hs) as Hl1. pose proof (expands_len _ _ _ He) as Hl2.
  assert (0 <= zlen ts /\ 0 <= zlen acc) as [Hz1 Hz2] by (unfold zlen; lia). unfold NTFS_SB_SIZE in *.
  rewrite toks_bytes_cons, zlen_app in *. assert (0 <= zlen (toks_bytes ts)) by (unfold zlen; lia).
  apply at_bytes_app in Ha as [Ha1 Ha2]. cbn [tokens].
  assert (1 <= zlen (tok_bytes t)) by (destruct t; unfold zlen; cbn; lia).
  replace ((cb_sb_end <=? pos) || (s + 4096 <? s + zlen acc)) with false by (symmetry; apply orb_false_iff; lia).
  assert ((List.length ts <= n)%nat /\ (List.length ts = n \/ pos + zlen (tok_bytes t) + zlen (toks_bytes ts) = cb_sb_end)) as [Hn' Hend']
    by (cbn in Hn, Hend; lia).
  destruct Hs as [b|q acc1 P0 P1 P2 P3 Hrep].
  - destruct (tag_of_lit b ts) as [-> ->]. rewrite Z.eqb_refl. change (zlen (tok_bytes (Lit b))) with 1 in *.
    specialize (Ha1 0 ltac:(unfold zlen; cbn; lia)). rewrite Z.add_0_r in Ha1. rewrite Ha1. change ((tok_bytes (Lit b)).[0]) with b.
    destruct (IH n (pos + 1) (setb d (s + zlen acc) b)) as (d' & E & Hd'); try done; [lia..|apply holds_lit; [done|lia|done]|].
    rewrite zlen_app in E. change (zlen [b]) with 1 in E. rewrite <- Z.add_assoc, E. exists d'. split; [|done]. do 3 f_equal. lia.
  - destruct (tag_of_phrase q ts) as [-> ->]. change (1 =? NTFS_SYMBOL_TOKEN) with false. cbv iota.
    change (zlen (tok_bytes (Phrase q))) with 2 in *. replace (s + zlen acc =? s) with false by lia.
    replace (s + zlen acc - s - 1) with (zlen acc - 1) by lia. rewrite u16_small by (unfold is_u16; lia). fold (lg_at (zlen acc)).
    rewrite (ld_word_phrase cb pos q Hok Ha1).
    set (n0 := zlen acc) in *. replace (s + n0 - Z.shiftr q (12 - lg_at n0) - 1) with (s + n0 - phrase_dist n0 q) by (unfold phrase_dist; lia).
    fold (phrase_len n0 q). pose proof Hrep as (Hr1 & _). fold n0 in Hr1. replace (s + n0 - phrase_dist n0 q <? s) with false by lia.
    replace (s + 4096 <? s + n0 + phrase_len n0 q) with false by lia.
    destruct (IH n (pos + 2) (copy_phrase d (s + n0) (s + n0 - phrase_dist n0 q) (phrase_len n0 q))) as (d' & E & Hd'); try done; [lia..| |].
    { eapply holds_phrase; try done; lia. }
    rewrite Hr1, Z.add_assoc in E. rewrite E. exists d'. split; [|done]. do 3 f_equal. lia.
Qed.

(** ** Sub-blocks *)

(** Eight tokens to a tag, at least one to the last. *)
Fixpoint full_groups (gs : list (list token)) : Prop :=
  match gs with
  | [] => True
  | g :: gs => match gs with [] => (0 < List.length g <= 8)%nat | _ => List.length g = 8%nat end /\ full_groups gs
  end.

(** A sub-block as it is read back. *)
Definition padded (data : list Z) : list Z := data ++ zeros (NTFS_SB_SIZE - zlen data).

Lemma holds_blit d0 s acc d bs :
  0 <= s -> s + zlen acc + zlen bs <= zlen d0 -> holds_at d0 s acc d -> holds_at d0 s (acc ++ bs) (blit d (s + zlen acc) bs).
Proof.
  intros Hs Hl [L A O]. assert (0 <= zlen acc /\ 0 <= zlen bs) as [] by (unfold zlen; lia). split.
  - rewrite <- L. unfold zlen at 1 3. rewrite length_blit by lia. done.
  - apply at_bytes_app. split; intros j Hj; rewrite getb_blit by lia.
    + replace ((_ <=? _) && _) with false by (symmetry; apply andb_false_iff; lia). by apply A.
    + replace ((_ <=? _) && _) with true by (symmetry; apply andb_true_iff; lia). f_equal. lia.
  - intros x Hx Hn. rewrite zlen_app in Hn. rewrite getb_blit by lia.
    replace ((_ <=? _) && _) with false by (symmetry; apply andb_false_iff; lia). apply O; lia.
Qed.

Lemma holds_app d0 s acc d acc' d' :
  0 <= s -> holds_at d0 s acc d -> holds_at d (s + zlen acc) acc' d' -> holds_at d0 s (acc ++ acc') d'.
Proof.
  intros Hs [L A O] [L' A' O']. assert (0 <= zlen acc /\ 0 <= zlen acc') as [] by (unfold zlen; lia). split; [congruence| |].
  - apply at_bytes_app. split; [|done]. intros j Hj. rewrite O' by lia. by apply A.
  - intros x Hx Hn. rewrite zlen_app in Hn. rewrite O', O by lia. done.
Qed.

Lemma holds_nil d s : holds_at d s [] d.
Proof. split; [done| |done]. intros j Hj. change (zlen []) with 0 in Hj. lia. Qed.

Lemma stream_cons g gs : stream (g :: gs) = tag_of g :: toks_bytes g ++ stream gs.
Proof. done. Qed.

Lemma next_tags_spec gs fuel cb pos d0 d acc acc' s :
  full_groups gs -> expands acc (mjoin gs) acc' -> at_bytes cb pos (stream gs) -> (List.length gs <= fuel)%nat ->
  0 <= s -> zlen acc' <= NTFS_SB_SIZE -> s + NTFS_SB_SIZE <= zlen d0 -> holds_at d0 s acc d ->
  exists d', next_tags fuel cb pos (pos + zlen (stream gs)) d (s + zlen acc) s (s + NTFS_SB_SIZE)
    = DNext (pos + zlen (stream gs)) d' (s + NTFS_SB_SIZE) /\ holds_at d0 s (padded acc') d'.
Proof.
  revert fuel pos d acc. induction gs as [|g gs IH]; intros fuel pos d acc Hf He Ha Hn Hs Hsb Hd0 Hd.
  - cbn in He. inversion He; subst acc'. change (zlen (stream [])) with 0. rewrite Z.add_0_r. assert (0 <= zlen acc) by (unfold zlen; lia).
    unfold NTFS_SB_SIZE in *. assert (exists d', (if s + zlen acc <? s + 4096 then DNext pos (blit d (s + zlen acc) (replicate (Z.to_nat (s + 4096 - (s + zlen acc))) 0)) (s + 4096)
      else DNext pos d (s + zlen acc)) = DNext pos d' (s + 4096) /\ holds_at d0 s (padded acc) d') as (d' & E & Hd').
    { destruct (Z.ltb_spec (s + zlen acc) (s + 4096)).
      - eexists. split; [reflexivity|]. replace (s + 4096 - (s + zlen acc)) with (4096 - zlen acc) by lia. apply holds_blit; [done| |done].
        change (replicate _ 0) with (zeros (4096 - zlen acc)). rewrite zlen_zeros by lia. lia.
      - exists d. split; [f_equal; lia|]. unfold padded, NTFS_SB_SIZE. replace (4096 - zlen acc) with 0 by lia. by rewrite app_nil_r. }
    exists d'. split; [|done]. destruct fuel; cbn [next_tags]; rewrite Z.eqb_refl; exact E.
  - destruct fuel as [|fuel]; [cbn in Hn; lia|]. destruct Hf as [Hg Hf]. cbn in He. apply expands_app_inv in He as (acc1 & He1 & He2).
    pose proof (expands_le _ _ _ He1). pose proof (expands_le _ _ _ He2).
    assert (0 <= zlen g /\ 0 <= zlen (stream gs) /\ 0 <= zlen (toks_bytes g) /\ 0 <= zlen acc) as (?&?&?&?) by (unfold zlen; lia).
    rewrite stream_cons in *. change (tag_of g :: toks_bytes g ++ stream gs) with ([tag_of g] ++ toks_bytes g ++ stream gs) in *.
    apply at_bytes_app in Ha as [Ha1 Ha]. apply at_bytes_app in Ha as [Ha2 Ha3]. change (zlen [tag_of g]) with 1 in *.
    rewrite !zlen_app. change (zlen [tag_of g]) with 1. unfold NTFS_SB_SIZE in *. cbn [next_tags].
    bdestr; [lia|]. bdestr; [lia|].
    specialize (Ha1 0 ltac:(unfold zlen; cbn; lia)). rewrite Z.add_0_r in Ha1. rewrite Ha1. change ([tag_of g].[0]) with (tag_of g).
    set (e := pos + (1 + (zlen (toks_bytes g) + zlen (stream gs)))).
    destruct (tokens_spec 8 g cb (pos + 1) e d0 d acc acc1 s) as (d1 & E1 & Hd1); try done; try (unfold e, NTFS_SB_SIZE; lia).
    { destruct gs; lia. }
    { destruct gs as [|g' gs]; [|by left]. right. unfold e. change (zlen (stream [])) with 0. lia. }
    unfold NTFS_SB_SIZE in E1. rewrite E1.
    destruct (IH fuel (pos + 1 + zlen (toks_bytes g)) d1 acc1) as (d2 & E2 & Hd2); try done; [cbn in Hn; lia|].
    replace e with (pos + 1 + zlen (toks_bytes g) + zlen (stream gs)) by (unfold e; lia). exists d2. done.
Qed.

(** ** Blocks *)

(** [blk] is the encoding of at most 4096 bytes. *)
Inductive encodes (data : list Z) : list Z -> Prop :=
| enc_compressed gs :
    full_groups gs -> expands [] (mjoin gs) data -> gs <> [] -> 2 + zlen (stream gs) < NTFS_SB_SIZE + 2 ->
    encodes data (Z.land (zlen (stream gs) - 1) 255 :: 0xb0 + Z.land (Z.shiftr (zlen (stream gs) - 1) 8) 15 :: stream gs)
| enc_raw : encodes data (0xff :: 0x3f :: padded data).

Lemma group_bytes_len gs : full_groups gs -> gs <> [] -> 2 <= zlen (stream gs).
Proof.
  destruct gs as [|g gs]; [done|]. intros [Hg _] _. rewrite stream_cons, zlen_cons, zlen_app.
  destruct g as [|t g]; [by destruct gs; cbn in Hg; lia|]. rewrite toks_bytes_cons, zlen_app.
  assert (1 <= zlen (tok_bytes t)) by (destruct t; unfold zlen; cbn; lia). unfold zlen in *. lia.
Qed.

(** The header of a compressed block of [n] bytes. *)
Lemma header_value n : 0 <= n < 4096 ->
  u16 (Z.lor (Z.shiftl (0xb0 + Z.land (Z.shiftr n 8) 15) 8) (Z.land n 255)) = 0xb000 + n.
Proof.
  intros Hn. rewrite !(Z.land_ones _ 8), (Z.land_ones _ 4), Z.shiftr_div_pow2 by lia.
  change (2 ^ 8) with 256. change (2 ^ 4) with 16. pose proof (Z.mod_pos_bound n 256 ltac:(lia)).
  rewrite shl_lor by (change (2 ^ 8) with 256; lia). change (2 ^ 8) with 256.
  assert (0 <= n / 256 < 16) by (split; [apply Z.div_pos|apply Z.div_lt_upper_bound]; lia). rewrite (Z.mod_small (n / 256)) by lia.
  pose proof (Z.div_mod n 256). rewrite u16_small by (unfold is_u16; lia). lia.
Qed.

Lemma header_fields n : 0 <= n < 4096 ->
  Z.land (0xb000 + n) NTFS_SB_SIZE_MASK = n /\ Z.land (0xb000 + n) NTFS_SB_IS_COMPRESSED <> 0.
Proof.
  intros Hn. unfold NTFS_SB_SIZE_MASK, NTFS_SB_IS_COMPRESSED. split.
  - change 0xfff with (Z.ones 12). rewrite Z.land_ones by lia. change (2 ^ 12) with 4096. replace (0xb000 + n) with (n + 11 * 4096) by lia.
    rewrite Z.mod_add, Z.mod_small by lia. done.
  - intros E. assert (Z.testbit (0xb000 + n) 15 = true) as Hb.
    { rewrite Z.testbit_true by lia. change (2 ^ 15) with 32768. replace ((0xb000 + n) / 32768) with 1; [done|].
      apply (Z.div_unique _ _ _ (0xb000 + n - 32768)); lia. }
    assert (Z.testbit (Z.land (0xb000 + n) 0x8000) 15 = true) as Hb2 by (rewrite Z.land_spec, Hb; reflexivity). rewrite E in Hb2. done.
Qed.

Lemma zlen_padded data : zlen data <= NTFS_SB_SIZE -> zlen (padded data) = NTFS_SB_SIZE.
Proof. intros Hd. unfold padded. rewrite zlen_app, zlen_zeros by lia. lia. Qed.

Lemma encodes_len data blk : zlen data <= NTFS_SB_SIZE -> encodes data blk -> 4 <= zlen blk <= NTFS_SB_SIZE + 2.
Proof.
  intros Hd [gs Hg _ Hne Hl|]; rewrite !zlen_cons.
  - pose proof (group_bytes_len gs Hg Hne). lia.
  - rewrite zlen_padded by done. unfold NTFS_SB_SIZE. lia.
Qed.

Lemma groups_le gs : (List.length gs <= List.length (stream gs))%nat.
Proof. induction gs as [|g gs IH]; [done|]. rewrite stream_cons. cbn. rewrite length_app. lia. Qed.

Lemma next_sbs_step data blk fuel cb pos cb_size d dest dest_size :
  encodes data blk -> zlen data <= NTFS_SB_SIZE -> at_bytes cb pos blk -> pos + zlen blk + 2 <= cb_size ->
  0 <= dest -> dest + NTFS_SB_SIZE <= dest_size -> dest_size <= zlen d -> 0 <= pos -> cb_size <= zlen cb ->
  exists d', next_sbs (S fuel) cb pos cb_size d dest dest_size
    = next_sbs fuel cb (pos + zlen blk) cb_size d' (dest + NTFS_SB_SIZE) dest_size /\ holds_at d dest (padded data) d'.
Proof.
  intros Henc Hd Ha Hfit H0 Hds Hdl Hpos Hcb. pose proof (encodes_len _ _ Hd Henc) as Hl. cbn [next_sbs]. unfold NTFS_SB_SIZE in *.
  destruct Henc as [gs Hg He Hne Hsz|].
  - pose proof (group_bytes_len gs Hg Hne) as Hs2. set (n := zlen (stream gs)) in *. rewrite !zlen_cons in *. fold n in Hl, Hfit |- *.
    pose proof (Ha 0 ltac:(rewrite !zlen_cons; fold n; lia)) as E0. pose proof (Ha 1 ltac:(rewrite !zlen_cons; fold n; lia)) as E1. rewrite Z.add_0_r in E0.
    assert (ld_word cb pos = 0xb000 + (n - 1)) as Ew.
    { unfold ld_word. rewrite E0, E1. cbn [getb]. rewrite <- header_value by lia. reflexivity. }
    destruct (header_fields (n - 1)) as [Hm Hc]; [lia|]. rewrite Ew, Hm.
    replace ((pos =? cb_size) || _ || _) with false by (symmetry; apply orb_false_iff; split; [apply orb_false_iff|]; lia).
    if_false. if_false. if_false. replace (_ =? 0) with false by (symmetry; apply Z.eqb_neq; done).
    destruct (next_tags_spec gs (Z.to_nat (pos + (n - 1) + 3 - pos)) cb (pos + 2) d d [] data dest) as (d' & E & Hh); try done.
    + intros j Hj. replace (pos + 2 + j) with (pos + (2 + j)) by lia. rewrite Ha by (rewrite !zlen_cons; fold n in Hj |- *; lia).
      unfold getb. replace (Z.to_nat (2 + j)) with (S (S (Z.to_nat j))) by lia. done.
    + pose proof (groups_le gs). unfold n, zlen in *. lia.
    + unfold NTFS_SB_SIZE. lia.
    + apply holds_nil.
    + fold n in E. change (zlen []) with 0 in E. rewrite Z.add_0_r in E. unfold NTFS_SB_SIZE in E.
      replace (pos + 2 + n) with (pos + (n - 1) + 3) in E by lia. rewrite E. exists d'. split; [|done].
      replace (pos + (1 + (1 + n))) with (pos + (n - 1) + 3) by lia. done.
  - rewrite !zlen_cons, zlen_padded in * by (unfold NTFS_SB_SIZE; lia). unfold NTFS_SB_SIZE in *.
    pose proof (Ha 0 ltac:(rewrite !zlen_cons, zlen_padded by done; unfold NTFS_SB_SIZE; lia)) as E0.
    pose proof (Ha 1 ltac:(rewrite !zlen_cons, zlen_padded by done; unfold NTFS_SB_SIZE; lia)) as E1. rewrite Z.add_0_r in E0.
    assert (ld_word cb pos = 0x3fff) as Ew by (unfold ld_word; rewrite E0, E1; reflexivity). rewrite Ew.
    replace ((pos =? cb_size) || _ || _) with false by (symmetry; apply orb_false_iff; split; [apply orb_false_iff|]; lia).
    change (Z.land 0x3fff NTFS_SB_SIZE_MASK) with 4095. change (Z.land 0x3fff NTFS_SB_IS_COMPRESSED) with 0.
    if_false. if_false. if_false. if_true. if_false. eexists. split; [f_equal; lia|].
    assert (at_bytes cb (pos + 2) (padded data)) as Ha2.
    { intros j Hj. replace (pos + 2 + j) with (pos + (2 + j)) by lia. rewrite Ha by (rewrite !zlen_cons; lia).
      unfold getb. replace (Z.to_nat (2 + j)) with (S (S (Z.to_nat j))) by lia. done. }
    rewrite <- (at_bytes_sub cb (pos + 2) (padded data)), zlen_padded by (try done; rewrite ?zlen_padded by done; unfold NTFS_SB_SIZE; lia).
    replace dest with (dest + zlen (A := Z) []) at 2 by (change (zlen []) with 0; lia).
    apply (holds_blit d dest [] d); [done| |apply holds_nil]. change (zlen []) with 0. unfold sub, zlen, NTFS_SB_SIZE in *. rewrite length_take. lia.
Qed.

(** The blocks one after the other, ended by two zero bytes. *)
Lemma next_sbs_spec datas blks fuel cb pos cb_size d0 d acc dest_size :
  Forall2 encodes datas blks -> Forall (fun data => zlen data <= NTFS_SB_SIZE) datas ->
  at_bytes cb pos (mjoin blks ++ [0; 0]) -> pos + zlen (mjoin blks) + 2 <= cb_size -> cb_size <= zlen cb -> 0 <= pos ->
  (List.length blks <= fuel)%nat -> zlen acc + NTFS_SB_SIZE * zlen blks <= dest_size -> dest_size <= zlen d0 -> holds_at d0 0 acc d ->
  exists d', next_sbs fuel cb pos cb_size d (zlen acc) dest_size = Some (None, d') /\
    let out := acc ++ mjoin (padded <$> datas) in holds_at d0 0 (out ++ zeros (dest_size - zlen out)) d'.
Proof.
  intros H2. revert fuel pos d acc. induction H2 as [|data blk datas blks Henc H2 IH]; intros fuel pos d acc Hf Ha Hfit Hcb Hp Hn Hds Hdl Hd.
  - cbn [mjoin list_join fmap list_fmap] in *. rewrite app_nil_r. assert (0 <= zlen acc) by (unfold zlen; lia).
    change (zlen []) with 0 in *. assert (ld_word cb pos = 0) as Ew.
    { pose proof (Ha 0 ltac:(unfold zlen; cbn; lia)) as E0. pose proof (Ha 1 ltac:(unfold zlen; cbn; lia)) as E1. rewrite Z.add_0_r in E0.
      unfold ld_word. rewrite E0, E1. reflexivity. }
    assert (next_sbs fuel cb pos cb_size d (zlen acc) dest_size = Some (None, if zlen acc <? dest_size
      then blit d (zlen acc) (zeros (dest_size - zlen acc)) else d)) as ->.
    { destruct fuel; cbn [next_sbs]; rewrite Ew, Z.eqb_refl, orb_true_r; done. }
    eexists. split; [reflexivity|]. cbn zeta. destruct (Z.ltb_spec (zlen acc) dest_size).
    + rewrite <- (Z.add_0_l (zlen acc)) at 2. apply holds_blit; [done| |done]. rewrite zlen_zeros by lia. lia.
    + replace (dest_size - zlen acc) with 0 by lia. by rewrite app_nil_r.
  - apply Forall_cons in Hf as [Hdl1 Hf]. destruct fuel as [|fuel]; [cbn in Hn; lia|].
    assert (mjoin (blk :: blks) = blk ++ mjoin blks) as Ej by done. rewrite Ej, <- app_assoc in Ha. rewrite Ej, zlen_app in Hfit. rewrite zlen_cons in Hds.
    apply at_bytes_app in Ha as [Ha1 Ha2]. assert (0 <= zlen (mjoin blks) /\ 0 <= zlen blks /\ 0 <= zlen acc /\ 0 <= zlen blk) as (?&?&?&?) by (unfold zlen; lia).
    unfold NTFS_SB_SIZE in Hds. pose proof (ha_len _ _ _ _ Hd) as HL.
    destruct (next_sbs_step data blk fuel cb pos cb_size d (zlen acc) dest_size) as (d1 & -> & Hd1); try done; try (unfold NTFS_SB_SIZE; lia).
    pose proof (zlen_padded data Hdl1) as Hpl.
    destruct (IH fuel (pos + zlen blk) d1 (acc ++ padded data)) as (d2 & E & Hd2); try done; try lia.
    + cbn in Hn. lia.
    + rewrite zlen_app, Hpl. unfold NTFS_SB_SIZE. lia.
    + apply (holds_app d0 0 acc d); done.
    + rewrite zlen_app, Hpl in E. rewrite E. exists d2. split; [done|]. rewrite <- app_assoc in Hd2. exact Hd2.
Qed.
