(* ===== verification/LzSafe.v ===== *)
(** * Decompression of arbitrary data

    [ntfs_decompress] terminates on every input, and how far it writes. *)

From stdpp Require Import prelude list.
From Stdlib Require Import ZArith Lia.
From S2P Require Import Prelude Bytes NtfsTypes NtfsCompress LzDecode.

Local Open Scope Z_scope.

(** [d'] is [d] but for bytes from [lo] to [hi], both included. *)
Definition changed_in (lo hi : Z) (d d' : list Z) : Prop :=
  zlen d' = zlen d /\ forall x, 0 <= x -> ~ lo <= x <= hi -> d'.[x] = d.[x].

Lemma changed_refl lo hi d : changed_in lo hi d d.
Proof. done. Qed.

Lemma changed_trans lo hi d1 d2 d3 : changed_in lo hi d1 d2 -> changed_in lo hi d2 d3 -> changed_in lo hi d1 d3.
Proof. intros [L1 O1] [L2 O2]. split; [congruence|]. intros x Hx Hn. rewrite O2, O1 by done. done. Qed.

Lemma changed_mono lo hi lo' hi' d d' : lo' <= lo -> hi <= hi' -> changed_in lo hi d d' -> changed_in lo' hi' d d'.
Proof. intros H1 H2 [L O]. split; [done|]. intros x Hx Hn. apply O; lia. Qed.

Lemma changed_setb lo hi d i v : 0 <= i -> lo <= i <= hi -> changed_in lo hi d (setb d i v).
Proof. intros Hi Hr. split; [unfold zlen; by rewrite length_setb|]. intros x Hx Hn. apply getb_setb_ne; lia. Qed.

Lemma changed_blit lo hi d i bs : 0 <= i -> lo <= i -> i + zlen bs - 1 <= hi -> i + zlen bs <= zlen d -> changed_in lo hi d (blit d i bs).
Proof.
  intros Hi Hlo Hhi Hl. split; [unfold zlen; rewrite length_blit; [done|lia|unfold zlen in *; lia]|]. intros x Hx Hn. rewrite getb_blit by lia.
  by replace ((i <=? x) && (x <? i + zlen bs)) with false by (symmetry; apply andb_false_iff; lia).
Qed.

Lemma changed_copy lo hi d dest back len :
  0 <= back < dest -> lo <= dest -> 0 <= len -> dest + len - 1 <= hi -> dest + len <= zlen d -> changed_in lo hi d (copy_phrase d dest back len).
Proof.
  intros Hb Hlo Hlen Hhi Hl. destruct (copy_phrase_spec d dest back len) as (L & _ & O); [lia..|]. split; [done|].
  intros x Hx Hn. apply O; lia.
Qed.

(** A tag never writes beyond the byte behind the sub-block, and consumes what it reads. *)
Lemma tokens_safe n tag cb pos cb_sb_end d dest s :
  let e := s + NTFS_SB_SIZE in
  0 <= s -> s <= dest <= e + 1 -> e < zlen d ->
  match tokens n tag cb pos cb_sb_end d dest s e with
  | inl (pos', d', dest') => changed_in s e d d' /\ dest <= dest' <= e + 1 /\ pos <= pos'
  | inr d' => changed_in s e d d'
  end.
Proof.
  intros e Hs. unfold e, NTFS_SB_SIZE. revert tag pos d dest. induction n as [|n IH]; intros tag pos d dest Hd Hl; cbn [tokens].
  { split_and!; [apply changed_refl|lia..]. }
  bdestr; [split_and!; [apply changed_refl|lia..]|]. bdestr.
  - specialize (IH (Z.shiftr tag 1) (pos + 1) (setb d dest cb.[pos]) (dest + 1) ltac:(lia) ltac:(unfold zlen; rewrite length_setb; fold (zlen d); lia)).
    pose proof (changed_setb s (s + 4096) d dest cb.[pos] ltac:(lia) ltac:(lia)) as Hc.
    destruct (tokens _ _ _ _ _ _ _ _ _) as [[[pos' d'] dest']|d']; [destruct IH as (H1 & H2 & H3); split_and!; [|lia..]|]; eapply changed_trans; done.
  - bdestr; [apply changed_refl|]. set (lg := log_pos 16 _ 0). set (pt := ld_word cb pos).
    set (back := dest - Z.shiftr pt (12 - lg) - 1). bdestr; [apply changed_refl|]. set (len := Z.land pt _ + 3). bdestr; [apply changed_refl|].
    assert (0 <= Z.shiftr pt (12 - lg)) by (apply Z.shiftr_nonneg; pose proof (u16_range (Z.lor (Z.shiftl cb.[pos + 1] 8) cb.[pos])) as Hr; unfold pt, ld_word, is_u16 in *; lia).
    assert (3 <= len).
    { assert (0 <= Z.land pt (Z.shiftr 4095 lg)); [|unfold len; lia]. apply Z.land_nonneg. right. apply Z.shiftr_nonneg. lia. }
    pose proof (changed_copy s (s + 4096) d dest back len ltac:(unfold back in *; lia) ltac:(lia) ltac:(lia) ltac:(lia) ltac:(lia)) as Hc.
    specialize (IH (Z.shiftr tag 1) (pos + 2) (copy_phrase d dest back len) (dest + len) ltac:(lia) ltac:(destruct Hc as [-> _]; lia)).
    destruct (tokens _ _ _ _ _ _ _ _ _) as [[[pos' d'] dest']|d']; [destruct IH as (H1 & H2 & H3); split_and!; [|lia..]|]; eapply changed_trans; done.
Qed.

Lemma next_tags_safe fuel cb pos cb_sb_end d dest s :
  let e := s + NTFS_SB_SIZE in
  0 <= s -> s <= dest <= e + 1 -> e < zlen d -> cb_sb_end - pos <= Z.of_nat fuel ->
  match next_tags fuel cb pos cb_sb_end d dest s e with
  | DNext pos' d' dest' => changed_in s e d d' /\ s < dest' <= e + 1 /\ pos' = cb_sb_end
  | DOverflow d' => changed_in s e d d'
  | DCut => False
  end.
Proof.
  intros e Hs. unfold e, NTFS_SB_SIZE. revert pos d dest. induction fuel as [|fuel IH]; intros pos d dest Hd Hl Hf; cbn [next_tags].
  - bdestr; [bdestr|bdestr; [apply changed_refl|lia]].
    + split_and!; [|lia..]. assert (zlen (replicate (Z.to_nat (s + 4096 - dest)) 0) = s + 4096 - dest) as Hr by (unfold zlen; rewrite length_replicate; lia).
      apply changed_blit; lia.
    + split_and!; [apply changed_refl|lia..].
  - bdestr; [bdestr|bdestr; [apply changed_refl|]].
    + split_and!; [|lia..]. assert (zlen (replicate (Z.to_nat (s + 4096 - dest)) 0) = s + 4096 - dest) as Hr by (unfold zlen; rewrite length_replicate; lia).
      apply changed_blit; lia.
    + split_and!; [apply changed_refl|lia..].
    + pose proof (tokens_safe 8 cb.[pos] cb (pos + 1) cb_sb_end d dest s Hs ltac:(unfold NTFS_SB_SIZE; lia) ltac:(unfold NTFS_SB_SIZE; lia)) as Ht.
      unfold NTFS_SB_SIZE in Ht. destruct (tokens _ _ _ _ _ _ _ _ _) as [[[pos' d'] dest']|d']; [|done]. destruct Ht as (H1 & H2 & H3).
      specialize (IH pos' d' dest' ltac:(lia) ltac:(destruct H1 as [-> _]; lia) ltac:(lia)).
      destruct (next_tags _ _ _ _ _ _ _ _) as [pos'' d'' dest''|d''|]; [destruct IH as (I1 & I2 & I3); split_and!; [|lia..]| |done]; eapply changed_trans; done.
Qed.

Lemma next_sbs_safe fuel cb pos cb_size d dest dest_size :
  0 <= dest -> dest <= dest_size + 1 -> dest_size < zlen d -> cb_size - pos <= Z.of_nat fuel ->
  exists r d', next_sbs fuel cb pos cb_size d dest dest_size = Some (r, d') /\ (r = None \/ r = Some EOVERFLOW) /\ changed_in 0 dest_size d d'.
Proof.
  revert pos d dest. induction fuel as [|fuel IH]; intros pos d dest H0 Hd Hl Hf; cbn [next_sbs].
  all: bdestr; [do 2 eexists; split_and!; [reflexivity|by left|]; bdestr; [|apply changed_refl];
    assert (zlen (replicate (Z.to_nat (dest_size - dest)) 0) = dest_size - dest) as Hr by (unfold zlen; rewrite length_replicate; lia);
    apply changed_blit; lia|].
  all: bdestr; [do 2 eexists; split_and!; [reflexivity|by right|apply changed_refl]|].
  all: bdestr; [do 2 eexists; split_and!; [reflexivity|by right|apply changed_refl]|].
  all: bdestr; [do 2 eexists; split_and!; [reflexivity|by right|apply changed_refl]|].
  { lia. }
  assert (0 <= Z.land (ld_word cb pos) NTFS_SB_SIZE_MASK) as Hm by (apply Z.land_nonneg; by right). unfold NTFS_SB_SIZE in *. bdestr.
  - bdestr; [do 2 eexists; split_and!; [reflexivity|by right|apply changed_refl]|]. bprop.
    set (d1 := blit d dest _). assert (changed_in 0 dest_size d d1) as Hc.
    { assert (zlen (sub cb (pos + 2) 4096) <= 4096) by (unfold zlen, sub; rewrite length_take; lia). apply changed_blit; lia. }
    destruct (IH (pos + 2 + 4096) d1 (dest + 4096)) as (r & d' & E & Hr & Hc'); [lia..|destruct Hc as [-> _]; lia|lia|].
    exists r, d'. split_and!; [done..|]. eapply changed_trans; done.
  - set (e := pos + Z.land (ld_word cb pos) NTFS_SB_SIZE_MASK + 3) in *.
    pose proof (next_tags_safe (Z.to_nat (e - pos)) cb (pos + 2) e d dest dest H0 ltac:(unfold NTFS_SB_SIZE; lia) ltac:(unfold NTFS_SB_SIZE; lia) ltac:(lia)) as Ht.
    unfold NTFS_SB_SIZE in Ht. destruct (next_tags _ _ _ _ _ _ _ _) as [pos' d1 dest'|d1|]; [| |done].
    + destruct Ht as (H1 & H2 & ->). apply (changed_mono _ _ 0 dest_size) in H1; [|lia..].
      destruct (IH e d1 dest') as (r & d' & E & Hr & Hc'); [lia..|destruct H1 as [-> _]; lia|unfold e; lia|].
      exists r, d'. split_and!; [done..|]. eapply changed_trans; done.
    + do 2 eexists. split_and!; [reflexivity|by right|]. apply (changed_mono dest (dest + 4096)); [lia..|done].
Qed.

(** C12: for any data, even hostile, [ntfs_decompress] terminates, succeeds or
    reports [EOVERFLOW], and of the memory changes only the destination buffer and the
    one byte behind it. *)
Theorem decompress_bounds mem dest_size cb cb_size :
  0 <= dest_size < zlen mem -> 0 <= cb_size ->
  exists r mem', ntfs_decompress mem dest_size cb cb_size = Some (r, mem') /\ (r = None \/ r = Some EOVERFLOW) /\
    zlen mem' = zlen mem /\ forall x, dest_size < x -> mem'.[x] = mem.[x].
Proof.
  intros Hd Hc. destruct (next_sbs_safe (Z.to_nat cb_size) cb 0 cb_size mem 0 dest_size) as (r & mem' & E & Hr & L & O); [lia..|].
  exists r, mem'. split_and!; [done..|]. intros x Hx. apply O; lia.
Qed.

(** The byte behind the buffer is really written: the bound of
    [decompress_bounds] is reached by a block of seven bytes that is accepted without error. *)
Theorem decompress_overrun : exists mem',
  ntfs_decompress (zeros 4098) 4096 [0x04; 0xb0; 0x02; 0x61; 0xfc; 0x0f; 0x58] 7 = Some (None, mem') /\
  (zeros 4098).[4096] = 0 /\ mem'.[4096] = 0x58.
Proof. eexists. split; [vm_compute; reflexivity|]. split; vm_compute; reflexivity. Qed.
