(* ===== verification/LzEncode.v ===== *)
(** * Encoding blocks

    The match finder finds matches, and [ntfs_compress_block] writes a stream of tokens
    that stands for its input. *)

From stdpp Require Import prelude list.
From Stdlib Require Import ZArith Lia.
From S2P Require Import Prelude Bytes Buffers NtfsTypes NtfsCompress LzDecode.

Local Open Scope Z_scope.

(** ** The match finder *)

(** The [len] bytes at [m] are those at [i]. *)
Definition same_at (inbuf : list Z) (m i len : Z) : Prop := forall t, 0 <= t < len -> inbuf.[m + t] = inbuf.[i + t].

Lemma same_bytes_spec n inbuf m i len :
  same_bytes n inbuf m i len = true -> forall t, len <= t < len + Z.of_nat n -> inbuf.[m + t] = inbuf.[i + t].
Proof.
  revert len. induction n as [|n IH]; intros len H t Ht; [lia|]. cbn [same_bytes] in H. apply andb_true_iff in H as [H1 H2].
  apply Z.eqb_eq in H1. destruct (decide (t = len)) as [->|]; [done|]. apply (IH (len + 1)); [done|lia].
Qed.

Lemma same_at_snoc inbuf m i len : same_at inbuf m i len -> inbuf.[m + len] = inbuf.[i + len] -> same_at inbuf m i (len + 1).
Proof. intros H1 H2 t Ht. destruct (decide (t = len)) as [->|]; [done|]. apply H1. lia. Qed.

Lemma extend_spec n inbuf m i len max_len :
  same_at inbuf m i len -> len <= max_len ->
  let len' := extend n inbuf m i len max_len in len <= len' <= max_len /\ same_at inbuf m i len'.
Proof.
  revert len. induction n as [|n IH]; intros len Hs Hl; cbn [extend]; [split; [lia|done]|].
  bdestr; [|split; [lia|done]]. destruct Hb as [Hb He]. destruct (IH (len + 1)) as [H1 H2]; [by apply same_at_snoc|lia|].
  split; [lia|done].
Qed.

Lemma grow_spec n inbuf m i len nice_len max_len :
  same_at inbuf m i len -> inbuf.[m + len] = inbuf.[i + len] -> len < nice_len <= max_len -> nice_len - len <= Z.of_nat n ->
  let '(len', out) := grow n inbuf m i len nice_len max_len in
  len < len' <= max_len /\ same_at inbuf m i len' /\ (out = false -> len' < nice_len).
Proof.
  revert len. induction n as [|n IH]; intros len Hs He Hl Hn; [lia|]. cbn [grow]. pose proof (same_at_snoc _ _ _ _ Hs He) as Hs1.
  bdestr.
  - destruct (extend_spec (Z.to_nat (max_len - (len + 1))) inbuf m i (len + 1) max_len Hs1 ltac:(lia)) as [H1 H2]. split_and!; [lia..|done|done].
  - bdestr; [|split_and!; [lia..|done|lia]]. specialize (IH (len + 1) Hs1 Hb0 ltac:(lia) ltac:(lia)).
    destruct (grow _ _ _ _ _ _ _) as [len' out]. destruct IH as (H1 & H2 & H3). split_and!; [lia..|done|done].
Qed.

(** The chains contain positions before [next] only, and go back. *)
Record chains_ok (c : COMPRESS_CONTEXT) (next : Z) : Prop := {
  co_head_len : zlen (c_head c) = 2 ^ HASH_SHIFT;
  co_prev_len : c_bufsize c <= zlen (c_prev c);
  co_head : forall h, 0 <= h < 2 ^ HASH_SHIFT -> -1 <= (c_head c).[h] < next /\ (c_head c).[h] + 4 <= Z.max 3 (c_bufsize c);
  co_prev : forall p, 0 <= p < next -> p + 4 <= c_bufsize c -> -1 <= (c_prev c).[p] < p
}.

(** [len] bytes at [b] before [i] match. *)
Definition is_match (inbuf : list Z) (b i len : Z) : Prop := 0 <= b < i /\ same_at inbuf b i len.

Lemma search_chain_spec depth c i cur nice_len max_len best_len best :
  (forall p, 0 <= p < i -> -1 <= (c_prev c).[p] < p) -> 2 <= best_len < nice_len -> nice_len <= max_len ->
  -1 <= cur < i -> (best = i \/ is_match (c_inbuf c) best i best_len) ->
  let '(len, b) := search_chain depth (c_inbuf c) (c_prev c) i cur nice_len max_len best_len best in
  best_len <= len <= max_len /\ (b = best /\ len = best_len \/ is_match (c_inbuf c) b i len /\ best_len < len).
Proof.
  intros Hc. revert cur best_len best. induction depth as [|depth IH]; intros cur best_len best Hbl Hn Hcur Hbest; cbn [search_chain].
  { split; [lia|by left]. }
  bdestr; [split; [lia|by left]|]. pose proof (Hc cur ltac:(lia)) as Hp. bdestr.
  - apply IH; try done; lia.
  - destruct Hb0 as [[[H1 H2] H3] H4]. assert (same_at (c_inbuf c) cur i best_len) as Hs.
    { intros t Ht. destruct (decide (t = 0)) as [->|]; [by rewrite !Z.add_0_r|]. destruct (decide (t = best_len - 1)) as [->|].
      - by replace (cur + (best_len - 1)) with (cur + best_len - 1) by lia; replace (i + (best_len - 1)) with (i + best_len - 1) by lia.
      - apply (same_bytes_spec _ _ _ _ _ H4). lia. }
    pose proof (grow_spec (Z.to_nat (nice_len - best_len)) (c_inbuf c) cur i best_len nice_len max_len Hs H1 ltac:(lia) ltac:(lia)) as Hg.
    destruct (grow _ _ _ _ _ _ _) as [len out]. destruct Hg as (G1 & G2 & G3). assert (is_match (c_inbuf c) cur i len) as Hm by (split; [lia|done]).
    destruct out; [split; [lia|right; split; [done|lia]]|].
    specialize (IH (c_prev c).[cur] len cur ltac:(specialize (G3 eq_refl); lia) Hn ltac:(lia) ltac:(by right)).
    destruct (search_chain _ _ _ _ _ _ _ _ _) as [len' b']. destruct IH as [I1 [[-> ->]|[I2 I3]]]; (split; [lia|]); right; (split; [done|lia]).
Qed.

Lemma ntfs_hash_range inbuf p : 0 <= ntfs_hash inbuf p < 2 ^ HASH_SHIFT.
Proof.
  unfold ntfs_hash, HASH_SHIFT. pose proof (u32_range (Z.lor (Z.lor inbuf.[p] (Z.shiftl inbuf.[p + 1] 8)) (Z.shiftl inbuf.[p + 2] 16) * HASH_MULTIPLIER)) as Hr.
  unfold is_u32 in Hr. rewrite Z.shiftr_div_pow2 by lia. change (32 - 14) with 18.
  split; [apply Z.div_pos|apply Z.div_lt_upper_bound]; lia.
Qed.

(** A position enters its chain. *)
Lemma chains_insert c i h v :
  chains_ok c i -> 0 <= i -> i + 4 <= c_bufsize c -> 0 <= h < 2 ^ HASH_SHIFT -> v = (c_head c).[h] ->
  chains_ok (set_chains (setb (c_head c) h i) (setb (c_prev c) i v) c) (i + 1).
Proof.
  intros [L1 L2 H1 H2] Hi Hb Hh ->. split; cbn [set_chains c_head c_prev c_bufsize].
  - unfold zlen in *. by rewrite length_setb.
  - unfold zlen in *. by rewrite length_setb.
  - intros h' Hh'. destruct (decide (h' = h)) as [->|Hne]; [rewrite getb_setb_eq by lia; lia|]. rewrite getb_setb_ne by lia.
    destruct (H1 h' Hh'). lia.
  - intros p Hp Hp4. destruct (decide (p = i)) as [->|Hne].
    + rewrite getb_setb_eq by lia. destruct (H1 h Hh). lia.
    + rewrite getb_setb_ne by lia. apply H2; lia.
Qed.

(** A position so close to the end is in no chain. *)
Lemma chains_end c i : chains_ok c i -> c_bufsize c < i + 4 -> chains_ok c (i + 1).
Proof.
  intros [L1 L2 H1 H2] Hb. split; try done.
  - intros h Hh. destruct (H1 h Hh). lia.
  - intros p Hp Hp4. apply H2; lia.
Qed.

(** The input and the largest length stay. *)
Definition same_input (c c' : COMPRESS_CONTEXT) : Prop :=
  c_inbuf c' = c_inbuf c /\ c_bufsize c' = c_bufsize c /\ c_mxsz c' = c_mxsz c.

Lemma best_match_spec c i best_len :
  chains_ok c i -> 0 <= i < c_bufsize c -> 2 <= best_len < NICE_MATCH_LEN -> NICE_MATCH_LEN <= c_mxsz c ->
  let c' := ntfs_best_match c i best_len in
  chains_ok c' (i + 1) /\ same_input c c' /\
  (c_size c' = best_len \/
   best_len < c_size c' <= Z.min (c_bufsize c - i) (c_mxsz c) /\ is_match (c_inbuf c) (i + c_rel c') i (c_size c')).
Proof.
  intros Hc Hi Hbl Hmx. cbn zeta. unfold ntfs_best_match, NICE_MATCH_LEN in *.
  set (max_len := Z.min (c_bufsize c - i) (c_mxsz c)). destruct (Z.ltb_spec max_len 4) as [Hlt|Hge].
  { split_and!; [|done|by left]. pose proof (chains_end c i Hc ltac:(lia)) as [? ? ? ?]. by split. }
  set (h := ntfs_hash (c_inbuf c) i). pose proof (ntfs_hash_range (c_inbuf c) i) as Hh. fold h in Hh.
  pose proof (chains_insert c i h _ Hc ltac:(lia) ltac:(lia) Hh eq_refl) as Hc'. set (c1 := set_chains _ _ _) in *.
  destruct (Z.leb_spec max_len best_len) as [Hle|Hgt].
  { split_and!; [|done|by left]. destruct Hc'. by split. }
  destruct (co_head _ _ Hc h Hh) as [Hcur _].
  pose proof (search_chain_spec MAX_SEARCH_DEPTH c1 i (c_head c).[h] (Z.min 18 max_len) max_len best_len i
    ltac:(intros p Hp; apply (co_prev _ _ Hc'); [|unfold max_len, c1 in *; cbn]; lia) ltac:(lia) ltac:(lia) ltac:(lia) ltac:(by left)) as Hs.
  destruct (search_chain _ _ _ _ _ _ _ _ _) as [len b]. destruct Hs as [Hl Hs]. split_and!; [by destruct Hc'|done|].
  destruct Hs as [[-> ->]|[Hm Hlt]]; [by left|right]. cbn [set_match c_size c_rel]. split; [lia|]. by replace (i + (b - i)) with b by lia.
Qed.

Lemma skip_position_spec c i :
  chains_ok c i -> 0 <= i -> let c' := ntfs_skip_position c i in chains_ok c' (i + 1) /\ same_input c c'.
Proof.
  intros Hc Hi. cbn zeta. unfold ntfs_skip_position. bdestr; [split; [apply chains_end; [done|lia]|done]|].
  split; [apply chains_insert; try done; [lia|apply ntfs_hash_range]|done].
Qed.

Lemma skip_positions_spec n c i :
  chains_ok c i -> 0 <= i -> let c' := skip_positions n c i in chains_ok c' (i + Z.of_nat n) /\ same_input c c'.
Proof.
  revert c i. induction n as [|n IH]; intros c i Hc Hi; cbn [skip_positions]; [rewrite Z.add_0_r; done|].
  destruct (skip_position_spec c i Hc Hi) as [Hc1 Hs1]. destruct (IH _ _ Hc1 ltac:(lia)) as [Hc2 Hs2].
  replace (i + Z.of_nat (S n)) with (i + 1 + Z.of_nat n) by lia. split; [done|].
  destruct Hs1 as (?&?&?), Hs2 as (?&?&?). split_and!; congruence.
Qed.

(** ** The output *)

Lemma tag_of_snoc g t : tag_of (g ++ [t]) = tag_of g + (match t with Lit _ => 0 | Phrase _ => 2 ^ zlen g end).
Proof.
  induction g as [|t' g IH]; [by destruct t|]. cbn [app tag_of]. rewrite IH, zlen_cons.
  rewrite Z.pow_add_r by (unfold zlen; lia). destruct t', t; lia.
Qed.

Lemma tag_of_range g : 0 <= tag_of g < 2 ^ zlen g.
Proof.
  induction g as [|t g IH]; [done|]. cbn [tag_of]. rewrite zlen_cons, Z.pow_add_r by (unfold zlen; lia). destruct t; lia.
Qed.

(** The buffer holds the groups [gs]; the tag of the tokens [g] behind them is not yet
    stored. *)
Record out_inv (gs : list (list token)) (g : list token) (size : Z) (out : list Z) (xout ptag tag : Z) : Prop := {
  oi_len : zlen out = size;
  oi_gs : at_bytes out 2 (stream gs);
  oi_g : at_bytes out (ptag + 1) (toks_bytes g);
  oi_ptag : ptag = 2 + zlen (stream gs);
  oi_xout : xout = ptag + 1 + zlen (toks_bytes g);
  oi_tag : tag = tag_of g
}.

Lemma out_token gs g size out xout ptag tag t tag' out' :
  out_inv gs g size out xout ptag tag -> xout + zlen (tok_bytes t) <= size -> stored out xout (tok_bytes t) out' ->
  tag' = tag_of (g ++ [t]) -> out_inv gs (g ++ [t]) size out' (xout + zlen (tok_bytes t)) ptag tag'.
Proof.
  intros [L A1 A2 Ep Ex Et] Hs [L' A' O'] ->. assert (0 <= zlen (stream gs) /\ 0 <= zlen (toks_bytes g)) as [] by (unfold zlen; lia).
  assert (toks_bytes (g ++ [t]) = toks_bytes g ++ tok_bytes t) as Eb.
  { unfold toks_bytes. rewrite fmap_app, join_app. cbn. by rewrite app_nil_r. }
  split; [congruence| | |done|rewrite Eb, zlen_app; lia|done].
  - intros j Hj. rewrite O' by lia. by apply A1.
  - rewrite Eb. apply at_bytes_app. split; [intros j Hj; rewrite O' by lia; by apply A2|].
    by replace (ptag + 1 + zlen (toks_bytes g)) with xout by lia.
Qed.

(** The tag is stored: its group is complete. *)
Lemma out_group gs g size out xout ptag tag :
  out_inv gs g size out xout ptag tag -> xout <= size -> out_inv (gs ++ [g]) [] size (setb out ptag tag) (xout + 1) xout 0.
Proof.
  intros [L A1 A2 Ep Ex Et] Hs. assert (0 <= zlen (stream gs) /\ 0 <= zlen (toks_bytes g)) as [] by (unfold zlen; lia).
  assert (stream (gs ++ [g]) = stream gs ++ [tag_of g] ++ toks_bytes g) as Eb.
  { unfold stream. rewrite fmap_app, join_app. cbn. by rewrite app_nil_r. }
  destruct (stored_one out ptag tag) as [L' A' O']; [lia|]. change (zlen [tag]) with 1 in *. split; [congruence| |..].
  - rewrite Eb. apply at_bytes_app. split; [intros j Hj; rewrite O' by lia; by apply A1|]. rewrite <- Ep. apply at_bytes_app. split; [by rewrite <- Et|].
    change (zlen [tag_of g]) with 1. intros j Hj. rewrite O' by lia. by apply A2.
  - intros j Hj. change (zlen (toks_bytes [])) with 0 in Hj. lia.
  - rewrite Eb, !zlen_app. change (zlen [tag_of g]) with 1. lia.
  - change (zlen (toks_bytes [])) with 0. lia.
  - done.
Qed.

(** ** Phrases *)

(** The 16 bits of a phrase of [len] bytes at distance [dist], [bp] of them for the distance. *)
Definition phrase_code (bp dist len : Z) : Z := (dist - 1) * 2 ^ (16 - bp) + (len - 3).

Lemma phrase_code_spec bp i dist len :
  4 <= bp <= 12 -> lg_at i = bp - 4 -> 1 <= dist <= 2 ^ bp -> 3 <= len <= 2 ^ (16 - bp) + 2 ->
  let q := phrase_code bp dist len in 0 <= q < 2 ^ 16 /\ phrase_dist i q = dist /\ phrase_len i q = len.
Proof.
  intros Hbp Hlg Hd Hl. cbn zeta. unfold phrase_code, phrase_dist, phrase_len. rewrite Hlg. set (w := 2 ^ (16 - bp)) in *.
  assert (0 < w) as Hw by (apply Z.pow_pos_nonneg; lia). assert (2 ^ bp * w = 2 ^ 16) as Hm by (unfold w; rewrite <- Z.pow_add_r by lia; f_equal; lia).
  split_and!.
  - nia.
  - nia.
  - replace (12 - (bp - 4)) with (16 - bp) by lia. rewrite Z.shiftr_div_pow2 by lia. fold w.
    rewrite (Z.add_comm ((dist - 1) * w)), Z.div_add, Z.div_small by lia. lia.
  - replace (Z.shiftr 4095 (bp - 4)) with (Z.ones (16 - bp)).
    2:{ change 4095 with (Z.ones 12). rewrite Z.ones_equiv, Z.shiftr_div_pow2, Z.ones_equiv by lia. fold w.
        apply (Z.div_unique _ _ _ (2 ^ (bp - 4) - 1)); [left; pose proof (Z.pow_pos_nonneg 2 (bp - 4)); lia|].
        assert (2 ^ (bp - 4) * w = 2 ^ 12) by (unfold w; rewrite <- Z.pow_add_r by lia; f_equal; lia). lia. }
    rewrite Z.land_ones by lia. fold w. rewrite (Z.add_comm ((dist - 1) * w)), Z.mod_add, Z.mod_small by lia. lia.
Qed.

(** What [put_phrase] stores. *)
Lemma phrase_bytes bp offs i j : 4 <= bp <= 12 -> 1 <= - offs <= 2 ^ bp -> 3 <= j - i <= 2 ^ (16 - bp) + 2 ->
  let q := u32 (Z.shiftl (Z.lnot offs) (16 - bp) + (j - i - 3)) in
  q = phrase_code bp (- offs) (j - i) /\ Z.land q 255 = phrase_code bp (- offs) (j - i) mod 256 /\
  Z.land (Z.shiftr q 8) 255 = phrase_code bp (- offs) (j - i) / 256.
Proof.
  intros Hbp Ho Hl. cbn zeta. unfold phrase_code. set (w := 2 ^ (16 - bp)) in *. assert (0 < w) as Hw by (apply Z.pow_pos_nonneg; lia).
  assert (2 ^ bp * w = 2 ^ 16) as Hm by (unfold w; rewrite <- Z.pow_add_r by lia; f_equal; lia).
  assert (0 <= (- offs - 1) * w + (j - i - 3) < 2 ^ 16) as Hq by nia.
  assert (u32 (Z.shiftl (Z.lnot offs) (16 - bp) + (j - i - 3)) = (- offs - 1) * w + (j - i - 3)) as ->.
  { rewrite Z.shiftl_mul_pow2 by lia. fold w. replace (Z.lnot offs) with (- offs - 1) by (pose proof (Z.add_lnot_diag offs); lia). apply u32_small. unfold is_u32. lia. }
  set (q := _ + _) in *. change 255 with (Z.ones 8). rewrite !Z.land_ones, Z.shiftr_div_pow2 by lia. split_and!; [done..|].
  change (2 ^ 8) with 256. apply Z.mod_small. split; [apply Z.div_pos|apply Z.div_lt_upper_bound]; lia.
Qed.

Lemma at_bytes_cons l p a bs : l.[p] = a -> at_bytes l (p + 1) bs -> at_bytes l p (a :: bs).
Proof.
  intros Ha Hb. change (a :: bs) with ([a] ++ bs). apply at_bytes_app. split; [|done]. intros j Hj.
  change (zlen [a]) with 1 in Hj. replace j with 0 by lia. by rewrite Z.add_0_r.
Qed.

(** The two bytes of the header in front. *)
Lemma put_header out a b bs :
  2 + zlen bs <= zlen out -> at_bytes out 2 bs -> zlen (setb (setb out 0 a) 1 b) = zlen out /\
  take (Z.to_nat (2 + zlen bs)) (setb (setb out 0 a) 1 b) = a :: b :: bs.
Proof.
  intros Hl Ha. assert (0 <= zlen bs) by (unfold zlen; lia). assert (zlen (setb (setb out 0 a) 1 b) = zlen out) as Hz by (unfold zlen; by rewrite !length_setb).
  split; [done|]. replace (2 + zlen bs) with (zlen (a :: b :: bs)) by (rewrite !zlen_cons; lia). apply at_bytes_take; [|rewrite !zlen_cons; lia].
  apply at_bytes_cons; [rewrite getb_setb_ne by lia; apply getb_setb_eq; lia|].
  apply at_bytes_cons; [apply getb_setb_eq; unfold zlen in *; rewrite length_setb; lia|].
  intros j Hj. rewrite !getb_setb_ne by lia. by apply Ha.
Qed.

(** ** The loop *)

Section block.
Context (inbuf : list Z) (bufsize size : Z).
Hypothesis Hin : bytes inbuf.
Hypothesis Hbuf : 0 < bufsize <= NTFS_SB_SIZE.
Hypothesis Hlen : bufsize <= zlen inbuf.
Hypothesis Hsize : NTFS_SB_SIZE + 4 <= size.

Abbreviation prefix i := (take (Z.to_nat i) inbuf).

Lemma zlen_prefix i : 0 <= i <= bufsize -> zlen (prefix i) = i.
Proof. intros Hi. unfold zlen in *. rewrite length_take. lia. Qed.

Lemma getb_prefix i j : 0 <= j < i -> (prefix i).[j] = inbuf.[j].
Proof. apply getb_take. Qed.

(** The width of the offsets and the largest length are those of position [i], or of an
    earlier one. *)
Record width_inv (i : Z) (s : comp_state) : Prop := {
  wi_bp : 4 <= k_bp s <= 12;
  wi_off : k_mxoff s = 2 ^ k_bp s;
  wi_mx : c_mxsz (k_ctx s) = 2 ^ (16 - k_bp s) + 2;
  wi_least : k_bp s = 4 \/ 2 ^ (k_bp s - 1) < i
}.

(** The tokens so far stand for the input before [k_i]. *)
Record text_inv (gs : list (list token)) (g : list token) (s : comp_state) : Prop := {
  ti_in : c_inbuf (k_ctx s) = inbuf;
  ti_bufsize : c_bufsize (k_ctx s) = bufsize;
  ti_i : 0 <= k_i s <= bufsize;
  ti_toks : expands [] (mjoin gs ++ g) (prefix (k_i s));
  ti_gs : Forall (fun g => List.length g = 8%nat) gs;
  ti_out : out_inv gs g size (k_out s) (k_xout s) (k_ptag s) (k_tag s)
}.

Definition match_at (s : comp_state) (i : Z) : Prop :=
  3 <= c_size (k_ctx s) <= Z.min (bufsize - i) (c_mxsz (k_ctx s)) /\ is_match inbuf (i + c_rel (k_ctx s)) i (c_size (k_ctx s)).

Record comp_inv (gs : list (list token)) (g : list token) (s : comp_state) : Prop := {
  ci_text : text_inv gs g s;
  ci_ntag : k_ntag s = 8 - zlen g;
  ci_g : (List.length g < 8)%nat;
  ci_xout : k_xout s <= NTFS_SB_SIZE + 4;
  ci_width : width_inv (k_i s) s;
  ci_chains : chains_ok (k_ctx s) (k_i s + Z.b2z (k_have s));
  ci_have : k_have s = true -> match_at s (k_i s) /\ k_i s <= k_mxoff s
}.

(** *** Widths *)

Lemma widen_inv i s : width_inv i s -> k_mxoff s < i -> i <= NTFS_SB_SIZE -> width_inv i (widen s).
Proof.
  intros [Hbp Ho Hm Hl] Hi Hmax. unfold NTFS_SB_SIZE in Hmax. rewrite Ho in Hi.
  assert (k_bp s < 12) as Hlt by (assert (2 ^ k_bp s < 2 ^ 12) as Hp by lia; apply Z.pow_lt_mono_r_iff in Hp; lia).
  split; cbn [widen k_bp k_mxoff k_ctx set_mxsz c_mxsz]; [lia|..].
  - rewrite Ho, Z.shiftl_mul_pow2 by lia. rewrite Z.pow_add_r by lia. done.
  - rewrite Hm, Z.shiftr_div_pow2 by lia. replace (16 - k_bp s) with (16 - (k_bp s + 1) + 1) by lia. rewrite Z.pow_add_r by lia.
    change (2 ^ 1) with 2. symmetry. apply (Z.div_unique _ _ _ 0); lia.
  - right. by replace (k_bp s + 1 - 1) with (k_bp s) by lia.
Qed.

Lemma widen_to_inv n i s :
  width_inv i s -> i <= NTFS_SB_SIZE -> 12 - k_bp s <= Z.of_nat n ->
  let s' := widen_to n i s in width_inv i s' /\ i <= k_mxoff s' /\
    (forall gs g, text_inv gs g s -> text_inv gs g s') /\ (forall m, chains_ok (k_ctx s) m -> chains_ok (k_ctx s') m) /\
    k_i s' = k_i s /\ k_have s' = k_have s /\ k_ntag s' = k_ntag s /\ k_xout s' = k_xout s.
Proof.
  intros Hw Hi. revert s Hw. induction n as [|n IH]; intros s Hw Hn; cbn [widen_to].
  - assert (k_bp s = 12) as Eb by (destruct Hw; lia). split_and!; try done. rewrite (wi_off _ _ Hw), Eb. done.
  - bdestr; [|split_and!; try done; lia]. pose proof (widen_inv i s Hw Hb Hi) as Hw1.
    destruct (IH (widen s) Hw1 ltac:(cbn; lia)) as (H1 & H2 & H3 & H4 & H5). split_and!; try done; [| |apply H5..].
    + intros gs g [? ? ? ? ? ?]. apply H3. by split.
    + intros m [? ? ? ?]. apply H4. by split.
Qed.

Lemma width_mono i i' s s' :
  width_inv i s -> i <= i' -> k_bp s' = k_bp s -> k_mxoff s' = k_mxoff s -> c_mxsz (k_ctx s') = c_mxsz (k_ctx s) -> width_inv i' s'.
Proof. intros [? ? ? ?] Hi E1 E2 E3. split; rewrite ?E1, ?E2, ?E3; try done. lia. Qed.

(** *** Tokens *)

Lemma text_literal gs g s have :
  text_inv gs g s -> k_i s < bufsize -> k_xout s < NTFS_SB_SIZE + 2 ->
  text_inv gs (g ++ [Lit inbuf.[k_i s]]) (put_literal have s).
Proof.
  intros [H1 H2 H3 H4 H5 H6] Hi Hx. unfold NTFS_SB_SIZE in *. split; cbn [put_literal k_ctx k_i k_out k_xout k_ptag k_tag]; try done; [lia| |].
  - rewrite app_assoc. eapply expands_app; [done|]. econstructor; [by apply getb_bytes| |constructor].
    replace (prefix (k_i s + 1)) with (prefix (k_i s) ++ [inbuf.[k_i s]]); [constructor|].
    replace (Z.to_nat (k_i s + 1)) with (S (Z.to_nat (k_i s))) by lia.
    erewrite take_S_r; [done|]. unfold getb. rewrite nth_lookup. destruct (inbuf !! Z.to_nat (k_i s)) eqn:E; [done|].
    apply lookup_ge_None in E. unfold zlen in Hlen. lia.
  - rewrite H1. apply (out_token gs g size (k_out s) (k_xout s) (k_ptag s) (k_tag s) (Lit inbuf.[k_i s])); [done|change (zlen _) with 1; lia| |].
    + apply stored_one. destruct H6 as [-> _ _ Hp Hxo _]. assert (0 <= zlen (stream gs) /\ 0 <= zlen (toks_bytes g)) as [] by (unfold zlen; lia). lia.
    + rewrite tag_of_snoc, Z.add_0_r. apply H6.
Qed.

Lemma stored_two out p a b : 0 <= p -> p + 2 <= zlen out -> stored out p [a; b] (setb (setb out p a) (p + 1) b).
Proof.
  intros Hp Hl. change [a; b] with ([a] ++ [b]). eapply stored_app; [done|apply stored_one; lia|]. change (zlen [a]) with 1.
  apply stored_one. unfold zlen in *. rewrite length_setb. lia.
Qed.

Lemma text_phrase gs g s bp offs len :
  text_inv gs g s -> k_ntag s = 8 - zlen g -> (List.length g < 8)%nat -> k_xout s < NTFS_SB_SIZE + 2 ->
  4 <= bp <= 12 -> 0 < k_i s <= 2 ^ bp -> bp = 4 \/ 2 ^ (bp - 1) < k_i s ->
  3 <= len <= Z.min (bufsize - k_i s) (2 ^ (16 - bp) + 2) -> is_match inbuf (k_i s + offs) (k_i s) len ->
  let s' := put_phrase bp offs (k_i s + len) s in
  let q := phrase_code bp (- offs) len in
  out_inv gs (g ++ [Phrase q]) size (k_out s') (k_xout s') (k_ptag s') (k_tag s') /\
  expands [] (mjoin gs ++ g ++ [Phrase q]) (prefix (k_i s + len)).
Proof.
  intros [H1 H2 H3 H4 H5 H6] Hnt Hg Hx Hbp Hi Hleast Hl [Hm1 Hm2]. cbn zeta. unfold NTFS_SB_SIZE in *.
  destruct (phrase_bytes bp offs (k_i s) (k_i s + len)) as (Eq & E1 & E2); [done|lia|lia|].
  replace (k_i s + len - k_i s) with len in * by lia. set (q := phrase_code bp (- offs) len) in *.
  assert (lg_at (k_i s) = bp - 4) as Hlg.
  { apply lg_at_unique; [lia|lia|replace (4 + (bp - 4)) with bp by lia; lia|]. destruct Hleast; [left; lia|right; by replace (3 + (bp - 4)) with (bp - 1) by lia]. }
  destruct (phrase_code_spec bp (k_i s) (- offs) len) as (Hq & Hqd & Hql); [done|done|lia|lia|]. fold q in Hq, Hqd, Hql.
  assert (0 <= zlen (stream gs) /\ 0 <= zlen (toks_bytes g)) as [] by (unfold zlen; lia). split.
  - cbn [put_phrase k_out k_xout k_ptag k_tag]. replace (k_i s + len - k_i s) with len by lia. rewrite E1, E2.
    apply (out_token gs g size (k_out s) (k_xout s) (k_ptag s) (k_tag s) (Phrase q)); [done|change (zlen _) with 2; lia| |].
    + destruct H6 as [HL _ _ Hp Hxo _]. apply stored_two; rewrite ?HL; lia.
    + rewrite tag_of_snoc, (oi_tag _ _ _ _ _ _ _ H6), Hnt. replace (8 - (8 - zlen g)) with (zlen g) by lia.
      rewrite Z.lor_comm, shl_lor; [lia|unfold zlen; lia|apply tag_of_range].
  - rewrite app_assoc. eapply expands_app; [done|]. econstructor; [done| |constructor].
    rewrite <- (zlen_prefix (k_i s)) in Hqd, Hql by lia. constructor; rewrite ?Hqd, ?Hql, ?zlen_prefix by lia; [lia..|].
    split_and!; [rewrite !zlen_prefix by lia; done| |].
    + intros t Ht. rewrite zlen_prefix in Ht by lia. rewrite Z.add_0_l, !getb_prefix by lia. done.
    + intros t Ht. rewrite zlen_prefix by lia. rewrite !getb_prefix by lia. rewrite <- Hm2 by lia. f_equal. lia.
Qed.

(** *** One round *)

Lemma nice_width i s : width_inv i s -> NICE_MATCH_LEN <= c_mxsz (k_ctx s).
Proof.
  intros [Hbp _ -> _]. unfold NICE_MATCH_LEN. assert (2 ^ 4 <= 2 ^ (16 - k_bp s)) by (apply Z.pow_le_mono_r; lia). lia.
Qed.

(** The match of the current position is known. *)
Lemma prepared gs g s :
  comp_inv gs g s -> k_i s < bufsize ->
  let s1 := if k_have s then s else let s := widen_to 32 (k_i s) s in with_ctx (ntfs_best_match (k_ctx s) (k_i s) 2) s in
  text_inv gs g s1 /\ k_i s1 = k_i s /\ k_ntag s1 = k_ntag s /\ k_xout s1 = k_xout s /\ width_inv (k_i s) s1 /\ k_i s <= k_mxoff s1 /\
  chains_ok (k_ctx s1) (k_i s + 1) /\ (3 <= c_size (k_ctx s1) -> match_at s1 (k_i s)).
Proof.
  intros [Ht Hn Hg _ Hw Hc Hh] Hi. destruct (k_have s) eqn:Eh.
  { destruct (Hh eq_refl). split_and!; done. }
  cbn [Z.b2z] in Hc. rewrite Z.add_0_r in Hc. destruct (ti_i _ _ _ Ht) as [Hi0 _]. unfold NTFS_SB_SIZE in *.
  destruct (widen_to_inv 32 (k_i s) s Hw ltac:(unfold NTFS_SB_SIZE; lia) ltac:(destruct Hw; lia)) as (W1 & W2 & W3 & W4 & W5 & _ & W6 & W7).
  set (s0 := widen_to 32 (k_i s) s) in *. cbn zeta. specialize (W3 gs g Ht). specialize (W4 _ Hc). rewrite W5.
  destruct (best_match_spec (k_ctx s0) (k_i s) 2) as (B1 & (B2 & B3 & B4) & B5).
  { done. } { rewrite (ti_bufsize _ _ _ W3). lia. } { unfold NICE_MATCH_LEN. lia. } { by eapply nice_width. }
  rewrite (ti_in _ _ _ W3), (ti_bufsize _ _ _ W3) in *. split_and!; try done.
  - destruct W3 as [? ? ? ? ? ?]. split; cbn [with_ctx k_ctx k_i k_out k_xout k_ptag k_tag]; congruence.
  - destruct W1 as [? ? ? ?]. split; cbn [with_ctx k_ctx k_bp k_mxoff]; congruence.
  - cbn [with_ctx k_ctx]. intros Hs. destruct B5 as [B5|[B5 B6]]; [lia|]. split; cbn [with_ctx k_ctx]; [rewrite B4; lia|done].
Qed.

(** After a token. *)
Lemma next_tag_inv gs g s :
  text_inv gs g s -> k_ntag s = 9 - zlen g -> (0 < List.length g <= 8)%nat -> k_xout s <= NTFS_SB_SIZE + 3 -> width_inv (k_i s) s ->
  chains_ok (k_ctx s) (k_i s + Z.b2z (k_have s)) -> (k_have s = true -> match_at s (k_i s) /\ k_i s <= k_mxoff s) ->
  exists gs' g', comp_inv gs' g' (next_tag s) /\ k_i (next_tag s) = k_i s.
Proof.
  intros Ht Hn Hg Hx Hw Hc Hh. unfold next_tag. destruct (Z.eqb_spec (k_ntag s - 1) 0) as [E|E].
  - exists (gs ++ [g]), []. split; [|done]. destruct Ht as [T1 T2 T3 T4 T5 T6]. unfold NTFS_SB_SIZE in *.
    split; try done; [|cbn; lia|cbn; unfold NTFS_SB_SIZE; lia|destruct Hw; by split].
    split; try done; cbn [k_ctx k_i k_out k_xout k_ptag k_tag].
    + rewrite app_nil_r, join_app. cbn. by rewrite app_nil_r.
    + apply Forall_app. split; [done|]. constructor; [|constructor]. unfold zlen in Hn. lia.
    + apply out_group; [done|lia].
  - exists gs, g. split; [|done]. destruct Ht as [T1 T2 T3 T4 T5 T6]. split; try done; cbn [k_ntag k_xout].
    + lia.
    + unfold zlen in Hn. lia.
    + lia.
    + destruct Hw; by split.
Qed.

(** What the loop leaves. *)
Record comp_fin (gs : list (list token)) (g : list token) (s : comp_state) : Prop := {
  cf_text : text_inv gs g s;
  cf_ntag : k_ntag s = 8 - zlen g;
  cf_g : (List.length g <= 8)%nat;
  cf_xout : k_xout s <= NTFS_SB_SIZE + 4
}.

Lemma pass_phrase_inv gs g s bp offs len from s' :
  text_inv gs g s -> k_ntag s = 8 - zlen g -> (List.length g < 8)%nat -> k_xout s < NTFS_SB_SIZE + 2 ->
  4 <= bp <= 12 -> 0 < k_i s <= 2 ^ bp -> bp = 4 \/ 2 ^ (bp - 1) < k_i s ->
  3 <= len <= Z.min (bufsize - k_i s) (2 ^ (16 - bp) + 2) -> is_match inbuf (k_i s + offs) (k_i s) len ->
  0 <= from <= k_i s + len -> chains_ok (k_ctx s) from -> width_inv (k_i s + len) s ->
  s' = pass_phrase from (k_i s + len) (put_phrase bp offs (k_i s + len) s) ->
  exists gs' g', comp_inv gs' g' (next_tag s') /\ k_i (next_tag s') = k_i s + len.
Proof.
  intros Ht Hn Hg Hx Hbp Hi Hl Hlen1 Hm Hf Hc Hw ->. destruct (text_phrase gs g s bp offs len) as [O1 O2]; try done.
  set (q := phrase_code bp (- offs) len) in *. destruct Ht as [T1 T2 T3 T4 T5 T6].
  destruct (skip_positions_spec (Z.to_nat (k_i s + len - from)) (k_ctx s) from Hc ltac:(lia)) as [S1 (S2 & S3 & S4)].
  destruct (next_tag_inv gs (g ++ [Phrase q]) (pass_phrase from (k_i s + len) (put_phrase bp offs (k_i s + len) s))) as (gs' & g' & H1 & H2).
  - split; cbn [pass_phrase put_phrase k_ctx k_i k_out k_xout k_ptag k_tag]; try done; [congruence..|lia].
  - cbn [pass_phrase put_phrase k_ntag]. rewrite Hn, zlen_app. change (zlen [Phrase q]) with 1. lia.
  - rewrite length_app. cbn. lia.
  - cbn [pass_phrase put_phrase k_xout]. lia.
  - cbn [pass_phrase put_phrase k_i]. eapply width_mono; [exact Hw|lia|done|done|]. cbn [pass_phrase put_phrase k_ctx]. done.
  - cbn [pass_phrase put_phrase k_ctx k_i k_have Z.b2z]. rewrite Z.add_0_r. by replace (k_i s + len) with (from + Z.of_nat (Z.to_nat (k_i s + len - from))) at 2 by lia.
  - done.
  - exists gs', g'. split; [exact H1|exact H2].
Qed.

Lemma comp_step_inv gs g s :
  comp_inv gs g s -> k_i s < bufsize -> k_xout s < NTFS_SB_SIZE + 2 ->
  match comp_step s with
  | inl s' => exists gs' g', comp_inv gs' g' s' /\ k_i s < k_i s'
  | inr s' => exists g', comp_fin gs g' s'
  end.
Proof.
  intros Hinv Hi Hx. pose proof (ci_ntag _ _ _ Hinv) as Hn. pose proof (ci_g _ _ _ Hinv) as Hg.
  destruct (prepared gs g s Hinv Hi) as (P1 & P2 & P3 & P4 & P5 & P6 & P7 & P8). unfold comp_step.
  set (s1 := if k_have s then s else _) in *. clearbody s1. destruct (wi_bp _ _ P5) as [Hbp1 Hbp2]. destruct (ti_i _ _ _ P1) as [Hi0 _].
  rewrite <- P2, <- P4 in *. rewrite <- P3 in Hn. clear P2 P3 P4. rewrite (wi_off _ _ P5) in P6.
  destruct (Z.leb_spec 3 (c_size (k_ctx s1))) as [H3|H3].
  2:{ destruct (next_tag_inv gs (g ++ [Lit inbuf.[k_i s1]]) (put_literal false s1)) as (gs' & g' & H1 & H2).
      - by apply text_literal.
      - cbn [put_literal k_ntag]. rewrite Hn, zlen_app. change (zlen [Lit _]) with 1. lia.
      - rewrite length_app. cbn. lia.
      - cbn [put_literal k_xout]. lia.
      - cbn [put_literal k_i]. eapply width_mono; [exact P5|lia|done..].
      - cbn [put_literal k_ctx k_i k_have Z.b2z]. by rewrite Z.add_0_r.
      - done.
      - exists gs', g'. split; [exact H1|]. rewrite H2. cbn. lia. }
  destruct (P8 H3) as [[M0 M1] M2]. clear P8. set (len := c_size (k_ctx s1)) in *. set (offs := c_rel (k_ctx s1)) in *.
  assert (3 <= len <= Z.min (bufsize - k_i s1) (2 ^ (16 - k_bp s1) + 2)) as Hlen1 by (rewrite <- (wi_mx _ _ P5); lia).
  assert (0 < k_i s1 <= 2 ^ k_bp s1) as Hi1 by (destruct M2; lia).
  destruct (Z.leb_spec NICE_MATCH_LEN len) as [Hnice|Hnice].
  - destruct (Z.eqb_spec (k_i s1 + len) (c_bufsize (k_ctx (put_phrase (k_bp s1) offs (k_i s1 + len) s1)))) as [Ej|Ej].
    + destruct (text_phrase gs g s1 (k_bp s1) offs len) as [O1 O2]; try done; [by destruct P5|].
      eexists. destruct P1 as [T1 T2 T3 T4 T5 T6]. split; [split|..]; cbn [k_ctx k_i k_out k_xout k_ptag k_tag k_ntag put_phrase]; try done.
      * lia.
      * rewrite Hn, zlen_app. change (zlen [_]) with 1. lia.
      * rewrite length_app. cbn. lia.
      * lia.
    + destruct (pass_phrase_inv gs g s1 (k_bp s1) offs len (k_i s1 + 1) _ P1 Hn Hg Hx ltac:(lia) Hi1 (wi_least _ _ P5) Hlen1 M2 ltac:(lia) P7
        ltac:(eapply width_mono; [exact P5|lia|done..]) eq_refl) as (gs' & g' & H1 & H2).
      exists gs', g'. split; [exact H1|]. change (k_i (put_phrase _ _ _ _)) with (k_i s1). rewrite H2. lia.
  - set (s2 := if k_mxoff s1 <? k_i s1 + 1 then widen s1 else s1).
    assert (width_inv (k_i s1 + 1) s2 /\ k_i s1 + 1 <= k_mxoff s2 /\ text_inv gs g s2 /\ chains_ok (k_ctx s2) (k_i s1 + 1) /\ k_i s2 = k_i s1 /\
      k_ntag s2 = k_ntag s1 /\ k_xout s2 = k_xout s1 /\ c_size (k_ctx s2) = len) as (Q1 & Q2 & Q3 & Q4 & Q5 & Q6 & Q7 & Q8).
    { unfold s2. assert (width_inv (k_i s1 + 1) s1) as Hw1 by (eapply width_mono; [exact P5|lia|done..]). bdestr.
      - pose proof (widen_inv _ _ Hw1 Hb ltac:(unfold NTFS_SB_SIZE in *; lia)) as Hw2. split_and!; try done.
        + cbn [widen k_mxoff]. rewrite Z.shiftl_mul_pow2 by lia. rewrite (wi_off _ _ P5). change (2 ^ 1) with 2. lia.
        + destruct P1; by split.
        + destruct P7; by split.
      - split_and!; try done. }
    clearbody s2. destruct (best_match_spec (k_ctx s2) (k_i s1 + 1) len) as (B1 & (B2 & B3 & B4) & B5).
    { done. } { rewrite (ti_bufsize _ _ _ Q3). lia. } { lia. } { by eapply nice_width. }
    rewrite Q5, Q8. rewrite (ti_in _ _ _ Q3), (ti_bufsize _ _ _ Q3) in *. set (c3 := ntfs_best_match (k_ctx s2) (k_i s1 + 1) len) in *.
    assert (text_inv gs g (with_ctx c3 s2)) as T3.
    { destruct Q3 as [? ? ? ? ? ?]. split; cbn [with_ctx k_ctx k_i k_out k_xout k_ptag k_tag]; congruence. }
    assert (width_inv (k_i s1 + 1) (with_ctx c3 s2)) as W3 by (eapply width_mono; [exact Q1|lia|done..]).
    change (k_i (with_ctx c3 s2)) with (k_i s2). rewrite Q5. change (k_ctx (with_ctx c3 s2)) with c3.
    destruct (Z.ltb_spec (k_i s1 + len + 1) (k_i s1 + 1 + c_size c3)) as [Hlonger|Hnot].
    + destruct B5 as [B5|[B5 B6]]; [lia|].
      destruct (next_tag_inv gs (g ++ [Lit inbuf.[k_i (with_ctx c3 s2)]]) (put_literal true (with_ctx c3 s2))) as (gs' & g' & H1 & H2).
      * apply text_literal; [done| |]; cbn [with_ctx k_i k_xout]; lia.
      * cbn [put_literal with_ctx k_ntag]. rewrite Q6, Hn, zlen_app. change (zlen [Lit _]) with 1. lia.
      * rewrite length_app. cbn. lia.
      * cbn [put_literal with_ctx k_xout]. rewrite Q7. lia.
      * cbn [put_literal with_ctx k_i]. rewrite Q5. eapply width_mono; [exact W3|lia|done..].
      * cbn [put_literal with_ctx k_ctx k_i k_have Z.b2z]. by rewrite Q5.
      * intros _. cbn [put_literal with_ctx k_i k_mxoff]. rewrite Q5. split; [|done]. split; cbn [put_literal with_ctx k_ctx]; [rewrite B4; lia|done].
      * exists gs', g'. split; [exact H1|]. rewrite H2. cbn. lia.
    + assert (k_i (with_ctx c3 s2) = k_i s1) as Ei by exact Q5.
      destruct (pass_phrase_inv gs g (with_ctx c3 s2) (k_bp s1) offs len (k_i s1 + 2) (pass_phrase (k_i s1 + 2) (k_i s1 + len) (put_phrase (k_bp s1) offs (k_i s1 + len) (with_ctx c3 s2)))) as (gs' & g' & H1 & H2);
        rewrite ?Ei; try done; try lia.
      * cbn [with_ctx k_ntag]. by rewrite Q6.
      * cbn [with_ctx k_xout]. by rewrite Q7.
      * by destruct P5.
      * cbn [with_ctx k_ctx]. by replace (k_i s1 + 2) with (k_i s1 + 1 + 1) by lia.
      * eapply width_mono; [exact W3|lia|done..].
      * exists gs', g'. change (k_i (put_phrase _ _ _ _)) with (k_i s2). rewrite ?Q5. split; [exact H1|]. rewrite H2, Ei. lia.
Qed.

Lemma comp_loop_inv fuel gs g s :
  comp_inv gs g s -> bufsize - k_i s <= Z.of_nat fuel ->
  exists s' gs' g', comp_loop fuel s = Some s' /\ comp_fin gs' g' s'.
Proof.
  revert gs g s. induction fuel as [|fuel IH]; intros gs g s Hinv Hf; cbn [comp_loop]; rewrite (ti_bufsize _ _ _ (ci_text _ _ _ Hinv)).
  all: assert (comp_fin gs g s) as Hfin by (destruct Hinv; split; (done || lia)).
  - if_true. by exists s, gs, g.
  - bdestr; [by exists s, gs, g|]. bprop. pose proof (comp_step_inv gs g s Hinv ltac:(lia) ltac:(lia)) as Hs.
    destruct (comp_step s) as [s'|s'].
    + destruct Hs as (gs' & g' & H1 & H2). apply (IH gs' g' s' H1). lia.
    + destruct Hs as (g' & H1). by exists s', gs, g'.
Qed.

Lemma full_groups_app gs g :
  Forall (fun g => List.length g = 8%nat) gs -> (0 < List.length g <= 8)%nat -> full_groups (gs ++ [g]).
Proof.
  induction 1 as [|g' gs Hg Hgs IH]; intros Hl; cbn; [done|]. split; [|by apply IH]. by destruct gs.
Qed.

Lemma full_groups_8 gs : Forall (fun g => List.length g = 8%nat) gs -> full_groups gs.
Proof. induction 1 as [|g gs Hg Hgs IH]; cbn; [done|]. split; [|done]. destruct gs; lia. Qed.

(** The last tag is stored: the buffer holds complete groups. *)
Lemma comp_close gs g s :
  comp_fin gs g s -> let '(xout, out) := if k_ntag s =? 8 then (k_xout s - 1, k_out s) else (k_xout s, setb (k_out s) (k_ptag s) (k_tag s)) in
  exists gs', full_groups gs' /\ expands [] (mjoin gs') (prefix (k_i s)) /\ at_bytes out 2 (stream gs') /\ xout = 2 + zlen (stream gs') /\ zlen out = size.
Proof.
  intros [[T1 T2 T3 T4 T5 T6] Hn Hg Hx0]. assert (k_xout s <= size) as Hx by lia. rewrite Hn. destruct g as [|t g].
  - change (zlen []) with 0. cbn [Z.sub Z.eqb Z.opp Pos.eqb]. exists gs. rewrite app_nil_r in T4. destruct T6 as [L A1 A2 Ep Ex Et].
    change (zlen (toks_bytes [])) with 0 in Ex. split_and!; [by apply full_groups_8|done..|lia|done].
  - replace (8 - zlen (t :: g) =? 8) with false by (symmetry; apply Z.eqb_neq; rewrite zlen_cons; unfold zlen; lia).
    pose proof (out_group _ _ _ _ _ _ _ T6 Hx) as [L A1 _ Ep _ _]. exists (gs ++ [t :: g]). split_and!; [|..|done].
    + apply full_groups_app; [done|]. cbn in Hg |- *. lia.
    + rewrite join_app. cbn. by rewrite app_nil_r.
    + done.
    + done.
Qed.

Lemma comp_start prev0 size0 rel0 outbuf :
  bufsize <= zlen prev0 -> zlen outbuf = size ->
  comp_inv [] [] (mkComp (mkCtx inbuf bufsize size0 rel0 (Z.shiftl 1 (16 - 4) + 2) (replicate (Z.to_nat (2 ^ HASH_SHIFT)) (-1)) prev0)
    0 4 (Z.shiftl 1 4) false outbuf 3 2 0 8).
Proof.
  intros Hp Ho. split; try done; cbn [k_ctx k_i k_bp k_mxoff k_have k_out k_xout k_ptag k_tag k_ntag].
  - split; try done; cbn [k_ctx k_i k_out k_xout k_ptag k_tag]; [lia|exact (ex_nil [])|]. split; try done; intros j Hj; change (zlen _) with 0 in Hj; lia.
  - cbn. lia.
  - split; cbn [k_ctx k_bp k_mxoff c_mxsz]; try done. by left.
  - split; cbn [c_head c_prev c_bufsize]; [|done|..].
    + unfold zlen. rewrite length_replicate. unfold HASH_SHIFT. lia.
    + intros h Hh. cbn [Z.b2z]. assert ((replicate (Z.to_nat (2 ^ HASH_SHIFT)) (-1)).[h] = -1) as ->; [|lia].
      unfold getb. rewrite nth_lookup, lookup_replicate_2; [done|]. unfold HASH_SHIFT in *. lia.
    + intros p Hpp. cbn [Z.b2z] in Hpp. lia.
Qed.
End block.

(** ** The stores stay below [NTFS_SB_SIZE + 4] *)

Record confined (out0 : list Z) (m : Z) (s : comp_state) : Prop := {
  cn_ptag : 2 <= k_ptag s < k_xout s;
  cn_xout : k_xout s <= m;
  cn_len : zlen (k_out s) = zlen out0;
  cn_rest : forall j, NTFS_SB_SIZE + 4 <= j -> (k_out s).[j] = out0.[j]
}.

Lemma confined_same out0 m s s' :
  confined out0 m s -> k_out s' = k_out s -> k_xout s' = k_xout s -> k_ptag s' = k_ptag s -> confined out0 m s'.
Proof. intros [? ? ? ?] E1 E2 E3. split; rewrite ?E1, ?E2, ?E3; done. Qed.

Lemma confined_le out0 m m' s : confined out0 m s -> m <= m' -> confined out0 m' s.
Proof. intros [? ? ? ?] Hm. split; (done || lia). Qed.

Lemma widen_to_same n i s :
  k_out (widen_to n i s) = k_out s /\ k_xout (widen_to n i s) = k_xout s /\ k_ptag (widen_to n i s) = k_ptag s.
Proof. revert s. induction n as [|n IH]; intros s; cbn [widen_to]; [done|]. bdestr; [|done]. by destruct (IH (widen s)) as (-> & -> & ->). Qed.

Lemma literal_confined out0 have s :
  confined out0 (NTFS_SB_SIZE + 1) s -> confined out0 (NTFS_SB_SIZE + 3) (put_literal have s).
Proof.
  intros [H1 H2 H3 H4]. unfold NTFS_SB_SIZE in *. split; cbn [put_literal k_ptag k_xout k_out]; [lia|unfold NTFS_SB_SIZE; lia|by rewrite zlen_setb|].
  intros j Hj. rewrite getb_setb_ne by (unfold NTFS_SB_SIZE in *; lia). by apply H4.
Qed.

Lemma phrase_confined out0 bp offs j s :
  confined out0 (NTFS_SB_SIZE + 1) s -> confined out0 (NTFS_SB_SIZE + 3) (put_phrase bp offs j s).
Proof.
  intros [H1 H2 H3 H4]. unfold NTFS_SB_SIZE in *. split; cbn [put_phrase k_ptag k_xout k_out]; [lia|unfold NTFS_SB_SIZE; lia|by rewrite !zlen_setb|].
  intros i Hi. rewrite !getb_setb_ne by (unfold NTFS_SB_SIZE in *; lia). by apply H4.
Qed.

Lemma next_tag_confined out0 s : confined out0 (NTFS_SB_SIZE + 3) s -> confined out0 (NTFS_SB_SIZE + 4) (next_tag s).
Proof.
  intros [H1 H2 H3 H4]. unfold NTFS_SB_SIZE in *. unfold next_tag. bdestr; split; cbn [k_ptag k_xout k_out]; try done; try (unfold NTFS_SB_SIZE; lia).
  - by rewrite zlen_setb.
  - intros j Hj. rewrite getb_setb_ne by (unfold NTFS_SB_SIZE in *; lia). by apply H4.
Qed.

Lemma comp_step_confined out0 s :
  confined out0 (NTFS_SB_SIZE + 1) s ->
  match comp_step s with inl s' | inr s' => confined out0 (NTFS_SB_SIZE + 4) s' end.
Proof.
  intros Hs. unfold comp_step. set (s1 := if k_have s then s else _). assert (confined out0 (NTFS_SB_SIZE + 1) s1) as H1.
  { unfold s1. destruct (k_have s); [done|]. eapply confined_same; [exact Hs|apply widen_to_same..]. }
  clearbody s1. clear Hs. cbn zeta. destruct (3 <=? _); [|apply next_tag_confined; by apply literal_confined].
  destruct (NICE_MATCH_LEN <=? _).
  - pose proof (phrase_confined out0 (k_bp s1) (c_rel (k_ctx s1)) (k_i s1 + c_size (k_ctx s1)) s1 H1) as H2. destruct (_ =? _).
    + apply (confined_le _ (NTFS_SB_SIZE + 3)); [|done]. by eapply confined_same; [exact H2|..].
    + apply next_tag_confined. by eapply confined_same; [exact H2|..].
  - set (s2 := if k_mxoff s1 <? _ then widen s1 else s1). assert (confined out0 (NTFS_SB_SIZE + 1) s2) as H2 by (unfold s2; destruct (_ <? _); [eapply confined_same|]; done).
    clearbody s2. set (s3 := with_ctx _ s2). assert (confined out0 (NTFS_SB_SIZE + 1) s3) as H3 by (by eapply confined_same; [exact H2|..]).
    clearbody s3. destruct (_ <? _); apply next_tag_confined; [by apply literal_confined|].
    eapply confined_same; [by apply phrase_confined|done..].
Qed.

Lemma comp_loop_confined out0 fuel s s' :
  confined out0 (NTFS_SB_SIZE + 4) s -> comp_loop fuel s = Some s' -> confined out0 (NTFS_SB_SIZE + 4) s'.
Proof.
  revert s. induction fuel as [|fuel IH]; intros s Hs; cbn [comp_loop]; bdestr; [congruence|done|congruence|]. intros E.
  assert (confined out0 (NTFS_SB_SIZE + 1) s) as H1.
  { destruct Hs. split; try done. unfold NTFS_SB_SIZE in *. lia. }
  apply comp_step_confined in H1. destruct (comp_step s) as [s1|s1]; [by apply (IH s1)|congruence].
Qed.

Lemma compress_block_confined `{!Malloc} inbuf bufsize outbuf prev0 size0 rel0 n out :
  0 < bufsize <= NTFS_SB_SIZE -> NTFS_SB_SIZE + 4 <= zlen outbuf ->
  ntfs_compress_block inbuf bufsize outbuf prev0 size0 rel0 = Some (n, out) ->
  forall j, NTFS_SB_SIZE + 4 <= j -> out.[j] = outbuf.[j].
Proof.
  intros Hb Ho. unfold ntfs_compress_block. destruct (malloc_ok _); cbn [negb]; [|congruence].
  destruct (comp_loop _ _) as [s|] eqn:E; cbn [mbind option_bind]; [|done].
  apply (comp_loop_confined outbuf) in E; [|split; done]. destruct E as [H1 H2 H3 H4]. unfold NTFS_SB_SIZE in *.
  set (o := if k_ntag s =? 8 then _ else _). assert (zlen (snd o) = zlen outbuf /\ forall j, 4096 + 4 <= j -> (snd o).[j] = outbuf.[j]) as [O1 O2].
  { unfold o. destruct (_ =? 8); cbn [snd]; [done|]. rewrite zlen_setb. split; [done|]. intros j Hj. rewrite getb_setb_ne by lia. by apply H4. }
  destruct o as [xout o]. cbn [snd] in O1, O2.
  assert (forall l, zlen l = zlen outbuf -> (forall j, 4096 + 4 <= j -> l.[j] = outbuf.[j]) -> forall d p, 0 <= p -> p + zlen d <= 4098 ->
    zlen (blit l p d) = zlen outbuf /\ forall j, 4096 + 4 <= j -> (blit l p d).[j] = outbuf.[j]) as Hblit.
  { intros l L1 L2 d p Hp Hd. split; [unfold zlen; rewrite length_blit by lia; exact L1|]. intros j Hj. rewrite getb_blit by lia.
    rewrite L2 by lia. by replace ((_ <=? j) && _) with false by (symmetry; apply andb_false_iff; lia). }
  set (raw := blit o 2 _). assert (zlen raw = zlen outbuf /\ forall j, 4096 + 4 <= j -> raw.[j] = outbuf.[j]) as [R1 R2].
  { apply Hblit; [done|done|lia|]. unfold zlen. rewrite length_take. lia. }
  destruct (_ && _); intros [= _ <-] j Hj; rewrite !getb_setb_ne by lia; [by apply O2|]. destruct (Z.ltb_spec bufsize 4096); [|by apply R2].
  apply Hblit; [done|done|lia| |done]. unfold zlen. rewrite length_replicate. lia.
Qed.

Section compress.
Context `{!Malloc} (Hmalloc : forall n, malloc_ok n = true).

Lemma compress_block_encodes inbuf bufsize outbuf prev0 size0 rel0 :
  bytes inbuf -> 0 < bufsize <= NTFS_SB_SIZE -> bufsize <= zlen inbuf -> NTFS_SB_SIZE + 4 <= zlen outbuf -> bufsize <= zlen prev0 ->
  exists n out, ntfs_compress_block inbuf bufsize outbuf prev0 size0 rel0 = Some (n, out) /\ zlen out = zlen outbuf /\
    4 <= n <= NTFS_SB_SIZE + 2 /\ encodes (take (Z.to_nat bufsize) inbuf) (take (Z.to_nat n) out).
Proof.
  intros Hin Hb Hl Ho Hp. unfold ntfs_compress_block. rewrite Hmalloc. cbn [negb].
  destruct (comp_loop_inv inbuf bufsize (zlen outbuf) Hin Hb Hl Ho (Z.to_nat bufsize) _ _ _ (comp_start inbuf bufsize (zlen outbuf) Hb prev0 size0 rel0 outbuf Hp eq_refl) ltac:(cbn; lia))
    as (s & gs & g & -> & Hfin). cbn [mbind option_bind]. pose proof (comp_close inbuf bufsize (zlen outbuf) Ho gs g s Hfin) as Hc.
  destruct (ti_i _ _ _ _ _ _ (cf_text _ _ _ _ _ _ Hfin)) as [Hi0 Hi1].
  destruct (if k_ntag s =? 8 then _ else _) as [xout out]. destruct Hc as (gs' & F1 & F2 & F3 & F4 & F5).
  set (data := take (Z.to_nat bufsize) inbuf). assert (zlen data = bufsize) as Hdl by (unfold data, zlen in *; rewrite length_take; lia).
  assert (forall n out, encodes data (take (Z.to_nat n) out) -> n <= zlen out -> 0 <= n -> 4 <= n <= NTFS_SB_SIZE + 2) as Hrange.
  { intros n o He Hn H0. apply encodes_len in He; [|lia]. unfold zlen in He, Hn. rewrite length_take in He. lia. }
  bdestr.
  - assert (k_i s = bufsize) as Ei by lia. rewrite Ei in F2. fold data in F2. rewrite F4. replace (2 + zlen (stream gs') - 3) with (zlen (stream gs') - 1) by lia.
    assert (0 <= zlen (stream gs')) by (unfold zlen; lia).
    destruct (put_header out (Z.land (zlen (stream gs') - 1) 255) (0xb0 + Z.land (Z.shiftr (zlen (stream gs') - 1) 8) 15) (stream gs')) as [H1 H2]; [unfold NTFS_SB_SIZE in *; lia|done|].
    do 2 eexists. split; [reflexivity|]. assert (encodes data (take (Z.to_nat (2 + zlen (stream gs'))) (setb (setb out 0 (Z.land (zlen (stream gs') - 1) 255)) 1 (0xb0 + Z.land (Z.shiftr (zlen (stream gs') - 1) 8) 15)))) as He.
    { rewrite H2. constructor; try done; [|lia]. intros ->. assert (data = []) as Ed by (clearbody data; by inversion F2). rewrite Ed in Hdl. change (zlen []) with 0 in Hdl. lia. }
    split_and!; [congruence| | |done]; apply (Hrange _ _ He); unfold NTFS_SB_SIZE in *; lia.
  - set (out1 := blit out 2 data). set (out2 := if bufsize <? NTFS_SB_SIZE then _ else out1).
    assert (zlen out1 = zlen out) as L1 by (unfold out1, zlen; rewrite length_blit; [done|lia|unfold NTFS_SB_SIZE in *; fold (zlen data); lia]).
    assert (zlen out2 = zlen out /\ at_bytes out2 2 (padded data)) as [L2 A2].
    { assert (at_bytes out1 2 data) as A1.
      { intros j Hj. unfold out1. rewrite getb_blit by (unfold NTFS_SB_SIZE in *; lia).
        replace ((_ <=? _) && _) with true by (symmetry; apply andb_true_iff; lia). f_equal. lia. }
      unfold out2, padded. rewrite Hdl. destruct (Z.ltb_spec bufsize NTFS_SB_SIZE).
      - assert (zlen (zeros (NTFS_SB_SIZE - bufsize)) = NTFS_SB_SIZE - bufsize) as Hz by (apply zlen_zeros; lia). unfold NTFS_SB_SIZE in *.
        change (replicate (Z.to_nat (4096 - bufsize)) 0) with (zeros (4096 - bufsize)). split.
        + rewrite <- L1. unfold zlen at 1 2. rewrite length_blit; [done|lia|lia].
        + apply at_bytes_app. split; intros j Hj; rewrite getb_blit by lia.
          * replace ((_ <=? _) && _) with false by (symmetry; apply andb_false_iff; lia). by apply A1.
          * replace ((_ <=? _) && _) with true by (symmetry; apply andb_true_iff; lia). f_equal. lia.
      - replace (NTFS_SB_SIZE - bufsize) with 0 by lia. by rewrite app_nil_r. }
    pose proof (zlen_padded data ltac:(lia)) as Hpl.
    destruct (put_header out2 0xff 0x3f (padded data)) as [H1 H2]; [unfold NTFS_SB_SIZE in *; lia|done|]. rewrite Hpl in H2.
    do 2 eexists. split; [reflexivity|]. rewrite (Z.add_comm NTFS_SB_SIZE 2), H2. split_and!; [congruence|unfold NTFS_SB_SIZE; lia..|constructor].
Qed.
End compress.
