(* ===== verification/CompSet.v ===== *)
(** * Sets of compressed blocks

    [read_clusters], [write_clusters], [ntfs_comp_set] and [valid_compressed_run] of
    [src/ntfs3g/src/ntfs-3g/compress.c], and that what [ntfs_comp_set] writes is
    decompressed to what it was given. *)

From stdpp Require Import prelude list.
From Stdlib Require Import ZArith Lia.
From S2P Require Import Prelude Bytes NtfsTypes Runlist NtfsDevice NtfsCompress LzDecode LzEncode.

Local Open Scope Z_scope.

(** ** The code *)

Definition s32 (x : Z) : Z := (x + 2 ^ 31) mod 2 ^ 32 - 2 ^ 31.

Section clusters.
Context {W : Type} `{!DevOps W} (vol : ntfs_volume).
Abbreviation Dev := (M (ntfs_device W)).

(** The runs are those from [rl] on.  The loops do not look for the terminator: behind the
    last element there is no result. *)
Fixpoint read_runs (rl : runlist) (first : bool) (offs to_read got : Z) (data : list Z) : Dev (Z * list Z) :=
  match rl with
  | [] => out_of_fuel
  | r :: rl =>
      let count := u32 (to_bytes vol (length r) - (if first then offs else 0)) in
      let xpos := s64 (to_bytes vol (lcn r) + (if first then offs else 0)) in
      let count := if u32 (to_read - got) <? count then u32 (to_read - got) else count in
      '(xgot, bs) ← ntfs_pread xpos count;
      if s32 xgot =? s32 count then
        let got := u32 (got + count) in
        if got <? to_read then read_runs rl false offs to_read got (data ++ bs) else mret (got, data ++ bs)
      else mret (got, data ++ bs)
  end.
Definition read_clusters (rl : runlist) (offs to_read : Z) : Dev (Z * list Z) := read_runs rl true offs to_read 0 [].

Fixpoint write_runs (rl : runlist) (first : bool) (offs to_write put : Z) (outbuf : list Z) : Dev Z :=
  match rl with
  | [] => out_of_fuel
  | r :: rl =>
      let count := s32 (to_bytes vol (length r)) in
      let count := if first then s32 (count - offs) else count in
      let xpos := s64 (to_bytes vol (lcn r) + (if first then offs else 0)) in
      let count := if to_write - put <? count then to_write - put else count in
      xput ← ntfs_pwrite xpos count (drop (Z.to_nat put) outbuf);
      if s32 xput =? count then
        let put := put + count in
        if put <? to_write then write_runs rl false offs to_write put outbuf else mret put
      else mret put
  end.
Definition write_clusters (rl : runlist) (offs to_write : Z) (outbuf : list Z) : Dev Z :=
  write_runs rl true offs to_write 0 outbuf.
End clusters.

Definition onezero : list Z := [0x01; 0xb0; 0x00; 0x00].
Definition twozeroes : list Z := [0x02; 0xb0; 0x00; 0x00; 0x00].
Definition morezeroes : list Z := [0x03; 0xb0; 0x02; 0x00].

(** The [switch] on the size of a block. *)
Definition zero_block (sz : Z) (pbuf : list Z) : bool :=
  if sz =? 4 then bool_decide (take 4 pbuf = onezero) else
  if sz =? 5 then bool_decide (take 5 pbuf = twozeroes) else
  if sz =? 6 then bool_decide (take 4 pbuf = morezeroes) else false.

Section set.
Context `{!Malloc}.

(** What the memory of the compression context contains at the block at [p]. *)
Context (junk : Z -> list Z * Z * Z).

(** The loop over the blocks: whether it fails, the output buffer, its use, and whether
    all is zero. *)
Fixpoint comp_blocks (n : nat) (inbuf : list Z) (insz p : Z) (outbuf : list Z) (compsz : Z) (allzeroes : bool) (cbs clsz : Z) :
    option (bool * list Z * Z * bool) :=
  if negb (p <? insz) then Some (false, outbuf, compsz, allzeroes) else
  match n with
  | O => None
  | S n =>
      let bsz := if p + NTFS_SB_SIZE <? insz then NTFS_SB_SIZE else insz - p in
      let '(prev0, size0, rel0) := junk p in
      '(sz, pbuf) ← ntfs_compress_block (drop (Z.to_nat p) inbuf) bsz (drop (Z.to_nat compsz) outbuf) prev0 size0 rel0;
      let outbuf := take (Z.to_nat compsz) outbuf ++ pbuf in
      if (sz =? 0) || (cbs <? compsz + sz + clsz + 2) then Some (true, outbuf, compsz, allzeroes) else
      comp_blocks n inbuf insz (p + NTFS_SB_SIZE) outbuf (compsz + sz) (allzeroes && zero_block sz pbuf) cbs clsz
  end.

(** [outbuf] is the memory [malloc] returns. *)
Definition comp_alloc (cbs : Z) : Z := cbs + 2 * (cbs / NTFS_SB_SIZE) + 2.

(** The bytes to write: two zero bytes behind the blocks, then up to a full cluster. *)
Definition comp_close_set (outbuf : list Z) (compsz clsz : Z) : list Z * Z :=
  let outbuf := setb (setb outbuf compsz 0) (compsz + 1) 0 in
  let compsz := compsz + 2 in
  let rounded := Z.lor (compsz - 1) (clsz - 1) + 1 in
  (blit outbuf compsz (replicate (Z.to_nat (rounded - compsz)) 0), rounded).

Definition ntfs_comp_set {W} `{!DevOps W} (vol : ntfs_volume) (cbs : Z) (rl : runlist) (offs insz : Z) (inbuf outbuf : list Z) :
    M (ntfs_device W) Z :=
  let clsz := Z.shiftl 1 (cluster_size_bits vol) in
  if negb (malloc_ok (comp_alloc cbs)) then mret (-1) else
  match comp_blocks (Z.to_nat insz) inbuf insz 0 outbuf 0 true cbs clsz with
  | None => out_of_fuel
  | Some (failed, outbuf, compsz, allzeroes) =>
      if negb failed && negb allzeroes then
        let '(outbuf, rounded) := comp_close_set outbuf compsz clsz in
        written ← write_clusters vol rl offs rounded outbuf;
        if negb (written =? rounded) then set_errno EIO;; mret (-2) else mret written
      else mret (if failed then -1 else 0)
  end.
End set.

(** [xrl] walks over the elements from the start of the compression block on. *)
Fixpoint valid_runs (cb_clusters : Z) (fullcheck : bool) (rl : runlist) : bool :=
  match rl with
  | [] => true
  | r :: rl' =>
      if length r =? 0 then true else
      let nxt := run_at rl' 0 in
      let bad := negb (s64 (vcn r + length r) =? vcn nxt) ||
        ((lcn r =? LCN_HOLE) && (negb (Z.land (s64 (vcn r + length r)) (cb_clusters - 1) =? 0) || (fullcheck && (lcn nxt =? LCN_HOLE)))) in
      valid_runs cb_clusters fullcheck rl' && negb bad
  end.

(** [while (xrl->vcn & (na->compression_block_clusters - 1)) xrl--;] *)
Fixpoint block_start (n : nat) (rl : runlist) (cb_clusters : Z) : nat :=
  if Z.land (vcn (run_at rl n)) (cb_clusters - 1) =? 0 then n else
  match n with O => 0 | S n => block_start n rl cb_clusters end.

Definition valid_compressed_run (cb_clusters : Z) (na_rl : runlist) (rl : nat) (fullcheck : bool) : bool :=
  valid_runs cb_clusters fullcheck (drop (block_start rl na_rl cb_clusters) na_rl).

(** ** What is written is read back *)

(** Tokens whose literals are zero give zeros. *)
Definition zero_token (t : token) : Prop := match t with Lit b => b = 0 | Phrase _ => True end.
Definition all_zero (l : list Z) : Prop := forall j, 0 <= j < zlen l -> l.[j] = 0.

Lemma expands_zero acc ts acc' : expands acc ts acc' -> all_zero acc -> Forall zero_token ts -> all_zero acc'.
Proof.
  induction 1 as [acc|acc t a1 ts a2 Hok Hs Hr IH]; intros Hz Hf; [done|]. apply Forall_cons in Hf as [Ht Hf]. apply IH; [|done].
  destruct Hs as [b|q a1 P0 P1 P2 P3 (R1 & R2 & R3)].
  - cbn in Ht. subst b. intros j Hj. rewrite zlen_app in Hj. change (zlen [0]) with 1 in Hj. rewrite getb_app by lia.
    bdestr; [apply Hz; lia|]. by replace (j - zlen acc) with 0 by lia.
  - set (dist := phrase_dist _ q) in *. assert (forall n, 0 <= n -> forall j, 0 <= j < n -> j < zlen a1 -> a1.[j] = 0) as Hind.
    { apply (natlike_ind (fun n => forall j, 0 <= j < n -> j < zlen a1 -> a1.[j] = 0)); [lia|]. intros n Hn IHn j Hj Hj1.
      destruct (decide (j < zlen acc)).
      - rewrite <- (Z.add_0_l j), R2 by lia. apply Hz. lia.
      - replace j with (zlen acc + (j - zlen acc)) by lia. rewrite R3 by lia. apply IHn; lia. }
    intros j Hj. apply (Hind (j + 1)); lia.
Qed.

Lemma toks_bytes_pos g : zlen g <= zlen (toks_bytes g).
Proof.
  induction g as [|t g IH]; [done|]. rewrite toks_bytes_cons, zlen_app, zlen_cons. destruct t; unfold zlen in *; cbn; lia.
Qed.

(** A short stream is one group. *)
Lemma short_stream gs : full_groups gs -> gs <> [] -> zlen (stream gs) <= 5 -> exists g, gs = [g].
Proof.
  destruct gs as [|g [|g' gs]]; [done|by exists g|]. intros [Hg _] _. rewrite stream_cons, zlen_cons, zlen_app. pose proof (toks_bytes_pos g).
  unfold zlen in *. lia.
Qed.

Lemma short_toks g : zlen (toks_bytes g) <= 0 -> g = [].
Proof. intros Hn. pose proof (toks_bytes_pos g). destruct g; [done|]. rewrite zlen_cons in *. unfold zlen in *. lia. Qed.

Lemma zero_block_zero data blk rest :
  zlen data <= NTFS_SB_SIZE -> encodes data blk -> zero_block (zlen blk) (blk ++ rest) = true -> all_zero data.
Proof.
  intros Hd Henc Hz. destruct Henc as [gs Hg He Hne Hl|].
  2:{ unfold zero_block in Hz. rewrite !zlen_cons, zlen_padded in Hz by done. discriminate. }
  rewrite !zlen_cons in Hz. set (n := zlen (stream gs)) in *. assert (n = 2 \/ n = 3 \/ n = 4) as Hn.
  { unfold zero_block in Hz. repeat case_match; bprop; lia. }
  destruct (short_stream gs Hg Hne ltac:(fold n; lia)) as [g ->]. assert (mjoin [g] = g) as Ej by (cbn; by rewrite app_nil_r).
  rewrite Ej in He. apply (expands_zero _ _ _ He); [intros j Hj; change (zlen []) with 0 in Hj; lia|].
  assert (stream [g] = tag_of g :: toks_bytes g) as Es by (rewrite stream_cons; cbn; by rewrite app_nil_r).
  assert (n = 1 + zlen (toks_bytes g)) as En by (unfold n; rewrite Es, zlen_cons; done). clearbody n.
  unfold zero_block in Hz. destruct Hn as [-> |[-> | ->]]; cbn [Z.add Z.eqb Z.sub Pos.add Pos.succ Pos.eqb] in Hz; apply bool_decide_eq_true in Hz;
    rewrite Es in Hz; cbn [app take] in Hz; injection Hz as Hz.
  - destruct g as [|[b|q] g]; [constructor| |cbn [tag_of] in Hz; pose proof (tag_of_range g); lia].
    rewrite toks_bytes_cons, zlen_app in En. change (zlen (tok_bytes (Lit b))) with 1 in En. assert (g = []) as -> by (apply short_toks; lia).
    cbn in H. injection H as ->. by repeat constructor.
  - destruct g as [|[b|q] g]; [constructor| |cbn [tag_of] in Hz; pose proof (tag_of_range g); lia].
    rewrite toks_bytes_cons, zlen_app in En. change (zlen (tok_bytes (Lit b))) with 1 in En. cbn [tag_of] in Hz.
    destruct g as [|[b'|q] g]; [done| |cbn [tag_of] in Hz; pose proof (tag_of_range g); lia].
    rewrite toks_bytes_cons, zlen_app in En. change (zlen (tok_bytes (Lit b'))) with 1 in En. assert (g = []) as -> by (apply short_toks; lia).
    cbn in H. injection H as -> ->. by repeat constructor.
  - destruct g as [|[b|q] g]; [done| |cbn [tag_of] in Hz; pose proof (tag_of_range g); lia].
    rewrite toks_bytes_cons, zlen_app in En. change (zlen (tok_bytes (Lit b))) with 1 in En. cbn [tag_of] in Hz.
    destruct g as [|[b'|q] g]; [done|cbn [tag_of] in Hz; lia|].
    rewrite toks_bytes_cons, zlen_app in En. change (zlen (tok_bytes (Phrase q))) with 2 in En. assert (g = []) as -> by (apply short_toks; lia).
    cbn in H. injection H as ->. by repeat constructor.
Qed.

Section roundtrip.
Context `{!Malloc} (junk : Z -> list Z * Z * Z) (inbuf : list Z) (insz cbs clsz : Z).
Hypothesis Hmalloc : forall n, malloc_ok n = true.
Hypothesis Hjunk : forall p, NTFS_SB_SIZE <= zlen (fst (fst (junk p))).
Hypothesis Hin : bytes inbuf.
Hypothesis Hinsz : 0 < insz <= cbs.
Hypothesis Hlen : insz <= zlen inbuf.
Hypothesis Hcbs : cbs mod NTFS_SB_SIZE = 0.
Hypothesis Hclsz : 0 <= clsz.

(** The input up to [p], followed by zeros. *)
Definition input_byte (j : Z) : Z := if j <? insz then inbuf.[j] else 0.

(** The blocks up to position [p]. *)
Record blocks_inv (p : Z) (outbuf : list Z) (compsz : Z) (allzeroes : bool) (datas blks : list (list Z)) : Prop := {
  bi_p : p = NTFS_SB_SIZE * zlen blks;
  bi_enc : Forall2 encodes datas blks;
  bi_small : Forall (fun data => zlen data <= NTFS_SB_SIZE) datas;
  bi_out : at_bytes outbuf 0 (mjoin blks);
  bi_compsz : compsz = zlen (mjoin blks);
  bi_bound : compsz <= (NTFS_SB_SIZE + 2) * zlen blks;
  bi_text : zlen (mjoin (padded <$> datas)) = p /\ forall j, 0 <= j < p -> (mjoin (padded <$> datas)).[j] = input_byte j;
  bi_zero : allzeroes = true -> forall j, 0 <= j < p -> input_byte j = 0;
  bi_cluster : blks = [] \/ compsz + clsz + 2 <= cbs
}.

Lemma mjoin_snoc {A} (l : list (list A)) x : mjoin (l ++ [x]) = mjoin l ++ x.
Proof. rewrite join_app. cbn. by rewrite app_nil_r. Qed.

Lemma blocks_step p outbuf compsz allz datas blks sz pbuf bsz :
  blocks_inv p outbuf compsz allz datas blks -> 0 <= p < insz -> bsz = Z.min NTFS_SB_SIZE (insz - p) ->
  zlen pbuf = zlen outbuf - compsz -> 4 <= sz <= NTFS_SB_SIZE + 2 -> sz <= zlen pbuf ->
  encodes (take (Z.to_nat bsz) (drop (Z.to_nat p) inbuf)) (take (Z.to_nat sz) pbuf) -> compsz + sz + clsz + 2 <= cbs ->
  exists datas' blks', blocks_inv (p + NTFS_SB_SIZE) (take (Z.to_nat compsz) outbuf ++ pbuf) (compsz + sz) (allz && zero_block sz pbuf) datas' blks'.
Proof.
  intros [B1 B2 B3 B4 B5 B6 [B7 B8] B9 B10] Hp Hb Hpl Hsz Hsl He Hfit. set (data := take (Z.to_nat bsz) (drop (Z.to_nat p) inbuf)) in *.
  set (blk := take (Z.to_nat sz) pbuf) in *. assert (zlen blk = sz) as Hbl by (unfold blk, zlen in *; rewrite length_take; lia).
  unfold NTFS_SB_SIZE in *. assert (zlen data = bsz) as Hdl by (unfold data, zlen in *; rewrite length_take, length_drop; lia).
  assert (forall j, 0 <= j < bsz -> data.[j] = inbuf.[p + j]) as Hdj by (intros j Hj; unfold data; fold (sub inbuf p bsz); apply getb_sub; lia).
  pose proof (zlen_padded data ltac:(unfold NTFS_SB_SIZE; lia)) as Hpad. unfold NTFS_SB_SIZE in Hpad.
  assert (forall j, 0 <= j < 4096 -> (padded data).[j] = input_byte (p + j)) as Hpj.
  { intros j Hj. unfold padded, input_byte. rewrite getb_app, Hdl by lia. bdestr.
    - rewrite Hdj by lia. by if_true.
    - if_false. apply getb_zeros. }
  assert (zlen (mjoin blks) = compsz /\ 0 <= zlen (mjoin blks) /\ 0 <= zlen blks) as (Hc & Hc0 & Hk0) by (unfold zlen in *; lia).
  assert (zlen (take (Z.to_nat compsz) outbuf) = compsz) as Ht by (unfold zlen in *; rewrite length_take; lia).
  exists (datas ++ [data]), (blks ++ [blk]). split.
  - rewrite zlen_app. change (zlen [blk]) with 1. unfold NTFS_SB_SIZE. lia.
  - apply Forall2_app; [done|]. by constructor.
  - apply Forall_app. split; [done|]. constructor; [unfold NTFS_SB_SIZE; lia|constructor].
  - rewrite mjoin_snoc. apply at_bytes_app. split.
    + intros j Hj. rewrite getb_app, Ht by lia. if_true. rewrite <- B4 by done. rewrite Z.add_0_l. apply getb_take. lia.
    + rewrite Hc, Z.add_0_l. intros j Hj. rewrite Hbl in Hj. rewrite getb_app, Ht by lia. if_false. unfold blk. rewrite getb_take by lia. f_equal. lia.
  - rewrite mjoin_snoc, zlen_app. lia.
  - rewrite zlen_app. change (zlen [blk]) with 1. unfold NTFS_SB_SIZE. lia.
  - rewrite fmap_app. cbn [fmap list_fmap]. rewrite mjoin_snoc, zlen_app. unfold NTFS_SB_SIZE. split; [lia|].
    intros j Hj. rewrite getb_app, B7 by lia. bdestr; [apply B8; lia|]. rewrite Hpj by lia. f_equal. lia.
  - intros Hz. apply andb_true_iff in Hz as [Hz1 Hz2]. intros j Hj. unfold NTFS_SB_SIZE in Hj. destruct (decide (j < p)); [apply B9; [done|lia]|].
    assert (all_zero data) as Hza.
    { apply (zero_block_zero data blk (drop (Z.to_nat sz) pbuf)); [unfold NTFS_SB_SIZE; lia|done|]. unfold blk at 2. by rewrite take_drop, Hbl. }
    unfold input_byte. bdestr; [|done]. replace j with (p + (j - p)) by lia. rewrite <- Hdj by lia. apply Hza. lia.
  - by right.
Qed.

Lemma comp_blocks_spec n p outbuf compsz allz datas blks :
  blocks_inv p outbuf compsz allz datas blks -> 0 <= p < insz + NTFS_SB_SIZE -> insz - p <= NTFS_SB_SIZE * Z.of_nat n ->
  comp_alloc cbs <= zlen outbuf -> exists failed outbuf' compsz' allz' p',
    comp_blocks junk n inbuf insz p outbuf compsz allz cbs clsz = Some (failed, outbuf', compsz', allz') /\ zlen outbuf' = zlen outbuf /\
    (forall j, comp_alloc cbs <= j -> outbuf'.[j] = outbuf.[j]) /\
    (failed = false -> insz <= p' < insz + NTFS_SB_SIZE /\ exists datas' blks', blocks_inv p' outbuf' compsz' allz' datas' blks').
Proof.
  revert p outbuf compsz allz datas blks. induction n as [|n IH]; intros p outbuf compsz allz datas blks Hinv Hp Hn Hal; cbn [comp_blocks].
  { if_true. exists false, outbuf, compsz, allz, p. split_and!; [done..|]. intros _. unfold NTFS_SB_SIZE in *. split; [lia|]. by exists datas, blks. }
  bdestr.
  { exists false, outbuf, compsz, allz, p. split_and!; [done..|]. intros _. unfold NTFS_SB_SIZE in *. split; [lia|]. by exists datas, blks. }
  pose proof (bi_p _ _ _ _ _ _ Hinv) as Ep. pose proof (bi_bound _ _ _ _ _ _ Hinv) as Eb. pose proof (bi_compsz _ _ _ _ _ _ Hinv) as Ec.
  assert (0 <= zlen blks /\ 0 <= zlen (mjoin blks)) as [] by (unfold zlen; lia).
  unfold comp_alloc, NTFS_SB_SIZE in *. assert (compsz + 4100 <= cbs + 2 * (cbs / 4096) + 2) as Hroom by (Z.div_mod_to_equations; nia).
  set (bsz := if p + 4096 <? insz then 4096 else insz - p). assert (bsz = Z.min 4096 (insz - p)) as Ebsz by (unfold bsz; bdestr; lia).
  specialize (Hjunk p). destruct (junk p) as [[prev0 size0] rel0]. cbn [fst] in Hjunk.
  destruct (compress_block_encodes Hmalloc (drop (Z.to_nat p) inbuf) bsz (drop (Z.to_nat compsz) outbuf) prev0 size0 rel0) as (sz & pbuf & Eblk & Hpl & Hsz & He).
  { by apply Forall_drop. } { unfold NTFS_SB_SIZE. lia. } { unfold zlen in *. rewrite length_drop. lia. } { unfold NTFS_SB_SIZE, zlen in *. rewrite length_drop. lia. } { lia. }
  rewrite Eblk. cbn [mbind option_bind]. assert (zlen (drop (Z.to_nat compsz) outbuf) = zlen outbuf - compsz) as Hdl by (unfold zlen in *; rewrite length_drop; lia).
  assert (zlen (take (Z.to_nat compsz) outbuf ++ pbuf) = zlen outbuf) as Hol by (rewrite zlen_app, Hpl, Hdl; unfold zlen in *; rewrite length_take; lia).
  assert (forall j, 4096 + 4 <= j -> pbuf.[j] = (drop (Z.to_nat compsz) outbuf).[j]) as Hfr.
  { apply (compress_block_confined (drop (Z.to_nat p) inbuf) bsz _ prev0 size0 rel0 sz); [unfold NTFS_SB_SIZE; lia..|exact Eblk]. }
  assert (forall j, cbs + 2 * (cbs / 4096) + 2 <= j -> (take (Z.to_nat compsz) outbuf ++ pbuf).[j] = outbuf.[j]) as Hfr1.
  { intros j Hj. rewrite <- (take_drop (Z.to_nat compsz) outbuf) at 2.
    assert (zlen (take (Z.to_nat compsz) outbuf) = compsz) as Ht by (unfold zlen in *; rewrite length_take; lia).
    rewrite !getb_app, Ht by lia. if_false. apply Hfr. lia. }
  unfold NTFS_SB_SIZE in Hsz. bdestr.
  { do 4 eexists. exists 0. split_and!; [reflexivity|done..]. }
  destruct (blocks_step p outbuf compsz allz datas blks sz pbuf bsz) as (datas' & blks' & Hinv'); try done; try (unfold NTFS_SB_SIZE; lia).
  unfold NTFS_SB_SIZE in Hinv'. destruct (IH (p + 4096) _ _ _ datas' blks' Hinv') as (failed & o & c & a & p' & E & Hl & Hfr2 & Hf); [lia|lia|lia|].
  exists failed, o, c, a, p'. split_and!; [done|congruence| |done]. intros j Hj. rewrite Hfr2 by done. by apply Hfr1.
Qed.

Lemma blocks_start outbuf : blocks_inv 0 outbuf 0 true [] [].
Proof.
  split; try done; [intros j Hj; change (zlen _) with 0 in Hj; lia|split; [done|intros; lia]|intros; lia|by left].
Qed.
End roundtrip.

(** Up to a full cluster. *)
Lemma round_up x b : 0 < x -> 0 <= b ->
  x <= Z.lor (x - 1) (2 ^ b - 1) + 1 < x + 2 ^ b /\ (Z.lor (x - 1) (2 ^ b - 1) + 1) mod 2 ^ b = 0.
Proof.
  intros Hx Hb. assert (0 < 2 ^ b) as Hw by (apply Z.pow_pos_nonneg; lia).
  assert (Z.lor (x - 1) (2 ^ b - 1) = (x - 1) / 2 ^ b * 2 ^ b + (2 ^ b - 1)) as ->.
  { rewrite <- (Z.pred_succ (2 ^ b - 1)). replace (Z.pred (Z.succ (2 ^ b - 1))) with (Z.ones b) by (rewrite Z.ones_equiv; lia).
    rewrite <- Z.shiftr_div_pow2, <- Z.shiftl_mul_pow2 by lia.
    assert (Z.lor (x - 1) (Z.ones b) = Z.lor (Z.shiftl (Z.shiftr (x - 1) b) b) (Z.ones b)) as ->.
    { apply Z.bits_inj'. intros k Hk. rewrite !Z.lor_spec, Z.shiftl_spec by lia. destruct (decide (k < b)).
      - rewrite Z.ones_spec_low by lia. by rewrite !orb_true_r.
      - rewrite Z.shiftr_spec by lia. f_equal. f_equal. lia. }
    rewrite shl_lor, Z.ones_equiv by (rewrite ?Z.ones_equiv; lia). rewrite Z.shiftl_mul_pow2 by lia. lia. }
  pose proof (Z.div_mod (x - 1) (2 ^ b) ltac:(lia)). pose proof (Z.mod_pos_bound (x - 1) (2 ^ b) Hw). split; [lia|].
  replace ((x - 1) / 2 ^ b * 2 ^ b + (2 ^ b - 1) + 1) with (((x - 1) / 2 ^ b + 1) * 2 ^ b) by lia. by apply Z.mod_mul; lia.
Qed.

(** C11: what [ntfs_comp_set] prepares to write for a set of up to [cbs]
    bytes is decompressed to the same bytes, if memory is granted and clusters have at most
    4096 bytes.  The loop over the blocks terminates.  [outbuf] is the memory that starts
    with the [comp_alloc cbs] bytes it allocates: neither the compression of the blocks nor
    the closing zeros change anything behind them.  The loop gives up, or it finds nothing
    but zeros, and then the data are zeros, or the bytes to write fill whole clusters, at
    least one less than the set, and [ntfs_decompress] restores the data from them, followed
    by zeros, whatever comes after them in memory. *)
Theorem comp_set_roundtrip `{!Malloc} junk inbuf insz cbs bits outbuf :
  (forall n, malloc_ok n = true) -> (forall p, NTFS_SB_SIZE <= zlen (fst (fst (junk p)))) ->
  bytes inbuf -> 0 < insz <= cbs -> insz <= zlen inbuf -> cbs mod NTFS_SB_SIZE = 0 -> 0 <= bits <= 12 -> comp_alloc cbs <= zlen outbuf ->
  exists failed out compsz allzeroes,
    comp_blocks junk (Z.to_nat insz) inbuf insz 0 outbuf 0 true cbs (2 ^ bits) = Some (failed, out, compsz, allzeroes) /\
    zlen out = zlen outbuf /\ (forall j, comp_alloc cbs <= j -> out.[j] = outbuf.[j]) /\
    (failed = false -> allzeroes = true -> forall j, 0 <= j < insz -> inbuf.[j] = 0) /\
    (failed = false -> let '(cb, rounded) := comp_close_set out compsz (2 ^ bits) in
       rounded mod 2 ^ bits = 0 /\ rounded + 2 ^ bits <= cbs /\
       zlen cb = zlen outbuf /\ (forall j, comp_alloc cbs <= j -> cb.[j] = outbuf.[j]) /\
       forall mem dest_size cb' cb_size, cbs <= dest_size <= zlen mem -> rounded <= cb_size <= zlen cb' -> at_bytes cb' 0 (take (Z.to_nat rounded) cb) ->
         exists mem', ntfs_decompress mem dest_size cb' cb_size = Some (None, mem') /\
           (forall j, 0 <= j < insz -> mem'.[j] = inbuf.[j]) /\ (forall j, insz <= j < dest_size -> mem'.[j] = 0)).
Proof.
  intros Hmalloc Hjunk Hin Hinsz Hlen Hcbs Hbits Hout. assert (0 < 2 ^ bits <= 2 ^ 12) as Hcl by (split; [apply Z.pow_pos_nonneg|apply Z.pow_le_mono_r]; lia).
  destruct (comp_blocks_spec junk inbuf insz cbs (2 ^ bits) Hmalloc Hjunk Hin Hinsz Hlen Hcbs (Z.to_nat insz) 0 outbuf 0 true [] [])
    as (failed & out & compsz & allz & p' & E & Hl & Hfr & Hf); [apply blocks_start|unfold NTFS_SB_SIZE; lia|unfold NTFS_SB_SIZE; lia|lia|].
  exists failed, out, compsz, allz. split; [exact E|]. split; [done|]. split; [done|]. split.
  { intros Hfl Haz j Hj. destruct (Hf Hfl) as (Hp & datas & blks & Hinv). rewrite <- (bi_zero _ _ _ _ _ _ _ _ _ _ Hinv Haz j ltac:(lia)).
    unfold input_byte. by if_true. }
  intros Hfl. destruct (Hf Hfl) as (Hp & datas & blks & [B1 B2 B3 B4 B5 B6 [B7 B8] B9 B10]). clear Hf E. unfold comp_close_set.
  set (out1 := setb (setb out compsz 0) (compsz + 1) 0). set (rounded := Z.lor (compsz + 2 - 1) (2 ^ bits - 1) + 1).
  assert (0 <= compsz) as Hc0 by (rewrite B5; unfold zlen; lia). assert (0 <= zlen blks) by (unfold zlen; lia).
  destruct B10 as [->|B10]; [change (zlen []) with 0 in B1; lia|].
  destruct (round_up (compsz + 2) bits ltac:(lia) ltac:(lia)) as [Hr1 Hr2]. fold rounded in Hr1, Hr2.
  assert (cbs mod 2 ^ bits = 0) as Hcm.
  { unfold NTFS_SB_SIZE in Hcbs. apply Z.mod_divide in Hcbs; [|lia]. apply Z.mod_divide; [lia|]. apply (Z.divide_trans _ 4096); [|done].
    exists (2 ^ (12 - bits)). rewrite <- Z.pow_add_r by lia. change 4096 with (2 ^ 12). f_equal. lia. }
  assert (rounded + 2 ^ bits <= cbs) as Hr3.
  { apply Z.mod_divide in Hr2 as [a Ha]; [|lia]. apply Z.mod_divide in Hcm as [c Hc]; [|lia]. assert (a * 2 ^ bits < c * 2 ^ bits) as Hac by lia. apply Z.mul_lt_mono_pos_r in Hac; [nia|lia]. }
  assert (cbs + 2 <= comp_alloc cbs <= zlen out) as Hol2.
  { rewrite Hl. unfold comp_alloc, NTFS_SB_SIZE in *. assert (0 <= cbs / 4096) by (apply Z.div_pos; lia). lia. }
  assert (zlen out1 = zlen out) as Hl1 by (unfold out1, zlen; by rewrite !length_setb).
  set (cb := blit out1 (compsz + 2) (replicate (Z.to_nat (rounded - (compsz + 2))) 0)).
  assert (zlen (replicate (Z.to_nat (rounded - (compsz + 2))) 0) = rounded - (compsz + 2)) as Hrl by (unfold zlen; rewrite length_replicate; lia).
  assert (zlen cb = zlen out) as Hcl2 by (rewrite <- Hl1; unfold cb, zlen at 1 2; rewrite length_blit by lia; done).
  split_and!; [done|done|congruence| |].
  { intros j Hj. unfold cb. rewrite getb_blit by lia. replace ((_ <=? j) && _) with false by (symmetry; apply andb_false_iff; lia).
    unfold out1. rewrite !getb_setb_ne by lia. by apply Hfr. }
  intros mem dest_size cb' cb_size Hd Hcs Hat.
  assert (at_bytes cb' 0 (mjoin blks ++ [0; 0])) as Ha.
  { assert (forall j, 0 <= j < compsz + 2 -> cb'.[j] = out1.[j]) as Hj1.
    { intros j Hj. rewrite <- (Z.add_0_l j), Hat, Z.add_0_l by (unfold zlen in *; rewrite length_take; lia). rewrite getb_take by lia.
      unfold cb. rewrite getb_blit by lia. by replace ((_ <=? j) && _) with false by (symmetry; apply andb_false_iff; lia). }
    apply at_bytes_app. split.
    - intros j Hj. rewrite Z.add_0_l, Hj1 by lia. unfold out1. rewrite !getb_setb_ne by lia. rewrite <- B4 by lia. done.
    - rewrite <- B5, Z.add_0_l. intros j Hj. change (zlen [0; 0]) with 2 in Hj. rewrite Hj1 by lia. unfold out1.
      assert (j = 0 \/ j = 1) as [-> | ->] by lia.
      + rewrite Z.add_0_r, getb_setb_ne, getb_setb_eq by lia. done.
      + rewrite getb_setb_eq; [done|]. unfold zlen in *. rewrite length_setb. lia. }
  unfold ntfs_decompress. unfold NTFS_SB_SIZE in *.
  assert (4096 * zlen blks <= cbs) as Hfit by (apply Z.mod_divide in Hcbs as [c Hc]; [nia|lia]).
  destruct (next_sbs_spec datas blks (Z.to_nat cb_size) cb' 0 cb_size mem mem [] dest_size) as (mem' & E & Hh); try done; try lia.
  - enough (zlen blks <= cb_size) by (unfold zlen in *; lia). enough (zlen blks <= zlen (mjoin blks)) by lia. clear - B2 B3.
    induction B2 as [|data blk datas blks He B2 IH]; [done|]. apply Forall_cons in B3 as [Hd B3]. apply (encodes_len _ _ Hd) in He.
    rewrite zlen_cons. change (mjoin (blk :: blks)) with (blk ++ mjoin blks). rewrite zlen_app. specialize (IH B3). lia.
  - change (zlen []) with 0. unfold NTFS_SB_SIZE. lia.
  - apply holds_nil.
  - cbn zeta in Hh. rewrite app_nil_l, B7 in Hh. change (zlen []) with 0 in E. exists mem'. split; [exact E|].
    destruct Hh as [_ Hh _]. assert (forall j, 0 <= j < dest_size -> mem'.[j] = input_byte inbuf insz j) as Hm.
    { intros j Hj. rewrite <- (Z.add_0_l j) at 1. rewrite Hh by (rewrite zlen_app, B7, zlen_zeros by lia; lia). rewrite getb_app, B7 by lia.
      bdestr; [apply B8; lia|]. rewrite getb_zeros. unfold input_byte. by if_false. }
    split; intros j Hj; rewrite Hm by lia; unfold input_byte; [by if_true|by if_false].
Qed.
