(* ===== verification/UniNames.v ===== *)
(** * Unicode names of ntfs-3g

    [src/ntfs3g/src/ntfs-3g/unistr.c], the part on names: comparison, the collation order
    of the file names in a directory, the up-case and low-case tables, the names that
    Windows does not accept; and the collation functions of [collate.c].

    A name is the list of its 16-bit units, with its length next to it as in the code; a
    table of case conversion is the list of its entries. *)

From stdpp Require Import prelude list.
From Stdlib Require Import ZArith Lia.
From S2P Require Import Prelude Bytes NtfsTypes.

Local Open Scope Z_scope.

Inductive IGNORE_CASE_BOOL := CASE_SENSITIVE | IGNORE_CASE.

(** ** Comparison *)

(** [if (c < upcase_len) c = upcase[c]] *)
Definition up (upcase : list Z) (upcase_len c : Z) : Z := if c <? upcase_len then upcase.[c] else c.

Fixpoint ucsncmp (fuel : nat) (s1 s2 : list Z) (i : Z) : Z :=
  match fuel with
  | O => 0
  | S fuel =>
      let c1 := s1.[i] in
      let c2 := s2.[i] in
      if c1 <? c2 then -1 else if c2 <? c1 then 1 else if c1 =? 0 then 0 else ucsncmp fuel s1 s2 (i + 1)
  end.
Definition ntfs_ucsncmp (s1 s2 : list Z) (n : Z) : Z := ucsncmp (Z.to_nat n) s1 s2 0.

Fixpoint ucsncasecmp (fuel : nat) (s1 s2 : list Z) (i : Z) (upcase : list Z) (upcase_size : Z) : Z :=
  match fuel with
  | O => 0
  | S fuel =>
      let c1 := up upcase upcase_size s1.[i] in
      let c2 := up upcase upcase_size s2.[i] in
      if c1 <? c2 then -1 else if c2 <? c1 then 1 else if c1 =? 0 then 0
      else ucsncasecmp fuel s1 s2 (i + 1) upcase upcase_size
  end.
Definition ntfs_ucsncasecmp (s1 s2 : list Z) (n : Z) (upcase : list Z) (upcase_size : Z) : Z :=
  ucsncasecmp (Z.to_nat n) s1 s2 0 upcase upcase_size.

Definition ntfs_names_are_equal (s1 : list Z) (s1_len : Z) (s2 : list Z) (s2_len : Z) (ic : IGNORE_CASE_BOOL)
    (upcase : list Z) (upcase_size : Z) : bool :=
  if negb (s1_len =? s2_len) then false else
  if s1_len =? 0 then true else
  match ic with
  | CASE_SENSITIVE => ntfs_ucsncmp s1 s2 s1_len =? 0
  | IGNORE_CASE => ntfs_ucsncasecmp s1 s2 s1_len upcase upcase_size =? 0
  end.

(** [while (--cnt && ( *name1 == *name2))]: the place and [cnt]. *)
Fixpoint skip_same (cnt : nat) (name1 name2 : list Z) (i : Z) : Z * nat :=
  match cnt with
  | O => (i, O)
  | S cnt =>
      if negb (Nat.eqb cnt 0) && (name1.[i] =? name2.[i]) then skip_same cnt name1 name2 (i + 1) else (i, cnt)
  end.

(** [do ... while ((u1 == u2) && --cnt)] from place [i] on: the last two characters. *)
Fixpoint same_case (cnt : nat) (name1 name2 : list Z) (i : Z) (upcase : list Z) (upcase_len : Z) : Z * Z :=
  match cnt with
  | O => (0, 0)
  | S cnt =>
      let u1 := up upcase upcase_len name1.[i] in
      let u2 := up upcase upcase_len name2.[i] in
      if (u1 =? u2) && negb (Nat.eqb cnt 0) then same_case cnt name1 name2 (i + 1) upcase upcase_len else (u1, u2)
  end.

Definition ntfs_names_full_collate (name1 : list Z) (name1_len : Z) (name2 : list Z) (name2_len : Z)
    (ic : IGNORE_CASE_BOOL) (upcase : list Z) (upcase_len : Z) : Z :=
  let cnt := Z.min name1_len name2_len in
  if 0 <? cnt then
    match ic with
    | CASE_SENSITIVE =>
        let '(i, cnt) := skip_same (Z.to_nat cnt) name1 name2 0 in
        let c1 := name1.[i] in
        let c2 := name2.[i] in
        let u1 := up upcase upcase_len c1 in
        let u2 := up upcase upcase_len c2 in
        let '(u1, u2) :=
          if (u1 =? u2) && negb (Nat.eqb cnt 0) then same_case cnt name1 name2 (i + 1) upcase upcase_len else (u1, u2) in
        if u1 <? u2 then -1 else if u2 <? u1 then 1 else
        if name1_len <? name2_len then -1 else if name2_len <? name1_len then 1 else
        if c1 <? c2 then -1 else if c2 <? c1 then 1 else 0
    | IGNORE_CASE =>
        let '(u1, u2) := same_case (Z.to_nat cnt) name1 name2 0 upcase upcase_len in
        if u1 <? u2 then -1 else if u2 <? u1 then 1 else
        if name1_len <? name2_len then -1 else if name2_len <? name1_len then 1 else 0
    end
  else
    if name1_len <? name2_len then -1 else if name2_len <? name1_len then 1 else 0.

(** ** Length, copy and case *)

Fixpoint ucsnlen (maxlen : nat) (s : list Z) (i : Z) : Z :=
  match maxlen with
  | O => i
  | S maxlen => if s.[i] =? 0 then i else ucsnlen maxlen s (i + 1)
  end.
Definition ntfs_ucsnlen (s : list Z) (maxlen : Z) : Z := ucsnlen (Z.to_nat maxlen) s 0.

Definition ntfs_ucsndup `{!Malloc} (s : list Z) (maxlen : Z) : option (list Z) :=
  let len := ntfs_ucsnlen s maxlen in
  if malloc_ok ((len + 1) * 2) then Some (sub s 0 len ++ [0]) else None.

(** The first [name_len] units are converted in place. *)
Fixpoint convert (n : nat) (name : list Z) (i : Z) (table : list Z) (len : Z) : list Z :=
  match n with
  | O => name
  | S n => convert n (if name.[i] <? len then setb name i table.[name.[i]] else name) (i + 1) table len
  end.
Definition ntfs_name_upcase (name : list Z) (name_len : Z) (upcase : list Z) (upcase_len : Z) : list Z :=
  convert (Z.to_nat name_len) name 0 upcase upcase_len.
Definition ntfs_name_locase (name : list Z) (name_len : Z) (locase : option (list Z)) (locase_len : Z) : list Z :=
  match locase with
  | Some locase => convert (Z.to_nat name_len) name 0 locase locase_len
  | None => name
  end.

(** ** The tables *)

(** The table as defined by Windows XP: start, end, add; start, end; offset, value. *)
Definition uc_run_table : list (Z * Z * Z) :=
  [(0x61, 0x7b, (-32)); (0x451, 0x45d, (-80)); (0x1f70, 0x1f72, 74);
   (0xe0, 0xf7, (-32)); (0x45e, 0x460, (-80)); (0x1f72, 0x1f76, 86);
   (0xf8, 0xff, (-32)); (0x561, 0x587, (-48)); (0x1f76, 0x1f78, 100);
   (0x256, 0x258, (-205)); (0x1f00, 0x1f08, 8); (0x1f78, 0x1f7a, 128);
   (0x28a, 0x28c, (-217)); (0x1f10, 0x1f16, 8); (0x1f7a, 0x1f7c, 112);
   (0x3ac, 0x3ad, (-38)); (0x1f20, 0x1f28, 8); (0x1f7c, 0x1f7e, 126);
   (0x3ad, 0x3b0, (-37)); (0x1f30, 0x1f38, 8); (0x1fb0, 0x1fb2, 8);
   (0x3b1, 0x3c2, (-32)); (0x1f40, 0x1f46, 8); (0x1fd0, 0x1fd2, 8);
   (0x3c2, 0x3c3, (-31)); (0x1f51, 0x1f52, 8); (0x1fe0, 0x1fe2, 8);
   (0x3c3, 0x3cc, (-32)); (0x1f53, 0x1f54, 8); (0x1fe5, 0x1fe6, 7);
   (0x3cc, 0x3cd, (-64)); (0x1f55, 0x1f56, 8); (0x2170, 0x2180, (-16));
   (0x3cd, 0x3cf, (-63)); (0x1f57, 0x1f58, 8); (0x24d0, 0x24ea, (-26));
   (0x430, 0x450, (-32)); (0x1f60, 0x1f68, 8); (0xff41, 0xff5b, (-32))].

Definition uc_dup_table : list (Z * Z) :=
  [(0x100, 0x12f); (0x1a0, 0x1a6); (0x3e2, 0x3ef); (0x4cb, 0x4cc);
   (0x132, 0x137); (0x1b3, 0x1b7); (0x460, 0x481); (0x4d0, 0x4eb);
   (0x139, 0x149); (0x1cd, 0x1dd); (0x490, 0x4bf); (0x4ee, 0x4f5);
   (0x14a, 0x178); (0x1de, 0x1ef); (0x4bf, 0x4bf); (0x4f8, 0x4f9);
   (0x179, 0x17e); (0x1f4, 0x1f5); (0x4c1, 0x4c4); (0x1e00, 0x1e95);
   (0x18b, 0x18b); (0x1fa, 0x218); (0x4c7, 0x4c8); (0x1ea0, 0x1ef9)].

Definition uc_byte_table : list (Z * Z) :=
  [(0xff, 0x178); (0x1ad, 0x1ac); (0x1f3, 0x1f1); (0x269, 0x196);
   (0x183, 0x182); (0x1b0, 0x1af); (0x253, 0x181); (0x26f, 0x19c);
   (0x185, 0x184); (0x1b9, 0x1b8); (0x254, 0x186); (0x272, 0x19d);
   (0x188, 0x187); (0x1bd, 0x1bc); (0x259, 0x18f); (0x275, 0x19f);
   (0x18c, 0x18b); (0x1c6, 0x1c4); (0x25b, 0x190); (0x283, 0x1a9);
   (0x192, 0x191); (0x1c9, 0x1c7); (0x260, 0x193); (0x288, 0x1ae);
   (0x199, 0x198); (0x1cc, 0x1ca); (0x263, 0x194); (0x292, 0x1b7);
   (0x1a8, 0x1a7); (0x1dd, 0x18e); (0x268, 0x197)].

(** The changes of later versions: first, last, difference, step, version. *)
Record NEWUPPERCASE := mkNew { first : Z; last : Z; diff : Z; step : Z; osmajor : Z; osminor : Z }.

Definition newuppercase : list NEWUPPERCASE :=
  [mkNew 0x37b 0x37d 0x82 1 6 0; mkNew 0x1f80 0x1f87 0x8 1 6 0; mkNew 0x1f90 0x1f97 0x8 1 6 0;
   mkNew 0x1fa0 0x1fa7 0x8 1 6 0; mkNew 0x2c30 0x2c5e (-0x30) 1 6 0; mkNew 0x2d00 0x2d25 (-0x1c60) 1 6 0;
   mkNew 0x2c68 0x2c6c (-0x1) 2 6 0; mkNew 0x219 0x21f (-0x1) 2 6 0; mkNew 0x223 0x233 (-0x1) 2 6 0;
   mkNew 0x247 0x24f (-0x1) 2 6 0; mkNew 0x3d9 0x3e1 (-0x1) 2 6 0; mkNew 0x48b 0x48f (-0x1) 2 6 0;
   mkNew 0x4fb 0x513 (-0x1) 2 6 0; mkNew 0x2c81 0x2ce3 (-0x1) 2 6 0; mkNew 0x3f8 0x3fb (-0x1) 3 6 0;
   mkNew 0x4c6 0x4ce (-0x1) 4 6 0; mkNew 0x23c 0x242 (-0x1) 6 6 0; mkNew 0x4ed 0x4f7 (-0x1) 10 6 0;
   mkNew 0x450 0x45d (-0x50) 13 6 0; mkNew 0x2c61 0x2c76 (-0x1) 21 6 0; mkNew 0x1fcc 0x1ffc (-0x9) 48 6 0;
   mkNew 0x180 0x180 0xc3 1 6 0; mkNew 0x195 0x195 0x61 1 6 0; mkNew 0x19a 0x19a 0xa3 1 6 0;
   mkNew 0x19e 0x19e 0x82 1 6 0; mkNew 0x1bf 0x1bf 0x38 1 6 0; mkNew 0x1f9 0x1f9 (-0x1) 1 6 0;
   mkNew 0x23a 0x23a 0x2a2b 1 6 0; mkNew 0x23e 0x23e 0x2a28 1 6 0; mkNew 0x26b 0x26b 0x29f7 1 6 0;
   mkNew 0x27d 0x27d 0x29e7 1 6 0; mkNew 0x280 0x280 (-0xda) 1 6 0; mkNew 0x289 0x289 (-0x45) 1 6 0;
   mkNew 0x28c 0x28c (-0x47) 1 6 0; mkNew 0x3f2 0x3f2 0x7 1 6 0; mkNew 0x4cf 0x4cf (-0xf) 1 6 0;
   mkNew 0x1d7d 0x1d7d 0xee6 1 6 0; mkNew 0x1fb3 0x1fb3 0x9 1 6 0; mkNew 0x214e 0x214e (-0x1c) 1 6 0;
   mkNew 0x2184 0x2184 (-0x1) 1 6 0; mkNew 0x23a 0x23e 0x0 4 6 1; mkNew 0x250 0x250 0x2a1f 2 6 1;
   mkNew 0x251 0x251 0x2a1c 2 6 1; mkNew 0x271 0x271 0x29fd 2 6 1; mkNew 0x371 0x373 (-0x1) 2 6 1;
   mkNew 0x377 0x377 (-0x1) 2 6 1; mkNew 0x3c2 0x3c2 0x0 2 6 1; mkNew 0x3d7 0x3d7 (-0x8) 2 6 1;
   mkNew 0x515 0x523 (-0x1) 2 6 1; mkNew 0x1d79 0x1d79 (-0x75fc) 2 6 1; mkNew 0x1efb 0x1eff (-0x1) 2 6 1;
   mkNew 0x1fc3 0x1ff3 0x9 48 6 1; mkNew 0x1fcc 0x1ffc 0x0 48 6 1; mkNew 0x2c65 0x2c65 (-0x2a2b) 2 6 1;
   mkNew 0x2c66 0x2c66 (-0x2a28) 2 6 1; mkNew 0x2c73 0x2c73 (-0x1) 2 6 1; mkNew 0xa641 0xa65f (-0x1) 2 6 1;
   mkNew 0xa663 0xa66d (-0x1) 2 6 1; mkNew 0xa681 0xa697 (-0x1) 2 6 1; mkNew 0xa723 0xa72f (-0x1) 2 6 1;
   mkNew 0xa733 0xa76f (-0x1) 2 6 1; mkNew 0xa77a 0xa77c (-0x1) 2 6 1; mkNew 0xa77f 0xa787 (-0x1) 2 6 1;
   mkNew 0xa78c 0xa78c (-0x1) 2 6 1].

Definition UPCASE_MAJOR := 6.
Definition UPCASE_MINOR := 1.
Definition UPCASE_LEN := 65536.

(** [for (i = a; i < b; i += st)]: the values of [i]. *)
Definition range (a b st : Z) : list Z := (fun k => a + k * st) <$> seqZ 0 ((b - a + st - 1) / st).

(** [for (...) uc[i] = cpu_to_le16(i + off)] *)
Definition shift_run (uc : list Z) (idx : list Z) (off : Z) : list Z :=
  foldl (fun uc i => setb uc i (u16 (i + off))) uc idx.

Definition apply_runs (uc : list Z) : list Z :=
  foldl (fun uc '(a, b, off) => shift_run uc (range a b 1) off) uc uc_run_table.
Definition apply_dups (uc : list Z) : list Z :=
  foldl (fun uc '(a, b) => foldl (fun uc i => setb uc (i + 1) (u16 i)) uc (range a b 2)) uc uc_dup_table.
Definition apply_bytes (uc : list Z) : list Z :=
  foldl (fun uc '(a, k) => setb uc a (u16 k)) uc uc_byte_table.
Definition apply_new (uc : list Z) : list Z :=
  foldl (fun uc p =>
    if (osmajor p <? UPCASE_MAJOR) || (osmajor p =? UPCASE_MAJOR) && (osminor p <=? UPCASE_MINOR)
    then shift_run uc (range (first p) (last p + 1) (step p)) (diff p) else uc) uc newuppercase.

(** The first loops clear the buffer and store [i] at index [i]. *)
Definition ntfs_upcase_table_build (uc : list Z) (uc_len : Z) : list Z :=
  let n := Z.min (Z.shiftr uc_len 1) 65536 in
  let uc := seqZ 0 n ++ drop (Z.to_nat n) (replicate (Z.to_nat (Z.shiftr uc_len 1)) 0 ++ drop (Z.to_nat (Z.shiftr uc_len 1)) uc) in
  apply_new (apply_bytes (apply_dups (apply_runs uc))).

(** [junk] is the memory that [malloc] returns. *)
Definition ntfs_upcase_build_default `{!Malloc} (junk : list Z) : Z * option (list Z) :=
  if malloc_ok (UPCASE_LEN * 2) then (UPCASE_LEN, Some (ntfs_upcase_table_build junk (UPCASE_LEN * 2))) else (0, None).

(** The second loop of the table for the conversion to lower case. *)
Definition locase_fill (uc : list Z) (uc_cnt : Z) : list Z :=
  foldl (fun lc '(i, upp) => if negb (upp =? i) && (upp <? uc_cnt) then setb lc upp (u16 i) else lc)
    (u16 <$> seqZ 0 uc_cnt) (zip (seqZ 0 uc_cnt) uc).
Definition ntfs_locase_table_build `{!Malloc} (uc : list Z) (uc_cnt : Z) : option (list Z) :=
  if malloc_ok (uc_cnt * 2) then Some (locase_fill uc uc_cnt) else None.

(** ** Names that Windows does not accept *)

(** [mainset]: the double quote, [* / : < > ?]. *)
Definition mainset : Z :=
  Z.lor (Z.shiftl 1 (0x22 - 0x20)) (Z.lor (Z.shiftl 1 (0x2A - 0x20)) (Z.lor (Z.shiftl 1 (0x2F - 0x20))
    (Z.lor (Z.shiftl 1 (0x3A - 0x20)) (Z.lor (Z.shiftl 1 (0x3C - 0x20)) (Z.lor (Z.shiftl 1 (0x3E - 0x20))
    (Z.shiftl 1 (0x3F - 0x20))))))).

Definition forbidden_char (ch : Z) : bool :=
  (ch <? 0x20) || (ch <? 0x40) && negb (Z.land (Z.shiftl 1 (ch - 0x20)) mainset =? 0) || (ch =? 0x5C) || (ch =? 0x7C).

(** The result is also whether [errno] is set to [EINVAL]. *)
Definition ntfs_forbidden_chars (name : list Z) (len : Z) (strict : bool) : bool :=
  (len =? 0) || strict && ((name.[len - 1] =? 0x20) || (name.[len - 1] =? 0x2E)) ||
  existsb forbidden_char (sub name 0 len).

Definition con : list Z := [0x63; 0x6F; 0x6E].
Definition prn : list Z := [0x70; 0x72; 0x6E].
Definition aux : list Z := [0x61; 0x75; 0x78].
Definition nul : list Z := [0x6E; 0x75; 0x6C].
Definition com : list Z := [0x63; 0x6F; 0x6D].
Definition lpt : list Z := [0x6C; 0x70; 0x74].

(** The full check, by the third character. *)
Definition reserved_name (name : list Z) (len : Z) (upcase : list Z) (upcase_len : Z) : bool :=
  let same s := ntfs_ucsncasecmp name s 3 upcase upcase_len =? 0 in
  let alone := (len =? 3) || (name.[3] =? 0x2E) in
  let numbered := (3 <? len) && (0x31 <=? name.[3]) && (name.[3] <=? 0x39) && ((len =? 4) || (name.[4] =? 0x2E)) in
  let c := Z.land name.[2] (Z.lnot 0x20) in
  if c =? 0x4E then alone && (same con || same prn)
  else if c =? 0x58 then alone && same aux
  else if c =? 0x4C then alone && same nul
  else if c =? 0x4D then numbered && same com
  else if c =? 0x54 then numbered && same lpt
  else false.

Definition ntfs_forbidden_names (name : list Z) (len : Z) (strict : bool) (upcase : list Z) (upcase_len : Z) : bool :=
  let forbidden := ntfs_forbidden_chars name len strict in
  if negb forbidden && (3 <=? len) then
    let h := Z.lxor (Z.land name.[0] 31 * 48) (Z.land name.[1] 31 * 165) in
    if h mod 23 =? 17 then reserved_name name len upcase upcase_len else forbidden
  else forbidden.

Fixpoint collapsible (n : nat) (shortname longname : list Z) (i : Z) (upcase : list Z) (upcase_len : Z) : bool :=
  match n with
  | O => true
  | S n =>
      let ch := longname.[i] in
      let cs := shortname.[i] in
      if negb (cs =? ch) && ((upcase_len <=? ch) || (upcase_len <=? cs) || negb (upcase.[cs] =? upcase.[ch]))
      then false else collapsible n shortname longname (i + 1) upcase upcase_len
  end.
Definition ntfs_collapsible_chars (shortname : list Z) (shortlen : Z) (longname : list Z) (longlen : Z)
    (upcase : list Z) (upcase_len : Z) : bool :=
  (shortlen =? longlen) && collapsible (Z.to_nat shortlen) shortname longname 0 upcase upcase_len.

(** ** The collation functions of indexes *)

Definition NTFS_COLLATION_ERROR := -2.

(** [memcmp] on the first [n] bytes: its sign. *)
Fixpoint memcmp (n : nat) (d1 d2 : list Z) (i : Z) : Z :=
  match n with
  | O => 0
  | S n => if d1.[i] <? d2.[i] then -1 else if d2.[i] <? d1.[i] then 1 else memcmp n d1 d2 (i + 1)
  end.

Definition ntfs_collate_binary (data1 : list Z) (data1_len : Z) (data2 : list Z) (data2_len : Z) : Z :=
  let rc := memcmp (Z.to_nat (Z.min data1_len data2_len)) data1 data2 0 in
  if (rc =? 0) && negb (data1_len =? data2_len) then if data1_len <? data2_len then -1 else 1 else rc.

Definition ntfs_collate_ntofs_ulong (data1 : list Z) (data1_len : Z) (data2 : list Z) (data2_len : Z) : Z :=
  if negb (data1_len =? data2_len) || negb (data1_len =? 4) then NTFS_COLLATION_ERROR else
  let d1 := ld_dword data1 0 in
  let d2 := ld_dword data2 0 in
  if d1 <? d2 then -1 else if d1 =? d2 then 0 else 1.

(** [do ... while ((d1 == d2) && ((len -= 4) > 0))] *)
Fixpoint ulongs (n : nat) (p1 p2 : list Z) (i len : Z) : Z * Z :=
  match n with
  | O => (0, 0)
  | S n =>
      let d1 := ld_dword p1 i in
      let d2 := ld_dword p2 i in
      if (d1 =? d2) && (0 <? len - 4) then ulongs n p1 p2 (i + 4) (len - 4) else (d1, d2)
  end.
Definition ntfs_collate_ntofs_ulongs (data1 : list Z) (data1_len : Z) (data2 : list Z) (data2_len : Z) : Z :=
  if negb (data1_len =? data2_len) || (data1_len <=? 0) || negb (Z.land data1_len 3 =? 0) then NTFS_COLLATION_ERROR else
  let '(d1, d2) := ulongs (Z.to_nat data1_len) data1 data2 0 data1_len in
  if d1 <? d2 then -1 else if d1 =? d2 then 0 else 1.

Definition ntfs_collate_ntofs_security_hash (data1 : list Z) (data1_len : Z) (data2 : list Z) (data2_len : Z) : Z :=
  if negb (data1_len =? data2_len) || negb (data1_len =? 8) then NTFS_COLLATION_ERROR else
  if ld_dword data1 0 <? ld_dword data2 0 then -1 else
  if ld_dword data2 0 <? ld_dword data1 0 then 1 else
  if ld_dword data1 4 <? ld_dword data2 4 then -1 else
  if ld_dword data2 4 <? ld_dword data1 4 then 1 else 0.

(** The name of a [FILE_NAME_ATTR]: its length at byte 64, its units from byte 66 on. *)
Definition file_name_length (attr : list Z) : Z := attr.[64].
Definition file_name (attr : list Z) : list Z :=
  (fun k => ld_word attr (66 + 2 * k)) <$> seqZ 0 (file_name_length attr).

Definition ntfs_collate_file_name (upcase : list Z) (upcase_len : Z) (data1 data2 : list Z) : Z :=
  ntfs_names_full_collate (file_name data1) (file_name_length data1) (file_name data2) (file_name_length data2)
    CASE_SENSITIVE upcase upcase_len.

Inductive COLLATION_RULES :=
  | COLLATION_BINARY | COLLATION_FILE_NAME | COLLATION_UNICODE_STRING | COLLATION_NTOFS_ULONG | COLLATION_NTOFS_SID
  | COLLATION_NTOFS_SECURITY_HASH | COLLATION_NTOFS_ULONGS | COLLATION_OTHER (cr : Z).

(** [None] is the null pointer, with [errno] set to [EOPNOTSUPP]. *)
Definition ntfs_get_collate_function (upcase : list Z) (upcase_len : Z) (cr : COLLATION_RULES) :
    option (list Z -> Z -> list Z -> Z -> Z) :=
  match cr with
  | COLLATION_BINARY => Some ntfs_collate_binary
  | COLLATION_FILE_NAME => Some (fun data1 _ data2 _ => ntfs_collate_file_name upcase upcase_len data1 data2)
  | COLLATION_NTOFS_SECURITY_HASH => Some ntfs_collate_ntofs_security_hash
  | COLLATION_NTOFS_ULONG => Some ntfs_collate_ntofs_ulong
  | COLLATION_NTOFS_ULONGS => Some ntfs_collate_ntofs_ulongs
  | _ => None
  end.
