(* ===== verification/UniOrder.v ===== *)
(** * The order of file names

    [ntfs_names_full_collate] is the lexicographic order of the names in upper case, and
    then, when case matters, of the names themselves: a total order, as the search in the
    index of a directory needs. *)

From stdpp Require Import prelude list.
From Stdlib Require Import ZArith Lia.
From S2P Require Import Prelude Bytes Buffers NtfsTypes UniNames.

Local Open Scope Z_scope.

(** ** The lexicographic order *)

Fixpoint lex (a b : list Z) : comparison :=
  match a, b with
  | [], [] => Eq
  | [], _ :: _ => Lt
  | _ :: _, [] => Gt
  | x :: a, y :: b => match x ?= y with Eq => lex a b | c => c end
  end.

(** The second order decides where the first one does not. *)
Definition then_by (c d : comparison) : comparison := match c with Eq => d | _ => c end.

(** The result of a comparison function of C. *)
Definition sign (c : comparison) : Z := match c with Lt => -1 | Eq => 0 | Gt => 1 end.

Lemma lex_eq a b : lex a b = Eq <-> a = b.
Proof.
  revert b. induction a as [|x a IH]; intros [|y b]; cbn; [done..|]. destruct (Z.compare_spec x y) as [->|Hl|Hl].
  - rewrite IH. split; [by intros ->|by intros [=]].
  - split; [done|]. intros [= -> _]. lia.
  - split; [done|]. intros [= -> _]. lia.
Qed.

Lemma lex_refl a : lex a a = Eq.
Proof. by apply lex_eq. Qed.

Lemma lex_opp a b : lex b a = CompOpp (lex a b).
Proof.
  revert b. induction a as [|x a IH]; intros [|y b]; cbn; [done..|].
  rewrite Z.compare_antisym. destruct (x ?= y); cbn; [apply IH|done..].
Qed.

Lemma lex_trans a b c : lex a b = Lt -> lex b c = Lt -> lex a c = Lt.
Proof.
  revert b c. induction a as [|x a IH]; intros [|y b] [|z c]; cbn; try done.
  destruct (Z.compare_spec x y) as [->|H1|H1]; [|intros _|done].
  - destruct (y ?= z); [apply IH|done..].
  - destruct (Z.compare_spec y z) as [->|H2|H2]; [intros _|intros _|done]; by rewrite (proj2 (Z.compare_lt_iff x _)) by lia.
Qed.

(** The two keys of a name. *)
Definition upper (upcase : list Z) (upcase_len : Z) (name : list Z) : list Z := up upcase upcase_len <$> name.

Definition name_order (ic : IGNORE_CASE_BOOL) (upcase : list Z) (upcase_len : Z) (a b : list Z) : comparison :=
  then_by (lex (upper upcase upcase_len a) (upper upcase upcase_len b))
    (match ic with CASE_SENSITIVE => lex a b | IGNORE_CASE => Eq end).

(** ** The code *)

Section collate.
Context (upcase : list Z) (upcase_len : Z).
Implicit Types a b : list Z.

Lemma up_getb a i : 0 <= i < zlen a -> (upper upcase upcase_len a).[i] = up upcase upcase_len a.[i].
Proof.
  intros Hi. unfold getb, upper. rewrite !nth_lookup, list_lookup_fmap. unfold zlen in Hi.
  destruct (lookup_lt_is_Some_2 a (Z.to_nat i)) as [x ->]; [lia|done].
Qed.

(** The comparison of the rest of two sequences, from place [i] on. *)
Definition lex_from a b (i : Z) : comparison := lex (drop (Z.to_nat i) a) (drop (Z.to_nat i) b).

Lemma drop_getb a i : 0 <= i < zlen a -> drop (Z.to_nat i) a = a.[i] :: drop (Z.to_nat (i + 1)) a.
Proof.
  intros Hi. unfold zlen in Hi. destruct (lookup_lt_is_Some_2 a (Z.to_nat i)) as [x Ex]; [lia|].
  rewrite (drop_S _ x) by done. f_equal; [|f_equal; lia]. unfold getb. by rewrite nth_lookup, Ex.
Qed.

Lemma lex_step a b i :
  0 <= i < zlen a -> i < zlen b -> lex_from a b i = then_by (a.[i] ?= b.[i]) (lex_from a b (i + 1)).
Proof. intros Ha Hb. unfold lex_from. rewrite (drop_getb a i), (drop_getb b i) by lia. cbn. by destruct (_ ?= _). Qed.

Lemma lex_from_end a b i :
  zlen a <= i \/ zlen b <= i -> i <= zlen a -> i <= zlen b -> lex_from a b i = (zlen a ?= zlen b).
Proof.
  intros Hi Ha Hb. unfold lex_from, zlen in *.
  destruct (drop (Z.to_nat i) a) as [|x k] eqn:Ea, (drop (Z.to_nat i) b) as [|y k'] eqn:Eb;
    apply (f_equal length) in Ea; apply (f_equal length) in Eb; rewrite length_drop in Ea, Eb; cbn in Ea, Eb |- *;
    (lia || (symmetry; (apply Z.compare_eq_iff || apply Z.compare_lt_iff || apply Z.compare_gt_iff); lia)).
Qed.

Lemma upper_zlen a : zlen (upper upcase upcase_len a) = zlen a.
Proof. unfold zlen, upper. by rewrite length_fmap. Qed.

(** The answer when the loop stops at two characters. *)
Definition answer (u1 u2 n1 n2 : Z) (c : comparison) : comparison := then_by (u1 ?= u2) (then_by (n1 ?= n2) c).

Lemma same_case_spec a b c : forall cnt i u1 u2,
  0 <= i -> cnt <> O -> i + Z.of_nat cnt = Z.min (zlen a) (zlen b) ->
  same_case cnt a b i upcase upcase_len = (u1, u2) ->
  then_by (lex_from (upper upcase upcase_len a) (upper upcase upcase_len b) i) c = answer u1 u2 (zlen a) (zlen b) c.
Proof.
  induction cnt as [|cnt IH]; intros i u1 u2 Hi Hn Hc; [done|]. cbn [same_case].
  rewrite lex_step by (rewrite !upper_zlen; lia). rewrite !up_getb by lia.
  set (x := up _ _ a.[i]). set (y := up _ _ b.[i]).
  destruct (Z.eqb_spec x y) as [E|N]; cbn [andb].
  - destruct cnt as [|cnt]; cbn [Nat.eqb negb].
    + intros [= <- <-]. unfold answer. rewrite E, Z.compare_refl. cbn [then_by].
      rewrite lex_from_end; rewrite !upper_zlen; [done|lia..].
    + rewrite E, Z.compare_refl. apply IH; lia.
  - intros [= <- <-]. unfold answer. by destruct (Z.compare_spec x y).
Qed.

Lemma up_refl a b i : a.[i] = b.[i] -> up upcase upcase_len a.[i] = up upcase upcase_len b.[i].
Proof. by intros ->. Qed.

(** The units before the place where the first loop stops are the same. *)
Lemma skip_same_spec a b : forall cnt i j m,
  0 <= i -> cnt <> O -> i + Z.of_nat cnt <= Z.min (zlen a) (zlen b) -> skip_same cnt a b i = (j, m) ->
  i <= j /\ j + 1 + Z.of_nat m = i + Z.of_nat cnt /\ (m <> O -> a.[j] <> b.[j]) /\
  lex_from a b i = lex_from a b j /\
  lex_from (upper upcase upcase_len a) (upper upcase upcase_len b) i
  = lex_from (upper upcase upcase_len a) (upper upcase upcase_len b) j.
Proof.
  induction cnt as [|cnt IH]; intros i j m Hi Hn Hc; [done|]. cbn [skip_same].
  destruct (Z.eqb_spec a.[i] b.[i]) as [E|N]; [rewrite andb_true_r|rewrite andb_false_r].
  - destruct cnt as [|cnt]; cbn [Nat.eqb negb].
    + intros [= <- <-]. split_and!; [lia..|done|done|done].
    + intros Hs. apply IH in Hs as (H1 & H2 & H3 & H4 & H5); [|lia..]. split_and!; [lia..|done| |].
      * rewrite lex_step by lia. rewrite E, Z.compare_refl. exact H4.
      * rewrite lex_step by (rewrite !upper_zlen; lia). rewrite !up_getb by lia.
        rewrite (up_refl a b i E), Z.compare_refl. exact H5.
  - intros [= <- <-]. split_and!; [lia..|done|done|done].
Qed.

Lemma sign_chain (u1 u2 n1 n2 r : Z) (c : comparison) :
  r = sign c ->
  (if u1 <? u2 then -1 else if u2 <? u1 then 1 else if n1 <? n2 then -1 else if n2 <? n1 then 1 else r)
  = sign (answer u1 u2 n1 n2 c).
Proof.
  intros ->. unfold answer.
  destruct (Z.compare_spec u1 u2) as [->|H|H]; cbn [then_by]; [rewrite Z.ltb_irrefl|by if_true|by if_false; if_true].
  destruct (Z.compare_spec n1 n2) as [->|H|H]; cbn [then_by]; [by rewrite Z.ltb_irrefl|by if_true|by if_false; if_true].
Qed.

Lemma full_collate_eq ic a b :
  ntfs_names_full_collate a (zlen a) b (zlen b) ic upcase upcase_len = sign (name_order ic upcase upcase_len a b).
Proof.
  unfold ntfs_names_full_collate, name_order. pose proof (zlen_nonneg a). pose proof (zlen_nonneg b).
  change (lex (upper upcase upcase_len a) (upper upcase upcase_len b)) with
    (lex_from (upper upcase upcase_len a) (upper upcase upcase_len b) 0).
  destruct (Z.ltb_spec 0 (Z.min (zlen a) (zlen b))) as [Hp|Hz].
  2:{ rewrite lex_from_end by (rewrite !upper_zlen; lia). rewrite !upper_zlen.
      destruct (Z.compare_spec (zlen a) (zlen b)) as [E|H1|H1]; cbn [then_by]; [|by if_true|by if_false; if_true].
      rewrite E, Z.ltb_irrefl. assert (a = [] /\ b = []) as [-> ->] by (split; apply length_zero_iff_nil; unfold zlen in *; lia).
      by destruct ic. }
  destruct ic.
  - destruct (skip_same _ _ _ _) as [j m] eqn:Es. apply skip_same_spec in Es as (H1 & H2 & H3 & H4 & H5); [|lia..].
    rewrite H5. change (lex a b) with (lex_from a b 0). rewrite H4, Z2Nat.id, Z.add_0_l in * by lia.
    assert (lex_from a b j = then_by (a.[j] ?= b.[j]) (lex_from a b (j + 1))) as Ej by (apply lex_step; lia).
    set (c1 := a.[j]) in *. set (c2 := b.[j]) in *.
    assert ((if c1 <? c2 then -1 else if c2 <? c1 then 1 else 0) = sign (c1 ?= c2)) as Er.
    { destruct (Z.compare_spec c1 c2) as [->|H6|H6]; [by rewrite Z.ltb_irrefl|by if_true|by if_false; if_true]. }
    rewrite lex_step by (rewrite !upper_zlen; lia). rewrite !up_getb by lia. fold c1 c2.
    set (u1 := up _ _ c1). set (u2 := up _ _ c2).
    destruct (Z.eqb_spec u1 u2) as [E|N]; cbn [andb].
    + rewrite E, Z.compare_refl. cbn [then_by]. destruct m as [|m]; cbn [Nat.eqb negb].
      * rewrite (sign_chain _ _ _ _ _ _ Er). f_equal. unfold answer. rewrite Z.compare_refl. cbn [then_by].
        rewrite lex_from_end; rewrite !upper_zlen; [|lia..]. rewrite Ej, lex_from_end by lia.
        destruct (zlen a ?= zlen b); cbn [then_by]; [|done..]. by destruct (c1 ?= c2).
      * destruct (same_case _ _ _ _ _ _) as [x y] eqn:Ec. rewrite (sign_chain _ _ _ _ _ _ Er). f_equal.
        apply (same_case_spec a b (lex_from a b j)) in Ec; [|lia..]. rewrite Ec, Ej.
        destruct (Z.compare_spec c1 c2) as [E'|H6|H6]; [by destruct (H3 ltac:(done))|done..].
    + rewrite (sign_chain _ _ _ _ _ _ Er). f_equal. unfold answer. by destruct (Z.compare_spec u1 u2).
  - destruct (same_case _ _ _ _ _ _) as [x y] eqn:Ec. rewrite (sign_chain _ _ _ _ _ Eq) by done. f_equal.
    apply (same_case_spec a b Eq) in Ec; [done|lia..].
Qed.
End collate.

(** ** A total order *)

Lemma then_by_opp c d : CompOpp (then_by c d) = then_by (CompOpp c) (CompOpp d).
Proof. by destruct c. Qed.

Lemma name_order_opp ic upcase upcase_len a b :
  name_order ic upcase upcase_len b a = CompOpp (name_order ic upcase upcase_len a b).
Proof.
  unfold name_order. rewrite then_by_opp, lex_opp. f_equal. destruct ic; [apply lex_opp|done].
Qed.

Lemma name_order_trans ic upcase upcase_len a b c :
  name_order ic upcase upcase_len a b = Lt -> name_order ic upcase upcase_len b c = Lt ->
  name_order ic upcase upcase_len a c = Lt.
Proof.
  unfold name_order. set (A := upper upcase upcase_len a). set (B := upper upcase upcase_len b).
  set (C := upper upcase upcase_len c). destruct (lex A B) eqn:E1; cbn [then_by]; [|intros _|done].
  - apply lex_eq in E1 as ->. destruct (lex B C); cbn [then_by]; [|done..]. destruct ic; [apply lex_trans|done].
  - destruct (lex B C) eqn:E2; cbn [then_by]; [intros _|intros _|done].
    + apply lex_eq in E2 as <-. by rewrite E1.
    + by rewrite (lex_trans A B C).
Qed.

Lemma name_order_eq ic upcase upcase_len a b :
  name_order ic upcase upcase_len a b = Eq <->
  match ic with CASE_SENSITIVE => a = b | IGNORE_CASE => upper upcase upcase_len a = upper upcase upcase_len b end.
Proof.
  unfold name_order. destruct ic.
  - rewrite <- lex_eq. split; [by destruct (lex (upper _ _ a) _)|]. intros E. apply lex_eq in E as ->. by rewrite lex_refl, lex_refl.
  - rewrite <- lex_eq. by destruct (lex _ _).
Qed.

(** C22: for every table of case conversion [ntfs_names_full_collate] compares two
    names by their upper-case forms, unit by unit, a prefix before the longer name, and,
    when case matters, names with the same upper-case form by their units.  It is a total
    order: antisymmetric, transitive, and 0 exactly for the same name, or for names that
    are equal up to case when case is ignored. *)
Theorem full_collate_order ic upcase upcase_len a b c :
  let cmp x y := ntfs_names_full_collate x (zlen x) y (zlen y) ic upcase upcase_len in
  cmp a b = sign (name_order ic upcase upcase_len a b) /\
  cmp b a = - cmp a b /\
  (cmp a b = -1 -> cmp b c = -1 -> cmp a c = -1) /\
  (cmp a b = 0 <->
   match ic with CASE_SENSITIVE => a = b | IGNORE_CASE => upper upcase upcase_len a = upper upcase upcase_len b end).
Proof.
  intros cmp. unfold cmp. rewrite !full_collate_eq. split_and!.
  - done.
  - rewrite name_order_opp. by destruct (name_order _ _ _ a b).
  - intros H1 H2. rewrite (name_order_trans ic upcase upcase_len a b c); [done|by destruct (name_order _ _ _ a b)|by destruct (name_order _ _ _ b c)].
  - rewrite <- name_order_eq. by destruct (name_order _ _ _ a b).
Qed.
