(* ===== verification/Upcase.v ===== *)
(** * The tables of case conversion and the reserved names

    The default up-case table is the identity but for the characters it lists; it is
    idempotent, keeps surrogates apart, and the low-case table made of it is its inverse.
    The check for reserved names misses none of them. *)

From stdpp Require Import prelude list.
From Stdlib Require Import ZArith Lia.
From S2P Require Import Prelude Bytes Buffers NtfsTypes UniNames UniOrder.

Local Open Scope Z_scope.

(** ** A table as a list of updates *)

Definition puts (l : list Z) (us : list (Z * Z)) : list Z := foldl (fun l '(i, v) => setb l i v) l us.
Definition last_update (us : list (Z * Z)) (j : Z) : option Z :=
  foldl (fun o '(i, v) => if i =? j then Some v else o) None us.

Lemma puts_app l us us' : puts l (us ++ us') = puts (puts l us) us'.
Proof. apply foldl_app. Qed.

Lemma puts_zlen us l : zlen (puts l us) = zlen l.
Proof. revert l. induction us as [|[i v] us IH]; intros l; [done|]. cbn. by rewrite IH, zlen_setb. Qed.

Lemma puts_getb us l j :
  Forall (fun '(i, _) => 0 <= i < zlen l) us -> 0 <= j < zlen l ->
  (puts l us).[j] = default l.[j] (last_update us j).
Proof.
  induction us as [|[i v] us IH] using rev_ind; intros Hu Hj; [done|]. apply Forall_app in Hu as [Hu Hi].
  inversion_clear Hi as [|?? Hi' _]. rewrite puts_app. unfold last_update. rewrite foldl_app.
  change (puts (puts l us) [(i, v)]) with (setb (puts l us) i v). cbn [foldl].
  destruct (Z.eqb_spec i j) as [->|N].
  - apply getb_setb_eq. by rewrite puts_zlen.
  - rewrite getb_setb_ne by lia. by apply IH.
Qed.

Lemma foldl_puts {A} (g : A -> list (Z * Z)) (xs : list A) l :
  foldl (fun l x => puts l (g x)) l xs = puts l (xs ≫= g).
Proof.
  revert l. induction xs as [|x xs IH]; intros l; [done|]. cbn [foldl]. rewrite IH, bind_cons. by rewrite puts_app.
Qed.

Lemma last_update_cases us j :
  last_update us j = None /\ (forall v, (j, v) ∉ us) \/ exists v, (j, v) ∈ us /\ last_update us j = Some v.
Proof.
  unfold last_update. induction us as [|[i v] us IH] using rev_ind; [left; split; [done|by intros v ?%elem_of_nil]|].
  rewrite foldl_app. cbn [foldl]. destruct (Z.eqb_spec i j) as [->|N].
  - right. exists v. split; [|done]. apply elem_of_app. right. by apply list_elem_of_singleton.
  - destruct IH as [[E Hn]|(w & Hw & E)]; [left|right].
    + split; [done|]. intros w [Hw|[= -> ->]%list_elem_of_singleton]%elem_of_app; [by eapply Hn|done].
    + exists w. split; [|done]. apply elem_of_app. by left.
Qed.

Definition shifts (idx : list Z) (off : Z) : list (Z * Z) := (fun i => (i, u16 (i + off))) <$> idx.

Lemma shift_run_puts uc idx off : shift_run uc idx off = puts uc (shifts idx off).
Proof. revert uc. induction idx as [|i idx IH]; intros uc; [done|]. cbn. apply IH. Qed.

(** What the loops store, in order. *)
Definition updates : list (Z * Z) :=
  (uc_run_table ≫= fun '(a, b, off) => shifts (range a b 1) off) ++
  (uc_dup_table ≫= fun '(a, b) => (fun i => (i + 1, u16 i)) <$> range a b 2) ++
  ((fun '(a, k) => (a, u16 k)) <$> uc_byte_table) ++
  (newuppercase ≫= fun p =>
    if (osmajor p <? UPCASE_MAJOR) || (osmajor p =? UPCASE_MAJOR) && (osminor p <=? UPCASE_MINOR)
    then shifts (range (first p) (last p + 1) (step p)) (diff p) else []).

Lemma apply_updates uc : apply_new (apply_bytes (apply_dups (apply_runs uc))) = puts uc updates.
Proof.
  unfold updates. rewrite !puts_app.
  assert (forall uc, apply_runs uc = puts uc (uc_run_table ≫= fun '(a, b, off) => shifts (range a b 1) off)) as ->.
  { intros l. rewrite <- foldl_puts. unfold apply_runs. revert l. induction uc_run_table as [|[[a b] off] t IH]; intros l; [done|].
    cbn [foldl]. by rewrite shift_run_puts. }
  assert (forall uc, apply_dups uc = puts uc (uc_dup_table ≫= fun '(a, b) => (fun i => (i + 1, u16 i)) <$> range a b 2)) as ->.
  { intros l. rewrite <- foldl_puts. unfold apply_dups. revert l. induction uc_dup_table as [|[a b] t IH]; intros l; [done|].
    cbn [foldl]. rewrite <- IH. f_equal. generalize (range a b 2). intros r. revert l. clear. induction r as [|i r IH]; intros l; [done|]. cbn. apply IH. }
  assert (forall uc, apply_bytes uc = puts uc ((fun '(a, k) => (a, u16 k)) <$> uc_byte_table)) as ->.
  { intros l. unfold apply_bytes. revert l. induction uc_byte_table as [|[a k] t IH]; intros l; [done|]. cbn. apply IH. }
  unfold apply_new. match goal with |- foldl _ ?l _ = _ => generalize l end.
  induction newuppercase as [|p t IH]; intros l; [done|]. rewrite bind_cons, puts_app. cbn [foldl]. rewrite IH. f_equal.
  destruct (_ || _); [apply shift_run_puts|done].
Qed.

(** The upper case of a 16-bit character in the default table. *)
Definition upper_of (c : Z) : Z := default c (last_update updates c).

Lemma updates_ok : Forall (fun '(i, v) => 0 <= i < 65536 /\ is_u16 v) updates.
Proof.
  apply Forall_forall. intros [i v] Hin.
  assert (forallb (fun '(i, v) => (0 <=? i) && (i <? 65536) && (0 <=? v) && (v <? 65536)) updates = true) as Hc by (vm_compute; reflexivity).
  rewrite forallb_forall in Hc. apply list_elem_of_In in Hin. specialize (Hc _ Hin). cbn in Hc. unfold is_u16. bprop. lia.
Qed.

Lemma upper_of_cases c : upper_of c = c \/ exists v, (c, v) ∈ updates /\ upper_of c = v.
Proof. unfold upper_of. destruct (last_update_cases updates c) as [[-> _]|(v & Hv & ->)]; [by left|right; by exists v]. Qed.

Lemma table_build_puts n junk : n <= 65536 -> zlen junk = n -> ntfs_upcase_table_build junk (n * 2) = puts (seqZ 0 n) updates.
Proof.
  intros Hn Hj. unfold ntfs_upcase_table_build. rewrite Z.shiftr_div_pow2, Z.div_mul, Z.min_l by lia.
  rewrite apply_updates. f_equal. rewrite (drop_app_length' _ (drop _ _)) by (by rewrite length_replicate).
  rewrite drop_ge by (unfold zlen in Hj; lia). by rewrite app_nil_r.
Qed.

Lemma getb_seqZ n j : 0 <= j < n -> (seqZ 0 n).[j] = j.
Proof. intros Hj. unfold getb. rewrite nth_lookup, (proj2 (lookup_seqZ 0 n (Z.to_nat j) j)); [done|lia]. Qed.

Lemma zlen_seqZ n : 0 <= n -> zlen (seqZ 0 n) = n.
Proof. intros Hn. unfold zlen. rewrite length_seqZ. lia. Qed.

Lemma table_getb junk c :
  zlen junk = 65536 -> 0 <= c < 65536 -> (ntfs_upcase_table_build junk (UPCASE_LEN * 2)).[c] = upper_of c.
Proof.
  intros Hj. unfold UPCASE_LEN. pose proof updates_ok as Ho. assert (exists n, n = 65536) as [n En] by eauto.
  rewrite <- En in *. intros Hc. rewrite table_build_puts by (assumption || lia).
  rewrite puts_getb; rewrite ?zlen_seqZ by lia; [by rewrite getb_seqZ| |assumption].
  eapply Forall_impl; [apply Ho|]. intros [i v] [Hi _]. exact Hi.
Qed.

Lemma upper_of_u16 c : is_u16 c -> is_u16 (upper_of c).
Proof.
  intros Hc. destruct (upper_of_cases c) as [->|(v & Hin & ->)]; [done|].
  pose proof (proj1 (Forall_forall _ _) updates_ok _ Hin) as Hv. apply Hv.
Qed.

Lemma upper_of_idem c : upper_of (upper_of c) = upper_of c.
Proof.
  apply Z.eqb_eq. destruct (upper_of_cases c) as [E|(v & Hin & _)]; [rewrite !E; apply Z.eqb_refl|].
  assert (forallb (fun '(i, _) => upper_of (upper_of i) =? upper_of i) updates = true) as Hc by (vm_compute; reflexivity).
  rewrite forallb_forall in Hc. exact (Hc (c, v) ltac:(by apply list_elem_of_In)).
Qed.

(** The changed characters with their upper case. *)
Definition uppers : list (Z * Z) := map (fun '(i, _) => (i, upper_of i)) updates.

(** Characters of the same upper case are that character and one other at most. *)
Lemma upper_of_inj c d : upper_of c = upper_of d -> upper_of c <> c -> upper_of d <> d -> c = d.
Proof.
  intros E Hc Hd. destruct (upper_of_cases c) as [?|(v & Hv & _)]; [done|]. destruct (upper_of_cases d) as [?|(w & Hw & _)]; [done|].
  assert (forallb (fun '(i, ui) => forallb (fun '(j, uj) => negb (ui =? uj) || (ui =? i) || (uj =? j) || (i =? j)) uppers) uppers = true) as Hall
    by (vm_compute; reflexivity).
  assert (forall i v, (i, v) ∈ updates -> In (i, upper_of i) uppers) as Hin.
  { intros i x Hi. unfold uppers. apply in_map_iff. exists (i, x). split; [done|by apply list_elem_of_In]. }
  rewrite forallb_forall in Hall. specialize (Hall _ (Hin _ _ Hv)). cbn beta in Hall.
  rewrite forallb_forall in Hall. specialize (Hall _ (Hin _ _ Hw)). cbn beta in Hall.
  rewrite (proj2 (Z.eqb_neq _ _) Hc), (proj2 (Z.eqb_neq _ _) Hd), (proj2 (Z.eqb_eq _ _) E) in Hall. by apply Z.eqb_eq.
Qed.

(** ** The low-case table *)

Definition lowers (uc : list Z) (n : Z) : list (Z * Z) :=
  zip (seqZ 0 n) uc ≫= fun '(i, upp) => if negb (upp =? i) && (upp <? n) then [(upp, u16 i)] else [].

Lemma locase_fill_puts uc n : locase_fill uc n = puts (u16 <$> seqZ 0 n) (lowers uc n).
Proof.
  unfold locase_fill, lowers. rewrite <- foldl_puts. generalize (u16 <$> seqZ 0 n). generalize (zip (seqZ 0 n) uc).
  intros ps. induction ps as [|[i upp] ps IH]; intros l; [done|]. cbn [foldl]. rewrite IH. by destruct (negb _ && _).
Qed.

Lemma zip_seqZ uc i upp : (i, upp) ∈ zip (seqZ 0 (zlen uc)) uc <-> 0 <= i < zlen uc /\ uc.[i] = upp.
Proof.
  rewrite list_elem_of_lookup. unfold getb, zlen. split.
  - intros (k & Hk). apply lookup_zip_Some in Hk as [H1 H2]. apply lookup_seqZ in H1 as [-> H1]. rewrite nth_lookup.
    replace (Z.to_nat (0 + Z.of_nat k)) with k by lia. rewrite H2. split; [lia|done].
  - intros [Hi <-]. exists (Z.to_nat i). apply lookup_zip_Some. split; [apply lookup_seqZ; lia|].
    rewrite nth_lookup. destruct (lookup_lt_is_Some_2 uc (Z.to_nat i)) as [x ->]; [lia|done].
Qed.

Lemma lowers_in uc j v :
  zlen uc <= 65536 ->
  (j, v) ∈ lowers uc (zlen uc) <-> 0 <= v < zlen uc /\ uc.[v] = j /\ j <> v /\ j < zlen uc.
Proof.
  intros Hn. unfold lowers. rewrite list_elem_of_bind. split.
  - intros ([i upp] & Hp & Hi%zip_seqZ). destruct Hi as [Hi <-]. destruct (Z.eqb_spec uc.[i] i), (Z.ltb_spec uc.[i] (zlen uc));
      cbn in Hp; try by apply elem_of_nil in Hp. apply list_elem_of_singleton in Hp as [= -> ->].
    rewrite u16_small by (unfold is_u16; lia). done.
  - intros (Hv & Ej & Hne & Hlt). exists (v, j). split; [|by apply zip_seqZ].
    rewrite (proj2 (Z.eqb_neq _ _) Hne), (proj2 (Z.ltb_lt _ _) Hlt). cbn. apply list_elem_of_singleton.
    by rewrite u16_small by (unfold is_u16; lia).
Qed.

Lemma locase_spec uc j :
  zlen uc <= 65536 -> Forall (fun c => 0 <= c) uc -> 0 <= j < zlen uc ->
  (locase_fill uc (zlen uc)).[j] = j /\ (forall i, 0 <= i < zlen uc -> uc.[i] = j -> i = j) \/
  exists i, 0 <= i < zlen uc /\ i <> j /\ uc.[i] = j /\ (locase_fill uc (zlen uc)).[j] = i.
Proof.
  intros Hn Hp Hj. rewrite locase_fill_puts.
  assert (zlen (u16 <$> seqZ 0 (zlen uc)) = zlen uc) as Hl by (unfold zlen; rewrite length_fmap, length_seqZ; lia).
  rewrite puts_getb; rewrite ?Hl; [|apply Forall_forall; intros [x v] Hx%lowers_in; [|done]|done].
  2:{ destruct Hx as (Hv & <- & _ & Hlt). split; [|done]. unfold getb. rewrite nth_lookup.
      destruct (uc !! Z.to_nat v) eqn:E; [by eapply Forall_lookup_1 in Hp|done]. }
  destruct (last_update_cases (lowers uc (zlen uc)) j) as [[-> Hno]|(v & Hv%lowers_in & ->)]; [left| |done].
  - split.
    + cbn [default]. unfold getb. rewrite nth_lookup, list_lookup_fmap, (proj2 (lookup_seqZ 0 (zlen uc) (Z.to_nat j) j)) by lia.
      cbn. apply u16_small. unfold is_u16. lia.
    + intros i Hi Ei. destruct (Z.eq_dec i j) as [|N]; [done|]. destruct (Hno i). apply lowers_in; [done|]. split_and!; try done; lia.
  - right. exists v. cbn [default]. destruct Hv as (? & ? & ? & ?). split_and!; done || lia.
Qed.

(** ** The default tables *)

Definition surrogate (c : Z) : bool := (0xD800 <=? c) && (c <? 0xE000).

Lemma updates_shape i v : (i, v) ∈ updates -> v <> 0 /\ surrogate i = false /\ surrogate v = false.
Proof.
  intros Hin. assert (forallb (fun '(i, v) => negb (v =? 0) && negb (surrogate i) && negb (surrogate v)) updates = true) as Hc
    by (vm_compute; reflexivity).
  rewrite forallb_forall in Hc. specialize (Hc (i, v) ltac:(by apply list_elem_of_In)). cbn beta iota in Hc.
  apply andb_prop in Hc as [[Hv Hi]%andb_prop Hs]. apply negb_true_iff in Hv, Hi, Hs. by apply Z.eqb_neq in Hv.
Qed.

Lemma upper_of_surrogate c : surrogate (upper_of c) = surrogate c /\ (surrogate c = true -> upper_of c = c) /\
  (c <> 0 -> upper_of c <> 0).
Proof.
  destruct (upper_of_cases c) as [->|(v & Hin & ->)]; [done|]. destruct (updates_shape _ _ Hin) as (Hv & -> & ->). done.
Qed.

Lemma upper_of_ascii c : 0 <= c < 128 -> upper_of c = if (97 <=? c) && (c <=? 122) then c - 32 else c.
Proof.
  intros Hc. apply Z.eqb_eq. assert (forallb (fun c => upper_of c =? if (97 <=? c) && (c <=? 122) then c - 32 else c) (seqZ 0 128) = true) as Hall
    by (vm_compute; reflexivity).
  rewrite forallb_forall in Hall. apply Hall. apply list_elem_of_In, elem_of_seqZ. lia.
Qed.

(** The table as a list: its length and its entries. *)
Lemma table_zlen n junk : 0 <= n <= 65536 -> zlen junk = n -> zlen (ntfs_upcase_table_build junk (n * 2)) = n.
Proof. intros Hn Hj. rewrite table_build_puts, puts_zlen, zlen_seqZ by lia. reflexivity. Qed.

Lemma entries_nonneg t : zlen t = 65536 -> (forall c, 0 <= c < 65536 -> t.[c] = upper_of c) -> Forall (fun c => 0 <= c) t.
Proof.
  intros Hl Hg. apply Forall_lookup. intros i x Hx.
  assert (0 <= Z.of_nat i < 65536) as Hi by (apply lookup_lt_Some in Hx; unfold zlen in Hl; lia).
  specialize (Hg (Z.of_nat i) Hi). unfold getb in Hg. rewrite Nat2Z.id, nth_lookup, Hx in Hg. cbn in Hg. subst x.
  apply upper_of_u16. exact Hi.
Qed.

Lemma table_shape junk :
  zlen junk = 65536 -> let t := ntfs_upcase_table_build junk (UPCASE_LEN * 2) in
  zlen t = 65536 /\ (forall c, 0 <= c < 65536 -> t.[c] = upper_of c) /\ Forall (fun c => 0 <= c) t.
Proof.
  intros Hj. pose proof (table_zlen UPCASE_LEN junk ltac:(unfold UPCASE_LEN; lia) Hj) as Hl.
  pose proof (fun c => table_getb junk c Hj) as Hg. revert Hl Hg. cbn zeta. generalize (ntfs_upcase_table_build junk (UPCASE_LEN * 2)).
  intros t Hl Hg. split; [exact Hl|]. split; [exact Hg|]. by apply entries_nonneg.
Qed.

(** The letter sigma, in upper case and in its two lower case forms. *)
Definition sigma (c : Z) : bool := (c =? 0x3A3) || (c =? 0x3C2) || (c =? 0x3C3).

(** C24: the table that [ntfs_upcase_table_build] makes has 65536 entries of 16 bits and is
    idempotent; the ASCII letters are converted as expected, 0 and the surrogates are kept
    and nothing else is converted to them, so that a name stays well formed; the table that
    [ntfs_locase_table_build] makes of it is its inverse, sigma aside: a character and its
    lower case have the same upper case, and a character and its upper case the same lower
    case; the lower case of the upper case sigma is U+03C3. *)
Theorem upcase_default junk c :
  zlen junk = UPCASE_LEN -> is_u16 c ->
  let t := ntfs_upcase_table_build junk (UPCASE_LEN * 2) in
  let l := locase_fill t UPCASE_LEN in
  zlen t = UPCASE_LEN /\ is_u16 t.[c] /\ t.[t.[c]] = t.[c] /\
  (c < 128 -> t.[c] = if (97 <=? c) && (c <=? 122) then c - 32 else c) /\
  surrogate t.[c] = surrogate c /\ (surrogate c = true -> t.[c] = c) /\ (c <> 0 -> t.[c] <> 0) /\
  (sigma c = false -> t.[l.[c]] = t.[c] /\ l.[t.[c]] = l.[c]) /\ l.[0x3A3] = 0x3C3.
Proof.
  intros Hj Hc t l. destruct (table_shape junk Hj) as (Hl & Hg & Hp). fold t in Hl, Hg, Hp. clearbody t.
  unfold UPCASE_LEN in *. assert (0 <= c < 65536) as Hc' by exact Hc.
  pose proof (upper_of_u16 c Hc) as Hu. assert (0 <= upper_of c < 65536) as Hu' by exact Hu.
  destruct (upper_of_surrogate c) as (Hs1 & Hs2 & Hs3).
  assert (forall j, 0 <= j < 65536 -> l.[j] = j /\ (forall i, 0 <= i < 65536 -> upper_of i = j -> i = j) \/
    exists i, 0 <= i < 65536 /\ i <> j /\ upper_of i = j /\ l.[j] = i) as Hlow.
  { intros j Hr. unfold l. pose proof (locase_spec t j) as Hs. rewrite Hl in Hs.
    destruct (Hs ltac:(lia) Hp Hr) as [[E Hno]|(i & Hi & Hne & Ei & E)]; [left|right].
    - split; [exact E|]. intros i Hi Eu. apply Hno; [exact Hi|]. by rewrite Hg.
    - exists i. rewrite Hg in Ei by exact Hi. split_and!; try assumption; apply Hi. }
  clearbody l. rewrite (Hg c Hc'), (Hg (upper_of c) Hu'), upper_of_idem.
  split; [exact Hl|]. split; [exact Hu|]. split; [reflexivity|]. split; [intros; apply upper_of_ascii; lia|].
  split; [exact Hs1|]. split; [exact Hs2|]. split; [exact Hs3|]. split; [intros _; split|].
  - destruct (Hlow c Hc') as [[-> _]|(i & Hi & _ & Ei & ->)]; [by apply Hg|]. rewrite (Hg i Hi).
    by rewrite <- Ei, upper_of_idem.
  - destruct (Z.eq_dec (upper_of c) c) as [->|Hne]; [done|].
    destruct (Hlow (upper_of c) Hu') as [[_ Hno]|(i & Hi & Hni & Ei & ->)].
    { exfalso. apply Hne. symmetry. by apply Hno. }
    assert (i = c) as -> by (apply upper_of_inj; congruence).
    destruct (Hlow c Hc') as [[-> _]|(k & Hk & Hnk & Ek & _)]; [done|]. exfalso. apply Hne. rewrite <- Ek at 1.
    rewrite upper_of_idem. exact Ek.
  - assert (upper_of 0x3C3 = 0x3A3) as E by (vm_compute; reflexivity).
    destruct (Hlow 0x3A3 ltac:(lia)) as [[_ Hno]|(i & Hi & Hni & Ei & ->)]; [by specialize (Hno 0x3C3 ltac:(lia) E)|].
    apply upper_of_inj; congruence.
Qed.

(** ** Reserved names *)

(** The first three characters, in either case. *)
Definition begins (s name : list Z) : bool :=
  ((name.[0] =? s.[0]) || (name.[0] =? s.[0] - 32)) && ((name.[1] =? s.[1]) || (name.[1] =? s.[1] - 32)) &&
  ((name.[2] =? s.[2]) || (name.[2] =? s.[2] - 32)).

(** CON, PRN, AUX and NUL, alone or before a dot; COM and LPT with a digit from 1 to 9. *)
Definition is_reserved (name : list Z) (len : Z) : bool :=
  ((len =? 3) || (name.[3] =? 0x2E)) && (begins con name || begins prn name || begins aux name || begins nul name) ||
  (3 <? len) && (0x31 <=? name.[3]) && (name.[3] <=? 0x39) && ((len =? 4) || (name.[4] =? 0x2E)) &&
  (begins com name || begins lpt name).

(** The letters of these names. *)
Definition letters : list Z := [0x61; 0x63; 0x6C; 0x6D; 0x6E; 0x6F; 0x70; 0x72; 0x74; 0x75; 0x78].

Lemma letter_range l : l ∈ letters -> 0x61 <= l <= 0x78.
Proof. intros Hl. unfold letters in Hl. rewrite !elem_of_cons, elem_of_nil in Hl. lia. Qed.

(** The table converts the letters of the reserved names, and nothing else to them. *)
Definition ascii_table (upcase : list Z) (n : Z) : Prop :=
  forall l c, l ∈ letters -> is_u16 c ->
    up upcase n c = l - 32 <-> c = l \/ c = l - 32.

Lemma ascii_letter upcase n l c :
  ascii_table upcase n -> l ∈ letters -> is_u16 c ->
  up upcase n l = l - 32 /\ (up upcase n c =? l - 32) = (c =? l) || (c =? l - 32).
Proof.
  intros Ht Hl Hc. split.
  - apply (Ht l l Hl); [|by left]. apply letter_range in Hl. unfold is_u16. lia.
  - apply eq_true_iff_eq. rewrite orb_true_iff, !Z.eqb_eq. by apply Ht.
Qed.

Lemma casecmp3 upcase n name x y z :
  ascii_table upcase n -> Forall is_u16 name ->
  x ∈ letters ->
  y ∈ letters ->
  z ∈ letters ->
  (ntfs_ucsncasecmp name [x; y; z] 3 upcase n =? 0) = begins [x; y; z] name.
Proof.
  intros Ht Hn Hx Hy Hz.
  assert (forall i, is_u16 name.[i]) as Hu.
  { intros i. unfold getb. rewrite nth_lookup. destruct (name !! Z.to_nat i) eqn:E; [by eapply Forall_lookup_1 in Hn|done]. }
  destruct (ascii_letter _ _ x name.[0] Ht Hx (Hu 0)) as [Ex Bx]. destruct (ascii_letter _ _ y name.[1] Ht Hy (Hu 1)) as [Ey By].
  destruct (ascii_letter _ _ z name.[2] Ht Hz (Hu 2)) as [Ez Bz].
  assert (0 < x - 32 /\ 0 < y - 32) as [Px Py] by (apply letter_range in Hx, Hy; lia). clear Hx Hy Hz.
  unfold begins. change ([x; y; z].[0]) with x. change ([x; y; z].[1]) with y. change ([x; y; z].[2]) with z.
  rewrite <- Bx, <- By, <- Bz. unfold ntfs_ucsncasecmp. change (Z.to_nat 3) with 3%nat. cbn [ucsncasecmp].
  change (0 + 1) with 1. change (1 + 1) with 2.
  change ([x; y; z].[0]) with x. change ([x; y; z].[1]) with y. change ([x; y; z].[2]) with z. rewrite Ex, Ey, Ez.
  set (a := up _ _ name.[0]). set (b := up _ _ name.[1]). set (c := up _ _ name.[2]).
  clearbody a b c. clear -Px Py. repeat (bdestr; cbn [andb orb]; try done; try lia).
Qed.

(** The two checks as functions of the characters; [p] and [q] are the conditions on what
    follows the first three. *)
Definition begins3 (s : list Z) (a b c : Z) : bool :=
  ((a =? s.[0]) || (a =? s.[0] - 32)) && ((b =? s.[1]) || (b =? s.[1] - 32)) && ((c =? s.[2]) || (c =? s.[2] - 32)).

Definition hashed (a b c : Z) (p q : bool) : bool :=
  if Z.lxor (Z.land a 31 * 48) (Z.land b 31 * 165) mod 23 =? 17 then
    let k := Z.land c (Z.lnot 0x20) in
    if k =? 0x4E then p && (begins3 con a b c || begins3 prn a b c)
    else if k =? 0x58 then p && begins3 aux a b c
    else if k =? 0x4C then p && begins3 nul a b c
    else if k =? 0x4D then q && begins3 com a b c
    else if k =? 0x54 then q && begins3 lpt a b c
    else false
  else false.

Lemma begins3_cases s a b c :
  begins3 s a b c = true ->
  a ∈ [s.[0]; s.[0] - 32] /\ b ∈ [s.[1]; s.[1] - 32] /\ c ∈ [s.[2]; s.[2] - 32].
Proof. unfold begins3. intros Hb. rewrite !elem_of_cons, elem_of_nil. bprop. lia. Qed.

Lemma hashed_spec a b c p q :
  hashed a b c p q =
  p && (begins3 con a b c || begins3 prn a b c || begins3 aux a b c || begins3 nul a b c) ||
  q && (begins3 com a b c || begins3 lpt a b c).
Proof.
  assert (forall s, s ∈ [con; prn; aux; nul; com; lpt] -> begins3 s a b c = true ->
    forall p q, hashed a b c p q =
      p && (begins3 con a b c || begins3 prn a b c || begins3 aux a b c || begins3 nul a b c) ||
      q && (begins3 com a b c || begins3 lpt a b c)) as Hall.
  { intros s Hs Hb. apply begins3_cases in Hb as (Ha & Hb & Hc). clear p q. intros p q.
    repeat (apply elem_of_cons in Hs as [->|Hs]); try by apply elem_of_nil in Hs.
    all: repeat (apply elem_of_cons in Ha as [->|Ha]); try by apply elem_of_nil in Ha.
    all: repeat (apply elem_of_cons in Hb as [->|Hb]); try by apply elem_of_nil in Hb.
    all: repeat (apply elem_of_cons in Hc as [->|Hc]); try by apply elem_of_nil in Hc.
    all: destruct p, q; vm_compute; reflexivity. }
  destruct (existsb (fun s => begins3 s a b c) [con; prn; aux; nul; com; lpt]) eqn:E.
  - apply existsb_exists in E as (s & Hs%list_elem_of_In & Hb). by apply (Hall s).
  - cbn in E. repeat apply orb_false_iff in E as [? E]. unfold hashed.
    repeat match goal with Hb : begins3 _ a b c = false |- _ => rewrite Hb; clear Hb end.
    rewrite !andb_false_r. by repeat case_match.
Qed.

(** C23: with a table that converts the ASCII letters as usual, the check of
    [ntfs_forbidden_names], which looks for reserved names only where a hash of the first two
    characters says so and by a switch on the third one, refuses exactly the names that
    have a forbidden character and the reserved ones, in any combination of small and
    capital letters and with any suffix: the hash hides none of them. *)
Theorem forbidden_names_spec name strict upcase n :
  Forall is_u16 name -> ascii_table upcase n ->
  ntfs_forbidden_names name (zlen name) strict upcase n =
  ntfs_forbidden_chars name (zlen name) strict || (3 <=? zlen name) && is_reserved name (zlen name).
Proof.
  intros Hn Ht. unfold ntfs_forbidden_names. destruct (ntfs_forbidden_chars _ _ _); cbn [negb andb orb]; [done|].
  destruct (3 <=? zlen name); cbn [andb]; [|done]. set (len := zlen name).
  transitivity (hashed name.[0] name.[1] name.[2] ((len =? 3) || (name.[3] =? 0x2E))
    ((3 <? len) && (0x31 <=? name.[3]) && (name.[3] <=? 0x39) && ((len =? 4) || (name.[4] =? 0x2E)))).
  - unfold hashed, reserved_name, con, prn, aux, nul, com, lpt.
    rewrite !casecmp3 by (assumption || (apply (bool_decide_unpack _); vm_compute; exact I)). reflexivity.
  - apply hashed_spec.
Qed.

Lemma default_ascii_table junk :
  zlen junk = UPCASE_LEN -> ascii_table (ntfs_upcase_table_build junk (UPCASE_LEN * 2)) UPCASE_LEN.
Proof.
  intros Hj l c Hl Hc. destruct (table_shape junk Hj) as (_ & Hg & _). revert Hg. generalize (ntfs_upcase_table_build junk (UPCASE_LEN * 2)).
  intros t Hg. unfold up, UPCASE_LEN. assert (0 <= c < 65536) as Hc' by exact Hc. rewrite (proj2 (Z.ltb_lt c 65536)), Hg by lia. clear Hg t.
  assert (upper_of l = l - 32 /\ l - 32 <> l /\ upper_of (l - 32) = l - 32) as (E1 & E2 & E3).
  { apply letter_range in Hl. rewrite !upper_of_ascii by lia. split_and!; [by if_true|lia|by if_false]. }
  split.
  - intros E. destruct (Z.eq_dec (upper_of c) c) as [E'|N]; [right; congruence|left]. apply upper_of_inj; congruence.
  - intros [-> | ->]; done.
Qed.
