(* ===== verification/Utf8.v ===== *)
(** * Conversions between UTF-16 and UTF-8

    [src/ntfs3g/src/ntfs-3g/unistr.c], the part on character encodings: [ntfs_ucstombs] and
    [ntfs_mbstoucs], which convert the names of NTFS to and from the ones of the caller, and
    [ntfs_uppercase_mbs].  Nothing in the repository calls [ntfs_set_char_encoding], so that
    the encoding is always UTF-8; the branches for other locales are not modelled.

    A string is the list of its bytes or units, without the terminator: reading at its end
    gives 0.  Stores are checked ([store]); [None] is an access outside of a buffer.  A
    function that sets [errno] returns the value next to its result.  The memory that
    [malloc] returns for [n] units is [fresh n]. *)

From stdpp Require Import prelude list.
From Stdlib Require Import ZArith Lia.
From S2P Require Import Prelude Bytes Buffers NtfsTypes UniNames.

Local Open Scope Z_scope.

Definition PATH_MAX := 4096.
Definition NTFS_MAX_NAME_LEN := 255.

(** ** UTF-16 to UTF-8 *)

(** The loop of [utf16_to_utf8_size]: [count] and [surrog]. *)
Fixpoint size_loop (fuel : nat) (ins : list Z) (ins_len outs_len i count : Z) (surrog : bool) : option (Z * bool) :=
  match fuel with
  | O => None
  | S fuel =>
      if (i <? ins_len) && negb (ins.[i] =? 0) && (count <=? outs_len) then
        let c := ins.[i] in
        if surrog then
          if (0xDC00 <=? c) && (c <? 0xE000) then size_loop fuel ins ins_len outs_len (i + 1) (count + 4) false
          else size_loop fuel ins ins_len outs_len i (count + 3) false
        else if c <? 0x80 then size_loop fuel ins ins_len outs_len (i + 1) (count + 1) false
        else if c <? 0x800 then size_loop fuel ins ins_len outs_len (i + 1) (count + 2) false
        else if c <? 0xD800 then size_loop fuel ins ins_len outs_len (i + 1) (count + 3) false
        else if c <? 0xDC00 then size_loop fuel ins ins_len outs_len (i + 1) count true
        else if c <? 0xE000 then size_loop fuel ins ins_len outs_len (i + 1) (count + 3) false
        else size_loop fuel ins ins_len outs_len (i + 1) (count + 3) false
      else Some (count, surrog)
  end.

Definition utf16_to_utf8_size (ins : list Z) (ins_len outs_len : Z) : option (Z + errno) :=
  '(count, surrog) ← size_loop (Z.to_nat (2 * ins_len + 1)) ins ins_len outs_len 0 0 false;
  let count := if surrog && (count <=? outs_len) then count + 3 else count in
  Some (if outs_len <? count then inr ENAMETOOLONG else inl count).

(** A unit as a sequence of three bytes. *)
Definition three (c : Z) : list Z :=
  [u8 (Z.lor 0xE0 (Z.shiftr c 12)); u8 (Z.lor 0x80 (Z.land (Z.shiftr c 6) 0x3F)); u8 (Z.lor 0x80 (Z.land c 0x3F))].
(** A surrogate pair as a sequence of four. *)
Definition four (halfpair c : Z) : list Z :=
  [u8 (0xF0 + Z.land (Z.shiftr (halfpair + 64) 8) 7); u8 (0x80 + Z.land (Z.shiftr (halfpair + 64) 2) 63);
   u8 (0x80 + Z.land (Z.shiftr c 6) 15 + Z.shiftl (Z.land halfpair 3) 4); u8 (0x80 + Z.land c 63)].

(** The loop of [ntfs_utf16_to_utf8]: the buffer, the place to store at and [halfpair]. *)
Fixpoint encode_loop (fuel : nat) (ins : list Z) (ins_len i halfpair : Z) (buf : list Z) (t : Z) : option (list Z * Z * Z) :=
  match fuel with
  | O => None
  | S fuel =>
      if (i <? ins_len) && negb (ins.[i] =? 0) then
        let c := ins.[i] in
        if negb (halfpair =? 0) then
          if (0xDC00 <=? c) && (c <? 0xE000) then
            buf ← stores buf t (four halfpair c);
            encode_loop fuel ins ins_len (i + 1) 0 buf (t + 4)
          else
            buf ← stores buf t (three halfpair);
            encode_loop fuel ins ins_len i 0 buf (t + 3)
        else if c <? 0x80 then
          buf ← stores buf t [u8 c];
          encode_loop fuel ins ins_len (i + 1) 0 buf (t + 1)
        else if c <? 0x800 then
          buf ← stores buf t [u8 (Z.lor 0xC0 (Z.land (Z.shiftr c 6) 0x3F)); u8 (Z.lor 0x80 (Z.land c 0x3F))];
          encode_loop fuel ins ins_len (i + 1) 0 buf (t + 2)
        else if c <? 0xD800 then
          buf ← stores buf t (three c);
          encode_loop fuel ins ins_len (i + 1) 0 buf (t + 3)
        else if c <? 0xDC00 then encode_loop fuel ins ins_len (i + 1) c buf t
        else if c <? 0xE000 then
          buf ← stores buf t (three c);
          encode_loop fuel ins ins_len (i + 1) 0 buf (t + 3)
        else
          buf ← stores buf t (three c);
          encode_loop fuel ins ins_len (i + 1) 0 buf (t + 3)
      else Some (buf, t, halfpair)
  end.

(** The part after the loop: a single surrogate at the end, and the terminator. *)
Definition encode_end (buf : list Z) (t halfpair : Z) : option (list Z * Z) :=
  '(buf, t) ← (if negb (halfpair =? 0) then buf ← stores buf t (three halfpair); Some (buf, t + 3) else Some (buf, t));
  buf ← store buf t 0;
  Some (buf, t).

Section convert.
Context `{!Malloc} (fresh : Z -> list Z).

(** The result, [*outs] ([None] is the null pointer) and [errno]. *)
Definition ntfs_utf16_to_utf8 (ins : list Z) (ins_len : Z) (outs : option (list Z)) (outs_len : Z) :
    option (Z * option (list Z) * option errno) :=
  let outs_len := match outs with None => PATH_MAX | Some _ => outs_len end in
  size ← utf16_to_utf8_size ins ins_len (outs_len - 1);
  match size with
  | inr e => Some (-1, outs, Some e)
  | inl size =>
      match (match outs with None => if malloc_ok (size + 1) then Some (fresh (size + 1)) else None | _ => outs end) with
      | None => Some (-1, None, Some ENOMEM)
      | Some buf =>
          '(buf, t, halfpair) ← encode_loop (Z.to_nat (2 * ins_len + 1)) ins ins_len 0 0 buf 0;
          '(buf, t) ← encode_end buf t halfpair;
          Some (t, Some buf, None)
      end
  end.

(** [ins] is [None] for a null pointer. *)
Definition ntfs_ucstombs (ins : option (list Z)) (ins_len : Z) (outs : option (list Z)) (outs_len : Z) :
    option (Z * option (list Z) * option errno) :=
  match ins with
  | None => Some (-1, outs, Some EINVAL)
  | Some ins =>
      match outs with
      | Some _ => if outs_len =? 0 then Some (-1, outs, Some ENAMETOOLONG) else ntfs_utf16_to_utf8 ins ins_len outs outs_len
      | None => ntfs_utf16_to_utf8 ins ins_len outs outs_len
      end
  end.

(** ** UTF-8 to UTF-16 *)

Fixpoint utf8_size (fuel : nat) (s : list Z) (i count : Z) : option (Z + errno) :=
  match fuel with
  | O => None
  | S fuel =>
      let byte := s.[i] in
      let i := i + 1 in
      if byte =? 0 then Some (inl count) else
      let count := count + 1 in
      if PATH_MAX <=? count then Some (inr ENAMETOOLONG) else
      if 0xC0 <=? byte then
        if 0xF5 <=? byte then Some (inr EILSEQ) else
        if s.[i] =? 0 then Some (inl count) else
        let i := i + 1 in
        if s.[i] =? 0 then Some (inl count) else
        let i := if 0xE0 <=? byte then i + 1 else i in
        if s.[i] =? 0 then Some (inl count) else
        if 0xF0 <=? byte then
          let i := i + 1 in
          let count := count + 1 in
          if PATH_MAX <=? count then Some (inr ENAMETOOLONG) else utf8_size fuel s i count
        else utf8_size fuel s i count
      else utf8_size fuel s i count
  end.
Definition utf8_to_utf16_size (s : list Z) : option (Z + errno) := utf8_size (S (length s)) s 0 0.

Definition continues (b : Z) : bool := Z.land b 0xC0 =? 0x80.

(** The number of bytes used, -1 with [EILSEQ] for none, and the character at [s + t]. *)
Definition utf8_to_unicode (s : list Z) (t : Z) : Z * Z :=
  let byte := s.[t] in
  let s1 := s.[t + 1] in
  let s2 := s.[t + 2] in
  let s3 := s.[t + 3] in
  if byte =? 0 then (0, 0)
  else if byte <? 0x80 then (1, byte)
  else if byte <? 0xC2 then (-1, 0)
  else if byte <? 0xE0 then
    if continues s1 then (2, Z.lor (Z.shiftl (Z.land byte 0x1F) 6) (Z.land s1 0x3F)) else (-1, 0)
  else if byte <? 0xF0 then
    if continues s1 && continues s2 then
      let wc := Z.lor (Z.shiftl (Z.land byte 0x0F) 12) (Z.lor (Z.shiftl (Z.land s1 0x3F) 6) (Z.land s2 0x3F)) in
      if (0x800 <=? wc) && (wc <=? 0xD7FF) || (0xD800 <=? wc) && (wc <=? 0xDFFF) || (0xE000 <=? wc) && (wc <=? 0xFFFF)
      then (3, wc) else (-1, wc)
    else (-1, 0)
  else if byte <? 0xF5 then
    if continues s1 && continues s2 && continues s3 then
      let wc := Z.lor (Z.shiftl (Z.land byte 0x07) 18)
        (Z.lor (Z.shiftl (Z.land s1 0x3F) 12) (Z.lor (Z.shiftl (Z.land s2 0x3F) 6) (Z.land s3 0x3F))) in
      if (wc <=? 0x10FFFF) && (0x10000 <=? wc) then (4, wc) else (-1, wc)
    else (-1, 0)
  else (-1, 0).

(** The loop of [ntfs_utf8_to_utf16]: the buffer with the number of units stored, or with
    the error. *)
Fixpoint decode_loop (fuel : nat) (s : list Z) (t : Z) (buf : list Z) (o : Z) : option (list Z * (Z + errno)) :=
  match fuel with
  | O => None
  | S fuel =>
      let '(m, wc) := utf8_to_unicode s t in
      if m <=? 0 then
        if m <? 0 then Some (buf, inr EILSEQ) else
        buf ← store buf o 0;
        Some (buf, inl o)
      else if wc <? 0x10000 then
        buf ← store buf o (u16 wc);
        decode_loop fuel s (t + m) buf (o + 1)
      else
        let wc := wc - 0x10000 in
        buf ← store buf o (u16 (Z.shiftr wc 10 + 0xD800));
        buf ← store buf (o + 1) (u16 (Z.land wc 0x3FF + 0xDC00));
        decode_loop fuel s (t + m) buf (o + 2)
  end.

Definition ntfs_utf8_to_utf16 (ins : list Z) (outs : option (list Z)) : option (Z * option (list Z) * option errno) :=
  shorts ← utf8_to_utf16_size ins;
  match shorts with
  | inr e => Some (-1, outs, Some e)
  | inl shorts =>
      match (match outs with None => if malloc_ok ((shorts + 1) * 2) then Some (fresh (shorts + 1)) else None | _ => outs end) with
      | None => Some (-1, None, Some ENOMEM)
      | Some buf =>
          '(buf, r) ← decode_loop (S (length ins)) ins 0 buf 0;
          match r with
          | inl n => Some (n, Some buf, None)
          | inr e => Some (-1, match outs with None => None | Some _ => Some buf end, Some e)
          end
      end
  end.

Definition ntfs_mbstoucs (ins : option (list Z)) (outs : option (list Z)) : option (Z * option (list Z) * option errno) :=
  match ins with
  | None => Some (-1, outs, Some EINVAL)
  | Some ins => ntfs_utf8_to_utf16 ins outs
  end.

(** The string ([inl None] is [AT_UNNAMED], the empty name) with its length, or the error. *)
Definition ntfs_str2ucs (s : option (list Z)) (len : Z) : option (option (list Z) * Z + errno) :=
  '(ucs, len, e) ← (match s with
                    | None => Some (None, len, None)
                    | Some _ => '(r, ucs, e) ← ntfs_mbstoucs s None; Some (ucs, r, e)
                    end);
  match e with
  | Some e => Some (inr e)
  | None =>
      if NTFS_MAX_NAME_LEN <? len then Some (inr ENAMETOOLONG) else
      match ucs with
      | Some u => if len =? 0 then Some (inl (None, 0)) else Some (inl (Some u, len))
      | None => Some (inl (None, 0))
      end
  end.

(** ** Upper case of a UTF-8 string *)

(** A character in UTF-8. *)
Definition put_unicode (wc : Z) : list Z :=
  if wc <? 0x80 then [u8 wc]
  else if wc <? 0x800 then [u8 (Z.lor 0xC0 (Z.land (Z.shiftr wc 6) 0x3F)); u8 (Z.lor 0x80 (Z.land wc 0x3F))]
  else if wc <? 0x10000 then three wc
  else [u8 (Z.lor 0xF0 (Z.land (Z.shiftr wc 18) 7)); u8 (Z.lor 0x80 (Z.land (Z.shiftr wc 12) 63));
        u8 (Z.lor 0x80 (Z.land (Z.shiftr wc 6) 0x3F)); u8 (Z.lor 0x80 (Z.land wc 0x3F))].

(** [do ... while (n > 0)]: the buffer, the place and the last [n]. *)
Fixpoint uppercase_loop (fuel : nat) (s : list Z) (i : Z) (upcase : list Z) (upcase_size : Z) (upp : list Z) (t : Z) :
    option (list Z * Z * Z) :=
  match fuel with
  | O => None
  | S fuel =>
      let '(n, wc) := utf8_to_unicode s i in
      if 0 <? n then
        let bs := put_unicode (up upcase upcase_size wc) in
        upp ← stores upp t bs;
        uppercase_loop fuel s (i + n) upcase upcase_size upp (t + zlen bs)
      else Some (upp, t, n)
  end.

(** After an error the buffer is freed, and the terminator is stored into it all the
    same: an access to freed memory, [None].  [Some None] is the null pointer for lack of
    memory. *)
Definition ntfs_uppercase_mbs (low : list Z) (upcase : list Z) (upcase_size : Z) : option (option (list Z)) :=
  if malloc_ok (3 * zlen low + 1) then
    '(upp, t, n) ← uppercase_loop (S (length low)) low 0 upcase upcase_size (fresh (3 * zlen low + 1)) 0;
    if n <? 0 then None else
    upp ← store upp t 0;
    Some (Some upp)
  else Some None.
End convert.
