(* ===== verification/UtfConv.v ===== *)
(** * UTF-16 names survive the conversion to UTF-8

    Every sequence of 16-bit units, unpaired surrogates included, is converted to UTF-8 in
    a buffer of exactly the computed size and back to the same sequence; and the conversion
    of arbitrary bytes stays within its buffer. *)

From stdpp Require Import prelude list.
From Stdlib Require Import ZArith Lia.
From S2P Require Import Prelude Bytes Buffers NtfsTypes UniNames Utf8.

Local Open Scope Z_scope.

(** ** The bytes of a sequence of units *)

Definition high (c : Z) : bool := (0xD800 <=? c) && (c <? 0xDC00).
Definition low (c : Z) : bool := (0xDC00 <=? c) && (c <? 0xE000).

(** A unit on its own. *)
Definition unit_bytes (c : Z) : list Z :=
  if c <? 0x80 then [u8 c]
  else if c <? 0x800 then [u8 (Z.lor 0xC0 (Z.land (Z.shiftr c 6) 0x3F)); u8 (Z.lor 0x80 (Z.land c 0x3F))]
  else three c.

Fixpoint utf8_of (l : list Z) : list Z :=
  match l with
  | [] => []
  | c :: l' =>
      if high c then
        match l' with
        | d :: l'' => if low d then four c d ++ utf8_of l'' else three c ++ utf8_of l'
        | [] => three c
        end
      else unit_bytes c ++ utf8_of l'
  end.

(** Units with one that is pending. *)
Definition pend (h : Z) (l : list Z) : list Z := if h =? 0 then l else h :: l.

Lemma utf8_of_plain c l : high c = false -> utf8_of (c :: l) = unit_bytes c ++ utf8_of l.
Proof. intros E. cbn [utf8_of]. by rewrite E. Qed.

Lemma utf8_of_pair c d l : high c = true -> low d = true -> utf8_of (c :: d :: l) = four c d ++ utf8_of l.
Proof. intros E E'. cbn [utf8_of]. by rewrite E, E'. Qed.

Lemma utf8_of_single c l : high c = true -> (forall d l', l = d :: l' -> low d = false) -> utf8_of (c :: l) = three c ++ utf8_of l.
Proof.
  intros E Hl. cbn [utf8_of]. rewrite E. destruct l as [|d l]; [by rewrite app_nil_r|]. by rewrite (Hl d l eq_refl).
Qed.

(** ** Encoding *)

Definition units (l : list Z) : Prop := Forall (fun c => 0 < c < 0x10000) l.

(** [k] is what is left of [ins] at [i]. *)
Definition left_at (ins : list Z) (i : Z) (k : list Z) : Prop := 0 <= i /\ exists pre, ins = pre ++ k /\ i = zlen pre.

Lemma left_nil ins i : left_at ins i [] -> i = zlen ins.
Proof. intros (_ & pre & -> & ->). by rewrite app_nil_r. Qed.

Lemma left_cons ins i c k : left_at ins i (c :: k) -> i < zlen ins /\ ins.[i] = c /\ left_at ins (i + 1) k.
Proof.
  intros (Hi & pre & -> & ->). pose proof (zlen_nonneg k). rewrite zlen_app, zlen_cons. split_and!; [lia|apply getb_app_mid|].
  split; [lia|]. exists (pre ++ [c]). rewrite <- app_assoc, zlen_app. done.
Qed.

Lemma left_all ins : left_at ins 0 ins.
Proof. split; [lia|]. by exists []. Qed.

(** The buffer with [out] stored at [t], in a part [pad] that is long enough. *)
Lemma stores_at (pre pad post out : list Z) t :
  t = zlen pre -> zlen out <= zlen pad ->
  exists pad', stores (pre ++ pad ++ post) t out = Some ((pre ++ out) ++ pad' ++ post) /\ zlen pad' = zlen pad - zlen out.
Proof.
  intros -> Hl. unfold zlen in Hl. exists (drop (length out) pad). split; [|unfold zlen; rewrite length_drop; lia].
  rewrite <- (take_drop (length out) pad) at 1. rewrite <- !app_assoc.
  apply (stores_mid pre (take (length out) pad) (drop (length out) pad ++ post) out (zlen pre) eq_refl).
  rewrite length_take. lia.
Qed.

Definition pending (h : Z) : Prop := h = 0 \/ high h = true.

Definition encode (fuel : nat) (ins : list Z) (i h : Z) (buf : list Z) (t : Z) : option (list Z * Z) :=
  '(buf, t, h) ← encode_loop fuel ins (zlen ins) i h buf t;
  encode_end buf t h.

(** The loop and what follows it write the bytes of what is left. *)
Lemma encode_spec ins x post : forall fuel i h k pre pad,
  left_at ins i k -> units k -> pending h -> 2 * zlen k + (if h =? 0 then 0 else 1) < Z.of_nat fuel ->
  zlen pad = zlen (utf8_of (pend h k)) ->
  encode fuel ins i h (pre ++ pad ++ x :: post) (zlen pre) =
  Some ((pre ++ utf8_of (pend h k)) ++ 0 :: post, zlen (pre ++ utf8_of (pend h k))).
Proof.
  induction fuel as [|fuel IH]; intros i h k pre pad Hk Hu Hh Hf Hp.
  { pose proof (zlen_nonneg k). destruct (h =? 0); lia. }
  assert (forall i' h' k' bs, left_at ins i' k' -> units k' -> pending h' -> 2 * zlen k' + (if h' =? 0 then 0 else 1) < Z.of_nat fuel ->
    utf8_of (pend h k) = bs ++ utf8_of (pend h' k') ->
    (buf ← stores (pre ++ pad ++ x :: post) (zlen pre) bs; encode fuel ins i' h' buf (zlen pre + zlen bs)) =
    Some ((pre ++ utf8_of (pend h k)) ++ 0 :: post, zlen (pre ++ utf8_of (pend h k)))) as Hstep.
  { intros i' h' k' bs H1 H2 H3 H4 E. rewrite E, zlen_app in Hp. pose proof (zlen_nonneg (utf8_of (pend h' k'))).
    destruct (stores_at pre pad (x :: post) bs (zlen pre) eq_refl ltac:(lia)) as (pad' & -> & Hp'). cbn [mbind option_bind].
    rewrite <- zlen_app, (IH i' h' k' (pre ++ bs) pad') by (assumption || lia). by rewrite E, !app_assoc. }
  unfold encode in *. cbn [encode_loop]. destruct k as [|c k].
  { apply left_nil in Hk as ->. rewrite Z.ltb_irrefl. cbn [andb mbind option_bind]. unfold encode_end, pend in *.
    destruct (h =? 0) eqn:E0; cbn [negb].
    - cbn [utf8_of] in *. destruct pad; [|unfold zlen in Hp; cbn in Hp; lia]. cbn [mbind option_bind app].
      rewrite store_mid by done. cbn [mbind option_bind]. by rewrite app_nil_r.
    - apply Z.eqb_neq in E0. destruct Hh as [Hh|Hh]; [done|]. rewrite utf8_of_single in * by done. cbn [utf8_of] in *. rewrite app_nil_r in *.
      destruct (stores_at pre pad (x :: post) (three h) (zlen pre) eq_refl ltac:(lia)) as (pad' & -> & Hp').
      destruct pad'; [|unfold zlen in *; cbn in *; lia]. cbn [mbind option_bind app].
      rewrite store_mid by (by rewrite zlen_app). cbn [mbind option_bind]. by rewrite (zlen_app pre (three h)). }
  destruct (left_cons _ _ _ _ Hk) as (Hi & Ec & Hk'). inversion_clear Hu as [|?? Hc Hu']. rewrite zlen_cons in Hf.
  rewrite Ec, (proj2 (Z.ltb_lt _ _) Hi), (proj2 (Z.eqb_neq c 0)) by lia. cbn [negb andb].
  pose proof (zlen_nonneg k). destruct (Z.eqb_spec h 0) as [->|Nh]; cbn [negb].
  - assert (forall bs, high c = false -> unit_bytes c = bs ->
      (buf ← stores (pre ++ pad ++ x :: post) (zlen pre) bs; encode_loop fuel ins (zlen ins) (i + 1) 0 buf (zlen pre + zlen bs)) ≫=
        (fun '(buf, t, h) => encode_end buf t h) =
      Some ((pre ++ utf8_of (c :: k)) ++ 0 :: post, zlen (pre ++ utf8_of (c :: k)))) as Hunit.
    { intros bs Hc' <-. change (c :: k) with (pend 0 (c :: k)). rewrite <- (Hstep (i + 1) 0 k (unit_bytes c)); [by destruct (stores _ _ _)|done|done|by left|cbn; lia|].
      cbn [pend Z.eqb]. by apply utf8_of_plain. }
    unfold unit_bytes, high in Hunit. change (pend 0 (c :: k)) with (c :: k).
    destruct (Z.ltb_spec c 0x80); [apply Hunit; [lia|done]|]. destruct (Z.ltb_spec c 0x800); [apply Hunit; [lia|done]|].
    destruct (Z.ltb_spec c 0xD800); [apply Hunit; [lia|done]|]. destruct (Z.ltb_spec c 0xDC00).
    + assert (high c = true) as Hhi by (unfold high; lia).
      specialize (Hstep (i + 1) c k [] Hk' Hu' (or_intror Hhi)). cbn [stores mbind option_bind] in Hstep.
      change (zlen (@nil Z)) with 0 in Hstep. rewrite Z.add_0_r in Hstep. apply Hstep.
      * rewrite (proj2 (Z.eqb_neq c 0)) by lia. cbn in Hf. lia.
      * unfold pend. by rewrite (proj2 (Z.eqb_neq c 0)) by lia.
    + destruct (Z.ltb_spec c 0xE000); apply Hunit; done || lia.
  - destruct Hh as [Hh|Hh]; [done|]. unfold pend in *. rewrite (proj2 (Z.eqb_neq h 0) Nh) in *.
    destruct ((0xDC00 <=? c) && (c <? 0xE000)) eqn:El.
    + rewrite <- (Hstep (i + 1) 0 k (four h c)); [by destruct (stores _ _ _)|done|done|by left|cbn; lia|by apply utf8_of_pair].
    + rewrite <- (Hstep i 0 (c :: k) (three h)); [by destruct (stores _ _ _)|done|by constructor|by left|rewrite zlen_cons; cbn; lia|].
      apply utf8_of_single; [done|]. by intros ? ? [= -> ->].
Qed.

(** The size is the number of these bytes. *)
Definition size_end (outs_len count : Z) (surrog : bool) : Z := if surrog && (count <=? outs_len) then count + 3 else count.

Lemma size_spec ins outs_len : forall fuel i h k count,
  left_at ins i k -> units k -> pending h -> 2 * zlen k + (if h =? 0 then 0 else 1) < Z.of_nat fuel ->
  let total := count + zlen (utf8_of (pend h k)) in
  exists cnt sg, size_loop fuel ins (zlen ins) outs_len i count (negb (h =? 0)) = Some (cnt, sg) /\
    (outs_len < size_end outs_len cnt sg <-> outs_len < total) /\ (total <= outs_len -> size_end outs_len cnt sg = total).
Proof.
  induction fuel as [|fuel IH]; intros i h k count Hk Hu Hh Hf total.
  { pose proof (zlen_nonneg k). destruct (h =? 0); lia. }
  assert (forall i' h' k' bs, left_at ins i' k' -> units k' -> pending h' -> 2 * zlen k' + (if h' =? 0 then 0 else 1) < Z.of_nat fuel ->
    utf8_of (pend h k) = bs ++ utf8_of (pend h' k') ->
    exists cnt sg, size_loop fuel ins (zlen ins) outs_len i' (count + zlen bs) (negb (h' =? 0)) = Some (cnt, sg) /\
    (outs_len < size_end outs_len cnt sg <-> outs_len < total) /\ (total <= outs_len -> size_end outs_len cnt sg = total)) as Hstep.
  { intros i' h' k' bs H1 H2 H3 H4 E. unfold total. rewrite E, zlen_app, Z.add_assoc. by apply IH. }
  clear IH. cbn [size_loop]. pose proof (zlen_nonneg (utf8_of (pend h k))) as Hnn. destruct k as [|c k].
  { apply left_nil in Hk as ->. rewrite Z.ltb_irrefl. cbn [andb]. eexists _, _. split; [done|]. unfold total, size_end, pend in *.
    destruct (Z.eqb_spec h 0) as [->|Nh]; cbn [negb andb].
    - change (zlen (utf8_of [])) with 0. lia.
    - destruct Hh as [Hh|Hh]; [done|]. rewrite utf8_of_single by done. change (zlen (three h ++ utf8_of [])) with 3.
      destruct (Z.leb_spec count outs_len); lia. }
  destruct (left_cons _ _ _ _ Hk) as (Hi & Ec & Hk'). inversion_clear Hu as [|?? Hc Hu']. rewrite zlen_cons in Hf.
  rewrite Ec, (proj2 (Z.ltb_lt _ _) Hi), (proj2 (Z.eqb_neq c 0)) by lia. cbn [negb andb].
  destruct (Z.leb_spec count outs_len) as [Hle|Hgt].
  2:{ eexists _, _. split; [done|]. unfold size_end, total. rewrite (proj2 (Z.leb_gt _ _) Hgt), andb_false_r. lia. }
  pose proof (zlen_nonneg k). destruct (Z.eqb_spec h 0) as [->|Nh]; cbn [negb].
  - assert (forall n, high c = false -> zlen (unit_bytes c) = n ->
      exists cnt sg, size_loop fuel ins (zlen ins) outs_len (i + 1) (count + n) false = Some (cnt, sg) /\
      (outs_len < size_end outs_len cnt sg <-> outs_len < total) /\ (total <= outs_len -> size_end outs_len cnt sg = total)) as Hunit.
    { intros n Hc' <-. apply (Hstep (i + 1) 0 k (unit_bytes c)); [done|done|by left|cbn; lia|]. by apply utf8_of_plain. }
    unfold unit_bytes, high in Hunit.
    destruct (Z.ltb_spec c 0x80); [apply Hunit; [lia|done]|]. destruct (Z.ltb_spec c 0x800); [apply Hunit; [lia|done]|].
    destruct (Z.ltb_spec c 0xD800); [apply Hunit; [lia|done]|]. destruct (Z.ltb_spec c 0xDC00).
    + assert (high c = true) as Hhi by (unfold high; lia).
      specialize (Hstep (i + 1) c k [] Hk' Hu' (or_intror Hhi)). rewrite (proj2 (Z.eqb_neq c 0)) in Hstep by lia.
      change (zlen (@nil Z)) with 0 in Hstep. rewrite Z.add_0_r in Hstep. apply Hstep; [cbn in Hf; lia|].
      unfold pend. by rewrite (proj2 (Z.eqb_neq c 0)) by lia.
    + destruct (Z.ltb_spec c 0xE000); apply Hunit; done || lia.
  - destruct Hh as [Hh|Hh]; [done|]. unfold pend in *. rewrite (proj2 (Z.eqb_neq h 0) Nh) in *.
    destruct ((0xDC00 <=? c) && (c <? 0xE000)) eqn:El.
    + apply (Hstep (i + 1) 0 k (four h c)); [done|done|by left|cbn; lia|by apply utf8_of_pair].
    + apply (Hstep i 0 (c :: k) (three h)); [done|by constructor|by left|rewrite zlen_cons; cbn; lia|].
      apply utf8_of_single; [done|]. by intros ? ? [= -> ->].
Qed.

Lemma utf8_size_exact ins outs_len :
  units ins -> utf16_to_utf8_size ins (zlen ins) outs_len =
  Some (if outs_len <? zlen (utf8_of ins) then inr ENAMETOOLONG else inl (zlen (utf8_of ins))).
Proof.
  intros Hu. pose proof (zlen_nonneg ins). unfold utf16_to_utf8_size.
  destruct (size_spec ins outs_len (Z.to_nat (2 * zlen ins + 1)) 0 0 ins 0 (left_all ins) Hu (or_introl eq_refl))
    as (cnt & sg & E & Hlt & Heq); [cbn; lia|]. cbn [Z.eqb negb] in E. rewrite E. cbn [mbind option_bind].
  change (pend 0 ins) with ins in *. rewrite Z.add_0_l in *. fold (size_end outs_len cnt sg). f_equal.
  destruct (Z.ltb_spec outs_len (zlen (utf8_of ins))); [by if_true|]. rewrite Heq by lia. by if_false.
Qed.

(** What the conversion to UTF-8 gives, in a buffer of its own or in the one of the caller. *)
Lemma utf16_to_utf8_spec `{!Malloc} fresh ins :
  units ins -> (forall n, 0 <= n -> zlen (fresh n) = n) ->
  let u := utf8_of ins in
  ntfs_utf16_to_utf8 fresh ins (zlen ins) None 0 =
    Some (if PATH_MAX - 1 <? zlen u then (-1, None, Some ENAMETOOLONG)
          else if malloc_ok (zlen u + 1) then (zlen u, Some (u ++ [0]), None) else (-1, None, Some ENOMEM)).
Proof.
  intros Hu Hfr u. pose proof (zlen_nonneg u). unfold ntfs_utf16_to_utf8. rewrite utf8_size_exact by done. cbn [mbind option_bind].
  fold u. destruct (PATH_MAX - 1 <? zlen u); [done|]. destruct (malloc_ok _); [|done].
  specialize (Hfr (zlen u + 1) ltac:(lia)). destruct (exists_last (l := fresh (zlen u + 1))) as (pad & x & E).
  { intros E. rewrite E in Hfr. change (zlen (@nil Z)) with 0 in Hfr. lia. }
  rewrite E in *. rewrite zlen_app in Hfr. change (zlen [x]) with 1 in Hfr. pose proof (zlen_nonneg ins).
  pose proof (encode_spec ins x [] (Z.to_nat (2 * zlen ins + 1)) 0 0 ins [] pad (left_all ins) Hu (or_introl eq_refl)) as He.
  unfold encode in He. change (pend 0 ins) with ins in He. fold u in He. cbn [app Z.eqb] in He. change (zlen (@nil Z)) with 0 in He.
  specialize (He ltac:(lia) ltac:(lia)). destruct (encode_loop _ _ _ _ _ _ _) as [[[buf t] h]|]; [|done]. cbn [mbind option_bind] in *.
  by rewrite He.
Qed.

(** ** Decoding *)

(** The result depends on the bytes it uses. *)
Lemma to_unicode_local s t bs m wc :
  utf8_to_unicode bs 0 = (m, wc) -> 0 < m -> (forall k, 0 <= k < m -> s.[t + k] = bs.[k]) -> utf8_to_unicode s t = (m, wc).
Proof.
  intros E Hm Hs. pose proof (Hs 0 ltac:(lia)) as E0. rewrite Z.add_0_r in E0. unfold utf8_to_unicode in *. cbn zeta in *.
  change (0 + 1) with 1 in E. change (0 + 2) with 2 in E. change (0 + 3) with 3 in E. rewrite E0. revert E.
  destruct (bs.[0] =? 0); [intros E; simplify_eq; lia|]. destruct (bs.[0] <? 0x80); [done|].
  destruct (bs.[0] <? 0xC2); [intros E; simplify_eq; lia|]. destruct (bs.[0] <? 0xE0).
  { destruct (continues bs.[1]) eqn:E1; intros E; [|simplify_eq; lia]. assert (m = 2) as -> by (by simplify_eq). rewrite (Hs 1), E1 by lia. exact E. }
  destruct (bs.[0] <? 0xF0).
  { destruct (continues bs.[1] && continues bs.[2]) eqn:E1; [|intros E; simplify_eq; lia]. intros E.
    assert (m = 3 \/ m = -1) as [-> | ->] by (clear - E; destruct (_ || _); simplify_eq; auto); [|lia].
    rewrite (Hs 1), (Hs 2), E1 by lia. exact E. }
  destruct (bs.[0] <? 0xF5); [|intros E; simplify_eq; lia].
  destruct (continues bs.[1] && continues bs.[2] && continues bs.[3]) eqn:E1; [|intros E; simplify_eq; lia]. intros E.
  assert (m = 4 \/ m = -1) as [-> | ->] by (clear - E; destruct (_ && _); simplify_eq; auto); [|lia].
  rewrite (Hs 1), (Hs 2), (Hs 3), E1 by lia. exact E.
Qed.

Lemma left_getb s t bs rest k : left_at s t (bs ++ rest) -> 0 <= k < zlen bs -> s.[t + k] = bs.[k].
Proof. intros (_ & pre & -> & ->) Hk. rewrite getb_app_r by lia. by rewrite getb_app_l. Qed.

Lemma left_skip s t bs rest : left_at s t (bs ++ rest) -> left_at s (t + zlen bs) rest.
Proof.
  intros (Ht & pre & -> & ->). pose proof (zlen_nonneg bs). split; [lia|]. exists (pre ++ bs).
  by rewrite <- app_assoc, zlen_app.
Qed.

(** A check of [n] consecutive numbers. *)
Fixpoint all_from (f : Z -> bool) (n : nat) (a : Z) : bool :=
  match n with
  | O => true
  | S n => f a && all_from f n (a + 1)
  end.

Lemma all_from_spec f n a c : all_from f n a = true -> a <= c < a + Z.of_nat n -> f c = true.
Proof.
  revert a. induction n as [|n IH]; intros a Hf Hc; [lia|]. cbn [all_from] in Hf. apply andb_prop in Hf as [Ha Hf].
  destruct (Z.eq_dec c a) as [->|]; [done|]. apply (IH (a + 1)); [done|lia].
Qed.

Definition good_unit (c : Z) : bool :=
  let '(m, wc) := utf8_to_unicode (unit_bytes c) 0 in
  (m =? zlen (unit_bytes c)) && (wc =? c) && forallb (fun b => 0 <? b) (unit_bytes c) &&
  let '(m, wc) := utf8_to_unicode (three c) 0 in
  (negb (0x800 <=? c)) || (m =? 3) && (wc =? c) && forallb (fun b => 0 <? b) (three c).

Lemma good_units c : 0 < c < 0x10000 -> good_unit c = true.
Proof.
  intros Hc. assert (all_from good_unit (Z.to_nat 0xFFFF) 1 = true) as Hall by (vm_compute; reflexivity).
  apply (all_from_spec _ _ _ c Hall). lia.
Qed.

Lemma unit_bytes_len c : 0 < zlen (unit_bytes c) <= 3.
Proof. unfold unit_bytes, three, zlen. destruct (_ <? 0x80); [cbn; lia|]. destruct (_ <? 0x800); cbn; lia. Qed.

Lemma read_unit s t c rest :
  left_at s t (unit_bytes c ++ rest) -> 0 < c < 0x10000 -> utf8_to_unicode s t = (zlen (unit_bytes c), c).
Proof.
  intros Hl Hc. pose proof (good_units c Hc) as Hg. unfold good_unit in Hg.
  destruct (utf8_to_unicode (unit_bytes c) 0) as [m wc] eqn:E. apply andb_prop in Hg as [[[Hm Hw]%andb_prop _]%andb_prop _].
  apply Z.eqb_eq in Hm, Hw. subst. eapply to_unicode_local; [exact E| |].
  - apply unit_bytes_len.
  - intros k Hk. by eapply left_getb.
Qed.

Lemma read_single s t c rest :
  left_at s t (three c ++ rest) -> high c = true -> utf8_to_unicode s t = (3, c).
Proof.
  intros Hl Hh. unfold high in Hh. pose proof (good_units c ltac:(lia)) as Hg. unfold good_unit in Hg.
  destruct (utf8_to_unicode (unit_bytes c) 0). apply andb_prop in Hg as [_ Hg].
  destruct (utf8_to_unicode (three c) 0) as [m wc] eqn:E. rewrite (proj2 (Z.leb_le 0x800 c)) in Hg by lia. cbn [negb orb] in Hg.
  apply andb_prop in Hg as [[Hm Hw]%andb_prop _]. apply Z.eqb_eq in Hm, Hw. subst.
  eapply to_unicode_local; [exact E|lia|]. intros k Hk. by eapply left_getb.
Qed.

(** A surrogate pair. *)
Definition good_high (h : Z) : bool :=
  let b0 := u8 (0xF0 + Z.land (Z.shiftr (h + 64) 8) 7) in
  let b1 := u8 (0x80 + Z.land (Z.shiftr (h + 64) 2) 63) in
  (0xF0 <=? b0) && (b0 <? 0xF5) && continues b1 && (Z.land h 3 =? (h - 0xD800) mod 4) &&
  (Z.lor (Z.shiftl (Z.land b0 7) 6) (Z.land b1 63) =? (h - 0xD800 + 64) / 4).
Definition good_mid (k : Z) : bool :=
  let b := u8 (0x80 + Z.land k 15 + Z.shiftl (Z.shiftr k 4) 4) in continues b && (Z.land b 63 =? k).
Definition good_low (k : Z) : bool := let b := u8 (0x80 + k) in continues b && (Z.land b 63 =? k).

Lemma four_value h d :
  high h = true -> low d = true ->
  utf8_to_unicode (four h d) 0 = (4, 0x10000 + (h - 0xD800) * 1024 + (d - 0xDC00)).
Proof.
  intros Hh Hd. unfold high, low in *.
  assert (good_high h = true) as Gh.
  { assert (all_from good_high 1024 0xD800 = true) as Hall by (vm_compute; reflexivity). apply (all_from_spec _ _ _ h Hall). lia. }
  set (q := (h - 0xD800) mod 4). set (e := (d - 0xDC00) / 64). set (x := (d - 0xDC00) mod 64).
  assert (0 <= q < 4 /\ 0 <= e < 16 /\ 0 <= x < 64) as (Hq & He & Hx) by (unfold q, e, x; zlia).
  assert (good_mid (q * 16 + e) = true) as Gm.
  { assert (all_from good_mid 64 0 = true) as Hall by (vm_compute; reflexivity). apply (all_from_spec _ _ _ _ Hall). lia. }
  assert (good_low x = true) as Gl.
  { assert (all_from good_low 64 0 = true) as Hall by (vm_compute; reflexivity). apply (all_from_spec _ _ _ _ Hall). lia. }
  unfold good_high, good_mid, good_low in *. cbn zeta in *.
  assert (Z.land (q * 16 + e) 15 = e /\ Z.shiftr (q * 16 + e) 4 = q) as [E1 E2].
  { change 15 with (Z.ones 4). rewrite Z.land_ones, Z.shiftr_div_pow2 by lia. change (2 ^ 4) with 16. split; zlia. }
  assert (Z.land (Z.shiftr d 6) 15 = e /\ Z.land d 63 = x) as [E3 E4].
  { change 15 with (Z.ones 4). change 63 with (Z.ones 6). rewrite !Z.land_ones, Z.shiftr_div_pow2 by lia.
    change (2 ^ 4) with 16. change (2 ^ 6) with 64. unfold e, x. split; zlia. }
  rewrite E1, E2 in Gm. unfold four. rewrite E3, E4.
  apply andb_prop in Gh as [[[[B0 B0']%andb_prop C1]%andb_prop Eq]%andb_prop V1]. apply andb_prop in Gm as [C2 V2].
  apply andb_prop in Gl as [C3 V3]. apply Z.eqb_eq in Eq, V1, V2, V3. apply Z.leb_le in B0. apply Z.ltb_lt in B0'.
  rewrite Eq. fold q.
  set (b0 := u8 (0xF0 + _)) in *. set (b1 := u8 (0x80 + Z.land (Z.shiftr (h + 64) 2) 63)) in *.
  set (b2 := u8 (0x80 + e + _)) in *. set (b3 := u8 (0x80 + x)) in *. clearbody b0 b1 b2 b3.
  unfold utf8_to_unicode. cbn zeta. change ([b0; b1; b2; b3].[0]) with b0. change ([b0; b1; b2; b3].[0 + 1]) with b1.
  change ([b0; b1; b2; b3].[0 + 2]) with b2. change ([b0; b1; b2; b3].[0 + 3]) with b3. rewrite C1, C2, C3.
  rewrite (proj2 (Z.eqb_neq b0 0)), !(proj2 (Z.ltb_ge b0 _)), (proj2 (Z.ltb_lt b0 0xF5)) by lia. cbn [andb].
  assert (Z.lor (Z.shiftl (Z.land b0 7) 18) (Z.lor (Z.shiftl (Z.land b1 63) 12) (Z.lor (Z.shiftl (Z.land b2 63) 6) (Z.land b3 63)))
    = 0x10000 + (h - 0xD800) * 1024 + (d - 0xDC00)) as ->.
  { rewrite V2, V3, (shl_lor 6) by lia. rewrite Z.lor_assoc.
    replace (Z.lor (Z.shiftl (Z.land b0 7) 18) (Z.shiftl (Z.land b1 63) 12)) with (Z.shiftl ((h - 0xD800 + 64) / 4) 12).
    2:{ rewrite <- V1, Z.shiftl_lor, Z.shiftl_shiftl by lia. done. }
    rewrite shl_lor by lia. change (2 ^ 12) with 4096. change (2 ^ 6) with 64. unfold q, e, x. zlia. }
  assert (((0x10000 + (h - 0xD800) * 1024 + (d - 0xDC00) <=? 0x10FFFF) && (0x10000 <=? 0x10000 + (h - 0xD800) * 1024 + (d - 0xDC00))) = true) as -> by lia.
  done.
Qed.

Lemma read_pair s t h d rest :
  left_at s t (four h d ++ rest) -> high h = true -> low d = true ->
  utf8_to_unicode s t = (4, 0x10000 + (h - 0xD800) * 1024 + (d - 0xDC00)).
Proof.
  intros Hl Hh Hd. eapply to_unicode_local; [by apply four_value|lia|]. intros k Hk. by eapply left_getb.
Qed.

(** The units of a character. *)
Definition chars (wc : Z) : list Z :=
  if wc <? 0x10000 then [u16 wc]
  else [u16 (Z.shiftr (wc - 0x10000) 10 + 0xD800); u16 (Z.land (wc - 0x10000) 0x3FF + 0xDC00)].

Lemma chars_unit c : 0 < c < 0x10000 -> chars c = [c].
Proof. intros Hc. unfold chars. if_true. by rewrite u16_small by (unfold is_u16; lia). Qed.

Lemma chars_pair h d : high h = true -> low d = true -> chars (0x10000 + (h - 0xD800) * 1024 + (d - 0xDC00)) = [h; d].
Proof.
  intros Hh Hd. unfold high, low in *. unfold chars. if_false.
  replace (0x10000 + (h - 0xD800) * 1024 + (d - 0xDC00) - 0x10000) with ((h - 0xD800) * 1024 + (d - 0xDC00)) by lia.
  rewrite Z.shiftr_div_pow2 by lia. change 0x3FF with (Z.ones 10). rewrite Z.land_ones by lia. change (2 ^ 10) with 1024.
  rewrite Z.div_add_l, Z.div_small, Z.add_0_r by lia. rewrite (Z.add_comm ((h - 0xD800) * 1024)), Z.mod_add, Z.mod_small by lia.
  rewrite !u16_small by (unfold is_u16; lia). f_equal; [lia|f_equal; lia].
Qed.

(** A round of the loop stores the units of a character. *)
Lemma decode_round fuel s t buf o m wc :
  utf8_to_unicode s t = (m, wc) -> 0 < m ->
  decode_loop (S fuel) s t buf o =
  buf ← stores buf o (chars wc); decode_loop fuel s (t + m) buf (o + zlen (chars wc)).
Proof.
  intros E Hm. cbn [decode_loop]. rewrite E. if_false. unfold chars. destruct (wc <? 0x10000); cbn [stores mbind option_bind].
  - by destruct (store _ _ _).
  - destruct (store buf o _) as [b|]; cbn [mbind option_bind]; [|done]. by destruct (store b _ _).
Qed.

Lemma chars_len wc : zlen (chars wc) = if wc <? 0x10000 then 1 else 2.
Proof. unfold chars. by destruct (_ <? _). Qed.

Lemma land_range x n : 0 <= n -> 0 <= Z.land x (Z.ones n) < 2 ^ n.
Proof. intros Hn. rewrite Z.land_ones by lia. apply Z.mod_pos_bound. lia. Qed.

Lemma two_value b c : Z.lor (Z.shiftl (Z.land b 0x1F) 6) (Z.land c 0x3F) < 0x10000.
Proof.
  pose proof (land_range b 5 ltac:(lia)) as Hb. pose proof (land_range c 6 ltac:(lia)) as Hc.
  change (Z.ones 5) with 0x1F in Hb. change (Z.ones 6) with 0x3F in Hc. rewrite shl_lor by lia. lia.
Qed.

(** A step of the computation of the size, for a character that is there. *)
Lemma size_round fuel s t o m wc :
  utf8_to_unicode s t = (m, wc) -> 0 < m ->
  utf8_size (S (S fuel)) s t o =
  if PATH_MAX <=? o + zlen (chars wc) then Some (inr ENAMETOOLONG) else utf8_size (S fuel) s (t + m) (o + zlen (chars wc)).
Proof.
  intros E Hm. remember (S fuel) as f eqn:Ef. cbn [utf8_size]. rewrite chars_len. unfold utf8_to_unicode in E. cbn zeta in *.
  assert (forall b, continues b = true -> (b =? 0) = false) as Hcn by (intros b Hb; destruct (Z.eqb_spec b 0) as [->|]; done).
  assert (forall i n, (if s.[i] =? 0 then Some (inl n) else utf8_size f s i n) = utf8_size f s i n) as Hend.
  { intros i n. subst f. cbn [utf8_size]. by destruct (s.[i] =? 0). }
  destruct (s.[t] =? 0) eqn:B0; [simplify_eq; lia|]. destruct (Z.ltb_spec s.[t] 0x80) as [B1|B1].
  { simplify_eq. rewrite (proj2 (Z.leb_gt 0xC0 s.[t])), (proj2 (Z.ltb_lt s.[t] 0x10000)) by lia. done. }
  destruct (Z.ltb_spec s.[t] 0xC2); [simplify_eq; lia|]. rewrite (proj2 (Z.leb_le 0xC0 s.[t])) by lia.
  destruct (Z.ltb_spec s.[t] 0xE0) as [B2|B2].
  { destruct (continues s.[t + 1]) eqn:C1; [|simplify_eq; lia]. pose proof (two_value s.[t] s.[t + 1]). simplify_eq.
    rewrite !(proj2 (Z.leb_gt _ s.[t])), (Hcn _ C1), (proj2 (Z.ltb_lt _ 0x10000)) by lia.
    destruct (PATH_MAX <=? o + 1); [done|]. replace (t + 1 + 1) with (t + 2) by lia. by rewrite !Hend. }
  rewrite (proj2 (Z.leb_le 0xE0 s.[t])) by lia. replace (t + 1 + 1 + 1) with (t + 3) by lia. replace (t + 1 + 1) with (t + 2) by lia.
  destruct (Z.ltb_spec s.[t] 0xF0) as [B3|B3].
  { destruct (continues s.[t + 1] && continues s.[t + 2]) eqn:C; [|simplify_eq; lia]. apply andb_prop in C as [C1 C2].
    destruct (_ || _) eqn:R in E; [|simplify_eq; lia]. simplify_eq.
    rewrite !(proj2 (Z.leb_gt _ s.[t])), (Hcn _ C1), (Hcn _ C2), Hend, (proj2 (Z.ltb_lt _ 0x10000)) by lia. done. }
  destruct (Z.ltb_spec s.[t] 0xF5) as [B4|B4]; [|simplify_eq; lia].
  destruct (_ && continues s.[t + 3]) eqn:C in E; [|simplify_eq; lia]. apply andb_prop in C as [[C1 C2]%andb_prop C3].
  destruct (_ && _) eqn:R in E; [|simplify_eq; lia]. simplify_eq.
  rewrite (proj2 (Z.leb_gt 0xF5 s.[t])), (proj2 (Z.leb_le 0xF0 s.[t])), (Hcn _ C1), (Hcn _ C2), (Hcn _ C3), (proj2 (Z.ltb_ge _ 0x10000)) by lia.
  replace (o + 1 + 1) with (o + 2) by lia. replace (t + 3 + 1) with (t + 4) by lia.
  destruct (Z.leb_spec PATH_MAX (o + 1)); [|done]. by if_true.
Qed.

(** ** The round trip *)

(** The first character of the bytes of some units, and the units it stands for. *)
Lemma first_char l :
  units l -> l <> [] -> exists bs cs k wc,
  l = cs ++ k /\ utf8_of l = bs ++ utf8_of k /\ chars wc = cs /\ 0 < zlen cs <= zlen bs /\ units k /\
  forall s t rest, left_at s t (bs ++ rest) -> utf8_to_unicode s t = (zlen bs, wc).
Proof.
  intros Hu Hl. destruct l as [|c l]; [done|]. inversion_clear Hu as [|?? Hc Hu']. destruct (high c) eqn:Eh.
  - assert ((exists d k, l = d :: k /\ low d = true) \/ (forall d k, l = d :: k -> low d = false)) as [(d & k & -> & Ed)|Hn].
    { destruct l as [|d k]; [by right|]. destruct (low d) eqn:Ed; [left; by exists d, k|right; by intros ? ? [= <- <-]]. }
    + inversion_clear Hu' as [|?? Hd Hu]. exists (four c d), [c; d], k, (0x10000 + (c - 0xD800) * 1024 + (d - 0xDC00)).
      split_and!; [done|by apply utf8_of_pair|by apply chars_pair|done|done|done|]. intros s t rest Hs. by eapply read_pair.
    + exists (three c), [c], l, c. split_and!; [done| |by apply chars_unit|done|done|done|intros s t rest Hs; by eapply read_single].
      by apply utf8_of_single.
  - exists (unit_bytes c), [c], l, c. pose proof (unit_bytes_len c).
    split_and!; [done|by apply utf8_of_plain|by apply chars_unit|done|change (zlen [c]) with 1; lia|done|].
    intros s t rest Hs. by eapply read_unit.
Qed.

Lemma left_end s t : left_at s t [] -> s.[t] = 0.
Proof. intros Hl. apply left_nil in Hl as ->. unfold getb, zlen. apply nth_overflow. lia. Qed.

Lemma utf8_of_longer l : units l -> zlen l <= zlen (utf8_of l).
Proof.
  remember (length l) as n eqn:En. revert l En. induction (lt_wf n) as [n _ IH]. intros l -> Hu.
  destruct l as [|c l]; [done|]. destruct (first_char (c :: l) Hu) as (bs & cs & k & wc & El & -> & _ & Hcs & Hk & _); [done|].
  rewrite El in *. rewrite !zlen_app. enough (zlen k <= zlen (utf8_of k)) by lia. eapply (IH (length k)); [|done|done].
  rewrite length_app. unfold zlen in Hcs. lia.
Qed.

(** The units that are left are stored, and the terminator. *)
Lemma decode_units s x post : forall fuel t k pre pad,
  left_at s t (utf8_of k) -> units k -> zlen k < Z.of_nat fuel -> zlen pad = zlen k ->
  decode_loop fuel s t (pre ++ pad ++ x :: post) (zlen pre) = Some ((pre ++ k) ++ 0 :: post, inl (zlen (pre ++ k))).
Proof.
  induction fuel as [|fuel IH]; intros t k pre pad Hl Hu Hf Hp; [pose proof (zlen_nonneg k); lia|].
  destruct (decide (k = [])) as [->|Hne].
  { apply left_end in Hl. cbn [decode_loop]. unfold utf8_to_unicode. rewrite Hl. cbn [Z.eqb Z.leb Z.ltb Z.compare].
    destruct pad; [|unfold zlen in Hp; cbn in Hp; lia]. cbn [app]. rewrite store_mid by done. cbn [mbind option_bind].
    by rewrite app_nil_r. }
  destruct (first_char k Hu Hne) as (bs & cs & k' & wc & -> & E & Hcs & Hlen & Hk & Hread). rewrite E in Hl.
  rewrite (decode_round _ _ _ _ _ _ _ (Hread _ _ _ Hl)), Hcs by lia. rewrite zlen_app in *. pose proof (zlen_nonneg k').
  destruct (stores_at pre pad (x :: post) cs (zlen pre) eq_refl) as (pad' & -> & Hp'); [lia|]. cbn [mbind option_bind].
  rewrite <- zlen_app, (IH _ k' (pre ++ cs) pad'); [by rewrite !app_assoc, !zlen_app, Z.add_assoc|by apply left_skip|done|lia|lia].
Qed.

(** The size that is computed is the number of units. *)
Lemma size_units s : forall fuel t k o,
  left_at s t (utf8_of k) -> units k -> zlen k < Z.of_nat fuel -> o < PATH_MAX ->
  utf8_size fuel s t o = Some (if PATH_MAX <=? o + zlen k then inr ENAMETOOLONG else inl (o + zlen k)).
Proof.
  induction fuel as [|fuel IH]; intros t k o Hl Hu Hf Ho; [pose proof (zlen_nonneg k); lia|].
  destruct (decide (k = [])) as [->|Hne].
  { apply left_end in Hl. cbn [utf8_size]. rewrite Hl. cbn [Z.eqb]. change (zlen (@nil Z)) with 0. if_false. by rewrite Z.add_0_r. }
  destruct (first_char k Hu Hne) as (bs & cs & k' & wc & -> & E & Hcs & Hlen & Hk & Hread). rewrite E in Hl.
  rewrite zlen_app in *. pose proof (zlen_nonneg k'). destruct fuel as [|fuel]; [lia|].
  rewrite (size_round _ _ _ _ _ _ (Hread _ _ _ Hl)), Hcs by lia.
  destruct (Z.leb_spec PATH_MAX (o + zlen cs)); [by if_true|].
  rewrite (IH _ k') by (by apply left_skip || lia || done). by rewrite Z.add_assoc.
Qed.

Lemma utf8_to_utf16_spec `{!Malloc} fresh k :
  units k -> (forall n, 0 <= n -> zlen (fresh n) = n) ->
  ntfs_utf8_to_utf16 fresh (utf8_of k) None =
    Some (if PATH_MAX <=? zlen k then (-1, None, Some ENAMETOOLONG)
          else if malloc_ok ((zlen k + 1) * 2) then (zlen k, Some (k ++ [0]), None) else (-1, None, Some ENOMEM)).
Proof.
  intros Hu Hfr. pose proof (utf8_of_longer k Hu) as Hlong. pose proof (zlen_nonneg k).
  unfold ntfs_utf8_to_utf16, utf8_to_utf16_size.
  rewrite (size_units _ _ 0 k) by (apply left_all || done || (unfold zlen in *; lia)). cbn [mbind option_bind]. rewrite Z.add_0_l.
  destruct (PATH_MAX <=? zlen k); [done|]. destruct (malloc_ok _); [|done].
  specialize (Hfr (zlen k + 1) ltac:(lia)). destruct (exists_last (l := fresh (zlen k + 1))) as (pad & x & E).
  { intros E. rewrite E in Hfr. change (zlen (@nil Z)) with 0 in Hfr. lia. }
  rewrite E in *. rewrite zlen_app in Hfr. change (zlen [x]) with 1 in Hfr.
  pose proof (decode_units (utf8_of k) x [] (S (length (utf8_of k))) 0 k [] pad (left_all _) Hu) as Hd.
  cbn [app] in Hd. change (zlen (@nil Z)) with 0 in Hd. rewrite Hd by (unfold zlen in *; lia). done.
Qed.

(** Names of every kind, unpaired surrogates included: the comment of [utf8_to_unicode]
    excludes U+D800 .. U+DFFF, but the code is compiled with [ALLOW_BROKEN_UNICODE], which
    allows them. *)
Lemma ucstombs_units `{!Malloc} fresh name :
  units name -> (forall n, 0 <= n -> zlen (fresh n) = n) -> (forall n, malloc_ok n = true) ->
  if PATH_MAX - 1 <? zlen (utf8_of name) then
    ntfs_ucstombs fresh (Some name) (zlen name) None 0 = Some (-1, None, Some ENAMETOOLONG)
  else
    ntfs_ucstombs fresh (Some name) (zlen name) None 0 = Some (zlen (utf8_of name), Some (utf8_of name ++ [0]), None) /\
    ntfs_mbstoucs fresh (Some (utf8_of name)) None = Some (zlen name, Some (name ++ [0]), None).
Proof.
  intros Hu Hfr Hm. unfold ntfs_ucstombs, ntfs_mbstoucs. rewrite utf16_to_utf8_spec, utf8_to_utf16_spec by done.
  rewrite !Hm. pose proof (utf8_of_longer name Hu). destruct (Z.ltb_spec (PATH_MAX - 1) (zlen (utf8_of name))); [done|].
  split; [done|]. by if_false.
Qed.

(** Every surrogate is one of a pair. *)
Fixpoint paired (l : list Z) : bool :=
  match l with
  | [] => true
  | c :: l' =>
      if high c then match l' with d :: l'' => low d && paired l'' | [] => false end
      else negb (low c) && paired l'
  end.

(** C20: if memory is granted, [ntfs_ucstombs] converts every name of non-zero 16-bit units
    to the UTF-8 string [utf8_of] in a buffer of exactly its size, or to the error
    [ENAMETOOLONG] exactly when this string exceeds [PATH_MAX - 1] bytes; and
    [ntfs_mbstoucs] converts the string of a name whose surrogates are paired, which is
    valid UTF-16, back to the same units. *)
Theorem utf16_utf8_roundtrip `{!Malloc} fresh name :
  units name -> (forall n, 0 <= n -> zlen (fresh n) = n) -> (forall n, malloc_ok n = true) ->
  if PATH_MAX - 1 <? zlen (utf8_of name) then
    ntfs_ucstombs fresh (Some name) (zlen name) None 0 = Some (-1, None, Some ENAMETOOLONG)
  else
    ntfs_ucstombs fresh (Some name) (zlen name) None 0 = Some (zlen (utf8_of name), Some (utf8_of name ++ [0]), None) /\
    (paired name = true -> ntfs_mbstoucs fresh (Some (utf8_of name)) None = Some (zlen name, Some (name ++ [0]), None)).
Proof.
  intros Hu Hfr Hm. pose proof (ucstombs_units fresh name Hu Hfr Hm) as Hs.
  destruct (PATH_MAX - 1 <? zlen (utf8_of name)); [done|]. destruct Hs. by split.
Qed.

(** ** Arbitrary bytes *)

(** What a character says of the bytes: there is one, and it is within the string. *)
Lemma to_unicode_in s t m wc : utf8_to_unicode s t = (m, wc) -> m <> 0 -> s.[t] <> 0.
Proof. unfold utf8_to_unicode. cbn zeta. destruct (Z.eqb_spec s.[t] 0); [|done]. intros [= <- _]. done. Qed.

Lemma getb_in s t : 0 <= t -> s.[t] <> 0 -> t < zlen s.
Proof.
  intros Ht Hs. destruct (Z.lt_ge_cases t (zlen s)) as [?|Hge]; [done|]. destruct Hs. unfold getb, zlen in *. apply nth_overflow. lia.
Qed.

(** The computation of the size ends, below [PATH_MAX]. *)
Lemma size_total s : forall fuel t o,
  0 <= t -> 0 <= o < PATH_MAX -> zlen s - t < Z.of_nat fuel -> 0 < Z.of_nat fuel -> exists r, utf8_size fuel s t o = Some r /\
  match r with inl n => o <= n < PATH_MAX | inr e => e = ENAMETOOLONG \/ e = EILSEQ end.
Proof.
  induction fuel as [|fuel IH]; intros t o Ht Ho Hf Hf'; [lia|]. cbn [utf8_size].
  assert (forall i n, t < i -> o <= n < PATH_MAX -> s.[t] <> 0 -> exists r, utf8_size fuel s i n = Some r /\
    match r with inl n => o <= n < PATH_MAX | inr e => e = ENAMETOOLONG \/ e = EILSEQ end) as Hrec.
  { intros i n Hi Hn Hb. apply getb_in in Hb; [|done]. destruct (IH i n) as (r & -> & Hr); [lia..|]. exists r. split; [done|].
    destruct r; [lia|done]. }
  clear IH. destruct (Z.eqb_spec s.[t] 0) as [|Hb]; [eexists; split; [done|]; cbn; lia|].
  destruct (Z.leb_spec PATH_MAX (o + 1)); [eexists; split; [done|]; cbn; auto|].
  destruct (0xC0 <=? s.[t]); [|apply Hrec; done || lia]. destruct (0xF5 <=? s.[t]); [eexists; split; [done|]; cbn; auto|].
  destruct (s.[t + 1] =? 0); [eexists; split; [done|]; cbn; lia|]. destruct (s.[t + 1 + 1] =? 0); [eexists; split; [done|]; cbn; lia|].
  set (i := if 0xE0 <=? s.[t] then _ else _). assert (t + 1 < i) by (unfold i; destruct (_ <=? _); lia). clearbody i.
  destruct (s.[i] =? 0); [eexists; split; [done|]; cbn; lia|]. destruct (0xF0 <=? s.[t]); [|apply Hrec; done || lia].
  destruct (Z.leb_spec PATH_MAX (o + 1 + 1)); [eexists; split; [done|]; cbn; auto|]. apply Hrec; done || lia.
Qed.

Lemma size_bound s fuel t o n :
  utf8_size (S fuel) s t o = Some (inl n) -> 0 <= t -> 0 <= o < PATH_MAX -> zlen s - t <= Z.of_nat fuel -> o <= n < PATH_MAX.
Proof.
  intros Hs Ht Ho Hf. destruct (size_total s (S fuel) t o Ht Ho) as (r & Er & Hr); [lia..|]. rewrite Hs in Er. by simplify_eq.
Qed.

(** The conversion stays within a buffer of the computed size. *)
Lemma decode_safe s n : forall fuel t o buf,
  0 <= t -> 0 <= o < PATH_MAX -> zlen s - t <= Z.of_nat fuel -> utf8_size (S fuel) s t o = Some (inl n) -> zlen buf = n + 1 ->
  exists buf' r, decode_loop (S fuel) s t buf o = Some (buf', r) /\ zlen buf' = n + 1 /\
  match r with inl k => o <= k <= n /\ buf'.[k] = 0 | inr e => e = EILSEQ end.
Proof.
  induction fuel as [|fuel IH]; intros t o buf Ht Ho Hf Hs Hb; pose proof (size_bound _ _ _ _ _ Hs Ht Ho ltac:(lia)) as Hon.
  all: destruct (utf8_to_unicode s t) as [m wc] eqn:E; destruct (Z.lt_trichotomy m 0) as [Hm|[->|Hm]].
  1, 4: cbn [decode_loop]; rewrite E; if_true; if_true; by eexists _, _.
  1, 3: cbn [decode_loop]; rewrite E; cbn [Z.leb Z.ltb Z.compare]; rewrite store_some by lia; cbn [mbind option_bind];
    eexists _, _; split; [done|]; rewrite zlen_setb; split; [done|]; split; [lia|]; apply getb_setb_eq; lia.
  all: pose proof (getb_in s t Ht (to_unicode_in _ _ _ _ E ltac:(lia))); try lia.
  rewrite (size_round _ _ _ _ _ _ E Hm) in Hs. destruct (Z.leb_spec PATH_MAX (o + zlen (chars wc))) as [|Hp]; [done|].
  pose proof (zlen_nonneg (chars wc)). pose proof (size_bound _ _ _ _ _ Hs ltac:(lia) ltac:(lia) ltac:(lia)).
  rewrite (decode_round _ _ _ _ _ _ _ E Hm).
  destruct (stores_some buf o (chars wc)) as (buf1 & -> & Hl1 & _); [lia..|]. cbn [mbind option_bind].
  destruct (IH (t + m) (o + zlen (chars wc)) buf1) as (buf' & r & -> & Hl' & Hr'); [lia|lia|lia|done|lia|].
  eexists _, _. split; [done|]. split; [done|]. destruct r; [|done]. split; [lia|apply Hr'].
Qed.

(** C21: the conversion of any byte string, well-formed or not, returns without
    storing outside of the buffer it allocated: it fails with no buffer and one of three
    errors, or gives a terminated string of less than [PATH_MAX] units in a buffer of the
    size that was computed. *)
Theorem mbstoucs_safe `{!Malloc} fresh s :
  (forall n, 0 <= n -> zlen (fresh n) = n) ->
  exists r outs e, ntfs_mbstoucs fresh (Some s) None = Some (r, outs, e) /\
    ((r = -1 /\ outs = None /\ (e = Some EILSEQ \/ e = Some ENAMETOOLONG \/ e = Some ENOMEM)) \/
     (exists buf, outs = Some buf /\ e = None /\ 0 <= r < zlen buf /\ zlen buf <= PATH_MAX /\ buf.[r] = 0)).
Proof.
  intros Hfr. unfold ntfs_mbstoucs, ntfs_utf8_to_utf16, utf8_to_utf16_size.
  destruct (size_total s (S (length s)) 0 0) as (r & Er & Hr); [done|done|unfold zlen; lia|lia|].
  rewrite Er. cbn [mbind option_bind]. destruct r as [n|e]; [|eexists _, _, _; split; [done|]; left; naive_solver].
  destruct (malloc_ok _); [|eexists _, _, _; split; [done|]; left; naive_solver].
  destruct (decode_safe s n (length s) 0 0 (fresh (n + 1))) as (buf & r & -> & Hb & Hk);
    [done|done|unfold zlen; lia|done|apply Hfr; lia|].
  cbn [mbind option_bind]. destruct r as [k|e]; eexists _, _, _; (split; [done|]); [right|left; naive_solver].
  exists buf. split_and!; try done; lia || apply Hk.
Qed.
