(* ===== verification/NtfsBitmap.v ===== *)
(** * Bitmaps of ntfs-3g

    [src/ntfs3g/src/ntfs-3g/bitmap.c]: bits of a field in memory, and runs of bits of a
    bitmap that is stored in an attribute.

    The attribute is reached by the class [AttrOps] of [ntfs_attr_pread] and
    [ntfs_attr_pwrite] ([attrib.c], which is not modelled), with the laws [AttrLaws] of what
    they promise; errors may occur at any call.  A function that returns 0, or -1 with
    [errno] set, returns [None] or [Some errno]. *)

From stdpp Require Import prelude list.
From Stdlib Require Import ZArith Lia.
From S2P Require Import Prelude NtfsTypes.

Local Open Scope Z_scope.

(** ** The attribute of the bitmap *)

Class AttrOps (W : Type) := {
  attr_pread : Z -> Z -> W -> (Z + errno) * list Z * W;
  attr_pwrite : Z -> list Z -> W -> (Z + errno) * W
}.

(** A read gives bytes of the attribute, fewer than asked for or none in case of an error or
    at the end; a write
    within the attribute stores a prefix of the buffer, of the length it returns.  In a
    state that is [served] every request succeeds in full. *)
Class AttrLaws (W : Type) `{!AttrOps W} := {
  attr_bytes : W -> list Z;
  served : W -> Prop;
  attr_pread_law pos count w : 0 <= pos -> 0 <= count ->
    let '(r, data, w') := attr_pread pos count w in
    attr_bytes w' = attr_bytes w /\
    match r with
    | inl n => 0 <= n <= count /\ data = sub (attr_bytes w) pos n /\ zlen data = n
    | inr _ => True
    end;
  attr_pwrite_law pos b w : 0 <= pos -> pos + zlen b <= zlen (attr_bytes w) ->
    let '(r, w') := attr_pwrite pos b w in
    exists n, 0 <= n <= zlen b /\ attr_bytes w' = blit (attr_bytes w) pos (sub b 0 n) /\
      match r with inl k => k = n | inr _ => True end;
  pread_served pos count w : served w -> 0 <= pos -> 0 <= count ->
    let '(r, data, w') := attr_pread pos count w in
    served w' /\ r = inl (Z.max 0 (Z.min count (zlen (attr_bytes w) - pos)));
  pwrite_served pos b w : served w -> 0 <= pos -> pos + zlen b <= zlen (attr_bytes w) ->
    let '(r, w') := attr_pwrite pos b w in served w' /\ r = inl (zlen b)
}.

(** [int] *)
Definition s32 (x : Z) : Z := (x + 2 ^ 31) mod 2 ^ 32 - 2 ^ 31.

(** ** Bits in memory *)

(** [*b |= 1 << k] and [*b &= ~(1 << k)] on a byte. *)
Definition put_bit (b k : Z) (value : bool) : Z :=
  if value then u8 (Z.lor b (Z.shiftl 1 k)) else u8 (Z.land b (Z.lnot (Z.shiftl 1 k))).

(** [bitmap] is [None] for a null pointer. *)
Definition ntfs_bit_set (bitmap : option (list Z)) (bit new_value : Z) : option (list Z) :=
  match bitmap with
  | None => None
  | Some bm =>
      if 1 <? new_value then Some bm else
      let i := Z.shiftr bit 3 in
      Some (setb bm i (put_bit bm.[i] (Z.land bit 7) (negb (new_value =? 0))))
  end.

Definition ntfs_bit_get (bitmap : option (list Z)) (bit : Z) : Z :=
  match bitmap with
  | None => -1
  | Some bm => Z.land (Z.shiftr bm.[Z.shiftr bit 3] (Z.land bit 7)) 1
  end.

Definition ntfs_bit_get_and_set (bitmap : option (list Z)) (bit new_value : Z) : Z * option (list Z) :=
  match bitmap with
  | None => (-1, None)
  | Some bm =>
      if 1 <? new_value then (-1, Some bm) else
      let i := Z.shiftr bit 3 in
      let shift := Z.land bit 7 in
      let old_bit := Z.land (Z.shiftr bm.[i] shift) 1 in
      (old_bit, Some (if negb (new_value =? old_bit) then setb bm i (Z.lxor bm.[i] (Z.shiftl 1 shift)) else bm))
  end.

(** ** Runs of bits *)

(** [while ((bit & 7) && count--)]: the byte and [count]. *)
Fixpoint first_bits (fuel : nat) (b bit count : Z) (value : bool) : Z * Z :=
  match fuel with
  | O => (b, count)
  | S fuel =>
      if Z.land bit 7 =? 0 then (b, count) else
      if count =? 0 then (b, -1) else first_bits fuel (put_bit b bit value) (bit + 1) (count - 1) value
  end.

(** [while (bit && count--)] *)
Fixpoint last_bits (fuel : nat) (b bit count : Z) (value : bool) : Z * Z :=
  match fuel with
  | O => (b, count)
  | S fuel =>
      if bit =? 0 then (b, count) else
      if count =? 0 then (b, -1) else last_bits fuel (put_bit b (bit - 1) value) (bit - 1) (count - 1) value
  end.

(** The variables of the loop. *)
Record run_vars := mkRunVars {
  buf : list Z;
  bufsize : Z;
  start_bit : Z;
  count : Z;
  bit : Z;
  firstbyte : Z;
  lastbyte : Z
}.

Section runs.
Context {W : Type} `{!AttrOps W} `{!Malloc}.
Abbreviation A := (M W).

Definition pread (pos n : Z) : A ((Z + errno) * list Z) := fun w =>
  let '(r, data, w) := attr_pread pos n w in Some ((r, data), w).
Definition pwrite (pos : Z) (b : list Z) : A (Z + errno) := fun w =>
  let '(r, w) := attr_pwrite pos b w in Some (r, w).

(** [if (br != n) { if (br >= 0) errno = EIO; goto free_err_out; }] *)
Definition short (br : Z + errno) (n : Z) : option errno :=
  match br with
  | inl k => if k =? n then None else Some EIO
  | inr e => Some e
  end.

Definition fill (value : bool) : Z := if value then 0xff else 0.

(** The last partial byte, if it is in the buffer. *)
Definition set_last (value : bool) (v : run_vars) : A (run_vars + errno) :=
  if (0 <? count v) && negb (bit v =? 0) then
    let lastbyte_pos := s32 (Z.shiftr (count v + 7) 3 + firstbyte v) in
    if lastbyte_pos =? 0 then mret (inr EIO) else
    if lastbyte_pos <=? bufsize v then
      '(br, data) ← pread (Z.shiftr (start_bit v + count v) 3) 1;
      match short br 1 with
      | Some e => mret (inr e)
      | None =>
          let '(b, n) := last_bits 8 data.[0] (bit v) (count v) value in
          mret (inl (mkRunVars (setb (buf v) (lastbyte_pos - 1) b) (bufsize v) (start_bit v) n 0 (firstbyte v) 1))
      end
    else mret (inl v)
  else mret (inl v).

Definition run_step (value : bool) (v : run_vars) : A (run_vars + option errno) :=
  r ← set_last value v;
  match r with
  | inr e => mret (inr (Some e))
  | inl v =>
      br ← pwrite (s32 (Z.shiftr (start_bit v) 3 - firstbyte v)) (sub (buf v) 0 (bufsize v));
      match short br (bufsize v) with
      | Some e => mret (inr (Some e))
      | None =>
          let tmp := s32 (Z.shiftl (bufsize v - firstbyte v - lastbyte v) 3) in
          let buf := if firstbyte v =? 0 then buf v else setb (buf v) 0 (fill value) in
          let start_bit := start_bit v + tmp in
          let count := count v - tmp in
          let tmp := s32 (Z.shiftr (count + 7) 3) in
          let bufsize := if tmp <? bufsize v then tmp else bufsize v in
          if negb (lastbyte v =? 0) && negb (count =? 0) then mret (inr (Some EIO)) else
          if 0 <? count then mret (inl (mkRunVars buf bufsize start_bit count (bit v) 0 (lastbyte v)))
          else mret (inr None)
      end
  end.

(** More windows than a bitmap has. *)
Definition windows : positive := 2 ^ 64.

(** [na] is not null. *)
Definition ntfs_bitmap_set_bits_in_run (start n : Z) (value : bool) : A (option errno) :=
  if (start <? 0) || (n <? 0) then mret (Some EINVAL) else
  let bit := Z.land start 7 in
  let firstbyte := if bit =? 0 then 0 else 1 in
  let bufsize := Z.shiftr (n - (if bit =? 0 then 0 else 8 - bit) + 7) 3 + firstbyte in
  let bufsize := if 8192 <? bufsize then 8192 else bufsize in
  if negb (malloc_ok bufsize) then mret (Some ENOMEM) else
  let buf := replicate (Z.to_nat bufsize) (fill value) in
  r ← (if bit =? 0 then mret (inl (buf, start, n)) else
       '(br, data) ← pread (Z.shiftr start 3) 1;
       match short br 1 with
       | Some e => mret (inr e)
       | None =>
           let '(b, n) := first_bits 8 data.[0] bit n value in
           mret (inl (setb buf 0 b, Z.land (start + 7) (Z.lnot 7), n))
       end) : A (list Z * Z * Z + errno);
  match r with
  | inr e => mret (Some e)
  | inl (buf, start, n) => iterate windows (run_step value) (mkRunVars buf bufsize start n (Z.land n 7) firstbyte 0)
  end.

Definition ntfs_bitmap_set_run (start n : Z) : A (option errno) := ntfs_bitmap_set_bits_in_run start n true.
Definition ntfs_bitmap_clear_run (start n : Z) : A (option errno) := ntfs_bitmap_set_bits_in_run start n false.
End runs.
