(* ===== verification/BitmapRun.v ===== *)
(** * Setting and clearing runs of bits

    [ntfs_bitmap_set_bits_in_run] changes exactly the bits of the run, whatever the
    alignment of its ends and however many windows of 8 KiB it spans; and no other bit when
    an error cuts it short. *)

From stdpp Require Import prelude list.
From Stdlib Require Import ZArith Lia.
From S2P Require Import Prelude NtfsTypes NtfsBitmap.

Local Open Scope Z_scope.

(** Bit [i] of a bitmap. *)
Definition bit_at (l : list Z) (i : Z) : bool := Z.testbit l.[i / 8] (i mod 8).

Lemma bit_clear buf j : (Z.land buf.[j / 8] (u8 (Z.shiftl 1 (j mod 8))) =? 0) = negb (bit_at buf j).
Proof.
  pose proof (Z.mod_pos_bound j 8 ltac:(lia)) as Hm. unfold bit_at, u8. rewrite Z.shiftl_1_l, Z.mod_small.
  2:{ split; [apply Z.pow_nonneg; lia|apply Z.pow_lt_mono_r; lia]. }
  destruct (Z.testbit buf.[j / 8] (j mod 8)) eqn:E; cbn [negb].
  - apply Z.eqb_neq. intros E'. apply (f_equal (fun z => Z.testbit z (j mod 8))) in E'.
    rewrite Z.land_spec, E, Z.pow2_bits_true, Z.bits_0 in E' by lia. done.
  - apply Z.eqb_eq. apply Z.bits_inj'. intros n Hn. rewrite Z.land_spec, Z.bits_0.
    destruct (Z.eq_dec n (j mod 8)) as [->|]; [by rewrite E|]. rewrite Z.pow2_bits_false by lia. apply andb_false_r.
Qed.
(** ** Bytes *)

Lemma put_bit_spec b k v y :
  0 <= k < 8 -> 0 <= y < 8 -> Z.testbit (put_bit b k v) y = if y =? k then v else Z.testbit b y.
Proof.
  intros Hk Hy. unfold put_bit, u8. destruct v; rewrite Z.mod_pow2_bits_low by lia.
  - rewrite Z.lor_spec, Z.shiftl_spec by lia. destruct (Z.eqb_spec y k) as [->|N].
    + rewrite Z.sub_diag. apply orb_true_r.
    + replace (Z.testbit 1 (y - k)) with false; [apply orb_false_r|]. symmetry.
      destruct (Z.lt_ge_cases (y - k) 0); [by apply Z.testbit_neg_r|]. apply Z.bits_above_log2; [lia|]. cbn. lia.
  - rewrite Z.land_spec, Z.lnot_spec, Z.shiftl_spec by lia. destruct (Z.eqb_spec y k) as [->|N].
    + rewrite Z.sub_diag. apply andb_false_r.
    + replace (Z.testbit 1 (y - k)) with false; [apply andb_true_r|]. symmetry.
      destruct (Z.lt_ge_cases (y - k) 0); [by apply Z.testbit_neg_r|]. apply Z.bits_above_log2; [lia|]. cbn. lia.
Qed.

Lemma fill_spec v y : 0 <= y < 8 -> Z.testbit (fill v) y = v.
Proof. intros Hy. destruct v; [|apply Z.bits_0]. unfold fill. change 0xff with (Z.ones 8). apply Z.ones_spec_low. lia. Qed.

Lemma land7 x : Z.land x 7 = x mod 8.
Proof. change 7 with (Z.ones 3). by rewrite Z.land_ones. Qed.

Lemma shiftr3 x : Z.shiftr x 3 = x / 8.
Proof. by rewrite Z.shiftr_div_pow2. Qed.

(** The bits from [bit] to the end of the byte, [n] of them at most. *)
Lemma first_bits_spec v : forall fuel b bit n,
  0 < bit <= 8 -> 0 <= n -> 8 - bit < Z.of_nat fuel ->
  let '(b', n') := first_bits fuel b bit n v in
  n' = (if n <? 8 - bit then -1 else n - (8 - bit)) /\
  forall y, 0 <= y < 8 -> Z.testbit b' y = if (bit <=? y) && (y <? bit + n) then v else Z.testbit b y.
Proof.
  induction fuel as [|fuel IH]; intros b bit n Hb Hn Hf; [lia|]. cbn [first_bits]. rewrite land7.
  destruct (Z.eqb_spec (bit mod 8) 0) as [E|E].
  { assert (bit = 8) as -> by (destruct (Z.eq_dec bit 8); [done|]; rewrite Z.mod_small in E by lia; lia). split; [if_false; lia|]. intros y Hy. by if_false. }
  assert (bit < 8) by (destruct (Z.eq_dec bit 8) as [->|]; [done|lia]). destruct (Z.eqb_spec n 0) as [->|N].
  { split; [if_true; done|]. intros y Hy. by if_false. }
  specialize (IH (put_bit b bit v) (bit + 1) (n - 1)). destruct (first_bits _ _ _ _ _) as [b' n'].
  destruct IH as [-> Hb']; [lia|lia|lia|]. split.
  - destruct (Z.ltb_spec (n - 1) (8 - (bit + 1))), (Z.ltb_spec n (8 - bit)); lia.
  - intros y Hy. rewrite Hb', put_bit_spec by lia.
    destruct (Z.eqb_spec y bit) as [->|]; [if_true; by rewrite Tauto.if_same|].
    destruct (Z.leb_spec (bit + 1) y), (Z.leb_spec bit y); cbn [andb]; try lia; try done.
    replace (bit + 1 + (n - 1)) with (bit + n) by lia. done.
Qed.

(** The [bit] low bits of the byte. *)
Lemma last_bits_spec v : forall fuel b bit n,
  0 <= bit < 8 -> bit <= n -> bit < Z.of_nat fuel ->
  let '(b', n') := last_bits fuel b bit n v in
  n' = n - bit /\ forall y, 0 <= y < 8 -> Z.testbit b' y = if y <? bit then v else Z.testbit b y.
Proof.
  induction fuel as [|fuel IH]; intros b bit n Hb Hn Hf; [lia|]. cbn [last_bits].
  destruct (Z.eqb_spec bit 0) as [->|N]; [split; [lia|]; intros y Hy; by if_false|]. if_false.
  specialize (IH (put_bit b (bit - 1) v) (bit - 1) (n - 1)). destruct (last_bits _ _ _ _ _) as [b' n'].
  destruct IH as [-> Hb']; [lia|lia|lia|]. split; [lia|]. intros y Hy. rewrite Hb', put_bit_spec by lia.
  destruct (Z.ltb_spec y (bit - 1)), (Z.ltb_spec y bit), (Z.eqb_spec y (bit - 1)); lia || done.
Qed.

(** ** The loop *)

Section run.
Context {W : Type} `{!AttrOps W} `{!AttrLaws W} `{!Malloc}.

Variables (old : list Z) (lo hi : Z) (value : bool).

(** Byte [x] as it is to be: the bits from [lo] to [hi] have the value, the others the one
    they had. *)
Definition good (x b : Z) : Prop :=
  forall y, 0 <= y < 8 -> Z.testbit b y = if (lo <=? 8 * x + y) && (8 * x + y <? hi) then value else Z.testbit old.[x] y.

(** Every byte is as it was or as it is to be. *)
Definition between (w : W) : Prop :=
  zlen (attr_bytes w) = zlen old /\ forall x, 0 <= x < zlen old -> (attr_bytes w).[x] = old.[x] \/ good x (attr_bytes w).[x].

(** The bytes before [p] are as they are to be, the others as they were. *)
Definition upto (p : Z) (w : W) : Prop :=
  zlen (attr_bytes w) = zlen old /\ (forall x, 0 <= x < p -> x < zlen old -> good x (attr_bytes w).[x]) /\
  (forall x, p <= x < zlen old -> (attr_bytes w).[x] = old.[x]).

Lemma upto_between p w : 0 <= p -> upto p w -> between w.
Proof.
  intros Hp (Hl & Hg & Ho). split; [done|]. intros x Hx. destruct (Z.lt_ge_cases x p); [right; apply Hg; lia|left; apply Ho; lia].
Qed.

Lemma good_out x : hi <= 8 * x \/ 8 * x + 8 <= lo -> good x old.[x].
Proof. intros Hx y Hy. by if_false. Qed.

Lemma good_in x : lo <= 8 * x -> 8 * x + 8 <= hi -> good x (fill value).
Proof. intros H1 H2 y Hy. if_true. by apply fill_spec. Qed.

(** A write of bytes that are as they are to be. *)
Lemma write_good p b w :
  0 <= p -> p + zlen b <= zlen old -> upto p w -> (forall j, 0 <= j < zlen b -> good (p + j) b.[j]) ->
  post (pwrite p b) w (fun r w' => between w' /\ (short r (zlen b) = None -> upto (p + zlen b) w') /\
    (served w -> served w' /\ short r (zlen b) = None)).
Proof.
  intros Hp Hpb Hw Hb. unfold pwrite, post. pose proof (attr_pwrite_law p b w Hp) as Hlaw. pose proof (pwrite_served p b w) as Hs.
  destruct Hw as (Hl & Hg & Ho). destruct (attr_pwrite p b w) as [r w'].
  destruct Hlaw as (n & Hn & E & Hr); [lia|].
  assert (zlen (sub b 0 n) = n) as Hsub by (unfold zlen, sub in *; rewrite length_take, drop_0; lia).
  assert (zlen (attr_bytes w') = zlen old) as Hl'.
  { rewrite E. unfold zlen at 1. rewrite length_blit by lia. exact Hl. }
  assert (forall x, 0 <= x -> (attr_bytes w').[x] = if (p <=? x) && (x <? p + n) then b.[x - p] else (attr_bytes w).[x]) as Hx.
  { intros x Hx. rewrite E, getb_blit, Hsub by lia. destruct (_ && _) eqn:Ex; [|done]. rewrite getb_sub by lia. by rewrite Z.add_0_l. }
  split_and!.
  - split; [done|]. intros x Hx'. rewrite Hx by lia. destruct (Z.leb_spec p x), (Z.ltb_spec x (p + n)); cbn [andb].
    + right. replace x with (p + (x - p)) at 1 by lia. apply Hb. lia.
    + left. apply Ho. lia.
    + right. apply Hg; lia.
    + right. apply Hg; lia.
  - intros Hsh. destruct r as [k|e]; cbn in Hsh; [|done]. destruct (Z.eqb_spec k (zlen b)); [|done]. subst n. subst k.
    split_and!; [done| |].
    + intros x Hx1 Hx2. rewrite Hx by lia. destruct (Z.leb_spec p x); cbn [andb].
      * if_true. replace x with (p + (x - p)) at 1 by lia. apply Hb. lia.
      * apply Hg; lia.
    + intros x Hx1. rewrite Hx by lia. if_false. apply Ho. lia.
  - intros Hsv. destruct Hs as [? ->]; [done|lia|lia|]. cbn. rewrite Z.eqb_refl. done.
Qed.

(** A read of one byte. *)
Lemma read_one p w :
  0 <= p < zlen (attr_bytes w) -> post (pread p 1) w (fun '(r, data) w' =>
    attr_bytes w' = attr_bytes w /\ (short r 1 = None -> data.[0] = (attr_bytes w).[p]) /\ (served w -> served w' /\ short r 1 = None)).
Proof.
  intros Hp. unfold pread, post. pose proof (attr_pread_law p 1 w ltac:(lia) ltac:(lia)) as Hlaw. pose proof (pread_served p 1 w) as Hs.
  destruct (attr_pread p 1 w) as [[r data] w']. destruct Hlaw as [E Hr]. split_and!; [done| |].
  - intros Hsh. destruct r as [k|e]; cbn in Hsh; [|done]. destruct (Z.eqb_spec k 1); [|done]. subst k.
    destruct Hr as (_ & -> & _). rewrite getb_sub by lia. f_equal. lia.
  - intros Hsv. destruct Hs as [? ->]; [done|lia|lia|]. rewrite Z.min_l, Z.max_r by lia. done.
Qed.

Lemma s32_small x : - 2 ^ 31 <= x < 2 ^ 31 -> s32 x = x.
Proof. intros Hx. unfold s32. rewrite Z.mod_small by lia. lia. Qed.

Hypothesis Hlo : 0 <= lo <= hi.
Hypothesis Hhi : hi <= 8 * zlen old.
Hypothesis Hold : zlen old < 2 ^ 31 - 1.

(** The variables at the head of the loop, and the place the next write goes to. *)
Record vars_ok (v : run_vars) (p : Z) : Prop := {
  vo_first : firstbyte v = 0 \/ firstbyte v = 1;
  vo_last : lastbyte v = 0;
  vo_start : start_bit v = 8 * (p + firstbyte v);
  vo_lo : firstbyte v = 1 /\ 8 * p < lo < 8 * p + 8 \/ firstbyte v = 0 /\ lo <= 8 * p;
  vo_count : count v = hi - start_bit v /\ 0 <= count v \/ hi < start_bit v /\ count v = -1 /\ firstbyte v = 1;
  vo_bit : bit v = count v mod 8;
  vo_size : bufsize v = Z.min 8192 ((count v + 7) / 8 + firstbyte v);
  vo_buf : bufsize v <= zlen (buf v);
  vo_good : firstbyte v = 1 -> good p (buf v).[0];
  vo_fill : forall j, firstbyte v <= j < zlen (buf v) -> (buf v).[j] = fill value
}.

(** Before the write the buffer is as the bytes are to be. *)
Record vars_done (v v' : run_vars) (p : Z) : Prop := {
  vd_first : firstbyte v' = firstbyte v;
  vd_start : start_bit v' = start_bit v;
  vd_size : bufsize v' = bufsize v;
  vd_len : zlen (buf v') = zlen (buf v);
  vd_good : forall j, 0 <= j < bufsize v -> good (p + j) (buf v').[j];
  vd_last : lastbyte v' = 0 /\ v' = v /\ (count v <= 0 \/ bit v = 0 \/ bufsize v < (count v + 7) / 8 + firstbyte v) \/
    lastbyte v' = 1 /\ 0 < count v /\ 0 < bit v /\ count v' = count v - bit v /\ bufsize v = (count v + 7) / 8 + firstbyte v
}.

(** A byte of the buffer that is not a partial last one. *)
Lemma fill_good v p j :
  vars_ok v p -> 0 <= p -> 0 <= j < bufsize v -> firstbyte v = 1 /\ j = 0 \/ firstbyte v <= j /\ 8 * (j + 1 - firstbyte v) <= count v ->
  good (p + j) (buf v).[j].
Proof.
  intros Hv Hp Hj [[Hf ->]|[Hf Hc]]; [rewrite Z.add_0_r; by apply Hv|].
  destruct Hv as [Hfi _ Hs Hl Hct _ Hsz Hb _ Hfill]. rewrite Hfill by lia. apply good_in; [|destruct Hct; lia].
  destruct Hl; lia.
Qed.

Lemma set_last_spec v p w :
  vars_ok v p -> 0 <= p -> upto p w -> 0 <= zlen (buf v) <= 8192 ->
  post (set_last value v) w (fun r w' => attr_bytes w' = attr_bytes w /\
    match r with inl v' => vars_done v v' p | inr _ => True end /\
    (served w -> served w' /\ exists v', r = inl v')).
Proof.
  intros Hv Hp Hw Hlen. pose proof Hv as [Hf Hla Hs Hl Hc Hb Hsz Hbf Hg Hfi].
  assert (0 <= count v -> start_bit v + count v = hi) as Hend by (destruct Hc; lia).
  unfold set_last. destruct (Z.ltb_spec 0 (count v)) as [Hcp|Hcp]; cbn [andb].
  2:{ apply post_ret. split_and!; [done| |eauto]. split; try done; [|left; split_and!; try done; by left].
      intros j Hj. apply (fill_good v); [done|done|done|]. assert (count v = 0 \/ count v = -1) as [E|E] by (destruct Hc; lia); rewrite E in Hsz;
        [change ((0 + 7) / 8) with 0 in Hsz|change ((-1 + 7) / 8) with 0 in Hsz]; left; destruct Hf; lia. }
  pose proof (Z.mod_pos_bound (count v) 8 ltac:(lia)) as Hbb. rewrite <- Hb in Hbb.
  pose proof (Z.div_mod (count v) 8 ltac:(lia)) as Hdm. rewrite <- Hb in Hdm.
  destruct (Z.eqb_spec (bit v) 0) as [Eb|Nb]; cbn [negb].
  { apply post_ret. split_and!; [done| |eauto]. split; try done; [|left; split_and!; try done; right; by left].
    intros j Hj. apply (fill_good v); [done|done|done|]. assert ((count v + 7) / 8 = count v / 8) as E by zlia. rewrite E in Hsz.
    destruct Hf as [E0|E1]; [right; lia|]. destruct (Z.eq_dec j 0); [left|right]; lia. }
  assert ((count v + 7) / 8 = count v / 8 + 1) as Eq by zlia. rewrite shiftr3, Eq in *. rewrite s32_small by (destruct Hf; zlia). if_false.
  destruct (Z.leb_spec (count v / 8 + 1 + firstbyte v) (bufsize v)) as [Hle|Hgt].
  2:{ apply post_ret. split_and!; [done| |eauto]. split; try done; [|left; split_and!; try done; right; right; by rewrite Eq].
      intros j Hj. apply (fill_good v); [done|done|done|].
      destruct (Z.eq_dec j 0), Hf as [E0|E1]; [right|left|right|right]; lia. }
  rewrite shiftr3. assert ((start_bit v + count v) / 8 = p + firstbyte v + count v / 8) as Ep by (rewrite Hs; zlia). rewrite Ep.
  assert (8 * (p + firstbyte v + count v / 8) + bit v = hi) as Ehi by lia.
  destruct Hw as (Hwl & Hwg & Hwo). apply post_bind. eapply post_mono; [apply read_one; destruct Hf; lia|].
  intros [br data] w' (Ew & Hdata & Hsv). cbn beta iota. destruct (short br 1) as [e|] eqn:Es.
  { apply post_ret. split_and!; [done|done|]. intros Hs'. by destruct (Hsv Hs'). }
  specialize (Hdata eq_refl). rewrite Hwo in Hdata by (destruct Hf; lia).
  pose proof (last_bits_spec value 8 data.[0] (bit v) (count v) ltac:(lia) ltac:(lia) ltac:(lia)) as Hlb.
  destruct (last_bits _ _ _ _ _) as [b n]. destruct Hlb as [-> Hlb]. apply post_ret. split_and!; [done| |].
  2:{ intros Hs'. destruct (Hsv Hs'). eauto. }
  split; try done; cbn [buf bufsize start_bit count bit firstbyte lastbyte].
  - unfold zlen. by rewrite length_setb.
  - intros j Hj. destruct (Z.eq_dec j (count v / 8 + 1 + firstbyte v - 1)) as [->|Nj].
    + rewrite getb_setb_eq by lia. intros y Hy. rewrite Hlb by done. rewrite Hdata.
      replace (p + (count v / 8 + 1 + firstbyte v - 1)) with (p + firstbyte v + count v / 8) by lia.
      rewrite (proj2 (Z.leb_le lo _)) by (destruct Hl, Hf; lia). cbn [andb].
      destruct (Z.ltb_spec y (bit v)), (Z.ltb_spec (8 * (p + firstbyte v + count v / 8) + y) hi); lia || done.
    + rewrite getb_setb_ne by (destruct Hf; lia). apply (fill_good v); [done|done|done|].
      destruct (Z.eq_dec j 0), Hf as [E0|E1]; [right|left|right|right]; lia.
  - right. rewrite Eq. split_and!; [done|lia|lia|done|lia].
Qed.

(** What a round leaves. *)
Lemma run_step_spec v p w :
  vars_ok v p -> 0 <= p -> upto p w -> 0 <= zlen (buf v) <= 8192 ->
  post (run_step value v) w (fun r w' =>
    (served w -> served w' /\ match r with inr (Some _) => False | _ => True end) /\
    match r with
    | inl v' => exists p', 0 <= p' /\ vars_ok v' p' /\ upto p' w' /\ 0 <= zlen (buf v') <= 8192 /\ 0 < count v' < count v
    | inr None => exists p', hi <= 8 * p' /\ 0 <= p' /\ upto p' w'
    | inr (Some _) => between w'
    end).
Proof.
  intros Hv Hp Hw Hlen. pose proof Hv as [Hf Hla Hs Hl Hc Hb Hsz Hbf Hg Hfi]. unfold run_step. apply post_bind.
  eapply post_mono; [by apply set_last_spec|]. intros r w1 (Ew & Hr & Hsv).
  assert (upto p w1) as Hw1 by (unfold upto; by rewrite Ew). destruct r as [v'|e].
  2:{ apply post_ret. split; [|by eapply upto_between]. intros Hs1. destruct (Hsv Hs1) as (_ & v' & ?). done. }
  destruct Hr as [Df Ds Dz Dl Dg Dlast]. rewrite Df, Ds, Dz. clear Ew.
  assert (0 <= (count v + 7) / 8 /\ (count v + 7) / 8 <= zlen old) as [Hq0 Hq1].
  { split; [apply Z.div_pos; lia|]. apply Z.lt_succ_r, Z.div_lt_upper_bound; [lia|]. destruct Hc; lia. }
  assert (0 <= bufsize v) as Hb0 by (destruct Hf; lia).
  assert (Z.shiftr (start_bit v) 3 - firstbyte v = p) as -> by (rewrite shiftr3, Hs, Z.mul_comm, Z.div_mul; lia).
  assert (p + bufsize v <= zlen old) as Hroom.
  { assert (8 * ((count v + 7) / 8) <= count v + 7) by (apply Z.mul_div_le; lia). destruct Hf as [E|E], Hc as [[Ec1 Ec2]|(Ec1 & Ec2 & Ec3)]; lia. }
  rewrite (s32_small p) by lia. assert (zlen (sub (buf v') 0 (bufsize v)) = bufsize v) as Hsub.
  { unfold sub, zlen in *. rewrite length_take, drop_0. lia. }
  apply post_bind. eapply post_mono; [apply (write_good p); [done|by rewrite Hsub|done|]|].
  { rewrite Hsub. intros j Hj. rewrite getb_sub, Z.add_0_l by lia. by apply Dg. }
  rewrite Hsub. intros br w2 (Hbet & Hupto & Hsv2). destruct (short br (bufsize v)) as [e|] eqn:Esh.
  { apply post_ret. split; [|done]. intros Hs1. destruct (Hsv Hs1) as (H1 & _). by destruct (Hsv2 H1). }
  specialize (Hupto eq_refl).
  assert (served w -> served w2) as Hs2 by (intros H1; apply Hsv2, Hsv, H1). clear Hsv Hsv2 Hbet.
  rewrite Z.shiftl_mul_pow2 by lia. change (2 ^ 3) with 8.
  assert (0 <= lastbyte v' <= 1) as Hlb by (destruct Dlast; lia).
  rewrite (s32_small ((bufsize v - firstbyte v - lastbyte v') * 8)) by (destruct Hf; lia).
  pose proof (Z.div_mod (count v) 8 ltac:(lia)) as Hdm. rewrite <- Hb in Hdm.
  pose proof (Z.mod_pos_bound (count v) 8 ltac:(lia)) as Hbb. rewrite <- Hb in Hbb.
  destruct Dlast as [(El & -> & Hnl)|(El & Hcp & Hbp & Ec & Ez)]; rewrite El.
  2:{ rewrite Ec. assert (bufsize v - firstbyte v - 1 = count v / 8) as -> by (rewrite Ez; zlia).
      replace (count v - bit v - count v / 8 * 8) with 0 by lia. cbn [Z.eqb negb andb Z.ltb Z.compare]. apply post_ret.
      split; [auto|]. exists (p + bufsize v). split_and!; [|lia|done]. rewrite Ez. destruct Hc as [[Ec1 Ec2]|?]; [|lia]. zlia. }
  cbn [Z.eqb negb andb]. rewrite Z.sub_0_r. set (tmp := (bufsize v - firstbyte v) * 8).
  destruct (Z.ltb_spec 0 (count v - tmp)) as [Hgo|Hstop]; apply post_ret; (split; [auto|]).
  2:{ exists (p + bufsize v). split_and!; [|lia|done]. unfold tmp in Hstop. destruct Hc as [[Ec1 Ec2]|(Ec1 & Ec2 & Ec3)]; lia. }
  assert (bufsize v = 8192) as E8.
  { destruct (Z.eq_dec (bufsize v) 8192) as [|N]; [done|exfalso]. assert (bufsize v = (count v + 7) / 8 + firstbyte v) as E by lia.
    unfold tmp in Hgo. destruct Hnl as [Hn|[Hn|Hn]]; zlia. }
  assert (tmp = 65536 - 8 * firstbyte v) as Et by (unfold tmp; lia).
  exists (p + bufsize v). cbn [buf bufsize start_bit count bit firstbyte lastbyte].
  assert (zlen (if firstbyte v =? 0 then buf v else setb (buf v) 0 (fill value)) = zlen (buf v)) as Hlb'.
  { destruct (_ =? 0); [done|]. unfold zlen. by rewrite length_setb. }
  split_and!; [lia| |done|lia|lia|lia|destruct Hf; lia].
  assert (0 <= (count v - tmp + 7) / 8 <= zlen old) as [Hr0 Hr1].
  { split; [apply Z.div_pos; lia|]. apply Z.lt_succ_r, Z.div_lt_upper_bound; [lia|]. destruct Hc, Hf; lia. }
  split; cbn [buf bufsize start_bit count bit firstbyte lastbyte]; [by left|done|lia| | | | | |done|].
  - right. split; [done|]. destruct Hl, Hf; lia.
  - left. destruct Hc as [[Ec1 Ec2]|?]; lia.
  - rewrite Hb. unfold tmp. by rewrite <- (Z.mod_add (count v - _) (bufsize v - firstbyte v)), Z.sub_add by lia.
  - rewrite shiftr3, s32_small by lia. destruct (Z.ltb_spec ((count v - tmp + 7) / 8) (bufsize v)); lia.
  - rewrite Hlb'. rewrite shiftr3, s32_small by lia. destruct (Z.ltb_spec ((count v - tmp + 7) / 8) (bufsize v)); lia.
  - rewrite Hlb'. intros j Hj. destruct (Z.eqb_spec (firstbyte v) 0) as [E0|N0]; [apply Hfi; lia|].
    destruct (Z.eq_dec j 0) as [->|]; [apply getb_setb_eq; lia|]. rewrite getb_setb_ne by lia. apply Hfi. destruct Hf; lia.
Qed.
End run.

(** ** The run *)

Lemma getb_replicate n v j : 0 <= j < n -> (replicate (Z.to_nat n) v).[j] = v.
Proof. intros Hj. unfold getb. rewrite nth_lookup, lookup_replicate_2; [done|lia]. Qed.

Lemma good_bit old lo hi value l x y :
  0 <= y < 8 -> good old lo hi value x l.[x] ->
  bit_at l (8 * x + y) = if (lo <=? 8 * x + y) && (8 * x + y <? hi) then value else bit_at old (8 * x + y).
Proof.
  intros Hy Hg. unfold bit_at. assert ((8 * x + y) / 8 = x /\ (8 * x + y) mod 8 = y) as [-> ->] by (split; zlia). by apply Hg.
Qed.

Section set_run.
Context {W : Type} `{!AttrOps W} `{!AttrLaws W} `{!Malloc}.

(** What the run of bits from [start] on becomes. *)
Definition run_bits (old : list Z) (start n : Z) (value : bool) (i : Z) : bool :=
  if (start <=? i) && (i <? start + n) then value else bit_at old i.

Lemma between_bits old start n value w i :
  between old start (start + n) value w -> 0 <= i < 8 * zlen old ->
  bit_at (attr_bytes w) i = bit_at old i \/ bit_at (attr_bytes w) i = run_bits old start n value i.
Proof.
  intros [Hl Hb] Hi. destruct (Hb (i / 8)) as [E|E]; [zlia|left; unfold bit_at; by rewrite E|right].
  pose proof (good_bit _ _ _ _ _ _ (i mod 8) (Z.mod_pos_bound i 8 ltac:(lia)) E) as Hg.
  rewrite <- Z.div_mod in Hg by lia. exact Hg.
Qed.

Lemma upto_bits old start n value w p i :
  upto old start (start + n) value p w -> start + n <= 8 * p -> 0 <= i < 8 * zlen old ->
  bit_at (attr_bytes w) i = run_bits old start n value i.
Proof.
  intros (Hl & Hg & Ho) Hp Hi. assert (good old start (start + n) value (i / 8) (attr_bytes w).[i / 8]) as E.
  { destruct (Z.lt_ge_cases (i / 8) p); [apply Hg; zlia|]. rewrite Ho by zlia. apply good_out. lia. }
  pose proof (good_bit _ _ _ _ _ _ (i mod 8) (Z.mod_pos_bound i 8 ltac:(lia)) E) as Hb.
  rewrite <- Z.div_mod in Hb by lia. exact Hb.
Qed.

Lemma upto_start old lo hi value w p : attr_bytes w = old -> 8 * p <= lo -> upto old lo hi value p w.
Proof.
  intros E Hp. split_and!; [by rewrite E| |by rewrite E]. intros x Hx _. rewrite E. apply good_out. lia.
Qed.

(** The result, when all of the loop has been done. *)
Lemma run_loop v p w old start n value :
  0 <= start -> 0 <= n -> start + n <= 8 * zlen old -> zlen old < 2 ^ 31 - 1 ->
  vars_ok old start (start + n) value v p -> 0 <= p -> upto old start (start + n) value p w -> 0 <= zlen (buf v) <= 8192 ->
  post (iterate windows (run_step value) v) w (fun r w' =>
    between old start (start + n) value w' /\
    (r = None -> exists p', start + n <= 8 * p' /\ upto old start (start + n) value p' w') /\
    (served w -> served w' /\ r = None)).
Proof.
  intros Hst Hn Hb Hold Hv Hp Hw Hl.
  eapply (post_iterate (run_step value) (fun v k s => (served w -> served s) /\ k = Z.max 0 (count v) /\ exists p,
    vars_ok old start (start + n) value v p /\ 0 <= p /\ upto old start (start + n) value p s /\ 0 <= zlen (buf v) <= 8192)) with (k := Z.max 0 (count v)).
  - intros v1 k w1 (Hsv & -> & p1 & Hv1 & Hp1 & Hw1 & Hl1).
    eapply post_mono; [apply (run_step_spec old start (start + n) value ltac:(lia) Hb Hold v1 p1 w1 Hv1 Hp1 Hw1 Hl1)|]. intros [v2|[e|]] w2 [Hs2 Hr].
    + destruct Hr as (p2 & Hp2 & Hv2 & Hw2 & Hl2 & Hc2). eexists. split; [|split_and!; [intros H1; apply Hs2, Hsv, H1|reflexivity|eauto]]. lia.
    + split_and!; [done|done|]. intros H1. by destruct (Hs2 (Hsv H1)).
    + destruct Hr as (p2 & Hp2 & Hp0 & Hw2). split_and!; [by eapply upto_between|eauto|]. intros H1. split; [apply Hs2, Hsv, H1|done].
  - split_and!; [done|done|eauto].
  - assert (count v <= 8 * zlen old); [|unfold windows; lia]. destruct Hv as [Hf _ Hs _ Hc _ _ _ _ _]. destruct Hc, Hf; lia.
Qed.

(** The bitmap after the run has been set, or after an error. *)
Record run_set (w : W) (start n : Z) (value : bool) (r : option errno) (w' : W) : Prop := {
  rs_size : zlen (attr_bytes w') = zlen (attr_bytes w);
  rs_some i : 0 <= i < 8 * zlen (attr_bytes w) ->
    bit_at (attr_bytes w') i = bit_at (attr_bytes w) i \/ bit_at (attr_bytes w') i = run_bits (attr_bytes w) start n value i;
  rs_all i : r = None -> 0 <= i < 8 * zlen (attr_bytes w) -> bit_at (attr_bytes w') i = run_bits (attr_bytes w) start n value i;
  rs_served : served w -> served w' /\ (r = None \/ r = Some ENOMEM /\ attr_bytes w' = attr_bytes w /\ exists k, malloc_ok k = false)
}.

(** An error before anything is written. *)
Lemma run_unset w start n value e w' :
  attr_bytes w' = attr_bytes w -> (served w -> served w' /\ e = ENOMEM /\ exists k, malloc_ok k = false) -> run_set w start n value (Some e) w'.
Proof. intros E Hs. split; rewrite ?E; [done|by left|done|]. intros Hsv. destruct (Hs Hsv) as (? & -> & ?). auto. Qed.

Lemma set_bits_spec start n value w :
  0 <= start -> 0 <= n -> start + n <= 8 * zlen (attr_bytes w) -> zlen (attr_bytes w) < 2 ^ 31 - 1 ->
  post (ntfs_bitmap_set_bits_in_run start n value) w (run_set w start n value).
Proof.
  intros Hst Hn Hb Hold. set (old := attr_bytes w) in *. unfold ntfs_bitmap_set_bits_in_run. if_false. rewrite land7, !shiftr3.
  set (bt := start mod 8). set (first := if bt =? 0 then 0 else 1). set (bs := if 8192 <? _ then _ else _).
  assert (bs = Z.min 8192 ((n - (if bt =? 0 then 0 else 8 - bt) + 7) / 8 + first)) as Ebs by (unfold bs; destruct (Z.ltb_spec 8192 ((n - (if bt =? 0 then 0 else 8 - bt) + 7) / 8 + first)); lia).
  assert (bt = 0 /\ first = 0 \/ bt <> 0 /\ first = 1) as Hfirst by (unfold first; destruct (Z.eqb_spec bt 0); auto). clearbody bs first.
  assert (0 <= bt < 8) as Hbt by (apply Z.mod_pos_bound; lia). pose proof (Z.div_mod start 8 ltac:(lia)) as Hdm. fold bt in Hdm.
  destruct (malloc_ok bs) eqn:Em; cbn [negb]; [|apply post_ret, run_unset; eauto].
  assert (forall w1 buf p n1 s1, attr_bytes w1 = old -> (served w -> served w1) ->
    zlen buf = bs -> 0 <= bs <= 8192 ->
    vars_ok old start (start + n) value (mkRunVars buf bs s1 n1 (n1 mod 8) first 0) p -> p = start / 8 ->
    post (iterate windows (run_step value) (mkRunVars buf bs s1 n1 (n1 mod 8) first 0)) w1 (run_set w start n value)) as Hloop.
  { intros w1 bf p n1 s1 Ew Hsv Hlen Hbs Hv ->. eapply post_mono.
    - apply (run_loop _ (start / 8) w1 old start n value); try done; [zlia| |cbn; lia]. by apply upto_start; [|lia].
    - intros r w' (Hbet & Hall & Hs'). split; [apply Hbet|intros i Hi; by apply between_bits| |].
      + intros i -> Hi. destruct (Hall eq_refl) as (p' & Hp' & Hu). by eapply upto_bits.
      + intros H1. destruct (Hs' (Hsv H1)) as [? ->]. auto. }
  assert (zlen (replicate (Z.to_nat bs) (fill value)) = Z.max 0 bs) as Hrep by (unfold zlen; rewrite length_replicate; lia).
  destruct (Z.eqb_spec bt 0) as [E0|N0].
  { assert (first = 0) as -> by lia. assert (0 <= (n + 7) / 8) by (apply Z.div_pos; lia). rewrite Z.sub_0_r in Ebs. mstep. mstep. rewrite land7.
    eapply Hloop; [done|done|lia|lia| |done].
    split; cbn [buf bufsize start_bit count bit firstbyte lastbyte]; [by left|done|lia|right; lia|left; lia|done|done|lia|done|].
    intros j Hj. apply getb_replicate. lia. }
  assert (first = 1) as -> by lia. mstep. eapply post_bind, post_mono; [apply read_one; fold old; zlia|].
  intros [br data] w1 (Ew & Hdata & Hsv). destruct (short br 1) as [e|] eqn:Es.
  { repeat mstep. apply run_unset; [done|]. intros H1. by destruct (Hsv H1). }
  specialize (Hdata eq_refl). fold old in Hdata. pose proof (first_bits_spec value 8 data.[0] bt n ltac:(lia) Hn ltac:(lia)) as Hfb.
  destruct (first_bits _ _ _ _ _) as [b n1]. destruct Hfb as [En1 Hfb]. rewrite Hdata in Hfb. mstep. cbn beta iota.
  assert (Z.land (start + 7) (Z.lnot 7) = 8 * (start / 8 + 1)) as ->.
  { rewrite <- Z.ldiff_land. change 7 with (Z.ones 3) at 2. rewrite Z.ldiff_ones_r, Z.shiftr_div_pow2, Z.shiftl_mul_pow2 by lia.
    change (2 ^ 3) with 8. zlia. }
  rewrite land7. assert ((n - (8 - bt) + 7) / 8 = (n1 + 7) / 8) as Eq.
  { rewrite En1. destruct (Z.ltb_spec n (8 - bt)); [|done]. zlia. }
  assert (0 <= (n1 + 7) / 8) by (apply Z.div_pos; [destruct (Z.ltb_spec n (8 - bt)); lia|lia]).
  assert (zlen (setb (replicate (Z.to_nat bs) (fill value)) 0 b) = bs) as Hlen.
  { unfold zlen in *. rewrite length_setb. lia. }
  eapply Hloop; [done|intros H1; apply Hsv, H1|done|lia| |done].
  split; cbn [buf bufsize start_bit count bit firstbyte lastbyte]; [by right|done|done|left; lia| |done| |lia| |].
  - rewrite En1. destruct (Z.ltb_spec n (8 - bt)); [right|left]; lia.
  - lia.
  - intros _. rewrite getb_setb_eq by lia. intros y Hy. rewrite Hfb by done.
    destruct (Z.leb_spec bt y), (Z.leb_spec start (8 * (start / 8) + y)); cbn [andb]; try lia; try done.
    destruct (Z.ltb_spec y (bt + n)), (Z.ltb_spec (8 * (start / 8) + y) (start + n)); lia || done.
  - intros j Hj. rewrite getb_setb_ne by lia. apply getb_replicate. lia.
Qed.
End set_run.

(** C10: [ntfs_bitmap_set_bits_in_run], with which runs of clusters are marked as
    used or free, returns; it changes no bit outside of the run even if a transfer fails
    on the way, and when it returns 0 the run has the value and nothing else changed.  It
    does not fail on an attribute that serves all requests, unless memory is short. *)
Theorem bitmap_run_exact {W} `{!AttrOps W} `{!AttrLaws W} `{!Malloc} (w : W) start n value :
  0 <= start -> 0 <= n -> start + n <= 8 * zlen (attr_bytes w) -> zlen (attr_bytes w) < 2 ^ 31 - 1 ->
  exists r w', ntfs_bitmap_set_bits_in_run start n value w = Some (r, w') /\
  let inside i := start <= i < start + n in
  (forall i, 0 <= i < 8 * zlen (attr_bytes w) -> ~ inside i -> bit_at (attr_bytes w') i = bit_at (attr_bytes w) i) /\
  (forall i, inside i -> bit_at (attr_bytes w') i = bit_at (attr_bytes w) i \/ bit_at (attr_bytes w') i = value) /\
  (r = None -> forall i, inside i -> bit_at (attr_bytes w') i = value) /\
  (served w -> (forall k, malloc_ok k = true) -> r = None).
Proof.
  intros Hs Hn Hb Ho. destruct (post_run _ _ _ (set_bits_spec start n value w Hs Hn Hb Ho)) as (r & w' & E & Hr).
  exists r, w'. split; [exact E|]. intros inside. split_and!.
  - intros i Hi Hni. assert (run_bits (attr_bytes w) start n value i = bit_at (attr_bytes w) i) as E' by (unfold run_bits, inside in *; by if_false).
    destruct (rs_some _ _ _ _ _ _ Hr i Hi) as [->| ->]; done.
  - intros i Hi. unfold inside in Hi. assert (run_bits (attr_bytes w) start n value i = value) as E' by (unfold run_bits; by if_true).
    rewrite <- E'. apply (rs_some _ _ _ _ _ _ Hr). lia.
  - intros -> i Hi. unfold inside in Hi. rewrite (rs_all _ _ _ _ _ _ Hr i eq_refl) by lia. unfold run_bits. by if_true.
  - intros H1 H2. destruct (rs_served _ _ _ _ _ _ Hr H1) as [_ [->|(_ & _ & k & Hk)]]; [done|]. by rewrite H2 in Hk.
Qed.
