(* ===== verification/NtfsAlloc.v ===== *)
(** * Allocation of clusters on an NTFS volume

    [src/ntfs3g/src/ntfs-3g/lcnalloc.c]: clusters are taken from and given back to the
    bitmap of the volume, the attribute behind [vol->lcnbmp_na] ([AttrOps]).

    A runlist under construction is the list of its elements; the terminator is added at
    the end.  [None] is the null pointer, [errno] is a member of the state ([None] is 0). *)

From stdpp Require Import prelude list.
From Stdlib Require Import ZArith Lia.
From S2P Require Import Prelude NtfsTypes Runlist NtfsBitmap.

Local Open Scope Z_scope.

Definition NTFS_LCNALLOC_BSIZE := 4096.
Definition NTFS_LCNALLOC_SKIP := NTFS_LCNALLOC_BSIZE.

Definition ZONE_MFT := 1.
Definition ZONE_DATA1 := 2.
Definition ZONE_DATA2 := 4.

Inductive NTFS_CLUSTER_ALLOCATION_ZONES := MFT_ZONE | DATA_ZONE.

(** The members of [ntfs_volume] the allocator uses, and [errno]. *)
Record lcn_volume W := mkLcnVolume {
  lcnbmp_na : W;
  nr_clusters : Z;
  mft_lcn : Z;
  mft_zone_start : Z;
  mft_zone_end : Z;
  mft_zone_pos : Z;
  data1_zone_pos : Z;
  data2_zone_pos : Z;
  full_zones : Z;
  NVolFreeSpaceKnown : bool;
  free_clusters : Z;
  v_errno : option errno
}.
Arguments mkLcnVolume {W}.
Arguments lcnbmp_na {W}.
Arguments nr_clusters {W}.
Arguments mft_lcn {W}.
Arguments mft_zone_start {W}.
Arguments mft_zone_end {W}.
Arguments mft_zone_pos {W}.
Arguments data1_zone_pos {W}.
Arguments data2_zone_pos {W}.
Arguments full_zones {W}.
Arguments NVolFreeSpaceKnown {W}.
Arguments free_clusters {W}.
Arguments v_errno {W}.

Section setters.
Context {W : Type}.
Implicit Types v : lcn_volume W.

Definition with_na (w : W) v := mkLcnVolume w (nr_clusters v) (mft_lcn v) (mft_zone_start v) (mft_zone_end v)
  (mft_zone_pos v) (data1_zone_pos v) (data2_zone_pos v) (full_zones v) (NVolFreeSpaceKnown v) (free_clusters v) (v_errno v).
Definition with_pos (m d1 d2 : Z) v := mkLcnVolume (lcnbmp_na v) (nr_clusters v) (mft_lcn v) (mft_zone_start v) (mft_zone_end v)
  m d1 d2 (full_zones v) (NVolFreeSpaceKnown v) (free_clusters v) (v_errno v).
Definition with_full (f : Z) v := mkLcnVolume (lcnbmp_na v) (nr_clusters v) (mft_lcn v) (mft_zone_start v) (mft_zone_end v)
  (mft_zone_pos v) (data1_zone_pos v) (data2_zone_pos v) f (NVolFreeSpaceKnown v) (free_clusters v) (v_errno v).
Definition with_free (n : Z) v := mkLcnVolume (lcnbmp_na v) (nr_clusters v) (mft_lcn v) (mft_zone_start v) (mft_zone_end v)
  (mft_zone_pos v) (data1_zone_pos v) (data2_zone_pos v) (full_zones v) (NVolFreeSpaceKnown v) n (v_errno v).
Definition with_errno (e : option errno) v := mkLcnVolume (lcnbmp_na v) (nr_clusters v) (mft_lcn v) (mft_zone_start v) (mft_zone_end v)
  (mft_zone_pos v) (data1_zone_pos v) (data2_zone_pos v) (full_zones v) (NVolFreeSpaceKnown v) (free_clusters v) e.

(** ** The zones *)

Definition ntfs_cluster_set_zone_pos (start end_ pos tc : Z) : Z :=
  if end_ <=? tc then start else if start <=? tc then tc else pos.

Definition ntfs_cluster_update_zone_pos (zone tc : Z) v : lcn_volume W :=
  if zone =? ZONE_MFT then
    with_pos (ntfs_cluster_set_zone_pos (mft_lcn v) (mft_zone_end v) (mft_zone_pos v) tc) (data1_zone_pos v) (data2_zone_pos v) v
  else if zone =? ZONE_DATA1 then
    with_pos (mft_zone_pos v) (ntfs_cluster_set_zone_pos (mft_zone_end v) (nr_clusters v) (data1_zone_pos v) tc) (data2_zone_pos v) v
  else
    with_pos (mft_zone_pos v) (data1_zone_pos v) (ntfs_cluster_set_zone_pos 0 (mft_zone_start v) (data2_zone_pos v) tc) v.

(** [if (vol->full_zones & zone) { ... }] *)
Definition unmark_zone (zone lcn : Z) v : lcn_volume W :=
  if Z.land (full_zones v) zone =? 0 then v else
  let v := ntfs_cluster_update_zone_pos zone lcn v in
  with_full (Z.land (full_zones v) (Z.lnot zone)) v.
Definition update_full_status (lcn : Z) v : lcn_volume W :=
  if mft_zone_end v <=? lcn then unmark_zone ZONE_DATA1 lcn v
  else if lcn <? mft_zone_start v then unmark_zone ZONE_DATA2 lcn v
  else unmark_zone ZONE_MFT lcn v.
End setters.

(** ** The longest run of free bits *)

(** The equal bytes at the head. *)
Fixpoint leading (b : Z) (l : list Z) : nat :=
  match l with
  | x :: l => if x =? b then S (leading b l) else O
  | [] => O
  end.

(** The bits of a byte: [run], [max_range] and [start_pos]. *)
Fixpoint byte_range (n : nat) (b i j run max_range start_pos : Z) : Z * Z * Z :=
  match n with
  | O => (run, max_range, start_pos)
  | S n =>
      if Z.land b (Z.shiftl 1 j) =? 0 then byte_range n b i (j + 1) (run + 1) max_range start_pos
      else if max_range <? run then byte_range n b i (j + 1) 0 run (i * 8 + (j - run))
      else byte_range n b i (j + 1) 0 max_range start_pos
  end.

Fixpoint empty_range (fuel : nat) (l : list Z) (i run max_range start_pos : Z) : option Z :=
  match fuel with
  | O => None
  | S fuel =>
      match l with
      | [] => Some (if max_range <? run then i * 8 - run else start_pos)
      | b :: l' =>
          if b =? 0 then
            let k := leading 0 l in
            empty_range fuel (drop k l) (i + Z.of_nat k) (run + 8 * Z.of_nat k) max_range start_pos
          else if b =? 255 then
            let k := leading 255 l in
            let '(max_range, start_pos) := if max_range <? run then (run, i * 8 - run) else (max_range, start_pos) in
            empty_range fuel (drop k l) (i + Z.of_nat k) 0 max_range start_pos
          else
            let '(run, max_range, start_pos) := byte_range 8 b i 0 run max_range start_pos in
            empty_range fuel l' (i + 1) run max_range start_pos
      end
  end.
Definition max_empty_bit_range (buf : list Z) : Z :=
  default (-1) (empty_range (S (List.length buf)) buf 0 0 0 (-1)).

(** ** Allocation *)

(** The variables of [ntfs_cluster_alloc]; [rlpos] is the number of elements of [rl]. *)
Record alloc_vars := mkAllocVars {
  zone_start : Z;
  zone_end : Z;
  bmp_pos : Z;
  prev_lcn : Z;
  prev_run_len : Z;
  clusters : Z;
  rl : runlist;
  rlsize : Z;
  pass : Z;
  search_zone : Z;
  done_zones : Z;
  has_guess : bool;
  used_zone_pos : bool
}.

Definition at_zone (zs ze bp p sz dz : Z) (used : bool) (a : alloc_vars) : alloc_vars :=
  mkAllocVars zs ze bp (prev_lcn a) (prev_run_len a) (clusters a) (rl a) (rlsize a) p sz dz (has_guess a) used.
Definition guessed (g : bool) (a : alloc_vars) : alloc_vars :=
  mkAllocVars (zone_start a) (zone_end a) (bmp_pos a) (prev_lcn a) (prev_run_len a) (clusters a) (rl a) (rlsize a) (pass a)
    (search_zone a) (done_zones a) g (used_zone_pos a).
Definition at_bit (bp : Z) (a : alloc_vars) : alloc_vars :=
  mkAllocVars (zone_start a) (zone_end a) bp (prev_lcn a) (prev_run_len a) (clusters a) (rl a) (rlsize a) (pass a)
    (search_zone a) (done_zones a) (has_guess a) (used_zone_pos a).

(** The last element of a runlist with a new length. *)
Definition set_last_length (rl : runlist) (n : Z) : runlist :=
  match rev rl with
  | r :: rs => rev rs ++ [mkRun (vcn r) (lcn r) n]
  | [] => []
  end.

(** The bit at [x] was allocated: coalesce with the previous run, or append a new one. *)
Definition add_cluster (start_vcn x sz : Z) (a : alloc_vars) : alloc_vars :=
  let rlpos := List.length (rl a) in
  if (prev_lcn a =? x - prev_run_len a) && negb (Nat.eqb rlpos 0) then
    mkAllocVars (zone_start a) (zone_end a) (bmp_pos a) (prev_lcn a) (prev_run_len a + 1) (clusters a - 1)
      (set_last_length (rl a) (prev_run_len a + 1)) sz (pass a) (search_zone a) (done_zones a) (has_guess a) (used_zone_pos a)
  else
    let v := if Nat.eqb rlpos 0 then start_vcn else vcn (run_at (rl a) (rlpos - 1)) + prev_run_len a in
    mkAllocVars (zone_start a) (zone_end a) (bmp_pos a) x 1 (clusters a - 1)
      (rl a ++ [mkRun v x 1]) sz (pass a) (search_zone a) (done_zones a) (has_guess a) (used_zone_pos a).

(** Add the terminator. *)
Definition terminated (rl : runlist) : runlist :=
  let r := run_at rl (List.length rl - 1) in rl ++ [mkRun (vcn r + length r) LCN_RL_NOT_MAPPED 0].

(** Why the search of a window ended: all of it was searched, the last cluster was
    allocated, or there is no memory for the runlist. *)
Inductive window_end := Searched | Done | NoMemory.

Section alloc.
Context {W : Type} `{!AttrOps W} `{!Malloc}.
Abbreviation V := (M (lcn_volume W)).

Definition set_errno (e : errno) : V unit := modify (with_errno (Some e)).

(** A computation on the bitmap. *)
Definition on_na {A} (m : M W A) : V A := fun v =>
  match m (lcnbmp_na v) with
  | Some (a, w) => Some (a, with_na w v)
  | None => None
  end.

(** -1 and [errno] on error. *)
Definition na_pread (pos n : Z) : V (Z * list Z) :=
  '(br, data) ← on_na (pread pos n);
  match br with inl k => mret (k, data) | inr e => set_errno e;; mret (-1, data) end.
Definition na_pwrite (pos : Z) (b : list Z) : V Z :=
  br ← on_na (pwrite pos b);
  match br with inl k => mret k | inr e => set_errno e;; mret (-1) end.
(** Whether it failed. *)
Definition na_clear_run (start n : Z) : V bool :=
  r ← on_na (ntfs_bitmap_clear_run start n);
  match r with None => mret false | Some e => set_errno e;; mret true end.

(** Whether it failed; the bytes read are [buf]. *)
Definition bitmap_writeback (pos : Z) (buf : list Z) (writeback : bool) : V bool :=
  if negb writeback then mret false else
  written ← na_pwrite pos buf;
  if negb (written =? zlen buf) then
    (if written =? 0 then set_errno EIO else mret tt);; mret true
  else mret false.

Fixpoint free_runs (rl : runlist) (nr_freed : Z) : V (bool * Z) :=
  match rl with
  | [] => mret (false, nr_freed)
  | r :: rl =>
      if length r =? 0 then mret (false, nr_freed) else
      if 0 <=? lcn r then
        modify (update_full_status (lcn r));;
        failed ← na_clear_run (lcn r) (length r);
        if failed : bool then mret (true, nr_freed) else free_runs rl (nr_freed + length r)
      else free_runs rl nr_freed
  end.
(** Whether it failed. *)
Definition ntfs_cluster_free_from_rl (rl : runlist) : V bool :=
  '(failed, nr_freed) ← free_runs rl 0;
  modify (fun v => with_free (free_clusters v + nr_freed) v);;
  mret failed.

Definition ntfs_cluster_free_basic (lcn count : Z) : V bool :=
  '(failed, nr_freed) ← (if 0 <=? lcn then
      modify (update_full_status lcn);;
      failed ← na_clear_run lcn count;
      mret (failed : bool, if failed : bool then 0 else count)
    else mret (false, 0)) : V (bool * Z);
  modify (fun v => with_free (free_clusters v + nr_freed) v);;
  mret failed.

(** A round of the search of a window: [buf] holds the bytes read, [lcn] is the bit in it.
    The result is what the window was left with, [buf] and [writeback]. *)
Definition window_step (start_vcn : Z) '(a, buf, lcn, writeback) :
    V (alloc_vars * list Z * Z * bool + window_end * alloc_vars * list Z * Z * bool) :=
  if negb (lcn <? 8 * zlen buf) then mret (inr (Searched, a, buf, lcn, writeback)) else
  let i := Z.shiftr lcn 3 in
  let bit := u8 (Z.shiftl 1 (Z.land lcn 7)) in
  if has_guess a then
    if negb (Z.land buf.[i] bit =? 0) then mret (inr (Searched, guessed false a, buf, lcn, writeback)) else
    let full := rlsize a <=? (Z.of_nat (List.length (rl a)) + 2) * 24 in
    let sz := if full then rlsize a + 4096 else rlsize a in
    if full && negb (malloc_ok sz) then mret (inr (NoMemory, a, buf, lcn, writeback)) else
    let buf := setb buf i (Z.lor buf.[i] bit) in
    modify (fun v => if NVolFreeSpaceKnown v && (0 <? free_clusters v) then with_free (free_clusters v - 1) v else v);;
    let a := add_cluster start_vcn (lcn + bmp_pos a) sz a in
    if clusters a =? 0 then mret (inr (Done, a, buf, lcn, true)) else
    mret (inl (a, buf, lcn + 1, true))
  else
    let lcn := max_empty_bit_range buf in
    if lcn <? 0 then mret (inr (Searched, a, buf, lcn, writeback)) else
    mret (inl (guessed true a, buf, lcn, writeback)).

(** [err_ret]: give back what was allocated. *)
Definition alloc_fail (rl : runlist) (err : option errno) : V (option runlist) :=
  match rl with
  | [] => mret tt
  | _ => ntfs_cluster_free_from_rl (terminated rl);; mret tt
  end;;
  match err with Some e => set_errno e | None => mret tt end;;
  mret None.

(** Where the search of a zone starts. *)
Definition zone_pos (zone : Z) (v : lcn_volume W) : Z :=
  if zone =? ZONE_MFT then mft_zone_pos v else if zone =? ZONE_DATA1 then data1_zone_pos v else data2_zone_pos v.

(** [done_zones_check]: the next zone, unless all are done. *)
Definition zone_step (a : alloc_vars) : V (alloc_vars + option alloc_vars) :=
  let done := Z.lor (done_zones a) (search_zone a) in
  modify (fun v => with_full (Z.lor (full_zones v) (search_zone a)) v);;
  if negb (done <? ZONE_MFT + ZONE_DATA1 + ZONE_DATA2) then mret (inr None) else
  (if negb (Nat.eqb (List.length (rl a)) 0) && used_zone_pos a then
     let r := run_at (rl a) (List.length (rl a) - 1) in
     modify (ntfs_cluster_update_zone_pos (search_zone a) (lcn r + length r + NTFS_LCNALLOC_SKIP))
   else mret tt);;
  v ← gets id;
  let data1 := (ZONE_DATA1, data1_zone_pos v, nr_clusters v, data1_zone_pos v =? mft_zone_end v) in
  let '(zone, zs, ze, at_start) :=
    if search_zone a =? ZONE_MFT then data1
    else if search_zone a =? ZONE_DATA1 then (ZONE_DATA2, data2_zone_pos v, mft_zone_start v, data2_zone_pos v =? 0)
    else if Z.land done ZONE_DATA1 =? 0 then data1
    else (ZONE_MFT, mft_zone_pos v, mft_zone_end v, mft_zone_pos v =? mft_zone_start v) in
  let a := at_zone zs ze zs (if at_start : bool then 2 else 1) zone done (used_zone_pos a) a in
  if zs =? ze then mret (inl a) else mret (inr (Some a)).

(** [zone_pass_done] *)
Definition pass_done (a : alloc_vars) : V (alloc_vars + option runlist) :=
  if pass a =? 1 then
    v ← gets id;
    let base := if search_zone a =? ZONE_MFT then mft_zone_start v
                else if search_zone a =? ZONE_DATA1 then mft_zone_end v else 0 in
    let ze := if zone_start a <? base then base else zone_start a in
    mret (inl (at_zone base ze base 2 (search_zone a) (done_zones a) (used_zone_pos a) a))
  else
    r ← iterate 8 zone_step a;
    match r with
    | Some a => mret (inl a)
    | None => r ← alloc_fail (rl a) (Some ENOSPC); mret (inr r)
    end.

(** [if (!used_zone_pos) { ... } else bmp_pos += buf_size] *)
Definition next_window (a : alloc_vars) (buf_size : Z) : V alloc_vars :=
  if used_zone_pos a then mret (at_bit (bmp_pos a + buf_size) a) else
  v ← gets id;
  let zs := zone_pos (search_zone a) v in
  let p := if (zs =? 0) || (zs =? mft_zone_start v) || (zs =? mft_zone_end v) then 2 else pass a in
  mret (at_zone zs (zone_end a) zs p (search_zone a) (done_zones a) true a).

(** More rounds than a window has bits. *)
Definition bits : positive := 2 ^ 17.

Definition alloc_round (start_vcn : Z) (a : alloc_vars) : V (alloc_vars + option runlist) :=
  v ← gets id;
  if negb (Z.land (search_zone a) (full_zones v) =? 0) then pass_done a else
  let last_read_pos := Z.shiftr (bmp_pos a) 3 in
  '(br, buf) ← na_pread last_read_pos NTFS_LCNALLOC_BSIZE;
  if br =? 0 then pass_done a else
  if br <? 0 then
    v ← gets id;
    r ← alloc_fail (rl a) (v_errno v); mret (inr r)
  else
  let buf_size := 8 * br in
  let lcn := Z.land (bmp_pos a) 7 in
  let a := at_bit (Z.land (bmp_pos a) (Z.lnot 7)) a in
  '(why, a, buf, lcn, writeback) ← iterate bits (window_step start_vcn) (a, buf, lcn, false);
  match why with
  | Searched =>
      failed ← bitmap_writeback last_read_pos buf writeback;
      if failed : bool then
        v ← gets id;
        r ← alloc_fail (rl a) (v_errno v); mret (inr r)
      else
      a ← next_window a buf_size;
      if bmp_pos a <? zone_end a then mret (inl a) else pass_done a
  | Done =>
      (if used_zone_pos a then
         modify (ntfs_cluster_update_zone_pos (search_zone a) (lcn + bmp_pos a + 1 + NTFS_LCNALLOC_SKIP))
       else mret tt);;
      failed ← bitmap_writeback last_read_pos buf writeback;
      if failed : bool then
        v ← gets id;
        r ← alloc_fail (rl a) (v_errno v); mret (inr r)
      else mret (inr (Some (terminated (rl a))))
  | NoMemory =>
      failed ← bitmap_writeback last_read_pos buf writeback;
      v ← gets id;
      r ← alloc_fail (rl a) (if failed : bool then v_errno v else Some ENOMEM); mret (inr r)
  end.

(** [vol] and its bitmap are not null. *)
Definition ntfs_cluster_alloc (start_vcn count start_lcn : Z) (zone : NTFS_CLUSTER_ALLOCATION_ZONES) : V (option runlist) :=
  if (count <? 0) || (start_lcn <? -1) then set_errno EINVAL;; mret None else
  if count =? 0 then
    if malloc_ok 0x1000 then mret (Some [mkRun start_vcn LCN_RL_NOT_MAPPED 0]) else set_errno ENOMEM;; mret None
  else if negb (malloc_ok NTFS_LCNALLOC_BSIZE) then set_errno ENOMEM;; mret None else
  v ← gets id;
  let guess := 0 <=? start_lcn in
  let zs := if guess then start_lcn else match zone with DATA_ZONE => data1_zone_pos v | MFT_ZONE => mft_zone_pos v end in
  let p := if (zs =? 0) || (zs =? mft_zone_start v) || (zs =? mft_zone_end v) then 2 else 1 in
  let '(ze, sz) := if zs <? mft_zone_start v then (mft_zone_start v, ZONE_DATA2)
                   else if zs <? mft_zone_end v then (mft_zone_end v, ZONE_MFT) else (nr_clusters v, ZONE_DATA1) in
  iterate windows (alloc_round start_vcn) (mkAllocVars zs ze zs 0 0 count [] 0 p sz 0 guess (negb guess)).

(** ** Freeing the clusters of an attribute *)

(** The rest of the runs, [count] of their clusters at most unless it is -1: whether an
    error occurred, and the number of clusters freed. *)
Fixpoint free_count (rl : runlist) (count nr_freed : Z) : V (bool * Z) :=
  match rl with
  | [] => mret (false, nr_freed)
  | r :: rl' =>
      if (length r =? 0) || (count =? 0) then
        if negb (count =? -1) && negb (count =? 0) then set_errno EIO;; mret (true, nr_freed) else mret (false, nr_freed)
      else
      if (lcn r <? 0) && negb (lcn r =? LCN_HOLE) then set_errno EIO;; mret (true, nr_freed) else
      let to_free := if (0 <=? count) && (count <? length r) then count else length r in
      let rest := if 0 <=? count then count - to_free else count in
      if negb (lcn r =? LCN_HOLE) then
        modify (update_full_status (lcn r));;
        failed ← na_clear_run (lcn r) to_free;
        if failed : bool then mret (true, nr_freed) else free_count rl' rest (nr_freed + to_free)
      else free_count rl' rest nr_freed
  end.

(** [found] is the runlist from the element that [ntfs_attr_find_vcn] finds for [start_vcn] on,
    or the error it set. *)
Definition ntfs_cluster_free (found : runlist + errno) (start_vcn count : Z) : V Z :=
  if (start_vcn <? 0) || (count <? 0) && negb (count =? -1) then set_errno EINVAL;; mret (-1) else
  match found with
  | inr e => set_errno e;; mret (if decide (e = ENOENT) then 0 else -1)
  | inl [] => mret (-1)
  | inl (r :: rl) =>
      if (lcn r <? 0) && negb (lcn r =? LCN_HOLE) then set_errno EIO;; mret (-1) else
      let delta := start_vcn - vcn r in
      let to_free := length r - delta in
      let to_free := if (0 <=? count) && (count <? to_free) then count else to_free in
      failed ← (if negb (lcn r =? LCN_HOLE) then
                  modify (update_full_status (lcn r + delta));; na_clear_run (lcn r + delta) to_free
                else mret false) : V bool;
      if failed : bool then mret (-1) else
      let nr_freed := if lcn r =? LCN_HOLE then 0 else to_free in
      '(bad, nr_freed) ← free_count rl (if 0 <=? count then count - to_free else count) nr_freed;
      modify (fun v => with_free (free_clusters v + nr_freed) v);;
      mret (if bad : bool then -1 else s32 nr_freed)
  end.
End alloc.
