(* ===== verification/AllocRuns.v ===== *)
(** * The clusters of a runlist under construction

    What the cluster allocator keeps while it collects clusters, and the bits of the
    bitmap that go with them. *)

From stdpp Require Import prelude list.
From Stdlib Require Import ZArith Lia.
From S2P Require Import Prelude NtfsTypes Runlist NtfsBitmap BitmapRun NtfsAlloc.

Local Open Scope Z_scope.

Definition clusters_of (rl : runlist) : list Z := rl ≫= fun r => seqZ (lcn r) (length r).

(** The elements follow each other from [v] on and map clusters. *)
Fixpoint runs_ok (v : Z) (rl : runlist) : Prop :=
  match rl with
  | [] => True
  | r :: rl => vcn r = v /\ 0 < length r /\ 0 <= lcn r /\ runs_ok (v + length r) rl
  end.

Lemma clusters_app rl rl' : clusters_of (rl ++ rl') = clusters_of rl ++ clusters_of rl'.
Proof. apply bind_app. Qed.

Lemma clusters_one r : clusters_of [r] = seqZ (lcn r) (length r).
Proof. unfold clusters_of. cbn. apply app_nil_r. Qed.

Lemma runs_ok_app v rl rl' :
  runs_ok v (rl ++ rl') <-> runs_ok v rl /\ runs_ok (v + zlen (clusters_of rl)) rl'.
Proof.
  revert v. induction rl as [|r rl IH]; intros v; cbn [app runs_ok].
  - change (zlen (clusters_of [])) with 0. rewrite Z.add_0_r. tauto.
  - change (r :: rl) with ([r] ++ rl). rewrite clusters_app, clusters_one, zlen_app, IH.
    assert (0 < length r -> zlen (seqZ (lcn r) (length r)) = length r) as Hl by (intros; unfold zlen; rewrite length_seqZ; lia).
    split.
    + intros (? & ? & ? & ? & ?). rewrite Hl, Z.add_assoc by done. tauto.
    + intros ((? & Hp & ? & ?) & H'). rewrite Hl, Z.add_assoc in H' by done. tauto.
Qed.

Lemma seqZ_snoc m n : 0 <= n -> seqZ m (n + 1) = seqZ m n ++ [m + n].
Proof. intros Hn. rewrite seqZ_app by lia. done. Qed.

Lemma run_at_last rl r : run_at (rl ++ [r]) (List.length (rl ++ [r]) - 1) = r.
Proof.
  unfold run_at. rewrite length_app. cbn [List.length].
  rewrite app_nth2 by lia. replace (_ - _)%nat with 0%nat by lia. done.
Qed.

Lemma set_last_length_snoc rl r n : set_last_length (rl ++ [r]) n = rl ++ [mkRun (vcn r) (lcn r) n].
Proof. unfold set_last_length. rewrite rev_app_distr. cbn [rev app]. by rewrite rev_involutive. Qed.

(** ** The invariant of the allocation *)

Section old.
Variables (old : list Z) (start_vcn count0 : Z).

(** The bit of a cluster, with the clusters [cs] allocated. *)
Definition marked (cs : list Z) (i : Z) : bool := bit_at old i || bool_decide (i ∈ cs).

(** The clusters collected so far are new and different. *)
Record collected (a : alloc_vars) : Prop := {
  co_runs : runs_ok start_vcn (rl a);
  co_len : zlen (clusters_of (rl a)) = count0 - clusters a;
  co_left : 0 <= clusters a;
  co_free i : i ∈ clusters_of (rl a) -> 0 <= i < 8 * zlen old /\ bit_at old i = false;
  co_nodup : NoDup (clusters_of (rl a));
  co_prev : rl a <> [] -> exists rs v, rl a = rs ++ [mkRun v (prev_lcn a) (prev_run_len a)]
}.

Lemma add_cluster_clusters x sz a :
  collected a -> 0 <= x ->
  clusters_of (rl (add_cluster start_vcn x sz a)) = clusters_of (rl a) ++ [x] /\
  runs_ok start_vcn (rl (add_cluster start_vcn x sz a)) /\
  (exists rs v, rl (add_cluster start_vcn x sz a) =
    rs ++ [mkRun v (prev_lcn (add_cluster start_vcn x sz a)) (prev_run_len (add_cluster start_vcn x sz a))]).
Proof.
  intros Hc Hx. unfold add_cluster. destruct (decide (rl a = [])) as [E|N].
  - rewrite E. cbn [List.length Nat.eqb negb]. rewrite andb_false_r. cbn [rl prev_lcn prev_run_len app].
    split_and!; [done|cbn; lia|]. by exists [], start_vcn.
  - destruct (co_prev _ Hc N) as (rs & v & E). pose proof (co_runs _ Hc) as Hr. rewrite E in *.
    apply runs_ok_app in Hr as [Hr1 (Hv & Hl & Hlc & _)]. cbn [vcn lcn length] in *.
    assert (Nat.eqb (List.length (rs ++ [mkRun v (prev_lcn a) (prev_run_len a)])) 0 = false) as ->
      by (apply Nat.eqb_neq; rewrite length_app; cbn; lia).
    rewrite clusters_app, clusters_one. cbn [vcn lcn length]. cbn [negb]. rewrite andb_true_r.
    destruct (Z.eqb_spec (prev_lcn a) (x - prev_run_len a)) as [Ex|Nx]; cbn [rl prev_lcn prev_run_len].
    + rewrite set_last_length_snoc, clusters_app, clusters_one. cbn [vcn lcn length]. split_and!.
      * rewrite seqZ_snoc, app_assoc by lia. do 2 f_equal. f_equal. lia.
      * apply runs_ok_app. split; [done|]. cbn. lia.
      * eauto.
    + rewrite run_at_last, !clusters_app, !clusters_one. cbn [vcn lcn length]. split_and!; [done| |eauto].
      apply runs_ok_app. rewrite clusters_app, clusters_one, zlen_app. cbn [vcn lcn length].
      assert (zlen (seqZ (prev_lcn a) (prev_run_len a)) = prev_run_len a) as -> by (unfold zlen; rewrite length_seqZ; lia).
      split; [apply runs_ok_app; split; [done|cbn; lia]|]. cbn. lia.
Qed.

Lemma add_cluster_collected x sz a :
  collected a -> 0 < clusters a -> 0 <= x < 8 * zlen old -> marked (clusters_of (rl a)) x = false ->
  collected (add_cluster start_vcn x sz a) /\ clusters_of (rl (add_cluster start_vcn x sz a)) = clusters_of (rl a) ++ [x] /\
  clusters (add_cluster start_vcn x sz a) = clusters a - 1.
Proof.
  intros Hc Hp Hx Hm. destruct (add_cluster_clusters x sz a Hc ltac:(lia)) as (E & Hr & Hl).
  assert (clusters (add_cluster start_vcn x sz a) = clusters a - 1) as En by (unfold add_cluster; by destruct (_ && _)).
  unfold marked in Hm. apply orb_false_iff in Hm as [Hb Hn]. apply bool_decide_eq_false in Hn.
  split_and!; [|done|done]. split; [done| |lia| | |done].
  - rewrite E, zlen_app, En, (co_len _ Hc). change (zlen [x]) with 1. lia.
  - rewrite E. intros i [Hi|Hi]%elem_of_app; [by apply (co_free _ Hc)|]. apply list_elem_of_singleton in Hi as ->. done.
  - rewrite E. apply NoDup_app. split_and!; [apply Hc| |apply NoDup_singleton].
    intros i Hi Hi'. apply list_elem_of_singleton in Hi' as ->. done.
Qed.

(** Nothing but the collection changes. *)
Record same_place (a a' : alloc_vars) : Prop := {
  sp_start : zone_start a' = zone_start a;
  sp_end : zone_end a' = zone_end a;
  sp_pos : bmp_pos a' = bmp_pos a;
  sp_pass : pass a' = pass a;
  sp_zone : search_zone a' = search_zone a;
  sp_done : done_zones a' = done_zones a;
  sp_used : used_zone_pos a' = used_zone_pos a
}.

Lemma same_place_refl a : same_place a a.
Proof. by split. Qed.

Lemma same_place_trans a b c : same_place a b -> same_place b c -> same_place a c.
Proof. intros [] []. split; congruence. Qed.

Lemma add_cluster_place x sz a : same_place a (add_cluster start_vcn x sz a).
Proof. unfold add_cluster. destruct (_ && _); by split. Qed.

Lemma add_cluster_guess x sz a : has_guess (add_cluster start_vcn x sz a) = has_guess a.
Proof. unfold add_cluster. by destruct (_ && _). Qed.

(** The buffer holds the bits from byte [p] on. *)
Definition window (buf : list Z) (p : Z) (cs : list Z) : Prop :=
  forall j, 0 <= j < 8 * zlen buf -> bit_at buf j = marked cs (8 * p + j).

Lemma bit_at_set buf j k :
  0 <= j < 8 * zlen buf -> 0 <= k ->
  bit_at (setb buf (j / 8) (Z.lor buf.[j / 8] (u8 (Z.shiftl 1 (j mod 8))))) k = bit_at buf k || (k =? j).
Proof.
  intros Hj Hk. unfold bit_at. pose proof (Z.mod_pos_bound j 8 ltac:(lia)) as Hm. pose proof (Z.mod_pos_bound k 8 ltac:(lia)) as Hmk.
  pose proof (Z.div_mod j 8 ltac:(lia)). pose proof (Z.div_mod k 8 ltac:(lia)).
  assert (0 <= j / 8 < zlen buf) by (split; [apply Z.div_pos; lia|apply Z.div_lt_upper_bound; lia]).
  destruct (Z.eq_dec (k / 8) (j / 8)) as [E|N].
  - rewrite E, getb_setb_eq by done. rewrite Z.lor_spec. f_equal. unfold u8. rewrite Z.mod_pow2_bits_low, Z.shiftl_spec by lia.
    destruct (Z.eqb_spec k j) as [->|Nk]; [by rewrite Z.sub_diag|].
    destruct (Z.lt_ge_cases (k mod 8 - j mod 8) 0); [by apply Z.testbit_neg_r|]. apply Z.bits_above_log2; [lia|]. cbn. lia.
  - rewrite getb_setb_ne by (try done; apply Z.div_pos; lia). replace (k =? j) with false by (symmetry; apply Z.eqb_neq; intros ->; done).
    by rewrite orb_false_r.
Qed.

Lemma window_set buf p cs j :
  window buf p cs -> 0 <= j < 8 * zlen buf ->
  window (setb buf (j / 8) (Z.lor buf.[j / 8] (u8 (Z.shiftl 1 (j mod 8))))) p (cs ++ [8 * p + j]).
Proof.
  intros Hw Hj k Hk. unfold zlen in Hk. rewrite length_setb in Hk. rewrite bit_at_set, Hw by (done || lia).
  unfold marked. rewrite <- orb_assoc. f_equal. apply eq_true_iff_eq. rewrite orb_true_iff, !bool_decide_eq_true, Z.eqb_eq, elem_of_app, list_elem_of_singleton. split; intros [?|?]; (by left) || (right; lia).
Qed.
End old.
