(* ===== verification/MaxRange.v ===== *)
(** * The longest run of free bits

    [max_empty_bit_range], which goes through a window of the bitmap by bytes and skips
    the full and the empty ones, finds a longest run of free bits in it. *)

From stdpp Require Import prelude list.
From Stdlib Require Import ZArith Lia.
From S2P Require Import Prelude NtfsTypes NtfsBitmap BitmapRun NtfsAlloc.

Local Open Scope Z_scope.

Section range.
Variable buf : list Z.

Definition clear (s e : Z) : Prop := forall i, s <= i < e -> bit_at buf i = false.

(** What is known of the bits before [q]: the free ones at the end are [run], no run is
    longer than [run] and [m], and [s] is the start of one of length [m], if any. *)
Record searched (q run m s : Z) : Prop := {
  se_run : 0 <= run <= q;
  se_clear : clear (q - run) q;
  se_end x : 0 <= x <= q -> clear x q -> q - x <= run;
  se_max x e : 0 <= x <= e -> e <= q -> clear x e -> e - x <= Z.max m run;
  se_best : m = 0 /\ s = -1 \/ 0 < m /\ 0 <= s /\ s + m <= q /\ clear s (s + m)
}.

Lemma searched_clear q run m s : searched q run m s -> bit_at buf q = false -> searched (q + 1) (run + 1) m s.
Proof.
  intros [Hr Hc He Hm Hb] Hq. split; [lia| | | |].
  - intros i Hi. destruct (Z.eq_dec i q) as [->|]; [done|]. apply Hc. lia.
  - intros x Hx Hx'. destruct (Z.eq_dec x (q + 1)) as [->|]; [lia|]. enough (q - x <= run) by lia. apply He; [lia|]. intros i Hi. apply Hx'. lia.
  - intros x e Hx Hq' Hx'. destruct (Z.eq_dec e (q + 1)) as [->|].
    + destruct (Z.eq_dec x (q + 1)) as [->|]; [lia|]. enough (q - x <= run) by lia. apply He; [lia|]. intros i Hi. apply Hx'. lia.
    + enough (e - x <= Z.max m run) by lia. apply Hm; [done|lia|done].
  - destruct Hb as [?|?]; [by left|right; lia || (split_and!; try lia; apply H)].
Qed.

Lemma searched_set q run m s :
  searched q run m s -> bit_at buf q = true ->
  searched (q + 1) 0 (if m <? run then run else m) (if m <? run then q - run else s).
Proof.
  intros [Hr Hc He Hm Hb] Hq. split; [lia| | | |].
  - intros i Hi. lia.
  - intros x Hx Hx'. destruct (Z.eq_dec x (q + 1)) as [->|]; [lia|]. rewrite Hx' in Hq by lia. done.
  - intros x e Hx Hq' Hx'. destruct (Z.eq_dec e (q + 1)) as [->|].
    + destruct (Z.eq_dec x (q + 1)) as [->|]; [destruct (Z.ltb_spec m run), Hb; lia|]. rewrite Hx' in Hq by lia. done.
    + specialize (Hm x e Hx ltac:(lia) Hx'). destruct (Z.ltb_spec m run); lia.
  - destruct (Z.ltb_spec m run).
    + right. split_and!; [destruct Hb; lia|lia|lia|]. replace (q - run + run) with q by lia. done.
    + destruct Hb as [?|(? & ? & ? & ?)]; [by left|right; split_and!; try done; lia].
Qed.

Lemma searched_clears n q run m s :
  searched q run m s -> (forall j, 0 <= j < Z.of_nat n -> bit_at buf (q + j) = false) ->
  searched (q + Z.of_nat n) (run + Z.of_nat n) m s.
Proof.
  induction n as [|n IH]; intros Hs Hb; [by rewrite !Z.add_0_r|]. rewrite Nat2Z.inj_succ, !Z.add_succ_r.
  apply searched_clear; [apply IH; [done|]; intros j Hj|]; apply Hb; lia.
Qed.

Lemma searched_sets n q run m s :
  searched q run m s -> (forall j, 0 <= j < Z.of_nat (S n) -> bit_at buf (q + j) = true) ->
  searched (q + Z.of_nat (S n)) 0 (if m <? run then run else m) (if m <? run then q - run else s).
Proof.
  induction n as [|n IH]; intros Hs Hb.
  - apply searched_set; [done|]. rewrite <- (Z.add_0_r q). apply Hb. lia.
  - rewrite Nat2Z.inj_succ, Z.add_succ_r.
    assert (searched (q + Z.of_nat (S n)) 0 (if m <? run then run else m) (if m <? run then q - run else s)) as Hs' by (apply IH; [done|]; intros j Hj; apply Hb; lia).
    pose proof (searched_set _ _ _ _ Hs' (Hb (Z.of_nat (S n)) ltac:(lia))) as Hs2.
    assert (((if m <? run then run else m) <? 0) = false) as E by (apply Z.ltb_ge; destruct (se_best _ _ _ _ Hs'); lia). rewrite E in Hs2. exact Hs2.
Qed.

(** Byte [i] and its bits. *)
Lemma byte_bit i j : 0 <= i -> 0 <= j < 8 -> bit_at buf (i * 8 + j) = Z.testbit buf.[i] j.
Proof. intros Hi Hj. unfold bit_at. f_equal; [f_equal|]; zlia. Qed.

Lemma byte_range_spec i : forall n j run m s,
  0 <= i -> 0 <= j -> j + Z.of_nat n = 8 -> searched (i * 8 + j) run m s ->
  let '(run', m', s') := byte_range n buf.[i] i j run m s in searched (i * 8 + 8) run' m' s'.
Proof.
  induction n as [|n IH]; intros j run m s Hi Hj Hn Hs; cbn [byte_range].
  { replace j with 8 in Hs by lia. done. }
  assert ((Z.land buf.[i] (Z.shiftl 1 j) =? 0) = negb (Z.testbit buf.[i] j)) as ->.
  { pose proof (bit_clear buf (i * 8 + j)) as Hb. replace ((i * 8 + j) / 8) with i in Hb by zlia. replace ((i * 8 + j) mod 8) with j in Hb by zlia.
    rewrite byte_bit in Hb by lia. rewrite <- Hb. f_equal. f_equal. unfold u8. symmetry. apply Z.mod_small. rewrite Z.shiftl_1_l.
    split; [apply Z.pow_nonneg; lia|apply Z.pow_lt_mono_r; lia]. }
  assert (bit_at buf (i * 8 + j) = Z.testbit buf.[i] j) as Hb by (apply byte_bit; lia).
  destruct (Z.testbit buf.[i] j); cbn [negb].
  - pose proof (searched_set _ _ _ _ Hs Hb) as Hs'. replace (i * 8 + j + 1) with (i * 8 + (j + 1)) in Hs' by lia.
    destruct (m <? run); apply IH; try lia; [|done]. replace (i * 8 + (j - run)) with (i * 8 + j - run) by lia. done.
  - apply IH; try lia. replace (i * 8 + (j + 1)) with (i * 8 + j + 1) by lia. by apply searched_clear.
Qed.

Lemma leading_spec b l k : (k < leading b l)%nat -> nth k l 0 = b.
Proof.
  revert k. induction l as [|x l IH]; intros k Hk; cbn [leading] in Hk; [lia|].
  destruct (Z.eqb_spec x b) as [->|]; [|lia]. destruct k as [|k]; [done|]. apply IH. lia.
Qed.

Lemma leading_le b l : (leading b l <= List.length l)%nat.
Proof. induction l as [|x l IH]; cbn; [lia|]. destruct (x =? b); lia. Qed.

Lemma drop_nth (l : list Z) i k : nth k (drop i l) 0 = nth (i + k) l 0.
Proof. by rewrite !nth_lookup, lookup_drop. Qed.

Lemma byte_at l i k : 0 <= i -> l = drop (Z.to_nat i) buf -> buf.[i + Z.of_nat k] = nth k l 0.
Proof. intros Hi ->. rewrite drop_nth. unfold getb. f_equal. lia. Qed.

(** The result: a longest run of free bits, -1 if there is none. *)
Definition longest (r : Z) : Prop :=
  (r = -1 /\ forall i, 0 <= i < 8 * zlen buf -> bit_at buf i = true) \/
  (0 <= r /\ exists n, 0 < n /\ r + n <= 8 * zlen buf /\ clear r (r + n) /\
    forall x e, 0 <= x <= e -> e <= 8 * zlen buf -> clear x e -> e - x <= n).

Lemma empty_range_spec : forall fuel l i run m s,
  0 <= i <= zlen buf -> l = drop (Z.to_nat i) buf -> (List.length l < fuel)%nat -> searched (i * 8) run m s ->
  exists r, empty_range fuel l i run m s = Some r /\ longest r.
Proof.
  induction fuel as [|fuel IH]; intros l i run m s Hi Hl Hf Hs; [lia|]. cbn [empty_range].
  assert (zlen buf = i + zlen l) as Hz by (rewrite Hl; unfold zlen in *; rewrite length_drop; lia).
  assert (forall b k, (k < leading b l)%nat -> buf.[i + Z.of_nat k] = b) as Hlead.
  { intros b k Hk. rewrite (byte_at l) by (done || lia). by apply leading_spec. }
  assert (forall k run' m' s', (0 < k <= List.length l)%nat -> searched ((i + Z.of_nat k) * 8) run' m' s' ->
    exists r, empty_range fuel (drop k l) (i + Z.of_nat k) run' m' s' = Some r /\ longest r) as Hrec.
  { intros k run' m' s' Hk Hs'. apply IH; [unfold zlen in *; lia| |rewrite length_drop; lia|done]. rewrite Hl, drop_drop. f_equal. lia. }
  destruct l as [|b l].
  { eexists. split; [done|]. change (zlen (@nil Z)) with 0 in Hz. destruct Hs as [Hr Hc He Hm Hb].
    destruct (Z.ltb_spec m run).
    - right. split; [lia|]. exists run. split_and!; [destruct Hb; lia|lia| |].
      + replace (i * 8 - run + run) with (i * 8) by lia. done.
      + intros x e Hx He' Hxe. specialize (Hm x e Hx ltac:(lia) Hxe). lia.
    - destruct Hb as [[-> ->]|(Hm0 & Hs0 & Hsm & Hcl)].
      + left. split; [done|]. intros x Hx. destruct (bit_at buf x) eqn:E; [done|].
        specialize (Hm x (x + 1) ltac:(lia) ltac:(lia)). enough (clear x (x + 1)) by (specialize (Hm ltac:(done)); lia).
        intros y Hy. by replace y with x by lia.
      + right. split; [done|]. exists m. split_and!; [done|lia|done|]. intros x e Hx He' Hxe. specialize (Hm x e Hx ltac:(lia) Hxe). lia. }
  pose proof (byte_at _ i 0 ltac:(lia) Hl) as Eb. rewrite Z.add_0_r in Eb. cbn [nth] in Eb.
  destruct (Z.eqb_spec b 0) as [->|N0]; [|destruct (Z.eqb_spec b 255) as [->|N255]].
  - apply Hrec; [cbn [leading]; pose proof (leading_le 0 l); cbn; lia|]. set (k := leading 0 (0 :: l)) in *.
    replace ((i + Z.of_nat k) * 8) with (i * 8 + Z.of_nat (8 * k)) by lia. replace (8 * Z.of_nat k) with (Z.of_nat (8 * k)) by lia.
    apply searched_clears; [done|]. intros j Hj. replace (i * 8 + j) with ((i + Z.of_nat (Z.to_nat (j / 8))) * 8 + j mod 8) by zlia.
    rewrite byte_bit, (Hlead 0) by zlia. apply Z.bits_0.
  - assert (leading 255 (255 :: l) = S (leading 255 l)) as Ek by done.
    assert (searched ((i + Z.of_nat (leading 255 (255 :: l))) * 8) 0 (if m <? run then run else m) (if m <? run then i * 8 - run else s)) as Hs'.
    { set (k := leading 255 (255 :: l)) in *. replace ((i + Z.of_nat k) * 8) with (i * 8 + Z.of_nat (S (8 * k - 1))) by lia.
      apply searched_sets; [done|]. intros j Hj. replace (i * 8 + j) with ((i + Z.of_nat (Z.to_nat (j / 8))) * 8 + j mod 8) by zlia.
      rewrite byte_bit, (Hlead 255) by zlia. change 255 with (Z.ones 8). apply Z.ones_spec_low. zlia. }
    pose proof (leading_le 255 l). destruct (m <? run); apply Hrec; cbn [List.length]; (lia || exact Hs').
  - pose proof (byte_range_spec i 8 0 run m s ltac:(lia) ltac:(lia) ltac:(done)) as Hbr. rewrite Z.add_0_r, Eb in Hbr. specialize (Hbr Hs).
    destruct (byte_range _ _ _ _ _ _ _) as [[run' m'] s']. apply (Hrec 1%nat); [cbn; lia|].
    by replace ((i + Z.of_nat 1) * 8) with (i * 8 + 8) by lia.
Qed.

Lemma max_empty_spec : longest (max_empty_bit_range buf).
Proof.
  unfold max_empty_bit_range. destruct (empty_range_spec (S (List.length buf)) buf 0 0 0 (-1)) as (r & -> & Hr); [unfold zlen; lia|done|lia| |done].
  split; [lia| | | |by left]; [intros i Hi; lia|intros; lia|intros; lia].
Qed.
End range.

(** C32: in any window of the bitmap [max_empty_bit_range] returns the start of a
    longest run of free bits, or -1 when no bit of it is free. *)
Theorem max_empty_longest buf :
  let r := max_empty_bit_range buf in
  let free s e := forall i, s <= i < e -> bit_at buf i = false in
  (r = -1 /\ forall i, 0 <= i < 8 * zlen buf -> bit_at buf i = true) \/
  (0 <= r /\ exists n, 0 < n /\ r + n <= 8 * zlen buf /\ free r (r + n) /\
    forall x e, 0 <= x <= e -> e <= 8 * zlen buf -> free x e -> e - x <= n).
Proof. exact (max_empty_spec buf). Qed.
