(* ===== verification/ClusterFree.v ===== *)
(** * Giving clusters back

    Freeing the clusters of a runlist clears exactly their bits; it is also how a failed
    allocation is undone. *)

From stdpp Require Import prelude list.
From Stdlib Require Import ZArith Lia.
From S2P Require Import Prelude NtfsTypes Runlist NtfsBitmap BitmapRun NtfsAlloc AllocRuns.

Local Open Scope Z_scope.

Section free.
Context {W : Type} `{!AttrOps W} `{!AttrLaws W} `{!Malloc}.
Implicit Types v : lcn_volume W.

Abbreviation bitmap v := (attr_bytes (lcnbmp_na v)).

(** The members that say where the zones are; the positions are in the volume. *)
Record zones_ok v : Prop := {
  zo_lcn : 0 <= mft_lcn v;
  zo_start : 0 <= mft_zone_start v;
  zo_end : 0 <= mft_zone_end v;
  zo_mft : 0 <= mft_zone_pos v;
  zo_data1 : 0 <= data1_zone_pos v;
  zo_data2 : 0 <= data2_zone_pos v
}.

(** Only the bitmap, the number of free clusters and [errno] change. *)
Record same_zones v v' : Prop := {
  sz_nr : nr_clusters v' = nr_clusters v;
  sz_lcn : mft_lcn v' = mft_lcn v;
  sz_start : mft_zone_start v' = mft_zone_start v;
  sz_end : mft_zone_end v' = mft_zone_end v;
  sz_mft : mft_zone_pos v' = mft_zone_pos v;
  sz_data1 : data1_zone_pos v' = data1_zone_pos v;
  sz_data2 : data2_zone_pos v' = data2_zone_pos v;
  sz_full : full_zones v' = full_zones v
}.

Lemma same_zones_refl v : same_zones v v.
Proof. by split. Qed.

Lemma same_zones_trans v1 v2 v3 : same_zones v1 v2 -> same_zones v2 v3 -> same_zones v1 v3.
Proof. intros [] []. split; congruence. Qed.

Lemma same_zones_ok v v' : same_zones v v' -> zones_ok v -> zones_ok v'.
Proof. intros [] []. split; congruence. Qed.

Lemma set_zone_pos_nonneg s e p tc : 0 <= s -> 0 <= p -> 0 <= ntfs_cluster_set_zone_pos s e p tc.
Proof. intros. unfold ntfs_cluster_set_zone_pos. destruct (Z.leb_spec e tc); [done|]. destruct (Z.leb_spec s tc); lia. Qed.

Lemma update_zone_pos_ok z tc v : zones_ok v -> zones_ok (ntfs_cluster_update_zone_pos z tc v).
Proof.
  intros []. unfold ntfs_cluster_update_zone_pos. destruct (z =? ZONE_MFT); [|destruct (z =? ZONE_DATA1)];
    split; try done; cbn; by apply set_zone_pos_nonneg.
Qed.

Lemma update_zone_pos_na z tc v : lcnbmp_na (ntfs_cluster_update_zone_pos z tc v) = lcnbmp_na v.
Proof. unfold ntfs_cluster_update_zone_pos. by repeat case_match. Qed.

Lemma update_full_status_na l v : lcnbmp_na (update_full_status l v) = lcnbmp_na v.
Proof.
  unfold update_full_status, unmark_zone. repeat case_match; try done; cbn; apply update_zone_pos_na.
Qed.

Lemma on_na_post {A} (m : M W A) v Q : post m (lcnbmp_na v) (fun a w => Q a (with_na w v)) -> post (on_na m) v Q.
Proof. unfold post, on_na. by destruct (m (lcnbmp_na v)) as [[]|]. Qed.

(** ** The state of the bitmap *)

Variable old : list Z.
Hypothesis Hold : zlen old < 2 ^ 31 - 1.

(** The clusters [cs] are allocated, all of them or some. *)
Definition written v (cs : list Z) : Prop :=
  zlen (bitmap v) = zlen old /\ forall i, 0 <= i < 8 * zlen old -> bit_at (bitmap v) i = marked old cs i.
Definition partly v (cs : list Z) : Prop :=
  zlen (bitmap v) = zlen old /\ forall i, 0 <= i < 8 * zlen old ->
    (bit_at old i = true -> bit_at (bitmap v) i = true) /\ (i ∉ cs -> bit_at (bitmap v) i = bit_at old i).

Lemma written_partly v cs : written v cs -> partly v cs.
Proof.
  intros [Hl Hw]. split; [done|]. intros i Hi. rewrite Hw by done. unfold marked. split; [by intros ->|].
  intros Hn. rewrite bool_decide_eq_false_2 by done. apply orb_false_r.
Qed.

Lemma partly_nil v : partly v [] <-> written v [].
Proof.
  split; [|apply written_partly]. intros [Hl Hp]. split; [done|]. intros i Hi. unfold marked.
  rewrite bool_decide_eq_false_2, orb_false_r by apply not_elem_of_nil. apply Hp; [done|apply not_elem_of_nil].
Qed.

Lemma partly_mono v cs cs' : partly v cs -> (forall i, i ∈ cs -> i ∈ cs') -> partly v cs'.
Proof. intros [Hl Hp] Hs. split; [done|]. intros i Hi. split; [by apply Hp|]. intros Hn. apply Hp; auto. Qed.

Lemma written_eq v v' cs : bitmap v' = bitmap v -> written v cs -> written v' cs.
Proof. unfold written. by intros ->. Qed.

Lemma partly_eq v v' cs : bitmap v' = bitmap v -> partly v cs -> partly v' cs.
Proof. unfold partly. by intros ->. Qed.

(** Free bits that are cleared are as they were. *)
Definition fresh (cs : list Z) : Prop := forall i, i ∈ cs -> 0 <= i < 8 * zlen old /\ bit_at old i = false.

Lemma clear_run_spec start n rest v :
  partly v (seqZ start n ++ rest) -> fresh (seqZ start n) -> 0 <= start -> 0 < n ->
  post (na_clear_run start n) v (fun failed v' =>
    same_zones v v' /\ free_clusters v' = free_clusters v /\ partly v' (seqZ start n ++ rest) /\ (failed = false -> partly v' rest) /\
    (served (lcnbmp_na v) -> (forall k, malloc_ok k = true) -> served (lcnbmp_na v') /\ failed = false)).
Proof.
  intros [Hl Hp] Hf Hs Hn. unfold na_clear_run. apply post_bind, on_na_post.
  assert (start + n <= 8 * zlen old) as Hb.
  { destruct (Hf (start + n - 1)); [apply elem_of_seqZ; lia|lia]. }
  eapply post_mono; [apply set_bits_spec; [done|lia|by rewrite Hl|by rewrite Hl]|]. intros r w' Hr.
  assert (forall i, 0 <= i < 8 * zlen old -> run_bits (bitmap v) start n false i = if bool_decide (i ∈ seqZ start n) then false else bit_at (bitmap v) i) as Hrun.
  { intros i Hi. unfold run_bits. destruct (_ && _) eqn:E.
    - rewrite bool_decide_eq_true_2; [done|]. apply elem_of_seqZ. lia.
    - rewrite bool_decide_eq_false_2; [done|]. rewrite elem_of_seqZ. lia. }
  assert (partly (with_na w' v) (seqZ start n ++ rest)) as Hpart.
  { split; [cbn; rewrite (rs_size _ _ _ _ _ _ Hr); done|]. intros i Hi. destruct (Hp i Hi) as [H1 H2].
    pose proof (rs_some _ _ _ _ _ _ Hr i) as Hb'. rewrite Hl, Hrun in Hb' by done. specialize (Hb' Hi). cbn [lcnbmp_na with_na]. split.
    - intros Ho. destruct Hb' as [-> | ->]; [by apply H1|]. rewrite bool_decide_eq_false_2; [by apply H1|]. intros Hin.
      destruct (Hf i Hin). congruence.
    - intros Hni. destruct Hb' as [-> | ->]; [by apply H2|]. rewrite bool_decide_eq_false_2; [by apply H2|].
      intros Hin. apply Hni, elem_of_app. by left. }
  assert (r = None -> partly (with_na w' v) rest) as Hall.
  { intros ->. split; [apply Hpart|]. intros i Hi. split; [apply Hpart, Hi|]. intros Hni. destruct (Hp i Hi) as [H1 H2].
    pose proof (rs_all _ _ _ _ _ _ Hr i eq_refl) as Hb'. rewrite Hl, Hrun in Hb' by done. cbn [lcnbmp_na with_na]. rewrite (Hb' Hi).
    destruct (bool_decide_reflect (i ∈ seqZ start n)) as [Hin|Hnin]; [by destruct (Hf i Hin)|]. apply H2. rewrite elem_of_app. tauto. }
  assert (served (lcnbmp_na v) -> (forall k, malloc_ok k = true) -> served w' /\ r = None) as Hsv.
  { intros H1 H2. destruct (rs_served _ _ _ _ _ _ Hr H1) as [H3 [->|(_ & _ & k & Hk)]]; [done|]. rewrite H2 in Hk. done. }
  destruct r as [e|]; [apply post_bind, post_modify|]; apply post_ret; split_and!; try done; try (by auto).
  - intros H1 H2. destruct (Hsv H1 H2). done.
  - intros H1 H2. destruct (Hsv H1 H2). done.
Qed.

(** ** Freeing a runlist *)

Lemma free_runs_spec : forall rl st term v n,
  partly v (clusters_of rl) -> runs_ok st rl -> fresh (clusters_of rl) -> length term = 0 ->
  post (free_runs (rl ++ [term]) n) v (fun '(failed, _) v' =>
    partly v' (clusters_of rl) /\ (failed = false -> partly v' []) /\
    (served (lcnbmp_na v) -> (forall k, malloc_ok k = true) -> served (lcnbmp_na v') /\ failed = false)).
Proof.
  induction rl as [|r rl IH]; intros st term v n Hp Hr Hf Ht; cbn [app free_runs].
  { rewrite Ht. cbn [Z.eqb]. apply post_ret. done. }
  change (clusters_of (r :: rl)) with (seqZ (lcn r) (length r) ++ clusters_of rl) in *.
  destruct Hr as (_ & Hl & Hlc & Hr). if_false. if_true. apply post_bind, post_modify, post_bind.
  eapply post_mono; [apply (clear_run_spec _ _ (clusters_of rl)); [|intros i Hi; apply Hf, elem_of_app; by left|done|done]|].
  { eapply partly_eq; [|exact Hp]. by rewrite update_full_status_na. }
  intros failed v1 (Hz & _ & Hp1 & Hok & Hs). rewrite update_full_status_na in Hs. destruct failed.
  { apply post_ret. split_and!; [done|done|]. intros H1 H2. by destruct (Hs H1 H2). }
  eapply post_mono; [eapply IH; [by apply Hok|done|intros i Hi; apply Hf, elem_of_app; by right|done]|].
  intros [failed k] v2 (Hp2 & Hok2 & Hs2). split_and!; [|done|].
  - eapply partly_mono; [exact Hp2|]. intros i Hi. apply elem_of_app. by right.
  - intros H1 H2. destruct (Hs H1 H2). by apply Hs2.
Qed.

Lemma free_from_rl_spec rl st term v :
  partly v (clusters_of rl) -> runs_ok st rl -> fresh (clusters_of rl) -> length term = 0 ->
  post (ntfs_cluster_free_from_rl (rl ++ [term])) v (fun failed v' =>
    partly v' (clusters_of rl) /\ (failed = false -> partly v' []) /\
    (served (lcnbmp_na v) -> (forall k, malloc_ok k = true) -> served (lcnbmp_na v') /\ failed = false)).
Proof.
  intros Hp Hr Hf Ht. unfold ntfs_cluster_free_from_rl. mcall (free_runs_spec rl st term v 0 Hp Hr Hf Ht).
  intros [failed n] v1 (H1 & H2 & H3). apply post_bind, post_modify, post_ret. done.
Qed.

(** What is left of an allocation that failed. *)
Lemma alloc_fail_spec rl st err v :
  partly v (clusters_of rl) -> runs_ok st rl -> fresh (clusters_of rl) ->
  post (alloc_fail rl err) v (fun r v' => r = None /\ partly v' (clusters_of rl) /\
    (served (lcnbmp_na v) -> (forall k, malloc_ok k = true) -> partly v' [])).
Proof.
  intros Hp Hr Hf. unfold alloc_fail. apply post_bind.
  apply (post_mono (fun (_ : unit) v1 => partly v1 (clusters_of rl) /\ (served (lcnbmp_na v) -> (forall k, malloc_ok k = true) -> partly v1 []))).
  - destruct rl as [|r rl]; [by apply post_ret|]. apply post_bind. eapply post_mono; [by apply (free_from_rl_spec (r :: rl) st)|].
    intros failed v1 (H1 & H2 & H3). apply post_ret. split; [done|]. intros Hs Hm. apply H2. by apply H3.
  - intros _ v1 [H1 H2]. destruct err as [e|]; [apply post_bind, post_modify|apply post_bind, post_ret]; apply post_ret; done.
Qed.
End free.
