(* ===== verification/ClusterAlloc.v ===== *)
(** * Allocation of clusters

    [ntfs_cluster_alloc] returns, and hands out only clusters that were free: a well-formed
    runlist of as many different clusters as were asked for, whose bits are then set, and
    no other bit; or nothing, with the bitmap as before. *)

From stdpp Require Import prelude list.
From Stdlib Require Import ZArith Lia.
From S2P Require Import Prelude NtfsTypes Runlist NtfsBitmap BitmapRun NtfsAlloc AllocRuns MaxRange ClusterFree.

Local Open Scope Z_scope.

Section alloc.
Context {W : Type} `{!AttrOps W} `{!AttrLaws W} `{!Malloc}.
Implicit Types v : lcn_volume W.

Abbreviation bitmap v := (attr_bytes (lcnbmp_na v)).

Variables (old : list Z) (start_vcn count0 : Z).
Hypothesis Hold : zlen old < 2 ^ 31 - 1.

(** ** Reading and writing the bitmap *)

Lemma na_pread_spec pos v :
  0 <= pos ->
  post (na_pread pos NTFS_LCNALLOC_BSIZE) v (fun '(k, data) v' =>
    same_zones v v' /\ bitmap v' = bitmap v /\
    (k < 0 \/ 0 <= k <= NTFS_LCNALLOC_BSIZE /\ data = sub (bitmap v) pos k /\ zlen data = k) /\
    (served (lcnbmp_na v) -> served (lcnbmp_na v') /\ 0 <= k /\ (pos < zlen (bitmap v) -> 0 < k))).
Proof.
  intros Hp. unfold na_pread, pread. apply post_bind, on_na_post. unfold post at 1.
  pose proof (attr_pread_law pos NTFS_LCNALLOC_BSIZE (lcnbmp_na v) Hp ltac:(done)) as Hlaw.
  pose proof (fun H => pread_served pos NTFS_LCNALLOC_BSIZE (lcnbmp_na v) H Hp ltac:(done)) as Hs.
  destruct (attr_pread _ _ _) as [[r data] w']. destruct Hlaw as [E Hr]. destruct r as [k|e].
  - apply post_ret. split_and!; [by split|done|by right|].
    intros H1. destruct (Hs H1) as [H2 [= ->]]. unfold NTFS_LCNALLOC_BSIZE. split_and!; [done|lia|lia].
  - apply post_bind, post_modify, post_ret. split_and!; [by split|done|left; lia|]. intros H1. by destruct (Hs H1).
Qed.

(** The window is written back: the clusters [cs] collected so far are those [cs0] that
    were collected before it was read, and some of the window. *)
Lemma writeback_spec p buf wb cs0 cs v :
  written old v cs0 -> window old buf p cs -> 0 <= p -> p + zlen buf <= zlen old ->
  (forall i, i ∈ cs0 -> i ∈ cs) -> (forall i, i ∈ cs -> i ∈ cs0 \/ 8 * p <= i < 8 * (p + zlen buf)) -> (wb = false -> cs = cs0) ->
  post (bitmap_writeback p buf wb) v (fun failed v' =>
    same_zones v v' /\ partly old v' cs /\ (failed = false -> written old v' cs) /\
    (served (lcnbmp_na v) -> served (lcnbmp_na v') /\ failed = false)).
Proof.
  intros Hw Hwin Hp Hb Hsub Hnew Hwb. unfold bitmap_writeback. destruct wb; cbn [negb].
  2:{ rewrite Hwb by done. apply post_ret. split_and!; try done. by apply written_partly. }
  clear Hwb. unfold na_pwrite, pwrite. apply post_bind, post_bind, on_na_post. unfold post at 1. destruct Hw as [Hl Hw].
  assert (p + zlen buf <= zlen (bitmap v)) as Hb' by lia.
  pose proof (attr_pwrite_law p buf (lcnbmp_na v) Hp Hb') as Hlaw.
  pose proof (fun H => pwrite_served p buf (lcnbmp_na v) H Hp Hb') as Hs.
  destruct (attr_pwrite _ _ _) as [r w']. destruct Hlaw as (n & Hn & E & Hr).
  assert (zlen (sub buf 0 n) = n) as Hsn by (unfold zlen, sub in *; rewrite length_take, drop_0; lia).
  assert (zlen (attr_bytes w') = zlen old) as Hl'.
  { rewrite E. unfold zlen at 1. rewrite length_blit by lia. exact Hl. }
  assert (forall i, 0 <= i < 8 * zlen old -> bit_at (attr_bytes w') i =
    if (8 * p <=? i) && (i <? 8 * (p + n)) then marked old cs i else marked old cs0 i) as Hbit.
  { intros i Hi. rewrite <- Hw by done. unfold bit_at at 1. rewrite E, getb_blit, Hsn by (lia || (apply Z.div_pos; lia)).
    pose proof (Z.div_mod i 8 ltac:(lia)). pose proof (Z.mod_pos_bound i 8 ltac:(lia)).
    destruct (Z.leb_spec (8 * p) i), (Z.leb_spec p (i / 8)); cbn [andb]; try lia; try done.
    destruct (Z.ltb_spec i (8 * (p + n))), (Z.ltb_spec (i / 8) (p + n)); try lia; try done.
    rewrite getb_sub, Z.add_0_l by lia. replace i with (8 * p + (i - 8 * p)) at 3 by lia. rewrite <- Hwin by lia.
    unfold bit_at. replace ((i - 8 * p) / 8) with (i / 8 - p) by zlia. f_equal. zlia. }
  assert (partly old (with_na w' v) cs) as Hpart.
  { split; [done|]. intros i Hi. cbn [lcnbmp_na with_na]. rewrite Hbit by done. unfold marked. split; [intros ->; by destruct (_ && _)|].
    intros Hni. rewrite !bool_decide_eq_false_2 by auto. rewrite orb_false_r. by destruct (_ && _). }
  assert (n = zlen buf -> written old (with_na w' v) cs) as Hfull.
  { intros ->. split; [done|]. intros i Hi. cbn [lcnbmp_na with_na]. rewrite Hbit by done. destruct (_ && _) eqn:Ei; [done|].
    unfold marked. f_equal. apply bool_decide_ext. split; [auto|]. intros [?|?]%Hnew; [done|lia]. }
  assert (served (lcnbmp_na v) -> served w' /\ r = inl (zlen buf)) as Hserv by (intros H1; by apply Hs).
  destruct r as [k|e].
  - apply post_ret. subst n. destruct (Z.eqb_spec k (zlen buf)) as [->|N]; cbn [negb].
    + apply post_ret. split; [by split|]. split; [done|]. split; [auto|]. intros H1. split; [|done]. by destruct (Hserv H1).
    + apply post_bind. apply (post_mono (fun (_ : unit) v1 => same_zones v v1 /\ bitmap v1 = attr_bytes w' /\ (served (lcnbmp_na v) -> False))).
      * assert (served (lcnbmp_na v) -> False) by (intros H1; destruct (Hserv H1) as [_ [= E']]; lia).
        destruct (k =? 0); [apply post_modify|apply post_ret]; split_and!; try done; by split.
      * intros _ v1 (Hz & Eb & Hns). apply post_ret. split_and!; [done| |done|done]. eapply partly_eq; [|exact Hpart]. done.
  - apply post_bind, post_modify, post_ret.
    assert (served (lcnbmp_na v) -> False) by (intros H1; destruct (Hserv H1); done).
    pose proof (zlen_nonneg buf). if_true. apply post_bind. if_false. repeat mstep. split_and!; try done; by split.
Qed.

(** ** A window *)

(** What the search of a window from [a], [buf] and [l] on leads to. *)
Record window_result (a : alloc_vars) (buf : list Z) (l p : Z) v (why : window_end) (a' : alloc_vars) (buf' : list Z) (l' : Z) (wb : bool) v' : Prop := {
  wr_zones : same_zones v v' /\ lcnbmp_na v' = lcnbmp_na v;
  wr_place : same_place a a';
  wr_coll : collected old start_vcn count0 a';
  wr_win : window old buf' p (clusters_of (rl a'));
  wr_len : zlen buf' = zlen buf;
  wr_sub i : i ∈ clusters_of (rl a) -> i ∈ clusters_of (rl a');
  wr_new i : i ∈ clusters_of (rl a') -> i ∈ clusters_of (rl a) \/ 8 * p <= i < 8 * (p + zlen buf);
  wr_wb : wb = false -> rl a' = rl a;
  wr_took : wb = true -> clusters a' < clusters a;
  wr_mem : why = NoMemory -> exists k, malloc_ok k = false;
  wr_why : match why with Done => clusters a' = 0 /\ 0 <= l' | _ => 0 < clusters a' end;
  wr_none : why = Searched -> wb = false -> l < 8 * zlen buf ->
    has_guess a' = false /\ (has_guess a = false -> forall j, 0 <= j < 8 * zlen buf -> bit_at buf j = true)
}.

(** The state of the search in the middle: nothing was found so far, the start of a free
    run was, or clusters of the window are collected. *)
Record window_state (a0 : alloc_vars) (buf0 : list Z) (l0 p : Z) v0 (a : alloc_vars) (buf : list Z) (l : Z) (wb : bool) v : Prop := {
  ws_zones : same_zones v0 v /\ lcnbmp_na v = lcnbmp_na v0;
  ws_place : same_place a0 a;
  ws_coll : collected old start_vcn count0 a;
  ws_win : window old buf p (clusters_of (rl a));
  ws_len : zlen buf = zlen buf0;
  ws_sub i : i ∈ clusters_of (rl a0) -> i ∈ clusters_of (rl a);
  ws_new i : i ∈ clusters_of (rl a) -> i ∈ clusters_of (rl a0) \/ 8 * p <= i < 8 * (p + zlen buf0);
  ws_l : 0 <= l;
  ws_left : 0 < clusters a <= clusters a0;
  ws_wb : wb = true /\ has_guess a = true /\ clusters a < clusters a0 \/
    wb = false /\ rl a = rl a0 /\ buf = buf0 /\
    (has_guess a = has_guess a0 /\ l = l0 \/ has_guess a0 = false /\ has_guess a = true /\ l < 8 * zlen buf /\ bit_at buf l = false)
}.

Lemma window_step_spec a0 buf0 l0 p v0 a buf l wb v :
  window_state a0 buf0 l0 p v0 a buf l wb v -> 0 <= p -> p + zlen buf0 <= zlen old -> bmp_pos a0 = 8 * p ->
  post (window_step start_vcn (a, buf, l, wb)) v (fun r v' =>
    match r with
    | inl (a', buf', l', wb') => window_state a0 buf0 l0 p v0 a' buf' l' wb' v' /\ has_guess a' = true /\ (has_guess a = true -> l' = l + 1) /\ l < 8 * zlen buf0
    | inr (why, a', buf', l', wb') => window_result a0 buf0 l0 p v0 why a' buf' l' wb' v'
    end).
Proof.
  intros Hs Hp Hb Hbp. pose proof Hs as [Hz Hpl Hc Hw Hl Hsub Hnew Hl0 [Hcl Hcl0] Hwb]. unfold window_step.
  destruct (Z.ltb_spec l (8 * zlen buf)) as [Hin|Hout]; cbn [negb].
  2:{ apply post_ret. split; try done; [by intros ->; destruct Hwb as [[]|(_ & ? & _)]|by intros ->; destruct Hwb as [(_ & _ & ?)|[]]|].
      intros _ -> Hlt. destruct Hwb as [[]|(_ & _ & _ & [[_ ->]|(_ & _ & ? & _)])]; [done|rewrite Hl in *; lia..]. }
  rewrite shiftr3, land7. destruct (has_guess a) eqn:Hg.
  - rewrite bit_clear, negb_involutive. destruct (bit_at buf l) eqn:Eb.
    { apply post_ret. split; try done; [destruct Hpl; by split|destruct Hc; by split|by intros ->; destruct Hwb as [[]|(_ & ? & _)]|by intros ->; destruct Hwb as [(_ & _ & ?)|[]]|].
      intros _ -> Hlt. split; [done|]. intros Hg0. destruct Hwb as [[]|(_ & _ & _ & [[E _]|(_ & _ & _ & ?)])]; congruence. }
    set (fl := rlsize a <=? _). set (sz := if fl then _ else _). destruct (fl && negb (malloc_ok sz)) eqn:Emem.
    { apply post_ret. split; try done; [by intros ->; destruct Hwb as [[]|(_ & ? & _)]|by intros ->; destruct Hwb as [(_ & _ & ?)|[]]|].
      intros _. exists sz. by apply andb_prop in Emem as [_ ?%negb_true_iff]. }
    apply post_bind, post_modify. set (v1 := if _ && _ then _ else _).
    assert (same_zones v0 v1 /\ lcnbmp_na v1 = lcnbmp_na v0) as Hz1.
    { clear Emem. destruct Hz as [Hz1 Hz2]. unfold v1. destruct (NVolFreeSpaceKnown v && _); [|done]. split; [|done]. eapply same_zones_trans; [exact Hz1|by split]. }
    assert (bmp_pos a = 8 * p) as Eb' by (rewrite (sp_pos _ _ Hpl); done).
    assert (marked old (clusters_of (rl a)) (l + bmp_pos a) = false) as Hm by (rewrite Eb', Z.add_comm, <- Hw by lia; done).
    destruct (add_cluster_collected old start_vcn count0 (l + bmp_pos a) sz a Hc Hcl ltac:(rewrite Hl in *; lia) Hm) as (Hc' & Ecl & En).
    pose proof (add_cluster_place start_vcn (l + bmp_pos a) sz a) as Hpl'. pose proof (add_cluster_guess start_vcn (l + bmp_pos a) sz a) as Hg'.
    set (a' := add_cluster start_vcn (l + bmp_pos a) sz a) in *. clearbody a'.
    assert (window old (setb buf (l / 8) (Z.lor buf.[l / 8] (u8 (Z.shiftl 1 (l mod 8))))) p (clusters_of (rl a'))) as Hw'.
    { rewrite Ecl, Eb', Z.add_comm. apply window_set; [done|lia]. }
    assert (zlen (setb buf (l / 8) (Z.lor buf.[l / 8] (u8 (Z.shiftl 1 (l mod 8))))) = zlen buf0) as Hl' by (rewrite <- Hl; unfold zlen; by rewrite length_setb).
    assert (forall i, i ∈ clusters_of (rl a0) -> i ∈ clusters_of (rl a')) as Hsub' by (intros i Hi; rewrite Ecl, elem_of_app; auto).
    assert (forall i, i ∈ clusters_of (rl a') -> i ∈ clusters_of (rl a0) \/ 8 * p <= i < 8 * (p + zlen buf0)) as Hnew'.
    { intros i. rewrite Ecl, elem_of_app, list_elem_of_singleton. intros [Hi| ->]; [auto|right; lia]. }
    pose proof (same_place_trans _ _ _ Hpl Hpl') as Hplt. pose proof (co_left _ _ _ _ Hc') as Hcl'.
    destruct (Z.eqb_spec (clusters a') 0) as [E0|N0]; apply post_ret.
    + split; try done. lia.
    + split_and!; [|congruence|done|lia]. split; try done; [lia|lia|left; split_and!; [done|congruence|lia]].
  - destruct Hwb as [(_ & ? & _)|(-> & Er & Ebuf & [[Hgg Ell]|(_ & ? & _)])]; [congruence| |congruence].
    pose proof (max_empty_spec buf) as [[Em Hall]|(Hm & n & Hn & Hmn & Hcle & _)].
    + rewrite Em. cbn [Z.ltb Z.compare]. apply post_ret. split; try done. intros _ _ _. split; [done|]. intros _. by rewrite <- Ebuf.
    + rewrite (proj2 (Z.ltb_ge _ _) Hm). apply post_ret. split_and!; [|done|done|lia].
      split; try done; [destruct Hpl; by split|destruct Hc; by split|]. right. split_and!; try done. right. split; [congruence|]. split; [done|]. split; [lia|]. apply Hcle. lia.
Qed.

Lemma window_spec a buf l p v :
  collected old start_vcn count0 a -> 0 < clusters a -> window old buf p (clusters_of (rl a)) -> 0 <= p -> p + zlen buf <= zlen old ->
  bmp_pos a = 8 * p -> 0 <= l -> zlen buf <= NTFS_LCNALLOC_BSIZE ->
  post (iterate bits (window_step start_vcn) (a, buf, l, false)) v (fun '(why, a', buf', l', wb) v' =>
    window_result a buf l p v why a' buf' l' wb v').
Proof.
  intros Hc Hcl Hw Hp Hb Hbp Hl Hsz. pose proof (zlen_nonneg buf).
  eapply (post_iterate (window_step start_vcn) (fun '(a', buf', l', wb) k v' => window_state a buf l p v a' buf' l' wb v' /\
    k = if has_guess a' then Z.max 0 (8 * zlen buf - l') else 8 * zlen buf + 1)) with (k := if has_guess a then Z.max 0 (8 * zlen buf - l) else 8 * zlen buf + 1).
  - intros [[[a1 buf1] l1] wb1] k v1 [Hs ->]. eapply post_mono; [by apply (window_step_spec a buf l p v)|].
    intros [[[[a2 buf2] l2] wb2]|[[[[why a2] buf2] l2] wb2]] v2 Hr; [|done]. destruct Hr as (Hs2 & Hg2 & Hl2 & Hlt).
    eexists. split; [|split; [done|reflexivity]]. rewrite Hg2. pose proof (ws_l _ _ _ _ _ _ _ _ _ _ Hs2).
    destruct (has_guess a1); [rewrite Hl2 by done|]; lia.
  - split; [|done]. split; try done; [auto|]. right. split_and!; try done. by left.
  - unfold bits, NTFS_LCNALLOC_BSIZE in *. destruct (has_guess a); lia.
Qed.

(** ** Zones and passes *)

(** The zone that is searched after zone [s], when the zones [d] are done. *)
Definition next_zone (s d : Z) : Z :=
  if s =? ZONE_MFT then ZONE_DATA1 else if s =? ZONE_DATA1 then ZONE_DATA2
  else if Z.land d ZONE_DATA1 =? 0 then ZONE_DATA1 else ZONE_MFT.

(** The number of zones still to be searched, [s] included. *)
Fixpoint zone_rank (n : nat) (s d : Z) : Z :=
  match n with
  | O => 0
  | S n => let d := Z.lor d s in if d <? 7 then 1 + zone_rank n (next_zone s d) d else 1
  end.

Definition is_zone (s : Z) : Prop := s = ZONE_MFT \/ s = ZONE_DATA1 \/ s = ZONE_DATA2.

Lemma zone_rank_spec s d :
  is_zone s -> 0 <= d < 8 ->
  0 <= Z.lor d s < 8 /\ 1 <= zone_rank 5 s d <= 4 /\ is_zone (next_zone s (Z.lor d s)) /\
  (Z.lor d s < 7 -> zone_rank 5 (next_zone s (Z.lor d s)) (Z.lor d s) = zone_rank 5 s d - 1).
Proof.
  intros Hs Hd.
  assert (d = 0 \/ d = 1 \/ d = 2 \/ d = 3 \/ d = 4 \/ d = 5 \/ d = 6 \/ d = 7) as Hd' by lia.
  destruct Hs as [->|[->| ->]]; destruct Hd' as [->|[->|[->|[->|[->|[->|[->| ->]]]]]]]; vm_compute; intuition congruence.
Qed.

(** The alloc_rounds that are left. *)
Definition passes (a : alloc_vars) : Z :=
  2 * zone_rank 5 (search_zone a) (done_zones a) + (if pass a =? 1 then 1 else 0) + (if used_zone_pos a then 0 else 1).
Definition alloc_rounds (a : alloc_vars) : Z := passes a * (zlen old + 4) + Z.max 0 (zlen old + 2 - bmp_pos a / 8).

(** The variables at the head of the loop. *)
Record alloc_ok (a : alloc_vars) : Prop := {
  ao_coll : collected old start_vcn count0 a;
  ao_left : 0 < clusters a;
  ao_zone : is_zone (search_zone a);
  ao_done : 0 <= done_zones a < 8;
  ao_pass : pass a = 1 \/ pass a = 2;
  ao_pos : 0 <= bmp_pos a
}.

Lemma rounds_pos a : alloc_ok a -> 0 <= alloc_rounds a.
Proof.
  intros [_ _ Hz Hd _ _]. unfold alloc_rounds, passes. destruct (zone_rank_spec _ _ Hz Hd) as (_ & Hr & _). pose proof (zlen_nonneg old).
  destruct (pass a =? 1), (used_zone_pos a); nia.
Qed.

Lemma fewer_passes a a' : passes a' < passes a -> 0 <= bmp_pos a' -> alloc_rounds a' < alloc_rounds a.
Proof.
  intros Hp Hb. unfold alloc_rounds. pose proof (zlen_nonneg old). assert (0 <= bmp_pos a' / 8) by (apply Z.div_pos; lia). nia.
Qed.

Lemma collected_at a a' :
  collected old start_vcn count0 a -> rl a' = rl a -> clusters a' = clusters a -> prev_lcn a' = prev_lcn a -> prev_run_len a' = prev_run_len a ->
  collected old start_vcn count0 a'.
Proof. intros [] E1 E2 E3 E4. split; rewrite ?E1, ?E2, ?E3, ?E4; done. Qed.

(** The outcome of the allocation. *)
Definition outcome v (r : option runlist) v' : Prop :=
  match r with
  | Some rl => exists runs, rl = runs ++ [mkRun (start_vcn + count0) LCN_RL_NOT_MAPPED 0] /\ runs_ok start_vcn runs /\
      zlen (clusters_of runs) = count0 /\ NoDup (clusters_of runs) /\ fresh old (clusters_of runs) /\ written old v' (clusters_of runs) /\
      (served (lcnbmp_na v) -> served (lcnbmp_na v'))
  | None => (exists cs, fresh old cs /\ partly old v' cs) /\
      (served (lcnbmp_na v) -> (forall k, malloc_ok k = true) -> written old v' [])
  end.

Lemma fail_outcome v0 a v err :
  collected old start_vcn count0 a -> partly old v (clusters_of (rl a)) -> (served (lcnbmp_na v0) -> served (lcnbmp_na v)) ->
  post (alloc_fail (rl a) err) v (fun r v' => outcome v0 r v').
Proof.
  intros Hc Hp Hs. eapply post_mono; [apply (alloc_fail_spec old Hold _ start_vcn err v Hp (co_runs _ _ _ _ Hc)); intros i Hi; by apply (co_free _ _ _ _ Hc)|].
  intros r v' (-> & H1 & H2). split.
  - exists (clusters_of (rl a)). split; [|done]. intros i Hi. by apply (co_free _ _ _ _ Hc).
  - intros H3 H4. apply partly_nil. auto.
Qed.

(** The zones of two states differ in the positions only. *)
Record moved v v' : Prop := {
  mv_na : lcnbmp_na v' = lcnbmp_na v;
  mv_ok : zones_ok v'
}.

Lemma zone_step_spec a v :
  alloc_ok a -> zones_ok v ->
  post (zone_step a) v (fun r v' => moved v v' /\
    match r with
    | inl a' | inr (Some a') => alloc_ok a' /\ rl a' = rl a /\
        zone_rank 5 (search_zone a') (done_zones a') = zone_rank 5 (search_zone a) (done_zones a) - 1 /\ used_zone_pos a' = used_zone_pos a
    | inr None => True
    end).
Proof.
  intros Ha Hv. pose proof Ha as [Hc Hl Hz Hd Hpa Hp]. destruct (zone_rank_spec _ _ Hz Hd) as (Hd' & Hr & Hz' & Hnext). unfold zone_step.
  apply post_bind, post_modify. set (v1 := with_full _ v). assert (zones_ok v1) as Hv1 by (destruct Hv; by split).
  change (ZONE_MFT + ZONE_DATA1 + ZONE_DATA2) with 7. destruct (Z.ltb_spec (Z.lor (done_zones a) (search_zone a)) 7) as [Hlt|Hge]; cbn [negb].
  2:{ apply post_ret. split; [by split|done]. }
  apply post_bind. apply (post_mono (fun (_ : unit) v2 => moved v v2)).
  { destruct (_ && _); [apply post_modify; split; [by rewrite update_zone_pos_na|by apply update_zone_pos_ok]|apply post_ret; by split]. }
  intros _ v2 Hm. apply post_bind, post_gets. destruct Hm as [Hna [Z1 Z2 Z3 Z4 Z5 Z6]]. unfold id.
  assert (forall zs ze pp zone, 0 <= zs -> pp = 1 \/ pp = 2 -> zone = next_zone (search_zone a) (Z.lor (done_zones a) (search_zone a)) ->
    let a' := at_zone zs ze zs pp zone (Z.lor (done_zones a) (search_zone a)) (used_zone_pos a) a in
    alloc_ok a' /\ rl a' = rl a /\ zone_rank 5 (search_zone a') (done_zones a') = zone_rank 5 (search_zone a) (done_zones a) - 1 /\
    used_zone_pos a' = used_zone_pos a) as Hok.
  { intros zs ze pp zone Hzs Hpp -> a'. split_and!; [|done|by apply Hnext|done].
    split; cbn; try done. by apply (collected_at a). }
  unfold next_zone in Hok. destruct (search_zone a =? ZONE_MFT); [|destruct (search_zone a =? ZONE_DATA1); [|destruct (_ =? 0)]];
    cbv zeta beta iota; match goal with |- context [?x =? ?y] => destruct (x =? y) end;
    match goal with |- context [if ?x then _ else _] => destruct x end; apply post_ret; (split; [by split|apply Hok; auto]).
Qed.

Lemma pass_done_spec v0 a v :
  alloc_ok a -> zones_ok v -> written old v (clusters_of (rl a)) -> (served (lcnbmp_na v0) -> served (lcnbmp_na v)) ->
  post (pass_done a) v (fun r v' =>
    match r with
    | inl a' => alloc_ok a' /\ rl a' = rl a /\ moved v v' /\ passes a' < passes a
    | inr r => outcome v0 r v'
    end).
Proof.
  intros Ha Hv Hw Hs. pose proof Ha as [Hc Hl Hz Hd Hpa Hp]. unfold pass_done. destruct (Z.eqb_spec (pass a) 1) as [E1|N1].
  - apply post_bind, post_gets, post_ret. unfold id. set (base := if search_zone a =? ZONE_MFT then _ else _).
    assert (0 <= base) as Hb by (destruct Hv; unfold base; repeat case_match; lia). split_and!; [|done|by split|].
    + split; cbn; try done; [by apply (collected_at a)|auto].
    + unfold passes. cbn. rewrite E1. cbn. lia.
  - apply post_bind.
    apply (post_mono (fun r v' => moved v v' /\ match r with Some a' => alloc_ok a' /\ rl a' = rl a /\
      zone_rank 5 (search_zone a') (done_zones a') < zone_rank 5 (search_zone a) (done_zones a) /\ used_zone_pos a' = used_zone_pos a | None => True end)).
    + eapply (post_iterate zone_step (fun a' k v' => moved v v' /\ alloc_ok a' /\ rl a' = rl a /\ used_zone_pos a' = used_zone_pos a /\
        k = zone_rank 5 (search_zone a') (done_zones a') /\ k <= zone_rank 5 (search_zone a) (done_zones a)))
        with (k := zone_rank 5 (search_zone a) (done_zones a)).
      * intros a1 k v1 ([Hm1 Hm2] & Ha1 & E & Eu & -> & Hk). eapply post_mono; [by apply zone_step_spec|]. intros r v2 ([Hm3 Hm4] & Hr).
        assert (moved v v2) as Hmv by (split; [congruence|done]). destruct r as [a2|[a2|]]; [| |done].
        -- destruct Hr as (Ha2 & E2 & Er & Eu2). destruct (zone_rank_spec _ _ (ao_zone _ Ha2) (ao_done _ Ha2)) as (_ & Hr2 & _).
           eexists. split; [|split_and!; [done|done|congruence|congruence|reflexivity|]]; lia.
        -- destruct Hr as (Ha2 & E2 & Er & Eu2). split_and!; [done|done|congruence|lia|congruence].
      * split_and!; done.
      * destruct (zone_rank_spec _ _ Hz Hd) as (_ & Hr & _). lia.
    + intros [a'|] v' [Hm Hr].
      * apply post_ret. destruct Hr as (Ha' & E & Hrk & Eu). split_and!; [done|done|done|]. unfold passes. rewrite Eu.
        rewrite (proj2 (Z.eqb_neq (pass a) 1) N1). destruct (pass a' =? 1); lia.
      * apply post_bind. eapply post_mono; [apply (fail_outcome v0 a v'); [done| |by rewrite (mv_na _ _ Hm)]|].
        { apply written_partly. eapply written_eq; [|exact Hw]. by rewrite (mv_na _ _ Hm). }
        intros r v2 Ho. by apply post_ret.
Qed.

(** All clusters are collected. *)
Lemma done_outcome v0 a v :
  collected old start_vcn count0 a -> clusters a = 0 -> written old v (clusters_of (rl a)) -> 0 < count0 -> (served (lcnbmp_na v0) -> served (lcnbmp_na v)) ->
  outcome v0 (Some (terminated (rl a))) v.
Proof.
  intros [Hr Hl _ Hf Hn Hp] E0 Hw Hpos Hsv. exists (rl a). rewrite E0, Z.sub_0_r in Hl. split_and!; try done. unfold terminated. do 2 f_equal.
  destruct (decide (rl a = [])) as [E|N]; [rewrite E in Hl; change (zlen (clusters_of [])) with 0 in Hl; lia|].
  destruct (Hp N) as (rs & v1 & E). rewrite E in *. rewrite run_at_last. cbn [vcn length]. f_equal.
  rewrite clusters_app, clusters_one, zlen_app in Hl. apply runs_ok_app in Hr as [_ (Hv & Hlen & _)]. cbn [vcn length lcn] in *.
  assert (zlen (seqZ (prev_lcn a) (prev_run_len a)) = prev_run_len a) by (unfold zlen; rewrite length_seqZ; lia). lia.
Qed.

(** ** The loop *)

Lemma next_window_spec a n v :
  alloc_ok a -> zones_ok v -> bmp_pos a mod 8 = 0 -> 0 < n -> bmp_pos a / 8 < zlen old ->
  post (next_window a (8 * n)) v (fun a' v' => v' = v /\ alloc_ok a' /\ rl a' = rl a /\ alloc_rounds a' < alloc_rounds a /\ passes a' <= passes a).
Proof.
  intros Ha Hv Hm Hn Hlt. pose proof Ha as [Hc Hl Hz Hd Hpa Hp]. unfold next_window. destruct (used_zone_pos a) eqn:Eu.
  - apply post_ret. split_and!; try done.
    + split; cbn; try done; [by apply (collected_at a)|lia].
    + unfold alloc_rounds, passes. cbn. rewrite (Z.mul_comm 8), Z.div_add by lia. lia.
  - apply post_bind, post_gets, post_ret. unfold id. set (zs := zone_pos (search_zone a) v).
    assert (0 <= zs) as Hzs by (destruct Hv; unfold zs, zone_pos; repeat case_match; lia). set (p := if _ || _ then _ else _).
    assert (p = 2 \/ p = pass a) as Hpp by (unfold p; destruct (_ || _); auto). clearbody p. split_and!; try done.
    + split; cbn; try done; [by apply (collected_at a)|]. destruct Hpp as [->| ->]; auto.
    + apply fewer_passes; [|done]. unfold passes. cbn. rewrite Eu. destruct Hpp as [->| ->]; [cbn; destruct (pass a =? 1); lia|lia].
    + unfold passes. cbn. rewrite Eu. destruct Hpp as [->| ->]; [cbn; destruct (pass a =? 1); lia|lia].
Qed.

Lemma read_window v p n cs :
  written old v cs -> 0 <= p -> 0 <= n -> zlen (sub (bitmap v) p n) = n -> window old (sub (bitmap v) p n) p cs /\ (0 < n -> p + n <= zlen old).
Proof.
  intros [Hl Hw] Hp Hn Hsub. assert (0 < n -> p + n <= zlen old) as Hr by (unfold zlen, sub in *; rewrite length_take, length_drop in Hsub; lia).
  split; [|done]. intros j Hj. rewrite Hsub in Hj. rewrite <- Hw by lia. unfold bit_at. rewrite getb_sub by zlia.
  replace ((8 * p + j) / 8) with (p + j / 8) by zlia. f_equal. zlia.
Qed.

Definition alloc_state v0 (a : alloc_vars) v : Prop :=
  alloc_ok a /\ zones_ok v /\ written old v (clusters_of (rl a)) /\ (served (lcnbmp_na v0) -> served (lcnbmp_na v)).

Lemma alloc_step_spec v0 a v :
  alloc_state v0 a v ->
  post (alloc_round start_vcn a) v (fun r v' =>
    match r with inl a' => alloc_state v0 a' v' /\ alloc_rounds a' < alloc_rounds a | inr r => outcome v0 r v' end).
Proof.
  intros (Ha & Hv & Hw & Hs). pose proof Ha as [Hc Hl Hz Hd Hpa Hp]. unfold alloc_round. apply post_bind, post_gets. unfold id.
  assert (forall a1 v1, alloc_ok a1 -> zones_ok v1 -> written old v1 (clusters_of (rl a1)) -> (served (lcnbmp_na v0) -> served (lcnbmp_na v1)) ->
    passes a1 <= passes a -> post (pass_done a1) v1 (fun r v' =>
      match r with inl a' => alloc_state v0 a' v' /\ alloc_rounds a' < alloc_rounds a | inr r => outcome v0 r v' end)) as Hpass.
  { intros a1 v1 Ha1 Hv1 Hw1 Hs1 Hle. eapply post_mono; [by apply (pass_done_spec v0)|]. intros [a2|r] v2 Hr; [|done].
    destruct Hr as (Ha2 & E & [Hm1 Hm2] & Hlt). split; [|apply fewer_passes; [lia|exact (ao_pos _ Ha2)]].
    split_and!; [done|done|rewrite E; eapply written_eq; [|exact Hw1]; congruence|by rewrite Hm1]. }
  destruct (negb _); [apply Hpass; done || lia|]. rewrite !shiftr3.
  assert (0 <= bmp_pos a / 8) as Hp8 by (apply Z.div_pos; lia). apply post_bind. eapply post_mono; [by apply na_pread_spec|].
  intros [br buf] v1 (Hz1 & Hb1 & Hbr & Hs1).
  assert (served (lcnbmp_na v0) -> served (lcnbmp_na v1)) as Hs01 by (intros H1; apply Hs1, Hs, H1).
  pose proof (same_zones_ok _ _ Hz1 Hv) as Hv1. pose proof (written_eq old v v1 _ Hb1 Hw) as Hw1.
  destruct (Z.eqb_spec br 0) as [->|N0]; [apply Hpass; done || lia|]. destruct (Z.ltb_spec br 0) as [Hneg|Hpos].
  { apply post_bind, post_gets, post_bind. eapply post_mono; [by apply (fail_outcome v0 a v1); [| apply written_partly|]|]. intros r v2 Ho. by apply post_ret. }
  destruct Hbr as [?|(Hbr & Ebuf & Hzb)]; [lia|]. destruct (read_window v (bmp_pos a / 8) br (clusters_of (rl a)) Hw Hp8 ltac:(lia) ltac:(congruence)) as [Hwin Hroom].
  rewrite <- Ebuf in Hwin. specialize (Hroom ltac:(lia)). rewrite land7.
  assert (Z.land (bmp_pos a) (Z.lnot 7) = 8 * (bmp_pos a / 8)) as ->.
  { rewrite <- Z.ldiff_land. change 7 with (Z.ones 3). rewrite Z.ldiff_ones_r, Z.shiftr_div_pow2, Z.shiftl_mul_pow2 by lia. change (2 ^ 3) with 8. lia. }
  set (p := bmp_pos a / 8) in *. set (a1 := at_bit (8 * p) a).
  assert (collected old start_vcn count0 a1) as Hc1 by by apply (collected_at a).
  apply post_bind. eapply post_mono; [apply (window_spec a1 buf (bmp_pos a mod 8) p v1); try done; [lia|apply Z.mod_pos_bound; lia|lia]|].
  intros [[[[why a2] buf2] l2] wb] v2 Hr. destruct Hr as [[Rz Rna] Rp Rc Rw Rl Rsub Rnew Rwb _ _ Rwhy _].
  assert (written old v2 (clusters_of (rl a))) as Hw2 by (eapply written_eq; [|exact Hw1]; congruence).
  assert (zones_ok v2) as Hv2 by (by eapply same_zones_ok).
  assert (served (lcnbmp_na v0) -> served (lcnbmp_na v2)) as Hs02 by (by rewrite Rna).
  assert (forall v3, lcnbmp_na v3 = lcnbmp_na v2 -> zones_ok v3 -> post (bitmap_writeback p buf2 wb) v3 (fun failed v' =>
    zones_ok v' /\ partly old v' (clusters_of (rl a2)) /\ (failed = false -> written old v' (clusters_of (rl a2))) /\
    (served (lcnbmp_na v0) -> served (lcnbmp_na v') /\ failed = false))) as Hback.
  { intros v3 E3 Hv3. eapply post_mono; [apply (writeback_spec p buf2 wb (clusters_of (rl a)) (clusters_of (rl a2)) v3)|].
    - eapply written_eq; [|exact Hw2]. by rewrite E3.
    - done.
    - done.
    - lia.
    - done.
    - rewrite Rl. done.
    - intros E. by rewrite (Rwb E).
    - intros failed v4 (H1 & H2 & H3 & H4). split_and!; [by eapply same_zones_ok|done|done|]. intros H5. apply H4. rewrite E3. auto. }
  assert (forall v3 err, partly old v3 (clusters_of (rl a2)) -> (served (lcnbmp_na v0) -> served (lcnbmp_na v3)) ->
    post (r ← alloc_fail (rl a2) err; mret (inr r)) v3 (fun r v' =>
      match r with inl a' => alloc_state v0 a' v' /\ alloc_rounds a' < alloc_rounds a | inr r => outcome v0 r v' end)) as Hfail.
  { intros v3 err H1 H2. apply post_bind. eapply post_mono; [by apply (fail_outcome v0 a2 v3)|]. intros r v4 Ho. by apply post_ret. }
  destruct why.
  - apply post_bind. eapply post_mono; [by apply Hback|]. intros failed v3 (Hv3 & Hp3 & Hok3 & Hs3). destruct failed.
    { apply post_bind, post_gets. apply Hfail; [done|]. intros H1. apply Hs3, H1. }
    assert (alloc_ok a2) as Ha2.
    { destruct Rp as [P1 P2 P3 P4 P5 P6 P7]. cbn in P1, P2, P3, P4, P5, P6, P7.
      split; [done|done|by rewrite P5|by rewrite P6|by rewrite P4|rewrite P3; lia]. }
    assert (bmp_pos a2 = 8 * p) as Ep by (rewrite (sp_pos _ _ Rp); done).
    assert (passes a2 = passes a /\ alloc_rounds a2 = alloc_rounds a) as [Epa Ero].
    { unfold alloc_rounds, passes. rewrite Ep, (sp_zone _ _ Rp), (sp_done _ _ Rp), (sp_pass _ _ Rp), (sp_used _ _ Rp). cbn.
      replace (8 * p / 8) with p by zlia. done. }
    apply post_bind. eapply post_mono; [apply (next_window_spec a2 br v3 Ha2 Hv3); [rewrite Ep; zlia|lia|rewrite Ep; zlia]|].
    intros a3 v4 (-> & Ha3 & Erl & Hro & Hpa3). specialize (Hok3 eq_refl).
    assert (served (lcnbmp_na v0) -> served (lcnbmp_na v3)) as Hs03 by (intros H1; apply Hs3, H1).
    destruct (_ <? _).
    + apply post_ret. split; [|lia]. split_and!; [done|done|by rewrite Erl|done].
    + apply Hpass; [done|done|by rewrite Erl|done|lia].
  - apply post_bind. apply (post_mono (fun (_ : unit) v3 => moved v2 v3)).
    { destruct (used_zone_pos a2); [apply post_modify; split; [apply update_zone_pos_na|by apply update_zone_pos_ok]|apply post_ret; by split]. }
    intros _ v3 [E3 Hv3]. apply post_bind. eapply post_mono; [by apply Hback|]. intros failed v4 (Hv4 & Hp4 & Hok4 & Hs4). destruct failed.
    { apply post_bind, post_gets. apply Hfail; [done|]. intros H1. apply Hs4, H1. }
    apply post_ret. pose proof (co_len _ _ _ _ Hc). pose proof (zlen_nonneg (clusters_of (rl a))).
    apply done_outcome; [done|by destruct Rwhy|auto|lia|]. intros Hs0. apply Hs4, Hs0.
  - apply post_bind. eapply post_mono; [by apply Hback|]. intros failed v3 (Hv3 & Hp3 & Hok3 & Hs3).
    apply post_bind, post_gets. apply Hfail; [done|]. intros H1. apply Hs3, H1.
Qed.
End alloc.

(** The start of the search. *)
Lemma alloc_start {W} `{!AttrOps W} `{!AttrLaws W} `{!Malloc} (v : lcn_volume W) start_vcn count zs ze p sz guess :
  zones_ok v -> 0 < count -> 0 <= zs -> p = 1 \/ p = 2 -> is_zone sz ->
  alloc_state (attr_bytes (lcnbmp_na v)) start_vcn count v (mkAllocVars zs ze zs 0 0 count [] 0 p sz 0 guess (negb guess)) v.
Proof.
  intros Hv Hc Hzs Hp Hsz. split_and!; [|done| |done].
  - split; cbn; try done. split; cbn; try done; [change (zlen (@nil Z)) with 0; lia|lia| |apply NoDup_nil_2].
    intros i Hi. by apply not_elem_of_nil in Hi.
  - split; [done|]. intros i Hi. unfold marked. rewrite bool_decide_eq_false_2, orb_false_r by apply not_elem_of_nil. done.
Qed.

Lemma cluster_alloc_outcome {W} `{!AttrOps W} `{!AttrLaws W} `{!Malloc} (v : lcn_volume W) start_vcn count start_lcn zone :
  zones_ok v -> zlen (attr_bytes (lcnbmp_na v)) < 2 ^ 31 - 1 ->
  post (ntfs_cluster_alloc start_vcn count start_lcn zone) v (outcome (attr_bytes (lcnbmp_na v)) start_vcn count v).
Proof.
  intros Hv Hold. set (old := attr_bytes (lcnbmp_na v)) in *.
  assert (forall v', lcnbmp_na v' = lcnbmp_na v -> written old v' []) as Hsame.
  { intros v' E. split; [by rewrite E|]. intros i Hi. rewrite E. unfold marked. rewrite bool_decide_eq_false_2, orb_false_r by apply not_elem_of_nil. done. }
  assert (forall v', lcnbmp_na v' = lcnbmp_na v -> outcome old start_vcn count v None v') as Hnone.
  { intros v' E. split; [|auto]. exists []. split; [intros i Hi; by apply not_elem_of_nil in Hi|]. by apply written_partly, Hsame. }
  unfold ntfs_cluster_alloc. destruct ((count <? 0) || (start_lcn <? -1)) eqn:Earg.
  { apply post_bind, post_modify, post_ret. by apply Hnone. }
  destruct (Z.eqb_spec count 0) as [->|N0].
  { destruct (malloc_ok _); [apply post_ret|apply post_bind, post_modify, post_ret; by apply Hnone].
    exists []. split_and!; [by rewrite Z.add_0_r|done|done|apply NoDup_nil_2|intros i Hi; by apply not_elem_of_nil in Hi|by apply Hsame|done]. }
  destruct (malloc_ok _); cbn [negb]; [|apply post_bind, post_modify, post_ret; by apply Hnone].
  apply post_bind, post_gets. unfold id. set (zs := if 0 <=? start_lcn then _ else _).
  assert (0 <= zs) as Hzs by (destruct Hv; unfold zs; destruct (Z.leb_spec 0 start_lcn); [done|]; by destruct zone).
  set (p := if _ || _ then _ else _). assert (p = 2 \/ p = 1) as Hp by (unfold p; case_match; auto). clearbody p.
  assert (forall ze sz, is_zone sz -> post (iterate windows (alloc_round start_vcn)
    (mkAllocVars zs ze zs 0 0 count [] 0 p sz 0 (0 <=? start_lcn) (negb (0 <=? start_lcn)))) v (outcome old start_vcn count v)) as Hloop.
  { intros ze sz Hsz. set (a := mkAllocVars _ _ _ _ _ _ _ _ _ _ _ _ _).
    assert (alloc_state old start_vcn count v a v) as Ha by (apply alloc_start; [done|lia|done|tauto|done]).
    eapply (post_iterate (alloc_round start_vcn) (fun a k v' => alloc_state old start_vcn count v a v' /\ k = alloc_rounds old a)) with (k := alloc_rounds old a).
    - intros a1 k v1 [Hs ->]. eapply post_mono; [by apply alloc_step_spec|]. intros [a2|r] v2 Hr; [|done]. destruct Hr as [Hs2 Hlt].
      eexists. split; [|split; [done|reflexivity]]. split; [|done]. eapply rounds_pos, Hs2.
    - done.
    - unfold alloc_rounds, passes, windows. destruct (zone_rank_spec _ _ (ao_zone _ _ _ _ (proj1 Ha)) (ao_done _ _ _ _ (proj1 Ha))) as (_ & Hr & _).
      pose proof (zlen_nonneg old). assert (0 <= bmp_pos a / 8) by (apply Z.div_pos; cbn; lia). clearbody a.
      destruct (pass a =? 1), (used_zone_pos a); nia. }
  destruct (zs <? mft_zone_start v); [apply Hloop; unfold is_zone; auto|]. destruct (zs <? mft_zone_end v); apply Hloop; unfold is_zone; auto.
Qed.

(** C7: [ntfs_cluster_alloc] returns on every bitmap and whatever transfers of it
    fail, and never clears the bit of a cluster that is in use.  A runlist it returns maps
    [count] different clusters from [start_vcn] on, all of which were free, and exactly
    their bits have been set.  When it returns none, all bits are as before if the
    transfers and [malloc] succeed: what was collected was given back. *)
Theorem cluster_alloc_spec {W} `{!AttrOps W} `{!AttrLaws W} `{!Malloc} (v : lcn_volume W) start_vcn count start_lcn zone :
  zones_ok v -> zlen (attr_bytes (lcnbmp_na v)) < 2 ^ 31 - 1 ->
  exists r v', ntfs_cluster_alloc start_vcn count start_lcn zone v = Some (r, v') /\
  let used u i := bit_at (attr_bytes (lcnbmp_na u)) i in
  let size := 8 * zlen (attr_bytes (lcnbmp_na v)) in
  (forall i, 0 <= i < size -> used v i = true -> used v' i = true) /\
  match r with
  | Some rl => exists runs, rl = runs ++ [mkRun (start_vcn + count) LCN_RL_NOT_MAPPED 0] /\ runs_ok start_vcn runs /\
      zlen (clusters_of runs) = count /\ NoDup (clusters_of runs) /\
      (forall i, i ∈ clusters_of runs -> 0 <= i < size /\ used v i = false) /\
      (forall i, 0 <= i < size -> used v' i = used v i || bool_decide (i ∈ clusters_of runs))
  | None => served (lcnbmp_na v) -> (forall n, malloc_ok n = true) -> forall i, 0 <= i < size -> used v' i = used v i
  end.
Proof.
  intros Hv Hold. destruct (post_run _ _ _ (cluster_alloc_outcome v start_vcn count start_lcn zone Hv Hold)) as (r & v' & E & Ho).
  exists r, v'. split; [exact E|]. intros used size. destruct r as [rl|].
  - destruct Ho as (runs & -> & Hr & Hl & Hn & Hf & [_ Hw] & _). split.
    + intros i Hi Hu. unfold used, size in *. rewrite Hw by exact Hi. unfold marked. by rewrite Hu.
    + by exists runs.
  - destruct Ho as [(cs & _ & [_ Hp]) Hs]. split.
    + intros i Hi. by apply Hp.
    + intros H1 H2 i Hi. destruct (Hs H1 H2) as [_ Hw]. unfold used. rewrite Hw by exact Hi. unfold marked.
      rewrite bool_decide_eq_false_2, orb_false_r by apply not_elem_of_nil. done.
Qed.

(** C9: the clusters of a runlist that [ntfs_cluster_alloc] returned can be given back:
    [ntfs_cluster_free_from_rl] succeeds on it, when the transfers do, and leaves every bit
    of the bitmap as it was before the allocation. *)
Theorem alloc_free_roundtrip {W} `{!AttrOps W} `{!AttrLaws W} `{!Malloc} (v : lcn_volume W) start_vcn count start_lcn zone rl v' :
  zones_ok v -> zlen (attr_bytes (lcnbmp_na v)) < 2 ^ 31 - 1 -> served (lcnbmp_na v) -> (forall n, malloc_ok n = true) ->
  ntfs_cluster_alloc start_vcn count start_lcn zone v = Some (Some rl, v') ->
  exists v'', ntfs_cluster_free_from_rl rl v' = Some (false, v'') /\
  forall i, 0 <= i < 8 * zlen (attr_bytes (lcnbmp_na v)) ->
    bit_at (attr_bytes (lcnbmp_na v'')) i = bit_at (attr_bytes (lcnbmp_na v)) i.
Proof.
  intros Hv Hold Hs Hm E. pose proof (cluster_alloc_outcome v start_vcn count start_lcn zone Hv Hold) as Ho. unfold post in Ho. rewrite E in Ho.
  destruct Ho as (runs & -> & Hr & _ & _ & Hf & Hw & Hsv).
  pose proof (free_from_rl_spec _ Hold runs start_vcn (mkRun (start_vcn + count) LCN_RL_NOT_MAPPED 0) v' (written_partly _ _ _ Hw) Hr Hf eq_refl) as Hp.
  apply post_run in Hp as (failed & v'' & E' & _ & H2 & H3). destruct (H3 (Hsv Hs) Hm) as [_ ->].
  exists v''. split; [exact E'|]. intros i Hi. apply (H2 eq_refl); [exact Hi|apply not_elem_of_nil].
Qed.
