(* ===== verification/AllocLive.v ===== *)
(** * A free cluster is found

    Without a hint [ntfs_cluster_alloc] finds a cluster whenever one is free and no zone is
    marked as full: the passes over the three zones leave out no cluster. *)

From stdpp Require Import prelude list.
From Stdlib Require Import ZArith Lia.
From S2P Require Import Prelude NtfsTypes Runlist NtfsBitmap BitmapRun NtfsAlloc AllocRuns MaxRange ClusterFree ClusterAlloc.

Local Open Scope Z_scope.

Section live.
Context {W : Type} `{!AttrOps W} `{!AttrLaws W} `{!Malloc}.
Implicit Types v : lcn_volume W.

Variables (v0 : lcn_volume W) (start_vcn : Z).
Abbreviation old := (attr_bytes (lcnbmp_na v0)).
Hypothesis Hold : zlen old < 2 ^ 31 - 1.
Hypothesis Hserved : served (lcnbmp_na v0).
Hypothesis Hmalloc : forall n, malloc_ok n = true.
Hypothesis Hnr : nr_clusters v0 <= 8 * zlen old.

(** The zones do not overlap, and a position is before the end of its zone. *)
Record zones_live v : Prop := {
  zl_order : 0 <= mft_zone_start v <= mft_zone_end v /\ mft_zone_end v <= nr_clusters v;
  zl_mft : mft_zone_start v = mft_zone_end v \/ mft_zone_pos v < mft_zone_end v;
  zl_data1 : mft_zone_end v = nr_clusters v \/ data1_zone_pos v < nr_clusters v;
  zl_data2 : mft_zone_start v = 0 \/ data2_zone_pos v < mft_zone_start v
}.
Hypothesis Hlive : zones_live v0.

(** The clusters of a zone. *)
Definition in_zone (s i : Z) : Prop :=
  s = ZONE_MFT /\ mft_zone_start v0 <= i < mft_zone_end v0 \/
  s = ZONE_DATA1 /\ mft_zone_end v0 <= i < nr_clusters v0 \/
  s = ZONE_DATA2 /\ 0 <= i < mft_zone_start v0.
Definition base_of (s : Z) : Z := if s =? ZONE_MFT then mft_zone_start v0 else if s =? ZONE_DATA1 then mft_zone_end v0 else 0.
Definition end_of (s : Z) : Z := if s =? ZONE_MFT then mft_zone_end v0 else if s =? ZONE_DATA1 then nr_clusters v0 else mft_zone_start v0.

Lemma in_zone_iff s i : is_zone s -> in_zone s i <-> base_of s <= i < end_of s.
Proof.
  unfold in_zone, base_of, end_of. intros [->|[->| ->]]; cbn; split; try (intros [[? ?]|[[? ?]|[? ?]]]; done); intros Hi; auto.
Qed.

Definition taken (i : Z) : Prop := bit_at old i = true.

(** All clusters of the zones [d] are taken. *)
Definition zones_taken (d : Z) : Prop := forall s i, is_zone s -> Z.land d s <> 0 -> in_zone s i -> taken i.

Lemma zones_taken_lor d s :
  0 <= d < 8 -> is_zone s -> zones_taken d -> (forall i, in_zone s i -> taken i) -> zones_taken (Z.lor d s).
Proof.
  intros Hd Hs Ht Hz t i Hti Hl Hi.
  assert (Z.land d t <> 0 \/ t = s) as [H1| ->]; [|by eapply Ht|by apply Hz].
  assert (d = 0 \/ d = 1 \/ d = 2 \/ d = 3 \/ d = 4 \/ d = 5 \/ d = 6 \/ d = 7) as Hd' by lia. clear - Hd' Hs Hti Hl.
  destruct Hs as [->|[->| ->]]; destruct Hti as [->|[->| ->]]; destruct Hd' as [->|[->|[->|[->|[->|[->|[->| ->]]]]]]];
    vm_compute in Hl |- *; (by right) || (left; discriminate) || done.
Qed.

Lemma zones_all d : 7 <= d < 8 -> zones_taken d -> forall i, 0 <= i < nr_clusters v0 -> taken i.
Proof.
  intros Hd Ht i Hi. assert (d = 7) as -> by lia. destruct Hlive as [[[H1 H2] H3] _ _ _].
  assert (in_zone ZONE_MFT i \/ in_zone ZONE_DATA1 i \/ in_zone ZONE_DATA2 i) as [Hz|[Hz|Hz]] by (unfold in_zone; lia).
  - eapply (Ht ZONE_MFT); [by left|done|done].
  - eapply (Ht ZONE_DATA1); [by right; left|done|done].
  - eapply (Ht ZONE_DATA2); [by right; right|done|done].
Qed.

(** The members that say where the zones are keep their values. *)
Record same_geom v : Prop := {
  sg_nr : nr_clusters v = nr_clusters v0;
  sg_start : mft_zone_start v = mft_zone_start v0;
  sg_end : mft_zone_end v = mft_zone_end v0;
  sg_mft : mft_zone_pos v = mft_zone_pos v0;
  sg_data1 : data1_zone_pos v = data1_zone_pos v0;
  sg_data2 : data2_zone_pos v = data2_zone_pos v0
}.

Lemma same_geom_zones v v' : same_zones v v' -> same_geom v -> same_geom v'.
Proof. intros [] []. split; congruence. Qed.

(** What has been searched of the current zone: in the first pass from the position on, in
    the second one from the start on, and all from the end of the pass on. *)
Definition zone_seen (a : alloc_vars) : Prop :=
  pass a = 1 /\ zone_end a = end_of (search_zone a) /\ (forall i, in_zone (search_zone a) i -> zone_start a <= i < bmp_pos a -> taken i) \/
  pass a = 2 /\ (forall i, in_zone (search_zone a) i -> i < bmp_pos a \/ zone_end a <= i -> taken i).

(** The pass is over. *)
Definition pass_over (a : alloc_vars) : Prop :=
  pass a = 1 /\ (forall i, in_zone (search_zone a) i -> zone_start a <= i -> taken i) \/
  pass a = 2 /\ (forall i, in_zone (search_zone a) i -> taken i).

Record live_state (a : alloc_vars) v : Prop := {
  ls_state : alloc_state old start_vcn 1 v0 a v;
  ls_rl : rl a = [];
  ls_one : clusters a = 1;
  ls_guess : has_guess a = false;
  ls_used : used_zone_pos a = true;
  ls_geom : same_geom v;
  ls_full : full_zones v = done_zones a;
  ls_done : zones_taken (done_zones a)
}.

Lemma state_zones a v a' v' :
  alloc_state old start_vcn 1 v0 a v -> alloc_ok old start_vcn 1 a' -> rl a' = rl a -> lcnbmp_na v' = lcnbmp_na v -> zones_ok v' ->
  alloc_state old start_vcn 1 v0 a' v'.
Proof.
  intros (_ & _ & Hw & Hs) Ha' E Ena Hz. split_and!; [done|done| |by rewrite Ena]. rewrite E. eapply written_eq; [|exact Hw]. by rewrite Ena.
Qed.

Hypothesis Hfree : exists i, 0 <= i < nr_clusters v0 /\ bit_at old i = false.

(** A zone is done, so that another one is left. *)
Lemma zone_step_live a v :
  live_state a v -> (forall i, in_zone (search_zone a) i -> taken i) ->
  post (zone_step a) v (fun r v' =>
    match r with
    | inl a' => live_state a' v' /\ (forall i, in_zone (search_zone a') i -> taken i) /\
        zone_rank 5 (search_zone a') (done_zones a') = zone_rank 5 (search_zone a) (done_zones a) - 1
    | inr (Some a') => live_state a' v' /\ zone_seen a'
    | inr None => False
    end).
Proof.
  intros [Hst Hrl Hone Hg Hu Hge Hfu Hdn] Hz. destruct Hst as (Ha & Hv & Hw & Hs).
  pose proof Ha as [Hc Hl Hiz Hd Hpa Hp].
  destruct (zone_rank_spec _ _ Hiz Hd) as (Hd' & Hr & Hz' & Hnext).
  pose proof (zones_taken_lor _ _ Hd Hiz Hdn Hz) as Hdn'. unfold zone_step.
  apply post_bind, post_modify. set (v1 := with_full _ v).
  change (ZONE_MFT + ZONE_DATA1 + ZONE_DATA2) with 7. destruct (Z.ltb_spec (Z.lor (done_zones a) (search_zone a)) 7) as [Hlt|Hge7]; cbn [negb].
  2:{ exfalso. destruct Hfree as (i & Hi & Hb). pose proof (zones_all _ (conj Hge7 (proj2 Hd')) Hdn' i Hi) as Ht. unfold taken in Ht. congruence. }
  rewrite Hrl. cbn [List.length Nat.eqb negb andb]. apply post_bind, post_ret, post_bind, post_gets. unfold id.
  destruct Hge as [G1 G2 G3 G4 G5 G6]. cbn [data1_zone_pos data2_zone_pos mft_zone_pos mft_zone_start mft_zone_end nr_clusters with_full v1].
  rewrite G1, G2, G3, G4, G5, G6.
  assert (same_geom v1 /\ zones_ok v1) as [Hge1 Hv1] by (split; [by split|destruct Hv; by split]).
  set (zone' := next_zone (search_zone a) (Z.lor (done_zones a) (search_zone a))) in *.
  assert (forall zs ze pp, 0 <= zs -> ze = end_of zone' -> pp = 2 /\ zs = base_of zone' \/ pp = 1 -> (zs = ze -> base_of zone' = end_of zone') ->
    let a' := at_zone zs ze zs pp zone' (Z.lor (done_zones a) (search_zone a)) (used_zone_pos a) a in
    post (if zs =? ze then mret (inl a') else mret (inr (Some a'))) v1 (fun r v' =>
    match r with
    | inl a' => live_state a' v' /\ (forall i, in_zone (search_zone a') i -> taken i) /\
        zone_rank 5 (search_zone a') (done_zones a') = zone_rank 5 (search_zone a) (done_zones a) - 1
    | inr (Some a') => live_state a' v' /\ zone_seen a'
    | inr None => False
    end)) as Hgo.
  { intros zs ze pp Hzs -> Hpp Hempty a'.
    assert (live_state a' v1) as Hls.
    { split; try done; [|cbn; by rewrite Hfu]. apply (state_zones a v); try done. split; cbn; try done; [by apply (collected_at old start_vcn 1 a)|]. destruct Hpp as [[-> _]| ->]; auto. }
    destruct (Z.eqb_spec zs (end_of zone')) as [E|N]; apply post_ret; (split; [done|]).
    - split; [|by apply Hnext]. cbn. intros i Hi. apply in_zone_iff in Hi; [|done]. specialize (Hempty E). lia.
    - destruct Hpp as [[-> ->]| ->]; [right|left]; (split; [done|]); cbn.
      + intros i Hi Hi'. apply in_zone_iff in Hi; [|done]. lia.
      + split; [done|]. intros i Hi Hi'. lia. }
  destruct Hv as [Z1 Z2 Z3 Z4 Z5 Z6]. rewrite ?G2, ?G3, ?G4, ?G5, ?G6 in *. destruct Hlive as [L1 L2 L3 L4].
  assert (forall x y : Z, (if x =? y then 2 else 1) = 2 /\ x = y \/ (if x =? y then 2 else 1) = 1) as Hst.
  { intros x y. destruct (Z.eqb_spec x y); auto. }
  unfold next_zone in zone'. subst zone'.
  destruct (search_zone a =? ZONE_MFT); [|destruct (search_zone a =? ZONE_DATA1); [|destruct (_ =? 0)]];
    cbv zeta beta iota; (apply Hgo; [done|done|apply Hst|cbn; lia]).
Qed.

Lemma seen_over a :
  zone_seen a -> (forall i, in_zone (search_zone a) i -> i < bmp_pos a \/ zone_end a <= i) -> is_zone (search_zone a) -> pass_over a.
Proof.
  intros Hseen Hall Hz. destruct Hseen as [(E & Ee & Hs)|[E Hs]]; [left|right]; (split; [done|]); intros i Hi.
  - intros Hst. apply Hs; [done|]. apply in_zone_iff in Hi as Hi'; [|done]. destruct (Hall i Hi); lia.
  - apply Hs; auto.
Qed.

Lemma pass_done_live a v :
  live_state a v -> pass_over a ->
  post (pass_done a) v (fun r v' => match r with inl a' => live_state a' v' /\ zone_seen a' | inr _ => False end).
Proof.
  intros Hls Hov. pose proof Hls as [Hst Hrl Hone Hg Hu Hge Hfu Hdn]. pose proof Hst as (Ha & Hv & Hw & Hs). pose proof Ha as [Hc Hl Hiz Hd Hpa Hp].
  unfold pass_done. destruct Hov as [[E Ho]|[E Ho]]; rewrite E; cbn [Z.eqb].
  - apply post_bind, post_gets, post_ret. unfold id. rewrite (sg_start _ Hge), (sg_end _ Hge). fold (base_of (search_zone a)).
    assert (0 <= base_of (search_zone a)) as Hb by (destruct Hlive as [L1 _ _ _]; unfold base_of; repeat case_match; lia). split.
    + split; try done. apply (state_zones a v); try done. split; cbn; try done; [by apply (collected_at old start_vcn 1 a)|auto].
    + right. split; [done|]. cbn. intros i Hi Hi'. apply Ho; [done|]. apply in_zone_iff in Hi; [|done].
      destruct (Z.ltb_spec (zone_start a) (base_of (search_zone a))); lia.
  - apply post_bind. apply (post_mono (fun r v' => match r with Some a' => live_state a' v' /\ zone_seen a' | None => False end)).
    + eapply (post_iterate zone_step (fun a' k v' => live_state a' v' /\ (forall i, in_zone (search_zone a') i -> taken i) /\
        k = zone_rank 5 (search_zone a') (done_zones a'))) with (k := zone_rank 5 (search_zone a) (done_zones a)).
      * intros a1 k v1 (Hls1 & Ho1 & ->). eapply post_mono; [by apply zone_step_live|]. intros [a2|[a2|]] v2 Hr; [|done|done].
        destruct Hr as (Hls2 & Ho2 & Hr2). pose proof (ls_state _ _ Hls2) as (Ha2 & _).
        destruct (zone_rank_spec _ _ (ao_zone _ _ _ _ Ha2) (ao_done _ _ _ _ Ha2)) as (_ & Hr & _).
        eexists. split; [|split_and!; [done|done|reflexivity]]. lia.
      * done.
      * destruct (zone_rank_spec _ _ Hiz Hd) as (_ & Hr & _). lia.
    + intros [a'|] v' Hr; [by apply post_ret|done].
Qed.

Lemma alloc_step_live a v :
  live_state a v -> zone_seen a ->
  post (alloc_round start_vcn a) v (fun r v' => match r with inl a' => live_state a' v' /\ zone_seen a' | inr r => r <> None end).
Proof.
  intros Hls Hseen. pose proof Hls as [Hst Hrl Hone Hg Hu Hge Hfu Hdn]. pose proof Hst as (Ha & Hv & Hw & Hs). pose proof Ha as [Hc Hl Hiz Hd Hpa Hp].
  assert (forall a1 v1, live_state a1 v1 -> pass_over a1 -> post (pass_done a1) v1 (fun r v' =>
    match r with inl a' => live_state a' v' /\ zone_seen a' | inr r => r <> None end)) as Hpass.
  { intros a1 v1 H1 H2. eapply post_mono; [by apply pass_done_live|]. by intros [?|?] v2 Hr. }
  unfold alloc_round. apply post_bind, post_gets. unfold id. rewrite Hfu. destruct (Z.eqb_spec (Z.land (search_zone a) (done_zones a)) 0) as [_|Nz]; cbn [negb].
  2:{ apply Hpass; [done|]. assert (forall i, in_zone (search_zone a) i -> taken i) as Ht by (intros i Hi; eapply Hdn; [exact Hiz|by rewrite Z.land_comm|done]).
      destruct Hpa as [E|E]; [left|right]; (split; [done|]); auto. }
  rewrite !shiftr3. assert (0 <= bmp_pos a / 8) as Hp8 by (apply Z.div_pos; lia). set (p := bmp_pos a / 8) in *.
  apply post_bind. eapply post_mono; [by apply na_pread_spec|]. intros [br buf] v1 (Hz1 & Hb1 & Hbr & Hs1).
  destruct (Hs1 (Hs Hserved)) as (Hs1' & Hbr0 & Hmore). destruct Hbr as [?|(Hbr & Ebuf & Hzb)]; [lia|].
  assert (live_state a v1) as Hls1.
  { split; try done; [|by eapply same_geom_zones|by rewrite (sz_full _ _ Hz1)]. split_and!; [done|by eapply same_zones_ok|by eapply written_eq|done]. }
  destruct (Z.eqb_spec br 0) as [->|N0].
  { apply Hpass; [done|]. apply seen_over; [done| |done]. intros i Hi. left. assert (zlen old <= p) as Hpe by (destruct Hw as [<- _]; lia).
    assert (i < nr_clusters v0) as Hin by (destruct Hlive as [L1 _ _ _]; unfold in_zone in Hi; lia).
    assert (8 * p <= bmp_pos a) by (apply Z.mul_div_le; lia). lia. }
  if_false. destruct (read_window old v p br (clusters_of (rl a)) Hw Hp8 ltac:(lia) ltac:(congruence)) as [Hwin Hroom].
  rewrite <- Ebuf in Hwin. specialize (Hroom ltac:(lia)). rewrite land7.
  assert (Z.land (bmp_pos a) (Z.lnot 7) = 8 * p) as ->.
  { rewrite <- Z.ldiff_land. change 7 with (Z.ones 3). rewrite Z.ldiff_ones_r, Z.shiftr_div_pow2, Z.shiftl_mul_pow2 by lia. change (2 ^ 3) with 8. unfold p. lia. }
  pose proof (Z.mod_pos_bound (bmp_pos a) 8 ltac:(lia)) as Hm8. pose proof (Z.div_mod (bmp_pos a) 8 ltac:(lia)) as Hdm. fold p in Hdm.
  apply post_bind. eapply post_mono; [apply (window_spec old start_vcn 1 (at_bit (8 * p) a) buf (bmp_pos a mod 8) p v1); try done; [by apply (collected_at old start_vcn 1 a)|lia..]|].
  intros [[[[why a2] buf2] l2] wb] v2 Hr. pose proof Hr as [[Rz Rna] Rp Rc Rw Rl Rsub Rnew Rwb Rtook Rmem Rwhy Rnone].
  cbn [clusters rl at_bit has_guess] in *. rewrite Hone in Rtook.
  assert (zones_ok v2 /\ same_geom v2 /\ full_zones v2 = done_zones a) as (Hv2 & Hg2 & Hf2).
  { destruct Hls1 as [(_ & Hv1 & _) _ _ _ _ Hge1 Hfu1 _]. split_and!; [by eapply same_zones_ok|by eapply same_geom_zones|by rewrite (sz_full _ _ Rz)]. }
  assert (served (lcnbmp_na v2)) as Hsv2 by (by rewrite Rna).
  assert (written old v2 (clusters_of (rl a))) as Hw2 by (eapply written_eq; [|exact Hw]; congruence).
  destruct why.
  - assert (wb = false) as -> by (destruct wb; [specialize (Rtook eq_refl); lia|done]). cbn [bitmap_writeback negb]. specialize (Rwb eq_refl).
    destruct (Rnone eq_refl eq_refl ltac:(lia)) as [Rg Rall]. specialize (Rall Hg). apply post_bind, post_ret.
    destruct Rp as [P1 P2 P3 P4 P5 P6 P7]. cbn in P1, P2, P3, P4, P5, P6, P7.
    assert (clusters a2 = 1) as Hc2.
    { pose proof (co_len _ _ _ _ Rc) as H1. rewrite Rwb, Hrl in H1. change (zlen (clusters_of [])) with 0 in H1. lia. }
    unfold next_window. rewrite P7, Hu. apply post_bind, post_ret. set (a3 := at_bit (bmp_pos a2 + 8 * br) a2).
    assert (live_state a3 v2) as Hls3.
    { split; cbn; try congruence; [|by rewrite P6]. apply (state_zones a v1); [apply (ls_state _ _ Hls1)| |done|done|done].
      split; cbn; [by apply (collected_at old start_vcn 1 a2)|lia|by rewrite P5|by rewrite P6|by rewrite P4|lia]. }
    assert (forall i, 8 * p <= i < 8 * (p + br) -> taken i) as Htk.
    { intros i Hi. specialize (Rall (i - 8 * p) ltac:(lia)). rewrite Hwin in Rall by lia. unfold marked in Rall.
      rewrite Hrl, bool_decide_eq_false_2, orb_false_r in Rall by apply not_elem_of_nil. unfold taken. rewrite <- Rall. f_equal. lia. }
    assert (zone_seen a3) as Hseen3.
    { unfold zone_seen, a3. cbn. rewrite P1, P2, P3, P4, P5. destruct Hseen as [(E & Ee & Hsn)|[E Hsn]]; [left|right]; rewrite E.
      - split_and!; [done|done|]. intros i Hi Hi'. destruct (Z.lt_ge_cases i (bmp_pos a)); [apply Hsn; [done|lia]|apply Htk; lia].
      - split; [done|]. intros i Hi Hi'. destruct (Z.lt_ge_cases i (bmp_pos a)); [apply Hsn; [done|lia]|].
        destruct Hi' as [Hi'|Hi']; [apply Htk; lia|apply Hsn; [done|by right]]. }
    destruct (Z.ltb_spec (bmp_pos a3) (zone_end a3)); [by apply post_ret|]. apply Hpass; [done|]. apply seen_over; [done|lia|].
    cbn. by rewrite P5.
  - apply post_bind. apply (post_mono (fun (_ : unit) v3 => lcnbmp_na v3 = lcnbmp_na v2)).
    { destruct (used_zone_pos a2); [apply post_modify, update_zone_pos_na|by apply post_ret]. }
    intros _ v3 E3. apply post_bind.
    eapply post_mono; [apply (writeback_spec old p buf2 wb (clusters_of (rl a)) (clusters_of (rl a2)) v3); try done|].
    + eapply written_eq; [|exact Hw2]. by rewrite E3.
    + lia.
    + by rewrite Rl.
    + intros E. by rewrite (Rwb E).
    + intros failed v4 (_ & _ & _ & H4). destruct H4 as [_ ->]; [by rewrite E3|]. by apply post_ret.
  - destruct (Rmem eq_refl) as [k Hk]. by rewrite Hmalloc in Hk.
Qed.
End live.

(** A runlist of one cluster. *)
Lemma one_cluster v runs : runs_ok v runs -> zlen (clusters_of runs) = 1 -> exists x, runs = [mkRun v x 1].
Proof.
  destruct runs as [|r runs]; [done|]. change (clusters_of (r :: runs)) with (seqZ (lcn r) (length r) ++ clusters_of runs).
  intros (Hv & Hl & _ & Hr) Hz. rewrite zlen_app in Hz. unfold zlen in Hz at 1. rewrite length_seqZ in Hz. destruct runs as [|r' runs].
  - change (zlen (clusters_of [])) with 0 in Hz. exists (lcn r). destruct r as [v' x n]. cbn in *. f_equal. f_equal; lia.
  - change (clusters_of (r' :: runs)) with (seqZ (lcn r') (length r') ++ clusters_of runs) in Hz. destruct Hr as (_ & Hl' & _).
    rewrite zlen_app in Hz. unfold zlen in Hz at 1. rewrite length_seqZ in Hz. pose proof (zlen_nonneg (clusters_of runs)). lia.
Qed.

(** C8: asked for one cluster without a hint, on a volume whose zones are in order
    and none of them marked as full, [ntfs_cluster_alloc] returns one that was free whenever
    there is one, in either zone, wherever the positions of the zones are. *)
Theorem cluster_alloc_finds {W} `{!AttrOps W} `{!AttrLaws W} `{!Malloc} (v : lcn_volume W) start_vcn zone :
  zones_ok v -> zones_live v -> full_zones v = 0 -> nr_clusters v <= 8 * zlen (attr_bytes (lcnbmp_na v)) < 8 * (2 ^ 31 - 1) ->
  served (lcnbmp_na v) -> (forall n, malloc_ok n = true) ->
  (exists i, 0 <= i < nr_clusters v /\ bit_at (attr_bytes (lcnbmp_na v)) i = false) ->
  exists x v', ntfs_cluster_alloc start_vcn 1 (-1) zone v = Some (Some [mkRun start_vcn x 1; mkRun (start_vcn + 1) LCN_RL_NOT_MAPPED 0], v') /\
    bit_at (attr_bytes (lcnbmp_na v)) x = false /\ bit_at (attr_bytes (lcnbmp_na v')) x = true.
Proof.
  intros Hv Hl Hf [Hnr Hold] Hs Hm Hfree. set (old := attr_bytes (lcnbmp_na v)) in *.
  assert (zlen old < 2 ^ 31 - 1) as Hsmall by lia. pose proof (cluster_alloc_outcome v start_vcn 1 (-1) zone Hv Hsmall) as Hout.
  assert (post (ntfs_cluster_alloc start_vcn 1 (-1) zone) v (fun r _ => r <> None)) as Hsome.
  { unfold ntfs_cluster_alloc. cbn [Z.ltb Z.compare orb Z.eqb Z.leb negb]. rewrite Hm. cbn [negb]. apply post_bind, post_gets. unfold id.
    set (zs := match zone with DATA_ZONE => data1_zone_pos v | MFT_ZONE => mft_zone_pos v end).
    assert (0 <= zs) as Hzs by (destruct Hv; unfold zs; by destruct zone). set (p := if _ || _ then 2 else 1).
    assert (p = 2 /\ (zs = 0 \/ zs = mft_zone_start v \/ zs = mft_zone_end v) \/ p = 1) as Hp.
    { unfold p. destruct (Z.eqb_spec zs 0), (Z.eqb_spec zs (mft_zone_start v)), (Z.eqb_spec zs (mft_zone_end v)); cbn; auto 10. }
    clearbody p zs. pose proof (zl_order _ Hl) as [Ho1 Ho2].
    assert (forall ze sz, is_zone sz -> ze = end_of v sz -> (p = 2 -> zs <= base_of v sz) -> post (iterate windows (alloc_round start_vcn)
      (mkAllocVars zs ze zs 0 0 1 [] 0 p sz 0 false true)) v (fun r _ => r <> None)) as Hloop.
    { intros ze sz Hsz -> Hpb. set (a := mkAllocVars _ _ _ _ _ _ _ _ _ _ _ _ _).
      assert (alloc_state old start_vcn 1 v a v) as Ha by (apply (alloc_start v start_vcn 1 zs (end_of v sz) p sz false); [done|lia|done|tauto|done]).
      eapply (post_iterate (alloc_round start_vcn) (fun a k v' => live_state v start_vcn a v' /\ zone_seen v a /\ k = alloc_rounds old a)) with (k := alloc_rounds old a).
      - intros a1 k v1 (Hls & Hseen & ->).
        eapply post_mono; [apply post_conj; [apply (alloc_step_live v start_vcn Hs Hm Hnr Hl Hfree a1 v1 Hls Hseen)|apply (alloc_step_spec old start_vcn 1 Hsmall v a1 v1 (ls_state _ _ _ _ Hls))]|].
        intros [a2|r] v2 [H1 H2]; [|done]. destruct H1 as [H1 H1'], H2 as [H2 H2']. eexists. split; [|split_and!; [done|done|reflexivity]].
        split; [|done]. eapply rounds_pos, H2.
      - split_and!; [|destruct Hp as [[-> Hpz]| ->]; [right|left]|done].
        + split; try done. intros s i _ Hd. done.
        + split; [done|]. cbn. intros i Hi Hi'. apply in_zone_iff in Hi; [|done]. specialize (Hpb eq_refl). lia.
        + split_and!; [done|done|]. cbn. intros; lia.
      - unfold alloc_rounds, passes, windows. destruct (zone_rank_spec _ _ (ao_zone _ _ _ _ (proj1 Ha)) (ao_done _ _ _ _ (proj1 Ha))) as (_ & Hr & _).
        pose proof (zlen_nonneg old). assert (0 <= bmp_pos a / 8) by (apply Z.div_pos; cbn; lia). clearbody a.
        destruct (pass a =? 1), (used_zone_pos a); nia. }
    destruct (Z.ltb_spec zs (mft_zone_start v)); [|destruct (Z.ltb_spec zs (mft_zone_end v))]; apply Hloop; try done; unfold is_zone; auto;
      intros ->; unfold base_of; cbn; destruct Hp as [[_ Hp]|?]; lia. }
  destruct (post_run _ _ _ (post_conj _ _ _ _ Hout Hsome)) as (r & v' & E & Ho & Hr). destruct r as [rl|]; [|done].
  destruct Ho as (runs & -> & Hok & Hlen & _ & Hfr & [_ Hw] & _). destruct (one_cluster _ _ Hok Hlen) as [x ->]. exists x, v'.
  assert (x ∈ clusters_of [mkRun start_vcn x 1]) as Hx by (rewrite clusters_one; apply elem_of_seqZ; cbn; lia).
  destruct (Hfr x Hx) as [Hxr Hxb]. split; [exact E|]. split; [exact Hxb|]. rewrite Hw by exact Hxr. unfold marked.
  rewrite bool_decide_eq_true_2 by exact Hx. apply orb_true_r.
Qed.
