(* ===== verification/LruCache.v ===== *)
(** * The LRU caches of ntfs-3g

    [cache.c] and [cache.h]: records of a fixed size in one block of memory, linked in the
    order of their last use, with an optional hash table over them.  Pointers are numbers of
    records, [None] being the null pointer; the records and the hash links are two finite
    maps that the operations change link by link, in the order of the code.  A computation
    is [None] when it follows a null pointer or one outside of the block, reads or frees
    memory that was freed, or does not leave a loop. *)

From stdpp Require Import prelude list gmap.
From Stdlib Require Import ZArith Lia.
From S2P Require Import Prelude NtfsTypes.

Local Open Scope Z_scope.
Local Open Scope cint_scope.

(** ** The structures *)

(** What [variable] points to: nothing, a block with its content, or a block that was
    given back. *)
Inductive vptr := VNull | VBlock (l : list Z) | VFreed.

Record CACHED_GENERIC := mkCached {
  ce_next : option nat;
  ce_previous : option nat;
  ce_variable : vptr;
  ce_varsize : Z;
  ce_payload : list Z
}.

(** The members of the same structure that the caller fills in. *)
Record cache_item := mkItem {
  i_variable : option (list Z);
  i_varsize : Z;
  i_payload : list Z
}.

Record HASH_ENTRY := mkHash {
  he_next : option nat;
  he_entry : option nat
}.

(** [dohash] is [None] once hashing was dropped; [released] lists the records that
    [dofree] was called for. *)
Record CACHE_HEADER := mkCache {
  most_recent_entry : option nat;
  oldest_entry : option nat;
  free_entry : option nat;
  free_hash : option nat;
  first_hash : list (option nat);
  dofree : bool;
  dohash : option (cache_item -> Z);
  cache_reads : Z;
  cache_writes : Z;
  cache_hits : Z;
  fixed_size : Z;
  max_hash : Z;
  cache_entry : gmap nat CACHED_GENERIC;
  hash_entry : gmap nat HASH_ENTRY;
  released : list cache_item
}.

Definition CACHE_FREE := 1.
Definition CACHE_NOHASH := 2.

(** [flags & f] *)
Definition flagged (flags f : Z) : bool := negb (Z.land flags f =? 0).

Definition set_next (v : option nat) (e : CACHED_GENERIC) := mkCached v (ce_previous e) (ce_variable e) (ce_varsize e) (ce_payload e).
Definition set_previous (v : option nat) (e : CACHED_GENERIC) := mkCached (ce_next e) v (ce_variable e) (ce_varsize e) (ce_payload e).
Definition set_variable (v : vptr) (e : CACHED_GENERIC) := mkCached (ce_next e) (ce_previous e) v (ce_varsize e) (ce_payload e).
Definition set_varsize (v : Z) (e : CACHED_GENERIC) := mkCached (ce_next e) (ce_previous e) (ce_variable e) v (ce_payload e).
Definition set_payload (v : list Z) (e : CACHED_GENERIC) := mkCached (ce_next e) (ce_previous e) (ce_variable e) (ce_varsize e) v.
Definition set_he_next (v : option nat) (l : HASH_ENTRY) := mkHash v (he_entry l).

Definition set_most_recent v c := mkCache v (oldest_entry c) (free_entry c) (free_hash c) (first_hash c) (dofree c) (dohash c)
  (cache_reads c) (cache_writes c) (cache_hits c) (fixed_size c) (max_hash c) (cache_entry c) (hash_entry c) (released c).
Definition set_oldest v c := mkCache (most_recent_entry c) v (free_entry c) (free_hash c) (first_hash c) (dofree c) (dohash c)
  (cache_reads c) (cache_writes c) (cache_hits c) (fixed_size c) (max_hash c) (cache_entry c) (hash_entry c) (released c).
Definition set_free_entry v c := mkCache (most_recent_entry c) (oldest_entry c) v (free_hash c) (first_hash c) (dofree c) (dohash c)
  (cache_reads c) (cache_writes c) (cache_hits c) (fixed_size c) (max_hash c) (cache_entry c) (hash_entry c) (released c).
Definition set_free_hash v c := mkCache (most_recent_entry c) (oldest_entry c) (free_entry c) v (first_hash c) (dofree c) (dohash c)
  (cache_reads c) (cache_writes c) (cache_hits c) (fixed_size c) (max_hash c) (cache_entry c) (hash_entry c) (released c).
Definition set_first_hash v c := mkCache (most_recent_entry c) (oldest_entry c) (free_entry c) (free_hash c) v (dofree c) (dohash c)
  (cache_reads c) (cache_writes c) (cache_hits c) (fixed_size c) (max_hash c) (cache_entry c) (hash_entry c) (released c).
Definition set_dohash v c := mkCache (most_recent_entry c) (oldest_entry c) (free_entry c) (free_hash c) (first_hash c) (dofree c) v
  (cache_reads c) (cache_writes c) (cache_hits c) (fixed_size c) (max_hash c) (cache_entry c) (hash_entry c) (released c).
Definition set_counts r w h c := mkCache (most_recent_entry c) (oldest_entry c) (free_entry c) (free_hash c) (first_hash c) (dofree c) (dohash c)
  r w h (fixed_size c) (max_hash c) (cache_entry c) (hash_entry c) (released c).
Definition set_cache_entry v c := mkCache (most_recent_entry c) (oldest_entry c) (free_entry c) (free_hash c) (first_hash c) (dofree c) (dohash c)
  (cache_reads c) (cache_writes c) (cache_hits c) (fixed_size c) (max_hash c) v (hash_entry c) (released c).
Definition set_hash_entry v c := mkCache (most_recent_entry c) (oldest_entry c) (free_entry c) (free_hash c) (first_hash c) (dofree c) (dohash c)
  (cache_reads c) (cache_writes c) (cache_hits c) (fixed_size c) (max_hash c) (cache_entry c) v (released c).
Definition set_released v c := mkCache (most_recent_entry c) (oldest_entry c) (free_entry c) (free_hash c) (first_hash c) (dofree c) (dohash c)
  (cache_reads c) (cache_writes c) (cache_hits c) (fixed_size c) (max_hash c) (cache_entry c) (hash_entry c) v.

(** ** Access to memory *)

Definition MC (A : Type) : Type := M CACHE_HEADER A.

Definition fault {A} : MC A := fun _ => None.

Definition record_at (p : option nat) : MC CACHED_GENERIC := fun c =>
  match p ≫= (cache_entry c !!.) with Some e => Some (e, c) | None => None end.
Definition store (p : option nat) (f : CACHED_GENERIC -> CACHED_GENERIC) : MC unit :=
  record_at p;; modify (fun c => match p with Some k => set_cache_entry (alter f k (cache_entry c)) c | None => c end).
Definition link_at (p : option nat) : MC HASH_ENTRY := fun c =>
  match p ≫= (hash_entry c !!.) with Some e => Some (e, c) | None => None end.
Definition store_link (p : option nat) (f : HASH_ENTRY -> HASH_ENTRY) : MC unit :=
  link_at p;; modify (fun c => match p with Some k => set_hash_entry (alter f k (hash_entry c)) c | None => c end).

(** [cache->first_hash[h]] *)
Definition hash_head (h : Z) : MC (option nat) := fun c =>
  match (if h <? 0 then None else first_hash c !! Z.to_nat h) with Some p => Some (p, c) | None => None end.

(** The content of a record, as the functions of the caller see it. *)
Definition view (e : CACHED_GENERIC) : option cache_item :=
  match ce_variable e with
  | VNull => Some (mkItem None (ce_varsize e) (ce_payload e))
  | VBlock l => Some (mkItem (Some l) (ce_varsize e) (ce_payload e))
  | VFreed => None
  end.
Definition item_at (p : option nat) : MC cache_item :=
  e ← record_at p;
  match view e with Some i => mret i | None => fault end.

(** [free(current->variable)] *)
Definition free_variable (p : option nat) : MC unit :=
  e ← record_at p;
  match ce_variable e with
  | VNull => mret tt
  | VBlock _ => store p (set_variable VFreed)
  | VFreed => fault
  end.

(** [cache->dofree(current)] *)
Definition call_dofree (p : option nat) : MC unit :=
  i ← item_at p;
  modify (fun c => set_released (released c ++ [i]) c).

(** ** The hash table *)

(** Enter a new hash index, after a new record has been inserted. *)
Definition inserthashindex (current : option nat) : MC unit :=
  hash ← gets dohash;
  match hash with
  | None => mret tt
  | Some hash =>
      i ← item_at current;
      let h := hash i in
      n ← gets max_hash;
      if (0 <=? h) && (h <? n) then
        link ← gets free_hash;
        match link with
        | Some _ =>
            l ← link_at link;
            modify (set_free_hash (he_next l));;
            first ← hash_head h;
            store_link link (fun _ => mkHash first current);;
            modify (fun c => set_first_hash (<[Z.to_nat h := link]> (first_hash c)) c)
        | None => modify (set_dohash None)
        end
      else modify (set_dohash None)
  end.

(** [while (link && (link->entry != current)) { previous = link; link = link->next; }] *)
Fixpoint find_index (fuel : nat) (current previous link : option nat) : MC (option nat * option nat) :=
  match fuel with
  | O => fault
  | S fuel =>
      match link with
      | None => mret (previous, link)
      | Some _ =>
          l ← link_at link;
          if decide (he_entry l = current) then mret (previous, link) else find_index fuel current link (he_next l)
      end
  end.

(** Drop a hash index when a record is about to be deleted. *)
Definition drophashindex (current : option nat) (h : Z) : MC unit :=
  hash ← gets dohash;
  match hash with
  | None => mret tt
  | Some _ =>
      n ← gets max_hash;
      if (0 <=? h) && (h <? n) then
        first ← hash_head h;
        fuel ← gets (fun c => S (size (hash_entry c)));
        '(previous, link) ← find_index fuel current None first;
        match link with
        | Some _ =>
            l ← link_at link;
            match previous with
            | Some _ => store_link previous (set_he_next (he_next l))
            | None => modify (fun c => set_first_hash (<[Z.to_nat h := he_next l]> (first_hash c)) c)
            end;;
            free ← gets free_hash;
            store_link link (set_he_next free);;
            modify (set_free_hash link)
        | None => modify (set_dohash None)
        end
      else modify (set_dohash None)
  end.

(** ** Search *)

Section search.
(** Whether a cached record differs from the wanted one. *)
Variable compare : cache_item -> cache_item -> bool.

(** [while (link && compare(link->entry, wanted)) link = link->next;] *)
Fixpoint find_hashed (fuel : nat) (wanted : cache_item) (link : option nat) : MC (option nat) :=
  match fuel with
  | O => fault
  | S fuel =>
      match link with
      | None => mret None
      | Some _ =>
          l ← link_at link;
          i ← item_at (he_entry l);
          if compare i wanted then find_hashed fuel wanted (he_next l) else mret (he_entry l)
      end
  end.

(** [while (current && compare(current, wanted)) current = current->next;] *)
Fixpoint find_listed (fuel : nat) (wanted : cache_item) (current : option nat) : MC (option nat) :=
  match fuel with
  | O => fault
  | S fuel =>
      match current with
      | None => mret None
      | Some _ =>
          i ← item_at current;
          if compare i wanted then e ← record_at current; find_listed fuel wanted (ce_next e) else mret current
      end
  end.

(** The hash table if there is one, else the list. *)
Definition cached_entry (wanted : cache_item) : MC (option nat) :=
  hash ← gets dohash;
  fuel ← gets (fun c => S (size (cache_entry c) + size (hash_entry c)));
  match hash with
  | Some hash => first ← hash_head (hash wanted); find_hashed fuel wanted first
  | None => head ← gets most_recent_entry; find_listed fuel wanted head
  end.

(** ** The operations, for a cache that exists *)

(** Found and not at head of list: unlink from current position and relink as head. *)
Definition move_to_head (current : option nat) : MC unit :=
  e ← record_at current;
  let previous := ce_previous e in
  match previous with
  | None => mret tt
  | Some _ =>
      store previous (set_next (ce_next e));;
      e ← record_at current;
      match ce_next e with
      | Some _ => store (ce_next e) (set_previous (ce_previous e))
      | None => modify (set_oldest (ce_previous e))
      end;;
      head ← gets most_recent_entry;
      store current (set_next head);;
      store current (set_previous None);;
      store head (set_previous current);;
      modify (set_most_recent current)
  end.

Definition fetch_entry (wanted : cache_item) : MC (option nat) :=
  current ← cached_entry wanted;
  match current with
  | Some _ => modify (fun c => set_counts (cache_reads c) (cache_writes c) (u64 (cache_hits c + 1)) c);; move_to_head current
  | None => mret tt
  end;;
  modify (fun c => set_counts (u64 (cache_reads c + 1)) (cache_writes c) (cache_hits c) c);;
  mret current.

Context `{Malloc}.

(** The result of [ntfs_malloc] or of a [realloc] that succeeds; [memcpy] fills it. *)
Definition new_block (size : Z) : vptr := if malloc_ok size then VBlock [] else VNull.

(** A free record, or the oldest one. *)
Definition take_entry (item : cache_item) : MC (option nat) :=
  current ← gets free_entry;
  match current with
  | Some _ =>
      e ← record_at current;
      modify (set_free_entry (ce_next e));;
      store current (set_variable (if negb (i_varsize item =? 0) then new_block (i_varsize item) else VNull));;
      store current (set_varsize (i_varsize item));;
      oldest ← gets oldest_entry;
      match oldest with Some _ => mret tt | None => modify (set_oldest current) end;;
      mret current
  | None =>
      current ← gets oldest_entry;
      e ← record_at current;
      store (ce_previous e) (set_next None);;
      hash ← gets dohash;
      match hash with Some hash => i ← item_at current; drophashindex current (hash i) | None => mret tt end;;
      free ← gets dofree;
      (if free : bool then call_dofree current else mret tt);;
      e ← record_at current;
      modify (set_oldest (ce_previous e));;
      (if negb (i_varsize item =? 0) then
         match (if negb (ce_varsize e =? 0) then ce_variable e else VNull) with
         | VFreed => fault
         | _ => store current (set_variable (new_block (i_varsize item)))
         end
       else (if negb (ce_varsize e =? 0) then free_variable current else mret tt);; store current (set_variable VNull));;
      store current (set_varsize (i_varsize item));;
      mret current
  end.

(** The record becomes the head of the list and gets its content; [None] when there was no
    memory for the variable part. *)
Definition fill_entry (current : option nat) (item : cache_item) : MC (option nat) :=
  head ← gets most_recent_entry;
  store current (set_next head);;
  store current (set_previous None);;
  match head with Some _ => store head (set_previous current) | None => mret tt end;;
  modify (set_most_recent current);;
  size ← gets fixed_size;
  store current (set_payload (sub (i_payload item) 0 size));;
  if negb (i_varsize item =? 0) then
    e ← record_at current;
    match ce_variable e, i_variable item with
    | VBlock _, Some l =>
        if zlen l <? i_varsize item then fault else store current (set_variable (VBlock (sub l 0 (i_varsize item))));; mret current
    | VNull, _ =>
        modify (set_most_recent (ce_next e));;
        free ← gets free_entry;
        store current (set_next free);;
        modify (set_free_entry current);;
        mret None
    | _, _ => fault
    end
  else
    store current (set_variable VNull);;
    store current (set_varsize 0);;
    mret current.

Definition enter_entry (item : cache_item) : MC (option nat) :=
  current ← cached_entry item;
  current ← match current with
            | Some _ => mret current
            | None =>
                current ← take_entry item;
                current ← fill_entry current item;
                match current with Some _ => inserthashindex current | None => mret tt end;;
                mret current
            end;
  modify (fun c => set_counts (cache_reads c) (u64 (cache_writes c + 1)) (cache_hits c) c);;
  mret current.
End search.

(** The record is moved to the free list. *)
Definition do_invalidate (current : option nat) (flags : Z) : MC unit :=
  e ← record_at current;
  let previous := ce_previous e in
  free ← gets dofree;
  (if flagged flags CACHE_FREE && free then call_dofree current else mret tt);;
  match ce_next e with
  | Some _ => store (ce_next e) (set_previous (ce_previous e))
  | None => modify (set_oldest (ce_previous e))
  end;;
  e ← record_at current;
  match previous with
  | Some _ => store previous (set_next (ce_next e))
  | None => modify (set_most_recent (ce_next e))
  end;;
  free ← gets free_entry;
  store current (set_next free);;
  modify (set_free_entry current);;
  free_variable current;;
  store current (set_varsize 0).

Section invalidate.
Variable compare : cache_item -> cache_item -> bool.

(** [while (link)]: the records of a hash list that match. *)
Fixpoint invalidate_hashed (fuel : nat) (item : cache_item) (h flags : Z) (link : option nat) (count : Z) : MC Z :=
  match fuel with
  | O => fault
  | S fuel =>
      match link with
      | None => mret count
      | Some _ =>
          l ← link_at link;
          i ← item_at (he_entry l);
          if compare i item then invalidate_hashed fuel item h flags (he_next l) count
          else match he_entry l with
               | Some _ =>
                   drophashindex (he_entry l) h;;
                   do_invalidate (he_entry l) flags;;
                   invalidate_hashed fuel item h flags (he_next l) (count + 1)
               | None => invalidate_hashed fuel item h flags (he_next l) count
               end
      end
  end.

(** [while (current)]: the records of the list that match. *)
Fixpoint invalidate_listed (fuel : nat) (item : cache_item) (flags : Z) (current : option nat) (count : Z) : MC Z :=
  match fuel with
  | O => fault
  | S fuel =>
      match current with
      | None => mret count
      | Some _ =>
          i ← item_at current;
          e ← record_at current;
          if negb (compare i item) then
            hash ← gets dohash;
            match hash with Some hash => drophashindex current (hash i) | None => mret tt end;;
            do_invalidate current flags;;
            invalidate_listed fuel item flags (ce_next e) (count + 1)
          else invalidate_listed fuel item flags (ce_next e) count
      end
  end.

Definition invalidate_entries (item : cache_item) (flags : Z) : MC Z :=
  hash ← gets dohash;
  fuel ← gets (fun c => S (size (cache_entry c) + size (hash_entry c)));
  count ← match hash with
          | Some hash => if flagged flags CACHE_NOHASH then mret 0
                         else first ← hash_head (hash item); invalidate_hashed fuel item (hash item) flags first 0
          | None => mret 0
          end;
  hash ← gets dohash;
  match hash with
  | Some _ => if flagged flags CACHE_NOHASH then head ← gets most_recent_entry; invalidate_listed fuel item flags head count else mret count
  | None => head ← gets most_recent_entry; invalidate_listed fuel item flags head count
  end.
End invalidate.

Definition remove_entry (item : option nat) (flags : Z) : MC Z :=
  hash ← gets dohash;
  match hash with Some hash => i ← item_at item; drophashindex item (hash i) | None => mret tt end;;
  do_invalidate item flags;;
  mret 1.

(** ** The functions of the interface

    A cache that could not be created is a null pointer, for which nothing is done. *)

Definition in_cache {A} (d : A) (m : MC A) : M (option CACHE_HEADER) A := fun s =>
  match s with
  | None => Some (d, None)
  | Some c => match m c with Some (a, c') => Some (a, Some c') | None => None end
  end.

Definition ntfs_fetch_cache (wanted : cache_item) (compare : cache_item -> cache_item -> bool) : M (option CACHE_HEADER) (option nat) :=
  in_cache None (fetch_entry compare wanted).
Definition ntfs_enter_cache `{Malloc} (item : cache_item) (compare : cache_item -> cache_item -> bool) : M (option CACHE_HEADER) (option nat) :=
  in_cache None (enter_entry compare item).
Definition ntfs_invalidate_cache (item : cache_item) (compare : cache_item -> cache_item -> bool) (flags : Z) : M (option CACHE_HEADER) Z :=
  in_cache 0 (invalidate_entries compare item flags).
Definition ntfs_remove_cache (item : option nat) (flags : Z) : M (option CACHE_HEADER) Z :=
  in_cache 0 (remove_entry item flags).

(** [for (entry=cache->most_recent_entry; entry; entry=entry->next)] *)
Fixpoint free_entries (fuel : nat) (entry : option nat) : MC unit :=
  match fuel with
  | O => fault
  | S fuel =>
      match entry with
      | None => mret tt
      | Some _ =>
          free ← gets dofree;
          (if free : bool then call_dofree entry else mret tt);;
          free_variable entry;;
          e ← record_at entry;
          free_entries fuel (ce_next e)
      end
  end.

(** The records for which [dofree] was called; the cache is gone. *)
Definition ntfs_free_cache : M (option CACHE_HEADER) (list cache_item) := fun s =>
  match s with
  | None => Some ([], None)
  | Some c => match free_entries (S (size (cache_entry c))) (most_recent_entry c) c with
              | Some (_, c') => Some (released c', None)
              | None => None
              end
  end.

(** [n] things linked in order: what the one of number [i] points to. *)
Definition next_in (n i : nat) : option nat := if (S i <? n)%nat then Some (S i) else None.

(** The sizes of the structures, with pointers of 8 bytes. *)
Definition sizeof_CACHE_HEADER := 96.
Definition sizeof_CACHED_GENERIC := 32.
Definition sizeof_HASH_ENTRY := 16.
Definition sizeof_pointer := 8.

Definition cache_bytes (full_item_size : Z) (item_count max_hash : nat) : Z :=
  sizeof_CACHE_HEADER + Z.of_nat item_count * full_item_size +
  match max_hash with O => 0 | _ => Z.of_nat item_count * sizeof_HASH_ENTRY + Z.of_nat max_hash * sizeof_pointer end.

Definition ntfs_create_cache `{Malloc} (dofree : bool) (dohash : option (cache_item -> Z)) (full_item_size : Z) (item_count max_hash : nat)
  : option CACHE_HEADER :=
  if malloc_ok (cache_bytes full_item_size item_count max_hash) then
    Some (mkCache None None (Some O)
      (match max_hash with O => None | _ => Some O end) (replicate max_hash None)
      dofree (match max_hash with O => None | _ => dohash end) 0 0 0 (full_item_size - sizeof_CACHED_GENERIC)
      (match dohash with Some _ => Z.of_nat max_hash | None => 0 end)
      (list_to_map ((fun i => (i, mkCached (next_in item_count i) None VNull 0 [])) <$> seq 0 item_count))
      (match max_hash with O => ∅ | _ => list_to_map ((fun i => (i, mkHash (next_in item_count i) None)) <$> seq 0 item_count) end)
      [])
  else None.
