(* ===== verification/LruRep.v ===== *)
(** * Linked structures of the caches

    The shape of the memory of a cache: a doubly linked list of the records in use, a singly
    linked list of the free ones, and the lists of the hash table; and how single stores
    change the shape. *)

From stdpp Require Import prelude list gmap.
From Stdlib Require Import ZArith Lia.
From S2P Require Import Prelude NtfsTypes LruCache.

Local Open Scope Z_scope.

(** A record in use: where it is and what it holds. *)
Abbreviation slot := (nat * cache_item)%type.

(** A record is listed once. *)
Lemma slot_unique (l : list slot) p i j : NoDup l.*1 -> (p, i) ∈ l -> (p, j) ∈ l -> i = j.
Proof.
  intros Hd [a Ha]%list_elem_of_lookup [b Hb]%list_elem_of_lookup. assert (a = b) as ->; [|congruence].
  apply (NoDup_lookup l.*1 a b p); [done| |]; by rewrite list_lookup_fmap, ?Ha, ?Hb.
Qed.

Lemma NoDup_fmap_fst_slots (l : list slot) : NoDup l.*1 -> NoDup l.
Proof. apply NoDup_fmap_1. Qed.

(** ** Doubly linked lists *)

(** The first record of [l], or [nx]; the last one, or [pv]. *)
Definition first_of (l : list slot) (nx : option nat) : option nat := match l with [] => nx | x :: _ => Some x.1 end.
Definition last_of (pv : option nat) (l : list slot) : option nat := match last l with Some x => Some x.1 | None => pv end.

(** [l] is linked in both directions, between [pv] and [nx]. *)
Fixpoint dseg (m : gmap nat CACHED_GENERIC) (pv : option nat) (l : list slot) (nx : option nat) : Prop :=
  match l with
  | [] => True
  | x :: l => (exists e, m !! x.1 = Some e /\ ce_previous e = pv /\ ce_next e = first_of l nx /\ view e = Some x.2) /\
              dseg m (Some x.1) l nx
  end.

Lemma last_of_app pv l k : last_of pv (l ++ k) = last_of (last_of pv l) k.
Proof. unfold last_of. rewrite last_app. by destruct (last k). Qed.

Lemma last_of_snoc pv l x : last_of pv (l ++ [x]) = Some x.1.
Proof. unfold last_of. by rewrite last_snoc. Qed.

Lemma last_of_cons pv x l : last_of pv (x :: l) = last_of (Some x.1) l.
Proof. unfold last_of. rewrite last_cons. by destruct (last l). Qed.

Lemma first_of_app l k nx : first_of (l ++ k) nx = first_of l (first_of k nx).
Proof. by destruct l. Qed.

Lemma dseg_app m pv l k nx : dseg m pv (l ++ k) nx <-> dseg m pv l (first_of k nx) /\ dseg m (last_of pv l) k nx.
Proof.
  revert pv. induction l as [|x l IH]; intros pv; [cbn; tauto|]. cbn [app dseg]. rewrite IH, first_of_app, last_of_cons. tauto.
Qed.

Lemma dseg_ext m m' pv l nx : (forall p, p ∈ l.*1 -> m' !! p = m !! p) -> dseg m pv l nx -> dseg m' pv l nx.
Proof.
  revert pv. induction l as [|x l IH]; intros pv Hm; [done|]. cbn [dseg]. intros [(e & He & Hr) Hl]. split.
  - exists e. rewrite Hm by set_solver. done.
  - apply IH; [|done]. intros p Hp. apply Hm. set_solver.
Qed.

Lemma dseg_frame m f q pv l nx : q ∉ l.*1 -> dseg m pv l nx -> dseg (alter f q m) pv l nx.
Proof. intros Hq. apply dseg_ext. intros p Hp. apply lookup_alter_ne. set_solver. Qed.

Lemma dseg_lookup m pv l nx x : dseg m pv l nx -> x ∈ l -> exists e, m !! x.1 = Some e /\ view e = Some x.2.
Proof.
  revert pv. induction l as [|y l IH]; intros pv; [set_solver|]. cbn [dseg]. intros [(e & He & _ & _ & Hv) Hl].
  rewrite elem_of_cons. intros [->|Hx]; eauto.
Qed.

(** A record in the middle. *)
Lemma dseg_at m l1 x l2 : dseg m None (l1 ++ x :: l2) None ->
  exists e, m !! x.1 = Some e /\ ce_previous e = last_of None l1 /\ ce_next e = first_of l2 None /\ view e = Some x.2.
Proof. intros [_ [Hx _]]%dseg_app. exact Hx. Qed.

Lemma view_set_next v e : view (set_next v e) = view e.
Proof. done. Qed.
Lemma view_set_previous v e : view (set_previous v e) = view e.
Proof. done. Qed.

(** Redirect the end of a list, or its start, where there is one. *)
Definition fix_next (p v : option nat) (m : gmap nat CACHED_GENERIC) := match p with Some q => alter (set_next v) q m | None => m end.
Definition fix_previous (p v : option nat) (m : gmap nat CACHED_GENERIC) := match p with Some q => alter (set_previous v) q m | None => m end.

Lemma dseg_fix_next m pv l nx v : NoDup l.*1 -> dseg m pv l nx -> dseg (fix_next (last_of None l) v m) pv l v.
Proof.
  destruct l as [|x l _] using rev_ind; [done|]. rewrite fmap_app. intros Hd Hs. rewrite last_of_snoc. cbn [fix_next].
  apply NoDup_app in Hd as (_ & Hd & _). apply dseg_app in Hs as [Hl [(e & He & Hp & _ & Hv) _]]. apply dseg_app. split.
  - apply dseg_frame; [intros Hx; apply (Hd _ Hx); set_solver|done].
  - split; [|done]. exists (set_next v e). rewrite lookup_alter_eq, He. done.
Qed.

Lemma dseg_fix_previous m pv l nx v : NoDup l.*1 -> dseg m pv l nx -> dseg (fix_previous (first_of l None) v m) v l nx.
Proof.
  destruct l as [|x l]; [done|]. cbn [first_of fix_previous fmap list_fmap]. intros [Hx Hd]%NoDup_cons [(e & He & Hp & Hn & Hv) Hl]. split.
  - exists (set_previous v e). rewrite lookup_alter_eq, He. done.
  - by apply dseg_frame.
Qed.

Lemma fix_next_ne p v m k : p <> Some k -> fix_next p v m !! k = m !! k.
Proof. destruct p as [q|]; [|done]. intros Hk. apply lookup_alter_ne. congruence. Qed.
Lemma fix_previous_ne p v m k : p <> Some k -> fix_previous p v m !! k = m !! k.
Proof. destruct p as [q|]; [|done]. intros Hk. apply lookup_alter_ne. congruence. Qed.

Lemma last_of_in pv l q : last_of pv l = Some q -> pv = Some q /\ l = [] \/ q ∈ l.*1.
Proof.
  unfold last_of. destruct l as [|x l _] using rev_ind; [by left|]. rewrite last_snoc. intros [= <-]. right. rewrite fmap_app. set_solver.
Qed.

Lemma first_of_in l nx q : first_of l nx = Some q -> nx = Some q /\ l = [] \/ q ∈ l.*1.
Proof. destruct l as [|x l]; [by left|]. intros [= <-]. right. set_solver. Qed.

Lemma last_of_notin l p : p ∉ l.*1 -> last_of None l <> Some p.
Proof. intros Hp E. apply last_of_in in E as [[? _]|]; done. Qed.
Lemma first_of_notin l p : p ∉ l.*1 -> first_of l None <> Some p.
Proof. intros Hp E. apply first_of_in in E as [[? _]|]; done. Qed.

(** Both neighbours of a record are redirected past it. *)
Lemma dseg_unlink m l1 x l2 :
  NoDup (l1 ++ x :: l2).*1 -> dseg m None (l1 ++ x :: l2) None ->
  dseg (fix_previous (first_of l2 None) (last_of None l1) (fix_next (last_of None l1) (first_of l2 None) m)) None (l1 ++ l2) None.
Proof.
  rewrite fmap_app. cbn [fmap list_fmap]. intros (D1 & D & [Dx D2]%NoDup_cons)%NoDup_app [H1 [_ H2]]%dseg_app. cbn [first_of] in H1.
  assert (forall q, q ∈ l1.*1 -> q ∉ l2.*1) as D12 by (intros q Hq; specialize (D q Hq); set_solver).
  apply dseg_app. split.
  - apply (dseg_ext (fix_next (last_of None l1) (first_of l2 None) m)); [|by eapply dseg_fix_next].
    intros p Hp. apply fix_previous_ne. apply first_of_notin. by apply D12.
  - eapply dseg_fix_previous; [done|]. eapply dseg_ext; [|exact H2]. intros p Hp. apply fix_next_ne. apply last_of_notin. intros Hq. by apply (D12 p).
Qed.

(** The redirections are at different records. *)
Lemma fix_swap m l1 l2 v w : (forall q, q ∈ l1.*1 -> q ∉ l2.*1) ->
  fix_previous (first_of l2 None) v (fix_next (last_of None l1) w m) = fix_next (last_of None l1) w (fix_previous (first_of l2 None) v m).
Proof.
  intros D. destruct (first_of l2 None) as [q|] eqn:E2, (last_of None l1) as [p|] eqn:E1; try done. cbn.
  apply alter_alter_ne. apply last_of_in in E1 as [[? _]|E1]; [done|]. apply first_of_in in E2 as [[? _]|E2]; [done|]. intros ->. by apply (D p).
Qed.

(** A record that is at the front afterwards. *)
Lemma dseg_push m l x e :
  NoDup (x :: l).*1 -> dseg m None l None -> m !! x.1 = Some e -> ce_previous e = None -> ce_next e = first_of l None -> view e = Some x.2 ->
  dseg (fix_previous (first_of l None) (Some x.1) m) None (x :: l) None.
Proof.
  cbn [fmap list_fmap]. intros [Hx Hd]%NoDup_cons Hs He Hp Hn Hv. split.
  - exists e. rewrite fix_previous_ne by by apply first_of_notin. done.
  - by eapply dseg_fix_previous.
Qed.

(** ** Singly linked lists of records *)

Fixpoint flist (m : gmap nat CACHED_GENERIC) (p : option nat) (fs : list nat) : Prop :=
  match fs with
  | [] => p = None
  | q :: fs => p = Some q /\ exists e, m !! q = Some e /\ flist m (ce_next e) fs
  end.

Lemma flist_ext m m' p fs : (forall q, q ∈ fs -> m' !! q = m !! q) -> flist m p fs -> flist m' p fs.
Proof.
  revert p. induction fs as [|q fs IH]; intros p Hm; [done|]. cbn [flist]. intros [-> (e & He & Hf)]. split; [done|]. exists e.
  rewrite Hm by set_solver. split; [done|]. apply IH; [|done]. intros r Hr. apply Hm. set_solver.
Qed.

(** ** Lists of hash links *)

(** [ch]: the links with the records they point to. *)
Fixpoint hlist (m : gmap nat HASH_ENTRY) (p : option nat) (ch : list (nat * nat)) : Prop :=
  match ch with
  | [] => p = None
  | x :: ch => p = Some x.1 /\ exists l, m !! x.1 = Some l /\ he_entry l = Some x.2 /\ hlist m (he_next l) ch
  end.
Fixpoint hfree (m : gmap nat HASH_ENTRY) (p : option nat) (fs : list nat) : Prop :=
  match fs with
  | [] => p = None
  | q :: fs => p = Some q /\ exists l, m !! q = Some l /\ hfree m (he_next l) fs
  end.

Lemma hlist_ext m m' p ch : (forall q, q ∈ ch.*1 -> m' !! q = m !! q) -> hlist m p ch -> hlist m' p ch.
Proof.
  revert p. induction ch as [|x ch IH]; intros p Hm; [done|]. cbn [hlist]. intros [-> (l & Hl & He & Hc)]. split; [done|]. exists l.
  rewrite Hm by set_solver. split_and!; [done|done|]. apply IH; [|done]. intros r Hr. apply Hm. set_solver.
Qed.

Lemma hfree_ext m m' p fs : (forall q, q ∈ fs -> m' !! q = m !! q) -> hfree m p fs -> hfree m' p fs.
Proof.
  revert p. induction fs as [|q fs IH]; intros p Hm; [done|]. cbn [hfree]. intros [-> (l & Hl & Hf)]. split; [done|]. exists l.
  rewrite Hm by set_solver. split; [done|]. apply IH; [|done]. intros r Hr. apply Hm. set_solver.
Qed.
