(* ===== verification/LruHash.v ===== *)
(** * The hash table of a cache

    Entering and dropping an index, and the search of a hash list. *)

From stdpp Require Import prelude list gmap.
From Stdlib Require Import ZArith Lia.
From S2P Require Import Prelude NtfsTypes LruCache LruRep.

Local Open Scope Z_scope.

(** ** Symbolic execution *)

Lemma post_bind_inv {S A B} (m : M S A) (k : A -> M S B) s Q : post (m ≫= k) s Q -> post m s (fun a s' => post (k a) s' Q).
Proof. unfold post, mbind, M_bind. by destruct (m s) as [[a s']|]. Qed.

Lemma post_record_at p e c Q : cache_entry c !! p = Some e -> Q e c -> post (record_at (Some p)) c Q.
Proof. intros He Hq. unfold post, record_at. cbn. by rewrite He. Qed.

Lemma post_store p f c Q : is_Some (cache_entry c !! p) -> Q tt (set_cache_entry (alter f p (cache_entry c)) c) -> post (store (Some p) f) c Q.
Proof. intros [e He] Hq. apply post_bind. by apply (post_record_at p e). Qed.

Lemma post_link_at p l c Q : hash_entry c !! p = Some l -> Q l c -> post (link_at (Some p)) c Q.
Proof. intros He Hq. unfold post, link_at. cbn. by rewrite He. Qed.

Lemma post_store_link p f c Q : is_Some (hash_entry c !! p) -> Q tt (set_hash_entry (alter f p (hash_entry c)) c) -> post (store_link (Some p) f) c Q.
Proof. intros [e He] Hq. apply post_bind. by apply (post_link_at p e). Qed.

Lemma post_item_at p e i c Q : cache_entry c !! p = Some e -> view e = Some i -> Q i c -> post (item_at (Some p)) c Q.
Proof. intros He Hv Hq. apply post_bind. apply (post_record_at p e); [done|]. by rewrite Hv. Qed.

Lemma post_hash_head h p c Q : 0 <= h -> first_hash c !! Z.to_nat h = Some p -> Q p c -> post (hash_head h) c Q.
Proof. intros Hh Hp Hq. unfold post, hash_head. rewrite (proj2 (Z.ltb_ge _ _)) by done. by rewrite Hp. Qed.

(** Only the hash table was changed. *)
Definition hash_only (c c' : CACHE_HEADER) : Prop := exists a b d, c' = set_free_hash a (set_first_hash b (set_hash_entry d c)).

(** ** The table *)

Section table.
Variable hash : cache_item -> Z.

(** Every record of [l] has one link, in the list of its hash value; the other links are
    free. *)
Record table (c : CACHE_HEADER) (l : list slot) (n : nat) (chains : list (list (nat * nat))) (hfs : list nat) : Prop := {
  tb_size : max_hash c = Z.of_nat (length (first_hash c));
  tb_dom : dom (hash_entry c) = set_seq 0 n;
  tb_len : length chains = length (first_hash c);
  tb_chain : forall h ch, chains !! h = Some ch -> exists p, first_hash c !! h = Some p /\ hlist (hash_entry c) p ch;
  tb_free : hfree (hash_entry c) (free_hash c) hfs;
  tb_links : (mjoin chains).*1 ++ hfs ≡ₚ seq 0 n;
  tb_recs : (mjoin chains).*2 ≡ₚ l.*1;
  tb_hash : forall h ch x, chains !! h = Some ch -> x ∈ ch -> exists i, (x.2, i) ∈ l /\ hash i = Z.of_nat h
}.

Definition hashed (c : CACHE_HEADER) (l : list slot) (n : nat) : Prop := exists chains hfs, table c l n chains hfs.

Lemma hashed_perm c l l' n : l ≡ₚ l' -> hashed c l n -> hashed c l' n.
Proof.
  intros Hp (chains & hfs & [T1 T2 T3 T4 T5 T6 T7 T8]). exists chains, hfs. split; try done.
  - by rewrite T7, Hp.
  - intros h ch x Hc Hx. destruct (T8 h ch x Hc Hx) as (i & Hi & Hh). exists i. by rewrite <- Hp.
Qed.

(** One of the lists taken apart from the others. *)
Lemma join_delete (chains : list (list (nat * nat))) h ch :
  chains !! h = Some ch -> mjoin chains ≡ₚ ch ++ mjoin (delete h chains).
Proof.
  intros Hc. rewrite <- (take_drop_middle _ _ _ Hc) at 1. rewrite delete_take_drop. rewrite !join_app. cbn [mjoin list_join].
  rewrite !app_assoc. by rewrite (Permutation_app_comm _ ch).
Qed.

Lemma join_insert (chains : list (list (nat * nat))) h ch ch' :
  chains !! h = Some ch -> mjoin (<[h := ch']> chains) ≡ₚ ch' ++ mjoin (delete h chains).
Proof.
  intros Hc. assert ((h < length chains)%nat) as Hl by by eapply lookup_lt_Some.
  rewrite (join_delete _ h ch') by by apply list_lookup_insert_eq. f_equiv.
  rewrite !delete_take_drop, take_insert_ge, drop_insert_lt by lia. done.
Qed.

Lemma other_chain (chains : list (list (nat * nat))) h h' ch x :
  h' <> h -> chains !! h' = Some ch -> x ∈ ch -> x ∈ mjoin (delete h chains).
Proof.
  intros Hne Hc Hx. apply list_elem_of_join. exists ch. split; [done|]. destruct (decide (h' < h)%nat).
  - apply list_elem_of_lookup. exists h'. by rewrite list_lookup_delete_lt.
  - apply list_elem_of_lookup. exists (pred h'). rewrite list_lookup_delete_ge by lia. by replace (S (pred h')) with h' by lia.
Qed.

(** The lists when one of them is replaced: those of the others are where they were. *)
Lemma links_insert (fh : list (option nat)) (m m' : gmap nat HASH_ENTRY) chains h ch ch' p :
  chains !! h = Some ch -> (forall h ch, chains !! h = Some ch -> exists p, fh !! h = Some p /\ hlist m p ch) ->
  (h < length fh)%nat -> hlist m' p ch' -> (forall q, q ∈ (mjoin (delete h chains)).*1 -> m' !! q = m !! q) ->
  forall h' ch2, <[h := ch']> chains !! h' = Some ch2 -> exists p2, <[h := p]> fh !! h' = Some p2 /\ hlist m' p2 ch2.
Proof.
  intros Hc Hall Hh Hnew Hsame h' ch2. destruct (decide (h' = h)) as [->|Hne].
  - rewrite list_lookup_insert_eq by by eapply lookup_lt_Some. intros [= <-]. exists p. by rewrite list_lookup_insert_eq.
  - rewrite !list_lookup_insert_ne by done. intros H2. destruct (Hall _ _ H2) as (p2 & Hp & Hl). exists p2. split; [done|].
    eapply hlist_ext; [|exact Hl]. intros q (x & -> & Hx)%list_elem_of_fmap. apply Hsame. apply list_elem_of_fmap. exists x. split; [done|].
    by eapply other_chain.
Qed.

Lemma table_nodup c l n chains hfs : table c l n chains hfs -> NoDup ((mjoin chains).*1 ++ hfs).
Proof. intros T. rewrite (tb_links _ _ _ _ _ T). apply NoDup_seq. Qed.

Lemma hash_found c l n chains hfs x h :
  table c l n chains hfs -> NoDup l.*1 -> x ∈ l -> hash x.2 = h ->
  0 <= h < max_hash c /\ exists ch k, chains !! Z.to_nat h = Some ch /\ (k, x.1) ∈ ch.
Proof.
  intros T Hd Hx Hh. assert (x.1 ∈ (mjoin chains).*2) as Hr by (rewrite (tb_recs _ _ _ _ _ T); apply list_elem_of_fmap; eauto).
  apply list_elem_of_fmap in Hr as ([k p] & E & Hk). cbn in E. subst p. apply list_elem_of_join in Hk as (ch & Hk & Hch).
  apply list_elem_of_lookup in Hch as [h' Hc]. destruct (tb_hash _ _ _ _ _ T h' ch (k, x.1) Hc Hk) as (i & Hi & Hi').
  assert (i = x.2) as ->. { destruct x as [q j]. cbn in *. by eapply slot_unique. }
  rewrite Hi' in Hh. subst h. assert ((h' < length chains)%nat) by by eapply lookup_lt_Some.
  rewrite (tb_size _ _ _ _ _ T), <- (tb_len _ _ _ _ _ T), Nat2Z.id. split; [lia|eauto].
Qed.

Lemma insert_spec c l n p e i :
  dohash c = Some hash -> hashed c l n -> cache_entry c !! p = Some e -> view e = Some i -> p ∉ l.*1 -> (length l < n)%nat ->
  0 <= hash i < max_hash c ->
  post (inserthashindex (Some p)) c (fun _ c' => hash_only c c' /\ hashed c' ((p, i) :: l) n).
Proof.
  intros Eh (chains & hfs & T) He Hv Hp Hl Hr. pose proof (table_nodup _ _ _ _ _ T) as Hnd. destruct T as [T1 T2 T3 T4 T5 T6 T7 T8].
  destruct hfs as [|k hfs].
  { exfalso. rewrite app_nil_r in T6. apply Permutation_length in T6, T7. rewrite !length_fmap, ?length_seq in *. lia. }
  destruct T5 as [Ek (lk & Hk & Hf)]. assert ((Z.to_nat (hash i) < length chains)%nat) as Hlt by (rewrite T3; lia).
  destruct (lookup_lt_is_Some_2 chains _ Hlt) as [ch Hc]. destruct (T4 _ _ Hc) as (first & Hfirst & Hch).
  unfold inserthashindex. mstep. mstep. rewrite Eh. mstep. apply (post_item_at p e i); [done..|]. mstep. mstep. if_true. mstep. mstep. rewrite Ek.
  mstep. apply (post_link_at k lk); [done|]. mstep. mstep. mstep. apply (post_hash_head _ first); [lia|done|]. mstep.
  apply post_store_link; [by eexists|]. mstep. cbn [hash_entry first_hash set_free_hash set_hash_entry]. split; [by eexists _, _, _|].
  set (h := Z.to_nat (hash i)) in *. set (lk' := mkHash first (Some p)).
  assert (forall q, q <> k -> alter (fun _ => lk') k (hash_entry c) !! q = hash_entry c !! q) as Hne by (intros q Hq; apply lookup_alter_ne; congruence).
  apply NoDup_app in Hnd as (N1 & N2 & [N3 N4]%NoDup_cons).
  exists (<[h := (k, p) :: ch]> chains), hfs. split; cbn.
  - by rewrite length_insert.
  - by rewrite dom_alter_L.
  - by rewrite !length_insert.
  - eapply (links_insert (first_hash c) (hash_entry c) _ chains h ch); try done.
    + by rewrite <- T3.
    + split; [done|]. exists lk'. rewrite lookup_alter_eq, Hk. split_and!; [done..|]. eapply hlist_ext; [|exact Hch].
      intros q Hq. apply Hne. intros ->. apply (N2 k); [|set_solver]. rewrite (join_delete _ _ _ Hc), fmap_app. set_solver.
    + intros q Hq. apply Hne. intros ->. apply (N2 k); [|set_solver]. rewrite (join_delete _ _ _ Hc), fmap_app. set_solver.
  - eapply hfree_ext; [|exact Hf]. intros q Hq. apply Hne. by intros ->.
  - rewrite (join_insert _ _ ch) by done. rewrite <- T6. rewrite (join_delete _ _ _ Hc). cbn. rewrite Permutation_middle. done.
  - rewrite (join_insert _ _ ch) by done. cbn. rewrite <- T7. by rewrite (join_delete _ _ _ Hc).
  - intros h' ch2 x H2 Hx. destruct (decide (h' = h)) as [->|Hh].
    + rewrite list_lookup_insert_eq in H2 by done. injection H2 as <-. apply elem_of_cons in Hx as [->|Hx].
      * exists i. split; [set_solver|]. unfold h. lia.
      * destruct (T8 h ch x Hc Hx) as (j & Hj & Ej). exists j. split; [set_solver|done].
    + rewrite list_lookup_insert_ne in H2 by done. destruct (T8 h' ch2 x H2 Hx) as (j & Hj & Ej). exists j. split; [set_solver|done].
Qed.

(** ** Dropping an index *)

Lemma perm_move {A} (k : A) a b r f : (a ++ b) ++ r ++ k :: f ≡ₚ (a ++ k :: b) ++ r ++ f.
Proof. by rewrite <- !Permutation_middle. Qed.

Definition last_link (prev : option nat) (a : list (nat * nat)) : option nat := match last a with Some x => Some x.1 | None => prev end.

Lemma hlist_app m p a b : hlist m p (a ++ b) -> exists q, hlist m q b.
Proof. revert p. induction a as [|x a IH]; intros p; [by exists p|]. cbn [app hlist]. intros [_ (l & _ & _ & Hl)]. eauto. Qed.

Lemma hlist_unlink m p a y x b lx :
  hlist m p (a ++ y :: x :: b) -> NoDup (a ++ y :: x :: b).*1 -> m !! x.1 = Some lx ->
  hlist (alter (set_he_next (he_next lx)) y.1 m) p (a ++ y :: b).
Proof.
  revert p. induction a as [|z a IH]; intros p.
  - cbn [app hlist fmap list_fmap]. intros [-> (ly & Hy & Ey & _ & lx' & Hx & Ex & Hb)] [Hny [Hnx _]%NoDup_cons]%NoDup_cons Hlx. split; [done|].
    exists (set_he_next (he_next lx) ly). rewrite lookup_alter_eq, Hy. split_and!; [done..|]. cbn. rewrite Hlx in Hx. injection Hx as <-.
    eapply hlist_ext; [|exact Hb]. intros q Hq. apply lookup_alter_ne. intros <-. set_solver.
  - cbn [app hlist fmap list_fmap]. intros [-> (lz & Hz & Ez & Hl)] [Hnz Hnd]%NoDup_cons Hlx. split; [done|]. exists lz.
    rewrite lookup_alter_ne by (intros E; apply Hnz; rewrite <- E, fmap_app; set_solver). split_and!; [done..|]. by apply IH.
Qed.

Lemma find_index_spec fuel a k p b prev start c :
  hlist (hash_entry c) start (a ++ (k, p) :: b) -> p ∉ a.*2 -> (length a < fuel)%nat ->
  post (find_index fuel (Some p) prev start) c (fun r c' => c' = c /\ r = (last_link prev a, Some k)).
Proof.
  revert a prev start. induction fuel as [|fuel IH]; intros a prev start Hl Hp Hf; [lia|]. destruct a as [|x a]; cbn [app hlist] in Hl.
  - destruct Hl as [-> (l & Hl & He & _)]. cbn [find_index]. mstep. apply (post_link_at k l); [done|]. rewrite He. rewrite decide_True by done. by mstep.
  - destruct Hl as [-> (l & Hl & He & Hr)]. cbn [find_index]. mstep. apply (post_link_at x.1 l); [done|]. rewrite He.
    rewrite decide_False by (intros [= E]; apply Hp; rewrite <- E; set_solver). eapply post_mono; [apply (IH a); [done|set_solver|cbn in Hf; lia]|].
    intros r c' [-> ->]. split; [done|]. unfold last_link. rewrite last_cons. by destruct (last a).
Qed.

(** The links of one list, of the others and the free ones are different. *)
Lemma chain_links c l n chains hfs h ch :
  table c l n chains hfs -> chains !! h = Some ch ->
  NoDup ch.*1 /\ forall q, q ∈ ch.*1 -> (q ∉ (mjoin (delete h chains)).*1) /\ q ∉ hfs.
Proof.
  intros T Hc. pose proof (table_nodup _ _ _ _ _ T) as Hnd. rewrite (join_delete _ _ _ Hc), fmap_app, <- app_assoc in Hnd.
  apply NoDup_app in Hnd as (A1 & A2 & _). split; [done|]. intros q Hq. specialize (A2 q Hq). set_solver.
Qed.

Lemma chain_recs c l n chains hfs h a k p b :
  table c l n chains hfs -> NoDup l.*1 -> chains !! h = Some (a ++ (k, p) :: b) -> (p ∉ (a ++ b).*2) /\ p ∉ (mjoin (delete h chains)).*2.
Proof.
  intros T Hd Hc. rewrite <- (tb_recs _ _ _ _ _ T), (join_delete _ _ _ Hc) in Hd. rewrite <- app_assoc in Hd. cbn [app] in Hd.
  rewrite <- Permutation_middle in Hd. cbn in Hd. apply NoDup_cons in Hd as [Hd _]. rewrite app_assoc, fmap_app in Hd. set_solver.
Qed.

(** The table when a list is without the link [k], which is free. *)
Lemma table_drop c l l' n chains hfs h a k x b m s lk :
  table c l n chains hfs -> NoDup l.*1 -> l ≡ₚ x :: l' -> chains !! h = Some (a ++ (k, x.1) :: b) ->
  hlist m s (a ++ b) -> m !! k = Some lk -> dom m = dom (hash_entry c) ->
  (forall q, q ∉ (a ++ (k, x.1) :: b).*1 -> m !! q = hash_entry c !! q) ->
  table (set_free_hash (Some k) (set_hash_entry (alter (set_he_next (free_hash c)) k m) (set_first_hash (<[h := s]> (first_hash c)) c))) l' n
    (<[h := a ++ b]> chains) (k :: hfs).
Proof.
  intros T Hd Hl Hc Hs Hk Hdom Hout. destruct (chain_links _ _ _ _ _ _ _ T Hc) as [Hn1 Hn2]. destruct (chain_recs _ _ _ _ _ _ _ _ _ _ T Hd Hc) as [Hp1 Hp2].
  assert (k ∈ (a ++ (k, x.1) :: b).*1) as Hkin by (rewrite fmap_app; set_solver). destruct (Hn2 k Hkin) as [Hk1 Hk2].
  destruct T as [T1 T2 T3 T4 T5 T6 T7 T8]. pose proof (join_delete _ _ _ Hc) as Hj.
  assert (forall q, q <> k -> alter (set_he_next (free_hash c)) k m !! q = m !! q) as Hne by (intros q Hq; apply lookup_alter_ne; congruence).
  split; cbn.
  - by rewrite length_insert.
  - by rewrite dom_alter_L, Hdom.
  - by rewrite !length_insert.
  - eapply (links_insert (first_hash c) (hash_entry c) _ chains h); [done|done|by rewrite <- T3; eapply lookup_lt_Some| |].
    + eapply hlist_ext; [|exact Hs]. intros q Hq. apply Hne. intros ->. rewrite fmap_app in Hn1, Hq. cbn in Hn1. rewrite <- Permutation_middle in Hn1.
      by apply NoDup_cons in Hn1 as [Hn1 _].
    + intros q Hq. rewrite Hne by (intros ->; done). apply Hout. intros Hq'. by destruct (Hn2 q Hq').
  - split; [done|]. exists (set_he_next (free_hash c) lk). rewrite lookup_alter_eq, Hk. split; [done|]. cbn. eapply hfree_ext; [|exact T5].
    intros q Hq. rewrite Hne by (intros ->; done). apply Hout. intros Hq'. by destruct (Hn2 q Hq').
  - rewrite (join_insert _ _ (a ++ (k, x.1) :: b)) by done. rewrite <- T6, Hj. rewrite !fmap_app. cbn. rewrite <- !(app_assoc (_ ++ _)). apply perm_move.
  - rewrite (join_insert _ _ (a ++ (k, x.1) :: b)) by done. apply (Permutation_cons_inv (a := x.1)). change (x.1 :: l'.*1) with (x :: l').*1.
    rewrite <- Hl, <- T7, Hj. rewrite !fmap_app. cbn. by rewrite <- Permutation_middle.
  - assert (forall i r, (r, i) ∈ l -> r <> x.1 -> (r, i) ∈ l') as Hin by (intros i r; rewrite Hl, elem_of_cons; by intros [<-|]).
    intros h' ch2 y H2 Hy. destruct (decide (h' = h)) as [->|Hh].
    + rewrite list_lookup_insert_eq in H2 by by eapply lookup_lt_Some. injection H2 as <-.
      destruct (T8 h (a ++ (k, x.1) :: b) y Hc ltac:(set_solver)) as (j & Hj' & Ej). exists j. split; [|done]. apply Hin; [done|].
      intros Ey. apply Hp1. rewrite <- Ey. apply list_elem_of_fmap. eauto.
    + rewrite list_lookup_insert_ne in H2 by done. destruct (T8 h' ch2 y H2 Hy) as (j & Hj' & Ej). exists j. split; [|done]. apply Hin; [done|].
      intros Ey. apply Hp2. rewrite <- Ey. apply list_elem_of_fmap. exists y. split; [done|]. by eapply other_chain.
Qed.

Lemma chain_short c l n chains hfs h ch : table c l n chains hfs -> chains !! h = Some ch -> (length ch <= size (hash_entry c))%nat.
Proof.
  intros T Hc. rewrite <- size_dom, (tb_dom _ _ _ _ _ T), size_set_seq. pose proof (Permutation_length (tb_links _ _ _ _ _ T)) as E.
  rewrite length_app, length_fmap, length_seq, (join_delete _ _ _ Hc), length_app in E. lia.
Qed.

Lemma drop_table c l l' n x chains hfs a k b :
  dohash c = Some hash -> table c l n chains hfs -> NoDup l.*1 -> l ≡ₚ x :: l' -> 0 <= hash x.2 < max_hash c ->
  chains !! Z.to_nat (hash x.2) = Some (a ++ (k, x.1) :: b) ->
  post (drophashindex (Some x.1) (hash x.2)) c (fun _ c' => hash_only c c' /\ table c' l' n (<[Z.to_nat (hash x.2) := a ++ b]> chains) (k :: hfs)).
Proof.
  intros Eh T Hd Hl Hr Hc. set (h := Z.to_nat (hash x.2)) in *. destruct (tb_chain _ _ _ _ _ T _ _ Hc) as (first & Hfirst & Hch).
  pose proof (chain_short _ _ _ _ _ _ _ T Hc) as Hshort.
  destruct (chain_recs _ _ _ _ _ _ _ _ _ _ T Hd Hc) as [Hp _]. destruct (chain_links _ _ _ _ _ _ _ T Hc) as [Hn _].
  assert (exists lk, hash_entry c !! k = Some lk /\ hlist (hash_entry c) (he_next lk) b) as (lk & Hlk & Hb).
  { destruct (hlist_app _ _ _ _ Hch) as (q & -> & lk & Hlk & _ & Hb). eauto. }
  unfold drophashindex. mstep. mstep. rewrite Eh. mstep. mstep. if_true. mstep. apply (post_hash_head _ first); [lia|done|]. mstep. mstep.
  mstep. eapply post_mono; [apply (find_index_spec _ a k x.1 b); [done|rewrite fmap_app in Hp; set_solver|rewrite length_app in Hshort; cbn in Hshort; lia]|].
  intros [pl kk] c1 [-> [= -> ->]]. mstep. apply (post_link_at k lk); [done|]. mstep.
  destruct a as [|y a _] using rev_ind; unfold last_link.
  - cbn [last]. mstep. mstep. mstep. mstep. apply post_store_link; [by eexists|]. mstep. split; [by eexists _, _, _|].
    by eapply (table_drop c l l' n chains hfs h [] k x b (hash_entry c) (he_next lk)).
  - rewrite last_snoc. rewrite <- app_assoc in *. cbn [app] in *. assert (y.1 <> k) as Hyk.
    { intros E. rewrite fmap_app in Hn. apply NoDup_app in Hn as (_ & _ & Hn). cbn in Hn. rewrite E in Hn. apply NoDup_cons in Hn as [Hn _]. set_solver. }
    assert (is_Some (hash_entry c !! y.1)) as [ly Hy] by (destruct (hlist_app _ _ _ _ Hch) as (q & _ & ly & Hy & _); eauto).
    apply post_store_link; [by eexists|]. mstep. mstep. mstep. apply post_store_link; [cbn; rewrite lookup_alter_ne by done; by eexists|]. mstep.
    split; [by exists (Some k), (first_hash c), (alter (set_he_next (free_hash c)) k (alter (set_he_next (he_next lk)) y.1 (hash_entry c)))|].
    pose proof (table_drop c l l' n chains hfs h (a ++ [y]) k x b (alter (set_he_next (he_next lk)) y.1 (hash_entry c)) first lk) as G.
    rewrite list_insert_id in G by done. rewrite <- !app_assoc in G. apply G; try done.
    + by apply (hlist_unlink _ _ a y (k, x.1) b lk).
    + by rewrite lookup_alter_ne.
    + by rewrite dom_alter_L.
    + intros q Hq. apply lookup_alter_ne. intros <-. apply Hq. rewrite !fmap_app. set_solver.
Qed.

Lemma drop_spec c l l' n x :
  dohash c = Some hash -> hashed c l n -> NoDup l.*1 -> l ≡ₚ x :: l' ->
  post (drophashindex (Some x.1) (hash x.2)) c (fun _ c' => hash_only c c' /\ hashed c' l' n).
Proof.
  intros Eh (chains & hfs & T) Hd Hl. destruct (hash_found _ _ _ _ _ x (hash x.2) T Hd ltac:(rewrite Hl; set_solver) eq_refl) as (Hr & ch & k & Hc & Hk).
  apply list_elem_of_split in Hk as (a & b & ->). eapply post_mono; [by eapply drop_table|]. intros _ c' [Ho T']. split; [done|]. eexists _, _. exact T'.
Qed.
End table.
