(* ===== verification/LruOps.v ===== *)
(** * The operations on the records of a cache

    What the operations of [cache.c] do to the list of the records in use, with their
    places; every pointer they follow is valid and every loop ends. *)

From stdpp Require Import prelude list gmap.
From Stdlib Require Import ZArith Lia.
From S2P Require Import Prelude NtfsTypes LruCache LruRep LruHash.

Local Open Scope Z_scope.

(** ** The shape of a cache *)

(** [l]: the records in use, the most recent one first, of a cache with [n] records. *)
Record listed (n : nat) (c : CACHE_HEADER) (l : list slot) : Prop := {
  li_dom : dom (cache_entry c) = set_seq 0 n;
  li_list : dseg (cache_entry c) None l None;
  li_head : most_recent_entry c = first_of l None;
  li_last : oldest_entry c = last_of None l;
  li_free : exists fs, flist (cache_entry c) (free_entry c) fs /\ l.*1 ++ fs ≡ₚ seq 0 n
}.

Record lru (n : nat) (c : CACHE_HEADER) (l : list slot) : Prop := {
  lr_list : listed n c l;
  lr_hash : forall hash, dohash c = Some hash -> hashed hash c l n
}.

(** The parts of a cache that moving records leaves alone. *)
Record keeps (c c' : CACHE_HEADER) : Prop := {
  kp_dohash : dohash c' = dohash c;
  kp_max : max_hash c' = max_hash c;
  kp_first : first_hash c' = first_hash c;
  kp_links : hash_entry c' = hash_entry c;
  kp_hfree : free_hash c' = free_hash c;
  kp_dofree : dofree c' = dofree c;
  kp_fixed : fixed_size c' = fixed_size c
}.

Lemma hashed_keeps hash c c' l n : keeps c c' -> hashed hash c l n -> hashed hash c' l n.
Proof.
  intros [_ K2 K3 K4 K5 _ _] (chains & hfs & [T1 T2 T3 T4 T5 T6 T7 T8]). exists chains, hfs. split; rewrite ?K2, ?K3, ?K4, ?K5; done.
Qed.

Lemma listed_nodup n c l : listed n c l -> NoDup l.*1.
Proof. intros H. destruct (li_free _ _ _ H) as (fs & _ & Hp). pose proof (NoDup_seq 0 n) as Hd. rewrite <- Hp in Hd. by apply NoDup_app in Hd as [? _]. Qed.

Lemma listed_length n c l : listed n c l -> (length l <= n)%nat.
Proof. intros H. destruct (li_free _ _ _ H) as (fs & _ & Hp). apply Permutation_length in Hp. rewrite length_app, length_fmap, length_seq in Hp. lia. Qed.

Lemma listed_size n c l : listed n c l -> size (cache_entry c) = n.
Proof. intros H. rewrite <- size_dom, (li_dom _ _ _ H). apply size_set_seq. Qed.

Lemma listed_item n c l x Q : listed n c l -> x ∈ l -> Q x.2 c -> post (item_at (Some x.1)) c Q.
Proof. intros H Hx. destruct (dseg_lookup _ _ _ _ _ (li_list _ _ _ H) Hx) as (e & He & Hv). by apply (post_item_at _ e). Qed.

(** Only the counters, or the log, or the hash table were changed. *)
Lemma lru_counts n c l r w h : lru n c l -> lru n (set_counts r w h c) l.
Proof. intros [[H1 H2 H3 H4 H5] H6]. split; [by split|]. intros hash Hh. eapply hashed_keeps; [|by apply H6]. by split. Qed.

Lemma listed_released n c l v : listed n c l -> listed n (set_released v c) l.
Proof. intros [H1 H2 H3 H4 H5]. by split. Qed.

Lemma listed_hash_only n c c' l : hash_only c c' -> listed n c l -> listed n c' l.
Proof. intros (a & b & d & ->) [H1 H2 H3 H4 H5]. by split. Qed.

(** ** Search *)

Section search.
Variables (compare : cache_item -> cache_item -> bool) (w : cache_item).

(** The record found, or none matches. *)
Definition found (l : list slot) (r : option nat) : Prop :=
  match r with
  | Some p => exists i, (p, i) ∈ l /\ compare i w = false
  | None => Forall (fun x => compare x.2 w = true) l
  end.

Lemma find_listed_spec fuel pv l c :
  dseg (cache_entry c) pv l None -> (length l < fuel)%nat ->
  post (find_listed compare fuel w (first_of l None)) c (fun r c' => c' = c /\ found l r).
Proof.
  revert pv l. induction fuel as [|fuel IH]; intros pv l Hs Hf; [lia|]. destruct l as [|x l]; cbn [find_listed first_of].
  - mstep. split; [done|]. constructor.
  - destruct Hs as [(e & He & _ & Hn & Hv) Hs]. mstep. apply (post_item_at _ e x.2); [done..|]. destruct (compare x.2 w) eqn:Ec.
    + mstep. apply (post_record_at _ e); [done|]. rewrite Hn. eapply post_mono; [apply (IH (Some x.1)); [done|cbn in Hf; lia]|].
      intros r c' [-> Hr]. split; [done|]. destruct r as [p|]; [|by constructor]. destruct Hr as (i & Hi & Hc). exists i. split; [set_solver|done].
    + mstep. split; [done|]. exists x.2. split; [|done]. destruct x. set_solver.
Qed.

Lemma find_hashed_spec fuel ch start c l :
  hlist (hash_entry c) start ch -> (forall y, y ∈ ch -> exists i e, (y.2, i) ∈ l /\ cache_entry c !! y.2 = Some e /\ view e = Some i) ->
  (length ch < fuel)%nat ->
  post (find_hashed compare fuel w start) c (fun r c' => c' = c /\
    match r with
    | Some p => exists i, (p, i) ∈ l /\ compare i w = false
    | None => forall y i, y ∈ ch -> (y.2, i) ∈ l -> NoDup l.*1 -> compare i w = true
    end).
Proof.
  revert ch start. induction fuel as [|fuel IH]; intros ch start Hs Hch Hf; [lia|]. destruct ch as [|y ch]; cbn [find_hashed hlist] in *.
  - subst start. mstep. split; [done|]. intros y i Hy. by apply elem_of_nil in Hy.
  - destruct Hs as [-> (lk & Hlk & He & Hs)]. mstep. apply (post_link_at _ lk); [done|]. mstep. rewrite He.
    destruct (Hch y ltac:(set_solver)) as (i & e & Hi & Hy & Hv). apply (post_item_at _ e i); [done..|]. destruct (compare i w) eqn:Ec.
    + eapply post_mono; [apply (IH ch); [done| |cbn in Hf; lia]|]. { intros z Hz. apply Hch. set_solver. }
      intros r c' [-> Hr]. split; [done|]. destruct r as [p|]; [done|]. intros z j [->|Hz]%elem_of_cons Hj Hd; [|by eauto].
      by rewrite (slot_unique _ _ _ _ Hd Hj Hi).
    + mstep. split; [done|]. by exists i.
Qed.

(** What the hash function must satisfy for the search to find a record. *)
Definition hash_finds (c : CACHE_HEADER) (l : list slot) : Prop :=
  forall hash, dohash c = Some hash -> 0 <= hash w < max_hash c /\ forall x, x ∈ l -> compare x.2 w = false -> hash x.2 = hash w.

(** The search needs the pointers forward only. *)
Lemma cached_entry_at pv n c l :
  dseg (cache_entry c) pv l None -> NoDup l.*1 -> most_recent_entry c = first_of l None -> (length l <= size (cache_entry c))%nat ->
  (forall hash, dohash c = Some hash -> hashed hash c l n) -> hash_finds c l ->
  post (cached_entry compare w) c (fun r c' => c' = c /\ found l r).
Proof.
  intros Hs Hd Hhead Hlen Hht Hh. unfold cached_entry. mstep. mstep. mstep. mstep. destruct (dohash c) as [hash|] eqn:Eh.
  - destruct (Hh hash Eh) as [Hr Hx]. destruct (Hht hash eq_refl) as (chains & hfs & T).
    destruct (lookup_lt_is_Some_2 chains (Z.to_nat (hash w))) as [ch Hc]. { rewrite (tb_len _ _ _ _ _ _ T). pose proof (tb_size _ _ _ _ _ _ T). lia. }
    destruct (tb_chain _ _ _ _ _ _ T _ _ Hc) as (first & Hf & Hl). pose proof (chain_short _ _ _ _ _ _ _ _ T Hc) as Hsh.
    mstep. apply (post_hash_head _ first); [lia|done|]. eapply post_mono; [apply (find_hashed_spec _ ch _ _ l); [done| |lia]|].
    { intros y Hy. destruct (tb_hash _ _ _ _ _ _ T _ _ y Hc Hy) as (i & Hi & _). destruct (dseg_lookup _ _ _ _ _ Hs Hi) as (e & He & Hv). by exists i, e. }
    intros r c' [-> Hr']. split; [done|]. destruct r as [p|]; [done|]. apply Forall_forall. intros x Hxl. apply not_false_iff_true. intros Ec.
    destruct (hash_found hash _ _ _ _ _ x _ T Hd Hxl eq_refl) as (_ & ch2 & k & Hc2 & Hk). rewrite (Hx x Hxl Ec) in Hc2. rewrite Hc in Hc2. injection Hc2 as <-.
    rewrite (Hr' (k, x.1) x.2 Hk) in Ec; [done| |done]. by destruct x.
  - mstep. mstep. rewrite Hhead. eapply find_listed_spec; [done|lia].
Qed.

Lemma cached_entry_spec n c l : lru n c l -> hash_finds c l -> post (cached_entry compare w) c (fun r c' => c' = c /\ found l r).
Proof.
  intros [H Hht]. apply (cached_entry_at None n); [apply H|by eapply listed_nodup|apply H| |done].
  rewrite (listed_size _ _ _ H). by eapply listed_length.
Qed.
End search.

(** ** Moving records *)

Lemma dom_fix_next p v m : dom (fix_next p v m) = dom m.
Proof. destruct p; [apply dom_alter_L|done]. Qed.
Lemma dom_fix_previous p v m : dom (fix_previous p v m) = dom m.
Proof. destruct p; [apply dom_alter_L|done]. Qed.

Lemma first_is_some m pv l nx : dseg m pv l nx -> match first_of l None with Some q => is_Some (m !! q) | None => True end.
Proof. destruct l as [|x l]; [done|]. intros [(e & He & _) _]. by eexists. Qed.
Lemma last_is_some m pv l nx : dseg m pv l nx -> match last_of None l with Some q => is_Some (m !! q) | None => True end.
Proof.
  destruct l as [|x l _] using rev_ind; [done|]. intros Hs. rewrite last_of_snoc. destruct (dseg_lookup _ _ _ _ x Hs) as (e & He & _); [set_solver|]. by eexists.
Qed.

(** Redirect the pointer back of the record behind, or the end of the list. *)
Lemma post_redirect_previous l2 v c Q :
  (match first_of l2 None with Some q => is_Some (cache_entry c !! q) | None => True end) ->
  Q tt (set_cache_entry (fix_previous (first_of l2 None) v (cache_entry c)) (set_oldest (match l2 with [] => v | _ => oldest_entry c end) c)) ->
  post (match first_of l2 None with Some _ => store (first_of l2 None) (set_previous v) | None => modify (set_oldest v) end) c Q.
Proof. intros Hs Hq. destruct l2 as [|x l2]; cbn [first_of] in *; [by mstep|]. by apply post_store. Qed.

(** Redirect the pointer of the record before, or the start of the list. *)
Lemma post_redirect_next l1 v c Q :
  (match last_of None l1 with Some q => is_Some (cache_entry c !! q) | None => True end) ->
  Q tt (set_cache_entry (fix_next (last_of None l1) v (cache_entry c)) (set_most_recent (match l1 with [] => v | _ => most_recent_entry c end) c)) ->
  post (match last_of None l1 with Some _ => store (last_of None l1) (set_next v) | None => modify (set_most_recent v) end) c Q.
Proof.
  intros Hs Hq. destruct l1 as [|x l1 _] using rev_ind; [by mstep|]. rewrite last_of_snoc in *. apply post_store; [done|]. by destruct l1.
Qed.

(** The records of the free list are not in use. *)
Lemma free_apart n (l : list slot) fs p : l.*1 ++ fs ≡ₚ seq 0 n -> p ∈ fs -> p ∉ l.*1.
Proof. intros Hp Hf Hl. pose proof (NoDup_seq 0 n) as Hd. rewrite <- Hp in Hd. apply NoDup_app in Hd as (_ & Hd & _). by apply (Hd p). Qed.

Lemma last_of_middle l1 x l2 : last_of None (l1 ++ x :: l2) = match l2 with [] => Some x.1 | _ => last_of None (l1 ++ l2) end.
Proof. rewrite !last_of_app, last_of_cons. destruct l2 as [|y l2]; [done|]. by rewrite !last_of_cons. Qed.

Lemma move_to_head_spec n c l1 x l2 :
  listed n c (l1 ++ x :: l2) ->
  post (move_to_head (Some x.1)) c (fun _ c' => listed n c' (x :: l1 ++ l2) /\ keeps c c' /\ released c' = released c).
Proof.
  intros H. pose proof (listed_nodup _ _ _ H) as Hd. destruct H as [H1 H2 H3 H4 (fs & H5 & H6)]. destruct (dseg_at _ _ _ _ H2) as (e & He & Hp & Hn & Hv).
  assert ((x.1 ∉ (l1 ++ l2).*1) /\ NoDup (l1 ++ l2).*1) as [Hx Hd'].
  { rewrite fmap_app in Hd. cbn in Hd. rewrite <- Permutation_middle, <- fmap_app in Hd. by apply NoDup_cons in Hd. }
  unfold move_to_head. mstep. apply (post_record_at _ e); [done|]. rewrite Hp, Hn.
  destruct l1 as [|y l1'] eqn:El1; [unfold last_of; cbn [last]; mstep; split_and!; [|by split|done]; split; try done; by exists fs|]. rewrite <- El1 in *.
  destruct (last_of None l1) as [q|] eqn:Eq; [|subst l1; unfold last_of in Eq; rewrite last_cons in Eq; by destruct (last l1')].
  pose proof (dseg_unlink _ _ _ _ Hd H2) as Hu. rewrite Eq in Hu. cbn [fix_next] in Hu. apply dseg_app in H2 as [S1 [_ S2]].
  assert (is_Some (cache_entry c !! q)) as Hq by (pose proof (last_is_some _ _ _ _ S1) as Hq; by rewrite Eq in Hq).
  assert (q <> x.1) as Hqx by (intros ->; apply (last_of_in None) in Eq as [[? _]|Eq]; [done|]; apply Hx; rewrite fmap_app; set_solver).
  mstep. apply post_store; [done|]. mstep. apply (post_record_at _ e); [cbn; by rewrite lookup_alter_ne|]. rewrite Hn, Hp. mstep.
  apply post_redirect_previous.
  { cbn. destruct (first_of l2 None) as [r|] eqn:Er; [|done]. pose proof (first_is_some _ _ _ _ S2) as Hr. rewrite Er in Hr. destruct Hr as [er Hr].
    destruct (decide (q = r)) as [->|]; [rewrite lookup_alter_eq|rewrite lookup_alter_ne by done]; rewrite Hr; by eexists. }
  set (m2 := fix_previous _ _ _). mstep. mstep. mstep. cbn. assert (m2 !! x.1 = Some e) as Hm2.
  { unfold m2. rewrite fix_previous_ne by (apply first_of_notin; rewrite fmap_app in Hx; set_solver). cbn. by rewrite lookup_alter_ne. }
  apply post_store; [cbn; by rewrite Hm2|]. mstep. apply post_store; [cbn; rewrite lookup_alter_eq, Hm2; by eexists|]. mstep.
  rewrite H3. rewrite El1. cbn [app first_of]. set (m3 := alter (set_previous None) x.1 (alter (set_next (Some y.1)) x.1 m2)).
  assert (forall r, r <> x.1 -> m3 !! r = m2 !! r) as Hm3 by (intros r Hr; unfold m3; by rewrite !lookup_alter_ne by congruence).
  assert (dseg m3 None (l1 ++ l2) None) as Hs3. { eapply dseg_ext; [|exact Hu]. intros r Hr. apply Hm3. by intros ->. }
  assert (is_Some (m3 !! y.1)) as Hy. { pose proof (first_is_some _ _ _ _ Hs3) as Hy. by rewrite El1 in Hy. }
  apply post_store; [exact Hy|]. mstep. change (y :: l1' ++ l2) with ((y :: l1') ++ l2). rewrite <- El1. split_and!; [|by split|done].
  assert (dseg (fix_previous (first_of (l1 ++ l2) None) (Some x.1) m3) None (x :: l1 ++ l2) None) as Hpush.
  { apply (dseg_push m3 _ x (set_previous None (set_next (Some y.1) e))); [by constructor|done| |done|by rewrite El1|done].
    unfold m3. by rewrite !lookup_alter_eq, Hm2. }
  rewrite El1 in Hpush at 1. cbn [first_of app fix_previous] in Hpush.
  split; cbn [cache_entry most_recent_entry oldest_entry free_entry set_most_recent set_cache_entry set_oldest].
  - rewrite !dom_alter_L. unfold m2. rewrite dom_fix_previous. cbn. by rewrite dom_alter_L.
  - exact Hpush.
  - done.
  - rewrite last_of_cons, last_of_app. destruct l2 as [|z l2].
    + rewrite <- Eq. by rewrite El1, !last_of_cons.
    + by rewrite H4, last_of_app, !last_of_cons.
  - exists fs. split; [|by rewrite <- H6, fmap_cons, !fmap_app, fmap_cons, <- Permutation_middle].
    eapply flist_ext; [|exact H5]. intros r Hr. pose proof (free_apart _ _ _ _ H6 Hr) as Hrl. rewrite fmap_app in Hrl. cbn in Hrl.
    assert (r ∉ (l1 ++ l2).*1) as Hr2 by (rewrite fmap_app; set_solver). assert (r <> x.1) as Hrx by set_solver.
    rewrite lookup_alter_ne by (intros <-; apply Hr2; rewrite El1; set_solver). rewrite Hm3 by done. unfold m2.
    rewrite fix_previous_ne by (apply first_of_notin; rewrite fmap_app in Hr2; set_solver). cbn. rewrite lookup_alter_ne; [done|].
    intros <-. apply (last_of_in None) in Eq as [[? _]|Eq]; [done|]. rewrite fmap_app in Hr2. set_solver.
Qed.

(** A record of its own is changed. *)
Record own (c c' : CACHE_HEADER) (p : nat) (e' : CACHED_GENERIC) : Prop := {
  ow_only : c' = set_cache_entry (cache_entry c') c;
  ow_dom : dom (cache_entry c') = dom (cache_entry c);
  ow_at : cache_entry c' !! p = Some e';
  ow_out : forall r, r <> p -> cache_entry c' !! r = cache_entry c !! r
}.

Lemma own_store c p e f : cache_entry c !! p = Some e -> own c (set_cache_entry (alter f p (cache_entry c)) c) p (f e).
Proof.
  intros He. split; cbn; [done|apply dom_alter_L|by rewrite lookup_alter_eq, He|]. intros r Hr. apply lookup_alter_ne. congruence.
Qed.

Lemma own_trans c c1 c2 p e1 e2 : own c c1 p e1 -> own c1 c2 p e2 -> own c c2 p e2.
Proof.
  intros [A1 A2 A3 A4] [B1 B2 B3 B4]. split; [|congruence|done|]. { rewrite B1 at 1. rewrite A1. done. }
  intros r Hr. by rewrite B4, A4.
Qed.

Lemma own_refl c p e : cache_entry c !! p = Some e -> own c c p e.
Proof. intros He. split; try done. by destruct c. Qed.

Lemma post_own_store c p e f (Q : unit -> CACHE_HEADER -> Prop) :
  cache_entry c !! p = Some e -> (forall c', own c c' p (f e) -> Q tt c') -> post (store (Some p) f) c Q.
Proof. intros He Hq. apply post_store; [by eexists|]. apply Hq. by apply own_store. Qed.

Lemma post_free_variable c p e (Q : unit -> CACHE_HEADER -> Prop) :
  cache_entry c !! p = Some e -> ce_variable e <> VFreed ->
  (forall c' e', own c c' p e' -> ce_next e' = ce_next e -> ce_previous e' = ce_previous e -> Q tt c') -> post (free_variable (Some p)) c Q.
Proof.
  intros He Hf Hq. unfold free_variable. mstep. apply (post_record_at _ e); [done|]. destruct (ce_variable e) eqn:Ev; [|apply (post_own_store _ _ e); [done|]; by eauto|done].
  mstep. eapply (Hq c e); [by apply own_refl|done..].
Qed.

(** What a change of a record that is not in use leaves alone. *)
Lemma own_listed c c' l p e' fs :
  own c c' p e' -> dseg (cache_entry c) None l None -> flist (cache_entry c) (free_entry c) fs -> p ∉ l.*1 -> p ∉ fs ->
  dseg (cache_entry c') None l None /\ flist (cache_entry c') (free_entry c') fs.
Proof.
  intros [O1 O2 O3 O4] Hs Hf Hl Hp. split.
  - eapply dseg_ext; [|exact Hs]. intros r Hr. apply O4. by intros ->.
  - rewrite O1. cbn. eapply flist_ext; [|exact Hf]. intros r Hr. apply O4. by intros ->.
Qed.

Lemma post_call_dofree c p e i (Q : unit -> CACHE_HEADER -> Prop) :
  cache_entry c !! p = Some e -> view e = Some i -> Q tt (set_released (released c ++ [i]) c) -> post (call_dofree (Some p)) c Q.
Proof. intros He Hv Hq. unfold call_dofree. mstep. by apply (post_item_at _ e i). Qed.

Lemma view_not_freed e i : view e = Some i -> ce_variable e <> VFreed.
Proof. unfold view. by destruct (ce_variable e). Qed.

(** The list without one of its records, which is nowhere then. *)
Record unlinked (n : nat) (c : CACHE_HEADER) (l : list slot) (p : nat) : Prop := {
  un_dom : dom (cache_entry c) = set_seq 0 n;
  un_list : dseg (cache_entry c) None l None;
  un_head : most_recent_entry c = first_of l None;
  un_last : oldest_entry c = last_of None l;
  un_free : exists fs, flist (cache_entry c) (free_entry c) fs /\ p :: l.*1 ++ fs ≡ₚ seq 0 n
}.

Lemma unlinked_apart n (l : list slot) fs p : p :: l.*1 ++ fs ≡ₚ seq 0 n -> (p ∉ l.*1) /\ p ∉ fs.
Proof. intros Hp. pose proof (NoDup_seq 0 n) as Hd. rewrite <- Hp in Hd. apply NoDup_cons in Hd as [Hd _]. set_solver. Qed.

Lemma unlink_spec {A} n c l1 x l2 e (k : MC A) Q :
  listed n c (l1 ++ x :: l2) -> cache_entry c !! x.1 = Some e ->
  (forall c', unlinked n c' (l1 ++ l2) x.1 -> keeps c c' -> released c' = released c -> free_entry c' = free_entry c ->
    cache_entry c' !! x.1 = Some e -> post k c' Q) ->
  post (match ce_next e with Some _ => store (ce_next e) (set_previous (ce_previous e)) | None => modify (set_oldest (ce_previous e)) end;;
        e' ← record_at (Some x.1);
        match ce_previous e with Some _ => store (ce_previous e) (set_next (ce_next e')) | None => modify (set_most_recent (ce_next e')) end;; k) c Q.
Proof.
  intros H He Hq. pose proof (listed_nodup _ _ _ H) as Hd. destruct H as [H1 H2 H3 H4 (fs & H5 & H6)].
  destruct (dseg_at _ _ _ _ H2) as (e0 & He0 & Hp & Hn & _). rewrite He in He0. injection He0 as <-. rewrite Hp, Hn.
  pose proof Hd as Hd2. rewrite fmap_app in Hd2. cbn in Hd2. pose proof Hd2 as Hd3. apply NoDup_app in Hd3 as (_ & Hd3 & _).
  rewrite <- Permutation_middle in Hd2. apply NoDup_cons in Hd2 as [Hx _]. pose proof H2 as HS. apply dseg_app in HS as [S1 [_ S2]].
  pose proof (dseg_unlink _ _ _ _ Hd H2) as Hu. rewrite fix_swap in Hu by (intros q Hq1 Hq2; apply (Hd3 q Hq1); set_solver).
  mstep. apply post_redirect_previous; [by eapply first_is_some|]. set (m1 := fix_previous _ _ _) in *.
  assert (m1 !! x.1 = Some e) as Hm1 by (unfold m1; rewrite fix_previous_ne by (apply first_of_notin; set_solver); done).
  mstep. apply (post_record_at _ e); [done|]. rewrite Hn. mstep. apply post_redirect_next.
  { cbn. pose proof (last_is_some _ _ _ _ S1) as Hs. destruct (last_of None l1) as [q|] eqn:Eq; [|done]. unfold m1. rewrite fix_previous_ne; [done|].
    apply first_of_notin. apply last_of_in in Eq as [[? _]|Eq]; [done|]. specialize (Hd3 q Eq). set_solver. }
  cbn [cache_entry set_cache_entry]. set (m2 := fix_next _ _ _) in *.
  assert (forall r, r ∉ l1.*1 -> r ∉ l2.*1 -> m2 !! r = cache_entry c !! r) as Hout.
  { intros r R1 R2. unfold m2, m1. rewrite fix_next_ne by by apply last_of_notin. rewrite fix_previous_ne by by apply first_of_notin. done. }
  apply Hq; try done; [|cbn; rewrite Hout by set_solver; done].
  split; cbn [cache_entry most_recent_entry oldest_entry free_entry set_most_recent set_cache_entry set_oldest].
  - unfold m2, m1. by rewrite dom_fix_next, dom_fix_previous.
  - exact Hu.
  - rewrite H3. by destruct l1.
  - destruct l2 as [|z l2]; [by rewrite app_nil_r|]. by rewrite H4, !last_of_app, !last_of_cons.
  - exists fs. split; [|by rewrite <- H6, !fmap_app, fmap_cons, <- Permutation_middle].
    eapply flist_ext; [|exact H5]. intros r Hr. pose proof (free_apart _ _ _ _ H6 Hr) as Hrl. rewrite fmap_app in Hrl. apply Hout; set_solver.
Qed.

Lemma do_invalidate_spec n c l1 x l2 flags :
  listed n c (l1 ++ x :: l2) ->
  post (do_invalidate (Some x.1) flags) c (fun _ c' => listed n c' (l1 ++ l2) /\ keeps c c' /\
    released c' = released c ++ if flagged flags CACHE_FREE && dofree c then [x.2] else []).
Proof.
  intros H. destruct (dseg_at _ _ _ _ (li_list _ _ _ H)) as (e & He & _ & _ & Hv). unfold do_invalidate. mstep. apply (post_record_at _ e); [done|].
  mstep. mstep. mstep.
  apply (post_mono (fun _ c' => listed n c' (l1 ++ x :: l2) /\ keeps c c' /\ cache_entry c' = cache_entry c /\
    released c' = released c ++ if flagged flags CACHE_FREE && dofree c then [x.2] else [])).
  { destruct (flagged flags CACHE_FREE && dofree c); [|mstep; by rewrite app_nil_r].
    apply (post_call_dofree _ _ e x.2); [done..|]. split_and!; [by apply listed_released|by split|done|done]. }
  intros _ c1 (H1 & K1 & E1 & R1). eapply unlink_spec; [exact H1|by rewrite E1|]. intros c2 [U1 U2 U3 U4 (fs & U5 & U6)] K2 R2 F2 He2.
  destruct (unlinked_apart _ _ _ _ U6) as [Hx1 Hx2]. mstep. mstep. mstep. apply (post_own_store _ _ e); [done|]. intros c3 O3.
  destruct (own_listed _ _ _ _ _ _ O3 U2 U5 Hx1 Hx2) as [S3 F3]. mstep. mstep. mstep.
  apply (post_free_variable _ _ (set_next (free_entry c2) e)); [apply O3|by apply view_not_freed in Hv|]. intros c4 e4 O4 N4 _.
  apply (post_own_store _ _ e4); [apply O4|]. intros c5 O5. pose proof (own_trans _ _ _ _ _ _ O4 O5) as O45. clear O4 O5.
  pose proof (ow_only _ _ _ _ O3) as E3. pose proof (ow_only _ _ _ _ O45) as E5. pose proof (ow_at _ _ _ _ O45) as A5.
  assert (dseg (cache_entry c5) None (l1 ++ l2) None) as S5 by (eapply dseg_ext; [|exact S3]; intros r Hr; apply (ow_out _ _ _ _ O45); by intros ->).
  split_and!.
  - split.
    + rewrite (ow_dom _ _ _ _ O45). cbn. by rewrite (ow_dom _ _ _ _ O3).
    + done.
    + rewrite E5. cbn. rewrite E3. done.
    + rewrite E5. cbn. rewrite E3. done.
    + exists (x.1 :: fs). split; [|by rewrite <- Permutation_middle]. rewrite E5. split; [done|]. exists (set_varsize 0 e4). split; [done|]. cbn. rewrite N4. cbn.
      rewrite E3 in F3. cbn in F3. eapply flist_ext; [|exact F3]. intros r Hr. rewrite (ow_out _ _ _ _ O45) by (by intros ->). done.
  - rewrite E5, E3. destruct K1, K2. split; cbn; congruence.
  - rewrite E5, E3. cbn. congruence.
Qed.

(** ** A new record *)

Section enter.
Context `{Malloc}.

(** [p] is in no list, has the variable part [v], and is the oldest record if there is no
    other. *)
Record taken (n : nat) (c : CACHE_HEADER) (l : list slot) (p : nat) (v : vptr) (size : Z) : Prop := {
  ta_dom : dom (cache_entry c) = set_seq 0 n;
  ta_list : dseg (cache_entry c) None l None;
  ta_head : most_recent_entry c = first_of l None;
  ta_last : oldest_entry c = last_of (Some p) l;
  ta_free : exists fs, flist (cache_entry c) (free_entry c) fs /\ p :: l.*1 ++ fs ≡ₚ seq 0 n;
  ta_rec : exists e, cache_entry c !! p = Some e /\ ce_variable e = v /\ ce_varsize e = size
}.

(** The parts of a cache that are never changed. *)
Record same_conf (c c' : CACHE_HEADER) : Prop := {
  sc_dohash : dohash c' = dohash c;
  sc_max : max_hash c' = max_hash c;
  sc_dofree : dofree c' = dofree c;
  sc_fixed : fixed_size c' = fixed_size c
}.

Lemma keeps_conf c c' : keeps c c' -> same_conf c c'.
Proof. by intros []. Qed.
Lemma hash_only_conf c c' : hash_only c c' -> same_conf c c'.
Proof. by intros (a & b & d & ->). Qed.
Lemma conf_trans c c1 c2 : same_conf c c1 -> same_conf c1 c2 -> same_conf c c2.
Proof. intros [A1 A2 A3 A4] [B1 B2 B3 B4]. split; congruence. Qed.

(** The variable part a record gets. *)
Definition part_of (item : cache_item) : vptr := if negb (i_varsize item =? 0) then new_block (i_varsize item) else VNull.

Lemma take_free n c l item p fs :
  lru n c l -> flist (cache_entry c) (free_entry c) (p :: fs) -> l.*1 ++ p :: fs ≡ₚ seq 0 n ->
  post (take_entry item) c (fun r c' => r = Some p /\ taken n c' l p (part_of item) (i_varsize item) /\ keeps c c' /\ released c' = released c).
Proof.
  intros [[L1 L2 L3 L4 _] _] [Ep (e & He & Hf)] Hs. rewrite <- Permutation_middle in Hs. destruct (unlinked_apart _ _ _ _ Hs) as [Hp1 Hp2].
  unfold take_entry. mstep. mstep. rewrite Ep. mstep. apply (post_record_at _ e); [done|]. mstep. mstep. mstep. fold (part_of item).
  set (c1 := set_free_entry _ c). apply (post_own_store _ _ e); [done|]. intros c2 O2. mstep. eapply post_own_store; [apply O2|]. intros c3 O3.
  pose proof (own_trans _ _ _ _ _ _ O2 O3) as O. clear O2 O3. destruct (own_listed _ _ _ _ _ _ O L2 Hf Hp1 Hp2) as [S3 F3].
  pose proof (ow_only _ _ _ _ O) as E. pose proof (ow_dom _ _ _ _ O) as D3. pose proof (ow_at _ _ _ _ O) as A3. mstep. mstep. mstep.
  assert (oldest_entry c3 = last_of None l) as Eo by (rewrite E; done).
  apply (post_mono (fun _ c4 => c4 = set_oldest (last_of (Some p) l) c3)).
  { rewrite Eo. destruct (last_of None l) as [q|] eqn:Eq.
    - mstep. unfold last_of in Eq |- *. destruct (last l); [|done]. rewrite Eq, <- Eo. by destruct c3.
    - mstep. unfold last_of in Eq |- *. by destruct (last l). }
  intros _ c4 ->. mstep. split_and!; [done| |by rewrite E|by rewrite E]. split; cbn; try done.
  - by rewrite D3.
  - by rewrite E.
  - by exists fs.
  - eauto.
Qed.

Lemma drop_kept hash c c1 l l' n x :
  dohash c = Some hash -> keeps c c1 -> hashed hash c l n -> NoDup l.*1 -> l ≡ₚ x :: l' ->
  post (drophashindex (Some x.1) (hash x.2)) c1 (fun _ c' => hash_only c1 c' /\ hashed hash c' l' n).
Proof. intros Eh K Hh. apply drop_spec; [by rewrite (kp_dohash _ _ K)|by eapply hashed_keeps]. Qed.

(** The variable part of a record that is used again. *)
Lemma renew_spec c p e i item :
  cache_entry c !! p = Some e -> view e = Some i ->
  post (if negb (i_varsize item =? 0) then
          match (if negb (ce_varsize e =? 0) then ce_variable e else VNull) with
          | VFreed => fault
          | _ => store (Some p) (set_variable (new_block (i_varsize item)))
          end
        else (if negb (ce_varsize e =? 0) then free_variable (Some p) else mret tt);; store (Some p) (set_variable VNull)) c
    (fun _ c' => exists e', own c c' p e' /\ ce_variable e' = part_of item).
Proof.
  intros He Hv. pose proof (view_not_freed _ _ Hv) as Hnf. unfold part_of. destruct (negb (i_varsize item =? 0)).
  - assert (forall f, post (store (Some p) (set_variable f)) c (fun _ c' => exists e', own c c' p e' /\ ce_variable e' = f)) as Hst.
    { intros f. apply (post_own_store _ _ e); [done|]. eauto. }
    destruct (negb (ce_varsize e =? 0)); [destruct (ce_variable e); done|done].
  - mstep. apply (post_mono (fun _ c' => exists e', own c c' p e')).
    + destruct (negb (ce_varsize e =? 0)); [|mstep; exists e; by apply own_refl].
      apply (post_free_variable _ _ e); [done..|]. intros c' e' O' _ _. eauto.
    + intros _ c' (e' & O'). apply (post_own_store _ _ e'); [apply O'|]. intros c2 O2. eexists. split; [by eapply own_trans|done].
Qed.

Lemma take_oldest n c l y x item :
  lru n c (l ++ [y; x]) -> free_entry c = None -> (l ++ [y; x]).*1 ≡ₚ seq 0 n ->
  post (take_entry item) c (fun r c' => r = Some x.1 /\ taken n c' (l ++ [y]) x.1 (part_of item) (i_varsize item) /\ same_conf c c' /\
    (forall hash, dohash c = Some hash -> hashed hash c' (l ++ [y]) n) /\
    released c' = released c ++ if dofree c then [x.2] else []).
Proof.
  intros [L Hh] Ef Hs. pose proof (listed_nodup _ _ _ L) as Hd. destruct L as [L1 L2 L3 L4 _].
  replace (l ++ [y; x]) with ((l ++ [y]) ++ [x]) in * by by rewrite <- app_assoc. set (l' := l ++ [y]) in *.
  destruct (dseg_at _ _ _ _ L2) as (e & He & Hp & Hn & Hv). cbn [first_of] in Hn. unfold l' in Hp. rewrite last_of_snoc in Hp.
  pose proof Hd as Hd'. rewrite fmap_app in Hd'. apply NoDup_app in Hd' as (Hd1 & Hd2 & _). apply dseg_app in L2 as [S1 _].
  assert (x.1 ∉ l'.*1) as Hx by (intros Hx; apply (Hd2 _ Hx); set_solver).
  pose proof (dseg_fix_next _ _ _ _ None Hd1 S1) as S1'. unfold l' in S1' at 1. rewrite last_of_snoc in S1'. cbn [fix_next] in S1'.
  assert (y.1 <> x.1) as Hyx by (intros E; apply Hx; unfold l'; rewrite fmap_app, <- E; set_solver).
  unfold take_entry. mstep. mstep. rewrite Ef. mstep. mstep. rewrite L4, last_of_snoc. mstep. apply (post_record_at _ e); [done|]. rewrite Hp. mstep.
  apply post_store. { destruct (dseg_lookup _ _ _ _ y S1) as (ey & Hy & _); [unfold l'; set_solver|]. by eexists. }
  set (c1 := set_cache_entry _ c). assert (cache_entry c1 !! x.1 = Some e) as He1 by (cbn; by rewrite lookup_alter_ne). mstep. mstep. mstep.
  apply (post_mono (fun _ c2 => hash_only c1 c2 /\ forall hash, dohash c = Some hash -> hashed hash c2 l' n)).
  { change (dohash c1) with (dohash c). destruct (dohash c) as [hash|] eqn:Eh.
    - mstep. apply (post_item_at _ e x.2); [done..|]. eapply post_mono; [eapply (drop_kept hash c c1 _ l'); [done|by split|by apply Hh|exact Hd|]|].
      + rewrite (Permutation_app_comm l'). done.
      + intros _ c2 [Ho Hh2]. split; [done|]. by intros ? [= <-].
    - mstep. split; [|done]. by exists (free_hash c1), (first_hash c1), (hash_entry c1). }
  intros _ c2 [(a & b & d & Ec2) Hh2]. mstep. mstep. mstep.
  apply (post_mono (fun _ c3 => c3 = set_released (released c ++ if dofree c then [x.2] else []) c2)).
  { rewrite Ec2. cbn. destruct (dofree c); [apply (post_call_dofree _ _ e x.2); done|mstep; by rewrite app_nil_r]. }
  intros _ c3 ->. mstep. apply (post_record_at _ e); [by rewrite Ec2|]. rewrite Hp. mstep. mstep. mstep. set (c4 := set_oldest _ _).
  assert (cache_entry c4 = cache_entry c1) as E4 by (unfold c4; by rewrite Ec2).
  eapply post_mono; [apply (renew_spec _ _ e x.2); [by rewrite E4|done]|].
  intros _ c5 (e5 & O5 & V5). mstep. apply (post_own_store _ _ e5); [apply O5|]. intros c6 O6. pose proof (own_trans _ _ _ _ _ _ O5 O6) as O.
  mstep. pose proof (ow_only _ _ _ _ O) as E6. pose proof (ow_at _ _ _ _ O) as A6.
  assert (keeps c2 c6) as K by (rewrite E6; unfold c4; by split). split_and!; [done| | | |].
  - split.
    + rewrite (ow_dom _ _ _ _ O), E4. cbn. by rewrite dom_alter_L.
    + eapply dseg_ext; [|exact S1']. intros r Hr. rewrite (ow_out _ _ _ _ O) by (by intros ->). by rewrite E4.
    + rewrite E6. unfold c4. rewrite Ec2. cbn. rewrite L3. unfold l'. by destruct l.
    + rewrite E6. unfold c4, l'. rewrite last_of_snoc. done.
    + exists []. rewrite E6. unfold c4. rewrite Ec2. cbn. split; [done|]. rewrite app_nil_r, <- Hs, fmap_app. by rewrite (Permutation_app_comm l'.*1).
    + eauto.
  - eapply conf_trans; [|by apply keeps_conf]. rewrite Ec2. by split.
  - intros hash Eh. eapply hashed_keeps; [exact K|by apply Hh2].
  - rewrite E6. done.
Qed.

(** What the caller passes has the sizes of the cache. *)
Definition item_ok (size : Z) (i : cache_item) : Prop :=
  zlen (i_payload i) = size /\
  match i_variable i with Some v => i_varsize i = zlen v /\ 0 < zlen v | None => i_varsize i = 0 end.

Lemma sub_all (l : list Z) n : zlen l = n -> sub l 0 n = l.
Proof. intros <-. unfold sub, zlen. rewrite Nat2Z.id. cbn. apply firstn_all. Qed.

Lemma fill_entry_spec n c l p item :
  taken n c l p (part_of item) (i_varsize item) -> item_ok (fixed_size c) item -> (i_varsize item = 0 \/ malloc_ok (i_varsize item) = true) ->
  post (fill_entry (Some p) item) c (fun r c' => r = Some p /\ listed n c' ((p, item) :: l) /\ keeps c c' /\ released c' = released c).
Proof.
  intros [T1 T2 T3 T4 (fs & T5 & T6) (e & He & Hv & Hz)] [Ho1 Ho2] Hm. destruct (unlinked_apart _ _ _ _ T6) as [Hp1 Hp2].
  unfold fill_entry. mstep. mstep. mstep. apply (post_own_store _ _ e); [done|]. intros c1 O1. mstep. eapply post_own_store; [apply O1|]. intros c2 O2.
  pose proof (own_trans _ _ _ _ _ _ O1 O2) as O. clear O1 O2 c1. destruct (own_listed _ _ _ _ _ _ O T2 T5 Hp1 Hp2) as [S2 F2].
  assert (NoDup ((p, item) :: l).*1) as Hd.
  { pose proof (NoDup_seq 0 n) as Hd. rewrite <- T6 in Hd. apply NoDup_cons in Hd as [_ Hd]. apply NoDup_app in Hd as [Hd _]. cbn. by constructor. }
  set (e2 := set_previous None (set_next (most_recent_entry c) e)) in *. rewrite T3 in *. mstep.
  apply (post_mono (fun _ c3 => c3 = set_cache_entry (fix_previous (first_of l None) (Some p) (cache_entry c2)) c2)).
  { pose proof (first_is_some _ _ _ _ S2) as Hfs. destruct l as [|y l]; cbn [first_of] in *; [mstep; cbn; by destruct c2|]. by apply post_store. }
  intros _ c3 ->. mstep. mstep. mstep. mstep. mstep. set (m3 := fix_previous _ _ _). set (c3 := set_most_recent _ _).
  assert (cache_entry c3 !! p = Some e2) as He3 by (cbn; unfold m3; rewrite fix_previous_ne by (by apply first_of_notin); apply O).
  apply (post_own_store _ _ e2); [done|]. intros c4 O4.
  assert (fixed_size c3 = fixed_size c) as Efix by (unfold c3; rewrite (ow_only _ _ _ _ O); done). rewrite Efix in *. rewrite (sub_all _ _ Ho1) in *.
  (* the last stores are to the record itself *)
  assert (forall c5 e5, own c4 c5 p e5 -> ce_previous e5 = None -> ce_next e5 = first_of l None -> view e5 = Some item ->
    Some p = Some p /\ listed n c5 ((p, item) :: l) /\ keeps c c5 /\ released c5 = released c) as Hend.
  { intros c5 e5 O5 P5 N5 V5. pose proof (own_trans _ _ _ _ _ _ O4 O5) as O35. pose proof (ow_only _ _ _ _ O35) as E5. pose proof (ow_only _ _ _ _ O) as E2.
    split_and!; [done| |rewrite E5; unfold c3; rewrite E2; by split|rewrite E5; unfold c3; by rewrite E2]. split.
    - rewrite (ow_dom _ _ _ _ O35). cbn. unfold m3. rewrite dom_fix_previous. by rewrite (ow_dom _ _ _ _ O).
    - split; [by exists e5; split; [apply O35|]|]. apply (dseg_ext m3); [intros r Hr; apply (ow_out _ _ _ _ O35); by intros ->|].
      cbn in Hd. apply NoDup_cons in Hd as [_ Hd]. by eapply dseg_fix_previous.
    - by rewrite E5.
    - rewrite last_of_cons. cbn. rewrite E5. unfold c3. cbn. by rewrite E2.
    - exists fs. split; [|done]. assert (free_entry c5 = free_entry c2) as -> by (rewrite E5; done). eapply flist_ext; [|exact F2]. intros r Hr.
      rewrite (ow_out _ _ _ _ O35) by (by intros ->). cbn. unfold m3. apply fix_previous_ne. apply first_of_notin.
      intros Hrl. pose proof (NoDup_seq 0 n) as Hd'. rewrite <- T6 in Hd'. apply NoDup_cons in Hd' as [_ Hd']. apply NoDup_app in Hd' as (_ & Hd' & _). by apply (Hd' r). }
  unfold part_of in Hv. destruct item as [var size pay]. cbn [i_varsize i_variable i_payload] in *. destruct (Z.eqb_spec size 0) as [->|Hz0]; cbn [negb] in *.
  - destruct var as [v|]; [lia|]. mstep. eapply post_own_store; [apply O4|]. intros c5 O5. mstep. eapply post_own_store; [apply O5|]. intros c6 O6. mstep.
    eapply Hend; [by eapply own_trans|done..].
  - destruct var as [v|]; [|lia]. destruct Ho2 as [-> Ho2]. destruct Hm as [|Hm]; [lia|]. unfold new_block in Hv. rewrite Hm in Hv.
    mstep. apply (post_record_at _ (set_payload pay e2)); [apply O4|]. cbn [ce_variable set_payload e2 set_previous set_next]. rewrite Hv.
    rewrite (proj2 (Z.ltb_ge _ _)) by lia. rewrite sub_all by done. mstep. eapply post_own_store; [apply O4|]. intros c5 O5. mstep.
    eapply Hend; [exact O5|done|done|]. unfold view. cbn. by rewrite Hz.
Qed.
End enter.
