(* ===== verification/LruInvalidate.v ===== *)
(** * Invalidating the records of a cache

    The two loops of [ntfs_invalidate_cache], over a hash list and over the list of the
    records, and the end of a cache. *)

From stdpp Require Import prelude list gmap.
From Stdlib Require Import ZArith Lia.
From S2P Require Import Prelude NtfsTypes LruCache LruRep LruHash LruOps.

Local Open Scope Z_scope.

(** ** One record *)

(** The records that [dofree] is called for. *)
Definition to_release (flags : Z) (c : CACHE_HEADER) (l : list slot) : list cache_item :=
  if flagged flags CACHE_FREE && dofree c then l.*2 else [].

Lemma to_release_cons flags c x l : to_release flags c (x :: l) = (if flagged flags CACHE_FREE && dofree c then [x.2] else []) ++ to_release flags c l.
Proof. unfold to_release. by destruct (_ && _). Qed.

Lemma to_release_conf flags c c' l : same_conf c c' -> to_release flags c' l = to_release flags c l.
Proof. intros S. unfold to_release. by rewrite (sc_dofree _ _ S). Qed.

Lemma drop_if {A} n c l1 x l2 (k : MC A) Q :
  lru n c (l1 ++ x :: l2) ->
  (forall c', hash_only c c' -> (forall hash, dohash c = Some hash -> hashed hash c' (l1 ++ l2) n) -> post k c' Q) ->
  post (match dohash c with Some hash => drophashindex (Some x.1) (hash x.2) | None => mret tt end;; k) c Q.
Proof.
  intros [L Hh] Hk. mstep. destruct (dohash c) as [hash|] eqn:Eh.
  - eapply post_mono; [eapply (drop_spec hash c _ (l1 ++ l2)); [done|by apply Hh|by eapply listed_nodup|by rewrite Permutation_middle]|].
    intros _ c' [Ho Hh']. apply Hk; [done|]. by intros ? [= <-].
  - mstep. apply Hk; [|done]. by exists (free_hash c), (first_hash c), (hash_entry c); destruct c.
Qed.

Lemma invalidate_one {A} n c l1 x l2 flags (k : MC A) Q :
  listed n c (l1 ++ x :: l2) -> (forall hash, dohash c = Some hash -> hashed hash c (l1 ++ l2) n) ->
  (forall c', lru n c' (l1 ++ l2) -> keeps c c' -> released c' = released c ++ to_release flags c [x] -> post k c' Q) ->
  post (do_invalidate (Some x.1) flags;; k) c Q.
Proof.
  intros L Hh Hk. mstep. eapply post_mono; [by apply do_invalidate_spec|]. intros _ c' (L' & K & R). apply Hk; [|done|done].
  split; [done|]. intros hash Eh. rewrite (kp_dohash _ _ K) in Eh. eapply hashed_keeps; [exact K|by apply Hh].
Qed.

Lemma remove_entry_spec n c l1 x l2 flags :
  lru n c (l1 ++ x :: l2) ->
  post (remove_entry (Some x.1) flags) c (fun r c' => r = 1 /\ lru n c' (l1 ++ l2) /\ same_conf c c' /\ released c' = released c ++ to_release flags c [x]).
Proof.
  intros H. unfold remove_entry. mstep. mstep.
  apply (post_mono (fun r c' => r = 1 /\ lru n c' (l1 ++ l2) /\ same_conf c c' /\ released c' = released c ++ to_release flags c [x])); [|done].
  assert (forall Q, post (match dohash c with Some hash => drophashindex (Some x.1) (hash x.2) | None => mret tt end;; do_invalidate (Some x.1) flags;; mret 1) c Q ->
    post (match dohash c with Some hash => i ← item_at (Some x.1); drophashindex (Some x.1) (hash i) | None => mret tt end;; do_invalidate (Some x.1) flags;; mret 1) c Q) as Hi.
  { intros Q Hq. mstep. apply post_bind_inv in Hq. destruct (dohash c); [|exact Hq]. mstep. eapply listed_item; [apply H|set_solver|]. exact Hq. }
  apply Hi. eapply drop_if; [exact H|]. intros c1 Ho Hh. destruct (Ho) as (a & b & d & Ec).
  eapply invalidate_one; [eapply listed_hash_only; [exact Ho|apply H]|intros hash Eh; apply Hh; by rewrite Ec in Eh|]. intros c2 L2 K2 R2. mstep.
  split_and!; [done|done|by eapply conf_trans; [apply hash_only_conf|apply keeps_conf]|]. rewrite R2. unfold to_release. by rewrite Ec.
Qed.

(** ** The loop over the list *)

Section loops.
Variables (compare : cache_item -> cache_item -> bool) (item : cache_item) (flags : Z).

(** The records that stay and those that go. *)
Definition staying (l : list slot) : list slot := filter (fun x => compare x.2 item = true) l.
Definition going (l : list slot) : list slot := filter (fun x => compare x.2 item = false) l.

Lemma staying_app l k : staying (l ++ k) = staying l ++ staying k.
Proof. apply filter_app. Qed.

Lemma listed_loop fuel n l1 l2 count c :
  lru n c (l1 ++ l2) -> (length l2 < fuel)%nat ->
  post (invalidate_listed compare fuel item flags (first_of l2 None) count) c (fun r c' =>
    lru n c' (l1 ++ staying l2) /\ r = count + zlen (going l2) /\ same_conf c c' /\ released c' = released c ++ to_release flags c (going l2)).
Proof.
  revert l1 l2 count c. induction fuel as [|fuel IH]; intros l1 l2 count c H Hf; [lia|]. destruct l2 as [|x l2]; cbn [invalidate_listed first_of].
  - mstep. split_and!; [done|unfold going, zlen; cbn; lia|done|]. unfold to_release. cbn. destruct (_ && _); by rewrite app_nil_r.
  - destruct (dseg_at _ _ _ _ (li_list _ _ _ (lr_list _ _ _ H))) as (e & He & _ & Hn & Hv). mstep. apply (post_item_at _ e x.2); [done..|].
    mstep. apply (post_record_at _ e); [done|]. rewrite Hn. unfold staying, going. rewrite !filter_cons. destruct (compare x.2 item) eqn:Ec; cbn [negb].
    + rewrite decide_True, decide_False by done. replace (l1 ++ x :: l2) with ((l1 ++ [x]) ++ l2) in H by by rewrite <- app_assoc.
      eapply post_mono; [apply (IH (l1 ++ [x]) l2); [done|cbn in Hf; lia]|]. intros r c' (L & -> & S & R). rewrite <- app_assoc in L. done.
    + rewrite decide_False, decide_True by done. mstep. mstep. eapply drop_if; [exact H|]. intros c1 Ho Hh. destruct (Ho) as (a & b & d & Ec1).
      eapply invalidate_one; [eapply listed_hash_only; [exact Ho|apply H]|intros hash Eh; apply Hh; by rewrite Ec1 in Eh|]. intros c2 L2 K2 R2.
      assert (same_conf c c2) as S2 by (eapply conf_trans; [by apply hash_only_conf|by apply keeps_conf]).
      eapply post_mono; [apply (IH l1 l2); [done|cbn in Hf; lia]|]. intros r c' (L & -> & S & R).
      split_and!; [done|rewrite zlen_cons; fold (going l2); lia|by eapply conf_trans|].
      rewrite R, R2, <- app_assoc. f_equal; [by rewrite Ec1|]. rewrite to_release_cons, (to_release_conf _ _ _ _ S2). unfold to_release. rewrite Ec1. cbn. by destruct (_ && _).
Qed.

(** ** The loop over a hash list *)

Definition first_link (b : list (nat * nat)) : option nat := match b with [] => None | z :: _ => Some z.1 end.

Lemma hlist_suffix m s a b : hlist m s (a ++ b) -> hlist m (first_link b) b.
Proof.
  revert s. induction a as [|x a IH]; intros s; cbn [app hlist].
  - destruct b as [|z b]; [done|]. cbn [hlist]. by intros [_ H].
  - intros [_ (l & _ & _ & H)]. by eapply IH.
Qed.

(** The records of [l] without those of [rem]. *)
Definition without (rem l : list slot) : list slot := filter (fun x => x.1 ∉ rem.*1) l.

Lemma without_ext rem rem' l : (forall x, x ∈ l -> (x.1 ∈ rem.*1 <-> x.1 ∈ rem'.*1)) -> without rem l = without rem' l.
Proof.
  induction l as [|x l IH]; intros Hx; [done|]. unfold without. rewrite !filter_cons. fold (without rem l) (without rem' l).
  rewrite IH by (intros y Hy; apply Hx; set_solver). specialize (Hx x ltac:(set_solver)). case_decide; case_decide; tauto.
Qed.

Lemma without_nil l : without [] l = l.
Proof. induction l as [|x l IH]; [done|]. unfold without. rewrite filter_cons, decide_True by set_solver. f_equal. exact IH. Qed.

Lemma without_one rem l1 x l2 : NoDup (l1 ++ x :: l2).*1 -> without (x :: rem) (l1 ++ x :: l2) = without rem (l1 ++ l2).
Proof.
  intros Hd. unfold without. rewrite !filter_app, filter_cons, decide_False by set_solver. rewrite <- !filter_app. apply (without_ext (x :: rem) rem).
  rewrite fmap_app in Hd. cbn in Hd. rewrite <- Permutation_middle, <- fmap_app in Hd. apply NoDup_cons in Hd as [Hd _].
  intros y Hy. cbn. rewrite elem_of_cons. split; [|by right]. intros [E|]; [|done]. exfalso. apply Hd. rewrite <- E. apply list_elem_of_fmap. eauto.
Qed.

Lemma table_keeps hash c c' l n chains hfs : keeps c c' -> table hash c l n chains hfs -> table hash c' l n chains hfs.
Proof. intros [_ K2 K3 K4 K5 _ _] [T1 T2 T3 T4 T5 T6 T7 T8]. split; rewrite ?K2, ?K3, ?K4, ?K5; done. Qed.

(** What the loop has removed when it ends. *)
Record removed (n : nat) (c c' : CACHE_HEADER) (l : list slot) (b : list nat) (rem : list slot) : Prop := {
  rm_lru : lru n c' (without rem l);
  rm_conf : same_conf c c';
  rm_log : released c' = released c ++ to_release flags c rem;
  rm_in : forall x, x ∈ rem -> x ∈ l /\ compare x.2 item = false;
  rm_once : NoDup rem.*1;
  rm_all : forall x, x ∈ l -> x.1 ∈ b -> x ∉ rem -> compare x.2 item = true
}.

Lemma hashed_loop hash h fuel n l chains hfs a b count c :
  dohash c = Some hash -> 0 <= h < max_hash c -> listed n c l -> table hash c l n chains hfs -> chains !! Z.to_nat h = Some (a ++ b) -> (length b < fuel)%nat ->
  post (invalidate_hashed compare fuel item h flags (first_link b) count) c (fun r c' => exists rem, r = count + zlen rem /\ removed n c c' l b.*2 rem).
Proof.
  revert l chains hfs a b count c. induction fuel as [|fuel IH]; intros l chains hfs a b count c Eh Hh L T Hc Hf; [lia|].
  pose proof (listed_nodup _ _ _ L) as Hd. destruct b as [|y b]; cbn [invalidate_hashed first_link].
  - mstep. exists []. split; [unfold zlen; cbn; lia|]. split; try done.
    + rewrite without_nil. split; [done|]. intros hash' Eh'. rewrite Eh in Eh'. injection Eh' as <-. by eexists _, _.
    + unfold to_release. cbn. destruct (_ && _); by rewrite app_nil_r.
    + set_solver.
    + constructor.
    + set_solver.
  - destruct (tb_chain _ _ _ _ _ _ T _ _ Hc) as (first & _ & Hch). pose proof (hlist_suffix _ _ _ _ Hch) as [_ (lk & Hlk & Hent & Hb)].
    assert (he_next lk = first_link b) as Hnx by (destruct b; [exact Hb|apply Hb]).
    destruct (tb_hash _ _ _ _ _ _ T _ _ y Hc ltac:(set_solver)) as (i & Hi & Ei). mstep. apply (post_link_at _ lk); [done|]. mstep. rewrite Hent.
    apply (listed_item n c l (y.2, i)); [done..|]. rewrite Hnx. cbn [snd fst]. destruct (compare i item) eqn:Ec.
    + replace (a ++ y :: b) with ((a ++ [y]) ++ b) in Hc by by rewrite <- app_assoc. eapply post_mono; [eapply (IH l chains hfs (a ++ [y]) b); [done..|cbn in Hf; lia]|].
      intros r c' (rem & -> & [R1 R2 R3 R4 R5 R6]). exists rem. split; [done|]. split; try done. intros x Hx Hxb Hxr. cbn in Hxb. apply elem_of_cons in Hxb as [E|Hxb]; [|by apply R6].
      assert (x.2 = i) as ->; [|done]. destruct x as [p j]. cbn in *. subst p. exact (slot_unique _ _ _ _ Hd Hx Hi).
    + apply list_elem_of_split in Hi as (l1 & l2 & ->). set (x := (y.2, i)) in *. assert (hash x.2 = h) as Ehx by (cbn; lia). rewrite <- Ehx in *.
      mstep. eapply post_mono; [eapply (drop_table hash c _ (l1 ++ l2) n x chains hfs a y.1 b); [done|exact T|done|by rewrite Permutation_middle|done|]|].
      { rewrite Hc. by destruct y. }
      intros _ c1 [Ho T1]. destruct (Ho) as (a1 & b1 & d1 & Ec1). mstep.
      eapply post_mono; [apply (do_invalidate_spec n c1 l1 x l2); by eapply listed_hash_only|]. intros _ c2 (L2 & K2 & R2).
      assert (same_conf c c2) as S2 by (eapply conf_trans; [by apply hash_only_conf|by apply keeps_conf]).
      eapply post_mono; [eapply (IH (l1 ++ l2) _ (y.1 :: hfs) a b); [rewrite (sc_dohash _ _ S2); exact Eh|by rewrite (sc_max _ _ S2)|done|by eapply table_keeps| |cbn in Hf; lia]|].
      { apply list_lookup_insert_eq. by eapply lookup_lt_Some. }
      intros r c' (rem & -> & [R1 R3 R4 R5 R6 R7]). exists (x :: rem). split; [rewrite zlen_cons; lia|].
      pose proof Hd as Hd2. rewrite fmap_app in Hd2. cbn in Hd2. rewrite <- Permutation_middle, <- fmap_app in Hd2. apply NoDup_cons in Hd2 as [Hd2 _]. split.
      * by rewrite without_one.
      * by eapply conf_trans.
      * rewrite R4, R2, <- app_assoc. f_equal; [by rewrite Ec1|]. rewrite to_release_cons, (to_release_conf _ _ _ _ S2). f_equal. by rewrite Ec1.
      * intros z [->|Hz]%elem_of_cons; [split; [set_solver|done]|]. destruct (R5 z Hz). split; [set_solver|done].
      * cbn. constructor; [|done]. intros (z & Ez & Hz)%list_elem_of_fmap. apply Hd2. apply list_elem_of_fmap. exists z. split; [done|]. by apply R5.
      * intros z Hz Hzb Hzr. apply not_elem_of_cons in Hzr as [Hzx Hzr]. assert (z ∈ l1 ++ l2) as Hz2 by set_solver. apply R7; [done| |done].
        cbn in Hzb. apply elem_of_cons in Hzb as [E|]; [|done]. exfalso. apply Hd2. change x.1 with y.2. rewrite <- E. apply list_elem_of_fmap. eauto.
Qed.

Lemma elem_staying x l : x ∈ staying l <-> x ∈ l /\ compare x.2 item = true.
Proof. unfold staying. rewrite list_elem_of_filter. tauto. Qed.
Lemma elem_going x l : x ∈ going l <-> x ∈ l /\ compare x.2 item = false.
Proof. unfold going. rewrite list_elem_of_filter. tauto. Qed.

Lemma filter_same (P Q : slot -> Prop) `{!forall x, Decision (P x)} `{!forall x, Decision (Q x)} (l : list slot) : (forall x, x ∈ l -> (P x <-> Q x)) -> filter P l = filter Q l.
Proof.
  induction l as [|x l IH]; intros Hx; [done|]. rewrite !filter_cons, IH by (intros y Hy; apply Hx; set_solver).
  specialize (Hx x ltac:(set_solver)). case_decide; case_decide; tauto.
Qed.

(** A loop over the list of the right hash value has removed all that match. *)
Lemma removed_all n c c' l b rem :
  NoDup l.*1 -> removed n c c' l b rem -> (forall x, x ∈ l -> compare x.2 item = false -> x.1 ∈ b) -> without rem l = staying l /\ rem ≡ₚ going l.
Proof.
  intros Hd [_ _ _ R4 R5 R6] Hb. assert (forall x, x ∈ l -> (x.1 ∈ rem.*1 <-> compare x.2 item = false)) as Hiff.
  { intros x Hx. split.
    - intros ([q j] & E & Hq)%list_elem_of_fmap. cbn in E. subst q. destruct (R4 _ Hq) as [Hq' Hc]. destruct x as [p i]. cbn in *. by rewrite (slot_unique _ _ _ _ Hd Hx Hq').
    - intros Hc. destruct (decide (x.1 ∈ rem.*1)) as [|Hn]; [done|]. rewrite R6 in Hc; [done|done|by apply Hb|]. intros Hr. apply Hn. apply list_elem_of_fmap. eauto. }
  split.
  - unfold without, staying. apply filter_same. intros x Hx. rewrite (Hiff x Hx). apply not_false_iff_true.
  - apply NoDup_Permutation; [by eapply NoDup_fmap_fst_slots|by eapply NoDup_filter, NoDup_fmap_fst_slots|].
    intros x. rewrite elem_going. split; [by apply R4|]. intros [Hx Hc]. pose proof (proj2 (Hiff x Hx) Hc) as ([q j] & E & Hq)%list_elem_of_fmap.
    destruct x as [p i]. cbn in *. subst q. destruct (R4 _ Hq) as [Hq' _]. by rewrite (slot_unique _ _ _ _ Hd Hx Hq').
Qed.

(** The hash function leads to every record that is to be invalidated. *)
Definition hash_covers (c : CACHE_HEADER) (l : list slot) : Prop := flagged flags CACHE_NOHASH = true \/ hash_finds compare item c l.

Lemma invalidate_spec n c l :
  lru n c l -> hash_covers c l ->
  post (invalidate_entries compare item flags) c (fun r c' =>
    lru n c' (staying l) /\ r = zlen (going l) /\ same_conf c c' /\ exists rel, released c' = released c ++ to_release flags c rel /\ rel ≡ₚ going l).
Proof.
  intros H Hcov. pose proof (lr_list _ _ _ H) as L. pose proof (listed_nodup _ _ _ L) as Hd. unfold invalidate_entries. mstep. mstep. mstep. mstep.
  assert (forall count, post (head ← gets most_recent_entry; invalidate_listed compare (S (size (cache_entry c) + size (hash_entry c))) item flags head count) c (fun r c' =>
    lru n c' (staying l) /\ r = count + zlen (going l) /\ same_conf c c' /\ exists rel, released c' = released c ++ to_release flags c rel /\ rel ≡ₚ going l)) as Hlist.
  { intros count. mstep. mstep. rewrite (li_head _ _ _ L).
    eapply post_mono; [apply (listed_loop _ n [] l count); [done|rewrite (listed_size _ _ _ L); pose proof (listed_length _ _ _ L); lia]|].
    intros r c' (L' & -> & S & R). split_and!; [done|done|done|eauto]. }
  destruct (dohash c) as [hash|] eqn:Eh; [|mstep; mstep; mstep; mstep; rewrite Eh; apply Hlist].
  destruct (flagged flags CACHE_NOHASH) eqn:Ef; [mstep; mstep; mstep; mstep; rewrite Eh; apply Hlist|].
  destruct Hcov as [E|Hcov]; [congruence|]. destruct (Hcov hash Eh) as [Hr Hx]. destruct (lr_hash _ _ _ H hash Eh) as (chains & hfs & T).
  destruct (lookup_lt_is_Some_2 chains (Z.to_nat (hash item))) as [ch Hc]. { rewrite (tb_len _ _ _ _ _ _ T). pose proof (tb_size _ _ _ _ _ _ T). lia. }
  destruct (tb_chain _ _ _ _ _ _ T _ _ Hc) as (first & Hf & Hl). pose proof (chain_short _ _ _ _ _ _ _ _ T Hc) as Hsh.
  assert (first = first_link ch) as -> by (destruct ch; [exact Hl|apply Hl]).
  mstep. mstep. apply (post_hash_head _ (first_link ch)); [lia|done|].
  eapply post_mono; [eapply (hashed_loop hash (hash item) _ n l chains hfs [] ch); [done..|lia]|]. intros r c' (rem & -> & R). mstep. mstep.
  rewrite (sc_dohash _ _ (rm_conf _ _ _ _ _ _ R)), Eh. mstep.
  destruct (removed_all _ _ _ _ _ _ Hd R) as [Ew Er].
  { intros x Hxl Ec. destruct (hash_found hash _ _ _ _ _ x _ T Hd Hxl eq_refl) as (_ & ch2 & k & Hc2 & Hk). rewrite (Hx x Hxl Ec), Hc in Hc2. injection Hc2 as <-.
    apply list_elem_of_fmap. by exists (k, x.1). }
  split_and!; [rewrite <- Ew; apply R|unfold zlen; by rewrite <- Er|apply R|]. exists rem. split; [apply R|done].
Qed.
End loops.

(** ** The end of a cache *)

Lemma free_entries_spec fuel pv l c :
  dseg (cache_entry c) pv l None -> NoDup l.*1 -> (length l < fuel)%nat ->
  post (free_entries fuel (first_of l None)) c (fun _ c' => released c' = released c ++ if dofree c then l.*2 else []).
Proof.
  revert pv l c. induction fuel as [|fuel IH]; intros pv l c Hs Hd Hf; [lia|]. destruct l as [|x l]; cbn [free_entries first_of].
  - mstep. destruct (dofree c); by rewrite app_nil_r.
  - destruct Hs as [(e & He & _ & Hn & Hv) Hs]. cbn in Hd. apply NoDup_cons in Hd as [Hx Hd]. mstep. mstep. mstep.
    apply (post_mono (fun _ c1 => c1 = set_released (released c ++ if dofree c then [x.2] else []) c)).
    { destruct (dofree c); [by apply (post_call_dofree _ _ e x.2)|]. mstep. rewrite app_nil_r. by destruct c. }
    intros _ c1 ->. mstep. apply (post_free_variable _ _ e); [done|by eapply view_not_freed|]. intros c2 e2 O2 N2 _. pose proof (ow_only _ _ _ _ O2) as E2.
    mstep. apply (post_record_at _ e2); [apply O2|]. rewrite N2, Hn. eapply post_mono; [apply (IH (Some x.1) l); [|done|cbn in Hf; lia]|].
    { eapply dseg_ext; [|exact Hs]. intros r Hr. rewrite (ow_out _ _ _ _ O2) by (by intros ->). done. }
    intros _ c' ->. rewrite E2. cbn. rewrite <- app_assoc. by destruct (dofree c).
Qed.
