(* ===== verification/LruSpec.v ===== *)
(** * A cache is a bounded list in the order of use

    The interface between [cache.c] and its clients, the abstract cache, and the refinement:
    whatever sequence of calls the clients make, the linked records behave like the list. *)

From stdpp Require Import prelude list gmap.
From Stdlib Require Import ZArith Lia.
From S2P Require Import Prelude NtfsTypes LruCache LruRep LruHash LruOps LruInvalidate.

Local Open Scope Z_scope.

(** ** The interface *)

(** What a client gives to its cache: the comparison for [ntfs_fetch_cache] and
    [ntfs_enter_cache], the hash function with the number of its values, and the size of
    the fixed part. *)
Class CacheClient := {
  cc_compare : cache_item -> cache_item -> bool;
  cc_hash : cache_item -> Z;
  cc_lists : nat;
  cc_size : Z;
  cc_ok : cache_item -> Prop;
  cc_key : Type;
  cc_key_of : cache_item -> cc_key;
  #[global] cc_key_dec :: EqDecision cc_key
}.

(** What a cache relies on: of the records the client uses, the comparison tells the ones
    with different keys, and the hash value is in range and depends on the key only. *)
Class CacheClientLaws `{CacheClient} := {
  cc_compare_key i w : cc_ok i -> cc_ok w -> cc_compare i w = negb (bool_decide (cc_key_of i = cc_key_of w));
  cc_hash_key i w : cc_ok i -> cc_ok w -> cc_key_of i = cc_key_of w -> cc_hash i = cc_hash w;
  cc_hash_range i : cc_ok i -> 0 <= cc_hash i < Z.of_nat cc_lists
}.

(** ** Calls and their results *)

Inductive cache_op :=
  | Fetch (w : cache_item)
  | Enter (i : cache_item)
  | Take (w : cache_item) (flags : Z)
  | Invalidate (w : cache_item) (cmp : cache_item -> cache_item -> bool) (flags : Z).

Inductive cache_out :=
  | Found (i : option cache_item)
  | Count (k : Z).

Section spec.
Context `{CacheClient} `{Malloc}.

(** The content of the record a call returned. *)
Definition content (p : option nat) : M (option CACHE_HEADER) (option cache_item) :=
  in_cache None (match p with Some _ => i ← item_at p; mret (Some i) | None => mret None end).

(** [Take] is what [ntfs_inode_open] does: the record found is removed. *)
Definition run_op (op : cache_op) : M (option CACHE_HEADER) cache_out :=
  match op with
  | Fetch w => p ← ntfs_fetch_cache w cc_compare; i ← content p; mret (Found i)
  | Enter i => p ← ntfs_enter_cache i cc_compare; j ← content p; mret (Found j)
  | Take w flags =>
      p ← ntfs_fetch_cache w cc_compare;
      i ← content p;
      match p with Some _ => ntfs_remove_cache p flags;; mret (Found i) | None => mret (Found i) end
  | Invalidate w cmp flags => k ← ntfs_invalidate_cache w cmp flags; mret (Count k)
  end.

Fixpoint run_ops (ops : list cache_op) : M (option CACHE_HEADER) (list cache_out) :=
  match ops with
  | [] => mret []
  | op :: ops => o ← run_op op; os ← run_ops ops; mret (o :: os)
  end.

(** ** The abstract cache: the most recent record first *)

Definition spec_lookup (w : cache_item) (s : list cache_item) : option cache_item :=
  find (fun i => bool_decide (cc_key_of i = cc_key_of w)) s.
Definition spec_without (w : cache_item) (s : list cache_item) : list cache_item :=
  filter (fun i => cc_key_of i <> cc_key_of w) s.

(** The result, the new list, and the records given back to the client. *)
Definition spec_op (n : nat) (free : bool) (op : cache_op) (s : list cache_item) : cache_out * list cache_item * list cache_item :=
  match op with
  | Fetch w =>
      match spec_lookup w s with
      | Some i => (Found (Some i), i :: spec_without w s, [])
      | None => (Found None, s, [])
      end
  | Enter i =>
      match spec_lookup i s with
      | Some j => (Found (Some j), s, [])
      | None => (Found (Some i), i :: take (n - 1) s, if free then drop (n - 1) s else [])
      end
  | Take w flags =>
      match spec_lookup w s with
      | Some i => (Found (Some i), spec_without w s, if flagged flags CACHE_FREE && free then [i] else [])
      | None => (Found None, s, [])
      end
  | Invalidate w cmp flags =>
      let out := filter (fun i => cmp i w = false) s in
      (Count (zlen out), filter (fun i => cmp i w = true) s, if flagged flags CACHE_FREE && free then out else [])
  end.

Fixpoint spec_ops (n : nat) (free : bool) (ops : list cache_op) (s : list cache_item) : list cache_out * list cache_item * list cache_item :=
  match ops with
  | [] => ([], s, [])
  | op :: ops =>
      let '(o, s1, r1) := spec_op n free op s in
      let '(os, s2, r2) := spec_ops n free ops s1 in
      (o :: os, s2, r1 ++ r2)
  end.

(** The calls a client may make: its records, memory for the variable part, and a
    comparison for the invalidation that goes with the hash function or without it. *)
Definition op_ok (op : cache_op) : Prop :=
  match op with
  | Fetch w | Take w _ => cc_ok w
  | Enter i => cc_ok i /\ item_ok cc_size i /\ (i_varsize i = 0 \/ malloc_ok (i_varsize i) = true)
  | Invalidate w cmp flags =>
      flagged flags CACHE_NOHASH = true \/
      (0 <= cc_hash w < Z.of_nat cc_lists /\ forall i, cc_ok i -> cmp i w = false -> cc_hash i = cc_hash w)
  end.
End spec.

(** ** Facts on the abstract cache *)

Section facts.
Context `{CacheClientLaws}.

Lemma lookup_found w i s : NoDup (cc_key_of <$> s) -> i ∈ s -> cc_key_of i = cc_key_of w -> spec_lookup w s = Some i.
Proof.
  induction s as [|j s IH]; [set_solver|]. cbn. intros [Hj Hd]%NoDup_cons Hi Hk. case_bool_decide as E.
  - apply elem_of_cons in Hi as [->|Hi]; [done|]. exfalso. apply Hj. rewrite E, <- Hk. apply list_elem_of_fmap. eauto.
  - apply elem_of_cons in Hi as [->|Hi]; [done|]. by apply IH.
Qed.

Lemma lookup_none w s : (forall i, i ∈ s -> cc_key_of i <> cc_key_of w) -> spec_lookup w s = None.
Proof.
  induction s as [|j s IH]; [done|]. cbn. intros Hi. rewrite bool_decide_false by (apply Hi; set_solver). apply IH. set_solver.
Qed.

Lemma without_split w a i b :
  NoDup (cc_key_of <$> a ++ i :: b) -> cc_key_of i = cc_key_of w -> spec_without w (a ++ i :: b) = a ++ b.
Proof.
  assert (forall s, (forall j, j ∈ s -> cc_key_of j <> cc_key_of w) -> spec_without w s = s) as Hall.
  { induction s as [|j s IH]; intros Hj; [done|]. unfold spec_without. rewrite filter_cons, decide_True by (apply Hj; set_solver). f_equal. apply IH. set_solver. }
  rewrite fmap_app, fmap_cons. intros Hd Hk. rewrite <- Permutation_middle, <- fmap_app in Hd. apply NoDup_cons in Hd as [Hd _].
  assert (forall j, j ∈ a ++ b -> cc_key_of j <> cc_key_of w) as Hne.
  { intros j Hj E. apply Hd. rewrite Hk, <- E. apply list_elem_of_fmap. eauto. }
  unfold spec_without. rewrite filter_app, filter_cons, decide_False by (by intros []). f_equal; apply Hall; set_solver.
Qed.

(** ** The simulation relation *)

Record sim (n : nat) (c : CACHE_HEADER) (s : list cache_item) : Prop := {
  sm_slots : exists l, lru n c l /\ l.*2 = s;
  sm_ok : Forall cc_ok s;
  sm_keys : NoDup (cc_key_of <$> s);
  sm_hash : dohash c = None \/ dohash c = Some cc_hash /\ max_hash c = Z.of_nat cc_lists;
  sm_size : fixed_size c = cc_size
}.

Lemma sim_conf n c c' l s : sim n c s -> same_conf c c' -> lru n c' l -> Forall cc_ok l.*2 -> NoDup (cc_key_of <$> l.*2) -> sim n c' l.*2.
Proof. intros [_ _ _ S4 S5] [C1 C2 C3 C4] L Ho Hk. split; [by exists l|done|done|rewrite C1, C2; done|by rewrite C4]. Qed.

Lemma sim_finds n c l s w : sim n c s -> l.*2 = s -> cc_ok w -> hash_finds cc_compare w c l.
Proof.
  intros [_ S2 _ S4 _] El Hw hash Eh. destruct S4 as [E|[E Em]]; rewrite E in Eh; [done|]. injection Eh as <-. rewrite Em. split; [by apply cc_hash_range|].
  intros x Hx Ec. assert (cc_ok x.2) as Hox. { rewrite Forall_forall in S2. apply S2. rewrite <- El. apply list_elem_of_fmap. eauto. }
  rewrite cc_compare_key in Ec by done. apply negb_false_iff, bool_decide_eq_true in Ec. by apply cc_hash_key.
Qed.

(** What a search returned, in terms of the abstract cache. *)
Lemma found_lookup n c l w r :
  sim n c l.*2 -> cc_ok w -> found cc_compare w l r ->
  match r with
  | Some p => exists l1 i l2, l = l1 ++ (p, i) :: l2 /\ spec_lookup w l.*2 = Some i /\ cc_key_of i = cc_key_of w
  | None => spec_lookup w l.*2 = None /\ forall i, i ∈ l.*2 -> cc_key_of i <> cc_key_of w
  end.
Proof.
  intros [_ S2 S3 _ _] Hw Hf. rewrite Forall_forall in S2. destruct r as [p|].
  - destruct Hf as (i & Hi & Ec). assert (i ∈ l.*2) as Hi2 by (apply list_elem_of_fmap; by exists (p, i)). rewrite cc_compare_key in Ec by auto.
    apply negb_false_iff, bool_decide_eq_true in Ec. apply list_elem_of_split in Hi as (l1 & l2 & El). exists l1, i, l2. split_and!; [done|by apply lookup_found|done].
  - assert (forall i, i ∈ l.*2 -> cc_key_of i <> cc_key_of w) as Hne; [|split; [by apply lookup_none|done]].
    intros i Hi. pose proof (S2 i Hi) as Hio. apply list_elem_of_fmap in Hi as (x & -> & Hx). unfold found in Hf. rewrite Forall_forall in Hf. specialize (Hf x Hx). rewrite cc_compare_key in Hf by done.
    apply negb_true_iff, bool_decide_eq_false in Hf. done.
Qed.
End facts.

(** ** The operations *)

Section operations.
Context `{CacheClientLaws} `{Malloc}.

Lemma post_in_cache {A} (d : A) (m : MC A) c Q : post m c (fun a c' => Q a (Some c')) -> post (in_cache d m) (Some c) Q.
Proof. unfold post, in_cache. by destruct (m c) as [[a c']|]. Qed.

Lemma lookup_perm w s i : NoDup (cc_key_of <$> s) -> spec_lookup w s = Some i -> exists a b, s = a ++ i :: b /\ spec_without w s = a ++ b.
Proof.
  intros Hd Hl. pose proof (find_some _ _ Hl) as [Hi Hk]. apply bool_decide_eq_true in Hk. apply list_elem_of_In, list_elem_of_split in Hi as (a & b & ->).
  exists a, b. split; [done|]. by apply without_split.
Qed.

Lemma sim_perm n c c' l s : sim n c s -> same_conf c c' -> lru n c' l -> l.*2 ≡ₚ s -> sim n c' l.*2.
Proof.
  intros S C L Hp. apply (sim_conf n c c' l s); try done; [by rewrite Hp; apply S|]. pose proof (sm_keys _ _ _ S) as Hd. by rewrite <- Hp in Hd.
Qed.

Lemma fmap_sublist {A B} (f : A -> B) l k : sublist l k -> sublist (f <$> l) (f <$> k).
Proof. induction 1; cbn; by constructor. Qed.

Lemma sim_sub n c c' l s : sim n c s -> same_conf c c' -> lru n c' l -> sublist l.*2 s -> sim n c' l.*2.
Proof.
  intros S C L Hp. apply (sim_conf n c c' l s); try done.
  - pose proof (sm_ok _ _ _ S) as Ho. rewrite Forall_forall in Ho |- *. intros i Hi. apply Ho. by eapply elem_of_submseteq, sublist_submseteq.
  - eapply sublist_NoDup; [apply S|]. by apply fmap_sublist.
Qed.

Lemma fetch_sim n c l w :
  lru n c l -> sim n c l.*2 -> cc_ok w ->
  post (fetch_entry cc_compare w) c (fun r c' => same_conf c c' /\ released c' = released c /\
    match r with
    | Some p => exists l1 i l2, l = l1 ++ (p, i) :: l2 /\ lru n c' ((p, i) :: l1 ++ l2) /\ spec_lookup w l.*2 = Some i /\ spec_without w l.*2 = (l1 ++ l2).*2
    | None => lru n c' l /\ spec_lookup w l.*2 = None
    end).
Proof.
  intros L S Hw. unfold fetch_entry. mstep. eapply post_mono; [apply (cached_entry_spec cc_compare w n c l); [done|by eapply sim_finds]|].
  intros r c1 [-> Hf]. pose proof (found_lookup _ _ _ _ _ S Hw Hf) as Hr. mstep. destruct r as [p|].
  - destruct Hr as (l1 & i & l2 & -> & Hl & Hk). mstep. mstep.
    set (c1 := set_counts _ _ _ c). assert (lru n c1 (l1 ++ (p, i) :: l2)) as L1 by by apply lru_counts.
    eapply post_mono; [apply (move_to_head_spec n c1 l1 (p, i) l2); apply L1|]. intros _ c2 (L2 & K2 & R2). mstep. mstep. mstep.
    assert (lru n c2 ((p, i) :: l1 ++ l2)) as L2'.
    { split; [done|]. intros hash Eh. rewrite (kp_dohash _ _ K2) in Eh. eapply hashed_keeps; [exact K2|]. eapply hashed_perm; [|by apply (lr_hash _ _ _ L1)].
      by rewrite <- Permutation_middle. }
    split; [|split; [exact R2|]]. { eapply conf_trans; [|by eapply conf_trans; [apply keeps_conf|]]; by split. }
    exists l1, i, l2. split_and!; [done|by apply lru_counts|done|]. rewrite !fmap_app, fmap_cons. apply without_split; [|done].
    pose proof (sm_keys _ _ _ S) as Hd. rewrite (fmap_app snd), fmap_cons in Hd. exact Hd.
  - destruct Hr as [Hl _]. mstep. mstep. mstep. mstep. split; [by split|]. split; [done|]. split; [by apply lru_counts|done].
Qed.

Lemma take_sim n c l item :
  lru n c l -> (2 <= n)%nat ->
  post (take_entry item) c (fun r c' => exists p l' ev, r = Some p /\ l = l' ++ ev /\ length l' = Nat.min (length l) (n - 1) /\
    taken n c' l' p (part_of item) (i_varsize item) /\ same_conf c c' /\ (forall hash, dohash c = Some hash -> hashed hash c' l' n) /\
    released c' = released c ++ if dofree c then ev.*2 else []).
Proof.
  intros L Hn. destruct (li_free _ _ _ (lr_list _ _ _ L)) as (fs & Hf & Hs). pose proof (Permutation_length Hs) as Hlen. rewrite length_app, length_fmap, length_seq in Hlen.
  destruct fs as [|p fs].
  - destruct l as [|x l _] using rev_ind; [cbn in Hlen; lia|]. destruct l as [|y l _] using rev_ind; [cbn in Hlen; lia|].
    rewrite <- app_assoc in *. cbn [app] in *. rewrite app_nil_r in Hs. eapply post_mono; [apply (take_oldest n c l y x item); done|].
    intros r c' (-> & T & C & Hh & R). exists x.1, (l ++ [y]), [x]. split_and!; try done; [by rewrite <- app_assoc|].
    rewrite !length_app in *. cbn in *. lia.
  - eapply post_mono; [eapply (take_free n c l item p fs); done|]. intros r c' (-> & T & K & R). exists p, l, []. rewrite app_nil_r.
    split_and!; try done; [cbn in Hlen; lia|by apply keeps_conf| |rewrite R; destruct (dofree c); by rewrite app_nil_r].
    intros hash Eh. eapply hashed_keeps; [exact K|by apply L].
Qed.

Lemma split_min {A} (l l' ev : list A) k : l = l' ++ ev -> length l' = Nat.min (length l) k -> l' = take k l /\ ev = drop k l.
Proof.
  intros -> Hl. rewrite length_app in Hl. assert (length ev = 0 \/ length l' = k)%nat as [E|<-] by lia.
  - apply nil_length_inv in E as ->. rewrite app_nil_r, take_ge, drop_ge by (cbn in Hl; lia). done.
  - by rewrite take_app_length, drop_app_length.
Qed.

Lemma enter_sim n c l item :
  lru n c l -> sim n c l.*2 -> (2 <= n)%nat -> op_ok (Enter item) ->
  post (enter_entry cc_compare item) c (fun r c' => same_conf c c' /\ exists p i l', r = Some p /\ lru n c' l' /\ (p, i) ∈ l' /\
    match spec_lookup item l.*2 with
    | Some j => i = j /\ l' = l /\ released c' = released c
    | None => i = item /\ (exists l1, l' = (p, item) :: l1 /\ l1.*2 = take (n - 1) l.*2) /\
              released c' = released c ++ (if dofree c then drop (n - 1) l.*2 else [])
    end).
Proof.
  intros L S Hn (Hok & Hit & Hm). unfold enter_entry. mstep. eapply post_mono; [apply (cached_entry_spec cc_compare item n c l); [done|by eapply sim_finds]|].
  intros r c1 [-> Hf]. pose proof (found_lookup _ _ _ _ _ S Hok Hf) as Hr. mstep. destruct r as [p|].
  - destruct Hr as (l1 & i & l2 & -> & Hl & _). mstep. mstep. mstep. mstep. split; [by split|]. exists p, i, (l1 ++ (p, i) :: l2). rewrite Hl.
    split_and!; [done|by apply lru_counts|set_solver|done..].
  - destruct Hr as [Hl Hne]. rewrite Hl. mstep. eapply post_mono; [by apply (take_sim n c l item)|]. intros r c1 (p & l' & ev & -> & El & Hlen & T & C1 & Hh1 & R1).
    destruct (split_min _ _ _ _ El Hlen) as [Et Ed]. mstep. eapply post_mono; [apply (fill_entry_spec n c1 l' p item T); [by rewrite (sc_fixed _ _ C1), (sm_size _ _ _ S)|done]|].
    intros r c2 (-> & L2 & K2 & R2). assert (same_conf c c2) as C2 by (eapply conf_trans; [exact C1|by apply keeps_conf]).
    destruct (ta_free _ _ _ _ _ _ T) as (fs & _ & Hs). destruct (unlinked_apart _ _ _ _ Hs) as [Hp _].
    mstep. apply (post_mono (fun _ c3 => same_conf c c3 /\ lru n c3 ((p, item) :: l') /\ released c3 = released c2)).
    { destruct (dohash c2) as [hash|] eqn:Eh.
      - destruct (sm_hash _ _ _ S) as [E|[E Em]]; rewrite (sc_dohash _ _ C2), E in Eh; [done|]. injection Eh as <-.
        destruct (li_list _ _ _ L2) as [(e & He & _ & _ & Hv) _]. assert (dohash c2 = Some cc_hash) as Eh2 by (by rewrite (sc_dohash _ _ C2)).
        eapply post_mono; [eapply (insert_spec cc_hash c2 l' n p e item); [done| |done|done|done| |]|].
        + eapply hashed_keeps; [exact K2|]. by apply Hh1.
        + pose proof (listed_length _ _ _ L2) as Hl2. cbn in Hl2. lia.
        + rewrite (sc_max _ _ C2), Em. by apply cc_hash_range.
        + intros _ c3 [Ho Hh3]. split_and!; [eapply conf_trans; [exact C2|by apply hash_only_conf]| |by destruct Ho as (a & b & d & ->)].
          split; [by eapply listed_hash_only|]. intros hash Eh. destruct Ho as (a & b & d & ->). cbn in Eh. rewrite Eh2 in Eh. by injection Eh as <-.
      - unfold inserthashindex. mstep. mstep. rewrite Eh. mstep. split_and!; [done| |done]. split; [done|]. congruence. }
    intros _ c3 (C3 & L3 & R3). mstep. mstep. mstep. mstep. split; [eapply conf_trans; [exact C3|by split]|]. exists p, item, ((p, item) :: l').
    split_and!; [done|by apply lru_counts|set_solver|done| |].
    + exists l'. split; [done|]. by rewrite <- fmap_take, <- Et.
    + cbn. rewrite R3, R2, R1. f_equal. destruct (dofree c); [|done]. by rewrite <- fmap_drop, <- Ed.
Qed.

Lemma staying_items cmp w l : (staying cmp w l).*2 = filter (fun i => cmp i w = true) l.*2.
Proof. induction l as [|x l IH]; [done|]. unfold staying in *. rewrite fmap_cons, !filter_cons. case_decide; [|done]. rewrite fmap_cons. by f_equal. Qed.
Lemma going_items cmp w l : (going cmp w l).*2 = filter (fun i => cmp i w = false) l.*2.
Proof. induction l as [|x l IH]; [done|]. unfold going in *. rewrite fmap_cons, !filter_cons. case_decide; [|done]. rewrite fmap_cons. by f_equal. Qed.

(** [content] of a record in use. *)
Lemma content_spec n c l x (Q : option cache_item -> option CACHE_HEADER -> Prop) : lru n c l -> x ∈ l -> Q (Some x.2) (Some c) -> post (content (Some x.1)) (Some c) Q.
Proof. intros L Hx Hq. unfold content. apply post_in_cache. mstep. eapply listed_item; [apply L|done|]. by mstep. Qed.

Lemma content_none c (Q : option cache_item -> option CACHE_HEADER -> Prop) : Q None (Some c) -> post (content None) (Some c) Q.
Proof. done. Qed.

(** A call and its abstract counterpart. *)
Definition agrees (n : nat) (c : CACHE_HEADER) (want : cache_out * list cache_item * list cache_item) (o : cache_out) (s' : option CACHE_HEADER) : Prop :=
  exists c' rel, s' = Some c' /\ o = want.1.1 /\ sim n c' want.1.2 /\ dofree c' = dofree c /\ released c' = released c ++ rel /\ rel ≡ₚ want.2.

Lemma agrees_intro n c c' o l rel want2 s2 : same_conf c c' -> sim n c' l -> released c' = released c ++ rel -> rel ≡ₚ want2 -> s2 = l -> agrees n c (o, s2, want2) o (Some c').
Proof. intros [_ _ C _] S R P ->. exists c', rel. by split_and!. Qed.

Lemma fetch_agrees n c s w : sim n c s -> cc_ok w -> post (run_op (Fetch w)) (Some c) (agrees n c (spec_op n (dofree c) (Fetch w) s)).
Proof.
  intros S Hw. destruct (sm_slots _ _ _ S) as (l & L & <-). unfold run_op. mstep. apply post_in_cache. eapply post_mono; [by apply (fetch_sim n c l w)|].
  intros r c1 (C1 & R1 & Hr). cbn [spec_op]. mstep. destruct r as [p|].
  - destruct Hr as (l1 & i & l2 & El & L1 & Hl & Ew). rewrite Hl, Ew. apply (content_spec n c1 ((p, i) :: l1 ++ l2) (p, i)); [done|set_solver|]. mstep.
    apply (agrees_intro _ _ _ _ ((p, i) :: l1 ++ l2).*2 []); [done| |by rewrite R1, app_nil_r|done|done].
    eapply sim_perm; [exact S|done|done|]. rewrite El. by rewrite <- Permutation_middle.
  - destruct Hr as [L1 Hl]. rewrite Hl. apply content_none. mstep. apply (agrees_intro _ _ _ _ l.*2 []); [done| |by rewrite R1, app_nil_r|done|done].
    by eapply sim_perm.
Qed.

Lemma take_agrees n c s w flags : sim n c s -> cc_ok w -> post (run_op (Take w flags)) (Some c) (agrees n c (spec_op n (dofree c) (Take w flags) s)).
Proof.
  intros S Hw. destruct (sm_slots _ _ _ S) as (l & L & <-). unfold run_op. mstep. apply post_in_cache. eapply post_mono; [by apply (fetch_sim n c l w)|].
  intros r c1 (C1 & R1 & Hr). cbn [spec_op]. mstep. destruct r as [p|].
  - destruct Hr as (l1 & i & l2 & El & L1 & Hl & Ew). rewrite Hl, Ew. apply (content_spec n c1 ((p, i) :: l1 ++ l2) (p, i)); [done|set_solver|]. mstep.
    unfold ntfs_remove_cache. apply post_in_cache. eapply post_mono; [apply (remove_entry_spec n c1 [] (p, i) (l1 ++ l2)); exact L1|].
    intros r c2 (_ & L2 & C2 & R2). mstep. cbn [app] in L2.
    eapply (agrees_intro _ _ _ _ (l1 ++ l2).*2 (to_release flags c1 [(p, i)])); [by eapply conf_trans| |by rewrite R2, R1| |done].
    + eapply sim_sub; [exact S|by eapply conf_trans|done|]. rewrite El, !fmap_app, fmap_cons. apply sublist_app; [done|]. by constructor.
    + rewrite (to_release_conf _ _ _ _ C1). unfold to_release. by destruct (_ && _).
  - destruct Hr as [L1 Hl]. rewrite Hl. apply content_none. mstep. apply (agrees_intro _ _ _ _ l.*2 []); [done| |by rewrite R1, app_nil_r|done|done].
    by eapply sim_perm.
Qed.

Lemma enter_agrees n c s i : sim n c s -> (2 <= n)%nat -> op_ok (Enter i) -> post (run_op (Enter i)) (Some c) (agrees n c (spec_op n (dofree c) (Enter i) s)).
Proof.
  intros S Hn Ho. destruct (sm_slots _ _ _ S) as (l & L & <-). unfold run_op. mstep. apply post_in_cache. eapply post_mono; [by apply (enter_sim n c l i)|].
  intros r c1 (C1 & p & j & l' & -> & L1 & Hin & Hr). cbn [spec_op]. mstep. apply (content_spec n c1 l' (p, j)); [done..|]. mstep. cbn [snd].
  destruct (spec_lookup i l.*2) as [j'|] eqn:El.
  - destruct Hr as (-> & -> & R1). apply (agrees_intro _ _ _ _ l.*2 []); [done|by eapply sim_perm|by rewrite R1, app_nil_r|done|done].
  - destruct Hr as (-> & (l1 & -> & E1) & R1). eapply (agrees_intro _ _ _ _ ((p, i) :: l1).*2); [done| |exact R1|done|cbn; by rewrite E1].
    destruct Ho as (Hok & _ & _).  eapply (sim_conf n c c1); [exact S|done|done| |]; rewrite fmap_cons, E1.
    + constructor; [done|]. apply Forall_take, S.
    + cbn. constructor; [|rewrite fmap_take; eapply sublist_NoDup; [apply S|apply sublist_take]].
      intros (k & Ek & Hk)%list_elem_of_fmap. assert (k ∈ l.*2) as Hk' by (by eapply elem_of_submseteq, sublist_submseteq, sublist_take).
      pose proof (find_none _ _ El k (proj1 (list_elem_of_In _ _) Hk')) as Hn'. cbn in Hn'. by apply bool_decide_eq_false in Hn'.
Qed.

Lemma invalidate_agrees n c s w cmp flags :
  sim n c s -> op_ok (Invalidate w cmp flags) -> post (run_op (Invalidate w cmp flags)) (Some c) (agrees n c (spec_op n (dofree c) (Invalidate w cmp flags) s)).
Proof.
  intros S Ho. destruct (sm_slots _ _ _ S) as (l & L & <-). unfold run_op. mstep. apply post_in_cache. eapply post_mono; [apply (invalidate_spec cmp w flags n c l); [done|]|].
  { destruct Ho as [|[Hr Hi]]; [by left|]. right. intros hash Eh. destruct (sm_hash _ _ _ S) as [E|[E Em]]; rewrite E in Eh; [done|]. injection Eh as <-.
    rewrite Em. split; [done|]. intros x Hx. apply Hi. pose proof (sm_ok _ _ _ S) as Hok. rewrite Forall_forall in Hok. apply Hok. apply list_elem_of_fmap. eauto. }
  intros r c1 (L1 & -> & C1 & rel & R1 & P1). mstep. cbn [spec_op].
  replace (zlen (going cmp w l)) with (zlen (filter (fun i => cmp i w = false) l.*2)).
  2:{ rewrite <- going_items. unfold zlen. by rewrite length_fmap. }
  eapply (agrees_intro _ _ _ _ (staying cmp w l).*2); [done| |exact R1| |].
  - eapply sim_sub; [exact S|done|done|]. unfold staying. apply fmap_sublist, sublist_filter.
  - unfold to_release. destruct (_ && _); [|done]. by rewrite P1, going_items.
  - by rewrite staying_items.
Qed.

Lemma op_agrees n c s op : sim n c s -> (2 <= n)%nat -> op_ok op -> post (run_op op) (Some c) (agrees n c (spec_op n (dofree c) op s)).
Proof.
  intros S Hn Ho. destruct op; [by apply fetch_agrees|by apply enter_agrees|by apply take_agrees|by apply invalidate_agrees].
Qed.

Lemma ops_agree n ops c s :
  sim n c s -> (2 <= n)%nat -> Forall op_ok ops ->
  post (run_ops ops) (Some c) (fun outs s' => let '(outs', s2, rel') := spec_ops n (dofree c) ops s in
    exists c' rel, s' = Some c' /\ outs = outs' /\ sim n c' s2 /\ dofree c' = dofree c /\ released c' = released c ++ rel /\ rel ≡ₚ rel').
Proof.
  revert c s. induction ops as [|op ops IH]; intros c s S Hn Ho; cbn [run_ops spec_ops].
  - mstep. exists c, []. by rewrite app_nil_r.
  - apply Forall_cons in Ho as [Ho1 Ho2]. mstep. eapply post_mono; [by apply op_agrees|]. intros o s1 (c1 & rel1 & -> & -> & S1 & D1 & R1 & P1).
    destruct (spec_op n (dofree c) op s) as [[o s2] w1]. cbn [fst snd] in *. mstep. eapply post_mono; [by apply IH|]. rewrite D1. intros outs s'.
    destruct (spec_ops n (dofree c) ops s2) as [[outs' s3] w2]. intros (c' & rel & -> & -> & S' & D' & R' & P'). mstep.
    exists c', (rel1 ++ rel). split_and!; [done|done|done|congruence|by rewrite R', R1, app_assoc|by rewrite P1, P'].
Qed.
End operations.

(** ** A new cache *)

Section create.

Lemma numbered_lookup {A} (f : nat -> A) n i : (i < n)%nat -> (list_to_map ((fun i => (i, f i)) <$> seq 0 n) : gmap nat A) !! i = Some (f i).
Proof.
  intros Hi. apply elem_of_list_to_map_1.
  - rewrite <- list_fmap_compose. rewrite (list_fmap_ext _ id); [rewrite list_fmap_id; apply NoDup_seq|done].
  - apply list_elem_of_fmap. exists i. split; [done|]. apply elem_of_seq. lia.
Qed.

Lemma numbered_dom {A} (f : nat -> A) n : dom (list_to_map ((fun i => (i, f i)) <$> seq 0 n) : gmap nat A) = set_seq 0 n.
Proof.
  rewrite dom_list_to_map_L, <- list_fmap_compose. rewrite (list_fmap_ext _ id) by done. rewrite list_fmap_id. apply list_to_set_seq.
Qed.

Lemma next_in_eq n i : next_in n i = match (n - S i)%nat with O => None | _ => Some (S i) end.
Proof. unfold next_in. destruct (Nat.ltb_spec (S i) n), (n - S i)%nat eqn:E; done || lia. Qed.

Lemma flist_new (m : gmap nat CACHED_GENERIC) n k i :
  (forall j, (j < n)%nat -> exists e, m !! j = Some e /\ ce_next e = next_in n j) -> (i + k = n)%nat ->
  flist m (match k with O => None | _ => Some i end) (seq i k).
Proof.
  intros Hm. revert i. induction k as [|k IH]; intros i Hi; [done|]. cbn. split; [done|]. destruct (Hm i ltac:(lia)) as (e & He & Hn). exists e. split; [done|].
  rewrite Hn, next_in_eq. replace (n - S i)%nat with k by lia. apply (IH (S i)). lia.
Qed.

Lemma hfree_new (m : gmap nat HASH_ENTRY) n k i :
  (forall j, (j < n)%nat -> exists l, m !! j = Some l /\ he_next l = next_in n j) -> (i + k = n)%nat ->
  hfree m (match k with O => None | _ => Some i end) (seq i k).
Proof.
  intros Hm. revert i. induction k as [|k IH]; intros i Hi; [done|]. cbn. split; [done|]. destruct (Hm i ltac:(lia)) as (e & He & Hn). exists e. split; [done|].
  rewrite Hn, next_in_eq. replace (n - S i)%nat with k by lia. apply (IH (S i)). lia.
Qed.

Lemma join_empty k : mjoin (replicate k ([] : list (nat * nat))) = [].
Proof. by induction k. Qed.

Context `{CacheClientLaws} `{Malloc}.

Lemma create_sim free (hashing : bool) n c :
  (1 <= n)%nat -> (1 <= cc_lists)%nat ->
  ntfs_create_cache free (if hashing then Some cc_hash else None) (sizeof_CACHED_GENERIC + cc_size) n (if hashing then cc_lists else O) = Some c ->
  sim n c [] /\ dofree c = free /\ released c = [].
Proof.
  intros Hn Hl. unfold ntfs_create_cache. destruct (malloc_ok _); [|done]. intros [= <-]. split; [|done].
  assert (listed n (mkCache None None (Some O) (match (if hashing then cc_lists else O) with O => None | _ => Some O end) (replicate (if hashing then cc_lists else O) None)
    free (match (if hashing then cc_lists else O) with O => None | _ => if hashing then Some cc_hash else None end) 0 0 0 (sizeof_CACHED_GENERIC + cc_size - sizeof_CACHED_GENERIC)
    (match (if hashing then Some cc_hash else None) with Some _ => Z.of_nat (if hashing then cc_lists else O) | None => 0 end)
    (list_to_map ((fun i => (i, mkCached (next_in n i) None VNull 0 [])) <$> seq 0 n))
    (match (if hashing then cc_lists else O) with O => ∅ | _ => list_to_map ((fun i => (i, mkHash (next_in n i) None)) <$> seq 0 n) end) []) []) as L.
  { split; try done; cbn [cache_entry free_entry].
    - apply numbered_dom.
    - exists (seq 0 n). split; [|done]. destruct n as [|n]; [lia|]. apply (flist_new _ (S n) (S n) 0); [|lia].
      intros j Hj. rewrite (numbered_lookup (fun i => mkCached (next_in (S n) i) None VNull 0 [])) by lia. by eexists. }
  split; [|done|constructor| |cbn; lia].
  - exists []. split; [|done]. split; [exact L|]. destruct hashing; [|done]. destruct cc_lists as [|h] eqn:Eh; [lia|]. cbn [dohash]. intros hash [= <-].
    exists (replicate (S h) []), (seq 0 n). split; cbn [max_hash first_hash hash_entry free_hash]; try done.
    + by rewrite length_replicate.
    + apply numbered_dom.
    + by rewrite !length_replicate.
    + intros k ch Hk. apply lookup_replicate in Hk as [-> Hk]. exists None. split; [by apply lookup_replicate_2|done].
    + destruct n as [|n]; [lia|]. apply (hfree_new _ (S n) (S n) 0); [|lia].
      intros j Hj. rewrite (numbered_lookup (fun i => mkHash (next_in (S n) i) None)) by lia. by eexists.
    + by rewrite join_empty.
    + by rewrite join_empty.
    + intros k ch x Hk Hx. apply lookup_replicate in Hk as [-> _]. by apply elem_of_nil in Hx.
  - destruct hashing; [|by left]. right. destruct cc_lists; [lia|done].
Qed.

(** C5: a cache created for a client that keeps the laws of the interface, with
    or without a hash table and with at least two records, behaves under every sequence of
    calls, as long as memory for the variable part of an entered item is granted, like a list of at most so many records: a search finds the record with the key and
    makes it the most recent one, entering a new record when there is no room drops the
    oldest one, and invalidation removes exactly the records that match.  No call follows a
    bad pointer, uses or frees freed memory or loops ([LruFailure] has what happens without
    memory), and the records given back to the
    client are exactly those that left the list, then those that are left when the cache is
    freed. *)
Theorem lru_refines free (hashing : bool) n c ops :
  (2 <= n)%nat -> (1 <= cc_lists)%nat -> Forall op_ok ops ->
  ntfs_create_cache free (if hashing then Some cc_hash else None) (sizeof_CACHED_GENERIC + cc_size) n (if hashing then cc_lists else O) = Some c ->
  post (outs ← run_ops ops; rel ← ntfs_free_cache; mret (outs, rel)) (Some c) (fun '(outs, rel) _ =>
    let '(outs', s, rel') := spec_ops n free ops [] in
    outs = outs' /\ (length s <= n)%nat /\ rel ≡ₚ if free then rel' ++ s else rel').
Proof.
  intros Hn Hl Ho Hc. destruct (create_sim free hashing n c ltac:(lia) Hl Hc) as (S & Ed & Er). mstep.
  eapply post_mono; [apply (ops_agree n ops c []); [done..]|]. rewrite Ed, Er. intros outs s'. destruct (spec_ops n free ops []) as [[outs' s] rel'].
  intros (c' & rel & -> & -> & S' & Ed' & R & P). mstep. destruct (sm_slots _ _ _ S') as (l & L & El).
  pose proof (lr_list _ _ _ L) as LL. unfold ntfs_free_cache, post at 1.
  pose proof (free_entries_spec (Datatypes.S (size (cache_entry c'))) None l c' (li_list _ _ _ LL) (listed_nodup _ _ _ LL)) as Hf.
  rewrite (li_head _ _ _ LL). pose proof (listed_length _ _ _ LL). rewrite (listed_size _ _ _ LL) in *. specialize (Hf ltac:(lia)).
  unfold post in Hf. destruct (free_entries _ _ c') as [[u c2]|]; [|done]. mstep. split_and!; [done|rewrite <- El, length_fmap; lia|].
  rewrite Hf, R, P, Ed', El. cbn. destruct free; [done|by rewrite app_nil_r].
Qed.
End create.
