(* ===== verification/LruFailure.v ===== *)
(** * A cache that runs out of memory

    What becomes of a cache when [ntfs_enter_cache] gets no memory for the variable part of
    a record: the record goes back to the free list, but the first record in use keeps a
    pointer back to it. *)

From stdpp Require Import prelude list gmap.
From Stdlib Require Import ZArith Lia.
From S2P Require Import Prelude NtfsTypes LruCache LruRep LruHash LruOps LruInvalidate LruSpec.

Local Open Scope Z_scope.

(** The list from the head on, with a pointer back from the first record to [p], which is
    not in use. *)
Record stale (c : CACHE_HEADER) (p : nat) (x : slot) (l : list slot) : Prop := {
  st_list : dseg (cache_entry c) (Some p) (x :: l) None;
  st_head : most_recent_entry c = Some x.1;
  st_apart : p ∉ (x :: l).*1;
  st_there : is_Some (cache_entry c !! p)
}.

Lemma stale_counts c p x l r w h : stale c p x l -> stale (set_counts r w h c) p x l.
Proof. by intros [? ? ? ?]. Qed.

Section failure.
Context `{Malloc}.

Lemma fill_entry_fails n c x l p item :
  taken n c (x :: l) p (part_of item) (i_varsize item) -> i_varsize item <> 0 -> malloc_ok (i_varsize item) = false ->
  post (fill_entry (Some p) item) c (fun r c' => r = None /\ stale c' p x l /\ keeps c c' /\ dom (cache_entry c') = dom (cache_entry c)).
Proof.
  intros [T1 T2 T3 T4 (fs & T5 & T6) (e & He & Hv & Hz)] Hne Hm. destruct (unlinked_apart _ _ _ _ T6) as [Hp1 Hp2].
  assert (NoDup (x :: l).*1) as Hd.
  { pose proof (NoDup_seq 0 n) as Hd. rewrite <- T6 in Hd. apply NoDup_cons in Hd as [_ Hd]. by apply NoDup_app in Hd as [Hd _]. }
  assert (p <> x.1) as Hpx by (intros ->; apply Hp1; set_solver).
  assert (ce_variable e = VNull) as Hnull.
  { rewrite Hv. unfold part_of, new_block. by rewrite (proj2 (Z.eqb_neq _ _) Hne), Hm. }
  unfold fill_entry. mstep. mstep. rewrite T3. cbn [first_of]. mstep. apply (post_own_store _ _ e); [done|]. intros c1 O1.
  mstep. eapply post_own_store; [apply O1|]. intros c2 O2. pose proof (own_trans _ _ _ _ _ _ O1 O2) as O. clear O1 O2 c1.
  destruct (own_listed _ _ _ _ _ _ O T2 T5 Hp1 Hp2) as [S2 _]. set (e2 := set_previous None (set_next (Some x.1) e)) in *.
  mstep. apply post_store; [exact (first_is_some _ _ _ _ S2)|]. mstep. mstep. mstep. mstep.
  pose proof (dseg_fix_previous _ _ _ _ (Some p) Hd S2) as S3. cbn [first_of fix_previous] in S3.
  set (m3 := alter (set_previous (Some p)) x.1 (cache_entry c2)) in *. set (c3 := set_most_recent _ _).
  assert (cache_entry c3 !! p = Some e2) as He3 by (cbn; unfold m3; rewrite lookup_alter_ne by congruence; apply O).
  mstep. apply (post_own_store _ _ e2); [done|]. intros c4 O4. rewrite (proj2 (Z.eqb_neq _ _) Hne). cbn [negb].
  mstep. eapply post_record_at; [apply O4|]. cbn [ce_variable set_payload e2 set_previous set_next]. rewrite Hnull.
  mstep. mstep. mstep. mstep. cbn [ce_next set_payload e2 set_previous set_next]. set (c5 := set_most_recent _ c4).
  mstep. eapply (post_own_store c5); [apply O4|]. intros c6 O6. mstep. mstep. mstep. split; [done|].
  pose proof (ow_only _ _ _ _ O) as E2. pose proof (ow_only _ _ _ _ O4) as E4. pose proof (ow_only _ _ _ _ O6) as E6.
  split_and!.
  - split; cbn [cache_entry most_recent_entry set_free_entry].
    + apply (dseg_ext m3); [|exact S3]. intros q Hq. assert (q <> p) by (by intros ->). by rewrite (ow_out _ _ _ _ O6), (ow_out _ _ _ _ O4).
    + by rewrite E6.
    + done.
    + rewrite (ow_at _ _ _ _ O6). by eexists.
  - cbn. rewrite E6. unfold c5. rewrite E4. unfold c3. rewrite E2. by split.
  - cbn. rewrite (ow_dom _ _ _ _ O6). cbn. rewrite (ow_dom _ _ _ _ O4). cbn. unfold m3. by rewrite dom_alter_L, (ow_dom _ _ _ _ O).
Qed.

(** Moving the first record, which is taken for a later one, to the head. *)
Lemma move_stale c p x l :
  stale c p x l -> post (move_to_head (Some x.1)) c (fun _ c' => most_recent_entry c' = Some x.1 /\
    exists e, cache_entry c' !! x.1 = Some e /\ ce_next e = Some x.1 /\ view e = Some x.2).
Proof.
  intros [[(e & He & Hp & Hn & Hv) Hl] Hh Ha [ep Hep]]. assert (p <> x.1) as Hpx by (intros ->; apply Ha; set_solver).
  unfold move_to_head. mstep. apply (post_record_at _ e); [done|]. rewrite Hp. mstep. apply post_store; [by eexists|].
  mstep. apply (post_record_at _ e); [cbn; by rewrite lookup_alter_ne|]. rewrite Hn. mstep. rewrite Hp. apply post_redirect_previous.
  { destruct l as [|y l]; [done|]. cbn. destruct Hl as [(ey & Hy & _) _]. destruct (decide (p = y.1)) as [->|].
    - rewrite lookup_alter_eq, Hy. by eexists.
    - rewrite lookup_alter_ne by done. by eexists. }
  set (m2 := fix_previous _ _ _). mstep. mstep. cbn [most_recent_entry set_cache_entry set_oldest]. rewrite Hh.
  assert (is_Some (m2 !! x.1)) as [e2 He2].
  { unfold m2. destruct l as [|y l]; cbn; [rewrite lookup_alter_ne, He by done; by eexists|]. destruct (decide (y.1 = x.1)) as [->|].
    - rewrite lookup_alter_eq. cbn. rewrite lookup_alter_ne, He by done. by eexists.
    - rewrite lookup_alter_ne by done. rewrite lookup_alter_ne, He by done. by eexists. }
  assert (view e2 = Some x.2) as Hv2.
  { revert He2. unfold m2. destruct l as [|y l]; cbn; [rewrite lookup_alter_ne, He by done; congruence|]. destruct (decide (y.1 = x.1)) as [->|].
    - rewrite lookup_alter_eq. cbn. rewrite lookup_alter_ne, He by done. cbn. intros [= <-]. done.
    - rewrite lookup_alter_ne by done. rewrite lookup_alter_ne, He by done. congruence. }
  mstep. apply post_store; [cbn; by eexists|]. mstep. apply post_store; [cbn; rewrite lookup_alter_eq, He2; by eexists|].
  mstep. apply post_store; [cbn; rewrite !lookup_alter_eq, He2; by eexists|]. mstep. split; [done|].
  cbn. rewrite !lookup_alter_eq, He2. cbn. by eexists.
Qed.
End failure.

(** ** The loop *)

(** [current = current->next] *)
Definition follow_next (c : CACHE_HEADER) (p : option nat) : option nat := 
  match p with Some q => cache_entry c !! q ≫= ce_next | None => None end.

Section cycle.
Context `{CacheClientLaws} `{Malloc}.

(** The search for the most recent record finds it. *)
Lemma found_first n c x l r :
  sim n c (x :: l).*2 -> found cc_compare x.2 (x :: l) r -> r = Some x.1.
Proof.
  intros S Hf. pose proof (sm_keys _ _ _ S) as Hk. pose proof (sm_ok _ _ _ S) as Ho. cbn in Ho. apply Forall_cons in Ho as [Hx _].
  pose proof (found_lookup n c (x :: l) x.2 r S Hx Hf) as Hr. destruct r as [p|].
  - destruct Hr as (l1 & i & l2 & El & _ & Ei). destruct l1 as [|y l1]; [injection El as -> _; done|].
    injection El as -> ->. cbn in Hk. apply NoDup_cons in Hk as [Hk _]. destruct Hk. rewrite <- Ei. rewrite fmap_app. cbn.
    rewrite fmap_app. cbn. set_solver.
  - destruct Hr as [_ Hne]. destruct (Hne x.2); [cbn; set_solver|done].
Qed.

(** C40: in a cache whose clients keep the laws of the interface, with
    the record [x] as the most recent one and a record that is free, let entering a new item
    fail because there is no memory for its variable part.  [ntfs_enter_cache] says so and
    puts the record back, but when [x] is fetched next, it becomes its own successor: every
    pointer of the list from the head on leads to [x], none is null and none is bad.  Each
    round of [ntfs_invalidate_cache] over the list, for an item [x] does not match, is
    followed by the same round again, for ever. *)
Theorem enter_failure_cycle n c x l item :
  lru n c (x :: l) -> sim n c (x :: l).*2 -> (S (length l) < n)%nat ->
  cc_ok item -> spec_lookup item (x :: l).*2 = None -> i_varsize item <> 0 -> malloc_ok (i_varsize item) = false ->
  post (enter_entry cc_compare item) c (fun r c1 => r = None /\
    post (fetch_entry cc_compare x.2) c1 (fun r c2 => r = Some x.1 /\
      (forall k, Nat.iter k (follow_next c2) (most_recent_entry c2) = Some x.1) /\
      forall compare w flags fuel count, compare x.2 w = true ->
        invalidate_listed compare (S fuel) w flags (most_recent_entry c2) count c2 =
        invalidate_listed compare fuel w flags (most_recent_entry c2) count c2)).
Proof.
  intros L S Hlen Hok Hno Hne Hm. unfold enter_entry. mstep.
  eapply post_mono; [apply (cached_entry_spec cc_compare item n c (x :: l)); [done|by eapply sim_finds]|].
  intros r c1 [-> Hf]. pose proof (found_lookup _ _ _ _ _ S Hok Hf) as Hr. destruct r as [p|].
  { destruct Hr as (l1 & i & l2 & _ & Hs & _). congruence. }
  clear Hr Hf. mstep. mstep. destruct (li_free _ _ _ (lr_list _ _ _ L)) as (fs & Hf & Hs). pose proof (Permutation_length Hs) as Hl.
  rewrite length_app, length_fmap, length_seq in Hl. destruct fs as [|p fs]; [cbn in Hl; lia|].
  eapply post_mono; [by eapply (take_free n c (x :: l) item p fs)|]. intros r c1 (-> & T & K1 & _).
  pose proof (ta_dom _ _ _ _ _ _ T) as D1.
  mstep. eapply post_mono; [by apply (fill_entry_fails n c1 x l p item)|]. intros r c2 (-> & St & K2 & D2). mstep. mstep. mstep. mstep. mstep. mstep.
  split; [done|]. set (c3 := set_counts _ _ _ c2). assert (stale c3 p x l) as St3 by by apply stale_counts.
  assert (dohash c3 = dohash c /\ max_hash c3 = max_hash c) as [Eh Em].
  { cbn. by rewrite (kp_dohash _ _ K2), (kp_dohash _ _ K1), (kp_max _ _ K2), (kp_max _ _ K1). }
  unfold fetch_entry. mstep. eapply post_mono; [apply (cached_entry_at cc_compare x.2 (Some p) n c3 (x :: l))|].
  - apply St3.
  - by eapply listed_nodup, L.
  - apply St3.
  - rewrite <- size_dom. change (cache_entry c3) with (cache_entry c2). rewrite D2, D1, size_set_seq. cbn. lia.
  - intros hash E. rewrite Eh in E. apply (hashed_keeps hash c2); [by split|]. eapply hashed_keeps; [exact K2|]. eapply hashed_keeps; [exact K1|]. by apply L.
  - pose proof (sm_ok _ _ _ S) as Ho. cbn in Ho. apply Forall_cons in Ho as [Hx _].
    pose proof (sim_finds n c (x :: l) _ x.2 S eq_refl Hx) as Hfi. intros hash E. rewrite Eh in E. rewrite Em. by apply Hfi.
  - intros r c4 [-> Hfd]. rewrite (found_first n c x l r S Hfd). mstep. mstep. mstep. eapply post_mono; [apply (move_stale _ p x l); by apply stale_counts|].
    intros _ c5 (Hh & e & He & Hn & Hv). mstep. mstep. mstep. split; [done|]. cbn [most_recent_entry set_counts]. rewrite Hh. split.
    + induction k as [|k IHk]; [done|]. rewrite Nat.iter_succ, IHk. cbn. by rewrite He.
    + intros compare w flags fuel count Hc. cbn [invalidate_listed]. unfold mbind at 1, M_bind, item_at, mbind, M_bind, record_at. cbn.
      rewrite He, Hv. cbn. rewrite He, Hc, Hn. done.
Qed.
End cycle.
