(* ===== verification/LruClients.v ===== *)
(** * The clients of the caches

    The hash functions and comparisons of [dir.c] and [inode.c], that they keep the laws of
    the interface, and the caches of a volume. *)

From stdpp Require Import prelude list gmap.
From Stdlib Require Import ZArith Lia.
From S2P Require Import Prelude Bytes NtfsTypes LruCache LruOps LruSpec.

Local Open Scope Z_scope.
Local Open Scope cint_scope.

Definition CACHE_INODE_SIZE := 32%nat.
Definition CACHE_NIDATA_SIZE := 64%nat.
Definition CACHE_LOOKUP_SIZE := 64%nat.
Definition CACHE_SECURID_SIZE := 16%nat.
Definition CACHE_LEGACY_SIZE := 8%nat.

Definition MFT_REF_MASK_CPU := 0x0000ffffffffffff.
Definition MREF (x : Z) : Z := Z.land x MFT_REF_MASK_CPU.

(** ** The cache of path names *)

(** The characters of a string before its terminator. *)
Fixpoint cstr (l : list Z) : list Z :=
  match l with
  | [] => []
  | b :: l => if b =? 0 then [] else b :: cstr l
  end.

(** [strrchr(path, '/')] *)
Fixpoint strrchr_slash (l : list Z) : option (list Z) :=
  match l with
  | [] => None
  | b :: l => match strrchr_slash l with
              | Some r => Some r
              | None => if b =? 47 then Some (b :: l) else None
              end
  end.

(** The members of [CACHED_INODE] behind the common ones. *)
Definition ci_inum (i : cache_item) : Z := ld_qword (i_payload i) 0.

Definition ntfs_dir_inode_hash (cached : cache_item) : Z :=
  match i_variable cached with
  | None => -1
  | Some v =>
      let path := cstr v in
      let name := default path (strrchr_slash path) in
      (name.[0] * 2 + name.[1] + zlen name) mod (2 * Z.of_nat CACHE_INODE_SIZE)
  end.

Definition inode_cache_compare (cached wanted : cache_item) : bool :=
  match i_variable cached, i_variable wanted with
  | Some c, Some w => negb (bool_decide (cstr c = cstr w))
  | _, _ => true
  end.

(** A path below the wanted one, or the inode of that number. *)
Definition inode_cache_inv_compare (cached wanted : cache_item) : bool :=
  match i_variable wanted with
  | Some w =>
      let len := zlen (cstr w) in
      match i_variable cached with
      | None => true
      | Some c => negb (ci_inum wanted =? MREF (ci_inum cached)) &&
                  (negb (bool_decide (sub (cstr c) 0 len = cstr w)) || (negb ((cstr c).[len] =? 0) && negb ((cstr c).[len] =? 47)))
      end
  | None => match i_variable cached with None => true | Some _ => negb (ci_inum wanted =? MREF (ci_inum cached)) end
  end.

(** A path that is not empty. *)
Definition inode_ok (i : cache_item) : Prop := exists v, i_variable i = Some v /\ cstr v <> [].

#[export] Instance inode_client : CacheClient := {|
  cc_compare := inode_cache_compare;
  cc_hash := ntfs_dir_inode_hash;
  cc_lists := 2 * CACHE_INODE_SIZE;
  cc_size := 8;
  cc_ok := inode_ok;
  cc_key := option (list Z);
  cc_key_of i := cstr <$> i_variable i
|}.

#[export] Instance inode_client_laws : @CacheClientLaws inode_client.
Proof.
  split; cbn.
  - intros i w (v & Hv & _) (u & Hu & _). unfold inode_cache_compare. rewrite Hv, Hu. cbn. f_equal. apply bool_decide_ext. split; [by intros ->|by intros [= ->]].
  - intros i w (v & Hv & _) (u & Hu & _). unfold ntfs_dir_inode_hash. rewrite Hv, Hu. cbn. by intros [= ->].
  - intros i (v & Hv & _). unfold ntfs_dir_inode_hash. rewrite Hv. apply Z.mod_pos_bound. done.
Qed.

(** ** The cache of directory entries *)

(** The members of [CACHED_LOOKUP] behind the common ones. *)
Definition cl_parent (i : cache_item) : Z := ld_qword (i_payload i) 0.
Definition cl_inum (i : cache_item) : Z := ld_qword (i_payload i) 8.

Definition lookup_cache_compare (c w : cache_item) : bool :=
  match i_variable c, i_variable w with
  | Some cn, Some wn => negb (cl_parent c =? cl_parent w) || negb (i_varsize c =? i_varsize w) ||
                        negb (bool_decide (sub cn 0 (i_varsize c) = sub wn 0 (i_varsize c)))
  | _, _ => true
  end.

Definition lookup_cache_inv_compare (c w : cache_item) : bool :=
  match i_variable c with
  | None => true
  | Some _ => negb (cl_parent c =? cl_parent w) || negb (MREF (cl_inum c) =? MREF (cl_inum w))
  end.

Definition ntfs_dir_lookup_hash (cached : cache_item) : Z :=
  let count := i_varsize cached in
  match i_variable cached with
  | None => -1
  | Some name =>
      if count =? 0 then -1 else
      (name.[0] *u32 4 +u32 name.[1] *u32 2 +u32 name.[count - 1] +u32 count) mod (2 * Z.of_nat CACHE_LOOKUP_SIZE)
  end.

(** A name with its terminator. *)
Definition lookup_ok (i : cache_item) : Prop := exists v, i_variable i = Some v /\ i_varsize i = zlen v /\ 0 < zlen v.

#[export] Instance lookup_client : CacheClient := {|
  cc_compare := lookup_cache_compare;
  cc_hash := ntfs_dir_lookup_hash;
  cc_lists := 2 * CACHE_LOOKUP_SIZE;
  cc_size := 16;
  cc_ok := lookup_ok;
  cc_key := Z * option (list Z);
  cc_key_of i := (cl_parent i, i_variable i)
|}.

#[export] Instance lookup_client_laws : @CacheClientLaws lookup_client.
Proof.
  split; cbn.
  - intros i w (v & Hv & Ev & _) (u & Hu & Eu & _). unfold lookup_cache_compare. rewrite Hv, Hu, Ev, Eu. apply eq_true_iff_eq.
    rewrite !orb_true_iff, !negb_true_iff, !Z.eqb_neq, !bool_decide_eq_false. rewrite sub_all by done. split.
    + intros [[Hp|Hz]|Hs] [= E1 E2]; [done|by rewrite E2 in Hz|]. apply Hs. rewrite E2. symmetry. by apply sub_all.
    + intros Hne. destruct (decide (cl_parent i = cl_parent w)) as [E1|]; [|by left; left]. destruct (decide (zlen v = zlen u)) as [E2|]; [|by left; right].
      right. intros E3. apply Hne. rewrite E1. f_equal. f_equal. rewrite E3. by apply sub_all.
  - intros i w (v & Hv & Ev & _) (u & Hu & Eu & _). unfold ntfs_dir_lookup_hash. rewrite Hv, Hu, Ev, Eu. by intros [= _ ->].
  - intros i (v & Hv & Ev & Hp). unfold ntfs_dir_lookup_hash. rewrite Hv, Ev. rewrite (proj2 (Z.eqb_neq _ 0)) by lia. apply Z.mod_pos_bound. done.
Qed.

(** ** The cache of inodes *)

(** The inode number of [CACHED_NIDATA]; the pointer to the inode follows it. *)
Definition ni_inum (i : cache_item) : Z := ld_qword (i_payload i) 0.

Definition ntfs_inode_nidata_hash (item : cache_item) : Z := ni_inum item mod (2 * Z.of_nat CACHE_NIDATA_SIZE).
Definition idata_cache_compare (cached wanted : cache_item) : bool := negb (ni_inum cached =? ni_inum wanted).

#[export] Instance nidata_client : CacheClient := {|
  cc_compare := idata_cache_compare;
  cc_hash := ntfs_inode_nidata_hash;
  cc_lists := 2 * CACHE_NIDATA_SIZE;
  cc_size := 16;
  cc_ok := fun _ => True;
  cc_key := Z;
  cc_key_of := ni_inum
|}.

#[export] Instance nidata_client_laws : @CacheClientLaws nidata_client.
Proof.
  split; cbn.
  - intros i w _ _. unfold idata_cache_compare. f_equal. case_bool_decide; [by apply Z.eqb_eq|by apply Z.eqb_neq].
  - intros i w _ _ E. unfold ntfs_inode_nidata_hash. by rewrite E.
  - intros i _. apply Z.mod_pos_bound. done.
Qed.

(** [ntfs_inode_invalidate]: the item has no inode and no variable part. *)
Definition nidata_item (inum ni : Z) : cache_item := mkItem None 0 (st_qword (st_qword (replicate 16 0) 0 inum) 8 ni).
Definition ntfs_inode_invalidate (mref : Z) : M (option CACHE_HEADER) Z :=
  ntfs_invalidate_cache (nidata_item (MREF mref) 0) idata_cache_compare CACHE_FREE.

Lemma idata_same_hash i w : idata_cache_compare i w = false -> ntfs_inode_nidata_hash i = ntfs_inode_nidata_hash w.
Proof. unfold idata_cache_compare, ntfs_inode_nidata_hash. intros ->%negb_false_iff%Z.eqb_eq. reflexivity. Qed.

Lemma idata_range w : 0 <= ntfs_inode_nidata_hash w < Z.of_nat (2 * CACHE_NIDATA_SIZE).
Proof. apply Z.mod_pos_bound. done. Qed.

Lemma inode_invalidate_ok `{Malloc} w flags : @op_ok nidata_client _ (Invalidate w idata_cache_compare flags).
Proof. right. split; [apply idata_range|]. intros i _. apply idata_same_hash. Qed.

(** ** The caches of a volume *)

Record lru_caches := mkCaches {
  xinode_cache : option CACHE_HEADER;
  nidata_cache : option CACHE_HEADER;
  lookup_cache : option CACHE_HEADER;
  securid_cache : option CACHE_HEADER;
  legacy_cache : option CACHE_HEADER
}.

(** The size of [CACHED_PERMISSIONS_LEGACY] depends on the configuration. *)
Definition ntfs_create_lru_caches `{Malloc} (sizeof_legacy : Z) : lru_caches :=
  mkCaches
    (ntfs_create_cache false (Some ntfs_dir_inode_hash) 40 CACHE_INODE_SIZE (2 * CACHE_INODE_SIZE))
    (ntfs_create_cache true (Some ntfs_inode_nidata_hash) 48 CACHE_NIDATA_SIZE (2 * CACHE_NIDATA_SIZE))
    (ntfs_create_cache false (Some ntfs_dir_lookup_hash) 48 CACHE_LOOKUP_SIZE (2 * CACHE_LOOKUP_SIZE))
    (ntfs_create_cache false None 48 CACHE_SECURID_SIZE 0)
    (ntfs_create_cache false None sizeof_legacy CACHE_LEGACY_SIZE 0).

(** The inodes closed when the volume is unmounted. *)
Definition ntfs_free_lru_caches (v : lru_caches) : option (list cache_item) :=
  '(_, _) ← ntfs_free_cache (xinode_cache v);
  '(inodes, _) ← ntfs_free_cache (nidata_cache v);
  '(_, _) ← ntfs_free_cache (lookup_cache v);
  '(_, _) ← ntfs_free_cache (securid_cache v);
  '(_, _) ← ntfs_free_cache (legacy_cache v);
  Some inodes.
