(* ===== verification/Examples.v ===== *)
(** * Concrete volumes

    Small volumes on the executable device of [Diskio]: a FAT12 volume with two
    tables and a chain one entry of which straddles two sectors, a FAT32 volume with
    a pending FSINFO update, an exFAT volume with an allocation bitmap.  The theorems
    of the other files are applied to them; the definitions compute on them. *)

From stdpp Require Import prelude list.
From Stdlib Require Import ZArith Lia.
From S2P Require Import Prelude Bytes Diskio FFTypes Window Fat Bitmap Chain.

Local Open Scope Z_scope.

(** ** Building volumes *)

Definition blank (n : Z) : list Z := replicate (Z.to_nat n) 0.

Definition pokes (l : list Z) (ps : list (Z * Z)) : list Z :=
  foldl (fun l '(i, v) => setb l i v) l ps.

Lemma bytes_blank n : bytes (blank n).
Proof. by apply Forall_replicate. Qed.

Definition disk (bs : list Z) : Cursor := mkCursor bs 0 512 [].

(** A mounted filesystem with an empty window, as [mount_volume] leaves it. *)
Definition mounted (t nfats cs nent fsz fb db bb : Z) : FATFS :=
  mkFATFS t nfats 0 0 1 0 cs 512 0xFFFFFFFF 0xFFFFFFFF nent fsz 0 fb 0 db bb 0xFFFFFFFF
    (blank FF_MAX_SS) (blank 256) (blank 1024).

Definition obj0 : FFOBJID := mkFFOBJID 1 0 0 2 1 0 0 0 0 0.

(** ** FAT12: 398 clusters, two tables of two sectors; the chain 2, 3, 341 *)

Definition vol12 : St Cursor :=
  mkSt (mounted FS_FAT12 2 1 400 2 1 5 0)
    (disk (pokes (blank 4096)
       [(512 + 3, 3); (512 + 4, 0x50); (512 + 5, 0x15); (512 + 511, 0xF0); (512 + 512, 0xFF)])).

Ltac prove_fs_inv :=
  split; [split;
    [vm_compute; reflexivity|apply bytes_blank|reflexivity|done|
     split; [by left|done|done|by (left + right)|done]|intros _ Hw; by destruct Hw]
  |split; [done|unfold fat_max; done|done]].

Lemma vol12_inv : fs_inv vol12.
Proof. prove_fs_inv. Qed.

Lemma vol12_chain : chain (fat_entry vol12) 400 2 [2; 3; 341].
Proof.
  split; [repeat constructor; done|]. exists 0xFFF. split; [done|]. cbn [path].
  split_and!; vm_compute; reflexivity.
Qed.

(** ** FAT32: 10 clusters, FSINFO update pending; cluster 2 is a chain of its own *)

Definition vol32 : St Cursor :=
  mkSt (set_fsi_flag 1 (set_free_clst 9 (set_last_clst 2 (mounted FS_FAT32 1 1 12 1 2 3 0))))
    (disk (pokes (blank 4096) [(1024 + 8, 0xFF); (1024 + 9, 0xFF); (1024 + 10, 0xFF); (1024 + 11, 0x0F)])).

Lemma vol32_inv : fs_inv vol32.
Proof. prove_fs_inv. Qed.

(** A FAT32 table with the cycle 2, 3, 2. *)
Definition vol32_cycle : St Cursor :=
  mkSt (mounted FS_FAT32 1 1 12 1 2 3 0) (disk (pokes (blank 4096) [(1024 + 8, 3); (1024 + 12, 2)])).

Lemma vol32_cycle_inv : fs_inv vol32_cycle.
Proof. prove_fs_inv. Qed.

(** ** exFAT: 10 clusters, one bitmap sector; only clusters 2 and 11 are free *)

Definition volx : St Cursor :=
  mkSt (mounted FS_EXFAT 1 1 12 1 1 3 2) (disk (pokes (blank 4096) [(1024, 0xFE); (1025, 0x01)])).

Lemma volx_inv : fs_inv volx.
Proof. prove_fs_inv. Qed.

Lemma volx_bm : bm_geom (fsys volx).
Proof. by split. Qed.

(** ** Runs *)

Definition result {S A} (m : M S A) (s : S) : option A := fst <$> m s.

Example get_fat_runs : result (get_fat obj0 341) vol12 = Some 0xFFF.
Proof. vm_compute. reflexivity. Qed.

Example put_fat_runs : result (r ← put_fat 341 7; get_fat obj0 341) vol12 = Some 7.
Proof. vm_compute. reflexivity. Qed.

Example remove_chain_runs :
  result ('(r, _) ← remove_chain obj0 2 0; a ← get_fat obj0 3; b ← get_fat obj0 341; mret (r, a, b)) vol12
  = Some (FR_OK, 0, 0).
Proof. vm_compute. reflexivity. Qed.

(** Removing a cyclic chain. *)
Example remove_cycle_runs : result ('(r, _) ← remove_chain obj0 2 0; mret r) vol32_cycle = Some FR_OK.
Proof. vm_compute. reflexivity. Qed.

Example create_chain_runs :
  result ('(v, _) ← create_chain obj0 341; w ← get_fat obj0 341; mret (v, w)) vol12 = Some (342, 342).
Proof. vm_compute. reflexivity. Qed.

Example create_chain_exfat_runs :
  result ('(v, o) ← create_chain (set_stat 2 obj0) 0; mret (v, obj_stat o)) volx = Some (2, 2).
Proof. vm_compute. reflexivity. Qed.

(** Asked for two contiguous clusters from cluster 11 on, on a
    volume whose clusters are numbered 2 to 11 and whose clusters 2 and 11 are free
    but not 3 to 10, [find_bitmap] answers 11: the count of free bits is not reset
    where the scan wraps around, so that the block "11 and 12" it reports leaves the
    volume. *)
Theorem find_bitmap_wraps :
  (forall c, 2 <= c < 12 -> cluster_bit volx c = negb ((c =? 2) || (c =? 11))) /\
  n_fatent (fsys volx) = 12 /\ result (find_bitmap 11 2) volx = Some 11.
Proof.
  split; [|split; vm_compute; reflexivity]. intros c Hc.
  assert (c = 2 \/ c = 3 \/ c = 4 \/ c = 5 \/ c = 6 \/ c = 7 \/ c = 8 \/ c = 9 \/ c = 10 \/ c = 11) as Hcs by lia.
  repeat destruct Hcs as [->|Hcs]; [..|subst c]; vm_compute; reflexivity.
Qed.

(** ** The theorems on these volumes *)

Lemma vol12_window_ok : ~ mirror (fsys vol12) 1.
Proof. unfold mirror. cbn. lia. Qed.

Lemma load_store_roundtrip_witness :
  ld_dword (st_dword (blank 16) 3 (2 ^ 32 + 77)) 3 = 77.
Proof.
  refine (proj1 (proj2 (load_store_roundtrip (blank 16) 3 (2 ^ 32 + 77) _ _ _))).
  - apply bytes_blank.
  - lia.
  - vm_compute. discriminate.
Defined.

Lemma disk_read_swallows_error_witness :
  disk_read (mkUnplugged 4) [7; 7; 7; 7; 7] 3 1 = (RES_OK, [0; 0; 0; 0; 7], mkUnplugged 4).
Proof.
  rewrite (disk_read_swallows_error (mkUnplugged 4) (mkUnplugged 4) (mkUnplugged 4));
    reflexivity.
Defined.

Lemma disk_write_then_read_witness :
  let d := mkCursor (blank 16) 0 4 [] in
  take 4 (snd (fst (disk_read (snd (disk_write d [1; 2; 3; 4] 2 1)) (blank 6) 2 1))) = [1; 2; 3; 4].
Proof.
  refine (disk_write_then_read (mkCursor (blank 16) 0 4 [])
           (snd (disk_write (mkCursor (blank 16) 0 4 []) [1; 2; 3; 4] 2 1))
           (snd (disk_read (snd (disk_write (mkCursor (blank 16) 0 4 []) [1; 2; 3; 4] 2 1)) (blank 6) 2 1))
           [1; 2; 3; 4] (blank 6)
           (snd (fst (disk_read (snd (disk_write (mkCursor (blank 16) 0 4 []) [1; 2; 3; 4] 2 1)) (blank 6) 2 1)))
           2 _ _ _ _ _ _).
  - lia.
  - done.
  - repeat constructor; done.
  - done.
  - vm_compute. reflexivity.
  - vm_compute. reflexivity.
Defined.

Lemma move_window_transparent_witness :
  exists r s', move_window 1 vol12 = Some (r, s') /\ win_inv s' /\ vol_eq vol12 s' /\
    (r = FR_OK -> (win (fsys s')).[3] = 3).
Proof.
  destruct (post_run _ _ _ (move_window_transparent vol12 1 (fi_win _ vol12_inv)
    ltac:(lia) vol12_window_ok)) as (r & s' & Hr & Hi & Hv & Hok).
  exists r, s'. split_and!; [done..|]. intros ->. destruct Hok as [(_ & _ & Hb)|]; [|done].
  rewrite Hb by (cbn; lia). vm_compute. reflexivity.
Defined.

(** The window is dirty: entry 5 has been changed. *)
Definition vol12_dirty : St Cursor :=
  match put_fat 5 0xABC vol12 with Some (_, s) => s | None => vol12 end.

Lemma vol12_dirty_inv : fs_inv vol12_dirty.
Proof.
  destruct (post_run _ _ _ (put_fat_spec vol12 5 0xABC vol12_inv ltac:(cbn; lia)))
    as (r & s' & Hr & Hi & _).
  unfold vol12_dirty. by rewrite Hr.
Qed.

Lemma sync_window_flushes_witness :
  exists r s', sync_window vol12_dirty = Some (r, s') /\ vol_eq vol12_dirty s' /\
    (r = FR_OK -> (medium (dev s') 1).[7] = 0xC0).
Proof.
  destruct (post_run _ _ _ (sync_window_flushes vol12_dirty (fi_win _ vol12_dirty_inv)))
    as (r & s' & Hr & Hi & Hv & Hok).
  exists r, s'. split_and!; [done..|]. intros ->. destruct Hok as [[_ Hm]|]; [|done].
  rewrite Hm; [vm_compute; reflexivity|lia|]. intros [_ [Hx _]].
  assert (fatbase (fsys vol12_dirty) + fsize (fsys vol12_dirty) = 3) as Hb by (vm_compute; reflexivity).
  rewrite Hb in Hx. lia.
Defined.


Lemma get_fat_reads_entry_witness :
  exists v s', get_fat obj0 341 vol12 = Some (v, s') /\ vol_eq vol12 s' /\ (v = 0xFFF \/ v = DISK_ERR).
Proof.
  destruct (post_run _ _ _ (get_fat_reads_entry vol12 obj0 341 vol12_inv ltac:(left; discriminate)
    ltac:(cbn; lia))) as (v & s' & Hr & Hi & Hv & Hok).
  exists v, s'. split; [assumption|]. split; [assumption|].
  destruct Hok as [[-> _]|Hd]; [left; vm_compute; reflexivity|by right].
Defined.

Lemma put_fat_updates_entry_witness :
  exists r s', put_fat 341 0x1007 vol12 = Some (r, s') /\ fat_entry s' 2 = 3 /\
    (r = FR_OK -> fat_entry s' 341 = 7).
Proof.
  destruct (post_run _ _ _ (put_fat_updates_entry vol12 341 0x1007 vol12_inv ltac:(cbn; lia)))
    as (r & s' & Hr & Hi & Hb & He & Hok).
  exists r, s'. split; [assumption|]. split.
  - rewrite He by (cbn; lia). vm_compute. reflexivity.
  - intros ->. destruct Hok as [[_ ->]|Hok]; [reflexivity|discriminate Hok].
Defined.

Lemma put_get_fat_witness :
  post (r ← put_fat 341 0x1007; w ← get_fat obj0 341; mret (r, w)) vol12 (fun '(r, w) _ =>
    r = FR_OK /\ (w = 7 \/ w = DISK_ERR) \/ r = FR_DISK_ERR).
Proof.
  exact (put_get_fat vol12 obj0 341 0x1007 vol12_inv ltac:(left; discriminate) ltac:(cbn; lia)).
Defined.

Lemma fat_access_out_of_range_witness :
  get_fat obj0 400 vol12 = Some (1, vol12) /\ put_fat 1 0 vol12 = Some (FR_INT_ERR, vol12).
Proof.
  split.
  - apply (proj1 (fat_access_out_of_range vol12 obj0 400 0 ltac:(right; cbn; lia))).
  - apply (proj2 (fat_access_out_of_range vol12 obj0 1 0 ltac:(left; lia))).
Defined.

Lemma vol12_data : data_geom (fsys vol12).
Proof. split; cbn; lia. Qed.

Lemma clst2sect_disjoint_witness :
  5 <= clst2sect (fsys vol12) 3 /\
  (clst2sect (fsys vol12) 4 = 0 \/ clst2sect (fsys vol12) 4 + 1 <= clst2sect (fsys vol12) 3
   \/ clst2sect (fsys vol12) 3 + 1 <= clst2sect (fsys vol12) 4).
Proof.
  destruct (clst2sect_disjoint (fsys vol12) 3 4 vol12_data ltac:(cbn; lia) ltac:(cbn; lia)
    ltac:(unfold is_u32; lia) ltac:(lia)) as (H1 & _ & _ & H2).
  split; [exact H1|exact H2].
Defined.

Lemma find_bitmap_finds_free_witness :
  exists v s', find_bitmap 5 1 volx = Some (v, s') /\ vol_eq volx s' /\
    (v = DISK_ERR \/ 2 <= v < 12 /\ cluster_bit volx v = false).
Proof.
  destruct (post_run _ _ _ (find_bitmap_finds_free volx 5 volx_inv volx_bm
    ltac:(unfold is_u32; lia))) as (v & s' & Hr & Hi & Hv & Hok).
  exists v, s'. split; [assumption|]. split; [assumption|].
  destruct Hok as [Hd|[Hf|[_ Hall]]]; [by left|by right|].
  specialize (Hall 2 ltac:(cbn; lia)). vm_compute in Hall. discriminate Hall.
Defined.

(** Clusters 3 to 5 are in use and set free; cluster 2 is free already. *)
Lemma change_bitmap_flips_witness :
  (exists r s', change_bitmap 3 3 0 volx = Some (r, s') /\ (r = FR_OK -> cluster_bit s' 4 = false)) /\
  (exists r s', change_bitmap 2 1 0 volx = Some (r, s') /\ (r = FR_INT_ERR -> cluster_bit s' 3 = true)).
Proof.
  split.
  - destruct (post_run _ _ _ (change_bitmap_flips volx 3 3 0 volx_inv volx_bm ltac:(lia) ltac:(lia)
      ltac:(cbn; lia) ltac:(lia))) as (r & s' & Hr & Hi & k & Hk & (_ & _ & Hset) & _ & Hok).
    exists r, s'. split; [assumption|]. intros ->.
    destruct Hok as [[_ ->]|[[Hc _]|[Hc _]]]; [|discriminate Hc..].
    unfold cluster_bit. rewrite Hset by (cbn; lia). reflexivity.
  - destruct (post_run _ _ _ (change_bitmap_flips volx 2 1 0 volx_inv volx_bm ltac:(lia) ltac:(lia)
      ltac:(cbn; lia) ltac:(lia))) as (r & s' & Hr & Hi & k & Hk & (_ & _ & Hset) & _ & Hok).
    exists r, s'. split; [assumption|]. intros ->.
    destruct Hok as [[Hc _]|[(_ & Hlt & _)|[Hc _]]]; [discriminate Hc| |discriminate Hc].
    unfold cluster_bit. rewrite Hset by (cbn; lia). replace k with 0 by lia. vm_compute. reflexivity.
Defined.

Lemma vol12_count : is_u32 (free_clst (fsys vol12)) /\ is_u32 (last_clst (fsys vol12)).
Proof. split; split; cbn; lia. Qed.

(** A chain with a cycle: the table is not trusted. *)
Lemma remove_chain_total_witness :
  exists r s', remove_chain obj0 2 0 vol32_cycle = Some (r, s') /\ fat_only vol32_cycle s'.
Proof.
  destruct (post_run _ _ _ (remove_chain_total vol32_cycle obj0 2 0 vol32_cycle_inv
    ltac:(discriminate) ltac:(split; cbn; lia) ltac:(cbn; lia) ltac:(by left)))
    as ((r & o) & s' & Hr & -> & _ & Hf & _).
  exists (r, obj0), s'. split; assumption.
Defined.

Lemma vol12_tail : chain (fat_entry vol12) 400 3 [3; 341].
Proof.
  split; [repeat constructor; done|]. exists 0xFFF. split; [done|]. cbn [path].
  split_and!; vm_compute; reflexivity.
Qed.

Lemma remove_chain_frees_chain_witness :
  exists r s', remove_chain obj0 3 2 vol12 = Some ((r, obj0), s') /\
    (r = FR_OK -> fat_entry s' 3 = 0 /\ fat_entry s' 341 = 0 /\ fat_entry s' 2 = 0xFFF).
Proof.
  destruct (post_run _ _ _ (remove_chain_frees_chain vol12 obj0 3 2 [3; 341] vol12_inv
    ltac:(discriminate) (proj1 vol12_count)
    vol12_tail
    ltac:(discriminate) ltac:(right; cbn; lia)
    ltac:(apply (bool_decide_unpack _); vm_compute; exact I)))
    as ((r & o) & s' & Hr & -> & _ & _ & Hok).
  exists r, s'. split; [assumption|]. intros ->.
  destruct Hok as [(_ & He & _)|[Hc _]]; [|discriminate Hc].
  split_and!; (rewrite He by (cbn; lia)); vm_compute; reflexivity.
Defined.

Lemma create_chain_allocates_witness :
  exists v s', create_chain obj0 0 vol12 = Some ((v, obj0), s') /\
    (v = DISK_ERR \/ v = 1 \/ 2 <= v < 400 /\ fat_entry vol12 v = 0).
Proof.
  destruct (post_run _ _ _ (create_chain_allocates vol12 obj0 0 vol12_inv ltac:(discriminate)
    ltac:(cbn; lia) (proj2 vol12_count) (proj1 vol12_count))) as ((v & o) & s' & Hr & -> & _ & _ & Hok).
  exists v, s'. split; [assumption|].
  destruct Hok as [[_ [[? _]|[[? _]|[(_ & _ & [Hc|Hfull])|[Hc _]]]]]|(Hv & Hz & _)]; auto.
  - discriminate Hc.
  - exfalso. apply (Hfull 4); [cbn; lia|]. vm_compute. reflexivity.
  - exfalso. by apply Hc.
Defined.

Lemma create_chain_extends_witness :
  exists vo s', create_chain obj0 341 vol12 = Some (vo, s') /\
    (fst vo = DISK_ERR \/ fst vo = 1 \/ fst vo = 0
     \/ chain (fat_entry s') 400 2 [2; 3; 341; fst vo]).
Proof.
  destruct (post_run _ _ _ (create_chain_extends vol12 obj0 2 [2; 3] 341 vol12_inv
    ltac:(discriminate) (proj2 vol12_count) (proj1 vol12_count) vol12_chain))
    as ([v o] & s' & Hr & Hp).
  exists (v, o), s'. split; [assumption|]. cbn [fst].
  destruct Hp as [(_ & _ & Hc)|[Hd|[Hd|[Hd _]]]]; auto.
Defined.
