(* ===== verification/ExamplesDir.v ===== *)
(** * Concrete names and directories

    Names in long-name entries, a directory in the chain 2, 3, 341 of a FAT12 volume
    with a fixed root directory: the theorems of [Unicode], [Lfn] and [Dir] applied to
    them. *)

From stdpp Require Import prelude list.
From Stdlib Require Import ZArith Lia.
From S2P Require Import Prelude Bytes Unicode Diskio FFTypes Window Fat Bitmap Chain Lfn Dir Examples.

Local Open Scope Z_scope.

(** ** Names *)

Example upper_runs : ff_wtoupper <$> [0x61; 0xE9; 0x3B1; 0x431; 0x1E01] = [0x41; 0xC9; 0x391; 0x411; 0x1E00].
Proof. vm_compute. reflexivity. Qed.

Lemma wtoupper_idempotent_witness : ff_wtoupper (ff_wtoupper 0xE9) = 0xC9.
Proof. rewrite (proj1 (proj2 (wtoupper_idempotent 0xE9 ltac:(lia)))). vm_compute. reflexivity. Defined.

(** Katakana letter A and its half-width form. *)
Lemma cp932_roundtrip_witness : ff_oem2uni (ff_uni2oem 0x30A2 932) 932 = 0x30A2.
Proof. apply (proj1 (cp932_roundtrip 0x30A2)); [lia|vm_compute; discriminate]. Defined.

(** A letter and a surrogate pair. *)
Lemma utf16_roundtrip_witness : tchar2uni (put_utf 0xD83DDE00 2 ++ [0x41]) = (0xD83DDE00, [0x41]).
Proof.
  apply (proj1 utf16_roundtrip); [split; vm_compute; congruence|vm_compute; discriminate].
Defined.

(** A name of 14 characters, in two entries: the second entry has one character. *)
Definition name14 : list Z := [0x61; 0x62; 0x63; 0x64; 0x65; 0x66; 0x67; 0x68; 0x69; 0x6A; 0x6B; 0x2E; 0x63; 0x66].
Definition NAME14 : list Z := [0x41; 0x62; 0x63; 0x64; 0x45; 0x66; 0x67; 0x68; 0x69; 0x6A; 0x6B; 0x2E; 0x43; 0x46].
Definition buf_of (name : list Z) : list Z := name ++ blank (256 - zlen name).

Lemma name14_ok : lfn_name name14 /\ lfn_name NAME14.
Proof. by split; (split; [|apply (bool_decide_unpack _)]). Qed.

Lemma buf_holds name : 0 < zlen name <= 255 -> lfn_holds (buf_of name) name.
Proof.
  intros Hl. unfold lfn_holds, buf_of, zlen, getb, blank in *. split_and!.
  - rewrite length_app, length_replicate. lia.
  - intros k Hk. apply app_nth1. lia.
  - rewrite app_nth2, nth_lookup, lookup_replicate_2 by lia. done.
Qed.

Example name_runs :
  let e ord := put_lfn (buf_of name14) (blank 32) 0 ord 0x77 in
  (cmp_lfn (buf_of NAME14) (e 1) 0, cmp_lfn (buf_of NAME14) (e 2) 0, (e 2).[LDIR_Ord], (e 1).[LDIR_Ord])
  = (true, true, 0x42, 1).
Proof. vm_compute. reflexivity. Qed.

Lemma lfn_buffer_safe_witness :
  (pick_lfn (blank 300) (put_lfn (buf_of name14) (blank 32) 0 2 0x77) 0).2.[260] = 0.
Proof.
  rewrite (proj2 (proj2 (lfn_buffer_safe (put_lfn (buf_of name14) (blank 32) 0 2 0x77) 0
    ltac:(apply (bool_decide_unpack _); vm_compute; exact I)) (blank 300)) 260 ltac:(lia)).
  vm_compute. reflexivity.
Defined.

Lemma lfn_roundtrip_witness :
  exists l', pick_parts (fun ord => put_lfn (buf_of name14) (blank 40) 3 ord 0x77) 3 2 (blank 256) = (true, l')
    /\ lfn_holds l' name14.
Proof.
  apply (lfn_roundtrip name14 (buf_of name14) (blank 40) 3 0x77 (blank 256) (proj1 name14_ok)
    (buf_holds name14 ltac:(vm_compute; split; congruence)) ltac:(lia) ltac:(vm_compute; congruence)
    (bytes_blank 40) ltac:(done) eq_refl).
Defined.

Lemma cmp_lfn_iff_witness :
  cmp_lfn (buf_of NAME14) (put_lfn (buf_of name14) (blank 32) 0 2 0x77) 0 = true.
Proof.
  refine (proj2 (cmp_lfn_iff name14 NAME14 (buf_of name14) (buf_of NAME14) (blank 32) 0 0x77 (proj1 name14_ok)
    (proj2 name14_ok) (buf_holds name14 ltac:(vm_compute; split; congruence))
    (buf_holds NAME14 ltac:(vm_compute; split; congruence)) ltac:(lia) ltac:(vm_compute; congruence)
    (bytes_blank 32) ltac:(done)) _ 2 _).
  - vm_compute. reflexivity.
  - vm_compute. split; congruence.
Defined.

Lemma clust_roundtrip_witness : ld_clust (fsys vol32) (st_clust (fsys vol32) (blank 32) 0 0x12345) 0 = 0x12345.
Proof.
  apply (proj1 (clust_roundtrip (fsys vol32) (blank 32) 0 0x12345 (bytes_blank 32) ltac:(lia)
    ltac:(vm_compute; congruence))).
Defined.

Lemma xdir_sum_skips_field_witness :
  xdir_sum (st_word (pokes (blank 96) [(1, 2); (40, 7)]) XDIR_SetSum 0xABCD) = xdir_sum (pokes (blank 96) [(1, 2); (40, 7)]).
Proof.
  apply (xdir_sum_skips_field (pokes (blank 96) [(1, 2); (40, 7)]) 0xABCD);
    [apply (bool_decide_unpack _); vm_compute; exact I|vm_compute; congruence].
Defined.

(** LONGNAMETXT numbered 1. *)
Definition longname : list Z := [0x4C; 0x4F; 0x4E; 0x47; 0x4E; 0x41; 0x4D; 0x45; 0x54; 0x58; 0x54].

Example gen_numname_runs :
  take 11 (gen_numname (blank 12) longname (buf_of name14) 1)
  = [0x4C; 0x4F; 0x4E; 0x47; 0x4E; 0x41; 0x7E; 0x31; 0x54; 0x58; 0x54].
Proof. vm_compute. reflexivity. Qed.

Lemma gen_numname_shape_witness :
  (gen_numname (blank 12) longname (buf_of name14) 9).[8] = 0x54.
Proof.
  destruct (gen_numname_shape (blank 12) longname (buf_of name14) 9) as [(_ & He & _) _];
    [vm_compute; congruence|vm_compute; congruence|]. rewrite He by lia. reflexivity.
Defined.

(** ** Directories *)

#[local] Instance heap : Heap := fun n => n <=? 1024.

(** The FAT12 volume with a root directory of 16 entries in sector 5. *)
Definition vold : St Cursor :=
  mkSt (set_n_rootdir 16 (set_dirbase 5 (set_database 6 (fsys vol12)))) (dev vol12).

Definition dir_open_at (clst : Z) : DIR := mkDIR (set_sclust clst obj0) 0 0 0 0 (blank 12) 0.

Lemma vold_inv : fs_inv vold.
Proof. prove_fs_inv. Qed.

Lemma vold_geom : vol_geom (fsys vold).
Proof.
  split; [split; vm_compute; congruence|vm_compute; congruence|split; vm_compute; congruence|
    exists 0; split; [lia|reflexivity]|intros _; split_and!; vm_compute; congruence].
Qed.

(** The third cluster of the directory is cluster 341; the root directory has no
    entry 16. *)
Example dir_sdi_runs :
  result (r ← dir_sdi (dir_open_at 2) 1056; mret (r.1, d_clust r.2, d_sect r.2, d_dir r.2)) vold
    = Some (FR_OK, 341, 345, 32) /\
  result (r ← dir_sdi (dir_open_at 2) 1536; mret r.1) vold = Some FR_INT_ERR /\
  result (r ← dir_sdi (dir_open_at 0) 480; mret (r.1, d_clust r.2, d_sect r.2, d_dir r.2)) vold
    = Some (FR_OK, 0, 5, 480) /\
  result (r ← dir_sdi (dir_open_at 0) 512; mret r.1) vold = Some FR_INT_ERR.
Proof. split_and!; vm_compute; reflexivity. Qed.

Lemma dir_sdi_in_bounds_witness :
  exists r dp s', dir_sdi (dir_open_at 2) 1056 vold = Some ((r, dp), s') /\
    (r = FR_OK -> entry_in_bounds (fsys vold) dp).
Proof.
  destruct (post_run _ _ _ (dir_sdi_in_bounds vold (dir_open_at 2) 1056 vold_inv vold_geom ltac:(done) ltac:(lia)))
    as ([r dp] & s' & Hr & _ & _ & Hb).
  exists r, dp, s'. split; [assumption|]. intros ->. destruct Hb as [(_ & _ & Hb)|[[Hc _]|Hc]]; [exact Hb|discriminate Hc..].
Defined.

Lemma seek_last : exists dp1 s1, dir_sdi (dir_open_at 2) 480 vold = Some ((FR_OK, dp1), s1).
Proof. eexists _, _. vm_compute. reflexivity. Qed.

(** The step from the last entry of cluster 2 to the first of cluster 3. *)
Lemma dir_next_agrees_sdi_witness :
  exists dp1 s1 r2 s2, dir_sdi (dir_open_at 2) 480 vold = Some ((FR_OK, dp1), s1) /\
    dir_next dp1 false s1 = Some (r2, s2) /\ (r2.1 = FR_OK -> entry_in_bounds (fsys vold) r2.2).
Proof.
  destruct seek_last as (dp1 & s1 & Hrun).
  destruct (post_run _ _ _ (dir_next_agrees_sdi vold (dir_open_at 2) 480 dp1 s1 vold_inv vold_geom ltac:(done)
    ltac:(lia) ltac:(left; discriminate) Hrun)) as ([r2 dp2] & s2 & Hr & Hb & _).
  exists dp1, s1, (r2, dp2), s2. split_and!; [assumption..|]. intros E. by apply Hb.
Defined.

Lemma dir_clear_zeroes_witness :
  exists r s', dir_clear 2 vold = Some (r, s') /\ (r = FR_OK -> vol s' 6 = blank 512).
Proof.
  destruct (post_run _ _ _ (dir_clear_zeroes vold 2 vold_inv vold_geom ltac:(cbn; lia)))
    as (r & s' & Hr & _ & Hok).
  exists r, s'. split; [assumption|]. intros ->. destruct Hok as [(_ & _ & Hz)|Hc]; [|discriminate Hc].
  apply Hz. split; vm_compute; congruence.
Defined.
