(* ===== verification/ExamplesVol.v ===== *)
(** * Concrete boot sectors and directories with long names

    Media on the executable device: [Mount] and [DirFind] applied to them. *)

From stdpp Require Import prelude list.
From Stdlib Require Import ZArith Lia.
From S2P Require Import Prelude Bytes Unicode Diskio FFTypes Window Fat Bitmap Chain Lfn Dir Dirent DirFind Mount.
From S2P Require Import Examples ExamplesDir.

Local Open Scope Z_scope.

#[local] Instance shl : Shl := fun _ => 0.
#[local] Existing Instance heap.

(** ** Boot sectors *)

(** The filesystem object before the first mount. *)
Definition unmounted (d : Cursor) : St Cursor := mkSt (mounted 0 0 0 0 0 0 0 0) d.

(** FAT12, 128 sectors: one reserved, two FATs of one sector, 16 root entries. *)
Definition boot12 : Cursor :=
  disk (pokes (blank 4096)
    [(0, 0xEB); (12, 2); (13, 1); (14, 1); (16, 2); (17, 16); (19, 128); (22, 1); (510, 0x55); (511, 0xAA)]).

Example mount_runs :
  result (r ← mount_fs 0 7; fs ← gets fsys; mret (r, fs_type fs, n_fatent fs, dirbase fs, database fs)) (unmounted boot12)
  = Some (FR_OK, 8, FS_FAT12, 126, 3, 4).
Proof. vm_compute. reflexivity. Qed.

Lemma mount_run12 : exists id s', mount_fs 0 7 (unmounted boot12) = Some ((FR_OK, id), s') /\
  volbase (fsys s') = 0 /\ fs_type (fsys s') = FS_FAT12.
Proof. eexists _, _. split; [vm_compute; reflexivity|]. split; vm_compute; reflexivity. Qed.

Lemma boot12_sane : sane_volume FS_FAT12 (medium boot12 0) 512 0.
Proof. unfold sane_volume, no_overflow. vm_compute. split_and!; congruence. Qed.

Lemma mount_establishes_witness :
  exists r s', mount_fs 0 7 (unmounted boot12) = Some (r, s') /\ fs_inv s' /\ vol_geom (fsys s').
Proof.
  destruct mount_run12 as (id & s' & Hr & Hv & Ht). exists (FR_OK, id), s'. split; [exact Hr|].
  destruct (post_run _ _ _ (mount_establishes (unmounted boot12) 0 7 ltac:(reflexivity) ltac:(vm_compute; reflexivity)
    (bytes_blank _) ltac:(vm_compute; split; congruence))) as ([r id'] & s2 & Hr2 & _ & _ & Hok).
  rewrite Hr in Hr2. injection Hr2 as <- <- <-.
  destruct (Hok eq_refl) as (_ & _ & _ & Hinv). rewrite Hv, Ht in Hinv.
  destruct (Hinv ltac:(discriminate) boot12_sane) as (H1 & H2 & _). split; [exact H1|exact H2].
Defined.

(** FAT32, 0x20000 sectors: 32 reserved, two FATs of 0x80000001 sectors each. *)
Definition boot32_overflow : Cursor :=
  disk (pokes (blank 4096)
    [(0, 0xEB); (12, 2); (13, 1); (14, 32); (16, 2); (34, 2); (36, 1); (39, 0x80); (44, 2);
     (82, 70); (83, 65); (84, 84); (85, 51); (86, 50); (87, 32); (88, 32); (89, 32);
     (510, 0x55); (511, 0xAA)]).

(** The size of the FAT area is computed modulo 2^32.  A FAT32
    boot sector with two FATs of 0x80000001 sectors is accepted: the data area of the
    mounted volume starts two sectors after the FATs do, so that the sectors of its
    first clusters are sectors of the first FAT too, and the copy of each of them goes to
    a sector beyond the end of the volume. *)
Theorem mount_accepts_overlap :
  exists r s', mount_fs 0 7 (unmounted boot32_overflow) = Some (r, s') /\ r.1 = FR_OK /\
    ld_dword (medium (dev s') 0) BPB_TotSec32 = 0x20000 /\
    fatbase (fsys s') <= clst2sect (fsys s') 2 < fatbase (fsys s') + fsize (fsys s') /\
    0x20000 < clst2sect (fsys s') 2 + fsize (fsys s') /\ ~ geom_ok (fsys s').
Proof.
  eexists _, _. split; [vm_compute; reflexivity|]. split_and!; try (vm_compute; congruence).
  intros [_ _ _ _ He]. revert He. vm_compute. congruence.
Qed.

(** ** A root directory: README.TXT, then the long name [name14] with its short entry *)

(** "README  TXT" and "ABCDEF~1CF " *)
Definition sfn_readme : list Z := [0x52; 0x45; 0x41; 0x44; 0x4D; 0x45; 0x20; 0x20; 0x54; 0x58; 0x54; 0x20] ++ blank 20.
Definition sfn14 : list Z := [0x41; 0x42; 0x43; 0x44; 0x45; 0x46; 0x7E; 0x31; 0x43; 0x46; 0x20; 0x20] ++ blank 20.
Definition lfn14 (ord : Z) : list Z := put_lfn (buf_of name14) (blank 32) 0 ord (sum_sfn sfn14 0).

(** The volume, with the name to find in the name buffer. *)
Definition voll (name : list Z) : St Cursor :=
  mkSt (set_lfnbuf (buf_of name) (fsys vold))
    (disk (blit (cu_bytes (dev vold)) 2560 (sfn_readme ++ lfn14 2 ++ lfn14 1 ++ sfn14))).

(** A name whose short form is lossy. *)
Definition root_dir : DIR := set_d_fn (setb (blank 12) NSFLAG NS_LOSS) (dir_open_at 0).

Lemma voll_inv name : fs_inv (voll name).
Proof. prove_fs_inv. Qed.

Lemma voll_geom name : vol_geom (fsys (voll name)).
Proof. destruct vold_geom as [[] ? ? ? ?]. by split; [split|..]. Qed.

Example dir_find_runs :
  result (r ← dir_find root_dir; mret (r.1, dptr r.2, blk_ofs r.2)) (voll NAME14) = Some (FR_OK, 96, 32) /\
  result (r ← dir_find root_dir; mret r.1) (voll (take 13 name14)) = Some FR_NO_FILE.
Proof. split; vm_compute; reflexivity. Qed.

Lemma dir_find_refines_scan_witness :
  exists r dp s', dir_find root_dir (voll NAME14) = Some ((r, dp), s') /\
    (r = FR_OK -> entry_in_bounds (fsys (voll NAME14)) dp).
Proof.
  destruct (post_run _ _ _ (dir_find_refines_scan (voll NAME14) root_dir (voll_inv _) (voll_geom _)
    ltac:(discriminate) ltac:(done))) as ([r dp] & s' & Hr & _ & _ & Hb).
  exists r, dp, s'. split; [assumption|]. intros ->.
  destruct Hb as [(_ & Hb & _)|[[[Hc|Hc] _]|Hc]]; [exact Hb|discriminate Hc..].
Defined.

Lemma name_entry ord :
  1 <= ord <= 2 -> lfn_entry name14 (lfn14 ord) 0 ord (sum_sfn sfn14 0).
Proof.
  intros Ho. assert (is_u8 (sum_sfn sfn14 0)) as Hs by by vm_compute.
  assert (13 * (ord - 1) <= zlen name14) as Hl by (change (zlen name14) with 14; lia).
  exact (proj1 (put_lfn_spec name14 (buf_of name14) (blank 32) 0 ord _ (proj1 name14_ok)
    (buf_holds name14 ltac:(by vm_compute)) ltac:(lia) ltac:(by vm_compute) (bytes_blank 32) ltac:(lia) Hl Hs)).
Qed.

Lemma voll_block : lfn_block (table_entry (voll NAME14) (d_obj root_dir)) name14 1.
Proof.
  split; [apply name14_ok| | |].
  - change (lfn_parts name14) with 2. intros i Hi.
    assert (table_entry (voll NAME14) (d_obj root_dir) (1 + 2) = sfn14) as -> by (vm_compute; reflexivity).
    assert (i = 0 \/ i = 1) as [-> | ->] by lia.
    + assert (table_entry (voll NAME14) (d_obj root_dir) (1 + 0) = lfn14 2) as -> by (vm_compute; reflexivity).
      by apply name_entry.
    + assert (table_entry (voll NAME14) (d_obj root_dir) (1 + 1) = lfn14 1) as -> by (vm_compute; reflexivity).
      by apply name_entry.
  - split; vm_compute; discriminate.
  - split; vm_compute; [reflexivity|discriminate].
Qed.

(** README.TXT is passed. *)
Lemma voll_pass : exists ord sum blk, forall n,
  scan_dir (voll NAME14) (d_obj root_dir) (d_fn root_dir) (Z.to_nat 1 + n) 0 0xFF 0xFF NO_BLK
  = scan_dir (voll NAME14) (d_obj root_dir) (d_fn root_dir) n 1 ord sum blk.
Proof.
  eexists _, _, _. intros n. unfold scan_dir. change (Z.to_nat 1 + n)%nat with (S n). cbn [scan_table].
  assert (table_entry (voll NAME14) (d_obj root_dir) 0 = sfn_readme) as E by (vm_compute; reflexivity).
  rewrite E. reflexivity.
Qed.

Lemma dir_find_long_name_witness :
  post (dir_find root_dir) (voll NAME14) (fun '(r, dp') s' =>
    r = FR_OK /\ dptr dp' = 96 /\ blk_ofs dp' = 32 \/ r = FR_DISK_ERR).
Proof.
  refine (proj1 (dir_find_long_name (voll NAME14) root_dir name14 NAME14 1 (voll_inv _) (voll_geom _)
    ltac:(discriminate) ltac:(done) ltac:(lia) _ voll_block (proj2 name14_ok) _ _ voll_pass) _).
  - vm_compute. split_and!; congruence.
  - apply buf_holds. by vm_compute.
  - reflexivity.
  - vm_compute. reflexivity.
Defined.
