(* ===== verification/ExamplesFile.v ===== *)
(** * A concrete file

    A file of three clusters on the executable device, read, written and searched through
    the operations of [File]. *)

From stdpp Require Import prelude list.
From Stdlib Require Import ZArith Lia.
From S2P Require Import Prelude Bytes Diskio FFTypes Window Fat Bitmap Chain Lfn Dir Dirent Mount File FileData FileRead FileWrite.
From S2P Require Import Examples ExamplesDir.

Local Open Scope Z_scope.

#[local] Existing Instance heap.

(** The FAT12 volume of 32 sectors: the chain 2, 3, 5 in both tables; data from sector 6. *)
Definition volf : St Cursor :=
  mkSt (set_n_rootdir 16 (set_dirbase 5 (mounted FS_FAT12 2 1 28 2 1 6 0)))
    (disk (pokes (blank 16384)
      [(512 + 3, 3); (512 + 4, 0x50); (512 + 7, 0xF0); (512 + 8, 0xFF);
       (1536 + 3, 3); (1536 + 4, 0x50); (1536 + 7, 0xF0); (1536 + 8, 0xFF);
       (6 * 512 + 511, 11); (7 * 512, 22); (9 * 512 + 7, 33)])).

Definition filef (flag fptr clust : Z) : FIL :=
  mkFIL (set_objsize 1100 (set_sclust 2 obj0)) true flag FR_OK fptr clust 0 5 0 (blank FF_MAX_SS).

Example f_read_runs :
  result ('(r, fp, b, n) ← f_read (filef FA_READ 0 0) (blank 1200) 1200;
          mret (r, n, f_clust fp, b.[511], b.[512], b.[1031])) volf = Some (FR_OK, 1100, 5, 11, 22, 33).
Proof. vm_compute. reflexivity. Qed.

(** Bytes 510 to 513 are replaced and read back. *)
Example f_write_runs :
  result ('(r, fp) ← f_lseek (filef 3 0 0) 510;
          '(r1, fp, n) ← f_write fp [1; 2; 3; 4] 4;
          '(r2, fp) ← f_lseek fp 509;
          '(r3, fp, b, m) ← f_read fp (blank 6) 6;
          mret (r, r1, n, r2, r3, m, b)) volf = Some (FR_OK, FR_OK, 4, FR_OK, FR_OK, 6, [0; 1; 2; 3; 4; 0]).
Proof. vm_compute. reflexivity. Qed.

(** A write of 600 bytes at the end grows the file by a cluster, the next free one. *)
Example f_write_grows :
  result ('(r, fp) ← f_lseek (filef 3 0 0) 1100;
          '(r1, fp, n) ← f_write fp (blank 600) 600;
          c ← get_fat obj0 5; mret (r1, n, f_clust fp, c, objsize (f_obj fp))) volf = Some (FR_OK, 600, 6, 6, 1700).
Proof. vm_compute. reflexivity. Qed.

Example f_truncate_runs :
  result ('(r, fp) ← f_lseek (filef 3 0 0) 512;
          '(r, fp) ← f_truncate fp;
          a ← get_fat obj0 2; b ← get_fat obj0 3; mret (r, a, b, objsize (f_obj fp))) volf
  = Some (FR_OK, 0xFFF, 0, 512).
Proof. vm_compute. reflexivity. Qed.

Lemma volf_inv : fs_inv volf.
Proof. prove_fs_inv. Qed.

Lemma volf_ready : fat_ready volf.
Proof.
  split; [apply volf_inv| |discriminate].
  split; [split; vm_compute; congruence|vm_compute; congruence|split; vm_compute; congruence|
    exists 0; split; [lia|reflexivity]|intros _; split_and!; vm_compute; congruence].
Qed.

Lemma filef_inv flag : has flag FA_DIRTY = false -> file_inv volf (filef flag 0 0).
Proof.
  intros Hd. split; [split|split; vm_compute; split_and?; congruence|by intros|by intros].
  - apply volf_ready.
  - done.
  - done.
  - split; [by vm_compute|apply bytes_blank].
  - by left.
  - by intros.
  - split; [by intros|]. intros i Hi. pose proof (f_sector_data _ _ _ volf_ready Hi) as Hs.
    destruct (data_sect_ok _ _ volf_ready Hs) as [Hx _]. change (winsect (fsys volf)) with 0xFFFFFFFF. lia.
Qed.

(** What is known of the result of a run. *)
Lemma result_run {S A B} (m : M S A) (g : A -> B) s b a s' : g <$> result m s = Some b -> m s = Some (a, s') -> g a = b.
Proof. unfold result. intros E Hr. rewrite Hr in E. by injection E. Qed.

Lemma f_read_part :
  (fun '(r, _, b, n) => (r, n, b.[512])) <$> result (f_read (filef FA_READ 0 0) (blank 600) 600) volf = Some (FR_OK, 600, 22).
Proof. vm_compute. reflexivity. Qed.

Lemma f_read_content_witness :
  exists r s', f_read (filef FA_READ 0 0) (blank 600) 600 volf = Some (r, s') /\
    r.1.1.1 = FR_OK /\ r.2 = 600 /\ r.1.2.[512] = f_byte volf (filef FA_READ 0 0) 512 /\ r.1.2.[512] = 22.
Proof.
  destruct (post_run _ _ _ (f_read_content volf (filef FA_READ 0 0) (blank 600) 600 (filef_inv FA_READ eq_refl) eq_refl eq_refl
    ltac:(lia) ltac:(by vm_compute) (bytes_blank 600))) as ([[[r fp'] b] n] & s' & Hr & Hres & _ & _ & _ & _ & Hb & _).
  assert (r = FR_OK /\ n = 600 /\ b.[512] = 22) as (-> & -> & E).
  { pose proof (result_run _ _ _ _ _ _ f_read_part Hr) as Er. clear - Er. injection Er as -> -> ->. split_and!; reflexivity. }
  exists (FR_OK, fp', b, 600), s'. split; [exact Hr|]. split; [reflexivity|]. split; [reflexivity|]. split; [|exact E]. apply (Hb 512). lia.
Defined.

Lemma volf_chain : file_chain volf (f_obj (filef 3 0 0)) [2; 3; 5].
Proof.
  right. split; [done|]. split; [repeat constructor; done|]. exists 0xFFF. split; [done|]. cbn [path].
  split_and!; vm_compute; reflexivity.
Qed.

Lemma f_write_part :
  (fun '(r, _, n) => (r, n)) <$> result (f_write (filef 3 0 0) (blank 600) 600) volf = Some (FR_OK, 600).
Proof. vm_compute. reflexivity. Qed.

Lemma volf_hints : hints_ok volf.
Proof. split; vm_compute; split; congruence. Qed.

Lemma filef_size : objsize (f_obj (filef 3 0 0)) <= zlen [2; 3; 5] * csz_of (fsys volf).
Proof. vm_compute. congruence. Qed.

Lemma blank_size n : 0 <= n -> zlen (blank n) = n.
Proof. intros Hn. unfold blank, zlen. rewrite length_replicate. lia. Qed.

(** The bytes of the second sector that are not written stay. *)
Lemma f_write_content_witness :
  exists r s', f_write (filef 3 0 0) (blank 600) 600 volf = Some (r, s') /\ r.1.1 = FR_OK /\ r.2 = 600 /\
    f_byte s' r.1.2 512 = 0 /\ f_byte s' r.1.2 1031 = f_byte volf (filef 3 0 0) 1031.
Proof.
  destruct (post_run _ _ _ (f_write_content volf (filef 3 0 0) [2; 3; 5] (blank 600) 600 (filef_inv 3 eq_refl) eq_refl eq_refl
    volf_hints volf_chain filef_size ltac:(discriminate)
    ltac:(lia) ltac:(rewrite blank_size; lia) (bytes_blank 600))) as ([[r fp'] n] & s' & Hr & l' & _ & _ & _ & Hres).
  assert (r = FR_OK /\ n = 600) as [-> ->].
  { pose proof (result_run _ _ _ _ _ _ f_write_part Hr) as Er. clear - Er. injection Er as -> ->. split; reflexivity. }
  destruct Hres as [(_ & _ & _ & _ & _ & Hs & _ & _ & Hb & _)|[_ [Hc|Hc]]]; [|discriminate Hc..].
  assert (objsize (f_obj fp') = 1100) as Es by (rewrite Hs; reflexivity).
  exists (FR_OK, fp', 600), s'. split; [exact Hr|]. split; [reflexivity|]. split; [reflexivity|].
  split; cbn [fst snd]; rewrite Hb by (rewrite Es; lia); reflexivity.
Defined.
