(* ===== verification/ExamplesPath.v ===== *)
(** * Concrete paths

    A FAT12 volume with a file and a directory in its root directory, on the executable
    device: names, path names and the functions of the API on them. *)

From stdpp Require Import prelude list.
From Stdlib Require Import ZArith Lia.
From S2P Require Import Prelude Bytes Buffers Unicode Diskio FFTypes Window Fat Bitmap Chain Lfn Dir Dirent DirFind Mount File Path PathName PathInfo FollowPath FileApi ApiEntry ReadDir.
From S2P Require Import Examples ExamplesDir ExamplesVol ExamplesFile.

Local Open Scope Z_scope.

#[local] Instance shl : Shl := fun _ => 0.
#[local] Instance heap : Heap := fun n => n <=? 4096.

(** ** Names *)

(** "ReadMe.txt//sub" *)
Definition path_readme : list Z := [0x52; 0x65; 0x61; 0x64; 0x4D; 0x65; 0x2E; 0x74; 0x78; 0x74; 0x2F; 0x2F; 0x73; 0x75; 0x62].
(** "note.TXT" *)
Definition path_note : list Z := [0x6E; 0x6F; 0x74; 0x65; 0x2E; 0x54; 0x58; 0x54].

Definition shown (x : option (FRESULT * list Z * list Z * list Z)) : option (FRESULT * list Z * list Z) :=
  (fun '(r, _, fn, p) => (r, fn, p)) <$> x.

(** The capital in the middle asks for a long name: "README  TXT", [NS_LFN], "sub" is left. *)
Example make_name_mixed :
  shown (make_name (blank 256) (blank 12) path_readme)
  = Some (FR_OK, [0x52; 0x45; 0x41; 0x44; 0x4D; 0x45; 0x20; 0x20; 0x54; 0x58; 0x54; NS_LFN], [0x73; 0x75; 0x62]).
Proof. vm_compute. reflexivity. Qed.

(** A small body and a large extension: the flag of the body is enough. *)
Example make_name_case :
  shown (make_name (blank 256) (blank 12) path_note)
  = Some (FR_OK, [0x4E; 0x4F; 0x54; 0x45; 0x20; 0x20; 0x20; 0x20; 0x54; 0x58; 0x54; Z.lor NS_LAST NS_BODY], []).
Proof. vm_compute. reflexivity. Qed.

(** The colon is not allowed. *)
Example make_name_refused :
  (fst ∘ fst <$> shown (make_name (blank 256) (blank 12) [0x61; 0x3A])) = Some FR_INVALID_NAME.
Proof. vm_compute. reflexivity. Qed.

Lemma u16_check l : forallb (fun c => (0 <=? c) && (c <? 0x10000)) l = true -> Forall is_u16 l.
Proof.
  induction l as [|c l IH]; cbn [forallb]; [constructor|]. intros [Hc Hl]%andb_prop. constructor; [|by apply IH].
  unfold is_u16. bprop. lia.
Qed.

Lemma create_name_spec_witness :
  exists lfn' fn' p', make_name (blank 256) (blank 12) path_readme = Some (FR_OK, lfn', fn', p') /\
    lfn_holds lfn' [0x52; 0x65; 0x61; 0x64; 0x4D; 0x65; 0x2E; 0x74; 0x78; 0x74] /\ p' = [0x73; 0x75; 0x62] /\
    has fn'.[NSFLAG] NS_LAST = false.
Proof.
  destruct (create_name_spec (blank 256) (blank 12) path_readme eq_refl eq_refl (bytes_blank 12)
    (u16_check path_readme eq_refl)) as (r & l & f & q & E & _ & -> & Hl & -> & _ & Hn).
  exists l, f, [0x73; 0x75; 0x62]. split; [exact E|]. split; [exact Hl|]. split; [reflexivity|exact Hn].
Defined.

(** ** Entries *)

(** "NOTE    TXT", a small body: hidden, 5 bytes long, with a time stamp. *)
Definition sfn_note : list Z :=
  pokes (blank 32) [(0, 0x4E); (1, 0x4F); (2, 0x54); (3, 0x45); (4, 0x20); (5, 0x20); (6, 0x20); (7, 0x20);
    (8, 0x54); (9, 0x58); (10, 0x54); (11, 0x22); (12, NS_BODY); (22, 0x11); (24, 0x21); (28, 5)].
(** "SUB" a directory at cluster 2, and the label of the volume. *)
Definition sfn_sub : list Z :=
  pokes (blank 32) [(0, 0x53); (1, 0x55); (2, 0x42); (3, 0x20); (4, 0x20); (5, 0x20); (6, 0x20); (7, 0x20);
    (8, 0x20); (9, 0x20); (10, 0x20); (11, 0x10); (26, 2)].
Definition sfn_label : list Z := pokes (blank 32) [(0, 0x56); (1, 0x20); (11, 0x08)].

(** The root directory: the label and SUB; in SUB: a deleted entry, then note.TXT. *)
Definition volp : St Cursor :=
  mkSt (fsys vold)
    (disk (blit (blit (cu_bytes (dev vold) ++ blank 12288) 2560 (sfn_label ++ sfn_sub)) 3072 (setb sfn_note 0 DDEM ++ sfn_note))).

Lemma volp_inv : fs_inv volp.
Proof. prove_fs_inv. Qed.

Lemma volp_geom : vol_geom (fsys volp).
Proof. destruct vold_geom as [[] ? ? ? ?]. by split; [split|..]. Qed.

Definition info0 : FILINFO := mkFILINFO 0 0 0 0 (blank 13) (blank 256).
Definition dir0 : DIR := mkDIR obj0 0 0 0 0 (blank 12) 0.
Definition file0 : FIL := mkFIL obj0 false 0 FR_OK 0 0 0 0 0 (blank FF_MAX_SS).
Definition locals : Locals := mkLocals dir0 dir0 dir0 obj0.

(** "/sub/note.txt", without its drive "sub/..." *)
Definition path_sub : list Z := [0x2F; 0x73; 0x75; 0x62].
Definition path_sub_note : list Z := path_sub ++ [0x2F] ++ path_note.

Example f_stat_runs :
  result ('(r, fno, _) ← f_stat locals true path_sub_note (Some info0) 7;
          mret (r, (fun i => (take 9 (fi_fname i), take 9 (fi_altname i), fi_fattrib i, fi_fsize i, fi_ftime i, fi_fdate i)) <$> fno)) volp
  = Some (FR_OK, Some (path_note ++ [0], [0x4E; 0x4F; 0x54; 0x45; 0x2E; 0x54; 0x58; 0x54; 0], 0x22, 5, 0x11, 0x21)).
Proof. vm_compute. reflexivity. Qed.

(** The directory is listed by three calls. *)
Example f_readdir_runs :
  result ('(r, dp, _) ← f_opendir true (mkDIRP false dir0) path_sub 7;
          '(r1, dp, f1) ← f_readdir dp (Some info0);
          '(r2, dp, f2) ← f_readdir dp (Some info0);
          '(r3, dp) ← f_closedir dp;
          mret (r, r1, take 9 ∘ fi_fname <$> f1, r2, take 1 ∘ fi_fname <$> f2, r3)) volp
  = Some (FR_OK, FR_OK, Some (path_note ++ [0]), FR_OK, Some [0], FR_OK).
Proof. vm_compute. reflexivity. Qed.

(** A new directory, a new file in it, their removal. *)
Example api_runs :
  result ('(r1, _) ← f_mkdir locals true (path_sub ++ [0x2F; 0x61]) 7;
          '(r2, fp, _) ← f_open locals true file0 (path_sub ++ [0x2F; 0x61; 0x2F; 0x62]) (Z.lor FA_WRITE FA_CREATE_NEW) 7;
          '(r3, _) ← f_unlink locals true (path_sub ++ [0x2F; 0x61]) 7;
          mret (r1, r2, r3)) volp = Some (FR_OK, FR_OK, FR_DENIED).
Proof. vm_compute. reflexivity. Qed.

(** A rename, the time stamp and the attributes. *)
Example f_rename_runs :
  result ('(r1, _) ← f_rename locals true path_sub_note [0x62] 7;
          '(r2, _) ← f_chmod locals true [0x62] AM_RDO (Z.lor AM_RDO AM_HID) 7;
          '(r3, fno, _) ← f_stat locals true [0x62] (Some info0) 7;
          '(r4, _, _) ← f_stat locals true path_sub_note (Some info0) 7;
          mret (r1, r2, r3, (fun i => (fi_fattrib i, fi_fsize i)) <$> fno, r4)) volp
  = Some (FR_OK, FR_OK, FR_OK, Some (0x21, 5), FR_NO_FILE).
Proof. vm_compute. reflexivity. Qed.

(** Six clusters, all of them free, and 6 as the place to start from. *)
Definition vole : St Cursor :=
  mkSt (set_last_clst 6 (set_n_rootdir 16 (set_dirbase 5 (mounted FS_FAT12 2 1 8 2 1 6 0)))) (disk (blank 16384)).
Definition filee : FIL := mkFIL (set_objsize 0 (set_sclust 0 obj0)) true FA_WRITE FR_OK 0 0 0 5 0 (blank FF_MAX_SS).

(** The search of [f_expand] goes on from the last cluster to the first one: the free
    clusters 6, 7, 2 and 3 count as a contiguous block.  Then the chain runs beyond
    the end of the FAT: the function fails with clusters 6 and 7 lost; when it is asked to
    find the block only, it reports success. *)
Example f_expand_wraps :
  result ('(r, fp) ← f_expand filee 2048 1; a ← get_fat obj0 6; b ← get_fat obj0 7;
          mret (r, objsize (f_obj fp), a, b)) vole = Some (FR_INT_ERR, 0, 7, 8) /\
  result ('(r, fp) ← f_expand filee 2048 0; fs ← gets fsys; mret (r, last_clst fs)) vole = Some (FR_OK, 5).
Proof. split; vm_compute; reflexivity. Qed.

Example f_getfree_runs : result (f_getfree locals true [] 7) vole = Some (FR_OK, 6, 7).
Proof. vm_compute. reflexivity. Qed.

(** An exFAT entry set whose name begins with the unit 0: the information has an empty
    name, the mark of the end of the directory. *)
Definition fsx : FATFS :=
  set_dirbuf (pokes (blank 1024) [(XDIR_NumName, 3); (66, 0); (68, 0x61); (70, 0x62)]) (set_fs_type FS_EXFAT (fsys volp)).

Example exfat_empty_name :
  (fun i => (fi_fname i).[0]) <$> get_fileinfo fsx (set_d_sect 5 dir0) info0 = Some 0.
Proof. vm_compute. reflexivity. Qed.

(** ** The theorems on them *)

(** The window on the sector of SUB. *)
Definition fs_note : FATFS := set_win (blit (blank FF_MAX_SS) 32 sfn_note) (fsys volp).
Definition dir_note : DIR := set_blk_ofs NO_BLK (set_d_dir 32 (set_d_sect 6 dir0)).

Lemma get_fileinfo_safe_witness :
  exists fno', get_fileinfo fs_note dir_note info0 = Some fno' /\ (fi_fname fno').[0] <> 0.
Proof.
  destruct (get_fileinfo_safe (set_dirbuf (blank 608) fs_note) dir_note info0 eq_refl eq_refl) as (fno' & E & _ & _ & _ & Hn & _).
  - apply (bool_decide_unpack _); vm_compute; exact I.
  - reflexivity.
  - reflexivity.
  - apply bytes_blank.
  - intros Hb. destruct (Hb eq_refl).
  - exists fno'. split; [exact E|]. apply Hn; [discriminate|reflexivity].
Defined.

Lemma make_note : exists l, make_name (blank 256) (blank 12) path_note
  = Some (FR_OK, l, [0x4E; 0x4F; 0x54; 0x45; 0x20; 0x20; 0x20; 0x20; 0x54; 0x58; 0x54; Z.lor NS_LAST NS_BODY], []).
Proof. eexists. vm_compute. reflexivity. Qed.

Lemma name_comes_back_witness :
  exists fno', get_fileinfo fs_note dir_note info0 = Some fno' /\ lfn_holds (fi_fname fno') path_note.
Proof.
  destruct make_note as [l Hm].
  apply (name_comes_back (blank 256) (blank 12) path_note _ _ _ fs_note dir_note info0 eq_refl eq_refl (bytes_blank 12) (u16_check path_note eq_refl) Hm).
  - reflexivity.
  - discriminate.
  - cbn. lia.
  - apply (bool_decide_unpack _); vm_compute; exact I.
  - reflexivity.
  - reflexivity.
  - right. split_and!; vm_compute; reflexivity.
Defined.

Lemma follow_path_resolves_witness :
  exists r dp s', follow_path dir0 path_sub_note volp = Some ((r, dp), s') /\
    (r = FR_OK -> exists c k, resolve volp 0 (drop 1 path_sub_note) (inl (c, k))).
Proof.
  destruct (post_run _ _ _ (follow_path_resolves volp dir0 path_sub_note volp_inv volp_geom ltac:(discriminate) eq_refl eq_refl
    (bytes_blank 12) (u16_check path_sub_note eq_refl))) as ([r dp] & s' & Hr & Hw).
  exists r, dp, s'. split; [exact Hr|]. intros ->. clear Hr.
  destruct Hw as (_ & _ & [[Hc _]|[(_ & _ & _ & c & k & Hres & _)|[[Hc|[Hc|[Hc|Hc]]] _]]]); try discriminate Hc.
  exists c, k. exact Hres.
Defined.

Lemma volp_called path : get_ldnumber path = (0, path) -> Forall is_u16 path -> called volp dir0 path path.
Proof. intros Hd Hu. split; [apply volp_inv|apply volp_geom|discriminate|reflexivity|split; [reflexivity|apply bytes_blank]|done..]. Qed.

Lemma sub_note_called : called volp dir0 path_sub_note path_sub_note.
Proof. apply volp_called; [vm_compute; reflexivity|by apply u16_check]. Qed.

Lemma f_stat_ok : (fun x => x.1.1) <$> result (f_stat locals true path_sub_note (Some info0) 7) volp = Some FR_OK.
Proof. vm_compute. reflexivity. Qed.

Lemma f_stat_reports_witness :
  exists fno, result (f_stat locals true path_sub_note (Some info0) 7) volp = Some (FR_OK, Some fno, 7) /\
    exists c k, resolve volp 0 (drop 1 path_sub_note) (inl (c, k)) /\ info_of (table_entry volp (dir_at c) k) fno.
Proof.
  destruct (post_run _ _ _ (f_stat_reports volp locals path_sub_note path_sub_note info0 7 sub_note_called eq_refl eq_refl))
    as ([[r fno] id] & s' & Hr & _ & _ & -> & Hok & _).
  assert (r = FR_OK) as -> by exact (result_run _ _ _ _ _ _ f_stat_ok Hr).
  destruct (Hok eq_refl) as (c & k & info' & -> & Hres & Hi). exists info'. split; [|exists c, k; split; assumption].
  exact (f_equal (fmap fst) Hr).
Defined.

Lemma volp_room : fsinfo_room (fsys volp).
Proof. intros E. discriminate E. Qed.

Lemma f_chmod_ok : fst <$> result (f_chmod locals true path_sub_note AM_RDO (Z.lor AM_RDO AM_HID) 7) volp = Some FR_OK.
Proof. vm_compute. reflexivity. Qed.

(** The entry is the second one of the directory at cluster 2: byte 32 + 11 of sector 6. *)
Lemma f_chmod_medium :
  (fun x => (medium (dev x.2) 6).[43]) <$> f_chmod locals true path_sub_note AM_RDO (Z.lor AM_RDO AM_HID) 7 volp = Some 0x21.
Proof. vm_compute. reflexivity. Qed.

Lemma fmap_run {A B} (o : option A) (g : A -> B) b a : g <$> o = Some b -> o = Some a -> g a = b.
Proof. intros E ->. by injection E. Qed.

Lemma rdo_u8 : is_u8 AM_RDO.
Proof. by vm_compute. Qed.

Lemma entry_edits_exact_witness :
  exists r s', f_chmod locals true path_sub_note AM_RDO (Z.lor AM_RDO AM_HID) 7 volp = Some (r, s') /\ r.1 = FR_OK /\
    (exists c k, resolve volp 0 (drop 1 path_sub_note) (inl (c, k))) /\ (medium (dev s') 6).[43] = 0x21.
Proof.
  destruct (post_run _ _ _ (proj1 (entry_edits_exact volp locals path_sub_note path_sub_note 7 sub_note_called volp_room)
    AM_RDO (Z.lor AM_RDO AM_HID) rdo_u8)) as ([r id] & s' & Hr & Hok & _).
  pose proof (fmap_run _ _ _ _ f_chmod_medium Hr) as Em.
  pose proof (result_run _ _ _ _ _ _ f_chmod_ok Hr) as Er. clear - Hr Hok Em Er. cbn [fst snd] in Em, Er. subst r.
  destruct (Hok eq_refl) as (c & k & Hres & _). exists (FR_OK, id), s'. split; [exact Hr|]. split; [reflexivity|].
  split; [exists c, k; exact Hres|exact Em].
Defined.

Lemma f_opendir_ok : (fun x => x.1.1) <$> result (f_opendir true (mkDIRP false dir0) path_sub 7) volp = Some FR_OK.
Proof. vm_compute. reflexivity. Qed.

Lemma f_opendir_starts_witness :
  exists r s', f_opendir true (mkDIRP false dir0) path_sub 7 volp = Some (r, s') /\ r.1.1 = FR_OK /\
    exists c, leads_to volp [0x73; 0x75; 0x62] c /\ placed volp c 0 (od_dir r.1.2).
Proof.
  destruct (post_run _ _ _ (f_opendir_starts volp (mkDIRP false dir0) path_sub path_sub 7
    (volp_called path_sub ltac:(vm_compute; reflexivity) (u16_check path_sub eq_refl)))) as ([[r dp] id] & s' & Hr & _ & _ & _ & Hok & _).
  assert (r = FR_OK) as -> by exact (result_run _ _ _ _ _ _ f_opendir_ok Hr).
  exists (FR_OK, dp, id), s'. split; [exact Hr|]. split; [reflexivity|].
  destruct (Hok eq_refl) as (c & Hl & Hp & _). exists c. split; assumption.
Defined.

Lemma sdi_ok : fst <$> result (dir_sdi (set_d_obj (set_sclust 0 obj0) dir0) 0) volp = Some FR_OK.
Proof. vm_compute. reflexivity. Qed.

(** The root directory, at its first entry. *)
Lemma volp_root : exists d s', dir_sdi (set_d_obj (set_sclust 0 obj0) dir0) 0 volp = Some ((FR_OK, d), s') /\
  reading volp 0 0 d /\ obj_id (d_obj d) = fsid (fsys volp).
Proof.
  destruct (post_run _ _ _ (dir_sdi_spec volp (set_d_obj (set_sclust 0 obj0) dir0) 0 volp_inv volp_geom ltac:(done) ltac:(lia)))
    as ([r d] & s' & Hr & _ & _ & Ho & _ & _ & Hres).
  assert (r = FR_OK) as -> by exact (result_run _ _ _ _ _ _ sdi_ok Hr).
  exists d, s'. split; [exact Hr|].
  destruct Hres as [(_ & Hon & Ep)|[[Hc _]|Hc]]; [|discriminate Hc..]. split; [|by destruct Ho as [-> | ->]].
  left. split; [exact Hon|]. split; [by destruct Ho as [-> | ->]|exact Ep].
Qed.

Lemma f_readdir_lists_witness :
  exists d r s', f_readdir (mkDIRP true d) (Some info0) volp = Some (r, s') /\
    (r.1.1 = FR_OK -> exists fno, r.2 = Some fno /\
       ((exists j, next_visible volp 0 0 j /\ info_of (table_entry volp (dir_at 0) j) fno) \/ none_visible volp 0 0)).
Proof.
  destruct volp_root as (d & s1 & _ & Hrd & _).
  destruct (post_run _ _ _ (f_readdir_lists volp 0 0 (mkDIRP true d) info0 volp_inv volp_geom ltac:(discriminate) eq_refl Hrd
    ltac:(lia) eq_refl eq_refl)) as ([[r dp] fno] & s' & Hr & _ & _ & Hok & _).
  exists d, (r, dp, fno), s'. split; [exact Hr|]. intros E. destruct (Hok E) as (info' & -> & Hx). exists info'. split; [reflexivity|].
  destruct Hx as [(j & Hj & Hi & _)|[Hn _]]; [left; exists j; split; assumption|right; exact Hn].
Defined.
