(* ===== verification/ExamplesNtfs.v ===== *)
(** * Concrete NTFS records and runlists

    A file record of two sectors, a runlist with a hole, a device, and the functions of
    [Mst], [Runlist], [RunPairs] and [NtfsDevice] on them. *)

From stdpp Require Import prelude list.
From Stdlib Require Import ZArith Lia.
From S2P Require Import Prelude Bytes NtfsTypes Mst Runlist RunPairs NtfsDevice RunIo.

Local Open Scope Z_scope.

#[local] Instance memory : Malloc := fun _ => true.

Definition store (l : list Z) (ps : list (Z * Z)) : list Z := foldl (fun l '(i, v) => setb l i v) l ps.

Lemma bytes_check l : forallb (fun x => (0 <=? x) && (x <? 256)) l = true -> bytes l.
Proof. unfold bytes. rewrite forallb_forall, List.Forall_forall. intros H x Hx. apply H in Hx. unfold is_u8. bprop. lia. Qed.

(** ** Multi-sector transfer *)

(** A record [FILE] with an update sequence array of three words at 48. *)
Definition file_record (usn last : Z) : list Z :=
  store (zeros 1024) [(0, 0x46); (1, 0x49); (2, 0x4C); (3, 0x45); (4, 48); (6, 3); (48, usn);
    (510, 0x12); (511, 0x34); (1022, 0x56); (1023, last)].

Definition protected (b : list Z) : list Z := default b (snd (ntfs_mst_pre_write_fixup (Some b) 1024)).

Example pre_write_runs : let b := protected (file_record 7 0x78) in
  (ld_word b 48, ld_word b 50, ld_word b 52, ld_word b 510, ld_word b 1022) = (8, 0x3412, 0x7856, 8, 8).
Proof. vm_compute. reflexivity. Qed.

(** The sequence number skips 0xFFFF and 0. *)
Example pre_write_wraps :
  rec_usn (protected (store (file_record 0xFE 1) [(49, 0xFF)])) = 1 /\
  rec_usn (protected (store (file_record 0xFF 1) [(49, 0xFF)])) = 1.
Proof. vm_compute. done. Qed.

(** An array that overlaps the header passes [is_valid_record]: protecting the record
    replaces its magic and the position of the array, and the record cannot be read
    again. *)
Example pre_write_header :
  let b := store (file_record 7 0x78) [(4, 0)] in
  fst (ntfs_mst_pre_write_fixup (Some b) 1024) = None /\
  rec_magic (protected b) <> rec_magic b /\ rec_usa_ofs (protected b) = 0x7856 /\
  fst (ntfs_mst_post_read_fixup (protected b) 1024) = Some EINVAL.
Proof. vm_compute. done. Qed.

Lemma file_record_ok usn last : is_u8 usn -> is_u8 last -> mst_record (file_record usn last) 1024.
Proof.
  intros Hu Hl. split; [|vm_compute; reflexivity|done|vm_compute; reflexivity].
  unfold file_record, store. cbn [foldl]. repeat (apply bytes_setb; [|done || (unfold is_u8; lia)]). by apply Forall_replicate.
Qed.

Lemma mst_roundtrip_witness : let b := file_record 7 0x78 in
  exists b1 b2, ntfs_mst_pre_write_fixup (Some b) 1024 = (None, Some b1) /\
    ntfs_mst_post_read_fixup b1 1024 = (None, b2) /\ b2.[1023] = 0x78.
Proof.
  intros b. destruct (mst_roundtrip b 1024) as (b1 & b2 & E1 & E2 & _ & _ & _ & _ & _ & E3).
  - apply file_record_ok; unfold is_u8; lia.
  - vm_compute. discriminate.
  - vm_compute. discriminate.
  - vm_compute. discriminate.
  - exists b1, b2. split; [exact E1|]. split; [exact E2|]. rewrite E3; [vm_compute; reflexivity|lia|].
    replace (rec_usa_ofs b) with 48 by (vm_compute; reflexivity). replace (rec_usa_count b) with 3 by (vm_compute; reflexivity). lia.
Defined.

Definition old_record : list Z := protected (file_record 7 0x78).
Definition new_record : list Z := protected (file_record 8 0x79).
(** The first sector of the new record was written, the second was not. *)
Definition torn_record : list Z := take 512 new_record ++ drop 512 old_record.

Lemma torn_record_torn : torn (fun k => k =? 0) old_record new_record torn_record 1024.
Proof.
  split; [apply bytes_check; vm_compute; reflexivity|]. split; [vm_compute; reflexivity|]. intros i Hi. unfold NTFS_BLOCK_SIZE.
  unfold torn_record. rewrite getb_app by lia. replace (zlen (take 512 new_record)) with 512 by (vm_compute; reflexivity).
  unfold getb. destruct (Z.ltb_spec i 512) as [Hlt|Hge].
  - rewrite Z.div_small by lia. cbn [Z.eqb]. rewrite nth_firstn. replace (Z.to_nat i <? 512)%nat with true by (symmetry; apply Nat.ltb_lt; lia). done.
  - replace (i / 512 =? 0) with false; [|symmetry; apply Z.eqb_neq; assert (1 <= i / 512) by (apply Z.div_le_lower_bound; lia); lia].
    rewrite nth_skipn. f_equal. lia.
Qed.

Lemma mst_torn_write_witness : exists m', ntfs_mst_post_read_fixup torn_record 1024 = (Some EIO, m').
Proof.
  destruct (mst_torn_write (fun k => k =? 0) old_record new_record torn_record 1024) as (m' & E & _).
  - split; [apply bytes_check; vm_compute; reflexivity|vm_compute; reflexivity|lia|vm_compute; reflexivity].
  - split; [apply bytes_check; vm_compute; reflexivity|vm_compute; reflexivity|lia|vm_compute; reflexivity].
  - intros k Hk. change (mst_sectors 1024) with 2 in Hk. assert (k = 0 \/ k = 1) as [-> | ->] by lia; vm_compute; reflexivity.
  - intros k Hk. change (mst_sectors 1024) with 2 in Hk. assert (k = 0 \/ k = 1) as [-> | ->] by lia; vm_compute; reflexivity.
  - vm_compute. discriminate.
  - apply torn_record_torn.
  - exists 0, 1. change (mst_sectors 1024) with 2. split_and!; (lia || reflexivity).
  - exists m'. exact E.
Defined.

(** ** Runlists *)

(** Clusters 0 to 3 at 0x1234, a hole of 200 clusters, 16 clusters at 5. *)
Definition runs : runlist := [mkRun 0 0x1234 4; mkRun 4 (-1) 200; mkRun 204 5 16].
Definition runs_terminator : runlist_element := mkRun 220 LCN_ENOENT 0.

Example build_bytes :
  let '(e, b, _) := ntfs_mapping_pairs_build 3 (zeros 16) 16 (Some (runs ++ [runs_terminator])) 0 in
  (e, take 13 b) = (None, [0x21; 4; 0x34; 0x12; 0x02; 200; 0; 0x21; 16; 0xD1; 0xED; 0; 0]).
Proof. vm_compute. reflexivity. Qed.

(** On volumes before version 3 the LCN of the hole is stored. *)
Example build_bytes_v1 :
  let '(e, b, _) := ntfs_mapping_pairs_build 1 (zeros 16) 16 (Some (runs ++ [runs_terminator])) 2 in
  (e, take 13 b) = (None, [0x21; 2; 0x36; 0x12; 0x22; 200; 0; 0xC9; 0xED; 0x11; 16; 6; 0]).
Proof. vm_compute. reflexivity. Qed.

(** A run of length 0 is read as a run; for everything else it ends the list. *)
Definition zero_run_attr : list Z :=
  store (zeros 100) [(4, 80); (8, 1); (32, 64); (41, 0x20); (64, 0x11); (65, 4); (66, 9); (67, 0x11); (68, 0); (69, 1);
    (70, 0x11); (71, 4); (72, 40)].

Example zero_run_accepted :
  ntfs_mapping_pairs_decompress 1024 10 zero_run_attr None
  = Merged (Some [mkRun 0 9 4; mkRun 4 10 0; mkRun 4 50 4; mkRun 8 LCN_ENOENT 0]) /\
  ntfs_rl_vcn_to_lcn (Some [mkRun 0 9 4; mkRun 4 10 0; mkRun 4 50 4; mkRun 8 LCN_ENOENT 0]) 5 = LCN_ENOENT.
Proof. vm_compute. done. Qed.

(** An attribute record with the pairs from cluster 0 on. *)
Definition runs_attr : list Z :=
  store (zeros 100) [(4, 80); (8, 1); (24, 219); (32, 64); (41, 112); (42, 3);
    (64, 0x21); (65, 4); (66, 0x34); (67, 0x12); (68, 0x02); (69, 200); (70, 0); (71, 0x21); (72, 16); (73, 0xD1); (74, 0xED)].

Example decompress_runs :
  ntfs_mapping_pairs_decompress 1024 10 runs_attr None = Merged (Some (runs ++ [runs_terminator])).
Proof. vm_compute. reflexivity. Qed.

(** An extent that starts at cluster 220 is appended to the runlist of the base record. *)
Example merge_runs :
  ntfs_runlists_merge (Some [mkRun 0 0x1234 4; mkRun 4 LCN_RL_NOT_MAPPED 216; mkRun 220 LCN_ENOENT 0])
    (Some [mkRun 0 LCN_RL_NOT_MAPPED 4; mkRun 4 (-1) 200; mkRun 204 5 16; mkRun 220 LCN_RL_NOT_MAPPED 0])
  = Merged (Some (runs ++ [runs_terminator])).
Proof. vm_compute. reflexivity. Qed.

Example truncate_runs :
  ntfs_rl_truncate (Some (runs ++ [runs_terminator])) 100 = (None, Some [mkRun 0 0x1234 4; mkRun 4 (-1) 96; mkRun 100 LCN_ENOENT 0; runs_terminator]).
Proof. vm_compute. reflexivity. Qed.

Lemma mapping_pairs_roundtrip_witness :
  exists n, ntfs_get_size_for_mapping_pairs 3 (Some (runs ++ [runs_terminator])) 0 (2 ^ 21) = inl n /\ n = 12 /\
    exists buf', ntfs_mapping_pairs_build 3 (zeros 16) 16 (Some (runs ++ [runs_terminator])) 0
      = (None, buf', Some (Some [runs_terminator])) /\
    exists rl', ntfs_mapping_pairs_decompress 1024 10 runs_attr None = Merged (Some rl') /\
      ntfs_rl_vcn_to_lcn (Some rl') 210 = 11.
Proof.
  destruct (mapping_pairs_roundtrip 3 1024 10 runs runs_terminator [] 0 (zeros 16) 16 (2 ^ 21)) as (n & E1 & _ & E2).
  - reflexivity.
  - repeat split; vm_compute; (reflexivity || discriminate).
  - reflexivity.
  - reflexivity.
  - reflexivity.
  - reflexivity.
  - vm_compute. split; discriminate.
  - vm_compute. split; discriminate.
  - lia.
  - assert (n = 12) as -> by (assert (inl n = inl (B := errno) 12) as [= E] by (rewrite <- E1; vm_compute; reflexivity); exact E).
    exists 12. split; [exact E1|]. split; [reflexivity|]. destruct E2 as (buf' & E2 & _ & _ & E3); [lia|].
    exists buf'. split; [exact E2|]. destruct (E3 runs_attr) as (rl' & E4 & E5).
    + assert (take 12 buf' = [0x21; 4; 0x34; 0x12; 0x02; 200; 0; 0x21; 16; 0xD1; 0xED; 0]) as Eb.
      { assert ((None, buf', Some (Some [runs_terminator])) = ntfs_mapping_pairs_build 3 (zeros 16) 16 (Some (runs ++ [runs_terminator])) 0) as E by (symmetry; exact E2).
        vm_compute in E. injection E as ->. reflexivity. }
      change (Z.to_nat 12) with 12%nat. rewrite Eb. split; try (vm_compute; congruence).
      * vm_compute. right. reflexivity.
      * vm_compute. split; reflexivity.
      * vm_compute. split; [discriminate|reflexivity].
      * intros j Hj. change (zlen _) with 12 in Hj.
        assert (exists k : nat, (k < 12)%nat /\ j = Z.of_nat k) as (k & Hk & ->) by (exists (Z.to_nat j); lia).
        do 12 (destruct k as [|k]; [vm_compute; reflexivity|]). lia.
    + exists rl'. split; [exact E4|]. rewrite E5; [vm_compute; reflexivity|vm_compute; split; [discriminate|reflexivity]].
Defined.

(** ** A device *)

(** Bytes in memory, transferred at most three at a time; the byte [bad] cannot be read. *)
Record memdev := mkMem { content : list Z; bad : Z }.

Definition transfer (m : memdev) (count pos : Z) : Z :=
  let n := Z.max 0 (Z.min (Z.min count 3) (zlen (content m) - pos)) in
  let n := if pos <? bad m then Z.min n (bad m - pos) else n in
  if (pos <? 0) || (count <? 0) then 0 else n.

Instance mem_ops : DevOps memdev := {
  op_pread count pos m :=
    if pos =? bad m then (inr EIO, [], m) else (inl (transfer m count pos), sub (content m) pos (transfer m count pos), m);
  op_pwrite b pos m :=
    let n := transfer m (zlen b) pos in
    (inl n, mkMem (if n =? 0 then content m else blit (content m) pos (take (Z.to_nat n) b)) (bad m));
  op_sync m := (None, m)
}.

Definition mem_image (m : memdev) (x : Z) : Z := if x <? 0 then 0 else (content m).[x].

Lemma transfer_range m count pos :
  let n := transfer m count pos in 0 <= n /\ (0 <= count -> n <= count) /\ (0 < n -> 0 <= pos /\ pos + n <= zlen (content m) /\ n <= count).
Proof. unfold transfer. repeat case_match; bprop; lia. Qed.

Instance mem_laws : DevLaws memdev.
Proof.
  refine {| image := mem_image |}.
  - intros count pos m Hc. cbn. destruct (pos =? bad m); [done|]. destruct (transfer_range m count pos) as (H0 & H1 & H2).
    set (n := transfer m count pos) in *. split; [done|]. destruct (decide (n = 0)) as [En|En].
    + rewrite En in *. split_and!; [lia..|done|lia].
    + destruct H2 as (? & ? & ?); [lia|]. split_and!; [lia..|unfold zlen, sub in *; rewrite length_take, length_drop; lia|].
      intros j Hj. rewrite getb_sub by lia. unfold mem_image. by if_false.
  - intros b pos m. cbn. destruct (transfer_range m (zlen b) pos) as (H0 & H1 & H2). set (n := transfer m (zlen b) pos) in *.
    assert (0 <= zlen b) by (unfold zlen; lia). split; [lia|]. intros x. unfold mem_image. cbn [content].
    destruct (Z.eqb_spec n 0) as [En|En].
    + replace ((pos <=? x) && (x <? pos + n)) with false by (symmetry; apply andb_false_iff; lia). done.
    + destruct H2 as (? & ? & ?); [lia|]. assert (zlen (take (Z.to_nat n) b) = n) as El by (unfold zlen in *; rewrite length_take; lia).
      destruct (Z.ltb_spec x 0); [by replace ((pos <=? x) && (x <? pos + n)) with false by (symmetry; apply andb_false_iff; lia)|].
      rewrite getb_blit by lia. rewrite El. bdestr; [|done]. apply getb_take. lia.
  - done.
Defined.

(** Clusters of 4 bytes; the runlist [5; hole; 1] of an attribute of 16 bytes. *)
Definition mem_vol : ntfs_volume := mkVolume 2 12 false.
Definition mem_runs : runlist := [mkRun 0 5 2; mkRun 2 (-1) 1; mkRun 3 1 1].
Definition mem_end : runlist_element := mkRun 4 LCN_ENOENT 0.
Definition mem (bad : Z) : ntfs_device memdev := mkDevice (mkMem (Z.of_nat <$> seq 0 48) bad) false true false EIO.

Definition outcome {A} (r : option (A * ntfs_device memdev)) : option A := fst <$> r.

Example rl_pread_runs :
  outcome (ntfs_rl_pread mem_vol (Some (mem_runs ++ [mem_end])) 6 9 (mem (-1))) = Some (9, [26; 27; 0; 0; 0; 0; 4; 5; 6]).
Proof. vm_compute. reflexivity. Qed.

Example rl_pwrite_runs :
  outcome ((n ← ntfs_rl_pwrite mem_vol (Some (mem_runs ++ [mem_end])) 0 6 9 [91; 92; 93; 94; 95; 96; 97; 98; 99];
           ntfs_rl_pread mem_vol (Some (mem_runs ++ [mem_end])) 5 11) (mem (-1)))
  = Some (11, [25; 91; 92; 0; 0; 0; 0; 97; 98; 99; 7]).
Proof. vm_compute. reflexivity. Qed.

(** The byte 6 of the attribute cannot be read.  The read goes on with the next run where
    the first one failed, and reports success: the bytes of the hole and of the last run
    are delivered two places too early. *)
Example rl_pread_partial :
  outcome (ntfs_rl_pread mem_vol (Some (mem_runs ++ [mem_end])) 0 14 (mem 26)) = Some (14, [20; 21; 22; 23; 24; 25; 0; 0; 0; 0; 4; 5; 6; 7]) /\
  outcome (ntfs_rl_pread mem_vol (Some (mem_runs ++ [mem_end])) 0 14 (mem (-1))) = Some (14, [20; 21; 22; 23; 24; 25; 26; 27; 0; 0; 0; 0; 4; 5]).
Proof. vm_compute. done. Qed.

Definition mem_ok (m : memdev) : Prop := zlen (content m) = 48 /\ bad m = -1.

Lemma mem_reliable : reliable 48 mem_ok.
Proof.
  intros m [Hl Hb]. split_and!; [split_and!| | |].
  - intros count pos Hc Hp Hs. unfold op_pread, mem_ops. replace (pos =? bad m) with false by lia. do 3 eexists. split; [reflexivity|].
    unfold transfer. rewrite Hl, Hb. repeat case_match; bprop; lia.
  - intros b pos Hc Hp Hs. unfold op_pwrite, mem_ops. do 2 eexists. split; [reflexivity|].
    unfold transfer. rewrite Hl, Hb. repeat case_match; bprop; lia.
  - done.
  - intros count pos. unfold op_pread, mem_ops. by case_match.
  - intros b pos. unfold op_pwrite, mem_ops. cbn. destruct (transfer_range m (zlen b) pos) as (H0 & H1 & H2).
    split; [|done]. cbn [content]. case_match; [done|]. bprop. destruct H2 as (? & ? & ?); [lia|].
    unfold zlen in *. rewrite length_blit; [done|lia|]. unfold zlen. rewrite length_take. lia.
  - done.
Qed.

Lemma mem_runs_on : runs_on 48 mem_vol mem_runs mem_end.
Proof.
  split; try (vm_compute; congruence).
  - repeat split; vm_compute; (reflexivity || discriminate).
  - repeat (apply List.Forall_cons; [unfold run_fits; vm_compute; first [by left | right; discriminate]|]). apply List.Forall_nil.
Qed.

Lemma rl_pread_content_witness :
  post (ntfs_rl_pread mem_vol (Some (mem_runs ++ [mem_end])) 6 9) (mem (-1)) (fun '(n, data) _ => n = 9 /\ data.[6] = 4).
Proof.
  eapply post_mono; [apply (rl_pread_content 48 mem_ok mem_vol mem_runs mem_end [] 6 9 (mem (-1)))|].
  - exact mem_reliable.
  - lia.
  - split; reflexivity.
  - exact mem_runs_on.
  - lia.
  - lia.
  - vm_compute. discriminate.
  - intros [n data] d (Hn & _ & _ & Hd). split; [exact Hn|]. rewrite Hd; [vm_compute; reflexivity|lia].
Defined.

(** The caller is at the hole, which starts at byte 8 of the attribute. *)
Lemma rl_pwrite_content_witness :
  post (ntfs_rl_pwrite mem_vol (Some (drop 1 mem_runs ++ [mem_end])) 8 10 4 [91; 92; 93; 94]) (mem (-1)) (fun n d =>
    n = 4 /\ attr_byte mem_vol (mem_runs ++ [mem_end]) d 13 = 94 /\ attr_byte mem_vol (mem_runs ++ [mem_end]) d 10 = 0 /\ medium d 0 = 0).
Proof.
  eapply post_mono; [apply (rl_pwrite_content 48 mem_ok mem_vol (take 1 mem_runs) (drop 1 mem_runs) mem_end [] 10 4 [91; 92; 93; 94] (mem (-1)))|].
  - exact mem_reliable.
  - lia.
  - split; reflexivity.
  - reflexivity.
  - reflexivity.
  - exact mem_runs_on.
  - cbn [runs_disjoint mem_runs take drop app]. split_and!; try exact I; repeat (apply List.Forall_cons; [cbn; lia|]); apply List.Forall_nil.
  - vm_compute. discriminate.
  - vm_compute. split; discriminate.
  - vm_compute. discriminate.
  - intros n d (Hn & Hb & Hx). cbn [take drop app mem_runs] in Hb, Hx. fold mem_runs in Hb, Hx. split; [exact Hn|].
    unfold mem_runs. cbn [app]. rewrite !Hb by (vm_compute; split; congruence || reflexivity). split_and!.
    + vm_compute. reflexivity.
    + vm_compute. reflexivity.
    + rewrite Hx; [vm_compute; reflexivity|]. intros p Hp.
      assert (p = 10 \/ p = 11 \/ p = 12 \/ p = 13) as [-> |[-> |[-> | ->]]] by lia; vm_compute; discriminate.
Defined.
