(* ===== verification/ExamplesComp.v ===== *)
(** * Concrete compressed blocks

    Blocks compressed and decompressed by the functions of [NtfsCompress] and [CompSet],
    and the theorems on them applied. *)

From stdpp Require Import prelude list.
From Stdlib Require Import ZArith Lia.
From S2P Require Import Prelude Bytes NtfsTypes NtfsCompress LzDecode LzSafe LzEncode CompSet.

Local Open Scope Z_scope.

#[local] Instance granted : Malloc := fun _ => true.

Definition text : list Z :=
  [1; 2; 3; 4; 1; 2; 3; 4; 1; 2; 3; 4; 1; 2; 3; 4; 5; 6; 7; 8; 9; 1; 2; 3; 4; 5; 5; 5; 5; 5; 5; 5; 5; 5; 5; 5; 5; 5; 5; 5; 5; 5; 5; 5; 5].

(** A phrase that overlaps itself, lazy matching, and a run of one byte. *)
Example compress_text :
  option_map (fun '(n, out) => take (Z.to_nat n) out) (ntfs_compress_block text 45 (zeros 4100) (zeros 4096) 0 0)
  = Some [16; 176; 16; 1; 2; 3; 4; 9; 48; 5; 6; 7; 12; 8; 9; 2; 64; 16; 0].
Proof. vm_compute. reflexivity. Qed.

Example decompress_text :
  option_map (fun '(e, d) => (e, take 45 d)) (ntfs_decompress (zeros 4096) 4096 [16; 176; 16; 1; 2; 3; 4; 9; 48; 5; 6; 7; 12; 8; 9; 2; 64; 16; 0; 0; 0] 21)
  = Some (None, text).
Proof. vm_compute. reflexivity. Qed.

(** A phrase as the first token, and a sub-block longer than the data, are refused. *)
Example decompress_refuses :
  option_map fst (ntfs_decompress (zeros 4096) 4096 [0x03; 0xb0; 1; 0; 0; 0] 6) = Some (Some EOVERFLOW) /\
  option_map fst (ntfs_decompress (zeros 4096) 4096 [0x09; 0xb0; 0; 1; 2; 3] 6) = Some (Some EOVERFLOW).
Proof. vm_compute. done. Qed.

Lemma decompress_bounds_witness : exists r mem',
  ntfs_decompress (zeros 4099) 4096 [0x03; 0xb0; 0; 1; 2; 3] 6 = Some (r, mem') /\ mem'.[4097] = 0.
Proof.
  destruct (decompress_bounds (zeros 4099) 4096 [0x03; 0xb0; 0; 1; 2; 3] 6) as (r & mem' & E & _ & _ & O).
  - vm_compute. split; [discriminate|reflexivity].
  - lia.
  - exists r, mem'. split; [exact E|]. rewrite O; [vm_compute; reflexivity|lia].
Defined.

Definition junk (p : Z) : list Z * Z * Z := (zeros 4096, 0, 0).

Lemma comp_set_roundtrip_witness : exists failed out compsz allzeroes,
  comp_blocks junk 45 text 45 0 (zeros (comp_alloc 8192 + 5)) 0 true 8192 (2 ^ 12) = Some (failed, out, compsz, allzeroes) /\
  failed = false /\ let '(cb, rounded) := comp_close_set out compsz (2 ^ 12) in
  rounded = 4096 /\ exists mem', ntfs_decompress (zeros 8192) 8192 cb rounded = Some (None, mem') /\ mem'.[44] = 5.
Proof.
  destruct (comp_set_roundtrip junk text 45 8192 12 (zeros (comp_alloc 8192 + 5))) as (failed & out & compsz & allzeroes & E & _ & _ & _ & R).
  - reflexivity.
  - intros p. vm_compute. discriminate.
  - unfold bytes, text. repeat (apply List.Forall_cons; [unfold is_u8; lia|]). apply List.Forall_nil.
  - lia.
  - vm_compute. discriminate.
  - reflexivity.
  - lia.
  - vm_compute. discriminate.
  - exists failed, out, compsz, allzeroes. split; [exact E|].
    assert (option_map (fun '(f, o, c, _) => (f, c, zlen o)) (Some (failed, out, compsz, allzeroes)) = Some (false, 19, 8203)) as Ec
      by (rewrite <- E; vm_compute; reflexivity).
    injection Ec as Ef Ec El. split; [exact Ef|]. specialize (R Ef). rewrite Ec in R |- *. clear E.
    unfold comp_close_set in R |- *. set (cb := blit _ _ _) in R |- *. destruct R as (_ & _ & _ & _ & R). change (Z.lor (19 + 2 - 1) (2 ^ 12 - 1) + 1) with 4096 in *.
    split; [reflexivity|]. assert (4096 <= zlen cb) as Hcl.
    { unfold cb, blit, zlen. rewrite !length_app, length_take, length_drop, length_replicate, !length_setb. unfold zlen in El. lia. }
    destruct (R (zeros 8192) 8192 cb 4096) as (mem' & E & Em & _).
    + rewrite zlen_zeros; lia.
    + lia.
    + intros j Hj. rewrite Z.add_0_l. symmetry. apply getb_take. unfold zlen in Hj. rewrite length_take in Hj. lia.
    + exists mem'. split; [exact E|]. rewrite Em; [reflexivity|lia].
Defined.
