(* ===== verification/ExamplesUni.v ===== *)
(** * Concrete names

    Names compared, checked and converted by the functions of [UniNames] and [Utf8], and the
    theorems on them applied. *)

From stdpp Require Import prelude list.
From Stdlib Require Import ZArith Lia.
From S2P Require Import Prelude Bytes Buffers NtfsTypes UniNames UniOrder Upcase Utf8 UtfConv.

Local Open Scope Z_scope.

#[local] Instance ample : Malloc := fun _ => true.

(** A table for ASCII only. *)
Definition ascii : list Z := map (fun c => if (97 <=? c) && (c <=? 122) then c - 32 else c) (seqZ 0 128).

(** "abc" against "ABD" and "ABC": the case decides at the end, if at all. *)
Example collate_names :
  ntfs_names_full_collate [97; 98; 99] 3 [65; 66; 68] 3 CASE_SENSITIVE ascii 128 = -1 /\
  ntfs_names_full_collate [97; 98; 99] 3 [65; 66; 67] 3 CASE_SENSITIVE ascii 128 = 1 /\
  ntfs_names_full_collate [97; 98; 99] 3 [65; 66; 67] 3 IGNORE_CASE ascii 128 = 0 /\
  ntfs_names_full_collate [97; 98] 2 [65; 66; 67] 3 CASE_SENSITIVE ascii 128 = -1.
Proof. vm_compute. done. Qed.

(** "Con.txt" and "LPT1" are refused, "const" and "com0" are not; nor is a trailing dot
    unless the check is strict. *)
Example forbidden_some :
  ntfs_forbidden_names [67; 111; 110; 46; 116] 5 false ascii 128 = true /\
  ntfs_forbidden_names [76; 80; 84; 49] 4 false ascii 128 = true /\
  ntfs_forbidden_names [99; 111; 110; 115; 116] 5 false ascii 128 = false /\
  ntfs_forbidden_names [99; 111; 109; 48] 4 false ascii 128 = false /\
  ntfs_forbidden_names [97; 46] 2 false ascii 128 = false /\
  ntfs_forbidden_names [97; 46] 2 true ascii 128 = true.
Proof. vm_compute. done. Qed.

(** "é", the euro sign, a surrogate pair and a single surrogate. *)
Definition mixed : list Z := [0xE9; 0x20AC; 0xD83D; 0xDE00; 0xD800].

Example convert_mixed :
  ntfs_ucstombs zeros (Some mixed) 5 None 0 =
    Some (12, Some [0xC3; 0xA9; 0xE2; 0x82; 0xAC; 0xF0; 0x9F; 0x98; 0x80; 0xED; 0xA0; 0x80; 0], None) /\
  ntfs_mbstoucs zeros (Some [0xC3; 0xA9; 0xE2; 0x82; 0xAC; 0xF0; 0x9F; 0x98; 0x80; 0xED; 0xA0; 0x80]) None =
    Some (5, Some (mixed ++ [0]), None) /\
  ntfs_mbstoucs zeros (Some [0x41; 0xC0; 0x80]) None = Some (-1, None, Some EILSEQ) /\
  ntfs_ucstombs zeros (Some mixed) 5 (Some (zeros 12)) 12 = Some (-1, Some (zeros 12), Some ENAMETOOLONG).
Proof. vm_compute. done. Qed.

(** [ntfs_uppercase_mbs] on a valid string, and on an invalid one, where it stores into the
    memory it has just freed. *)
Example uppercase_some :
  ntfs_uppercase_mbs zeros [0x61; 0xC3; 0xA9] ascii 128 = Some (Some [0x41; 0xC3; 0xA9; 0; 0; 0; 0; 0; 0; 0]) /\
  ntfs_uppercase_mbs zeros [0x61; 0xC3] ascii 128 = None.
Proof. vm_compute. done. Qed.

(** ** The theorems applied *)

Lemma blank_len : zlen (zeros UPCASE_LEN) = UPCASE_LEN.
Proof. apply zlen_zeros. done. Qed.

Lemma upcase_default_witness :
  is_u16 97 /\ (ntfs_upcase_table_build (zeros UPCASE_LEN) (UPCASE_LEN * 2)).[97] = 65.
Proof.
  assert (is_u16 97) as H97 by (split; [discriminate|reflexivity]).
  split; [exact H97|]. destruct (upcase_default (zeros UPCASE_LEN) 97 blank_len H97) as (_ & _ & _ & H & _).
  exact (H eq_refl).
Defined.

Lemma con_units : Forall is_u16 [67; 111; 110; 46; 116].
Proof. repeat constructor; done. Qed.

Lemma forbidden_names_spec_witness :
  ntfs_forbidden_names [67; 111; 110; 46; 116] 5 false (ntfs_upcase_table_build (zeros UPCASE_LEN) (UPCASE_LEN * 2)) UPCASE_LEN = true.
Proof.
  exact (forbidden_names_spec [67; 111; 110; 46; 116] false _ UPCASE_LEN con_units (default_ascii_table _ blank_len)).
Defined.

Lemma paired_units : units (take 4 mixed).
Proof. repeat constructor; done. Qed.

Lemma zeros_fresh n : 0 <= n -> zlen (zeros n) = n.
Proof. apply zlen_zeros. Qed.

Lemma utf16_utf8_roundtrip_witness :
  paired (take 4 mixed) = true /\
  ntfs_mbstoucs zeros (Some (utf8_of (take 4 mixed))) None = Some (4, Some (take 4 mixed ++ [0]), None).
Proof.
  split; [reflexivity|].
  exact (proj2 (utf16_utf8_roundtrip zeros (take 4 mixed) paired_units zeros_fresh (fun _ => eq_refl)) eq_refl).
Defined.

Lemma mbstoucs_safe_witness : exists r outs e, ntfs_mbstoucs zeros (Some [0xF0; 0x41; 0xFF]) None = Some (r, outs, e).
Proof.
  destruct (mbstoucs_safe zeros [0xF0; 0x41; 0xFF] zeros_fresh) as (r & outs & e & H & _).
  exists r, outs, e. exact H.
Defined.
