(* ===== verification/ExamplesAlloc.v ===== *)
(** * Concrete cluster bitmaps

    A bitmap in memory, on which clusters are allocated and freed, and the theorems on the
    allocator applied. *)

From stdpp Require Import prelude list.
From Stdlib Require Import ZArith Lia.
From S2P Require Import Prelude NtfsTypes Runlist NtfsBitmap BitmapRun NtfsAlloc AllocRuns MaxRange ClusterFree ClusterAlloc AllocLive.

Local Open Scope Z_scope.

#[local] Instance plenty : Malloc := fun _ => true.

(** An attribute that is a list of bytes. *)
#[local] Instance mem_attr : AttrOps (list Z) := {
  attr_pread pos n w := let k := Z.max 0 (Z.min n (zlen w - pos)) in (inl k, sub w pos k, w);
  attr_pwrite pos b w := (inl (zlen b), blit w pos b)
}.

#[local] Instance mem_attr_laws : AttrLaws (list Z).
Proof.
  refine {| attr_bytes := id; served := fun _ => True |}.
  - intros pos n w Hp Hn. cbn. unfold id. split; [done|]. split; [lia|]. split; [done|].
    unfold zlen, sub. rewrite length_take, length_drop. unfold zlen. lia.
  - intros pos b w Hp Hb. cbn. unfold id in *. pose proof (zlen_nonneg b). exists (zlen b). split; [lia|]. split; [|done]. f_equal.
    unfold sub, zlen. rewrite drop_0, Nat2Z.id. symmetry. by apply firstn_all.
  - intros pos n w _ Hp Hn. done.
  - intros pos b w _ Hp Hb. done.
Defined.

(** 64 clusters, 12 of them in the zone of the MFT. *)
Definition small (bm : list Z) : lcn_volume (list Z) := mkLcnVolume bm 64 4 0 12 4 12 0 0 true 32 None.

(** Five clusters and one are free: the larger run first, or the one at the hint. *)
Definition two_runs : list Z := [255; 255; 0xE0; 0xBF; 255; 255; 255; 255].

Example alloc_two_runs :
  (fst <$> ntfs_cluster_alloc 0 6 (-1) DATA_ZONE (small two_runs)) = Some (Some [mkRun 0 16 5; mkRun 5 30 1; mkRun 6 LCN_RL_NOT_MAPPED 0]) /\
  (fst <$> ntfs_cluster_alloc 7 3 18 DATA_ZONE (small two_runs)) = Some (Some [mkRun 7 18 3; mkRun 10 LCN_RL_NOT_MAPPED 0]) /\
  (fun '(r, v) => (r, v_errno v, lcnbmp_na v)) <$> ntfs_cluster_alloc 0 7 (-1) DATA_ZONE (small two_runs) = Some (None, Some ENOSPC, two_runs).
Proof. vm_compute. done. Qed.

Example set_and_clear :
  ntfs_bitmap_set_run 3 20 (zeros 5) = Some (None, [248; 255; 127; 0; 0]) /\
  ntfs_bitmap_clear_run 3 2 [255; 255] = Some (None, [231; 255]) /\
  ntfs_bitmap_set_run 5 (-1) (zeros 5) = Some (Some EINVAL, zeros 5).
Proof. vm_compute. done. Qed.

(** Freeing a part of an attribute: two clusters of the second run are left. *)
Example free_part :
  (fun '(r, v) => (r, lcnbmp_na v, free_clusters v)) <$>
    ntfs_cluster_free (inl [mkRun 0 16 4; mkRun 4 LCN_HOLE 3; mkRun 7 24 6; mkRun 13 LCN_RL_NOT_MAPPED 0]) 2 9 (small (replicate 8 255)) =
  Some (6, [255; 255; 0xF3; 0xF0; 255; 255; 255; 255], 38) /\
  (fun '(r, v) => (r, v_errno v)) <$> ntfs_cluster_free (inr ENOENT) 2 9 (small (replicate 8 255)) = Some (0, Some ENOENT).
Proof. vm_compute. done. Qed.

(** 80000 clusters of which one is free, behind the first window of the data zone and
    before the position of the zone. *)
Definition large : lcn_volume (list Z) :=
  mkLcnVolume (replicate (Z.to_nat 5000) 255 ++ [254] ++ replicate (Z.to_nat 4999) 255) 80000 4 0 16 4 79992 0 0 true 1 None.

(** The allocator can report [ENOSPC] although enough clusters are free.  Each visit
    of a window takes the longest run of free clusters only: on a volume on which every
    second cluster is free, 32 of them, a request for 6 fails.  And the search starts over
    at the position of the zone when the hint is taken, but goes on as in the second pass
    if the hint was the first cluster of the zone: the clusters before the position are
    not searched, and the one free cluster, which is found without a hint, is not. *)
Theorem alloc_gives_up :
  (fun '(r, v) => (r, v_errno v, free_clusters v)) <$> ntfs_cluster_alloc 0 6 (-1) DATA_ZONE (small (replicate 8 0x55)) = Some (None, Some ENOSPC, 32) /\
  (fun '(r, v) => (r, v_errno v)) <$> ntfs_cluster_alloc 0 1 16 DATA_ZONE large = Some (None, Some ENOSPC) /\
  (fst <$> ntfs_cluster_alloc 0 1 (-1) DATA_ZONE large) = Some (Some [mkRun 0 40000 1; mkRun 1 LCN_RL_NOT_MAPPED 0]).
Proof. vm_compute. done. Qed.

(** ** The theorems applied *)

Lemma small_ok bm : zones_ok (small bm).
Proof. by split. Qed.

Lemma small_live bm : zones_live (small bm).
Proof. split; cbn; lia. Qed.

Lemma bitmap_run_exact_witness : exists w', ntfs_bitmap_set_bits_in_run 3 20 true (zeros 5) = Some (None, w').
Proof.
  destruct (bitmap_run_exact (zeros 5) 3 20 true) as (r & w' & E & _ & _ & _ & H).
  - lia.
  - lia.
  - vm_compute. discriminate.
  - vm_compute. reflexivity.
  - exists w'. rewrite E. rewrite H; [reflexivity|exact I|reflexivity].
Defined.

Lemma cluster_alloc_spec_witness : exists r v',
  ntfs_cluster_alloc 0 6 (-1) DATA_ZONE (small two_runs) = Some (r, v') /\ bit_at (lcnbmp_na v') 0 = true.
Proof.
  destruct (cluster_alloc_spec (small two_runs) 0 6 (-1) DATA_ZONE (small_ok _)) as (r & v' & E & H & _).
  - vm_compute. reflexivity.
  - exists r, v'. split; [exact E|]. apply H; [vm_compute; split; [discriminate|reflexivity]|vm_compute; reflexivity].
Defined.

Lemma one_is_free : exists i, 0 <= i < nr_clusters (small two_runs) /\ bit_at (attr_bytes (lcnbmp_na (small two_runs))) i = false.
Proof. exists 30. vm_compute. done. Qed.

Lemma cluster_alloc_finds_witness : exists x v',
  ntfs_cluster_alloc 0 1 (-1) DATA_ZONE (small two_runs) = Some (Some [mkRun 0 x 1; mkRun 1 LCN_RL_NOT_MAPPED 0], v').
Proof.
  destruct (cluster_alloc_finds (small two_runs) 0 DATA_ZONE (small_ok _) (small_live _) eq_refl) as (x & v' & E & _).
  - vm_compute. split; [discriminate|reflexivity].
  - exact I.
  - reflexivity.
  - exact one_is_free.
  - exists x, v'. exact E.
Defined.

(** The volume after the allocation. *)
Definition after_alloc : lcn_volume (list Z) :=
  match ntfs_cluster_alloc 0 6 (-1) DATA_ZONE (small two_runs) with Some (_, v) => v | None => small two_runs end.

Lemma after_alloc_ok :
  ntfs_cluster_alloc 0 6 (-1) DATA_ZONE (small two_runs) = Some (Some [mkRun 0 16 5; mkRun 5 30 1; mkRun 6 LCN_RL_NOT_MAPPED 0], after_alloc).
Proof. vm_compute. reflexivity. Qed.

Lemma small_size : zlen (attr_bytes (lcnbmp_na (small two_runs))) < 2 ^ 31 - 1.
Proof. vm_compute. reflexivity. Qed.

Lemma alloc_free_roundtrip_witness : exists v'',
  ntfs_cluster_free_from_rl [mkRun 0 16 5; mkRun 5 30 1; mkRun 6 LCN_RL_NOT_MAPPED 0] after_alloc = Some (false, v'').
Proof.
  destruct (alloc_free_roundtrip (small two_runs) 0 6 (-1) DATA_ZONE
    [mkRun 0 16 5; mkRun 5 30 1; mkRun 6 LCN_RL_NOT_MAPPED 0] after_alloc (small_ok two_runs) small_size I (fun _ => eq_refl) after_alloc_ok) as [v'' [E _]].
  exact (ex_intro _ v'' E).
Defined.
