(* ===== verification/ExamplesMkfs.v ===== *)
(** * Creating volumes

    A drive whose sectors are kept in a finite map, and [f_mkfs] run on it. *)

From stdpp Require Import prelude list gmap.
From Stdlib Require Import ZArith Lia.
From S2P Require Import Prelude Bytes Unicode Diskio FFTypes Window Fat Bitmap Chain Lfn Dir Dirent Mount File Mkfs.
From S2P Require Import MkfsLayout MkfsRecords MkfsWrite MkfsSpec MkfsMount Examples.

Local Open Scope Z_scope.

#[local] Instance shl : Shl := fun _ => 0.
#[local] Instance heap : Heap := fun n => n <=? 65536.

(** ** A drive of 512-byte sectors, all zeros where never written *)

Record Sparse := mkSparse { sp_sects : gmap Z (list Z) }.

Definition sp_medium (d : Sparse) (x : Z) : list Z :=
  match sp_sects d !! x with Some l => (fun b => u8 b) <$> resize 512 0 l | None => replicate 512 0 end.

Definition sp_write (d : Sparse) (buf : list Z) (s n : Z) : Sparse :=
  mkSparse (foldr (fun i m => <[s + i := sub buf (i * 512) 512]> m) (sp_sects d) (seqZ 0 n)).

#[local] Instance sparse : BlockDevice Sparse := {|
  sector_size _ := 512;
  disk_read d buf s n := (RES_OK, overlay (mjoin (sp_medium d <$> seqZ s n)) buf, d);
  disk_write d buf s n := (RES_OK, sp_write d buf s n);
  disk_ioctl_sync d := (RES_OK, d)
|}.

Lemma sp_medium_len d x : length (sp_medium d x) = 512%nat.
Proof. unfold sp_medium. destruct (_ !! _); [by rewrite length_fmap, length_resize|apply length_replicate]. Qed.

Lemma sp_medium_bytes d x : bytes (sp_medium d x).
Proof.
  unfold sp_medium, bytes. destruct (_ !! _); [|apply Forall_replicate; by vm_compute].
  apply Forall_fmap, Forall_true. intros b. apply u8_range.
Qed.

Lemma sp_medium_join d s n : length (mjoin (sp_medium d <$> seqZ s n)) = (512 * Z.to_nat n)%nat.
Proof.
  rewrite <- (length_seqZ s n). induction (seqZ s n) as [|x l IH]; [done|]. rewrite fmap_cons. change (mjoin (?a :: ?l)) with (a ++ mjoin l).
  rewrite length_app, IH, sp_medium_len. cbn [length]. lia.
Qed.

Lemma sp_write_in buf s n x (m : gmap Z (list Z)) :
  s <= x < s + n -> foldr (fun i m => <[s + i := sub buf (i * 512) 512]> m) m (seqZ 0 n) !! x = Some (sub buf ((x - s) * 512) 512).
Proof.
  intros Hx. assert (x - s ∈ seqZ 0 n) as Hi by (apply elem_of_seqZ; lia). revert Hi. induction (seqZ 0 n) as [|i l IH]; [by intros ?%elem_of_nil|].
  intros Hi. cbn [foldr]. destruct (decide (s + i = x)) as [<-|Hne]; [rewrite lookup_insert_eq; repeat f_equal; lia|].
  rewrite lookup_insert_ne by done. apply IH. apply elem_of_cons in Hi as [E|]; [lia|done].
Qed.

Lemma sp_write_out buf s n x (m : gmap Z (list Z)) :
  ~ (s <= x < s + n) -> foldr (fun i m => <[s + i := sub buf (i * 512) 512]> m) m (seqZ 0 n) !! x = m !! x.
Proof.
  intros Hx. assert (x - s ∉ seqZ 0 n) as Hi by (rewrite elem_of_seqZ; lia). revert Hi. induction (seqZ 0 n) as [|i l IH]; [done|].
  intros Hi. apply not_elem_of_cons in Hi as [Hne Hi]. cbn [foldr]. rewrite lookup_insert_ne by lia. auto.
Qed.

#[local] Program Instance sparse_laws : BlockDeviceLaws Sparse := {| medium := sp_medium |}.
Next Obligation. apply sp_medium_len. Qed.
Next Obligation. apply sp_medium_bytes. Qed.
Next Obligation. cbn. intros d d' buf buf' s n _ _ _ E. by injection E. Qed.
Next Obligation.
  cbn. intros d d' buf buf' s n r _ Hn Hl E. injection E as <- <- <-. unfold zlen in Hl. split.
  - apply length_overlay. rewrite sp_medium_join. lia.
  - intros Hb. apply bytes_overlay; [|done]. unfold bytes. apply Forall_join, Forall_fmap, Forall_true. intros x. apply sp_medium_bytes.
Qed.
Next Obligation. cbn. intros d d' buf buf' s n r E. by injection E as <- <- <-. Qed.
Next Obligation.
  cbn. intros d d' buf s n x Hs Hn Hl Hb E Hx. injection E as <-. unfold sp_medium, sp_write. cbn [sp_sects]. rewrite sp_write_in by done.
  assert (length (sub buf ((x - s) * 512) 512) = 512%nat) as E. { unfold sub, zlen in *. rewrite length_take, length_drop. lia. }
  rewrite resize_all_alt by done. rewrite <- (list_fmap_id (sub _ _ _)) at 2. apply list_fmap_ext. intros i b Hi. apply u8_small.
  eapply Forall_lookup_1; [|exact Hi]. unfold sub. by apply Forall_take, Forall_drop.
Qed.
Next Obligation.
  cbn. intros d d' buf s n r Hs Hl E. injection E as <- <-. split; [done|]. intros x _ Hx. unfold sp_medium, sp_write. cbn [sp_sects]. by rewrite sp_write_out.
Qed.
Next Obligation. cbn. intros d d' r E. by injection E as <- <-. Qed.

Lemma sparse_reads : @reads_ok Sparse _.
Proof. done. Qed.

(** ** Runs *)

(** An empty drive, nothing mounted, and the call with a working buffer on the heap. *)
Definition drive : St Sparse := mkSt (mounted 0 0 0 0 0 0 0 0) (mkSparse ∅).

Definition mkfs_run (opt : MKFS_PARM) : option (FRESULT * St Sparse) := f_mkfs [] true (Some opt) None (blank 4096) 4096 drive.

(** The results of [f_mkfs] and of the mount that follows, and what was mounted. *)
Definition formatted (opt : MKFS_PARM) : option (FRESULT * FRESULT * (Z * Z * Z * Z * Z)) :=
  '(r, s1) ← mkfs_run opt;
  '((r2, _), s2) ← mount_fs 0 7 s1;
  let fs := fsys s2 in Some (r, r2, (volbase fs, fs_type fs, n_fatent fs, csize fs, database fs)).

Definition small_floppy : MKFS_PARM := mkMKFS_PARM (Z.lor FM_FAT FM_SFD) 0 0 0 0 128.

Example format_fat12 : formatted small_floppy = Some (FR_OK, FR_OK, (0, FS_FAT12, 96, 1, 34)).
Proof. vm_compute. reflexivity. Qed.

Example format_fat16 : formatted (mkMKFS_PARM FM_FAT 2 0 64 0 20000) = Some (FR_OK, FR_OK, (63, FS_FAT16, 4975, 4, 108)).
Proof. vm_compute. reflexivity. Qed.

Example format_fat32 : formatted (mkMKFS_PARM FM_FAT32 0 0 0 512 80000) = Some (FR_OK, FR_OK, (63, FS_FAT32, 79282, 1, 720)).
Proof. vm_compute. reflexivity. Qed.

Example format_too_small : formatted (mkMKFS_PARM FM_FAT 0 0 0 0 190) = Some (FR_MKFS_ABORTED, FR_NO_FILESYSTEM, (0, 0, 0, 0, 0)).
Proof. vm_compute. reflexivity. Qed.

Lemma floppy_ok : parm_ok small_floppy.
Proof. split; vm_compute; (done || split; congruence). Qed.

Lemma floppy_run : exists s', mkfs_run small_floppy = Some (FR_OK, s').
Proof. eexists. vm_compute. reflexivity. Qed.

Lemma heap_work : work_ok None (blank 4096) 4096 512.
Proof. split; [done|]. split; [apply bytes_blank|by vm_compute]. Qed.

Lemma mkfs_mounts_witness : exists s', mkfs_run small_floppy = Some (FR_OK, s') /\
  post (mount_fs 0 7) (mkSt (fsys drive) (dev s')) (fun '(r, _) s2 => r = FR_OK /\ empty_volume s2).
Proof.
  destruct floppy_run as [s' Hr]. exists s'. split; [exact Hr|].
  pose proof (mkfs_mounts [] true small_floppy None (blank 4096) 4096 drive floppy_ok ltac:(done) heap_work sparse_reads) as Hp.
  unfold post at 1 in Hp. unfold mkfs_run in Hr. rewrite Hr in Hp. destruct Hp as [_ Hm].
  eapply post_mono; [exact (Hm eq_refl (fsys drive) 0 7 eq_refl ltac:(vm_compute; reflexivity) (bytes_blank _))|].
  intros [r id] s2 (H1 & _ & _ & _ & H5 & _). split; [exact H1|exact H5].
Defined.

(** The test for a volume that is too small comes with the end of the
    root directory before the data area is aligned.  With 128 sectors and an alignment of
    128, [f_mkfs] reports success for a volume of no cluster at all, which [mount_volume]
    then refuses. *)
Theorem mkfs_unmountable :
  result (r ← f_mkfs [] true (Some (mkMKFS_PARM (Z.lor FM_FAT FM_SFD) 0 128 0 0 128)) None (blank 4096) 4096;
          '(r2, _) ← mount_fs 0 7; mret (r, r2)) drive = Some (FR_OK, FR_NO_FILESYSTEM).
Proof. vm_compute. reflexivity. Qed.
