(* ===== verification/ExamplesLru.v ===== *)
(** * Caches in use

    Calls on small caches of inodes and of directory entries. *)

From stdpp Require Import prelude list gmap.
From Stdlib Require Import ZArith Lia.
From S2P Require Import Prelude Bytes NtfsTypes LruCache LruRep LruHash LruOps LruInvalidate LruSpec LruFailure LruClients Examples.

Local Open Scope Z_scope.

(** Memory for everything but a block of 8 bytes. *)
#[local] Instance memory : Malloc := fun n => negb (n =? 8).

(** ** Three inodes *)

Definition inodes3 : option CACHE_HEADER := ntfs_create_cache true (Some ntfs_inode_nidata_hash) 48 3 128.

Definition inode_calls : list cache_op :=
  [Enter (nidata_item 5 1); Enter (nidata_item 20 2); Fetch (nidata_item 5 0); Enter (nidata_item 21 3); Enter (nidata_item 148 4);
   Fetch (nidata_item 20 0); Take (nidata_item 21 0) 0; Invalidate (nidata_item 148 0) idata_cache_compare CACHE_FREE].

Example inode_run :
  result (outs ← @run_ops nidata_client _ inode_calls; rel ← ntfs_free_cache; mret (outs, rel)) inodes3 =
  Some ([Found (Some (nidata_item 5 1)); Found (Some (nidata_item 20 2)); Found (Some (nidata_item 5 1)); Found (Some (nidata_item 21 3));
         Found (Some (nidata_item 148 4)); Found None; Found (Some (nidata_item 21 3)); Count 1],
        [nidata_item 20 2; nidata_item 148 4; nidata_item 5 1]).
Proof. vm_compute. reflexivity. Qed.

Lemma inodes3_created : exists c, inodes3 = Some c.
Proof. eexists. reflexivity. Qed.

Lemma nidata_item_ok a b : item_ok 16 (nidata_item a b).
Proof. split; [|done]. unfold nidata_item, zlen. cbn [i_payload]. unfold st_qword. by rewrite !length_st_bytes. Qed.

Lemma inode_calls_ok : Forall (@op_ok nidata_client _) inode_calls.
Proof.
  repeat first [apply Forall_nil_2 | apply Forall_cons; split];
    first [exact I | apply inode_invalidate_ok | split; [exact I|]; split; [apply nidata_item_ok|by left]].
Qed.

Lemma lru_refines_witness : exists c, inodes3 = Some c /\
  post (outs ← @run_ops nidata_client _ inode_calls; rel ← ntfs_free_cache; mret (outs, rel)) (Some c) (fun '(outs, rel) _ =>
    outs = (@spec_ops nidata_client 3 true inode_calls []).1.1 /\ length rel = 3%nat).
Proof.
  destruct inodes3_created as [c Hc]. exists c. split; [exact Hc|].
  eapply post_mono; [exact (@lru_refines nidata_client nidata_client_laws _ true true 3 c inode_calls ltac:(lia) ltac:(cbn; lia) inode_calls_ok Hc)|].
  intros [outs rel] s H.
  assert (exists a b d, @spec_ops nidata_client 3 true inode_calls [] = (a, b, d) /\ length (d ++ b) = 3%nat) as (a & b & d & E & El)
    by (eexists _, _, _; split; [vm_compute; reflexivity|reflexivity]).
  rewrite E in H |- *. destruct H as (H1 & _ & H3). split; [exact H1|]. rewrite H3. exact El.
Defined.

(** ** No memory for a name *)

(** The name "A" in the directory 5, and a name of seven characters. *)
Definition name_a : cache_item := mkItem (Some [65; 0]) 2 (st_qword (st_qword (replicate 16 0) 0 5) 8 30).
Definition name_long : cache_item := mkItem (Some [66; 66; 66; 66; 66; 66; 66; 0]) 8 (st_qword (st_qword (replicate 16 0) 0 5) 8 31).

Definition lookups3 : option CACHE_HEADER := ntfs_create_cache false (Some ntfs_dir_lookup_hash) 48 3 128.

Definition failing_calls : list cache_op := [Enter name_a; Enter name_long; Fetch name_a].

(** A name is in the cache, entering another one fails, and the first one is looked up: its
    record follows itself. *)
Example failing_run :
  match @run_ops lookup_client _ failing_calls lookups3 with
  | Some (outs, Some c) => Some (outs, most_recent_entry c, cache_entry c !! 0%nat)
  | _ => None
  end = Some ([Found (Some name_a); Found None; Found (Some name_a)], Some 0%nat,
              Some (mkCached (Some 0%nat) (Some 0%nat) (VBlock [65; 0]) 2 (i_payload name_a))).
Proof. vm_compute. reflexivity. Qed.

Lemma name_a_ok : @op_ok lookup_client _ (Enter name_a).
Proof.
  split_and!; [|split; [reflexivity|vm_compute; split; reflexivity]|right; reflexivity].
  exists [65; 0]. split_and!; [reflexivity|reflexivity|vm_compute; reflexivity].
Qed.

Lemma lookups3_created : exists c, lookups3 = Some c.
Proof. eexists. reflexivity. Qed.

(** The cache with the first name in it. *)
Lemma one_name : exists c x, lru 3 c [x] /\ @sim lookup_client 3 c [x].*2 /\ x.2 = name_a.
Proof.
  destruct lookups3_created as [c0 Hc]. destruct (@create_sim lookup_client _ false true 3 c0 ltac:(lia) ltac:(cbn; lia) Hc) as (S & _ & _).
  destruct (post_run _ _ _ (@ops_agree lookup_client lookup_client_laws _ 3 [Enter name_a] c0 [] S ltac:(lia)
    (Forall_cons_2 _ _ _ name_a_ok (Forall_nil_2 _)))) as (outs & s' & _ & H).
  assert (exists o r, @spec_ops lookup_client 3 (dofree c0) [Enter name_a] [] = (o, [name_a], r)) as (o & r & E) by (eexists _, _; reflexivity).
  rewrite E in H. destruct H as (c & rel & _ & _ & S' & _). destruct (sm_slots _ _ _ S') as (l & L & El).
  destruct l as [|x [|y l]]; [discriminate El| |discriminate El]. exists c, x. rewrite El. split; [exact L|]. split; [exact S'|]. by injection El.
Qed.

Lemma enter_failure_cycle_witness : exists c x, x.2 = name_a /\
  post (enter_entry lookup_cache_compare name_long) c (fun r c1 => r = None /\
    post (fetch_entry lookup_cache_compare name_a) c1 (fun _ c2 =>
      forall k, Nat.iter k (follow_next c2) (most_recent_entry c2) = Some x.1)).
Proof.
  destruct one_name as (c & x & L & S & E). exists c, x. split; [exact E|].
  eapply post_mono; [apply (@enter_failure_cycle lookup_client lookup_client_laws _ 3 c x [] name_long L S)|].
  - cbn. lia.
  - exists [66; 66; 66; 66; 66; 66; 66; 0]. split_and!; [reflexivity|reflexivity|vm_compute; reflexivity].
  - cbn [fmap list_fmap]. rewrite E. vm_compute. reflexivity.
  - discriminate.
  - reflexivity.
  - intros r c1 [Hr Hp]. split; [exact Hr|]. rewrite E in Hp. eapply post_mono; [exact Hp|].
    intros r2 c2 (_ & Hk & _). exact Hk.
Defined.
